(* ===== verification/_CoqProject ===== *)
-Q . S2P
Prelude.v
Packed.v
Crc32.v
Order.v
Splay.v
RedBlack.v
Keyed.v
Addr.v
StoreTypes.v
Store.v
StoreProps.v
StoreSwab.v
StoreFile.v
Filter.v
Peer.v
Netflow.v
Flowd.v
FlowdProps.v
Nf9Spec.v
Nf9Records.v
Nf9Props.v
FlowdLoop.v
SoftTypes.v
SendFixed.v
Send1.v
Send5.v
Export.v
Ipflow.v
FlowTrack.v
FlowTable.v
FlowTrackProps.v
Expire.v
ExpireProps.v
Lifetime.v
TableExport.v
FlowTrees.v
Send9.v
Send9Props.v
CString.v
Sampling.v
SamplingProps.v
Control.v
Emulator.v
EmulatorProps.v
EmulatorRun.v
StrL.v
Convtime.v
Client.v
PrivTypes.v
Privsep.v
PrivsepProps.v
PrivsepMaster.v
PrivsepReconf.v
StoreV2.v
StoreV2Props.v
Reader.v
Estimation.v
EstimationProps.v
EstimationSafe.v
EstimationHeap.v
EstimationRounds.v
Routing.v
RouterSampling.v
Forwarding.v
RoutingProps.v
RoutingHops.v
RoutingExplore.v
RoutingSearch.v
RoutingGraph.v
Delivery.v
ForwardingProps.v
PacketMessage.v
RouterSamplingProps.v
Manager.v
ManagerProps.v
Trace.v
Dispatch.v
DispatchProps.v
Schedule.v
ScheduleProps.v
