(* ===== verification/Prelude.v ===== *)
(** * Network Monitoring Emulation Framework: verification library

    The framework measures emulated networks.  The emulator NSP (src/NSP) plays a
    trace of packets through a network of routers; the routers that are monitored
    report what they sample to softflowd (src/softflowd) as text messages.
    softflowd tracks the flows of those packets, or of packets it captures itself,
    samples by monitor, and exports expired flows as NetFlow 1, 5 or 9.  flowd
    (src/flowd) collects NetFlow packets, decodes and filters their flows, appends
    them to a binary log, which flowd-reader reads, and estimates the traffic from
    what the monitors saw; its client changes sampling rates and asks for paths.
    This library models these programs from their C and C++ source and proves what
    makes them correct.

    ** How the source is modelled

    An integer is a [Z] with its wrap-around written out (wrap8 … wrap64,
    swrap32); memory is a list of bytes ([rd], [wr], out of bounds being an
    outcome); the host is little-endian, as the constants of Linux are taken
    (AF_INET = 2, AF_INET6 = 10).  A function returns an [outcome]: a value,
    undefined behaviour with its reason, the end of the process, or divergence,
    which stands for a loop that ran out of fuel or a wait that nothing ends.
    Theorems that a function returns exclude all but the first.  Packed structs
    are records with an instance of the class [Packed], which gives encoding,
    decoding and their round trips.  Objects with identity (peers, flows, expiry
    events, routers, links) live in heaps, finite maps from locations; a std::map
    is a finite map, a std::string its text or its bytes.  An exception that a
    function catches and that leaves it without a value is an outcome of its own
    ([MissingReturn]).  System calls and the functions of the C library are
    parameters (localtime, inet_pton, inet_ntoa, rand, malloc) or traces of what
    the calls return (read, write, recvfrom, send).

    ** The files

    - Prelude: outcomes, machine integers, memory, byte order, lists, tactics.
    - Packed, Crc32 (flowd/crc32.c): packed structs; the checksum.
    - Order, Keyed, Splay, RedBlack (sys-tree.h): the interface [CmpKey] between
      comparison functions and keys; sequences sorted by a key; the splay and
      red-black operations with their refinement to the ordered sequence of nodes.
      FLOW_FIND, FLOW_INSERT and so on of the client files are the operations on
      that sequence.
    - Addr (flowd/addr.c): addresses, masks, comparison, prefixes.
    - StoreTypes, Store, StoreProps, StoreSwab, StoreFile (flowd/store.h, store.c,
      atomicio.c, flowd-reader.c): the log format, its writer and readers.
      StoreV2, StoreV2Props, Reader (store-v2.h, store-v2.c, flowd-reader.c): the
      legacy format and its conversion.
    - Filter (flowd/filter.c), Peer (flowd/peer.c), Netflow (flowd/netflow.h).
    - Flowd, FlowdProps, Nf9Spec, Nf9Records, Nf9Props, FlowdLoop (flowd/flowd.c):
      the queues, the path of a flow to the log, the parsers of NetFlow 1, 5, 7 and
      9, reception.  Nf9Spec says what a packet of version 9 means, apart from the
      parser.
    - PrivTypes, Privsep, PrivsepProps, PrivsepMaster, PrivsepReconf (flowd.h,
      privsep.c, privsep_fdpass.c): the monitor process, the descriptors and the
      configuration that go over its socket, and the reconfiguration.
    - Estimation, EstimationProps, EstimationSafe, EstimationHeap,
      EstimationRounds (flowd/GlobalEstimation.c, GlobalEstimation.h): the flow
      lists of the estimation, the estimates of a list of flows, the heap of their
      nodes, and the rounds of its thread with flows arriving at any moment.  Doubles
      are those of the standard library's specification of floating-point numbers.
    - SoftTypes, Ipflow, FlowTrack, FlowTable, FlowTrackProps, Expire, ExpireProps,
      Lifetime (softflowd/softflowd.c, softflowd.h): from packets to flows, the
      flow table (two trees over two heaps, abstracted by the finite map [table]),
      timeouts, expiry, and runs of the program.
    - SendFixed, Send1, Send5, Send9, Send9Props (softflowd/netflow1.c, netflow5.c,
      netflow9.c): the senders; 1 and 5 over the interface [FixedFormat].
    - Export, TableExport: the composition of softflowd with flowd.  FlowTrees: the
      trees of sys-tree.h under the flow table.
    - CString, StrL, Convtime (strlcpy.c, strlcat.c, convtime.c): C strings, the
      bounded string functions, time spans.
    - Sampling, SamplingProps, Control, Emulator, EmulatorProps, EmulatorRun
      (softflowd/SamplingModule.c, ControlServer.c, EmulatorInterface.c): the
      emulator side of softflowd.  Client (flowd/ClientController.c): the client.
    - Routing, RoutingProps, RoutingHops, RoutingExplore, RoutingSearch,
      RoutingGraph (NSP/Link.cpp, Node.cpp, Router.cpp, TransitNetwork.cpp): the
      network, the walk through it, Dijkstra and the next routers.
      RouterSampling, RouterSamplingProps (Router.cpp, SoftflowdInterface.cpp):
      sampling at the routers.  Forwarding, Delivery, ForwardingProps
      (TransitNetwork.cpp): the way of a packet, paths, and the forwarding of
      packets with their monitors.
    - PacketMessage (SoftflowdInterface.cpp): the messages to softflowd, their
      buffer and thread.  Manager, ManagerProps (SamplingManager.cpp): the control
      server of the emulator.
    - Trace (TraficLoader.cpp): packets of the trace.  Dispatch, DispatchProps
      (As.cpp, As.h, SamplingPlatform.cpp, TimeStamp.cpp): their systems, lists and
      times.  Schedule, ScheduleProps (SamplingPlatform.cpp, TraficLoader.cpp): the
      loader and the sender as a step relation.

    The definitions carry the names of the functions.  A part of a long function
    has a name of its own (filter_loop, decide_block, count_monitor, take_due).

    ** What the theorems show

    - The way of a flow: packets of one conversation make one flow
      (FlowTrackProps.flows_bidirectional); process_packet and check_expired keep the flow
      table consistent and act on it as on a map (FlowTrackProps, ExpireProps);
      idle flows expire in every run (Lifetime); what expires is exported and
      logged by the collector (TableExport.expired_flows_logged, on
      Export.nf5_export_import); what is logged is read back (StoreFile.log_roundtrip,
      on StoreProps.store_serialise_deserialise), also from the legacy format
      (Reader.legacy_log_converted).
    - The way of a packet through the emulator: what a frame says
      (Trace.trace_packet_read), which systems it gets (DispatchProps), when it is
      sent (ScheduleProps.trace_sent_in_order), the routers it passes
      (ForwardingProps.packets_delivered, on the shortest walks of RoutingProps and
      RoutingGraph), the messages it becomes and how softflowd counts them
      (PacketMessage.packet_counted_once).
    - Control: requests for rates and paths from the client through the server to
      the routers and back (ManagerProps), rates at softflowd (Control), the number
      of packets that the sampling takes and its interleaving with changes of the
      rate (SamplingProps, RouterSamplingProps).
    - The collector: each parser on every input (FlowdProps, and Nf9Props for
      packets that it gets through), dispatch in order with the templates announced
      so far and the types of what is logged (FlowdLoop), the peer table and template
      cache under their bounds with eviction of the oldest (Peer), the filter's
      verdict (Filter).  The monitor process stays in its buffers and ends whatever
      it is sent (PrivsepMaster), both processes agree after a reconfiguration
      (PrivsepReconf).
    - The estimation: the reports of a pair of networks are taken flow by flow, and
      each flow adds the size that its reports and their rates give, but for a last
      flow with a single report (EstimationProps), and a round uses no node after it
      was freed, with flows arriving at any moment (EstimationRounds).
    - The senders: which packets leave, with all flows and no other
      (Send5), and their bytes (Send9Props).
    - Base layers: the checksum equals the bitwise CRC and detects short bursts,
      splay and red-black trees refine sorted sequences, prefixes match.
    - Errors: corrupted logs, short buffers, failing system calls and allocations,
      malformed packets; and the inputs on which the code leaves defined
      behaviour or never ends, each as a theorem (among them
      ForwardingProps.packet_circulates and ScheduleProps.emulation_never_ends).

    ** Bounds and fuel

    Loops over a list or a counter are structural.  The others take fuel: the
    flowset loop of NetFlow 9 (the length of the packet is enough when no flowset
    is empty, Nf9Props.process_netflow_v9_spec), the expiry loop of main (two turns,
    ExpireProps.expiry_check_terminates), the loop over the packets of
    send_netflow_v9 (the number of flows, Send9Props.send_netflow_v9_spec), the
    splay loop (the size of the tree), the walk of ExploreNodeGraph (more than the
    number of routers), GetNextRouterToward (more than the number of routers on the
    way back), the loops of ForwardPacketE, of paths and of their display (more than
    the length of the route), the drawing of a new random number (the patience that
    a hypothesis on rand gives).  The theorems state the fuel that is enough.  The
    threads of Schedule, Sampling and EstimationRounds are step relations or
    sequences of events and need none.

    ** Not modelled

    - Start-up, options, signal handlers, daemonising, set-proctitle and logging:
      system calls and printing (the main functions but for the loops named above,
      daemon.c, closefrom.c, setproctitle.c, log.c, softflowctl.c).
    - Floating-point statistics (STATISTIC in softflowd.c) and the formatting of
      flows and statistics; the control commands of softflowd.  Remplir.c and
      StoredFlows.c, older versions of the estimation that nothing links.
    - parse.y and the parser that yacc generates from it; flowd_python.c; tinyxml.
    - Of the emulator: the reading of topologies from XML, traces in ASCII, the
      older ForwardPacket, the pauses between packets, displays.
    - Threads: a call runs alone, but for the sampling decisions of softflowd with
      its control server (Sampling.race_step), the rounds of the estimation with
      arriving flows (EstimationRounds) and the loader with the sender of the
      emulator (Schedule.step). *)

From Stdlib Require Export ZArith Lia.
From stdpp Require Export prelude list.
#[export] Set Default Goal Selector "!".
Open Scope Z_scope.

(** ** Outcomes of C code *)

(** Ways in which the C code leaves defined behaviour. *)
Inductive ub :=
  | OutOfBounds        (* read or write outside the object *)
  | DivByZero          (* integer division by zero *)
  | NullDeref          (* dereference of a null pointer *)
  | Uninit             (* use of an uninitialised automatic variable *)
  | MissingReturn      (* value of a function that fell off its end *)
  | SignedOverflow     (* a signed result outside its type *)
  | UseAfterFree       (* access to an object that is not allocated (any more) *)
  | BadConversion.     (* a floating-point value outside the integer type it is converted to *)

(** [Ret] is a normal return, [Undef] undefined behaviour, [Fatal] a call of a
    function that terminates the process (logerrx, exit) and [Diverges] the
    exhaustion of the fuel of a loop. *)
Inductive outcome (A : Type) :=
  | Ret (a : A)
  | Undef (u : ub)
  | Fatal
  | Diverges.
Arguments Ret {A} a.
Arguments Undef {A} u.
Arguments Fatal {A}.
Arguments Diverges {A}.

Definition obind {A B} (m : outcome A) (k : A -> outcome B) : outcome B :=
  match m with
  | Ret a => k a
  | Undef u => Undef u
  | Fatal => Fatal
  | Diverges => Diverges
  end.

Declare Scope c_scope.
Delimit Scope c_scope with c.
Notation "'let!' x := m 'in' k" := (obind m (fun x => k))
  (at level 10, x pattern, m at level 100, k at level 200) : c_scope.
Open Scope c_scope.

Lemma obind_Ret_inv {A B} (m : outcome A) (k : A -> outcome B) b :
  obind m k = Ret b -> exists a, m = Ret a /\ k a = Ret b.
Proof. destruct m; simpl; intros; [eauto|discriminate..]. Qed.

Lemma Ret_inj {A} (a b : A) : Ret a = Ret b -> a = b.
Proof. by intros [= ->]. Qed.

Lemma obind_assoc {A B C} (m : outcome A) (f : A -> outcome B) (g : B -> outcome C) :
  obind (obind m f) g = obind m (fun x => obind (f x) g).
Proof. by destruct m. Qed.

(** A loop whose body may stop the program. *)
Fixpoint ofold {A S} (f : S -> A -> outcome S) (s : S) (l : list A) : outcome S :=
  match l with
  | [] => Ret s
  | a :: l => let! s := f s a in ofold f s l
  end.

(** A property of the state that each turn keeps. *)
Lemma ofold_inv {A S} (P : S -> Prop) (f : S -> A -> outcome S) l :
  (forall s a, P s -> a ∈ l -> exists s', f s a = Ret s' /\ P s') ->
  forall s, P s -> exists s', ofold f s l = Ret s' /\ P s'.
Proof.
  induction l as [|a l IH]; intros Hf s Hs; simpl; [by exists s|].
  destruct (Hf s a Hs) as (s' & -> & Hs'); [by left|]. simpl. apply IH; [|done].
  intros s2 b H2 Hb. apply Hf; [done|by right].
Qed.

Lemma ofold_app {A S} (f : S -> A -> outcome S) l1 l2 s :
  ofold f s (l1 ++ l2) = let! s := ofold f s l1 in ofold f s l2.
Proof. revert s; induction l1 as [|a l1 IH]; intros s; [done|]. cbn. destruct (f s a); cbn; [apply IH|done..]. Qed.

(** ** Memory safety of a call

    [safe o P]: the call ends and touches no object that has been freed; if it returns
    normally, then with a result in [P]. *)

Definition safe {A} (o : outcome A) (P : A -> Prop) : Prop :=
  match o with
  | Ret a => P a
  | Undef u => u <> UseAfterFree
  | Fatal => True
  | Diverges => False
  end.

Lemma safe_bind {A B} (m : outcome A) (k : A -> outcome B) P Q :
  safe m P -> (forall a, P a -> safe (k a) Q) -> safe (obind m k) Q.
Proof. destruct m; cbn; auto. Qed.

Lemma safe_mono {A} (m : outcome A) (P Q : A -> Prop) : safe m P -> (forall a, P a -> Q a) -> safe m Q.
Proof. destruct m; cbn; auto. Qed.

Lemma safe_ofold {A S} (P : S -> Prop) (f : S -> A -> outcome S) l :
  (forall s a, a ∈ l -> P s -> safe (f s a) P) -> forall s, P s -> safe (ofold f s l) P.
Proof.
  induction l as [|a l IH]; intros Hf s Hs; [done|]. cbn [ofold].
  apply (safe_bind _ _ P); [apply Hf; [by left|done]|]. apply IH. intros s' b Hb. apply Hf. by right.
Qed.

(** A call of which only this matters. *)
Abbreviation harmless o := (safe o (fun _ => True)).

Create HintDb harmless.

(** The calls of a body one after the other, by the lemmas of the database. *)
Ltac harmless :=
  repeat first
    [ done
    | solve [eauto with harmless]
    | apply (safe_bind _ _ (fun _ => True)); [|intros ? _]
    | match goal with
      | |- safe (match ?x with _ => _ end) _ => destruct x
      | |- safe (if ?b then _ else _) _ => destruct b
      | |- safe (let '_ := ?x in _) _ => destruct x
      end ].

(** ** Machine integers *)

(** An unsigned [w]-bit value is a [Z] in range; arithmetic wraps explicitly. *)
Definition u8 (v : Z) : Prop := 0 <= v < 256.
Definition u16 (v : Z) : Prop := 0 <= v < 65536.
Definition u32 (v : Z) : Prop := 0 <= v < 4294967296.
Definition u64 (v : Z) : Prop := 0 <= v < 18446744073709551616.
Definition s32 (v : Z) : Prop := -2147483648 <= v < 2147483648.

Definition wrap8 (v : Z) : Z := v mod 256.
Definition wrap16 (v : Z) : Z := v mod 65536.
Definition wrap32 (v : Z) : Z := v mod 4294967296.
Definition wrap64 (v : Z) : Z := v mod 18446744073709551616.
(** Conversion to [int]: two's complement. *)
Definition swrap32 (v : Z) : Z := (v + 2147483648) mod 4294967296 - 2147483648.

(** C truth values. *)
Definition b2z (b : bool) : Z := if b then 1 else 0.

#[export] Instance u8_dec v : Decision (u8 v).
Proof. unfold u8; apply _. Defined.
#[export] Instance u16_dec v : Decision (u16 v).
Proof. unfold u16; apply _. Defined.
#[export] Instance u32_dec v : Decision (u32 v).
Proof. unfold u32; apply _. Defined.
#[export] Instance u64_dec v : Decision (u64 v).
Proof. unfold u64; apply _. Defined.

Ltac width := unfold u8, u16, u32, u64, s32, wrap8, wrap16, wrap32, wrap64, swrap32 in *.

Lemma wrap8_u8 v : u8 (wrap8 v).
Proof. width. apply Z.mod_pos_bound. lia. Qed.
Lemma wrap16_u16 v : u16 (wrap16 v).
Proof. width. apply Z.mod_pos_bound. lia. Qed.
Lemma wrap32_u32 v : u32 (wrap32 v).
Proof. width. apply Z.mod_pos_bound. lia. Qed.
Lemma wrap64_u64 v : u64 (wrap64 v).
Proof. width. apply Z.mod_pos_bound. lia. Qed.
Lemma wrap8_small v : u8 v -> wrap8 v = v.
Proof. width. apply Z.mod_small. Qed.
Lemma wrap16_small v : u16 v -> wrap16 v = v.
Proof. width. apply Z.mod_small. Qed.
Lemma wrap32_small v : u32 v -> wrap32 v = v.
Proof. width. apply Z.mod_small. Qed.
Lemma wrap64_small v : u64 v -> wrap64 v = v.
Proof. width. apply Z.mod_small. Qed.
Lemma u8_u16 v : u8 v -> u16 v.
Proof. width. lia. Qed.
Lemma u16_u32 v : u16 v -> u32 v.
Proof. width. lia. Qed.
Lemma u32_u64 v : u32 v -> u64 v.
Proof. width. lia. Qed.

Create HintDb width discriminated.
#[export] Hint Resolve wrap8_u8 wrap16_u16 wrap32_u32 wrap64_u64
  u8_u16 u16_u32 u32_u64 : width.

(** Bit operations keep values in range. *)
Lemma testbit_above n v i : 0 <= n -> 0 <= v < 2 ^ n -> n <= i -> Z.testbit v i = false.
Proof.
  intros Hn Hv Hi. rewrite <- (Z.mod_small v (2 ^ n)) by done.
  apply Z.mod_pow2_bits_high. lia.
Qed.

Lemma bits_range n v :
  0 <= n -> (forall i, n <= i -> Z.testbit v i = false) -> 0 <= v < 2 ^ n.
Proof.
  intros Hn H. assert (v = v mod 2 ^ n) as ->.
  { apply Z.bits_inj'. intros i Hi. destruct (decide (i < n)).
    - by rewrite Z.mod_pow2_bits_low.
    - rewrite Z.mod_pow2_bits_high by lia. apply H. lia. }
  apply Z.mod_pos_bound, Z.pow_pos_nonneg; lia.
Qed.

Lemma land_range n a b : 0 <= n -> 0 <= a < 2 ^ n -> 0 <= Z.land a b < 2 ^ n.
Proof.
  intros Hn Ha. apply bits_range; [done|]. intros i Hi.
  by rewrite Z.land_spec, (testbit_above n).
Qed.
Lemma lor_range n a b : 0 <= n -> 0 <= a < 2 ^ n -> 0 <= b < 2 ^ n -> 0 <= Z.lor a b < 2 ^ n.
Proof.
  intros Hn Ha Hb. apply bits_range; [done|]. intros i Hi.
  by rewrite Z.lor_spec, (testbit_above n a), (testbit_above n b).
Qed.
Lemma lxor_range n a b : 0 <= n -> 0 <= a < 2 ^ n -> 0 <= b < 2 ^ n -> 0 <= Z.lxor a b < 2 ^ n.
Proof.
  intros Hn Ha Hb. apply bits_range; [done|]. intros i Hi.
  by rewrite Z.lxor_spec, (testbit_above n a), (testbit_above n b).
Qed.
Lemma shiftr_range n a k : 0 <= n -> 0 <= k -> 0 <= a < 2 ^ n -> 0 <= Z.shiftr a k < 2 ^ n.
Proof.
  intros Hn Hk Ha. apply bits_range; [done|]. intros i Hi.
  rewrite Z.shiftr_spec by lia. apply (testbit_above n); lia.
Qed.

Lemma u32_land a b : u32 a -> u32 (Z.land a b).
Proof. apply (land_range 32). lia. Qed.
Lemma u32_lor a b : u32 a -> u32 b -> u32 (Z.lor a b).
Proof. apply (lor_range 32). lia. Qed.
Lemma u32_lxor a b : u32 a -> u32 b -> u32 (Z.lxor a b).
Proof. apply (lxor_range 32). lia. Qed.
Lemma u32_shiftr a k : 0 <= k -> u32 a -> u32 (Z.shiftr a k).
Proof. intros. by apply (shiftr_range 32). Qed.
Lemma u8_land a b : u8 a -> u8 (Z.land a b).
Proof. apply (land_range 8). lia. Qed.
Lemma u8_lor a b : u8 a -> u8 b -> u8 (Z.lor a b).
Proof. apply (lor_range 8). lia. Qed.
Lemma u8_lxor a b : u8 a -> u8 b -> u8 (Z.lxor a b).
Proof. apply (lxor_range 8). lia. Qed.
#[export] Hint Resolve u32_land u32_lor u32_lxor u32_shiftr u8_land u8_lor u8_lxor : width.

(** [~v] at 32 bits. *)
Definition lnot32 (v : Z) : Z := Z.lxor v 4294967295.
Lemma lnot32_u32 v : u32 v -> u32 (lnot32 v).
Proof. intros. apply u32_lxor; [done|]. width. lia. Qed.
Lemma lnot32_involutive v : lnot32 (lnot32 v) = v.
Proof. unfold lnot32. by rewrite Z.lxor_assoc, Z.lxor_nilpotent, Z.lxor_0_r. Qed.
Lemma ones32_testbit i : 0 <= i < 32 -> Z.testbit 4294967295 i = true.
Proof. intros. apply (Z.ones_spec_low 32). lia. Qed.
Lemma lnot32_testbit v i : 0 <= i < 32 -> Z.testbit (lnot32 v) i = negb (Z.testbit v i).
Proof.
  intros. unfold lnot32. rewrite Z.lxor_spec, ones32_testbit by done. by destruct (Z.testbit v i).
Qed.

Lemma u32_bits_inj a b :
  u32 a -> u32 b -> (forall i, 0 <= i < 32 -> Z.testbit a i = Z.testbit b i) -> a = b.
Proof.
  intros Ha Hb H. apply Z.bits_inj'. intros i Hi. destruct (decide (i < 32)).
  - apply H. lia.
  - by rewrite !(testbit_above 32) by (done || lia).
Qed.

(** ** Bytes and integers in memory

    The program is built for a little-endian host (WORDS_BIGENDIAN is undefined
    in flowd-config.h): the integer [v] of [n] bytes lies in memory as
    [le_bytes n v]. *)
Abbreviation bytes := (list Z) (only parsing).

Fixpoint le_bytes (n : nat) (v : Z) : bytes :=
  match n with
  | O => []
  | S n => v mod 256 :: le_bytes n (v / 256)
  end.

Fixpoint le_val (l : bytes) : Z :=
  match l with
  | [] => 0
  | b :: l => b + 256 * le_val l
  end.

Lemma length_le_bytes n v : length (le_bytes n v) = n.
Proof. revert v; induction n; intros; simpl; by rewrite ?IHn. Qed.

Lemma le_bytes_u8 n v : Forall u8 (le_bytes n v).
Proof.
  revert v; induction n; intros; simpl; constructor; [|done].
  apply Z.mod_pos_bound. lia.
Qed.

Lemma pow256_S n : 256 ^ Z.of_nat (S n) = 256 * 256 ^ Z.of_nat n.
Proof. rewrite Nat2Z.inj_succ, Z.pow_succ_r by lia. done. Qed.

Lemma pow256_pos n : 0 < 256 ^ Z.of_nat n.
Proof. apply Z.pow_pos_nonneg; lia. Qed.

Lemma le_val_le_bytes_mod n v : le_val (le_bytes n v) = v mod 256 ^ Z.of_nat n.
Proof.
  revert v; induction n; intros; simpl le_val.
  { by rewrite Z.mod_1_r. }
  rewrite IHn, pow256_S.
  rewrite (Z.rem_mul_r v 256 (256 ^ Z.of_nat n)); [lia|lia|]. apply pow256_pos.
Qed.

Lemma le_val_le_bytes n v : 0 <= v < 256 ^ Z.of_nat n -> le_val (le_bytes n v) = v.
Proof. intros. rewrite le_val_le_bytes_mod. by apply Z.mod_small. Qed.

Lemma le_val_bound l : Forall u8 l -> 0 <= le_val l < 256 ^ Z.of_nat (length l).
Proof.
  induction 1; simpl le_val; simpl length; [done|].
  rewrite pow256_S. unfold u8 in *. nia.
Qed.

Lemma le_bytes_le_val l n : Forall u8 l -> length l = n -> le_bytes n (le_val l) = l.
Proof.
  intros Hl <-. induction Hl as [|b l Hb Hl IH]; simpl; [done|]. unfold u8 in Hb.
  replace (b + 256 * le_val l) with (le_val l * 256 + b) by lia.
  rewrite Z.div_add_l, Z.div_small, Z.add_0_r by lia.
  by rewrite Z.add_comm, Z.mod_add, Z.mod_small, IH by lia.
Qed.

Lemma le_val_inj l1 l2 :
  Forall u8 l1 -> Forall u8 l2 -> length l1 = length l2 -> le_val l1 = le_val l2 -> l1 = l2.
Proof.
  intros H1 H2 Hl He. transitivity (le_bytes (length l2) (le_val l1)).
  - by rewrite le_bytes_le_val.
  - by rewrite He, le_bytes_le_val.
Qed.

(** Byte order conversion of an [n]-byte integer. *)
Definition bswap (n : nat) (v : Z) : Z := le_val (rev (le_bytes n v)).

Lemma Forall_rev_u8 l : Forall u8 l -> Forall u8 (rev l).
Proof. intros. rewrite rev_alt. by apply Forall_reverse. Qed.

Lemma bswap_bound n v : 0 <= bswap n v < 256 ^ Z.of_nat n.
Proof.
  unfold bswap. pose proof (le_val_bound (rev (le_bytes n v))) as H.
  rewrite length_rev, length_le_bytes in H. apply H, Forall_rev_u8, le_bytes_u8.
Qed.

Lemma le_bytes_bswap n v : le_bytes n (bswap n v) = rev (le_bytes n v).
Proof.
  apply le_bytes_le_val; [apply Forall_rev_u8, le_bytes_u8|].
  by rewrite length_rev, length_le_bytes.
Qed.

Lemma bswap_involutive n v : 0 <= v < 256 ^ Z.of_nat n -> bswap n (bswap n v) = v.
Proof.
  intros. unfold bswap at 1. rewrite le_bytes_bswap, rev_involutive. by apply le_val_le_bytes.
Qed.

(** The libc byte order functions on a little-endian host. *)
Definition ntohs (v : Z) : Z := bswap 2 v.
Definition htons (v : Z) : Z := bswap 2 v.
Definition ntohl (v : Z) : Z := bswap 4 v.
Definition htonl (v : Z) : Z := bswap 4 v.

Lemma ntohs_u16 v : u16 (ntohs v).
Proof. apply (bswap_bound 2). Qed.
Lemma htons_u16 v : u16 (htons v).
Proof. apply (bswap_bound 2). Qed.
Lemma ntohl_u32 v : u32 (ntohl v).
Proof. apply (bswap_bound 4). Qed.
Lemma htonl_u32 v : u32 (htonl v).
Proof. apply (bswap_bound 4). Qed.
#[export] Hint Resolve ntohs_u16 htons_u16 ntohl_u32 htonl_u32 : width.
Lemma ntohl_htonl v : u32 v -> ntohl (htonl v) = v.
Proof. apply (bswap_involutive 4). Qed.
Lemma htonl_ntohl v : u32 v -> htonl (ntohl v) = v.
Proof. apply (bswap_involutive 4). Qed.
Lemma ntohs_htons v : u16 v -> ntohs (htons v) = v.
Proof. apply (bswap_involutive 2). Qed.
Lemma htons_ntohs v : u16 v -> htons (ntohs v) = v.
Proof. apply (bswap_involutive 2). Qed.
Create Rewrite HintDb width.
#[export] Hint Rewrite ntohl_htonl htonl_ntohl ntohs_htons htons_ntohs
  using (auto with width) : width.

Lemma ntohl_inj a b : u32 a -> u32 b -> ntohl a = ntohl b -> a = b.
Proof. intros Ha Hb H. by rewrite <- (htonl_ntohl a), H, htonl_ntohl. Qed.

(** ** Reads of a buffer *)

(** [mem_read buf off n] is memcpy of [n] bytes from [buf + off], where [buf] is
    the whole object: [None] when the read leaves it. *)
Definition mem_read (buf : bytes) (off n : Z) : option bytes :=
  if decide (0 <= off /\ 0 <= n /\ off + n <= Z.of_nat (length buf))
  then Some (take (Z.to_nat n) (drop (Z.to_nat off) buf))
  else None.

(** The same read with the out-of-bounds case as undefined behaviour. *)
Definition rd (buf : bytes) (off n : Z) : outcome bytes :=
  match mem_read buf off n with
  | Some b => Ret b
  | None => Undef OutOfBounds
  end.
(** Little-endian load of an [n]-byte integer. *)
Definition rd_int (buf : bytes) (off n : Z) : outcome Z :=
  let! b := rd buf off n in Ret (le_val b).

Lemma mem_read_Some buf off n b :
  mem_read buf off n = Some b ->
  0 <= off /\ 0 <= n /\ off + n <= Z.of_nat (length buf) /\
  b = take (Z.to_nat n) (drop (Z.to_nat off) buf) /\ Z.of_nat (length b) = n.
Proof.
  unfold mem_read. case_decide as H; [|done]. intros [= <-].
  rewrite length_take, length_drop. repeat split; try done; lia.
Qed.

Lemma mem_read_in buf off n :
  0 <= off -> 0 <= n -> off + n <= Z.of_nat (length buf) ->
  mem_read buf off n = Some (take (Z.to_nat n) (drop (Z.to_nat off) buf)).
Proof. intros. unfold mem_read. by rewrite decide_True. Qed.

Lemma mem_read_app pre b post off n :
  off = Z.of_nat (length pre) -> n = Z.of_nat (length b) ->
  mem_read (pre ++ b ++ post) off n = Some b.
Proof.
  intros -> ->. rewrite mem_read_in by (rewrite ?length_app; lia).
  by rewrite !Nat2Z.id, drop_app_length, take_app_length.
Qed.

Lemma rd_app pre b post off n :
  off = Z.of_nat (length pre) -> n = Z.of_nat (length b) ->
  rd (pre ++ b ++ post) off n = Ret b.
Proof. intros. unfold rd. by rewrite mem_read_app. Qed.

Lemma rd_head b post n : n = Z.of_nat (length b) -> rd (b ++ post) 0 n = Ret b.
Proof. intros. by apply (rd_app [] b post). Qed.

Lemma mem_read_u8 buf off n b : Forall u8 buf -> mem_read buf off n = Some b -> Forall u8 b.
Proof.
  intros Hb (_ & _ & _ & -> & _)%mem_read_Some. by apply Forall_take, Forall_drop.
Qed.

(** memcpy of [data] to [buf + off]. *)
Definition wr (buf : bytes) (off : Z) (data : bytes) : outcome bytes :=
  if decide (0 <= off /\ off + Z.of_nat (length data) <= Z.of_nat (length buf))
  then Ret (take (Z.to_nat off) buf ++ data ++ drop (Z.to_nat off + length data) buf)
  else Undef OutOfBounds.

Lemma wr_app pre b post off data :
  off = Z.of_nat (length pre) -> length data = length b ->
  wr (pre ++ b ++ post) off data = Ret (pre ++ data ++ post).
Proof.
  intros -> Hl. unfold wr. rewrite decide_True by (rewrite !length_app; lia).
  rewrite Nat2Z.id, take_app_length, Hl.
  do 3 f_equal. by rewrite <- length_app, app_assoc, drop_app_length.
Qed.

Lemma wr_head b post data : length data = length b -> wr (b ++ post) 0 data = Ret (data ++ post).
Proof. intros. by apply (wr_app [] b post). Qed.

(** ** Lists *)

(** A window of a list that leaves a prefix and a suffix alone lies between them. *)
Lemma window_split {A} (h b c pre w post : list A) :
  (h ++ b) ++ c = pre ++ w ++ post ->
  (length h <= length pre)%nat -> (length c <= length post)%nat ->
  exists pre' post', pre = h ++ pre' /\ post = post' ++ c /\ b = pre' ++ w ++ post'.
Proof.
  rewrite <- app_assoc. intros H Hh Hc.
  exists (drop (length h) pre), (take (length post - length c) post).
  assert (h = take (length h) pre) as Eh.
  { apply (f_equal (take (length h))) in H.
    by rewrite take_app_length, take_app_le in H by lia. }
  rewrite <- (take_drop (length h) pre), <- Eh, <- app_assoc in H. apply app_inv_head in H.
  assert (c = drop (length post - length c) post) as Ec.
  { pose proof (f_equal length H) as Hl. rewrite !length_app in Hl.
    apply (f_equal (drop (length b))) in H.
    rewrite drop_app_length, !app_assoc, drop_app_ge in H by (rewrite length_app; lia).
    rewrite H at 1. f_equal. rewrite length_app. lia. }
  split; [rewrite Eh at 1; symmetry; apply take_drop|].
  split; [rewrite Ec at 2; symmetry; apply take_drop|].
  rewrite <- (take_drop (length post - length c) post), <- Ec in H.
  rewrite !app_assoc in H. apply app_inv_tail in H. by rewrite H, app_assoc.
Qed.

Lemma length_concat_fmap {A B} (g : A -> B) (ls : list (list A)) :
  length (concat ((fun l : list A => g <$> l) <$> ls)) = length (concat ls).
Proof.
  induction ls as [|l ls IH]; [done|]. cbn [fmap list_fmap concat].
  by rewrite !length_app, length_fmap, IH.
Qed.

(** Regrouping a list along the grouping of its image. *)
Lemma regroup {A B} (g : A -> B) (bs : list (list B)) : forall (l : list A) rest,
  g <$> l = concat bs ++ rest ->
  exists ls lrest, l = concat ls ++ lrest /\ bs = (fun l : list A => g <$> l) <$> ls /\ rest = g <$> lrest.
Proof.
  induction bs as [|b bs IH]; intros l rest H; [by exists [], l|].
  cbn [concat] in H. rewrite <- app_assoc in H. apply fmap_app_inv in H as (l1 & l2 & -> & H2 & ->).
  destruct (IH l2 rest) as (ls & lrest & -> & -> & ->); [done|].
  exists (l1 :: ls), lrest. by rewrite app_assoc.
Qed.

(** ** Iteration of decidable facts over an integer range *)

(** [range_forallb n P] checks [P] at [0 .. n-1]; with [vm_compute] it proves
    facts about the finitely many values of a byte or of a prefix length. *)
Definition range_forallb (n : nat) (P : Z -> bool) : bool :=
  forallb (fun k => P (Z.of_nat k)) (seq 0 n).

Lemma range_forallb_spec n P :
  range_forallb n P = true -> forall i, 0 <= i < Z.of_nat n -> P i = true.
Proof.
  unfold range_forallb. rewrite forallb_forall. intros H i Hi.
  rewrite <- (Z2Nat.id i) by lia. apply H, in_seq. lia.
Qed.
