(* ===== verification/Packed.v ===== *)
(** * Packed C structs

    A struct declared [__packed] is its members in order, each a little-endian
    integer of its width.  An instance of [Packed] gives the member widths of a
    record and its conversion to and from the list of member values; encoding
    and decoding of every such struct, and their round trips, follow. *)

From S2P Require Import Prelude.

Class Packed (A : Type) := {
  widths : list nat;
  to_ints : A -> list Z;
  of_ints : list Z -> A;
}.

(** Conversions of members are mutually inverse, on lists of the right length. *)
Class PackedLaws (A : Type) `{Packed A} := {
  of_to_ints (a : A) : of_ints (to_ints a) = a;
  to_of_ints (l : list Z) : length l = length widths -> to_ints (of_ints l : A) = l;
}.

Arguments widths A {_}.

(** ** Integer sequences *)

Fixpoint enc_ints (ws : list nat) (vs : list Z) : bytes :=
  match ws, vs with
  | w :: ws, v :: vs => le_bytes w v ++ enc_ints ws vs
  | _, _ => []
  end.

Fixpoint dec_ints (ws : list nat) (b : bytes) : list Z :=
  match ws with
  | [] => []
  | w :: ws => le_val (take w b) :: dec_ints ws (drop w b)
  end.

Definition fits (w : nat) (v : Z) : Prop := 0 <= v < 256 ^ Z.of_nat w.

#[export] Instance fits_dec w v : Decision (fits w v).
Proof. unfold fits. apply _. Defined.

Lemma length_enc_ints ws vs :
  length ws = length vs -> length (enc_ints ws vs) = sum_list ws.
Proof.
  revert vs; induction ws as [|w ws IH]; intros [|v vs]; simpl; try done.
  intros [= Hl]. rewrite length_app, length_le_bytes, IH by done. done.
Qed.

Lemma enc_ints_u8 ws vs : Forall u8 (enc_ints ws vs).
Proof.
  revert vs; induction ws as [|w ws IH]; intros [|v vs]; simpl; try constructor.
  apply Forall_app; split; [apply le_bytes_u8|apply IH].
Qed.

Lemma length_dec_ints ws b : length (dec_ints ws b) = length ws.
Proof. revert b; induction ws; intros; simpl; by rewrite ?IHws. Qed.

Lemma dec_enc_ints ws vs rest :
  Forall2 fits ws vs -> dec_ints ws (enc_ints ws vs ++ rest) = vs.
Proof.
  induction 1 as [|w v ws vs Hv Hvs IH]; simpl; [done|].
  rewrite <- app_assoc.
  assert (take w (le_bytes w v ++ enc_ints ws vs ++ rest) = le_bytes w v) as ->.
  { apply take_app_length'. by rewrite length_le_bytes. }
  assert (drop w (le_bytes w v ++ enc_ints ws vs ++ rest) = enc_ints ws vs ++ rest) as ->.
  { apply drop_app_length'. by rewrite length_le_bytes. }
  by rewrite IH, le_val_le_bytes.
Qed.

Lemma enc_dec_ints ws b :
  Forall u8 b -> length b = sum_list ws -> enc_ints ws (dec_ints ws b) = b.
Proof.
  revert b; induction ws as [|w ws IH]; intros b Hb Hl; simpl in *.
  { by destruct b. }
  rewrite le_bytes_le_val by (by apply Forall_take || (rewrite length_take; lia)).
  rewrite IH by (by apply Forall_drop || (rewrite length_drop; lia)).
  apply take_drop.
Qed.

Lemma dec_ints_fits ws b :
  Forall u8 b -> (sum_list ws <= length b)%nat -> Forall2 fits ws (dec_ints ws b).
Proof.
  revert b; induction ws as [|w ws IH]; intros b Hb Hl; simpl in *; constructor.
  - pose proof (le_val_bound (take w b)) as H. rewrite length_take_le in H by lia.
    apply H. by apply Forall_take.
  - apply IH; [by apply Forall_drop|rewrite length_drop; lia].
Qed.

(** ** Structs *)

Section packed.
Context {A : Type} `{PackedLaws A}.

Definition sizeof : Z := Z.of_nat (sum_list (widths A)).
Definition encode (a : A) : bytes := enc_ints (widths A) (to_ints a).
Definition decode (b : bytes) : A := of_ints (dec_ints (widths A) b).
(** Every member of the record is in the range of its C type. *)
Definition valid (a : A) : Prop := Forall2 fits (widths A) (to_ints a).

#[export] Instance valid_dec a : Decision (valid a).
Proof. unfold valid. apply _. Defined.

Lemma length_encode a : valid a -> Z.of_nat (length (encode a)) = sizeof.
Proof.
  intros Ha. unfold encode, sizeof. rewrite length_enc_ints; [done|].
  by apply Forall2_length in Ha.
Qed.

Lemma encode_u8 a : Forall u8 (encode a).
Proof. apply enc_ints_u8. Qed.

Lemma decode_encode a rest : valid a -> decode (encode a ++ rest) = a.
Proof. intros Ha. unfold decode, encode. rewrite dec_enc_ints by done. apply of_to_ints. Qed.

Lemma decode_encode' a : valid a -> decode (encode a) = a.
Proof. intros Ha. rewrite <- (app_nil_r (encode a)). by apply decode_encode. Qed.

Lemma encode_decode b : Forall u8 b -> Z.of_nat (length b) = sizeof -> encode (decode b) = b.
Proof.
  intros Hb Hl. unfold encode, decode, sizeof in *.
  rewrite to_of_ints by apply length_dec_ints. apply enc_dec_ints; [done|lia].
Qed.

Lemma decode_valid b : Forall u8 b -> sizeof <= Z.of_nat (length b) -> valid (decode b).
Proof.
  intros Hb Hl. unfold valid, decode, sizeof in *.
  rewrite to_of_ints by apply length_dec_ints. apply dec_ints_fits; [done|lia].
Qed.
End packed.

Arguments sizeof A {_}.

(** Discharges the laws of a record with [n] members. *)
Ltac packed_laws :=
  constructor; [by intros []|];
  let l := fresh "l" in let Hl := fresh "Hl" in
  intros l Hl; simpl in Hl;
  repeat (destruct l as [|? l]; [discriminate Hl|]);
  destruct l; [reflexivity|discriminate Hl].

(** Reduces validity of a concrete record to the ranges of its members. *)
Ltac valid_tac := repeat first [apply Forall2_cons; split | apply Forall2_nil; exact I].

(** Splits validity of a record into the ranges of its members. *)
Ltac valid_members :=
  repeat match goal with
  | H : valid _ |- _ => unfold valid in H; cbn in H
  end;
  repeat match goal with
  | H : Forall2 fits (_ :: _) (_ :: _) |- _ => apply Forall2_cons in H as [? H]
  | H : Forall2 fits [] [] |- _ => clear H
  end.

Lemma fits_0 w : fits w 0.
Proof. split; [done|]. apply Z.pow_pos_nonneg; lia. Qed.
