(* ===== verification/Crc32.v ===== *)
(** * CRC-32 of flow records (src/flowd/crc32.c)

    The table-driven update loop, its equivalence with the bit-at-a-time
    division by the reflected polynomial 0xedb88320, and the errors that the
    checksum of a record is guaranteed to detect. *)

From S2P Require Import Prelude.

(** ** The code *)

Definition crc32tab : list Z :=
  [0x00000000; 0x77073096; 0xee0e612c; 0x990951ba; 0x076dc419; 0x706af48f;
   0xe963a535; 0x9e6495a3; 0x0edb8832; 0x79dcb8a4; 0xe0d5e91e; 0x97d2d988;
   0x09b64c2b; 0x7eb17cbd; 0xe7b82d07; 0x90bf1d91; 0x1db71064; 0x6ab020f2;
   0xf3b97148; 0x84be41de; 0x1adad47d; 0x6ddde4eb; 0xf4d4b551; 0x83d385c7;
   0x136c9856; 0x646ba8c0; 0xfd62f97a; 0x8a65c9ec; 0x14015c4f; 0x63066cd9;
   0xfa0f3d63; 0x8d080df5; 0x3b6e20c8; 0x4c69105e; 0xd56041e4; 0xa2677172;
   0x3c03e4d1; 0x4b04d447; 0xd20d85fd; 0xa50ab56b; 0x35b5a8fa; 0x42b2986c;
   0xdbbbc9d6; 0xacbcf940; 0x32d86ce3; 0x45df5c75; 0xdcd60dcf; 0xabd13d59;
   0x26d930ac; 0x51de003a; 0xc8d75180; 0xbfd06116; 0x21b4f4b5; 0x56b3c423;
   0xcfba9599; 0xb8bda50f; 0x2802b89e; 0x5f058808; 0xc60cd9b2; 0xb10be924;
   0x2f6f7c87; 0x58684c11; 0xc1611dab; 0xb6662d3d; 0x76dc4190; 0x01db7106;
   0x98d220bc; 0xefd5102a; 0x71b18589; 0x06b6b51f; 0x9fbfe4a5; 0xe8b8d433;
   0x7807c9a2; 0x0f00f934; 0x9609a88e; 0xe10e9818; 0x7f6a0dbb; 0x086d3d2d;
   0x91646c97; 0xe6635c01; 0x6b6b51f4; 0x1c6c6162; 0x856530d8; 0xf262004e;
   0x6c0695ed; 0x1b01a57b; 0x8208f4c1; 0xf50fc457; 0x65b0d9c6; 0x12b7e950;
   0x8bbeb8ea; 0xfcb9887c; 0x62dd1ddf; 0x15da2d49; 0x8cd37cf3; 0xfbd44c65;
   0x4db26158; 0x3ab551ce; 0xa3bc0074; 0xd4bb30e2; 0x4adfa541; 0x3dd895d7;
   0xa4d1c46d; 0xd3d6f4fb; 0x4369e96a; 0x346ed9fc; 0xad678846; 0xda60b8d0;
   0x44042d73; 0x33031de5; 0xaa0a4c5f; 0xdd0d7cc9; 0x5005713c; 0x270241aa;
   0xbe0b1010; 0xc90c2086; 0x5768b525; 0x206f85b3; 0xb966d409; 0xce61e49f;
   0x5edef90e; 0x29d9c998; 0xb0d09822; 0xc7d7a8b4; 0x59b33d17; 0x2eb40d81;
   0xb7bd5c3b; 0xc0ba6cad; 0xedb88320; 0x9abfb3b6; 0x03b6e20c; 0x74b1d29a;
   0xead54739; 0x9dd277af; 0x04db2615; 0x73dc1683; 0xe3630b12; 0x94643b84;
   0x0d6d6a3e; 0x7a6a5aa8; 0xe40ecf0b; 0x9309ff9d; 0x0a00ae27; 0x7d079eb1;
   0xf00f9344; 0x8708a3d2; 0x1e01f268; 0x6906c2fe; 0xf762575d; 0x806567cb;
   0x196c3671; 0x6e6b06e7; 0xfed41b76; 0x89d32be0; 0x10da7a5a; 0x67dd4acc;
   0xf9b9df6f; 0x8ebeeff9; 0x17b7be43; 0x60b08ed5; 0xd6d6a3e8; 0xa1d1937e;
   0x38d8c2c4; 0x4fdff252; 0xd1bb67f1; 0xa6bc5767; 0x3fb506dd; 0x48b2364b;
   0xd80d2bda; 0xaf0a1b4c; 0x36034af6; 0x41047a60; 0xdf60efc3; 0xa867df55;
   0x316e8eef; 0x4669be79; 0xcb61b38c; 0xbc66831a; 0x256fd2a0; 0x5268e236;
   0xcc0c7795; 0xbb0b4703; 0x220216b9; 0x5505262f; 0xc5ba3bbe; 0xb2bd0b28;
   0x2bb45a92; 0x5cb36a04; 0xc2d7ffa7; 0xb5d0cf31; 0x2cd99e8b; 0x5bdeae1d;
   0x9b64c2b0; 0xec63f226; 0x756aa39c; 0x026d930a; 0x9c0906a9; 0xeb0e363f;
   0x72076785; 0x05005713; 0x95bf4a82; 0xe2b87a14; 0x7bb12bae; 0x0cb61b38;
   0x92d28e9b; 0xe5d5be0d; 0x7cdcefb7; 0x0bdbdf21; 0x86d3d2d4; 0xf1d4e242;
   0x68ddb3f8; 0x1fda836e; 0x81be16cd; 0xf6b9265b; 0x6fb077e1; 0x18b74777;
   0x88085ae6; 0xff0f6a70; 0x66063bca; 0x11010b5c; 0x8f659eff; 0xf862ae69;
   0x616bffd3; 0x166ccf45; 0xa00ae278; 0xd70dd2ee; 0x4e048354; 0x3903b3c2;
   0xa7672661; 0xd06016f7; 0x4969474d; 0x3e6e77db; 0xaed16a4a; 0xd9d65adc;
   0x40df0b66; 0x37d83bf0; 0xa9bcae53; 0xdebb9ec5; 0x47b2cf7f; 0x30b5ffe9;
   0xbdbdf21c; 0xcabac28a; 0x53b39330; 0x24b4a3a6; 0xbad03605; 0xcdd70693;
   0x54de5729; 0x23d967bf; 0xb3667a2e; 0xc4614ab8; 0x5d681b02; 0x2a6f2b94;
   0xb40bbe37; 0xc30c8ea1; 0x5a05df1b; 0x2d02ef8d].

Definition flowd_crc32_start : Z := 0.

(** One iteration of the loop of flowd_crc32_update. *)
Definition crc32_step (crc b : Z) : Z :=
  Z.lxor (nth (Z.to_nat (Z.land (Z.lxor crc b) 255)) crc32tab 0) (Z.shiftr crc 8).

(** [buf] is the [size] bytes that the loop reads. *)
Fixpoint flowd_crc32_update (buf : bytes) (crc : Z) : Z :=
  match buf with
  | [] => crc
  | b :: buf => flowd_crc32_update buf (crc32_step crc b)
  end.

Definition flowd_crc32 (buf : bytes) : Z := flowd_crc32_update buf flowd_crc32_start.

(** ** Bit-at-a-time reference *)

Definition crc_bit (c : Z) : Z :=
  if Z.odd c then Z.lxor (Z.shiftr c 1) 0xedb88320 else Z.shiftr c 1.

Fixpoint crc_bits (n : nat) (c : Z) : Z :=
  match n with
  | O => c
  | S n => crc_bits n (crc_bit c)
  end.

Definition crc32_ref (buf : bytes) (crc : Z) : Z :=
  fold_left (fun c b => crc_bits 8 (Z.lxor c b)) buf crc.

(** ** Linearity *)

Lemma crc_bit_lxor a b : crc_bit (Z.lxor a b) = Z.lxor (crc_bit a) (crc_bit b).
Proof.
  unfold crc_bit. rewrite <- !Z.bit0_odd, Z.lxor_spec, Z.shiftr_lxor.
  destruct (Z.testbit a 0), (Z.testbit b 0); simpl xorb; cbv iota;
    apply Z.bits_inj'; intros i Hi; rewrite !Z.lxor_spec;
    repeat match goal with |- context [Z.testbit ?x i] => destruct (Z.testbit x i) end;
    reflexivity.
Qed.

Lemma crc_bits_lxor n a b : crc_bits n (Z.lxor a b) = Z.lxor (crc_bits n a) (crc_bits n b).
Proof. revert a b; induction n; intros; simpl; [done|]. by rewrite crc_bit_lxor, IHn. Qed.

Lemma crc_bits_add n m c : crc_bits (n + m) c = crc_bits m (crc_bits n c).
Proof. revert c; induction n; intros; simpl; by rewrite ?IHn. Qed.

Lemma crc_bit_double c : crc_bit (2 * c) = c.
Proof.
  unfold crc_bit. rewrite Z.odd_mul. simpl (_ && _).
  rewrite Z.shiftr_div_pow2, Z.mul_comm by lia. by apply Z.div_mul.
Qed.

Lemma crc_bits_shiftl n c : crc_bits n (Z.shiftl c (Z.of_nat n)) = c.
Proof.
  revert c; induction n; intros c; cbn [crc_bits].
  { apply Z.shiftl_0_r. }
  rewrite Z.shiftl_mul_pow2, Nat2Z.inj_succ, Z.pow_succ_r by lia.
  replace (c * (2 * 2 ^ Z.of_nat n)) with (2 * (c * 2 ^ Z.of_nat n)) by lia.
  by rewrite crc_bit_double, <- Z.shiftl_mul_pow2, IHn by lia.
Qed.

Lemma split_low_byte c : c = Z.lxor (Z.land c 255) (Z.shiftl (Z.shiftr c 8) 8).
Proof.
  apply Z.bits_inj'. intros i Hi. rewrite Z.lxor_spec, Z.land_spec.
  change 255 with (Z.ones 8). destruct (decide (i < 8)).
  - rewrite Z.ones_spec_low, Z.shiftl_spec_low by lia.
    by rewrite andb_true_r, xorb_false_r.
  - rewrite Z.ones_spec_high, Z.shiftl_spec, Z.shiftr_spec by lia.
    rewrite andb_false_r. simpl. f_equal. lia.
Qed.

(** ** Table entries *)

Lemma crc32tab_entry i : 0 <= i < 256 -> nth (Z.to_nat i) crc32tab 0 = crc_bits 8 i.
Proof.
  intros Hi. apply Z.eqb_eq. revert i Hi.
  apply (range_forallb_spec 256 (fun i => nth (Z.to_nat i) crc32tab 0 =? crc_bits 8 i)).
  vm_compute. reflexivity.
Qed.

Lemma land_255 v : 0 <= Z.land v 255 < 256.
Proof. change 255 with (Z.ones 8). rewrite Z.land_ones by lia. apply Z.mod_pos_bound. lia. Qed.

Lemma crc32_step_ref c b : u8 b -> crc32_step c b = crc_bits 8 (Z.lxor c b).
Proof.
  intros Hb. unfold crc32_step. rewrite crc32tab_entry by apply land_255.
  rewrite (split_low_byte (Z.lxor c b)) at 2. rewrite crc_bits_lxor.
  f_equal. rewrite (crc_bits_shiftl 8). rewrite Z.shiftr_lxor.
  assert (Z.shiftr b 8 = 0) as ->; [|by rewrite Z.lxor_0_r].
  rewrite Z.shiftr_div_pow2 by lia. apply Z.div_small. done.
Qed.

Lemma flowd_crc32_update_app l1 l2 c :
  flowd_crc32_update (l1 ++ l2) c = flowd_crc32_update l2 (flowd_crc32_update l1 c).
Proof. revert c; induction l1; intros; simpl; by rewrite ?IHl1. Qed.

(** ** Range *)

Lemma crc_bit_u32 c : u32 c -> u32 (crc_bit c).
Proof.
  intros. assert (u32 (Z.shiftr c 1)) by (by apply u32_shiftr).
  unfold crc_bit. destruct (Z.odd c); [apply u32_lxor|]; done.
Qed.
Lemma crc_bits_u32 n c : u32 c -> u32 (crc_bits n c).
Proof. revert c; induction n; simpl; auto using crc_bit_u32. Qed.
Lemma u8_u32 v : u8 v -> u32 v.
Proof. auto with width. Qed.
Lemma crc32_step_u32 c b : u32 c -> u8 b -> u32 (crc32_step c b).
Proof. intros. rewrite crc32_step_ref by done. apply crc_bits_u32, u32_lxor; auto using u8_u32. Qed.
Lemma flowd_crc32_update_u32 l c : Forall u8 l -> u32 c -> u32 (flowd_crc32_update l c).
Proof. intros Hl. revert c; induction Hl; simpl; auto using crc32_step_u32. Qed.

(** ** Injectivity *)

(** The generator has its top bit set, so one division step loses nothing. *)
Lemma crc_bit_zero c : u32 c -> crc_bit c = 0 -> c = 0.
Proof.
  unfold crc_bit. intros Hc H. destruct (Z.odd c) eqn:Ho.
  - apply Z.lxor_eq in H. exfalso.
    rewrite Z.shiftr_div_pow2 in H by lia. width.
    assert (c / 2 ^ 1 < 2147483648) by (apply Z.div_lt_upper_bound; lia). lia.
  - rewrite Z.shiftr_div_pow2 in H by lia. apply Z.div_small_iff in H; [|done]. width.
    destruct (decide (c = 1)) as [->|]; [done|lia].
Qed.

Lemma crc_bits_zero n c : u32 c -> crc_bits n c = 0 -> c = 0.
Proof.
  revert c; induction n; simpl; intros c Hc H; [done|].
  apply crc_bit_zero; [done|]. apply IHn; [by apply crc_bit_u32|done].
Qed.

Lemma crc_bits_inj n a b : u32 a -> u32 b -> crc_bits n a = crc_bits n b -> a = b.
Proof.
  intros Ha Hb H. apply Z.lxor_eq, (crc_bits_zero n); [by apply u32_lxor|].
  by rewrite crc_bits_lxor, H, Z.lxor_nilpotent.
Qed.

Lemma crc32_update_inj l a b :
  Forall u8 l -> u32 a -> u32 b -> flowd_crc32_update l a = flowd_crc32_update l b -> a = b.
Proof.
  intros Hl. revert a b; induction Hl as [|x l Hx Hl IH]; simpl; intros a b Ha Hb H; [done|].
  apply IH in H; [|by apply crc32_step_u32..].
  rewrite !crc32_step_ref in H by done.
  apply crc_bits_inj in H; [|apply u32_lxor; auto using u8_u32..].
  apply (f_equal (fun z => Z.lxor z x)) in H.
  by rewrite !Z.lxor_assoc, !Z.lxor_nilpotent, !Z.lxor_0_r in H.
Qed.

(** A window of at most four bytes is absorbed as one little-endian integer. *)
Lemma crc_window l c :
  Forall u8 l -> flowd_crc32_update l c = crc_bits (8 * length l) (Z.lxor c (le_val l)).
Proof.
  intros Hl. revert c; induction Hl as [|x l Hx Hl IH]; intros c; cbn [flowd_crc32_update le_val length].
  { by rewrite Z.lxor_0_r. }
  rewrite IH, crc32_step_ref by done.
  replace (8 * S (length l))%nat with (8 + 8 * length l)%nat by lia.
  rewrite crc_bits_add. f_equal.
  assert (x + 256 * le_val l = Z.lxor x (Z.shiftl (le_val l) 8)) as ->.
  { rewrite Z.shiftl_mul_pow2 by lia. change (2 ^ 8) with 256.
    rewrite Z.add_nocarry_lxor; [f_equal; lia|].
    apply Z.bits_inj'. intros i Hi. rewrite Z.land_spec, Z.bits_0.
    change 256 with (2 ^ 8). rewrite Z.mul_comm, <- Z.shiftl_mul_pow2 by lia.
    destruct (decide (i < 8)).
    - by rewrite Z.shiftl_spec_low, andb_false_r by lia.
    - by rewrite (testbit_above 8) by (done || lia). }
  rewrite <- Z.lxor_assoc, (crc_bits_lxor 8 (Z.lxor c x)). f_equal.
  symmetry. apply (crc_bits_shiftl 8).
Qed.

(** ** Properties *)

Lemma crc32_update_ref buf crc : Forall u8 buf -> flowd_crc32_update buf crc = crc32_ref buf crc.
Proof.
  intros Hb. unfold crc32_ref. revert crc; induction Hb as [|x l Hx Hl IH]; intros; simpl; [done|].
  by rewrite IH, crc32_step_ref.
Qed.

(** C35: the table-driven loop of flowd_crc32_update computes, for every buffer
    and starting value, the bit-at-a-time CRC of the reflected polynomial. *)
Theorem crc32_update_is_ref buf crc :
  Forall u8 buf -> flowd_crc32_update buf crc = crc32_ref buf crc.
Proof. apply crc32_update_ref. Qed.

Lemma crc32_update_is_ref_witness :
  flowd_crc32_update [0x31; 0x32; 0x33] 7 = crc32_ref [0x31; 0x32; 0x33] 7.
Proof. apply crc32_update_is_ref. by repeat constructor. Defined.

(** Two records of the same length that differ only inside a window of at
    most four bytes never have the same CRC. *)
Theorem crc32_burst_detected pre w1 w2 post crc :
  Forall u8 pre -> Forall u8 w1 -> Forall u8 w2 -> Forall u8 post -> u32 crc ->
  length w1 = length w2 -> (length w1 <= 4)%nat -> w1 <> w2 ->
  flowd_crc32_update (pre ++ w1 ++ post) crc <> flowd_crc32_update (pre ++ w2 ++ post) crc.
Proof.
  intros Hpre Hw1 Hw2 Hpost Hc Hlen Hle Hne Heq. apply Hne.
  rewrite !flowd_crc32_update_app in Heq.
  pose proof (flowd_crc32_update_u32 pre crc Hpre Hc) as Hc'.
  set (c := flowd_crc32_update pre crc) in *.
  assert (forall w, Forall u8 w -> (length w <= 4)%nat -> u32 (le_val w)) as Hw.
  { intros w Hw Hl. pose proof (le_val_bound w Hw).
    assert (256 ^ Z.of_nat (length w) <= 256 ^ 4) by (apply Z.pow_le_mono_r; lia).
    width. lia. }
  apply crc32_update_inj in Heq; [|done|by apply flowd_crc32_update_u32..].
  rewrite !crc_window, Hlen in Heq by done.
  apply crc_bits_inj in Heq; [|apply u32_lxor; [done|apply Hw; [done|lia]]..].
  apply le_val_inj; [done..|].
  apply (f_equal (Z.lxor c)) in Heq.
  by rewrite <- !Z.lxor_assoc, !Z.lxor_nilpotent, !Z.lxor_0_l in Heq.
Qed.

Lemma crc32_burst_detected_witness :
  flowd_crc32_update ([1] ++ [2; 3; 4; 5] ++ [6]) 0 <>
  flowd_crc32_update ([1] ++ [2; 3; 4; 6] ++ [6]) 0.
Proof.
  apply crc32_burst_detected; [by repeat constructor..|reflexivity|simpl; lia|discriminate].
Defined.
