(* ===== verification/Order.v ===== *)
(** * Comparison functions and their order

    The trees of sys-tree.h are driven by C comparison functions that return a
    negative, zero or positive int.  The interface [CmpKey] says that the sign
    of such a function is the lexicographic order of a key; the laws a search
    tree needs follow once for every instance (addresses, flows, expiries). *)

From S2P Require Import Prelude.

(** ** Lexicographic order of integer sequences *)

Fixpoint lex (a b : list Z) : Z :=
  match a, b with
  | [], [] => 0
  | [], _ :: _ => -1
  | _ :: _, [] => 1
  | x :: a, y :: b => if x <? y then -1 else if y <? x then 1 else lex a b
  end.

Ltac lex_cases :=
  repeat match goal with
  | H : context [?x <? ?y] |- _ => destruct (Z.ltb_spec x y)
  | |- context [?x <? ?y] => destruct (Z.ltb_spec x y)
  end.

Lemma lex_values a b : lex a b = -1 \/ lex a b = 0 \/ lex a b = 1.
Proof. revert b; induction a as [|x a IH]; intros [|y b]; simpl; auto. lex_cases; auto. Qed.

Lemma lex_refl a : lex a a = 0.
Proof. induction a as [|x a IH]; simpl; [done|]. by rewrite Z.ltb_irrefl. Qed.

Lemma lex_eq a b : lex a b = 0 -> a = b.
Proof.
  revert b; induction a as [|x a IH]; intros [|y b]; simpl; try done.
  lex_cases; try done. intros Hl. f_equal; [lia|by apply IH].
Qed.

Lemma lex_opp a b : lex b a = - lex a b.
Proof.
  revert b; induction a as [|x a IH]; intros [|y b]; simpl; try done.
  lex_cases; try done; lia.
Qed.

Lemma lex_trans a b c : lex a b = -1 -> lex b c = -1 -> lex a c = -1.
Proof.
  revert b c; induction a as [|x a IH]; intros [|y b] [|z c]; simpl; try done.
  lex_cases; try done; try lia. apply IH.
Qed.

Lemma lex_cons x a b : lex (x :: a) (x :: b) = lex a b.
Proof. simpl. by rewrite Z.ltb_irrefl. Qed.

Lemma lex_app_l p a b : lex (p ++ a) (p ++ b) = lex a b.
Proof. induction p as [|x p IH]; [done|]. cbn [app]. by rewrite lex_cons. Qed.

Lemma lex_app_ne a1 a2 b1 b2 :
  length a1 = length a2 -> lex a1 a2 <> 0 -> lex (a1 ++ b1) (a2 ++ b2) = lex a1 a2.
Proof.
  revert a2; induction a1 as [|x a1 IH]; intros [|y a2]; simpl; try done.
  intros [= Hl]. lex_cases; try done. by apply IH.
Qed.

(** ** The interface of a comparison function *)

(** [cmp] on the values satisfying [ok] has the sign of [lex] of their keys. *)
Class CmpKey {A : Type} (ok : A -> Prop) (cmp : A -> A -> Z) (key : A -> list Z) :=
  cmp_key a b : ok a -> ok b -> Z.sgn (cmp a b) = lex (key a) (key b).

Section cmp_laws.
Context {A : Type} {ok : A -> Prop} {cmp : A -> A -> Z} {key : A -> list Z}
        `{!CmpKey ok cmp key}.

Lemma cmp_refl a : ok a -> cmp a a = 0.
Proof. intros Ha. apply Z.sgn_null_iff. by rewrite cmp_key, lex_refl. Qed.

Lemma cmp_zero a b : ok a -> ok b -> cmp a b = 0 <-> key a = key b.
Proof.
  intros Ha Hb. rewrite <- Z.sgn_null_iff, cmp_key by done. split; [apply lex_eq|].
  intros ->. apply lex_refl.
Qed.

Lemma cmp_opp a b : ok a -> ok b -> Z.sgn (cmp b a) = - Z.sgn (cmp a b).
Proof. intros. rewrite !cmp_key by done. apply lex_opp. Qed.

Lemma cmp_neg a b : ok a -> ok b -> cmp a b < 0 <-> lex (key a) (key b) = -1.
Proof. intros. by rewrite <- Z.sgn_neg_iff, cmp_key. Qed.

Lemma cmp_pos a b : ok a -> ok b -> cmp a b > 0 <-> lex (key b) (key a) = -1.
Proof.
  intros. rewrite lex_opp, <- cmp_key by done.
  pose proof (Z.sgn_spec (cmp a b)). lia.
Qed.

Lemma cmp_lt_trans a b c : ok a -> ok b -> ok c -> cmp a b < 0 -> cmp b c < 0 -> cmp a c < 0.
Proof. intros Ha Hb Hc. rewrite !cmp_neg by done. apply lex_trans. Qed.
End cmp_laws.
