(* ===== verification/Splay.v ===== *)
(** * Splay trees (src/flowd/sys-tree.h)

    The top-down splay operations that SPLAY_GENERATE and SPLAY_PROTOTYPE define,
    on trees instead of linked nodes: the left and right trees that the loop
    builds are the nodes linked so far, latest first, each with the subtree on its
    outer side.  An operation gets the comparison of its element with the nodes,
    [c n] for [cmp(elm, n)].  The theorems say what the operations do to the nodes
    in order; peer.c uses them through that. *)

From Stdlib Require Import Sorted.
From stdpp Require Import sorting.
From S2P Require Import Prelude.

(** ** Ordered sequences *)

Section ordered.
Context {A : Type} (c : A -> Z).

(** What finding, inserting and removing an element do to the nodes in order. *)
Fixpoint ordered_find (l : list A) : option A :=
  match l with
  | [] => None
  | x :: l => if c x =? 0 then Some x else ordered_find l
  end.

Fixpoint ordered_insert (l : list A) (n : A) : list A :=
  match l with
  | [] => [n]
  | x :: l => if c x =? 0 then x :: l else if c x <? 0 then n :: x :: l else x :: ordered_insert l n
  end.

Fixpoint ordered_remove (l : list A) : list A :=
  match l with
  | [] => []
  | x :: l => if c x =? 0 then l else x :: ordered_remove l
  end.

(** The nodes that the element comes after are first, then at most one that it
    compares equal to. *)
Definition cut (l : list A) : Prop := StronglySorted (fun a b => 0 < c a \/ c b < 0) l.

Definition after (l : list A) : Prop := Forall (fun x => 0 < c x) l.
Definition before (l : list A) : Prop := Forall (fun x => c x < 0) l.

Lemma ordered_find_after l k : after l -> ordered_find (l ++ k) = ordered_find k.
Proof. induction 1 as [|x l Hx _ IH]; [done|]. simpl. by rewrite (proj2 (Z.eqb_neq _ _)) by lia. Qed.

Lemma ordered_find_before l : before l -> ordered_find l = None.
Proof. induction 1 as [|x l Hx _ IH]; [done|]. simpl. by rewrite (proj2 (Z.eqb_neq _ _)) by lia. Qed.

Lemma ordered_insert_after l k n : after l -> ordered_insert (l ++ k) n = l ++ ordered_insert k n.
Proof.
  induction 1 as [|x l Hx _ IH]; [done|]. simpl.
  rewrite (proj2 (Z.eqb_neq _ _)), (proj2 (Z.ltb_ge _ _)) by lia. by rewrite IH.
Qed.

Lemma ordered_insert_before l n : before l -> ordered_insert l n = n :: l.
Proof.
  destruct 1 as [|x l Hx _]; [done|]. simpl.
  by rewrite (proj2 (Z.eqb_neq _ _)), (proj2 (Z.ltb_lt _ _)) by lia.
Qed.

Lemma ordered_remove_after l k : after l -> ordered_remove (l ++ k) = l ++ ordered_remove k.
Proof.
  induction 1 as [|x l Hx _ IH]; [done|]. simpl. rewrite (proj2 (Z.eqb_neq _ _)) by lia. by rewrite IH.
Qed.

Lemma ordered_remove_before l : before l -> ordered_remove l = l.
Proof.
  induction 1 as [|x l Hx _ IH]; [done|]. simpl. rewrite (proj2 (Z.eqb_neq _ _)) by lia. by rewrite IH.
Qed.

(** The two sides of a node. *)
Lemma cut_before l x r : cut (l ++ x :: r) -> c x <= 0 -> before r.
Proof.
  intros H Hx. apply StronglySorted_app in H as (_ & _ & H). inversion H as [|? ? _ Hr]; subst.
  eapply Forall_impl; [exact Hr|]. intros y [Hy|Hy]; [lia|done].
Qed.

Lemma cut_after l x r : cut (l ++ x :: r) -> 0 <= c x -> after l.
Proof.
  intros H Hx. apply StronglySorted_app in H as (H & _ & _). apply Forall_forall. intros y Hy.
  destruct (H y x Hy) as [Hc|Hc]; [by left|done|lia].
Qed.
End ordered.

(** ** Trees *)

Inductive tree (A : Type) :=
  | Leaf                                   (* the null pointer *)
  | Node (l : tree A) (x : A) (r : tree A).
Arguments Leaf {A}.
Arguments Node {A}.

Fixpoint inorder {A} (t : tree A) : list A :=
  match t with
  | Leaf => []
  | Node l x r => inorder l ++ x :: inorder r
  end.

Section splay.
Context {A : Type}.

(** The left and the right tree under construction, completed with a last subtree
    at the place where the next node would be linked. *)
Fixpoint left_tree (L : list (tree A * A)) (t : tree A) : tree A :=
  match L with
  | [] => t
  | (l, x) :: L => left_tree L (Node l x t)
  end.
Fixpoint right_tree (R : list (A * tree A)) (t : tree A) : tree A :=
  match R with
  | [] => t
  | (x, r) :: R => right_tree R (Node t x r)
  end.

Definition SPLAY_ASSEMBLE (l : tree A) (x : A) (r : tree A) (L : list (tree A * A))
    (R : list (A * tree A)) : tree A :=
  Node (left_tree L l) x (right_tree R r).

(** The loop; [c] compares the element with a node. *)
Fixpoint SPLAY (c : A -> Z) (t : tree A) (L : list (tree A * A)) (R : list (A * tree A))
    : outcome (tree A) :=
  match t with
  | Leaf => Undef NullDeref
  | Node l x r =>
      if c x =? 0 then Ret (SPLAY_ASSEMBLE l x r L R)
      else if c x <? 0 then
        match l with
        | Leaf => Ret (SPLAY_ASSEMBLE l x r L R)
        | Node ll y lr =>
            if c y <? 0 then
              match ll with
              | Leaf => Ret (SPLAY_ASSEMBLE ll y (Node lr x r) L R)
              | Node _ _ _ => SPLAY c ll L ((y, Node lr x r) :: R)
              end
            else SPLAY c l L ((x, r) :: R)
        end
      else
        match r with
        | Leaf => Ret (SPLAY_ASSEMBLE l x r L R)
        | Node rl y rr =>
            if 0 <? c y then
              match rr with
              | Leaf => Ret (SPLAY_ASSEMBLE (Node l x rl) y rr L R)
              | Node _ _ _ => SPLAY c rr ((Node l x rl, y) :: L) R
              end
            else SPLAY c r ((l, x) :: L) R
        end
  end.

(** The node that compares equal, and the tree. *)
Definition SPLAY_FIND (c : A -> Z) (t : tree A) : outcome (option A * tree A) :=
  match t with
  | Leaf => Ret (None, t)
  | Node _ _ _ =>
      let! t := SPLAY c t [] [] in
      match t with
      | Leaf => Undef NullDeref
      | Node _ x _ => Ret (if c x =? 0 then Some x else None, t)
      end
  end.

(** [Some x] for the node already there. *)
Definition SPLAY_INSERT (c : A -> Z) (t : tree A) (n : A) : outcome (option A * tree A) :=
  match t with
  | Leaf => Ret (None, Node Leaf n Leaf)
  | Node _ _ _ =>
      let! t := SPLAY c t [] [] in
      match t with
      | Leaf => Undef NullDeref
      | Node l x r =>
          if c x <? 0 then Ret (None, Node l n (Node Leaf x r))
          else if 0 <? c x then Ret (None, Node (Node l x Leaf) n r)
          else Ret (Some x, t)
      end
  end.

(** Whether an element was removed, and the tree. *)
Definition SPLAY_REMOVE (c : A -> Z) (t : tree A) : outcome (bool * tree A) :=
  match t with
  | Leaf => Ret (false, t)
  | Node _ _ _ =>
      let! t := SPLAY c t [] [] in
      match t with
      | Leaf => Undef NullDeref
      | Node l x r =>
          if c x =? 0 then
            match l with
            | Leaf => Ret (true, r)
            | Node _ _ _ =>
                let! l := SPLAY c l [] [] in
                match l with
                | Leaf => Undef NullDeref
                | Node ll y _ => Ret (true, Node ll y r)
                end
            end
          else Ret (false, t)
      end
  end.

(** The loop of SPLAY_MINMAX with a negative argument. *)
Fixpoint SPLAY_MINMAX_neg (t : tree A) (R : list (A * tree A)) : outcome (tree A) :=
  match t with
  | Leaf => Undef NullDeref
  | Node l x r =>
      match l with
      | Leaf => Ret (SPLAY_ASSEMBLE l x r [] R)
      | Node ll y lr =>
          match ll with
          | Leaf => Ret (SPLAY_ASSEMBLE ll y (Node lr x r) [] R)
          | Node _ _ _ => SPLAY_MINMAX_neg ll ((y, Node lr x r) :: R)
          end
      end
  end.

Definition SPLAY_MIN (t : tree A) : outcome (option A * tree A) :=
  match t with
  | Leaf => Ret (None, t)
  | Node _ _ _ =>
      let! t := SPLAY_MINMAX_neg t [] in
      match t with
      | Leaf => Undef NullDeref
      | Node _ x _ => Ret (Some x, t)
      end
  end.

Fixpoint leftmost (x : A) (l : tree A) : A :=
  match l with
  | Leaf => x
  | Node l y _ => leftmost y l
  end.

(** The successor of the element that [c] compares with; the element is at the
    root after the splay, and the code looks at its own right pointer. *)
Definition SPLAY_NEXT (c : A -> Z) (t : tree A) : outcome (option A * tree A) :=
  let! t := SPLAY c t [] [] in
  match t with
  | Leaf => Undef NullDeref
  | Node _ _ Leaf => Ret (None, t)
  | Node _ _ (Node l y _) => Ret (Some (leftmost y l), t)
  end.
End splay.

(** ** The splay *)

Section splay_laws.
Context {A : Type}.

Definition ctx_left (L : list (tree A * A)) : list A :=
  concat ((fun lx => inorder (fst lx) ++ [snd lx]) <$> reverse L).
Definition ctx_right (R : list (A * tree A)) : list A :=
  concat ((fun xr => fst xr :: inorder (snd xr)) <$> R).

Lemma ctx_left_cons l x L : ctx_left ((l, x) :: L) = ctx_left L ++ inorder l ++ [x].
Proof. unfold ctx_left. rewrite reverse_cons, fmap_app, concat_app. cbn. by rewrite app_nil_r. Qed.

Lemma inorder_left_tree L : forall t, inorder (left_tree L t) = ctx_left L ++ inorder t.
Proof.
  induction L as [|[l x] L IH]; intros t; [done|]. cbn [left_tree]. rewrite IH, ctx_left_cons.
  cbn [inorder]. by rewrite <- !app_assoc.
Qed.

Lemma inorder_right_tree R : forall t, inorder (right_tree R t) = inorder t ++ ctx_right R.
Proof.
  induction R as [|[x r] R IH]; intros t; [by rewrite app_nil_r|]. cbn [right_tree]. rewrite IH.
  cbn. by rewrite <- !app_assoc.
Qed.

Fixpoint size (t : tree A) : nat :=
  match t with
  | Leaf => 0
  | Node l _ r => S (size l + size r)
  end.

(** What the splay leaves: the same nodes in order, and at the root a node next to
    where the element is or would be. *)
Definition splayed (c : A -> Z) (nodes : list A) (t : tree A) : Prop :=
  exists l x r, t = Node l x r /\ inorder l ++ x :: inorder r = nodes /\
    (0 <= c x -> after c (inorder l)) /\ (c x <= 0 -> before c (inorder r)) /\
    (c x < 0 -> after c (inorder l)) /\ (0 < c x -> before c (inorder r)).

Lemma assemble_splayed c nodes l x r L R :
  nodes = ctx_left L ++ (inorder l ++ x :: inorder r) ++ ctx_right R -> cut c nodes ->
  after c (ctx_left L) -> before c (ctx_right R) ->
  (c x < 0 -> after c (inorder l)) -> (0 < c x -> before c (inorder r)) ->
  splayed c nodes (SPLAY_ASSEMBLE l x r L R).
Proof.
  intros Hn Hcut HL HR Hl Hr. eexists _, _, _. split; [reflexivity|].
  rewrite inorder_left_tree, inorder_right_tree.
  assert ((ctx_left L ++ inorder l) ++ x :: inorder r ++ ctx_right R = nodes) as E
    by (rewrite Hn, <- !app_assoc; done).
  rewrite <- E in Hcut. split; [exact E|]. split; [intros; by eapply cut_after|].
  split; [intros; by eapply cut_before|].
  split; intros Hx; apply Forall_app; split; [done|by apply Hl|by apply Hr|done].
Qed.

(** Two ways of putting the same nodes together. *)
Ltac same_nodes :=
  match goal with v := _ |- _ => unfold v end;
  rewrite ?ctx_left_cons; unfold ctx_right; cbn [inorder fmap list_fmap concat fst snd];
  repeat (rewrite <- !app_assoc; cbn [app]); reflexivity.

Ltac assemble :=
  eexists; split; [reflexivity|];
  apply assemble_splayed; first [done|by (intros; lia)|by (intros; constructor)|same_nodes].

Lemma SPLAY_ok c n : forall t L R,
  (size t <= n)%nat -> t <> Leaf -> cut c (ctx_left L ++ inorder t ++ ctx_right R) ->
  after c (ctx_left L) -> before c (ctx_right R) ->
  exists t', SPLAY c t L R = Ret t' /\ splayed c (ctx_left L ++ inorder t ++ ctx_right R) t'.
Proof.
  induction n as [|n IH]; intros [|l x r] L R Hsz Hne Hcut HL HR; try done; [simpl in Hsz; lia|].
  cbn [SPLAY]. set (nodes := ctx_left L ++ _ ++ ctx_right R) in *.
  (* going on below a linked node *)
  assert (forall t1 L1 R1, (size t1 <= n)%nat -> t1 <> Leaf ->
            ctx_left L1 ++ inorder t1 ++ ctx_right R1 = nodes ->
            after c (ctx_left L1) -> before c (ctx_right R1) ->
            exists t', SPLAY c t1 L1 R1 = Ret t' /\ splayed c nodes t') as Hgo.
  { intros t1 L1 R1 Hs1 Hne1 E HL1 HR1. rewrite <- E. apply IH; try done. by rewrite E. }
  cbn [size] in Hsz.
  destruct (Z.eqb_spec (c x) 0) as [Hx|Hx].
  { assemble. }
  destruct (Z.ltb_spec (c x) 0) as [Hneg|Hpos].
  - assert (before c (x :: inorder r ++ ctx_right R)) as Hbef.
    { unfold before. apply Forall_cons. split; [done|].
      apply (cut_before c (ctx_left L ++ inorder l) x); [|lia].
      match goal with |- cut c ?l => replace l with nodes by same_nodes end. exact Hcut. }
    destruct l as [|ll y lr]; [assemble|].
    cbn [size] in Hsz. destruct (Z.ltb_spec (c y) 0) as [Hy|Hy].
    + assert (before c (inorder lr)) as Hlr.
      { pose proof (cut_before c (ctx_left L ++ inorder ll) y (inorder lr ++ x :: inorder r ++ ctx_right R)) as H.
        assert (before c (inorder lr ++ x :: inorder r ++ ctx_right R)) as H'.
        { apply H; [|lia]. match goal with |- cut c ?l => replace l with nodes by same_nodes end. exact Hcut. }
        by apply Forall_app in H' as [? _]. }
      destruct ll as [|lll z llr].
      * assemble.
      * apply Hgo; [simpl in *; lia|done| |done|].
        -- same_nodes.
        -- cbn. apply Forall_cons. split; [done|]. rewrite <- app_assoc. by apply Forall_app.
    + apply Hgo; [simpl in *; lia|done| |done|].
      * same_nodes.
      * exact Hbef.
  - assert (after c (ctx_left L ++ inorder l ++ [x])) as Haft.
    { rewrite app_assoc. apply Forall_app. split; [|by constructor; [lia|]].
      apply (cut_after c _ x (inorder r ++ ctx_right R)); [|lia].
      match goal with |- cut c ?l => replace l with nodes by same_nodes end. exact Hcut. }
    destruct r as [|rl y rr]; [assemble|].
    cbn [size] in Hsz. destruct (Z.ltb_spec 0 (c y)) as [Hy|Hy].
    + assert (after c (ctx_left L ++ inorder l ++ x :: inorder rl)) as Hrl.
      { apply (cut_after c _ y (inorder rr ++ ctx_right R)); [|lia].
        match goal with |- cut c ?l => replace l with nodes by same_nodes end. exact Hcut. }
      destruct rr as [|rrl z rrr].
      * assemble.
      * apply Hgo; [simpl in *; lia|done| | |done].
        -- same_nodes.
        -- rewrite ctx_left_cons. cbn [inorder]. rewrite !app_assoc in *. apply Forall_app.
           split; [by rewrite <- !app_assoc in *|by constructor].
    + apply Hgo; [simpl in *; lia|done| | |done].
      * same_nodes.
      * by rewrite ctx_left_cons.
Qed.

Lemma SPLAY_root c t :
  t <> Leaf -> cut c (inorder t) -> exists t', SPLAY c t [] [] = Ret t' /\ splayed c (inorder t) t'.
Proof.
  intros Hne Hcut. destruct (SPLAY_ok c (size t) t [] []) as (t' & E & H); [lia|done| |constructor|constructor|].
  - unfold ctx_left, ctx_right. cbn. by rewrite app_nil_r.
  - unfold ctx_left, ctx_right in H. cbn in H. rewrite app_nil_r in H. by exists t'.
Qed.
End splay_laws.

(** ** The operations *)

Section operations.
Context {A : Type}.

Lemma ordered_at (c : A -> Z) l x r n :
  after c l -> before c r -> c x = 0 ->
  ordered_find c (l ++ x :: r) = Some x /\ ordered_insert c (l ++ x :: r) n = l ++ x :: r /\
  ordered_remove c (l ++ x :: r) = l ++ r.
Proof.
  intros Hl Hr Hx. rewrite ordered_find_after, ordered_insert_after, ordered_remove_after by done.
  simpl. by rewrite Hx.
Qed.

Lemma ordered_next_left (c : A -> Z) l x r n :
  after c l -> before c (x :: r) ->
  ordered_find c (l ++ x :: r) = None /\ ordered_insert c (l ++ x :: r) n = l ++ n :: x :: r /\
  ordered_remove c (l ++ x :: r) = l ++ x :: r.
Proof.
  intros Hl Hr. rewrite ordered_find_after, ordered_insert_after, ordered_remove_after by done.
  by rewrite ordered_find_before, ordered_insert_before, ordered_remove_before.
Qed.

Lemma ordered_next_right (c : A -> Z) l x r n :
  after c (l ++ [x]) -> before c r ->
  ordered_find c (l ++ x :: r) = None /\ ordered_insert c (l ++ x :: r) n = l ++ x :: n :: r /\
  ordered_remove c (l ++ x :: r) = l ++ x :: r.
Proof.
  intros Hl Hr. replace (l ++ x :: r) with ((l ++ [x]) ++ r) by (by rewrite <- app_assoc).
  rewrite ordered_find_after, ordered_insert_after, ordered_remove_after by done.
  rewrite ordered_find_before, ordered_insert_before, ordered_remove_before by done. by rewrite <- app_assoc.
Qed.

(** The operations on a tree and on its nodes. *)
Lemma splay_refines_ok (c : A -> Z) t n :
  cut c (inorder t) ->
  (exists t', SPLAY_FIND c t = Ret (ordered_find c (inorder t), t') /\ inorder t' = inorder t) /\
  (exists t', SPLAY_INSERT c t n = Ret (ordered_find c (inorder t), t') /\
     inorder t' = ordered_insert c (inorder t) n) /\
  (exists t', SPLAY_REMOVE c t = Ret (bool_decide (is_Some (ordered_find c (inorder t))), t') /\
     inorder t' = ordered_remove c (inorder t)).
Proof.
  intros Hcut. destruct t as [|l0 x0 r0].
  { split; [by eexists|]. split; by eexists. }
  unfold SPLAY_FIND, SPLAY_INSERT, SPLAY_REMOVE.
  destruct (SPLAY_root c (Node l0 x0 r0)) as (t' & -> & l & x & r & -> & Hn & Hl & Hr & Hl' & Hr'); [done|done|].
  cbn [obind]. rewrite <- Hn in *.
  destruct (Z.eqb_spec (c x) 0) as [Hx|Hx].
  - destruct (ordered_at c (inorder l) x (inorder r) n) as (-> & -> & ->); [apply Hl; lia|apply Hr; lia|done|].
    rewrite (proj2 (Z.ltb_ge (c x) 0)), (proj2 (Z.ltb_ge 0 (c x))) by lia.
    split; [by eexists|]. split; [by eexists|]. rewrite bool_decide_true by done.
    destruct l as [|ll y lr]; [by eexists|].
    destruct (SPLAY_root c (Node ll y lr)) as (t1 & -> & l1 & x1 & r1 & -> & Hn1 & _ & _ & _ & Hr1); [done| |].
    + apply StronglySorted_app in Hcut. apply Hcut.
    + cbn [obind]. assert (after c (inorder (Node ll y lr))) as Haft by (apply Hl; lia).
      rewrite <- Hn1 in *. apply Forall_app in Haft as [_ Haft]. apply Forall_cons in Haft as [Hx1 Haft].
      specialize (Hr1 Hx1).
      assert (inorder r1 = []) as Hr0.
      { destruct (inorder r1) as [|z k]; [done|]. apply Forall_cons in Haft as [? _].
        apply Forall_cons in Hr1 as [? _]. lia. }
      eexists. split; [reflexivity|]. rewrite Hr0. cbn [inorder]. by rewrite <- app_assoc.
  - destruct (Z.ltb_spec (c x) 0) as [Hneg|Hpos].
    + destruct (ordered_next_left c (inorder l) x (inorder r) n) as (-> & -> & ->);
        [by apply Hl'|apply Forall_cons; split; [done|apply Hr; lia]|].
      split; [by eexists|]. split; by eexists.
    + destruct (ordered_next_right c (inorder l) x (inorder r) n) as (-> & -> & ->);
        [apply Forall_app; split; [apply Hl; lia|by constructor; [lia|constructor]]|apply Hr'; lia|].
      rewrite (proj2 (Z.ltb_lt _ _)) by lia. split; [by eexists|]. split; [|by eexists].
      eexists. split; [reflexivity|]. cbn [inorder]. by rewrite <- app_assoc.
Qed.

(** The splay operations refine those on the ordered sequence of nodes: the
    loop never follows a null pointer; finding, inserting and removing an element
    restructure the tree, and its nodes in order are those that the operation on
    the sequence gives. *)
Theorem splay_refines (c : A -> Z) t n :
  cut c (inorder t) ->
  (exists t', SPLAY_FIND c t = Ret (ordered_find c (inorder t), t') /\ inorder t' = inorder t) /\
  (exists t', SPLAY_INSERT c t n = Ret (ordered_find c (inorder t), t') /\
     inorder t' = ordered_insert c (inorder t) n) /\
  (exists t', SPLAY_REMOVE c t = Ret (bool_decide (is_Some (ordered_find c (inorder t))), t') /\
     inorder t' = ordered_remove c (inorder t)).
Proof. exact (splay_refines_ok c t n). Qed.

Lemma split_unique (c : A -> Z) l y r l' x r' :
  after c l -> after c l' -> c y = 0 -> c x = 0 -> l ++ y :: r = l' ++ x :: r' -> r = r'.
Proof.
  intros Hl. revert l'. induction Hl as [|z l Hz _ IH]; intros [|z' l'] Hl' Hy Hx E; cbn in E.
  - by injection E.
  - injection E as -> _. apply Forall_cons in Hl' as [? _]. lia.
  - injection E as -> _. lia.
  - injection E as _ E. apply Forall_cons in Hl' as [_ Hl']. by apply (IH l').
Qed.

Lemma leftmost_head (l : tree A) y r : head (inorder (Node l y r)) = Some (leftmost y l).
Proof.
  revert y r. induction l as [|ll IH z lr _]; intros y r; [done|]. cbn [leftmost].
  rewrite <- (IH z lr). cbn [inorder]. by destruct (inorder ll).
Qed.

Lemma minmax_ok n : forall (t : tree A) R,
  (size t <= n)%nat -> t <> Leaf ->
  exists x r, SPLAY_MINMAX_neg t R = Ret (Node Leaf x r) /\ x :: inorder r = inorder t ++ ctx_right R.
Proof.
  induction n as [|n IH]; intros [|l x r] R Hsz Hne; try done; [simpl in Hsz; lia|].
  cbn [SPLAY_MINMAX_neg]. destruct l as [|[|lll z llr] y lr].
  - eexists _, _. split; [reflexivity|]. by rewrite inorder_right_tree.
  - eexists _, _. split; [reflexivity|]. rewrite inorder_right_tree. cbn [inorder app]. by rewrite <- !app_assoc.
  - destruct (IH (Node lll z llr) ((y, Node lr x r) :: R)) as (x' & r' & -> & E); [simpl in *; lia|done|].
    eexists _, _. split; [reflexivity|]. rewrite E. unfold ctx_right. cbn [inorder fmap list_fmap concat fst snd].
    repeat (rewrite <- !app_assoc; cbn [app]). reflexivity.
Qed.

(** SPLAY_MIN and SPLAY_NEXT, of which SPLAY_FOREACH is made, give the first
    node and the node after a given one of the tree, and keep its nodes. *)
Theorem splay_foreach (c : A -> Z) t :
  (exists t', SPLAY_MIN t = Ret (head (inorder t), t') /\ inorder t' = inorder t) /\
  (forall pre x post, inorder t = pre ++ x :: post -> cut c (inorder t) -> c x = 0 ->
     exists t', SPLAY_NEXT c t = Ret (head post, t') /\ inorder t' = inorder t).
Proof.
  split.
  - destruct t as [|l x r]; [by eexists|]. unfold SPLAY_MIN.
    destruct (minmax_ok (size (Node l x r)) (Node l x r) []) as (y & r' & -> & E); [lia|done|].
    cbn [obind]. unfold ctx_right in E. cbn [fmap list_fmap concat] in E. rewrite app_nil_r in E.
    eexists. split; [by rewrite <- E|]. exact E.
  - intros pre x post Ht Hcut Hx. unfold SPLAY_NEXT.
    destruct (SPLAY_root c t) as (t' & -> & l & y & r & -> & Hn & Hl & Hr & Hl' & Hr').
    { intros ->. cbn in Ht. by destruct pre. }
    { done. }
    cbn [obind]. rewrite <- Hn in *.
    pose proof (cut_after c pre x post) as Hpre. pose proof (cut_before c pre x post) as Hpost.
    rewrite <- Ht in Hpre, Hpost. specialize (Hpre Hcut ltac:(lia)). specialize (Hpost Hcut ltac:(lia)).
    (* the root is the node *)
    assert (c y = 0) as Hy.
    { destruct (Z.lt_trichotomy (c y) 0) as [H|[H|H]]; [|done|].
      - assert (before c (y :: inorder r)) as Hb by (apply Forall_cons; split; [done|apply Hr; lia]).
        assert (x ∈ inorder l ++ y :: inorder r) as Hin by (rewrite Ht; apply elem_of_app; right; by left).
        apply elem_of_app in Hin as [Hin|Hin];
          [apply (proj1 (Forall_forall _ _) (Hl' H)) in Hin|apply (proj1 (Forall_forall _ _) Hb) in Hin]; lia.
      - assert (after c (inorder l ++ [y])) as Hb.
        { apply Forall_app. split; [apply Hl; lia|by constructor; [|constructor]]. }
        assert (x ∈ (inorder l ++ [y]) ++ inorder r) as Hin.
        { rewrite <- app_assoc. cbn [app]. rewrite Ht. apply elem_of_app. right. by left. }
        apply elem_of_app in Hin as [Hin|Hin];
          [apply (proj1 (Forall_forall _ _) Hb) in Hin|apply (proj1 (Forall_forall _ _) (Hr' H)) in Hin]; lia. }
    assert (inorder r = post) as <-.
    { by apply (split_unique c (inorder l) y (inorder r) pre x post); [apply Hl; lia|..]. }
    destruct r as [|rl z rr]; [by eexists|].
    exists (Node l y (Node rl z rr)). split; [|reflexivity]. by rewrite leftmost_head.
Qed.
End operations.

Lemma splay_refines_witness :
  let c := fun x => 3 - x in
  let t := Node (Node Leaf 1 Leaf) 2 (Node Leaf 4 (Node Leaf 5 Leaf)) in
  cut c (inorder t) /\ exists t', SPLAY_INSERT c t 3 = Ret (None, t') /\ inorder t' = [1; 2; 3; 4; 5].
Proof.
  cbv zeta. assert (cut (fun x => 3 - x) (inorder (Node (Node Leaf 1 Leaf) 2 (Node Leaf 4 (Node Leaf 5 Leaf))))) as H.
  { repeat constructor; (left; done) || (right; done). }
  split; [exact H|]. destruct (splay_refines (fun x => 3 - x) _ 3 H) as (_ & (t' & E & Ht) & _).
  exists t'. split; [exact E|exact Ht].
Defined.

Lemma splay_foreach_witness :
  exists t', SPLAY_NEXT (fun x => 2 - x) (Node (Node Leaf 1 Leaf) 2 (Node Leaf 4 (Node Leaf 5 Leaf))) =
    Ret (Some 4, t') /\ inorder t' = [1; 2; 4; 5].
Proof.
  apply (proj2 (splay_foreach (fun x => 2 - x) (Node (Node Leaf 1 Leaf) 2 (Node Leaf 4 (Node Leaf 5 Leaf)))) [1] 2 [4; 5]).
  - reflexivity.
  - repeat constructor; (left; done) || (right; done).
  - reflexivity.
Defined.
