(* ===== verification/RedBlack.v ===== *)
(** * Red-black trees (src/softflowd/sys-tree.h)

    The operations that RB_GENERATE defines.  A pointer to a node is the node and
    the way from it up to the root ([frame]s), so that RB_PARENT is the first frame
    and a rotation rearranges the subtree and the first frames.  The theorems say
    that the operations, on trees that keep the red-black rb_rules, never follow a null
    pointer, refine those on the ordered sequence of rb_nodes, keep the rb_rules, and
    that a tree that keeps them is not deep. *)

From stdpp Require Import sorting.
From S2P Require Import Prelude Splay.

Inductive color := RB_BLACK | RB_RED.

Inductive rb (A : Type) :=
  | RbNull
  | RbNode (c : color) (l : rb A) (x : A) (r : rb A).
Arguments RbNull {A}.
Arguments RbNode {A} c l x r.

(** The parent of a subtree that is its left or its right child, with the other
    child. *)
Inductive frame (A : Type) :=
  | OnLeft (c : color) (x : A) (r : rb A)
  | OnRight (c : color) (l : rb A) (x : A).
Arguments OnLeft {A} c x r.
Arguments OnRight {A} c l x.

Section operations.
Context {A : Type}.

Definition is_red (t : rb A) : bool := match t with RbNode RB_RED _ _ _ => true | _ => false end.
Definition set_color (c : color) (t : rb A) : rb A := match t with RbNull => RbNull | RbNode _ l x r => RbNode c l x r end.
Definition red_frame (f : frame A) : bool :=
  match f with OnLeft RB_RED _ _ | OnRight RB_RED _ _ => true | _ => false end.

(** The parent, of the color [c], with [t] as the child. *)
Definition with_child (c : color) (f : frame A) (t : rb A) : rb A :=
  match f with OnLeft _ x r => RbNode c t x r | OnRight _ l x => RbNode c l x t end.
Definition frame_color (f : frame A) : color := match f with OnLeft c _ _ | OnRight c _ _ => c end.

(** The tree around a subtree. *)
Fixpoint rebuild (t : rb A) (p : list (frame A)) : rb A :=
  match p with
  | [] => t
  | f :: p => rebuild (with_child (frame_color f) f t) p
  end.

(** ** Insertion *)

(** The loop of RB_INSERT_COLOR at the node [elm] below [path]. *)
Fixpoint RB_INSERT_COLOR (fuel : nat) (elm : rb A) (path : list (frame A)) : outcome (rb A) :=
  match fuel with
  | O => Diverges
  | S fuel =>
      let finish :=
        match rebuild elm path with
        | RbNull => Undef NullDeref
        | root => Ret (set_color RB_BLACK root)
        end in
      match path with
      | [] => finish
      | parent :: up =>
          if negb (red_frame parent) then finish
          else
            match up with
            | [] => Undef NullDeref
            | gparent :: up =>
                match gparent with
                | OnLeft _ gx tmp =>
                    if is_red tmp then
                      RB_INSERT_COLOR fuel (RbNode RB_RED (with_child RB_BLACK parent elm) gx (set_color RB_BLACK tmp)) up
                    else
                      match parent, elm with
                      | OnRight pc pl px, RbNode _ el ex er =>
                          RB_INSERT_COLOR fuel (RbNode pc pl px el) (OnLeft RB_BLACK ex (RbNode RB_RED er gx tmp) :: up)
                      | OnRight _ _ _, RbNull => Undef NullDeref
                      | OnLeft _ px pr, _ => RB_INSERT_COLOR fuel elm (OnLeft RB_BLACK px (RbNode RB_RED pr gx tmp) :: up)
                      end
                | OnRight _ tmp gx =>
                    if is_red tmp then
                      RB_INSERT_COLOR fuel (RbNode RB_RED (set_color RB_BLACK tmp) gx (with_child RB_BLACK parent elm)) up
                    else
                      match parent, elm with
                      | OnLeft pc px pr, RbNode _ el ex er =>
                          RB_INSERT_COLOR fuel (RbNode pc er px pr) (OnRight RB_BLACK (RbNode RB_RED tmp gx el) ex :: up)
                      | OnLeft _ _ _, RbNull => Undef NullDeref
                      | OnRight _ pl px, _ => RB_INSERT_COLOR fuel elm (OnRight RB_BLACK (RbNode RB_RED tmp gx pl) px :: up)
                      end
                end
            end
      end
  end.

(** The node that compares equal, or the way to the place of the new one. *)
Fixpoint descend (c : A -> Z) (t : rb A) (path : list (frame A)) : A + list (frame A) :=
  match t with
  | RbNull => inr path
  | RbNode col l x r =>
      if c x <? 0 then descend c l (OnLeft col x r :: path)
      else if 0 <? c x then descend c r (OnRight col l x :: path)
      else inl x
  end.

Definition RB_INSERT (c : A -> Z) (t : rb A) (elm : A) : outcome (option A * rb A) :=
  match descend c t [] with
  | inl tmp => Ret (Some tmp, t)
  | inr path =>
      let! t := RB_INSERT_COLOR (S (length path)) (RbNode RB_RED RbNull elm RbNull) path in Ret (None, t)
  end.

Fixpoint RB_FIND (c : A -> Z) (t : rb A) : option A :=
  match t with
  | RbNull => None
  | RbNode _ l x r => if c x <? 0 then RB_FIND c l else if 0 <? c x then RB_FIND c r else Some x
  end.

(** ** Removal *)

(** RB_REMOVE_COLOR with a black sibling [tmp] on the right of [elm] and below the
    parent [px] of the color [pc]; [again] is the next turn of the loop. *)
Definition black_right (again : list (frame A) -> rb A -> outcome (rb A)) (elm : rb A) (pc : color) (px : A) (tmp : rb A)
    (up : list (frame A)) : outcome (rb A) :=
  match tmp with
  | RbNull => Undef NullDeref
  | RbNode _ tl tx tr =>
      if negb (is_red tl) && negb (is_red tr) then again up (RbNode pc elm px (RbNode RB_RED tl tx tr))
      else
        let! (tl, tx, tr) :=
          if is_red tr then Ret (tl, tx, tr)
          else
            match tl with
            | RbNull => Undef NullDeref
            | RbNode _ ol ox or => Ret (ol, ox, RbNode RB_RED or tx tr)
            end in
        Ret (set_color RB_BLACK (rebuild (RbNode pc (RbNode RB_BLACK elm px tl) tx (set_color RB_BLACK tr)) up))
  end.

(** The same on the left. *)
Definition black_left (again : list (frame A) -> rb A -> outcome (rb A)) (elm : rb A) (pc : color) (tmp : rb A) (px : A)
    (up : list (frame A)) : outcome (rb A) :=
  match tmp with
  | RbNull => Undef NullDeref
  | RbNode _ tl tx tr =>
      if negb (is_red tl) && negb (is_red tr) then again up (RbNode pc (RbNode RB_RED tl tx tr) px elm)
      else
        let! (tl, tx, tr) :=
          if is_red tl then Ret (tl, tx, tr)
          else
            match tr with
            | RbNull => Undef NullDeref
            | RbNode _ ol ox or => Ret (RbNode RB_RED tl tx ol, ox, or)
            end in
        Ret (set_color RB_BLACK (rebuild (RbNode pc (set_color RB_BLACK tl) tx (RbNode RB_BLACK tr px elm)) up))
  end.

Fixpoint RB_REMOVE_COLOR (fuel : nat) (path : list (frame A)) (elm : rb A) : outcome (rb A) :=
  match fuel with
  | O => Diverges
  | S fuel =>
      match path with
      | [] => Ret (set_color RB_BLACK elm)
      | parent :: up =>
          if is_red elm then Ret (rebuild (set_color RB_BLACK elm) path)
          else
            match parent with
            | OnLeft pc px (RbNode RB_RED tl tx tr) =>
                black_right (RB_REMOVE_COLOR fuel) elm RB_RED px tl (OnLeft RB_BLACK tx tr :: up)
            | OnLeft pc px tmp => black_right (RB_REMOVE_COLOR fuel) elm pc px tmp up
            | OnRight pc (RbNode RB_RED tl tx tr) px =>
                black_left (RB_REMOVE_COLOR fuel) elm RB_RED tr px (OnRight RB_BLACK tl tx :: up)
            | OnRight pc tmp px => black_left (RB_REMOVE_COLOR fuel) elm pc tmp px up
            end
      end
  end.

(** The first node of the subtree of the node [x], without its left child. *)
Fixpoint first_node (c : color) (l : rb A) (x : A) (r : rb A) (path : list (frame A)) : color * A * rb A * list (frame A) :=
  match l with
  | RbNull => (c, x, r, path)
  | RbNode lc ll lx lr => first_node lc ll lx lr (OnLeft c x r :: path)
  end.

(** [child] in the place of a node of the color [c] that leaves the tree. *)
Definition unlink (c : color) (child : rb A) (path : list (frame A)) : outcome (rb A) :=
  match c with
  | RB_BLACK => RB_REMOVE_COLOR (S (S (length path))) path child
  | RB_RED => Ret (rebuild child path)
  end.

(** The node [x] with its children, below [path]. *)
Definition RB_REMOVE (c : color) (l : rb A) (x : A) (r : rb A) (path : list (frame A)) : outcome (rb A) :=
  match l, r with
  | RbNull, _ => unlink c r path
  | _, RbNull => unlink c l path
  | _, RbNode rc rl rx rr =>
      let '(ec, ex, child, p) := first_node rc rl rx rr [] in
      unlink ec child (p ++ OnRight c l ex :: path)
  end.

(** ** Walking *)

Fixpoint climb (path : list (frame A)) : option A :=
  match path with
  | [] => None
  | OnLeft _ x _ :: _ => Some x
  | OnRight _ _ _ :: path => climb path
  end.

Definition RB_NEXT (r : rb A) (path : list (frame A)) : option A :=
  match r with
  | RbNode c l x r => let '(_, x, _, _) := first_node c l x r [] in Some x
  | RbNull => climb path
  end.

Fixpoint RB_MINMAX (t : rb A) (parent : option A) (val : Z) : option A :=
  match t with
  | RbNull => parent
  | RbNode _ l x r => RB_MINMAX (if val <? 0 then l else r) (Some x) val
  end.
End operations.

(** ** The nodes in order *)

Section order.
Context {A : Type}.

Fixpoint rb_nodes (t : rb A) : list A :=
  match t with RbNull => [] | RbNode _ l x r => rb_nodes l ++ x :: rb_nodes r end.

Fixpoint nodes_left (p : list (frame A)) : list A :=
  match p with
  | [] => []
  | OnLeft _ _ _ :: p => nodes_left p
  | OnRight _ l x :: p => nodes_left p ++ rb_nodes l ++ [x]
  end.
Fixpoint nodes_right (p : list (frame A)) : list A :=
  match p with
  | [] => []
  | OnLeft _ x r :: p => x :: rb_nodes r ++ nodes_right p
  | OnRight _ _ _ :: p => nodes_right p
  end.

Lemma nodes_rebuild p : forall t, rb_nodes (rebuild t p) = nodes_left p ++ rb_nodes t ++ nodes_right p.
Proof.
  induction p as [|[c x r|c l x] p IH]; intros t; cbn [rebuild with_child frame_color nodes_left nodes_right];
    [by rewrite app_nil_r|rewrite IH; cbn [rb_nodes]; by simplify_list_eq..].
Qed.

Lemma nodes_left_app q p : nodes_left (q ++ p) = nodes_left p ++ nodes_left q.
Proof. induction q as [|[] q IH]; cbn; rewrite ?IH; by simplify_list_eq. Qed.

Lemma nodes_right_app q p : nodes_right (q ++ p) = nodes_right q ++ nodes_right p.
Proof. induction q as [|[] q IH]; cbn; rewrite ?IH; by simplify_list_eq. Qed.

Lemma nodes_set_color c (t : rb A) : rb_nodes (set_color c t) = rb_nodes t.
Proof. by destruct t. Qed.

Lemma rebuild_app (t : rb A) p q : rebuild t (p ++ q) = rebuild (rebuild t p) q.
Proof. revert t. induction p as [|f p IH]; intros t; [done|]. apply IH. Qed.

(** Only the nodes of the subtree and the color of the frames matter to a loop. *)
Lemma nodes_with_child (f : frame A) c t p :
  nodes_left p ++ rb_nodes (with_child c f t) ++ nodes_right p = nodes_left (f :: p) ++ rb_nodes t ++ nodes_right (f :: p).
Proof. destruct f; cbn; by simplify_list_eq. Qed.

(** ** The rules *)

(** Every way down from the node crosses [n] black nodes; red nodes have black
    children. *)
Fixpoint rb_rules (n : nat) (t : rb A) : Prop :=
  match t with
  | RbNull => n = O
  | RbNode RB_RED l _ r => rb_rules n l /\ rb_rules n r /\ is_red l = false /\ is_red r = false
  | RbNode RB_BLACK l _ r => exists m, n = S m /\ rb_rules m l /\ rb_rules m r
  end.

Definition rb_good (t : rb A) : Prop := is_red t = false /\ exists n, rb_rules n t.

(** A place below [p] for a subtree with [n] black nodes. *)
Fixpoint place (n : nat) (p : list (frame A)) : Prop :=
  match p with
  | [] => True
  | f :: p =>
      match f with OnLeft _ _ s | OnRight _ s _ => rb_rules n s /\ (red_frame f = true -> is_red s = false) end /\
      if red_frame f then
        match p with [] => False | g :: _ => red_frame g = false end /\ place n p
      else place (S n) p
  end.

(** The place takes a red node. *)
Definition takes_red (p : list (frame A)) : Prop := match p with [] => False | f :: _ => red_frame f = false end.

Lemma is_red_black (t : rb A) : is_red (set_color RB_BLACK t) = false.
Proof. by destruct t. Qed.

Lemma rules_black (t : rb A) n : is_red t = true -> rb_rules n t -> rb_rules (S n) (set_color RB_BLACK t).
Proof. destruct t as [|[] l x r]; cbn; try done. intros _ (Hl & Hr & _). by exists n. Qed.

Lemma rules_S (t : rb A) n : rb_rules (S n) t -> is_red t = false ->
  exists l x r, t = RbNode RB_BLACK l x r /\ rb_rules n l /\ rb_rules n r.
Proof. destruct t as [|[] l x r]; cbn; try done. intros (m & [= <-] & Hl & Hr) _. by exists l, x, r. Qed.

(** A subtree in its place. *)
Lemma rebuild_good p : forall n t, place n p -> rb_rules n t -> (is_red t = true -> takes_red p) -> rb_good (rebuild t p).
Proof.
  induction p as [|f p IH]; intros n t Hp Ht Hred; cbn [rebuild].
  { split; [|by exists n]. by apply not_true_is_false. }
  destruct Hp as [Hs Hp]. cbn [takes_red] in Hred.
  destruct f as [[] x s|[] s x]; cbn [red_frame frame_color with_child] in *; destruct Hs as [Hs Hb].
  - apply (IH (S n)); [done| |done]. by exists n.
  - destruct Hp as [Hg Hp]. apply (IH n); [done| |done].
    split; [done|]. split; [done|]. split; [|by apply Hb]. apply not_true_is_false. intros E. by specialize (Hred E).
  - apply (IH (S n)); [done| |done]. by exists n.
  - destruct Hp as [Hg Hp]. apply (IH n); [done| |done].
    split; [done|]. split; [done|]. split; [by apply Hb|]. apply not_true_is_false. intros E. by specialize (Hred E).
Qed.

Lemma good_rebuild p : forall t, rb_good (rebuild t p) ->
  exists n, place n p /\ rb_rules n t /\ (is_red t = true -> takes_red p).
Proof.
  induction p as [|f p IH]; intros t Hg; cbn [rebuild] in Hg.
  { destruct Hg as [Hb [n Hn]]. exists n. split; [done|]. split; [done|]. by rewrite Hb. }
  destruct (IH _ Hg) as (n & Hp & Ht & Hred).
  destruct f as [[] x s|[] s x]; cbn [red_frame frame_color with_child place takes_red] in *.
  - destruct Ht as (m & -> & Hl & Hr). by exists m.
  - destruct Ht as (Hl & Hr & Hbl & Hbr). exists n. split; [|split; [done|by rewrite Hbl]].
    split; [done|]. split; [|done]. specialize (Hred eq_refl). by destruct p.
  - destruct Ht as (m & -> & Hl & Hr). by exists m.
  - destruct Ht as (Hl & Hr & Hbl & Hbr). exists n. split; [|split; [done|by rewrite Hbr]].
    split; [done|]. split; [|done]. specialize (Hred eq_refl). by destruct p.
Qed.

Lemma rb_place_app q : forall p p' n, (forall n, place n p -> place n p') -> (takes_red p -> takes_red p') ->
  place n (q ++ p) -> place n (q ++ p').
Proof.
  induction q as [|f q IH]; intros p p' n Hpl Hr; [by apply Hpl|]. intros [Hs Hp]. cbn [app place].
  split; [done|]. destruct (red_frame f); [|by apply (IH p)]. destruct Hp as [Hg Hp].
  split; [|by apply (IH p)]. destruct q; [|done]. cbn [app] in *. by destruct p, p'; try apply Hr.
Qed.
End order.

(** ** Insertion *)

Section loops.
Context {A : Type}.

(** The result of a loop that keeps the nodes. *)
Definition settled (m : outcome (rb A)) (ns : list A) : Prop := exists t, m = Ret t /\ rb_good t /\ rb_nodes t = ns.

Lemma settled_eq m ns ns' : settled m ns -> ns = ns' -> settled m ns'.
Proof. by intros H <-. Qed.

(** A step of the loop keeps the nodes around the place it leaves. *)
Ltac same_nodes := cbn [rb_nodes nodes_left nodes_right with_child]; rewrite ?nodes_set_color; by simplify_list_eq.

Lemma insert_color_ok fuel : forall n elm path,
  (length path < fuel)%nat -> is_red elm = true -> rb_rules n elm -> place n path ->
  settled (RB_INSERT_COLOR fuel elm path) (nodes_left path ++ rb_nodes elm ++ nodes_right path).
Proof.
  induction fuel as [|fuel IH]; intros n elm path Hf Hred Hr Hp; [lia|]. cbn [RB_INSERT_COLOR].
  destruct path as [|parent up].
  { destruct elm as [|[] l x r]; [done..|]. cbn [rebuild]. eexists. split; [reflexivity|]. split.
    - split; [done|]. exists (S n). by apply (rules_black (RbNode RB_RED l x r)).
    - cbn. by rewrite app_nil_r. }
  destruct (red_frame parent) eqn:Hpar; cbn [negb].
  2:{ assert (rb_good (rebuild elm (parent :: up))) as Hg by (by apply (rebuild_good _ n)).
      pose proof (nodes_rebuild (parent :: up) elm) as Hn. destruct (rebuild elm (parent :: up)) as [|c l x r].
      - exfalso. destruct elm; [done|]. symmetry in Hn. apply app_nil in Hn as [_ Hn]. apply app_nil in Hn as [Hn _].
        apply app_nil in Hn as [_ Hn]. discriminate Hn.
      - exists (set_color RB_BLACK (RbNode c l x r)). split; [done|]. rewrite nodes_set_color. split; [|done].
        destruct Hg as [Hb [m Hm]]. destruct c; [|done]. by split; [|exists m]. }
  destruct Hp as [Hs Hp]. rewrite Hpar in Hp. destruct up as [|gparent up]; [by destruct Hp|].
  destruct Hp as [Hg Hp]. destruct Hp as [Hgs Hp]. rewrite Hg in Hp.
  assert (rb_rules (S n) (with_child RB_BLACK parent elm)) as Hwc.
  { destruct parent; cbn; exists n; by destruct Hs. }
  assert (forall tmp : rb A, is_red tmp = true -> rb_rules n tmp -> rb_rules (S n) (set_color RB_BLACK tmp)) as Hblack
    by (intros; by apply rules_black).
  cbn [length] in Hf. destruct gparent as [gc gx tmp|gc tmp gx]; destruct Hgs as [Hgs _].
  - destruct (is_red tmp) eqn:Htmp.
    { eapply settled_eq; [apply (IH (S n)); [lia|done| |done]|].
      - split; [done|]. split; [by apply Hblack|]. split; [by destruct parent|apply is_red_black].
      - destruct parent; same_nodes. }
    destruct parent as [pc px pr|pc pl px]; destruct Hs as [Hs Hsb].
    + eapply settled_eq; [apply (IH n); [cbn; lia|done|done|]|same_nodes].
      cbn. split; [|done]. split; [|done]. split; [done|]. split; [done|]. split; [by apply Hsb|done].
    + destruct elm as [|[] el ex er]; [done..|]. destruct pc; [done|]. destruct Hr as (Hel & Her & Hbl & Hbr).
      eapply settled_eq; [apply (IH n); [cbn; lia|done| |]|same_nodes].
      * cbn. split; [done|]. split; [done|]. split; [by apply Hsb|done].
      * cbn. split; [|done]. by split.
  - destruct (is_red tmp) eqn:Htmp.
    { eapply settled_eq; [apply (IH (S n)); [lia|done| |done]|].
      - split; [by apply Hblack|]. split; [done|]. split; [apply is_red_black|by destruct parent].
      - destruct parent; same_nodes. }
    destruct parent as [pc px pr|pc pl px]; destruct Hs as [Hs Hsb].
    + destruct elm as [|[] el ex er]; [done..|]. destruct pc; [done|]. destruct Hr as (Hel & Her & Hbl & Hbr).
      eapply settled_eq; [apply (IH n); [cbn; lia|done| |]|same_nodes].
      * cbn. split; [done|]. split; [done|]. split; [done|by apply Hsb].
      * cbn. split; [|done]. by split.
    + eapply settled_eq; [apply (IH n); [cbn; lia|done|done|]|same_nodes].
      cbn. split; [|done]. split; [|done]. split; [done|]. split; [done|]. split; [done|by apply Hsb].
Qed.

(** ** Removal *)

(** A subtree that lacks one black node. *)
Definition short (n : nat) (t : rb A) : Prop :=
  if is_red t then rb_rules (S n) (set_color RB_BLACK t) else rb_rules n t.

Lemma set_color_good (t : rb A) : rb_good t -> rb_good (set_color RB_BLACK t) /\ rb_nodes (set_color RB_BLACK t) = rb_nodes t.
Proof. intros [Hb [n Hn]]. destruct t as [|[] l x r]; [| |done]; (split; [|done]); by split; [|exists n]. Qed.

(** What the next turn of the loop does. *)
Definition turns (again : list (frame A) -> rb A -> outcome (rb A)) (up : list (frame A)) (red : bool) : Prop :=
  forall n t, place (S n) up -> short n t -> (red = true -> is_red t = true) ->
    settled (again up t) (nodes_left up ++ rb_nodes t ++ nodes_right up).

(** The last rotation. *)
Lemma rotated (t : rb A) n up ns : place n up -> rb_rules n t -> (is_red t = true -> takes_red up) ->
  nodes_left up ++ rb_nodes t ++ nodes_right up = ns -> settled (Ret (set_color RB_BLACK (rebuild t up))) ns.
Proof.
  intros Hp Ht Hred <-. destruct (set_color_good _ (rebuild_good up n t Hp Ht Hred)) as [Hg Hn].
  eexists. split; [reflexivity|]. split; [done|]. by rewrite Hn, nodes_rebuild.
Qed.

(** A node of the color of the parent with black children of [n] black nodes. *)
Lemma parent_rules c n (l r : rb A) x : rb_rules n l -> rb_rules n r -> is_red l = false -> is_red r = false ->
  rb_rules (match c with RB_BLACK => S n | RB_RED => n end) (RbNode c l x r).
Proof. intros. destruct c; [by exists n|done]. Qed.

Lemma parent_place n (f : frame A) up : place n (f :: up) ->
  place (match frame_color f with RB_BLACK => S n | RB_RED => n end) up /\ (frame_color f = RB_RED -> takes_red up).
Proof.
  intros [_ Hp]. destruct f as [[] x s|[] s x]; cbn in *; [done| |done|]; (split; [apply Hp|]); intros _;
    destruct Hp as [Hp _]; by destruct up.
Qed.

Lemma black_right_ok again n elm pc px tmp up :
  is_red elm = false -> rb_rules n elm -> place (S n) (OnLeft pc px tmp :: up) -> is_red tmp = false ->
  turns again up (match pc with RB_RED => true | RB_BLACK => false end) ->
  settled (black_right again elm pc px tmp up) (nodes_left up ++ (rb_nodes elm ++ px :: rb_nodes tmp) ++ nodes_right up).
Proof.
  intros Heb He Hp Htb Hagain. destruct (parent_place _ _ _ Hp) as [Hup Hred]. cbn [frame_color] in Hup, Hred. destruct Hp as [[Ht _] _].
  destruct (rules_S _ _ Ht Htb) as (tl & tx & tr & -> & Hl & Hr). unfold black_right.
  destruct (negb (is_red tl) && negb (is_red tr)) eqn:Hblack.
  { apply andb_true_iff in Hblack as [Hbl%negb_true_iff Hbr%negb_true_iff].
    eapply settled_eq; [apply (Hagain (match pc with RB_BLACK => S n | RB_RED => n end))|].
    - by destruct pc.
    - unfold short. by destruct pc; cbn; eexists.
    - by destruct pc.
    - cbn [rb_nodes]. by simplify_list_eq. }
  destruct (is_red tr) eqn:Htr; cbn [obind].
  - eapply (rotated _ _ up); [exact Hup| | |cbn [rb_nodes]; rewrite nodes_set_color; by simplify_list_eq].
    + apply parent_rules; [by exists n|by apply rules_black|done|apply is_red_black].
    + intros E. apply Hred. by destruct pc.
  - rewrite andb_true_r, negb_false_iff in Hblack. destruct tl as [|[] ol ox or]; [done..|]. cbn [obind set_color].
    destruct Hl as (Hol & Hor & _). eapply (rotated _ _ up); [exact Hup| | |cbn [rb_nodes]; by simplify_list_eq].
    + apply parent_rules; [by exists n|by exists n|done|done].
    + intros E. apply Hred. by destruct pc.
Qed.

Lemma black_left_ok again n elm pc px tmp up :
  is_red elm = false -> rb_rules n elm -> place (S n) (OnRight pc tmp px :: up) -> is_red tmp = false ->
  turns again up (match pc with RB_RED => true | RB_BLACK => false end) ->
  settled (black_left again elm pc tmp px up) (nodes_left up ++ (rb_nodes tmp ++ px :: rb_nodes elm) ++ nodes_right up).
Proof.
  intros Heb He Hp Htb Hagain. destruct (parent_place _ _ _ Hp) as [Hup Hred]. cbn [frame_color] in Hup, Hred. destruct Hp as [[Ht _] _].
  destruct (rules_S _ _ Ht Htb) as (tl & tx & tr & -> & Hl & Hr). unfold black_left.
  destruct (negb (is_red tl) && negb (is_red tr)) eqn:Hblack.
  { apply andb_true_iff in Hblack as [Hbl%negb_true_iff Hbr%negb_true_iff].
    eapply settled_eq; [apply (Hagain (match pc with RB_BLACK => S n | RB_RED => n end))|].
    - by destruct pc.
    - unfold short. by destruct pc; cbn; eexists.
    - by destruct pc.
    - cbn [rb_nodes]. by simplify_list_eq. }
  destruct (is_red tl) eqn:Htl; cbn [obind].
  - eapply (rotated _ _ up); [exact Hup| | |cbn [rb_nodes]; rewrite nodes_set_color; by simplify_list_eq].
    + apply parent_rules; [by apply rules_black|by exists n|apply is_red_black|done].
    + intros E. apply Hred. by destruct pc.
  - cbn in Hblack. apply negb_false_iff in Hblack. destruct tr as [|[] ol ox or]; [done..|]. cbn [obind set_color].
    destruct Hr as (Hol & Hor & _). eapply (rotated _ _ up); [exact Hup| | |cbn [rb_nodes]; by simplify_list_eq].
    + apply parent_rules; [by exists n|by exists n|done|done].
    + intros E. apply Hred. by destruct pc.
Qed.

Lemma remove_color_ok fuel : forall n path elm,
  (length path + (if is_red elm then 1 else 2) <= fuel)%nat -> short n elm -> place (S n) path ->
  settled (RB_REMOVE_COLOR fuel path elm) (nodes_left path ++ rb_nodes elm ++ nodes_right path).
Proof.
  induction fuel as [|fuel IH]; intros n path elm Hf Hs Hp; [destruct (is_red elm); lia|]. cbn [RB_REMOVE_COLOR].
  assert (forall up b, (b = true \/ (length up < length path)%nat) -> (length up <= length path)%nat -> is_red elm = false ->
    turns (RB_REMOVE_COLOR fuel) up b) as Hturns.
  { intros up b Hb Hle Hred. rewrite Hred in Hf. intros m t Hup Ht Hbt. apply (IH m); [|done|done].
    destruct (is_red t); [lia|]. destruct Hb as [->|Hb]; [by specialize (Hbt eq_refl)|lia]. }
  destruct path as [|parent up].
  { eexists. split; [reflexivity|]. rewrite nodes_set_color. split; [|cbn; by rewrite app_nil_r].
    split; [apply is_red_black|]. unfold short in Hs. destruct (is_red elm) eqn:E; [by exists (S n)|].
    exists n. by destruct elm as [|[] l x r]. }
  destruct (is_red elm) eqn:Hred.
  { unfold short in Hs. rewrite Hred in Hs. eexists. split; [reflexivity|]. split.
    - apply (rebuild_good _ (S n)); [done|done|]. by rewrite is_red_black.
    - by rewrite nodes_rebuild, nodes_set_color. }
  unfold short in Hs. rewrite Hred in Hs. cbn [length] in Hturns.
  destruct parent as [pc px tmp|pc tmp px].
  - assert (forall ns, nodes_left up ++ (rb_nodes elm ++ px :: rb_nodes tmp) ++ nodes_right up = ns -> is_red tmp = false ->
      settled (black_right (RB_REMOVE_COLOR fuel) elm pc px tmp up) ns) as Hblack.
    { intros ns <- Htb. apply (black_right_ok _ n); [done..|]. apply Hturns; [right; lia|lia|done]. }
    destruct tmp as [|[] tl tx tr]; [apply Hblack; [cbn; by simplify_list_eq|done]..|].
    destruct (parent_place _ _ _ Hp) as [Hup _]. destruct Hp as [[(Hl & Hr & Hbl & Hbr) Hb] _].
    destruct pc; [|by specialize (Hb eq_refl)]. cbn [frame_color] in Hup.
    eapply settled_eq; [apply (black_right_ok _ n)|]; [done|done| |done| |].
    + cbn [place red_frame]. by repeat split.
    + apply Hturns; [by left|done|done].
    + cbn. by simplify_list_eq.
  - assert (forall ns, nodes_left up ++ (rb_nodes tmp ++ px :: rb_nodes elm) ++ nodes_right up = ns -> is_red tmp = false ->
      settled (black_left (RB_REMOVE_COLOR fuel) elm pc tmp px up) ns) as Hblack.
    { intros ns <- Htb. apply (black_left_ok _ n); [done..|]. apply Hturns; [right; lia|lia|done]. }
    destruct tmp as [|[] tl tx tr]; [apply Hblack; [cbn; by simplify_list_eq|done]..|].
    destruct (parent_place _ _ _ Hp) as [Hup _]. destruct Hp as [[(Hl & Hr & Hbl & Hbr) Hb] _].
    destruct pc; [|by specialize (Hb eq_refl)]. cbn [frame_color] in Hup.
    eapply settled_eq; [apply (black_left_ok _ n)|]; [done|done| |done| |].
    + cbn [place red_frame]. by repeat split.
    + apply Hturns; [by left|done|done].
    + cbn. by simplify_list_eq.
Qed.

Lemma rb_unlink_ok c child n x path : rb_rules n (RbNode c RbNull x child) \/ rb_rules n (RbNode c child x RbNull) -> place n path ->
  settled (unlink c child path) (nodes_left path ++ rb_nodes child ++ nodes_right path).
Proof.
  intros Hr Hp.
  assert (match c with RB_BLACK => exists m, n = S m /\ rb_rules m child | RB_RED => rb_rules n child /\ is_red child = false end) as Hc.
  { destruct c, Hr as [Hr|Hr]; cbn in Hr.
    - destruct Hr as (m & -> & _ & ?). by exists m.
    - destruct Hr as (m & -> & ? & _). by exists m.
    - by destruct Hr as (_ & ? & _ & ?).
    - by destruct Hr as (? & _ & ? & _). }
  destruct c; cbn [unlink].
  - destruct Hc as (m & -> & Hm). apply (remove_color_ok _ m); [destruct (is_red child); lia| |done].
    unfold short. destruct (is_red child) eqn:E; [by apply rules_black|done].
  - destruct Hc as [Hc Hb]. eexists. split; [reflexivity|]. split; [apply (rebuild_good _ n); [done|done|by rewrite Hb]|].
    apply nodes_rebuild.
Qed.

Lemma first_node_ok l : forall c (x : A) r path ec ex child p, first_node c l x r path = (ec, ex, child, p) ->
  exists q, p = q ++ path /\ rebuild (RbNode ec RbNull ex child) q = RbNode c l x r /\ nodes_left q = [].
Proof.
  induction l as [|lc ll IH lx lr _]; intros c x r path ec ex child p E; cbn [first_node] in E.
  - injection E as <- <- <- <-. by exists [].
  - apply IH in E as (q & -> & Hq & Hl). exists (q ++ [OnLeft c x r]). split; [by rewrite <- app_assoc|].
    rewrite rebuild_app, Hq, nodes_left_app, Hl. done.
Qed.

(** A node in its place leaves the tree. *)
Lemma rb_remove_ok c l (x : A) r path : rb_good (rebuild (RbNode c l x r) path) ->
  settled (RB_REMOVE c l x r path) (nodes_left path ++ (rb_nodes l ++ rb_nodes r) ++ nodes_right path).
Proof.
  intros Hg. destruct (good_rebuild _ _ Hg) as (n & Hp & Hr & _).
  destruct l as [|lc ll lx lr]; [|destruct r as [|rc rl rx rr]].
  - apply (rb_unlink_ok c r n x); [by left|done].
  - cbn [RB_REMOVE]. eapply settled_eq; [apply (rb_unlink_ok c _ n x); [by right|done]|]. by rewrite app_nil_r.
  - set (l := RbNode lc ll lx lr) in *. unfold RB_REMOVE, l. fold l.
    destruct (first_node rc rl rx rr []) as [[[ec ex] child] p] eqn:E.
    apply first_node_ok in E as (q & -> & Hq & Hleft). rewrite app_nil_r.
    assert (rebuild (RbNode c l x (RbNode rc rl rx rr)) path = rebuild (RbNode ec RbNull ex child) (q ++ OnRight c l x :: path)) as Et.
    { rewrite rebuild_app, Hq. done. }
    rewrite Et in Hg. destruct (good_rebuild _ _ Hg) as (m & Hpm & Hrm & _).
    eapply settled_eq; [apply (rb_unlink_ok ec child m ex); [by left|]|].
    { apply (rb_place_app q (OnRight c l x :: path)); [done|done|done]. }
    assert (rb_nodes (RbNode rc rl rx rr) = nodes_left q ++ (ex :: rb_nodes child) ++ nodes_right q) as En.
    { by rewrite <- Hq, nodes_rebuild. }
    rewrite En, nodes_left_app, nodes_right_app, Hleft. cbn. by simplify_list_eq.
Qed.
End loops.

(** ** The operations and the nodes in order *)

Section refinement.
Context {A : Type} (c : A -> Z).

Lemma descend_ok t : forall p,
  match descend c t p with
  | inl x => c x = 0 /\ exists l r, rb_nodes t = l ++ x :: r
  | inr q => exists q', q = q' ++ p /\ rebuild RbNull q' = t /\ (cut c (rb_nodes t) -> after c (nodes_left q') /\ before c (nodes_right q'))
  end.
Proof.
  induction t as [|col l IHl x r IHr]; intros p; cbn [descend].
  { exists []. by repeat split; constructor. }
  destruct (Z.ltb_spec (c x) 0) as [Hneg|Hneg]; [|destruct (Z.ltb_spec 0 (c x)) as [Hpos|Hpos]].
  - specialize (IHl (OnLeft col x r :: p)). destruct (descend c l _) as [y|q].
    + destruct IHl as (Hy & l1 & l2 & E). split; [done|]. exists l1, (l2 ++ x :: rb_nodes r). cbn. rewrite E. by simplify_list_eq.
    + destruct IHl as (q' & -> & Hq & Hcut). exists (q' ++ [OnLeft col x r]). split; [by simplify_list_eq|].
      split; [by rewrite rebuild_app, Hq|]. cbn [rb_nodes]. intros Hc.
      rewrite nodes_left_app, nodes_right_app. cbn. rewrite app_nil_r.
      destruct Hcut as [Ha Hb]; [by apply StronglySorted_app in Hc as (_ & ? & _)|]. split; [done|]. apply Forall_app. split; [done|].
      constructor; [done|]. eapply cut_before; [exact Hc|lia].
  - specialize (IHr (OnRight col l x :: p)). destruct (descend c r _) as [y|q].
    + destruct IHr as (Hy & l1 & l2 & E). split; [done|]. exists (rb_nodes l ++ x :: l1), l2. cbn. rewrite E. by simplify_list_eq.
    + destruct IHr as (q' & -> & Hq & Hcut). exists (q' ++ [OnRight col l x]). split; [by simplify_list_eq|].
      split; [by rewrite rebuild_app, Hq|]. cbn [rb_nodes]. intros Hc.
      rewrite nodes_left_app, nodes_right_app. cbn. rewrite app_nil_r.
      pose proof (cut_after c _ _ _ Hc) as Hal. apply StronglySorted_app in Hc as (_ & _ & Hc).
      destruct Hcut as [Ha Hb]; [by inversion Hc|]. split; [|done]. apply Forall_app. split; [|done].
      apply Forall_app. split; [apply Hal; lia|by repeat constructor].
  - split; [lia|]. by exists (rb_nodes l), (rb_nodes r).
Qed.

Lemma rb_find_ok t : cut c (rb_nodes t) -> RB_FIND c t = ordered_find c (rb_nodes t).
Proof.
  induction t as [|col l IHl x r IHr]; [done|]. cbn [RB_FIND rb_nodes]. intros Hc.
  pose proof (cut_before c _ _ _ Hc) as Hb. pose proof (cut_after c _ _ _ Hc) as Ha.
  apply StronglySorted_app in Hc as (_ & Hcl & Hcr). apply StronglySorted_inv in Hcr as [Hcr _].
  destruct (Z.ltb_spec (c x) 0) as [Hneg|Hneg]; [|destruct (Z.ltb_spec 0 (c x)) as [Hpos|Hpos]].
  - rewrite IHl by done. specialize (Hb ltac:(lia)). clear -Hb Hneg. induction (rb_nodes l) as [|y k IH]; cbn.
    + rewrite (proj2 (Z.eqb_neq _ _)) by lia. symmetry. by apply ordered_find_before.
    + by rewrite IH.
  - rewrite IHr, ordered_find_after by (done || apply Ha; lia). cbn. by rewrite (proj2 (Z.eqb_neq _ _)) by lia.
  - rewrite ordered_find_after by (apply Ha; lia). cbn. by rewrite (proj2 (Z.eqb_eq _ _)) by lia.
Qed.

Lemma rb_insert_ok t n : rb_good t -> cut c (rb_nodes t) ->
  exists t', RB_INSERT c t n = Ret (ordered_find c (rb_nodes t), t') /\ rb_good t' /\ rb_nodes t' = ordered_insert c (rb_nodes t) n.
Proof.
  intros Hg Hc. unfold RB_INSERT. pose proof (descend_ok t []) as Hd. destruct (descend c t []) as [y|q].
  - destruct Hd as (Hy & l & r & E). exists t. rewrite E in *.
    destruct (ordered_at c l y r n) as (-> & -> & _); [by apply (cut_after c l y r Hc); lia|by apply (cut_before c l y r Hc); lia|done|].
    done.
  - destruct Hd as (q' & -> & Hq & Hcut). rewrite app_nil_r. destruct (Hcut Hc) as [Ha Hb].
    rewrite <- Hq in Hg. destruct (good_rebuild _ _ Hg) as (m & Hp & Hm & _). cbn in Hm. subst m.
    destruct (insert_color_ok (S (length q')) 0 (RbNode RB_RED RbNull n RbNull) q') as (t' & -> & Hg' & Hn');
      [lia|done|done|done|]. cbn [obind]. exists t'.
    rewrite <- Hq, nodes_rebuild. cbn [rb_nodes app] in *.
    rewrite ordered_find_after, ordered_find_before, ordered_insert_after, ordered_insert_before by done. done.
Qed.

(** ** Depth *)

Fixpoint height (t : rb A) : nat := match t with RbNull => O | RbNode _ l _ r => S (Nat.max (height l) (height r)) end.

Lemma rules_height (t : rb A) : forall n, rb_rules n t -> (height t <= 2 * n + (if is_red t then 1 else 0))%nat.
Proof.
  induction t as [|[] l IHl x r IHr]; intros n Hr; cbn in *; [lia| |].
  - destruct Hr as (m & -> & Hl & Hr). specialize (IHl m Hl). specialize (IHr m Hr). repeat case_match; lia.
  - destruct Hr as (Hl & Hr & Hbl & Hbr). specialize (IHl n Hl). specialize (IHr n Hr). rewrite Hbl in IHl. rewrite Hbr in IHr. lia.
Qed.

Lemma rules_size (t : rb A) : forall n, rb_rules n t -> (2 ^ n <= S (length (rb_nodes t)))%nat.
Proof.
  induction t as [|[] l IHl x r IHr]; intros n Hr; cbn [rb_nodes rb_rules] in *; [by subst| |]; rewrite length_app; cbn [length].
  - destruct Hr as (m & -> & Hl & Hr). specialize (IHl m Hl). specialize (IHr m Hr). cbn. lia.
  - destruct Hr as (Hl & Hr & _). specialize (IHl n Hl). lia.
Qed.

Lemma first_node_head l : forall k (x : A) r p, match first_node k l x r p with (_, y, _, _) => head (rb_nodes (RbNode k l x r)) = Some y end.
Proof.
  induction l as [|lc ll IH lx lr _]; intros k x r p; cbn [first_node]; [done|].
  specialize (IH lc lx lr (OnLeft k x r :: p)). destruct (first_node _ _ _ _ _) as [[[? ?] ?] ?].
  cbn in *. by destruct (rb_nodes ll).
Qed.

Lemma climb_head (p : list (frame A)) : climb p = head (nodes_right p).
Proof. induction p as [|[] p IH]; [done..|]. exact IH. Qed.

Lemma minmax_head (t : rb A) parent :
  RB_MINMAX t parent (-1) = match head (rb_nodes t) with Some x => Some x | None => parent end.
Proof.
  revert parent. induction t as [|k l IHl x r _]; intros parent; [done|]. cbn. rewrite IHl. by destruct (rb_nodes l).
Qed.

Lemma rb_height_log (t : rb A) : rb_good t -> (height t <= 2 * Nat.log2 (S (length (rb_nodes t))))%nat.
Proof.
  intros [Hb [n Hn]]. pose proof (rules_height t n Hn) as Hh. rewrite Hb in Hh. pose proof (rules_size t n Hn) as Hs.
  apply Nat.log2_le_mono in Hs. rewrite Nat.log2_pow2 in Hs by lia. lia.
Qed.

(** The operations on a tree and on its nodes. *)
Lemma rb_refines_ok t n : rb_good t -> cut c (rb_nodes t) ->
  RB_FIND c t = ordered_find c (rb_nodes t) /\
  (exists t', RB_INSERT c t n = Ret (ordered_find c (rb_nodes t), t') /\ rb_good t' /\ rb_nodes t' = ordered_insert c (rb_nodes t) n) /\
  (forall col l x r path, rebuild (RbNode col l x r) path = t -> c x = 0 ->
     exists t', RB_REMOVE col l x r path = Ret t' /\ rb_good t' /\ rb_nodes t' = ordered_remove c (rb_nodes t)).
Proof.
  intros Hg Hc. split; [by apply rb_find_ok|]. split; [by apply rb_insert_ok|]. intros col l x r path <- Hx.
  destruct (rb_remove_ok col l x r path Hg) as (t' & E & Hg' & Hn'). exists t'. split; [done|]. split; [done|].
  rewrite nodes_rebuild in *. cbn [rb_nodes] in *.
  replace (nodes_left path ++ (rb_nodes l ++ x :: rb_nodes r) ++ nodes_right path) with
    ((nodes_left path ++ rb_nodes l) ++ x :: rb_nodes r ++ nodes_right path) in * by (by simplify_list_eq).
  destruct (ordered_at c (nodes_left path ++ rb_nodes l) x (rb_nodes r ++ nodes_right path) x) as (_ & _ & ->);
    [eapply cut_after; [exact Hc|lia]|eapply cut_before; [exact Hc|lia]|done|].
  rewrite Hn'. by simplify_list_eq.
Qed.

(** C40: the red-black operations refine those on the ordered sequence of nodes, as
    the splay operations do: on a tree that keeps the rules they never follow a
    null pointer, the loops end, the nodes in order are those that the operation
    on the sequence gives, and the tree keeps the rules. *)
Theorem rb_refines t n : rb_good t -> cut c (rb_nodes t) ->
  RB_FIND c t = ordered_find c (rb_nodes t) /\
  (exists t', RB_INSERT c t n = Ret (ordered_find c (rb_nodes t), t') /\ rb_good t' /\ rb_nodes t' = ordered_insert c (rb_nodes t) n) /\
  (forall col l x r path, rebuild (RbNode col l x r) path = t -> c x = 0 ->
     exists t', RB_REMOVE col l x r path = Ret t' /\ rb_good t' /\ rb_nodes t' = ordered_remove c (rb_nodes t)).
Proof. apply rb_refines_ok. Qed.

(** RB_MIN and RB_NEXT, of which RB_FOREACH is made, walk the nodes in order. *)
Theorem rb_foreach (t : rb A) :
  RB_MINMAX t None (-1) = head (rb_nodes t) /\
  forall col l x r path, rebuild (RbNode col l x r) path = t ->
    exists before after, rb_nodes t = before ++ x :: after /\ RB_NEXT r path = head after.
Proof.
  split; [rewrite minmax_head; by destruct (rb_nodes t)|]. intros col l x r path <-.
  exists (nodes_left path ++ rb_nodes l), (rb_nodes r ++ nodes_right path). rewrite nodes_rebuild. cbn [rb_nodes].
  split; [by simplify_list_eq|]. destruct r as [|k rl y rr]; cbn [RB_NEXT rb_nodes].
  - apply climb_head.
  - pose proof (first_node_head rl k y rr []) as H. destruct (first_node _ _ _ _ _) as [[[? z] ?] ?].
    cbn [rb_nodes] in H. by destruct (rb_nodes rl).
Qed.

(** A tree that keeps the rules is at most twice as deep as the logarithm of the
    number of its nodes, which bounds every walk down from the root. *)
Theorem rb_height (t : rb A) : rb_good t -> (height t <= 2 * Nat.log2 (S (length (rb_nodes t))))%nat.
Proof. apply rb_height_log. Qed.
End refinement.

(** ** Examples *)

Definition sample_rb : rb Z := RbNode RB_BLACK (RbNode RB_BLACK RbNull 1 RbNull) 2 (RbNode RB_BLACK RbNull 4 (RbNode RB_RED RbNull 5 RbNull)).

Lemma sample_rb_good : rb_good sample_rb.
Proof. split; [done|]. exists 2%nat. cbn. exists 1%nat. split; [done|]. split; exists 0%nat; done. Qed.

(** The root leaves the tree, and its place is taken by 4. *)
Lemma rb_refines_witness : exists t',
  RB_REMOVE RB_BLACK (RbNode RB_BLACK RbNull 1 RbNull) 2 (RbNode RB_BLACK RbNull 4 (RbNode RB_RED RbNull 5 RbNull)) [] = Ret t' /\
  rb_good t' /\ rb_nodes t' = [1; 4; 5].
Proof.
  destruct (rb_refines (fun x => 2 - x) sample_rb 3 sample_rb_good) as (_ & _ & H).
  - cbn. repeat (constructor; [|repeat (constructor; [lia|]); constructor]). constructor.
  - exact (H RB_BLACK _ 2 _ [] eq_refl eq_refl).
Defined.
