(* ===== verification/Keyed.v ===== *)
(** * Sequences sorted by a key

    The nodes of a search tree in order, when the comparison function of the tree
    is the lexicographic order of a key: what finding, inserting and removing
    does to them, and that such a sequence has the form that the splay and
    red-black operations need. *)

From Stdlib Require Import Sorted.
From stdpp Require Import sorting.
From S2P Require Import Prelude Order Splay.

Section keyed.
Context {A : Type} (k : A -> list Z).

Definition key_lt (a b : A) : Prop := lex (k a) (k b) = -1.
Definition key_sorted (l : list A) : Prop := StronglySorted key_lt l.

Lemma key_lt_trans a b c : key_lt a b -> key_lt b c -> key_lt a c.
Proof. apply lex_trans. Qed.

Lemma key_lt_irrefl a : ~ key_lt a a.
Proof. unfold key_lt. by rewrite lex_refl. Qed.

Lemma key_sorted_app l1 l2 :
  key_sorted (l1 ++ l2) <-> key_sorted l1 /\ key_sorted l2 /\ (forall a b, a ∈ l1 -> b ∈ l2 -> key_lt a b).
Proof. unfold key_sorted. rewrite StronglySorted_app. tauto. Qed.

Lemma key_sorted_remove l1 x l2 : key_sorted (l1 ++ x :: l2) -> key_sorted (l1 ++ l2).
Proof.
  rewrite !key_sorted_app. intros (H1 & H2 & H3). apply StronglySorted_inv in H2 as [H2 _].
  split; [done|]. split; [done|]. intros a b Ha Hb. apply H3; [done|by right].
Qed.

(** Different nodes have different keys. *)
Lemma key_sorted_unique l a b : key_sorted l -> a ∈ l -> b ∈ l -> k a = k b -> a = b.
Proof.
  induction 1 as [|x l _ IH Hx]; intros Ha Hb E; [by apply not_elem_of_nil in Ha|].
  rewrite Forall_forall in Hx.
  apply elem_of_cons in Ha as [->|Ha]; apply elem_of_cons in Hb as [->|Hb]; [done| | |by apply IH].
  - specialize (Hx b Hb). unfold key_lt in Hx. by rewrite E, lex_refl in Hx.
  - specialize (Hx a Ha). unfold key_lt in Hx. by rewrite E, lex_refl in Hx.
Qed.

Lemma key_sorted_NoDup l : key_sorted l -> NoDup l.
Proof.
  induction 1 as [|x l _ IH Hx]; constructor; [|done]. intros Hin.
  rewrite Forall_forall in Hx. by apply (key_lt_irrefl x), Hx.
Qed.

(** Filtering keeps the order. *)
Lemma key_sorted_filter (P : A -> Prop) `{!forall x, Decision (P x)} l :
  key_sorted l -> key_sorted (filter P l).
Proof.
  induction 1 as [|x l Hl IH Hx]; [constructor|]. rewrite filter_cons. case_decide; [|done].
  constructor; [done|]. apply Forall_forall. intros y [_ Hy]%list_elem_of_filter.
  by apply (proj1 (Forall_forall _ _) Hx).
Qed.

Context (c : A -> Z) (key : list Z).

(** The comparison of an element of that key with the nodes. *)
Definition compares (l : list A) : Prop := Forall (fun x => Z.sgn (c x) = lex key (k x)) l.

Lemma compares_cut l : key_sorted l -> compares l -> cut c l.
Proof.
  unfold cut. induction 1 as [|x l _ IH Hx]; intros Hc; [constructor|].
  apply Forall_cons in Hc as [Hcx Hc]. constructor; [by apply IH|].
  rewrite Forall_forall in Hx. unfold compares in Hc. rewrite Forall_forall in Hc. apply Forall_forall. intros y Hy.
  specialize (Hx y Hy). specialize (Hc y Hy).
  destruct (lex_values key (k x)) as [E|[E|E]].
  - right. assert (lex key (k y) = -1) as E' by (by eapply lex_trans). rewrite E' in Hc.
    pose proof (Z.sgn_spec (c y)). lia.
  - apply lex_eq in E as ->. right. unfold key_lt in Hx. rewrite Hx in Hc. pose proof (Z.sgn_spec (c y)). lia.
  - left. rewrite E in Hcx. pose proof (Z.sgn_spec (c x)). lia.
Qed.

Lemma ordered_find_Some l x : ordered_find c l = Some x -> compares l -> x ∈ l /\ k x = key.
Proof.
  induction l as [|y l IH]; [done|]. intros H Hc. apply Forall_cons in Hc as [Hy Hc]. cbn in H.
  destruct (Z.eqb_spec (c y) 0) as [E|E].
  - injection H as ->. split; [by left|]. rewrite E in Hy. cbn in Hy. symmetry. by apply lex_eq.
  - destruct (IH H Hc). split; [by right|done].
Qed.

Lemma ordered_find_None l : ordered_find c l = None -> compares l -> Forall (fun x => k x <> key) l.
Proof.
  induction l as [|y l IH]; intros H Hc; [constructor|]. apply Forall_cons in Hc as [Hy Hc]. cbn in H.
  destruct (Z.eqb_spec (c y) 0) as [E|E]; [done|]. constructor; [|by apply IH].
  intros <-. rewrite lex_refl in Hy. apply E. by apply Z.sgn_null_iff.
Qed.

Lemma ordered_find_key l x :
  key_sorted l -> compares l -> ordered_find c l = Some x <-> x ∈ l /\ k x = key.
Proof.
  intros Hs Hc. split; [intros; by apply ordered_find_Some|]. intros [Hx E].
  destruct (ordered_find c l) as [y|] eqn:Hf.
  - apply ordered_find_Some in Hf as [Hy E']; [|done]. f_equal. eapply key_sorted_unique; [done..|congruence].
  - apply ordered_find_None in Hf; [|done]. rewrite Forall_forall in Hf. by destruct (Hf x Hx).
Qed.

(** A new node goes where its key belongs. *)
Lemma ordered_insert_split l n :
  key_sorted l -> compares l -> Forall (fun x => k x <> key) l -> k n = key ->
  exists l1 l2, l = l1 ++ l2 /\ ordered_insert c l n = l1 ++ n :: l2 /\ key_sorted (l1 ++ n :: l2).
Proof.
  intros Hs Hc Hk Hn. induction Hs as [|x l Hl IH Hx].
  { exists [], []. cbn. split; [done|]. split; [done|]. by repeat constructor. }
  apply Forall_cons in Hc as [Hcx Hc]. apply Forall_cons in Hk as [Hkx Hk]. cbn [ordered_insert].
  assert (c x <> 0) as Hne.
  { intros E. rewrite E in Hcx. cbn in Hcx. symmetry in Hcx. apply lex_eq in Hcx. congruence. }
  rewrite (proj2 (Z.eqb_neq _ _)) by done.
  destruct (Z.ltb_spec (c x) 0) as [Hlt|Hgt].
  - exists [], (x :: l). split; [done|]. split; [done|]. cbn. constructor; [by constructor|].
    assert (key_lt n x) as Hnx.
    { unfold key_lt. rewrite Hn, <- Hcx. by apply Z.sgn_neg. }
    constructor; [done|]. eapply Forall_impl; [exact Hx|]. intros y Hy. by eapply key_lt_trans.
  - destruct (IH Hc Hk) as (l1 & l2 & -> & -> & Hs'). exists (x :: l1), l2. split; [done|]. split; [done|].
    cbn. constructor; [done|]. assert (key_lt x n) as Hxn.
    { unfold key_lt. rewrite Hn, lex_opp, <- Hcx, Z.sgn_pos by lia. done. }
    apply Forall_app in Hx as [Hx1 Hx2]. apply Forall_app. split; [done|]. by constructor.
Qed.

Lemma ordered_remove_split l x :
  key_sorted l -> compares l -> x ∈ l -> k x = key ->
  exists l1 l2, l = l1 ++ x :: l2 /\ ordered_remove c l = l1 ++ l2.
Proof.
  intros Hs Hc Hx E. induction Hs as [|y l Hl IH Hy]; [by apply not_elem_of_nil in Hx|].
  apply Forall_cons in Hc as [Hcy Hc]. cbn [ordered_remove].
  destruct (Z.eqb_spec (c y) 0) as [Ey|Ey].
  - rewrite Ey in Hcy. cbn in Hcy. symmetry in Hcy. apply lex_eq in Hcy.
    exists [], l. split; [|done]. cbn. f_equal. apply (key_sorted_unique (y :: l)); [by constructor|by left|done|congruence].
  - apply elem_of_cons in Hx as [->|Hx].
    { rewrite E, lex_refl in Hcy. destruct Ey. by apply Z.sgn_null_iff. }
    destruct (IH Hc Hx) as (l1 & l2 & -> & ->). by exists (y :: l1), l2.
Qed.
End keyed.

(** The keys of the nodes are what matters. *)
Lemma key_sorted_ext {A} (k k' : A -> list Z) l :
  (forall x, x ∈ l -> k x = k' x) -> key_sorted k l -> key_sorted k' l.
Proof.
  intros Hk. induction 1 as [|x l _ IH Hx]; constructor.
  - apply IH. intros y Hy. apply Hk. by right.
  - rewrite Forall_forall in Hx. apply Forall_forall. intros y Hy. unfold key_lt.
    rewrite <- (Hk x), <- (Hk y) by (by left || by right). by apply Hx.
Qed.

(** The comparisons with the nodes are what matters. *)
Lemma ordered_insert_ext {A} (c c' : A -> Z) l n :
  (forall x, x ∈ l -> c x = c' x) -> ordered_insert c l n = ordered_insert c' l n.
Proof.
  intros Hc. induction l as [|y l IH]; [done|]. cbn. rewrite <- (Hc y) by by left.
  rewrite IH; [done|]. intros x Hx. apply Hc. by right.
Qed.
