(* ===== verification/Addr.v ===== *)
(** * Network addresses (src/flowd/addr.c, addr.h)

    Addresses are the 16-byte union of addr.h seen as four 32-bit words in
    memory order, with the address family and the IPv6 scope.  Operations
    return [Some] of what they write when the C function returns 0 and [None]
    when it returns -1; pointer arguments are those of the callers, which never
    pass NULL. *)

From S2P Require Import Prelude Order.

(** ** Data *)

Definition AF_INET : Z := 2.
Definition AF_INET6 : Z := 10.

Record xaddr := Xaddr {
  af : Z;
  addr32 : list Z;       (* union xa, as addr32[0..3] *)
  scope_id : Z
}.

#[export] Instance xaddr_eq_dec : EqDecision xaddr.
Proof. solve_decision. Defined.

(** memset(n, 0, sizeof( *n)). *)
Definition xaddr_zero : xaddr := Xaddr 0 [0; 0; 0; 0] 0.

Definition word (x : xaddr) (i : nat) : Z := nth i (addr32 x) 0.
(** The member v4.s_addr of the union. *)
Definition v4 (x : xaddr) : Z := word x 0.
Definition set_v4 (x : xaddr) (v : Z) : xaddr := Xaddr (af x) (<[0%nat := v]> (addr32 x)) (scope_id x).
(** The member addr8 of the union. *)
Definition addr8 (x : xaddr) : bytes := concat (le_bytes 4 <$> addr32 x).

Definition xaddr_ok (x : xaddr) : Prop :=
  length (addr32 x) = 4%nat /\ Forall u32 (addr32 x) /\ u32 (scope_id x).
(** Addresses of the two families the program knows. *)
Definition inet_ok (x : xaddr) : Prop := xaddr_ok x /\ (af x = AF_INET \/ af x = AF_INET6).

(** ** Operations *)

Definition addr_unicast_masklen (af : Z) : Z :=
  if af =? AF_INET then 32 else if af =? AF_INET6 then 128 else -1.

(** [masklen] is unsigned: the test [masklen < 0] never holds. *)
Definition masklen_valid (af masklen : Z) : Z :=
  if masklen <? 0 then -1
  else if af =? AF_INET then (if masklen <=? 32 then 0 else -1)
  else if af =? AF_INET6 then (if masklen <=? 128 then 0 else -1)
  else -1.

(** The socket addresses of the C library that the code reads and writes. *)
Inductive sockaddr :=
  | sockaddr_in (sin_port sin_addr : Z)
  | sockaddr_in6 (sin6_port : Z) (sin6_addr : list Z) (sin6_scope_id : Z)
  | sockaddr_other (sa_family : Z).
Definition sizeof_sockaddr_in : Z := 16.
Definition sizeof_sockaddr_in6 : Z := 28.

(** The address written and the new value of [*len]. *)
Definition addr_xaddr_to_sa (xa : xaddr) (len port : Z) : option (sockaddr * Z) :=
  if af xa =? AF_INET then
    if len <? sizeof_sockaddr_in then None
    else Some (sockaddr_in (htons port) (v4 xa), sizeof_sockaddr_in)
  else if af xa =? AF_INET6 then
    if len <? sizeof_sockaddr_in6 then None
    else Some (sockaddr_in6 (htons port) (addr32 xa) (scope_id xa), sizeof_sockaddr_in6)
  else None.

Definition addr_sa_to_xaddr (sa : sockaddr) (slen : Z) : option xaddr :=
  match sa with
  | sockaddr_in _ sin_addr =>
      if slen <? sizeof_sockaddr_in then None
      else Some (Xaddr AF_INET [sin_addr; 0; 0; 0] 0)
  | sockaddr_in6 _ sin6_addr scope =>
      if slen <? sizeof_sockaddr_in6 then None
      else Some (Xaddr AF_INET6 sin6_addr scope)
  | sockaddr_other _ => None
  end.

Definition addr_invert (n : xaddr) : option xaddr :=
  if af n =? AF_INET then Some (set_v4 n (lnot32 (v4 n)))
  else if af n =? AF_INET6 then Some (Xaddr (af n) (lnot32 <$> addr32 n) (scope_id n))
  else None.

(** htonl(~(0xffffffffUL >> l)), the mask of a partial word. *)
Definition mask_word (l : Z) : Z := htonl (wrap32 (Z.lnot (Z.shiftr 0xffffffff l))).

(** The words from the current one on: the loop that fills whole words, then
    the partial word, then the zeroes of the memset. *)
Fixpoint netmask6 (n : nat) (l : Z) : list Z :=
  match n with
  | O => []
  | S n =>
      if 32 <=? l then 0xffffffff :: netmask6 n (l - 32)
      else (if l =? 0 then 0 else mask_word l) :: repeat 0 n
  end.

Definition addr_netmask (af l : Z) : option xaddr :=
  if negb (masklen_valid af l =? 0) then None
  else if af =? AF_INET then
    Some (Xaddr AF_INET [if l =? 32 then 0xffffffff else mask_word l; 0; 0; 0] 0)
  else if af =? AF_INET6 then Some (Xaddr AF_INET6 (netmask6 4 l) 0)
  else None.

Definition addr_hostmask (af l : Z) : option xaddr :=
  match addr_netmask af l with
  | Some n => addr_invert n
  | None => None
  end.

Definition addr_and (a b : xaddr) : option xaddr :=
  if negb (af a =? af b) then None
  else if af a =? AF_INET then Some (set_v4 a (Z.land (v4 a) (v4 b)))
  else if af a =? AF_INET6 then
    Some (Xaddr (af a) (zip_with Z.land (addr32 a) (addr32 b)) (scope_id a))
  else None.

Definition addr_or (a b : xaddr) : option xaddr :=
  if negb (af a =? af b) then None
  else if af a =? AF_INET then Some (set_v4 a (Z.lor (v4 a) (v4 b)))
  else if af a =? AF_INET6 then
    Some (Xaddr (af a) (zip_with Z.lor (addr32 a) (addr32 b)) (scope_id a))
  else None.

(** The byte loop of addr_cmp: the first non-zero difference. *)
Fixpoint bytes_diff (a b : bytes) : Z :=
  match a, b with
  | x :: a, y :: b => if x - y =? 0 then bytes_diff a b else x - y
  | _, _ => 0
  end.

Definition addr_cmp (a b : xaddr) : Z :=
  if negb (af a =? af b) then (if af a =? AF_INET6 then 1 else -1)
  else if af a =? AF_INET then
    if v4 a =? v4 b then 0
    else if ntohl (v4 b) <? ntohl (v4 a) then 1 else -1
  else if af a =? AF_INET6 then
    let d := bytes_diff (addr8 a) (addr8 b) in
    if negb (d =? 0) then d
    else if scope_id a =? scope_id b then 0
    else if scope_id b <? scope_id a then 1 else -1
  else -1.

Definition addr_is_all0s (a : xaddr) : Z :=
  if af a =? AF_INET then (if v4 a =? 0 then 0 else -1)
  else if af a =? AF_INET6 then
    if forallb (fun w => w =? 0) (addr32 a) then 0 else -1
  else -1.

Definition addr_host_is_all0s (a : xaddr) (masklen : Z) : Z :=
  match addr_hostmask (af a) masklen with
  | None => -1
  | Some tmp_mask =>
      match addr_and a tmp_mask with
      | None => -1
      | Some tmp_result => addr_is_all0s tmp_result
      end
  end.

Definition addr_host_is_all1s (a : xaddr) (masklen : Z) : Z :=
  match addr_netmask (af a) masklen with
  | None => -1
  | Some tmp_mask =>
      match addr_or a tmp_mask with
      | None => -1
      | Some r =>
          match addr_invert r with
          | None => -1
          | Some tmp_result => addr_is_all0s tmp_result
          end
      end
  end.

Definition addr_host_to_all0s (a : xaddr) (masklen : Z) : option xaddr :=
  match addr_netmask (af a) masklen with
  | None => None
  | Some tmp_mask => addr_and a tmp_mask
  end.

Definition addr_host_to_all1s (a : xaddr) (masklen : Z) : option xaddr :=
  match addr_hostmask (af a) masklen with
  | None => None
  | Some tmp_mask => addr_or a tmp_mask
  end.

Definition addr_netmatch (host net : xaddr) (masklen : Z) : Z :=
  if negb (af host =? af net) then -1
  else
    match addr_netmask (af host) masklen with
    | None => -1
    | Some tmp_mask =>
        match addr_and host tmp_mask with
        | None => -1
        | Some tmp_result => addr_cmp tmp_result net
        end
    end.

(** ** Well-formedness *)

Lemma lookup_word x i : xaddr_ok x -> (i < 4)%nat -> u32 (word x i).
Proof.
  intros (Hl & Hf & _) Hi. unfold word.
  rewrite Forall_forall in Hf. apply Hf, list_elem_of_In, nth_In. lia.
Qed.

Lemma mask_word_u32 l : u32 (mask_word l).
Proof. apply htonl_u32. Qed.

Lemma netmask6_ok n l : length (netmask6 n l) = n /\ Forall u32 (netmask6 n l).
Proof.
  revert l; induction n as [|n IH]; intros l; simpl; [by repeat constructor|].
  case_match.
  - destruct (IH (l - 32)) as [IH1 IH2]. simpl. rewrite IH1. split; [done|].
    constructor; [width; lia|done].
  - simpl. rewrite repeat_length. split; [done|]. constructor.
    + case_match; [width; lia|apply mask_word_u32].
    + apply Forall_forall. intros w Hw%list_elem_of_In%repeat_spec. subst. width. lia.
Qed.

Lemma masklen_valid_spec a l : 0 <= l -> masklen_valid a l = 0 <-> l <= addr_unicast_masklen a.
Proof.
  intros Hl. unfold masklen_valid, addr_unicast_masklen.
  repeat case_match; rewrite ?Z.ltb_lt, ?Z.ltb_ge, ?Z.leb_le, ?Z.leb_gt in *; lia.
Qed.

Lemma addr_netmask_ok a l n : addr_netmask a l = Some n -> xaddr_ok n /\ af n = a.
Proof.
  unfold addr_netmask. case_match; [done|].
  destruct (Z.eqb_spec a AF_INET) as [->|]; [|destruct (Z.eqb_spec a AF_INET6) as [->|]; [|done]].
  - intros [= <-]. split; [|done]. split; [done|]. split; [|simpl; width; lia]. simpl.
    constructor; [|repeat constructor; width; lia]. case_match; [width; lia|apply mask_word_u32].
  - intros [= <-]. split; [|done]. destruct (netmask6_ok 4 l).
    split; [done|]. split; [done|]. simpl. width. lia.
Qed.

Lemma addr_netmask_Some a l :
  0 <= l <= addr_unicast_masklen a -> exists n, addr_netmask a l = Some n.
Proof.
  intros Hl. unfold addr_netmask. apply proj2 in Hl as Hv.
  apply masklen_valid_spec in Hv; [|lia]. rewrite Hv. simpl.
  unfold addr_unicast_masklen in Hl. repeat case_match; eauto; lia.
Qed.

Lemma addr_netmask_None a l :
  0 <= l -> addr_unicast_masklen a < l -> addr_netmask a l = None.
Proof.
  intros Hl Hw. unfold addr_netmask. destruct (Z.eqb_spec (masklen_valid a l) 0) as [Hv|]; [|done].
  apply masklen_valid_spec in Hv; lia.
Qed.

Lemma zip_with_u32 (f : Z -> Z -> Z) (Hf : forall a b, u32 a -> u32 b -> u32 (f a b)) l1 l2 :
  Forall u32 l1 -> Forall u32 l2 -> Forall u32 (zip_with f l1 l2).
Proof.
  intros H1. revert l2; induction H1 as [|a l1 Ha H1 IH]; intros l2 H2; simpl; [constructor|].
  destruct H2; constructor; auto.
Qed.

Lemma set_v4_ok x v : xaddr_ok x -> u32 v -> xaddr_ok (set_v4 x v).
Proof.
  intros (Hl & Hf & Hs) Hv. split; simpl; [by rewrite length_insert|].
  split; [|done]. by apply Forall_insert.
Qed.

(** The two word-wise operations share their shape. *)
Definition addr_map2 (f : Z -> Z -> Z) (a b : xaddr) : option xaddr :=
  if negb (af a =? af b) then None
  else if af a =? AF_INET then Some (set_v4 a (f (v4 a) (v4 b)))
  else if af a =? AF_INET6 then
    Some (Xaddr (af a) (zip_with f (addr32 a) (addr32 b)) (scope_id a))
  else None.

Lemma addr_and_map2 a b : addr_and a b = addr_map2 Z.land a b.
Proof. done. Qed.
Lemma addr_or_map2 a b : addr_or a b = addr_map2 Z.lor a b.
Proof. done. Qed.

Lemma addr_map2_ok f a b c :
  (forall a b, u32 a -> u32 b -> u32 (f a b)) ->
  inet_ok a -> xaddr_ok b -> addr_map2 f a b = Some c -> inet_ok c /\ af c = af a.
Proof.
  intros Hf [Ha Haf] Hb. unfold addr_map2. case_match; [done|].
  case_match; [|case_match; [|done]]; intros [= <-]; (split; [|done]); split; try done.
  - apply set_v4_ok; [done|]. apply Hf; by apply lookup_word; [|lia].
  - destruct Ha as (? & ? & ?), Hb as (? & ? & ?).
    split; simpl; [rewrite length_zip_with; lia|]. split; [|done]. by apply zip_with_u32.
Qed.

Lemma addr_invert_ok n m : inet_ok n -> addr_invert n = Some m -> inet_ok m /\ af m = af n.
Proof.
  intros [Hn Haf]. unfold addr_invert.
  case_match; [|case_match; [|done]]; intros [= <-]; (split; [|done]); split; try done.
  - apply set_v4_ok; [done|]. apply lnot32_u32, lookup_word; [done|lia].
  - destruct Hn as (? & ? & ?). split; simpl; [by rewrite length_fmap|]. split; [|done].
    apply Forall_fmap. eapply Forall_impl; [eassumption|]. intros w Hw. by apply lnot32_u32.
Qed.

(** ** Addresses as bit strings in network order *)

(** Bit [k] of a 32-bit word on the wire is bit [net_bitpos k] of the value the
    little-endian host loads. *)
Definition net_bitpos (k : Z) : Z := 8 * (k / 8) + 7 - k mod 8.
Definition addr_bit (x : xaddr) (i : Z) : bool :=
  Z.testbit (word x (Z.to_nat (i / 32))) (net_bitpos (i mod 32)).
Definition addr_width (x : xaddr) : Z := addr_unicast_masklen (af x).

Lemma net_bitpos_range k : 0 <= k < 32 -> 0 <= net_bitpos k < 32.
Proof. intros. unfold net_bitpos. Z.to_euclidean_division_equations. lia. Qed.

Lemma net_bitpos_involutive k : 0 <= k < 32 -> net_bitpos (net_bitpos k) = k.
Proof.
  intros Hk. apply Z.eqb_eq. revert k Hk.
  apply (range_forallb_spec 32 (fun k => net_bitpos (net_bitpos k) =? k)). done.
Qed.

Lemma word_net_inj a b :
  u32 a -> u32 b ->
  (forall k, 0 <= k < 32 -> Z.testbit a (net_bitpos k) = Z.testbit b (net_bitpos k)) -> a = b.
Proof.
  intros Ha Hb H. apply u32_bits_inj; [done..|]. intros i Hi.
  rewrite <- (net_bitpos_involutive i) by done. by apply H, net_bitpos_range.
Qed.

Lemma mask_word_bit l k :
  0 <= l < 32 -> 0 <= k < 32 -> Z.testbit (mask_word l) (net_bitpos k) = (k <? l).
Proof.
  intros Hl Hk. apply eqb_prop. revert k Hk.
  apply (range_forallb_spec 32). revert l Hl.
  apply (range_forallb_spec 32 (fun l => range_forallb 32 (fun k =>
    Bool.eqb (Z.testbit (mask_word l) (net_bitpos k)) (k <? l)))).
  vm_compute. reflexivity.
Qed.

Lemma netmask6_bit n l j k :
  0 <= l -> (j < n)%nat -> 0 <= k < 32 ->
  Z.testbit (nth j (netmask6 n l) 0) (net_bitpos k) = (32 * Z.of_nat j + k <? l).
Proof.
  revert l j; induction n as [|n IH]; intros l j Hl Hj Hk; [lia|]. simpl.
  destruct (Z.leb_spec 32 l).
  - destruct j as [|j]; simpl nth.
    + change 4294967295 with (Z.ones 32). rewrite Z.ones_spec_low by (by apply net_bitpos_range).
      symmetry. apply Z.ltb_lt. lia.
    + rewrite IH by lia. apply eq_true_iff_eq. rewrite !Z.ltb_lt. lia.
  - destruct j as [|j]; simpl nth.
    + destruct (Z.eqb_spec l 0).
      * rewrite Z.testbit_0_l. symmetry. apply Z.ltb_ge. lia.
      * rewrite mask_word_bit by lia. done.
    + rewrite nth_repeat, Z.testbit_0_l. symmetry. apply Z.ltb_ge. lia.
Qed.

Lemma netmask_bit a l n i :
  0 <= l -> addr_netmask a l = Some n -> 0 <= i < addr_unicast_masklen a ->
  addr_bit n i = (i <? l).
Proof.
  unfold addr_netmask. intros Hl Hn Hi.
  destruct (Z.eqb_spec (masklen_valid a l) 0) as [Hv|]; [|done].
  apply masklen_valid_spec in Hv; [|done]. cbn [negb] in Hn.
  assert (0 <= i mod 32 < 32) by (apply Z.mod_pos_bound; lia).
  unfold addr_bit, addr_unicast_masklen in *.
  destruct (a =? AF_INET); [|destruct (a =? AF_INET6); [|done]].
  - injection Hn as <-. rewrite Z.div_small, Z.mod_small by lia. unfold word; simpl.
    case_match.
    + change 4294967295 with (Z.ones 32). rewrite Z.ones_spec_low by (apply net_bitpos_range; lia).
      symmetry. apply Z.ltb_lt. lia.
    + apply mask_word_bit; lia.
  - apply (inj Some) in Hn. subst n. unfold word; cbn [addr32].
    assert (0 <= i / 32 < 4) by (split; [apply Z.div_pos|apply Z.div_lt_upper_bound]; lia).
    rewrite netmask6_bit by lia.
    rewrite Z2Nat.id by lia. f_equal. pose proof (Z.div_mod i 32). lia.
Qed.

(** A family has [addr_width] bits, which lie in the words compared below. *)
Lemma bit_word_index x i :
  0 <= i < addr_width x -> (Z.to_nat (i / 32) < 4)%nat /\ 0 <= i mod 32 < 32 /\
  (af x = AF_INET -> Z.to_nat (i / 32) = 0%nat).
Proof.
  unfold addr_width, addr_unicast_masklen. intros Hi.
  assert (0 <= i mod 32 < 32) by (apply Z.mod_pos_bound; lia).
  destruct (Z.eqb_spec (af x) AF_INET).
  - rewrite Z.div_small by lia. repeat split; lia.
  - assert (0 <= i / 32 < 4); [|repeat split; [lia..|done]].
    split; [apply Z.div_pos|apply Z.div_lt_upper_bound]; repeat case_match; lia.
Qed.

Lemma word_zip f a b j :
  length a = 4%nat -> length b = 4%nat -> (j < 4)%nat ->
  nth j (zip_with f a b) 0 = f (nth j a 0) (nth j b 0).
Proof.
  intros Ha Hb Hj.
  destruct a as [|?[|?[|?[|?[|]]]]], b as [|?[|?[|?[|?[|]]]]]; try done.
  by destruct j as [|[|[|[|]]]]; [..|lia].
Qed.

Lemma map2_bit f a b c i :
  inet_ok a -> inet_ok b -> addr_map2 f a b = Some c -> 0 <= i < addr_width a ->
  exists x y k, x = word a (Z.to_nat (i / 32)) /\ y = word b (Z.to_nat (i / 32)) /\
    k = net_bitpos (i mod 32) /\ addr_bit c i = Z.testbit (f x y) k.
Proof.
  intros [(Hla & _) Haf] [(Hlb & _) Hbf] Hc Hi.
  destruct (bit_word_index a i Hi) as (Hj & Hk & H4).
  unfold addr_map2 in Hc. destruct (Z.eqb_spec (af a) (af b)) as [Hab|]; [|done]. simpl in Hc.
  destruct (Z.eqb_spec (af a) AF_INET) as [E|].
  - injection Hc as <-. unfold addr_bit. rewrite H4 by done. eexists _, _, _.
    split; [done|]. split; [done|]. split; [done|]. unfold set_v4, v4, word; simpl.
    by destruct (addr32 a).
  - destruct (Z.eqb_spec (af a) AF_INET6); [|done]. injection Hc as <-.
    eexists _, _, _. split; [done|]. split; [done|]. split; [done|].
    unfold addr_bit, word; cbn [addr32]. by rewrite word_zip.
Qed.

Lemma addr_and_bit a b c i :
  inet_ok a -> inet_ok b -> addr_and a b = Some c -> 0 <= i < addr_width a ->
  addr_bit c i = addr_bit a i && addr_bit b i.
Proof.
  intros Ha Hb Hc Hi. rewrite addr_and_map2 in Hc.
  destruct (map2_bit _ a b c i Ha Hb Hc Hi) as (? & ? & ? & -> & -> & -> & ->). apply Z.land_spec.
Qed.

Lemma addr_or_bit a b c i :
  inet_ok a -> inet_ok b -> addr_or a b = Some c -> 0 <= i < addr_width a ->
  addr_bit c i = addr_bit a i || addr_bit b i.
Proof.
  intros Ha Hb Hc Hi. rewrite addr_or_map2 in Hc.
  destruct (map2_bit _ a b c i Ha Hb Hc Hi) as (? & ? & ? & -> & -> & -> & ->). apply Z.lor_spec.
Qed.

Lemma addr_invert_bit a c i :
  inet_ok a -> addr_invert a = Some c -> 0 <= i < addr_width a ->
  addr_bit c i = negb (addr_bit a i).
Proof.
  intros [(Hla & _) Haf] Hc Hi. destruct (bit_word_index a i Hi) as (Hj & Hk & H4).
  unfold addr_invert in Hc. destruct (Z.eqb_spec (af a) AF_INET).
  - injection Hc as <-. unfold addr_bit. rewrite H4 by done. unfold set_v4, v4, word; simpl.
    destruct (addr32 a); [done|]. simpl. by rewrite lnot32_testbit by (by apply net_bitpos_range).
  - destruct (Z.eqb_spec (af a) AF_INET6); [|done]. injection Hc as <-.
    unfold addr_bit, word; cbn [addr32]. rewrite <- lnot32_testbit by (by apply net_bitpos_range).
    f_equal. destruct (addr32 a) as [|?[|?[|?[|?[|]]]]]; try done.
    by destruct (Z.to_nat (i / 32)) as [|[|[|[|]]]]; [..|lia].
Qed.

(** Equality of the bits of a family is equality of its words. *)
Lemma addr_words_eq a b :
  inet_ok a -> inet_ok b -> af a = af b ->
  (forall i, 0 <= i < addr_width a -> addr_bit a i = addr_bit b i) ->
  if af a =? AF_INET then v4 a = v4 b else addr32 a = addr32 b.
Proof.
  intros [Ha Haf] [Hb Hbf] Hab H.
  assert (forall j, (j < 4)%nat -> 32 * Z.of_nat j < addr_width a -> word a j = word b j) as Hw.
  { intros j Hj Hlt. apply word_net_inj; [by apply lookup_word..|]. intros k Hk.
    assert (32 * Z.of_nat j + k < addr_width a).
    { unfold addr_width, addr_unicast_masklen in *. repeat case_match; lia. }
    specialize (H (32 * Z.of_nat j + k) ltac:(lia)). unfold addr_bit in H.
    rewrite (Z.mul_comm 32), Z.div_add_l, Z.div_small, Z.add_0_r, Nat2Z.id in H by lia.
    rewrite (Z.add_comm (_ * 32)), Z.mod_add, Z.mod_small in H by lia. done. }
  unfold addr_width, addr_unicast_masklen in Hw.
  destruct (Z.eqb_spec (af a) AF_INET) as [|E]; [apply (Hw 0%nat); lia|].
  destruct (Z.eqb_spec (af a) AF_INET6); [|lia].
  destruct Ha as (Hla & _), Hb as (Hlb & _). unfold word in Hw.
  destruct (addr32 a) as [|?[|?[|?[|?[|]]]]], (addr32 b) as [|?[|?[|?[|?[|]]]]]; try done.
  pose proof (Hw 0%nat ltac:(lia) ltac:(lia)). pose proof (Hw 1%nat ltac:(lia) ltac:(lia)).
  pose proof (Hw 2%nat ltac:(lia) ltac:(lia)). pose proof (Hw 3%nat ltac:(lia) ltac:(lia)).
  simpl in *. by subst.
Qed.

Lemma addr_words_bits a b i :
  af a = af b -> (if af a =? AF_INET then v4 a = v4 b else addr32 a = addr32 b) ->
  0 <= i < addr_width a -> addr_bit a i = addr_bit b i.
Proof.
  intros Hab Hw Hi. destruct (bit_word_index a i Hi) as (_ & _ & H4).
  unfold addr_bit. destruct (Z.eqb_spec (af a) AF_INET).
  - rewrite H4 by done. unfold v4 in Hw. by rewrite Hw.
  - unfold word. by rewrite Hw.
Qed.

(** ** addr_cmp as an order *)

(** The family, then the address in network order, then the IPv6 scope. *)
Definition addr_key (x : xaddr) : list Z :=
  af x :: (if af x =? AF_INET then [ntohl (v4 x)] else addr8 x ++ [scope_id x]).

Lemma bytes_diff_lex a b : length a = length b -> Z.sgn (bytes_diff a b) = lex a b.
Proof.
  revert b; induction a as [|x a IH]; intros [|y b]; simpl; try done.
  intros [= Hl]. destruct (Z.eqb_spec (x - y) 0).
  - replace y with x by lia. rewrite Z.ltb_irrefl. by apply IH.
  - destruct (Z.ltb_spec x y); [by apply Z.sgn_neg; lia|].
    destruct (Z.ltb_spec y x); [by apply Z.sgn_pos; lia|lia].
Qed.

Lemma length_addr8 x : xaddr_ok x -> length (addr8 x) = 16%nat.
Proof.
  intros (Hl & _). unfold addr8. by destruct (addr32 x) as [|?[|?[|?[|?[|]]]]].
Qed.

Lemma addr8_inj a b : xaddr_ok a -> xaddr_ok b -> addr8 a = addr8 b -> addr32 a = addr32 b.
Proof.
  intros (Hla & Hfa & _) (Hlb & Hfb & _). unfold addr8.
  assert (length (addr32 b) = length (addr32 a)) as Hlen by lia.
  clear Hla Hlb. revert Hfb Hlen. generalize (addr32 b) as l2.
  induction Hfa as [|x l1 Hx Hfa IH]; intros l2 Hfb Hlen.
  { by destruct l2. }
  destruct Hfb as [|y l2 Hy Hfb]; [done|]. rewrite !fmap_cons. cbn [concat]. intros Happ.
  apply app_inj_1 in Happ as [H1 H2]; [|by rewrite !length_le_bytes].
  f_equal; [|apply IH; [done|by injection Hlen|done]].
  rewrite <- (le_val_le_bytes 4 x), <- (le_val_le_bytes 4 y) by done. by rewrite H1.
Qed.

#[export] Instance addr_cmp_key : CmpKey inet_ok addr_cmp addr_key.
Proof.
  intros a b [Ha Haf] [Hb Hbf]. unfold addr_cmp, addr_key.
  destruct (Z.eqb_spec (af a) (af b)) as [Hab|Hab]; cbn [negb].
  - rewrite <- Hab. rewrite lex_cons. destruct (Z.eqb_spec (af a) AF_INET) as [|E].
    + simpl. destruct (Z.eqb_spec (v4 a) (v4 b)) as [->|Hne]; [by rewrite Z.ltb_irrefl|].
      lex_cases; try done; try lia. exfalso. apply Hne.
      apply ntohl_inj; [apply lookup_word; [done|lia]..|lia].
    + destruct (Z.eqb_spec (af a) AF_INET6); [|lia].
      pose proof (bytes_diff_lex (addr8 a) (addr8 b)) as Hd.
      rewrite !length_addr8 in Hd by done. specialize (Hd eq_refl).
      destruct (Z.eqb_spec (bytes_diff (addr8 a) (addr8 b)) 0) as [E0|E0]; cbn [negb].
      * rewrite E0 in Hd. symmetry in Hd. apply lex_eq in Hd as ->.
        rewrite lex_app_l. simpl.
        destruct (Z.eqb_spec (scope_id a) (scope_id b)) as [->|]; [by rewrite Z.ltb_irrefl|].
        lex_cases; try done; lia.
      * rewrite Hd, lex_app_ne; [done|by rewrite !length_addr8|]. rewrite <- Hd.
        by rewrite Z.sgn_null_iff.
  - unfold AF_INET, AF_INET6 in *. destruct Haf as [Haf|Haf], Hbf as [Hbf|Hbf]; rewrite Haf, Hbf in *;
      try done; simpl; lex_cases; done || lia.
Qed.

Lemma addr_key_eq a b :
  inet_ok a -> inet_ok b -> addr_key a = addr_key b <->
  af a = af b /\ (forall i, 0 <= i < addr_width a -> addr_bit a i = addr_bit b i) /\
  (af a = AF_INET6 -> scope_id a = scope_id b).
Proof.
  intros Ha Hb. unfold addr_key. split.
  - intros [= Hab Hk]. split; [done|]. rewrite <- Hab in Hk.
    pose proof (addr_words_bits a b) as Hw.
    destruct (Z.eqb_spec (af a) AF_INET) as [E|E].
    + split; [|intros E'; rewrite E in E'; discriminate].
      intros i Hi. apply Hw; [done| |done]. injection Hk as Hk.
      apply ntohl_inj; [apply lookup_word; [apply Ha|lia]|apply lookup_word; [apply Hb|lia]|done].
    + apply app_inj_2 in Hk as [H8 Hs]; [|done]. split; [|intros _; by injection Hs].
      intros i Hi. apply Hw; [done| |done]. apply addr8_inj; [apply Ha|apply Hb|done].
  - intros (Hab & Hbits & Hs). rewrite <- Hab. f_equal.
    pose proof (addr_words_eq a b Ha Hb Hab Hbits) as Hw.
    destruct (Z.eqb_spec (af a) AF_INET); [by rewrite Hw|].
    unfold addr8. rewrite Hw. rewrite Hs; [done|]. destruct Ha as [_ [|]]; done.
Qed.

Lemma addr_netmatch_unfold host net l m r :
  af host = af net -> addr_netmask (af host) l = Some m -> addr_and host m = Some r ->
  addr_netmatch host net l = addr_cmp r net.
Proof. intros Haf Hm Hr. unfold addr_netmatch. by rewrite Haf, Z.eqb_refl, <- Haf, Hm, Hr. Qed.

Lemma addr_and_Some a b :
  inet_ok a -> af a = af b -> exists c, addr_and a b = Some c /\ scope_id c = scope_id a.
Proof.
  intros [_ Haf] Hab. unfold addr_and. rewrite Hab, Z.eqb_refl. simpl. rewrite <- Hab.
  destruct Haf as [-> | ->]; simpl; eauto.
Qed.

(** The masking step shared by the match and the truncation functions. *)
Lemma addr_mask_spec x l :
  inet_ok x -> 0 <= l <= addr_width x ->
  exists m r, addr_netmask (af x) l = Some m /\ addr_and x m = Some r /\ inet_ok r /\
    af r = af x /\ scope_id r = scope_id x /\
    forall i, 0 <= i < addr_width x -> addr_bit r i = addr_bit x i && (i <? l).
Proof.
  intros Hx Hl. destruct (addr_netmask_Some (af x) l) as [m Hm]; [done|].
  destruct (addr_netmask_ok _ _ _ Hm) as [Hmok Hmaf].
  assert (inet_ok m) as Hm' by (split; [done|rewrite Hmaf; apply Hx]).
  destruct (addr_and_Some x m) as (r & Hr & Hs); [done..|].
  destruct (addr_map2_ok Z.land x m r) as [Hrok Hraf]; [by auto with width|done..|].
  exists m, r. repeat (split; [done|]). intros i Hi.
  rewrite (addr_and_bit x m r i) by done.
  by rewrite (netmask_bit (af x) l m i) by (done || lia).
Qed.

Lemma addr_netmatch_iff host net masklen :
  inet_ok host -> inet_ok net -> 0 <= masklen ->
  addr_netmatch host net masklen = 0 <->
    af host = af net /\ masklen <= addr_width host /\
    (forall i, 0 <= i < masklen -> addr_bit host i = addr_bit net i) /\
    (forall i, masklen <= i < addr_width host -> addr_bit net i = false) /\
    (af host = AF_INET6 -> scope_id host = scope_id net).
Proof.
  intros Hh Hn Hl. destruct (decide (af host = af net)) as [Haf|Haf]; cycle 1.
  { unfold addr_netmatch. rewrite (proj2 (Z.eqb_neq _ _) Haf). split; [discriminate|].
    by intros [E _]. }
  destruct (decide (masklen <= addr_width host)) as [Hw|Hw]; cycle 1.
  { unfold addr_netmatch. rewrite (addr_netmask_None (af host)) by (unfold addr_width in Hw; lia).
    case_match; (split; [discriminate|]); intros (_ & ? & _); lia. }
  destruct (addr_mask_spec host masklen Hh ltac:(lia)) as (m & r & Hm & Hr & Hrok & Hraf & Hs & Hbit).
  rewrite (addr_netmatch_unfold _ _ _ m r) by done. rewrite cmp_zero by done.
  rewrite addr_key_eq by done. unfold addr_width in *. rewrite Hraf, Hs. split.
  - intros (_ & Hb & Hsc). repeat (split; [done || lia|]). split; [|split; [|done]]; intros i Hi.
    + rewrite <- Hb, Hbit by lia. destruct (Z.ltb_spec i masklen); [|lia]. by rewrite andb_true_r.
    + rewrite <- Hb, Hbit by lia. destruct (Z.ltb_spec i masklen); [lia|]. by rewrite andb_false_r.
  - intros (_ & _ & H1 & H2 & Hsc). split; [done|]. split; [|done]. intros i Hi.
    rewrite Hbit by done. destruct (Z.ltb_spec i masklen).
    + rewrite andb_true_r. apply H1. lia.
    + rewrite andb_false_r. symmetry. apply H2. lia.
Qed.

(** ** Properties *)

(** Addr_netmatch returns 0 exactly when the address and the network have
    the same family, the prefix length is valid for it, the first [masklen]
    bits in network order agree and the network has no bit set after them
    (IPv6 scopes must also agree). *)
Theorem addr_netmatch_spec host net masklen :
  inet_ok host -> inet_ok net -> 0 <= masklen ->
  addr_netmatch host net masklen = 0 <->
    af host = af net /\ masklen <= addr_width host /\
    (forall i, 0 <= i < masklen -> addr_bit host i = addr_bit net i) /\
    (forall i, masklen <= i < addr_width host -> addr_bit net i = false) /\
    (af host = AF_INET6 -> scope_id host = scope_id net).
Proof. apply addr_netmatch_iff. Qed.

Definition ip4 (a b c d : Z) : xaddr := Xaddr AF_INET [le_val [a; b; c; d]; 0; 0; 0] 0.

Lemma ip4_ok a b c d : Forall u8 [a; b; c; d] -> inet_ok (ip4 a b c d).
Proof.
  intros H. split; [|by left]. split; [done|]. split; [|simpl; width; lia]. simpl addr32.
  constructor; [apply (le_val_bound [a; b; c; d]); done|]. repeat constructor; width; lia.
Qed.

Ltac inet4 := apply ip4_ok; repeat constructor; width; lia.

Lemma addr_netmatch_spec_witness :
  addr_netmatch (ip4 10 1 2 3) (ip4 10 1 0 0) 16 = 0 /\
  forall i, 0 <= i < 16 -> addr_bit (ip4 10 1 2 3) i = addr_bit (ip4 10 1 0 0) i.
Proof.
  split; [reflexivity|].
  apply (addr_netmatch_spec (ip4 10 1 2 3) (ip4 10 1 0 0) 16);
    [inet4|inet4|lia|reflexivity].
Defined.

(** Clearing the host part of an address succeeds for every valid prefix
    length, keeps the prefix, and the result is a network that the original
    address matches and whose host part addr_host_is_all0s accepts. *)
Theorem addr_host_to_all0s_spec a masklen :
  inet_ok a -> 0 <= masklen <= addr_width a ->
  exists n, addr_host_to_all0s a masklen = Some n /\
    (forall i, 0 <= i < addr_width a -> addr_bit n i = addr_bit a i && (i <? masklen)) /\
    addr_netmatch a n masklen = 0 /\ addr_netmatch n n masklen = 0.
Proof.
  intros Ha Hl. destruct (addr_mask_spec a masklen Ha Hl) as (m & r & Hm & Hr & Hrok & Hraf & Hs & Hbit).
  exists r. split; [unfold addr_host_to_all0s; by rewrite Hm|]. split; [done|].
  assert (addr_width r = addr_width a) as Hw by (unfold addr_width; by rewrite Hraf).
  assert (forall i, 0 <= i < masklen -> addr_bit r i = addr_bit a i) as Hpre.
  { intros i Hi. rewrite Hbit by lia. destruct (Z.ltb_spec i masklen); [|lia].
    by rewrite andb_true_r. }
  assert (forall i, masklen <= i < addr_width a -> addr_bit r i = false) as Hpost.
  { intros i Hi. rewrite Hbit by lia. destruct (Z.ltb_spec i masklen); [lia|].
    by rewrite andb_false_r. }
  split; apply addr_netmatch_spec; try done; try lia; rewrite ?Hw.
  - split; [done|]. split; [lia|]. split; [by intros; rewrite Hpre|]. done.
  - split; [done|]. split; [lia|]. done.
Qed.

Lemma addr_host_to_all0s_spec_witness :
  exists n, addr_host_to_all0s (ip4 192 168 7 9) 24 = Some n /\
    addr_netmatch (ip4 192 168 7 9) n 24 = 0.
Proof.
  destruct (addr_host_to_all0s_spec (ip4 192 168 7 9) 24) as (n & Hn & _ & Hm & _).
  - inet4.
  - split; [lia|]. vm_compute. discriminate.
  - exists n. split; [exact Hn|exact Hm].
Defined.
