(* ===== verification/StoreTypes.v ===== *)
(** * On-disk flow records: data (src/flowd/store.h)

    The packed structs of the version 3 log format, the abstract record that
    gathers them, the field bits and the error codes. *)

From S2P Require Import Prelude Packed Addr.

(** ** Versions and field bits *)

Definition STORE_VER_MAJOR : Z := 3.
Definition STORE_VER_MINOR : Z := 0.
Definition STORE_MKVER (maj min : Z) : Z := Z.lor (Z.shiftl (Z.land maj 7) 5) (Z.land min 31).
Definition STORE_VER_GET_MAJ (ver : Z) : Z := Z.land (Z.shiftr ver 5) 7.
Definition STORE_VER_GET_MIN (ver : Z) : Z := Z.land ver 31.
Definition STORE_VERSION : Z := STORE_MKVER STORE_VER_MAJOR STORE_VER_MINOR.

Definition STORE_FIELD_TAG : Z := 1.          (* 1U << 0 *)
Definition STORE_FIELD_RECV_TIME : Z := 2.          (* 1U << 1 *)
Definition STORE_FIELD_PROTO_FLAGS_TOS : Z := 4.          (* 1U << 2 *)
Definition STORE_FIELD_AGENT_ADDR4 : Z := 8.          (* 1U << 3 *)
Definition STORE_FIELD_AGENT_ADDR6 : Z := 16.          (* 1U << 4 *)
Definition STORE_FIELD_SRC_ADDR4 : Z := 32.          (* 1U << 5 *)
Definition STORE_FIELD_SRC_ADDR6 : Z := 64.          (* 1U << 6 *)
Definition STORE_FIELD_DST_ADDR4 : Z := 128.          (* 1U << 7 *)
Definition STORE_FIELD_DST_ADDR6 : Z := 256.          (* 1U << 8 *)
Definition STORE_FIELD_GATEWAY_ADDR4 : Z := 512.          (* 1U << 9 *)
Definition STORE_FIELD_GATEWAY_ADDR6 : Z := 1024.          (* 1U << 10 *)
Definition STORE_FIELD_SRCDST_PORT : Z := 2048.          (* 1U << 11 *)
Definition STORE_FIELD_PACKETS : Z := 4096.          (* 1U << 12 *)
Definition STORE_FIELD_OCTETS : Z := 8192.          (* 1U << 13 *)
Definition STORE_FIELD_IF_INDICES : Z := 16384.          (* 1U << 14 *)
Definition STORE_FIELD_AGENT_INFO : Z := 32768.          (* 1U << 15 *)
Definition STORE_FIELD_FLOW_TIMES : Z := 65536.          (* 1U << 16 *)
Definition STORE_FIELD_AS_INFO : Z := 131072.          (* 1U << 17 *)
Definition STORE_FIELD_FLOW_ENGINE_INFO : Z := 262144.          (* 1U << 18 *)
Definition STORE_FIELD_CRC32 : Z := 1073741824.    (* 1U << 30 *)
Definition STORE_FIELD_ALL : Z := Z.lor (Z.shiftl 1 19 - 1) STORE_FIELD_CRC32.
Definition STORE_FIELD_AGENT_ADDR : Z := Z.lor STORE_FIELD_AGENT_ADDR4 STORE_FIELD_AGENT_ADDR6.
Definition STORE_FIELD_SRC_ADDR : Z := Z.lor STORE_FIELD_SRC_ADDR4 STORE_FIELD_SRC_ADDR6.
Definition STORE_FIELD_DST_ADDR : Z := Z.lor STORE_FIELD_DST_ADDR4 STORE_FIELD_DST_ADDR6.
Definition STORE_FIELD_GATEWAY_ADDR : Z := Z.lor STORE_FIELD_GATEWAY_ADDR4 STORE_FIELD_GATEWAY_ADDR6.

(** ** Error codes *)
Definition STORE_ERR_OK : Z := 0.
Definition STORE_ERR_EOF : Z := 1.
Definition STORE_ERR_BAD_MAGIC : Z := 2.
Definition STORE_ERR_UNSUP_VERSION : Z := 3.
Definition STORE_ERR_BUFFER_SIZE : Z := 4.
Definition STORE_ERR_FLOW_INVALID : Z := 5.
Definition STORE_ERR_CRC_MISMATCH : Z := 6.
Definition STORE_ERR_INTERNAL : Z := 7.
Definition STORE_ERR_IO : Z := 8.
Definition STORE_ERR_IO_SEEK : Z := 9.
Definition STORE_ERR_CORRUPT : Z := 16.

(** ** Structs

    The byte arrays of struct store_addr4 and store_addr6 are held as the words
    they are copied to and from (the members v4 and addr32 of struct xaddr). *)

Record store_flow := Mk_store_flow {
  version : Z;
  len_words : Z;
  reserved : Z;
  fields : Z
}.
#[export] Instance store_flow_packed : Packed store_flow := {|
  widths := [1; 1; 2; 4]%nat;
  to_ints r := [version r; len_words r; reserved r; fields r];
  of_ints l :=
    match l with
    | [x0; x1; x2; x3] => Mk_store_flow x0 x1 x2 x3
    | _ => Mk_store_flow 0 0 0 0
    end
|}.
#[export] Instance store_flow_laws : PackedLaws store_flow.
Proof. packed_laws. Qed.

Record store_flow_TAG := Mk_store_flow_TAG {
  tag : Z
}.
#[export] Instance store_flow_TAG_packed : Packed store_flow_TAG := {|
  widths := [4]%nat;
  to_ints r := [tag r];
  of_ints l :=
    match l with
    | [x0] => Mk_store_flow_TAG x0
    | _ => Mk_store_flow_TAG 0
    end
|}.
#[export] Instance store_flow_TAG_laws : PackedLaws store_flow_TAG.
Proof. packed_laws. Qed.

Record store_flow_RECV_TIME := Mk_store_flow_RECV_TIME {
  recv_sec : Z;
  recv_usec : Z
}.
#[export] Instance store_flow_RECV_TIME_packed : Packed store_flow_RECV_TIME := {|
  widths := [4; 4]%nat;
  to_ints r := [recv_sec r; recv_usec r];
  of_ints l :=
    match l with
    | [x0; x1] => Mk_store_flow_RECV_TIME x0 x1
    | _ => Mk_store_flow_RECV_TIME 0 0
    end
|}.
#[export] Instance store_flow_RECV_TIME_laws : PackedLaws store_flow_RECV_TIME.
Proof. packed_laws. Qed.

Record store_flow_PROTO_FLAGS_TOS := Mk_store_flow_PROTO_FLAGS_TOS {
  tcp_flags : Z;
  protocol : Z;
  tos : Z;
  pft_pad : Z
}.
#[export] Instance store_flow_PROTO_FLAGS_TOS_packed : Packed store_flow_PROTO_FLAGS_TOS := {|
  widths := [1; 1; 1; 1]%nat;
  to_ints r := [tcp_flags r; protocol r; tos r; pft_pad r];
  of_ints l :=
    match l with
    | [x0; x1; x2; x3] => Mk_store_flow_PROTO_FLAGS_TOS x0 x1 x2 x3
    | _ => Mk_store_flow_PROTO_FLAGS_TOS 0 0 0 0
    end
|}.
#[export] Instance store_flow_PROTO_FLAGS_TOS_laws : PackedLaws store_flow_PROTO_FLAGS_TOS.
Proof. packed_laws. Qed.

Record store_addr4 := Mk_store_addr4 {
  d4 : Z
}.
#[export] Instance store_addr4_packed : Packed store_addr4 := {|
  widths := [4]%nat;
  to_ints r := [d4 r];
  of_ints l :=
    match l with
    | [x0] => Mk_store_addr4 x0
    | _ => Mk_store_addr4 0
    end
|}.
#[export] Instance store_addr4_laws : PackedLaws store_addr4.
Proof. packed_laws. Qed.

Record store_addr6 := Mk_store_addr6 {
  d6_0 : Z;
  d6_1 : Z;
  d6_2 : Z;
  d6_3 : Z
}.
#[export] Instance store_addr6_packed : Packed store_addr6 := {|
  widths := [4; 4; 4; 4]%nat;
  to_ints r := [d6_0 r; d6_1 r; d6_2 r; d6_3 r];
  of_ints l :=
    match l with
    | [x0; x1; x2; x3] => Mk_store_addr6 x0 x1 x2 x3
    | _ => Mk_store_addr6 0 0 0 0
    end
|}.
#[export] Instance store_addr6_laws : PackedLaws store_addr6.
Proof. packed_laws. Qed.

Record store_flow_SRCDST_PORT := Mk_store_flow_SRCDST_PORT {
  src_port : Z;
  dst_port : Z
}.
#[export] Instance store_flow_SRCDST_PORT_packed : Packed store_flow_SRCDST_PORT := {|
  widths := [2; 2]%nat;
  to_ints r := [src_port r; dst_port r];
  of_ints l :=
    match l with
    | [x0; x1] => Mk_store_flow_SRCDST_PORT x0 x1
    | _ => Mk_store_flow_SRCDST_PORT 0 0
    end
|}.
#[export] Instance store_flow_SRCDST_PORT_laws : PackedLaws store_flow_SRCDST_PORT.
Proof. packed_laws. Qed.

Record store_flow_PACKETS := Mk_store_flow_PACKETS {
  flow_packets : Z
}.
#[export] Instance store_flow_PACKETS_packed : Packed store_flow_PACKETS := {|
  widths := [8]%nat;
  to_ints r := [flow_packets r];
  of_ints l :=
    match l with
    | [x0] => Mk_store_flow_PACKETS x0
    | _ => Mk_store_flow_PACKETS 0
    end
|}.
#[export] Instance store_flow_PACKETS_laws : PackedLaws store_flow_PACKETS.
Proof. packed_laws. Qed.

Record store_flow_OCTETS := Mk_store_flow_OCTETS {
  flow_octets : Z
}.
#[export] Instance store_flow_OCTETS_packed : Packed store_flow_OCTETS := {|
  widths := [8]%nat;
  to_ints r := [flow_octets r];
  of_ints l :=
    match l with
    | [x0] => Mk_store_flow_OCTETS x0
    | _ => Mk_store_flow_OCTETS 0
    end
|}.
#[export] Instance store_flow_OCTETS_laws : PackedLaws store_flow_OCTETS.
Proof. packed_laws. Qed.

Record store_flow_IF_INDICES := Mk_store_flow_IF_INDICES {
  if_index_in : Z;
  if_index_out : Z
}.
#[export] Instance store_flow_IF_INDICES_packed : Packed store_flow_IF_INDICES := {|
  widths := [4; 4]%nat;
  to_ints r := [if_index_in r; if_index_out r];
  of_ints l :=
    match l with
    | [x0; x1] => Mk_store_flow_IF_INDICES x0 x1
    | _ => Mk_store_flow_IF_INDICES 0 0
    end
|}.
#[export] Instance store_flow_IF_INDICES_laws : PackedLaws store_flow_IF_INDICES.
Proof. packed_laws. Qed.

Record store_flow_AGENT_INFO := Mk_store_flow_AGENT_INFO {
  sys_uptime_ms : Z;
  time_sec : Z;
  time_nanosec : Z;
  netflow_version : Z;
  ainfo_pad : Z
}.
#[export] Instance store_flow_AGENT_INFO_packed : Packed store_flow_AGENT_INFO := {|
  widths := [4; 4; 4; 2; 2]%nat;
  to_ints r := [sys_uptime_ms r; time_sec r; time_nanosec r; netflow_version r; ainfo_pad r];
  of_ints l :=
    match l with
    | [x0; x1; x2; x3; x4] => Mk_store_flow_AGENT_INFO x0 x1 x2 x3 x4
    | _ => Mk_store_flow_AGENT_INFO 0 0 0 0 0
    end
|}.
#[export] Instance store_flow_AGENT_INFO_laws : PackedLaws store_flow_AGENT_INFO.
Proof. packed_laws. Qed.

Record store_flow_FLOW_TIMES := Mk_store_flow_FLOW_TIMES {
  flow_start : Z;
  flow_finish : Z
}.
#[export] Instance store_flow_FLOW_TIMES_packed : Packed store_flow_FLOW_TIMES := {|
  widths := [4; 4]%nat;
  to_ints r := [flow_start r; flow_finish r];
  of_ints l :=
    match l with
    | [x0; x1] => Mk_store_flow_FLOW_TIMES x0 x1
    | _ => Mk_store_flow_FLOW_TIMES 0 0
    end
|}.
#[export] Instance store_flow_FLOW_TIMES_laws : PackedLaws store_flow_FLOW_TIMES.
Proof. packed_laws. Qed.

Record store_flow_AS_INFO := Mk_store_flow_AS_INFO {
  src_as : Z;
  dst_as : Z;
  src_mask : Z;
  dst_mask : Z;
  asinf_pad : Z
}.
#[export] Instance store_flow_AS_INFO_packed : Packed store_flow_AS_INFO := {|
  widths := [4; 4; 1; 1; 2]%nat;
  to_ints r := [src_as r; dst_as r; src_mask r; dst_mask r; asinf_pad r];
  of_ints l :=
    match l with
    | [x0; x1; x2; x3; x4] => Mk_store_flow_AS_INFO x0 x1 x2 x3 x4
    | _ => Mk_store_flow_AS_INFO 0 0 0 0 0
    end
|}.
#[export] Instance store_flow_AS_INFO_laws : PackedLaws store_flow_AS_INFO.
Proof. packed_laws. Qed.

Record store_flow_FLOW_ENGINE_INFO := Mk_store_flow_FLOW_ENGINE_INFO {
  engine_type : Z;
  engine_id : Z;
  flow_sequence : Z;
  source_id : Z
}.
#[export] Instance store_flow_FLOW_ENGINE_INFO_packed : Packed store_flow_FLOW_ENGINE_INFO := {|
  widths := [2; 2; 4; 4]%nat;
  to_ints r := [engine_type r; engine_id r; flow_sequence r; source_id r];
  of_ints l :=
    match l with
    | [x0; x1; x2; x3] => Mk_store_flow_FLOW_ENGINE_INFO x0 x1 x2 x3
    | _ => Mk_store_flow_FLOW_ENGINE_INFO 0 0 0 0
    end
|}.
#[export] Instance store_flow_FLOW_ENGINE_INFO_laws : PackedLaws store_flow_FLOW_ENGINE_INFO.
Proof. packed_laws. Qed.

Record store_flow_CRC32 := Mk_store_flow_CRC32 {
  crc32 : Z
}.
#[export] Instance store_flow_CRC32_packed : Packed store_flow_CRC32 := {|
  widths := [4]%nat;
  to_ints r := [crc32 r];
  of_ints l :=
    match l with
    | [x0] => Mk_store_flow_CRC32 x0
    | _ => Mk_store_flow_CRC32 0
    end
|}.
#[export] Instance store_flow_CRC32_laws : PackedLaws store_flow_CRC32.
Proof. packed_laws. Qed.

Record store_flow_complete := Mk_store_flow_complete {
  fl_hdr : store_flow;
  fl_tag : store_flow_TAG;
  fl_recv_time : store_flow_RECV_TIME;
  fl_pft : store_flow_PROTO_FLAGS_TOS;
  fl_agent_addr : xaddr;
  fl_src_addr : xaddr;
  fl_dst_addr : xaddr;
  fl_gateway_addr : xaddr;
  fl_ports : store_flow_SRCDST_PORT;
  fl_packets : store_flow_PACKETS;
  fl_octets : store_flow_OCTETS;
  fl_ifndx : store_flow_IF_INDICES;
  fl_ainfo : store_flow_AGENT_INFO;
  fl_ftimes : store_flow_FLOW_TIMES;
  fl_asinf : store_flow_AS_INFO;
  fl_finf : store_flow_FLOW_ENGINE_INFO;
  fl_crc32 : store_flow_CRC32
}.

Definition set_fl_hdr (v : store_flow) (f : store_flow_complete) : store_flow_complete :=
  Mk_store_flow_complete v (fl_tag f) (fl_recv_time f) (fl_pft f) (fl_agent_addr f) (fl_src_addr f) (fl_dst_addr f) (fl_gateway_addr f) (fl_ports f) (fl_packets f) (fl_octets f) (fl_ifndx f) (fl_ainfo f) (fl_ftimes f) (fl_asinf f) (fl_finf f) (fl_crc32 f).
Definition set_fl_tag (v : store_flow_TAG) (f : store_flow_complete) : store_flow_complete :=
  Mk_store_flow_complete (fl_hdr f) v (fl_recv_time f) (fl_pft f) (fl_agent_addr f) (fl_src_addr f) (fl_dst_addr f) (fl_gateway_addr f) (fl_ports f) (fl_packets f) (fl_octets f) (fl_ifndx f) (fl_ainfo f) (fl_ftimes f) (fl_asinf f) (fl_finf f) (fl_crc32 f).
Definition set_fl_recv_time (v : store_flow_RECV_TIME) (f : store_flow_complete) : store_flow_complete :=
  Mk_store_flow_complete (fl_hdr f) (fl_tag f) v (fl_pft f) (fl_agent_addr f) (fl_src_addr f) (fl_dst_addr f) (fl_gateway_addr f) (fl_ports f) (fl_packets f) (fl_octets f) (fl_ifndx f) (fl_ainfo f) (fl_ftimes f) (fl_asinf f) (fl_finf f) (fl_crc32 f).
Definition set_fl_pft (v : store_flow_PROTO_FLAGS_TOS) (f : store_flow_complete) : store_flow_complete :=
  Mk_store_flow_complete (fl_hdr f) (fl_tag f) (fl_recv_time f) v (fl_agent_addr f) (fl_src_addr f) (fl_dst_addr f) (fl_gateway_addr f) (fl_ports f) (fl_packets f) (fl_octets f) (fl_ifndx f) (fl_ainfo f) (fl_ftimes f) (fl_asinf f) (fl_finf f) (fl_crc32 f).
Definition set_fl_agent_addr (v : xaddr) (f : store_flow_complete) : store_flow_complete :=
  Mk_store_flow_complete (fl_hdr f) (fl_tag f) (fl_recv_time f) (fl_pft f) v (fl_src_addr f) (fl_dst_addr f) (fl_gateway_addr f) (fl_ports f) (fl_packets f) (fl_octets f) (fl_ifndx f) (fl_ainfo f) (fl_ftimes f) (fl_asinf f) (fl_finf f) (fl_crc32 f).
Definition set_fl_src_addr (v : xaddr) (f : store_flow_complete) : store_flow_complete :=
  Mk_store_flow_complete (fl_hdr f) (fl_tag f) (fl_recv_time f) (fl_pft f) (fl_agent_addr f) v (fl_dst_addr f) (fl_gateway_addr f) (fl_ports f) (fl_packets f) (fl_octets f) (fl_ifndx f) (fl_ainfo f) (fl_ftimes f) (fl_asinf f) (fl_finf f) (fl_crc32 f).
Definition set_fl_dst_addr (v : xaddr) (f : store_flow_complete) : store_flow_complete :=
  Mk_store_flow_complete (fl_hdr f) (fl_tag f) (fl_recv_time f) (fl_pft f) (fl_agent_addr f) (fl_src_addr f) v (fl_gateway_addr f) (fl_ports f) (fl_packets f) (fl_octets f) (fl_ifndx f) (fl_ainfo f) (fl_ftimes f) (fl_asinf f) (fl_finf f) (fl_crc32 f).
Definition set_fl_gateway_addr (v : xaddr) (f : store_flow_complete) : store_flow_complete :=
  Mk_store_flow_complete (fl_hdr f) (fl_tag f) (fl_recv_time f) (fl_pft f) (fl_agent_addr f) (fl_src_addr f) (fl_dst_addr f) v (fl_ports f) (fl_packets f) (fl_octets f) (fl_ifndx f) (fl_ainfo f) (fl_ftimes f) (fl_asinf f) (fl_finf f) (fl_crc32 f).
Definition set_fl_ports (v : store_flow_SRCDST_PORT) (f : store_flow_complete) : store_flow_complete :=
  Mk_store_flow_complete (fl_hdr f) (fl_tag f) (fl_recv_time f) (fl_pft f) (fl_agent_addr f) (fl_src_addr f) (fl_dst_addr f) (fl_gateway_addr f) v (fl_packets f) (fl_octets f) (fl_ifndx f) (fl_ainfo f) (fl_ftimes f) (fl_asinf f) (fl_finf f) (fl_crc32 f).
Definition set_fl_packets (v : store_flow_PACKETS) (f : store_flow_complete) : store_flow_complete :=
  Mk_store_flow_complete (fl_hdr f) (fl_tag f) (fl_recv_time f) (fl_pft f) (fl_agent_addr f) (fl_src_addr f) (fl_dst_addr f) (fl_gateway_addr f) (fl_ports f) v (fl_octets f) (fl_ifndx f) (fl_ainfo f) (fl_ftimes f) (fl_asinf f) (fl_finf f) (fl_crc32 f).
Definition set_fl_octets (v : store_flow_OCTETS) (f : store_flow_complete) : store_flow_complete :=
  Mk_store_flow_complete (fl_hdr f) (fl_tag f) (fl_recv_time f) (fl_pft f) (fl_agent_addr f) (fl_src_addr f) (fl_dst_addr f) (fl_gateway_addr f) (fl_ports f) (fl_packets f) v (fl_ifndx f) (fl_ainfo f) (fl_ftimes f) (fl_asinf f) (fl_finf f) (fl_crc32 f).
Definition set_fl_ifndx (v : store_flow_IF_INDICES) (f : store_flow_complete) : store_flow_complete :=
  Mk_store_flow_complete (fl_hdr f) (fl_tag f) (fl_recv_time f) (fl_pft f) (fl_agent_addr f) (fl_src_addr f) (fl_dst_addr f) (fl_gateway_addr f) (fl_ports f) (fl_packets f) (fl_octets f) v (fl_ainfo f) (fl_ftimes f) (fl_asinf f) (fl_finf f) (fl_crc32 f).
Definition set_fl_ainfo (v : store_flow_AGENT_INFO) (f : store_flow_complete) : store_flow_complete :=
  Mk_store_flow_complete (fl_hdr f) (fl_tag f) (fl_recv_time f) (fl_pft f) (fl_agent_addr f) (fl_src_addr f) (fl_dst_addr f) (fl_gateway_addr f) (fl_ports f) (fl_packets f) (fl_octets f) (fl_ifndx f) v (fl_ftimes f) (fl_asinf f) (fl_finf f) (fl_crc32 f).
Definition set_fl_ftimes (v : store_flow_FLOW_TIMES) (f : store_flow_complete) : store_flow_complete :=
  Mk_store_flow_complete (fl_hdr f) (fl_tag f) (fl_recv_time f) (fl_pft f) (fl_agent_addr f) (fl_src_addr f) (fl_dst_addr f) (fl_gateway_addr f) (fl_ports f) (fl_packets f) (fl_octets f) (fl_ifndx f) (fl_ainfo f) v (fl_asinf f) (fl_finf f) (fl_crc32 f).
Definition set_fl_asinf (v : store_flow_AS_INFO) (f : store_flow_complete) : store_flow_complete :=
  Mk_store_flow_complete (fl_hdr f) (fl_tag f) (fl_recv_time f) (fl_pft f) (fl_agent_addr f) (fl_src_addr f) (fl_dst_addr f) (fl_gateway_addr f) (fl_ports f) (fl_packets f) (fl_octets f) (fl_ifndx f) (fl_ainfo f) (fl_ftimes f) v (fl_finf f) (fl_crc32 f).
Definition set_fl_finf (v : store_flow_FLOW_ENGINE_INFO) (f : store_flow_complete) : store_flow_complete :=
  Mk_store_flow_complete (fl_hdr f) (fl_tag f) (fl_recv_time f) (fl_pft f) (fl_agent_addr f) (fl_src_addr f) (fl_dst_addr f) (fl_gateway_addr f) (fl_ports f) (fl_packets f) (fl_octets f) (fl_ifndx f) (fl_ainfo f) (fl_ftimes f) (fl_asinf f) v (fl_crc32 f).
Definition set_fl_crc32 (v : store_flow_CRC32) (f : store_flow_complete) : store_flow_complete :=
  Mk_store_flow_complete (fl_hdr f) (fl_tag f) (fl_recv_time f) (fl_pft f) (fl_agent_addr f) (fl_src_addr f) (fl_dst_addr f) (fl_gateway_addr f) (fl_ports f) (fl_packets f) (fl_octets f) (fl_ifndx f) (fl_ainfo f) (fl_ftimes f) (fl_asinf f) (fl_finf f) v.

(** Assignment to flow->hdr.fields. *)
Definition set_hdr_fields (v : Z) (f : store_flow_complete) : store_flow_complete :=
  set_fl_hdr (Mk_store_flow (version (fl_hdr f)) (len_words (fl_hdr f)) (reserved (fl_hdr f)) v) f.

(** bzero(f, sizeof( *f)). *)
Definition flow_zero : store_flow_complete :=
  Mk_store_flow_complete (decode []) (decode []) (decode []) (decode [])
    xaddr_zero xaddr_zero xaddr_zero xaddr_zero
    (decode []) (decode []) (decode []) (decode []) (decode []) (decode []) (decode [])
    (decode []) (decode []).

(** Every member of the record is in the range of its C type. *)
Record flow_ok (f : store_flow_complete) : Prop := {
  ok_hdr : valid (fl_hdr f);
  ok_tag : valid (fl_tag f);
  ok_recv_time : valid (fl_recv_time f);
  ok_pft : valid (fl_pft f);
  ok_agent_addr : xaddr_ok (fl_agent_addr f);
  ok_src_addr : xaddr_ok (fl_src_addr f);
  ok_dst_addr : xaddr_ok (fl_dst_addr f);
  ok_gateway_addr : xaddr_ok (fl_gateway_addr f);
  ok_ports : valid (fl_ports f);
  ok_packets : valid (fl_packets f);
  ok_octets : valid (fl_octets f);
  ok_ifndx : valid (fl_ifndx f);
  ok_ainfo : valid (fl_ainfo f);
  ok_ftimes : valid (fl_ftimes f);
  ok_asinf : valid (fl_asinf f);
  ok_finf : valid (fl_finf f);
  ok_crc32 : valid (fl_crc32 f)
}.

(** The optional fields in the order they have on disk, with the sizes of their
    structs; STORE_FIELD_CRC32 comes last and is handled apart. *)
Definition store_fields : list (Z * Z) :=
  [(STORE_FIELD_TAG, sizeof store_flow_TAG);
   (STORE_FIELD_RECV_TIME, sizeof store_flow_RECV_TIME);
   (STORE_FIELD_PROTO_FLAGS_TOS, sizeof store_flow_PROTO_FLAGS_TOS);
   (STORE_FIELD_AGENT_ADDR4, sizeof store_addr4);
   (STORE_FIELD_AGENT_ADDR6, sizeof store_addr6);
   (STORE_FIELD_SRC_ADDR4, sizeof store_addr4);
   (STORE_FIELD_SRC_ADDR6, sizeof store_addr6);
   (STORE_FIELD_DST_ADDR4, sizeof store_addr4);
   (STORE_FIELD_DST_ADDR6, sizeof store_addr6);
   (STORE_FIELD_GATEWAY_ADDR4, sizeof store_addr4);
   (STORE_FIELD_GATEWAY_ADDR6, sizeof store_addr6);
   (STORE_FIELD_SRCDST_PORT, sizeof store_flow_SRCDST_PORT);
   (STORE_FIELD_PACKETS, sizeof store_flow_PACKETS);
   (STORE_FIELD_OCTETS, sizeof store_flow_OCTETS);
   (STORE_FIELD_IF_INDICES, sizeof store_flow_IF_INDICES);
   (STORE_FIELD_AGENT_INFO, sizeof store_flow_AGENT_INFO);
   (STORE_FIELD_FLOW_TIMES, sizeof store_flow_FLOW_TIMES);
   (STORE_FIELD_AS_INFO, sizeof store_flow_AS_INFO);
   (STORE_FIELD_FLOW_ENGINE_INFO, sizeof store_flow_FLOW_ENGINE_INFO)].

(** Reduces reads of members after assignments to members. *)
Ltac flow_simpl :=
  cbv beta iota zeta delta
    [set_fl_hdr set_fl_tag set_fl_recv_time set_fl_pft set_fl_agent_addr set_fl_src_addr set_fl_dst_addr set_fl_gateway_addr set_hdr_fields
     set_fl_ports set_fl_packets set_fl_octets set_fl_ifndx set_fl_ainfo set_fl_ftimes set_fl_asinf set_fl_finf set_fl_crc32];
  cbn [fl_hdr fl_tag fl_recv_time fl_pft fl_agent_addr fl_src_addr fl_dst_addr fl_gateway_addr fl_ports
       fl_packets fl_octets fl_ifndx fl_ainfo fl_ftimes fl_asinf fl_finf fl_crc32].
