(* ===== verification/Store.v ===== *)
(** * On-disk flow records: operations (src/flowd/store.c)

    Record lengths, serialisation, deserialisation, the file-oriented readers
    and writers and byte-order conversion.  The RFIELD, WFIELD and ADDFIELD
    macros run over the list [store_fields]; the memory that they copy to or
    from is named by the field bit. *)

From stdpp Require Import gmap.
From S2P Require Import Prelude Packed Crc32 Addr StoreTypes.

(** SHASFIELD. *)
Definition has (fields flag : Z) : bool := negb (Z.land fields flag =? 0).

(** ** Record length *)

(** ADDFIELD: the running length and the fields not yet accounted for. *)
Definition ADDFIELD (s : Z * Z) (fld : Z * Z) : Z * Z :=
  let '(ret, fields) := s in
  let '(flag, size) := fld in
  if has fields flag then (ret + size, Z.land fields (lnot32 flag)) else (ret, fields).

Definition store_calc_flow_len (hdr : store_flow) : Z :=
  let '(ret, fields) :=
    fold_left ADDFIELD (store_fields ++ [(STORE_FIELD_CRC32, sizeof store_flow_CRC32)])
      (0, ntohl (fields hdr)) in
  if negb (fields =? 0) then -1 else ret.

(** ** Deserialisation *)

(** The locals of store_flow_deserialise that RFIELD updates; [r_dests] is the
    memory of the destinations, by field bit. *)
Record rstate := Mk_rstate {
  r_offset : Z;
  r_crc : Z;
  r_donefields : Z;
  r_dests : gmap Z bytes
}.

Definition RFIELD (buf : bytes) (fields : Z) (s : rstate) (fld : Z * Z) : outcome rstate :=
  let '(flag, size) := fld in
  if has fields flag then
    let! b := rd buf (r_offset s) size in
    Ret (Mk_rstate (r_offset s + size)
           (if has fields STORE_FIELD_CRC32 && negb (flag =? STORE_FIELD_CRC32)
            then flowd_crc32_update b (r_crc s) else r_crc s)
           (Z.land (r_donefields s) (lnot32 flag))
           (<[flag := b]> (r_dests s)))
  else Ret s.

Fixpoint RFIELDS (buf : bytes) (fields : Z) (l : list (Z * Z)) (s : rstate) : outcome rstate :=
  match l with
  | [] => Ret s
  | fld :: l => let! s := RFIELD buf fields s fld in RFIELDS buf fields l s
  end.

(** The struct at a destination; one that was not read holds the zeroes of the
    bzero. *)
Definition dest {A} `{Packed A} (m : gmap Z bytes) (flag : Z) : A :=
  decode (default [] (m !! flag)).

(** [f] once the fields have been read, before the addresses are converted. *)
Definition flow_of_dests (hdr : store_flow) (m : gmap Z bytes) : store_flow_complete :=
  Mk_store_flow_complete hdr
    (dest m STORE_FIELD_TAG) (dest m STORE_FIELD_RECV_TIME) (dest m STORE_FIELD_PROTO_FLAGS_TOS)
    xaddr_zero xaddr_zero xaddr_zero xaddr_zero
    (dest m STORE_FIELD_SRCDST_PORT) (dest m STORE_FIELD_PACKETS) (dest m STORE_FIELD_OCTETS)
    (dest m STORE_FIELD_IF_INDICES) (dest m STORE_FIELD_AGENT_INFO)
    (dest m STORE_FIELD_FLOW_TIMES) (dest m STORE_FIELD_AS_INFO)
    (dest m STORE_FIELD_FLOW_ENGINE_INFO) (dest m STORE_FIELD_CRC32).

(** S_CPYADDR for the two families. *)
Definition S_CPYADDR4 (s : store_addr4) : xaddr := Xaddr AF_INET [d4 s; 0; 0; 0] 0.
Definition S_CPYADDR6 (s : store_addr6) : xaddr :=
  Xaddr AF_INET6 [d6_0 s; d6_1 s; d6_2 s; d6_3 s] 0.

(** The conversion of one of the four addresses of the record. *)
Definition read_addr (fields : Z) (m : gmap Z bytes) (f4 f6 : Z) : xaddr :=
  if has fields f6 then S_CPYADDR6 (dest m f6)
  else if has fields f4 then S_CPYADDR4 (dest m f4)
  else xaddr_zero.

Definition both (fields f4 f6 : Z) : bool := has fields f4 && has fields f6.

(** Everything after the fields and the checksum have been read. *)
Definition deserialise_finish (hdr : store_flow) (fields crc : Z) (m : gmap Z bytes)
    : Z * store_flow_complete :=
  let f := flow_of_dests hdr m in
  if both fields STORE_FIELD_AGENT_ADDR4 STORE_FIELD_AGENT_ADDR6 then (-1, f)
  else if both fields STORE_FIELD_SRC_ADDR4 STORE_FIELD_SRC_ADDR6 then (-1, f)
  else if both fields STORE_FIELD_DST_ADDR4 STORE_FIELD_DST_ADDR6 then (-1, f)
  else if both fields STORE_FIELD_GATEWAY_ADDR4 STORE_FIELD_GATEWAY_ADDR6 then (-1, f)
  else
    let f := set_fl_agent_addr
               (read_addr fields m STORE_FIELD_AGENT_ADDR4 STORE_FIELD_AGENT_ADDR6) f in
    let f := set_fl_src_addr
               (read_addr fields m STORE_FIELD_SRC_ADDR4 STORE_FIELD_SRC_ADDR6) f in
    let f := set_fl_dst_addr
               (read_addr fields m STORE_FIELD_DST_ADDR4 STORE_FIELD_DST_ADDR6) f in
    let f := set_fl_gateway_addr
               (read_addr fields m STORE_FIELD_GATEWAY_ADDR4 STORE_FIELD_GATEWAY_ADDR6) f in
    if has fields STORE_FIELD_CRC32 && negb (crc =? ntohl (crc32 (fl_crc32 f)))
    then (STORE_ERR_CRC_MISMATCH, f)
    else (STORE_ERR_OK, f).

(** [buf] is the memory from the pointer to the end of its object, of which the
    caller says that [len] bytes hold the record.  The comparisons of [len]
    with sizes are made in size_t. *)
Definition store_flow_deserialise (buf : bytes) (len : Z)
    : outcome (Z * store_flow_complete) :=
  let sz := sizeof store_flow in
  if wrap64 len <? sz then Ret (STORE_ERR_BUFFER_SIZE, flow_zero)
  else
    let! hb := rd buf 0 sz in
    let hdr : store_flow := decode hb in
    let f := set_fl_hdr hdr flow_zero in
    if negb (STORE_VER_GET_MAJ (version hdr) =? STORE_VER_MAJOR)
    then Ret (STORE_ERR_UNSUP_VERSION, f)
    else
      let allow_extra := STORE_VER_MINOR <? STORE_VER_GET_MIN (version hdr) in
      if wrap64 (len - sz) <? len_words hdr * 4 then Ret (STORE_ERR_BUFFER_SIZE, f)
      else
        let crc := flowd_crc32_update hb flowd_crc32_start in
        let fields := ntohl (fields hdr) in
        let! s := RFIELDS buf fields store_fields (Mk_rstate sz crc fields ∅) in
        let crc32_field := (STORE_FIELD_CRC32, sizeof store_flow_CRC32) in
        if negb (Z.land (r_donefields s) (lnot32 STORE_FIELD_CRC32) =? 0) then
          if allow_extra then
            let offset := len_words hdr * 4 + sz - sizeof store_flow_CRC32 in
            let fields := Z.land (ntohl (StoreTypes.fields hdr)) STORE_FIELD_ALL in
            let! s := RFIELD buf fields
                        (Mk_rstate offset (r_crc s) (r_donefields s) (r_dests s)) crc32_field in
            Ret (deserialise_finish hdr fields (r_crc s) (r_dests s))
          else Ret (-1, flow_of_dests hdr (r_dests s))
        else
          let! s := RFIELD buf fields s crc32_field in
          Ret (deserialise_finish hdr fields (r_crc s) (r_dests s)).

(** ** Serialisation *)

(** One of the four address switches: the updated fields and the locals that
    the address is copied to; [None] for the "silly af" error. *)
Definition serialise_addr (a : xaddr) (f4 f6 fields : Z)
    : option (Z * option store_addr4 * option store_addr6) :=
  if af a =? AF_INET then
    if Z.land fields f4 =? 0 then Some (fields, None, None)
    else Some (Z.land (Z.lor fields f4) (lnot32 f6), Some (Mk_store_addr4 (v4 a)), None)
  else if af a =? AF_INET6 then
    if Z.land fields f6 =? 0 then Some (fields, None, None)
    else Some (Z.land (Z.lor fields f6) (lnot32 f4), None,
               Some (Mk_store_addr6 (word a 0) (word a 1) (word a 2) (word a 3)))
  else if Z.land fields (Z.lor f4 f6) =? 0 then Some (fields, None, None)
  else None.

(** The locals of store_flow_serialise that hold addresses. *)
Record waddrs := Mk_waddrs {
  aa4 : option store_addr4; aa6 : option store_addr6;
  sa4 : option store_addr4; sa6 : option store_addr6;
  da4 : option store_addr4; da6 : option store_addr6;
  gwa4 : option store_addr4; gwa6 : option store_addr6
}.

(** The memory that WFIELD copies for a field bit; [None] for a local that has
    not been assigned. *)
Definition wsrc (f : store_flow_complete) (w : waddrs) (flag : Z) : option bytes :=
  if flag =? STORE_FIELD_TAG then Some (encode (fl_tag f))
  else if flag =? STORE_FIELD_RECV_TIME then Some (encode (fl_recv_time f))
  else if flag =? STORE_FIELD_PROTO_FLAGS_TOS then Some (encode (fl_pft f))
  else if flag =? STORE_FIELD_AGENT_ADDR4 then encode <$> aa4 w
  else if flag =? STORE_FIELD_AGENT_ADDR6 then encode <$> aa6 w
  else if flag =? STORE_FIELD_SRC_ADDR4 then encode <$> sa4 w
  else if flag =? STORE_FIELD_SRC_ADDR6 then encode <$> sa6 w
  else if flag =? STORE_FIELD_DST_ADDR4 then encode <$> da4 w
  else if flag =? STORE_FIELD_DST_ADDR6 then encode <$> da6 w
  else if flag =? STORE_FIELD_GATEWAY_ADDR4 then encode <$> gwa4 w
  else if flag =? STORE_FIELD_GATEWAY_ADDR6 then encode <$> gwa6 w
  else if flag =? STORE_FIELD_SRCDST_PORT then Some (encode (fl_ports f))
  else if flag =? STORE_FIELD_PACKETS then Some (encode (fl_packets f))
  else if flag =? STORE_FIELD_OCTETS then Some (encode (fl_octets f))
  else if flag =? STORE_FIELD_IF_INDICES then Some (encode (fl_ifndx f))
  else if flag =? STORE_FIELD_AGENT_INFO then Some (encode (fl_ainfo f))
  else if flag =? STORE_FIELD_FLOW_TIMES then Some (encode (fl_ftimes f))
  else if flag =? STORE_FIELD_AS_INFO then Some (encode (fl_asinf f))
  else if flag =? STORE_FIELD_FLOW_ENGINE_INFO then Some (encode (fl_finf f))
  else if flag =? STORE_FIELD_CRC32 then Some (encode (fl_crc32 f))
  else None.

(** memcpy to [buf + offset] for a buffer of [buflen] bytes of which [out] are
    written. *)
Definition wr (buflen : Z) (out b : bytes) : outcome bytes :=
  if Z.of_nat (length out) + Z.of_nat (length b) <=? buflen
  then Ret (out ++ b) else Undef OutOfBounds.

(** The bytes written so far and the checksum. *)
Definition WFIELD (buflen fields : Z) (src : Z -> option bytes) (s : bytes * Z) (fld : Z * Z)
    : outcome (bytes * Z) :=
  let '(out, crc) := s in
  let '(flag, _) := fld in
  if has fields flag then
    match src flag with
    | None => Undef Uninit
    | Some b =>
        let! out := wr buflen out b in
        Ret (out, if negb (flag =? STORE_FIELD_CRC32) then flowd_crc32_update b crc else crc)
    end
  else Ret s.

Fixpoint WFIELDS (buflen fields : Z) (src : Z -> option bytes) (l : list (Z * Z))
    (s : bytes * Z) : outcome (bytes * Z) :=
  match l with
  | [] => Ret s
  | fld :: l => let! s := WFIELD buflen fields src s fld in WFIELDS buflen fields src l s
  end.

(** The four address switches in order. *)
Definition serialise_addrs (f : store_flow_complete) (fields : Z) : option (Z * waddrs) :=
  match serialise_addr (fl_agent_addr f) STORE_FIELD_AGENT_ADDR4 STORE_FIELD_AGENT_ADDR6 fields with
  | None => None
  | Some (fields, aa4, aa6) =>
  match serialise_addr (fl_src_addr f) STORE_FIELD_SRC_ADDR4 STORE_FIELD_SRC_ADDR6 fields with
  | None => None
  | Some (fields, sa4, sa6) =>
  match serialise_addr (fl_dst_addr f) STORE_FIELD_DST_ADDR4 STORE_FIELD_DST_ADDR6 fields with
  | None => None
  | Some (fields, da4, da6) =>
  match serialise_addr (fl_gateway_addr f) STORE_FIELD_GATEWAY_ADDR4 STORE_FIELD_GATEWAY_ADDR6
          fields with
  | None => None
  | Some (fields, gwa4, gwa6) => Some (fields, Mk_waddrs aa4 aa6 sa4 sa6 da4 da6 gwa4 gwa6)
  end end end end.

(** The return code, the bytes written to [buf] (their number is [*flowlen]) and
    the record as the function leaves it. *)
Definition store_flow_serialise (f : store_flow_complete) (buflen : Z)
    : outcome (Z * bytes * store_flow_complete) :=
  let h := fl_hdr f in
  let f := set_fl_hdr (Mk_store_flow STORE_VERSION (len_words h) (reserved h) (fields h)) f in
  match serialise_addrs f (ntohl (fields h)) with
  | None => Ret (STORE_ERR_FLOW_INVALID, [], f)
  | Some (fields, w) =>
      let f := set_hdr_fields (htonl fields) f in
      let len := store_calc_flow_len (fl_hdr f) in
      if negb (Z.land len 3 =? 0) then Ret (STORE_ERR_INTERNAL, [], f)
      else if buflen <? len then Ret (STORE_ERR_BUFFER_SIZE, [], f)
      else if len =? -1 then Ret (STORE_ERR_FLOW_INVALID, [], f)
      else
        let hdr := Mk_store_flow STORE_VERSION (wrap8 (len / 4)) 0 (htonl fields) in
        let f := set_fl_hdr hdr f in
        let! out := wr buflen [] (encode hdr) in
        let crc := flowd_crc32_update (encode hdr) flowd_crc32_start in
        let! oc := WFIELDS buflen fields (wsrc f w) store_fields (out, crc) in
        let f := if has fields STORE_FIELD_CRC32
                 then set_fl_crc32 (Mk_store_flow_CRC32 (htonl (snd oc))) f else f in
        let! oc := WFIELD buflen fields (wsrc f w) oc
                     (STORE_FIELD_CRC32, sizeof store_flow_CRC32) in
        if negb (len + sizeof store_flow =? Z.of_nat (length (fst oc)))
        then Ret (STORE_ERR_INTERNAL, fst oc, f)
        else Ret (STORE_ERR_OK, fst oc, f)
  end.

Definition store_flow_serialise_masked (f : store_flow_complete) (mask buflen : Z)
    : outcome (Z * bytes * store_flow_complete) :=
  let origfields := ntohl (fields (fl_hdr f)) in
  let fields := Z.land origfields mask in
  let f := set_hdr_fields (htonl fields) f in
  let! (r, out, f) := store_flow_serialise f buflen in
  Ret (r, out, set_hdr_fields (htonl origfields) f).

(** ** Field bits *)

Lemma has_testbit fields i : 0 <= i -> has fields (2 ^ i) = Z.testbit fields i.
Proof.
  intros Hi. unfold has. destruct (Z.testbit fields i) eqn:E.
  - destruct (Z.eqb_spec (Z.land fields (2 ^ i)) 0) as [H|]; [|done].
    apply (f_equal (fun z => Z.testbit z i)) in H.
    by rewrite Z.land_spec, E, Z.pow2_bits_true, Z.bits_0 in H.
  - destruct (Z.eqb_spec (Z.land fields (2 ^ i)) 0) as [|H]; [done|]. exfalso. apply H.
    apply Z.bits_inj'. intros k Hk. rewrite Z.land_spec, Z.bits_0.
    destruct (decide (k = i)) as [->|]; [by rewrite E|].
    by rewrite Z.pow2_bits_false, andb_false_r.
Qed.

(** Every field constant of store.h is a power of two. *)
Lemma store_fields_pow2 :
  Forall (fun fld => exists i, 0 <= i < 32 /\ fst fld = 2 ^ i)
    (store_fields ++ [(STORE_FIELD_CRC32, 4)]).
Proof.
  unfold store_fields. cbn [app].
  repeat (apply Forall_cons; split;
    [cbv beta; match goal with |- context [fst (?c, _)] =>
       exists (Z.log2 c); split; [vm_compute; split; [discriminate|reflexivity]|reflexivity] end|]).
  by apply Forall_nil.
Qed.

Lemma land_lnot32_notin fields flag :
  u32 fields -> has fields flag = false -> Z.land fields (lnot32 flag) = fields.
Proof.
  unfold has. intros Hu H. apply negb_false_iff, Z.eqb_eq in H.
  apply u32_bits_inj; [by apply u32_land|done|]. intros i Hi.
  rewrite Z.land_spec, lnot32_testbit by done.
  apply (f_equal (fun z => Z.testbit z i)) in H. rewrite Z.land_spec, Z.bits_0 in H.
  by destruct (Z.testbit fields i), (Z.testbit flag i).
Qed.

(** Clearing another field bit does not change a membership test. *)
Lemma has_clear_ne fields i j :
  0 <= i < 32 -> 0 <= j < 32 -> i <> j ->
  has (Z.land fields (lnot32 (2 ^ j))) (2 ^ i) = has fields (2 ^ i).
Proof.
  intros Hi Hj Hij. rewrite !has_testbit by lia.
  by rewrite Z.land_spec, lnot32_testbit, Z.pow2_bits_false, andb_true_r by lia.
Qed.

(** ** Sizes and payloads of a selection of fields *)

Definition sel_len (fields : Z) (l : list (Z * Z)) : Z :=
  foldr (fun fld n => (if has fields (fst fld) then snd fld else 0) + n) 0 l.

Definition payload (fields : Z) (src : Z -> option bytes) (l : list (Z * Z)) : bytes :=
  concat ((fun fld => if has fields (fst fld) then default [] (src (fst fld)) else []) <$> l).

(** Every selected field of the list has a source of the size of its struct. *)
Definition sources_ok (fields : Z) (src : Z -> option bytes) (l : list (Z * Z)) : Prop :=
  Forall (fun fld => has fields (fst fld) = true ->
    exists b, src (fst fld) = Some b /\ Z.of_nat (length b) = snd fld /\ Forall u8 b) l.

Lemma length_payload fields src l :
  sources_ok fields src l -> Z.of_nat (length (payload fields src l)) = sel_len fields l.
Proof.
  induction 1 as [|[flag size] l Hf Hl IH]; [done|].
  unfold payload, sel_len. cbn [fmap list_fmap concat foldr fst snd].
  rewrite length_app, Nat2Z.inj_add. unfold payload in IH. rewrite IH. f_equal.
  simpl in Hf. destruct (has fields flag); [|done].
  destruct Hf as (b & -> & Hb & _); done.
Qed.

Lemma payload_u8 fields src l : sources_ok fields src l -> Forall u8 (payload fields src l).
Proof.
  induction 1 as [|[flag size] l Hf Hl IH]; [constructor|].
  unfold payload. cbn [fmap list_fmap concat]. apply Forall_app. split; [|done].
  simpl in *. destruct (has fields flag); [|constructor].
  by destruct Hf as (b & -> & _ & Hb).
Qed.

Lemma sel_len_nonneg fields l : Forall (fun fld => 0 <= snd fld) l -> 0 <= sel_len fields l.
Proof. induction 1; simpl; [lia|]. case_match; lia. Qed.

(** ** Loops over the fields *)

Lemma WFIELDS_spec buflen fields src l out crc :
  sources_ok fields src l -> Forall (fun fld => fst fld <> STORE_FIELD_CRC32) l ->
  Z.of_nat (length out) + sel_len fields l <= buflen ->
  WFIELDS buflen fields src l (out, crc) =
    Ret (out ++ payload fields src l, flowd_crc32_update (payload fields src l) crc).
Proof.
  intros Hs. revert out crc. induction Hs as [|[flag size] l Hf Hs IH]; intros out crc Hn Hcap.
  { by rewrite app_nil_r. }
  apply Forall_cons in Hn as [Hne Hn]. simpl in Hf, Hne, Hcap.
  change (payload fields src ((flag, size) :: l)) with
    ((if has fields flag then default [] (src flag) else []) ++ payload fields src l).
  cbn [WFIELDS WFIELD]. destruct (has fields flag).
  - destruct (Hf eq_refl) as (b & Hb & Hlen & _). rewrite Hb. cbn [default from_option].
    pose proof (length_payload fields src l Hs) as Hp.
    unfold wr. rewrite (proj2 (Z.leb_le _ _)) by lia. cbn [obind].
    rewrite (proj2 (Z.eqb_neq _ _)) by done. cbn [negb].
    rewrite IH by (rewrite ?length_app; done || lia).
    by rewrite flowd_crc32_update_app, app_assoc.
  - cbn [obind]. by rewrite IH.
Qed.

Lemma RFIELDS_spec fields src l pre post s :
  sources_ok fields src l -> Forall (fun fld => fst fld <> STORE_FIELD_CRC32) l ->
  NoDup (fst <$> l) -> r_offset s = Z.of_nat (length pre) ->
  exists s', RFIELDS (pre ++ payload fields src l ++ post) fields l s = Ret s' /\
    r_offset s' = Z.of_nat (length (pre ++ payload fields src l)) /\
    r_crc s' = (if has fields STORE_FIELD_CRC32
                then flowd_crc32_update (payload fields src l) (r_crc s) else r_crc s) /\
    r_donefields s' = fold_left (fun d fld =>
      if has fields (fst fld) then Z.land d (lnot32 (fst fld)) else d) l (r_donefields s) /\
    forall flag, r_dests s' !! flag =
      if decide (flag ∈ (fst <$> l)) then (if has fields flag then src flag else r_dests s !! flag)
      else r_dests s !! flag.
Proof.
  intros Hs. revert pre s. induction Hs as [|[flag size] l Hf Hs IH]; intros pre s Hn Hnd Hoff.
  { exists s. rewrite app_nil_r. split_and!; try done.
    by destruct (has fields STORE_FIELD_CRC32). }
  apply Forall_cons in Hn as [Hne Hn]. cbn [fmap list_fmap] in Hnd.
  apply NoDup_cons in Hnd as [Hni Hnd]. cbn [fst snd] in *.
  change (payload fields src ((flag, size) :: l)) with
    ((if has fields flag then default [] (src flag) else []) ++ payload fields src l).
  cbn [RFIELDS RFIELD]. destruct (has fields flag) eqn:Hhas.
  - destruct (Hf eq_refl) as (b & Hb & Hlen & _). rewrite Hb. cbn [default from_option].
    unfold rd. rewrite Hoff. rewrite <- app_assoc, (mem_read_app pre b) by done. cbn [obind].
    set (s1 := Mk_rstate _ _ _ _).
    destruct (IH (pre ++ b) s1) as (s' & HR & Ho & Hc & Hd & Hm); [done|done|..].
    { subst s1. cbn [r_offset]. rewrite length_app. lia. }
    rewrite <- app_assoc in HR. exists s'. split; [done|].
    split; [by rewrite Ho, <- app_assoc|]. split_and!.
    + rewrite Hc. subst s1. cbn [r_crc]. rewrite (proj2 (Z.eqb_neq _ _)) by done.
      rewrite andb_true_r. destruct (has fields STORE_FIELD_CRC32); [|done].
      by rewrite flowd_crc32_update_app.
    + rewrite Hd. subst s1. cbn [r_donefields fold_left fst]. by rewrite Hhas.
    + intros g. rewrite Hm. subst s1. cbn [r_dests fmap list_fmap].
      destruct (decide (g = flag)) as [->|Hg].
      * rewrite decide_False by done. rewrite decide_True by (by left).
        by rewrite lookup_insert_eq, Hhas, Hb.
      * rewrite lookup_insert_ne by done.
        destruct (decide (g ∈ (fst <$> l))).
        -- by rewrite decide_True by (by right).
        -- rewrite decide_False; [done|]. intros [|]%elem_of_cons; done.
  - cbn [obind]. destruct (IH pre s) as (s' & HR & Ho & Hc & Hd & Hm); [done..|].
    exists s'. split_and!; try done.
    + rewrite Hd. cbn [fold_left fst]. by rewrite Hhas.
    + intros g. rewrite Hm. cbn [fmap list_fmap].
      destruct (decide (g = flag)) as [->|Hg].
      * rewrite decide_False by done. rewrite decide_True by (by left). by rewrite Hhas.
      * destruct (decide (g ∈ (fst <$> l))).
        -- by rewrite decide_True by (by right).
        -- rewrite decide_False; [done|]. intros [|]%elem_of_cons; done.
Qed.

(** ** The length of a record *)

Definition all_fields : list (Z * Z) :=
  store_fields ++ [(STORE_FIELD_CRC32, sizeof store_flow_CRC32)].

(** Bits of a field word that this version does not know. *)
Definition unknown (fields : Z) : Z := Z.land fields (lnot32 STORE_FIELD_ALL).

Lemma clear_fields_spec (l : list (Z * Z)) d :
  u32 d -> Forall (fun fld => u32 (fst fld)) l ->
  fold_left (fun d fld => if has d (fst fld) then Z.land d (lnot32 (fst fld)) else d) l d =
  Z.land d (foldr (fun fld m => Z.land (lnot32 (fst fld)) m) 4294967295 l).
Proof.
  intros Hd Hl. revert d Hd. induction Hl as [|fld l Hf Hl IH]; intros d Hd; cbn [fold_left foldr].
  - apply u32_bits_inj; [done|by apply u32_land|]. intros i Hi.
    by rewrite Z.land_spec, ones32_testbit, andb_true_r.
  - rewrite Z.land_assoc, <- IH by (by apply u32_land). f_equal.
    destruct (has d (fst fld)) eqn:E; [done|]. symmetry. by apply land_lnot32_notin.
Qed.

Lemma clear_fields_known (l : list (Z * Z)) d d' :
  u32 d -> Forall (fun fld => u32 (fst fld)) l -> NoDup (fst <$> l) ->
  Forall (fun fld => exists i, 0 <= i < 32 /\ fst fld = 2 ^ i) l ->
  (forall fld, fld ∈ l -> has d (fst fld) = has d' (fst fld)) ->
  fold_left (fun d fld => if has d' (fst fld) then Z.land d (lnot32 (fst fld)) else d) l d =
  fold_left (fun d fld => if has d (fst fld) then Z.land d (lnot32 (fst fld)) else d) l d.
Proof.
  intros Hd Hl Hnd Hp. revert d Hd Hnd. induction Hl as [|fld l Hf Hl IH]; intros d Hd Hnd He; [done|].
  apply Forall_cons in Hp as [(i & Hi & Hpi) Hp]. cbn [fmap list_fmap] in Hnd.
  apply NoDup_cons in Hnd as [Hni Hnd]. cbn [fold_left].
  rewrite (He fld) by (by left). apply IH; [done| |done|].
  { case_match; [by apply u32_land|done]. }
  intros g Hg. rewrite <- (He g) by (by right).
  destruct (has d' (fst fld)); [|done].
  rewrite Forall_forall in Hp. destruct (Hp g Hg) as (j & Hj & Hpj).
  rewrite Hpi, Hpj. apply has_clear_ne; [done..|]. intros ->. apply Hni.
  rewrite Hpi, <- Hpj. by apply list_elem_of_fmap_2.
Qed.

Lemma ADDFIELD_fold (l : list (Z * Z)) ret d :
  u32 d -> Forall (fun fld => u32 (fst fld)) l -> NoDup (fst <$> l) ->
  Forall (fun fld => exists i, 0 <= i < 32 /\ fst fld = 2 ^ i) l ->
  fold_left ADDFIELD l (ret, d) =
  (ret + sel_len d l,
   fold_left (fun d fld => if has d (fst fld) then Z.land d (lnot32 (fst fld)) else d) l d).
Proof.
  intros Hd Hl Hnd Hp. revert ret d Hd Hnd.
  induction Hl as [|[flag size] l Hf Hl IH]; intros ret d Hd Hnd.
  { simpl. by rewrite Z.add_0_r. }
  apply Forall_cons in Hp as [(i & Hi & Hpi) Hp]. cbn [fmap list_fmap] in Hnd.
  apply NoDup_cons in Hnd as [Hni Hnd]. cbn [fold_left ADDFIELD fst snd] in *.
  assert (sel_len (Z.land d (lnot32 flag)) l = sel_len d l) as Hsel.
  { clear IH Hl Hnd. induction l as [|[g gs] l IH]; [done|].
    apply Forall_cons in Hp as [(j & Hj & Hpj) Hp]. cbn [fmap list_fmap fst snd] in *.
    apply not_elem_of_cons in Hni as [Hne Hni]. simpl. rewrite IH by done.
    rewrite Hpi, Hpj, has_clear_ne; [done..|]. intros ->. congruence. }
  unfold sel_len at 1. cbn [foldr fst snd]. destruct (has d flag) eqn:E.
  - rewrite IH; [|done|by apply u32_land|done]. rewrite Hsel. f_equal. unfold sel_len. lia.
  - rewrite IH by done. f_equal.
Qed.

Lemma all_fields_u32 : Forall (fun fld => u32 (fst fld)) all_fields.
Proof. apply (bool_decide_unpack _). vm_compute. exact I. Qed.
Lemma all_fields_nodup : NoDup (fst <$> all_fields).
Proof. apply (bool_decide_unpack _). vm_compute. exact I. Qed.
Lemma all_fields_sizes : Forall (fun fld => 0 <= snd fld /\ snd fld mod 4 = 0) all_fields.
Proof. apply (bool_decide_unpack _). vm_compute. exact I. Qed.

Lemma sel_len_max fields (l : list (Z * Z)) :
  Forall (fun fld => 0 <= snd fld) l -> sel_len fields l <= foldr (fun fld n => snd fld + n) 0 l.
Proof. induction 1; simpl; [lia|]. case_match; lia. Qed.

Lemma sel_len_mod4 fields l :
  Forall (fun fld => 0 <= snd fld /\ snd fld mod 4 = 0) l -> sel_len fields l mod 4 = 0.
Proof.
  induction 1 as [|fld l [_ Hf] Hl IH]; [done|].
  change (sel_len fields (fld :: l)) with
    ((if has fields (fst fld) then snd fld else 0) + sel_len fields l).
  rewrite Z.add_mod, IH by done. case_match; by rewrite ?Hf.
Qed.

Lemma store_calc_flow_len_eq hdr :
  store_calc_flow_len hdr =
    (if unknown (ntohl (fields hdr)) =? 0 then sel_len (ntohl (fields hdr)) all_fields else -1).
Proof.
  unfold store_calc_flow_len. fold all_fields.
  pose proof all_fields_u32. pose proof all_fields_nodup.
  pose proof (ntohl_u32 (fields hdr)).
  rewrite ADDFIELD_fold by (done || apply store_fields_pow2).
  rewrite clear_fields_spec by done.
  change (foldr (fun fld m => Z.land (lnot32 (fst fld)) m) 4294967295 all_fields)
    with (lnot32 STORE_FIELD_ALL).
  fold (unknown (ntohl (fields hdr))). by destruct (unknown (ntohl (fields hdr)) =? 0).
Qed.

(** Store_calc_flow_len is the sum of the sizes of the structs whose bits are
    set, a multiple of 4 of at most 176 bytes, and -1 exactly when the header has
    a bit that this version does not know. *)
Theorem store_calc_flow_len_spec hdr :
  (unknown (ntohl (fields hdr)) <> 0 /\ store_calc_flow_len hdr = -1) \/
  (unknown (ntohl (fields hdr)) = 0 /\
   store_calc_flow_len hdr = sel_len (ntohl (fields hdr)) all_fields /\
   0 <= store_calc_flow_len hdr <= 176 /\ store_calc_flow_len hdr mod 4 = 0).
Proof.
  rewrite store_calc_flow_len_eq. destruct (Z.eqb_spec (unknown (ntohl (fields hdr))) 0); [right|left].
  - split; [done|]. split; [done|].
    assert (Forall (fun fld => 0 <= snd fld) all_fields) as Hs.
    { eapply Forall_impl; [apply all_fields_sizes|]. by intros fld []. }
    pose proof (sel_len_nonneg (ntohl (fields hdr)) _ Hs).
    pose proof (sel_len_max (ntohl (fields hdr)) _ Hs) as Hmax.
    change (foldr _ _ all_fields) with 176 in Hmax.
    split; [lia|]. apply sel_len_mod4, all_fields_sizes.
  - done.
Qed.

(** ** Address switches *)

(** The family of an address agrees with the field bits that ask for it. *)
Definition addr_flags_ok (a : xaddr) (f4 f6 fields : Z) : Prop :=
  (af a = AF_INET /\ (has fields f6 = true -> has fields f4 = true)) \/
  (af a = AF_INET6 /\ (has fields f4 = true -> has fields f6 = true)) \/
  (has fields f4 = false /\ has fields f6 = false).

Definition flow_flags_ok (f : store_flow_complete) (fields : Z) : Prop :=
  addr_flags_ok (fl_agent_addr f) STORE_FIELD_AGENT_ADDR4 STORE_FIELD_AGENT_ADDR6 fields /\
  addr_flags_ok (fl_src_addr f) STORE_FIELD_SRC_ADDR4 STORE_FIELD_SRC_ADDR6 fields /\
  addr_flags_ok (fl_dst_addr f) STORE_FIELD_DST_ADDR4 STORE_FIELD_DST_ADDR6 fields /\
  addr_flags_ok (fl_gateway_addr f) STORE_FIELD_GATEWAY_ADDR4 STORE_FIELD_GATEWAY_ADDR6 fields.

(** What the switches guarantee to the writer for one address: at most one of
    its two bits is left, the local of that bit is assigned, and the address is
    still asked for if it was. *)
Record addr_written (a : xaddr) (f4 f6 fields fields' : Z)
    (o4 : option store_addr4) (o6 : option store_addr6) : Prop := {
  aw_not_both : both fields' f4 f6 = false;
  aw_4 : has fields' f4 = true -> af a = AF_INET /\ o4 = Some (Mk_store_addr4 (v4 a));
  aw_6 : has fields' f6 = true -> af a = AF_INET6 /\
    o6 = Some (Mk_store_addr6 (word a 0) (word a 1) (word a 2) (word a 3));
  aw_keep : has fields' f4 || has fields' f6 = has fields f4 || has fields f6
}.

(** [fields] and [fields'] agree outside the bits [i] and [j]. *)
Definition same_except (i j fields fields' : Z) : Prop :=
  u32 fields' /\ forall k, 0 <= k < 32 -> k <> i -> k <> j -> has fields' (2 ^ k) = has fields (2 ^ k).

Lemma land_eqb_has fields flag : (Z.land fields flag =? 0) = negb (has fields flag).
Proof. unfold has. by rewrite negb_involutive. Qed.

Lemma land_lor_eqb fields a b :
  (Z.land fields (Z.lor a b) =? 0) = negb (has fields a) && negb (has fields b).
Proof.
  rewrite <- !land_eqb_has, Z.land_lor_distr_r. apply eq_true_iff_eq.
  by rewrite andb_true_iff, !Z.eqb_eq, Z.lor_eq_0_iff.
Qed.

Lemma pow2_u32 i : 0 <= i < 32 -> u32 (2 ^ i).
Proof.
  intros. pose proof (Z.pow_lt_mono_r 2 i 32). pose proof (Z.pow_nonneg 2 i). width. lia.
Qed.

(** fields |= x; fields &= ~y; *)
Definition set_clear (fields x y : Z) : Z := Z.land (Z.lor fields x) (lnot32 y).

Lemma set_clear_has fields x y z :
  0 <= x < 32 -> 0 <= y < 32 -> 0 <= z < 32 ->
  has (set_clear fields (2 ^ x) (2 ^ y)) (2 ^ z) =
    (negb (z =? y) && ((z =? x) || has fields (2 ^ z))).
Proof.
  intros. unfold set_clear. rewrite !has_testbit by lia.
  rewrite Z.land_spec, Z.lor_spec, lnot32_testbit, !Z.pow2_bits_eqb by lia.
  rewrite (Z.eqb_sym x z), (Z.eqb_sym y z).
  by destruct (z =? y), (z =? x), (Z.testbit fields z).
Qed.

Lemma set_clear_except fields x y :
  0 <= x < 32 -> 0 <= y < 32 -> u32 fields ->
  same_except x y fields (set_clear fields (2 ^ x) (2 ^ y)).
Proof.
  intros Hx Hy Hu. split; [by apply u32_land, u32_lor, pow2_u32|].
  intros k Hk Hkx Hky. rewrite set_clear_has by done.
  by rewrite (proj2 (Z.eqb_neq _ _) Hkx), (proj2 (Z.eqb_neq _ _) Hky).
Qed.

(** The two assigning branches of a switch. *)
Lemma set_clear_written4 a i j fields :
  0 <= i < 32 -> 0 <= j < 32 -> i <> j ->
  af a = AF_INET -> has fields (2 ^ i) = true ->
  addr_written a (2 ^ i) (2 ^ j) fields (set_clear fields (2 ^ i) (2 ^ j))
    (Some (Mk_store_addr4 (v4 a))) None.
Proof.
  intros Hi Hj Hij Ha H4.
  assert ((j =? i) = false) as Eji by (apply Z.eqb_neq; lia).
  assert ((i =? j) = false) as Eij by (apply Z.eqb_neq; lia).
  by constructor; unfold both; rewrite !set_clear_has, ?Z.eqb_refl, ?Eij, ?Eji, ?H4 by done.
Qed.

Lemma set_clear_written6 a i j fields :
  0 <= i < 32 -> 0 <= j < 32 -> i <> j ->
  af a = AF_INET6 -> has fields (2 ^ j) = true ->
  addr_written a (2 ^ i) (2 ^ j) fields (set_clear fields (2 ^ j) (2 ^ i)) None
    (Some (Mk_store_addr6 (word a 0) (word a 1) (word a 2) (word a 3))).
Proof.
  intros Hi Hj Hij Ha H6.
  assert ((j =? i) = false) as Eji by (apply Z.eqb_neq; lia).
  assert ((i =? j) = false) as Eij by (apply Z.eqb_neq; lia).
  by constructor; unfold both;
    rewrite !set_clear_has, ?Z.eqb_refl, ?Eij, ?Eji, ?H6, ?orb_true_r by done.
Qed.

Lemma serialise_addr_spec a i j fields :
  0 <= i < 32 -> 0 <= j < 32 -> i <> j -> u32 fields ->
  addr_flags_ok a (2 ^ i) (2 ^ j) fields ->
  exists fields' o4 o6, serialise_addr a (2 ^ i) (2 ^ j) fields = Some (fields', o4, o6) /\
    same_except i j fields fields' /\ addr_written a (2 ^ i) (2 ^ j) fields fields' o4 o6.
Proof.
  intros Hi Hj Hij Hu Hok. unfold serialise_addr, addr_flags_ok in *.
  rewrite land_lor_eqb, !land_eqb_has. assert (AF_INET <> AF_INET6) by done.
  destruct (has fields (2 ^ i)) eqn:E4, (has fields (2 ^ j)) eqn:E6; cbn [negb andb];
    destruct (Z.eqb_spec (af a) AF_INET) as [A4|A4];
    try (destruct (Z.eqb_spec (af a) AF_INET6) as [A6|A6]);
    try (exfalso; destruct Hok as [[? ?]|[[? ?]|[? ?]]];
         first [congruence
               |match goal with H : true = true -> _ |- _ => specialize (H eq_refl) end; congruence]);
    eexists _, _, _; (split; [reflexivity|]);
    first [split; [by apply set_clear_except|by apply set_clear_written4]
          |split; [destruct (set_clear_except fields j i) as [? He]; [done..|];
                   split; [done|]; intros; by apply He
                  |by apply set_clear_written6]
          |split; [done|]; constructor; unfold both; rewrite ?E4, ?E6; done].
Qed.

(** The field word and the locals once the four switches have run. *)
Record addrs_post (f : store_flow_complete) (fields fields' : Z) (w : waddrs) : Prop := {
  ap_u32 : u32 fields';
  ap_other : forall k, 0 <= k < 32 -> ~ 3 <= k <= 10 -> has fields' (2 ^ k) = has fields (2 ^ k);
  ap_agent : addr_written (fl_agent_addr f) STORE_FIELD_AGENT_ADDR4 STORE_FIELD_AGENT_ADDR6
               fields fields' (aa4 w) (aa6 w);
  ap_src : addr_written (fl_src_addr f) STORE_FIELD_SRC_ADDR4 STORE_FIELD_SRC_ADDR6
               fields fields' (sa4 w) (sa6 w);
  ap_dst : addr_written (fl_dst_addr f) STORE_FIELD_DST_ADDR4 STORE_FIELD_DST_ADDR6
               fields fields' (da4 w) (da6 w);
  ap_gateway : addr_written (fl_gateway_addr f) STORE_FIELD_GATEWAY_ADDR4 STORE_FIELD_GATEWAY_ADDR6
               fields fields' (gwa4 w) (gwa6 w)
}.

(** A postcondition only depends on the two bits before and after. *)
Lemma addr_written_frame a f4 f6 fields0 fields fields' fields1 o4 o6 :
  has fields f4 = has fields0 f4 -> has fields f6 = has fields0 f6 ->
  has fields1 f4 = has fields' f4 -> has fields1 f6 = has fields' f6 ->
  addr_written a f4 f6 fields fields' o4 o6 -> addr_written a f4 f6 fields0 fields1 o4 o6.
Proof.
  intros B4 B6 A4 A6 []. by constructor; unfold both in *; rewrite ?A4, ?A6, <- ?B4, <- ?B6.
Qed.

Lemma addr_flags_ok_except a i j i' j' fields fields' :
  0 <= i < 32 -> 0 <= j < 32 -> same_except i' j' fields fields' ->
  i <> i' -> i <> j' -> j <> i' -> j <> j' ->
  addr_flags_ok a (2 ^ i) (2 ^ j) fields -> addr_flags_ok a (2 ^ i) (2 ^ j) fields'.
Proof. unfold addr_flags_ok. intros ? ? [_ H] ????. by rewrite !H by done. Qed.

Lemma unknown_same fields fields' :
  u32 fields -> u32 fields' ->
  (forall k, 0 <= k < 32 -> ~ 3 <= k <= 10 -> has fields' (2 ^ k) = has fields (2 ^ k)) ->
  unknown fields' = unknown fields.
Proof.
  intros Hu Hu' H. unfold unknown. apply u32_bits_inj; [by apply u32_land..|]. intros k Hk.
  rewrite !Z.land_spec, lnot32_testbit by done. destruct (decide (3 <= k <= 10)) as [Hr|Hr].
  - assert (Z.testbit STORE_FIELD_ALL k = true) as ->; [|by rewrite !andb_false_r].
    assert (k = 3 \/ k = 4 \/ k = 5 \/ k = 6 \/ k = 7 \/ k = 8 \/ k = 9 \/ k = 10) as Hc by lia.
    by repeat destruct Hc as [->|Hc]; try subst k.
  - by rewrite <- !has_testbit, H by lia.
Qed.

(** The four switches in sequence; they touch disjoint pairs of bits. *)
Lemma serialise_addrs_spec f fields :
  u32 fields -> flow_flags_ok f fields ->
  exists fields' w, serialise_addrs f fields = Some (fields', w) /\ addrs_post f fields fields' w.
Proof.
  intros Hu (Ha & Hs & Hd & Hg). unfold serialise_addrs.
  destruct (serialise_addr_spec (fl_agent_addr f) 3 4 fields)
    as (F1 & a4 & a6 & E1 & [U1 S1] & P1); [done..|].
  destruct (serialise_addr_spec (fl_src_addr f) 5 6 F1)
    as (F2 & s4 & s6 & E2 & [U2 S2] & P2); [done..| |].
  { by apply (addr_flags_ok_except _ 5 6 3 4 fields). }
  destruct (serialise_addr_spec (fl_dst_addr f) 7 8 F2)
    as (F3 & d4 & d6 & E3 & [U3 S3] & P3); [done..| |].
  { apply (addr_flags_ok_except _ 7 8 5 6 F1); try done.
    by apply (addr_flags_ok_except _ 7 8 3 4 fields). }
  destruct (serialise_addr_spec (fl_gateway_addr f) 9 10 F3)
    as (F4 & g4 & g6 & E4 & [U4 S4] & P4); [done..| |].
  { apply (addr_flags_ok_except _ 9 10 7 8 F2); try done.
    apply (addr_flags_ok_except _ 9 10 5 6 F1); try done.
    by apply (addr_flags_ok_except _ 9 10 3 4 fields). }
  exists F4, (Mk_waddrs a4 a6 s4 s6 d4 d6 g4 g6). split.
  { change STORE_FIELD_AGENT_ADDR4 with (2 ^ 3). change STORE_FIELD_AGENT_ADDR6 with (2 ^ 4).
    change STORE_FIELD_SRC_ADDR4 with (2 ^ 5). change STORE_FIELD_SRC_ADDR6 with (2 ^ 6).
    change STORE_FIELD_DST_ADDR4 with (2 ^ 7). change STORE_FIELD_DST_ADDR6 with (2 ^ 8).
    change STORE_FIELD_GATEWAY_ADDR4 with (2 ^ 9). change STORE_FIELD_GATEWAY_ADDR6 with (2 ^ 10).
    by rewrite E1, E2, E3, E4. }
  constructor; cbn [aa4 aa6 sa4 sa6 da4 da6 gwa4 gwa6]; [done| |..].
  - intros k Hk Hr. by rewrite S4, S3, S2, S1 by lia.
  - apply (addr_written_frame _ (2 ^ 3) (2 ^ 4) fields fields F1 F4); try done;
      by rewrite S4, S3, S2 by lia.
  - apply (addr_written_frame _ (2 ^ 5) (2 ^ 6) fields F1 F2 F4); try done;
      [by rewrite S1 by lia..|by rewrite S4, S3 by lia|by rewrite S4, S3 by lia].
  - apply (addr_written_frame _ (2 ^ 7) (2 ^ 8) fields F2 F3 F4); try done;
      [by rewrite S2, S1 by lia..|by rewrite S4 by lia|by rewrite S4 by lia].
  - apply (addr_written_frame _ (2 ^ 9) (2 ^ 10) fields F3 F4 F4); try done;
      by rewrite S3, S2, S1 by lia.
Qed.

(** ** What a record on disk says about a flow *)

(** The part of a record that its field word selects; the rest is zero, and an
    address is reduced to its family and bits. *)
Definition sel {A} `{Packed A} (fields flag : Z) (x : A) : A :=
  if has fields flag then x else decode [].

Definition sel_addr (fields f4 f6 : Z) (a : xaddr) : xaddr :=
  if has fields f6 then Xaddr AF_INET6 (addr32 a) 0
  else if has fields f4 then Xaddr AF_INET [v4 a; 0; 0; 0] 0
  else xaddr_zero.

Definition flow_select (f : store_flow_complete) : store_flow_complete :=
  let fl := ntohl (fields (fl_hdr f)) in
  Mk_store_flow_complete (fl_hdr f)
    (sel fl STORE_FIELD_TAG (fl_tag f)) (sel fl STORE_FIELD_RECV_TIME (fl_recv_time f))
    (sel fl STORE_FIELD_PROTO_FLAGS_TOS (fl_pft f))
    (sel_addr fl STORE_FIELD_AGENT_ADDR4 STORE_FIELD_AGENT_ADDR6 (fl_agent_addr f))
    (sel_addr fl STORE_FIELD_SRC_ADDR4 STORE_FIELD_SRC_ADDR6 (fl_src_addr f))
    (sel_addr fl STORE_FIELD_DST_ADDR4 STORE_FIELD_DST_ADDR6 (fl_dst_addr f))
    (sel_addr fl STORE_FIELD_GATEWAY_ADDR4 STORE_FIELD_GATEWAY_ADDR6 (fl_gateway_addr f))
    (sel fl STORE_FIELD_SRCDST_PORT (fl_ports f)) (sel fl STORE_FIELD_PACKETS (fl_packets f))
    (sel fl STORE_FIELD_OCTETS (fl_octets f)) (sel fl STORE_FIELD_IF_INDICES (fl_ifndx f))
    (sel fl STORE_FIELD_AGENT_INFO (fl_ainfo f)) (sel fl STORE_FIELD_FLOW_TIMES (fl_ftimes f))
    (sel fl STORE_FIELD_AS_INFO (fl_asinf f)) (sel fl STORE_FIELD_FLOW_ENGINE_INFO (fl_finf f))
    (sel fl STORE_FIELD_CRC32 (fl_crc32 f)).

Lemma addr4_valid a : xaddr_ok a -> valid (Mk_store_addr4 (v4 a)).
Proof. intros Ha. repeat constructor; by apply (lookup_word a 0); [|lia]. Qed.

Lemma addr6_valid a :
  xaddr_ok a -> valid (Mk_store_addr6 (word a 0) (word a 1) (word a 2) (word a 3)).
Proof. intros Ha. repeat constructor; by apply (lookup_word a _ Ha); lia. Qed.

Lemma addr32_words a : xaddr_ok a -> addr32 a = [word a 0; word a 1; word a 2; word a 3].
Proof. intros (Hl & _). unfold word. by destruct (addr32 a) as [|?[|?[|?[|?[|]]]]]. Qed.

Lemma crc32_valid v : u32 v -> valid (Mk_store_flow_CRC32 v).
Proof. intros Hv. repeat constructor; apply Hv. Qed.

Section serialise.
Context (f : store_flow_complete) (Hf : flow_ok f).
Context (fl fl' : Z) (w : waddrs) (Hw : addrs_post f fl fl' w).

Lemma source_packed {A} `{PackedLaws A} (x : A) size :
  valid x -> sizeof A = size ->
  exists b, Some (encode x) = Some b /\ Z.of_nat (length b) = size /\ Forall u8 b.
Proof.
  intros Hx <-. eexists; split; [done|]. split; [by apply length_encode|apply encode_u8].
Qed.

Lemma wsrc_sources : sources_ok fl' (wsrc f w) store_fields.
Proof.
  unfold sources_ok, store_fields.
  repeat (apply Forall_cons; split; [cbn [fst snd]; intros Hhas|]); [..|by apply Forall_nil];
  lazymatch goal with
  | |- exists b, wsrc f w ?c = _ /\ _ =>
    lazymatch c with
    | STORE_FIELD_AGENT_ADDR4 => apply (aw_4 _ _ _ _ _ _ _ (ap_agent _ _ _ _ Hw)) in Hhas as [_ Hs];
        change (wsrc f w c) with (encode <$> aa4 w)
    | STORE_FIELD_AGENT_ADDR6 => apply (aw_6 _ _ _ _ _ _ _ (ap_agent _ _ _ _ Hw)) in Hhas as [_ Hs];
        change (wsrc f w c) with (encode <$> aa6 w)
    | STORE_FIELD_SRC_ADDR4 => apply (aw_4 _ _ _ _ _ _ _ (ap_src _ _ _ _ Hw)) in Hhas as [_ Hs];
        change (wsrc f w c) with (encode <$> sa4 w)
    | STORE_FIELD_SRC_ADDR6 => apply (aw_6 _ _ _ _ _ _ _ (ap_src _ _ _ _ Hw)) in Hhas as [_ Hs];
        change (wsrc f w c) with (encode <$> sa6 w)
    | STORE_FIELD_DST_ADDR4 => apply (aw_4 _ _ _ _ _ _ _ (ap_dst _ _ _ _ Hw)) in Hhas as [_ Hs];
        change (wsrc f w c) with (encode <$> da4 w)
    | STORE_FIELD_DST_ADDR6 => apply (aw_6 _ _ _ _ _ _ _ (ap_dst _ _ _ _ Hw)) in Hhas as [_ Hs];
        change (wsrc f w c) with (encode <$> da6 w)
    | STORE_FIELD_GATEWAY_ADDR4 =>
        apply (aw_4 _ _ _ _ _ _ _ (ap_gateway _ _ _ _ Hw)) in Hhas as [_ Hs];
        change (wsrc f w c) with (encode <$> gwa4 w)
    | STORE_FIELD_GATEWAY_ADDR6 =>
        apply (aw_6 _ _ _ _ _ _ _ (ap_gateway _ _ _ _ Hw)) in Hhas as [_ Hs];
        change (wsrc f w c) with (encode <$> gwa6 w)
    | _ => idtac
    end
  end;
  try rewrite Hs; cbn [fmap option_fmap option_map];
  apply source_packed; try reflexivity; try apply addr4_valid; try apply addr6_valid; apply Hf.
Qed.

(** A destination holds what the writer had for its bit. *)
Lemma dest_sel {A} `{PackedLaws A} (m : gmap Z bytes) flag (x : A) :
  (m !! flag = if has fl' flag then Some (encode x) else None) -> valid x ->
  dest m flag = sel fl' flag x.
Proof.
  intros Hm Hx. unfold dest, sel. rewrite Hm. destruct (has fl' flag); [|done].
  by apply decode_encode'.
Qed.

Lemma dest_Some {A} `{PackedLaws A} (m : gmap Z bytes) flag (x : A) :
  m !! flag = Some (encode x) -> valid x -> dest m flag = x.
Proof. intros Hm Hx. unfold dest. rewrite Hm. by apply decode_encode'. Qed.

Lemma read_addr_sel m a f4 f6 o4 o6 :
  xaddr_ok a -> addr_written a f4 f6 fl fl' o4 o6 ->
  (has fl' f4 = true -> m !! f4 = encode <$> o4) ->
  (has fl' f6 = true -> m !! f6 = encode <$> o6) ->
  read_addr fl' m f4 f6 = sel_addr fl' f4 f6 a.
Proof.
  intros Ha Haw H4 H6. unfold read_addr, sel_addr.
  destruct (has fl' f6) eqn:E6.
  - destruct (aw_6 _ _ _ _ _ _ _ Haw E6) as [_ Ho]. rewrite Ho in H6.
    rewrite (dest_Some m f6 _ (H6 eq_refl)) by (by apply addr6_valid).
    by rewrite (addr32_words a).
  - destruct (has fl' f4) eqn:E4; [|done].
    destruct (aw_4 _ _ _ _ _ _ _ Haw E4) as [_ Ho]. rewrite Ho in H4.
    by rewrite (dest_Some m f4 _ (H4 eq_refl)) by (by apply addr4_valid).
Qed.
End serialise.

(** ** Serialisation of a well-formed record *)

(** The header, the bytes covered by the checksum, the bytes of the record and
    the record in memory after store_flow_serialise. *)
Definition record_hdr (fl' : Z) : store_flow :=
  Mk_store_flow STORE_VERSION (wrap8 (sel_len fl' all_fields / 4)) 0 (htonl fl').

Definition record_body (f : store_flow_complete) (w : waddrs) (fl' : Z) : bytes :=
  encode (record_hdr fl') ++ payload fl' (wsrc f w) store_fields.

Definition record_crc (f : store_flow_complete) (w : waddrs) (fl' : Z) : Z :=
  flowd_crc32_update (record_body f w fl') flowd_crc32_start.

Definition record_bytes (f : store_flow_complete) (w : waddrs) (fl' : Z) : bytes :=
  record_body f w fl' ++
  (if has fl' STORE_FIELD_CRC32
   then encode (Mk_store_flow_CRC32 (htonl (record_crc f w fl'))) else []).

Definition record_flow (f : store_flow_complete) (w : waddrs) (fl' : Z) : store_flow_complete :=
  set_fl_crc32
    (if has fl' STORE_FIELD_CRC32 then Mk_store_flow_CRC32 (htonl (record_crc f w fl'))
     else fl_crc32 f)
    (set_fl_hdr (record_hdr fl') f).

Lemma sel_len_app fields l1 l2 : sel_len fields (l1 ++ l2) = sel_len fields l1 + sel_len fields l2.
Proof. unfold sel_len. induction l1 as [|a l IH]; simpl; [done|]. rewrite IH. lia. Qed.

Lemma sel_len_all fields :
  sel_len fields all_fields =
    sel_len fields store_fields + (if has fields STORE_FIELD_CRC32 then 4 else 0).
Proof.
  unfold all_fields. rewrite sel_len_app. f_equal. apply Z.add_0_r.
Qed.

Lemma sel_len_all_range fields :
  0 <= sel_len fields all_fields <= 176 /\ sel_len fields all_fields mod 4 = 0.
Proof.
  assert (Forall (fun fld => 0 <= snd fld) all_fields) as Hs.
  { eapply Forall_impl; [apply all_fields_sizes|]. by intros fld []. }
  pose proof (sel_len_nonneg fields _ Hs). pose proof (sel_len_max fields _ Hs) as Hmax.
  change (foldr _ _ all_fields) with 176 in Hmax.
  split; [lia|]. apply sel_len_mod4, all_fields_sizes.
Qed.

Lemma store_fields_not_crc : Forall (fun fld => fst fld <> STORE_FIELD_CRC32) store_fields.
Proof. apply (bool_decide_unpack _). vm_compute. exact I. Qed.
Lemma crc_not_in_store_fields : STORE_FIELD_CRC32 ∉ (fst <$> store_fields).
Proof. apply (bool_decide_unpack _). vm_compute. exact I. Qed.
Lemma store_fields_nodup : NoDup (fst <$> store_fields).
Proof. apply (bool_decide_unpack _). vm_compute. exact I. Qed.

Lemma record_hdr_valid fl' : u32 fl' -> valid (record_hdr fl').
Proof.
  intros H. repeat constructor; try done; try apply wrap8_u8; apply bswap_bound.
Qed.

Lemma encode_hdr_length fl' : u32 fl' -> length (encode (record_hdr fl')) = 8%nat.
Proof.
  intros H. apply Nat2Z.inj. by rewrite (length_encode _ (record_hdr_valid fl' H)).
Qed.

Section serialise_spec.
Context (f : store_flow_complete) (Hf : flow_ok f).
Context (fl fl' : Z) (w : waddrs) (Hw : addrs_post f fl fl' w).
Context (Haddrs : serialise_addrs f fl = Some (fl', w)).
Context (Hunk : unknown fl' = 0).

Lemma length_record_body :
  Z.of_nat (length (record_body f w fl')) = 8 + sel_len fl' store_fields.
Proof using Hf Hw.
  unfold record_body. rewrite length_app, Nat2Z.inj_add, encode_hdr_length by apply Hw.
  by rewrite (length_payload _ _ _ (wsrc_sources f Hf fl fl' w Hw)).
Qed.

Lemma length_record_bytes :
  Z.of_nat (length (record_bytes f w fl')) = 8 + sel_len fl' all_fields.
Proof using Hf Hw.
  unfold record_bytes. rewrite length_app, Nat2Z.inj_add, length_record_body, sel_len_all.
  destruct (has fl' STORE_FIELD_CRC32); simpl; lia.
Qed.

Lemma record_body_u8 : Forall u8 (record_body f w fl').
Proof using Hf Hw.
  apply Forall_app; split; [apply encode_u8|].
  apply payload_u8. by apply (wsrc_sources f Hf fl).
Qed.

Lemma store_flow_serialise_eq buflen :
  fl = ntohl (fields (fl_hdr f)) -> 8 + sel_len fl' all_fields <= buflen ->
  store_flow_serialise f buflen =
    Ret (STORE_ERR_OK, record_bytes f w fl', record_flow f w fl').
Proof using Hf Hw Haddrs Hunk.
  intros Hfl Hbuf. unfold store_flow_serialise. cbv zeta.
  change (serialise_addrs (set_fl_hdr _ f)) with (serialise_addrs f).
  rewrite <- Hfl, Haddrs. rewrite store_calc_flow_len_eq. cbn [fl_hdr set_hdr_fields set_fl_hdr fields].
  destruct Hw as [Hu _ _ _ _ _]. rewrite ntohl_htonl, Hunk by done. cbn [Z.eqb].
  destruct (sel_len_all_range fl') as [Hr H4].
  rewrite (Z.land_ones _ 2) by lia. change (2 ^ 2) with 4. rewrite H4. cbn [Z.eqb negb].
  rewrite (proj2 (Z.ltb_ge _ _)) by lia. rewrite (proj2 (Z.eqb_neq _ (-1))) by lia.
  fold (record_hdr fl'). unfold wr at 1.
  change (set_fl_hdr (record_hdr fl') _) with (set_fl_hdr (record_hdr fl') f).
  change (wsrc (set_fl_hdr (record_hdr fl') f) w) with (wsrc f w).
  rewrite encode_hdr_length, (proj2 (Z.leb_le _ _)) by (done || simpl; lia). cbn [obind app].
  pose proof (sel_len_all fl') as Hall.
  rewrite WFIELDS_spec; [|by apply (wsrc_sources f Hf fl)|apply store_fields_not_crc|].
  2:{ rewrite encode_hdr_length by done. destruct (has fl' STORE_FIELD_CRC32); lia. }
  cbn [obind snd]. rewrite <- flowd_crc32_update_app.
  fold (record_body f w fl'). fold (record_crc f w fl').
  pose proof length_record_body as Hlb.
  pose proof length_record_bytes as Hlr. unfold record_bytes, record_flow in *.
  unfold WFIELD.
  destruct (has fl' STORE_FIELD_CRC32) eqn:Hcrc.
  - match goal with |- context [wsrc (set_fl_crc32 ?c ?g) w STORE_FIELD_CRC32] =>
      change (wsrc (set_fl_crc32 c g) w STORE_FIELD_CRC32) with (Some (encode c)) end.
    cbv iota. unfold wr. change (length (encode (Mk_store_flow_CRC32 _))) with 4%nat.
    rewrite (proj2 (Z.leb_le _ _)) by lia. cbn [obind fst].
    rewrite Hlr. change (sizeof store_flow) with 8. by rewrite Z.add_comm, Z.eqb_refl.
  - rewrite app_nil_r in *. cbn [obind fst]. rewrite Hlr.
    change (sizeof store_flow) with 8. by rewrite Z.add_comm, Z.eqb_refl.
Qed.
End serialise_spec.

(** ** Reading a record back *)

(** Conversion unfolds the checksum and the codecs last. *)
#[local] Strategy 100 [flowd_crc32_update encode decode].

Section deserialise.
Context (fl' : Z) (Hu : u32 fl') (Hunk : unknown fl' = 0).

(** Every bit of the field word is one that RFIELD handles. *)
Lemma donefields_zero :
  Z.land (fold_left (fun d fld => if has fl' (fst fld) then Z.land d (lnot32 (fst fld)) else d)
            store_fields fl') (lnot32 STORE_FIELD_CRC32) = 0.
Proof using Hu Hunk.
  assert (Forall (fun fld => u32 (fst fld)) store_fields) as Hl.
  { pose proof all_fields_u32 as H. by apply Forall_app in H as [H _]. }
  rewrite (clear_fields_known _ fl' fl'); [|done|done|apply store_fields_nodup| |done].
  2:{ pose proof store_fields_pow2 as H. by apply Forall_app in H as [H _]. }
  rewrite clear_fields_spec by done. rewrite <- Z.land_assoc. exact Hunk.
Qed.

Lemma record_hdr_len_words : len_words (record_hdr fl') * 4 = sel_len fl' all_fields.
Proof using.
  destruct (sel_len_all_range fl') as [Hr H4]. cbn [record_hdr len_words].
  rewrite wrap8_small.
  - rewrite Z.mul_comm. symmetry. by apply Z.div_exact.
  - split; [apply Z.div_pos; lia|apply Z.div_lt_upper_bound; lia].
Qed.

(** The reader on a record with this header, whatever the selected fields
    hold: it gets to the end, with the fields at their destinations and the
    checksum of everything before the stored one. *)
Lemma store_flow_deserialise_body src crcb rest :
  sources_ok fl' src store_fields ->
  Z.of_nat (length crcb) = (if has fl' STORE_FIELD_CRC32 then 4 else 0) ->
  exists crc m,
    store_flow_deserialise
      (encode (record_hdr fl') ++ payload fl' src store_fields ++ crcb ++ rest)
      (8 + sel_len fl' all_fields) = Ret (deserialise_finish (record_hdr fl') fl' crc m) /\
    (has fl' STORE_FIELD_CRC32 = true ->
     crc = flowd_crc32_update (encode (record_hdr fl') ++ payload fl' src store_fields)
             flowd_crc32_start) /\
    (forall flag, flag ∈ (fst <$> store_fields) ->
       m !! flag = if has fl' flag then src flag else None) /\
    m !! STORE_FIELD_CRC32 = (if has fl' STORE_FIELD_CRC32 then Some crcb else None).
Proof using Hu Hunk.
  intros Hsrc Hlen. destruct (sel_len_all_range fl') as [Hr H4].
  pose proof (encode_hdr_length fl' Hu) as Hh.
  unfold store_flow_deserialise. cbv zeta. change (sizeof store_flow) with 8.
  rewrite !wrap64_small by (width; lia).
  rewrite (proj2 (Z.ltb_ge _ _)), rd_head by lia. cbn [obind].
  rewrite decode_encode' by (by apply record_hdr_valid).
  change (STORE_VER_GET_MAJ (version (record_hdr fl')) =? STORE_VER_MAJOR) with true.
  change (STORE_VER_MINOR <? STORE_VER_GET_MIN (version (record_hdr fl'))) with false.
  cbn [negb]. rewrite record_hdr_len_words, (proj2 (Z.ltb_ge _ _)) by lia.
  change (fields (record_hdr fl')) with (htonl fl'). rewrite (ntohl_htonl fl' Hu).
  set (s0 := Mk_rstate _ _ _ _).
  destruct (RFIELDS_spec fl' src store_fields (encode (record_hdr fl')) (crcb ++ rest) s0)
    as (s & -> & Ho & Hc & Hd & Hm);
    [done|apply store_fields_not_crc|apply store_fields_nodup|subst s0; cbn [r_offset]; by rewrite Hh|].
  cbn [obind]. rewrite Hd. subst s0. cbn [r_donefields r_crc r_dests] in *.
  rewrite donefields_zero. cbn [Z.eqb negb]. unfold RFIELD.
  rewrite <- (flowd_crc32_update_app (encode (record_hdr fl'))) in Hc.
  assert (forall flag, flag ∈ (fst <$> store_fields) ->
            r_dests s !! flag = if has fl' flag then src flag else None) as Hms.
  { intros flag Hin. rewrite Hm, decide_True by done. by case_match. }
  destruct (has fl' STORE_FIELD_CRC32).
  - rewrite Ho, app_assoc, rd_app by done. cbn [obind r_crc r_dests]. eexists _, _.
    split; [reflexivity|]. split; [done|]. split; [|by rewrite lookup_insert_eq].
    intros flag Hin. rewrite lookup_insert_ne; [by apply Hms|]. intros <-.
    by apply crc_not_in_store_fields.
  - cbn [obind]. eexists _, _. split; [reflexivity|]. split; [done|]. split; [done|].
    rewrite Hm, decide_False; [done|]. apply crc_not_in_store_fields.
Qed.
End deserialise.

Section roundtrip.
Context (f : store_flow_complete) (Hf : flow_ok f).
Context (fl fl' : Z) (w : waddrs) (Hw : addrs_post f fl fl' w).
Context (Hunk : unknown fl' = 0).

(** The destinations hold what the writer copied. *)
Definition flow_dests_ok (c : store_flow_CRC32) (m : gmap Z bytes) : Prop :=
  (forall flag, flag ∈ (fst <$> store_fields) ->
     m !! flag = if has fl' flag then wsrc f w flag else None) /\
  m !! STORE_FIELD_CRC32 = (if has fl' STORE_FIELD_CRC32 then Some (encode c) else None).

Lemma store_fields_in flag :
  bool_decide (flag ∈ (fst <$> store_fields)) = true -> flag ∈ (fst <$> store_fields).
Proof using. by intros ?%bool_decide_eq_true. Qed.

Lemma deserialise_finish_sel c m crc :
  flow_dests_ok c m -> valid c ->
  (has fl' STORE_FIELD_CRC32 = true -> crc = ntohl (crc32 c)) ->
  deserialise_finish (record_hdr fl') fl' crc m =
    (STORE_ERR_OK, flow_select (set_fl_crc32 c (set_fl_hdr (record_hdr fl') f))).
Proof using Hf Hw.
  intros [Hm Hmc] Hvc Hcrc. destruct Hw as [Hu _ Wa Ws Wd Wg].
  assert (forall flag, bool_decide (flag ∈ (fst <$> store_fields)) = true -> has fl' flag = true ->
    m !! flag = wsrc f w flag) as Hm1.
  { intros flag Hin Hhas. rewrite Hm by (by apply store_fields_in). by rewrite Hhas. }
  unfold deserialise_finish.
  rewrite (aw_not_both _ _ _ _ _ _ _ Wa), (aw_not_both _ _ _ _ _ _ _ Ws),
    (aw_not_both _ _ _ _ _ _ _ Wd), (aw_not_both _ _ _ _ _ _ _ Wg). cbv zeta.
  rewrite (read_addr_sel fl fl' m _ _ _ _ _ (ok_agent_addr f Hf) Wa) by (by apply Hm1).
  rewrite (read_addr_sel fl fl' m _ _ _ _ _ (ok_src_addr f Hf) Ws) by (by apply Hm1).
  rewrite (read_addr_sel fl fl' m _ _ _ _ _ (ok_dst_addr f Hf) Wd) by (by apply Hm1).
  rewrite (read_addr_sel fl fl' m _ _ _ _ _ (ok_gateway_addr f Hf) Wg) by (by apply Hm1).
  unfold flow_of_dests.
  rewrite (dest_sel fl' m STORE_FIELD_CRC32 c Hmc Hvc).
  flow_simpl.
  assert (has fl' STORE_FIELD_CRC32 && negb (crc =? ntohl (crc32 (sel fl' STORE_FIELD_CRC32 c)))
            = false) as ->.
  { unfold sel. destruct (has fl' STORE_FIELD_CRC32); [|done].
    by rewrite Hcrc, Z.eqb_refl. }
  f_equal. unfold flow_select. flow_simpl. cbn [record_hdr fields].
  rewrite (ntohl_htonl fl' Hu).
  f_equal; apply dest_sel; first [apply _|by apply Hm, store_fields_in|apply Hf].
Qed.

Lemma store_flow_deserialise_record rest :
  store_flow_deserialise (record_bytes f w fl' ++ rest) (Z.of_nat (length (record_bytes f w fl'))) =
    Ret (STORE_ERR_OK, flow_select (record_flow f w fl')).
Proof using Hf Hw Hunk.
  pose proof (ap_u32 _ _ _ _ Hw) as Hu.
  rewrite (length_record_bytes f Hf fl fl' w Hw).
  unfold record_bytes, record_body. rewrite <- !app_assoc.
  destruct (store_flow_deserialise_body fl' Hu Hunk (wsrc f w)
    (if has fl' STORE_FIELD_CRC32
     then encode (Mk_store_flow_CRC32 (htonl (record_crc f w fl'))) else []) rest)
    as (crc & m & -> & Hcrc & Hm & Hmc); [by apply (wsrc_sources f Hf fl)|by case_match|].
  f_equal. unfold record_flow. apply deserialise_finish_sel.
  - split; [done|]. rewrite Hmc. by case_match.
  - case_match; [apply crc32_valid, htonl_u32|apply Hf].
  - intros Hhas. rewrite Hhas, (Hcrc Hhas). cbn [crc32]. rewrite ntohl_htonl; [done|].
    apply flowd_crc32_update_u32; [by apply (record_body_u8 f Hf fl)|done].
Qed.
End roundtrip.
