(* ===== verification/StoreProps.v ===== *)
(** * On-disk flow records: properties of store.c

    The round trip through the log format, with exactly the fields asked for, detection of corrupted records, the
    error branches of the writer and the masked writer. *)

From stdpp Require Import gmap.
From S2P Require Import Prelude Packed Crc32 Addr StoreTypes Store.

(** A flow as receive_packet hands it to the writer, for the witnesses. *)
Definition sample_flow (fl : Z) : store_flow_complete :=
  Mk_store_flow_complete (Mk_store_flow 0 0 0 (htonl fl))
    (Mk_store_flow_TAG (htonl 7)) (Mk_store_flow_RECV_TIME (htonl 1000) (htonl 5))
    (Mk_store_flow_PROTO_FLAGS_TOS 2 6 0 0)
    (ip4 10 0 0 1) (ip4 10 1 2 3) (ip4 192 168 7 9) (ip4 10 0 0 2)
    (Mk_store_flow_SRCDST_PORT (htons 1234) (htons 80))
    (Mk_store_flow_PACKETS 9) (Mk_store_flow_OCTETS 1500)
    (decode []) (decode []) (decode []) (decode []) (decode []) (decode []).

Ltac flow_ok_tac :=
  constructor; first [by (apply (bool_decide_unpack _); vm_compute; exact I)|inet4].

Ltac flags_tac :=
  split_and!; left; (split; [reflexivity|vm_compute; first [reflexivity|discriminate|done]]).

(** The members of two records that the writer does not assign are the same. *)
Definition same_contents (f f' : store_flow_complete) : Prop :=
  set_fl_crc32 (fl_crc32 f) (set_fl_hdr (fl_hdr f) f') = f.

Lemma ok_fields_u32 f : flow_ok f -> u32 (ntohl (fields (fl_hdr f))).
Proof. intros _. apply ntohl_u32. Qed.

(** The writer on a well-formed record, with what its switches produced. *)
Lemma store_flow_serialise_ok f buflen :
  flow_ok f -> flow_flags_ok f (ntohl (fields (fl_hdr f))) ->
  unknown (ntohl (fields (fl_hdr f))) = 0 -> 184 <= buflen ->
  exists fl' w, serialise_addrs f (ntohl (fields (fl_hdr f))) = Some (fl', w) /\
    addrs_post f (ntohl (fields (fl_hdr f))) fl' w /\ unknown fl' = 0 /\
    store_flow_serialise f buflen = Ret (STORE_ERR_OK, record_bytes f w fl', record_flow f w fl').
Proof.
  intros Hf Hflags Hunk Hbuf.
  destruct (serialise_addrs_spec f _ (ok_fields_u32 f Hf) Hflags) as (fl' & w & Ha & Hw).
  assert (unknown fl' = 0) as Hunk'.
  { rewrite (unknown_same (ntohl (fields (fl_hdr f))) fl'); try done; apply Hw || by apply ok_fields_u32. }
  exists fl', w. split_and!; [done..|].
  eapply store_flow_serialise_eq; [done|exact Hw|done|done|done|].
  pose proof (sel_len_all_range fl'). lia.
Qed.

(** ** What is read back of a record

    Of the flow [f], of which the bits of [fl] ask for fields, the record holds each
    field that is asked for, and of an address asked for, by either of its two bits,
    its family and its bytes; all the rest is zero.  The field word of the record
    says so: the two bits of an address tell its family. *)

Definition bare (a : xaddr) : xaddr :=
  if af a =? AF_INET6 then Xaddr AF_INET6 (addr32 a) 0
  else if af a =? AF_INET then Xaddr AF_INET [v4 a; 0; 0; 0] 0
  else xaddr_zero.

Definition asked_addr (fl i : Z) (a : xaddr) : xaddr :=
  if Z.testbit fl i || Z.testbit fl (i + 1) then bare a else xaddr_zero.

(** A field whose bit is [k]; of nothing, all members are zero. *)
Definition asked {A} `{Packed A} (fl k : Z) (x : A) : A := if Z.testbit fl k then x else decode [].

Definition stored_bit (fl : Z) (f : store_flow_complete) (k : Z) : bool :=
  let ask i := Z.testbit fl i || Z.testbit fl (i + 1) in
  let pair i a := if k =? i then ask i && (af a =? AF_INET) else ask i && (af a =? AF_INET6) in
  if (3 <=? k) && (k <=? 4) then pair 3 (fl_agent_addr f)
  else if (5 <=? k) && (k <=? 6) then pair 5 (fl_src_addr f)
  else if (7 <=? k) && (k <=? 8) then pair 7 (fl_dst_addr f)
  else if (9 <=? k) && (k <=? 10) then pair 9 (fl_gateway_addr f)
  else Z.testbit fl k.

(** [g] is what is read back of [f]; only a checksum that is asked for is another. *)
Record selected (fl : Z) (f g : store_flow_complete) : Prop := {
  se_tag : fl_tag g = asked fl 0 (fl_tag f);
  se_recv_time : fl_recv_time g = asked fl 1 (fl_recv_time f);
  se_pft : fl_pft g = asked fl 2 (fl_pft f);
  se_agent : fl_agent_addr g = asked_addr fl 3 (fl_agent_addr f);
  se_src : fl_src_addr g = asked_addr fl 5 (fl_src_addr f);
  se_dst : fl_dst_addr g = asked_addr fl 7 (fl_dst_addr f);
  se_gateway : fl_gateway_addr g = asked_addr fl 9 (fl_gateway_addr f);
  se_ports : fl_ports g = asked fl 11 (fl_ports f);
  se_packets : fl_packets g = asked fl 12 (fl_packets f);
  se_octets : fl_octets g = asked fl 13 (fl_octets f);
  se_ifndx : fl_ifndx g = asked fl 14 (fl_ifndx f);
  se_ainfo : fl_ainfo g = asked fl 15 (fl_ainfo f);
  se_ftimes : fl_ftimes g = asked fl 16 (fl_ftimes f);
  se_asinf : fl_asinf g = asked fl 17 (fl_asinf f);
  se_finf : fl_finf g = asked fl 18 (fl_finf f);
  se_crc : Z.testbit fl 30 = false -> fl_crc32 g = decode [];
  se_fields k : 0 <= k < 32 -> Z.testbit (ntohl (fields (fl_hdr g))) k = stored_bit fl f k;
  se_version : version (fl_hdr g) = STORE_VERSION;
  se_reserved : reserved (fl_hdr g) = 0
}.

(** The bits of an address behind the switches. *)
Lemma addr_written_bits a i fl fl' o4 o6 : 0 <= i -> i + 1 < 32 ->
  addr_written a (2 ^ i) (2 ^ (i + 1)) fl fl' o4 o6 ->
  Z.testbit fl' i = (Z.testbit fl i || Z.testbit fl (i + 1)) && (af a =? AF_INET) /\
  Z.testbit fl' (i + 1) = (Z.testbit fl i || Z.testbit fl (i + 1)) && (af a =? AF_INET6).
Proof.
  intros H0 H1 [Hb H4 H6 Hk]. unfold both in Hb. rewrite !has_testbit in * by lia. rewrite <- Hk.
  assert (AF_INET <> AF_INET6) as Hne by done.
  destruct (Z.testbit fl' i) eqn:E4, (Z.testbit fl' (i + 1)) eqn:E6; cbn [orb andb] in *; try done.
  - destruct (H4 eq_refl) as [-> _]. done.
  - destruct (H6 eq_refl) as [-> _]. done.
Qed.

Lemma asked_addr_sel a i fl fl' o4 o6 : 0 <= i -> i + 1 < 32 ->
  addr_written a (2 ^ i) (2 ^ (i + 1)) fl fl' o4 o6 ->
  sel_addr fl' (2 ^ i) (2 ^ (i + 1)) a = asked_addr fl i a.
Proof.
  intros H0 H1 Hw. destruct (addr_written_bits a i fl fl' o4 o6 H0 H1 Hw) as [E4 E6].
  unfold sel_addr, asked_addr, bare. rewrite !has_testbit, E4, E6 by lia.
  destruct (_ || _); cbn [andb]; [|done]. by destruct (af a =? AF_INET6), (af a =? AF_INET).
Qed.

Lemma sel_asked {A} `{Packed A} (fl fl' k : Z) (x : A) : 0 <= k < 32 -> has fl' (2 ^ k) = has fl (2 ^ k) ->
  sel fl' (2 ^ k) x = asked fl k x.
Proof. intros Hk E. unfold sel, asked. rewrite E, has_testbit by lia. done. Qed.

Lemma record_selected f fl fl' w : addrs_post f fl fl' w -> selected fl f (flow_select (record_flow f w fl')).
Proof.
  intros [Hu Ho Wa Ws Wd Wg].
  assert (fields (fl_hdr (record_flow f w fl')) = htonl fl') as Eh by (by destruct f).
  assert (forall k, 0 <= k < 32 -> ~ 3 <= k <= 10 -> forall A (P : Packed A) (x : A), sel fl' (2 ^ k) x = asked fl k x) as Hsel
    by (intros; apply sel_asked; [done|by apply Ho]).
  change STORE_FIELD_AGENT_ADDR4 with (2 ^ 3) in Wa. change STORE_FIELD_AGENT_ADDR6 with (2 ^ (3 + 1)) in Wa.
  change STORE_FIELD_SRC_ADDR4 with (2 ^ 5) in Ws. change STORE_FIELD_SRC_ADDR6 with (2 ^ (5 + 1)) in Ws.
  change STORE_FIELD_DST_ADDR4 with (2 ^ 7) in Wd. change STORE_FIELD_DST_ADDR6 with (2 ^ (7 + 1)) in Wd.
  change STORE_FIELD_GATEWAY_ADDR4 with (2 ^ 9) in Wg. change STORE_FIELD_GATEWAY_ADDR6 with (2 ^ (9 + 1)) in Wg.
  unfold flow_select. rewrite Eh, ntohl_htonl by done.
  constructor; flow_simpl.
  1: apply (Hsel 0); lia.
  1: apply (Hsel 1); lia.
  1: apply (Hsel 2); lia.
  1: by eapply (asked_addr_sel _ 3).
  1: by eapply (asked_addr_sel _ 5).
  1: by eapply (asked_addr_sel _ 7).
  1: by eapply (asked_addr_sel _ 9).
  1: apply (Hsel 11); lia.
  1: apply (Hsel 12); lia.
  1: apply (Hsel 13); lia.
  1: apply (Hsel 14); lia.
  1: apply (Hsel 15); lia.
  1: apply (Hsel 16); lia.
  1: apply (Hsel 17); lia.
  1: apply (Hsel 18); lia.
  - intros E. unfold sel. change STORE_FIELD_CRC32 with (2 ^ 30). by rewrite Ho, has_testbit, E by lia.
  - intros k Hk. rewrite Eh, ntohl_htonl by done. unfold stored_bit.
    destruct (addr_written_bits _ 3 _ _ _ _ ltac:(lia) ltac:(lia) Wa) as [A4 A6].
    destruct (addr_written_bits _ 5 _ _ _ _ ltac:(lia) ltac:(lia) Ws) as [S4 S6].
    destruct (addr_written_bits _ 7 _ _ _ _ ltac:(lia) ltac:(lia) Wd) as [D4 D6].
    destruct (addr_written_bits _ 9 _ _ _ _ ltac:(lia) ltac:(lia) Wg) as [G4 G6].
    destruct (decide (3 <= k <= 10)) as [Hr|Hr].
    + assert (k = 3 \/ k = 3 + 1 \/ k = 5 \/ k = 5 + 1 \/ k = 7 \/ k = 7 + 1 \/ k = 9 \/ k = 9 + 1) as Hc by lia.
      repeat destruct Hc as [->|Hc]; try subst k; assumption.
    + assert (((3 <=? k) && (k <=? 4)) = false /\ ((5 <=? k) && (k <=? 6)) = false /\ ((7 <=? k) && (k <=? 8)) = false /\
        ((9 <=? k) && (k <=? 10)) = false) as (-> & -> & -> & ->) by lia.
      rewrite <- !has_testbit by lia. by apply Ho.
  - by destruct f.
  - by destruct f.
Qed.

(** C20: writing a record and reading it back.  When the bits of the field word
    are known ones and those of an address agree with its family, the record fits
    and is read back, whatever follows it in the buffer: each field that was asked
    for has the values of the record written, an address its family and bytes,
    everything else is zero, and the field word says which fields there are.  The
    header has the length of the record; the checksum, when asked for, is that of
    the bytes before it.  The writer changes nothing of the record in memory but
    its header and checksum. *)
Theorem store_serialise_deserialise f buflen rest :
  let fl := ntohl (fields (fl_hdr f)) in
  flow_ok f -> flow_flags_ok f fl -> unknown fl = 0 -> 184 <= buflen ->
  exists out f' g, store_flow_serialise f buflen = Ret (STORE_ERR_OK, out, f') /\
    Z.of_nat (length out) <= 184 /\ same_contents f f' /\
    store_flow_deserialise (out ++ rest) (Z.of_nat (length out)) = Ret (STORE_ERR_OK, g) /\
    selected fl f g /\ fl_hdr g = fl_hdr f' /\ len_words (fl_hdr g) * 4 = Z.of_nat (length out) - 8 /\
    (Z.testbit fl 30 = true -> exists body, out = body ++ encode (fl_crc32 g) /\
       fl_crc32 g = Mk_store_flow_CRC32 (htonl (crc32_ref body flowd_crc32_start))).
Proof.
  intros fl Hf Hflags Hunk Hbuf.
  destruct (store_flow_serialise_ok f buflen) as (fl' & w & Ha & Hw & Hunk' & HS); [done..|].
  exists (record_bytes f w fl'), (record_flow f w fl'), (flow_select (record_flow f w fl')).
  pose proof (length_record_bytes f Hf _ fl' w Hw) as Hl. pose proof (sel_len_all_range fl').
  split; [done|]. split; [lia|]. split; [by destruct f|]. split; [by eapply store_flow_deserialise_record|].
  split; [by eapply record_selected|]. split; [done|].
  split; [change (fl_hdr (flow_select (record_flow f w fl'))) with (record_hdr fl'); rewrite record_hdr_len_words; lia|].
  intros H30. exists (record_body f w fl').
  assert (has fl' STORE_FIELD_CRC32 = true) as Hc.
  { change STORE_FIELD_CRC32 with (2 ^ 30). rewrite (ap_other _ _ _ _ Hw 30), has_testbit by lia. done. }
  assert (fl_crc32 (flow_select (record_flow f w fl')) = Mk_store_flow_CRC32 (htonl (record_crc f w fl'))) as ->.
  { unfold flow_select. flow_simpl. unfold record_flow. rewrite Hc. flow_simpl. cbn [record_hdr fields].
    rewrite ntohl_htonl by apply Hw. unfold sel. by rewrite Hc. }
  split; [unfold record_bytes; by rewrite Hc|]. do 2 f_equal. unfold record_crc. apply crc32_update_ref.
  by apply (record_body_u8 f Hf fl fl' w).
Qed.

Lemma store_serialise_deserialise_witness :
  exists out f' g, store_flow_serialise (sample_flow 1073756847) 184 = Ret (STORE_ERR_OK, out, f') /\
    store_flow_deserialise (out ++ [1; 2]) (Z.of_nat (length out)) = Ret (STORE_ERR_OK, g) /\
    fl_src_addr g = ip4 10 1 2 3.
Proof.
  destruct (store_serialise_deserialise (sample_flow 1073756847) 184 [1; 2])
    as (out & f' & g & Hs & _ & _ & Hd & Hg & _).
  - flow_ok_tac.
  - flags_tac.
  - reflexivity.
  - lia.
  - exists out, f', g. split; [exact Hs|]. split; [exact Hd|]. rewrite (se_src _ _ _ Hg). vm_compute. reflexivity.
Defined.

(** ** Corrupted records *)

(** Any bytes of the right number are the payload of some sources. *)
Lemma body_sources fields (l : list (Z * Z)) body :
  Forall u8 body -> Z.of_nat (length body) = sel_len fields l ->
  NoDup (fst <$> l) -> Forall (fun fld => 0 <= snd fld) l ->
  exists src, sources_ok fields src l /\ payload fields src l = body.
Proof.
  intros Hb Hlen Hnd Hl. revert body Hb Hlen Hnd.
  induction Hl as [|[flag size] l Hsize Hl IH]; intros body Hb Hlen Hnd.
  { exists (fun _ => None). split; [constructor|]. by destruct body. }
  apply NoDup_cons in Hnd as [Hni Hnd]. cbn [fst snd] in *.
  change (sel_len fields ((flag, size) :: l)) with
    ((if has fields flag then size else 0) + sel_len fields l) in Hlen.
  pose proof (sel_len_nonneg fields l Hl).
  set (n := Z.to_nat (if has fields flag then size else 0)).
  destruct (IH (drop n body)) as (src & Hs & Hp); [by apply Forall_drop| |done|].
  { rewrite length_drop. subst n. case_match; lia. }
  set (src' := fun g => if g =? flag then Some (take n body) else src g).
  assert (forall g, g ∈ (fst <$> l) -> src' g = src g) as Hsame.
  { intros g Hg. subst src'. cbn beta. rewrite (proj2 (Z.eqb_neq g flag)); [done|].
    by intros ->. }
  exists src'. split.
  - apply Forall_cons; split; cbv beta; cbn [fst snd].
    + intros Hhas. exists (take n body). subst src' n. rewrite Hhas in *. rewrite Z.eqb_refl.
      split; [done|]. split; [rewrite length_take; lia|by apply Forall_take].
    + apply Forall_forall. intros fld Hfld Hhas.
      rewrite Hsame by (by apply list_elem_of_fmap_2).
      by apply (proj1 (Forall_forall _ _) Hs fld Hfld).
  - rewrite <- (take_drop n body) at 1. rewrite <- Hp.
    unfold payload at 1. cbn [fmap list_fmap concat fst]. f_equal.
    + subst src' n. cbv beta. rewrite Z.eqb_refl. by destruct (has fields flag).
    + unfold payload. f_equal. apply list_fmap_ext. intros i fld Hi.
      rewrite Hsame; [done|]. apply list_elem_of_fmap_2. by eapply list_elem_of_lookup_2.
Qed.

Lemma store_fields_sizes : Forall (fun fld => 0 <= snd fld) store_fields.
Proof. apply (bool_decide_unpack _). vm_compute. exact I. Qed.

(** A checksummed record whose stored checksum is not that of its bytes. *)
Lemma deserialise_bad_crc f fl fl' w body crcb rest :
  addrs_post f fl fl' w -> unknown fl' = 0 -> has fl' STORE_FIELD_CRC32 = true ->
  Forall u8 body -> Z.of_nat (length body) = sel_len fl' store_fields ->
  Z.of_nat (length crcb) = 4 ->
  flowd_crc32_update (encode (record_hdr fl') ++ body) flowd_crc32_start <>
    ntohl (crc32 (decode crcb)) ->
  exists g, store_flow_deserialise (encode (record_hdr fl') ++ body ++ crcb ++ rest)
              (8 + sel_len fl' all_fields) = Ret (STORE_ERR_CRC_MISMATCH, g).
Proof.
  intros [Hu _ Wa Ws Wd Wg] Hunk Hhas Hb Hlen Hcl Hne.
  destruct (body_sources fl' store_fields body) as (src & Hs & <-);
    [done|done|apply store_fields_nodup|apply store_fields_sizes|].
  destruct (store_flow_deserialise_body fl' Hu Hunk src crcb rest)
    as (crc & m & -> & Hcrc & _ & Hmc); [done|by rewrite Hhas|].
  rewrite Hhas in Hmc. eexists. f_equal. unfold deserialise_finish.
  rewrite (aw_not_both _ _ _ _ _ _ _ Wa), (aw_not_both _ _ _ _ _ _ _ Ws),
    (aw_not_both _ _ _ _ _ _ _ Wd), (aw_not_both _ _ _ _ _ _ _ Wg). cbv zeta.
  assert (dest m STORE_FIELD_CRC32 = decode crcb) as Hdest by (unfold dest; by rewrite Hmc).
  unfold flow_of_dests. rewrite Hdest. flow_simpl.
  rewrite Hhas, (Hcrc Hhas), (proj2 (Z.eqb_neq _ _) Hne). reflexivity.
Qed.

(** The bytes [out'] differ from the record [out] in a window of at most four
    bytes between its header and its checksum. *)
Definition one_burst (out out' : bytes) : Prop :=
  exists pre w1 w2 post, out = pre ++ w1 ++ post /\ out' = pre ++ w2 ++ post /\
    (8 <= length pre)%nat /\ (4 <= length post)%nat /\ Forall u8 w2 /\
    length w1 = length w2 /\ (length w1 <= 4)%nat /\ w1 <> w2.

(** C33: changing at most four adjacent bytes of a checksummed record, between
    its header and its checksum, is always noticed by the reader. *)
Theorem store_crc_detects_corruption f buflen out out' f' rest :
  flow_ok f -> flow_flags_ok f (ntohl (fields (fl_hdr f))) ->
  unknown (ntohl (fields (fl_hdr f))) = 0 -> 184 <= buflen ->
  has (ntohl (fields (fl_hdr f))) STORE_FIELD_CRC32 = true ->
  store_flow_serialise f buflen = Ret (STORE_ERR_OK, out, f') ->
  one_burst out out' ->
  exists g, store_flow_deserialise (out' ++ rest) (Z.of_nat (length out')) =
    Ret (STORE_ERR_CRC_MISMATCH, g).
Proof.
  intros Hf Hflags Hunk Hbuf Hcrc Hser
    (pre & w1 & w2 & post & Hout & -> & Hpre & Hpost & Hw2 & Hlen & Hle & Hne).
  replace (length (pre ++ w2 ++ post)) with (length out) by (rewrite Hout, !length_app; lia).
  destruct (store_flow_serialise_ok f buflen) as (fl' & w & Ha & Hw & Hunk' & HS); [done..|].
  rewrite HS in Hser. injection Hser as <- <-.
  assert (has fl' STORE_FIELD_CRC32 = true) as Hcrc'.
  { rewrite <- Hcrc. apply (ap_other _ _ _ _ Hw 30); lia. }
  pose proof (ap_u32 _ _ _ _ Hw) as Hu. pose proof (encode_hdr_length fl' Hu) as Hh.
  pose proof (record_body_u8 f Hf _ fl' w Hw) as Hb8.
  pose proof (length_record_body f Hf _ fl' w Hw) as Hlb.
  rewrite (length_record_bytes f Hf _ fl' w Hw).
  unfold record_bytes in Hout. rewrite Hcrc' in Hout.
  set (crcb := encode (Mk_store_flow_CRC32 (htonl (record_crc f w fl')))) in *.
  assert (length crcb = 4%nat) as Hcl by done.
  destruct (window_split (encode (record_hdr fl')) (payload fl' (wsrc f w) store_fields) crcb
              pre w1 post Hout) as (pre' & post' & -> & -> & Hp); [lia..|].
  replace (((encode (record_hdr fl') ++ pre') ++ w2 ++ (post' ++ crcb)) ++ rest) with
    (encode (record_hdr fl') ++ (pre' ++ w2 ++ post') ++ crcb ++ rest) by (by rewrite <- !app_assoc).
  unfold record_body in *. rewrite Hp in *.
  rewrite !Forall_app in Hb8. destruct Hb8 as (He8 & Hp8 & Hw8 & Ht8).
  eapply deserialise_bad_crc; [exact Hw|done|done|by rewrite !Forall_app| |by rewrite Hcl|].
  - rewrite !length_app in *. lia.
  - subst crcb. rewrite decode_encode' by apply crc32_valid, htonl_u32. cbn [crc32].
    rewrite ntohl_htonl.
    2:{ apply flowd_crc32_update_u32; [|done]. unfold record_body. by rewrite Hp, !Forall_app. }
    unfold record_crc, record_body. rewrite Hp. rewrite !(app_assoc _ pre').
    intros Heq. symmetry in Heq. revert Heq. apply crc32_burst_detected; try done.
    by rewrite Forall_app.
Qed.

Definition sample_record : bytes :=
  match store_flow_serialise (sample_flow 1073756847) 184 with
  | Ret (_, out, _) => out
  | _ => []
  end.

Lemma store_crc_detects_corruption_witness :
  exists g, store_flow_deserialise
    ((take 20 sample_record ++ [1; 2] ++ drop 22 sample_record) ++ [9])
    (Z.of_nat (length (take 20 sample_record ++ [1; 2] ++ drop 22 sample_record))) =
    Ret (STORE_ERR_CRC_MISMATCH, g).
Proof.
  eapply (store_crc_detects_corruption (sample_flow 1073756847) 184 sample_record _ _ [9]).
  - flow_ok_tac.
  - flags_tac.
  - reflexivity.
  - lia.
  - reflexivity.
  - vm_compute. reflexivity.
  - exists (take 20 sample_record), (take 2 (drop 20 sample_record)), [1; 2], (drop 22 sample_record).
    split; [vm_compute; reflexivity|]. split; [reflexivity|]. split; [vm_compute; lia|].
    split; [vm_compute; lia|]. split; [by repeat constructor|]. split; [reflexivity|].
    split; [vm_compute; lia|]. vm_compute. discriminate.
Defined.

(** ** The branches of the writer *)

Lemma WFIELDS_overflow buflen fields src l out crc :
  sources_ok fields src l -> Z.of_nat (length out) <= buflen ->
  buflen < Z.of_nat (length out) + sel_len fields l ->
  WFIELDS buflen fields src l (out, crc) = Undef OutOfBounds.
Proof.
  intros Hs. revert out crc. induction Hs as [|[flag size] l Hf Hs IH]; intros out crc Hfit Hcap.
  { unfold sel_len in Hcap. simpl in Hcap. lia. }
  change (sel_len fields ((flag, size) :: l)) with
    ((if has fields flag then size else 0) + sel_len fields l) in Hcap.
  cbn [WFIELDS WFIELD]. simpl in Hf. destruct (has fields flag).
  - destruct (Hf eq_refl) as (b & -> & Hlen & _). unfold wr.
    destruct (Z.leb_spec (Z.of_nat (length out) + Z.of_nat (length b)) buflen) as [Hle|]; [|done].
    cbn [obind]. apply IH; rewrite length_app; lia.
  - cbn [obind]. apply IH; lia.
Qed.

(** A buffer that holds the body but not the header in front of it. *)
Lemma store_flow_serialise_overflow f fl fl' w buflen :
  flow_ok f -> fl = ntohl (fields (fl_hdr f)) -> serialise_addrs f fl = Some (fl', w) ->
  addrs_post f fl fl' w -> unknown fl' = 0 ->
  sel_len fl' all_fields <= buflen < 8 + sel_len fl' all_fields ->
  store_flow_serialise f buflen = Undef OutOfBounds.
Proof.
  intros Hf Hfl Haddrs Hw Hunk Hbuf. unfold store_flow_serialise. cbv zeta.
  change (serialise_addrs (set_fl_hdr _ f)) with (serialise_addrs f).
  rewrite <- Hfl, Haddrs, store_calc_flow_len_eq. cbn [fl_hdr set_hdr_fields set_fl_hdr fields].
  pose proof (ap_u32 _ _ _ _ Hw) as Hu. rewrite ntohl_htonl, Hunk by done. cbn [Z.eqb].
  destruct (sel_len_all_range fl') as [Hr H4].
  rewrite (Z.land_ones _ 2) by lia. change (2 ^ 2) with 4. rewrite H4. cbn [Z.eqb negb].
  rewrite (proj2 (Z.ltb_ge _ _)) by lia. rewrite (proj2 (Z.eqb_neq _ (-1))) by lia.
  fold (record_hdr fl'). unfold wr at 1. rewrite encode_hdr_length by done.
  destruct (Z.leb_spec (Z.of_nat (length ([] : bytes)) + Z.of_nat 8) buflen) as [Hle|]; [|done].
  cbn [length] in Hle. cbn [obind app].
  change (wsrc (set_fl_hdr (record_hdr fl') _) w) with (wsrc f w).
  pose proof (wsrc_sources f Hf fl fl' w Hw) as Hsrc. pose proof (sel_len_all fl') as Hall.
  destruct (decide (8 + sel_len fl' store_fields <= buflen)) as [Hs|Hs].
  - rewrite WFIELDS_spec; [|done|apply store_fields_not_crc|rewrite encode_hdr_length by done; lia].
    cbn [obind snd]. unfold WFIELD. destruct (has fl' STORE_FIELD_CRC32); [|lia].
    match goal with |- context [wsrc (set_fl_crc32 ?c ?g) w STORE_FIELD_CRC32] =>
      change (wsrc (set_fl_crc32 c g) w STORE_FIELD_CRC32) with (Some (encode c)) end.
    cbv iota. unfold wr. change (length (encode (Mk_store_flow_CRC32 _))) with 4%nat.
    rewrite length_app, Nat2Z.inj_add, encode_hdr_length, (length_payload _ _ _ Hsrc) by done.
    rewrite (proj2 (Z.leb_gt _ _)) by lia. reflexivity.
  - rewrite WFIELDS_overflow; [done|done|rewrite encode_hdr_length by done; lia..].
Qed.

(** The field word that the writer puts in the record. *)
Definition written_fields (f : store_flow_complete) : Z :=
  match serialise_addrs f (ntohl (fields (fl_hdr f))) with
  | Some (fields, _) => fields
  | None => 0
  end.

(** The return codes of the writer for a flow whose address families agree
    with its field bits.  A bit that this version does not know gives
    STORE_ERR_INTERNAL; a buffer smaller than the body STORE_ERR_BUFFER_SIZE; and
    since the test on the size of the buffer leaves out the eight bytes of the
    header, a buffer that only holds the body is written past its end. *)
Theorem store_flow_serialise_codes f buflen :
  flow_ok f -> flow_flags_ok f (ntohl (fields (fl_hdr f))) ->
  let len := sel_len (written_fields f) all_fields in
  match store_flow_serialise f buflen with
  | Ret (r, out, f') =>
      (r = STORE_ERR_INTERNAL /\ out = [] /\ unknown (ntohl (fields (fl_hdr f))) <> 0) \/
      (r = STORE_ERR_BUFFER_SIZE /\ out = [] /\
       unknown (ntohl (fields (fl_hdr f))) = 0 /\ buflen < len) \/
      (r = STORE_ERR_OK /\ unknown (ntohl (fields (fl_hdr f))) = 0 /\
       Z.of_nat (length out) = 8 + len /\ 8 + len <= buflen)
  | Undef u => u = OutOfBounds /\ unknown (ntohl (fields (fl_hdr f))) = 0 /\ len <= buflen < 8 + len
  | Fatal | Diverges => False
  end.
Proof.
  intros Hf Hflags. pose proof (ok_fields_u32 f Hf) as Hu.
  destruct (serialise_addrs_spec f _ Hu Hflags) as (fl' & w & Ha & Hw).
  unfold written_fields. rewrite Ha. cbv zeta.
  pose proof (unknown_same _ fl' Hu (ap_u32 _ _ _ _ Hw) (ap_other _ _ _ _ Hw)) as Hunk.
  destruct (decide (unknown fl' = 0)) as [H0|H0].
  - destruct (decide (8 + sel_len fl' all_fields <= buflen)) as [Hb|Hb].
    { rewrite (store_flow_serialise_eq f Hf _ fl' w Hw Ha H0 buflen eq_refl Hb).
      right; right. rewrite (length_record_bytes f Hf _ fl' w Hw). by rewrite <- Hunk. }
    destruct (decide (sel_len fl' all_fields <= buflen)) as [Hb2|Hb2].
    { erewrite store_flow_serialise_overflow; [|done..|lia]. rewrite <- Hunk. split_and!; [done..|lia]. }
    unfold store_flow_serialise. cbv zeta.
    change (serialise_addrs (set_fl_hdr _ f)) with (serialise_addrs f).
    rewrite Ha, store_calc_flow_len_eq. cbn [fl_hdr set_hdr_fields set_fl_hdr fields].
    rewrite ntohl_htonl, H0 by apply Hw. destruct (sel_len_all_range fl') as [Hr H4].
    rewrite (Z.land_ones _ 2) by lia. change (2 ^ 2) with 4. cbn [Z.eqb]. rewrite H4. cbn [Z.eqb negb].
    rewrite (proj2 (Z.ltb_lt _ _)) by lia. right; left. rewrite <- Hunk. split_and!; [done..|lia].
  - unfold store_flow_serialise. cbv zeta.
    change (serialise_addrs (set_fl_hdr _ f)) with (serialise_addrs f).
    rewrite Ha, store_calc_flow_len_eq. cbn [fl_hdr set_hdr_fields set_fl_hdr fields].
    rewrite ntohl_htonl by apply Hw. rewrite (proj2 (Z.eqb_neq _ _) H0).
    change (negb (Z.land (-1) 3 =? 0)) with true. cbv iota. left. by rewrite <- Hunk.
Qed.

Lemma store_flow_serialise_codes_witness :
  store_flow_serialise (sample_flow 7) 18 = Undef OutOfBounds /\
  sel_len (written_fields (sample_flow 7)) all_fields <= 18.
Proof.
  split; [vm_compute; reflexivity|].
  assert (store_flow_serialise (sample_flow 7) 18 = Undef OutOfBounds) as E
    by (vm_compute; reflexivity).
  assert (flow_ok (sample_flow 7)) as Hok by flow_ok_tac.
  assert (flow_flags_ok (sample_flow 7) (ntohl (fields (fl_hdr (sample_flow 7))))) as Hfl
    by flags_tac.
  pose proof (store_flow_serialise_codes (sample_flow 7) 18 Hok Hfl) as H. cbv zeta in H.
  rewrite E in H. destruct H as (_ & _ & H & _). exact H.
Defined.
