(* ===== verification/StoreSwab.v ===== *)
(** * Byte order of flow records (src/flowd/store.c)

    The 64-bit byte order functions and the conversion of a whole record
    between network and host order. *)

From S2P Require Import Prelude Packed Addr StoreTypes Store.

(** The mask-and-shift version of the functions, for a little-endian host without
    betoh64; the shifts to the left lose no bits of the masked values. *)
Definition store_ntohll (v : Z) : Z :=
  Z.lor (Z.shiftl (Z.land v 0xff) 56)
 (Z.lor (Z.shiftl (Z.land v 0xff00) 40)
 (Z.lor (Z.shiftl (Z.land v 0xff0000) 24)
 (Z.lor (Z.shiftl (Z.land v 0xff000000) 8)
 (Z.lor (Z.shiftr (Z.land v 0xff00000000) 8)
 (Z.lor (Z.shiftr (Z.land v 0xff0000000000) 24)
 (Z.lor (Z.shiftr (Z.land v 0xff000000000000) 40)
        (Z.shiftr (Z.land v 0xff00000000000000) 56))))))).
Definition store_htonll (v : Z) : Z := store_ntohll v.

(** store_swab_flow: FLSWAB on the members of the record.  The last but one uses
    the 16-bit function on the 32-bit source_id. *)
Definition store_swab_flow (flow : store_flow_complete) (to_net : bool) : store_flow_complete :=
  let sw64 := if to_net then store_htonll else store_ntohll in
  let sw32 := if to_net then htonl else ntohl in
  let sw16 := if to_net then htons else ntohs in
  let h := fl_hdr flow in
  let a := fl_ainfo flow in
  let s := fl_asinf flow in
  let i := fl_finf flow in
  Mk_store_flow_complete
    (Mk_store_flow (version h) (len_words h) (reserved h) (sw32 (fields h)))
    (Mk_store_flow_TAG (sw32 (tag (fl_tag flow))))
    (Mk_store_flow_RECV_TIME (sw32 (recv_sec (fl_recv_time flow))) (sw32 (recv_usec (fl_recv_time flow))))
    (fl_pft flow)
    (fl_agent_addr flow) (fl_src_addr flow) (fl_dst_addr flow) (fl_gateway_addr flow)
    (Mk_store_flow_SRCDST_PORT (sw16 (src_port (fl_ports flow))) (sw16 (dst_port (fl_ports flow))))
    (Mk_store_flow_PACKETS (sw64 (flow_packets (fl_packets flow))))
    (Mk_store_flow_OCTETS (sw64 (flow_octets (fl_octets flow))))
    (Mk_store_flow_IF_INDICES (sw32 (if_index_in (fl_ifndx flow))) (sw32 (if_index_out (fl_ifndx flow))))
    (Mk_store_flow_AGENT_INFO (sw32 (sys_uptime_ms a)) (sw32 (time_sec a)) (sw32 (time_nanosec a))
       (sw16 (netflow_version a)) (ainfo_pad a))
    (Mk_store_flow_FLOW_TIMES (sw32 (flow_start (fl_ftimes flow))) (sw32 (flow_finish (fl_ftimes flow))))
    (Mk_store_flow_AS_INFO (sw32 (src_as s)) (sw32 (dst_as s)) (src_mask s) (dst_mask s) (asinf_pad s))
    (Mk_store_flow_FLOW_ENGINE_INFO (sw16 (engine_type i)) (sw16 (engine_id i)) (sw32 (flow_sequence i))
       (sw16 (wrap16 (source_id i))))
    (Mk_store_flow_CRC32 (sw32 (crc32 (fl_crc32 flow)))).

(** ** Byte reversal *)

(** A byte of a word. *)
Definition byte (v k : Z) : Z := Z.land (Z.shiftr v (8 * k)) 255.

Lemma le_bytes_byte n : forall v j,
  le_bytes n (Z.shiftr v (8 * Z.of_nat j)) = (fun k => byte v (Z.of_nat k)) <$> seq j n.
Proof.
  induction n as [|n IH]; intros v j; [done|]. cbn [le_bytes seq fmap list_fmap]. f_equal.
  - unfold byte. by rewrite (Z.land_ones _ 8).
  - rewrite <- (Z.shiftr_div_pow2 _ 8), Z.shiftr_shiftr by lia. rewrite <- IH. do 2 f_equal. lia.
Qed.

(** Evaluates bits of constants and the positions of the other ones. *)
Ltac const_bits :=
  repeat match goal with
  | |- context [Z.testbit (Z.pos ?p) ?i] =>
      let b := eval vm_compute in (Z.testbit (Z.pos p) i) in
      change (Z.testbit (Z.pos p) i) with b
  | |- context [Z.testbit ?v ?i] =>
      let j := eval vm_compute in i in progress change (Z.testbit v i) with (Z.testbit v j)
  end.

(** A bit of a masked and shifted byte, computed from the bits of the word. *)
Lemma store_ntohll_byte v k :
  0 <= v -> 0 <= k < 8 -> byte (store_ntohll v) k = byte v (7 - k).
Proof.
  intros Hv Hk. unfold byte, store_ntohll. apply Z.bits_inj'. intros i Hi.
  rewrite !Z.land_spec. destruct (decide (i < 8)).
  2:{ by rewrite (testbit_above 8 255 i), !andb_false_r by lia. }
  assert (k = 0 \/ k = 1 \/ k = 2 \/ k = 3 \/ k = 4 \/ k = 5 \/ k = 6 \/ k = 7) as Hk' by lia.
  assert (i = 0 \/ i = 1 \/ i = 2 \/ i = 3 \/ i = 4 \/ i = 5 \/ i = 6 \/ i = 7) as Hi' by lia.
  clear Hk Hi l.
  destruct Hk' as [->|[->|[->|[->|[->|[->|[-> | ->]]]]]]];
  destruct Hi' as [->|[->|[->|[->|[->|[->|[-> | ->]]]]]]];
    rewrite ?Z.shiftr_spec, ?Z.lor_spec, ?Z.shiftl_spec, ?Z.shiftr_spec, ?Z.land_spec by done;
    const_bits; rewrite ?andb_false_r, ?orb_false_r, ?andb_true_r; cbn [orb]; done.
Qed.

Lemma le_bytes_8 v : 0 <= v -> le_bytes 8 v = (byte v) <$> [0; 1; 2; 3; 4; 5; 6; 7].
Proof. intros Hv. pose proof (le_bytes_byte 8 v 0) as H. by rewrite Z.shiftr_0_r in H. Qed.

Lemma store_ntohll_nonneg v : 0 <= v -> 0 <= store_ntohll v.
Proof.
  intros Hv. unfold store_ntohll.
  repeat (apply Z.lor_nonneg; split); try (apply Z.shiftl_nonneg); try (apply Z.shiftr_nonneg);
    apply Z.land_nonneg; by left.
Qed.

Lemma store_ntohll_u64 v : 0 <= v -> u64 (store_ntohll v).
Proof.
  intros Hv. change (0 <= store_ntohll v < 2 ^ 64). unfold store_ntohll.
  repeat (apply lor_range; [done| |]);
    match goal with
    | |- context [Z.land v ?m] =>
        let n := eval vm_compute in (Z.log2 m + 1) in
        pose proof (land_range n m v ltac:(done) ltac:(done)) as H; rewrite Z.land_comm in H;
        rewrite ?Z.shiftl_mul_pow2 by done; try (apply (shiftr_range 64); [done|done|]); lia
    end.
Qed.

(** The mask-and-shift expression reverses the bytes. *)
Lemma store_ntohll_bswap v : u64 v -> store_ntohll v = bswap 8 v.
Proof.
  intros Hv. pose proof (store_ntohll_u64 v ltac:(width; lia)) as Hn.
  rewrite <- (le_val_le_bytes 8 (store_ntohll v)) by (width; simpl; lia).
  unfold bswap. f_equal. rewrite !le_bytes_8 by (width; lia). cbn [fmap list_fmap].
  rewrite !store_ntohll_byte by (width; lia). reflexivity.
Qed.

Lemma store_htonll_involutive v : u64 v -> store_ntohll (store_htonll v) = v.
Proof.
  intros Hv. unfold store_htonll. rewrite (store_ntohll_bswap v Hv).
  pose proof (bswap_bound 8 v). rewrite store_ntohll_bswap by done. by apply (bswap_involutive 8).
Qed.

(** Converting a record to network order and back gives the record, but for
    the source_id, of which the 16-bit conversion keeps the low half. *)
Theorem store_swab_roundtrip f :
  flow_ok f ->
  store_swab_flow (store_swab_flow f true) false =
    set_fl_finf (Mk_store_flow_FLOW_ENGINE_INFO (engine_type (fl_finf f)) (engine_id (fl_finf f))
                   (flow_sequence (fl_finf f)) (wrap16 (source_id (fl_finf f)))) f.
Proof.
  intros [H1 H2 H3 H4 _ _ _ _ H5 H6 H7 H8 H9 H10 H11 H12 H13].
  destruct f as [[] [] [] [] ? ? ? ? [] [] [] [] [] [] [] [] []].
  unfold valid in *. cbn in *.
  repeat match goal with
  | H : Forall2 _ (_ :: _) (_ :: _) |- _ => apply Forall2_cons in H as [? H]
  | H : Forall2 _ [] [] |- _ => clear H
  end.
  unfold store_swab_flow, set_fl_finf. cbn -[store_htonll store_ntohll ntohl htonl ntohs htons wrap16].
  rewrite !ntohl_htonl, !ntohs_htons, !store_htonll_involutive by first [done|apply wrap16_u16].
  rewrite (wrap16_small (htons (wrap16 source_id))) by apply htons_u16.
  by rewrite ntohs_htons by apply wrap16_u16.
Qed.

Lemma store_swab_roundtrip_witness :
  store_swab_flow (store_swab_flow flow_zero true) false = flow_zero.
Proof.
  rewrite (store_swab_roundtrip flow_zero); [reflexivity|].
  constructor; first [by (apply (bool_decide_unpack _); vm_compute; exact I)|by repeat constructor].
Defined.
