(* ===== verification/StoreFile.v ===== *)
(** * Log files (src/flowd/atomicio.c, the file layer of store.c, flowd-reader.c)

    Retrying reads and writes, the writer that backs a partial record out of the
    log, the two readers and the loop of flowd-reader over a log.  A system call
    behaves as the trace of the run says: it transfers a chunk or fails. *)

From stdpp Require Import gmap.
From S2P Require Import Prelude Packed Crc32 Addr StoreTypes Store StoreProps.

(** ** atomicio *)

Definition EINTR : Z := 4.
Definition EIO : Z := 5.
Definition EAGAIN : Z := 11.
Definition ENOSPC : Z := 28.
Definition ESPIPE : Z := 29.

(** What one read or write call does: it transfers at most [n] bytes, or fails
    with an errno.  A read transfers at least one byte unless it is at the end
    of the file. *)
Inductive syscall := Chunk (n : Z) | Error (errno : Z).

(** An open regular file or pipe: its bytes and the file offset. *)
Record fdesc := Mk_fdesc { contents : bytes; position : Z }.

Definition sys_read (d : fdesc) (k n : Z) : Z :=
  Z.min (Z.max 1 k) (Z.min n (Z.max 0 (Z.of_nat (length (contents d)) - position d))).
Definition sys_write (k n : Z) : Z := Z.min (Z.max 0 k) n.

(** The bytes that a transfer of [n] bytes at the offset reads or replaces. *)
Definition fd_bytes (d : fdesc) (n : Z) : bytes :=
  take (Z.to_nat n) (drop (Z.to_nat (position d)) (contents d)).
Definition fd_put (d : fdesc) (b : bytes) : fdesc :=
  Mk_fdesc (take (Z.to_nat (position d)) (contents d) ++ b ++
            drop (Z.to_nat (position d) + length b) (contents d))
    (position d + Z.of_nat (length b)).
Definition fd_seek (d : fdesc) (off : Z) : fdesc := Mk_fdesc (contents d) off.
Definition fd_truncate (d : fdesc) (len : Z) : fdesc :=
  Mk_fdesc (take (Z.to_nat len) (contents d)) (position d).

(** atomicio(read, fd, buf, n): its result and errno, the bytes stored in the
    buffer, the descriptor and the rest of the trace.  A trace that ends before
    the loop does leaves the process blocked. *)
Fixpoint atomicio_read (t : list syscall) (d : fdesc) (n : Z) (buf : bytes)
    : outcome (Z * Z * bytes * fdesc * list syscall) :=
  let pos := Z.of_nat (length buf) in
  if pos <? n then
    match t with
    | [] => Diverges
    | Error e :: t =>
        if (e =? EINTR) || (e =? EAGAIN) then atomicio_read t d n buf
        else Ret (-1, e, buf, d, t)
    | Chunk k :: t =>
        let res := sys_read d k (n - pos) in
        if res =? 0 then Ret (0, 0, buf, d, t)
        else atomicio_read t (fd_seek d (position d + res)) n (buf ++ fd_bytes d res)
    end
  else Ret (pos, 0, buf, d, t).

(** atomicio(vwrite, fd, s, n) for the bytes [s]. *)
Fixpoint atomicio_write (t : list syscall) (d : fdesc) (s : bytes) (pos : Z)
    : outcome (Z * Z * fdesc * list syscall) :=
  let n := Z.of_nat (length s) in
  if pos <? n then
    match t with
    | [] => Diverges
    | Error e :: t =>
        if (e =? EINTR) || (e =? EAGAIN) then atomicio_write t d s pos
        else Ret (-1, e, d, t)
    | Chunk k :: t =>
        let res := sys_write k (n - pos) in
        if res =? 0 then Ret (0, 0, d, t)
        else atomicio_write t (fd_put d (take (Z.to_nat res) (drop (Z.to_nat pos) s))) s (pos + res)
    end
  else Ret (pos, 0, d, t).

(** ** Writing *)

(** How the other calls of store_put_buf behave: the errno of the first lseek
    (None when it succeeds) and whether the second lseek and ftruncate do. *)
Record put_env := Mk_put_env {
  pe_lseek : option Z;
  pe_writes : list syscall;
  pe_rewind : bool;
  pe_ftruncate : bool
}.

Definition store_put_buf (e : put_env) (d : fdesc) (buf : bytes) : outcome (Z * fdesc) :=
  let startpos := position d in
  match pe_lseek e with
  | Some err =>
      if err =? ESPIPE then
        let! (r, errno, d, _) := atomicio_write (pe_writes e) d buf 0 in
        if r =? Z.of_nat (length buf) then Ret (STORE_ERR_OK, d) else Ret (STORE_ERR_CORRUPT, d)
      else Ret (STORE_ERR_IO_SEEK, d)
  | None =>
      let! (r, errno, d, _) := atomicio_write (pe_writes e) d buf 0 in
      if r =? Z.of_nat (length buf) then Ret (STORE_ERR_OK, d)
      else if negb (pe_rewind e) then Ret (STORE_ERR_CORRUPT, d)
      else
        let d := fd_seek d startpos in
        if negb (pe_ftruncate e) then Ret (STORE_ERR_CORRUPT, d)
        else
          let d := fd_truncate d startpos in
          if r =? -1 then Ret (STORE_ERR_IO, d) else Ret (STORE_ERR_EOF, d)
  end.

(** The buffer of 1024 bytes that the writers serialise into. *)
Definition store_put_flow (e : put_env) (d : fdesc) (flow : store_flow_complete) (fieldmask : Z)
    : outcome (Z * fdesc * store_flow_complete) :=
  let! (r, out, flow) := store_flow_serialise_masked flow fieldmask 1024 in
  if negb (r =? STORE_ERR_OK) then Ret (r, d, flow)
  else let! (r, d) := store_put_buf e d out in Ret (r, d, flow).

(** fwrite(buf, len, 1, f) writes the whole item or nothing that counts. *)
Definition store_write_flow (fwrite_ok : bool) (d : fdesc) (flow : store_flow_complete)
    (fieldmask : Z) : outcome (Z * fdesc * store_flow_complete) :=
  let origfields := ntohl (fields (fl_hdr flow)) in
  let fields := Z.land origfields fieldmask in
  let flow := set_hdr_fields (htonl fields) flow in
  let! (r, out, flow) := store_flow_serialise flow 1024 in
  let flow := set_hdr_fields (htonl origfields) flow in
  if negb (r =? STORE_ERR_OK) then Ret (r, d, flow)
  else if fwrite_ok then Ret (STORE_ERR_OK, fd_put d out, flow)
  else Ret (STORE_ERR_EOF, d, flow).

(** ** Reading *)

(** The stack buffer of 512 bytes once [b] is stored at its start; [junk] is what
    it held. *)
Definition stack_buf (junk b : bytes) : bytes := b ++ drop (length b) junk.

Definition store_get_flow (junk : bytes) (t : list syscall) (d : fdesc)
    : outcome (Z * store_flow_complete * fdesc * list syscall) :=
  let! (r, errno, hb, d, t) := atomicio_read t d (sizeof store_flow) [] in
  if r =? -1 then Ret (STORE_ERR_IO, flow_zero, d, t)
  else if r <? sizeof store_flow then Ret (STORE_ERR_EOF, flow_zero, d, t)
  else
    let len := len_words (decode hb) * 4 in
    if 512 - sizeof store_flow <? len then Ret (STORE_ERR_INTERNAL, flow_zero, d, t)
    else
      let! (r, errno, b, d, t) := atomicio_read t d len [] in
      if r =? -1 then Ret (STORE_ERR_IO, flow_zero, d, t)
      else if r <? len then Ret (STORE_ERR_EOF, flow_zero, d, t)
      else
        let! (r, f) := store_flow_deserialise (stack_buf junk (hb ++ b)) (len + sizeof store_flow) in
        Ret (r, f, d, t).

(** fread(p, size, 1, f) on a stream over a regular file: one item, or none when
    the size is 0 or the file ends before the item. *)
Definition fread1 (d : fdesc) (size : Z) : Z * bytes * fdesc :=
  let b := fd_bytes d size in
  let d' := fd_seek d (position d + Z.of_nat (length b)) in
  if (0 <? size) && (Z.of_nat (length b) =? size) then (1, b, d') else (0, b, d').

Definition store_read_flow (junk : bytes) (d : fdesc)
    : outcome (Z * store_flow_complete * fdesc) :=
  let '(r, hb, d) := fread1 d (sizeof store_flow) in
  if r =? 0 then Ret (STORE_ERR_EOF, flow_zero, d)
  else if negb (r =? 1) then Ret (STORE_ERR_IO, flow_zero, d)
  else
    let len := len_words (decode hb) * 4 in
    if 512 - sizeof store_flow <? len then Ret (STORE_ERR_INTERNAL, flow_zero, d)
    else
      let '(r, b, d) := fread1 d len in
      if r =? 0 then Ret (STORE_ERR_EOF, flow_zero, d)
      else if negb (r =? 1) then Ret (STORE_ERR_IO, flow_zero, d)
      else
        let! (r, f) := store_flow_deserialise (stack_buf junk (hb ++ b)) (len + sizeof store_flow) in
        Ret (r, f, d).

(** The loop of flowd-reader over one log file, without legacy records and
    output: the flows that it displays.  [keep] is the filter's verdict and
    [head] the -H option (0 for none); [fuel] bounds the number of records. *)
Fixpoint reader_loop (fuel : nat) (junk : bytes) (keep : store_flow_complete -> bool)
    (head nflows : Z) (t : list syscall) (d : fdesc) : outcome (list store_flow_complete) :=
  match fuel with
  | O => Diverges
  | S fuel =>
      if (head =? 0) || (nflows <? head) then
        let! (r, flow, d, t) := store_get_flow junk t d in
        if r =? STORE_ERR_EOF then Ret []
        else if negb (r =? STORE_ERR_OK) then Fatal
        else
          let! rest := reader_loop fuel junk keep head (nflows + 1) t d in
          Ret (if keep flow then flow :: rest else rest)
      else Ret []
  end.

(** ** Transfers *)

Fixpoint chunks (t : list syscall) : Z :=
  match t with
  | [] => 0
  | Chunk k :: t => (if 0 <? k then 1 else 0) + chunks t
  | Error _ :: t => chunks t
  end.

(** The calls of the trace make progress or fail with an error that atomicio
    retries. *)
Definition benign (t : list syscall) : Prop :=
  Forall (fun c => match c with Error e => e = EINTR \/ e = EAGAIN | Chunk k => 0 < k end) t.

Lemma chunks_nonneg t : 0 <= chunks t.
Proof. induction t as [|[k|e] t IH]; simpl; [done| |done]. case_match; lia. Qed.

(** A descriptor at the end of its file, [pos] bytes of [s] after [c]. *)
Definition appended (c s : bytes) (pos : Z) : fdesc :=
  Mk_fdesc (c ++ take (Z.to_nat pos) s) (Z.of_nat (length c) + pos).

Lemma fd_put_appended c s pos n :
  0 <= pos -> 0 <= n -> pos + n <= Z.of_nat (length s) ->
  fd_put (appended c s pos) (take (Z.to_nat n) (drop (Z.to_nat pos) s)) = appended c s (pos + n).
Proof.
  intros Hp Hn Hle. unfold fd_put, appended. cbn [contents position].
  assert (length (take (Z.to_nat n) (drop (Z.to_nat pos) s)) = Z.to_nat n) as ->.
  { rewrite length_take, length_drop. lia. }
  rewrite (drop_ge (c ++ _)), app_nil_r by (rewrite length_app, length_take; lia).
  rewrite (take_ge (c ++ _)) by (rewrite length_app, length_take; lia).
  rewrite <- app_assoc, take_take_drop. f_equal; [|lia]. do 2 f_equal. lia.
Qed.

Lemma atomicio_write_spec t c s pos :
  0 <= pos <= Z.of_nat (length s) -> Z.of_nat (length s) - pos <= chunks t ->
  exists r errno t' pos', atomicio_write t (appended c s pos) s pos =
      Ret (r, errno, appended c s pos', t') /\
    pos <= pos' <= Z.of_nat (length s) /\
    ((r = Z.of_nat (length s) /\ pos' = Z.of_nat (length s)) \/
     ((r = -1 \/ r = 0) /\ pos' < Z.of_nat (length s))).
Proof.
  revert pos. induction t as [|[k|e] t IH]; intros pos Hp Hc; cbn [atomicio_write chunks] in *;
    destruct (Z.ltb_spec pos (Z.of_nat (length s))) as [Hlt|Hge];
    try (eexists _, _, _, pos; split; [reflexivity|]; split; [lia|left; lia]).
  - lia.
  - destruct (Z.eqb_spec (sys_write k (Z.of_nat (length s) - pos)) 0) as [|Hne].
    { eexists _, _, _, pos. split; [reflexivity|]. split; [lia|right; lia]. }
    unfold sys_write in *. rewrite fd_put_appended by lia.
    destruct (IH (pos + Z.min (Z.max 0 k) (Z.of_nat (length s) - pos))) as (r & er & t' & p & -> & Hp' & Hr);
      [lia|destruct (Z.ltb_spec 0 k); lia|].
    eexists _, _, _, p. split; [reflexivity|]. split; [lia|exact Hr].
  - destruct ((e =? EINTR) || (e =? EAGAIN)).
    { destruct (IH pos) as (r & er & t' & p & -> & ?); [lia..|]. by eexists _, _, _, p. }
    eexists _, _, _, pos. split; [reflexivity|]. split; [lia|right; lia].
Qed.

Lemma transfer_none d n buf :
  n = Z.of_nat (length buf) ->
  buf ++ fd_bytes d (n - Z.of_nat (length buf)) = buf /\
  fd_seek d (position d + (n - Z.of_nat (length buf))) = d /\ n = Z.of_nat (length buf).
Proof.
  intros ->. rewrite Z.sub_diag, Z.add_0_r. split; [apply app_nil_r|]. by destruct d.
Qed.

Lemma fd_bytes_split d m k :
  0 <= position d -> 0 <= m -> 0 <= k ->
  fd_bytes d m ++ fd_bytes (fd_seek d (position d + m)) k = fd_bytes d (m + k).
Proof.
  intros Hp Hm Hk. unfold fd_bytes. cbn [fd_seek position contents].
  rewrite !Z2Nat.inj_add by lia. rewrite <- drop_drop. apply take_take_drop.
Qed.

Lemma atomicio_read_spec t d n buf :
  benign t -> 0 <= position d -> Z.of_nat (length buf) <= n ->
  position d + (n - Z.of_nat (length buf)) <= Z.of_nat (length (contents d)) ->
  n - Z.of_nat (length buf) <= chunks t ->
  exists t', atomicio_read t d n buf =
      Ret (n, 0, buf ++ fd_bytes d (n - Z.of_nat (length buf)),
           fd_seek d (position d + (n - Z.of_nat (length buf))), t') /\
    benign t' /\ chunks t - (n - Z.of_nat (length buf)) <= chunks t'.
Proof.
  intros Ht. revert d buf. induction Ht as [|c t He Ht IH]; [|destruct c as [k|e]]; intros d buf Hp Hb Ha Hc;
    cbn [atomicio_read chunks] in *;
    (destruct (Z.ltb_spec (Z.of_nat (length buf)) n) as [Hlt|Hge];
     [|destruct (transfer_none d n buf) as (-> & -> & E0); [lia|]; rewrite E0;
       eexists; split; [reflexivity|split; [by constructor|cbn [chunks]; lia]]]).
  - lia.
  - assert (exists m, sys_read d k (n - Z.of_nat (length buf)) = m /\
              1 <= m <= n - Z.of_nat (length buf)) as (m & -> & Hm).
    { eexists; split; [reflexivity|]. unfold sys_read. lia. }
    rewrite (proj2 (Z.eqb_neq m 0)) by lia.
    assert (length (fd_bytes d m) = Z.to_nat m) as Hlm.
    { unfold fd_bytes. rewrite length_take, length_drop. lia. }
    destruct (IH (fd_seek d (position d + m)) (buf ++ fd_bytes d m)) as (t' & -> & Ht' & Hc');
      rewrite ?length_app, ?Hlm; cbn [fd_seek position contents]; try lia;
      [destruct (Z.ltb_spec 0 k); lia|].
    exists t'. split; [|split; [done|rewrite length_app, Hlm in Hc'; destruct (Z.ltb_spec 0 k); lia]].
    rewrite Nat2Z.inj_add, Z2Nat.id by lia.
    rewrite <- app_assoc, fd_bytes_split by lia. unfold fd_seek. cbn [position contents].
    replace (m + (n - (Z.of_nat (length buf) + m))) with (n - Z.of_nat (length buf)) by lia.
    by replace (position d + m + (n - (Z.of_nat (length buf) + m)))
      with (position d + (n - Z.of_nat (length buf))) by lia.
  - assert ((e =? EINTR) || (e =? EAGAIN) = true) as -> by (destruct He as [-> | ->]; reflexivity).
    by apply IH.
Qed.

Lemma atomicio_read_eof t d n :
  benign t -> position d = Z.of_nat (length (contents d)) -> 0 < n -> 1 <= chunks t ->
  exists t', atomicio_read t d n [] = Ret (0, 0, [], d, t').
Proof.
  intros Ht Hp Hn. induction Ht as [|c t He Ht IH]; [|destruct c as [k|e]]; intros Hc;
    cbn [atomicio_read chunks length] in *; rewrite (proj2 (Z.ltb_lt _ _)) by lia.
  - lia.
  - assert (sys_read d k (n - Z.of_nat 0) = 0) as -> by (unfold sys_read; lia). by eexists.
  - assert ((e =? EINTR) || (e =? EAGAIN) = true) as -> by (destruct He as [-> | ->]; reflexivity).
    by apply IH.
Qed.

Lemma appended_0 d : position d = Z.of_nat (length (contents d)) -> d = appended (contents d) [] 0.
Proof. destruct d as [c p]. cbn. intros ->. unfold appended. by rewrite app_nil_r, Z.add_0_r. Qed.

Lemma appended_start d s :
  position d = Z.of_nat (length (contents d)) -> d = appended (contents d) s 0.
Proof. intros Hp. rewrite (appended_0 d Hp) at 1. done. Qed.

Lemma appended_full c s : appended c s (Z.of_nat (length s)) = Mk_fdesc (c ++ s) (Z.of_nat (length (c ++ s))).
Proof. unfold appended. by rewrite Nat2Z.id, take_ge, length_app, Nat2Z.inj_add. Qed.

(** Backing out of a partial write. *)
Lemma appended_rewind c s pos :
  fd_truncate (fd_seek (appended c s pos) (Z.of_nat (length c))) (Z.of_nat (length c)) =
    Mk_fdesc c (Z.of_nat (length c)).
Proof. unfold fd_truncate, fd_seek. cbn. by rewrite Nat2Z.id, take_app_length. Qed.

(** On a log positioned at its end, store_put_buf returns; it appends the
    whole record, or leaves the log as it was, unless it says that the log is
    corrupt, which it does only for a pipe or when the rewind or the truncation
    of a failed write fails. *)
Theorem store_put_buf_atomic e d buf :
  position d = Z.of_nat (length (contents d)) ->
  Z.of_nat (length buf) <= chunks (pe_writes e) ->
  exists r d', store_put_buf e d buf = Ret (r, d') /\
    ((r = STORE_ERR_OK /\ contents d' = contents d ++ buf /\
      position d' = Z.of_nat (length (contents d'))) \/
     (r ∈ [STORE_ERR_IO_SEEK; STORE_ERR_IO; STORE_ERR_EOF] /\ d' = d) \/
     (r = STORE_ERR_CORRUPT /\ contents d `prefix_of` contents d' /\
      (pe_lseek e = Some ESPIPE \/ pe_rewind e = false \/ pe_ftruncate e = false))).
Proof.
  intros Hp Hc. unfold store_put_buf. rewrite Hp.
  destruct (atomicio_write_spec (pe_writes e) (contents d) buf 0) as (r & er & t' & p & Hw & Hpp & Hr);
    [lia..|].
  rewrite <- appended_start in Hw by done. rewrite Hw. cbn [obind].
  assert (contents d `prefix_of` contents (appended (contents d) buf p)) as Hpre by (by eexists).
  assert (r = Z.of_nat (length buf) -> p = Z.of_nat (length buf)) as Hfull by lia.
  destruct (Z.eqb_spec r (Z.of_nat (length buf))) as [E|E].
  - rewrite (Hfull E), appended_full.
    assert (position d = Z.of_nat (length (contents d))) as Hpd by done.
    destruct (pe_lseek e) as [err|]; [case_match|].
    + eexists _, _. split; [reflexivity|by left].
    + eexists _, _. split; [reflexivity|]. right; left. split; [repeat constructor|done].
    + eexists _, _. split; [reflexivity|by left].
  - assert (r = -1 \/ r = 0) as Hr0 by lia. clear Hr.
    destruct (pe_lseek e) as [err|].
    + destruct (Z.eqb_spec err ESPIPE) as [->|].
      * eexists _, _. split; [reflexivity|]. right; right. by auto.
      * eexists _, _. split; [reflexivity|]. right; left. split; [repeat constructor|done].
    + destruct (pe_rewind e); cbn [negb].
      2:{ eexists _, _. split; [reflexivity|]. right; right. by auto. }
      destruct (pe_ftruncate e); cbn [negb].
      2:{ eexists _, _. split; [reflexivity|]. right; right. by auto. }
      rewrite appended_rewind. rewrite <- Hp.
      assert (Mk_fdesc (contents d) (position d) = d) as -> by (by destruct d).
      case_match; eexists _, _; (split; [reflexivity|]); right; left; (split; [|done]);
        rewrite !elem_of_cons; by auto.
Qed.

Lemma store_put_buf_atomic_witness :
  exists r d', store_put_buf (Mk_put_env None [Chunk 1; Error ENOSPC; Chunk 1] true true)
    (Mk_fdesc [9] 1) [1; 2] = Ret (r, d') /\
    r = STORE_ERR_IO /\ d' = Mk_fdesc [9] 1.
Proof.
  destruct (store_put_buf_atomic (Mk_put_env None [Chunk 1; Error ENOSPC; Chunk 1] true true)
    (Mk_fdesc [9] 1) [1; 2]) as (r & d' & H & _); [reflexivity|vm_compute; discriminate|].
  exists r, d'. split; [exact H|]. vm_compute in H. by injection H as <- <-.
Defined.

(** ** A log from writer to reader *)

(** A flow with only the fields of the mask, as the writer sees it. *)
Definition masked (f : store_flow_complete) (mask : Z) : store_flow_complete :=
  set_hdr_fields (htonl (Z.land (ntohl (fields (fl_hdr f))) mask)) f.

(** What the writer needs of a flow. *)
Definition storable (mask : Z) (f : store_flow_complete) : Prop :=
  let fl := Z.land (ntohl (fields (fl_hdr f))) mask in
  flow_ok f /\ flow_flags_ok f fl /\ unknown fl = 0.

(** What the reader sees of it. *)
Definition stored (mask : Z) (f : store_flow_complete) : store_flow_complete :=
  match store_flow_serialise (masked f mask) 1024 with
  | Ret (_, _, f') => flow_select f'
  | _ => flow_zero
  end.

(** The successive writes of flows to a log. *)
Fixpoint put_flows (mask : Z) (l : list (put_env * store_flow_complete)) (d : fdesc)
    : outcome (Z * fdesc) :=
  match l with
  | [] => Ret (STORE_ERR_OK, d)
  | (e, f) :: l =>
      let! (r, d, _) := store_put_flow e d f mask in
      if negb (r =? STORE_ERR_OK) then Ret (r, d) else put_flows mask l d
  end.

(** Bytes that the reader takes for a record holding [g]. *)
Definition record_reads (out : bytes) (g : store_flow_complete) : Prop :=
  8 <= Z.of_nat (length out) <= 184 /\
  len_words (decode (take 8 out)) * 4 = Z.of_nat (length out) - 8 /\
  forall rest, store_flow_deserialise (out ++ rest) (Z.of_nat (length out)) = Ret (STORE_ERR_OK, g).

Lemma masked_ok mask f : flow_ok f -> flow_ok (masked f mask).
Proof.
  intros []. constructor; try done.
  pose proof (htonl_u32 (Z.land (ntohl (fields (fl_hdr f))) mask)).
  inversion ok_hdr as [|???? H1 R1]; subst. inversion R1 as [|???? H2 R2]; subst.
  inversion R2 as [|???? H3 R3]; subst. unfold valid. cbn. valid_tac; assumption.
Qed.

Lemma storable_serialise mask f :
  storable mask f ->
  exists out f', store_flow_serialise (masked f mask) 1024 = Ret (STORE_ERR_OK, out, f') /\
    record_reads out (stored mask f).
Proof.
  intros (Hf & Hfl & Hu). unfold stored.
  assert (ntohl (fields (fl_hdr (masked f mask))) = Z.land (ntohl (fields (fl_hdr f))) mask) as Hm.
  { apply ntohl_htonl, u32_land, ntohl_u32. }
  pose proof (masked_ok mask f Hf) as Hf'.
  destruct (store_flow_serialise_ok (masked f mask) 1024) as (fl' & w & Ha & Hw & Hk & ->);
    [done|by rewrite Hm|by rewrite Hm|lia|].
  eexists _, _. split; [reflexivity|].
  pose proof (length_record_bytes _ Hf' _ fl' w Hw). pose proof (sel_len_all_range fl').
  pose proof (ap_u32 _ _ _ _ Hw) as Hu'. split; [lia|]. split.
  - assert (take 8 (record_bytes (masked f mask) w fl') = encode (record_hdr fl')) as ->.
    { unfold record_bytes, record_body. rewrite <- !app_assoc.
      by rewrite take_app_length' by (by rewrite (encode_hdr_length fl' Hu')). }
    rewrite decode_encode' by (by apply record_hdr_valid). rewrite record_hdr_len_words. lia.
  - intros rest. by eapply store_flow_deserialise_record.
Qed.

(** What is stored is the part of the flow that is asked for. *)
Lemma stored_selected mask f :
  storable mask f -> selected (Z.land (ntohl (fields (fl_hdr f))) mask) f (stored mask f).
Proof.
  intros (Hf & Hfl & Hu). unfold stored.
  assert (ntohl (fields (fl_hdr (masked f mask))) = Z.land (ntohl (fields (fl_hdr f))) mask) as Hm.
  { apply ntohl_htonl, u32_land, ntohl_u32. }
  destruct (store_flow_serialise_ok (masked f mask) 1024) as (fl' & w & Ha & Hw & Hk & ->);
    [by apply masked_ok|by rewrite Hm|by rewrite Hm|lia|].
  apply record_selected in Hw. rewrite Hm in Hw. destruct Hw. by constructor.
Qed.

Lemma atomicio_write_benign t c s pos :
  benign t -> 0 <= pos <= Z.of_nat (length s) -> Z.of_nat (length s) - pos <= chunks t ->
  exists errno t', atomicio_write t (appended c s pos) s pos =
    Ret (Z.of_nat (length s), errno, appended c s (Z.of_nat (length s)), t').
Proof.
  intros Ht. revert pos. induction Ht as [|x t He Ht IH]; [|destruct x as [k|e]]; intros pos Hp Hc;
    cbn [atomicio_write chunks] in *;
    (destruct (Z.ltb_spec pos (Z.of_nat (length s)));
     [|assert (pos = Z.of_nat (length s)) as -> by lia; by eexists _, _]).
  - lia.
  - unfold sys_write. rewrite (proj2 (Z.eqb_neq _ _)), fd_put_appended by lia.
    rewrite (proj2 (Z.ltb_lt 0 k)) in Hc by done. apply IH; lia.
  - assert ((e =? EINTR) || (e =? EAGAIN) = true) as -> by (destruct He as [-> | ->]; reflexivity).
    by apply IH.
Qed.

Definition env_ok (e : put_env) : Prop :=
  pe_lseek e = None /\ benign (pe_writes e) /\ 184 <= chunks (pe_writes e).

Lemma store_put_flow_ok e d mask f :
  env_ok e -> storable mask f -> position d = Z.of_nat (length (contents d)) ->
  exists out f', record_reads out (stored mask f) /\
    store_put_flow e d f mask =
      Ret (STORE_ERR_OK, Mk_fdesc (contents d ++ out) (Z.of_nat (length (contents d ++ out))), f').
Proof.
  intros (Hs & Hb & Hc) Hf Hp. destruct (storable_serialise mask f Hf) as (out & f' & Hser & Hr).
  exists out. eexists. split; [done|]. unfold store_put_flow, store_flow_serialise_masked. cbv zeta.
  fold (masked f mask). rewrite Hser. cbn [obind]. cbn [Z.eqb STORE_ERR_OK negb].
  unfold store_put_buf. rewrite Hs.
  destruct (atomicio_write_benign (pe_writes e) (contents d) out 0) as (er & t' & Hw);
    [done|lia|destruct Hr; lia|].
  rewrite <- appended_start, appended_full in Hw by done. rewrite Hw. cbn [obind].
  rewrite Z.eqb_refl. reflexivity.
Qed.

Lemma atomicio_read_here t d n pre b post :
  benign t -> contents d = pre ++ b ++ post -> position d = Z.of_nat (length pre) ->
  n = Z.of_nat (length b) -> n <= chunks t ->
  exists t', atomicio_read t d n [] = Ret (n, 0, b, fd_seek d (Z.of_nat (length (pre ++ b))), t') /\
    benign t' /\ chunks t - n <= chunks t'.
Proof.
  intros Ht Hcont Hp -> Hc.
  destruct (atomicio_read_spec t d (Z.of_nat (length b)) []) as (t1 & -> & Ht1 & Hc1);
    rewrite ?Hcont, ?length_app; cbn [length]; [done|lia..|].
  rewrite Z.sub_0_r in *. exists t1. split; [|done]. unfold fd_bytes.
  rewrite Hcont, Hp, !Nat2Z.id, drop_app_length, take_app_length. do 4 f_equal. lia.
Qed.

Lemma store_get_flow_record junk t d pre out rest g :
  record_reads out g -> benign t -> contents d = pre ++ out ++ rest ->
  position d = Z.of_nat (length pre) -> Z.of_nat (length out) <= chunks t ->
  exists t', store_get_flow junk t d =
      Ret (STORE_ERR_OK, g, fd_seek d (Z.of_nat (length (pre ++ out))), t') /\
    benign t' /\ chunks t - Z.of_nat (length out) <= chunks t'.
Proof.
  intros (Hl & Hlw & Hd) Ht Hcont Hp Hc. unfold store_get_flow. change (sizeof store_flow) with 8.
  assert (Z.of_nat (length (take 8 out)) = 8) as H8 by (rewrite length_take; lia).
  assert (Z.of_nat (length (drop 8 out)) = Z.of_nat (length out) - 8) as Hd8
    by (rewrite length_drop; lia).
  rewrite <- (take_drop 8 out), <- app_assoc in Hcont.
  destruct (atomicio_read_here t d 8 pre (take 8 out) (drop 8 out ++ rest))
    as (t1 & -> & Ht1 & Hc1); [done..|lia|]. cbn [obind].
  change (8 =? -1) with false. change (8 <? 8) with false. cbv iota zeta.
  rewrite Hlw, (proj2 (Z.ltb_ge _ _)) by lia.
  destruct (atomicio_read_here t1 (fd_seek d (Z.of_nat (length (pre ++ take 8 out))))
    (Z.of_nat (length out) - 8) (pre ++ take 8 out) (drop 8 out) rest)
    as (t2 & -> & Ht2 & Hc2); [done|by rewrite <- app_assoc|done|lia|lia|]. cbn [obind].
  rewrite (proj2 (Z.eqb_neq _ _)), Z.ltb_irrefl by lia.
  unfold stack_buf. rewrite take_drop. replace (Z.of_nat (length out) - 8 + 8) with
    (Z.of_nat (length out)) by lia.
  rewrite Hd. cbn [obind]. exists t2. rewrite <- app_assoc, take_drop. split; [done|].
  split; [done|lia].
Qed.

Lemma reader_loop_log junk keep t d fuel pre (l : list (bytes * store_flow_complete)) :
  Forall (fun og => record_reads (fst og) (snd og)) l ->
  (length l < fuel)%nat -> benign t ->
  contents d = pre ++ concat (fst <$> l) -> position d = Z.of_nat (length pre) ->
  Z.of_nat (length (concat (fst <$> l))) < chunks t ->
  forall nflows, reader_loop fuel junk keep 0 nflows t d = Ret (List.filter keep (snd <$> l)).
Proof.
  intros Hl. revert t d fuel pre. induction Hl as [|[out g] l Hr Hl IH];
    intros t d fuel pre Hfuel Ht Hc Hp Hch nflows; (destruct fuel as [|fuel]; [simpl in Hfuel; lia|]);
    cbn [reader_loop Z.eqb orb].
  - cbn [fmap list_fmap concat length] in *. rewrite app_nil_r in Hc. unfold store_get_flow.
    destruct (atomicio_read_eof t d (sizeof store_flow)) as (t' & ->);
      [done|by rewrite Hc|done|lia|]. reflexivity.
  - cbn [fmap list_fmap concat fst snd] in *. rewrite length_app in Hch.
    destruct (store_get_flow_record junk t d pre out (concat (fst <$> l)) g)
      as (t' & -> & Ht' & Hc'); [done..|lia|]. cbn [obind].
    change (STORE_ERR_OK =? STORE_ERR_EOF) with false.
    change (STORE_ERR_OK =? STORE_ERR_OK) with true. cbn [negb].
    rewrite (IH t' _ fuel (pre ++ out)); [|simpl in Hfuel; lia|done|by rewrite <- app_assoc|done|lia].
    cbn [obind]. simpl. by destruct (keep g).
Qed.

Lemma put_flows_ok mask l d :
  Forall (fun ef => env_ok (fst ef) /\ storable mask (snd ef)) l ->
  position d = Z.of_nat (length (contents d)) ->
  exists ogs, Forall (fun og => record_reads (fst og) (snd og)) ogs /\
    snd <$> ogs = (fun ef => stored mask (snd ef)) <$> l /\
    put_flows mask l d = Ret (STORE_ERR_OK,
      Mk_fdesc (contents d ++ concat (fst <$> ogs))
        (Z.of_nat (length (contents d ++ concat (fst <$> ogs))))).
Proof.
  intros Hl. revert d. induction Hl as [|[e f] l [He Hf] Hl IH]; intros d Hp.
  - exists []. split; [by apply Forall_nil|]. split; [done|]. cbn. rewrite app_nil_r, <- Hp. by destruct d.
  - cbn [fst snd] in *. destruct (store_put_flow_ok e d mask f) as (out & f' & Hr & Hput); [done..|].
    destruct (IH (Mk_fdesc (contents d ++ out) (Z.of_nat (length (contents d ++ out)))))
      as (ogs & Hogs & Hsnd & Hrest); [done|].
    exists ((out, stored mask f) :: ogs). split; [by apply Forall_cons|].
    split; [cbn; by rewrite Hsnd|].
    cbn [put_flows]. rewrite Hput. cbn [obind].
    change (negb (STORE_ERR_OK =? STORE_ERR_OK)) with false. cbv iota.
    rewrite Hrest. cbn [contents fmap list_fmap concat fst]. by rewrite <- app_assoc.
Qed.

(** C7: flows written to a log one after the other are all read back, in order,
    by the loop of flowd-reader started at the place where the first was
    written: of each flow it gets the fields that its field word and the mask of
    the writer ask for, with their values, an address with its family and bytes,
    and nothing else ([selected]), and it shows those that the filter keeps.  The
    bits of the field words are known ones and agree with the families of the
    addresses; writes and reads may be short or interrupted, but do not fail. *)
Theorem log_roundtrip mask (l : list (put_env * store_flow_complete)) d junk keep t fuel :
  Forall (fun ef => env_ok (fst ef) /\ storable mask (snd ef)) l ->
  position d = Z.of_nat (length (contents d)) ->
  (length l < fuel)%nat -> benign t -> 184 * Z.of_nat (length l) < chunks t ->
  exists d' gs, put_flows mask l d = Ret (STORE_ERR_OK, d') /\
    contents d `prefix_of` contents d' /\
    Forall2 (fun ef g => selected (Z.land (ntohl (fields (fl_hdr ef.2))) mask) ef.2 g) l gs /\
    reader_loop fuel junk keep 0 0 t (fd_seek d' (position d)) = Ret (List.filter keep gs).
Proof.
  intros Hl Hp Hfuel Ht Hc. destruct (put_flows_ok mask l d Hl Hp) as (ogs & Hogs & Hsnd & Hput).
  eexists _, ((fun ef => stored mask (snd ef)) <$> l). split; [exact Hput|]. split; [by eexists|].
  split.
  { apply Forall2_fmap_r, Forall_Forall2_diag. eapply Forall_impl; [exact Hl|]. intros ef [_ H]. by apply stored_selected. }
  pose proof (f_equal length Hsnd) as Hlen. rewrite !length_fmap in Hlen.
  rewrite <- Hsnd. apply (reader_loop_log junk keep t _ fuel (contents d)); try done; [lia|].
  assert (Z.of_nat (length (concat (fst <$> ogs))) <= 184 * Z.of_nat (length ogs)); [|lia].
  clear -Hogs. induction Hogs as [|[out g] ogs (Hr & _) H IH]; [done|].
  cbn [fmap list_fmap concat fst length] in *. rewrite length_app. lia.
Qed.

Lemma log_roundtrip_witness :
  exists d' g1 g2, put_flows 4294967295
      [(Mk_put_env None (Error EINTR :: replicate 184 (Chunk 3)) true true, sample_flow 1073756847);
       (Mk_put_env None (replicate 184 (Chunk 200)) true true, sample_flow 7)] (Mk_fdesc [1; 2] 2) =
      Ret (STORE_ERR_OK, d') /\
    reader_loop 3 [] (fun _ => true) 0 0 (replicate 400 (Chunk 5)) (fd_seek d' 2) =
      Ret [g1; g2] /\ fl_src_addr g1 = ip4 10 1 2 3 /\ fl_src_addr g2 = xaddr_zero.
Proof.
  edestruct (log_roundtrip 4294967295
      [(Mk_put_env None (Error EINTR :: replicate 184 (Chunk 3)) true true, sample_flow 1073756847);
       (Mk_put_env None (replicate 184 (Chunk 200)) true true, sample_flow 7)] (Mk_fdesc [1; 2] 2) []
      (fun _ => true) (replicate 400 (Chunk 5)) 3) as (d' & gs & Hd & _ & Hg & Hr).
  - apply Forall_cons; split; [|apply Forall_cons; split; [|by apply Forall_nil]];
      cbn [fst snd]; split;
      first [split; [reflexivity|]; split;
               [by repeat (apply Forall_cons; split; [by (left; reflexivity) || reflexivity|]);
                apply Forall_nil
               |vm_compute; discriminate]
            |split; [flow_ok_tac|]; split; [flags_tac|reflexivity]].
  - reflexivity.
  - simpl. lia.
  - apply Forall_replicate. reflexivity.
  - vm_compute. reflexivity.
  - apply Forall2_cons_inv_l in Hg as (g1 & gs1 & H1 & Hg & ->). apply Forall2_cons_inv_l in Hg as (g2 & gs2 & H2 & Hg & ->).
    apply Forall2_nil_inv_l in Hg as ->. exists d', g1, g2. split; [exact Hd|]. split; [exact Hr|].
    rewrite (se_src _ _ _ H1), (se_src _ _ _ H2). split; vm_compute; reflexivity.
Defined.

(** ** Arbitrary files *)

Lemma fd_bytes_u8 d n : Forall u8 (contents d) -> Forall u8 (fd_bytes d n).
Proof. intros. by apply Forall_take, Forall_drop. Qed.

Lemma atomicio_read_total t d n buf :
  Z.of_nat (length buf) <= n -> n - Z.of_nat (length buf) <= chunks t ->
  Forall u8 (contents d) -> Forall u8 buf -> 0 <= position d ->
  exists r e b off t', atomicio_read t d n buf = Ret (r, e, b, fd_seek d off, t') /\
    Forall u8 b /\ chunks t - (n - Z.of_nat (length buf)) <= chunks t' /\ 0 <= off /\
    ((r <= 0 /\ r < n) \/ (r = n /\ Z.of_nat (length b) = n)).
Proof.
  revert d buf. induction t as [|[k|e] t IH]; intros d buf Hb Hc Hu8 Hbu Hp;
    cbn [atomicio_read chunks] in *;
    (destruct (Z.ltb_spec (Z.of_nat (length buf)) n) as [Hlt|Hge];
     [|eexists _, _, buf, (position d), _; destruct d; (split; [reflexivity|]);
       cbn [chunks] in *; split_and!; [done|lia|done|right; lia]]).
  - lia.
  - destruct (Z.eqb_spec (sys_read d k (n - Z.of_nat (length buf))) 0) as [|Hne].
    { eexists _, _, buf, (position d), t. destruct d. split; [reflexivity|].
      split_and!; [done|destruct (Z.ltb_spec 0 k); lia|done|left; lia]. }
    set (m := sys_read d k (n - Z.of_nat (length buf))) in *.
    assert (1 <= m <= n - Z.of_nat (length buf) /\
            m <= Z.of_nat (length (contents d)) - position d) as [Hm Hm2].
    { unfold m, sys_read in *. lia. }
    assert (length (fd_bytes d m) = Z.to_nat m) as Hlm.
    { unfold fd_bytes. rewrite length_take, length_drop. lia. }
    destruct (IH (fd_seek d (position d + m)) (buf ++ fd_bytes d m))
      as (r & e & b & off & t' & -> & H8 & Hc' & Ho & Hr); rewrite ?length_app, ?Hlm.
    + lia.
    + destruct (Z.ltb_spec 0 k); lia.
    + done.
    + apply Forall_app. split; [done|by apply fd_bytes_u8].
    + cbn. lia.
    + eexists _, _, b, off, t'. split; [reflexivity|]. rewrite length_app, Hlm in Hc'.
      split_and!; [done|destruct (Z.ltb_spec 0 k); lia|done|done].
  - case_match; [by apply IH|]. eexists _, _, buf, (position d), t. destruct d.
    split; [reflexivity|]. split_and!; [done|lia|done|left; lia].
Qed.

Lemma RFIELDS_safe buf fields l s :
  Forall (fun fld => 0 <= snd fld) l -> 0 <= r_offset s ->
  r_offset s + sel_len fields l <= Z.of_nat (length buf) ->
  exists s', RFIELDS buf fields l s = Ret s' /\ r_offset s' = r_offset s + sel_len fields l.
Proof.
  intros Hl. revert s. induction Hl as [|[flag size] l Hs Hl IH]; intros s Ho Hlen.
  { exists s. split; [done|]. unfold sel_len. simpl. lia. }
  change (sel_len fields ((flag, size) :: l)) with
    ((if has fields flag then size else 0) + sel_len fields l) in *.
  cbn [RFIELDS RFIELD snd] in *. pose proof (sel_len_nonneg fields l Hl).
  destruct (has fields flag).
  - unfold rd. rewrite mem_read_in by lia. cbn [obind].
    edestruct IH as (s' & HR & Ho'); [| |exists s'; split; [exact HR|]]; cbn [r_offset] in *; lia.
  - cbn [obind]. destruct (IH s) as (s' & HR & Ho'); [lia..|]. exists s'. split; [exact HR|lia].
Qed.

(** The reader stays inside a buffer that holds the record as its header gives
    it, and at least the largest record of this version. *)
Lemma store_flow_deserialise_safe buf len :
  Forall u8 buf -> 184 <= Z.of_nat (length buf) -> 0 <= len <= Z.of_nat (length buf) ->
  len < 18446744073709551616 ->
  exists r, store_flow_deserialise buf len = Ret r.
Proof.
  intros Hb Hbuf Hlen Hmax. unfold store_flow_deserialise. cbv zeta. change (sizeof store_flow) with 8.
  rewrite (wrap64_small len) by (width; lia).
  destruct (Z.ltb_spec len 8) as [|H8]; [by eexists|].
  rewrite wrap64_small by (width; lia). unfold rd at 1. rewrite mem_read_in by lia. cbn [obind].
  set (hdr := decode _). assert (0 <= len_words hdr) as Hlw.
  { assert (valid hdr) as Hv.
    { apply decode_valid; [by apply Forall_take, Forall_drop|].
      rewrite length_take, length_drop. change (sizeof store_flow) with 8. lia. }
    inversion Hv as [|???? _ R]; subst. inversion R as [|???? H2 _]; subst. apply H2. }
  case_match; [by eexists|]. destruct (Z.ltb_spec (len - 8) (len_words hdr * 4)) as [|Hl]; [by eexists|].
  set (fields := ntohl (fields hdr)).
  pose proof (sel_len_all_range fields) as [Hr _]. pose proof (sel_len_all fields) as Hall.
  destruct (RFIELDS_safe buf fields store_fields
    (Mk_rstate 8 (flowd_crc32_update (take (Z.to_nat 8) (drop (Z.to_nat 0) buf)) flowd_crc32_start)
       fields ∅)) as (s & -> & Ho); cbn [r_offset].
  { apply store_fields_sizes. }
  { done. }
  { destruct (has fields STORE_FIELD_CRC32); lia. }
  cbn [obind r_offset] in *. change (sizeof store_flow_CRC32) with 4.
  pose proof (sel_len_nonneg fields _ store_fields_sizes).
  destruct (Z.land (r_donefields s) (lnot32 STORE_FIELD_CRC32) =? 0); cbn [negb].
  - unfold RFIELD. destruct (has fields STORE_FIELD_CRC32); [|by eexists].
    unfold rd. rewrite mem_read_in by lia. by eexists.
  - destruct (STORE_VER_MINOR <? STORE_VER_GET_MIN (version hdr)); [|by eexists]. unfold RFIELD.
    match goal with |- context [obind (if ?b then _ else _)] => destruct b end; [|by eexists].
    cbn [r_offset].
    unfold rd. rewrite mem_read_in by lia. by eexists.
Qed.

(** Whatever the file holds and however the reads are cut short,
    store_get_flow returns and never touches memory outside its stack buffer. *)
Theorem store_get_flow_safe junk t d :
  length junk = 512%nat -> Forall u8 junk -> Forall u8 (contents d) -> 0 <= position d ->
  512 <= chunks t -> exists res, store_get_flow junk t d = Ret res.
Proof.
  intros Hj Hj8 Hc Hp Ht. unfold store_get_flow. change (sizeof store_flow) with 8.
  destruct (atomicio_read_total t d 8 []) as (r & e & hb & off & t1 & -> & Hh8 & Hc1 & Hoff & Hr);
    [done|cbn; lia|done|done|done|]. cbn [obind length] in *.
  case_match; [by eexists|]. destruct (Z.ltb_spec r 8); [by eexists|].
  assert (r = 8 /\ Z.of_nat (length hb) = 8) as [-> Hlh] by lia. clear Hr.
  destruct (Z.ltb_spec (512 - 8) (len_words (decode hb) * 4)) as [|Hlen]; [by eexists|].
  assert (0 <= len_words (decode hb)) as Hlw.
  { assert (valid (decode hb : store_flow)) as Hv by (apply decode_valid; [done|by rewrite Hlh]).
    inversion Hv as [|???? _ R]; subst. inversion R as [|???? H2 _]; subst. apply H2. }
  destruct (atomicio_read_total t1 (fd_seek d off) (len_words (decode hb) * 4) [])
    as (r & e2 & b & off2 & t2 & -> & Hb8 & _ & _ & Hr); [cbn [length]; lia..|done|done|done|]. cbn [obind].
  case_match; [by eexists|]. destruct (Z.ltb_spec r (len_words (decode hb) * 4)); [by eexists|].
  assert (Z.of_nat (length (stack_buf junk (hb ++ b))) = 512) as Hsb.
  { unfold stack_buf. rewrite length_app, length_drop, length_app. lia. }
  destruct (store_flow_deserialise_safe (stack_buf junk (hb ++ b)) (len_words (decode hb) * 4 + 8))
    as ([c f] & ->); [|lia..|by eexists].
  unfold stack_buf. rewrite !Forall_app. split; [done|by apply Forall_drop].
Qed.

Lemma store_get_flow_safe_witness :
  exists res, store_get_flow (replicate 512 7) (replicate 512 (Chunk 3))
    (Mk_fdesc [96; 1; 0; 0; 255; 255; 255; 255; 1; 2; 3; 4; 5] 0) = Ret res.
Proof.
  apply store_get_flow_safe; [reflexivity|..].
  - by apply Forall_replicate.
  - by repeat constructor.
  - done.
  - vm_compute. discriminate.
Defined.
