(* ===== verification/Filter.v ===== *)
(** * Flow filter (src/flowd/filter.c)

    Matching a flow against a rule and running it through the rule list: the
    last matching rule wins, a matching quick rule ends the search, and the
    rules count their evaluations, matches and wins.  localtime(3) is a
    parameter. *)

From S2P Require Import Prelude Packed Addr StoreTypes Store StoreProps.

Definition FF_ACTION_ACCEPT : Z := 1.
Definition FF_ACTION_DISCARD : Z := 2.
Definition FF_ACTION_TAG : Z := 3.

Record filter_action := Mk_filter_action { action_what : Z; act_tag : Z }.

Definition FF_MATCH_SRC_ADDR : Z := 1.
Definition FF_MATCH_DST_ADDR : Z := 2.
Definition FF_MATCH_SRC_PORT : Z := 4.
Definition FF_MATCH_DST_PORT : Z := 8.
Definition FF_MATCH_PROTOCOL : Z := 16.
Definition FF_MATCH_TOS : Z := 32.
Definition FF_MATCH_AGENT_ADDR : Z := 64.
Definition FF_MATCH_TCP_FLAGS : Z := 128.
Definition FF_MATCH_AF : Z := 256.
Definition FF_MATCH_DAYTIME : Z := 512.
Definition FF_MATCH_ABSTIME : Z := 1024.
Definition FF_MATCH_IFNDX_IN : Z := 2048.
Definition FF_MATCH_IFNDX_OUT : Z := 4096.

Record filter_match := Mk_filter_match {
  match_what : Z; match_negate : Z;
  agent_masklen : Z; m_agent_addr : xaddr;
  m_af : Z;
  src_masklen : Z; m_src_addr : xaddr;
  dst_masklen : Z; m_dst_addr : xaddr;
  ifndx_in : Z; ifndx_out : Z;
  m_src_port : Z; m_dst_port : Z;
  proto : Z; m_tos : Z;
  tcp_flags_mask : Z; tcp_flags_equals : Z;
  day_mask : Z; dayafter : Z; daybefore : Z;
  absafter : Z; absbefore : Z
}.

Record filter_rule := Mk_filter_rule {
  fr_action : filter_action;
  quick : bool;
  fr_match : filter_match;
  evaluations : Z; matches : Z; wins : Z
}.

(** The members of struct tm that the filter reads. *)
Record tm := Mk_tm { tm_sec : Z; tm_min : Z; tm_hour : Z; tm_wday : Z }.

Section filter.
Context (localtime : Z -> tm).

Definition flow_daytime_match (recv_sec day_mask dayafter daybefore : Z) : bool :=
  let t := localtime recv_sec in
  if negb (day_mask =? 0) && (Z.land day_mask (Z.shiftl 1 (tm_wday t)) =? 0) then false
  else
    let sec := tm_sec t + tm_min t * 60 + tm_hour t * 3600 in
    if negb (daybefore =? -1) && (daybefore <? sec) then false
    else if negb (dayafter =? -1) && (sec <? dayafter) then false
    else true.

(** One criterion of flow_match: FRMATCH, then FRRET. *)
Definition FRRET (rule : filter_rule) (what : Z) (m : bool) (next : bool) : bool :=
  let neg := has (match_negate (fr_match rule)) what in
  if has (match_what (fr_match rule)) what then
    if (neg && m) || (negb neg && negb m) then false else next
  else next.

(** The test of the absolute time bounds; a bound that is not positive is not
    set. *)
Definition abstime_match (fm : filter_match) (tt : Z) : bool :=
  (if 0 <? absbefore fm then tt <? wrap32 (absbefore fm) else true) &&
  (if 0 <? absafter fm then wrap32 (absafter fm) <? tt else true).

Definition flow_match (rule : filter_rule) (flow : store_flow_complete) : bool :=
  let fm := fr_match rule in
  let tt := ntohl (recv_sec (fl_recv_time flow)) in
  FRRET rule FF_MATCH_AGENT_ADDR
    (addr_netmatch (fl_agent_addr flow) (m_agent_addr fm) (agent_masklen fm) =? 0)
  (FRRET rule FF_MATCH_IFNDX_IN
    (ntohl (if_index_in (fl_ifndx flow)) =? wrap32 (ifndx_in fm))
  (FRRET rule FF_MATCH_IFNDX_OUT
    (ntohl (if_index_out (fl_ifndx flow)) =? wrap32 (ifndx_out fm))
  (FRRET rule FF_MATCH_AF
    ((af (fl_src_addr flow) =? m_af fm) || (af (fl_dst_addr flow) =? m_af fm))
  (FRRET rule FF_MATCH_SRC_ADDR
    (addr_netmatch (fl_src_addr flow) (m_src_addr fm) (src_masklen fm) =? 0)
  (FRRET rule FF_MATCH_DST_ADDR
    (addr_netmatch (fl_dst_addr flow) (m_dst_addr fm) (dst_masklen fm) =? 0)
  (FRRET rule FF_MATCH_SRC_PORT (ntohs (src_port (fl_ports flow)) =? m_src_port fm)
  (FRRET rule FF_MATCH_DST_PORT (ntohs (dst_port (fl_ports flow)) =? m_dst_port fm)
  (FRRET rule FF_MATCH_PROTOCOL (protocol (fl_pft flow) =? proto fm)
  (FRRET rule FF_MATCH_TOS (tos (fl_pft flow) =? m_tos fm)
  (FRRET rule FF_MATCH_TCP_FLAGS
    (Z.land (tcp_flags (fl_pft flow)) (tcp_flags_mask fm) =? tcp_flags_equals fm)
  (FRRET rule FF_MATCH_DAYTIME
    (flow_daytime_match tt (day_mask fm) (dayafter fm) (daybefore fm))
  (FRRET rule FF_MATCH_ABSTIME (abstime_match fm tt)
  true)))))))))))).

Definition count_evaluation (fr : filter_rule) : filter_rule :=
  Mk_filter_rule (fr_action fr) (quick fr) (fr_match fr)
    (wrap64 (evaluations fr + 1)) (matches fr) (wins fr).
Definition count_match (fr : filter_rule) : filter_rule :=
  Mk_filter_rule (fr_action fr) (quick fr) (fr_match fr)
    (evaluations fr) (wrap64 (matches fr + 1)) (wins fr).
Definition count_win (fr : filter_rule) : filter_rule :=
  Mk_filter_rule (fr_action fr) (quick fr) (fr_match fr)
    (evaluations fr) (matches fr) (wrap64 (wins fr + 1)).

(** The TAILQ_FOREACH loop from rule number [i]; [last_rule] is the number of
    the last rule that matched. *)
Fixpoint filter_loop (flow : store_flow_complete) (filter : list filter_rule) (i : nat)
    (last_rule : option nat) : list filter_rule * option nat :=
  match filter with
  | [] => ([], last_rule)
  | fr :: rest =>
      let m := flow_match fr flow in
      let fr := count_evaluation fr in
      if m then
        let fr := count_match fr in
        if quick fr then (fr :: rest, Some i)
        else let '(rest, last) := filter_loop flow rest (S i) (Some i) in (fr :: rest, last)
      else let '(rest, last) := filter_loop flow rest (S i) last_rule in (fr :: rest, last)
  end.

(** The action, the flow and the rules as they are left. *)
Definition filter_flow (flow : store_flow_complete) (filter : list filter_rule)
    : Z * store_flow_complete * list filter_rule :=
  let '(filter, last_rule) := filter_loop flow filter 0 None in
  match last_rule with
  | None => (FF_ACTION_ACCEPT, flow, filter)
  | Some n =>
      match filter !! n with
      | None => (FF_ACTION_ACCEPT, flow, filter)
      | Some fr =>
          let filter := <[n := count_win fr]> filter in
          let action := action_what (fr_action fr) in
          if action =? FF_ACTION_TAG then
            let flow := set_hdr_fields
              (htonl (Z.lor (ntohl (fields (fl_hdr flow))) STORE_FIELD_TAG)) flow in
            let flow := set_fl_tag (Mk_store_flow_TAG (htonl (act_tag (fr_action fr)))) flow in
            (FF_ACTION_ACCEPT, flow, filter)
          else (action, flow, filter)
      end
  end.

(** ** What a rule says *)

(** Addresses of one family (and scope) that agree on the first [l] bits. *)
Definition in_network (a net : xaddr) (l : Z) : Prop :=
  af a = af net /\ l <= addr_width net /\
  (forall i, 0 <= i < l -> addr_bit a i = addr_bit net i) /\
  (af a = AF_INET6 -> scope_id a = scope_id net).

(** The network of a rule: nothing set after the prefix. *)
Definition network_ok (net : xaddr) (l : Z) : Prop :=
  inet_ok net /\ 0 <= l /\ forall i, l <= i < addr_width net -> addr_bit net i = false.

(** The criteria of a rule with their meaning, in host byte order. *)
Definition criteria (rule : filter_rule) (flow : store_flow_complete) : list (Z * Prop) :=
  let fm := fr_match rule in
  let tt := ntohl (recv_sec (fl_recv_time flow)) in
  let t := localtime tt in
  let sec := tm_sec t + tm_min t * 60 + tm_hour t * 3600 in
  [(FF_MATCH_AGENT_ADDR, in_network (fl_agent_addr flow) (m_agent_addr fm) (agent_masklen fm));
   (FF_MATCH_IFNDX_IN, ntohl (if_index_in (fl_ifndx flow)) = ifndx_in fm);
   (FF_MATCH_IFNDX_OUT, ntohl (if_index_out (fl_ifndx flow)) = ifndx_out fm);
   (FF_MATCH_AF, af (fl_src_addr flow) = m_af fm \/ af (fl_dst_addr flow) = m_af fm);
   (FF_MATCH_SRC_ADDR, in_network (fl_src_addr flow) (m_src_addr fm) (src_masklen fm));
   (FF_MATCH_DST_ADDR, in_network (fl_dst_addr flow) (m_dst_addr fm) (dst_masklen fm));
   (FF_MATCH_SRC_PORT, ntohs (src_port (fl_ports flow)) = m_src_port fm);
   (FF_MATCH_DST_PORT, ntohs (dst_port (fl_ports flow)) = m_dst_port fm);
   (FF_MATCH_PROTOCOL, protocol (fl_pft flow) = proto fm);
   (FF_MATCH_TOS, tos (fl_pft flow) = m_tos fm);
   (FF_MATCH_TCP_FLAGS,
      Z.land (tcp_flags (fl_pft flow)) (tcp_flags_mask fm) = tcp_flags_equals fm);
   (FF_MATCH_DAYTIME,
      (day_mask fm = 0 \/ Z.testbit (day_mask fm) (tm_wday t) = true) /\
      (daybefore fm = -1 \/ sec <= daybefore fm) /\ (dayafter fm = -1 \/ dayafter fm <= sec));
   (FF_MATCH_ABSTIME,
      (absbefore fm <= 0 \/ tt < absbefore fm) /\ (absafter fm <= 0 \/ absafter fm < tt))].

(** A flow matches when each criterion that the rule names holds, or fails if
    the rule negates it. *)
Definition rule_matches (rule : filter_rule) (flow : store_flow_complete) : Prop :=
  Forall (fun c => has (match_what (fr_match rule)) (fst c) = true ->
            (snd c <-> has (match_negate (fr_match rule)) (fst c) = false)) (criteria rule flow).

(** The ranges of the members of a rule that flow_match relies on. *)
Definition rule_ok (rule : filter_rule) : Prop :=
  let fm := fr_match rule in
  network_ok (m_agent_addr fm) (agent_masklen fm) /\
  network_ok (m_src_addr fm) (src_masklen fm) /\
  network_ok (m_dst_addr fm) (dst_masklen fm) /\
  0 <= ifndx_in fm < 2147483648 /\ 0 <= ifndx_out fm < 2147483648 /\
  absbefore fm < 2147483648 /\ absafter fm < 2147483648.

Lemma netmatch_in_network a net l :
  xaddr_ok a -> network_ok net l -> (addr_netmatch a net l =? 0) = true <-> in_network a net l.
Proof.
  intros Ha (Hn & Hl & Hz). rewrite Z.eqb_eq. unfold in_network.
  destruct (decide (af a = af net)) as [Haf|Haf].
  - assert (inet_ok a) as Ha' by (split; [done|rewrite Haf; apply Hn]).
    rewrite addr_netmatch_iff by done.
    assert (addr_width a = addr_width net) as -> by (unfold addr_width; by rewrite Haf).
    clear -Hz Haf. intuition congruence.
  - unfold addr_netmatch. rewrite (proj2 (Z.eqb_neq _ _) Haf). by split; [|intros []].
Qed.

(** Evaluating one criterion and then the rest. *)
Lemma FRRET_spec rule what m next (P Q : Prop) :
  (m = true <-> P) -> (next = true <-> Q) ->
  FRRET rule what m next = true <->
    (has (match_what (fr_match rule)) what = true ->
     (P <-> has (match_negate (fr_match rule)) what = false)) /\ Q.
Proof.
  intros HP HQ. unfold FRRET. destruct (has (match_what _) what), (has (match_negate _) what), m;
    cbn [negb andb orb]; clear -HP HQ; intuition congruence.
Qed.

Lemma shiftl_1_testbit m w : 0 <= w -> (Z.land m (Z.shiftl 1 w) =? 0) = negb (Z.testbit m w).
Proof.
  intros Hw. rewrite Z.shiftl_1_l. rewrite <- has_testbit by done. unfold has.
  by rewrite negb_involutive.
Qed.

Lemma daytime_spec s dm da db :
  0 <= tm_wday (localtime s) ->
  let t := localtime s in
  let sec := tm_sec t + tm_min t * 60 + tm_hour t * 3600 in
  flow_daytime_match s dm da db = true <->
    (dm = 0 \/ Z.testbit dm (tm_wday t) = true) /\ (db = -1 \/ sec <= db) /\ (da = -1 \/ da <= sec).
Proof.
  intros Hw t sec. unfold flow_daytime_match. fold t. fold sec. rewrite shiftl_1_testbit by done.
  transitivity (((dm =? 0) || Z.testbit dm (tm_wday t)) && (((db =? -1) || (sec <=? db)) &&
                 ((da =? -1) || (da <=? sec))) = true).
  - rewrite (Z.leb_antisym db sec), (Z.leb_antisym sec da).
    by destruct (dm =? 0), (Z.testbit dm (tm_wday t)), (db =? -1), (da =? -1), (db <? sec), (sec <? da).
  - by rewrite !andb_true_iff, !orb_true_iff, !Z.eqb_eq, !Z.leb_le.
Qed.

Lemma abstime_spec fm tt :
  absbefore fm < 2147483648 -> absafter fm < 2147483648 ->
  abstime_match fm tt = true <->
    (absbefore fm <= 0 \/ tt < absbefore fm) /\ (absafter fm <= 0 \/ absafter fm < tt).
Proof.
  intros Hb Ha. unfold abstime_match. rewrite andb_true_iff.
  destruct (Z.ltb_spec 0 (absbefore fm)), (Z.ltb_spec 0 (absafter fm));
    rewrite ?wrap32_small by (width; lia); rewrite ?Z.ltb_lt; lia.
Qed.

(** Flow_match accepts exactly the flows that satisfy the rule: prefixes
    bit by bit, numbers in host order, and each criterion negated when the
    rule says so. *)
Theorem flow_match_spec rule flow :
  rule_ok rule -> flow_ok flow -> (forall s, 0 <= tm_wday (localtime s)) ->
  flow_match rule flow = true <-> rule_matches rule flow.
Proof.
  intros (Ha & Hs & Hd & Hi & Ho & Hb & Haf) Hf Hw. unfold rule_matches, criteria, flow_match.
  cbv zeta. rewrite !Forall_cons, Forall_nil. cbn [fst snd].
  repeat apply FRRET_spec; try apply Z.eqb_eq; try (apply netmatch_in_network; [apply Hf|done]).
  - rewrite wrap32_small by (width; lia). apply Z.eqb_eq.
  - rewrite wrap32_small by (width; lia). apply Z.eqb_eq.
  - rewrite orb_true_iff, !Z.eqb_eq. done.
  - by apply daytime_spec.
  - by apply abstime_spec.
  - done.
Qed.

(** ** The rule list *)

(** The number of rules that are evaluated: up to and including the first
    matching quick rule. *)
Fixpoint consulted (flow : store_flow_complete) (filter : list filter_rule) : nat :=
  match filter with
  | [] => O
  | fr :: rest => if flow_match fr flow && quick fr then 1%nat else S (consulted flow rest)
  end.

(** The last matching rule of a list. *)
Fixpoint last_match (flow : store_flow_complete) (filter : list filter_rule) : option nat :=
  match filter with
  | [] => None
  | fr :: rest =>
      match last_match flow rest with
      | Some n => Some (S n)
      | None => if flow_match fr flow then Some O else None
      end
  end.

Definition winner (flow : store_flow_complete) (filter : list filter_rule) : option nat :=
  last_match flow (take (consulted flow filter) filter).

Definition tag_flow (t : Z) (flow : store_flow_complete) : store_flow_complete :=
  set_fl_tag (Mk_store_flow_TAG (htonl t))
    (set_hdr_fields (htonl (Z.lor (ntohl (fields (fl_hdr flow))) STORE_FIELD_TAG)) flow).

(** A rule after a flow has gone through the list. *)
Definition counted (flow : store_flow_complete) (seen won : bool) (fr : filter_rule) : filter_rule :=
  let fr := if seen then count_evaluation fr else fr in
  let fr := if seen && flow_match fr flow then count_match fr else fr in
  if won then count_win fr else fr.

Lemma flow_match_counted flow seen won fr :
  flow_match (counted flow seen won fr) flow = flow_match fr flow.
Proof. unfold counted. by repeat case_match. Qed.

Lemma last_match_lt flow l n : last_match flow l = Some n -> (n < length l)%nat.
Proof.
  revert n. induction l as [|fr l IH]; intros n; cbn [last_match length]; [done|].
  destruct (last_match flow l) as [k|].
  - intros [= <-]. specialize (IH k eq_refl). lia.
  - case_match; [intros [= <-]; lia|done].
Qed.

Lemma filter_loop_spec flow l i last :
  filter_loop flow l i last =
    (imap (fun k fr => counted flow (bool_decide (k < consulted flow l)%nat) false fr) l,
     match winner flow l with Some k => Some (i + k)%nat | None => last end).
Proof.
  revert i last. induction l as [|fr l IH]; intros i last; [done|].
  unfold winner. cbn [filter_loop consulted].
  assert (forall m, counted flow true false fr = m ->
    imap (fun k fr => counted flow (bool_decide (k < S (consulted flow l))%nat) false fr) (fr :: l) =
      m :: imap (fun k fr => counted flow (bool_decide (k < consulted flow l)%nat) false fr) l) as Him.
  { intros m <-. rewrite imap_cons. f_equal. apply imap_ext. intros k x _. cbn [compose].
    f_equal. apply bool_decide_ext. lia. }
  destruct (flow_match fr flow) eqn:Hm; cbn [andb]; [destruct (quick fr) eqn:Hq|].
  - change (quick (count_match (count_evaluation fr))) with (quick fr). rewrite Hq.
    rewrite imap_cons. cbn [take last_match]. rewrite take_0. cbn [last_match]. rewrite Hm, Nat.add_0_r.
    f_equal. f_equal.
    + cbv beta. rewrite bool_decide_true by lia. unfold counted. cbn [andb].
      change (flow_match (count_evaluation fr) flow) with (flow_match fr flow). by rewrite Hm.
    + apply list_eq. intros k. rewrite list_lookup_imap. destruct (l !! k); [|done].
      cbn [fmap option_fmap option_map compose]. by rewrite bool_decide_false by lia.
  - change (quick (count_match (count_evaluation fr))) with (quick fr). rewrite Hq, IH.
    rewrite (Him (count_match (count_evaluation fr))); [|unfold counted; cbn [andb];
      change (flow_match (count_evaluation fr) flow) with (flow_match fr flow); by rewrite Hm].
    f_equal. cbn [take last_match]. fold (winner flow l).
    destruct (winner flow l); rewrite ?Hm; f_equal; lia.
  - rewrite IH. rewrite (Him (count_evaluation fr)); [|unfold counted; cbn [andb];
      change (flow_match (count_evaluation fr) flow) with (flow_match fr flow); by rewrite Hm].
    f_equal. cbn [take last_match]. fold (winner flow l).
    destruct (winner flow l); rewrite ?Hm; f_equal; lia.
Qed.

(** Rules that differ only in their counters. *)
Definition same_rule (a b : filter_rule) : Prop :=
  fr_action a = fr_action b /\ quick a = quick b /\ fr_match a = fr_match b.

Lemma same_rule_match a b flow : same_rule a b -> flow_match a flow = flow_match b flow.
Proof. intros (_ & _ & E). unfold flow_match, FRRET. by rewrite E. Qed.

Lemma filter_loop_same flow l l' i last :
  Forall2 same_rule l l' ->
  Forall2 same_rule (fst (filter_loop flow l i last)) (fst (filter_loop flow l' i last)) /\
  snd (filter_loop flow l i last) = snd (filter_loop flow l' i last) /\
  Forall2 same_rule l (fst (filter_loop flow l i last)).
Proof.
  intros H. revert i last. induction H as [|a b l l' Hab Hl IH]; intros i last; simpl.
  { split; [constructor|]. split; [done|constructor]. }
  rewrite (same_rule_match a b flow Hab). pose proof Hab as (Ha & Hq & Hm).
  destruct (flow_match b flow); [rewrite Hq; destruct (quick b) eqn:E|].
  - simpl. split; [by constructor|]. split; [done|]. constructor; [done|].
    clear. induction l; by constructor.
  - destruct (IH (S i) (Some i)) as (H1 & H2 & H3).
    destruct (filter_loop flow l (S i) (Some i)), (filter_loop flow l' (S i) (Some i)). simpl in *.
    split; [by constructor|]. split; [done|]. by constructor.
  - destruct (IH (S i) last) as (H1 & H2 & H3).
    destruct (filter_loop flow l (S i) last), (filter_loop flow l' (S i) last). simpl in *.
    split; [by constructor|]. split; [done|]. by constructor.
Qed.

Lemma Forall2_same_insert n w l l' :
  Forall2 same_rule l l' -> l' !! n = Some w -> Forall2 same_rule l (<[n := count_win w]> l').
Proof.
  intros H. revert n. induction H as [|a b l l' Hab Hl IH]; intros [|n] Hn; simpl in *; try done.
  - injection Hn as ->. by constructor.
  - constructor; [done|]. by apply IH.
Qed.

(** The verdict and the flow do not depend on the counters, and only they
    change. *)
Lemma filter_flow_same flow l l' :
  Forall2 same_rule l l' ->
  fst (filter_flow flow l) = fst (filter_flow flow l') /\
  Forall2 same_rule l (snd (filter_flow flow l)).
Proof.
  intros H. unfold filter_flow. destruct (filter_loop_same flow l l' 0 None H) as (H1 & H2 & H3).
  destruct (filter_loop flow l 0 None) as [k last], (filter_loop flow l' 0 None) as [k' last'].
  simpl in *. subst last'. destruct last as [n|]; [|done].
  destruct (k !! n) as [fr|] eqn:E.
  - destruct (Forall2_lookup_l _ _ _ _ _ H1 E) as (fr' & E' & (Ha & _)). rewrite E', Ha.
    case_match; (split; [done|]); by apply Forall2_same_insert.
  - destruct (k' !! n) as [fr'|] eqn:E'; [|done].
    destruct (Forall2_lookup_r _ _ _ _ _ H1 E') as (? & ? & _). congruence.
Qed.

(** The flow is left alone or tagged. *)
Lemma filter_flow_flow flow l :
  snd (fst (filter_flow flow l)) = flow \/ exists t, snd (fst (filter_flow flow l)) = tag_flow t flow.
Proof.
  unfold filter_flow. destruct (filter_loop flow l 0 None) as [k [n|]]; [|by left].
  destruct (k !! n); [|by left]. case_match; [|by left]. right. by eexists.
Qed.

(** C32: the verdict is that of the last matching rule among those up to the
    first matching quick rule, and acceptance when none matches; a tag rule
    accepts and tags; each rule up to there counts an evaluation, each matching
    one a match and the winner a win, and nothing else changes. *)
Theorem filter_flow_spec flow filter :
  let n := consulted flow filter in
  let w := winner flow filter in
  filter_flow flow filter =
    (match w ≫= (filter !!.) with
     | None => (FF_ACTION_ACCEPT, flow)
     | Some fr =>
         if action_what (fr_action fr) =? FF_ACTION_TAG
         then (FF_ACTION_ACCEPT, tag_flow (act_tag (fr_action fr)) flow)
         else (action_what (fr_action fr), flow)
     end,
     imap (fun i fr => counted flow (bool_decide (i < n)%nat) (bool_decide (w = Some i)) fr) filter).
Proof.
  intros n w. unfold filter_flow. rewrite filter_loop_spec. fold n. fold w.
  set (l' := imap (fun k fr => counted flow (bool_decide (k < n)%nat) false fr) filter).
  destruct w as [k|] eqn:Hw; cbn [mbind option_bind Nat.add].
  - assert (k < length filter)%nat as Hk.
    { apply last_match_lt in Hw. rewrite length_take in Hw. lia. }
    destruct (lookup_lt_is_Some_2 filter k Hk) as [fr Hfr].
    assert (l' !! k = Some (counted flow (bool_decide (k < n)%nat) false fr)) as Hl'.
    { unfold l'. by rewrite list_lookup_imap, Hfr. }
    rewrite Hl', Hfr.
    assert (<[k:=count_win (counted flow (bool_decide (k < n)%nat) false fr)]> l' =
      imap (fun i fr => counted flow (bool_decide (i < n)%nat) (bool_decide (Some k = Some i)) fr)
        filter) as ->.
    { apply list_eq. intros i. rewrite list_lookup_imap.
      destruct (decide (i = k)) as [->|Hi].
      - rewrite list_lookup_insert_eq by (by apply lookup_lt_Some in Hl'). rewrite Hfr. cbn.
        by rewrite (bool_decide_true (Some k = Some k)).
      - rewrite list_lookup_insert_ne by done. unfold l'. rewrite list_lookup_imap.
        destruct (filter !! i); [|done]. cbn.
        rewrite (bool_decide_false (Some k = Some i)); [done|congruence]. }
    assert (fr_action (counted flow (bool_decide (k < n)%nat) false fr) = fr_action fr) as ->.
    { unfold counted. by repeat case_match. }
    by case_match.
  - reflexivity.
Qed.
End filter.

(** A rule for the witnesses: tag TCP flows from 10.1.0.0/16 to a port other than
    22. *)
Definition sample_rule : filter_rule :=
  Mk_filter_rule (Mk_filter_action FF_ACTION_TAG 99) false
    (Mk_filter_match
       (Z.lor FF_MATCH_SRC_ADDR (Z.lor FF_MATCH_PROTOCOL FF_MATCH_DST_PORT)) FF_MATCH_DST_PORT
       0 (ip4 0 0 0 0) 0 16 (ip4 10 1 0 0) 0 (ip4 0 0 0 0) 0 0 0 22 6 0 0 0 0 (-1) (-1) 0 0)
    0 0 0.

Lemma network_ok_concrete net l :
  inet_ok net -> 0 <= l ->
  range_forallb 128 (fun i => (i <? l) || negb (addr_bit net i)) = true -> network_ok net l.
Proof.
  intros Hn Hl H. split; [done|]. split; [done|]. intros i Hi.
  assert (addr_width net <= 128) as Hw by (unfold addr_width; destruct Hn as [_ [-> | ->]]; done).
  pose proof (range_forallb_spec _ _ H i ltac:(lia)) as Hb. cbv beta in Hb.
  rewrite (proj2 (Z.ltb_ge i l)) in Hb by lia. by apply negb_true_iff.
Qed.

Lemma flow_match_spec_witness :
  let localtime := fun s => Mk_tm (s mod 60) (s / 60 mod 60) (s / 3600 mod 24) (s / 86400 mod 7) in
  flow_match localtime sample_rule (sample_flow 1073756847) = true /\
  rule_matches localtime sample_rule (sample_flow 1073756847).
Proof.
  intros localtime. split; [reflexivity|].
  apply flow_match_spec.
  - do 3 (split; [apply network_ok_concrete; [inet4|vm_compute; discriminate|reflexivity]|]).
    cbn. lia.
  - flow_ok_tac.
  - intros s. unfold localtime. cbn [tm_wday]. apply Z.mod_pos_bound. lia.
  - reflexivity.
Defined.
