(* ===== verification/Peer.v ===== *)
(** * Per-peer state (src/flowd/peer.c)

    The table of NetFlow exporters: a heap of peers that are reached both from a
    search tree ordered by address and from a list in least-recently-used order,
    and the NetFlow 9 sources and templates of each peer, themselves bounded
    LRU lists.  gettimeofday(2) is the argument [now]. *)

From Stdlib Require Import Sorted.
From stdpp Require Import gmap fin_maps.
From S2P Require Import Prelude Order Splay Addr.

(** ** NetFlow 9 sources and templates *)

Record nf9_record := Mk_nf9_record { rec_type : Z; rec_len : Z }.

Record nf9_template := Mk_nf9_template {
  template_id : Z;
  num_records : Z;
  total_len : Z;
  records : option (list nf9_record)      (* None for a null pointer *)
}.

Record nf9_source := Mk_nf9_source {
  nf9_source_id : Z;
  num_templates : Z;
  templates : list nf9_template
}.

Record peer_state := Mk_peer_state {
  from : xaddr;
  npackets : Z; nflows : Z; ninvalid : Z; no_template : Z;
  firstseen : Z * Z; lastvalid : Z * Z;
  last_version : Z;
  nf9 : list nf9_source;
  nf9_num_sources : Z
}.

Definition loc := positive.

(** struct peers; [pheap] is the memory of the peers, [peer_tree] the nodes of
    the splay tree in order. *)
Record peers := Mk_peers {
  pheap : gmap loc peer_state;
  peer_tree : list loc;
  peer_list : list loc;
  max_peers : Z; max_templates : Z; max_sources : Z; max_template_len : Z;
  num_peers : Z; num_forced : Z
}.

(** ** Assignments *)

Definition set_ninvalid (v : Z) (p : peer_state) : peer_state :=
  Mk_peer_state (from p) (npackets p) (nflows p) v (no_template p) (firstseen p) (lastvalid p)
    (last_version p) (nf9 p) (nf9_num_sources p).
Definition set_no_template (v : Z) (p : peer_state) : peer_state :=
  Mk_peer_state (from p) (npackets p) (nflows p) (ninvalid p) v (firstseen p) (lastvalid p)
    (last_version p) (nf9 p) (nf9_num_sources p).
Definition set_nf9 (l : list nf9_source) (n : Z) (p : peer_state) : peer_state :=
  Mk_peer_state (from p) (npackets p) (nflows p) (ninvalid p) (no_template p) (firstseen p)
    (lastvalid p) (last_version p) l n.
Definition set_pheap (h : gmap loc peer_state) (ps : peers) : peers :=
  Mk_peers h (peer_tree ps) (peer_list ps) (max_peers ps) (max_templates ps) (max_sources ps)
    (max_template_len ps) (num_peers ps) (num_forced ps).
Definition set_peer_list (l : list loc) (ps : peers) : peers :=
  Mk_peers (pheap ps) (peer_tree ps) l (max_peers ps) (max_templates ps) (max_sources ps)
    (max_template_len ps) (num_peers ps) (num_forced ps).
Definition set_peer_tree (l : list loc) (ps : peers) : peers :=
  Mk_peers (pheap ps) l (peer_list ps) (max_peers ps) (max_templates ps) (max_sources ps)
    (max_template_len ps) (num_peers ps) (num_forced ps).
Definition set_num_peers (n : Z) (ps : peers) : peers :=
  Mk_peers (pheap ps) (peer_tree ps) (peer_list ps) (max_peers ps) (max_templates ps)
    (max_sources ps) (max_template_len ps) n (num_forced ps).
Definition set_num_forced (n : Z) (ps : peers) : peers :=
  Mk_peers (pheap ps) (peer_tree ps) (peer_list ps) (max_peers ps) (max_templates ps)
    (max_sources ps) (max_template_len ps) (num_peers ps) n.

(** Dereference of a peer. *)
Definition peer_get (ps : peers) (p : loc) : outcome peer_state :=
  match pheap ps !! p with
  | Some s => Ret s
  | None => Undef NullDeref
  end.
Definition peer_put (ps : peers) (p : loc) (s : peer_state) : peers :=
  set_pheap (<[p := s]> (pheap ps)) ps.

(** ** Queue macros on nodes identified by a key *)

Section queue.
Context {A : Type} (P : A -> bool).

(** TAILQ_FOREACH with an early exit, TAILQ_REMOVE and an assignment through
    the pointer, for the first element with the property. *)
Fixpoint q_find (l : list A) : option A :=
  match l with
  | [] => None
  | x :: l => if P x then Some x else q_find l
  end.
Fixpoint q_remove (l : list A) : list A :=
  match l with
  | [] => []
  | x :: l => if P x then l else x :: q_remove l
  end.
Fixpoint q_update (f : A -> A) (l : list A) : list A :=
  match l with
  | [] => []
  | x :: l => if P x then f x :: l else x :: q_update f l
  end.
(** Move to the head; nothing to do when it is there already. *)
Definition q_promote (l : list A) : list A :=
  match q_find l with
  | Some x => x :: q_remove l
  | None => l
  end.
End queue.

(** TAILQ_LAST and the removal of the last element. *)
Definition q_drop_last {A} (l : list A) : option (list A) :=
  match l with
  | [] => None
  | _ => Some (take (length l - 1) l)
  end.

Definition is_source (id : Z) (s : nf9_source) : bool := nf9_source_id s =? id.
Definition is_template (id : Z) (t : nf9_template) : bool := template_id t =? id.

(** ** NetFlow 9 state of a peer *)

Definition peer_nf9_lookup_source (peer : peer_state) (sid : Z) : option nf9_source :=
  q_find (is_source sid) (nf9 peer).
Definition peer_nf9_lookup_template (src : nf9_source) (tid : Z) : option nf9_template :=
  q_find (is_template tid) (templates src).

Definition peer_nf9_find_template (peer : peer_state) (sid tid : Z) : option nf9_template :=
  match peer_nf9_lookup_source peer sid with
  | None => None
  | Some src => peer_nf9_lookup_template src tid
  end.

Definition set_templates (l : list nf9_template) (s : nf9_source) : nf9_source :=
  Mk_nf9_source (nf9_source_id s) (num_templates s) l.

Definition peer_nf9_template_update (peer : peer_state) (sid tid : Z) : peer_state :=
  match peer_nf9_lookup_source peer sid with
  | None => peer
  | Some src =>
      match peer_nf9_lookup_template src tid with
      | None => peer
      | Some _ =>
          let l := q_promote (is_source sid) (nf9 peer) in
          let l := q_update (is_source sid)
            (fun s => set_templates (q_promote (is_template tid) (templates s)) s) l in
          set_nf9 l (nf9_num_sources peer) peer
      end
  end.

(** The removal of a source takes its templates with it. *)
Definition peer_nf9_new_source (peer : peer_state) (max_sources sid : Z) : outcome peer_state :=
  let peer := set_nf9 (nf9 peer) (wrap32 (nf9_num_sources peer + 1)) peer in
  let! peer :=
    if max_sources <? nf9_num_sources peer then
      match q_drop_last (nf9 peer) with
      | None => Undef NullDeref
      | Some l => Ret (set_nf9 l (wrap32 (nf9_num_sources peer - 1)) peer)
      end
    else Ret peer in
  Ret (set_nf9 (Mk_nf9_source sid 0 [] :: nf9 peer) (nf9_num_sources peer) peer).

(** The template is inserted empty; the source ends up at the head of its list. *)
Definition peer_nf9_new_template (peer : peer_state) (max_sources max_templates sid tid : Z)
    : outcome peer_state :=
  let! peer :=
    match peer_nf9_lookup_source peer sid with
    | None => peer_nf9_new_source peer max_sources sid
    | Some _ => Ret peer
    end in
  match peer_nf9_lookup_source peer sid with
  | None => Undef NullDeref
  | Some src =>
      let src := Mk_nf9_source (nf9_source_id src) (wrap32 (num_templates src + 1)) (templates src) in
      let! src :=
        if max_templates <? num_templates src then
          match q_drop_last (templates src) with
          | None => Undef NullDeref
          | Some l => Ret (Mk_nf9_source (nf9_source_id src) (wrap32 (num_templates src - 1)) l)
          end
        else Ret src in
      let src := set_templates (Mk_nf9_template tid 0 0 None :: templates src) src in
      let l := q_promote (is_source sid) (q_update (is_source sid) (fun _ => src) (nf9 peer)) in
      Ret (set_nf9 l (nf9_num_sources peer) peer)
  end.

(** Assignment to the members of a template through the pointer that
    peer_nf9_find_template or peer_nf9_new_template returned. *)
Definition peer_nf9_fill_template (peer : peer_state) (sid tid : Z) (recs : list nf9_record)
    (nrec total : Z) : peer_state :=
  set_nf9 (q_update (is_source sid) (fun s => set_templates
             (q_update (is_template tid) (fun t => Mk_nf9_template (template_id t) nrec total (Some recs))
                (templates s)) s) (nf9 peer))
    (nf9_num_sources peer) peer.

(** ** Peers *)

Definition peer_compare (a b : peer_state) : Z := addr_cmp (from a) (from b).

(** The tree operations, by what they do to the nodes in order: find a node that
    compares equal, insert unless there is one, remove the one that compares
    equal. *)
Section tree.
Context (h : gmap loc peer_state).

Definition cmp_with (key : xaddr) (n : loc) : Z :=
  match h !! n with
  | Some s => addr_cmp key (from s)
  | None => -1
  end.

(** The tree is kept as its nodes in order, on which the splay operations act as
    the ordered ones do (Splay.splay_refines). *)
Definition tree_find (t : list loc) (key : xaddr) : option loc := ordered_find (cmp_with key) t.
Definition tree_insert (t : list loc) (key : xaddr) (n : loc) : list loc :=
  ordered_insert (cmp_with key) t n.
Definition tree_remove (t : list loc) (key : xaddr) : list loc := ordered_remove (cmp_with key) t.
End tree.

Definition is_loc (p q : loc) : bool := bool_decide (q = p).

Definition delete_peer (ps : peers) (p : loc) : outcome peers :=
  let! s := peer_get ps p in
  let ps := set_peer_list (q_remove (is_loc p) (peer_list ps)) ps in
  let ps := set_peer_tree (tree_remove (pheap ps) (peer_tree ps) (from s)) ps in
  let ps := set_pheap (delete p (pheap ps)) ps in
  Ret (set_num_peers (wrap32 (num_peers ps - 1)) ps).

(** The allowed_devices list of the configuration. *)
Definition allowed (devices : list (xaddr * Z)) (addr : xaddr) : bool :=
  existsb (fun ad => addr_netmatch addr (fst ad) (snd ad) =? 0) devices.

Definition authorised (devices : list (xaddr * Z)) (addr : xaddr) : bool :=
  match devices with
  | [] => true
  | _ => allowed devices addr
  end.

Definition new_peer (ps : peers) (devices : list (xaddr * Z)) (addr : xaddr) (now : Z * Z)
    : outcome (option loc * peers) :=
  if negb (authorised devices addr) then Ret (None, ps)
  else
    let ps := set_num_peers (wrap32 (num_peers ps + 1)) ps in
    let! ps :=
      if max_peers ps <? num_peers ps then
        let ps := set_num_forced (wrap32 (num_forced ps + 1)) ps in
        match last (peer_list ps) with
        | None => Undef NullDeref
        | Some p => delete_peer ps p
        end
      else Ret ps in
    let p := fresh (dom (pheap ps)) in
    let ps := set_pheap (<[p := Mk_peer_state addr 0 0 0 0 (0, 0) (0, 0) 0 [] 0]> (pheap ps)) ps in
    let ps := set_peer_list (p :: peer_list ps) ps in
    let ps := set_peer_tree (tree_insert (pheap ps) (peer_tree ps) addr p) ps in
    let ps := peer_put ps p (Mk_peer_state addr 0 0 0 0 now (0, 0) 0 [] 0) in
    Ret (Some p, ps).

(** The loop takes the next node before the current one may be freed. *)
Fixpoint scrub_loop (l : list loc) (devices : list (xaddr * Z)) (ps : peers) : outcome peers :=
  match l with
  | [] => Ret ps
  | p :: l =>
      let! s := peer_get ps p in
      let! ps := if allowed devices (from s) then Ret ps else delete_peer ps p in
      scrub_loop l devices ps
  end.

Definition scrub_peers (devices : list (xaddr * Z)) (ps : peers) : outcome peers :=
  match devices with
  | [] => Ret ps
  | _ => scrub_loop (peer_list ps) devices ps
  end.

Definition update_peer (ps : peers) (p : loc) (nflows' netflow_version : Z) (now : Z * Z)
    : outcome peers :=
  let ps := set_peer_list (q_promote (is_loc p) (peer_list ps)) ps in
  let! s := peer_get ps p in
  Ret (peer_put ps p
    (Mk_peer_state (from s) (wrap64 (npackets s + 1)) (wrap64 (nflows s + nflows'))
       (ninvalid s) (no_template s) (firstseen s) now netflow_version (nf9 s)
       (nf9_num_sources s))).

Definition find_peer (ps : peers) (addr : xaddr) : option loc :=
  tree_find (pheap ps) (peer_tree ps) addr.

(** ** Queues *)

(** The ordered operations of the tree are those of a queue. *)
Lemma ordered_find_q {A} (c : A -> Z) l : ordered_find c l = q_find (fun x => c x =? 0) l.
Proof. induction l as [|x l IH]; simpl; [done|]. by rewrite IH. Qed.
Lemma ordered_remove_q {A} (c : A -> Z) l : ordered_remove c l = q_remove (fun x => c x =? 0) l.
Proof. induction l as [|x l IH]; simpl; [done|]. by rewrite IH. Qed.

Section queue_laws.
Context {A : Type} (P : A -> bool).

Lemma q_find_Some l x : q_find P l = Some x -> x ∈ l /\ P x = true.
Proof.
  induction l as [|y l IH]; simpl; [done|]. destruct (P y) eqn:E.
  - intros [= <-]. split; [by left|done].
  - intros H. destruct (IH H). split; [by right|done].
Qed.

Lemma q_find_None l : q_find P l = None <-> forall x, x ∈ l -> P x = false.
Proof.
  induction l as [|y l IH]; simpl; [by split; [intros _ x ?%not_elem_of_nil|]|].
  destruct (P y) eqn:E.
  - split; [done|]. intros H. rewrite (H y) in E by (by left). done.
  - rewrite IH. split.
    + intros H x [-> | Hx]%elem_of_cons; [done|by apply H].
    + intros H x Hx. apply H. by right.
Qed.

Lemma q_remove_perm l x : q_find P l = Some x -> l ≡ₚ x :: q_remove P l.
Proof.
  induction l as [|y l IH]; simpl; [done|]. destruct (P y).
  - by intros [= ->].
  - intros H. rewrite (IH H) at 1. apply Permutation_swap.
Qed.

Lemma q_remove_sublist l : q_remove P l `sublist_of` l.
Proof.
  induction l as [|y l IH]; simpl; [done|]. destruct (P y).
  - by apply sublist_cons.
  - by apply sublist_skip.
Qed.

Lemma q_promote_perm l : q_promote P l ≡ₚ l.
Proof.
  unfold q_promote. destruct (q_find P l) as [x|] eqn:E; [|done]. symmetry. by apply q_remove_perm.
Qed.

Lemma q_promote_head l x : q_find P l = Some x -> head (q_promote P l) = Some x.
Proof. unfold q_promote. by intros ->. Qed.

Lemma q_update_map f l : (forall x, P x = true -> P (f x) = true) ->
  q_find P (q_update P f l) = f <$> q_find P l.
Proof.
  intros Hf. induction l as [|y l IH]; simpl; [done|]. destruct (P y) eqn:E; simpl.
  - by rewrite Hf.
  - by rewrite E.
Qed.

Lemma q_update_fmap {B} (g : A -> B) f l :
  (forall x, P x = true -> x ∈ l -> g (f x) = g x) -> g <$> q_update P f l = g <$> l.
Proof.
  induction l as [|y l IH]; intros Hf; [done|]. simpl. destruct (P y) eqn:E; simpl.
  - f_equal. apply Hf; [done|by left].
  - f_equal. apply IH. intros x Hx Hin. apply Hf; [done|by right].
Qed.

Lemma q_update_in f l y : y ∈ q_update P f l -> y ∈ l \/ exists x, x ∈ l /\ P x = true /\ y = f x.
Proof.
  induction l as [|z l IH]; simpl; [by intros ?%not_elem_of_nil|]. destruct (P z) eqn:E.
  - intros [-> | H]%elem_of_cons; [right; exists z; by repeat split; [left|]|left; by right].
  - intros [-> | H]%elem_of_cons; [left; by left|]. destruct (IH H) as [|(x & Hx & ?)].
    + left; by right.
    + right. exists x. by split; [right|].
Qed.

Lemma q_update_length f l : length (q_update P f l) = length l.
Proof. induction l as [|y l IH]; simpl; [done|]. destruct (P y); simpl; by rewrite ?IH. Qed.

(** Finding another element is not affected. *)
Lemma q_find_update_other (Q : A -> bool) f l :
  (forall x, P x = true -> Q x = false /\ Q (f x) = false) ->
  q_find Q (q_update P f l) = q_find Q l.
Proof.
  intros Hf. induction l as [|y l IH]; simpl; [done|]. destruct (P y) eqn:E; simpl.
  - destruct (Hf y E) as [-> ->]. done.
  - by rewrite IH.
Qed.

Lemma q_find_remove_other (Q : A -> bool) l :
  (forall x, P x = true -> Q x = false) -> q_find Q (q_remove P l) = q_find Q l.
Proof.
  intros Hf. induction l as [|y l IH]; simpl; [done|]. destruct (P y) eqn:E; simpl.
  - by rewrite (Hf y E).
  - by rewrite IH.
Qed.
End queue_laws.

(** Queues whose elements have distinct keys. *)
Section keyed.
Context {A : Type} (key : A -> Z).

Definition is_key (k : Z) (x : A) : bool := key x =? k.

Lemma is_key_true k x : is_key k x = true <-> key x = k.
Proof. apply Z.eqb_eq. Qed.

Lemma q_find_key l k x : q_find (is_key k) l = Some x -> x ∈ l /\ key x = k.
Proof. intros [? ?%is_key_true]%q_find_Some. done. Qed.

Lemma q_find_key_in l x :
  NoDup (key <$> l) -> x ∈ l -> q_find (is_key (key x)) l = Some x.
Proof.
  induction l as [|y l IH]; intros Hnd Hx; [by apply not_elem_of_nil in Hx|].
  cbn [fmap list_fmap] in Hnd. apply NoDup_cons in Hnd as [Hni Hnd]. simpl.
  apply elem_of_cons in Hx as [-> | Hx].
  - unfold is_key. by rewrite Z.eqb_refl.
  - destruct (is_key (key x) y) eqn:E; [|by apply IH]. apply is_key_true in E.
    destruct Hni. rewrite E. by apply list_elem_of_fmap_2.
Qed.

Lemma q_find_key_perm l l' k :
  NoDup (key <$> l) -> l ≡ₚ l' -> q_find (is_key k) l = q_find (is_key k) l'.
Proof.
  intros Hnd Hp. assert (NoDup (key <$> l')) as Hnd' by (by rewrite <- Hp).
  destruct (q_find (is_key k) l) as [x|] eqn:E.
  - apply q_find_key in E as [Hx <-]. symmetry. apply q_find_key_in; [done|by rewrite <- Hp].
  - symmetry. rewrite q_find_None in *. intros x Hx. apply E. by rewrite Hp.
Qed.

Lemma q_find_key_sub l l' k :
  NoDup (key <$> l) -> l' `sublist_of` l ->
  q_find (is_key k) l' = q_find (is_key k) l \/
    (q_find (is_key k) l' = None /\ exists x, q_find (is_key k) l = Some x /\ x ∉ l').
Proof.
  intros Hnd Hsub. destruct (q_find (is_key k) l) as [x|] eqn:E.
  - destruct (q_find (is_key k) l') as [y|] eqn:E'.
    + left. apply q_find_key in E as [Hx Hkx]. apply q_find_key in E' as [Hy Hky].
      assert (y ∈ l) as Hyl by (by eapply elem_of_sublist).
      apply (q_find_key_in l) in Hx, Hyl; [|done..]. rewrite Hkx in Hx. rewrite Hky in Hyl. congruence.
    + right. split; [done|]. exists x. split; [done|]. intros Hx.
      apply q_find_key in E as [_ Hk]. rewrite q_find_None in E'. specialize (E' x Hx).
      apply Z.eqb_neq in E'. done.
  - left. rewrite q_find_None in *. intros x Hx. apply E.
    by eapply elem_of_sublist.
Qed.
End keyed.

(** ** The template cache *)

(** A source holds distinct templates, as many as its counter says and no more
    than the limit; the same for the sources of a peer. *)
Definition source_ok (maxt : Z) (s : nf9_source) : Prop :=
  NoDup (template_id <$> templates s) /\ num_templates s = Z.of_nat (length (templates s)) /\
  num_templates s <= maxt.

Definition nf9_ok (maxs maxt : Z) (peer : peer_state) : Prop :=
  NoDup (nf9_source_id <$> nf9 peer) /\ nf9_num_sources peer = Z.of_nat (length (nf9 peer)) /\
  nf9_num_sources peer <= maxs /\ Forall (source_ok maxt) (nf9 peer).

(** The limits of the table fit their counters and are not zero. *)
Definition limit_ok (n : Z) : Prop := 1 <= n < 4294967295.

(** Everything but the NetFlow 9 state is the same. *)
Definition same_peer (p p' : peer_state) : Prop := set_nf9 (nf9 p) (nf9_num_sources p) p' = p.

(** Insertion into a bounded list in least-recently-used order. *)
Definition lru_push {A} (max : Z) (x : A) (l : list A) : list A := x :: take (Z.to_nat (max - 1)) l.

Lemma q_drop_last_take {A} (l : list A) max :
  1 <= max -> Z.of_nat (length l) <= max -> max < Z.of_nat (length l) + 1 ->
  q_drop_last l = Some (take (Z.to_nat (max - 1)) l) /\
  Z.of_nat (length (take (Z.to_nat (max - 1)) l)) = Z.of_nat (length l) - 1.
Proof.
  intros H1 Hle Hgt. assert (Z.to_nat (max - 1) = (length l - 1)%nat) as -> by lia.
  split; [|rewrite length_take; lia]. destruct l; [simpl in *; lia|done].
Qed.

Lemma lru_full {A} (l : list A) max :
  Z.of_nat (length l) + 1 <= max -> take (Z.to_nat (max - 1)) l = l.
Proof. intros. apply take_ge. lia. Qed.

Lemma lru_length {A} (x : A) (l : list A) max :
  1 <= max -> Z.of_nat (length (lru_push max x l)) <= max.
Proof. intros. unfold lru_push. cbn [length]. rewrite length_take. lia. Qed.

Lemma NoDup_fmap_sub {A} (key : A -> Z) (l l' : list A) :
  NoDup (key <$> l) -> l' `sublist_of` l -> NoDup (key <$> l').
Proof.
  intros Hnd Hs. eapply sublist_NoDup; [exact Hnd|]. by apply fmap_sublist.
Qed.

Lemma peer_nf9_new_source_spec peer maxs maxt sid :
  nf9_ok maxs maxt peer -> limit_ok maxs -> 0 <= maxt -> peer_nf9_lookup_source peer sid = None ->
  exists peer', peer_nf9_new_source peer maxs sid = Ret peer' /\
    nf9 peer' = lru_push maxs (Mk_nf9_source sid 0 []) (nf9 peer) /\
    same_peer peer peer' /\ nf9_ok maxs maxt peer'.
Proof.
  intros (Hnd & Hn & Hle & Hall) Hmax Hmt Hnone. unfold peer_nf9_new_source, limit_ok in *. cbv zeta.
  cbn [nf9 nf9_num_sources set_nf9]. rewrite (wrap32_small (_ + 1)) by (width; lia).
  assert (Forall (source_ok maxt) (lru_push maxs (Mk_nf9_source sid 0 []) (nf9 peer))) as HF.
  { apply Forall_cons. split; [|by apply Forall_take]. split; [constructor|by split]. }
  assert (NoDup (nf9_source_id <$> lru_push maxs (Mk_nf9_source sid 0 []) (nf9 peer))) as HN.
  { apply NoDup_cons. split.
    - intros (s & Hs & Hin)%list_elem_of_fmap. cbn in Hs.
      apply elem_of_take in Hin as (i & Hi & _). apply list_elem_of_lookup_2 in Hi.
      pose proof (proj1 (q_find_None _ _) Hnone s Hi) as Hf. apply Z.eqb_neq in Hf. by rewrite Hs in Hf.
    - eapply NoDup_fmap_sub; [exact Hnd|apply sublist_take]. }
  unfold lru_push in *.
  destruct (Z.ltb_spec maxs (nf9_num_sources peer + 1)).
  - destruct (q_drop_last_take (nf9 peer) maxs) as [-> Hl]; [lia..|]. cbn [obind].
    eexists. split; [reflexivity|]. split; [done|]. split; [by destruct peer|]. split; [done|].
    cbn [nf9 nf9_num_sources set_nf9 length]. rewrite wrap32_small by (width; lia).
    split; [lia|]. split; [lia|done].
  - rewrite lru_full in * by lia. cbn [obind].
    eexists. split; [reflexivity|]. split; [done|]. split; [by destruct peer|]. split; [done|].
    cbn [nf9 nf9_num_sources set_nf9 length]. split; [lia|]. split; [lia|done].
Qed.

(** Replacing a source and moving it to the head. *)
Lemma q_promote_update_source sid src l :
  nf9_source_id src = sid ->
  (exists s, q_find (is_source sid) l = Some s) ->
  q_promote (is_source sid) (q_update (is_source sid) (fun _ => src) l) =
    src :: q_remove (is_source sid) l.
Proof.
  intros Hsrc [s Hs]. unfold q_promote. rewrite q_update_map.
  2:{ intros x _. unfold is_source. by rewrite Hsrc, Z.eqb_refl. }
  rewrite Hs. cbn [fmap option_fmap option_map]. f_equal.
  clear Hs. induction l as [|x l IH]; [done|]. simpl.
  destruct (is_source sid x) eqn:E; simpl.
  - unfold is_source at 1. by rewrite Hsrc, Z.eqb_refl.
  - rewrite E. by rewrite IH.
Qed.

(** The source that a new template goes to. *)
Definition source_of (peer : peer_state) (sid : Z) : nf9_source :=
  default (Mk_nf9_source sid 0 []) (peer_nf9_lookup_source peer sid).

Definition lru_sources (maxs : Z) (peer : peer_state) (sid : Z) : list nf9_source :=
  match peer_nf9_lookup_source peer sid with
  | Some _ => q_remove (is_source sid) (nf9 peer)
  | None => take (Z.to_nat (maxs - 1)) (nf9 peer)
  end.

Lemma source_push_ok maxt src tid :
  source_ok maxt src -> limit_ok maxt -> peer_nf9_lookup_template src tid = None ->
  let l := lru_push maxt (Mk_nf9_template tid 0 0 None) (templates src) in
  (let! s := (if maxt <? wrap32 (num_templates src + 1) then
      match q_drop_last (templates src) with
      | None => Undef NullDeref
      | Some l => Ret (Mk_nf9_source (nf9_source_id src) (wrap32 (wrap32 (num_templates src + 1) - 1)) l)
      end
    else Ret (Mk_nf9_source (nf9_source_id src) (wrap32 (num_templates src + 1)) (templates src))) in
   Ret (set_templates (Mk_nf9_template tid 0 0 None :: templates s) s)) =
  Ret (Mk_nf9_source (nf9_source_id src) (Z.of_nat (length l)) l) /\
  source_ok maxt (Mk_nf9_source (nf9_source_id src) (Z.of_nat (length l)) l).
Proof.
  intros (Hnd & Hn & Hle) Hmax Hnone l. unfold limit_ok in *.
  assert (NoDup (template_id <$> l)) as HN.
  { apply NoDup_cons. split.
    - intros (s & Hs & Hin)%list_elem_of_fmap. cbn in Hs.
      apply elem_of_take in Hin as (i & Hi & _). apply list_elem_of_lookup_2 in Hi.
      pose proof (proj1 (q_find_None _ _) Hnone s Hi) as Hf. apply Z.eqb_neq in Hf. by rewrite Hs in Hf.
    - eapply NoDup_fmap_sub; [exact Hnd|apply sublist_take]. }
  split; [|split; [exact HN|split; [done|apply lru_length; lia]]].
  subst l. unfold lru_push in *. rewrite wrap32_small by (width; lia).
  destruct (Z.ltb_spec maxt (num_templates src + 1)).
  - destruct (q_drop_last_take (templates src) maxt) as [-> Hl]; [lia..|]. cbn [obind].
    unfold set_templates. cbn [nf9_source_id num_templates templates length].
    rewrite wrap32_small by (width; lia). do 2 f_equal. lia.
  - rewrite lru_full in * by lia. cbn [obind]. unfold set_templates.
    cbn [nf9_source_id num_templates templates length]. do 2 f_equal. lia.
Qed.

(** Insertion of a template into the cache. *)
Lemma peer_nf9_new_template_ok peer maxs maxt sid tid :
  nf9_ok maxs maxt peer -> limit_ok maxs -> limit_ok maxt ->
  peer_nf9_find_template peer sid tid = None ->
  let l := lru_push maxt (Mk_nf9_template tid 0 0 None) (templates (source_of peer sid)) in
  exists peer', peer_nf9_new_template peer maxs maxt sid tid = Ret peer' /\
    nf9 peer' = Mk_nf9_source sid (Z.of_nat (length l)) l :: lru_sources maxs peer sid /\
    same_peer peer peer' /\ nf9_ok maxs maxt peer' /\
    peer_nf9_find_template peer' sid tid = Some (Mk_nf9_template tid 0 0 None).
Proof.
  intros Hok Hs Ht Hnone l. unfold peer_nf9_new_template.
  (* the peer once the source is there *)
  assert (exists p1, (match peer_nf9_lookup_source peer sid with
                      | None => peer_nf9_new_source peer maxs sid
                      | Some _ => Ret peer end) = Ret p1 /\ same_peer peer p1 /\ nf9_ok maxs maxt p1 /\
            peer_nf9_lookup_source p1 sid = Some (source_of peer sid) /\
            q_remove (is_source sid) (nf9 p1) = lru_sources maxs peer sid)
    as (p1 & -> & Hsame & Hok1 & Hlk & Hrest).
  { unfold source_of, lru_sources. destruct (peer_nf9_lookup_source peer sid) as [s|] eqn:E.
    - exists peer. split; [done|]. split; [by destruct peer|]. by split_and!.
    - destruct (peer_nf9_new_source_spec peer maxs maxt sid) as (p1 & -> & Hn & Hsame & Hok1);
        [done|done|unfold limit_ok in *; lia|done|].
      exists p1. split; [done|]. split; [done|]. split; [done|].
      unfold peer_nf9_lookup_source. rewrite Hn. unfold lru_push. simpl. unfold is_source. simpl.
      by rewrite Z.eqb_refl. }
  cbn [obind]. rewrite Hlk.
  set (src := source_of peer sid) in *.
  destruct (q_find_Some _ _ _ Hlk) as [Hin Hid%Z.eqb_eq].
  destruct Hok1 as (Hnd & Hnum & Hle & Hall).
  assert (source_ok maxt src) as Hsrc by (by apply (proj1 (Forall_forall _ _) Hall)).
  assert (peer_nf9_lookup_template src tid = None) as Htn.
  { unfold peer_nf9_find_template in Hnone. unfold src, source_of.
    by destruct (peer_nf9_lookup_source peer sid). }
  destruct (source_push_ok maxt src tid Hsrc Ht Htn) as [Hpush Hpok]. fold l in Hpush, Hpok.
  cbv zeta. cbn [num_templates templates nf9_source_id].
  apply obind_Ret_inv in Hpush as (s & -> & Hset). cbn [obind].
  apply Ret_inj in Hset. rewrite Hset. rewrite Hid in Hpok |- *.
  rewrite q_promote_update_source by (done || by eexists).
  rewrite Hrest. eexists. split; [reflexivity|]. split; [done|]. cbn [nf9 set_nf9].
  split; [destruct peer, p1; by unfold same_peer in *; cbn in *; injection Hsame as <- <- <- <- <- <- <- <-|].
  pose proof (q_remove_perm _ _ _ Hlk) as Hperm.
  split.
  - rewrite <- Hrest. split.
    + cbn [nf9 set_nf9 fmap list_fmap nf9_source_id]. rewrite Hperm in Hnd. cbn [fmap list_fmap] in Hnd.
      by rewrite Hid in Hnd.
    + cbn [nf9 nf9_num_sources set_nf9]. rewrite Hnum, (Permutation_length Hperm) in *.
      split; [done|]. split; [done|]. rewrite Hperm in Hall.
      apply Forall_cons in Hall as [_ Hall]. by apply Forall_cons.
  - unfold peer_nf9_find_template, peer_nf9_lookup_source, peer_nf9_lookup_template.
    cbn [q_find nf9 set_nf9]. unfold is_source at 1. cbn [nf9_source_id]. rewrite Z.eqb_refl.
    cbn [templates]. subst l. unfold lru_push. cbn [q_find]. unfold is_template at 1.
    cbn [template_id]. by rewrite Z.eqb_refl.
Qed.

(** A template that the peer does not know yet is stored empty at the front
    of its source, and the source at the front of the peer; a full source loses
    exactly its least recently used template and a full peer its least recently
    used source, and the counters and limits of the cache are kept. *)
Theorem peer_nf9_new_template_lru peer maxs maxt sid tid :
  nf9_ok maxs maxt peer -> limit_ok maxs -> limit_ok maxt ->
  peer_nf9_find_template peer sid tid = None ->
  let l := lru_push maxt (Mk_nf9_template tid 0 0 None) (templates (source_of peer sid)) in
  exists peer', peer_nf9_new_template peer maxs maxt sid tid = Ret peer' /\
    nf9 peer' = Mk_nf9_source sid (Z.of_nat (length l)) l :: lru_sources maxs peer sid /\
    same_peer peer peer' /\ nf9_ok maxs maxt peer' /\
    peer_nf9_find_template peer' sid tid = Some (Mk_nf9_template tid 0 0 None).
Proof. exact (peer_nf9_new_template_ok peer maxs maxt sid tid). Qed.

Lemma peer_nf9_new_template_lru_witness :
  exists peer', peer_nf9_new_template
      (Mk_peer_state (ip4 10 0 0 1) 0 0 0 0 (0, 0) (0, 0) 9
         [Mk_nf9_source 7 2 [Mk_nf9_template 256 0 0 None; Mk_nf9_template 257 0 0 None]] 1)
      1 2 7 258 = Ret peer' /\
    nf9 peer' = [Mk_nf9_source 7 2 [Mk_nf9_template 258 0 0 None; Mk_nf9_template 256 0 0 None]].
Proof.
  destruct (peer_nf9_new_template_lru
      (Mk_peer_state (ip4 10 0 0 1) 0 0 0 0 (0, 0) (0, 0) 9
         [Mk_nf9_source 7 2 [Mk_nf9_template 256 0 0 None; Mk_nf9_template 257 0 0 None]] 1)
      1 2 7 258) as (p & Hp & Hn & _).
  - split; [apply (bool_decide_unpack _); vm_compute; exact I|]. split; [done|]. split; [done|].
    apply Forall_cons. split; [|by apply Forall_nil].
    split; [apply (bool_decide_unpack _); vm_compute; exact I|]. by split.
  - by split.
  - by split.
  - reflexivity.
  - exists p. split; [exact Hp|exact Hn].
Defined.

(** ** The table of peers *)

(** The address of a node comes before that of another one. *)
Definition node_lt (h : gmap loc peer_state) (a b : loc) : Prop :=
  match h !! a, h !! b with
  | Some x, Some y => addr_cmp (from x) (from y) < 0
  | _, _ => False
  end.

Definition heap_ok (ps : peers) : Prop :=
  forall p s, pheap ps !! p = Some s ->
    inet_ok (from s) /\ nf9_ok (max_sources ps) (max_templates ps) s.

(** The list and the tree hold the same peers, those of the heap, and the tree
    is ordered. *)
Record table_ok (ps : peers) : Prop := {
  to_nodup : NoDup (peer_list ps);
  to_perm : peer_tree ps ≡ₚ peer_list ps;
  to_dom : forall p, p ∈ peer_list ps <-> is_Some (pheap ps !! p);
  to_sorted : StronglySorted (node_lt (pheap ps)) (peer_tree ps);
  to_heap : heap_ok ps
}.

(** Between operations the counter is their number, which is within the limit. *)
Record peers_ok (ps : peers) : Prop := {
  po_table : table_ok ps;
  po_num : num_peers ps = Z.of_nat (length (peer_list ps));
  po_max : num_peers ps <= max_peers ps;
  po_limits : limit_ok (max_peers ps) /\ limit_ok (max_sources ps) /\ limit_ok (max_templates ps)
}.

(** The limits do not change. *)
Definition same_limits (ps ps' : peers) : Prop :=
  max_peers ps' = max_peers ps /\ max_sources ps' = max_sources ps /\
  max_templates ps' = max_templates ps /\ max_template_len ps' = max_template_len ps.

Lemma node_lt_ext h h' t :
  (forall p, p ∈ t -> from <$> h !! p = from <$> h' !! p) ->
  StronglySorted (node_lt h) t -> StronglySorted (node_lt h') t.
Proof.
  intros He Hs. induction Hs as [|a t Hs IH Ha]; constructor.
  - apply IH. intros p Hp. apply He. by right.
  - rewrite Forall_forall in *. intros b Hb. specialize (Ha b Hb). unfold node_lt in *.
    pose proof (He a ltac:(by left)) as Ea. pose proof (He b ltac:(by right)) as Eb.
    destruct (h !! a), (h !! b); try done. destruct (h' !! a), (h' !! b); try done.
    cbn in *. by injection Ea as <-; injection Eb as <-.
Qed.

Lemma sorted_sublist {A} (R : A -> A -> Prop) l l' :
  l' `sublist_of` l -> StronglySorted R l -> StronglySorted R l'.
Proof.
  induction 1 as [|x l1 l2 Hs IH|x l1 l2 Hs IH]; intros H; [done| |].
  - apply StronglySorted_inv in H as [H Hx]. constructor; [by apply IH|].
    rewrite Forall_forall in *. intros y Hy. apply Hx. by eapply elem_of_sublist.
  - apply StronglySorted_inv in H as [H _]. by apply IH.
Qed.

Section tree_laws.
Context (h : gmap loc peer_state).
Context (Hh : forall p s, h !! p = Some s -> inet_ok (from s)).

Lemma cmp_with_zero key n :
  cmp_with h key n = 0 <-> exists s, h !! n = Some s /\ addr_cmp key (from s) = 0.
Proof.
  unfold cmp_with. destruct (h !! n) as [s|]; (split; [try done|]).
  - intros Hc. by exists s.
  - by intros (s' & [= <-] & Hc).
  - by intros (s' & ? & _).
Qed.

(** Comparing equal to the same address makes two nodes of the tree one. *)
Lemma sorted_key_unique t a b sa sb :
  StronglySorted (node_lt h) t -> a ∈ t -> b ∈ t ->
  h !! a = Some sa -> h !! b = Some sb -> addr_cmp (from sa) (from sb) = 0 -> a = b.
Proof.
  intros Hs Ha Hb Hsa Hsb Hc. induction Hs as [|n t Hs IH Hn]; [by apply not_elem_of_nil in Ha|].
  rewrite Forall_forall in Hn.
  apply elem_of_cons in Ha as [-> | Ha], Hb as [-> | Hb]; [done| | |by apply IH].
  - specialize (Hn b Hb). unfold node_lt in Hn. rewrite Hsa, Hsb in Hn. lia.
  - specialize (Hn a Ha). unfold node_lt in Hn. rewrite Hsa, Hsb in Hn.
    pose proof (cmp_opp (from sa) (from sb) ltac:(by eapply Hh) ltac:(by eapply Hh)) as Ho.
    rewrite Hc in Ho. apply Z.sgn_neg_iff in Hn. lia.
Qed.

Lemma tree_insert_perm t key n :
  tree_find h t key = None -> tree_insert h t key n ≡ₚ n :: t.
Proof.
  unfold tree_find. induction t as [|m t IH]; simpl; [done|].
  destruct (cmp_with h key m =? 0); [done|]. intros H. case_match; [done|].
  rewrite IH by done. apply Permutation_swap.
Qed.

Lemma tree_insert_sorted t key n s :
  inet_ok key -> h !! n = Some s -> from s = key ->
  (forall m, m ∈ t -> is_Some (h !! m)) ->
  tree_find h t key = None -> StronglySorted (node_lt h) t ->
  StronglySorted (node_lt h) (tree_insert h t key n).
Proof.
  intros Hk Hn <- Hdom. unfold tree_find. intros Hf Hs. revert Hf.
  induction Hs as [|m t Hs IH Hm]; intros Hf; simpl in *; [by repeat constructor|].
  destruct (Hdom m ltac:(by left)) as [sm Hsm]. pose proof (Hh m sm Hsm) as Hok.
  assert (cmp_with h (from s) m = addr_cmp (from s) (from sm)) as Hcmp
    by (unfold cmp_with; by rewrite Hsm).
  rewrite Hcmp in *. destruct (Z.eqb_spec (addr_cmp (from s) (from sm)) 0) as [|Hne]; [done|].
  rewrite Forall_forall in Hm. destruct (Z.ltb_spec (addr_cmp (from s) (from sm)) 0) as [Hlt|Hge].
  - constructor; [by constructor; [|rewrite Forall_forall]|]. apply Forall_forall.
    intros b [-> | Hb]%elem_of_cons; unfold node_lt; rewrite Hn; [by rewrite Hsm|].
    specialize (Hm b Hb). unfold node_lt in Hm. rewrite Hsm in Hm.
    destruct (h !! b) as [sb|] eqn:Eb; [|done].
    apply (cmp_lt_trans (from s) (from sm) (from sb)); by eauto.
  - constructor; [apply IH; [intros; apply Hdom; by right|done]|]. apply Forall_forall. intros b Hb.
    rewrite (tree_insert_perm t (from s) n Hf) in Hb.
    apply elem_of_cons in Hb as [-> | Hb]; [|by apply Hm].
    unfold node_lt. rewrite Hsm, Hn.
    pose proof (cmp_opp (from s) (from sm) Hk Hok) as Ho. apply Z.sgn_neg_iff.
    assert (0 < addr_cmp (from s) (from sm)) as Hpos%Z.sgn_pos_iff by lia. lia.
Qed.
End tree_laws.

(** find_peer looks up by address: it gives the peer with that address, if there
    is one. *)
Lemma find_peer_iff ps addr p :
  table_ok ps -> inet_ok addr ->
  find_peer ps addr = Some p <->
    exists s, pheap ps !! p = Some s /\ addr_key (from s) = addr_key addr.
Proof.
  intros [] Ha. unfold find_peer, tree_find. rewrite ordered_find_q.
  assert (forall q s, pheap ps !! q = Some s -> inet_ok (from s)) as Hh by (intros; by eapply to_heap0).
  split.
  - intros [_ Hc%Z.eqb_eq]%q_find_Some. apply cmp_with_zero in Hc as (s & Hs & Hc).
    exists s. split; [done|]. symmetry. apply cmp_zero; [done|by eapply Hh|done].
  - intros (s & Hs & Hk).
    assert (addr_cmp addr (from s) = 0) as Hc by (apply cmp_zero; [done|by eapply Hh|done]).
    assert (p ∈ peer_tree ps) as Hp by (rewrite to_perm0; by apply to_dom0).
    destruct (q_find (fun n => cmp_with (pheap ps) addr n =? 0) (peer_tree ps)) as [q|] eqn:E.
    + apply q_find_Some in E as [Hq Hcq%Z.eqb_eq]. apply cmp_with_zero in Hcq as (sq & Hsq & Hcq).
      f_equal. apply (sorted_key_unique (pheap ps) Hh (peer_tree ps) q p sq s); try done.
      apply cmp_zero; [by eapply Hh..|]. apply cmp_zero in Hcq; [|done|by eapply Hh]. congruence.
    + rewrite q_find_None in E. specialize (E p Hp). apply Z.eqb_neq in E. destruct E.
      apply cmp_with_zero. by exists s.
Qed.

(** The nodes of the tree are cut by the comparison with an address. *)
Lemma peer_tree_cut ps addr :
  table_ok ps -> inet_ok addr -> cut (cmp_with (pheap ps) addr) (peer_tree ps).
Proof.
  intros [Hnd Hperm Hdom Hsort Hheap] Ha.
  assert (forall p, p ∈ peer_tree ps -> exists s, pheap ps !! p = Some s /\ inet_ok (from s)) as Hin.
  { intros p Hp. rewrite Hperm in Hp. apply Hdom in Hp as [s Hs]. exists s. split; [done|by eapply Hheap]. }
  unfold cut. revert Hin. generalize (peer_tree ps), Hsort. clear -Ha. intros l Hs.
  induction Hs as [|a l Hs IH Hal]; intros Hin; constructor.
  - apply IH. intros p Hp. apply Hin. by right.
  - apply Forall_forall. intros b Hb. apply (proj1 (Forall_forall _ _) Hal) in Hb as Hlt.
    destruct (Hin a ltac:(by left)) as (sa & Hsa & Hoa). destruct (Hin b ltac:(by right)) as (sb & Hsb & Hob).
    unfold node_lt in Hlt. unfold cmp_with. rewrite Hsa, Hsb in *.
    destruct (Z.lt_ge_cases 0 (addr_cmp addr (from sa))) as [|Hge]; [by left|right].
    destruct (Z.eq_dec (addr_cmp addr (from sa)) 0) as [H0|].
    + apply cmp_neg; [done..|]. apply cmp_zero in H0; [|done..]. rewrite H0. by apply cmp_neg in Hlt.
    + eapply (cmp_lt_trans addr (from sa) (from sb)); done || lia.
Qed.

Lemma find_peer_None ps addr :
  table_ok ps -> inet_ok addr -> find_peer ps addr = None ->
  forall p s, pheap ps !! p = Some s -> addr_key (from s) <> addr_key addr.
Proof.
  intros Hok Ha Hn p s Hs Hk.
  assert (find_peer ps addr = Some p) as E by (apply find_peer_iff; [done|done|by exists s]).
  congruence.
Qed.

(** The removal of a peer of the table. *)
Lemma q_remove_ext {A} (P Q : A -> bool) l :
  (forall x, x ∈ l -> P x = Q x) -> q_remove P l = q_remove Q l.
Proof.
  induction l as [|x l IH]; intros H; simpl; [done|]. rewrite (H x) by (by left).
  destruct (Q x); [done|]. f_equal. apply IH. intros y Hy. apply H. by right.
Qed.

Lemma is_loc_true p q : is_loc p q = true <-> q = p.
Proof. apply bool_decide_eq_true. Qed.

Lemma q_remove_loc_perm p l : p ∈ l -> l ≡ₚ p :: q_remove (is_loc p) l.
Proof.
  intros Hp. destruct (q_find (is_loc p) l) as [x|] eqn:E.
  - pose proof (q_remove_perm _ _ _ E) as H. apply q_find_Some in E as [_ ->%is_loc_true]. done.
  - rewrite q_find_None in E. specialize (E p Hp). apply bool_decide_eq_false in E. done.
Qed.

Lemma q_remove_loc_in p q l : NoDup l -> q ∈ q_remove (is_loc p) l <-> q ∈ l /\ q <> p.
Proof.
  intros Hnd. destruct (decide (p ∈ l)) as [Hp|Hp].
  - pose proof (q_remove_loc_perm p l Hp) as H. rewrite H in Hnd. apply NoDup_cons in Hnd as [Hn _].
    rewrite H at 2. rewrite elem_of_cons. split.
    + intros Hq. split; [by right|]. by intros ->.
    + by intros [[-> | Hq] Hne].
  - assert (q_remove (is_loc p) l = l) as ->.
    { clear Hnd. induction l as [|x l IH]; [done|]. simpl. apply not_elem_of_cons in Hp as [Hx Hl].
      unfold is_loc at 1. rewrite bool_decide_false by done. by rewrite IH. }
    split; [|by intros []]. intros Hq. split; [done|]. by intros ->.
Qed.

Lemma delete_peer_spec ps p s :
  pheap ps !! p = Some s -> table_ok ps ->
  exists ps', delete_peer ps p = Ret ps' /\ table_ok ps' /\
    pheap ps' = delete p (pheap ps) /\ peer_list ps' = q_remove (is_loc p) (peer_list ps) /\
    num_peers ps' = wrap32 (num_peers ps - 1) /\ num_forced ps' = num_forced ps /\
    same_limits ps ps'.
Proof.
  intros Hp [Hnd Hperm Hdom Hsort Hheap]. unfold delete_peer, peer_get. rewrite Hp. cbn [obind].
  eexists. split; [reflexivity|]. cbn -[tree_remove q_remove].
  assert (forall q s, pheap ps !! q = Some s -> inet_ok (from s)) as Hh by (intros; by eapply Hheap).
  assert (p ∈ peer_tree ps) as Hpt by (rewrite Hperm; by apply Hdom).
  assert (tree_remove (pheap ps) (peer_tree ps) (from s) = q_remove (is_loc p) (peer_tree ps)) as ->.
  { apply q_remove_ext. intros q Hq. apply eq_true_iff_eq. rewrite Z.eqb_eq, is_loc_true, cmp_with_zero.
    split.
    - intros (sq & Hsq & Hc). symmetry.
      by apply (sorted_key_unique (pheap ps) Hh (peer_tree ps) p q s sq).
    - intros ->. exists s. split; [done|]. apply cmp_refl. by eapply Hh. }
  assert (p ∈ peer_list ps) as Hpl by (by apply Hdom).
  assert (NoDup (q_remove (is_loc p) (peer_list ps))) as Hnd'
    by (eapply sublist_NoDup; [exact Hnd|apply q_remove_sublist]).
  split; [|by split_and!]. constructor; cbn -[q_remove]; [done| | | |].
  - apply (Permutation_cons_inv (a := p)). by rewrite <- !q_remove_loc_perm.
  - intros q. rewrite (q_remove_loc_in p q) by done. rewrite lookup_delete_is_Some.
    rewrite Hdom. intuition congruence.
  - apply (node_lt_ext (pheap ps)).
    + intros q Hq. rewrite lookup_delete_ne; [done|]. intros <-.
      apply (q_remove_loc_in p p) in Hq; [by destruct Hq|]. by rewrite Hperm.
    + eapply sorted_sublist; [apply q_remove_sublist|done].
  - intros q sq Hq. cbn in Hq. apply lookup_delete_Some in Hq as [_ Hq]. by apply (Hheap q).
Qed.

Lemma q_remove_last (l : list loc) p :
  NoDup l -> last l = Some p -> q_remove (is_loc p) l = take (length l - 1) l.
Proof.
  intros Hnd Hl. apply last_Some in Hl as [l' ->]. apply NoDup_app in Hnd as (_ & Hd & _).
  rewrite length_app. cbn [length]. rewrite Nat.add_sub, take_app_length.
  assert (p ∉ l') as Hp. { intros H. apply (Hd p H). by left. }
  clear Hd. induction l' as [|x l' IH]; simpl.
  - unfold is_loc. by rewrite bool_decide_true.
  - apply not_elem_of_cons in Hp as [Hx Hp]. unfold is_loc at 1.
    rewrite bool_decide_false by done. by rewrite IH.
Qed.

Lemma empty_nf9_ok maxs maxt addr t1 t2 :
  0 <= maxs -> nf9_ok maxs maxt (Mk_peer_state addr 0 0 0 0 t1 t2 0 [] 0).
Proof. intros. split; [constructor|]. split; [done|]. split; [done|by constructor]. Qed.

(** Making room for one more peer. *)
Lemma evict_spec ps :
  peers_ok ps ->
  let ps1 := set_num_peers (wrap32 (num_peers ps + 1)) ps in
  exists ps2,
    (if max_peers ps1 <? num_peers ps1 then
       let ps := set_num_forced (wrap32 (num_forced ps1 + 1)) ps1 in
       match last (peer_list ps) with
       | None => Undef NullDeref
       | Some p => delete_peer ps p
       end
     else Ret ps1) = Ret ps2 /\
    table_ok ps2 /\ same_limits ps ps2 /\
    peer_list ps2 = take (Z.to_nat (max_peers ps - 1)) (peer_list ps) /\
    num_peers ps2 = Z.of_nat (length (peer_list ps2)) + 1 /\
    (forall q, q ∈ peer_list ps2 -> pheap ps2 !! q = pheap ps !! q) /\ pheap ps2 ⊆ pheap ps.
Proof.
  intros [[Hnd Hperm Hdom Hsort Hheap] Hnum Hmax (Hlim & _)] ps1. unfold limit_ok in Hlim.
  subst ps1. cbn. rewrite (wrap32_small (_ + 1)) by (width; lia).
  destruct (Z.ltb_spec (max_peers ps) (num_peers ps + 1)) as [Hfull|Hroom].
  - destruct (last (peer_list ps)) as [p|] eqn:Hl.
    2:{ apply last_None in Hl. rewrite Hl in Hnum. cbn in Hnum. lia. }
    assert (p ∈ peer_list ps) as Hp.
    { apply last_Some in Hl as [l' ->]. apply elem_of_app. right. by left. }
    apply Hdom in Hp as [s Hs].
    set (ps1 := set_num_forced _ _).
    destruct (delete_peer_spec ps1 p s Hs) as (ps2 & -> & Ht & Hh & Hlist & Hn & _ & Hsame);
      [by constructor|].
    assert (Z.to_nat (max_peers ps - 1) = (length (peer_list ps) - 1)%nat) as Hlen by lia.
    exists ps2. split; [done|]. split; [done|]. split; [done|].
    cbn in Hlist, Hh, Hn. rewrite (q_remove_last _ p Hnd Hl) in Hlist.
    rewrite Hlen. split; [done|].
    split; [rewrite Hn, Hlist, length_take; rewrite wrap32_small by (width; lia); lia|].
    rewrite Hh. split; [|apply delete_subseteq].
    intros q Hq. rewrite lookup_delete_ne; [done|]. intros <-.
    rewrite Hlist, <- (q_remove_last _ p Hnd Hl) in Hq. by apply q_remove_loc_in in Hq as [_ []].
  - eexists. split; [reflexivity|]. split; [by constructor|]. split; [by split_and!|]. cbn.
    rewrite lru_full by lia. split; [done|]. split; [lia|]. done.
Qed.

(** A new peer of an authorised address, which goes to the head of the list. *)
Lemma new_peer_ok ps devices addr now :
  peers_ok ps -> inet_ok addr -> find_peer ps addr = None -> authorised devices addr = true ->
  exists p ps', new_peer ps devices addr now = Ret (Some p, ps') /\ peers_ok ps' /\
    same_limits ps ps' /\ peer_list ps' = lru_push (max_peers ps) p (peer_list ps) /\
    pheap ps' !! p = Some (Mk_peer_state addr 0 0 0 0 now (0, 0) 0 [] 0) /\
    forall q, q ∈ take (Z.to_nat (max_peers ps - 1)) (peer_list ps) ->
      q <> p /\ pheap ps' !! q = pheap ps !! q.
Proof.
  intros Hok Ha Hnone Hauth. unfold new_peer. rewrite Hauth. cbn [negb].
  destruct (evict_spec ps Hok) as (ps2 & Hev & [Hnd Hperm Hdom Hsort Hheap] & Hlim & Hlist & Hnum & Hkeep & Hsub).
  cbv zeta in *. rewrite Hev. cbn [obind].
  set (p := fresh (dom (pheap ps2))).
  assert (pheap ps2 !! p = None) as Hfresh by (apply not_elem_of_dom, is_fresh).
  assert (p ∉ peer_list ps2) as Hpl by (rewrite Hdom, Hfresh; by intros []).
  set (st0 := Mk_peer_state addr 0 0 0 0 (0, 0) (0, 0) 0 [] 0).
  set (st := Mk_peer_state addr 0 0 0 0 now (0, 0) 0 [] 0).
  set (h0 := <[p := st0]> (pheap ps2)).
  destruct Hlim as (Hl1 & Hl2 & Hl3 & Hl4). destruct Hok as [Hpt Hpn Hpm Hpl'].
  assert (forall q s, h0 !! q = Some s -> inet_ok (from s)) as Hh0.
  { intros q s [[_ <-]|[_ Hq]]%lookup_insert_Some; [done|]. by eapply Hheap. }
  assert (tree_find h0 (peer_tree ps2) addr = None) as Hf.
  { apply q_find_None. intros q Hq. apply Z.eqb_neq. intros (s & Hs & Hc)%cmp_with_zero.
    assert (q <> p) as Hqp by (intros ->; by rewrite Hperm in Hq).
    unfold h0 in Hs. rewrite lookup_insert_ne in Hs by done.
    eapply (find_peer_None ps addr Hpt Ha Hnone q s); [by eapply lookup_weaken|].
    symmetry. apply cmp_zero; [done|by eapply Hheap|done]. }
  pose proof (tree_insert_perm h0 (peer_tree ps2) addr p Hf) as Hins.
  eexists p, _. split; [reflexivity|].
  cbn -[tree_insert h0 st0 st]. fold st0 h0 st.
  assert (<[p := st]> h0 = <[p := st]> (pheap ps2)) as Hh by apply insert_insert_eq.
  rewrite Hh. split; [|split; [by split_and!|]].
  - constructor; [constructor|..]; cbn -[tree_insert h0 st].
    + by apply NoDup_cons.
    + by rewrite Hins, Hperm.
    + intros q. rewrite ?Hh, elem_of_cons, Hdom. destruct (decide (q = p)) as [->|Hq].
      * rewrite lookup_insert_eq. split; [intros _; eexists; reflexivity|by left].
      * rewrite lookup_insert_ne by done. split; [by intros [|]|by right].
    + apply (node_lt_ext h0).
      * intros q _. unfold h0. destruct (decide (q = p)) as [->|Hq].
        -- by rewrite !lookup_insert_eq.
        -- by rewrite !lookup_insert_ne by done.
      * apply (tree_insert_sorted h0 Hh0 _ _ _ st0); try done.
        -- apply lookup_insert_eq.
        -- intros m Hm. rewrite Hperm, Hdom in Hm. apply lookup_insert_is_Some.
           destruct (decide (p = m)); [by left|by right].
        -- apply (node_lt_ext (pheap ps2)); [|done]. intros q Hq. unfold h0.
           rewrite lookup_insert_ne; [done|]. intros <-. by rewrite Hperm in Hq.
    + intros q s Hq. cbn -[h0] in Hq. rewrite ?Hh in Hq. apply lookup_insert_Some in Hq as [[_ <-]|[_ Hq]].
      * split; [done|]. apply empty_nf9_ok. change (0 <= max_sources ps2). rewrite Hl2. destruct Hpl' as (_ & Hx & _).
        unfold limit_ok in Hx. lia.
      * by apply (Hheap q).
    + rewrite Hnum. lia.
    + rewrite Hnum, Hl1, Hlist, length_take. unfold limit_ok in Hpl'. lia.
    + by rewrite Hl1, Hl2, Hl3.
  - split; [by rewrite Hlist|]. split; [apply lookup_insert_eq|].
    intros q Hq. rewrite <- Hlist in Hq. split; [by intros ->|].
    rewrite ?Hh, lookup_insert_ne by (by intros ->). by apply Hkeep.
Qed.

(** Changing the state of a peer but not its address. *)
Lemma peer_put_ok ps p s s' :
  peers_ok ps -> pheap ps !! p = Some s -> from s' = from s ->
  nf9_ok (max_sources ps) (max_templates ps) s' -> peers_ok (peer_put ps p s').
Proof.
  intros [[Hnd Hperm Hdom Hsort Hheap] Hn Hm Hl] Hs Hfrom Hnf9.
  constructor; [constructor|done..]; cbn; [done|done| | |].
  - intros q. rewrite Hdom. destruct (decide (q = p)) as [->|Hq].
    + rewrite Hs, lookup_insert_eq. split; intros _; eexists; reflexivity.
    + by rewrite lookup_insert_ne by done.
  - apply (node_lt_ext (pheap ps)); [|done]. intros q _. destruct (decide (q = p)) as [->|Hq].
    + rewrite Hs, lookup_insert_eq. cbn. by rewrite Hfrom.
    + by rewrite lookup_insert_ne by done.
  - intros q sq Hq. cbn in Hq. apply lookup_insert_Some in Hq as [[_ <-]|[_ Hq]]; [|by apply (Hheap q)].
    split; [|done]. rewrite Hfrom. by eapply Hheap.
Qed.

(** Reordering the list. *)
Lemma set_peer_list_ok ps l : peers_ok ps -> l ≡ₚ peer_list ps -> peers_ok (set_peer_list l ps).
Proof.
  intros [[Hnd Hperm Hdom Hsort Hheap] Hn Hm Hl] Hp.
  constructor; [constructor|..]; cbn; try done.
  - by rewrite Hp.
  - by rewrite Hp.
  - intros q. by rewrite Hp.
  - by rewrite (Permutation_length Hp).
Qed.

Lemma update_peer_ok ps p n v now :
  peers_ok ps -> p ∈ peer_list ps ->
  exists ps', update_peer ps p n v now = Ret ps' /\ peers_ok ps' /\ same_limits ps ps' /\
    peer_list ps' = p :: q_remove (is_loc p) (peer_list ps).
Proof.
  intros Hok Hp. pose proof Hok as [[Hnd Hperm Hdom Hsort Hheap] Hn Hm Hl].
  unfold update_peer, peer_get. cbn [set_peer_list pheap].
  destruct (proj1 (Hdom p) Hp) as [s Hs]. rewrite Hs. cbn [obind].
  eexists. split; [reflexivity|]. split; [|split; [done|]].
  - eapply peer_put_ok; [|exact Hs|done|].
    + apply set_peer_list_ok; [done|]. apply q_promote_perm.
    + destruct (Hheap p s Hs) as [_ Hnf9]. exact Hnf9.
  - cbn. unfold q_promote. destruct (q_find (is_loc p) (peer_list ps)) as [x|] eqn:E.
    + by apply q_find_Some in E as [_ ->%is_loc_true].
    + rewrite q_find_None in E. specialize (E p Hp). by apply bool_decide_eq_false in E.
Qed.

(** Whether a node of the table holds an allowed peer. *)
Definition keeps (ps : peers) (devices : list (xaddr * Z)) (p : loc) : bool :=
  match pheap ps !! p with
  | Some s => allowed devices (from s)
  | None => false
  end.

Lemma q_remove_app (p : loc) (a b : list loc) : NoDup (a ++ p :: b) -> q_remove (is_loc p) (a ++ p :: b) = a ++ b.
Proof.
  intros Hnd. apply NoDup_app in Hnd as (_ & Hd & _).
  assert (p ∉ a) as Hp. { intros H. apply (Hd p H). by left. }
  clear Hd. induction a as [|x a IH]; simpl.
  - unfold is_loc. by rewrite bool_decide_true.
  - apply not_elem_of_cons in Hp as [Hx Hp]. unfold is_loc at 1.
    rewrite bool_decide_false by done. by rewrite IH.
Qed.

Lemma scrub_loop_ok devices l : forall ps pre,
  peers_ok ps -> peer_list ps = pre ++ l ->
  exists ps', scrub_loop l devices ps = Ret ps' /\ peers_ok ps' /\ same_limits ps ps' /\
    peer_list ps' = pre ++ List.filter (keeps ps devices) l /\
    forall q, q ∈ peer_list ps' -> pheap ps' !! q = pheap ps !! q.
Proof.
  induction l as [|p l IH]; intros ps pre Hok Hl.
  { exists ps. split; [done|]. split; [done|]. split; [done|]. split; [done|]. done. }
  pose proof Hok as [[Hnd Hperm Hdom Hsort Hheap] Hn Hm Hlim].
  assert (p ∈ peer_list ps) as Hp by (rewrite Hl; apply elem_of_app; right; by left).
  destruct (proj1 (Hdom p) Hp) as [s Hs]. cbn [scrub_loop List.filter]. unfold peer_get, keeps at 1.
  rewrite Hs. cbn [obind]. destruct (allowed devices (from s)).
  - cbn [obind]. destruct (IH ps (pre ++ [p])) as (ps' & -> & Hok' & Hsame & Hl' & Hh);
      [done|by rewrite <- app_assoc|].
    exists ps'. split; [done|]. split; [done|]. split; [done|].
    split; [by rewrite Hl', <- app_assoc|done].
  - destruct (delete_peer_spec ps p s Hs) as (ps1 & -> & Ht & Hh1 & Hl1 & Hn1 & _ & Hsame1); [done|].
    cbn [obind]. rewrite Hl, q_remove_app in Hl1 by (by rewrite <- Hl).
    destruct Hsame1 as (E1 & E2 & E3 & E4).
    assert (peers_ok ps1) as Hok1.
    { rewrite Hl, length_app in Hn. cbn [length] in Hn. unfold limit_ok in Hlim.
      constructor; rewrite ?E1, ?E2, ?E3; [done| | |done].
      - rewrite Hn1, Hl1, length_app. rewrite wrap32_small by (width; lia). lia.
      - rewrite Hn1, wrap32_small by (width; lia). lia. }
    destruct (IH ps1 pre) as (ps' & -> & Hok' & (F1 & F2 & F3 & F4) & Hl' & Hh); [done|done|].
    exists ps'. split; [done|]. split; [done|]. split; [split_and!; congruence|].
    assert (p ∉ pre ++ l) as Hpl.
    { rewrite Hl in Hnd. rewrite <- Permutation_middle in Hnd. by apply NoDup_cons in Hnd as [? _]. }
    assert (List.filter (keeps ps1 devices) l = List.filter (keeps ps devices) l) as Hfil.
    { apply filter_ext_in. intros q Hq%list_elem_of_In. unfold keeps. rewrite Hh1, lookup_delete_ne; [done|].
      intros <-. apply Hpl. apply elem_of_app. by right. }
    split; [by rewrite Hl', Hfil|]. intros q Hq. rewrite Hh, Hh1, lookup_delete_ne; [done| |done].
    intros <-. apply Hpl. rewrite Hl' in Hq. apply elem_of_app in Hq as [Hq|Hq]; [apply elem_of_app; by left|].
    apply list_elem_of_In, List.filter_In in Hq as [Hq _]. apply elem_of_app. right. by apply list_elem_of_In.
Qed.

(** C31: new_peer on an address that is not in the table.  An address that is not
    allowed changes nothing.  Otherwise the peer goes to the front; a full table
    loses exactly its least recently used peer; the peer is found by its address
    and the others keep their state. *)
Theorem new_peer_spec ps devices addr now :
  peers_ok ps -> inet_ok addr -> find_peer ps addr = None ->
  exists r ps', new_peer ps devices addr now = Ret (r, ps') /\ peers_ok ps' /\
    match r with
    | None => authorised devices addr = false /\ ps' = ps
    | Some p => authorised devices addr = true /\
        peer_list ps' = lru_push (max_peers ps) p (peer_list ps) /\
        find_peer ps' addr = Some p /\
        forall q, q ∈ take (Z.to_nat (max_peers ps - 1)) (peer_list ps) ->
          q <> p /\ pheap ps' !! q = pheap ps !! q
    end.
Proof.
  intros Hok Ha Hnone. destruct (authorised devices addr) eqn:Hauth.
  - destruct (new_peer_ok ps devices addr now) as (p & ps' & Hnew & Hok' & _ & Hl & Hp & Hk); [done..|].
    exists (Some p), ps'. split; [done|]. split; [done|]. split; [done|]. split; [done|]. split; [|done].
    apply find_peer_iff; [apply Hok'|done|]. eexists. by split; [exact Hp|].
  - exists None, ps. unfold new_peer. rewrite Hauth. by split_and!.
Qed.

(** The index agrees with the table: find_peer gives a peer exactly when the
    table holds one with that address, and an operation of the table gives such
    an index again. *)
Theorem find_peer_spec ps addr p n v now devices :
  peers_ok ps -> inet_ok addr ->
  (find_peer ps addr = Some p <->
    exists s, pheap ps !! p = Some s /\ addr_key (from s) = addr_key addr) /\
  (find_peer ps addr = Some p ->
    exists ps', update_peer ps p n v now = Ret ps' /\ peers_ok ps' /\
      head (peer_list ps') = Some p /\ peer_list ps' ≡ₚ peer_list ps) /\
  exists ps', scrub_peers devices ps = Ret ps' /\ peers_ok ps' /\
    peer_list ps' = List.filter (fun q => match devices with [] => true | _ => keeps ps devices q end)
                      (peer_list ps).
Proof.
  intros Hok Ha. pose proof (find_peer_iff ps addr p (po_table _ Hok) Ha) as Hf.
  split; [done|]. split.
  - intros (s & Hs & _)%Hf.
    assert (p ∈ peer_list ps) as Hp by (apply Hok; by eexists).
    destruct (update_peer_ok ps p n v now Hok Hp) as (ps' & -> & Hok' & _ & Hl).
    exists ps'. split; [done|]. split; [done|]. rewrite Hl. split; [done|].
    symmetry. by apply q_remove_loc_perm.
  - unfold scrub_peers. destruct devices as [|d devices].
    + exists ps. split; [done|]. split; [done|]. clear. induction (peer_list ps); simpl; by f_equal.
    + destruct (scrub_loop_ok (d :: devices) (peer_list ps) ps []) as (ps' & -> & Hok' & _ & Hl & _);
        [done|done|].
      exists ps'. by split_and!.
Qed.

(** Whatever splay tree holds the nodes of the table, looking up an address in
    it gives what find_peer gives, inserting and removing a node give the tree of
    the table after the operation, and the tree is only restructured. *)
Theorem peer_tree_splay ps addr n (t : tree loc) :
  table_ok ps -> inet_ok addr -> inorder t = peer_tree ps ->
  let c := cmp_with (pheap ps) addr in
  (exists t', SPLAY_FIND c t = Ret (find_peer ps addr, t') /\ inorder t' = peer_tree ps) /\
  (exists r t', SPLAY_INSERT c t n = Ret (r, t') /\
     inorder t' = tree_insert (pheap ps) (peer_tree ps) addr n) /\
  (exists r t', SPLAY_REMOVE c t = Ret (r, t') /\
     inorder t' = tree_remove (pheap ps) (peer_tree ps) addr).
Proof.
  intros Hok Ha Ht c. pose proof (peer_tree_cut ps addr Hok Ha) as Hcut. rewrite <- Ht in *.
  destruct (splay_refines_ok c t n Hcut) as ((t1 & E1 & I1) & (t2 & E2 & I2) & (t3 & E3 & I3)).
  split; [|split].
  - exists t1. unfold find_peer, tree_find. by rewrite <- Ht.
  - by eexists _, t2.
  - by eexists _, t3.
Qed.

(** The empty table with its limits. *)
Definition empty_peers (maxp maxt maxs maxl : Z) : peers := Mk_peers ∅ [] [] maxp maxt maxs maxl 0 0.

Lemma empty_peers_ok maxp maxt maxs maxl :
  limit_ok maxp -> limit_ok maxs -> limit_ok maxt -> peers_ok (empty_peers maxp maxt maxs maxl).
Proof.
  intros Hp Hs Ht. constructor; cbn; [|done|unfold limit_ok in *; lia|done].
  constructor; cbn; [constructor|done| |constructor|].
  - intros p. split; [by intros ?%not_elem_of_nil|]. rewrite lookup_empty. by intros [].
  - intros p s H. cbn in H. by rewrite lookup_empty in H.
Qed.

(** A table of at most one peer that holds 10.0.0.1. *)
Definition sample_peers : peers :=
  match new_peer (empty_peers 1 8 64 1024) [] (ip4 10 0 0 1) (5, 6) with
  | Ret (_, ps) => ps
  | _ => empty_peers 1 8 64 1024
  end.

Lemma sample_peers_ok : peers_ok sample_peers.
Proof.
  destruct (new_peer_ok (empty_peers 1 8 64 1024) [] (ip4 10 0 0 1) (5, 6))
    as (p & ps' & H & Hok & _).
  - apply empty_peers_ok; by split.
  - inet4.
  - reflexivity.
  - reflexivity.
  - unfold sample_peers. by rewrite H.
Qed.

Lemma new_peer_spec_witness :
  exists r ps', new_peer sample_peers [(ip4 10 0 0 0, 8)] (ip4 10 0 0 2) (7, 8) = Ret (r, ps') /\
    peers_ok ps' /\ length (peer_list ps') = 1%nat.
Proof.
  destruct (new_peer_spec sample_peers [(ip4 10 0 0 0, 8)] (ip4 10 0 0 2) (7, 8)) as (r & ps' & H & Hok & Hr).
  - apply sample_peers_ok.
  - inet4.
  - vm_compute. reflexivity.
  - exists r, ps'. split; [exact H|]. split; [exact Hok|].
    destruct r as [p|]; [destruct Hr as (_ & -> & _); reflexivity|].
    destruct Hr as [Ha _]. vm_compute in Ha. discriminate.
Defined.

Lemma find_peer_spec_witness :
  find_peer sample_peers (ip4 10 0 0 1) = Some 1%positive /\
  exists s, pheap sample_peers !! 1%positive = Some s /\ addr_key (from s) = addr_key (ip4 10 0 0 1).
Proof.
  split; [vm_compute; reflexivity|].
  apply (find_peer_spec sample_peers (ip4 10 0 0 1) 1%positive 0 0 (0, 0) []).
  - apply sample_peers_ok.
  - inet4.
  - vm_compute. reflexivity.
Defined.

Lemma peer_tree_splay_witness :
  exists t', SPLAY_FIND (cmp_with (pheap sample_peers) (ip4 10 0 0 1)) (Node Leaf 1%positive Leaf) =
    Ret (find_peer sample_peers (ip4 10 0 0 1), t') /\ inorder t' = peer_tree sample_peers.
Proof.
  apply (peer_tree_splay sample_peers (ip4 10 0 0 1) 2%positive (Node Leaf 1%positive Leaf)).
  - apply sample_peers_ok.
  - inet4.
  - vm_compute. reflexivity.
Defined.
