(* ===== verification/Netflow.v ===== *)
(** * NetFlow wire formats (src/flowd/netflow.h)

    The packed structs of the NetFlow 1, 5, 7 and 9 packets, with members in
    network byte order as the code holds them, and the field types of
    NetFlow 9. *)

From S2P Require Import Prelude Packed.

Record NF_HEADER_COMMON := Mk_NF_HEADER_COMMON {
  c_version : Z;
  c_flows : Z
}.
#[export] Instance NF_HEADER_COMMON_packed : Packed NF_HEADER_COMMON := {|
  widths := [2; 2]%nat;
  to_ints r := [c_version r; c_flows r];
  of_ints l :=
    match l with
    | [x0; x1] => Mk_NF_HEADER_COMMON x0 x1
    | _ => Mk_NF_HEADER_COMMON 0 0
    end
|}.
#[export] Instance NF_HEADER_COMMON_laws : PackedLaws NF_HEADER_COMMON.
Proof. packed_laws. Qed.

Record NF1_HEADER := Mk_NF1_HEADER {
  nf1h_version : Z;
  nf1h_flows : Z;
  nf1h_uptime_ms : Z;
  nf1h_time_sec : Z;
  nf1h_time_nanosec : Z;
  nf1h_emulator_monitor_adr : Z
}.
#[export] Instance NF1_HEADER_packed : Packed NF1_HEADER := {|
  widths := [2; 2; 4; 4; 4; 4]%nat;
  to_ints r := [nf1h_version r; nf1h_flows r; nf1h_uptime_ms r; nf1h_time_sec r; nf1h_time_nanosec r; nf1h_emulator_monitor_adr r];
  of_ints l :=
    match l with
    | [x0; x1; x2; x3; x4; x5] => Mk_NF1_HEADER x0 x1 x2 x3 x4 x5
    | _ => Mk_NF1_HEADER 0 0 0 0 0 0
    end
|}.
#[export] Instance NF1_HEADER_laws : PackedLaws NF1_HEADER.
Proof. packed_laws. Qed.

Record NF1_FLOW := Mk_NF1_FLOW {
  nf1_src_ip : Z;
  nf1_dest_ip : Z;
  nf1_nexthop_ip : Z;
  nf1_if_index_in : Z;
  nf1_if_index_out : Z;
  nf1_flow_packets : Z;
  nf1_flow_octets : Z;
  nf1_flow_start : Z;
  nf1_flow_finish : Z;
  nf1_src_port : Z;
  nf1_dest_port : Z;
  nf1_pad1 : Z;
  nf1_protocol : Z;
  nf1_tos : Z;
  nf1_tcp_flags : Z;
  nf1_pad2 : Z;
  nf1_pad3 : Z;
  nf1_pad4 : Z;
  nf1_reserved1 : Z;
  nf1_emulator_monitor_adr : Z
}.
#[export] Instance NF1_FLOW_packed : Packed NF1_FLOW := {|
  widths := [4; 4; 4; 2; 2; 4; 4; 4; 4; 2; 2; 2; 1; 1; 1; 1; 1; 1; 4; 4]%nat;
  to_ints r := [nf1_src_ip r; nf1_dest_ip r; nf1_nexthop_ip r; nf1_if_index_in r; nf1_if_index_out r; nf1_flow_packets r; nf1_flow_octets r; nf1_flow_start r; nf1_flow_finish r; nf1_src_port r; nf1_dest_port r; nf1_pad1 r; nf1_protocol r; nf1_tos r; nf1_tcp_flags r; nf1_pad2 r; nf1_pad3 r; nf1_pad4 r; nf1_reserved1 r; nf1_emulator_monitor_adr r];
  of_ints l :=
    match l with
    | [x0; x1; x2; x3; x4; x5; x6; x7; x8; x9; x10; x11; x12; x13; x14; x15; x16; x17; x18; x19] => Mk_NF1_FLOW x0 x1 x2 x3 x4 x5 x6 x7 x8 x9 x10 x11 x12 x13 x14 x15 x16 x17 x18 x19
    | _ => Mk_NF1_FLOW 0 0 0 0 0 0 0 0 0 0 0 0 0 0 0 0 0 0 0 0
    end
|}.
#[export] Instance NF1_FLOW_laws : PackedLaws NF1_FLOW.
Proof. packed_laws. Qed.

Record NF5_HEADER := Mk_NF5_HEADER {
  nf5h_version : Z;
  nf5h_flows : Z;
  nf5h_uptime_ms : Z;
  nf5h_time_sec : Z;
  nf5h_time_nanosec : Z;
  nf5h_flow_sequence : Z;
  nf5h_engine_type : Z;
  nf5h_engine_id : Z;
  nf5h_reserved1 : Z;
  nf5h_reserved2 : Z;
  nf5h_emulator_monitor_adr : Z
}.
#[export] Instance NF5_HEADER_packed : Packed NF5_HEADER := {|
  widths := [2; 2; 4; 4; 4; 4; 1; 1; 1; 1; 4]%nat;
  to_ints r := [nf5h_version r; nf5h_flows r; nf5h_uptime_ms r; nf5h_time_sec r; nf5h_time_nanosec r; nf5h_flow_sequence r; nf5h_engine_type r; nf5h_engine_id r; nf5h_reserved1 r; nf5h_reserved2 r; nf5h_emulator_monitor_adr r];
  of_ints l :=
    match l with
    | [x0; x1; x2; x3; x4; x5; x6; x7; x8; x9; x10] => Mk_NF5_HEADER x0 x1 x2 x3 x4 x5 x6 x7 x8 x9 x10
    | _ => Mk_NF5_HEADER 0 0 0 0 0 0 0 0 0 0 0
    end
|}.
#[export] Instance NF5_HEADER_laws : PackedLaws NF5_HEADER.
Proof. packed_laws. Qed.

Record NF5_FLOW := Mk_NF5_FLOW {
  nf5_src_ip : Z;
  nf5_dest_ip : Z;
  nf5_nexthop_ip : Z;
  nf5_if_index_in : Z;
  nf5_if_index_out : Z;
  nf5_flow_packets : Z;
  nf5_flow_octets : Z;
  nf5_flow_start : Z;
  nf5_flow_finish : Z;
  nf5_src_port : Z;
  nf5_dest_port : Z;
  nf5_pad1 : Z;
  nf5_tcp_flags : Z;
  nf5_protocol : Z;
  nf5_tos : Z;
  nf5_src_as : Z;
  nf5_dest_as : Z;
  nf5_src_mask : Z;
  nf5_dst_mask : Z;
  nf5_pad2 : Z;
  nf5_emulator_monitor_adr : Z
}.
#[export] Instance NF5_FLOW_packed : Packed NF5_FLOW := {|
  widths := [4; 4; 4; 2; 2; 4; 4; 4; 4; 2; 2; 1; 1; 1; 1; 4; 4; 1; 1; 2; 4]%nat;
  to_ints r := [nf5_src_ip r; nf5_dest_ip r; nf5_nexthop_ip r; nf5_if_index_in r; nf5_if_index_out r; nf5_flow_packets r; nf5_flow_octets r; nf5_flow_start r; nf5_flow_finish r; nf5_src_port r; nf5_dest_port r; nf5_pad1 r; nf5_tcp_flags r; nf5_protocol r; nf5_tos r; nf5_src_as r; nf5_dest_as r; nf5_src_mask r; nf5_dst_mask r; nf5_pad2 r; nf5_emulator_monitor_adr r];
  of_ints l :=
    match l with
    | [x0; x1; x2; x3; x4; x5; x6; x7; x8; x9; x10; x11; x12; x13; x14; x15; x16; x17; x18; x19; x20] => Mk_NF5_FLOW x0 x1 x2 x3 x4 x5 x6 x7 x8 x9 x10 x11 x12 x13 x14 x15 x16 x17 x18 x19 x20
    | _ => Mk_NF5_FLOW 0 0 0 0 0 0 0 0 0 0 0 0 0 0 0 0 0 0 0 0 0
    end
|}.
#[export] Instance NF5_FLOW_laws : PackedLaws NF5_FLOW.
Proof. packed_laws. Qed.

Record NF7_HEADER := Mk_NF7_HEADER {
  nf7h_version : Z;
  nf7h_flows : Z;
  nf7h_uptime_ms : Z;
  nf7h_time_sec : Z;
  nf7h_time_nanosec : Z;
  nf7h_flow_sequence : Z;
  nf7h_reserved1 : Z
}.
#[export] Instance NF7_HEADER_packed : Packed NF7_HEADER := {|
  widths := [2; 2; 4; 4; 4; 4; 4]%nat;
  to_ints r := [nf7h_version r; nf7h_flows r; nf7h_uptime_ms r; nf7h_time_sec r; nf7h_time_nanosec r; nf7h_flow_sequence r; nf7h_reserved1 r];
  of_ints l :=
    match l with
    | [x0; x1; x2; x3; x4; x5; x6] => Mk_NF7_HEADER x0 x1 x2 x3 x4 x5 x6
    | _ => Mk_NF7_HEADER 0 0 0 0 0 0 0
    end
|}.
#[export] Instance NF7_HEADER_laws : PackedLaws NF7_HEADER.
Proof. packed_laws. Qed.

Record NF7_FLOW := Mk_NF7_FLOW {
  nf7_src_ip : Z;
  nf7_dest_ip : Z;
  nf7_nexthop_ip : Z;
  nf7_if_index_in : Z;
  nf7_if_index_out : Z;
  nf7_flow_packets : Z;
  nf7_flow_octets : Z;
  nf7_flow_start : Z;
  nf7_flow_finish : Z;
  nf7_src_port : Z;
  nf7_dest_port : Z;
  nf7_flags1 : Z;
  nf7_tcp_flags : Z;
  nf7_protocol : Z;
  nf7_tos : Z;
  nf7_src_as : Z;
  nf7_dest_as : Z;
  nf7_src_mask : Z;
  nf7_dst_mask : Z;
  nf7_flags2 : Z;
  nf7_router_sc : Z
}.
#[export] Instance NF7_FLOW_packed : Packed NF7_FLOW := {|
  widths := [4; 4; 4; 2; 2; 4; 4; 4; 4; 2; 2; 1; 1; 1; 1; 2; 2; 1; 1; 2; 4]%nat;
  to_ints r := [nf7_src_ip r; nf7_dest_ip r; nf7_nexthop_ip r; nf7_if_index_in r; nf7_if_index_out r; nf7_flow_packets r; nf7_flow_octets r; nf7_flow_start r; nf7_flow_finish r; nf7_src_port r; nf7_dest_port r; nf7_flags1 r; nf7_tcp_flags r; nf7_protocol r; nf7_tos r; nf7_src_as r; nf7_dest_as r; nf7_src_mask r; nf7_dst_mask r; nf7_flags2 r; nf7_router_sc r];
  of_ints l :=
    match l with
    | [x0; x1; x2; x3; x4; x5; x6; x7; x8; x9; x10; x11; x12; x13; x14; x15; x16; x17; x18; x19; x20] => Mk_NF7_FLOW x0 x1 x2 x3 x4 x5 x6 x7 x8 x9 x10 x11 x12 x13 x14 x15 x16 x17 x18 x19 x20
    | _ => Mk_NF7_FLOW 0 0 0 0 0 0 0 0 0 0 0 0 0 0 0 0 0 0 0 0 0
    end
|}.
#[export] Instance NF7_FLOW_laws : PackedLaws NF7_FLOW.
Proof. packed_laws. Qed.

Record NF9_HEADER := Mk_NF9_HEADER {
  nf9h_version : Z;
  nf9h_flows : Z;
  nf9h_uptime_ms : Z;
  nf9h_time_sec : Z;
  nf9h_package_sequence : Z;
  nf9h_source_id : Z
}.
#[export] Instance NF9_HEADER_packed : Packed NF9_HEADER := {|
  widths := [2; 2; 4; 4; 4; 4]%nat;
  to_ints r := [nf9h_version r; nf9h_flows r; nf9h_uptime_ms r; nf9h_time_sec r; nf9h_package_sequence r; nf9h_source_id r];
  of_ints l :=
    match l with
    | [x0; x1; x2; x3; x4; x5] => Mk_NF9_HEADER x0 x1 x2 x3 x4 x5
    | _ => Mk_NF9_HEADER 0 0 0 0 0 0
    end
|}.
#[export] Instance NF9_HEADER_laws : PackedLaws NF9_HEADER.
Proof. packed_laws. Qed.

Record NF9_FLOWSET_HEADER_COMMON := Mk_NF9_FLOWSET_HEADER_COMMON {
  nf9fs_flowset_id : Z;
  nf9fs_length : Z
}.
#[export] Instance NF9_FLOWSET_HEADER_COMMON_packed : Packed NF9_FLOWSET_HEADER_COMMON := {|
  widths := [2; 2]%nat;
  to_ints r := [nf9fs_flowset_id r; nf9fs_length r];
  of_ints l :=
    match l with
    | [x0; x1] => Mk_NF9_FLOWSET_HEADER_COMMON x0 x1
    | _ => Mk_NF9_FLOWSET_HEADER_COMMON 0 0
    end
|}.
#[export] Instance NF9_FLOWSET_HEADER_COMMON_laws : PackedLaws NF9_FLOWSET_HEADER_COMMON.
Proof. packed_laws. Qed.

Record NF9_TEMPLATE_FLOWSET_HEADER := Mk_NF9_TEMPLATE_FLOWSET_HEADER {
  nf9th_template_id : Z;
  nf9th_count : Z
}.
#[export] Instance NF9_TEMPLATE_FLOWSET_HEADER_packed : Packed NF9_TEMPLATE_FLOWSET_HEADER := {|
  widths := [2; 2]%nat;
  to_ints r := [nf9th_template_id r; nf9th_count r];
  of_ints l :=
    match l with
    | [x0; x1] => Mk_NF9_TEMPLATE_FLOWSET_HEADER x0 x1
    | _ => Mk_NF9_TEMPLATE_FLOWSET_HEADER 0 0
    end
|}.
#[export] Instance NF9_TEMPLATE_FLOWSET_HEADER_laws : PackedLaws NF9_TEMPLATE_FLOWSET_HEADER.
Proof. packed_laws. Qed.

Record NF9_TEMPLATE_FLOWSET_RECORD := Mk_NF9_TEMPLATE_FLOWSET_RECORD {
  nf9tr_type : Z;
  nf9tr_length : Z
}.
#[export] Instance NF9_TEMPLATE_FLOWSET_RECORD_packed : Packed NF9_TEMPLATE_FLOWSET_RECORD := {|
  widths := [2; 2]%nat;
  to_ints r := [nf9tr_type r; nf9tr_length r];
  of_ints l :=
    match l with
    | [x0; x1] => Mk_NF9_TEMPLATE_FLOWSET_RECORD x0 x1
    | _ => Mk_NF9_TEMPLATE_FLOWSET_RECORD 0 0
    end
|}.
#[export] Instance NF9_TEMPLATE_FLOWSET_RECORD_laws : PackedLaws NF9_TEMPLATE_FLOWSET_RECORD.
Proof. packed_laws. Qed.

(** ** Sizes *)

Definition NF1_MAXFLOWS : Z := 24.
Definition NF1_PACKET_SIZE (nflows : Z) : Z := sizeof NF1_HEADER + nflows * sizeof NF1_FLOW.
Definition NF5_MAXFLOWS : Z := 30.
Definition NF5_PACKET_SIZE (nflows : Z) : Z := sizeof NF5_HEADER + nflows * sizeof NF5_FLOW.
Definition NF7_MAXFLOWS : Z := 30.
Definition NF7_PACKET_SIZE (nflows : Z) : Z := sizeof NF7_HEADER + nflows * sizeof NF7_FLOW.

(** ** NetFlow 9 flowset and field types *)

Definition NF9_TEMPLATE_FLOWSET_ID : Z := 0.
Definition NF9_OPTIONS_FLOWSET_ID : Z := 1.
Definition NF9_MIN_RECORD_FLOWSET_ID : Z := 256.

Definition NF9_IN_BYTES : Z := 1.
Definition NF9_IN_PACKETS : Z := 2.
Definition NF9_IN_PROTOCOL : Z := 4.
Definition NF9_SRC_TOS : Z := 5.
Definition NF9_TCP_FLAGS : Z := 6.
Definition NF9_L4_SRC_PORT : Z := 7.
Definition NF9_IPV4_SRC_ADDR : Z := 8.
Definition NF9_SRC_MASK : Z := 9.
Definition NF9_INPUT_SNMP : Z := 10.
Definition NF9_L4_DST_PORT : Z := 11.
Definition NF9_IPV4_DST_ADDR : Z := 12.
Definition NF9_DST_MASK : Z := 13.
Definition NF9_OUTPUT_SNMP : Z := 14.
Definition NF9_IPV4_NEXT_HOP : Z := 15.
Definition NF9_SRC_AS : Z := 16.
Definition NF9_DST_AS : Z := 17.
Definition NF9_LAST_SWITCHED : Z := 21.
Definition NF9_FIRST_SWITCHED : Z := 22.
Definition NF9_IPV6_SRC_ADDR : Z := 27.
Definition NF9_IPV6_DST_ADDR : Z := 28.
Definition NF9_IPV6_SRC_MASK : Z := 29.
Definition NF9_IPV6_DST_MASK : Z := 30.
Definition NF9_ENGINE_TYPE : Z := 38.
Definition NF9_ENGINE_ID : Z := 39.
Definition NF9_IPV6_NEXT_HOP : Z := 62.
