(* ===== verification/Flowd.v ===== *)
(** * The collector (src/flowd/flowd.c)

    The input queue, the output queue in front of the log, the handling of one
    flow, the NetFlow 1, 5, 7 and 9 packet parsers and the reception of packets.
    The state [fstate] gathers the globals and the structures that the functions
    share; libc calls that fail or wait are arguments or traces in the state. *)

From stdpp Require Import gmap.
From S2P Require Import Prelude Packed Addr StoreTypes Store StoreSwab.
From S2P Require Import StoreFile Filter Peer Netflow.

(** ** State *)

Record flow_packet := Mk_flow_packet {
  fp_recv_time : Z * Z;          (* tv_sec, tv_usec *)
  fp_flow_source : xaddr;
  fp_packet : bytes              (* of fp->len bytes *)
}.
Definition fp_len (fp : flow_packet) : Z := Z.of_nat (length (fp_packet fp)).

(** The output queue: its contents and the size of its allocation, which is 0
    for the null pointer. *)
Record outq := Mk_outq { oq_data : bytes; oq_alloc : Z }.
Definition output_queue_offset (q : outq) : Z := Z.of_nat (length (oq_data q)).

(** The connection to the log socket: the errno of each send that fails, None for
    one that succeeds, and the datagrams sent. *)
Record logsock := Mk_logsock { ls_sends : list (option Z); ls_sent : list bytes }.

Record fstate := Mk_fstate {
  fs_peers : peers;
  fs_filter : list filter_rule;
  fs_outq : outq;
  fs_log : option fdesc;             (* None for log_fd == -1 *)
  fs_envs : list put_env;            (* behaviour of the writes to the log *)
  fs_socket : option logsock;        (* None for log_socket == -1 *)
  fs_first_error : Z;                (* logsock_first_error *)
  fs_num_errors : Z;                 (* logsock_num_errors *)
  fs_added : list store_flow_complete;   (* flows handed to Add_flow *)
  fs_input : list flow_packet        (* input_queue *)
}.

Definition set_fs_peers (v : peers) (s : fstate) : fstate :=
  Mk_fstate v (fs_filter s) (fs_outq s) (fs_log s) (fs_envs s) (fs_socket s) (fs_first_error s)
    (fs_num_errors s) (fs_added s) (fs_input s).
Definition set_fs_filter (v : list filter_rule) (s : fstate) : fstate :=
  Mk_fstate (fs_peers s) v (fs_outq s) (fs_log s) (fs_envs s) (fs_socket s) (fs_first_error s)
    (fs_num_errors s) (fs_added s) (fs_input s).
Definition set_fs_outq (v : outq) (s : fstate) : fstate :=
  Mk_fstate (fs_peers s) (fs_filter s) v (fs_log s) (fs_envs s) (fs_socket s) (fs_first_error s)
    (fs_num_errors s) (fs_added s) (fs_input s).
Definition set_fs_log (d : option fdesc) (e : list put_env) (s : fstate) : fstate :=
  Mk_fstate (fs_peers s) (fs_filter s) (fs_outq s) d e (fs_socket s) (fs_first_error s)
    (fs_num_errors s) (fs_added s) (fs_input s).
Definition set_fs_socket (v : option logsock) (s : fstate) : fstate :=
  Mk_fstate (fs_peers s) (fs_filter s) (fs_outq s) (fs_log s) (fs_envs s) v (fs_first_error s)
    (fs_num_errors s) (fs_added s) (fs_input s).
Definition set_fs_errors (first num : Z) (s : fstate) : fstate :=
  Mk_fstate (fs_peers s) (fs_filter s) (fs_outq s) (fs_log s) (fs_envs s) (fs_socket s) first num
    (fs_added s) (fs_input s).
Definition set_fs_added (v : list store_flow_complete) (s : fstate) : fstate :=
  Mk_fstate (fs_peers s) (fs_filter s) (fs_outq s) (fs_log s) (fs_envs s) (fs_socket s)
    (fs_first_error s) (fs_num_errors s) v (fs_input s).
Definition set_fs_input (v : list flow_packet) (s : fstate) : fstate :=
  Mk_fstate (fs_peers s) (fs_filter s) (fs_outq s) (fs_log s) (fs_envs s) (fs_socket s)
    (fs_first_error s) (fs_num_errors s) (fs_added s) v.

Definition INPUT_MAX_PACKET_PER_FD : nat := 512%nat.
Definition OUTPUT_INITIAL_QLEN : Z := 16384.
Definition OUTPUT_MAX_QLEN : Z := 524288.
Definition ENOBUFS : Z := 105.

(** The configuration and the libc calls that a run depends on. *)
Record fenv := Mk_fenv {
  fe_localtime : Z -> tm;
  fe_time : Z;                       (* time(NULL) *)
  fe_now : Z * Z;                    (* gettimeofday *)
  fe_malloc : Z -> bool;             (* whether an allocation of this size succeeds *)
  fe_store_mask : Z;
  fe_verbose : bool;                 (* FLOWD_OPT_VERBOSE *)
  fe_devices : list (xaddr * Z)      (* allowed_devices *)
}.

Section flowd.
Context (env : fenv).

(** ** Input queue *)

Definition flow_packet_enqueue (fp : flow_packet) (s : fstate) : fstate :=
  set_fs_input (fs_input s ++ [fp]) s.
Definition flow_packet_dequeue (s : fstate) : option flow_packet * fstate :=
  match fs_input s with
  | [] => (None, s)
  | fp :: q => (Some fp, set_fs_input q s)
  end.

(** ** Output queue *)

(** The loop that doubles the allocation until [need] bytes fit: whether it got
    there, and the size it left. *)
Fixpoint grow (fuel : nat) (alloc need : Z) : outcome (bool * Z) :=
  match fuel with
  | O => Diverges
  | S fuel =>
      if alloc <? need then
        let tmp_len := alloc * 2 in
        if OUTPUT_MAX_QLEN <? tmp_len then Ret (false, alloc)
        else if negb (fe_malloc env tmp_len) then Ret (false, alloc)
        else grow fuel tmp_len need
      else Ret (true, alloc)
  end.

Definition output_flow_enqueue (f : bytes) (q : outq) : outcome (Z * outq) :=
  let len := Z.of_nat (length f) in
  if OUTPUT_MAX_QLEN <? output_queue_offset q + len then Ret (-1, q)
  else
    let! q :=
      if oq_alloc q =? 0 then
        if fe_malloc env OUTPUT_INITIAL_QLEN then Ret (Mk_outq (oq_data q) OUTPUT_INITIAL_QLEN)
        else Fatal
      else Ret q in
    let! (ok, alloc) := grow 64 (oq_alloc q) (output_queue_offset q + len) in
    if ok then Ret (0, Mk_outq (oq_data q ++ f) alloc) else Ret (-1, Mk_outq (oq_data q) alloc).

Definition output_flow_flush (s : fstate) : outcome fstate :=
  match fs_log s with
  | None => Ret s
  | Some d =>
      if output_queue_offset (fs_outq s) =? 0 then Ret s
      else
        match fs_envs s with
        | [] => Diverges
        | e :: envs =>
            let! (r, d) := store_put_buf e d (oq_data (fs_outq s)) in
            if negb (r =? STORE_ERR_OK) then Fatal
            else Ret (set_fs_outq (Mk_outq [] (oq_alloc (fs_outq s)))
                        (set_fs_log (Some d) envs s))
        end
  end.

(** ** One flow *)

(** Queue a record, flushing the queue and trying once more when it is full. *)
Definition log_record (out : bytes) (s : fstate) : outcome fstate :=
  match fs_log s with
  | None => Ret s
  | Some _ =>
      let! (r, q) := output_flow_enqueue out (fs_outq s) in
      let s := set_fs_outq q s in
      if r =? -1 then
        let! s := output_flow_flush s in
        let! (r, q) := output_flow_enqueue out (fs_outq s) in
        let s := set_fs_outq q s in
        if r =? -1 then Fatal else Ret s
      else Ret s
  end.

(** The attempt to send a record on the log socket and the error counters. *)
Definition send_record (out : bytes) (s : fstate) : fstate :=
  let success s :=
    let num := if 0 <? fs_num_errors s then fs_num_errors s - 1 else fs_num_errors s in
    set_fs_errors (if num =? 0 then 0 else fs_first_error s) num s in
  match fs_socket s with
  | None => success s
  | Some k =>
      match ls_sends k with
      | Some errno :: sends =>
          let s := set_fs_socket (Some (Mk_logsock sends (ls_sent k))) s in
          if errno =? ENOBUFS then s
          else
            set_fs_errors (if fs_first_error s =? 0 then fe_time env else fs_first_error s)
              (fs_num_errors s + 1) s
      | None :: sends => success (set_fs_socket (Some (Mk_logsock sends (ls_sent k ++ [out]))) s)
      | [] => success (set_fs_socket (Some (Mk_logsock [] (ls_sent k ++ [out]))) s)
      end
  end.

(** The record as process_flow prepares it for the filter. *)
Definition prepare_flow (flow : store_flow_complete) : store_flow_complete :=
  let flow := set_hdr_fields (htonl (fields (fl_hdr flow))) flow in
  set_fl_recv_time (Mk_store_flow_RECV_TIME (htonl (recv_sec (fl_recv_time flow)))
                      (htonl (recv_usec (fl_recv_time flow)))) flow.

Definition process_flow (s : fstate) (flow : store_flow_complete) : outcome fstate :=
  if negb (af (fl_src_addr flow) =? af (fl_dst_addr flow)) then Ret s
  else
    let flow := prepare_flow flow in
    let '(filtres, flow, filter) := filter_flow (fe_localtime env) flow (fs_filter s) in
    let s := set_fs_filter filter s in
    let s := if fe_verbose env then set_fs_added (fs_added s ++ [flow]) s else s in
    if filtres =? FF_ACTION_DISCARD then Ret s
    else
      let! (r, out, flow) := store_flow_serialise_masked flow (fe_store_mask env) 1024 in
      if negb (r =? STORE_ERR_OK) then Fatal
      else
        let! s := log_record out s in
        Ret (send_record out s).

(** ** NetFlow 1, 5 and 7 *)

Definition add_invalid (p : loc) (s : fstate) : outcome fstate :=
  let! peer := peer_get (fs_peers s) p in
  Ret (set_fs_peers (peer_put (fs_peers s) p
         (set_ninvalid (wrap64 (ninvalid peer + 1)) peer)) s).

Definition valid_packet (p : loc) (nflows version : Z) (s : fstate) : outcome fstate :=
  let! ps := update_peer (fs_peers s) p nflows version (fe_now env) in
  Ret (set_fs_peers ps s).

(** &= ~STORE_FIELD_... for each of the fields. *)
Definition clear_fields (fields : Z) (flags : list Z) : Z :=
  fold_left (fun f flag => Z.land f (lnot32 flag)) flags fields.

(** NTO64: a 32-bit counter in network order as a 64-bit one. *)
Definition NTO64 (a : Z) : Z := store_htonll (ntohl a).

Definition inet_addr (s_addr : Z) : xaddr := Xaddr AF_INET [s_addr; 0; 0; 0] 0.

(** [tv_usec] is what the automatic variable [tv], which is never assigned,
    happens to hold. *)
Definition nf1_to_flow (tv_usec : Z) (fp : flow_packet) (h : NF1_HEADER) (f : NF1_FLOW)
    : store_flow_complete :=
  Mk_store_flow_complete
    (Mk_store_flow 0 0 0 (clear_fields STORE_FIELD_ALL
       [STORE_FIELD_TAG; STORE_FIELD_SRC_ADDR6; STORE_FIELD_DST_ADDR6; STORE_FIELD_GATEWAY_ADDR6;
        STORE_FIELD_AS_INFO; STORE_FIELD_FLOW_ENGINE_INFO]))
    (Mk_store_flow_TAG 0)
    (Mk_store_flow_RECV_TIME (wrap32 (fst (fp_recv_time fp))) (wrap32 tv_usec))
    (Mk_store_flow_PROTO_FLAGS_TOS (nf1_tcp_flags f) (nf1_protocol f) (nf1_tos f) 0)
    (fp_flow_source fp) (inet_addr (nf1_src_ip f)) (inet_addr (nf1_dest_ip f))
    (inet_addr (nf1_nexthop_ip f))
    (Mk_store_flow_SRCDST_PORT (nf1_src_port f) (nf1_dest_port f))
    (Mk_store_flow_PACKETS (NTO64 (nf1_flow_packets f)))
    (Mk_store_flow_OCTETS (NTO64 (nf1_flow_octets f)))
    (Mk_store_flow_IF_INDICES (htonl (ntohs (nf1_if_index_in f))) (htonl (ntohs (nf1_if_index_out f))))
    (Mk_store_flow_AGENT_INFO (nf1h_uptime_ms h) (nf1h_time_sec h) (nf1h_time_nanosec h)
       (nf1h_version h) 0)
    (Mk_store_flow_FLOW_TIMES (nf1_flow_start f) (nf1_flow_finish f))
    (Mk_store_flow_AS_INFO 0 0 0 0 0)
    (Mk_store_flow_FLOW_ENGINE_INFO 0 0 0 0)
    (Mk_store_flow_CRC32 0).

Definition nf5_to_flow (fp : flow_packet) (h : NF5_HEADER) (f : NF5_FLOW) : store_flow_complete :=
  Mk_store_flow_complete
    (Mk_store_flow 0 0 0 (clear_fields STORE_FIELD_ALL
       [STORE_FIELD_TAG; STORE_FIELD_SRC_ADDR6; STORE_FIELD_DST_ADDR6; STORE_FIELD_GATEWAY_ADDR6]))
    (Mk_store_flow_TAG 0)
    (Mk_store_flow_RECV_TIME (wrap32 (fst (fp_recv_time fp))) (wrap32 (snd (fp_recv_time fp))))
    (Mk_store_flow_PROTO_FLAGS_TOS (nf5_tcp_flags f) (nf5_protocol f) (nf5_tos f) 0)
    (fp_flow_source fp) (inet_addr (nf5_src_ip f)) (inet_addr (nf5_dest_ip f))
    (inet_addr (nf5_nexthop_ip f))
    (Mk_store_flow_SRCDST_PORT (nf5_src_port f) (nf5_dest_port f))
    (Mk_store_flow_PACKETS (NTO64 (nf5_flow_packets f)))
    (Mk_store_flow_OCTETS (NTO64 (nf5_flow_octets f)))
    (Mk_store_flow_IF_INDICES (htonl (ntohs (nf5_if_index_in f))) (htonl (ntohs (nf5_if_index_out f))))
    (Mk_store_flow_AGENT_INFO (nf5h_uptime_ms h) (nf5h_time_sec h) (nf5h_time_nanosec h)
       (nf5h_version h) 0)
    (Mk_store_flow_FLOW_TIMES (nf5_flow_start f) (nf5_flow_finish f))
    (Mk_store_flow_AS_INFO (nf5_src_as f) (nf5_dest_as f) (nf5_src_mask f) (nf5_dst_mask f) 0)
    (Mk_store_flow_FLOW_ENGINE_INFO (nf5h_engine_type h) (nf5h_engine_id h) (nf5h_flow_sequence h) 0)
    (Mk_store_flow_CRC32 0).

Definition nf7_to_flow (fp : flow_packet) (h : NF7_HEADER) (f : NF7_FLOW) : store_flow_complete :=
  Mk_store_flow_complete
    (Mk_store_flow 0 0 0 (clear_fields STORE_FIELD_ALL
       [STORE_FIELD_TAG; STORE_FIELD_SRC_ADDR6; STORE_FIELD_DST_ADDR6; STORE_FIELD_GATEWAY_ADDR6]))
    (Mk_store_flow_TAG 0)
    (Mk_store_flow_RECV_TIME (wrap32 (fst (fp_recv_time fp))) (wrap32 (snd (fp_recv_time fp))))
    (Mk_store_flow_PROTO_FLAGS_TOS (nf7_tcp_flags f) (nf7_protocol f) (nf7_tos f) 0)
    (fp_flow_source fp) (inet_addr (nf7_src_ip f)) (inet_addr (nf7_dest_ip f))
    (inet_addr (nf7_nexthop_ip f))
    (Mk_store_flow_SRCDST_PORT (nf7_src_port f) (nf7_dest_port f))
    (Mk_store_flow_PACKETS (NTO64 (nf7_flow_packets f)))
    (Mk_store_flow_OCTETS (NTO64 (nf7_flow_octets f)))
    (Mk_store_flow_IF_INDICES (htonl (ntohs (nf7_if_index_in f))) (htonl (ntohs (nf7_if_index_out f))))
    (Mk_store_flow_AGENT_INFO (nf7h_uptime_ms h) (nf7h_time_sec h) (nf7h_time_nanosec h)
       (nf7h_version h) 0)
    (Mk_store_flow_FLOW_TIMES (nf7_flow_start f) (nf7_flow_finish f))
    (Mk_store_flow_AS_INFO (htonl (ntohs (nf7_src_as f))) (htonl (ntohs (nf7_dest_as f)))
       (nf7_src_mask f) (nf7_dst_mask f) 0)
    (Mk_store_flow_FLOW_ENGINE_INFO 0 0 (nf7h_flow_sequence h) 0)
    (Mk_store_flow_CRC32 0).

(** The loop over the flows of a packet of fixed-size records. *)
Definition each_flow {F} `{Packed F} (size : Z -> Z) (to_flow : F -> store_flow_complete)
    (packet : bytes) (nflows : Z) (s : fstate) : outcome fstate :=
  ofold (fun s i =>
    let! b := rd packet (size i) (sizeof F) in
    process_flow s (to_flow (decode b))) s (seqZ 0 nflows).

Definition process_netflow_v1 (tv_usec : Z) (fp : flow_packet) (p : loc) (s : fstate)
    : outcome fstate :=
  if fp_len fp <? sizeof NF1_HEADER then add_invalid p s
  else
    let! hb := rd (fp_packet fp) 0 (sizeof NF1_HEADER) in
    let nf1_hdr : NF1_HEADER := decode hb in
    let nflows := ntohs (nf1h_flows nf1_hdr) in
    if (nflows =? 0) || (NF1_MAXFLOWS <? nflows) then add_invalid p s
    else if negb (fp_len fp =? NF1_PACKET_SIZE nflows) then add_invalid p s
    else
      let! s := valid_packet p nflows 1 s in
      each_flow NF1_PACKET_SIZE (nf1_to_flow tv_usec fp nf1_hdr) (fp_packet fp) nflows s.

Definition process_netflow_v5 (fp : flow_packet) (p : loc) (s : fstate) : outcome fstate :=
  if fp_len fp <? sizeof NF5_HEADER then add_invalid p s
  else
    let! hb := rd (fp_packet fp) 0 (sizeof NF5_HEADER) in
    let nf5_hdr : NF5_HEADER := decode hb in
    let nflows := ntohs (nf5h_flows nf5_hdr) in
    if (nflows =? 0) || (NF5_MAXFLOWS <? nflows) then add_invalid p s
    else if negb (fp_len fp =? NF5_PACKET_SIZE nflows) then add_invalid p s
    else
      let! s := valid_packet p nflows 5 s in
      each_flow NF5_PACKET_SIZE (nf5_to_flow fp nf5_hdr) (fp_packet fp) nflows s.

Definition process_netflow_v7 (fp : flow_packet) (p : loc) (s : fstate) : outcome fstate :=
  if fp_len fp <? sizeof NF7_HEADER then add_invalid p s
  else
    let! hb := rd (fp_packet fp) 0 (sizeof NF7_HEADER) in
    let nf7_hdr : NF7_HEADER := decode hb in
    let nflows := ntohs (nf7h_flows nf7_hdr) in
    if (nflows =? 0) || (NF7_MAXFLOWS <? nflows) then add_invalid p s
    else if negb (fp_len fp =? NF7_PACKET_SIZE nflows) then add_invalid p s
    else
      let! s := valid_packet p nflows 7 s in
      each_flow NF7_PACKET_SIZE (nf7_to_flow fp nf7_hdr) (fp_packet fp) nflows s.
End flowd.

(** ** NetFlow 9: fields *)

(** BE_COPY: the low-order bytes of a member of [w] bytes are replaced by [data],
    which must not be longer. *)
Definition BE_COPY (w : nat) (old : Z) (data : bytes) : outcome Z :=
  if (length data <=? w)%nat then Ret (le_val (take (w - length data) (le_bytes w old) ++ data))
  else Undef OutOfBounds.

(** memcpy of [data] over the address words. *)
Definition copy_addr (a : xaddr) (data : bytes) (family : Z) : outcome xaddr :=
  if (length data <=? 16)%nat then
    let b := data ++ drop (length data) (addr8 a) in
    Ret (Xaddr family [le_val (take 4 b); le_val (take 4 (drop 4 b));
                       le_val (take 4 (drop 8 b)); le_val (take 4 (drop 12 b))] (scope_id a))
  else Undef OutOfBounds.

(** The V9_FIELD and V9_FIELD_ADDR cases: the STORE_FIELD bit, and how to set the
    member from the bytes of the record. *)
Definition V9_FIELD (flag : Z) (w : nat) (get : store_flow_complete -> Z)
    (set : Z -> store_flow_complete -> store_flow_complete)
    (data : bytes) (flow : store_flow_complete) : outcome store_flow_complete :=
  let flow := set_hdr_fields (Z.lor (fields (fl_hdr flow)) flag) flow in
  let! v := BE_COPY w (get flow) data in Ret (set v flow).

Definition V9_FIELD_ADDR (flag family : Z) (get : store_flow_complete -> xaddr)
    (set : xaddr -> store_flow_complete -> store_flow_complete)
    (data : bytes) (flow : store_flow_complete) : outcome store_flow_complete :=
  let flow := set_hdr_fields (Z.lor (fields (fl_hdr flow)) flag) flow in
  let! a := copy_addr (get flow) data family in Ret (set a flow).

(** The switch of nf9_rec_to_flow, by record type. *)
Definition nf9_cases : list (Z * (bytes -> store_flow_complete -> outcome store_flow_complete)) :=
  [(NF9_IN_BYTES, V9_FIELD STORE_FIELD_OCTETS 8 (fun f => flow_octets (fl_octets f))
      (fun v => set_fl_octets (Mk_store_flow_OCTETS v)));
   (NF9_IN_PACKETS, V9_FIELD STORE_FIELD_PACKETS 8 (fun f => flow_packets (fl_packets f))
      (fun v => set_fl_packets (Mk_store_flow_PACKETS v)));
   (NF9_IN_PROTOCOL, V9_FIELD STORE_FIELD_PROTO_FLAGS_TOS 1 (fun f => protocol (fl_pft f))
      (fun v f => set_fl_pft (Mk_store_flow_PROTO_FLAGS_TOS (tcp_flags (fl_pft f)) v (tos (fl_pft f))
                    (pft_pad (fl_pft f))) f));
   (NF9_SRC_TOS, V9_FIELD STORE_FIELD_PROTO_FLAGS_TOS 1 (fun f => tos (fl_pft f))
      (fun v f => set_fl_pft (Mk_store_flow_PROTO_FLAGS_TOS (tcp_flags (fl_pft f)) (protocol (fl_pft f)) v
                    (pft_pad (fl_pft f))) f));
   (NF9_TCP_FLAGS, V9_FIELD STORE_FIELD_PROTO_FLAGS_TOS 1 (fun f => tcp_flags (fl_pft f))
      (fun v f => set_fl_pft (Mk_store_flow_PROTO_FLAGS_TOS v (protocol (fl_pft f)) (tos (fl_pft f))
                    (pft_pad (fl_pft f))) f));
   (NF9_L4_SRC_PORT, V9_FIELD STORE_FIELD_SRCDST_PORT 2 (fun f => src_port (fl_ports f))
      (fun v f => set_fl_ports (Mk_store_flow_SRCDST_PORT v (dst_port (fl_ports f))) f));
   (NF9_SRC_MASK, V9_FIELD STORE_FIELD_AS_INFO 1 (fun f => src_mask (fl_asinf f))
      (fun v f => set_fl_asinf (Mk_store_flow_AS_INFO (src_as (fl_asinf f)) (dst_as (fl_asinf f)) v
                    (dst_mask (fl_asinf f)) (asinf_pad (fl_asinf f))) f));
   (NF9_INPUT_SNMP, V9_FIELD STORE_FIELD_IF_INDICES 4 (fun f => if_index_in (fl_ifndx f))
      (fun v f => set_fl_ifndx (Mk_store_flow_IF_INDICES v (if_index_out (fl_ifndx f))) f));
   (NF9_L4_DST_PORT, V9_FIELD STORE_FIELD_SRCDST_PORT 2 (fun f => dst_port (fl_ports f))
      (fun v f => set_fl_ports (Mk_store_flow_SRCDST_PORT (src_port (fl_ports f)) v) f));
   (NF9_DST_MASK, V9_FIELD STORE_FIELD_AS_INFO 1 (fun f => dst_mask (fl_asinf f))
      (fun v f => set_fl_asinf (Mk_store_flow_AS_INFO (src_as (fl_asinf f)) (dst_as (fl_asinf f))
                    (src_mask (fl_asinf f)) v (asinf_pad (fl_asinf f))) f));
   (NF9_OUTPUT_SNMP, V9_FIELD STORE_FIELD_IF_INDICES 4 (fun f => if_index_out (fl_ifndx f))
      (fun v f => set_fl_ifndx (Mk_store_flow_IF_INDICES (if_index_in (fl_ifndx f)) v) f));
   (NF9_SRC_AS, V9_FIELD STORE_FIELD_AS_INFO 4 (fun f => src_as (fl_asinf f))
      (fun v f => set_fl_asinf (Mk_store_flow_AS_INFO v (dst_as (fl_asinf f)) (src_mask (fl_asinf f))
                    (dst_mask (fl_asinf f)) (asinf_pad (fl_asinf f))) f));
   (NF9_DST_AS, V9_FIELD STORE_FIELD_AS_INFO 4 (fun f => dst_as (fl_asinf f))
      (fun v f => set_fl_asinf (Mk_store_flow_AS_INFO (src_as (fl_asinf f)) v (src_mask (fl_asinf f))
                    (dst_mask (fl_asinf f)) (asinf_pad (fl_asinf f))) f));
   (NF9_LAST_SWITCHED, V9_FIELD STORE_FIELD_FLOW_TIMES 4 (fun f => flow_finish (fl_ftimes f))
      (fun v f => set_fl_ftimes (Mk_store_flow_FLOW_TIMES (flow_start (fl_ftimes f)) v) f));
   (NF9_FIRST_SWITCHED, V9_FIELD STORE_FIELD_FLOW_TIMES 4 (fun f => flow_start (fl_ftimes f))
      (fun v f => set_fl_ftimes (Mk_store_flow_FLOW_TIMES v (flow_finish (fl_ftimes f))) f));
   (NF9_IPV6_SRC_MASK, V9_FIELD STORE_FIELD_AS_INFO 1 (fun f => src_mask (fl_asinf f))
      (fun v f => set_fl_asinf (Mk_store_flow_AS_INFO (src_as (fl_asinf f)) (dst_as (fl_asinf f)) v
                    (dst_mask (fl_asinf f)) (asinf_pad (fl_asinf f))) f));
   (NF9_IPV6_DST_MASK, V9_FIELD STORE_FIELD_AS_INFO 1 (fun f => dst_mask (fl_asinf f))
      (fun v f => set_fl_asinf (Mk_store_flow_AS_INFO (src_as (fl_asinf f)) (dst_as (fl_asinf f))
                    (src_mask (fl_asinf f)) v (asinf_pad (fl_asinf f))) f));
   (NF9_ENGINE_TYPE, V9_FIELD STORE_FIELD_FLOW_ENGINE_INFO 2 (fun f => engine_type (fl_finf f))
      (fun v f => set_fl_finf (Mk_store_flow_FLOW_ENGINE_INFO v (engine_id (fl_finf f))
                    (flow_sequence (fl_finf f)) (source_id (fl_finf f))) f));
   (NF9_ENGINE_ID, V9_FIELD STORE_FIELD_FLOW_ENGINE_INFO 2 (fun f => engine_id (fl_finf f))
      (fun v f => set_fl_finf (Mk_store_flow_FLOW_ENGINE_INFO (engine_type (fl_finf f)) v
                    (flow_sequence (fl_finf f)) (source_id (fl_finf f))) f));
   (NF9_IPV4_SRC_ADDR, V9_FIELD_ADDR STORE_FIELD_SRC_ADDR4 AF_INET fl_src_addr set_fl_src_addr);
   (NF9_IPV4_DST_ADDR, V9_FIELD_ADDR STORE_FIELD_DST_ADDR4 AF_INET fl_dst_addr set_fl_dst_addr);
   (NF9_IPV4_NEXT_HOP,
      V9_FIELD_ADDR STORE_FIELD_GATEWAY_ADDR4 AF_INET fl_gateway_addr set_fl_gateway_addr);
   (NF9_IPV6_SRC_ADDR, V9_FIELD_ADDR STORE_FIELD_SRC_ADDR6 AF_INET6 fl_src_addr set_fl_src_addr);
   (NF9_IPV6_DST_ADDR, V9_FIELD_ADDR STORE_FIELD_DST_ADDR6 AF_INET6 fl_dst_addr set_fl_dst_addr);
   (NF9_IPV6_NEXT_HOP,
      V9_FIELD_ADDR STORE_FIELD_GATEWAY_ADDR6 AF_INET6 fl_gateway_addr set_fl_gateway_addr)].

Definition nf9_case (type : Z) : option (bytes -> store_flow_complete -> outcome store_flow_complete) :=
  snd <$> find (fun c => fst c =? type) nf9_cases.

(** [off] is where the data of the record starts in the packet; a type without a
    case reads nothing. *)
Definition nf9_rec_to_flow (rec : nf9_record) (flow : store_flow_complete) (packet : bytes) (off : Z)
    : outcome store_flow_complete :=
  match nf9_case (rec_type rec) with
  | None => Ret flow
  | Some f => let! data := rd packet off (rec_len rec) in f data flow
  end.

(** The sizes of the members that the switch of nf9_check_rec_len names. *)
Definition nf9_sizes : list (Z * Z) :=
  [(NF9_IN_BYTES, 8); (NF9_IN_PACKETS, 8); (NF9_IN_PROTOCOL, 1); (NF9_SRC_TOS, 1);
   (NF9_TCP_FLAGS, 1); (NF9_L4_SRC_PORT, 2); (NF9_IPV4_SRC_ADDR, 4); (NF9_SRC_MASK, 1);
   (NF9_INPUT_SNMP, 4); (NF9_L4_DST_PORT, 2); (NF9_IPV4_DST_ADDR, 4); (NF9_DST_MASK, 1);
   (NF9_OUTPUT_SNMP, 4); (NF9_IPV4_NEXT_HOP, 4); (NF9_SRC_AS, 4); (NF9_DST_AS, 4);
   (NF9_LAST_SWITCHED, 4); (NF9_FIRST_SWITCHED, 4); (NF9_IPV6_SRC_ADDR, 16);
   (NF9_IPV6_DST_ADDR, 16); (NF9_IPV6_SRC_MASK, 1); (NF9_IPV6_DST_MASK, 1); (NF9_ENGINE_TYPE, 2);
   (NF9_ENGINE_ID, 2); (NF9_IPV6_NEXT_HOP, 16)].

Definition nf9_check_rec_len (type len : Z) : bool :=
  if (len =? 0) || (0x4000 <? len) then false
  else
    match find (fun c => fst c =? type) nf9_sizes with
    | Some c => len <=? snd c
    | None => true
    end.

(** The loop over the records of the template; [off] advances by their lengths. *)
Fixpoint nf9_records_to_flow (recs : list nf9_record) (flow : store_flow_complete) (packet : bytes)
    (off : Z) : outcome store_flow_complete :=
  match recs with
  | [] => Ret flow
  | r :: recs =>
      let! flow := nf9_rec_to_flow r flow packet off in
      nf9_records_to_flow recs flow packet (off + rec_len r)
  end.

(** [off] and [len] delimit the flow record in the packet; [None] for -1. *)
Definition nf9_flowset_to_store (packet : bytes) (off len : Z) (tv : Z * Z) (flow_source : xaddr)
    (h : NF9_HEADER) (t : nf9_template) (sid : Z) : outcome (option store_flow_complete) :=
  if len <? total_len t then Ret None
  else
    let flow := Mk_store_flow_complete
      (Mk_store_flow 0 0 0 (Z.lor STORE_FIELD_RECV_TIME (Z.lor STORE_FIELD_AGENT_INFO STORE_FIELD_AGENT_ADDR)))
      (Mk_store_flow_TAG 0)
      (Mk_store_flow_RECV_TIME (wrap32 (fst tv)) (wrap32 (snd tv)))
      (Mk_store_flow_PROTO_FLAGS_TOS 0 0 0 0)
      flow_source xaddr_zero xaddr_zero xaddr_zero
      (Mk_store_flow_SRCDST_PORT 0 0) (Mk_store_flow_PACKETS 0) (Mk_store_flow_OCTETS 0)
      (Mk_store_flow_IF_INDICES 0 0)
      (Mk_store_flow_AGENT_INFO (nf9h_uptime_ms h) (nf9h_time_sec h) 0 (nf9h_version h) 0)
      (Mk_store_flow_FLOW_TIMES 0 0) (Mk_store_flow_AS_INFO 0 0 0 0 0)
      (Mk_store_flow_FLOW_ENGINE_INFO 0 0 (nf9h_package_sequence h) (htonl sid))
      (Mk_store_flow_CRC32 0) in
    match records t with
    | None => if num_records t =? 0 then Ret (Some flow) else Undef NullDeref
    | Some recs => let! flow := nf9_records_to_flow recs flow packet off in Ret (Some flow)
    end.

(** ** NetFlow 9: flowsets *)

Section nf9.
Context (env : fenv).

(** The loop over the records of one template: [None] for the error returns, the
    records, the offset and the total size otherwise. *)
Fixpoint template_records (count : nat) (packet : bytes) (base len offset total max : Z)
    : outcome (option (list nf9_record * Z * Z)) :=
  match count with
  | O => Ret (Some ([], offset, total))
  | S count =>
      if len <=? offset then Ret None
      else
        let! b := rd packet (base + offset) (sizeof NF9_TEMPLATE_FLOWSET_RECORD) in
        let tmplr : NF9_TEMPLATE_FLOWSET_RECORD := decode b in
        let r := Mk_nf9_record (ntohs (nf9tr_type tmplr)) (ntohs (nf9tr_length tmplr)) in
        let offset := offset + sizeof NF9_TEMPLATE_FLOWSET_RECORD in
        let total := total + rec_len r in
        if max <? total then Ret None
        else if negb (nf9_check_rec_len (rec_type r) (rec_len r)) then Ret None
        else
          let! rest := template_records count packet base len offset total max in
          match rest with
          | None => Ret None
          | Some (recs, offset, total) => Ret (Some (r :: recs, offset, total))
          end
  end.

(** The loop over the templates of a flowset. *)
Fixpoint template_loop (fuel : nat) (packet : bytes) (base len offset : Z) (p : loc) (sid : Z)
    (s : fstate) : outcome (Z * fstate) :=
  match fuel with
  | O => Diverges
  | S fuel =>
      if offset <? len then
        let! b := rd packet (base + offset) (sizeof NF9_TEMPLATE_FLOWSET_HEADER) in
        let tmplh : NF9_TEMPLATE_FLOWSET_HEADER := decode b in
        let tid := ntohs (nf9th_template_id tmplh) in
        let count := ntohs (nf9th_count tmplh) in
        let offset := offset + sizeof NF9_TEMPLATE_FLOWSET_HEADER in
        let! r := template_records (Z.to_nat count) packet base len offset 0
                    (max_template_len (fs_peers s)) in
        match r with
        | None => let! s := add_invalid p s in Ret (-1, s)
        | Some (recs, offset, total_size) =>
            let! peer := peer_get (fs_peers s) p in
            let! peer :=
              match peer_nf9_find_template peer sid tid with
              | Some _ => Ret peer
              | None =>
                  peer_nf9_new_template peer (max_sources (fs_peers s)) (max_templates (fs_peers s))
                    sid tid
              end in
            let peer := peer_nf9_fill_template peer sid tid recs count total_size in
            template_loop fuel packet base len offset p sid
              (set_fs_peers (peer_put (fs_peers s) p peer) s)
        end
      else Ret (0, s)
  end.

(** The flowset is the [len] bytes of the packet at [base]. *)
Definition process_netflow_v9_template (packet : bytes) (base len : Z) (p : loc) (sid : Z)
    (s : fstate) : outcome (Z * fstate) :=
  if len <? sizeof NF9_FLOWSET_HEADER_COMMON then let! s := add_invalid p s in Ret (-1, s)
  else
    let! b := rd packet base (sizeof NF9_FLOWSET_HEADER_COMMON) in
    if negb (ntohs (nf9fs_flowset_id (decode b)) =? NF9_TEMPLATE_FLOWSET_ID) then Fatal
    else
      template_loop (S (Z.to_nat len)) packet base len (sizeof NF9_FLOWSET_HEADER_COMMON) p sid s.

(** The flows of a data flowset, [None] when one of them does not fit. *)
Fixpoint data_flows (n : nat) (packet : bytes) (off : Z) (tv : Z * Z) (src : xaddr)
    (h : NF9_HEADER) (t : nf9_template) (sid : Z) : outcome (option (list store_flow_complete)) :=
  match n with
  | O => Ret (Some [])
  | S n =>
      let! r := nf9_flowset_to_store packet off (total_len t) tv src h t sid in
      match r with
      | None => Ret None
      | Some flow =>
          let! rest := data_flows n packet (off + total_len t) tv src h t sid in
          Ret ((flow ::.) <$> rest)
      end
  end.

(** The result, the number of flows and the state. *)
Definition process_netflow_v9_data (fp : flow_packet) (base len : Z) (p : loc) (sid : Z)
    (h : NF9_HEADER) (s : fstate) : outcome (Z * Z * fstate) :=
  let szh := sizeof NF9_FLOWSET_HEADER_COMMON in
  if len <? szh then let! s := add_invalid p s in Ret (-1, 0, s)
  else
    let! b := rd (fp_packet fp) base szh in
    let flowset_id := ntohs (nf9fs_flowset_id (decode b)) in
    let! peer := peer_get (fs_peers s) p in
    match peer_nf9_find_template peer sid flowset_id with
    | None =>
        Ret (0, 0, set_fs_peers (peer_put (fs_peers s) p
                     (set_no_template (wrap64 (no_template peer + 1)) peer)) s)
    | Some t =>
        match records t with
        | None => Fatal
        | Some _ =>
            if total_len t =? 0 then Undef DivByZero
            else
              let num_flowsets := (len - szh) / total_len t in
              if (num_flowsets =? 0) || (0x4000 <? num_flowsets) then Ret (-1, 0, s)
              else
                let! flows := data_flows (Z.to_nat num_flowsets) (fp_packet fp) (base + szh)
                                (fp_recv_time fp) (from peer) h t sid in
                match flows with
                | None => let! s := add_invalid p s in Ret (-1, 0, s)
                | Some flows =>
                    let! s := ofold (process_flow env) s flows in
                    Ret (0, num_flowsets, s)
                end
        end
    end.

(** The loop over the flowsets of a packet: [None] for the returns from inside
    it, the number of flows when it comes to the end. *)
Fixpoint flowset_loop (fuel : nat) (fp : flow_packet) (p : loc) (sid : Z) (h : NF9_HEADER)
    (offset total : Z) (s : fstate) : outcome (option Z * fstate) :=
  match fuel with
  | O => Diverges
  | S fuel =>
      let next offset total s :=
        if offset =? fp_len fp then Ret (Some total, s)
        else flowset_loop fuel fp p sid h offset total s in
      if fp_len fp <=? offset then let! s := add_invalid p s in Ret (None, s)
      else
        let! b := rd (fp_packet fp) offset (sizeof NF9_FLOWSET_HEADER_COMMON) in
        let flowset : NF9_FLOWSET_HEADER_COMMON := decode b in
        let flowset_id := ntohs (nf9fs_flowset_id flowset) in
        let flowset_len := ntohs (nf9fs_length flowset) in
        if fp_len fp <? offset + flowset_len then let! s := add_invalid p s in Ret (None, s)
        else if flowset_id =? NF9_TEMPLATE_FLOWSET_ID then
          let! (r, s) := process_netflow_v9_template (fp_packet fp) offset flowset_len p sid s in
          if negb (r =? 0) then Ret (None, s) else next (offset + flowset_len) total s
        else if (flowset_id =? NF9_OPTIONS_FLOWSET_ID) || (flowset_id <? NF9_MIN_RECORD_FLOWSET_ID)
        then next (offset + flowset_len) total s
        else
          let! (r, flows, s) := process_netflow_v9_data fp offset flowset_len p sid h s in
          if negb (r =? 0) then Ret (None, s)
          else next (offset + flowset_len) (wrap32 (total + flows)) s
  end.

Definition process_netflow_v9 (fuel : nat) (fp : flow_packet) (p : loc) (s : fstate)
    : outcome fstate :=
  if fp_len fp <? sizeof NF9_HEADER then add_invalid p s
  else
    let! hb := rd (fp_packet fp) 0 (sizeof NF9_HEADER) in
    let h : NF9_HEADER := decode hb in
    let! (total, s) :=
      flowset_loop fuel fp p (ntohl (nf9h_source_id h)) h (sizeof NF9_HEADER) 0 s in
    match total with
    | None => Ret s
    | Some total => if 0 <? total then valid_packet env p total 9 s else Ret s
    end.
End nf9.

(** ** Receiving and dispatching packets *)

(** What a recvfrom call does: it fails with an errno, or gives a datagram (of at
    most 2048 bytes), the sender's address and its length. *)
Inductive recv :=
  | RecvError (errno : Z)
  | Recv (buf : bytes) (from : sockaddr) (fromlen : Z).

Definition sizeof_flow_packet : Z := 80.

Section dispatch.
Context (env : fenv).

(** recvfrom, again while it is interrupted. *)
Fixpoint recv_retry (t : list recv) : outcome (recv * list recv) :=
  match t with
  | [] => Diverges
  | RecvError e :: t => if e =? EINTR then recv_retry t else Ret (RecvError e, t)
  | r :: t => Ret (r, t)
  end.

(** The emulator's source of a packet: [None] for the value-less return,
    [Some None] when the packet names no monitor, [Some (Some a)] the address of
    the monitor. *)
Definition emulator_source (buf : bytes) : outcome (option (option Z)) :=
  let! v := rd_int buf 0 2 in
  if ntohs v =? 1 then
    let! a := rd_int buf 16 4 in Ret (Some (if 0 <? a then Some a else None))
  else if ntohs v =? 5 then
    let! a := rd_int buf 24 4 in Ret (Some (if 0 <? a then Some a else None))
  else Ret None.

(** The part of receive_packet after the source is known: 1 or 0, and the state. *)
Definition queue_packet (fp : flow_packet) (s : fstate) : outcome (Z * fstate) :=
  let! (peer, ps) :=
    match find_peer (fs_peers s) (fp_flow_source fp) with
    | Some p => Ret (Some p, fs_peers s)
    | None => new_peer (fs_peers s) (fe_devices env) (fp_flow_source fp) (fe_now env)
    end in
  let s := set_fs_peers ps s in
  match peer with
  | None => Ret (1, s)
  | Some p =>
      if fp_len fp <? sizeof NF_HEADER_COMMON then let! s := add_invalid p s in Ret (1, s)
      else if negb (fe_malloc env (fp_len fp)) then Ret (0, s)
      else Ret (1, flow_packet_enqueue fp s)
  end.

Definition receive_packet (t : list recv) (s : fstate) : outcome (Z * list recv * fstate) :=
  if negb (fe_malloc env sizeof_flow_packet) then Ret (0, t, s)
  else
    let! (r, t) := recv_retry t in
    match r with
    | RecvError _ => Ret (0, t, s)
    | Recv buf from fromlen =>
        if negb (fe_malloc env (Z.of_nat (length buf))) then Ret (0, t, s)
        else
          let! e := emulator_source buf in
          match e with
          | None => Undef MissingReturn
          | Some monitor =>
              let sa := match monitor with Some a => sockaddr_in 0 a | None => from end in
              match addr_sa_to_xaddr sa fromlen with
              | None => Ret (1, t, s)
              | Some src =>
                  let! (r, s) := queue_packet (Mk_flow_packet (fe_now env) src buf) s in
                  Ret (r, t, s)
              end
          end
    end.

Fixpoint receive_loop (n : nat) (t : list recv) (s : fstate) : outcome (list recv * fstate) :=
  match n with
  | O => Ret (t, s)
  | S n =>
      let! (r, t, s) := receive_packet t s in
      if r =? 0 then Ret (t, s) else receive_loop n t s
  end.
Definition receive_many : list recv -> fstate -> outcome (list recv * fstate) :=
  receive_loop INPUT_MAX_PACKET_PER_FD.

(** [fuel] bounds the flowsets of a NetFlow 9 packet and [tv_usec] is the value
    of the automatic variable that process_netflow_v1 does not set. *)
Definition process_packet (fuel : nat) (tv_usec : Z) (s : fstate) (fp : flow_packet) : outcome fstate :=
  match find_peer (fs_peers s) (fp_flow_source fp) with
  | None => Ret s
  | Some p =>
      let! v := rd_int (fp_packet fp) 0 2 in
      if ntohs v =? 1 then process_netflow_v1 env tv_usec fp p s
      else if ntohs v =? 5 then process_netflow_v5 env fp p s
      else if ntohs v =? 7 then process_netflow_v7 env fp p s
      else if ntohs v =? 9 then process_netflow_v9 env fuel fp p s
      else Ret s
  end.

Fixpoint input_loop (n fuel : nat) (tv_usec : Z) (s : fstate) : outcome fstate :=
  match n with
  | O => Diverges
  | S n =>
      match flow_packet_dequeue s with
      | (None, s) => Ret s
      | (Some fp, s) => let! s := process_packet fuel tv_usec s fp in input_loop n fuel tv_usec s
      end
  end.
Definition process_input_queue (fuel : nat) (tv_usec : Z) (s : fstate) : outcome fstate :=
  input_loop (S (length (fs_input s))) fuel tv_usec s.
End dispatch.
