(* ===== verification/FlowdProps.v ===== *)
(** * The collector: properties of flowd.c

    The output queue, the path of one flow from the parsers to the log, and the
    packet parsers: what they accept, what they log and that they stay inside
    the packet. *)

From stdpp Require Import gmap.
From S2P Require Import Prelude Packed Addr StoreTypes Store StoreProps.
From S2P Require Import StoreSwab StoreFile Filter Peer Netflow Flowd.

(** ** The output queue *)

(** The allocation is null or a power-of-two multiple of the initial one that
    holds the contents. *)
Definition outq_ok (q : outq) : Prop :=
  (oq_alloc q = 0 /\ oq_data q = []) \/
  (exists k, 0 <= k <= 5 /\ oq_alloc q = OUTPUT_INITIAL_QLEN * 2 ^ k /\
     output_queue_offset q <= oq_alloc q).

Definition malloc_ok (env : fenv) : Prop := forall n, fe_malloc env n = true.

Lemma grow_ok env fuel k need :
  malloc_ok env -> 0 <= k <= 5 -> need <= OUTPUT_MAX_QLEN -> 5 - k < Z.of_nat fuel ->
  exists k', k <= k' <= 5 /\ need <= OUTPUT_INITIAL_QLEN * 2 ^ k' /\
    grow env fuel (OUTPUT_INITIAL_QLEN * 2 ^ k) need = Ret (true, OUTPUT_INITIAL_QLEN * 2 ^ k').
Proof.
  intros Hm. revert k. induction fuel as [|fuel IH]; intros k Hk Hneed Hf; [lia|]. cbn [grow].
  destruct (Z.ltb_spec (OUTPUT_INITIAL_QLEN * 2 ^ k) need) as [Hlt|Hge].
  - assert (k < 5) as Hk5.
    { destruct (decide (k = 5)) as [->|]; [|lia]. change (OUTPUT_INITIAL_QLEN * 2 ^ 5) with OUTPUT_MAX_QLEN in Hlt. lia. }
    replace (OUTPUT_INITIAL_QLEN * 2 ^ k * 2) with (OUTPUT_INITIAL_QLEN * 2 ^ (k + 1))
      by (rewrite Z.pow_add_r by lia; lia).
    assert (2 ^ (k + 1) <= 2 ^ 5) as Hpow by (apply Z.pow_le_mono_r; lia).
    rewrite (proj2 (Z.ltb_ge _ _)) by (unfold OUTPUT_MAX_QLEN, OUTPUT_INITIAL_QLEN; lia).
    rewrite Hm. cbn [negb]. destruct (IH (k + 1)) as (k' & ? & ? & ->); [lia..|].
    exists k'. split; [lia|done].
  - exists k. split; [lia|]. by split.
Qed.

Lemma output_flow_enqueue_ok env q f :
  malloc_ok env -> outq_ok q ->
  (OUTPUT_MAX_QLEN < output_queue_offset q + Z.of_nat (length f) /\
   output_flow_enqueue env f q = Ret (-1, q)) \/
  (exists q', output_flow_enqueue env f q = Ret (0, q') /\ oq_data q' = oq_data q ++ f /\ outq_ok q').
Proof.
  intros Hm Hq. unfold output_flow_enqueue.
  destruct (Z.ltb_spec OUTPUT_MAX_QLEN (output_queue_offset q + Z.of_nat (length f))) as [|Hle]; [by left|].
  right. unfold output_queue_offset in *.
  assert (exists k, 0 <= k <= 5 /\
    (if oq_alloc q =? 0 then
       if fe_malloc env OUTPUT_INITIAL_QLEN then Ret (Mk_outq (oq_data q) OUTPUT_INITIAL_QLEN) else Fatal
     else Ret q) = Ret (Mk_outq (oq_data q) (OUTPUT_INITIAL_QLEN * 2 ^ k))) as (k & Hk & ->).
  { destruct Hq as [[H0 Hd]|(k & Hk & Ha & _)].
    - exists 0. rewrite H0, Hm. by split.
    - exists k. split; [done|]. rewrite (proj2 (Z.eqb_neq _ _)); [|rewrite Ha].
      + destruct q; cbn in *. by rewrite Ha.
      + pose proof (Z.pow_pos_nonneg 2 k). unfold OUTPUT_INITIAL_QLEN. lia. }
  cbn [obind oq_alloc oq_data].
  destruct (grow_ok env 64 k (Z.of_nat (length (oq_data q)) + Z.of_nat (length f)))
    as (k' & Hk' & Hfit & Hg); [done|done|done|lia|].
  unfold output_queue_offset. cbn [oq_data]. rewrite Hg. cbn [obind].
  eexists. split; [reflexivity|]. split; [done|]. right. exists k'. cbn.
  split; [lia|]. split; [done|]. unfold output_queue_offset. cbn. rewrite length_app. lia.
Qed.

(** C34: output_flow_enqueue with memory available returns: 0 with the record
    appended and an allocation that holds the queue, or -1 with the queue as it
    was, exactly when the queue with the record would be over the maximum. *)
Theorem output_flow_enqueue_spec env q f :
  malloc_ok env -> outq_ok q ->
  exists r q', output_flow_enqueue env f q = Ret (r, q') /\ outq_ok q' /\
    output_queue_offset q' <= oq_alloc q' <= OUTPUT_MAX_QLEN /\
    (if output_queue_offset q + Z.of_nat (length f) <=? OUTPUT_MAX_QLEN
     then r = 0 /\ oq_data q' = oq_data q ++ f
     else r = -1 /\ q' = q).
Proof.
  intros Hm Hq.
  assert (forall q, outq_ok q -> output_queue_offset q <= oq_alloc q <= OUTPUT_MAX_QLEN) as Hb.
  { intros q0 [[-> Hd]|(k & Hk & -> & Hle)].
    - unfold output_queue_offset. rewrite Hd. done.
    - assert (2 ^ k <= 2 ^ 5) by (apply Z.pow_le_mono_r; lia).
      split; [done|]. unfold OUTPUT_MAX_QLEN, OUTPUT_INITIAL_QLEN. lia. }
  destruct (output_flow_enqueue_ok env q f Hm Hq) as [[Hover Hr]|(q' & Hr & Hd & Hq')].
  - exists (-1), q. split; [done|]. split; [done|]. split; [by apply Hb|].
    by rewrite (proj2 (Z.leb_gt _ _)) by lia.
  - exists 0, q'. split; [done|]. split; [done|]. split; [by apply Hb|].
    rewrite (proj2 (Z.leb_le _ _)); [done|].
    pose proof (Hb q' Hq'). unfold output_queue_offset in *. rewrite Hd, length_app in *. lia.
Qed.

Definition sample_env : fenv :=
  Mk_fenv (fun s => Mk_tm (s mod 60) (s / 60 mod 60) (s / 3600 mod 24) (s / 86400 mod 7)) 1000
    (1000, 7) (fun _ => true) STORE_FIELD_ALL false [].

Lemma output_flow_enqueue_spec_witness :
  exists r q', output_flow_enqueue sample_env (replicate 300 1) (Mk_outq [] 0) = Ret (r, q') /\ r = 0.
Proof.
  destruct (output_flow_enqueue_spec sample_env (Mk_outq [] 0) (replicate 300 1))
    as (r & q' & H & _ & _ & Hr); [done|by left|].
  exists r, q'. split; [exact H|]. vm_compute in Hr. apply Hr.
Defined.

(** ** The state of the collector *)

(** The first [n] writes to the log succeed in the end. *)
Definition log_env_ok (e : put_env) : Prop :=
  pe_lseek e = None /\ benign (pe_writes e) /\ OUTPUT_MAX_QLEN <= chunks (pe_writes e).

Record flowd_ok (n : nat) (s : fstate) : Prop := {
  fo_log : exists d, fs_log s = Some d /\ position d = Z.of_nat (length (contents d));
  fo_envs : (n <= length (fs_envs s))%nat /\ Forall log_env_ok (fs_envs s);
  fo_outq : outq_ok (fs_outq s);
  fo_peers : peers_ok (fs_peers s)
}.

(** What has been written for the log: the log and the queue in front of it. *)
Definition output (s : fstate) : bytes :=
  match fs_log s with
  | Some d => contents d
  | None => []
  end ++ oq_data (fs_outq s).

(** Writing a record to the log does not touch the rest of the state. *)
Definition same_rest (s s' : fstate) : Prop :=
  fs_peers s' = fs_peers s /\ fs_filter s' = fs_filter s /\ fs_input s' = fs_input s /\
  fs_added s' = fs_added s.

Lemma output_flow_flush_ok n s :
  flowd_ok (S n) s ->
  exists s', output_flow_flush s = Ret s' /\ flowd_ok n s' /\ output s' = output s /\
    oq_data (fs_outq s') = [] /\ oq_alloc (fs_outq s') = oq_alloc (fs_outq s) /\ same_rest s s'.
Proof.
  intros [(d & Hd & Hp) [Hn Henv] Hq Hpe]. unfold output_flow_flush. rewrite Hd.
  destruct (Z.eqb_spec (output_queue_offset (fs_outq s)) 0) as [H0|Hne].
  { exists s. split; [done|]. split; [constructor; [by eexists|split; [lia|done]|done|done]|].
    split; [done|]. split; [|by split_and!]. unfold output_queue_offset in H0.
    destruct (oq_data (fs_outq s)); [done|simpl in H0; lia]. }
  destruct (fs_envs s) as [|e envs] eqn:Ee; [simpl in Hn; lia|].
  apply Forall_cons in Henv as [(Hs & Hb & Hc) Henv].
  assert (Z.of_nat (length (oq_data (fs_outq s))) <= OUTPUT_MAX_QLEN) as Hmax.
  { destruct Hq as [[_ ->]|(k & Hk & Ha & Hle)]; [done|]. unfold output_queue_offset in Hle.
    assert (2 ^ k <= 2 ^ 5) by (apply Z.pow_le_mono_r; lia).
    rewrite Ha in Hle. unfold OUTPUT_MAX_QLEN, OUTPUT_INITIAL_QLEN in *. lia. }
  unfold store_put_buf. rewrite Hs.
  destruct (atomicio_write_benign (pe_writes e) (contents d) (oq_data (fs_outq s)) 0) as (er & t' & Hw);
    [done|lia|lia|].
  rewrite <- appended_start, appended_full in Hw by done. rewrite Hw. cbn [obind].
  rewrite Z.eqb_refl. cbn [obind]. change (negb (STORE_ERR_OK =? STORE_ERR_OK)) with false. cbv iota.
  eexists. split; [reflexivity|]. split; [|split; [|split; [done|split; [done|by split_and!]]]].
  - constructor; cbn; [eexists; by split|split; [simpl in Hn; lia|done]| |done].
    destruct Hq as [[Ha _]|(k & Hk & Ha & _)]; [left; by split|]. right. exists k.
    split; [done|]. split; [done|]. unfold output_queue_offset. cbn. rewrite Ha.
    pose proof (Z.pow_pos_nonneg 2 k). unfold OUTPUT_INITIAL_QLEN. lia.
  - unfold output. rewrite Hd. cbn. by rewrite app_nil_r.
Qed.

(** A record goes to the end of the output; the queue is flushed at most once. *)
Lemma log_record_ok env n s out :
  malloc_ok env -> flowd_ok (S n) s -> Z.of_nat (length out) <= 1024 ->
  exists s', log_record env out s = Ret s' /\ flowd_ok n s' /\ output s' = output s ++ out /\
    same_rest s s'.
Proof.
  intros Hm Hok Hlen. pose proof Hok as [(d & Hd & Hp) [Hn Henv] Hq Hpe]. unfold log_record. rewrite Hd.
  destruct (output_flow_enqueue_ok env (fs_outq s) out Hm Hq) as [[_ ->]|(q' & -> & Hdata & Hq')]; cbn [obind].
  - change (-1 =? -1) with true. cbv iota.
    assert (set_fs_outq (fs_outq s) s = s) as -> by (by destruct s).
    destruct (output_flow_flush_ok n s Hok) as (s1 & -> & Hok1 & Ho1 & Hd1 & Ha1 & Hr1). cbn [obind].
    destruct (output_flow_enqueue_ok env (fs_outq s1) out Hm (fo_outq _ _ Hok1))
      as [[Hover _]|(q' & -> & Hdata & Hq')].
    { unfold output_queue_offset in Hover. rewrite Hd1 in Hover. unfold OUTPUT_MAX_QLEN in Hover. simpl in Hover. lia. }
    cbn [obind]. change (0 =? -1) with false. cbv iota. eexists. split; [reflexivity|].
    destruct Hok1 as [Hl1 He1 _ Hp1]. split; [by constructor|]. split; [|done].
    unfold output in *. cbn. rewrite <- Ho1, Hdata, app_assoc. done.
  - change (0 =? -1) with false. cbv iota. eexists. split; [reflexivity|].
    split; [constructor; cbn; [by eexists|split; [lia|done]|done|done]|]. split; [|by split_and!].
    unfold output. cbn. by rewrite Hdata, app_assoc.
Qed.

Lemma send_record_rest env out s n :
  flowd_ok n s -> flowd_ok n (send_record env out s) /\ output (send_record env out s) = output s /\
    same_rest s (send_record env out s).
Proof.
  intros [H1 H2 H3 H4]. unfold send_record. cbv zeta.
  destruct (fs_socket s) as [k|]; [destruct (ls_sends k) as [|[e|] sends]; [|case_match|]|];
    (split; [by constructor|]); (split; [done|by split_and!]).
Qed.

(** ** One flow *)

(** The mask of the configuration selects the two forms of an address together. *)
Definition mask_ok (mask : Z) : Prop :=
  u32 mask /\
  has mask STORE_FIELD_AGENT_ADDR4 = has mask STORE_FIELD_AGENT_ADDR6 /\
  has mask STORE_FIELD_SRC_ADDR4 = has mask STORE_FIELD_SRC_ADDR6 /\
  has mask STORE_FIELD_DST_ADDR4 = has mask STORE_FIELD_DST_ADDR6 /\
  has mask STORE_FIELD_GATEWAY_ADDR4 = has mask STORE_FIELD_GATEWAY_ADDR6.

(** A flow as the parsers build it: the field word in host order with known bits,
    each address of a family that its bits ask for. *)
Definition flow_wf (f : store_flow_complete) : Prop :=
  flow_ok f /\ flow_flags_ok f (fields (fl_hdr f)) /\ unknown (fields (fl_hdr f)) = 0.

Lemma has_land f m i : 0 <= i -> has (Z.land f m) (2 ^ i) = has f (2 ^ i) && has m (2 ^ i).
Proof. intros Hi. by rewrite !has_testbit, Z.land_spec by done. Qed.
Lemma has_lor f m i : 0 <= i -> has (Z.lor f m) (2 ^ i) = has f (2 ^ i) || has m (2 ^ i).
Proof. intros Hi. by rewrite !has_testbit, Z.lor_spec by done. Qed.

Lemma addr_flags_land a f m i j :
  0 <= i -> 0 <= j -> has m (2 ^ i) = has m (2 ^ j) ->
  addr_flags_ok a (2 ^ i) (2 ^ j) f -> addr_flags_ok a (2 ^ i) (2 ^ j) (Z.land f m).
Proof.
  intros Hi Hj Hm. unfold addr_flags_ok. rewrite !has_land, Hm by done.
  destruct (has f (2 ^ i)), (has f (2 ^ j)), (has m (2 ^ j)); simpl; intuition congruence.
Qed.

Lemma flow_flags_land f fl mask : mask_ok mask -> flow_flags_ok f fl -> flow_flags_ok f (Z.land fl mask).
Proof.
  intros (_ & H1 & H2 & H3 & H4) (F1 & F2 & F3 & F4).
  split; [by apply (addr_flags_land _ _ _ 3 4)|].
  split; [by apply (addr_flags_land _ _ _ 5 6)|].
  split; [by apply (addr_flags_land _ _ _ 7 8)|by apply (addr_flags_land _ _ _ 9 10)].
Qed.

Lemma flow_flags_tag f fl : flow_flags_ok f fl -> flow_flags_ok f (Z.lor fl STORE_FIELD_TAG).
Proof.
  assert (forall a i j, 1 <= i -> 1 <= j -> addr_flags_ok a (2 ^ i) (2 ^ j) fl ->
            addr_flags_ok a (2 ^ i) (2 ^ j) (Z.lor fl STORE_FIELD_TAG)) as H.
  { intros a i j Hi Hj. unfold addr_flags_ok. change STORE_FIELD_TAG with (2 ^ 0).
    rewrite !has_lor, !(has_testbit (2 ^ 0)), !Z.pow2_bits_false, !orb_false_r by lia. done. }
  intros (F1 & F2 & F3 & F4). split; [by apply (H _ 3 4)|]. split; [by apply (H _ 5 6)|].
  split; [by apply (H _ 7 8)|by apply (H _ 9 10)].
Qed.

Lemma unknown_land fl mask : unknown fl = 0 -> unknown (Z.land fl mask) = 0.
Proof.
  unfold unknown. intros H. rewrite (Z.land_comm fl), <- Z.land_assoc, H. apply Z.land_0_r.
Qed.
Lemma unknown_tag fl : unknown fl = 0 -> unknown (Z.lor fl STORE_FIELD_TAG) = 0.
Proof. unfold unknown. intros H. by rewrite Z.land_lor_distr_l, H. Qed.

(** Assigning the field word keeps a record well formed. *)
Lemma set_hdr_fields_ok v f : flow_ok f -> u32 v -> flow_ok (set_hdr_fields v f).
Proof.
  intros [] Hv. constructor; try done.
  inversion ok_hdr as [|???? H1 R1]; subst. inversion R1 as [|???? H2 R2]; subst.
  inversion R2 as [|???? H3 R3]; subst. unfold valid. cbn. valid_tac; done.
Qed.

(** The flow after the filter has a storable selection of its fields. *)
Lemma prepared_storable env filter mask f :
  flow_wf f -> mask_ok mask ->
  storable mask (snd (fst (filter_flow (fe_localtime env) (prepare_flow f) filter))).
Proof.
  intros (Hf & Hfl & Hu) Hm.
  assert (u32 (fields (fl_hdr f))) as Hfu.
  { destruct Hf as [Hh _ _ _ _ _ _ _ _ _ _ _ _ _ _ _ _].
    inversion Hh as [|???? H1 R1]; subst. inversion R1 as [|???? H2 R2]; subst.
    inversion R2 as [|???? H3 R3]; subst. by inversion R3. }
  assert (flow_ok (prepare_flow f)) as Hp.
  { unfold prepare_flow. pose proof (set_hdr_fields_ok (htonl (fields (fl_hdr f))) f Hf (htonl_u32 _)) as [].
    constructor; try done. unfold valid. cbn. valid_tac; apply htonl_u32. }
  set (g := snd (fst (filter_flow _ _ _))).
  assert (flow_ok g /\ exists fl, fields (fl_hdr g) = htonl fl /\ u32 fl /\ flow_flags_ok g fl /\ unknown fl = 0)
    as (Hg & fl & Hgf & Hflu & Hgfl & Hgu).
  { destruct (filter_flow_flow (fe_localtime env) (prepare_flow f) filter) as [E|[t E]]; subst g; rewrite E.
    - split; [done|]. exists (fields (fl_hdr f)). by split_and!.
    - set (v := htonl (Z.lor (ntohl (fields (fl_hdr (prepare_flow f)))) STORE_FIELD_TAG)).
      split.
      + unfold tag_flow. pose proof (set_hdr_fields_ok v (prepare_flow f) Hp (htonl_u32 _)) as [].
        constructor; try done. unfold valid. cbn. valid_tac; apply htonl_u32.
      + exists (Z.lor (fields (fl_hdr f)) STORE_FIELD_TAG). split.
        { unfold tag_flow. cbn -[htonl ntohl STORE_FIELD_TAG]. by rewrite ntohl_htonl. }
        split; [by apply u32_lor|]. split; [by apply flow_flags_tag|by apply unknown_tag]. }
  unfold storable. rewrite Hgf, ntohl_htonl by done.
  split; [done|]. split; [by apply flow_flags_land|by apply unknown_land].
Qed.

(** The bytes that a flow adds to the output. *)
Definition flow_output (env : fenv) (filter : list filter_rule) (flow : store_flow_complete) : bytes :=
  if negb (af (fl_src_addr flow) =? af (fl_dst_addr flow)) then []
  else
    let '(r, flow, _) := filter_flow (fe_localtime env) (prepare_flow flow) filter in
    if r =? FF_ACTION_DISCARD then []
    else
      match store_flow_serialise_masked flow (fe_store_mask env) 1024 with
      | Ret (_, out, _) => out
      | _ => []
      end.

Lemma same_rule_refl l : Forall2 same_rule l l.
Proof. induction l; by constructor. Qed.

Lemma flow_output_same env l l' flow :
  Forall2 same_rule l l' -> flow_output env l flow = flow_output env l' flow.
Proof.
  intros H. unfold flow_output. case_match; [done|].
  destruct (filter_flow_same (fe_localtime env) (prepare_flow flow) l l' H) as [E _].
  destruct (filter_flow _ _ l) as [[r g] k], (filter_flow _ _ l') as [[r' g'] k'].
  cbn in E. by injection E as -> ->.
Qed.

Lemma same_rule_trans l1 l2 l3 :
  Forall2 same_rule l1 l2 -> Forall2 same_rule l2 l3 -> Forall2 same_rule l1 l3.
Proof.
  intros H. revert l3. induction H as [|a b l1 l2 (A1 & A2 & A3) H IH]; intros l3 H3;
    inversion H3 as [|? c ? l4 (B1 & B2 & B3) H4]; subst; constructor; [|by apply IH].
  split; [congruence|]. split; congruence.
Qed.

(** The same peers with the same addresses. *)
Definition same_from (ps ps' : peers) : Prop :=
  max_template_len ps' = max_template_len ps /\
  forall q, from <$> pheap ps' !! q = from <$> pheap ps !! q.

Lemma same_from_refl ps : same_from ps ps.
Proof. done. Qed.

Lemma same_from_trans ps1 ps2 ps3 : same_from ps1 ps2 -> same_from ps2 ps3 -> same_from ps1 ps3.
Proof. intros (A1 & A2) (B1 & B2). split; [congruence|]. intros q. by rewrite B2. Qed.

Lemma same_from_put ps p s s' :
  pheap ps !! p = Some s -> from s' = from s -> same_from ps (peer_put ps p s').
Proof.
  intros Hs Hf. split; [done|]. intros q. cbn. destruct (decide (q = p)) as [->|Hq].
  - rewrite lookup_insert_eq, Hs. cbn. by rewrite Hf.
  - by rewrite lookup_insert_ne.
Qed.

Lemma same_from_update ps p n v now ps' : update_peer ps p n v now = Ret ps' -> same_from ps ps'.
Proof.
  unfold update_peer, peer_get. cbn [set_peer_list pheap]. intros Hup.
  destruct (pheap ps !! p) as [s|] eqn:Hs; [|done]. cbn [obind] in Hup. apply Ret_inj in Hup as <-.
  apply (same_from_put (set_peer_list (q_promote (is_loc p) (peer_list ps)) ps) p s); [exact Hs|done].
Qed.

(** What handling flows changes: their records go to the output in order; the
    rules, but for their counters, the input queue and the addresses of the peers
    stay the same. *)
Definition logged (env : fenv) (s s' : fstate) (flows : list store_flow_complete) : Prop :=
  output s' = output s ++ concat (flow_output env (fs_filter s) <$> flows) /\
  Forall2 same_rule (fs_filter s) (fs_filter s') /\ fs_input s' = fs_input s /\
  same_from (fs_peers s) (fs_peers s').

Lemma logged_nil env s s' :
  output s' = output s -> fs_filter s' = fs_filter s -> fs_input s' = fs_input s ->
  same_from (fs_peers s) (fs_peers s') -> logged env s s' [].
Proof.
  intros Ho Hf Hi Hs. split; [by rewrite Ho, app_nil_r|]. split; [|done]. rewrite Hf. apply same_rule_refl.
Qed.

Lemma logged_refl env s : logged env s s [].
Proof. by apply logged_nil. Qed.

Lemma logged_app env s1 s2 s3 l1 l2 :
  logged env s1 s2 l1 -> logged env s2 s3 l2 -> logged env s1 s3 (l1 ++ l2).
Proof.
  intros (O1 & R1 & I1 & F1) (O2 & R2 & I2 & F2). split.
  - rewrite fmap_app, concat_app, app_assoc, <- O1, O2. f_equal. f_equal.
    apply list_fmap_ext. intros i f _. symmetry. by apply flow_output_same.
  - split; [by eapply same_rule_trans|]. split; [congruence|]. by eapply same_from_trans.
Qed.

Lemma process_flow_ok env n s flow :
  malloc_ok env -> mask_ok (fe_store_mask env) -> flow_wf flow -> flowd_ok (S n) s ->
  exists s', process_flow env s flow = Ret s' /\ flowd_ok n s' /\
    logged env s s' [flow] /\ fs_peers s' = fs_peers s.
Proof.
  intros Hm Hmask Hwf Hok. unfold process_flow, logged. cbn [fmap list_fmap concat].
  rewrite app_nil_r. unfold flow_output.
  assert (flowd_ok n s) as Hok'. { destruct Hok as [? [? ?] ? ?]. constructor; [done|split; [lia|done]|done|done]. }
  pose proof (same_rule_refl (fs_filter s)) as Hrefl.
  destruct (af (fl_src_addr flow) =? af (fl_dst_addr flow)); cbn [negb].
  2:{ exists s. rewrite app_nil_r. by split_and!. }
  pose proof (prepared_storable env (fs_filter s) (fe_store_mask env) flow Hwf Hmask) as Hst.
  pose proof (proj2 (filter_flow_same (fe_localtime env) (prepare_flow flow) _ _ Hrefl)) as Hfs.
  destruct (filter_flow (fe_localtime env) (prepare_flow flow) (fs_filter s)) as [[r g] fl'].
  cbn [fst snd] in *.
  set (s1 := if fe_verbose env then _ else _).
  assert (flowd_ok (S n) s1 /\ flowd_ok n s1 /\ output s1 = output s /\ fs_peers s1 = fs_peers s /\
          fs_filter s1 = fl' /\ fs_input s1 = fs_input s) as (H1 & H1' & Ho & Hp1 & Hf1 & Hi1).
  { destruct Hok, Hok'. subst s1. by destruct (fe_verbose env); split_and!; try constructor. }
  destruct (r =? FF_ACTION_DISCARD).
  { exists s1. rewrite app_nil_r, Hf1, Hp1. by split_and!. }
  destruct (storable_serialise _ _ Hst) as (out & f' & Hser & Hrr & _).
  unfold store_flow_serialise_masked. cbv zeta. fold (masked g (fe_store_mask env)). rewrite Hser.
  cbn [obind]. change (negb (STORE_ERR_OK =? STORE_ERR_OK)) with false. cbv iota.
  destruct (log_record_ok env n s1 out Hm H1) as (s2 & -> & H2 & Ho2 & Hp2 & Hf2 & Hi2 & _); [lia|].
  cbn [obind]. destruct (send_record_rest env out s2 n H2) as (H3 & Ho3 & Hp3 & Hf3 & Hi3 & _).
  eexists. split; [reflexivity|]. split; [done|].
  rewrite Ho3, Ho2, Ho, Hp3, Hp2, Hp1, Hf3, Hf2, Hf1, Hi3, Hi2, Hi1.
  by split_and!.
Qed.

(** Several flows in order. *)
Lemma process_flows_ok env flows : forall n s,
  malloc_ok env -> mask_ok (fe_store_mask env) -> Forall flow_wf flows ->
  flowd_ok (length flows + n) s ->
  exists s', ofold (process_flow env) s flows = Ret s' /\ flowd_ok n s' /\
    logged env s s' flows /\ fs_peers s' = fs_peers s.
Proof.
  induction flows as [|f flows IH]; intros n s Hm Hmask Hwf Hok.
  - exists s. split; [done|]. split; [done|]. split; [apply logged_refl|done].
  - apply Forall_cons in Hwf as [Hf Hwf]. cbn [length Nat.add] in Hok.
    destruct (process_flow_ok env (length flows + n) s f) as (s1 & E & Hok1 & Hl1 & Hp1); [done..|].
    destruct (IH n s1) as (s2 & E2 & Hok2 & Hl2 & Hp2); [done..|].
    exists s2. cbn [ofold]. rewrite E. cbn [obind]. split; [done|]. split; [done|].
    split; [by apply (logged_app env s s1 s2 [f])|congruence].
Qed.

(** ** Packets of fixed-size records *)

Lemma ofold_ext {A S} (f g : S -> A -> outcome S) l :
  (forall s a, a ∈ l -> f s a = g s a) -> forall s, ofold f s l = ofold g s l.
Proof.
  induction l as [|a l IH]; intros H s; [done|]. cbn [ofold]. rewrite H by (by left).
  destruct (g s a); try done. apply IH. intros. apply H. by right.
Qed.

Lemma ofold_fmap {A B S} (f : S -> B -> outcome S) (h : A -> B) l :
  forall s, ofold (fun s a => f s (h a)) s l = ofold f s (h <$> l).
Proof.
  induction l as [|a l IH]; intros s; [done|]. cbn [ofold fmap list_fmap].
  destruct (f s (h a)); try done. apply IH.
Qed.

(** The record number [i] of a packet. *)
Definition nth_record {F} `{Packed F} (size : Z -> Z) (packet : bytes) (i : Z) : F :=
  decode (take (Z.to_nat (sizeof F)) (drop (Z.to_nat (size i)) packet)).

Lemma each_flow_eq {F} `{Packed F} env size (to_flow : F -> store_flow_complete) packet nflows s :
  0 <= sizeof F ->
  (forall i, 0 <= i < nflows -> 0 <= size i /\ size i + sizeof F <= Z.of_nat (length packet)) ->
  each_flow env size to_flow packet nflows s =
    ofold (process_flow env) s ((fun i => to_flow (nth_record size packet i)) <$> seqZ 0 nflows).
Proof.
  intros HF Hsize. unfold each_flow. rewrite <- ofold_fmap. apply ofold_ext. intros s' i Hi.
  apply elem_of_seqZ in Hi. destruct (Hsize i) as [Hpos Hle]; [lia|].
  unfold rd. by rewrite mem_read_in.
Qed.

Lemma nth_record_valid {F} `{PackedLaws F} size packet i :
  Forall u8 packet -> 0 <= size i -> size i + sizeof F <= Z.of_nat (length packet) ->
  valid (nth_record size packet i : F).
Proof.
  intros Hb Hpos Hle. apply decode_valid; [by apply Forall_take, Forall_drop|].
  rewrite length_take, length_drop. unfold sizeof in *. lia.
Qed.

Lemma fits_mono w w' v : (w <= w')%nat -> fits w v -> fits w' v.
Proof.
  unfold fits. intros Hw Hv. pose proof (Z.pow_le_mono_r 256 (Z.of_nat w) (Z.of_nat w')). lia.
Qed.

Lemma NTO64_fits v : fits 8 (NTO64 v).
Proof. apply store_ntohll_u64. apply ntohl_u32. Qed.

Lemma inet_addr_ok v : fits 4 v -> inet_ok (inet_addr v).
Proof.
  intros Hv. split; [|by left]. split; [done|]. split; [|done].
  apply Forall_cons; split; [exact Hv|by repeat constructor].
Qed.

Ltac member_fits :=
  lazymatch goal with
  | |- fits _ 0 => apply fits_0
  | |- fits _ (wrap32 _) => apply wrap32_u32
  | |- fits _ (htonl _) => apply htonl_u32
  | |- fits _ (NTO64 _) => apply NTO64_fits
  | |- fits _ (clear_fields _ _) => by (apply (bool_decide_unpack _); vm_compute; exact I)
  | |- _ => first [assumption|eapply fits_mono; [|eassumption]; lia
                  |apply (bool_decide_unpack _); vm_compute; exact I]
  end.

(** Validity of a flow that a parser builds, member by member. *)
Ltac flow_ok_members :=
  constructor; cbn [fl_hdr fl_tag fl_recv_time fl_pft fl_agent_addr fl_src_addr fl_dst_addr
    fl_gateway_addr fl_ports fl_packets fl_octets fl_ifndx fl_ainfo fl_ftimes fl_asinf fl_finf fl_crc32];
  lazymatch goal with
  | |- xaddr_ok (inet_addr _) => apply inet_addr_ok; assumption
  | |- xaddr_ok _ => assumption
  | |- valid _ => unfold valid; cbn -[wrap32 htonl ntohl ntohs NTO64 clear_fields fits];
      repeat (apply Forall2_cons; split; [member_fits|]); apply Forall2_nil; exact I
  end.

Lemma agent_flags_ok a fl :
  inet_ok a -> has fl STORE_FIELD_AGENT_ADDR4 = true -> has fl STORE_FIELD_AGENT_ADDR6 = true ->
  addr_flags_ok a STORE_FIELD_AGENT_ADDR4 STORE_FIELD_AGENT_ADDR6 fl.
Proof. intros [_ [H|H]] H4 H6; [left|right; left]; by rewrite H4, H6. Qed.

Lemma nf5_to_flow_wf fp h f :
  inet_ok (fp_flow_source fp) -> valid h -> valid f -> flow_wf (nf5_to_flow fp h f).
Proof.
  intros Hsrc Hh Hf. pose proof Hsrc as [Hs1 Hs2]. destruct h, f. valid_members.
  split; [|split; [|reflexivity]].
  - unfold nf5_to_flow. flow_ok_members.
  - split; [by apply agent_flags_ok|]. split_and!; left; by split.
Qed.

Lemma nf1_to_flow_wf tv_usec fp h f :
  inet_ok (fp_flow_source fp) -> valid h -> valid f -> flow_wf (nf1_to_flow tv_usec fp h f).
Proof.
  intros Hsrc Hh Hf. pose proof Hsrc as [Hs1 Hs2]. destruct h, f. valid_members.
  split; [|split; [|reflexivity]].
  - unfold nf1_to_flow. flow_ok_members.
  - split; [by apply agent_flags_ok|]. split_and!; left; by split.
Qed.

Lemma nf7_to_flow_wf fp h f :
  inet_ok (fp_flow_source fp) -> valid h -> valid f -> flow_wf (nf7_to_flow fp h f).
Proof.
  intros Hsrc Hh Hf. pose proof Hsrc as [Hs1 Hs2]. destruct h, f. valid_members.
  split; [|split; [|reflexivity]].
  - unfold nf7_to_flow. flow_ok_members.
  - split; [by apply agent_flags_ok|]. split_and!; left; by split.
Qed.

(** The flows of a packet with [n] records. *)
Definition packet_flows {F} `{Packed F} (size : Z -> Z) (to_flow : F -> store_flow_complete)
    (packet : bytes) (n : Z) : list store_flow_complete :=
  (fun i => to_flow (nth_record size packet i)) <$> seqZ 0 n.

(** What a parser needs of the rest of the program. *)
Record parse_ok (n : nat) (env : fenv) (fp : flow_packet) (p : loc) (s : fstate) : Prop := {
  pk_malloc : malloc_ok env;
  pk_mask : mask_ok (fe_store_mask env);
  pk_source : inet_ok (fp_flow_source fp);
  pk_bytes : Forall u8 (fp_packet fp);
  pk_state : flowd_ok n s;
  pk_peer : p ∈ peer_list (fs_peers s)
}.

(** An invalid packet: only the counter of its peer changes. *)
Definition rejected (p : loc) (s s' : fstate) : Prop :=
  exists peer, pheap (fs_peers s) !! p = Some peer /\
    s' = set_fs_peers (peer_put (fs_peers s) p (set_ninvalid (wrap64 (ninvalid peer + 1)) peer)) s.

(** A packet of [n] flows: the peer is the most recent one, the records of the
    flows go to the output in order. *)
Definition accepted (env : fenv) (p : loc) (flows : list store_flow_complete) (version : Z)
    (s s' : fstate) : Prop :=
  logged env s s' flows /\
  update_peer (fs_peers s) p (Z.of_nat (length flows)) version (fe_now env) = Ret (fs_peers s').

Lemma peer_lookup n s p :
  flowd_ok n s -> p ∈ peer_list (fs_peers s) -> exists peer, pheap (fs_peers s) !! p = Some peer.
Proof. intros [_ _ _ [[_ _ Hd _ _] _ _ _]] Hp. by apply Hd. Qed.

Lemma add_invalid_ok n s p :
  flowd_ok n s -> p ∈ peer_list (fs_peers s) ->
  exists s', add_invalid p s = Ret s' /\ flowd_ok n s' /\ rejected p s s'.
Proof.
  intros Hok Hp. destruct (peer_lookup n s p Hok Hp) as [peer Hpeer].
  unfold add_invalid, peer_get. rewrite Hpeer. cbn [obind].
  eexists. split; [reflexivity|]. split; [|by exists peer].
  destruct Hok as [H1 H2 H3 H4]. constructor; [done..|]. cbn.
  eapply peer_put_ok; [done|exact Hpeer|done|].
  destruct (to_heap _ (po_table _ H4) p peer Hpeer) as [_ Hnf9]. exact Hnf9.
Qed.

Lemma valid_packet_ok n env s p nflows version :
  flowd_ok n s -> p ∈ peer_list (fs_peers s) ->
  exists s', valid_packet env p nflows version s = Ret s' /\ flowd_ok n s' /\ logged env s s' [] /\
    update_peer (fs_peers s) p nflows version (fe_now env) = Ret (fs_peers s').
Proof.
  intros [H1 H2 H3 H4] Hp. unfold valid_packet.
  destruct (update_peer_ok (fs_peers s) p nflows version (fe_now env) H4 Hp) as (ps & E & Hok & _).
  rewrite E. cbn [obind]. eexists. split; [reflexivity|]. split; [by constructor|]. split; [|done].
  apply logged_nil; [done..|]. by eapply same_from_update.
Qed.

(** The loop of a parser over the records of a packet of the right length. *)
Lemma each_flow_ok {F} `{PackedLaws F} env size (to_flow : F -> store_flow_complete) fp p nflows n s s0
    version :
  0 <= sizeof F -> 0 <= nflows <= 30 ->
  (forall i, 0 <= i < nflows -> 0 <= size i /\ size i + sizeof F <= fp_len fp) ->
  (forall f, valid f -> flow_wf (to_flow f)) ->
  parse_ok (30 + n) env fp p s0 ->
  valid_packet env p nflows version s0 = Ret s ->
  exists s', each_flow env size to_flow (fp_packet fp) nflows s = Ret s' /\ flowd_ok n s' /\
    accepted env p (packet_flows size to_flow (fp_packet fp) nflows) version s0 s'.
Proof.
  intros HF Hn Hsize Hwf [Hm Hmask Hsrc Hbytes Hst Hpeer] Hv.
  destruct (valid_packet_ok _ env s0 p nflows version Hst Hpeer) as (s1 & E & Hok & Hl & Hup).
  rewrite E in Hv. apply Ret_inj in Hv as <-.
  rewrite each_flow_eq by done. fold (packet_flows size to_flow (fp_packet fp) nflows).
  set (flows := packet_flows size to_flow (fp_packet fp) nflows).
  assert (length flows = Z.to_nat nflows) as Hlen.
  { unfold flows, packet_flows. by rewrite length_fmap, length_seqZ. }
  destruct (process_flows_ok env flows n s1) as (s' & -> & Hok' & Hl' & Hp'); [done|done| | |].
  - apply Forall_fmap, Forall_forall. intros i Hi%elem_of_seqZ. apply Hwf.
    destruct (Hsize i) as [? ?]; [lia|]. by apply nth_record_valid.
  - destruct Hok as [? [? ?] ? ?]. constructor; [done|split; [lia|done]|done|done].
  - exists s'. split; [done|]. split; [done|]. split; [by apply (logged_app env s0 s1 s' [])|].
    rewrite Hp'. fold flows. rewrite Hlen, Z2Nat.id by lia. exact Hup.
Qed.

(** The three parsers have the same form. *)
Definition well_formed (hdr maxflows nflows len : Z) (size : Z -> Z) : bool :=
  (hdr <=? len) && negb ((nflows =? 0) || (maxflows <? nflows)) && (len =? size nflows).

Lemma rd_in packet n :
  0 <= n <= Z.of_nat (length packet) -> rd packet 0 n = Ret (take (Z.to_nat n) packet).
Proof. intros Hn. unfold rd. by rewrite mem_read_in, drop_0 by lia. Qed.

Lemma decode_take {A} `{Packed A} b : decode (take (Z.to_nat (sizeof A)) b) = decode b.
Proof.
  unfold decode, sizeof. rewrite Nat2Z.id. f_equal. generalize (widths A) as ws. intros ws.
  revert b. induction ws as [|w ws IH]; intros b; [done|]. cbn [dec_ints].
  change (sum_list (w :: ws)) with (w + sum_list ws)%nat. f_equal.
  - rewrite take_take. do 2 f_equal. lia.
  - rewrite skipn_firstn_comm. replace (w + sum_list ws - w)%nat with (sum_list ws) by lia. apply IH.
Qed.

(** The form of the three parsers. *)
Lemma fixed_parser_ok {H F} `{PackedLaws H} `{PackedLaws F} env max size (nfl : H -> Z)
    (to_flow : H -> F -> store_flow_complete) version n fp p s :
  0 <= sizeof F -> max <= 30 -> (forall h, 0 <= nfl h) ->
  (forall i, size i = sizeof H + i * sizeof F) ->
  (forall h f, valid h -> valid f -> flow_wf (to_flow h f)) ->
  parse_ok (30 + n) env fp p s ->
  let h : H := decode (fp_packet fp) in
  exists s',
    (if fp_len fp <? sizeof H then add_invalid p s
     else
       let! hb := rd (fp_packet fp) 0 (sizeof H) in
       let h : H := decode hb in
       if (nfl h =? 0) || (max <? nfl h) then add_invalid p s
       else if negb (fp_len fp =? size (nfl h)) then add_invalid p s
       else
         let! s := valid_packet env p (nfl h) version s in
         each_flow env size (to_flow h) (fp_packet fp) (nfl h) s) = Ret s' /\ flowd_ok n s' /\
    if well_formed (sizeof H) max (nfl h) (fp_len fp) size
    then accepted env p (packet_flows size (to_flow h) (fp_packet fp) (nfl h)) version s s'
    else rejected p s s'.
Proof.
  intros HF Hmax Hnfl Hsize Hwf Hok h. pose proof Hok as [Hm Hmask Hsrc Hbytes Hst Hpeer].
  destruct (add_invalid_ok _ s p Hst Hpeer) as (s1 & Hinv & Hok1 & Hrej).
  assert (flowd_ok n s1) as Hok1'.
  { destruct Hok1 as [? [? ?] ? ?]. constructor; [done|split; [lia|done]|done|done]. }
  unfold well_formed. cbv zeta.
  destruct (Z.ltb_spec (fp_len fp) (sizeof H)) as [Hs|Hs].
  { rewrite (proj2 (Z.leb_gt _ _)) by lia. by exists s1. }
  assert (0 <= sizeof H) as HH by (unfold sizeof; lia).
  rewrite (proj2 (Z.leb_le _ _)) by lia. unfold fp_len in Hs. rewrite rd_in by (by split).
  cbn [obind andb]. rewrite decode_take. fold h.
  destruct ((nfl h =? 0) || (max <? nfl h)) eqn:Hn; cbn [negb andb]; [by exists s1|].
  apply orb_false_iff in Hn as [Hn0%Z.eqb_neq Hn30%Z.ltb_ge].
  destruct (Z.eqb_spec (fp_len fp) (size (nfl h))) as [Hlen|]; cbn [negb]; [|by exists s1].
  destruct (valid_packet_ok _ env s p (nfl h) version Hst Hpeer) as (s2 & Hv & _). rewrite Hv. cbn [obind].
  assert (valid h) as Hh by (by apply decode_valid).
  pose proof (Hnfl h).
  apply (each_flow_ok env size (to_flow h) fp p (nfl h) n s2 s version); [done|lia| | |done|done].
  - intros i Hi. rewrite Hlen, !Hsize. nia.
  - intros f Hf. by apply Hwf.
Qed.

(** Version 5, and versions 1 and 7. *)
Lemma process_netflow_v5_ok n env fp p s :
  parse_ok (30 + n) env fp p s ->
  let h : NF5_HEADER := decode (fp_packet fp) in
  let nflows := ntohs (nf5h_flows h) in
  exists s', process_netflow_v5 env fp p s = Ret s' /\ flowd_ok n s' /\
    if well_formed (sizeof NF5_HEADER) NF5_MAXFLOWS nflows (fp_len fp) NF5_PACKET_SIZE
    then accepted env p (packet_flows NF5_PACKET_SIZE (nf5_to_flow fp h) (fp_packet fp) nflows) 5 s s'
    else rejected p s s'.
Proof.
  intros Hok h nflows.
  apply (fixed_parser_ok env NF5_MAXFLOWS NF5_PACKET_SIZE (fun h => ntohs (nf5h_flows h))
           (nf5_to_flow fp) 5 n fp p s); try done.
  - intros. apply ntohs_u16.
  - intros. apply nf5_to_flow_wf; [|done|done]. by apply Hok.
Qed.

Lemma process_netflow_v1_v7_ok n env fp p s tv_usec :
  parse_ok (30 + n) env fp p s ->
  (let h : NF1_HEADER := decode (fp_packet fp) in
   let nflows := ntohs (nf1h_flows h) in
   exists s', process_netflow_v1 env tv_usec fp p s = Ret s' /\ flowd_ok n s' /\
     if well_formed (sizeof NF1_HEADER) NF1_MAXFLOWS nflows (fp_len fp) NF1_PACKET_SIZE
     then accepted env p
            (packet_flows NF1_PACKET_SIZE (nf1_to_flow tv_usec fp h) (fp_packet fp) nflows) 1 s s'
     else rejected p s s') /\
  (let h : NF7_HEADER := decode (fp_packet fp) in
   let nflows := ntohs (nf7h_flows h) in
   exists s', process_netflow_v7 env fp p s = Ret s' /\ flowd_ok n s' /\
     if well_formed (sizeof NF7_HEADER) NF7_MAXFLOWS nflows (fp_len fp) NF7_PACKET_SIZE
     then accepted env p (packet_flows NF7_PACKET_SIZE (nf7_to_flow fp h) (fp_packet fp) nflows) 7 s s'
     else rejected p s s').
Proof.
  intros Hok. split.
  - apply (fixed_parser_ok env NF1_MAXFLOWS NF1_PACKET_SIZE (fun h => ntohs (nf1h_flows h))
             (nf1_to_flow tv_usec fp) 1 n fp p s); try done.
    + intros. apply ntohs_u16.
    + intros. apply nf1_to_flow_wf; [|done|done]. by apply Hok.
  - apply (fixed_parser_ok env NF7_MAXFLOWS NF7_PACKET_SIZE (fun h => ntohs (nf7h_flows h))
             (nf7_to_flow fp) 7 n fp p s); try done.
    + intros. apply ntohs_u16.
    + intros. apply nf7_to_flow_wf; [|done|done]. by apply Hok.
Qed.

(** Process_netflow_v5 on any bytes.  A packet whose length is that of its
    header and of the number of flows it announces, between 1 and 30, has its
    flows logged in order and its peer updated; any other packet is counted as
    invalid and changes nothing else. *)
Theorem process_netflow_v5_spec n env fp p s :
  parse_ok (30 + n) env fp p s ->
  let h : NF5_HEADER := decode (fp_packet fp) in
  let nflows := ntohs (nf5h_flows h) in
  exists s', process_netflow_v5 env fp p s = Ret s' /\ flowd_ok n s' /\
    if well_formed (sizeof NF5_HEADER) NF5_MAXFLOWS nflows (fp_len fp) NF5_PACKET_SIZE
    then accepted env p (packet_flows NF5_PACKET_SIZE (nf5_to_flow fp h) (fp_packet fp) nflows) 5 s s'
    else rejected p s s'.
Proof. exact (process_netflow_v5_ok n env fp p s). Qed.

(** The same for process_netflow_v1, with between 1 and 24 flows, whatever its
    uninitialised microseconds are, and for process_netflow_v7. *)
Theorem process_netflow_v1_v7_spec n env fp p s tv_usec :
  parse_ok (30 + n) env fp p s ->
  (let h : NF1_HEADER := decode (fp_packet fp) in
   let nflows := ntohs (nf1h_flows h) in
   exists s', process_netflow_v1 env tv_usec fp p s = Ret s' /\ flowd_ok n s' /\
     if well_formed (sizeof NF1_HEADER) NF1_MAXFLOWS nflows (fp_len fp) NF1_PACKET_SIZE
     then accepted env p
            (packet_flows NF1_PACKET_SIZE (nf1_to_flow tv_usec fp h) (fp_packet fp) nflows) 1 s s'
     else rejected p s s') /\
  (let h : NF7_HEADER := decode (fp_packet fp) in
   let nflows := ntohs (nf7h_flows h) in
   exists s', process_netflow_v7 env fp p s = Ret s' /\ flowd_ok n s' /\
     if well_formed (sizeof NF7_HEADER) NF7_MAXFLOWS nflows (fp_len fp) NF7_PACKET_SIZE
     then accepted env p (packet_flows NF7_PACKET_SIZE (nf7_to_flow fp h) (fp_packet fp) nflows) 7 s s'
     else rejected p s s').
Proof. exact (process_netflow_v1_v7_ok n env fp p s tv_usec). Qed.

(** ** Sample states *)

(** Writes that each accept five bytes, enough of them for a full queue. *)
Definition sample_writes : list syscall := replicate (Z.to_nat OUTPUT_MAX_QLEN) (Chunk 5).

(** A collector that knows the exporter 10.0.0.1, with [n] calls to the log. *)
Definition sample_state (n : nat) : fstate :=
  Mk_fstate sample_peers [] (Mk_outq [] 0) (Some (Mk_fdesc [] 0))
    (replicate n (Mk_put_env None sample_writes true true)) None 0 0 [] [].

Lemma chunks_replicate n k : 0 < k -> chunks (replicate n (Chunk k)) = Z.of_nat n.
Proof.
  intros Hk. induction n as [|n IH]; [done|]. cbn [replicate chunks].
  rewrite (proj2 (Z.ltb_lt _ _)) by done. lia.
Qed.

Lemma sample_state_ok n : flowd_ok n (sample_state n).
Proof.
  constructor.
  - by exists (Mk_fdesc [] 0).
  - unfold sample_state. cbn [fs_envs]. rewrite length_replicate. split; [done|].
    apply Forall_replicate. split; [done|]. cbn [pe_writes]. unfold sample_writes. split.
    + by apply Forall_replicate.
    + rewrite chunks_replicate by done. by rewrite Z2Nat.id.
  - by left.
  - apply sample_peers_ok.
Qed.

Definition sample_fp (packet : bytes) : flow_packet := Mk_flow_packet (1000, 7) (ip4 10 0 0 1) packet.

Lemma mask_ok_all : mask_ok STORE_FIELD_ALL.
Proof. split; [by split|]. by split_and!. Qed.

Lemma sample_parse_ok n packet :
  Forall u8 packet -> parse_ok n sample_env (sample_fp packet) 1%positive (sample_state n).
Proof.
  intros Hb. constructor.
  - done.
  - apply mask_ok_all.
  - inet4.
  - done.
  - apply sample_state_ok.
  - apply (bool_decide_unpack _). vm_compute. exact I.
Qed.

(** A packet of [version] and [n] records in [len] bytes. *)
Definition sample_packet (version n len : Z) : bytes :=
  [0; version; 0; n] ++ replicate (Z.to_nat (len - 4)) 1.

Lemma sample_packet_bytes version n len : u8 version -> u8 n -> Forall u8 (sample_packet version n len).
Proof.
  intros Hv Hn. unfold sample_packet. apply Forall_app.
  split; [|by apply Forall_replicate].
  do 4 (apply Forall_cons; split; [first [done|by split]|]). by apply Forall_nil.
Qed.

Lemma process_netflow_v5_spec_witness :
  let fp := sample_fp (sample_packet 5 2 140) in
  exists s' flows, process_netflow_v5 sample_env fp 1%positive (sample_state 31) = Ret s' /\
    accepted sample_env 1%positive flows 5 (sample_state 31) s' /\ length flows = 2%nat.
Proof.
  cbv zeta. destruct (process_netflow_v5_spec 1 sample_env (sample_fp (sample_packet 5 2 140)) 1%positive
    (sample_state 31)) as (s' & H & _ & Hr).
  - apply sample_parse_ok, sample_packet_bytes; done.
  - change (well_formed _ _ _ _ _) with true in Hr. cbv iota in Hr.
    exists s'. eexists. split; [exact H|]. split; [exact Hr|]. unfold packet_flows.
    rewrite length_fmap, length_seqZ. reflexivity.
Defined.

Lemma process_netflow_v1_v7_spec_witness :
  exists s', process_netflow_v7 sample_env (sample_fp (sample_packet 7 1 75)) 1%positive
               (sample_state 31) = Ret s' /\ rejected 1%positive (sample_state 31) s'.
Proof.
  destruct (process_netflow_v1_v7_spec 1 sample_env (sample_fp (sample_packet 7 1 75)) 1%positive
    (sample_state 31) 0) as [_ (s' & H & _ & Hr)].
  - apply sample_parse_ok, sample_packet_bytes; done.
  - change (well_formed _ _ _ _ _) with false in Hr. exists s'. split; [exact H|exact Hr].
Defined.
