(* ===== verification/Nf9Spec.v ===== *)
(** * The collector: what a NetFlow 9 packet means

    The flows that a packet gives, and the templates that are known after it, as a
    relation on the bytes of the packet: the templates of a peer as an association
    list, the members of a flow that a template describes, and the rules for
    template, options and data flowsets.  Nothing here refers to the operations of
    the parser; the lemmas at the end relate the template cache of Peer to the
    association list. *)

From stdpp Require Import gmap.
From S2P Require Import Prelude Addr StoreTypes Peer.

(** ** Reading *)

(** The number that bytes in network order stand for, a part of the packet, and the
    number in it. *)
Definition be_val (b : bytes) : Z := le_val (rev b).
Definition part (packet : bytes) (off n : Z) : bytes := take (Z.to_nat n) (drop (Z.to_nat off) packet).
Definition be_at (packet : bytes) (off n : Z) : Z := be_val (part packet off n).

(** ** Members *)

(** A numeric member: the record types that set it, its STORE_FIELD bit, its size
    and where it is. *)
Record number := Mk_number {
  n_types : list Z; n_flag : Z; n_width : nat; n_get : store_flow_complete -> Z
}.
Definition nf9_numbers : list number :=
  [Mk_number [1] STORE_FIELD_OCTETS 8 (fun f => flow_octets (fl_octets f));
   Mk_number [2] STORE_FIELD_PACKETS 8 (fun f => flow_packets (fl_packets f));
   Mk_number [4] STORE_FIELD_PROTO_FLAGS_TOS 1 (fun f => protocol (fl_pft f));
   Mk_number [5] STORE_FIELD_PROTO_FLAGS_TOS 1 (fun f => tos (fl_pft f));
   Mk_number [6] STORE_FIELD_PROTO_FLAGS_TOS 1 (fun f => tcp_flags (fl_pft f));
   Mk_number [7] STORE_FIELD_SRCDST_PORT 2 (fun f => src_port (fl_ports f));
   Mk_number [11] STORE_FIELD_SRCDST_PORT 2 (fun f => dst_port (fl_ports f));
   Mk_number [9; 29] STORE_FIELD_AS_INFO 1 (fun f => src_mask (fl_asinf f));
   Mk_number [13; 30] STORE_FIELD_AS_INFO 1 (fun f => dst_mask (fl_asinf f));
   Mk_number [10] STORE_FIELD_IF_INDICES 4 (fun f => if_index_in (fl_ifndx f));
   Mk_number [14] STORE_FIELD_IF_INDICES 4 (fun f => if_index_out (fl_ifndx f));
   Mk_number [16] STORE_FIELD_AS_INFO 4 (fun f => src_as (fl_asinf f));
   Mk_number [17] STORE_FIELD_AS_INFO 4 (fun f => dst_as (fl_asinf f));
   Mk_number [21] STORE_FIELD_FLOW_TIMES 4 (fun f => flow_finish (fl_ftimes f));
   Mk_number [22] STORE_FIELD_FLOW_TIMES 4 (fun f => flow_start (fl_ftimes f));
   Mk_number [38] STORE_FIELD_FLOW_ENGINE_INFO 2 (fun f => engine_type (fl_finf f));
   Mk_number [39] STORE_FIELD_FLOW_ENGINE_INFO 2 (fun f => engine_id (fl_finf f))].

(** An address: the record types for IPv4 and IPv6, their bits and where it is. *)
Record address := Mk_address {
  a_type4 : Z; a_type6 : Z; a_flag4 : Z; a_flag6 : Z; a_get : store_flow_complete -> xaddr
}.
Definition nf9_addresses : list address :=
  [Mk_address 8 27 STORE_FIELD_SRC_ADDR4 STORE_FIELD_SRC_ADDR6 fl_src_addr;
   Mk_address 12 28 STORE_FIELD_DST_ADDR4 STORE_FIELD_DST_ADDR6 fl_dst_addr;
   Mk_address 15 62 STORE_FIELD_GATEWAY_ADDR4 STORE_FIELD_GATEWAY_ADDR6 fl_gateway_addr].

(** The size of the member that a type sets, and its bit; none for other types. *)
Definition type_rows : list (Z * (nat * Z)) :=
  (nf9_numbers ≫= fun m => (fun ty => (ty, (n_width m, n_flag m))) <$> n_types m) ++
  (nf9_addresses ≫= fun a => [(a_type4 a, (4%nat, a_flag4 a)); (a_type6 a, (16%nat, a_flag6 a))]).
Definition type_row (type : Z) : option (nat * Z) := snd <$> find (fun r => fst r =? type) type_rows.
Definition type_flag (type : Z) : Z := from_option snd 0 (type_row type).

(** ** Flows *)

(** The records of a template with the places of their data, from [off] on. *)
Fixpoint placed (recs : list nf9_record) (off : Z) : list (nf9_record * Z) :=
  match recs with
  | [] => []
  | r :: recs => (r, off) :: placed recs (off + rec_len r)
  end.
Definition setting (types : list Z) (recs : list nf9_record) (off : Z) : list (nf9_record * Z) :=
  filter (fun x => rec_type (fst x) ∈ types) (placed recs off).

(** A number is zero when no record sets it, and what the bytes say when one does;
    of several the last one goes over what the others left. *)
Definition number_says (packet : bytes) (recs : list nf9_record) (off : Z) (f : store_flow_complete) (m : number) : Prop :=
  match setting (n_types m) recs off with
  | [] => n_get m f = 0
  | [(r, o)] => bswap (n_width m) (n_get m f) = be_at packet o (rec_len r)
  | _ => True
  end.

Definition address_says (packet : bytes) (recs : list nf9_record) (off : Z) (f : store_flow_complete) (a : address) : Prop :=
  match setting [a_type4 a; a_type6 a] recs off with
  | [] => a_get a f = xaddr_zero
  | [(r, o)] => af (a_get a f) = (if rec_type r =? a_type4 a then AF_INET else AF_INET6) /\
      addr8 (a_get a f) = part packet o (rec_len r) ++ replicate (16 - Z.to_nat (rec_len r)) 0
  | _ => True
  end.

(** The flow that the records of a template find at [off] in a packet that came at
    [tv] from [src]. *)
Record says9 (packet : bytes) (tv : Z * Z) (src : xaddr) (recs : list nf9_record) (off : Z) (f : store_flow_complete) : Prop := {
  s9_fields : fields (fl_hdr f) = foldl (fun n r => Z.lor n (type_flag (rec_type r)))
    (Z.lor STORE_FIELD_RECV_TIME (Z.lor STORE_FIELD_AGENT_INFO STORE_FIELD_AGENT_ADDR)) recs;
  s9_numbers : Forall (number_says packet recs off f) nf9_numbers;
  s9_addresses : Forall (address_says packet recs off f) nf9_addresses;
  s9_agent : fl_agent_addr f = src;
  s9_recv : recv_sec (fl_recv_time f) = wrap32 (fst tv) /\ recv_usec (fl_recv_time f) = wrap32 (snd tv);
  s9_version : bswap 2 (netflow_version (fl_ainfo f)) = be_at packet 0 2;
  s9_uptime : bswap 4 (sys_uptime_ms (fl_ainfo f)) = be_at packet 4 4;
  s9_time : bswap 4 (time_sec (fl_ainfo f)) = be_at packet 8 4;
  s9_sequence : bswap 4 (flow_sequence (fl_finf f)) = be_at packet 12 4;
  s9_source : bswap 4 (source_id (fl_finf f)) = be_at packet 16 4
}.

(** ** Templates *)

(** What is known of a peer: for each source, the most recent first, the templates,
    the most recent first. *)
Definition cache9 := list (Z * list (Z * list nf9_record)).

Fixpoint assoc {A} (k : Z) (l : list (Z * A)) : option A :=
  match l with
  | [] => None
  | (k', a) :: l => if k' =? k then Some a else assoc k l
  end.
Definition others {A} (k : Z) (l : list (Z * A)) : list (Z * A) := filter (fun x => fst x <> k) l.
Definition replaced {A} (k : Z) (a : A) (l : list (Z * A)) : list (Z * A) :=
  (fun x => if fst x =? k then (k, a) else x) <$> l.

Definition known (sid tid : Z) (K : cache9) : option (list nf9_record) := assoc sid K ≫= assoc tid.

(** A template is learned: one that is known is replaced; a new one goes to the
    front of its source and its source to the front, and a full source loses its
    last template, a full peer its last source. *)
Definition learn (maxs maxt sid tid : Z) (recs : list nf9_record) (K : cache9) : cache9 :=
  match assoc sid K with
  | None => take (Z.to_nat maxs) ((sid, [(tid, recs)]) :: K)
  | Some ts =>
      match assoc tid ts with
      | None => (sid, take (Z.to_nat maxt) ((tid, recs) :: ts)) :: others sid K
      | Some _ => replaced sid (replaced tid recs ts) K
      end
  end.

Definition rec_lens (recs : list nf9_record) : Z := foldr (fun r n => rec_len r + n) 0 recs.

(** The length of a record: not zero, not too large, and not larger than the member
    that it sets. *)
Definition length_ok (r : nf9_record) : Prop :=
  0 < rec_len r <= 16384 /\ forall w fl, type_row (rec_type r) = Some (w, fl) -> rec_len r <= Z.of_nat w.

Definition records_at (packet : bytes) (off : Z) (count : nat) : list nf9_record :=
  (fun i => Mk_nf9_record (be_at packet (off + 4 * Z.of_nat i) 2) (be_at packet (off + 4 * Z.of_nat i + 2) 2)) <$> seq 0 count.

Section packet.
Context (maxs maxt maxl : Z) (packet : bytes) (tv : Z * Z) (src : xaddr).

Definition size9 : Z := Z.of_nat (length packet).
Definition packet_source : Z := be_at packet 16 4.

(** A template fits its flowset, its records have usable lengths and they are not
    too long together. *)
Definition template_fits (len off : Z) (recs : list nf9_record) : Prop :=
  off + 4 + 4 * Z.of_nat (length recs) <= len /\ Forall length_ok recs /\ rec_lens recs <= maxl.

(** The templates of the flowset of [len] bytes at [base], from [off] on: they are
    learned in order up to the first one that is bad. *)
Inductive templates9 (base len : Z) : Z -> cache9 -> bool -> cache9 -> Prop :=
  | templates9_end off K : len <= off -> templates9 base len off K true K
  | templates9_bad off K recs :
      off < len -> recs = records_at packet (base + off + 4) (Z.to_nat (be_at packet (base + off + 2) 2)) ->
      ~ template_fits len off recs -> templates9 base len off K false K
  | templates9_good off K recs r K' :
      off < len -> recs = records_at packet (base + off + 4) (Z.to_nat (be_at packet (base + off + 2) 2)) ->
      template_fits len off recs ->
      templates9 base len (off + 4 + 4 * Z.of_nat (length recs))
        (learn maxs maxt packet_source (be_at packet (base + off) 2) recs K) r K' ->
      templates9 base len off K r K'.

(** The number of flows in a data flowset of [len] bytes. *)
Definition flow_count (len : Z) (recs : list nf9_record) : Z := (len - 4) / rec_lens recs.

(** A flowset header at [off], and its flowset inside the packet. *)
Definition flowset_here (off id len : Z) : Prop :=
  off < size9 /\ id = be_at packet off 2 /\ len = be_at packet (off + 2) 2 /\ off + len <= size9.

(** The flowsets of the packet from [off] on: the flows, and the templates after
    them.  A flowset that ends behind the packet, a bad template and a data flowset
    without a possible number of flows end the packet. *)
Inductive flowsets9 : Z -> cache9 -> list store_flow_complete -> cache9 -> Prop :=
  | flowsets9_end off K : size9 <= off -> flowsets9 off K [] K
  | flowsets9_long off K : off < size9 -> size9 < off + be_at packet (off + 2) 2 -> flowsets9 off K [] K
  | flowsets9_template off id len K K1 flows K' :
      flowset_here off id len ->
      id = 0 -> templates9 off len 4 K true K1 ->
      flowsets9 (off + len) K1 flows K' -> flowsets9 off K flows K'
  | flowsets9_bad_template off id len K K' :
      flowset_here off id len ->
      id = 0 -> templates9 off len 4 K false K' -> flowsets9 off K [] K'
  | flowsets9_reserved off id len K flows K' :
      flowset_here off id len ->
      1 <= id < 256 -> flowsets9 (off + len) K flows K' -> flowsets9 off K flows K'
  | flowsets9_unknown off id len K flows K' :
      flowset_here off id len ->
      256 <= id -> 4 <= len -> known packet_source id K = None ->
      flowsets9 (off + len) K flows K' -> flowsets9 off K flows K'
  | flowsets9_short off id len K :
      flowset_here off id len ->
      256 <= id -> len < 4 -> flowsets9 off K [] K
  | flowsets9_strange off id len K recs :
      flowset_here off id len ->
      256 <= id -> 4 <= len -> known packet_source id K = Some recs ->
      ~ 1 <= flow_count len recs <= 16384 -> flowsets9 off K [] K
  | flowsets9_data off id len K recs fs flows K' :
      flowset_here off id len ->
      256 <= id -> 4 <= len -> known packet_source id K = Some recs ->
      1 <= flow_count len recs <= 16384 ->
      Forall2 (fun i f => says9 packet tv src recs (off + 4 + Z.of_nat i * rec_lens recs) f)
        (seq 0 (Z.to_nat (flow_count len recs))) fs ->
      flowsets9 (off + len) K flows K' -> flowsets9 off K (fs ++ flows) K'.

(** The packet: nothing when it is shorter than its header. *)
Definition packet_means (K : cache9) (flows : list store_flow_complete) (K' : cache9) : Prop :=
  if size9 <? 20 then flows = [] /\ K' = K else flowsets9 20 K flows K'.
End packet.

(** ** The template cache of a peer *)

Definition viewed {A B} (key : A -> Z) (g : A -> B) (l : list A) : list (Z * B) := (fun x => (key x, g x)) <$> l.
Definition view_templates : list nf9_template -> list (Z * list nf9_record) :=
  viewed template_id (fun t => default [] (records t)).
Definition view (peer : peer_state) : cache9 := viewed nf9_source_id (fun s => view_templates (templates s)) (nf9 peer).

Section views.
Context {A B : Type} (key : A -> Z) (g : A -> B).

Lemma assoc_viewed k l : assoc k (viewed key g l) = g <$> q_find (is_key key k) l.
Proof. induction l as [|x l IH]; [done|]. cbn. unfold is_key at 1. case_match; [done|exact IH]. Qed.

Lemma others_none k l : k ∉ key <$> l -> others k (viewed key g l) = viewed key g l.
Proof.
  unfold others, viewed. induction l as [|x l IH]; intros Hk; [done|]. cbn [fmap list_fmap] in *.
  apply not_elem_of_cons in Hk as [Hx Hk]. rewrite filter_cons, decide_True by (by intros E; apply Hx). f_equal. by apply IH.
Qed.

Lemma others_viewed k l : NoDup (key <$> l) -> viewed key g (q_remove (is_key key k) l) = others k (viewed key g l).
Proof.
  induction l as [|x l IH]; intros Hnd; [done|]. cbn [fmap list_fmap] in Hnd. apply NoDup_cons in Hnd as [Hx Hnd].
  cbn [q_remove]. unfold others, viewed. cbn [fmap list_fmap]. rewrite filter_cons. cbn [fst].
  destruct (is_key key k x) eqn:E.
  - apply is_key_true in E. rewrite decide_False by (by intros []). symmetry. apply others_none. by rewrite <- E.
  - assert (key x <> k) by (by apply Z.eqb_neq).
    rewrite decide_True by done. cbn [fmap list_fmap]. f_equal. by apply IH.
Qed.

Lemma replaced_none k b l : k ∉ key <$> l -> replaced k b (viewed key g l) = viewed key g l.
Proof.
  intros Hk. unfold replaced, viewed. rewrite <- list_fmap_compose. apply list_fmap_ext. intros i x Hx. cbn.
  rewrite (proj2 (Z.eqb_neq _ _)); [done|]. intros E. apply Hk. rewrite <- E. eapply list_elem_of_fmap_2, list_elem_of_lookup_2, Hx.
Qed.

Lemma replaced_viewed k f b l : NoDup (key <$> l) ->
  (forall x, x ∈ l -> key x = k -> key (f x) = k /\ g (f x) = b) ->
  viewed key g (q_update (is_key key k) f l) = replaced k b (viewed key g l).
Proof.
  induction l as [|x l IH]; intros Hnd Hf; [done|]. cbn [fmap list_fmap] in Hnd. apply NoDup_cons in Hnd as [Hx Hnd].
  cbn [q_update]. unfold is_key at 1. unfold replaced, viewed. cbn [fmap list_fmap fst].
  destruct (Z.eqb_spec (key x) k) as [E|E]; cbn [fmap list_fmap].
  - destruct (Hf x) as [-> ->]; [by left|done|]. f_equal. symmetry. apply replaced_none. by rewrite <- E.
  - f_equal. apply IH; [done|]. intros y Hy. apply Hf. by right.
Qed.
End views.

Lemma view_known peer sid tid :
  known sid tid (view peer) = (fun t => default [] (records t)) <$> peer_nf9_find_template peer sid tid.
Proof.
  unfold known, peer_nf9_find_template, peer_nf9_lookup_source, peer_nf9_lookup_template, view.
  rewrite assoc_viewed.
  change (is_key nf9_source_id sid) with (is_source sid).
  destruct (q_find (is_source sid) (nf9 peer)) as [s|]; [|done]. cbn [fmap option_fmap option_map mbind option_bind].
  apply (assoc_viewed template_id).
Qed.
