(* ===== verification/Nf9Records.v ===== *)
(** * The collector: the records of NetFlow 9

    Record lengths that nf9_check_rec_len lets through never write outside a
    member, a record sets exactly its member and its bit, and the flow that the
    records of a template give is well formed and says what Nf9Spec demands. *)

From stdpp Require Import gmap.
From S2P Require Import Prelude Packed Addr StoreTypes Store StoreProps.
From S2P Require Import StoreSwab StoreFile Filter Peer Netflow Flowd.
From S2P Require Import FlowdProps Nf9Spec.

(** ** Copying a number *)

Lemma BE_COPY_ok w old data :
  Forall u8 data -> (length data <= w)%nat ->
  exists v, BE_COPY w old data = Ret v /\ fits w v /\
    le_bytes w v = take (w - length data) (le_bytes w old) ++ data.
Proof.
  intros Hb Hl. unfold BE_COPY. rewrite (proj2 (Nat.leb_le _ _)) by done.
  set (b := take (w - length data) (le_bytes w old) ++ data).
  assert (length b = w) as Hlen.
  { unfold b. rewrite length_app, length_take, length_le_bytes. lia. }
  assert (Forall u8 b) as Hu by (apply Forall_app; split; [apply Forall_take, le_bytes_u8|done]).
  eexists. split; [reflexivity|]. split.
  - pose proof (le_val_bound b Hu) as Hbd. unfold fits. by rewrite Hlen in Hbd.
  - by apply le_bytes_le_val.
Qed.

Lemma le_val_zeros n b : le_val (b ++ replicate n 0) = le_val b.
Proof.
  induction b as [|x b IH]; [|cbn [app le_val]; by rewrite IH].
  induction n as [|n IH]; [done|]. cbn [replicate app le_val] in *. by rewrite IH.
Qed.

Lemma le_bytes_0 n : le_bytes n 0 = replicate n 0.
Proof. induction n as [|n IH]; [done|]. cbn [le_bytes replicate]. f_equal. exact IH. Qed.

(** A short number in a member that was zero keeps its value. *)
Lemma be_copy_value w v data :
  (length data <= w)%nat -> le_bytes w v = take (w - length data) (le_bytes w 0) ++ data ->
  bswap w v = be_val data.
Proof.
  intros Hl H. unfold bswap, be_val. rewrite H, le_bytes_0, take_replicate, rev_app_distr.
  rewrite (rev_alt (replicate _ _)). etransitivity; [|apply le_val_zeros].
  do 2 f_equal. apply reverse_replicate.
Qed.

(** ** Records *)

(** What a parser keeps of a template: lengths that were checked and their sum. *)
Definition rec_ok (r : nf9_record) : Prop :=
  0 <= rec_len r /\ nf9_check_rec_len (rec_type r) (rec_len r) = true.

Definition template_ok (maxl : Z) (t : nf9_template) : Prop :=
  match records t with
  | None => num_records t = 0 /\ total_len t = 0
  | Some recs => Forall rec_ok recs /\ num_records t = Z.of_nat (length recs) /\
      total_len t = rec_lens recs /\ total_len t <= maxl
  end.

Lemma rec_ok_pos r : rec_ok r -> 0 < rec_len r <= 0x4000.
Proof.
  unfold rec_ok, nf9_check_rec_len. destruct (Z.eqb_spec (rec_len r) 0); [by intros []|].
  destruct (Z.ltb_spec 0x4000 (rec_len r)); [by intros []|]. lia.
Qed.

Lemma rec_lens_pos recs : Forall rec_ok recs -> Z.of_nat (length recs) <= rec_lens recs.
Proof.
  induction 1 as [|r recs Hr _ IH]; [done|]. pose proof (rec_ok_pos r Hr). cbn [length rec_lens foldr] in *.
  unfold rec_lens in IH. lia.
Qed.

(** A case of the switch: its member has the size that nf9_check_rec_len bounds
    the record by, so the copy stays inside it and leaves a well-formed flow. *)
Definition case_ok (c : Z * (bytes -> store_flow_complete -> outcome store_flow_complete)) : Prop :=
  exists w, find (fun x => fst x =? fst c) nf9_sizes = Some (fst c, Z.of_nat w) /\
    forall data flow, Forall u8 data -> (length data <= w)%nat -> flow_wf flow ->
      exists flow', snd c data flow = Ret flow' /\ flow_wf flow'.

(** The bit of a member without an address. *)
Lemma flow_flags_lor f fl i :
  0 <= i -> (i <? 3) || (10 <? i) = true ->
  flow_flags_ok f fl -> flow_flags_ok f (Z.lor fl (2 ^ i)).
Proof.
  intros Hi Hout (F1 & F2 & F3 & F4).
  assert (forall a j k, 3 <= j <= 10 -> 3 <= k <= 10 -> addr_flags_ok a (2 ^ j) (2 ^ k) fl ->
            addr_flags_ok a (2 ^ j) (2 ^ k) (Z.lor fl (2 ^ i))) as H.
  { intros a j k Hj Hk. unfold addr_flags_ok. apply orb_true_iff in Hout as [Hout%Z.ltb_lt|Hout%Z.ltb_lt];
    rewrite !has_lor, !(has_testbit (2 ^ i)), !Z.pow2_bits_false, !orb_false_r by lia; done. }
  split; [by apply (H _ 3 4)|]. split; [by apply (H _ 5 6)|]. split; [by apply (H _ 7 8)|by apply (H _ 9 10)].
Qed.

Lemma unknown_lor fl g : unknown fl = 0 -> unknown g = 0 -> unknown (Z.lor fl g) = 0.
Proof. unfold unknown. intros H1 H2. by rewrite Z.land_lor_distr_l, H1, H2. Qed.

Lemma fields_u32 f : flow_ok f -> u32 (fields (fl_hdr f)).
Proof.
  intros [Hh _ _ _ _ _ _ _ _ _ _ _ _ _ _ _ _].
  inversion Hh as [|???? H1 R1]; subst. inversion R1 as [|???? H2 R2]; subst.
  inversion R2 as [|???? H3 R3]; subst. by inversion R3.
Qed.

(** A member that is set without its header and its addresses. *)
Definition sets_member (w : nat) (set : Z -> store_flow_complete -> store_flow_complete) : Prop :=
  forall v f, fits w v -> flow_ok f -> flow_ok (set v f) /\ fl_hdr (set v f) = fl_hdr f /\
    fl_agent_addr (set v f) = fl_agent_addr f /\ fl_src_addr (set v f) = fl_src_addr f /\
    fl_dst_addr (set v f) = fl_dst_addr f /\ fl_gateway_addr (set v f) = fl_gateway_addr f.

Lemma V9_FIELD_ok i w get set data flow :
  0 <= i < 32 -> (i <? 3) || (10 <? i) = true -> unknown (2 ^ i) = 0 -> sets_member w set ->
  Forall u8 data -> (length data <= w)%nat -> flow_wf flow ->
  exists flow', V9_FIELD (2 ^ i) w get set data flow = Ret flow' /\ flow_wf flow'.
Proof.
  intros Hi Hout Hun Hset Hb Hl (Hf & Hfl & Hu). unfold V9_FIELD. cbv zeta.
  destruct (BE_COPY_ok w (get (set_hdr_fields (Z.lor (fields (fl_hdr flow)) (2 ^ i)) flow)) data Hb Hl)
    as (v & -> & Hv & _). cbn [obind].
  assert (u32 (2 ^ i)) as Hp.
  { split; [apply Z.pow_nonneg; lia|]. change 4294967296 with (2 ^ 32). apply Z.pow_lt_mono_r; lia. }
  pose proof (set_hdr_fields_ok (Z.lor (fields (fl_hdr flow)) (2 ^ i)) flow Hf
    (u32_lor _ _ (fields_u32 flow Hf) Hp)) as Hf'.
  destruct (Hset v _ Hv Hf') as (Hs & Hh & H1 & H2 & H3 & H4).
  eexists. split; [reflexivity|]. split; [exact Hs|]. rewrite Hh. split; [|by apply unknown_lor].
  unfold flow_flags_ok. rewrite H1, H2, H3, H4.
  apply (flow_flags_lor flow); [lia|done|exact Hfl].
Qed.

Lemma copy_addr_ok a data family :
  Forall u8 data -> (length data <= 16)%nat -> xaddr_ok a ->
  exists a', copy_addr a data family = Ret a' /\ xaddr_ok a' /\ af a' = family /\
    addr8 a' = data ++ drop (length data) (addr8 a).
Proof.
  intros Hb Hl (Ha1 & Ha2 & Ha3). unfold copy_addr. rewrite (proj2 (Nat.leb_le _ _)) by done. cbv zeta.
  assert (Forall u8 (addr8 a)) as Ha8.
  { unfold addr8. apply Forall_concat, Forall_fmap, Forall_forall. intros v _. apply le_bytes_u8. }
  assert (length (addr8 a) = 16%nat) as Hl8.
  { unfold addr8. destruct (addr32 a) as [|x [|y [|z [|t [|? ?]]]]]; try done. }
  set (b := data ++ drop (length data) (addr8 a)).
  assert (length b = 16%nat) as Hlb by (unfold b; rewrite length_app, length_drop; lia).
  assert (Forall u8 b) as Hub by (apply Forall_app; split; [done|by apply Forall_drop]).
  assert (forall k, (k <= 12)%nat -> length (take 4 (drop k b)) = 4%nat) as Hk.
  { intros k Hk. rewrite length_take, length_drop. lia. }
  assert (forall k, (k <= 12)%nat -> u32 (le_val (take 4 (drop k b)))) as Hu.
  { intros k Hkk. pose proof (le_val_bound (take 4 (drop k b)) ltac:(by apply Forall_take, Forall_drop)) as H.
    rewrite Hk in H by done. exact H. }
  eexists. split; [reflexivity|]. split; [|split; [done|]].
  - split; [done|]. split; [|done]. pose proof (Hu 0%nat). rewrite drop_0 in *.
    apply Forall_cons; split; [by auto with lia|].
    do 3 (apply Forall_cons; split; [apply Hu; lia|]). by apply Forall_nil.
  - unfold addr8. cbn [addr32 fmap list_fmap concat].
    rewrite !le_bytes_le_val; try (by apply Forall_take, Forall_drop); try (by apply Forall_take);
      try (by apply Hk; lia); [|by rewrite length_take; lia].
    assert (take 4 b ++ take 4 (drop 4 b) ++ take 4 (drop 8 b) ++ take 4 (drop 12 b) ++ [] = b) as ->.
    { rewrite app_nil_r, (take_ge (drop 12 b)) by (rewrite length_drop; lia).
      replace (drop 12 b) with (drop 4 (drop 8 b)) by (rewrite drop_drop; f_equal; lia). rewrite take_drop.
      replace (drop 8 b) with (drop 4 (drop 4 b)) by (rewrite drop_drop; f_equal; lia). by rewrite !take_drop. }
    done.
Qed.

(** The bit and the family of an address. *)
Lemma V9_FIELD_ADDR_ok i4 i6 (v6 : bool) family get set data flow :
  0 <= i4 < 32 -> 0 <= i6 < 32 -> unknown (2 ^ i4) = 0 -> unknown (2 ^ i6) = 0 ->
  family = (if v6 then AF_INET6 else AF_INET) ->
  (forall a f, xaddr_ok a -> flow_ok f -> flow_ok (set a f) /\ fl_hdr (set a f) = fl_hdr f) ->
  (forall a f, flow_flags_ok f (fields (fl_hdr flow)) -> af a = family ->
     flow_flags_ok (set a f) (Z.lor (fields (fl_hdr flow)) (2 ^ if v6 then i6 else i4))) ->
  (forall f, flow_ok f -> xaddr_ok (get f)) ->
  Forall u8 data -> (length data <= 16)%nat -> flow_wf flow ->
  exists flow', V9_FIELD_ADDR (2 ^ if v6 then i6 else i4) family get set data flow = Ret flow' /\ flow_wf flow'.
Proof.
  intros Hi4 Hi6 Hu4 Hu6 Hfam Hset Hflags Hget Hb Hl (Hf & Hfl & Hu). unfold V9_FIELD_ADDR. cbv zeta.
  set (i := if v6 then i6 else i4) in *.
  assert (0 <= i < 32 /\ unknown (2 ^ i) = 0) as [Hi Hun] by (unfold i; by destruct v6).
  assert (u32 (2 ^ i)) as Hp.
  { split; [apply Z.pow_nonneg; lia|]. change 4294967296 with (2 ^ 32). apply Z.pow_lt_mono_r; lia. }
  pose proof (set_hdr_fields_ok (Z.lor (fields (fl_hdr flow)) (2 ^ i)) flow Hf
    (u32_lor _ _ (fields_u32 flow Hf) Hp)) as Hf'.
  destruct (copy_addr_ok (get (set_hdr_fields (Z.lor (fields (fl_hdr flow)) (2 ^ i)) flow)) data family)
    as (a & -> & Ha & Haf & _); [done|done|by apply Hget|]. cbn [obind].
  destruct (Hset a _ Ha Hf') as [Hs Hh].
  eexists. split; [reflexivity|]. split; [exact Hs|]. rewrite Hh. split; [|by apply unknown_lor].
  apply Hflags; [exact Hfl|done].
Qed.

Ltac sets_member_tac :=
  intros ? f ? []; split; [|by split_and!];
  repeat match goal with H : valid _ |- _ => revert H end; destruct f; cbn; intros;
  constructor; cbn; try assumption;
  valid_members; unfold valid; cbn -[fits];
  repeat (apply Forall2_cons; split; [assumption|]); apply Forall2_nil; exact I.

Ltac v9_field_tac :=
  lazymatch goal with
  | |- context [V9_FIELD ?flag ?w _ _] =>
      exists w; split; [reflexivity|]; intros; cbn [snd];
      let i := eval vm_compute in (Z.log2 flag) in change flag with (2 ^ i);
      apply V9_FIELD_ok; [lia|reflexivity|reflexivity| |assumption..]
  end; sets_member_tac.

Lemma addr_flags_other a fl i j k :
  0 <= i -> 0 <= j -> 0 <= k -> i <> j -> i <> k ->
  addr_flags_ok a (2 ^ j) (2 ^ k) fl -> addr_flags_ok a (2 ^ j) (2 ^ k) (Z.lor fl (2 ^ i)).
Proof.
  intros. unfold addr_flags_ok.
  by rewrite !has_lor, !(has_testbit (2 ^ i)), !Z.pow2_bits_false, !orb_false_r by lia.
Qed.

Lemma addr_flags_set (v6 : bool) a fl i j :
  0 <= i -> 0 <= j -> af a = (if v6 then AF_INET6 else AF_INET) ->
  addr_flags_ok a (2 ^ i) (2 ^ j) (Z.lor fl (2 ^ if v6 then j else i)).
Proof.
  intros Hi Hj Ha. unfold addr_flags_ok. destruct v6; [right; left|left]; (split; [done|]); intros _;
    by rewrite has_lor, (has_testbit (2 ^ _)), Z.pow2_bits_true, orb_true_r by done.
Qed.

(** One address case: its two bits, whether it is the IPv6 one, and its size. *)
Ltac v9_addr_tac i4 i6 v6 w :=
  unfold case_ok; cbn [fst snd]; exists w; split; [reflexivity|]; intros;
  lazymatch goal with
  | |- context [V9_FIELD_ADDR ?flag] => change flag with (2 ^ (if v6 then i6 else i4))
  end;
  apply (V9_FIELD_ADDR_ok i4 i6 v6); try assumption; try done; try lia;
  [ intros ? f ? []; split; [destruct f; by constructor|done]
  | intros ? ? (? & ? & ? & ?) ?;
    split; [|split; [|split]];
    first
      [ by apply (addr_flags_set v6 _ _ i4 i6)
      | by apply (addr_flags_other _ _ (if v6 then i6 else i4) 3 4)
      | by apply (addr_flags_other _ _ (if v6 then i6 else i4) 5 6)
      | by apply (addr_flags_other _ _ (if v6 then i6 else i4) 7 8)
      | by apply (addr_flags_other _ _ (if v6 then i6 else i4) 9 10) ]
  | by intros ? [] ].

Lemma nf9_cases_ok : Forall case_ok nf9_cases.
Proof.
  unfold nf9_cases. do 19 (apply Forall_cons; split; [unfold case_ok; v9_field_tac|]).
  apply Forall_cons; split; [v9_addr_tac 5 6 false 4%nat|].
  apply Forall_cons; split; [v9_addr_tac 7 8 false 4%nat|].
  apply Forall_cons; split; [v9_addr_tac 9 10 false 4%nat|].
  apply Forall_cons; split; [v9_addr_tac 5 6 true 16%nat|].
  apply Forall_cons; split; [v9_addr_tac 7 8 true 16%nat|].
  apply Forall_cons; split; [v9_addr_tac 9 10 true 16%nat|].
  by apply Forall_nil.
Qed.

(** One record of a packet. *)
Lemma nf9_rec_to_flow_ok r flow packet off :
  rec_ok r -> flow_wf flow -> Forall u8 packet -> 0 <= off -> off + rec_len r <= Z.of_nat (length packet) ->
  exists flow', nf9_rec_to_flow r flow packet off = Ret flow' /\ flow_wf flow'.
Proof.
  intros Hr Hwf Hb Hoff Hle. pose proof (rec_ok_pos r Hr) as Hpos. unfold nf9_rec_to_flow, nf9_case.
  destruct (find (fun c => fst c =? rec_type r) nf9_cases) as [c|] eqn:Hc; cbn [fmap option_fmap option_map];
    [|by exists flow].
  apply find_some in Hc as [Hin Hty%Z.eqb_eq].
  destruct (proj1 (Forall_forall _ _) nf9_cases_ok c (proj2 (list_elem_of_In _ _) Hin)) as (w & Hsize & Hcase).
  unfold rd. rewrite mem_read_in by lia. cbn [obind].
  apply Hcase; [by apply Forall_take, Forall_drop| |done].
  destruct Hr as [_ Hr]. unfold nf9_check_rec_len in Hr. case_match; [done|].
  rewrite <- Hty, Hsize in Hr. cbn [snd] in Hr. apply Z.leb_le in Hr.
  rewrite length_take. lia.
Qed.

Lemma nf9_records_to_flow_ok recs packet : forall flow off,
  Forall rec_ok recs -> flow_wf flow -> Forall u8 packet -> 0 <= off ->
  off + rec_lens recs <= Z.of_nat (length packet) ->
  exists flow', nf9_records_to_flow recs flow packet off = Ret flow' /\ flow_wf flow'.
Proof.
  induction recs as [|r recs IH]; intros flow off Hok Hwf Hb Hoff Hle; [by exists flow|].
  apply Forall_cons in Hok as [Hr Hok]. pose proof (rec_ok_pos r Hr). pose proof (rec_lens_pos recs Hok).
  cbn [rec_lens foldr] in Hle. fold (rec_lens recs) in Hle. cbn [nf9_records_to_flow].
  destruct (nf9_rec_to_flow_ok r flow packet off) as (f1 & -> & Hf1); [done|done|done|lia|lia|].
  apply IH; [done|done|done|lia|lia].
Qed.

(** The flow before the records of the template are read. *)
Lemma nf9_flowset_to_store_ok maxl packet off tv src h t sid :
  template_ok maxl t -> Forall u8 packet -> inet_ok src -> valid h -> 0 <= off ->
  off + total_len t <= Z.of_nat (length packet) ->
  exists flow, nf9_flowset_to_store packet off (total_len t) tv src h t sid = Ret (Some flow) /\ flow_wf flow.
Proof.
  intros Ht Hb Hsrc Hh Hoff Hle. pose proof Hsrc as [Hsrc' _].
  unfold nf9_flowset_to_store. rewrite Z.ltb_irrefl. cbv zeta. set (flow := Mk_store_flow_complete _ _ _ _ _ _ _ _ _ _ _ _ _ _ _ _ _).
  assert (flow_wf flow) as Hwf.
  { destruct h. valid_members. split; [|split; [|reflexivity]].
    - assert (xaddr_ok xaddr_zero) as Hz by (by apply (bool_decide_unpack _); vm_compute).
      unfold flow. flow_ok_members.
    - split; [by apply agent_flags_ok|]. split_and!; right; right; by split. }
  clearbody flow. unfold template_ok in Ht. destruct (records t) as [recs|].
  - destruct Ht as (Hrecs & Hn & Htot & Hmax).
    destruct (nf9_records_to_flow_ok recs packet flow off) as (f & -> & Hf); [done|done|done|done|lia|].
    cbn [obind]. by exists f.
  - destruct Ht as [-> _]. rewrite Z.eqb_refl. by exists flow.
Qed.

(** ** What a record changes *)

(** The members that no record touches. *)
Definition kept (f f' : store_flow_complete) : Prop :=
  fl_agent_addr f' = fl_agent_addr f /\ fl_recv_time f' = fl_recv_time f /\ fl_ainfo f' = fl_ainfo f /\
  flow_sequence (fl_finf f') = flow_sequence (fl_finf f) /\ source_id (fl_finf f') = source_id (fl_finf f).

Definition sets (ty : Z) (types : list Z) : bool := existsb (Z.eqb ty) types.

Definition number_effect (ty : Z) (data : bytes) (f f' : store_flow_complete) (m : number) : Prop :=
  if sets ty (n_types m) then n_get m f = 0 -> bswap (n_width m) (n_get m f') = be_val data
  else n_get m f' = n_get m f.
Definition address_effect (ty : Z) (data : bytes) (f f' : store_flow_complete) (a : address) : Prop :=
  if sets ty [a_type4 a; a_type6 a]
  then af (a_get a f') = (if ty =? a_type4 a then AF_INET else AF_INET6) /\
       addr8 (a_get a f') = data ++ drop (length data) (addr8 (a_get a f))
  else a_get a f' = a_get a f.

(** The effect of a record of type [ty] with the bytes [data]. *)
Record effect (ty : Z) (data : bytes) (f f' : store_flow_complete) : Prop := {
  ef_fields : fields (fl_hdr f') = Z.lor (fields (fl_hdr f)) (type_flag ty);
  ef_numbers : Forall (number_effect ty data f f') nf9_numbers;
  ef_addresses : Forall (address_effect ty data f f') nf9_addresses;
  ef_kept : kept f f'
}.

Definition case_effect (c : Z * (bytes -> store_flow_complete -> outcome store_flow_complete)) : Prop :=
  forall data f f', Forall u8 data -> flow_wf f -> snd c data f = Ret f' -> effect (fst c) data f f'.

Lemma V9_FIELD_Ret flag w get set data f f' :
  Forall u8 data -> V9_FIELD flag w get set data f = Ret f' ->
  let f1 := set_hdr_fields (Z.lor (fields (fl_hdr f)) flag) f in
  exists v, f' = set v f1 /\ (get f1 = 0 -> bswap w v = be_val data).
Proof.
  intros Hb. unfold V9_FIELD. cbv zeta. intros (v & E & <-%Ret_inj)%obind_Ret_inv.
  exists v. split; [done|]. intros H0. rewrite H0 in E.
  destruct (Nat.leb_spec (length data) w) as [Hl|Hl].
  - destruct (BE_COPY_ok w 0 data Hb Hl) as (v' & E' & _ & Hv). rewrite E in E'. apply Ret_inj in E' as <-.
    by apply be_copy_value.
  - unfold BE_COPY in E. by rewrite (proj2 (Nat.leb_gt _ _)) in E.
Qed.

Lemma V9_FIELD_ADDR_Ret flag family get set data f f' :
  Forall u8 data -> xaddr_ok (get (set_hdr_fields (Z.lor (fields (fl_hdr f)) flag) f)) ->
  V9_FIELD_ADDR flag family get set data f = Ret f' ->
  let f1 := set_hdr_fields (Z.lor (fields (fl_hdr f)) flag) f in
  exists a, f' = set a f1 /\ af a = family /\ addr8 a = data ++ drop (length data) (addr8 (get f1)).
Proof.
  intros Hb Hok. unfold V9_FIELD_ADDR. cbv zeta. intros (a & E & <-%Ret_inj)%obind_Ret_inv.
  exists a. split; [done|]. destruct (Nat.leb_spec (length data) 16) as [Hl|Hl].
  - destruct (copy_addr_ok _ data family Hb Hl Hok) as (a' & E' & _ & H). rewrite E in E'. by apply Ret_inj in E' as <-.
  - unfold copy_addr in E. by rewrite (proj2 (Nat.leb_gt _ _)) in E.
Qed.

Ltac effect_tac :=
  constructor; [reflexivity| | |done];
  unfold nf9_numbers, nf9_addresses;
  repeat (apply Forall_cons; split; [first [reflexivity|assumption|split; assumption]|]); apply Forall_nil; exact I.

Lemma nf9_cases_effect : Forall case_effect nf9_cases.
Proof.
  unfold nf9_cases.
  do 19 (apply Forall_cons; split;
    [intros data f f' Hb Hwf H; apply V9_FIELD_Ret in H as (v & -> & Hv); [|exact Hb]; cbn [fst]; effect_tac|]).
  do 6 (apply Forall_cons; split;
    [intros data f f' Hb [[] _] H; apply V9_FIELD_ADDR_Ret in H as (a & -> & Haf & Ha); [|exact Hb|assumption]; cbn [fst]; effect_tac|]).
  apply Forall_nil. exact I.
Qed.

(** A type without a case has no row. *)
Lemma type_row_none ty : find (fun c => fst c =? ty) nf9_cases = None -> type_row ty = None.
Proof.
  intros H. unfold type_row. destruct (find (fun r => fst r =? ty) type_rows) as [[ty' x]|] eqn:E; [|done].
  apply find_some in E as [Hin Hty%Z.eqb_eq]. cbn [fst] in Hty. subst ty'.
  assert (Forall (fun r => existsb (fun c => fst c =? fst r) nf9_cases = true) type_rows) as Hall
    by (unfold type_rows; repeat (apply Forall_cons; split; [reflexivity|]); apply Forall_nil; exact I).
  apply (proj1 (Forall_forall _ _)) with (x := (ty, x)) in Hall; [|by apply list_elem_of_In].
  apply existsb_exists in Hall as (c & Hc & Hcty). pose proof (find_none _ _ H c Hc) as Hn. cbn [fst] in *. congruence.
Qed.

Lemma sets_none ty types : (forall ty', ty' ∈ types -> ty <> ty') -> sets ty types = false.
Proof.
  intros H. unfold sets. destruct (existsb _ _) eqn:E; [|done]. apply existsb_exists in E as (t & Ht & Et%Z.eqb_eq).
  by destruct (H t (proj2 (list_elem_of_In _ _) Ht)).
Qed.

(** Every type of a member has a row, so a type without one sets nothing. *)
Lemma type_row_none_sets ty : type_row ty = None ->
  Forall (fun m => sets ty (n_types m) = false) nf9_numbers /\
  Forall (fun a => sets ty [a_type4 a; a_type6 a] = false) nf9_addresses.
Proof.
  unfold type_row. intros H. assert (find (fun r => fst r =? ty) type_rows = None) as Hn by (by destruct (find _ _)). clear H.
  assert (forall ty' x, (ty', x) ∈ type_rows -> ty <> ty') as Hne.
  { intros ty' x Hin ->. pose proof (find_none _ _ Hn (ty', x) (proj1 (list_elem_of_In _ _) Hin)) as E.
    cbn [fst] in E. by rewrite Z.eqb_refl in E. }
  split; apply Forall_forall; intros m Hm; apply sets_none; intros ty' Hty.
  - apply (Hne ty' (n_width m, n_flag m)). unfold type_rows. apply elem_of_app. left. apply list_elem_of_bind.
    exists m. split; [|done]. by apply (list_elem_of_fmap_2 (fun ty => (ty, (n_width m, n_flag m)))).
  - apply elem_of_cons in Hty as [->|Hty].
    + apply (Hne _ (4%nat, a_flag4 m)). unfold type_rows. apply elem_of_app. right. apply list_elem_of_bind. exists m. split; [by left|done].
    + apply elem_of_cons in Hty as [->|Hty]; [|by apply not_elem_of_nil in Hty].
      apply (Hne _ (16%nat, a_flag6 m)). unfold type_rows. apply elem_of_app. right. apply list_elem_of_bind. exists m. split; [by right; left|done].
Qed.

Lemma no_effect ty data f : type_row ty = None -> effect ty data f f.
Proof.
  intros H. pose proof (type_row_none_sets ty H) as [Hn Ha]. constructor; [|..|done].
  - unfold type_flag. rewrite H. cbn. by rewrite Z.lor_0_r.
  - eapply Forall_impl; [exact Hn|]. intros m Hm. unfold number_effect. by rewrite Hm.
  - eapply Forall_impl; [exact Ha|]. intros a Hm. unfold address_effect. by rewrite Hm.
Qed.

Lemma nf9_rec_to_flow_effect r flow packet off :
  rec_ok r -> flow_wf flow -> Forall u8 packet -> 0 <= off -> off + rec_len r <= Z.of_nat (length packet) ->
  exists flow', nf9_rec_to_flow r flow packet off = Ret flow' /\ flow_wf flow' /\
    effect (rec_type r) (part packet off (rec_len r)) flow flow'.
Proof.
  intros Hr Hwf Hb Hoff Hle. destruct (nf9_rec_to_flow_ok r flow packet off) as (flow' & E & Hwf'); [done..|].
  exists flow'. split; [done|]. split; [done|]. pose proof (rec_ok_pos r Hr).
  unfold nf9_rec_to_flow, nf9_case in E.
  destruct (find (fun c => fst c =? rec_type r) nf9_cases) as [c|] eqn:Hc; cbn [fmap option_fmap option_map] in E.
  - apply find_some in Hc as [Hin Hty%Z.eqb_eq]. unfold rd in E. rewrite mem_read_in in E by lia. cbn [obind] in E.
    rewrite <- Hty. apply (proj1 (Forall_forall _ _) nf9_cases_effect c (proj2 (list_elem_of_In _ _) Hin)); [|done|done].
    by apply Forall_take, Forall_drop.
  - apply Ret_inj in E as <-. by apply no_effect, type_row_none.
Qed.

(** ** What the records of a template change *)

Definition number_became (packet : bytes) (recs : list nf9_record) (off : Z) (f f' : store_flow_complete) (m : number) : Prop :=
  match setting (n_types m) recs off with
  | [] => n_get m f' = n_get m f
  | [(r, o)] => n_get m f = 0 -> bswap (n_width m) (n_get m f') = be_at packet o (rec_len r)
  | _ => True
  end.
Definition address_became (packet : bytes) (recs : list nf9_record) (off : Z) (f f' : store_flow_complete) (a : address) : Prop :=
  match setting [a_type4 a; a_type6 a] recs off with
  | [] => a_get a f' = a_get a f
  | [(r, o)] => af (a_get a f') = (if rec_type r =? a_type4 a then AF_INET else AF_INET6) /\
      addr8 (a_get a f') = part packet o (rec_len r) ++ drop (length (part packet o (rec_len r))) (addr8 (a_get a f))
  | _ => True
  end.

Lemma setting_cons types r recs off :
  setting types (r :: recs) off =
    if sets (rec_type r) types then (r, off) :: setting types recs (off + rec_len r) else setting types recs (off + rec_len r).
Proof.
  unfold setting. cbn [placed]. rewrite filter_cons. cbn [fst].
  destruct (sets (rec_type r) types) eqn:E; unfold sets in E.
  - apply existsb_exists in E as (t & Ht & Ee%Z.eqb_eq). rewrite decide_True; [done|]. rewrite Ee. by apply list_elem_of_In.
  - rewrite decide_False; [done|]. intros Hin. assert (existsb (Z.eqb (rec_type r)) types = true) as Et; [|congruence].
    apply existsb_exists. exists (rec_type r). split; [by apply list_elem_of_In|apply Z.eqb_refl].
Qed.

Lemma nf9_records_to_flow_effect recs packet : forall flow off,
  Forall rec_ok recs -> flow_wf flow -> Forall u8 packet -> 0 <= off ->
  off + rec_lens recs <= Z.of_nat (length packet) ->
  exists flow', nf9_records_to_flow recs flow packet off = Ret flow' /\ flow_wf flow' /\
    fields (fl_hdr flow') = foldl (fun n r => Z.lor n (type_flag (rec_type r))) (fields (fl_hdr flow)) recs /\
    Forall (number_became packet recs off flow flow') nf9_numbers /\
    Forall (address_became packet recs off flow flow') nf9_addresses /\ kept flow flow'.
Proof.
  induction recs as [|r recs IH]; intros flow off Hok Hwf Hb Hoff Hle.
  { exists flow. split; [done|]. split; [done|]. split; [done|]. split; [by apply Forall_forall|]. split; [by apply Forall_forall|done]. }
  apply Forall_cons in Hok as [Hr Hok]. pose proof (rec_ok_pos r Hr). pose proof (rec_lens_pos recs Hok).
  cbn [rec_lens foldr] in Hle. fold (rec_lens recs) in Hle. cbn [nf9_records_to_flow].
  destruct (nf9_rec_to_flow_effect r flow packet off) as (f1 & -> & Hf1 & [Ef En Ea Ek]); [done|done|done|lia|lia|].
  destruct (IH f1 (off + rec_len r)) as (f2 & E & Hf2 & Ff & Fn & Fa & Fk); [done|done|done|lia|lia|].
  cbn [obind]. rewrite E.
  exists f2. split; [done|]. split; [done|]. cbn [foldl]. split; [by rewrite Ff, Ef|]. split; [|split].
  - apply Forall_forall. intros m Hm. pose proof (proj1 (Forall_forall _ _) En m Hm) as H1.
    pose proof (proj1 (Forall_forall _ _) Fn m Hm) as H2. unfold number_effect, number_became in *. rewrite setting_cons.
    destruct (sets (rec_type r) (n_types m)).
    + destruct (setting _ recs _); [by rewrite H2|done].
    + by rewrite H1 in H2.
  - apply Forall_forall. intros a Hm. pose proof (proj1 (Forall_forall _ _) Ea a Hm) as H1.
    pose proof (proj1 (Forall_forall _ _) Fa a Hm) as H2. unfold address_effect, address_became in *. rewrite setting_cons.
    destruct (sets (rec_type r) _).
    + destruct (setting _ recs _); [by rewrite H2|done].
    + by rewrite H1 in H2.
  - destruct Ek as (K1 & K2 & K3 & K4 & K5), Fk as (L1 & L2 & L3 & L4 & L5). repeat split; congruence.
Qed.

(** ** The flow of a template *)

Lemma placed_recs recs : forall off, fst <$> placed recs off = recs.
Proof. induction recs as [|r recs IH]; intros off; [done|]. cbn. f_equal. apply IH. Qed.

Lemma placed_bounds recs r o : Forall rec_ok recs -> forall off, (r, o) ∈ placed recs off ->
  r ∈ fst <$> placed recs off /\ o + rec_len r <= off + rec_lens recs /\ off <= o.
Proof.
  intros Hok off Hin. split; [by apply (list_elem_of_fmap_2 fst) in Hin|]. revert off Hin.
  induction Hok as [|x recs Hx Hok IH]; intros off Hin; cbn [placed] in Hin; [by apply not_elem_of_nil in Hin|].
  pose proof (rec_ok_pos x Hx). pose proof (rec_lens_pos recs Hok). cbn [rec_lens foldr]. fold (rec_lens recs).
  apply elem_of_cons in Hin as [[= -> ->]|Hin]; [lia|]. apply IH in Hin. lia.
Qed.

(** A member of the header: its bytes in the packet. *)
Lemma bswap_le_val n b : Forall u8 b -> length b = n -> bswap n (le_val b) = be_val b.
Proof. intros Hb Hl. unfold bswap, be_val. by rewrite le_bytes_le_val. Qed.

(** The struct of a given type at an offset of the packet. *)
Definition struct_at {A} `{Packed A} (packet : bytes) (off : Z) : A :=
  decode (take (Z.to_nat (sizeof A)) (drop (Z.to_nat off) packet)).

Lemma header_says packet : Forall u8 packet -> 20 <= Z.of_nat (length packet) ->
  let h : NF9_HEADER := struct_at packet 0 in
  bswap 2 (nf9h_version h) = be_at packet 0 2 /\ bswap 4 (nf9h_uptime_ms h) = be_at packet 4 4 /\
  bswap 4 (nf9h_time_sec h) = be_at packet 8 4 /\ bswap 4 (nf9h_package_sequence h) = be_at packet 12 4 /\
  bswap 4 (nf9h_source_id h) = be_at packet 16 4.
Proof.
  intros Hb Hl. do 20 (destruct packet as [|? packet]; [cbn in Hl; lia|]).
  unfold be_at.
  split_and!; match goal with |- bswap ?n _ = _ => rewrite <- (bswap_le_val n) by (by apply Forall_take, Forall_drop || reflexivity) end; reflexivity.
Qed.

(** The flow that nf9_flowset_to_store makes is well formed and says what the
    records say. *)
Lemma nf9_flowset_to_store_says maxl packet off tv src t recs :
  template_ok maxl t -> records t = Some recs -> Forall u8 packet -> inet_ok src -> 20 <= Z.of_nat (length packet) -> 0 <= off ->
  off + total_len t <= Z.of_nat (length packet) ->
  let h : NF9_HEADER := struct_at packet 0 in
  exists flow, nf9_flowset_to_store packet off (total_len t) tv src h t (ntohl (nf9h_source_id h)) = Ret (Some flow) /\
    flow_wf flow /\ says9 packet tv src recs off flow.
Proof.
  intros Ht Hrecs Hb Hsrc H20 Hoff Hle h. pose proof Hsrc as [Hsrc' _].
  pose proof (header_says packet Hb H20) as (V1 & V2 & V3 & V4 & V5). fold h in V1, V2, V3, V4, V5.
  assert (valid h) as Hh.
  { apply decode_valid; [by apply Forall_take, Forall_drop|]. rewrite length_take, length_drop.
    change (sizeof NF9_HEADER) with 20. change (sum_list (widths NF9_HEADER)) with 20%nat. lia. }
  assert (u32 (nf9h_source_id h)) as Hsid by (destruct h; valid_members; assumption).
  unfold template_ok in Ht. rewrite Hrecs in Ht. destruct Ht as (Hok & Hn & Htot & Hmax).
  unfold nf9_flowset_to_store. rewrite Z.ltb_irrefl. cbv zeta. rewrite Hrecs. set (flow := Mk_store_flow_complete _ _ _ _ _ _ _ _ _ _ _ _ _ _ _ _ _).
  assert (flow_wf flow) as Hwf.
  { clear V1 V2 V3 V4 V5. destruct h. valid_members. split; [|split; [|reflexivity]].
    - assert (xaddr_ok xaddr_zero) as Hz by (by apply (bool_decide_unpack _); vm_compute).
      unfold flow. flow_ok_members.
    - split; [by apply agent_flags_ok|]. split_and!; right; right; by split. }
  destruct (nf9_records_to_flow_effect recs packet flow off) as (f & -> & Hf & Ff & Fn & Fa & (K1 & K2 & K3 & K4 & K5)); [done|done|done|done|lia|].
  cbn [obind]. exists f. split; [done|]. split; [done|].
  assert (Forall (fun m => n_get m flow = 0) nf9_numbers) as Z0
    by (repeat (apply Forall_cons; split; [reflexivity|]); apply Forall_nil; exact I).
  assert (Forall (fun a => a_get a flow = xaddr_zero) nf9_addresses) as A0
    by (repeat (apply Forall_cons; split; [reflexivity|]); apply Forall_nil; exact I).
  constructor; rewrite ?K1, ?K2, ?K3, ?K4, ?K5; try done.
  - apply Forall_forall. intros m Hm. pose proof (proj1 (Forall_forall _ _) Fn m Hm) as H1.
    pose proof (proj1 (Forall_forall _ _) Z0 m Hm) as H0. cbv beta in H0. unfold number_became, number_says in *. rewrite H0 in H1.
    destruct (setting _ recs off) as [|[r o] [|]]; [done|by apply H1|done].
  - apply Forall_forall. intros a Hm. pose proof (proj1 (Forall_forall _ _) Fa a Hm) as H1.
    pose proof (proj1 (Forall_forall _ _) A0 a Hm) as H0. cbv beta in H0. unfold address_became, address_says in *. rewrite H0 in H1.
    destruct (setting _ recs off) as [|[r o] [|]] eqn:Es; [done| |done]. destruct H1 as [H1 H2]. split; [exact H1|].
    rewrite H2. f_equal. change (addr8 xaddr_zero) with (replicate 16 0). rewrite drop_replicate.
    assert (r ∈ fst <$> placed recs off /\ o + rec_len r <= off + rec_lens recs /\ off <= o) as (Hr & Ho & Ho').
    { assert ((r, o) ∈ setting [a_type4 a; a_type6 a] recs off) as Hin by (rewrite Es; by left).
      unfold setting in Hin. apply list_elem_of_filter in Hin as [_ Hin]. by apply placed_bounds. }
    rewrite placed_recs in Hr. pose proof (rec_ok_pos r (proj1 (Forall_forall _ _) Hok r Hr)).
    unfold part. rewrite length_take, length_drop. rewrite <- Htot in Ho. do 2 f_equal. lia.
  - cbn [flow fl_finf source_id]. rewrite <- V5. unfold ntohl, htonl. f_equal. by apply bswap_involutive.
Qed.

(** ** Headers and lengths *)

Lemma ntohs_le_val b : Forall u8 b -> length b = 2%nat -> ntohs (le_val b) = be_val b.
Proof. apply bswap_le_val. Qed.

(** The two numbers of a header of four bytes. *)
Lemma four_bytes packet off : Forall u8 packet -> 0 <= off -> off + 4 <= Z.of_nat (length packet) ->
  exists a b c d, take 4 (drop (Z.to_nat off) packet) = [a; b; c; d] /\
    ntohs (le_val [a; b]) = be_at packet off 2 /\ ntohs (le_val [c; d]) = be_at packet (off + 2) 2.
Proof.
  intros Hb Hoff Hle. assert (Forall u8 (drop (Z.to_nat off) packet)) as Hu by (by apply Forall_drop).
  unfold be_at, part. replace (Z.to_nat (off + 2)) with (Z.to_nat off + 2)%nat by lia. rewrite <- drop_drop.
  assert (length (drop (Z.to_nat off) packet) = length packet - Z.to_nat off)%nat as Hl by apply length_drop.
  destruct (drop (Z.to_nat off) packet) as [|a [|b [|c [|d l]]]]; cbn [length] in Hl; try lia.
  repeat (apply Forall_cons in Hu as [? Hu]). exists a, b, c, d. split; [reflexivity|].
  split; (rewrite ntohs_le_val; [reflexivity| |done]); repeat (apply Forall_cons; split; [assumption|]); by apply Forall_nil.
Qed.

Lemma flowset_header_at packet off : Forall u8 packet -> 0 <= off -> off + 4 <= Z.of_nat (length packet) ->
  ntohs (nf9fs_flowset_id (struct_at packet off)) = be_at packet off 2 /\
  ntohs (nf9fs_length (struct_at packet off)) = be_at packet (off + 2) 2.
Proof.
  intros Hb Hoff Hle. destruct (four_bytes packet off Hb Hoff Hle) as (a & b & c & d & E & <- & <-).
  unfold struct_at. change (Z.to_nat (sizeof NF9_FLOWSET_HEADER_COMMON)) with 4%nat. by rewrite E.
Qed.

Lemma template_header_at packet off : Forall u8 packet -> 0 <= off -> off + 4 <= Z.of_nat (length packet) ->
  ntohs (nf9th_template_id (struct_at packet off)) = be_at packet off 2 /\
  ntohs (nf9th_count (struct_at packet off)) = be_at packet (off + 2) 2.
Proof.
  intros Hb Hoff Hle. destruct (four_bytes packet off Hb Hoff Hle) as (a & b & c & d & E & <- & <-).
  unfold struct_at. change (Z.to_nat (sizeof NF9_TEMPLATE_FLOWSET_HEADER)) with 4%nat. by rewrite E.
Qed.

Lemma template_record_at packet off : Forall u8 packet -> 0 <= off -> off + 4 <= Z.of_nat (length packet) ->
  ntohs (nf9tr_type (struct_at packet off)) = be_at packet off 2 /\
  ntohs (nf9tr_length (struct_at packet off)) = be_at packet (off + 2) 2.
Proof.
  intros Hb Hoff Hle. destruct (four_bytes packet off Hb Hoff Hle) as (a & b & c & d & E & <- & <-).
  unfold struct_at. change (Z.to_nat (sizeof NF9_TEMPLATE_FLOWSET_RECORD)) with 4%nat. by rewrite E.
Qed.

(** The sizes of nf9_check_rec_len are those of the members. *)
Lemma nf9_sizes_rows ty :
  snd <$> find (fun c => fst c =? ty) nf9_sizes = (fun r => Z.of_nat (fst r)) <$> type_row ty.
Proof.
  destruct (decide (ty ∈ fst <$> nf9_sizes)) as [Hin|Hout].
  - unfold nf9_sizes in Hin. cbn [fmap list_fmap fst] in Hin.
    repeat (apply elem_of_cons in Hin as [->|Hin]; [reflexivity|]). by apply not_elem_of_nil in Hin.
  - assert (forall A (l : list (Z * A)), (forall t, t ∈ fst <$> l -> t ∈ fst <$> nf9_sizes) -> find (fun c => fst c =? ty) l = None) as Hnone.
    { intros A l Hl. destruct (find _ l) as [[t x]|] eqn:E; [|done]. apply find_some in E as [Hin Ht%Z.eqb_eq].
      destruct Hout. cbn [fst] in Ht. subst t. apply Hl. apply (list_elem_of_fmap_2 fst l (ty, x)). by apply list_elem_of_In. }
    unfold type_row. rewrite !Hnone; [done| |done]. intros t Ht.
    assert (Forall (fun t => t ∈ fst <$> nf9_sizes) (fst <$> type_rows)) as Hall
      by (apply (bool_decide_unpack _); vm_compute; exact I).
    by apply (proj1 (Forall_forall _ _) Hall).
Qed.

Lemma length_ok_check r : nf9_check_rec_len (rec_type r) (rec_len r) = true -> 0 <= rec_len r -> length_ok r.
Proof.
  unfold nf9_check_rec_len. intros H H0. destruct (Z.eqb_spec (rec_len r) 0); [done|]. destruct (Z.ltb_spec 0x4000 (rec_len r)); [done|].
  split; [lia|]. intros w fl Hrow. pose proof (nf9_sizes_rows (rec_type r)) as E. rewrite Hrow in E.
  destruct (find _ nf9_sizes) as [c|]; [|done]. cbn in E. apply (inj Some) in E. apply Z.leb_le in H. lia.
Qed.

Lemma length_ok_uncheck r : nf9_check_rec_len (rec_type r) (rec_len r) = false -> ~ length_ok r.
Proof.
  unfold nf9_check_rec_len. intros H [Hl Hrow]. rewrite (proj2 (Z.eqb_neq _ _)), (proj2 (Z.ltb_ge _ _)) in H by lia. cbn [orb] in H.
  pose proof (nf9_sizes_rows (rec_type r)) as E. destruct (find _ nf9_sizes) as [c|]; [|done].
  destruct (type_row (rec_type r)) as [[w fl]|]; [|done]. cbn in E. apply (inj Some) in E. specialize (Hrow w fl eq_refl).
  apply Z.leb_gt in H. lia.
Qed.
