(* ===== verification/Nf9Props.v ===== *)
(** * The collector: the flowsets of NetFlow 9

    The template cache, template and data flowsets, and whole packets: the parser
    returns with exactly the flows and the templates that Nf9Spec gives the packet,
    apart from the behaviours that the last part exhibits. *)

From stdpp Require Import gmap.
From S2P Require Import Prelude Packed Addr StoreTypes Store StoreProps.
From S2P Require Import StoreSwab StoreFile Filter Peer Netflow Flowd.
From S2P Require Import FlowdProps Nf9Spec Nf9Records.

(** ** The template cache *)

(** A template that the data parser can use. *)
Definition usable (maxl : Z) (t : nf9_template) : Prop :=
  template_ok maxl t /\ records t <> None /\ 0 < total_len t.

Definition cache (P : nf9_template -> Prop) (peer : peer_state) : Prop :=
  Forall (fun s => Forall P (templates s)) (nf9 peer).

Lemma q_update_Forall {A} (Q : A -> Prop) (P : A -> bool) f l :
  Forall Q l -> (forall x, Q x -> Q (f x)) -> Forall Q (q_update P f l).
Proof. intros H Hf. induction H as [|x l Hx H IH]; simpl; [done|]. case_match; constructor; auto. Qed.

Lemma cache_find P peer sid tid t :
  cache P peer -> peer_nf9_find_template peer sid tid = Some t -> P t.
Proof.
  unfold cache, peer_nf9_find_template, peer_nf9_lookup_source, peer_nf9_lookup_template. intros Hc.
  destruct (q_find (is_source sid) (nf9 peer)) as [s|] eqn:Es; [|done]. intros Et.
  apply q_find_Some in Es as [Hs _]. apply q_find_Some in Et as [Ht _].
  rewrite Forall_forall in Hc. by apply (proj1 (Forall_forall _ _) (Hc s Hs)).
Qed.

Lemma fill_nf9_ok maxs maxt peer sid tid recs n total :
  nf9_ok maxs maxt peer -> nf9_ok maxs maxt (peer_nf9_fill_template peer sid tid recs n total).
Proof.
  intros (Hnd & Hn & Hle & Hall). unfold peer_nf9_fill_template, nf9_ok. cbn [nf9 nf9_num_sources set_nf9].
  rewrite q_update_fmap, q_update_length by done. split; [done|]. split; [done|]. split; [done|].
  apply q_update_Forall; [done|]. intros s (H1 & H2 & H3). unfold source_ok, set_templates. cbn.
  by rewrite q_update_fmap, q_update_length by done.
Qed.

(** Filling a template that is there, or the one just inserted. *)
Lemma fill_cache P peer sid tid recs n total t :
  cache P peer -> peer_nf9_find_template peer sid tid = Some t ->
  (forall i, P (Mk_nf9_template i n total (Some recs))) ->
  cache P (peer_nf9_fill_template peer sid tid recs n total).
Proof.
  intros Hc _ HP. unfold cache, peer_nf9_fill_template. cbn [nf9 set_nf9].
  apply q_update_Forall; [done|]. intros s Hs. cbn. by apply q_update_Forall.
Qed.

Lemma source_of_cache P peer sid : cache P peer -> Forall P (templates (source_of peer sid)).
Proof.
  intros Hc. unfold source_of. destruct (peer_nf9_lookup_source peer sid) as [s|] eqn:E; [|by constructor].
  apply q_find_Some in E as [Hs _]. by apply (proj1 (Forall_forall _ _) Hc).
Qed.

Lemma lru_sources_cache P peer maxs sid :
  cache P peer -> Forall (fun s => Forall P (templates s)) (lru_sources maxs peer sid).
Proof.
  intros Hc. unfold lru_sources. destruct (peer_nf9_lookup_source peer sid); [|by apply Forall_take].
  apply Forall_forall. intros x Hx. apply (proj1 (Forall_forall _ _) Hc).
  eapply elem_of_sublist; [exact Hx|apply q_remove_sublist].
Qed.

(** What the template parser does with the records of a template. *)
Definition store_template (ps : peers) (peer : peer_state) (sid tid : Z) (recs : list nf9_record)
    (n total : Z) : outcome peer_state :=
  let! peer :=
    match peer_nf9_find_template peer sid tid with
    | Some _ => Ret peer
    | None => peer_nf9_new_template peer (max_sources ps) (max_templates ps) sid tid
    end in
  Ret (peer_nf9_fill_template peer sid tid recs n total).

Lemma from_same p p' : same_peer p p' -> from p' = from p.
Proof. unfold same_peer. by intros <-. Qed.

Lemma viewed_take {A B} (key : A -> Z) (g : A -> B) n l : viewed key g (take n l) = take n (viewed key g l).
Proof. apply fmap_take. Qed.

Lemma take_limit {A} n (x : A) l : 1 <= n -> take (Z.to_nat n) (x :: l) = x :: take (Z.to_nat (n - 1)) l.
Proof. intros H. by replace (Z.to_nat n) with (S (Z.to_nat (n - 1))) by lia. Qed.

Lemma assoc_view_templates tid l :
  assoc tid (view_templates l) = (fun t => default [] (records t)) <$> q_find (is_template tid) l.
Proof. apply (assoc_viewed template_id). Qed.

Lemma q_update_head {A} (P : A -> bool) f x l : P x = true -> q_update P f (x :: l) = f x :: l.
Proof. cbn. by intros ->. Qed.

(** Filling a template that is known replaces it. *)
Lemma fill_view maxs maxt peer sid tid recs n total t :
  nf9_ok maxs maxt peer -> peer_nf9_find_template peer sid tid = Some t ->
  view (peer_nf9_fill_template peer sid tid recs n total) = learn maxs maxt sid tid recs (view peer).
Proof.
  intros (Hnd & _ & _ & Hall) Ht. unfold peer_nf9_find_template, peer_nf9_lookup_source, peer_nf9_lookup_template in Ht.
  unfold learn, view. rewrite assoc_viewed. change (is_key nf9_source_id sid) with (is_source sid).
  destruct (q_find (is_source sid) (nf9 peer)) as [s|] eqn:Es; [|done]. cbn [fmap option_fmap option_map].
  rewrite assoc_view_templates, Ht.
  cbn [fmap option_fmap option_map]. unfold peer_nf9_fill_template. cbn [nf9 set_nf9].
  apply (replaced_viewed nf9_source_id); [exact Hnd|]. intros x Hx Hid. split; [done|]. cbn [templates set_templates].
  assert (x = s) as ->.
  { pose proof (q_find_key_in nf9_source_id (nf9 peer) x Hnd Hx) as E. rewrite Hid in E.
    change (is_key nf9_source_id sid) with (is_source sid) in E. congruence. }
  pose proof (proj1 (Forall_forall _ _) Hall s Hx) as (Hndt & _ & _).
  apply (replaced_viewed template_id); [exact Hndt|]. intros y _ Hy. by split.
Qed.

(** A template that is not known goes to the front. *)
Lemma new_view maxs maxt peer sid tid recs n total :
  nf9_ok maxs maxt peer -> limit_ok maxs -> limit_ok maxt -> peer_nf9_find_template peer sid tid = None ->
  exists p1, peer_nf9_new_template peer maxs maxt sid tid = Ret p1 /\
    view (peer_nf9_fill_template p1 sid tid recs n total) = learn maxs maxt sid tid recs (view peer).
Proof.
  intros Hok Hs Ht Hnone. destruct (peer_nf9_new_template_ok peer maxs maxt sid tid) as (p1 & E & Hn & _); [done..|].
  exists p1. split; [exact E|]. unfold peer_nf9_fill_template, view at 1. cbn [nf9 set_nf9]. rewrite Hn. clear E Hn p1.
  rewrite q_update_head by apply Z.eqb_refl. unfold set_templates, lru_push. cbn [templates nf9_source_id num_templates].
  rewrite q_update_head by apply Z.eqb_refl.
  change ((sid, (tid, recs) :: view_templates (take (Z.to_nat (maxt - 1)) (templates (source_of peer sid)))) ::
    viewed nf9_source_id (fun s => view_templates (templates s)) (lru_sources maxs peer sid) = learn maxs maxt sid tid recs (view peer)).
  destruct Hok as (Hnd & _ & _ & _). unfold limit_ok in *. unfold view_templates at 1. rewrite viewed_take.
  unfold peer_nf9_find_template, peer_nf9_lookup_template in Hnone. unfold learn, view, source_of, lru_sources.
  rewrite assoc_viewed. change (is_key nf9_source_id sid) with (is_source sid). fold (peer_nf9_lookup_source peer sid).
  destruct (peer_nf9_lookup_source peer sid) as [s|]; cbn [fmap option_fmap option_map default templates].
  - rewrite assoc_view_templates, Hnone.
    cbn [fmap option_fmap option_map]. rewrite take_limit by lia. f_equal. by apply (others_viewed nf9_source_id).
  - rewrite viewed_take, take_limit by lia. f_equal. cbn [viewed fmap list_fmap]. by destruct (Z.to_nat (maxt - 1)).
Qed.

Lemma store_template_ok (P : nf9_template -> Prop) ps peer sid tid recs n total :
  nf9_ok (max_sources ps) (max_templates ps) peer -> limit_ok (max_sources ps) ->
  limit_ok (max_templates ps) -> cache P peer ->
  (forall i, P (Mk_nf9_template i n total (Some recs))) ->
  exists peer', store_template ps peer sid tid recs n total = Ret peer' /\ from peer' = from peer /\
    nf9_ok (max_sources ps) (max_templates ps) peer' /\ cache P peer' /\
    view peer' = learn (max_sources ps) (max_templates ps) sid tid recs (view peer).
Proof.
  intros Hok Hs Ht Hc HP. unfold store_template.
  destruct (peer_nf9_find_template peer sid tid) as [t|] eqn:E; cbn [obind].
  - eexists. split; [reflexivity|]. split; [done|]. split; [by apply fill_nf9_ok|].
    split; [by eapply fill_cache|]. by eapply fill_view.
  - destruct (new_view (max_sources ps) (max_templates ps) peer sid tid recs n total) as (p1 & E1 & Hview); [done..|].
    destruct (peer_nf9_new_template_ok peer (max_sources ps) (max_templates ps) sid tid)
      as (p1' & E1' & Hn & Hsame & Hok1 & Hf); [done..|]. rewrite E1 in E1'. apply Ret_inj in E1' as <-. rewrite E1. cbn [obind].
    eexists. split; [reflexivity|]. split; [by apply (from_same peer p1)|].
    split; [by apply fill_nf9_ok|]. split; [|exact Hview].
    unfold cache, peer_nf9_fill_template. cbn [nf9 set_nf9]. rewrite Hn, q_update_head by apply Z.eqb_refl. unfold lru_push.
    cbn [set_templates templates]. rewrite q_update_head by apply Z.eqb_refl.
    apply Forall_cons. split; [|by apply lru_sources_cache].
    apply Forall_cons. split; [apply HP|]. by apply Forall_take, source_of_cache.
Qed.

(** ** States *)

Definition caches_ok (ps : peers) : Prop :=
  forall p s, pheap ps !! p = Some s -> cache (usable (max_template_len ps)) s.

(** A state in which the packet of the peer [p] can be parsed. *)
Record v9_state (n : nat) (p : loc) (s : fstate) : Prop := {
  v9_flowd : flowd_ok n s;
  v9_caches : caches_ok (fs_peers s);
  v9_peer : p ∈ peer_list (fs_peers s)
}.

(** The templates that are known of a peer. *)
Definition tables (s : fstate) (p : loc) : cache9 := from_option view [] (pheap (fs_peers s) !! p).

(** What a part of a packet of [p] does: its flows are logged, and the templates of
    other peers and the limits of the tables stay. *)
Record did (env : fenv) (p : loc) (s s' : fstate) (flows : list store_flow_complete) : Prop := {
  did_log : logged env s s' flows;
  did_wf : Forall flow_wf flows;
  did_limits : max_sources (fs_peers s') = max_sources (fs_peers s) /\
    max_templates (fs_peers s') = max_templates (fs_peers s);
  did_others : forall q, q <> p -> tables s' q = tables s q
}.

Lemma did_nothing env p s : did env p s s [].
Proof. constructor; [apply logged_refl|constructor|done|done]. Qed.

Lemma did_trans env p s1 s2 s3 l1 l2 : did env p s1 s2 l1 -> did env p s2 s3 l2 -> did env p s1 s3 (l1 ++ l2).
Proof.
  intros [L1 W1 [A1 A2] O1] [L2 W2 [B1 B2] O2]. constructor; [by eapply logged_app|by apply Forall_app|split; congruence|].
  intros q Hq. by rewrite O2, O1.
Qed.

Lemma flowd_ok_le n m s : (m <= n)%nat -> flowd_ok n s -> flowd_ok m s.
Proof. intros Hle [? [? ?] ? ?]. constructor; [done|split; [lia|done]|done|done]. Qed.

Lemma v9_state_le n m p s : (m <= n)%nat -> v9_state n p s -> v9_state m p s.
Proof. intros Hle []. constructor; [by eapply flowd_ok_le|done|done]. Qed.

Lemma v9_peer_lookup n p s : v9_state n p s ->
  exists peer, pheap (fs_peers s) !! p = Some peer /\ peer_get (fs_peers s) p = Ret peer /\
    inet_ok (from peer) /\ nf9_ok (max_sources (fs_peers s)) (max_templates (fs_peers s)) peer /\
    cache (usable (max_template_len (fs_peers s))) peer /\ tables s p = view peer.
Proof.
  intros [Hok Hc Hp]. destruct (peer_lookup n s p Hok Hp) as [peer Hpeer]. exists peer.
  unfold peer_get, tables. rewrite Hpeer. destruct Hok as [_ _ _ Hpo].
  destruct (to_heap _ (po_table _ Hpo) p peer Hpeer). split_and!; try done. by apply (Hc p).
Qed.

Lemma v9_put_ok env n p s peer peer' :
  v9_state n p s -> pheap (fs_peers s) !! p = Some peer -> from peer' = from peer ->
  nf9_ok (max_sources (fs_peers s)) (max_templates (fs_peers s)) peer' ->
  cache (usable (max_template_len (fs_peers s))) peer' ->
  let s' := set_fs_peers (peer_put (fs_peers s) p peer') s in
  v9_state n p s' /\ did env p s s' [] /\ tables s' p = view peer'.
Proof.
  intros [[H1 H2 H3 H4] Hc Hp] Hpeer Hfrom Hnf9 Hca s'. split; [|split; [constructor|]].
  - constructor; [constructor; try done|..]; cbn.
    + by eapply peer_put_ok.
    + intros q sq Hq. cbn in Hq. apply lookup_insert_Some in Hq as [[_ <-]|[_ Hq]]; [done|by apply (Hc q)].
    + done.
  - apply logged_nil; [done..|]. by apply (same_from_put _ p peer).
  - constructor.
  - done.
  - intros q Hq. unfold tables. cbn. by rewrite lookup_insert_ne.
  - unfold tables. cbn. by rewrite lookup_insert_eq.
Qed.

Lemma v9_invalid_ok env n p s : v9_state n p s ->
  exists s', add_invalid p s = Ret s' /\ v9_state n p s' /\ did env p s s' [] /\ tables s' p = tables s p.
Proof.
  intros Hs. destruct (v9_peer_lookup n p s Hs) as (peer & Hpeer & Hget & _ & Hnf9 & Hc & ->).
  unfold add_invalid. rewrite Hget. cbn [obind]. eexists. split; [reflexivity|].
  by apply (v9_put_ok env n p s peer (set_ninvalid (wrap64 (ninvalid peer + 1)) peer)).
Qed.

Lemma v9_flows_ok env flows n p s :
  malloc_ok env -> mask_ok (fe_store_mask env) -> Forall flow_wf flows ->
  v9_state (length flows + n) p s ->
  exists s', ofold (process_flow env) s flows = Ret s' /\ v9_state n p s' /\
    did env p s s' flows /\ tables s' p = tables s p.
Proof.
  intros Hm Hmask Hwf [Hok Hc Hp].
  destruct (process_flows_ok env flows n s) as (s' & E & Hok' & Hl & Hpe); [done..|].
  exists s'. split; [done|]. unfold tables. rewrite Hpe. split; [constructor; [done|by rewrite Hpe|by rewrite Hpe]|].
  split; [|done]. constructor; [done|done|by rewrite Hpe|]. intros q _. unfold tables. by rewrite Hpe.
Qed.

(** ** Data flowsets *)

(** The packet: the source that its header names, and the header. *)
Definition header9 (fp : flow_packet) : NF9_HEADER := struct_at (fp_packet fp) 0.
Definition source9 (fp : flow_packet) : Z := ntohl (nf9h_source_id (header9 fp)).

(** The arguments of the NetFlow 9 parsers. *)
Record v9_args (env : fenv) (fp : flow_packet) : Prop := {
  va_malloc : malloc_ok env;
  va_mask : mask_ok (fe_store_mask env);
  va_bytes : Forall u8 (fp_packet fp);
  va_header : 20 <= fp_len fp
}.

Lemma source9_ok fp : Forall u8 (fp_packet fp) -> 20 <= fp_len fp -> source9 fp = packet_source (fp_packet fp).
Proof. intros Hb Hl. unfold source9, header9, packet_source. by apply (header_says (fp_packet fp)). Qed.

Lemma data_flows_ok maxl n fp src t recs : forall off,
  template_ok maxl t -> records t = Some recs -> Forall u8 (fp_packet fp) -> inet_ok src -> 20 <= fp_len fp -> 0 <= off -> 0 <= total_len t ->
  off + Z.of_nat n * total_len t <= fp_len fp ->
  exists flows, data_flows n (fp_packet fp) off (fp_recv_time fp) src (header9 fp) t (source9 fp) = Ret (Some flows) /\
    Forall flow_wf flows /\
    Forall2 (fun i f => says9 (fp_packet fp) (fp_recv_time fp) src recs (off + Z.of_nat i * total_len t) f) (seq 0 n) flows.
Proof.
  induction n as [|n IH]; intros off Ht Hr Hb Hsrc H20 Hoff Htl Hle; [by exists []|].
  destruct (nf9_flowset_to_store_says maxl (fp_packet fp) off (fp_recv_time fp) src t recs) as (f & E & Hf & Hs); [done..|unfold fp_len in *; nia|].
  destruct (IH (off + total_len t)) as (fs & E' & Hfs & Hat); [done..|lia|done|nia|].
  exists (f :: fs). cbn [data_flows]. unfold source9, header9 in *. rewrite E. cbn [obind]. rewrite E'. cbn [obind].
  split; [done|]. split; [by constructor|]. cbn [seq]. constructor.
  - by replace (off + Z.of_nat 0 * total_len t) with off by lia.
  - rewrite <- fmap_S_seq. apply Forall2_fmap_l. eapply Forall2_impl; [exact Hat|]. intros i x Hx. cbn [compose].
    by replace (off + Z.of_nat (S i) * total_len t) with (off + total_len t + Z.of_nat i * total_len t) by lia.
Qed.

Lemma rd_struct {A} `{Packed A} packet off :
  0 <= off -> off + sizeof A <= Z.of_nat (length packet) ->
  exists b, rd packet off (sizeof A) = Ret b /\ decode b = struct_at packet off.
Proof.
  intros Hoff Hle. assert (0 <= sizeof A) by (unfold sizeof; lia).
  eexists. unfold rd. rewrite mem_read_in by lia. by split.
Qed.

Lemma div_bounds a b : 0 <= a -> 0 < b -> 0 <= a / b <= a /\ a / b * b <= a.
Proof.
  intros Ha Hb. pose proof (Z.div_pos a b Ha Hb). pose proof (Z.mul_div_le a b Hb). nia.
Qed.

(** The outcome of a data flowset: the result and its flows. *)
Definition data_result (fp : flow_packet) (src : xaddr) (base len : Z) (K : cache9) (r : Z) (flows : list store_flow_complete) : Prop :=
  match known (packet_source (fp_packet fp)) (be_at (fp_packet fp) base 2) K with
  | None => r = 0 /\ flows = []
  | Some recs =>
      if decide (1 <= flow_count len recs <= 16384)
      then r = 0 /\ Forall2 (fun i f => says9 (fp_packet fp) (fp_recv_time fp) src recs (base + 4 + Z.of_nat i * rec_lens recs) f)
                      (seq 0 (Z.to_nat (flow_count len recs))) flows
      else r = -1 /\ flows = []
  end.

(** A data flowset from its state: no more flows than bytes. *)
Lemma process_netflow_v9_data_ok env fp base len p s n src :
  v9_args env fp -> v9_state (Z.to_nat len + n) p s -> 0 <= base -> 4 <= len ->
  base + len <= fp_len fp -> from <$> pheap (fs_peers s) !! p = Some src ->
  exists r k s' flows, process_netflow_v9_data env fp base len p (source9 fp) (header9 fp) s = Ret (r, k, s') /\
    v9_state n p s' /\ did env p s s' flows /\ tables s' p = tables s p /\ data_result fp src base len (tables s p) r flows.
Proof.
  intros [Hm Hmask Hb H20] Hs Hbase Hlen Hle Hsrc.
  destruct (v9_peer_lookup _ p s Hs) as (peer & Hpeer & Hget & Hfrom & Hnf9 & Hc & Hview).
  rewrite Hpeer in Hsrc. cbn [fmap option_fmap option_map] in Hsrc. apply (inj Some) in Hsrc as <-.
  unfold process_netflow_v9_data. cbv zeta. change (sizeof NF9_FLOWSET_HEADER_COMMON) with 4.
  rewrite (proj2 (Z.ltb_ge _ _)) by lia.
  destruct (rd_struct (A := NF9_FLOWSET_HEADER_COMMON) (fp_packet fp) base) as (b & Hrd & Hdec);
    [done|change (sizeof NF9_FLOWSET_HEADER_COMMON) with 4; unfold fp_len in *; lia|].
  change (sizeof NF9_FLOWSET_HEADER_COMMON) with 4 in Hrd. rewrite Hrd. cbn [obind]. rewrite Hdec, Hget. cbn [obind].
  rewrite (proj1 (flowset_header_at (fp_packet fp) base Hb Hbase ltac:(unfold fp_len in *; lia))).
  unfold data_result. rewrite Hview, view_known, source9_ok by done.
  set (id := be_at (fp_packet fp) base 2).
  destruct (peer_nf9_find_template peer (packet_source (fp_packet fp)) id) as [t|] eqn:Ht; cbn [fmap option_fmap option_map].
  - destruct (cache_find _ peer _ id t Hc Ht) as (Htok & Hrec & Htl).
    destruct (records t) as [recs|] eqn:Hrecs; [|done]. change (default [] (Some recs)) with recs. cbv beta iota.
    assert (rec_lens recs = total_len t) as El by (unfold template_ok in Htok; rewrite Hrecs in Htok; symmetry; apply Htok).
    rewrite (proj2 (Z.eqb_neq _ _)) by lia. unfold flow_count. rewrite El.
    set (m := (len - 4) / total_len t).
    assert (0 <= m <= len - 4 /\ m * total_len t <= len - 4) as [Hm1 Hm2].
    { unfold m. apply div_bounds; lia. }
    destruct ((m =? 0) || (0x4000 <? m)) eqn:Hmm.
    { exists (-1), 0, s, []. split; [done|]. split; [by apply (v9_state_le (Z.to_nat len + n) n); [lia|]|].
      split; [apply did_nothing|]. split; [done|]. rewrite decide_False; [done|].
      apply orb_true_iff in Hmm as [Hmm%Z.eqb_eq|Hmm%Z.ltb_lt]; lia. }
    apply orb_false_iff in Hmm as [Hmm1%Z.eqb_neq Hmm2%Z.ltb_ge].
    rewrite <- source9_ok by done.
    destruct (data_flows_ok (max_template_len (fs_peers s)) (Z.to_nat m) fp (from peer) t recs (base + 4))
      as (flows & -> & Hwf & Hat); [done..|lia|lia|rewrite Z2Nat.id; lia|].
    cbn [obind].
    assert (length flows = Z.to_nat m) as Hl by (apply Forall2_length in Hat; by rewrite length_seq in Hat).
    destruct (v9_flows_ok env flows n p s) as (s' & -> & Hs' & Hd & Htb); [done..| |].
    { apply (v9_state_le (Z.to_nat len + n)); [lia|done]. }
    cbn [obind]. exists 0, m, s', flows. split; [done|]. split; [done|]. split; [done|]. split; [by rewrite Htb|].
    rewrite decide_True by lia. by split.
  - destruct (v9_put_ok env _ p s peer (set_no_template (wrap64 (no_template peer + 1)) peer) Hs Hpeer eq_refl Hnf9 Hc)
      as (Hs' & Hd & Htb).
    eexists 0, 0, _, []. split; [reflexivity|]. split; [by apply (v9_state_le (Z.to_nat len + n)); [lia|]|].
    split; [exact Hd|]. by split.
Qed.

(** ** Template flowsets *)

Lemma records_at_cons packet off count :
  records_at packet off (S count) =
    Mk_nf9_record (be_at packet off 2) (be_at packet (off + 2) 2) :: records_at packet (off + 4) count.
Proof.
  unfold records_at. cbn [seq fmap list_fmap]. f_equal; [by rewrite Z.add_0_r|].
  rewrite <- fmap_S_seq, <- list_fmap_compose. apply list_fmap_ext. intros i x _. cbn [compose].
  by replace (off + 4 * Z.of_nat (S x)) with (off + 4 + 4 * Z.of_nat x) by lia.
Qed.

Lemma records_at_length packet off count : length (records_at packet off count) = count.
Proof. unfold records_at. by rewrite length_fmap, length_seq. Qed.

Lemma be_at_nonneg packet off n : Forall u8 packet -> 0 <= be_at packet off n.
Proof. intros Hb. unfold be_at, be_val. by apply le_val_bound, Forall_rev_u8, Forall_take, Forall_drop. Qed.

Lemma rec_lens_nonneg packet off count : Forall u8 packet -> 0 <= rec_lens (records_at packet off count).
Proof.
  intros Hb. revert off. induction count as [|count IH]; intros off; [done|]. rewrite records_at_cons. cbn [rec_lens foldr rec_len].
  specialize (IH (off + 4)). unfold rec_lens in IH. pose proof (be_at_nonneg packet (off + 2) 2 Hb). lia.
Qed.

(** The records of a template are read within the flowset, when offsets and lengths
    are multiples of their size, and refused when they do not fit it. *)
Lemma template_records_ok packet base len maxl : forall count offset total,
  Forall u8 packet -> 0 <= base -> 0 <= offset -> offset mod 4 = 0 -> len mod 4 = 0 ->
  base + len <= Z.of_nat (length packet) ->
  let recs := records_at packet (base + offset) (S count) in
  let fits := offset + 4 * Z.of_nat (S count) <= len /\ Forall length_ok recs /\ total + rec_lens recs <= maxl in
  exists r, template_records (S count) packet base len offset total maxl = Ret r /\
    ((fits /\ Forall rec_ok recs /\ r = Some (recs, offset + 4 * Z.of_nat (S count), total + rec_lens recs)) \/ (~ fits /\ r = None)).
Proof.
  induction count as [|count IH]; intros offset total Hb Hbase Hoff Hm4 Hl4 Hle recs fits; subst recs; cbn [template_records];
    (destruct (Z.leb_spec len offset) as [Hge|Hlt]; [exists None; split; [done|]; right; split; [intros (? & _); lia|done]|]);
    (assert (offset + 4 <= len) as Hin by (pose proof (Z.div_mod offset 4); pose proof (Z.div_mod len 4); lia));
    change (sizeof NF9_TEMPLATE_FLOWSET_RECORD) with 4;
    (destruct (rd_struct (A := NF9_TEMPLATE_FLOWSET_RECORD) packet (base + offset)) as (b & Hrd & Hdec);
      [lia|change (sizeof NF9_TEMPLATE_FLOWSET_RECORD) with 4; lia|]);
    change (sizeof NF9_TEMPLATE_FLOWSET_RECORD) with 4 in Hrd; rewrite Hrd; cbn [obind]; rewrite Hdec;
    destruct (template_record_at packet (base + offset) Hb ltac:(lia) ltac:(lia)) as [-> ->];
    subst fits; rewrite records_at_cons; set (r := Mk_nf9_record _ _);
    (assert (0 <= rec_len r) as Hr0
      by (by apply be_at_nonneg)).
  - cbn [rec_lens foldr records_at seq fmap list_fmap].
    destruct (Z.ltb_spec maxl (total + rec_len r)) as [Hmax|Hmax].
    { exists None. split; [done|]. right. split; [intros (_ & _ & ?); lia|done]. }
    destruct (nf9_check_rec_len (rec_type r) (rec_len r)) eqn:Hck; cbn [negb].
    + eexists. split; [reflexivity|]. left. split; [split; [lia|]; split; [|lia]|split].
      * constructor; [by apply length_ok_check|constructor].
      * constructor; [by split|constructor].
      * cbn [template_records]. do 3 f_equal; lia.
    + exists None. split; [done|]. right. split; [|done]. intros (_ & Hok & _). apply Forall_cons in Hok as [Hok _].
      by apply length_ok_uncheck in Hck.
  - set (rest := records_at packet (base + offset + 4) (S count)) in *.
    pose proof (rec_lens_nonneg packet (base + offset + 4) (S count) Hb) as Hnn. fold rest in Hnn.
    change (rec_lens (r :: rest)) with (rec_len r + rec_lens rest).
    destruct (Z.ltb_spec maxl (total + rec_len r)) as [Hmax|Hmax].
    { exists None. split; [done|]. right. split; [intros (_ & _ & ?); lia|done]. }
    destruct (nf9_check_rec_len (rec_type r) (rec_len r)) eqn:Hck; cbn [negb].
    2:{ exists None. split; [done|]. right. split; [|done]. intros (_ & Hok & _). apply Forall_cons in Hok as [Hok _].
        by apply length_ok_uncheck in Hck. }
    destruct (IH (offset + 4) (total + rec_len r)) as (r' & E & Hr'); [done|done|lia| |done|done|].
    { replace (offset + 4) with (offset + 1 * 4) by lia. by rewrite Z.mod_add. }
    cbn [template_records] in E. change (sizeof NF9_TEMPLATE_FLOWSET_RECORD) with 4 in E. rewrite E. cbn [obind]. rewrite Z.add_assoc in Hr'. fold rest in Hr'.
    destruct Hr' as [((F1 & F2 & F3) & Hok & ->)|[Hno ->]].
    + eexists. split; [reflexivity|]. left. split; [split; [lia|]; split; [|lia]|split].
      * constructor; [by apply length_ok_check|done].
      * constructor; [by split|done].
      * do 2 f_equal; [f_equal; lia|lia].
    + exists None. split; [done|]. right. split; [|done]. intros (F1 & F2 & F3). apply Hno.
      apply Forall_cons in F2 as [_ F2]. split; [lia|]. split; [done|lia].
Qed.

(** The offsets at which a template flowset has templates, by the counts it gives. *)
Inductive template_at (packet : bytes) (base : Z) : Z -> Prop :=
  | template_first : template_at packet base 4
  | template_next off :
      template_at packet base off ->
      template_at packet base
        (off + 4 + 4 * ntohs (nf9th_count (struct_at packet (base + off)))).

Lemma template_at_mod packet base off : template_at packet base off -> off mod 4 = 0 /\ 4 <= off.
Proof.
  induction 1 as [|off _ [IH1 IH2]]; [done|].
  pose proof (ntohs_u16 (nf9th_count (struct_at packet (base + off)))) as [H _]. split; [|lia].
  replace (off + 4 + 4 * _) with (off + (1 + ntohs (nf9th_count (struct_at packet (base + off)))) * 4) by lia.
  by rewrite Z.mod_add.
Qed.

Lemma template_usable recs maxl i :
  Forall rec_ok recs -> recs <> [] -> rec_lens recs <= maxl ->
  usable maxl (Mk_nf9_template i (Z.of_nat (length recs)) (rec_lens recs) (Some recs)).
Proof.
  intros Hr Hne Hmax. split; [by split_and!|]. split; [done|]. cbn.
  pose proof (rec_lens_pos recs Hr). destruct recs; [done|]. cbn [length] in *. lia.
Qed.

(** The limits of the tables. *)
Record limits (s : fstate) (maxs maxt maxl : Z) : Prop := {
  li_sources : max_sources (fs_peers s) = maxs;
  li_templates : max_templates (fs_peers s) = maxt;
  li_length : max_template_len (fs_peers s) = maxl
}.

Lemma did_limits_ok env p s s' flows maxs maxt maxl :
  did env p s s' flows -> limits s maxs maxt maxl -> limits s' maxs maxt maxl.
Proof.
  intros [(_ & _ & _ & [Hl _]) _ [H1 H2] _] []. constructor; congruence.
Qed.

Lemma did_from env p s s' flows src :
  did env p s s' flows -> from <$> pheap (fs_peers s) !! p = Some src -> from <$> pheap (fs_peers s') !! p = Some src.
Proof. intros [(_ & _ & _ & [_ Hf]) _ _ _] H. by rewrite Hf. Qed.

Lemma template_loop_ok env n fp base len p maxs maxt maxl :
  v9_args env fp -> 0 <= base -> len mod 4 = 0 -> base + len <= fp_len fp ->
  (forall off, template_at (fp_packet fp) base off -> off < len ->
     0 < ntohs (nf9th_count (struct_at (fp_packet fp) (base + off)))) ->
  forall fuel off s, template_at (fp_packet fp) base off -> v9_state n p s -> off <= len ->
  limits s maxs maxt maxl -> len - off < Z.of_nat fuel ->
  exists r s', template_loop fuel (fp_packet fp) base len off p (source9 fp) s = Ret (r, s') /\
    v9_state n p s' /\ did env p s s' [] /\
    templates9 maxs maxt maxl (fp_packet fp) base len off (tables s p) (r =? 0) (tables s' p).
Proof.
  intros [_ _ Hb H20] Hbase Hl4 Hle Hcount. unfold fp_len in Hle.
  induction fuel as [|fuel IH]; intros off s Hoff Hs Hol Hlim Hf; [lia|cbn [template_loop]].
  destruct (Z.ltb_spec off len) as [Hlt|Hge].
  2:{ exists 0, s. split; [done|]. split; [done|]. split; [apply did_nothing|]. apply templates9_end. lia. }
  pose proof (template_at_mod _ _ _ Hoff) as [Hm4 H4].
  assert (off + 4 <= len) as Hin.
  { pose proof (Z.div_mod off 4). pose proof (Z.div_mod len 4). lia. }
  destruct (rd_struct (A := NF9_TEMPLATE_FLOWSET_HEADER) (fp_packet fp) (base + off)) as (b & Hrd & Hdec);
    [lia|change (sizeof NF9_TEMPLATE_FLOWSET_HEADER) with 4; lia|].
  rewrite Hrd. cbn [obind]. rewrite Hdec. clear Hrd Hdec b.
  change (sizeof NF9_TEMPLATE_FLOWSET_HEADER) with 4.
  pose proof (Hcount off Hoff Hlt) as Hc. pose proof (template_next (fp_packet fp) base off Hoff) as Hnext.
  destruct (template_header_at (fp_packet fp) (base + off) Hb ltac:(lia) ltac:(lia)) as [Eid Ecount].
  rewrite Eid, Ecount. rewrite Ecount in Hc, Hnext.
  set (count := be_at (fp_packet fp) (base + off + 2) 2) in *. set (tid := be_at (fp_packet fp) (base + off) 2) in *.
  destruct (Z.to_nat count) as [|c] eqn:Ec; [lia|].
  set (recs := records_at (fp_packet fp) (base + (off + 4)) (S c)).
  assert (recs = records_at (fp_packet fp) (base + off + 4) (Z.to_nat (be_at (fp_packet fp) (base + off + 2) 2))) as Erecs.
  { fold count. rewrite Ec. unfold recs. by rewrite Z.add_assoc. }
  assert (length recs = S c) as Hlen by apply records_at_length.
  destruct (template_records_ok (fp_packet fp) base len (max_template_len (fs_peers s)) c (off + 4) 0)
    as (r & -> & Hr); [done|done|lia| |done|done|].
  { replace (off + 4) with (off + 1 * 4) by lia. by rewrite Z.mod_add. }
  fold recs in Hr. rewrite Z.add_0_l, (li_length _ _ _ _ Hlim) in Hr. cbn [obind].
  destruct Hr as [((F1 & F2 & F3) & Hrecs & ->)|[Hno ->]].
  2:{ destruct (v9_invalid_ok env n p s Hs) as (s' & -> & Hs' & Hd & Ht). exists (-1), s'. split; [done|]. split; [done|].
      split; [done|]. rewrite Ht. apply (templates9_bad _ _ _ _ _ _ _ _ recs); [done|done|]. intros (G1 & G2 & G3). apply Hno. rewrite Hlen in G1. split; [lia|by split]. }
  destruct (v9_peer_lookup n p s Hs) as (peer & Hpeer & Hget & _ & Hnf9 & Hca & Hview). rewrite Hget. cbn [obind].
  destruct (fo_peers _ _ (v9_flowd _ _ _ Hs)) as [_ _ _ (_ & Hls & Hlt')].
  destruct (store_template_ok (usable (max_template_len (fs_peers s))) (fs_peers s) peer (source9 fp) tid recs count (rec_lens recs))
    as (peer' & Hst & Hfrom & Hnf9' & Hca' & Hview'); [done..| |].
  { intros i. replace count with (Z.of_nat (length recs)) by lia. rewrite (li_length _ _ _ _ Hlim).
    apply template_usable; [done| |done]. intros E. rewrite E in Hlen. discriminate Hlen. }
  unfold store_template in Hst. apply obind_Ret_inv in Hst as (p1 & -> & Hfill%Ret_inj). cbn [obind].
  rewrite Hfill. destruct (v9_put_ok env n p s peer peer') as (Hs' & Hd & Htb); [done..|].
  replace (off + 4 + 4 * Z.of_nat (S c)) with (off + 4 + 4 * count) by lia.
  destruct (IH _ _ Hnext Hs') as (r & s' & -> & Hs'' & Hd' & Ht'); [lia|by eapply did_limits_ok|lia|].
  exists r, s'. split; [done|]. split; [done|]. split; [by eapply (did_trans _ _ _ _ _ [] [])|].
  apply (templates9_good _ _ _ _ _ _ _ _ recs); [done|done|split; [lia|by split]|].
  rewrite Htb, Hview', (li_sources _ _ _ _ Hlim), (li_templates _ _ _ _ Hlim), <- Hview, source9_ok in Ht' by done.
  replace (off + 4 + 4 * Z.of_nat (length recs)) with (off + 4 + 4 * count) by lia. exact Ht'.
Qed.

Lemma process_netflow_v9_template_ok env n fp base len p s maxs maxt maxl :
  v9_args env fp -> 0 <= base -> 0 < len -> len mod 4 = 0 -> base + len <= fp_len fp ->
  be_at (fp_packet fp) base 2 = 0 ->
  (forall off, template_at (fp_packet fp) base off -> off < len ->
     0 < ntohs (nf9th_count (struct_at (fp_packet fp) (base + off)))) ->
  v9_state n p s -> limits s maxs maxt maxl ->
  exists r s', process_netflow_v9_template (fp_packet fp) base len p (source9 fp) s = Ret (r, s') /\
    v9_state n p s' /\ did env p s s' [] /\
    templates9 maxs maxt maxl (fp_packet fp) base len 4 (tables s p) (r =? 0) (tables s' p).
Proof.
  intros Hargs Hbase Hpos Hl4 Hle Hid Hcount Hs Hlim. unfold process_netflow_v9_template.
  assert (4 <= len) as Hlen by (pose proof (Z.div_mod len 4); lia).
  change (sizeof NF9_FLOWSET_HEADER_COMMON) with 4. rewrite (proj2 (Z.ltb_ge _ _)) by lia.
  destruct (rd_struct (A := NF9_FLOWSET_HEADER_COMMON) (fp_packet fp) base) as (b & Hrd & Hdec);
    [done|change (sizeof NF9_FLOWSET_HEADER_COMMON) with 4; unfold fp_len in *; lia|].
  change (sizeof NF9_FLOWSET_HEADER_COMMON) with 4 in Hrd. rewrite Hrd. cbn [obind].
  rewrite Hdec, (proj1 (flowset_header_at (fp_packet fp) base (va_bytes _ _ Hargs) Hbase ltac:(unfold fp_len in *; lia))), Hid.
  change (negb _) with false. cbv iota.
  apply (template_loop_ok env n fp base len p maxs maxt maxl); [done..|constructor|done|lia|done|lia].
Qed.

(** ** Packets *)

(** The offsets of the flowsets of a packet, by the lengths they give. *)
Inductive flowset_at (packet : bytes) : Z -> Prop :=
  | flowset_first : flowset_at packet 20
  | flowset_next off :
      flowset_at packet off -> flowset_at packet (off + ntohs (nf9fs_length (struct_at packet off))).

(** Packets on which the parser stays within the packet, makes progress and gets
    templates that are not empty: no flowset header is cut off and no flowset is
    empty, and template flowsets have a length that is a multiple of four and
    templates of at least one record. *)
Record regular (packet : bytes) : Prop := {
  reg_flowset : forall off, flowset_at packet off -> off < Z.of_nat (length packet) ->
    off + 4 <= Z.of_nat (length packet) /\ 0 < ntohs (nf9fs_length (struct_at packet off));
  reg_template : forall base, flowset_at packet base -> base < Z.of_nat (length packet) ->
    ntohs (nf9fs_flowset_id (struct_at packet base)) = NF9_TEMPLATE_FLOWSET_ID ->
    let len := ntohs (nf9fs_length (struct_at packet base)) in
    len mod 4 = 0 /\
    forall off, template_at packet base off -> off < len ->
      0 < ntohs (nf9th_count (struct_at packet (base + off)))
}.

Lemma flowset_at_pos packet off : flowset_at packet off -> 0 <= off.
Proof.
  induction 1 as [|off _ IH]; [done|].
  pose proof (ntohs_u16 (nf9fs_length (struct_at packet off))) as [? _]. lia.
Qed.

Lemma flowset_loop_ok env fp p n src maxs maxt maxl :
  v9_args env fp -> regular (fp_packet fp) ->
  forall fuel off total s, flowset_at (fp_packet fp) off -> off <= fp_len fp ->
  fp_len fp - off < Z.of_nat fuel -> v9_state (Z.to_nat (fp_len fp - off) + n) p s ->
  from <$> pheap (fs_peers s) !! p = Some src -> limits s maxs maxt maxl ->
  exists r s' flows, flowset_loop env fuel fp p (source9 fp) (header9 fp) off total s = Ret (r, s') /\ v9_state n p s' /\
    did env p s s' flows /\
    flowsets9 maxs maxt maxl (fp_packet fp) (fp_recv_time fp) src off (tables s p) flows (tables s' p).
Proof.
  intros Hargs [Hreg1 Hreg2]. pose proof (va_bytes _ _ Hargs) as Hb.
  induction fuel as [|fuel IH]; intros off total s Hoff Hle Hf Hs Hsrc Hlim; [lia|].
  cbn [flowset_loop]. cbv zeta.
  set (means := flowsets9 maxs maxt maxl (fp_packet fp) (fp_recv_time fp) src) in *.
  (* the returns from inside the loop *)
  assert (forall s1, v9_state n p s1 -> did env p s s1 [] -> means off (tables s p) [] (tables s1 p) ->
    exists r s' flows, Ret (@None Z, s1) = Ret (r, s') /\ v9_state n p s' /\ did env p s s' flows /\
      means off (tables s p) flows (tables s' p)) as Hstop.
  { intros s1 Hs1 Hd Hm. by exists None, s1, []. }
  assert (forall s1, v9_state (Z.to_nat (fp_len fp - off) + n) p s1 -> v9_state n p s1) as Hn
    by (intros s1 Hs1; eapply v9_state_le; [|exact Hs1]; lia).
  destruct (v9_invalid_ok env _ p s Hs) as (si & Hinv & Hsi & Hdi & Hti). rewrite Hinv. cbn [obind].
  destruct (Z.leb_spec (fp_len fp) off) as [Hend|Hlt].
  { apply Hstop; [by apply Hn|done|]. rewrite Hti. apply flowsets9_end. exact Hend. }
  pose proof (flowset_at_pos _ _ Hoff) as Hpos.
  destruct (Hreg1 off Hoff Hlt) as [Hhdr Hflen].
  pose proof (Hreg2 off Hoff Hlt) as Htmpl. pose proof (flowset_next _ off Hoff) as Hnext.
  destruct (rd_struct (A := NF9_FLOWSET_HEADER_COMMON) (fp_packet fp) off) as (b & Hrd & Hdec);
    [done|change (sizeof NF9_FLOWSET_HEADER_COMMON) with 4; lia|].
  rewrite Hrd. cbn [obind]. rewrite Hdec. clear b Hrd Hdec.
  destruct (flowset_header_at (fp_packet fp) off Hb Hpos Hhdr) as [Eid Elen]. rewrite Eid, Elen in *.
  remember (be_at (fp_packet fp) off 2) as id eqn:Hideq. remember (be_at (fp_packet fp) (off + 2) 2) as len eqn:Hleneq.
  destruct (Z.ltb_spec (fp_len fp) (off + len)) as [Hlong|Hfit].
  { apply Hstop; [by apply Hn|done|]. rewrite Hti. apply flowsets9_long; [exact Hlt|]. rewrite <- Hleneq. exact Hlong. }
  assert (flowset_here (fp_packet fp) off id len) as Hhere by (by split).
  (* going on with what is left *)
  assert (forall total s1 fs, v9_state (Z.to_nat (fp_len fp - (off + len)) + n) p s1 -> did env p s s1 fs ->
    (forall flows K', means (off + len) (tables s1 p) flows K' -> means off (tables s p) (fs ++ flows) K') ->
    exists r s' flows, (if off + len =? fp_len fp then Ret (Some total, s1)
                  else flowset_loop env fuel fp p (source9 fp) (header9 fp) (off + len) total s1) = Ret (r, s') /\
      v9_state n p s' /\ did env p s s' flows /\ means off (tables s p) flows (tables s' p)) as Hgo.
  { intros total' s1 fs Hs1 Hd1 Hm. destruct (Z.eqb_spec (off + len) (fp_len fp)) as [Heq|Hne].
    - exists (Some total'), s1, fs. split; [done|]. split; [by eapply v9_state_le; [|exact Hs1]; lia|]. split; [done|].
      rewrite <- (app_nil_r fs) at 1. apply Hm. apply flowsets9_end. unfold size9. unfold fp_len in Heq. lia.
    - destruct (IH (off + len) total' s1) as (r & s' & flows & -> & Hs' & Hd' & Hm'); [done|done|lia|done|by eapply did_from|by eapply did_limits_ok|].
      exists r, s', (fs ++ flows). split; [done|]. split; [done|]. split; [by eapply did_trans|]. by apply Hm. }
  change NF9_TEMPLATE_FLOWSET_ID with 0 in *. change NF9_OPTIONS_FLOWSET_ID with 1. change NF9_MIN_RECORD_FLOWSET_ID with 256.
  destruct (Z.eqb_spec id 0) as [Hid|Hid].
  { destruct (Htmpl Hid) as [Hl4 Hcount].
    destruct (process_netflow_v9_template_ok env _ fp off len p s maxs maxt maxl Hargs Hpos Hflen Hl4 Hfit ltac:(congruence) Hcount Hs Hlim)
      as (r & s1 & -> & Hs1 & Hd1 & Ht1). cbn [obind].
    destruct (r =? 0); cbn [negb].
    - apply (Hgo total s1 []); [by eapply v9_state_le; [|exact Hs1]; lia|done|].
      intros flows K' Hm. by eapply flowsets9_template.
    - apply Hstop; [by apply Hn|done|]. by eapply flowsets9_bad_template. }
  pose proof (be_at_nonneg (fp_packet fp) off 2 Hb) as Hid0. rewrite <- Hideq in Hid0.
  destruct ((id =? 1) || (id <? 256)) eqn:Hres.
  { apply (Hgo total s []); [by eapply v9_state_le; [|exact Hs]; lia|apply did_nothing|].
    intros flows K' Hm. eapply flowsets9_reserved; [done| |done].
    apply orb_true_iff in Hres as [Hres%Z.eqb_eq|Hres%Z.ltb_lt]; lia. }
  apply orb_false_iff in Hres as [_ Hmin%Z.ltb_ge].
  destruct (Z.ltb_spec len 4) as [Hshort|Hlen].
  { unfold process_netflow_v9_data. cbv zeta. change (sizeof NF9_FLOWSET_HEADER_COMMON) with 4.
    rewrite (proj2 (Z.ltb_lt _ _)) by done. rewrite Hinv. cbn [obind]. apply Hstop; [by apply Hn|done|]. rewrite Hti. by eapply flowsets9_short. }
  destruct (process_netflow_v9_data_ok env fp off len p s (Z.to_nat (fp_len fp - (off + len)) + n) src)
    as (r & k & s1 & fs & -> & Hs1 & Hd1 & Ht1 & Hres); [done| |done|done|done|done|].
  { by eapply v9_state_le; [|exact Hs]; lia. }
  cbn [obind]. unfold data_result in Hres. rewrite <- Hideq in Hres.
  destruct (known _ id (tables s p)) as [recs|] eqn:Hk.
  - destruct (decide (1 <= flow_count len recs <= 16384)) as [Hc|Hc].
    + destruct Hres as [-> Hfs]. cbn [negb Z.eqb]. apply (Hgo _ s1 fs); [done|done|]. rewrite Ht1.
      intros flows K' Hm. by eapply flowsets9_data.
    + destruct Hres as [-> ->]. cbn [negb Z.eqb]. apply Hstop; [by eapply v9_state_le; [|exact Hs1]; lia|done|].
      rewrite Ht1. by eapply flowsets9_strange.
  - destruct Hres as [-> ->]. cbn [negb Z.eqb]. apply (Hgo _ s1 []); [done|done|]. rewrite Ht1.
    intros flows K' Hm. by eapply flowsets9_unknown.
Qed.

Lemma update_peer_caches ps p n v now ps' :
  update_peer ps p n v now = Ret ps' -> caches_ok ps -> caches_ok ps'.
Proof.
  unfold update_peer, peer_get. cbn [set_peer_list pheap]. intros Hup Hca.
  destruct (pheap ps !! p) as [s|] eqn:Hs; [|done]. cbn [obind] in Hup. apply Ret_inj in Hup as <-.
  intros q sq Hq. cbn in Hq. apply lookup_insert_Some in Hq as [[_ <-]|[_ Hq]]; [|by apply (Hca q)].
  apply (Hca p s Hs).
Qed.

(** update_peer leaves the templates and the limits. *)
Lemma update_peer_tables s s' p n v now :
  update_peer (fs_peers s) p n v now = Ret (fs_peers s') ->
  (forall q, tables s' q = tables s q) /\ max_sources (fs_peers s') = max_sources (fs_peers s) /\
  max_templates (fs_peers s') = max_templates (fs_peers s).
Proof.
  unfold update_peer, peer_get, tables. cbn [set_peer_list pheap]. intros Hup.
  destruct (pheap (fs_peers s) !! p) as [sp|] eqn:Hs; [|done]. cbn [obind] in Hup. apply Ret_inj in Hup as <-. split; [|done].
  intros q. cbn. destruct (decide (q = p)) as [->|Hq]; [by rewrite lookup_insert_eq, Hs|by rewrite lookup_insert_ne].
Qed.

(** A whole packet. *)
Lemma process_netflow_v9_ok env fuel fp p s n src :
  malloc_ok env -> mask_ok (fe_store_mask env) -> Forall u8 (fp_packet fp) ->
  regular (fp_packet fp) -> v9_state (length (fp_packet fp) + n) p s ->
  (length (fp_packet fp) <= fuel)%nat -> from <$> pheap (fs_peers s) !! p = Some src ->
  exists s' flows, process_netflow_v9 env fuel fp p s = Ret s' /\ v9_state n p s' /\ did env p s s' flows /\
    packet_means (max_sources (fs_peers s)) (max_templates (fs_peers s)) (max_template_len (fs_peers s))
      (fp_packet fp) (fp_recv_time fp) src (tables s p) flows (tables s' p).
Proof.
  intros Hm Hmask Hb Hreg Hs Hfuel Hsrc. unfold process_netflow_v9, packet_means.
  assert (v9_state n p s) as Hs0 by (by eapply v9_state_le; [|exact Hs]; lia).
  change (size9 (fp_packet fp)) with (fp_len fp).
  change (sizeof NF9_HEADER) with 20. destruct (Z.ltb_spec (fp_len fp) 20) as [|Hlen].
  { destruct (v9_invalid_ok env n p s Hs0) as (s' & -> & Hs' & Hd & Ht). by exists s', []. }
  destruct (rd_struct (A := NF9_HEADER) (fp_packet fp) 0) as (b & Hrd & Hdec);
    [done|change (sizeof NF9_HEADER) with 20; exact Hlen|].
  change (sizeof NF9_HEADER) with 20 in Hrd. rewrite Hrd. cbn [obind]. rewrite Hdec.
  change (struct_at (fp_packet fp) 0) with (header9 fp). change (ntohl (nf9h_source_id (header9 fp))) with (source9 fp).
  destruct (flowset_loop_ok env fp p n src (max_sources (fs_peers s)) (max_templates (fs_peers s)) (max_template_len (fs_peers s)))
    with (fuel := fuel) (off := 20) (total := 0) (s := s) as (r & s' & flows & -> & Hs' & Hd & Hmeans);
    [done|done|constructor|done|unfold fp_len; lia| |done|done|].
  { by eapply v9_state_le; [|exact Hs]; unfold fp_len; lia. }
  cbn [obind]. destruct r as [total|]; [|by exists s', flows].
  destruct (0 <? total); [|by exists s', flows].
  destruct Hs' as [Hok Hca Hp].
  destruct (valid_packet_ok n env s' p total 9 Hok Hp) as (s2 & Hv & Hok2 & Hl2 & Hup).
  destruct (update_peer_tables s' s2 p _ _ _ Hup) as (Htb & Hms & Hmt).
  exists s2, flows. rewrite Hv, Htb. split; [done|]. split.
  - constructor; [done|by eapply update_peer_caches|].
    destruct (update_peer_ok (fs_peers s') p total 9 (fe_now env) (fo_peers _ _ Hok) Hp) as (ps & E & _ & _ & Hpl).
    rewrite E in Hup. apply Ret_inj in Hup as <-. rewrite Hpl. by left.
  - split; [|exact Hmeans]. rewrite <- (app_nil_r flows). eapply did_trans; [exact Hd|].
    constructor; [done|constructor|done|]. intros q _. apply Htb.
Qed.

(** C28: process_netflow_v9 on a regular packet (no flowset header is cut off, no
    flowset is empty, template flowsets have a length that is a multiple of four and
    only templates with records) returns within one round per byte of the packet,
    stays inside the packet and keeps the template cache usable.  It logs exactly
    the flows that the packet means: those of the data flowsets whose template the
    peer has announced for the source id of the packet and the id of the flowset,
    each with the numbers and addresses that the records of the template find in
    its bytes (a member that several records set is left open).  The templates of the packet are learned in order, with the eviction
    of the least recent, and those of other peers stay. *)
Theorem process_netflow_v9_spec env fuel fp p s n src :
  malloc_ok env -> mask_ok (fe_store_mask env) -> Forall u8 (fp_packet fp) ->
  regular (fp_packet fp) -> v9_state (length (fp_packet fp) + n) p s ->
  (length (fp_packet fp) <= fuel)%nat -> from <$> pheap (fs_peers s) !! p = Some src ->
  exists s' flows, process_netflow_v9 env fuel fp p s = Ret s' /\ v9_state n p s' /\ did env p s s' flows /\
    packet_means (max_sources (fs_peers s)) (max_templates (fs_peers s)) (max_template_len (fs_peers s))
      (fp_packet fp) (fp_recv_time fp) src (tables s p) flows (tables s' p).
Proof. exact (process_netflow_v9_ok env fuel fp p s n src). Qed.

(** A packet with a template flowset, for the source and destination addresses
    and the octets, and a data flowset of one flow. *)
Definition sample_v9 : bytes :=
  [0; 9; 0; 2; 0; 0; 0; 1; 0; 0; 0; 2; 0; 0; 0; 3; 0; 0; 0; 4] ++
  [0; 0; 0; 20; 1; 0; 0; 3; 0; 8; 0; 4; 0; 12; 0; 4; 0; 1; 0; 4] ++
  [1; 0; 0; 16; 10; 0; 0; 1; 10; 0; 0; 2; 0; 0; 1; 0].

Lemma sample_v9_flowsets off : flowset_at sample_v9 off -> off = 20 \/ off = 40 \/ 56 <= off.
Proof.
  induction 1 as [|off _ [-> |[-> |IH]]]; [by left|right; by left|right; by right|].
  right; right. pose proof (ntohs_u16 (nf9fs_length (struct_at sample_v9 off))) as [? _]. lia.
Qed.

Lemma sample_v9_templates off : template_at sample_v9 20 off -> off = 4 \/ 20 <= off.
Proof.
  induction 1 as [|off _ [-> |IH]]; [by left|by right|].
  right. pose proof (ntohs_u16 (nf9th_count (struct_at sample_v9 (20 + off)))) as [? _]. lia.
Qed.

Lemma sample_v9_regular : regular sample_v9.
Proof.
  constructor.
  - intros off [-> |[-> |H]]%sample_v9_flowsets Hlt; [by split|by split|]. cbn in Hlt. lia.
  - intros base [-> |[-> |H]]%sample_v9_flowsets Hlt Hid; [|done|cbn in Hlt; lia]. split; [done|].
    intros off [-> |Hoff]%sample_v9_templates Hlt'; [done|].
    change (ntohs (nf9fs_length (struct_at sample_v9 20))) with 20 in Hlt'. lia.
Qed.

Lemma sample_v9_state n : v9_state n 1%positive (sample_state n).
Proof.
  constructor.
  - apply sample_state_ok.
  - intros p s Hs. change (pheap (fs_peers (sample_state n))) with (pheap sample_peers) in Hs.
    assert (map_Forall (fun _ s => nf9 s = []) (pheap sample_peers)) as Hall
      by (apply (bool_decide_unpack _); vm_compute; exact I).
    pose proof (Hall p s Hs) as E. unfold cache. cbv beta in E. rewrite E. constructor.
  - apply (bool_decide_unpack _). vm_compute. exact I.
Qed.

Lemma process_netflow_v9_spec_witness :
  exists s' flows, process_netflow_v9 sample_env 56 (sample_fp sample_v9) 1%positive (sample_state 56) = Ret s' /\
    did sample_env 1%positive (sample_state 56) s' flows /\
    packet_means 64 8 1024 sample_v9 (fp_recv_time (sample_fp sample_v9)) (ip4 10 0 0 1) [] flows (tables s' 1%positive).
Proof.
  destruct (process_netflow_v9_spec sample_env 56 (sample_fp sample_v9) 1%positive (sample_state 56) 0 (ip4 10 0 0 1))
    as (s' & flows & E & _ & Hd & Hm).
  - done.
  - apply mask_ok_all.
  - by (apply (bool_decide_unpack _); vm_compute; exact I).
  - apply sample_v9_regular.
  - apply sample_v9_state.
  - apply le_n.
  - reflexivity.
  - exists s', flows. split; [exact E|]. split; [exact Hd|exact Hm].
Defined.

(** The template is learned, and the flow of the data flowset is logged. *)
Example sample_v9_learned :
  match process_netflow_v9 sample_env 56 (sample_fp sample_v9) 1%positive (sample_state 56) with
  | Ret s' =>
      tables s' 1%positive = [(4, [(256, [Mk_nf9_record 8 4; Mk_nf9_record 12 4; Mk_nf9_record 1 4])])] /\
      length (output s') = 52%nat
  | _ => False
  end.
Proof. vm_compute. done. Qed.

(** ** Packets outside these conditions *)

Definition v9_header : bytes := [0; 9; 0; 1; 0; 0; 0; 1; 0; 0; 0; 2; 0; 0; 0; 3; 0; 0; 0; 4].

(** The conditions of the previous property are needed.  An options flowset of
    length zero is never passed, whatever the state and however long the parser
    runs; a template flowset that ends within a template header is read past the
    end of the packet; and a data flowset of a template without records divides
    by zero. *)
Theorem process_netflow_v9_irregular :
  (forall env fuel p s,
     process_netflow_v9 env fuel (sample_fp (v9_header ++ [0; 1; 0; 0])) p s = Diverges) /\
  process_netflow_v9 sample_env 64 (sample_fp (v9_header ++ [0; 0; 0; 6; 1; 0])) 1%positive
    (sample_state 0) = Undef OutOfBounds /\
  process_netflow_v9 sample_env 64
    (sample_fp (v9_header ++ [0; 0; 0; 8; 1; 0; 0; 0] ++ [1; 0; 0; 8; 0; 0; 0; 0])) 1%positive
    (sample_state 0) = Undef DivByZero.
Proof.
  split; [|by split; vm_compute]. intros env fuel p s. unfold process_netflow_v9.
  set (fp := sample_fp _). change (fp_len fp <? sizeof NF9_HEADER) with false. cbv iota.
  change (rd (fp_packet fp) 0 (sizeof NF9_HEADER)) with (Ret v9_header). cbn [obind].
  change (sizeof NF9_HEADER) with 20. set (h := decode v9_header). clearbody h.
  generalize (ntohl (nf9h_source_id h)) as sid. intros sid.
  assert (flowset_loop env fuel fp p sid h 20 0 s = Diverges) as ->; [|done].
  induction fuel as [|fuel IH]; [done|]. cbn [flowset_loop]. cbv zeta.
  change (fp_len fp <=? 20) with false. cbv iota.
  change (rd (fp_packet fp) 20 (sizeof NF9_FLOWSET_HEADER_COMMON)) with (Ret [0; 1; 0; 0]). cbn [obind].
  change (ntohs (nf9fs_length (decode [0; 1; 0; 0]))) with 0.
  change (ntohs (nf9fs_flowset_id (decode [0; 1; 0; 0]))) with 1. exact IH.
Qed.
