(* ===== verification/FlowdLoop.v ===== *)
(** * The collector: reception and dispatch

    What happens to a datagram between recvfrom and the log: which ones enter the
    input queue and under which address, and that processing the queue handles
    every packet in order. *)

From stdpp Require Import gmap.
From S2P Require Import Prelude Packed Addr StoreTypes Store StoreProps.
From S2P Require Import StoreSwab StoreFile Filter Peer Netflow Flowd.
From S2P Require Import FlowdProps Nf9Spec Nf9Props.

(** ** The input queue *)

(** The collector between two packets. *)
Record collector_ok (n : nat) (s : fstate) : Prop := {
  co_flowd : flowd_ok n s;
  co_caches : caches_ok (fs_peers s)
}.

Lemma collector_ok_le n m s : (m <= n)%nat -> collector_ok n s -> collector_ok m s.
Proof. intros Hle []. constructor; [by eapply flowd_ok_le|done]. Qed.

Definition fp_version (fp : flow_packet) : Z := ntohs (le_val (take 2 (fp_packet fp))).

(** A packet of the queue: the version field is there, and a NetFlow 9 packet is
    one that its parser gets through. *)
Record packet_ok (fp : flow_packet) : Prop := {
  pa_source : inet_ok (fp_flow_source fp);
  pa_bytes : Forall u8 (fp_packet fp);
  pa_len : (4 <= length (fp_packet fp))%nat;
  pa_regular : fp_version fp = 9 -> regular (fp_packet fp)
}.

(** The flows of a packet of a fixed record size. *)
Definition flows_of {H F} `{Packed H} `{Packed F} (max : Z) (size : Z -> Z) (nfl : H -> Z)
    (to_flow : H -> F -> store_flow_complete) (fp : flow_packet) : list store_flow_complete :=
  let h : H := decode (fp_packet fp) in
  if well_formed (sizeof H) max (nfl h) (fp_len fp) size
  then packet_flows size (to_flow h) (fp_packet fp) (nfl h) else [].

Definition expected (tv_usec : Z) (fp : flow_packet) : list store_flow_complete :=
  let v := fp_version fp in
  if v =? 1 then flows_of NF1_MAXFLOWS NF1_PACKET_SIZE (fun h => ntohs (nf1h_flows h))
                   (nf1_to_flow tv_usec fp) fp
  else if v =? 5 then flows_of NF5_MAXFLOWS NF5_PACKET_SIZE (fun h => ntohs (nf5h_flows h))
                        (nf5_to_flow fp) fp
  else if v =? 7 then flows_of NF7_MAXFLOWS NF7_PACKET_SIZE (fun h => ntohs (nf7h_flows h))
                        (nf7_to_flow fp) fp
  else [].

(** The flows of such a packet have the types of their members. *)
Lemma flows_of_wf {H F} `{PackedLaws H} `{PackedLaws F} max size (nfl : H -> Z) (to_flow : H -> F -> store_flow_complete) fp :
  (forall h, 0 <= nfl h) -> (forall i, size i = sizeof H + i * sizeof F) ->
  (forall h f, valid h -> valid f -> flow_wf (to_flow h f)) -> Forall u8 (fp_packet fp) ->
  Forall flow_wf (flows_of max size nfl to_flow fp).
Proof.
  intros Hnfl Hsize Hwf Hb. unfold flows_of. cbv zeta. set (h := decode (fp_packet fp) : H). unfold well_formed.
  destruct (Z.leb_spec (sizeof H) (fp_len fp)) as [Hh|]; [|constructor]. destruct (negb _); [|constructor].
  destruct (Z.eqb_spec (fp_len fp) (size (nfl h))) as [Hlen|]; [|constructor]. cbn [andb].
  unfold fp_len in *. assert (0 <= sizeof H /\ 0 <= sizeof F) as [Hs0 Hf0] by (unfold sizeof; lia).
  assert (valid h) as Hv by (by apply decode_valid).
  apply Forall_fmap, Forall_forall. intros i Hi%elem_of_seqZ. apply Hwf; [done|]. pose proof (Hnfl h). apply nth_record_valid; [done|rewrite Hsize; nia|].
  rewrite Hlen, !Hsize. nia.
Qed.

Lemma expected_wf tv_usec fp : inet_ok (fp_flow_source fp) -> Forall u8 (fp_packet fp) -> Forall flow_wf (expected tv_usec fp).
Proof.
  intros Hsrc Hb. unfold expected. cbv zeta.
  destruct (_ =? 1); [apply flows_of_wf; [intros; apply ntohs_u16|done|intros; by apply nf1_to_flow_wf|done]|].
  destruct (_ =? 5); [apply flows_of_wf; [intros; apply ntohs_u16|done|intros; by apply nf5_to_flow_wf|done]|].
  destruct (_ =? 7); [apply flows_of_wf; [intros; apply ntohs_u16|done|intros; by apply nf7_to_flow_wf|done]|]. constructor.
Qed.

Lemma rejected_logged env p s s' : rejected p s s' -> logged env s s' [].
Proof.
  intros (peer & Hpeer & ->). apply logged_nil; [done..|]. by apply (same_from_put _ p peer).
Qed.

Lemma rejected_caches p s s' : rejected p s s' -> caches_ok (fs_peers s) -> caches_ok (fs_peers s').
Proof.
  intros (peer & Hpeer & ->) Hc q sq Hq. cbn in Hq.
  apply lookup_insert_Some in Hq as [[_ <-]|[_ Hq]]; [apply (Hc p peer Hpeer)|by apply (Hc q)].
Qed.

Lemma rejected_tables p s s' q : rejected p s s' -> tables s' q = tables s q.
Proof.
  intros (peer & Hpeer & ->). unfold tables. cbn. destruct (decide (q = p)) as [->|Hq].
  - by rewrite lookup_insert_eq, Hpeer.
  - by rewrite lookup_insert_ne.
Qed.

(** What a packet of a version without templates does. *)
Record plain (env : fenv) (s s' : fstate) (flows : list store_flow_complete) : Prop := {
  pl_log : logged env s s' flows;
  pl_limits : max_sources (fs_peers s') = max_sources (fs_peers s) /\
    max_templates (fs_peers s') = max_templates (fs_peers s);
  pl_tables : forall q, tables s' q = tables s q
}.

Lemma plain_nothing env s : plain env s s [].
Proof. constructor; [apply logged_refl|done|done]. Qed.

(** What the three parsers of fixed records give. *)
Lemma fixed_outcome env p version n s s' (b : bool) flows :
  flowd_ok n s' -> caches_ok (fs_peers s) ->
  (if b then accepted env p flows version s s' else rejected p s s') ->
  collector_ok n s' /\ plain env s s' (if b then flows else []).
Proof.
  intros Hok Hc. destruct b.
  - intros [Hl Hup]. split; [constructor; [done|by eapply update_peer_caches]|].
    destruct (update_peer_tables _ _ _ _ _ _ Hup) as (Ht & Hm). by constructor.
  - intros Hr. split; [constructor; [done|by eapply rejected_caches]|].
    constructor; [by eapply rejected_logged| |intros q; by eapply rejected_tables]. by destruct Hr as (peer & _ & ->).
Qed.

(** What is known of the peers, and what a packet of the queue gives with it and
    leaves: nothing when its source is no peer any more; for the versions 1, 5 and
    7 the flows of the format; for version 9 what the packet means with the
    templates of its peer, which it may change; nothing for other versions. *)
Definition knowledge := loc -> cache9.

Definition handled (tv_usec : Z) (ps : peers) (T : knowledge) (fp : flow_packet) (flows : list store_flow_complete) (T' : knowledge) : Prop :=
  match find_peer ps (fp_flow_source fp) with
  | None => flows = [] /\ forall q, T' q = T q
  | Some p =>
      if fp_version fp =? 9
      then (exists src, from <$> pheap ps !! p = Some src /\
             packet_means (max_sources ps) (max_templates ps) (max_template_len ps) (fp_packet fp) (fp_recv_time fp) src (T p) flows (T' p)) /\
           forall q, q <> p -> T' q = T q
      else flows = expected tv_usec fp /\ forall q, T' q = T q
  end.

Lemma process_packet_ok env fuel tv_usec s fp n :
  malloc_ok env -> mask_ok (fe_store_mask env) -> packet_ok fp ->
  collector_ok (30 + length (fp_packet fp) + n) s -> (length (fp_packet fp) <= fuel)%nat ->
  exists s' flows, process_packet env fuel tv_usec s fp = Ret s' /\ collector_ok n s' /\
    logged env s s' flows /\ (max_sources (fs_peers s') = max_sources (fs_peers s) /\
    max_templates (fs_peers s') = max_templates (fs_peers s)) /\
    handled tv_usec (fs_peers s) (tables s) fp flows (tables s') /\ Forall flow_wf flows.
Proof.
  intros Hm Hmask [Hsrc Hb Hlen Hreg] [Hok Hc] Hfuel. pose proof (expected_wf tv_usec fp Hsrc Hb) as Hwf. revert Hwf.
  unfold process_packet, handled, expected. intros Hwf.
  assert (collector_ok n s) as Hco0 by (by apply (collector_ok_le (30 + length (fp_packet fp) + n)); [lia|]).
  destruct (find_peer (fs_peers s) (fp_flow_source fp)) as [p|] eqn:Hfind.
  2:{ exists s, []. split; [done|]. split; [done|]. split; [apply logged_refl|]. split; [done|]. by split. }
  assert (p ∈ peer_list (fs_peers s)) as Hp.
  { apply find_peer_iff in Hfind as (sp & Hsp & _); [|apply Hok|done]. destruct Hok as [_ _ _ Hpo].
    apply (to_dom _ (po_table _ Hpo)). by exists sp. }
  assert (rd_int (fp_packet fp) 0 2 = Ret (le_val (take 2 (fp_packet fp)))) as ->.
  { unfold rd_int. rewrite rd_in by lia. done. }
  cbn [obind]. fold (fp_version fp).
  assert (parse_ok (30 + n) env fp p s) as Hpk.
  { constructor; try done. by apply (flowd_ok_le (30 + length (fp_packet fp) + n)); [lia|]. }
  destruct (Z.eqb_spec (fp_version fp) 9) as [H9|H9].
  - rewrite H9. cbn [Z.eqb]. destruct (peer_lookup _ s p Hok Hp) as [peer Hpeer].
    destruct (process_netflow_v9_ok env fuel fp p s n (from peer)) as (s' & flows & -> & [Hok' Hc' _] & [Hl Hfw Hli Ho] & Hd);
      [done|done|done|by apply Hreg| |done|by rewrite Hpeer|].
    { constructor; [|done|done]. by apply (flowd_ok_le (30 + length (fp_packet fp) + n)); [lia|]. }
    exists s', flows. split; [done|]. split; [done|]. split; [done|]. split; [done|]. split; [|done].
    split; [|done]. exists (from peer). by split; [rewrite Hpeer|].
  - assert (forall s' (fixed : list store_flow_complete), collector_ok n s' /\ plain env s s' fixed -> Forall flow_wf fixed ->
      exists s'' flows, Ret s' = Ret s'' /\ collector_ok n s'' /\ logged env s s'' flows /\
        (max_sources (fs_peers s'') = max_sources (fs_peers s) /\ max_templates (fs_peers s'') = max_templates (fs_peers s)) /\
        (flows = fixed /\ forall q, tables s'' q = tables s q) /\ Forall flow_wf flows) as Hfixed.
    { intros s' fixed [Hco [Hl Hli Ht]] Hf. by exists s', fixed. }
    destruct (Z.eqb_spec (fp_version fp) 1) as [|].
    { destruct (process_netflow_v1_v7_ok n env fp p s tv_usec Hpk) as [(s' & -> & Hok' & Hr) _].
      apply (fixed_outcome env _ _ n) in Hr; [|done|done]. by apply Hfixed. }
    destruct (Z.eqb_spec (fp_version fp) 5) as [|].
    { destruct (process_netflow_v5_ok n env fp p s Hpk) as (s' & -> & Hok' & Hr).
      apply (fixed_outcome env _ _ n) in Hr; [|done|done]. by apply Hfixed. }
    destruct (Z.eqb_spec (fp_version fp) 7) as [|].
    { destruct (process_netflow_v1_v7_ok n env fp p s tv_usec Hpk) as [_ (s' & -> & Hok' & Hr)].
      apply (fixed_outcome env _ _ n) in Hr; [|done|done]. by apply Hfixed. }
    apply Hfixed; [by split; [|apply plain_nothing]|constructor].
Qed.

(** ** The whole queue *)

(** What the packets of the queue may need from the log. *)
Definition queue_cost (q : list flow_packet) : nat :=
  sum_list ((fun fp => 30 + length (fp_packet fp))%nat <$> q).

Lemma find_peer_same ps ps' addr :
  peers_ok ps -> peers_ok ps' -> inet_ok addr -> same_from ps ps' ->
  find_peer ps' addr = find_peer ps addr.
Proof.
  intros H1 H2 Ha [_ Hs].
  assert (forall p, find_peer ps' addr = Some p <-> find_peer ps addr = Some p) as Hiff.
  { intros p. rewrite !find_peer_iff by (done || apply po_table; done). specialize (Hs p).
    split; intros (s & Hp & Hk); rewrite Hp in Hs; cbn in Hs.
    - destruct (pheap ps !! p) as [s0|]; [|done]. cbn in Hs. apply (inj Some) in Hs.
      exists s0. by rewrite <- Hs.
    - destruct (pheap ps' !! p) as [s0|]; [|done]. cbn in Hs. apply (inj Some) in Hs.
      exists s0. by rewrite Hs. }
  destruct (find_peer ps' addr) as [p|]; [symmetry; by apply Hiff|].
  destruct (find_peer ps addr) as [p|]; [|done]. by apply Hiff.
Qed.

Lemma set_input_ok n l s : collector_ok n s -> collector_ok n (set_fs_input l s).
Proof. intros [[] Hc]. by constructor; [constructor|]. Qed.

Lemma logged_input env s s' l flows :
  logged env s s' flows -> logged env (set_fs_input l s) (set_fs_input l s') flows.
Proof. intros (H1 & H2 & H3 & H4). by split_and!. Qed.

(** The packets of the queue in order, with the peers [ps]. *)
Inductive handled_all (tv_usec : Z) (ps : peers) : knowledge -> list flow_packet -> list (list store_flow_complete) -> knowledge -> Prop :=
  | handled_nil T T' : (forall q, T' q = T q) -> handled_all tv_usec ps T [] [] T'
  | handled_cons T T1 T' fp q flows fss :
      handled tv_usec ps T fp flows T1 -> handled_all tv_usec ps T1 q fss T' ->
      handled_all tv_usec ps T (fp :: q) (flows :: fss) T'.

(** The same peers, for what [handled] asks of them. *)
Record same_peers (q : list flow_packet) (ps ps' : peers) : Prop := {
  sp_find : forall fp, fp ∈ q -> find_peer ps' (fp_flow_source fp) = find_peer ps (fp_flow_source fp);
  sp_from : forall p, from <$> pheap ps' !! p = from <$> pheap ps !! p;
  sp_limits : max_sources ps' = max_sources ps /\ max_templates ps' = max_templates ps /\ max_template_len ps' = max_template_len ps
}.

Lemma handled_all_same tv_usec ps ps' T q fss T' :
  same_peers q ps ps' -> handled_all tv_usec ps' T q fss T' -> handled_all tv_usec ps T q fss T'.
Proof.
  intros Hs H. revert Hs. induction H as [|T T1 T' fp q flows fss Hh _ IH]; intros Hs; [by constructor|].
  destruct Hs as [Hf Hfrom (L1 & L2 & L3)]. econstructor; [|apply IH; constructor; [intros; apply Hf; by right|done|done]].
  unfold handled in *. rewrite Hf in Hh by (by left). destruct (find_peer ps (fp_flow_source fp)) as [p|]; [|done].
  by rewrite Hfrom, L1, L2, L3 in Hh.
Qed.

Lemma input_loop_ok env fuel tv_usec q : forall k s n,
  malloc_ok env -> mask_ok (fe_store_mask env) -> fs_input s = q -> Forall packet_ok q ->
  Forall (fun fp => (length (fp_packet fp) <= fuel)%nat) q ->
  (length q < k)%nat -> collector_ok (queue_cost q + n) s ->
  exists s' fss, input_loop env k fuel tv_usec s = Ret s' /\ collector_ok n s' /\ fs_input s' = [] /\
    logged env (set_fs_input [] s) s' (concat fss) /\
    handled_all tv_usec (fs_peers s) (tables s) q fss (tables s') /\ Forall (Forall flow_wf) fss.
Proof.
  induction q as [|fp q IH]; intros k s n Hm Hmask Hq Hpk Hfuel Hk Hco;
    (destruct k as [|k]; [simpl in Hk; lia|]); cbn [input_loop]; unfold flow_packet_dequeue; rewrite Hq.
  - exists s, []. split; [done|]. split; [done|]. split; [done|]. split; [by apply logged_nil|]. by split; [constructor|].
  - apply Forall_cons in Hpk as [Hp Hpk]. apply Forall_cons in Hfuel as [Hf Hfuel].
    cbn [queue_cost fmap list_fmap sum_list foldr] in Hco. fold (queue_cost q) in Hco.
    destruct (process_packet_ok env fuel tv_usec (set_fs_input q s) fp (queue_cost q + n))
      as (s1 & flows & -> & Hco1 & Hl1 & (Hms & Hmt) & Hh & Hwf); [done..| |done|].
    { apply set_input_ok. eapply collector_ok_le; [|exact Hco]. unfold queue_cost. cbn. lia. }
    cbn [obind]. pose proof Hl1 as (_ & _ & Hi1 & Hs1).
    destruct (IH k s1 n) as (s' & fss & -> & Hco' & Hi' & Hl' & Hh' & Hwf'); [done..|simpl in Hk; lia|done|].
    exists s', (flows :: fss). split; [done|]. split; [done|]. split; [done|]. split.
    + cbn [concat]. eapply logged_app; [|exact Hl'].
      apply (logged_input env (set_fs_input q s) s1 []). exact Hl1.
    + split; [|by constructor]. apply (handled_cons _ _ _ (tables s1)); [exact Hh|].
      apply (handled_all_same _ _ (fs_peers s1)); [|exact Hh']. constructor; [|by apply Hs1|split; [done|split; [done|apply Hs1]]].
      intros fp' Hin. apply find_peer_same; [apply Hco|apply Hco1|by apply (proj1 (Forall_forall _ _) Hpk)|exact Hs1].
Qed.

(** C29: process_input_queue empties the queue: every packet of a peer is handed to
    the parser of its version, in the order of arrival.  A packet of version 1,
    5 or 7 of the right length gives one flow for each of its records, in order, as
    nf1_to_flow, nf5_to_flow or nf7_to_flow makes it; one of version 9 the flows
    that it means with the templates that its peer has announced so far, in this
    queue or before it, and the templates it announces are known afterwards.  Packets of peers that are gone and of other versions give nothing,
    and the collector stays well formed. *)
Theorem process_input_queue_spec env fuel tv_usec s n :
  malloc_ok env -> mask_ok (fe_store_mask env) -> Forall packet_ok (fs_input s) ->
  Forall (fun fp => (length (fp_packet fp) <= fuel)%nat) (fs_input s) ->
  collector_ok (queue_cost (fs_input s) + n) s ->
  exists s' fss, process_input_queue env fuel tv_usec s = Ret s' /\ collector_ok n s' /\ fs_input s' = [] /\
    logged env (set_fs_input [] s) s' (concat fss) /\
    handled_all tv_usec (fs_peers s) (tables s) (fs_input s) fss (tables s').
Proof.
  intros H1 H2 H3 H4 H5. destruct (input_loop_ok env fuel tv_usec (fs_input s) (S (length (fs_input s))) s n) as (s' & fss & E & R1 & R2 & R3 & R4 & _);
    [done..|lia|done|]. by exists s', fss.
Qed.

(** C30: whatever packets are in the queue, every member of a flow that reaches the log is
    in the range of its C type, the field word has only known bits, and each address is of
    a family that its bits announce. *)
Theorem logged_flows_typed env fuel tv_usec s n :
  malloc_ok env -> mask_ok (fe_store_mask env) -> Forall packet_ok (fs_input s) ->
  Forall (fun fp => (length (fp_packet fp) <= fuel)%nat) (fs_input s) ->
  collector_ok (queue_cost (fs_input s) + n) s ->
  exists s' flows, process_input_queue env fuel tv_usec s = Ret s' /\ Forall flow_wf flows /\
    output s' = output s ++ concat (flow_output env (fs_filter s) <$> flows).
Proof.
  intros H1 H2 H3 H4 H5. destruct (input_loop_ok env fuel tv_usec (fs_input s) (S (length (fs_input s))) s n) as (s' & fss & E & _ & _ & [R _] & _ & R4);
    [done..|lia|done|]. exists s', (concat fss). split; [exact E|]. split; [|exact R]. apply Forall_concat. done.
Qed.

(** ** Reception *)

Definition sockaddr_ok (sa : sockaddr) : Prop :=
  match sa with
  | sockaddr_in _ a => u32 a
  | sockaddr_in6 _ a scope => length a = 4%nat /\ Forall u32 a /\ u32 scope
  | sockaddr_other _ => True
  end.

Lemma addr_sa_to_xaddr_ok sa len x : sockaddr_ok sa -> addr_sa_to_xaddr sa len = Some x -> inet_ok x.
Proof.
  destruct sa as [port a|port a scope|f]; cbn; [intros Ha|intros (H1 & H2 & H3)|done];
    (case_match; [done|]); intros <-%(inj Some).
  - by apply inet_addr_ok.
  - split; [by split|by right].
Qed.

(** The monitor that an emulated packet names, 0 for none. *)
Definition monitor_of (buf : bytes) (version : Z) : Z :=
  let off := if version =? 1 then 16%nat else 24%nat in le_val (take 4 (drop off buf)).

(** The address a datagram counts for. *)
Definition source_of_packet (buf : bytes) (version : Z) (from : sockaddr) (fromlen : Z) : option xaddr :=
  let a := monitor_of buf version in
  addr_sa_to_xaddr (if 0 <? a then sockaddr_in 0 a else from) fromlen.

Lemma emulator_source_ok buf :
  (28 <= length buf)%nat -> let v := ntohs (le_val (take 2 buf)) in
  emulator_source buf =
    if (v =? 1) || (v =? 5)
    then Ret (Some (if 0 <? monitor_of buf v then Some (monitor_of buf v) else None)) else Ret None.
Proof.
  intros Hlen v. unfold emulator_source, monitor_of, rd_int. rewrite rd_in by lia. cbn [obind].
  change (take (Z.to_nat 2) buf) with (take 2 buf). fold v.
  destruct (v =? 1) eqn:E1; [|destruct (v =? 5) eqn:E5]; cbn [orb]; unfold rd; rewrite ?mem_read_in by lia; done.
Qed.

Lemma queue_packet_ok env n fp s :
  malloc_ok env -> flowd_ok n s -> inet_ok (fp_flow_source fp) -> (28 <= length (fp_packet fp))%nat ->
  exists s', queue_packet env fp s = Ret (1, s') /\ flowd_ok n s' /\ output s' = output s /\
    match find_peer (fs_peers s) (fp_flow_source fp), authorised (fe_devices env) (fp_flow_source fp) with
    | None, false => s' = s
    | _, _ => fs_input s' = fs_input s ++ [fp] /\
        exists p, find_peer (fs_peers s') (fp_flow_source fp) = Some p
    end.
Proof.
  intros Hm Hok Hsrc Hlen. unfold queue_packet, fp_len. change (sizeof NF_HEADER_COMMON) with 4.
  destruct (find_peer (fs_peers s) (fp_flow_source fp)) as [p|] eqn:Hf; cbn [obind].
  - rewrite (proj2 (Z.ltb_ge _ _)) by lia. rewrite Hm. cbn [negb].
    eexists. split; [reflexivity|]. destruct Hok. split; [by constructor|]. split; [done|]. split; [done|].
    by exists p.
  - destruct (authorised (fe_devices env) (fp_flow_source fp)) eqn:Ha.
    + pose proof (fo_peers _ _ Hok) as Hpo.
      destruct (new_peer_ok (fs_peers s) (fe_devices env) (fp_flow_source fp) (fe_now env))
        as (p & ps' & -> & Hpo' & _ & _ & Hp & _); [done..|]. cbn [obind].
      rewrite (proj2 (Z.ltb_ge _ _)) by lia. rewrite Hm. cbn [negb].
      eexists. split; [reflexivity|]. destruct Hok. split; [by constructor|]. split; [done|]. split; [done|].
      exists p. apply find_peer_iff; [apply Hpo'|done|]. eexists. by split; [exact Hp|].
    + unfold new_peer. rewrite Ha. cbn [negb obind]. exists s. by destruct s.
Qed.

(** a datagram that is long enough.  One of version 1 or 5 is queued with the
    address of the monitor it names, or of its sender when it names none, unless
    the address is unusable or not allowed; its peer is then known.  For any
    other version, 7 and 9 included, receive_packet comes to a return without
    a value. *)
Theorem receive_packet_spec env n buf from fromlen t s :
  malloc_ok env -> flowd_ok n s -> Forall u8 buf -> sockaddr_ok from -> (28 <= length buf)%nat ->
  let v := ntohs (le_val (take 2 buf)) in
  if (v =? 1) || (v =? 5) then
    exists s', receive_packet env (Recv buf from fromlen :: t) s = Ret (1, t, s') /\ flowd_ok n s' /\
      output s' = output s /\
      match source_of_packet buf v from fromlen with
      | None => s' = s
      | Some src =>
          match find_peer (fs_peers s) src, authorised (fe_devices env) src with
          | None, false => s' = s
          | _, _ => fs_input s' = fs_input s ++ [Mk_flow_packet (fe_now env) src buf] /\
              exists p, find_peer (fs_peers s') src = Some p
          end
      end
  else receive_packet env (Recv buf from fromlen :: t) s = Undef MissingReturn.
Proof.
  intros Hm Hok Hb Hsa Hlen v. unfold receive_packet. rewrite Hm. cbn [negb recv_retry obind].
  rewrite emulator_source_ok by done. fold v. rewrite Hm. cbn [negb].
  destruct ((v =? 1) || (v =? 5)); [|done]. cbn [obind].
  set (a := monitor_of buf v).
  assert (u32 a) as Ha.
  { unfold a, monitor_of. set (off := if v =? 1 then 16%nat else 24%nat).
    assert (off + 4 <= 28)%nat by (unfold off; case_match; lia).
    pose proof (le_val_bound (take 4 (drop off buf)) ltac:(by apply Forall_take, Forall_drop)) as Hv.
    rewrite length_take, length_drop, Nat.min_l in Hv by lia. exact Hv. }
  unfold source_of_packet. fold a.
  replace (match (if 0 <? a then Some a else None) with Some a => sockaddr_in 0 a | None => from end)
    with (if 0 <? a then sockaddr_in 0 a else from) by (by destruct (0 <? a)).
  destruct (addr_sa_to_xaddr _ fromlen) as [src|] eqn:Esrc; [|by exists s].
  assert (inet_ok src) as Hsrc by (eapply addr_sa_to_xaddr_ok; [|exact Esrc]; by destruct (0 <? a)).
  destruct (queue_packet_ok env n (Mk_flow_packet (fe_now env) src buf) s) as (s' & -> & Hok' & Ho & Hr); [done..|].
  cbn [obind]. by exists s'.
Qed.

Definition sample_queue : list flow_packet := [sample_fp (sample_packet 5 2 140); sample_fp sample_v9].

Lemma sample_collector_ok n l : collector_ok n (set_fs_input l (sample_state n)).
Proof. destruct (sample_v9_state n) as [Hok Hc _]. apply set_input_ok. by constructor. Qed.

Lemma sample_queue_ok : Forall packet_ok sample_queue.
Proof.
  apply Forall_cons; split; [constructor|apply Forall_cons; split; [constructor|by apply Forall_nil]].
  - inet4.
  - by apply sample_packet_bytes.
  - apply Nat.leb_le. vm_compute. reflexivity.
  - intros H. vm_compute in H. discriminate H.
  - inet4.
  - by (apply (bool_decide_unpack _); vm_compute; exact I).
  - apply Nat.leb_le. vm_compute. reflexivity.
  - intros _. apply sample_v9_regular.
Qed.

Lemma process_input_queue_spec_witness :
  let s := set_fs_input sample_queue (sample_state 256) in
  exists s' fss, process_input_queue sample_env 200 0 s = Ret s' /\ fs_input s' = [] /\
    handled_all 0 (fs_peers s) (tables s) sample_queue fss (tables s').
Proof.
  cbv zeta. destruct (process_input_queue_spec sample_env 200 0 (set_fs_input sample_queue (sample_state 256)) 0)
    as (s' & fss & E & _ & Hi & _ & Hh).
  - done.
  - apply mask_ok_all.
  - apply sample_queue_ok.
  - repeat (apply Forall_cons; split; [apply Nat.leb_le; vm_compute; reflexivity|]). by apply Forall_nil.
  - apply (sample_collector_ok 256).
  - exists s', fss. split; [exact E|]. split; [exact Hi|exact Hh].
Defined.

Lemma logged_flows_typed_witness :
  let s := set_fs_input sample_queue (sample_state 256) in
  exists s' flows, process_input_queue sample_env 200 0 s = Ret s' /\ Forall flow_wf flows /\
    output s' = output s ++ concat (flow_output sample_env (fs_filter s) <$> flows).
Proof.
  cbv zeta. apply (logged_flows_typed sample_env 200 0 (set_fs_input sample_queue (sample_state 256)) 0).
  - done.
  - apply mask_ok_all.
  - apply sample_queue_ok.
  - repeat (apply Forall_cons; split; [apply Nat.leb_le; vm_compute; reflexivity|]). by apply Forall_nil.
  - apply (sample_collector_ok 256).
Defined.

Lemma receive_packet_spec_witness :
  exists s', receive_packet sample_env [Recv (sample_packet 5 2 140) (sockaddr_in 0 0) 16] (sample_state 0) =
      Ret (1, [], s') /\ length (fs_input s') = 1%nat.
Proof.
  assert (H := receive_packet_spec sample_env 0 (sample_packet 5 2 140) (sockaddr_in 0 0) 16 [] (sample_state 0)).
  destruct H as (s' & E & _ & _ & Hr).
  - done.
  - apply sample_state_ok.
  - by apply sample_packet_bytes.
  - done.
  - apply Nat.leb_le. vm_compute. reflexivity.
  - exists s'. split; [exact E|]. destruct Hr as [Hi _]. rewrite Hi. reflexivity.
Defined.
