(* ===== verification/SoftTypes.v ===== *)
(** * Flows (src/softflowd/softflowd.h)

    The flow record of softflowd and the time difference that its senders use.
    A flow is kept in a canonical order of its two endpoints; an array of two
    members, one per direction, is a pair here, indexed by a boolean. *)

From S2P Require Import Prelude Packed.

(** ** Arrays of two *)

Definition at2 {A} (ndx : bool) (p : A * A) : A := if ndx then snd p else fst p.
Definition set2 {A} (ndx : bool) (v : A) (p : A * A) : A * A := if ndx then (fst p, v) else (v, snd p).

(** ** Flows *)

Record PER_MONITOR_STAT := Mk_PER_MONITOR_STAT { ms_octets : Z; ms_packets : Z }.

(** Locations of expiry events. *)
Definition eloc : Type := positive.

Record FLOW := Mk_FLOW {
  f_expiry : option eloc;             (* the pointer to the expiry event *)
  f_af : Z;
  f_ip6_flowlabel : Z * Z;
  f_addr : list Z * list Z;           (* the 16 bytes of each union *)
  f_port : Z * Z;                     (* network byte order *)
  f_tcp_flags : Z * Z;
  f_protocol : Z;
  f_flow_seq : Z;
  f_flow_start : Z * Z;               (* tv_sec, tv_usec *)
  f_flow_last : Z * Z;
  f_octets : Z * Z;
  f_packets : Z * Z;
  f_monitor_stat : list PER_MONITOR_STAT * list PER_MONITOR_STAT;   (* monitor_stat_0, monitor_stat_1 *)
  f_emulator_monitor_adr : list Z * list Z;
  f_selected_monitor : Z;
  f_selected_monitor_index : Z;
  f_number_of_monitors : Z * Z;
  f_as_src : Z * Z;
  f_as_dst : Z * Z
}.

(** ** Assignments to members *)

Definition set_f_expiry (v : option eloc) (f : FLOW) : FLOW :=
  Mk_FLOW v (f_af f) (f_ip6_flowlabel f) (f_addr f) (f_port f) (f_tcp_flags f) (f_protocol f)
    (f_flow_seq f) (f_flow_start f) (f_flow_last f) (f_octets f) (f_packets f) (f_monitor_stat f)
    (f_emulator_monitor_adr f) (f_selected_monitor f) (f_selected_monitor_index f) (f_number_of_monitors
    f) (f_as_src f) (f_as_dst f).
Definition set_f_af (v : Z) (f : FLOW) : FLOW :=
  Mk_FLOW (f_expiry f) v (f_ip6_flowlabel f) (f_addr f) (f_port f) (f_tcp_flags f) (f_protocol f)
    (f_flow_seq f) (f_flow_start f) (f_flow_last f) (f_octets f) (f_packets f) (f_monitor_stat f)
    (f_emulator_monitor_adr f) (f_selected_monitor f) (f_selected_monitor_index f) (f_number_of_monitors
    f) (f_as_src f) (f_as_dst f).
Definition set_f_ip6_flowlabel (v : Z * Z) (f : FLOW) : FLOW :=
  Mk_FLOW (f_expiry f) (f_af f) v (f_addr f) (f_port f) (f_tcp_flags f) (f_protocol f) (f_flow_seq f)
    (f_flow_start f) (f_flow_last f) (f_octets f) (f_packets f) (f_monitor_stat f)
    (f_emulator_monitor_adr f) (f_selected_monitor f) (f_selected_monitor_index f) (f_number_of_monitors
    f) (f_as_src f) (f_as_dst f).
Definition set_f_addr (v : list Z * list Z) (f : FLOW) : FLOW :=
  Mk_FLOW (f_expiry f) (f_af f) (f_ip6_flowlabel f) v (f_port f) (f_tcp_flags f) (f_protocol f)
    (f_flow_seq f) (f_flow_start f) (f_flow_last f) (f_octets f) (f_packets f) (f_monitor_stat f)
    (f_emulator_monitor_adr f) (f_selected_monitor f) (f_selected_monitor_index f) (f_number_of_monitors
    f) (f_as_src f) (f_as_dst f).
Definition set_f_port (v : Z * Z) (f : FLOW) : FLOW :=
  Mk_FLOW (f_expiry f) (f_af f) (f_ip6_flowlabel f) (f_addr f) v (f_tcp_flags f) (f_protocol f)
    (f_flow_seq f) (f_flow_start f) (f_flow_last f) (f_octets f) (f_packets f) (f_monitor_stat f)
    (f_emulator_monitor_adr f) (f_selected_monitor f) (f_selected_monitor_index f) (f_number_of_monitors
    f) (f_as_src f) (f_as_dst f).
Definition set_f_tcp_flags (v : Z * Z) (f : FLOW) : FLOW :=
  Mk_FLOW (f_expiry f) (f_af f) (f_ip6_flowlabel f) (f_addr f) (f_port f) v (f_protocol f) (f_flow_seq
    f) (f_flow_start f) (f_flow_last f) (f_octets f) (f_packets f) (f_monitor_stat f)
    (f_emulator_monitor_adr f) (f_selected_monitor f) (f_selected_monitor_index f) (f_number_of_monitors
    f) (f_as_src f) (f_as_dst f).
Definition set_f_protocol (v : Z) (f : FLOW) : FLOW :=
  Mk_FLOW (f_expiry f) (f_af f) (f_ip6_flowlabel f) (f_addr f) (f_port f) (f_tcp_flags f) v
    (f_flow_seq f) (f_flow_start f) (f_flow_last f) (f_octets f) (f_packets f) (f_monitor_stat f)
    (f_emulator_monitor_adr f) (f_selected_monitor f) (f_selected_monitor_index f) (f_number_of_monitors
    f) (f_as_src f) (f_as_dst f).
Definition set_f_flow_seq (v : Z) (f : FLOW) : FLOW :=
  Mk_FLOW (f_expiry f) (f_af f) (f_ip6_flowlabel f) (f_addr f) (f_port f) (f_tcp_flags f) (f_protocol
    f) v (f_flow_start f) (f_flow_last f) (f_octets f) (f_packets f) (f_monitor_stat f)
    (f_emulator_monitor_adr f) (f_selected_monitor f) (f_selected_monitor_index f) (f_number_of_monitors
    f) (f_as_src f) (f_as_dst f).
Definition set_f_flow_start (v : Z * Z) (f : FLOW) : FLOW :=
  Mk_FLOW (f_expiry f) (f_af f) (f_ip6_flowlabel f) (f_addr f) (f_port f) (f_tcp_flags f) (f_protocol
    f) (f_flow_seq f) v (f_flow_last f) (f_octets f) (f_packets f) (f_monitor_stat f)
    (f_emulator_monitor_adr f) (f_selected_monitor f) (f_selected_monitor_index f) (f_number_of_monitors
    f) (f_as_src f) (f_as_dst f).
Definition set_f_flow_last (v : Z * Z) (f : FLOW) : FLOW :=
  Mk_FLOW (f_expiry f) (f_af f) (f_ip6_flowlabel f) (f_addr f) (f_port f) (f_tcp_flags f) (f_protocol
    f) (f_flow_seq f) (f_flow_start f) v (f_octets f) (f_packets f) (f_monitor_stat f)
    (f_emulator_monitor_adr f) (f_selected_monitor f) (f_selected_monitor_index f) (f_number_of_monitors
    f) (f_as_src f) (f_as_dst f).
Definition set_f_octets (v : Z * Z) (f : FLOW) : FLOW :=
  Mk_FLOW (f_expiry f) (f_af f) (f_ip6_flowlabel f) (f_addr f) (f_port f) (f_tcp_flags f) (f_protocol
    f) (f_flow_seq f) (f_flow_start f) (f_flow_last f) v (f_packets f) (f_monitor_stat f)
    (f_emulator_monitor_adr f) (f_selected_monitor f) (f_selected_monitor_index f) (f_number_of_monitors
    f) (f_as_src f) (f_as_dst f).
Definition set_f_packets (v : Z * Z) (f : FLOW) : FLOW :=
  Mk_FLOW (f_expiry f) (f_af f) (f_ip6_flowlabel f) (f_addr f) (f_port f) (f_tcp_flags f) (f_protocol
    f) (f_flow_seq f) (f_flow_start f) (f_flow_last f) (f_octets f) v (f_monitor_stat f)
    (f_emulator_monitor_adr f) (f_selected_monitor f) (f_selected_monitor_index f) (f_number_of_monitors
    f) (f_as_src f) (f_as_dst f).
Definition set_f_monitor_stat (v : list PER_MONITOR_STAT * list PER_MONITOR_STAT) (f : FLOW) : FLOW :=
  Mk_FLOW (f_expiry f) (f_af f) (f_ip6_flowlabel f) (f_addr f) (f_port f) (f_tcp_flags f) (f_protocol
    f) (f_flow_seq f) (f_flow_start f) (f_flow_last f) (f_octets f) (f_packets f) v
    (f_emulator_monitor_adr f) (f_selected_monitor f) (f_selected_monitor_index f) (f_number_of_monitors
    f) (f_as_src f) (f_as_dst f).
Definition set_f_emulator_monitor_adr (v : list Z * list Z) (f : FLOW) : FLOW :=
  Mk_FLOW (f_expiry f) (f_af f) (f_ip6_flowlabel f) (f_addr f) (f_port f) (f_tcp_flags f) (f_protocol
    f) (f_flow_seq f) (f_flow_start f) (f_flow_last f) (f_octets f) (f_packets f) (f_monitor_stat f) v
    (f_selected_monitor f) (f_selected_monitor_index f) (f_number_of_monitors f) (f_as_src f) (f_as_dst
    f).
Definition set_f_selected_monitor (v : Z) (f : FLOW) : FLOW :=
  Mk_FLOW (f_expiry f) (f_af f) (f_ip6_flowlabel f) (f_addr f) (f_port f) (f_tcp_flags f) (f_protocol
    f) (f_flow_seq f) (f_flow_start f) (f_flow_last f) (f_octets f) (f_packets f) (f_monitor_stat f)
    (f_emulator_monitor_adr f) v (f_selected_monitor_index f) (f_number_of_monitors f) (f_as_src f)
    (f_as_dst f).
Definition set_f_selected_monitor_index (v : Z) (f : FLOW) : FLOW :=
  Mk_FLOW (f_expiry f) (f_af f) (f_ip6_flowlabel f) (f_addr f) (f_port f) (f_tcp_flags f) (f_protocol
    f) (f_flow_seq f) (f_flow_start f) (f_flow_last f) (f_octets f) (f_packets f) (f_monitor_stat f)
    (f_emulator_monitor_adr f) (f_selected_monitor f) v (f_number_of_monitors f) (f_as_src f) (f_as_dst
    f).
Definition set_f_number_of_monitors (v : Z * Z) (f : FLOW) : FLOW :=
  Mk_FLOW (f_expiry f) (f_af f) (f_ip6_flowlabel f) (f_addr f) (f_port f) (f_tcp_flags f) (f_protocol
    f) (f_flow_seq f) (f_flow_start f) (f_flow_last f) (f_octets f) (f_packets f) (f_monitor_stat f)
    (f_emulator_monitor_adr f) (f_selected_monitor f) (f_selected_monitor_index f) v (f_as_src f)
    (f_as_dst f).
Definition set_f_as_src (v : Z * Z) (f : FLOW) : FLOW :=
  Mk_FLOW (f_expiry f) (f_af f) (f_ip6_flowlabel f) (f_addr f) (f_port f) (f_tcp_flags f) (f_protocol
    f) (f_flow_seq f) (f_flow_start f) (f_flow_last f) (f_octets f) (f_packets f) (f_monitor_stat f)
    (f_emulator_monitor_adr f) (f_selected_monitor f) (f_selected_monitor_index f) (f_number_of_monitors
    f) v (f_as_dst f).
Definition set_f_as_dst (v : Z * Z) (f : FLOW) : FLOW :=
  Mk_FLOW (f_expiry f) (f_af f) (f_ip6_flowlabel f) (f_addr f) (f_port f) (f_tcp_flags f) (f_protocol
    f) (f_flow_seq f) (f_flow_start f) (f_flow_last f) (f_octets f) (f_packets f) (f_monitor_stat f)
    (f_emulator_monitor_adr f) (f_selected_monitor f) (f_selected_monitor_index f) (f_number_of_monitors
    f) (f_as_src f) v.

(** memset to zero. *)
Definition FLOW_zero : FLOW :=
  Mk_FLOW None 0 (0, 0) (replicate 16 0, replicate 16 0) (0, 0) (0, 0) 0 0 (0, 0) (0, 0) (0, 0) (0, 0)
    (replicate 50 (Mk_PER_MONITOR_STAT 0 0), replicate 50 (Mk_PER_MONITOR_STAT 0 0))
    (replicate 50 0, replicate 50 0) 0 0 (0, 0) (0, 0) (0, 0).

(** The [v4] member of an address, and an assignment to it. *)
Definition v4_s_addr (a : bytes) : Z := le_val (take 4 a).
Definition set_v4_bytes (b a : bytes) : bytes := b ++ drop 4 a.

Definition DEFAULT_MAXIMUM_NUMBER_OF_EMULATORS : Z := 50.

(** A flow whose members are in the ranges of their types. *)
Definition both2 {A} (P : A -> Prop) (p : A * A) : Prop := P (fst p) /\ P (snd p).

Definition timeval_ok (tv : Z * Z) : Prop := 0 <= snd tv < 1000000.

Definition stat_ok (m : PER_MONITOR_STAT) : Prop := u32 (ms_octets m) /\ u32 (ms_packets m).

Record FLOW_ok (f : FLOW) : Prop := {
  fo_addr : both2 (fun a => length a = 16%nat /\ Forall u8 a) (f_addr f);
  fo_port : both2 u16 (f_port f);
  fo_flags : both2 u8 (f_tcp_flags f);
  fo_protocol : u8 (f_protocol f);
  fo_seq : u64 (f_flow_seq f);
  fo_start : timeval_ok (f_flow_start f);
  fo_last : timeval_ok (f_flow_last f);
  fo_octets : both2 u32 (f_octets f);
  fo_packets : both2 u32 (f_packets f);
  fo_stats : both2 (fun l => length l = 50%nat /\ Forall stat_ok l) (f_monitor_stat f);
  fo_monitors : both2 (fun l => length l = 50%nat /\ Forall u32 l) (f_emulator_monitor_adr f);
  fo_selected : u32 (f_selected_monitor f);
  fo_index : u16 (f_selected_monitor_index f);
  fo_number : both2 u32 (f_number_of_monitors f);
  fo_as_src : both2 u32 (f_as_src f);
  fo_as_dst : both2 u32 (f_as_dst f);
  fo_label : both2 u32 (f_ip6_flowlabel f)
}.

Lemma both2_at {A} (P : A -> Prop) p ndx : both2 P p -> P (at2 ndx p).
Proof. intros [H1 H2]. by destruct ndx. Qed.

Lemma both2_set {A} (P : A -> Prop) p ndx v : both2 P p -> P v -> both2 P (set2 ndx v p).
Proof. intros [H1 H2] Hv. by destruct ndx; split. Qed.

Lemma v4_s_addr_fits a : length a = 16%nat /\ Forall u8 a -> fits 4 (v4_s_addr a).
Proof.
  intros [Hl Ha]. unfold v4_s_addr. pose proof (le_val_bound (take 4 a)) as Hb.
  rewrite length_take, Hl in Hb. apply Hb. by apply Forall_take.
Qed.

(** ** Time *)

Definition timeval_sub_ms (t1 t2 : Z * Z) : Z :=
  let res_sec := fst t1 - fst t2 in
  let res_usec := snd t1 - snd t2 in
  let '(res_sec, res_usec) :=
    if res_usec <? 0 then (res_sec - 1, res_usec + 1000000) else (res_sec, res_usec) in
  wrap32 (wrap32 res_sec * 1000 + wrap32 res_usec / 1000).

Definition timeval_us (t : Z * Z) : Z := fst t * 1000000 + snd t.

(** The milliseconds between two times, modulo 2^32. *)
Lemma timeval_sub_ms_ok t1 t2 :
  timeval_ok t1 -> timeval_ok t2 ->
  timeval_sub_ms t1 t2 = wrap32 ((timeval_us t1 - timeval_us t2) / 1000).
Proof.
  destruct t1 as [s1 u1], t2 as [s2 u2]. unfold timeval_ok, timeval_us, timeval_sub_ms. cbn [fst snd].
  intros H1 H2.
  assert (forall s u, 0 <= u < 1000000 ->
            wrap32 (wrap32 s * 1000 + wrap32 u / 1000) = wrap32 ((s * 1000000 + u) / 1000)) as H.
  { intros s u Hu. rewrite (wrap32_small u) by (width; lia).
    replace (s * 1000000 + u) with ((s * 1000) * 1000 + u) by lia.
    rewrite Z.div_add_l by lia. unfold wrap32.
    rewrite <- (Z.add_mod_idemp_l (s mod 4294967296 * 1000)), Z.mul_mod_idemp_l, Z.add_mod_idemp_l by lia.
    done. }
  destruct (Z.ltb_spec (u1 - u2) 0); rewrite H by lia; f_equal; f_equal; lia.
Qed.

Lemma timeval_sub_ms_u32 t1 t2 : u32 (timeval_sub_ms t1 t2).
Proof. unfold timeval_sub_ms. destruct (_ <? _); apply wrap32_u32. Qed.
#[export] Hint Resolve timeval_sub_ms_u32 : width.
