(* ===== verification/SendFixed.v ===== *)
(** * Export of flows in fixed-size records (src/softflowd/netflow1.c, netflow5.c)

    send_netflow_v1 and send_netflow_v5 are one algorithm: records are written
    behind a header into a packet buffer, up to two for each flow, and the packet
    is sent when there may not be room for two more and at the end.  The section
    models it once, over the interface [FixedFormat] of the version's header,
    and shows which packets leave the program; the files Send1 and Send5 give the
    two versions. *)

From S2P Require Import Prelude Packed Addr SoftTypes.

(** What a version's header offers: the count of flows, which is kept in host
    order until the packet is sent, and the address of the monitor. *)
Class FixedFormat (H : Type) := {
  hdr_flows : H -> Z;
  set_hdr_flows : Z -> H -> H;
  set_hdr_monitor : Z -> H -> H
}.

Class FixedFormatLaws (H : Type) `{Packed H} `{FixedFormat H} := {
  hdr_flows_set (h : H) v : hdr_flows (set_hdr_flows v h) = v;
  set_hdr_flows_self (h : H) : set_hdr_flows (hdr_flows h) h = h;
  hdr_flows_monitor (h : H) m : hdr_flows (set_hdr_monitor m h) = hdr_flows h;
  set_hdr_flows_set (h : H) v w : set_hdr_flows v (set_hdr_flows w h) = set_hdr_flows v h;
  set_hdr_monitor_set (h : H) m k : set_hdr_monitor m (set_hdr_monitor k h) = set_hdr_monitor m h;
  set_hdr_flows_monitor (h : H) v m :
    set_hdr_flows v (set_hdr_monitor m h) = set_hdr_monitor m (set_hdr_flows v h);
  hdr_flows_valid (h : H) v : valid h -> u16 v -> valid (set_hdr_flows v h);
  hdr_monitor_valid (h : H) m : valid h -> u32 m -> valid (set_hdr_monitor m h)
}.

(** The local variables of the functions, *flows_exported, the results of the
    sends to come (false for one that fails; every send after the last one listed
    succeeds) and the packets sent. *)
Record sstate := Mk_sstate {
  s_packet : bytes;
  s_offset : Z;
  s_j : Z;
  s_num_packets : Z;
  s_flows_exported : Z;
  s_sends : list bool;
  s_sent : list (list Z)
}.

Section sender.
Context {H R : Type} `{PackedLaws H} `{PackedLaws R} `{FixedFormat H}.
(** MAXFLOWS of the version, the header for a number of exported flows, whether
    the emulator is in use, and the assignments to the record of one direction
    of a flow, if that direction is exported. *)
Context (MAXFLOWS : Z) (new_hdr : Z -> H) (using_emulator : bool)
  (record : bool -> FLOW -> outcome (option (R -> R))).

Definition MAXPACKET_SIZE : Z := sizeof H + MAXFLOWS * sizeof R.

Definition hdr_update (g : H -> H) (s : sstate) : outcome sstate :=
  let! b := rd (s_packet s) 0 (sizeof H) in
  let! packet := wr (s_packet s) 0 (encode (g (decode b))) in
  Ret (Mk_sstate packet (s_offset s) (s_j s) (s_num_packets s) (s_flows_exported s) (s_sends s)
         (s_sent s)).

(** htons of the count and the send; the result is whether it succeeded. *)
Definition send_packet (s : sstate) : outcome (bool * sstate) :=
  let! s := hdr_update (fun h => set_hdr_flows (htons (hdr_flows h)) h) s in
  let! out := rd (s_packet s) 0 (s_offset s) in
  let done sends := Mk_sstate (s_packet s) (s_offset s) (s_j s) (s_num_packets s)
                      (s_flows_exported s) sends (s_sent s ++ [out]) in
  match s_sends s with
  | false :: sends =>
      Ret (false, Mk_sstate (s_packet s) (s_offset s) (s_j s) (s_num_packets s)
                    (s_flows_exported s) sends (s_sent s))
  | true :: sends => Ret (true, done sends)
  | [] => Ret (true, done [])
  end.

(** The packet is sent when it may be too full for the next flow. *)
Definition send_full (s : sstate) : outcome (bool * sstate) :=
  if MAXFLOWS - 1 <=? s_j s then
    let! (ok, s) := send_packet s in
    if ok then
      Ret (true, Mk_sstate (s_packet s) (s_offset s) 0 (s_num_packets s + 1)
                   (wrap64 (s_flows_exported s + s_j s)) (s_sends s) (s_sent s))
    else Ret (false, s)
  else Ret (true, s).

(** A new packet when there is none. *)
Definition start_packet (s : sstate) : outcome sstate :=
  if s_j s =? 0 then
    let! packet := wr (replicate (Z.to_nat MAXPACKET_SIZE) 0) 0 (encode (new_hdr (s_flows_exported s))) in
    Ret (Mk_sstate packet (sizeof H) (s_j s) (s_num_packets s) (s_flows_exported s) (s_sends s)
           (s_sent s))
  else Ret s.

(** The record of one direction of a flow. *)
Definition put_direction (ndx : bool) (f : FLOW) (s : sstate) : outcome sstate :=
  let! u := record ndx f in
  match u with
  | None => Ret s
  | Some g =>
      let! b := rd (s_packet s) (s_offset s) (sizeof R) in
      let! packet := wr (s_packet s) (s_offset s) (encode (g (decode b))) in
      hdr_update (fun h => set_hdr_flows (wrap16 (hdr_flows h + 1)) h)
        (Mk_sstate packet (s_offset s + sizeof R) (s_j s + 1) (s_num_packets s)
           (s_flows_exported s) (s_sends s) (s_sent s))
  end.

Definition put_flow (f : FLOW) (s : sstate) : outcome sstate :=
  if negb (f_af f =? AF_INET) then Ret s
  else
    let! s :=
      if (s_j s =? 0) && using_emulator
      then hdr_update (set_hdr_monitor (f_selected_monitor f)) s
      else Ret s in
    let! s := put_direction false f s in
    put_direction true f s.

Fixpoint send_loop (flows : list FLOW) (s : sstate) : outcome (bool * sstate) :=
  match flows with
  | [] => Ret (true, s)
  | f :: flows =>
      let! (ok, s) := send_full s in
      if negb ok then Ret (false, s)
      else
        let! s := start_packet s in
        let! s := put_flow f s in
        send_loop flows s
  end.

(** The whole function: its result, and the state it leaves.  [junk] is what the
    packet buffer holds before anything is written. *)
Definition send_netflow (junk : bytes) (flows : list FLOW) (flows_exported : Z) (sends : list bool)
    : outcome (Z * sstate) :=
  let! (ok, s) := send_loop flows (Mk_sstate junk 0 0 0 flows_exported sends []) in
  if negb ok then Ret (-1, s)
  else
    let! (ok, s) :=
      if negb (s_j s =? 0) then
        let! (ok, s) := send_packet s in
        if ok then
          Ret (true, Mk_sstate (s_packet s) (s_offset s) (s_j s) (s_num_packets s + 1)
                       (s_flows_exported s) (s_sends s) (s_sent s))
        else Ret (false, s)
      else Ret (true, s) in
    if negb ok then Ret (-1, s)
    else
      Ret (s_num_packets s,
           Mk_sstate (s_packet s) (s_offset s) (s_j s) (s_num_packets s)
             (wrap64 (s_flows_exported s + s_j s)) (s_sends s) (s_sent s)).
End sender.

(** ** What leaves the program *)

Section sender_laws.
Context {H R : Type} `{PackedLaws H} `{PackedLaws R} `{!FixedFormat H} `{!FixedFormatLaws H}.
Context (MAXFLOWS : Z) (new_hdr : Z -> H) (using_emulator : bool)
  (record : bool -> FLOW -> outcome (option (R -> R))).

(** The record of zeros that the assignments start from. *)
Definition zero_record : R := decode (replicate (Z.to_nat (sizeof R)) 0).

(** The records of a flow, and of all of them. *)
Definition direction_records (ndx : bool) (f : FLOW) : list R :=
  match record ndx f with
  | Ret (Some g) => [g zero_record]
  | _ => []
  end.
Definition flow_records (f : FLOW) : list R :=
  if f_af f =? AF_INET then direction_records false f ++ direction_records true f else [].

(** A packet with [recs], after [exported] flows, of the monitor [m]. *)
Definition packet_of (exported m : Z) (recs : list R) : list Z :=
  encode (set_hdr_flows (htons (Z.of_nat (length recs))) (set_hdr_monitor m (new_hdr exported))) ++
  concat (encode <$> recs).
Fixpoint packets_of (exported m : Z) (groups : list (list R)) : list (list Z) :=
  match groups with
  | [] => []
  | g :: groups =>
      packet_of exported m g ::
      packets_of (wrap64 (exported + Z.of_nat (length g))) m groups
  end.

(** A flow that the version can export: its record is read in bounds and holds
    values in range. *)
Definition exportable (m : Z) (f : FLOW) : Prop :=
  (using_emulator = true -> f_selected_monitor f = m) /\
  forall ndx, exists u, record ndx f = Ret u /\ forall g, u = Some g -> valid (g zero_record).

Context (Hmax : 2 <= MAXFLOWS < 65536).
Context (m : Z) (Hm : u32 m) (Hmon : using_emulator = false -> forall h, set_hdr_monitor m (new_hdr h) = new_hdr h).
Context (Hnew : forall e, valid (new_hdr e) /\ hdr_flows (new_hdr e) = 0).

Definition rec_size : nat := Z.to_nat (sizeof R).

(** The header of a packet with [n] records. *)
Definition header (e n : Z) : H := set_hdr_flows n (set_hdr_monitor m (new_hdr e)).

Lemma header_valid e n : u16 n -> valid (header e n).
Proof. intros. apply (hdr_flows_valid (H:=H)); [|done]. apply (hdr_monitor_valid (H:=H)); [apply Hnew|done]. Qed.

Lemma encode_header_length (h : H) : valid h -> Z.of_nat (length (encode h)) = sizeof H.
Proof. apply length_encode. Qed.

Lemma records_length (recs : list R) :
  Forall valid recs -> Z.of_nat (length (concat (encode <$> recs))) = Z.of_nat (length recs) * sizeof R.
Proof.
  induction 1 as [|r recs Hr _ IH]; [done|]. cbn [fmap list_fmap concat length].
  rewrite length_app, Nat2Z.inj_add, IH, length_encode by done. lia.
Qed.

(** The packet under construction: [recs] behind the header [h], then zeros. *)
Record building (s : sstate) (e : Z) (recs : list R) (h : H) : Prop := {
  b_packet : s_packet s = encode h ++ concat (encode <$> recs) ++
      replicate ((Z.to_nat MAXFLOWS - length recs) * rec_size) 0;
  b_hdr : valid h;
  b_flows : hdr_flows h = Z.of_nat (length recs);
  b_offset : s_offset s = sizeof H + Z.of_nat (length recs) * sizeof R;
  b_j : s_j s = Z.of_nat (length recs);
  b_exported : s_flows_exported s = e;
  b_valid : Forall valid recs;
  b_max : Z.of_nat (length recs) <= MAXFLOWS
}.

(** The rest of the state is that of [s]. *)
Record same_sends (s s' : sstate) : Prop := {
  ss_num : s_num_packets s' = s_num_packets s;
  ss_exported : s_flows_exported s' = s_flows_exported s;
  ss_sends : s_sends s' = s_sends s;
  ss_sent : s_sent s' = s_sent s
}.

Lemma hdr_update_ok g s e recs h :
  building s e recs h -> valid (g h) -> hdr_flows (g h) = Z.of_nat (length recs) ->
  exists s', hdr_update g s = Ret s' /\ building s' e recs (g h) /\ same_sends s s'.
Proof.
  intros [Hp Hh Hf Ho Hj He Hv Hx] Hg Hfg. unfold hdr_update.
  rewrite Hp, rd_head by (symmetry; by apply length_encode). cbn [obind].
  rewrite decode_encode' by done.
  rewrite wr_head by (apply Nat2Z.inj; by rewrite !length_encode). cbn [obind].
  eexists. split; [reflexivity|]. split; [constructor; try done|done].
Qed.

Lemma start_packet_ok s :
  s_j s = 0 ->
  exists s', start_packet MAXFLOWS new_hdr s = Ret s' /\
    building s' (s_flows_exported s) [] (new_hdr (s_flows_exported s)) /\ same_sends s s'.
Proof.
  intros Hj. unfold start_packet, MAXPACKET_SIZE. rewrite Hj. cbn [Z.eqb].
  destruct (Hnew (s_flows_exported s)) as [Hv Hf].
  pose proof (encode_header_length _ Hv) as Hl.
  assert (replicate (Z.to_nat (sizeof H + MAXFLOWS * sizeof R)) 0 =
            replicate (length (encode (new_hdr (s_flows_exported s)))) 0 ++
            replicate (Z.to_nat MAXFLOWS * rec_size) 0) as ->.
  { rewrite <- replicate_add. f_equal. unfold rec_size, sizeof in *. nia. }
  rewrite wr_head by (by rewrite length_replicate). cbn [obind].
  eexists. split; [reflexivity|]. split; [|done]. constructor; cbn; try done; try lia.
  by rewrite Nat.sub_0_r.
Qed.

Lemma put_direction_ok ndx f s e recs :
  building s e recs (header e (Z.of_nat (length recs))) ->
  Z.of_nat (length recs) < MAXFLOWS -> exportable m f ->
  exists s', put_direction record ndx f s = Ret s' /\ same_sends s s' /\
    building s' e (recs ++ direction_records ndx f)
      (header e (Z.of_nat (length (recs ++ direction_records ndx f)))).
Proof.
  intros Hb Hlt [_ Hrec]. destruct (Hrec ndx) as (u & Eu & Hu).
  unfold put_direction, direction_records. rewrite Eu. cbn [obind].
  destruct u as [g|]; [|exists s; by rewrite app_nil_r].
  specialize (Hu g eq_refl). pose proof Hb as [Hp Hh Hf Ho Hj He Hv Hx].
  set (h := header e _) in *. set (n := length recs) in *.
  assert (Z.of_nat (length (encode (g zero_record))) = sizeof R) as Hrl by (by apply length_encode).
  assert (length (encode (g zero_record)) = rec_size) as Hrl' by (unfold rec_size; lia).
  assert (s_packet s = (encode h ++ concat (encode <$> recs)) ++ replicate rec_size 0 ++
            replicate ((Z.to_nat MAXFLOWS - S n) * rec_size) 0) as Hp'.
  { rewrite Hp, <- app_assoc. do 2 f_equal. rewrite <- replicate_add. f_equal.
    replace (Z.to_nat MAXFLOWS - n)%nat with (S (Z.to_nat MAXFLOWS - S n)) by lia. lia. }
  assert (s_offset s = Z.of_nat (length (encode h ++ concat (encode <$> recs)))) as Ho'.
  { rewrite length_app, Nat2Z.inj_add, length_encode, records_length by done. exact Ho. }
  rewrite Hp', rd_app; [|done|unfold rec_size; rewrite length_replicate; unfold sizeof; lia].
  cbn [obind]. rewrite wr_app by (rewrite ?length_replicate; done). cbn [obind].
  fold zero_record. change (decode (replicate rec_size 0)) with zero_record.
  set (s1 := Mk_sstate _ _ _ _ _ _ _).
  (* the buffer with the record, the count not yet updated *)
  assert (encode h = encode h) as _ by done.
  assert (valid (set_hdr_flows (wrap16 (hdr_flows h + 1)) h)) as Hg
    by (apply (hdr_flows_valid (H:=H)); [done|apply wrap16_u16]).
  unfold hdr_update. subst s1. cbn [s_packet]. rewrite <- app_assoc.
  rewrite rd_head by (symmetry; by apply length_encode). cbn [obind].
  rewrite decode_encode' by done.
  rewrite wr_head by (apply Nat2Z.inj; by rewrite !length_encode). cbn [obind].
  assert (length (recs ++ [g zero_record]) = S n) as Hl by (rewrite length_app; cbn; lia).
  assert (set_hdr_flows (wrap16 (hdr_flows h + 1)) h = header e (Z.of_nat (S n))) as Eh.
  { rewrite Hf, wrap16_small by (width; lia). unfold h, header. rewrite set_hdr_flows_set. f_equal. lia. }
  eexists. split; [reflexivity|]. split; [done|]. rewrite Hl, Eh. constructor; cbn [s_packet s_offset s_j s_flows_exported].
  - rewrite fmap_app, concat_app. cbn [fmap list_fmap concat]. rewrite app_nil_r, Hl.
    rewrite <- !app_assoc. reflexivity.
  - rewrite <- Eh. done.
  - unfold header. by rewrite hdr_flows_set, Hl.
  - rewrite Hl, Ho. lia.
  - rewrite Hl, Hj. lia.
  - done.
  - apply Forall_app. by split; [|constructor].
  - rewrite Hl. lia.
Qed.

Lemma put_flow_ok f s e recs h :
  building s e recs h -> h = header e (Z.of_nat (length recs)) \/ recs = [] /\ h = new_hdr e ->
  Z.of_nat (length recs) <= MAXFLOWS - 2 -> exportable m f ->
  exists s' h', put_flow using_emulator record f s = Ret s' /\ same_sends s s' /\
    building s' e (recs ++ flow_records f) h' /\
    (h' = header e (Z.of_nat (length (recs ++ flow_records f))) \/
     recs ++ flow_records f = [] /\ h' = new_hdr e).
Proof.
  intros Hb Hh Hle Hf. unfold put_flow, flow_records.
  destruct (f_af f =? AF_INET); cbn [negb]; [|exists s, h; by rewrite app_nil_r].
  (* the monitor *)
  assert (exists s1, (if (s_j s =? 0) && using_emulator
            then hdr_update (set_hdr_monitor (f_selected_monitor f)) s else Ret s) = Ret s1 /\
            same_sends s s1 /\ building s1 e recs (header e (Z.of_nat (length recs)))) as (s1 & -> & Hs1 & Hb1).
  { destruct Hf as [Hm' _]. rewrite (b_j _ _ _ _ Hb). destruct using_emulator.
    - rewrite andb_true_r, Hm' by done. destruct recs as [|r recs]; cbn [length].
      + change (Z.of_nat 0 =? 0) with true. cbv iota.
        destruct (hdr_update_ok (set_hdr_monitor m) s e [] h) as (s1 & -> & Hb1 & Hs1); [done|..].
        * apply (hdr_monitor_valid (H:=H)); [apply Hb|done].
        * rewrite hdr_flows_monitor. apply Hb.
        * exists s1. split; [done|]. split; [done|].
          replace (header e (Z.of_nat 0)) with (set_hdr_monitor m h); [done|].
          destruct (Hnew e) as [_ He0]. destruct Hh as [->|[_ ->]]; unfold header; cbn [length].
          -- by rewrite <- set_hdr_flows_monitor, set_hdr_monitor_set.
          -- rewrite set_hdr_flows_monitor. change (Z.of_nat 0) with 0. rewrite <- He0.
             by rewrite set_hdr_flows_self.
      + rewrite (proj2 (Z.eqb_neq _ 0)) by lia. cbv iota. destruct Hh as [->|[? _]]; [|done]. by exists s.
    - rewrite andb_false_r. exists s. split; [done|]. split; [done|].
      destruct Hh as [->|[-> ->]]; [done|]. destruct (Hnew e) as [_ He0].
      unfold header. rewrite Hmon by done. change (Z.of_nat (length [])) with 0.
      rewrite <- He0. by rewrite set_hdr_flows_self. }
  cbn [obind].
  destruct (put_direction_ok false f s1 e recs) as (s2 & -> & Hs2 & Hb2); [done|lia|done|]. cbn [obind].
  assert (forall d, length (direction_records d f) <= 1)%nat as Hd.
  { intros d. unfold direction_records. destruct (record d f) as [[?|]| | |]; cbn; lia. }
  destruct (put_direction_ok true f s2 e (recs ++ direction_records false f)) as (s3 & -> & Hs3 & Hb3);
    [done|rewrite length_app; specialize (Hd false); lia|done|].
  exists s3. eexists. split; [reflexivity|]. split.
  - destruct Hs1, Hs2, Hs3. constructor; congruence.
  - rewrite app_assoc. split; [exact Hb3|by left].
Qed.

Lemma send_packet_ok s e recs :
  building s e recs (header e (Z.of_nat (length recs))) ->
  exists ok s', send_packet s = Ret (ok, s') /\
    s_j s' = s_j s /\ s_num_packets s' = s_num_packets s /\ s_flows_exported s' = s_flows_exported s /\
    if ok : bool then
      s_sends s' = drop 1 (s_sends s) /\ Forall (eq true) (take 1 (s_sends s)) /\
      s_sent s' = s_sent s ++ [packet_of e m recs]
    else s_sends s !! 0%nat = Some false /\ s_sent s' = s_sent s.
Proof.
  intros Hb. pose proof (b_max _ _ _ _ Hb) as Hx. pose proof (b_flows _ _ _ _ Hb) as Hf.
  unfold send_packet, hdr_update. set (h := header e _) in *.
  rewrite (b_packet _ _ _ _ Hb), rd_head by (symmetry; apply length_encode, Hb). cbn [obind].
  rewrite decode_encode' by apply Hb. rewrite Hf.
  set (h' := set_hdr_flows _ h).
  assert (valid h') as Hh' by (apply (hdr_flows_valid (H:=H)); [apply Hb|apply htons_u16]).
  assert (length (encode h') = length (encode h)) as Hl
    by (apply Nat2Z.inj; rewrite !length_encode by (done || apply Hb); done).
  rewrite wr_head by done. cbn [obind s_packet s_offset].
  rewrite (b_offset _ _ _ _ Hb), app_assoc, rd_head.
  2:{ rewrite length_app, Nat2Z.inj_add, length_encode, records_length by (done || apply Hb). done. }
  cbn [obind s_sends s_sent s_j s_num_packets s_flows_exported].
  assert (encode h' ++ concat (encode <$> recs) = packet_of e m recs) as ->.
  { unfold packet_of, h', h, header. by rewrite set_hdr_flows_set. }
  destruct (s_sends s) as [|[] sends]; eexists _, _; (split; [reflexivity|]); cbn; rewrite ?drop_0; by repeat constructor.
Qed.

(** [groups] are the packets sent between two states. *)
Record sent_groups (s s' : sstate) (groups : list (list R)) : Prop := {
  sg_sent : s_sent s' = s_sent s ++ packets_of (s_flows_exported s) m groups;
  sg_num : s_num_packets s' = s_num_packets s + Z.of_nat (length groups);
  sg_exported : s_flows_exported s' = wrap64 (s_flows_exported s + Z.of_nat (length (concat groups)));
  sg_sends : s_sends s' = drop (length groups) (s_sends s);
  sg_true : Forall (eq true) (take (length groups) (s_sends s));
  sg_sizes : Forall (fun g => g <> [] /\ Z.of_nat (length g) <= MAXFLOWS) groups
}.

Lemma sent_groups_nil s s' :
  u64 (s_flows_exported s) -> same_sends s s' -> sent_groups s s' [].
Proof.
  intros He [E1 E2 E3 E4]. constructor; cbn; try done.
  - by rewrite app_nil_r.
  - lia.
  - by rewrite E2, Z.add_0_r, wrap64_small.
Qed.

Lemma packets_of_app e g1 g2 :
  u64 e ->
  packets_of e m (g1 ++ g2) =
    packets_of e m g1 ++ packets_of (wrap64 (e + Z.of_nat (length (concat g1)))) m g2.
Proof.
  revert e. induction g1 as [|g g1 IH]; intros e He.
  - cbn [concat length app packets_of]. by rewrite Z.add_0_r, wrap64_small.
  - cbn [concat app packets_of]. rewrite IH by apply wrap64_u64. do 3 f_equal.
    rewrite length_app. unfold wrap64. rewrite Z.add_mod_idemp_l by lia. f_equal. lia.
Qed.

Lemma sent_groups_app s s1 s' g1 g2 :
  u64 (s_flows_exported s) -> sent_groups s s1 g1 -> sent_groups s1 s' g2 ->
  sent_groups s s' (g1 ++ g2).
Proof.
  intros He [A1 A2 A3 A4 A5 A6] [B1 B2 B3 B4 B5 B6]. constructor.
  - by rewrite B1, A1, A3, packets_of_app, app_assoc.
  - rewrite B2, A2, length_app. lia.
  - rewrite B3, A3, concat_app, length_app. unfold wrap64.
    rewrite Z.add_mod_idemp_l by lia. f_equal. lia.
  - by rewrite B4, A4, drop_drop, length_app.
  - rewrite A4 in B5. rewrite length_app, <- take_take_drop. apply Forall_app. by split.
  - apply Forall_app. by split.
Qed.

(** The state before the loop looks at a flow: nothing is under construction, or
    at least one record. *)
Definition pending (s : sstate) (recs : list R) : Prop :=
  u64 (s_flows_exported s) /\
  ((recs = [] /\ s_j s = 0) \/
   (exists h, building s (s_flows_exported s) recs h /\
     (h = header (s_flows_exported s) (Z.of_nat (length recs)) \/
      recs = [] /\ h = new_hdr (s_flows_exported s)))).

Lemma pending_j s recs : pending s recs -> s_j s = Z.of_nat (length recs).
Proof. intros (_ & [[-> H']|(h & H' & _)]); [done|apply H']. Qed.

Lemma pending_building s recs :
  pending s recs -> recs <> [] ->
  building s (s_flows_exported s) recs (header (s_flows_exported s) (Z.of_nat (length recs))).
Proof. intros (_ & [[-> H']|(h & H' & [->|[-> ?]])]) Hne; done. Qed.

Lemma send_full_ok s recs :
  pending s recs ->
  exists ok s', send_full MAXFLOWS s = Ret (ok, s') /\
    if ok : bool then
      (s' = s /\ Z.of_nat (length recs) <= MAXFLOWS - 2) \/
      (s_j s' = 0 /\ recs <> [] /\ sent_groups s s' [recs])
    else recs <> [] /\ s_sends s !! 0%nat = Some false /\ s_sent s' = s_sent s /\
      s_flows_exported s' = s_flows_exported s.
Proof.
  intros Hp. unfold send_full. rewrite (pending_j _ _ Hp).
  destruct (Z.leb_spec (MAXFLOWS - 1) (Z.of_nat (length recs))) as [Hfull|Hfull].
  2:{ exists true, s. split; [done|]. left. split; [done|lia]. }
  assert (recs <> []) as Hne by (intros ->; cbn in *; lia).
  pose proof (pending_building _ _ Hp Hne) as Hb.
  destruct (send_packet_ok s (s_flows_exported s) recs Hb) as (ok & s' & -> & Hj & Hn & He & Hr).
  cbn [obind]. destruct ok.
  - eexists true, _. split; [reflexivity|]. right. split; [done|]. split; [done|].
    destruct Hr as (R1 & R2 & R3). constructor; cbn; try done.
    + by rewrite Hn.
    + rewrite He, Hj, (pending_j _ _ Hp), app_nil_r. done.
    + constructor; [|done]. split; [done|]. apply Hb.
  - exists false, s'. split; [reflexivity|]. by destruct Hr.
Qed.

(** One turn of the loop after the packet was sent if it had to be. *)
Lemma flow_turn_ok f s recs :
  pending s recs -> Z.of_nat (length recs) <= MAXFLOWS - 2 -> exportable m f ->
  exists s', (let! s := start_packet MAXFLOWS new_hdr s in put_flow using_emulator record f s) = Ret s' /\
    same_sends s s' /\ pending s' (recs ++ flow_records f).
Proof.
  intros Hp Hle Hf.
  assert (exists s1 h, start_packet MAXFLOWS new_hdr s = Ret s1 /\ same_sends s s1 /\
            building s1 (s_flows_exported s) recs h /\
            (h = header (s_flows_exported s) (Z.of_nat (length recs)) \/
             recs = [] /\ h = new_hdr (s_flows_exported s))) as (s1 & h & -> & Hs1 & Hb & Hh).
  { destruct (decide (recs = [])) as [->|Hne].
    - destruct (start_packet_ok s) as (s1 & E1 & Hb & Hs1); [by rewrite (pending_j _ _ Hp)|].
      exists s1. eexists. split; [exact E1|]. split; [done|]. split; [exact Hb|]. by right.
    - exists s. eexists. split; [|split; [done|split; [by apply pending_building|by left]]].
      unfold start_packet. rewrite (pending_j _ _ Hp), (proj2 (Z.eqb_neq _ 0)); [done|].
      destruct recs; [done|cbn [length]; lia]. }
  cbn [obind].
  destruct (put_flow_ok f s1 _ recs h Hb Hh Hle Hf) as (s2 & h2 & -> & Hs2 & Hb2 & Hh2).
  exists s2. split; [reflexivity|].
  assert (s_flows_exported s2 = s_flows_exported s) as He by (by rewrite (ss_exported _ _ Hs2), (ss_exported _ _ Hs1)).
  split; [destruct Hs1, Hs2; constructor; congruence|]. split; [rewrite He; apply Hp|].
  right. exists h2. by rewrite He.
Qed.

Lemma send_loop_ok flows : forall s recs,
  pending s recs -> Forall (exportable m) flows ->
  exists ok s' groups rest, send_loop MAXFLOWS new_hdr using_emulator record flows s = Ret (ok, s') /\
    recs ++ concat (flow_records <$> flows) = concat groups ++ rest /\
    if ok : bool then exists s1, sent_groups s s1 groups /\ same_sends s1 s' /\ pending s' rest
    else rest <> [] /\ exists s1, sent_groups s s1 groups /\ s_sends s1 !! 0%nat = Some false /\
      s_sent s' = s_sent s1 /\ s_flows_exported s' = s_flows_exported s1.
Proof.
  induction flows as [|f flows IH]; intros s recs Hp Hok.
  { exists true, s, [], recs. split; [done|]. split; [by rewrite app_nil_r|].
    exists s. split; [|by split]. apply sent_groups_nil; [apply Hp|done]. }
  apply Forall_cons in Hok as [Hf Hok]. cbn [send_loop].
  destruct (send_full_ok s recs Hp) as (ok & s1 & -> & H1'). cbn [obind].
  destruct ok; cbn [negb].
  2:{ exists false, s1, [], (recs ++ concat (flow_records <$> f :: flows)). split; [done|]. split; [done|].
      destruct H1' as (Hne & Hs & Ht & He). split; [by destruct recs|].
      exists s. split; [apply sent_groups_nil; [apply Hp|done]|]. done. }
  (* the records still pending after a full packet was sent *)
  assert (exists g recs1, pending s1 recs1 /\ Z.of_nat (length recs1) <= MAXFLOWS - 2 /\
            recs = concat g ++ recs1 /\
            forall s' groups, u64 (s_flows_exported s1) -> sent_groups s1 s' groups -> sent_groups s s' (g ++ groups))
    as (g & recs1 & Hp1 & Hle & -> & Hg).
  { destruct H1' as [[-> Hle]|(Hj & Hne & Hg)].
    - by exists [], recs.
    - exists [recs], []. split; [|split; [cbn; lia|split]].
      + split; [|by left]. rewrite (sg_exported _ _ _ Hg). apply wrap64_u64.
      + cbn. by rewrite !app_nil_r.
      + intros s' groups _ Hgs. by apply (sent_groups_app _ s1 _ [recs]); [apply Hp|..]. }
  destruct (flow_turn_ok f s1 recs1 Hp1 Hle Hf) as (s2 & E2 & Hs2 & Hp2).
  destruct (start_packet MAXFLOWS new_hdr s1) as [s1'| | |]; cbn [obind] in E2 |- *; try done.
  rewrite E2. cbn [obind].
  destruct (IH s2 _ Hp2 Hok) as (ok & s' & groups & rest & -> & Hcat & Hr).
  exists ok, s', (g ++ groups), rest. split; [done|]. split.
  { cbn [fmap list_fmap concat]. rewrite concat_app, <- !app_assoc, <- Hcat. by rewrite <- !app_assoc. }
  assert (forall s3, sent_groups s2 s3 groups -> sent_groups s s3 (g ++ groups)) as Hgs.
  { intros s3 [A1 A2 A3 A4 A5 A6]. apply Hg; [apply Hp1|]. destruct Hs2 as [B1 B2 B3 B4].
    constructor; congruence || (rewrite <- ?B1, <- ?B2, <- ?B3, <- ?B4; done). }
  destruct ok.
  - destruct Hr as (s3 & Hr & ?). exists s3. split; [by apply Hgs|done].
  - destruct Hr as (Hne & s3 & Hr & ?). split; [done|]. exists s3. split; [by apply Hgs|done].
Qed.

(** What a run of the function does: the records of the flows, in order, leave in
    packets of at least one and at most MAXFLOWS records, whose headers count them
    and number the first of them, until a send fails. *)
Definition exported_as (flows : list FLOW) (exported : Z) (sends : list bool) (r : Z) (s : sstate)
    (groups : list (list R)) : Prop :=
  s_sent s = packets_of exported m groups /\
  s_flows_exported s = wrap64 (exported + Z.of_nat (length (concat groups))) /\
  Forall (fun g => g <> [] /\ Z.of_nat (length g) <= MAXFLOWS) groups /\
  Forall (eq true) (take (length groups) sends) /\
  (r = Z.of_nat (length groups) /\ concat groups = concat (flow_records <$> flows) \/
   r = -1 /\ sends !! length groups = Some false /\
   exists rest, rest <> [] /\ concat groups ++ rest = concat (flow_records <$> flows)).

Lemma exported_as_failed flows s0 s1 s' groups rest :
  s_sent s0 = [] -> sent_groups s0 s1 groups -> s_sends s1 !! 0%nat = Some false ->
  s_sent s' = s_sent s1 -> s_flows_exported s' = s_flows_exported s1 ->
  rest <> [] -> concat (flow_records <$> flows) = concat groups ++ rest ->
  exported_as flows (s_flows_exported s0) (s_sends s0) (-1) s' groups.
Proof.
  intros Hs0 [A1 A2 A3 A4 A5 A6] Hfalse Hs He Hne Hcat. unfold exported_as.
  rewrite Hs, He, A1, Hs0, A3. split; [done|]. split; [done|]. split; [done|]. split; [done|].
  right. split; [done|]. split; [|by exists rest].
  rewrite <- Hfalse, A4, lookup_drop. f_equal. lia.
Qed.

Lemma send_netflow_ok junk flows exported sends :
  u64 exported -> Forall (exportable m) flows ->
  exists r s groups,
    send_netflow MAXFLOWS new_hdr using_emulator record junk flows exported sends = Ret (r, s) /\
    exported_as flows exported sends r s groups.
Proof.
  intros He Hok. unfold send_netflow. set (s0 := Mk_sstate _ _ _ _ _ _ _).
  destruct (send_loop_ok flows s0 []) as (ok & s & groups & rest & -> & Hcat & Hr);
    [split; [done|by left]|done|]. cbn [app] in Hcat. cbn [obind].
  destruct ok; cbn [negb].
  2:{ destruct Hr as (Hne & s1 & Hg & Hf & Hs & Hx). exists (-1), s, groups. split; [done|].
      by apply (exported_as_failed flows s0 s1 s groups rest). }
  destruct Hr as (s1 & Hg & Hs1 & Hp). rewrite (pending_j _ _ Hp).
  assert (s_flows_exported s = s_flows_exported s1) as Hes by apply Hs1.
  destruct (decide (rest = [])) as [->|Hne].
  - change (Z.of_nat (length [])) with 0. cbn [Z.eqb negb obind].
    eexists _, _, groups. split; [reflexivity|]. destruct Hg as [A1 A2 A3 A4 A5 A6], Hs1 as [B1 B2 B3 B4].
    unfold exported_as. cbn [s_sent s_flows_exported]. rewrite B4, A1, B2, A3.
    split; [done|]. split; [rewrite (pending_j _ _ Hp), Z.add_0_r; apply wrap64_small, wrap64_u64|]. split; [done|]. split; [done|].
    left. rewrite B1, A2. split; [done|]. by rewrite Hcat, app_nil_r.
  - rewrite (proj2 (Z.eqb_neq _ 0)) by (destruct rest; [done|cbn [length]; lia]). cbn [negb].
    pose proof (pending_building _ _ Hp Hne) as Hb.
    destruct (send_packet_ok s (s_flows_exported s) rest Hb) as (ok & s2 & -> & Hj2 & Hn2 & He2 & Hr2).
    cbn [obind]. destruct ok; cbn [obind negb].
    + eexists _, _, (groups ++ [rest]). split; [reflexivity|].
      destruct Hr2 as (C1 & C2 & C3).
      assert (sent_groups s1 (Mk_sstate (s_packet s2) (s_offset s2) (s_j s2) (s_num_packets s2 + 1)
                (wrap64 (s_flows_exported s2 + s_j s2)) (s_sends s2) (s_sent s2)) [rest]) as Hlast.
      { destruct Hs1 as [B1 B2 B3 B4]. constructor; cbn.
        - by rewrite C3, B4, B2.
        - by rewrite Hn2, B1.
        - by rewrite He2, B2, Hj2, (pending_j _ _ Hp), app_nil_r.
        - by rewrite C1, B3.
        - by rewrite <- B3.
        - constructor; [|done]. split; [done|apply Hb]. }
      pose proof (sent_groups_app s0 s1 _ groups [rest] He Hg Hlast) as [A1 A2 A3 A4 A5 A6].
      unfold exported_as. split; [exact A1|]. split; [exact A3|]. split; [done|]. split; [done|].
      left. split; [exact A2|]. rewrite Hcat, concat_app. cbn [concat]. by rewrite app_nil_r.
    + exists (-1), s2, groups. split; [done|]. destruct Hr2 as [C1 C2], Hs1 as [B1 B2 B3 B4].
      apply (exported_as_failed flows s0 s1 s2 groups rest); try done; congruence.
Qed.

Lemma flow_records_valid flows :
  Forall (exportable m) flows -> Forall valid (concat (flow_records <$> flows)).
Proof.
  induction 1 as [|f flows [_ Hf] _ IH]; [by apply Forall_nil|]. cbn [fmap list_fmap concat].
  apply Forall_app. split; [|done]. unfold flow_records. destruct (_ =? _); [|by apply Forall_nil].
  assert (forall d, Forall valid (direction_records d f)) as Hd.
  { intros d. unfold direction_records. destruct (Hf d) as (u & -> & Hu).
    destruct u as [g|]; [|by apply Forall_nil]. apply Forall_singleton. by apply Hu. }
  apply Forall_app. by split.
Qed.

Lemma exported_as_valid flows exported sends r s groups :
  Forall (exportable m) flows -> exported_as flows exported sends r s groups ->
  Forall (Forall valid) groups.
Proof.
  intros Hf (_ & _ & _ & _ & Hend). apply flow_records_valid in Hf.
  assert (Forall valid (concat groups)) as Hv.
  { destruct Hend as [[_ E]|(_ & _ & rest & _ & E)]; [by rewrite E|]. rewrite <- E in Hf. by apply Forall_app in Hf as [? _]. }
  clear Hend. induction groups as [|g groups IH]; [by apply Forall_nil|]. cbn [concat] in Hv.
  apply Forall_app in Hv as [H5 H6]. apply Forall_cons. split; [done|by apply IH].
Qed.
End sender_laws.
