(* ===== verification/Send1.v ===== *)
(** * NetFlow 1 export (src/softflowd/netflow1.c)

    The packed structs of the packets, the record that send_netflow_v1 makes of
    one direction of a flow, and the function itself as an instance of the
    algorithm of SendFixed. *)

From S2P Require Import Prelude Packed Addr SoftTypes SendFixed.

(** ** Packets

    The members are naturally aligned and in network byte order, but for the
    count of flows while the packet is being filled. *)

Record NF1_HEADER := Mk_NF1_HEADER {
  sf1h_version : Z;
  sf1h_flows : Z;
  sf1h_uptime_ms : Z;
  sf1h_time_sec : Z;
  sf1h_time_nanosec : Z;
  sf1h_emulator_monitor_adr : Z
}.
#[export] Instance NF1_HEADER_packed : Packed NF1_HEADER := {|
  widths := [2; 2; 4; 4; 4; 4]%nat;
  to_ints r := [
    sf1h_version r; sf1h_flows r; sf1h_uptime_ms r; sf1h_time_sec r; sf1h_time_nanosec r;
    sf1h_emulator_monitor_adr r];
  of_ints l :=
    match l with
    | [x0; x1; x2; x3; x4; x5] =>
        Mk_NF1_HEADER x0 x1 x2 x3 x4 x5
    | _ => Mk_NF1_HEADER 0 0 0 0 0 0
    end
|}.
#[export] Instance NF1_HEADER_laws : PackedLaws NF1_HEADER.
Proof. packed_laws. Qed.

Record NF1_FLOW := Mk_NF1_FLOW {
  sf1_src_ip : Z;
  sf1_dest_ip : Z;
  sf1_nexthop_ip : Z;
  sf1_if_index_in : Z;
  sf1_if_index_out : Z;
  sf1_flow_packets : Z;
  sf1_flow_octets : Z;
  sf1_flow_start : Z;
  sf1_flow_finish : Z;
  sf1_src_port : Z;
  sf1_dest_port : Z;
  sf1_pad1 : Z;
  sf1_protocol : Z;
  sf1_tos : Z;
  sf1_tcp_flags : Z;
  sf1_pad2 : Z;
  sf1_pad3 : Z;
  sf1_pad4 : Z;
  sf1_reserved1 : Z;
  sf1_emulator_monitor_adr : Z;
  sf1_as_src : Z;
  sf1_as_dst : Z
}.
#[export] Instance NF1_FLOW_packed : Packed NF1_FLOW := {|
  widths := [4; 4; 4; 2; 2; 4; 4; 4; 4; 2; 2; 2; 1; 1; 1; 1; 1; 1; 4; 4; 2; 2]%nat;
  to_ints r := [
    sf1_src_ip r; sf1_dest_ip r; sf1_nexthop_ip r; sf1_if_index_in r; sf1_if_index_out r;
    sf1_flow_packets r; sf1_flow_octets r; sf1_flow_start r; sf1_flow_finish r; sf1_src_port
    r; sf1_dest_port r; sf1_pad1 r; sf1_protocol r; sf1_tos r; sf1_tcp_flags r; sf1_pad2 r;
    sf1_pad3 r; sf1_pad4 r; sf1_reserved1 r; sf1_emulator_monitor_adr r; sf1_as_src r;
    sf1_as_dst r];
  of_ints l :=
    match l with
    | [x0; x1; x2; x3; x4; x5; x6; x7; x8; x9; x10; x11; x12; x13; x14; x15; x16; x17; x18; x19; x20; x21] =>
        Mk_NF1_FLOW x0 x1 x2 x3 x4 x5 x6 x7 x8 x9 x10 x11 x12 x13 x14 x15 x16 x17 x18 x19 x20 x21
    | _ => Mk_NF1_FLOW 0 0 0 0 0 0 0 0 0 0 0 0 0 0 0 0 0 0 0 0 0 0
    end
|}.
#[export] Instance NF1_FLOW_laws : PackedLaws NF1_FLOW.
Proof. packed_laws. Qed.

#[export] Instance NF1_HEADER_format : FixedFormat NF1_HEADER := {|
  hdr_flows := sf1h_flows;
  set_hdr_flows v h := Mk_NF1_HEADER (sf1h_version h) v (sf1h_uptime_ms h) (sf1h_time_sec h) (sf1h_time_nanosec h) (sf1h_emulator_monitor_adr h);
  set_hdr_monitor v h := Mk_NF1_HEADER (sf1h_version h) (sf1h_flows h) (sf1h_uptime_ms h) (sf1h_time_sec h) (sf1h_time_nanosec h) v
|}.

#[export] Instance NF1_HEADER_format_laws : FixedFormatLaws NF1_HEADER.
Proof.
  constructor; try (by intros []); intros [] v Hh Hv; valid_members; unfold valid; cbn -[fits]; by valid_tac.
Qed.

Definition NF1_MAXFLOWS : Z := 24.

(** ** The record of a direction *)

Section nf1.
(** The last assignments to as_src and as_dst in the first direction convert the
    addresses of the arrays as_src and as_dst of the flow to 16 bits: [array_adr]
    is what they give. *)
Context (array_adr : FLOW -> Z * Z).

Definition nf1_fill (monitor : option Z) (system_boot_time : Z * Z) (ndx : bool) (f : FLOW)
    (flw : NF1_FLOW) : NF1_FLOW :=
  Mk_NF1_FLOW (v4_s_addr (at2 ndx (f_addr f))) (v4_s_addr (at2 (negb ndx) (f_addr f)))
    (sf1_nexthop_ip flw) (sf1_if_index_in flw) (sf1_if_index_out flw)
    (htonl (at2 ndx (f_packets f))) (htonl (at2 ndx (f_octets f)))
    (htonl (timeval_sub_ms (f_flow_start f) system_boot_time))
    (htonl (timeval_sub_ms (f_flow_last f) system_boot_time))
    (at2 ndx (f_port f)) (at2 (negb ndx) (f_port f)) (sf1_pad1 flw)
    (f_protocol f) (sf1_tos flw) (at2 ndx (f_tcp_flags f))
    (sf1_pad2 flw) (sf1_pad3 flw) (sf1_pad4 flw) (sf1_reserved1 flw)
    (match monitor with Some m => m | None => sf1_emulator_monitor_adr flw end)
    (if ndx then wrap16 (snd (f_as_src f)) else wrap16 (fst (array_adr f)))
    (if ndx then wrap16 (fst (f_as_dst f)) else wrap16 (snd (array_adr f))).

Definition nf1_record (using_emulator : bool) (inOut : Z) (system_boot_time : Z * Z) (ndx : bool)
    (f : FLOW) : outcome (option (NF1_FLOW -> NF1_FLOW)) :=
  if (0 <? at2 ndx (f_octets f)) && (inOut =? b2z ndx)
  then Ret (Some (nf1_fill (if using_emulator then Some (f_selected_monitor f) else None)
                    system_boot_time ndx f))
  else Ret None.

(** The header of a new packet. *)
Definition nf1_header (now system_boot_time : Z * Z) : NF1_HEADER :=
  Mk_NF1_HEADER (htons 1) 0 (htonl (timeval_sub_ms now system_boot_time)) (htonl (wrap32 (fst now)))
    (htonl (wrap32 (snd now * 1000))) 0.

Definition send_netflow_v1 (using_emulator : bool) (now : Z * Z) (junk : bytes) (flows : list FLOW)
    (flows_exported : Z) (system_boot_time : Z * Z) (inOut : Z) (sends : list bool)
    : outcome (Z * sstate) :=
  send_netflow NF1_MAXFLOWS (fun _ => nf1_header now system_boot_time) using_emulator
    (nf1_record using_emulator inOut system_boot_time) junk flows flows_exported sends.

(** ** What is sent *)

Section laws.
Context (using_emulator : bool) (inOut : Z) (now boot : Z * Z) (m : Z).
Context (Hm : u32 m) (Hmon : using_emulator = false -> m = 0).

(** A flow that is exported, in emulator mode by its monitor [m]. *)
Definition exportable1 (f : FLOW) : Prop := FLOW_ok f /\ (using_emulator = true -> f_selected_monitor f = m).

Lemma nf1_exportable f :
  exportable1 f -> exportable using_emulator (nf1_record using_emulator inOut boot) m f.
Proof.
  intros [[Ha Hp Hf Hpr _ _ _ _ _ _ _ Hsel _ _ _ _ _] Hmf]. split; [done|]. intros ndx. unfold nf1_record.
  destruct (_ && _); eexists; (split; [reflexivity|]); [|done]. intros g [= <-].
  unfold valid, nf1_fill. cbn -[fits htonl v4_s_addr wrap16].
  repeat (apply Forall2_cons; split);
    try first [apply htonl_u32 | apply fits_0 | apply v4_s_addr_fits; by apply both2_at
              | by apply (both2_at _ _ _ Hp) | by apply (both2_at _ _ _ Hf) | exact Hpr
              | destruct ndx; apply wrap16_u16]; [|by apply Forall2_nil].
  by destruct using_emulator; [|apply fits_0].
Qed.

Lemma nf1_header_ok : valid (nf1_header now boot) /\ hdr_flows (nf1_header now boot) = 0.
Proof.
  split; [|done]. unfold valid. cbn -[fits htonl htons wrap32].
  repeat (apply Forall2_cons; split); try first [apply htonl_u32 | apply htons_u16 | apply fits_0].
  by apply Forall2_nil.
Qed.

Lemma send_netflow_v1_ok junk flows exported sends :
  u64 exported -> Forall exportable1 flows ->
  exists r s groups,
    send_netflow_v1 using_emulator now junk flows exported boot inOut sends = Ret (r, s) /\
    exported_as NF1_MAXFLOWS (fun _ => nf1_header now boot) (nf1_record using_emulator inOut boot) m
      flows exported sends r s groups /\ Forall (Forall valid) groups.
Proof.
  intros He Hf. assert (Forall (exportable using_emulator (nf1_record using_emulator inOut boot) m) flows) as Hx
    by (eapply Forall_impl; [exact Hf|]; apply nf1_exportable).
  destruct (send_netflow_ok NF1_MAXFLOWS (fun _ => nf1_header now boot) using_emulator
      (nf1_record using_emulator inOut boot) ltac:(done) m Hm) with (junk := junk) (flows := flows)
      (exported := exported) (sends := sends) as (r & s & groups & E & Hs).
  { intros Hue h. rewrite Hmon by done. reflexivity. }
  { intros _. apply nf1_header_ok. }
  { done. }
  { done. }
  exists r, s, groups. split; [exact E|]. split; [exact Hs|]. by eapply exported_as_valid.
Qed.
End laws.

(** Without the emulator check_expired passes -1 for [inOut]: nothing is exported. *)
Lemma send_netflow_v1_no_emulator now junk flows exported boot sends :
  u64 exported -> Forall FLOW_ok flows ->
  exists sf, send_netflow_v1 false now junk flows exported boot (-1) sends = Ret (0, sf) /\ s_sent sf = [].
Proof.
  intros He Hf.
  destruct (send_netflow_v1_ok false (-1) now boot 0 ltac:(done) ltac:(done) junk flows exported sends)
    as (r & s & groups & E & (Hs & _ & Hg & _ & Hend) & _); [done| |].
  { eapply Forall_impl; [exact Hf|]. by split. }
  assert (concat (flow_records (nf1_record false (-1) boot) <$> flows) = []) as Hnone.
  { clear. induction flows as [|f flows IH]; [done|]. cbn [fmap list_fmap concat]. rewrite IH, app_nil_r.
    unfold flow_records, direction_records, nf1_record. change (-1 =? b2z false) with false.
    change (-1 =? b2z true) with false. rewrite !andb_false_r. by destruct (_ =? _). }
  rewrite Hnone in Hend. destruct Hend as [[-> Hend]|(_ & _ & rest & Hne & Hend)].
  2:{ by apply app_eq_nil in Hend as [_ ->]. }
  destruct groups as [|g groups]; [by exists s|].
  apply Forall_cons in Hg as [[Hne _] _]. by apply app_eq_nil in Hend as [-> _].
Qed.
End nf1.
