(* ===== verification/Send5.v ===== *)
(** * NetFlow 5 export (src/softflowd/netflow5.c)

    The packed structs of the packets, the record that send_netflow_v5 makes of
    one direction of a flow, and the function itself as an instance of the
    algorithm of SendFixed. *)

From S2P Require Import Prelude Packed Addr SoftTypes SendFixed.

(** ** Packets

    The members are naturally aligned and in network byte order, but for the
    count of flows while the packet is being filled. *)

Record NF5_HEADER := Mk_NF5_HEADER {
  sf5h_version : Z;
  sf5h_flows : Z;
  sf5h_uptime_ms : Z;
  sf5h_time_sec : Z;
  sf5h_time_nanosec : Z;
  sf5h_flow_sequence : Z;
  sf5h_engine_type : Z;
  sf5h_engine_id : Z;
  sf5h_reserved1 : Z;
  sf5h_reserved2 : Z;
  sf5h_emulator_monitor_adr : Z
}.
#[export] Instance NF5_HEADER_packed : Packed NF5_HEADER := {|
  widths := [2; 2; 4; 4; 4; 4; 1; 1; 1; 1; 4]%nat;
  to_ints r := [
    sf5h_version r; sf5h_flows r; sf5h_uptime_ms r; sf5h_time_sec r; sf5h_time_nanosec r;
    sf5h_flow_sequence r; sf5h_engine_type r; sf5h_engine_id r; sf5h_reserved1 r;
    sf5h_reserved2 r; sf5h_emulator_monitor_adr r];
  of_ints l :=
    match l with
    | [x0; x1; x2; x3; x4; x5; x6; x7; x8; x9; x10] =>
        Mk_NF5_HEADER x0 x1 x2 x3 x4 x5 x6 x7 x8 x9 x10
    | _ => Mk_NF5_HEADER 0 0 0 0 0 0 0 0 0 0 0
    end
|}.
#[export] Instance NF5_HEADER_laws : PackedLaws NF5_HEADER.
Proof. packed_laws. Qed.

Record NF5_FLOW := Mk_NF5_FLOW {
  sf5_src_ip : Z;
  sf5_dest_ip : Z;
  sf5_nexthop_ip : Z;
  sf5_if_index_in : Z;
  sf5_if_index_out : Z;
  sf5_flow_packets : Z;
  sf5_flow_octets : Z;
  sf5_flow_start : Z;
  sf5_flow_finish : Z;
  sf5_src_port : Z;
  sf5_dest_port : Z;
  sf5_pad1 : Z;
  sf5_tcp_flags : Z;
  sf5_protocol : Z;
  sf5_tos : Z;
  sf5_src_as : Z;
  sf5_dest_as : Z;
  sf5_src_mask : Z;
  sf5_dst_mask : Z;
  sf5_pad2 : Z;
  sf5_emulator_monitor_adr : Z
}.
#[export] Instance NF5_FLOW_packed : Packed NF5_FLOW := {|
  widths := [4; 4; 4; 2; 2; 4; 4; 4; 4; 2; 2; 1; 1; 1; 1; 4; 4; 1; 1; 2; 4]%nat;
  to_ints r := [
    sf5_src_ip r; sf5_dest_ip r; sf5_nexthop_ip r; sf5_if_index_in r; sf5_if_index_out r;
    sf5_flow_packets r; sf5_flow_octets r; sf5_flow_start r; sf5_flow_finish r; sf5_src_port
    r; sf5_dest_port r; sf5_pad1 r; sf5_tcp_flags r; sf5_protocol r; sf5_tos r; sf5_src_as r;
    sf5_dest_as r; sf5_src_mask r; sf5_dst_mask r; sf5_pad2 r; sf5_emulator_monitor_adr r];
  of_ints l :=
    match l with
    | [x0; x1; x2; x3; x4; x5; x6; x7; x8; x9; x10; x11; x12; x13; x14; x15; x16; x17; x18; x19; x20] =>
        Mk_NF5_FLOW x0 x1 x2 x3 x4 x5 x6 x7 x8 x9 x10 x11 x12 x13 x14 x15 x16 x17 x18 x19 x20
    | _ => Mk_NF5_FLOW 0 0 0 0 0 0 0 0 0 0 0 0 0 0 0 0 0 0 0 0 0
    end
|}.
#[export] Instance NF5_FLOW_laws : PackedLaws NF5_FLOW.
Proof. packed_laws. Qed.

#[export] Instance NF5_HEADER_format : FixedFormat NF5_HEADER := {|
  hdr_flows := sf5h_flows;
  set_hdr_flows v h := Mk_NF5_HEADER (sf5h_version h) v (sf5h_uptime_ms h) (sf5h_time_sec h) (sf5h_time_nanosec h) (sf5h_flow_sequence h) (sf5h_engine_type h) (sf5h_engine_id h) (sf5h_reserved1 h) (sf5h_reserved2 h) (sf5h_emulator_monitor_adr h);
  set_hdr_monitor v h := Mk_NF5_HEADER (sf5h_version h) (sf5h_flows h) (sf5h_uptime_ms h) (sf5h_time_sec h) (sf5h_time_nanosec h) (sf5h_flow_sequence h) (sf5h_engine_type h) (sf5h_engine_id h) (sf5h_reserved1 h) (sf5h_reserved2 h) v
|}.

Definition NF5_MAXFLOWS : Z := 30.

(** ** The record of a direction *)

(** The assignments to the members; [monitor] is the address written in emulator
    mode. *)
Definition nf5_fill (monitor : option Z) (system_boot_time : Z * Z) (ndx : bool) (f : FLOW)
    (packets octets : Z) (flw : NF5_FLOW) : NF5_FLOW :=
  Mk_NF5_FLOW (v4_s_addr (at2 ndx (f_addr f))) (v4_s_addr (at2 (negb ndx) (f_addr f)))
    (sf5_nexthop_ip flw) (sf5_if_index_in flw) (sf5_if_index_out flw)
    (htonl packets) (htonl octets)
    (htonl (timeval_sub_ms (f_flow_start f) system_boot_time))
    (htonl (timeval_sub_ms (f_flow_last f) system_boot_time))
    (at2 ndx (f_port f)) (at2 (negb ndx) (f_port f)) (sf5_pad1 flw)
    (at2 ndx (f_tcp_flags f)) (f_protocol f) (sf5_tos flw)
    (at2 ndx (f_as_src f)) (at2 (negb ndx) (f_as_dst f))
    (sf5_src_mask flw) (sf5_dst_mask flw) (sf5_pad2 flw)
    (match monitor with Some m => m | None => sf5_emulator_monitor_adr flw end).

(** Whether the direction is exported, and how; in emulator mode the counters are
    those of the selected monitor, and [inOut] chooses the direction. *)
Definition nf5_record (using_emulator : bool) (inOut : Z) (system_boot_time : Z * Z) (ndx : bool)
    (f : FLOW) : outcome (option (NF5_FLOW -> NF5_FLOW)) :=
  if negb using_emulator then
    if 0 <? at2 ndx (f_octets f)
    then Ret (Some (nf5_fill None system_boot_time ndx f (at2 ndx (f_packets f)) (at2 ndx (f_octets f))))
    else Ret None
  else
    match at2 ndx (f_monitor_stat f) !! Z.to_nat (f_selected_monitor_index f) with
    | None => Undef OutOfBounds
    | Some st =>
        if (0 <? ms_octets st) && (inOut =? b2z ndx)
        then Ret (Some (nf5_fill (Some (f_selected_monitor f)) system_boot_time ndx f
                          (ms_packets st) (ms_octets st)))
        else Ret None
    end.

(** The header of a new packet. *)
Definition nf5_header (now system_boot_time : Z * Z) (flows_exported : Z) : NF5_HEADER :=
  Mk_NF5_HEADER (htons 5) 0 (htonl (timeval_sub_ms now system_boot_time)) (htonl (wrap32 (fst now)))
    (htonl (wrap32 (snd now * 1000))) (htonl (wrap32 flows_exported)) 0 0 0 0 0.

Definition send_netflow_v5 (using_emulator : bool) (now : Z * Z) (junk : bytes) (flows : list FLOW)
    (flows_exported : Z) (system_boot_time : Z * Z) (inOut : Z) (sends : list bool)
    : outcome (Z * sstate) :=
  send_netflow NF5_MAXFLOWS (nf5_header now system_boot_time) using_emulator
    (nf5_record using_emulator inOut system_boot_time) junk flows flows_exported sends.

(** ** What is sent *)

#[export] Instance NF5_HEADER_format_laws : FixedFormatLaws NF5_HEADER.
Proof.
  constructor; try (by intros []); intros [] v Hh Hv; valid_members; unfold valid; cbn -[fits]; by valid_tac.
Qed.

(** The counters of a direction that are exported: octets and packets. *)
Definition counters (using_emulator : bool) (f : FLOW) (ndx : bool) : Z * Z :=
  if using_emulator then
    match at2 ndx (f_monitor_stat f) !! Z.to_nat (f_selected_monitor_index f) with
    | Some st => (ms_octets st, ms_packets st)
    | None => (0, 0)
    end
  else (at2 ndx (f_octets f), at2 ndx (f_packets f)).

(** The directions of a flow that are exported. *)
Definition is_exported (using_emulator : bool) (inOut : Z) (f : FLOW) (ndx : bool) : bool :=
  (0 <? fst (counters using_emulator f ndx)) && (negb using_emulator || (inOut =? b2z ndx)).
Definition directions (using_emulator : bool) (inOut : Z) (f : FLOW) : list (FLOW * bool) :=
  if f_af f =? AF_INET
  then pair f <$> base.filter (fun ndx => is_exported using_emulator inOut f ndx = true) [false; true]
  else [].

(** The record of a direction. *)
Definition nf5_of (monitor : Z) (using_emulator : bool) (boot : Z * Z) (x : FLOW * bool) : NF5_FLOW :=
  let '(f, ndx) := x in
  let '(octets, packets) := counters using_emulator f ndx in
  Mk_NF5_FLOW (v4_s_addr (at2 ndx (f_addr f))) (v4_s_addr (at2 (negb ndx) (f_addr f))) 0 0 0
    (htonl packets) (htonl octets)
    (htonl (timeval_sub_ms (f_flow_start f) boot)) (htonl (timeval_sub_ms (f_flow_last f) boot))
    (at2 ndx (f_port f)) (at2 (negb ndx) (f_port f)) 0 (at2 ndx (f_tcp_flags f)) (f_protocol f) 0
    (at2 ndx (f_as_src f)) (at2 (negb ndx) (f_as_dst f)) 0 0 0 monitor.

(** A flow as check_expired hands it over. *)
Record exportable5 (using_emulator : bool) (m : Z) (f : FLOW) : Prop := {
  e5_flow : FLOW_ok f;
  e5_monitor : using_emulator = true -> f_selected_monitor f = m /\ f_selected_monitor_index f < 50
}.

Lemma nf5_of_valid m ue boot x :
  FLOW_ok (fst x) -> u32 m -> valid (nf5_of m ue boot x).
Proof.
  destruct x as [f ndx]. cbn [fst]. intros [Ha Hp Hf Hpr _ _ _ _ _ _ _ _ _ _ Hs Hd _] Hm. unfold nf5_of.
  destruct (counters ue f ndx) as [o p]. unfold valid. cbn -[fits htonl v4_s_addr].
  repeat (apply Forall2_cons; split);
    try first [apply htonl_u32 | apply fits_0 | exact Hm | apply v4_s_addr_fits; by apply both2_at
              | by apply (both2_at _ _ _ Hp) | by apply (both2_at _ _ _ Hf) | exact Hpr
              | by apply (both2_at _ _ _ Hs) | by apply (both2_at _ _ _ Hd)].
  by apply Forall2_nil.
Qed.

Section laws.
Context (using_emulator : bool) (inOut : Z) (now boot : Z * Z) (m : Z).
Context (Hm : u32 m) (Hmon : using_emulator = false -> m = 0).

Lemma zero_record5 : (zero_record : NF5_FLOW) = Mk_NF5_FLOW 0 0 0 0 0 0 0 0 0 0 0 0 0 0 0 0 0 0 0 0 0.
Proof. reflexivity. Qed.

Lemma nf5_record_ok f ndx :
  exportable5 using_emulator m f ->
  exists u, nf5_record using_emulator inOut boot ndx f = Ret u /\
    match u with
    | Some g => is_exported using_emulator inOut f ndx = true /\
        g zero_record = nf5_of m using_emulator boot (f, ndx)
    | None => is_exported using_emulator inOut f ndx = false
    end.
Proof.
  intros [Hf He]. unfold nf5_record, is_exported, nf5_of, counters. rewrite zero_record5.
  destruct using_emulator; cbn [negb orb].
  - destruct He as [<- Hi]; [done|]. pose proof (both2_at _ _ ndx (fo_stats _ Hf)) as [Hl _].
    pose proof (fo_index _ Hf) as Hi0.
    destruct (lookup_lt_is_Some_2 (at2 ndx (f_monitor_stat f)) (Z.to_nat (f_selected_monitor_index f)))
      as [st ->]; [width; lia|].
    cbn [fst]. destruct ((0 <? ms_octets st) && (inOut =? b2z ndx)) eqn:E; eexists; (split; [reflexivity|]); done.
  - rewrite Hmon by done. cbn [fst]. rewrite andb_true_r.
    destruct (0 <? at2 ndx (f_octets f)) eqn:E; eexists; (split; [reflexivity|]); done.
Qed.

Lemma nf5_exportable f :
  exportable5 using_emulator m f ->
  exportable using_emulator (nf5_record using_emulator inOut boot) m f.
Proof.
  intros He. split; [intros; by apply (e5_monitor _ _ _ He)|]. intros ndx.
  destruct (nf5_record_ok f ndx He) as (u & E & Hu). exists u. split; [exact E|].
  intros g ->. destruct Hu as [_ ->]. apply nf5_of_valid; [apply He|done].
Qed.

Lemma nf5_flow_records f :
  exportable5 using_emulator m f ->
  flow_records (nf5_record using_emulator inOut boot) f =
    nf5_of m using_emulator boot <$> directions using_emulator inOut f.
Proof.
  intros He. unfold flow_records, directions, direction_records.
  destruct (f_af f =? AF_INET); [|done].
  destruct (nf5_record_ok f false He) as (u & -> & Hu), (nf5_record_ok f true He) as (u' & -> & Hu').
  rewrite !filter_cons, filter_nil.
  destruct u as [g|]; [destruct Hu as [Hx Hu]|]; (destruct u' as [g'|]; [destruct Hu' as [Hx' Hu']|]);
    repeat case_decide; cbn [fmap list_fmap app]; congruence.
Qed.

Lemma nf5_records flows :
  Forall (exportable5 using_emulator m) flows ->
  concat (flow_records (nf5_record using_emulator inOut boot) <$> flows) =
    nf5_of m using_emulator boot <$> concat (directions using_emulator inOut <$> flows).
Proof.
  induction 1 as [|f flows Hf _ IH]; [done|]. cbn [fmap list_fmap concat].
  rewrite nf5_flow_records, fmap_app by done. by f_equal.
Qed.

(** The packets that carry [groups] of directions. *)
Definition nf5_packets (exported : Z) (groups : list (list (FLOW * bool))) : list (list Z) :=
  packets_of (nf5_header now boot) exported m ((fun g : list (FLOW * bool) => nf5_of m using_emulator boot <$> g) <$> groups).

(** How a run of send_netflow_v5 ends. *)
Definition sent_v5 (flows : list FLOW) (exported : Z) (sends : list bool) (r : Z) (s : sstate)
    (groups : list (list (FLOW * bool))) : Prop :=
  s_sent s = nf5_packets exported groups /\
  s_flows_exported s = wrap64 (exported + Z.of_nat (length (concat groups))) /\
  Forall (fun g => g <> [] /\ Z.of_nat (length g) <= NF5_MAXFLOWS) groups /\
  Forall (eq true) (take (length groups) sends) /\
  (r = Z.of_nat (length groups) /\ concat groups = concat (directions using_emulator inOut <$> flows) \/
   r = -1 /\ sends !! length groups = Some false /\
   exists rest, rest <> [] /\ concat groups ++ rest = concat (directions using_emulator inOut <$> flows)).

Lemma nf5_header_ok e : valid (nf5_header now boot e) /\ hdr_flows (nf5_header now boot e) = 0.
Proof.
  split; [|done]. unfold valid. cbn -[fits htonl htons wrap32].
  repeat (apply Forall2_cons; split); try first [apply htonl_u32 | apply htons_u16 | apply fits_0].
  by apply Forall2_nil.
Qed.

Lemma send_netflow_v5_ok junk flows exported sends :
  u64 exported -> Forall (exportable5 using_emulator m) flows ->
  exists r s groups,
    send_netflow_v5 using_emulator now junk flows exported boot inOut sends = Ret (r, s) /\
    sent_v5 flows exported sends r s groups.
Proof.
  intros He Hf. unfold send_netflow_v5.
  destruct (send_netflow_ok NF5_MAXFLOWS (nf5_header now boot) using_emulator
      (nf5_record using_emulator inOut boot) ltac:(done) m Hm) with (junk := junk) (flows := flows)
      (exported := exported) (sends := sends) as (r & s & groups & -> & Hs & Hx & Hg & Ht & Hr).
  { intros Hue h. rewrite Hmon by done. reflexivity. }
  { apply nf5_header_ok. }
  { done. }
  { eapply Forall_impl; [exact Hf|]. apply nf5_exportable. }
  rewrite nf5_records in Hr by done.
  assert (exists ls lrest, concat (directions using_emulator inOut <$> flows) = concat ls ++ lrest /\
            groups = (fun l : list (FLOW * bool) => nf5_of m using_emulator boot <$> l) <$> ls /\
            (r = Z.of_nat (length groups) /\ lrest = [] \/
             r = -1 /\ sends !! length groups = Some false /\ lrest <> []))
    as (ls & lrest & Hls & -> & Hr').
  { destruct Hr as [[-> Hc]|(-> & Hfalse & rest & Hne & Hc)].
    - destruct (regroup (nf5_of m using_emulator boot) groups (concat (directions using_emulator inOut <$> flows)) [])
        as (ls & lrest & E1 & E2 & E3); [by rewrite app_nil_r|].
      exists ls, lrest. split; [done|]. split; [done|]. left. split; [done|]. by destruct lrest.
    - destruct (regroup (nf5_of m using_emulator boot) groups (concat (directions using_emulator inOut <$> flows)) rest)
        as (ls & lrest & E1 & E2 & ->); [done|].
      exists ls, lrest. split; [done|]. split; [done|]. right. split; [done|]. split; [done|]. by destruct lrest. }
  exists r, s, ls. split; [done|]. rewrite length_fmap in *. split; [exact Hs|].
  split; [by rewrite Hx, length_concat_fmap|].
  split.
  { apply Forall_fmap in Hg. eapply Forall_impl; [exact Hg|]. intros g [Hne Hle]. cbn in *.
    rewrite length_fmap in Hle. split; [by destruct g|done]. }
  split; [done|]. rewrite Hls. destruct Hr' as [[-> ->]|(-> & Hfalse & Hne)].
  - left. by rewrite app_nil_r.
  - right. split; [done|]. split; [done|]. by exists lrest.
Qed.
End laws.

(** Send_netflow_v5 exports every direction of an IPv4 flow that carried
    octets (for the selected monitor and the chosen direction under the
    emulator), in order, in packets of at least one and at most 30 records that
    count them and number the first one.  The result is the number of packets; it
    is -1 exactly when a send failed, and then the packets sent before hold an
    initial part of the records.  The packet buffer is never left. *)
Theorem send_netflow_v5_spec using_emulator inOut now boot m junk flows exported sends :
  u32 m -> (using_emulator = false -> m = 0) -> u64 exported ->
  Forall (exportable5 using_emulator m) flows ->
  exists r s groups,
    send_netflow_v5 using_emulator now junk flows exported boot inOut sends = Ret (r, s) /\
    sent_v5 using_emulator inOut now boot m flows exported sends r s groups.
Proof. intros. by apply send_netflow_v5_ok. Qed.

(** ** An example *)

Lemma stats_none : length (replicate 50 (Mk_PER_MONITOR_STAT 0 0)) = 50%nat /\
  Forall stat_ok (replicate 50 (Mk_PER_MONITOR_STAT 0 0)).
Proof. split; [done|]. by apply Forall_replicate. Qed.

(** 10.0.0.1:80 to 10.0.0.2:1234, with traffic both ways. *)
Definition sample_FLOW : FLOW :=
  Mk_FLOW (Some 1%positive) AF_INET (0, 0) ([10; 0; 0; 1] ++ replicate 12 0, [10; 0; 0; 2] ++ replicate 12 0)
    (htons 80, htons 1234) (2, 18) 6 7 (1000, 500000) (1010, 250000) (5000, 700) (10, 5)
    (replicate 50 (Mk_PER_MONITOR_STAT 0 0), replicate 50 (Mk_PER_MONITOR_STAT 0 0))
    (replicate 50 0, replicate 50 0) 0 0 (0, 0) (3, 4) (4, 3).

Lemma sample_FLOW_ok : FLOW_ok sample_FLOW.
Proof.
  constructor; unfold both2, timeval_ok; cbn [fst snd sample_FLOW f_addr f_port f_tcp_flags f_protocol f_flow_seq
    f_flow_start f_flow_last f_octets f_packets f_monitor_stat f_emulator_monitor_adr f_selected_monitor
    f_selected_monitor_index f_number_of_monitors f_as_src f_as_dst f_ip6_flowlabel];
    try (split; apply stats_none); apply (bool_decide_unpack _); vm_compute; exact I.
Qed.

Lemma sample_FLOW_exportable : exportable5 false 0 sample_FLOW.
Proof. split; [apply sample_FLOW_ok|done]. Qed.

Lemma send_netflow_v5_spec_witness :
  exists r s groups,
    send_netflow_v5 false (1020, 0) [] (replicate 20 sample_FLOW) 5 (900, 0) (-1) [] = Ret (r, s) /\
    sent_v5 false (-1) (1020, 0) (900, 0) 0 (replicate 20 sample_FLOW) 5 [] r s groups.
Proof.
  apply (send_netflow_v5_spec false (-1) (1020, 0) (900, 0) 0 [] (replicate 20 sample_FLOW) 5 []).
  - done.
  - done.
  - done.
  - apply Forall_replicate, sample_FLOW_exportable.
Defined.

(** Forty records in two packets. *)
Example sample_packets :
  match send_netflow_v5 false (1020, 0) [] (replicate 20 sample_FLOW) 5 (900, 0) (-1) [] with
  | Ret (r, s) => r = 2 /\ length <$> s_sent s = [1708; 588]%nat /\ s_flows_exported s = 45
  | _ => False
  end.
Proof. vm_compute. done. Qed.
