(* ===== verification/Export.v ===== *)
(** * From softflowd to flowd

    What the collector makes of the packets that the senders of softflowd emit:
    every NetFlow 5 packet is accepted and its flows are logged with the
    addresses, ports, counters and times of the exported directions; a NetFlow 1
    packet of softflowd never has the length that the collector expects. *)

From stdpp Require Import gmap.
From S2P Require Import Prelude Packed Addr SoftTypes SendFixed Send1.
From S2P Require Import Send5.
From S2P Require Import StoreTypes Store StoreProps StoreSwab StoreFile.
From S2P Require Import Filter Peer Netflow Flowd FlowdProps Nf9Props.
From S2P Require Import FlowdLoop.

(** ** Packets of one layout in two programs *)

(** The struct of the one program as that of the other. *)
Definition recast {A B} `{Packed A} `{Packed B} (a : A) : B := of_ints (to_ints a).

Lemma decode_recast {A B} `{PackedLaws A} `{PackedLaws B} (a : A) rest :
  widths A = widths B -> valid a -> decode (encode a ++ rest) = (recast a : B).
Proof.
  intros Hw Ha. unfold decode, encode, recast. rewrite <- Hw. by rewrite dec_enc_ints.
Qed.

Lemma concat_drop {R} `{PackedLaws R} (recs : list R) i r :
  Forall valid recs -> recs !! i = Some r ->
  exists rest, drop (i * Z.to_nat (sizeof R)) (concat (encode <$> recs)) = encode r ++ rest.
Proof.
  intros Hv. revert i. induction Hv as [|r0 recs Hr _ IH]; intros i Hi; [done|].
  cbn [fmap list_fmap concat]. destruct i as [|i].
  - apply (inj Some) in Hi as ->. by eexists.
  - destruct (IH i Hi) as [rest E]. exists rest. rewrite <- E.
    assert (length (encode r0) = Z.to_nat (sizeof R)) as Hl by (rewrite <- (length_encode r0 Hr); lia).
    cbn [Nat.mul]. by rewrite <- drop_drop, <- Hl, drop_app_length.
Qed.

(** The flows that the collector sees in a packet of records of the same layout. *)
Lemma packet_flows_recast {H F R} `{PackedLaws H} `{PackedLaws F} `{PackedLaws R}
    (h : H) (recs : list R) (to_flow : F -> store_flow_complete) size :
  widths R = widths F -> valid h -> Forall valid recs ->
  (forall i, size i = sizeof H + i * sizeof R) ->
  packet_flows size to_flow (encode h ++ concat (encode <$> recs)) (Z.of_nat (length recs)) =
    (fun r => to_flow (recast r)) <$> recs.
Proof.
  intros Hw Hh Hrecs Hsize. unfold packet_flows. apply list_eq. intros i.
  rewrite !list_lookup_fmap. destruct (decide (i < length recs)%nat) as [Hi|Hi].
  - rewrite lookup_seqZ_lt by lia. cbn [fmap option_fmap option_map].
    destruct (lookup_lt_is_Some_2 recs i Hi) as [r Hr]. rewrite Hr. cbn. f_equal. f_equal.
    unfold nth_record. rewrite Hsize, decode_take.
    replace (Z.to_nat (sizeof H + (0 + Z.of_nat i) * sizeof R))
      with (length (encode h) + i * Z.to_nat (sizeof R))%nat.
    2:{ pose proof (length_encode h Hh). unfold sizeof in *. nia. }
    rewrite <- drop_drop, drop_app_length.
    destruct (concat_drop recs i r Hrecs Hr) as [rest ->].
    apply decode_recast; [done|]. by apply (proj1 (Forall_lookup _ _) Hrecs i).
  - rewrite lookup_seqZ_ge, (lookup_ge_None_2 recs) by lia. done.
Qed.

(** ** NetFlow 5 *)

(** A record of the log reports a direction of a flow, received from [src]. *)
Definition reports (src : xaddr) (using_emulator : bool) (boot : Z * Z) (x : FLOW * bool)
    (g : store_flow_complete) : Prop :=
  let '(f, ndx) := x in
  fl_agent_addr g = src /\
  fl_src_addr g = inet_addr (v4_s_addr (at2 ndx (f_addr f))) /\
  fl_dst_addr g = inet_addr (v4_s_addr (at2 (negb ndx) (f_addr f))) /\
  src_port (fl_ports g) = at2 ndx (f_port f) /\ dst_port (fl_ports g) = at2 (negb ndx) (f_port f) /\
  protocol (fl_pft g) = f_protocol f /\ tcp_flags (fl_pft g) = at2 ndx (f_tcp_flags f) /\
  store_ntohll (flow_octets (fl_octets g)) = fst (counters using_emulator f ndx) /\
  store_ntohll (flow_packets (fl_packets g)) = snd (counters using_emulator f ndx) /\
  ntohl (flow_start (fl_ftimes g)) = timeval_sub_ms (f_flow_start f) boot /\
  ntohl (flow_finish (fl_ftimes g)) = timeval_sub_ms (f_flow_last f) boot /\
  src_as (fl_asinf g) = at2 ndx (f_as_src f) /\ dst_as (fl_asinf g) = at2 (negb ndx) (f_as_dst f).

Lemma counters_u32 ue m f ndx :
  exportable5 ue m f -> u32 (fst (counters ue f ndx)) /\ u32 (snd (counters ue f ndx)).
Proof.
  intros [Hf _]. unfold counters. destruct ue.
  - destruct (at2 ndx (f_monitor_stat f) !! _) as [st|] eqn:E; [|done].
    destruct (both2_at _ _ ndx (fo_stats _ Hf)) as [_ Hst].
    apply (proj1 (Forall_lookup _ _) Hst _ _ E).
  - split; [apply (both2_at _ _ ndx (fo_octets _ Hf))|apply (both2_at _ _ ndx (fo_packets _ Hf))].
Qed.

Lemma NTO64_htonl v : u32 v -> store_ntohll (NTO64 (htonl v)) = v.
Proof. intros Hv. unfold NTO64. rewrite ntohl_htonl by done. apply store_htonll_involutive. by apply u32_u64. Qed.

Lemma nf5_reports fp h m ue boot x :
  exportable5 ue m (fst x) ->
  reports (fp_flow_source fp) ue boot x (nf5_to_flow fp h (recast (nf5_of m ue boot x))).
Proof.
  destruct x as [f ndx]. cbn [fst]. intros Hf. pose proof (counters_u32 ue m f ndx Hf) as [Ho Hp].
  unfold nf5_of, reports. destruct (counters ue f ndx) as [o p]. cbn [fst snd] in *.
  unfold nf5_to_flow, recast.
  cbn -[store_ntohll NTO64 htonl ntohl timeval_sub_ms v4_s_addr inet_addr].
  rewrite !NTO64_htonl, !ntohl_htonl by (done || apply timeval_sub_ms_u32). by split_and!.
Qed.

Section nf5.
Context (ue : bool) (now boot : Z * Z) (m : Z) (Hm : u32 m).

(** The header that the collector reads in a packet of [n] records. *)
Definition nf5_sent_header (exported : Z) (n : nat) : Netflow.NF5_HEADER :=
  recast (set_hdr_flows (htons (Z.of_nat n)) (set_hdr_monitor m (nf5_header now boot exported))).

Lemma nf5_header_valid exported n :
  valid (set_hdr_flows (htons n) (set_hdr_monitor m (nf5_header now boot exported))).
Proof.
  apply (hdr_flows_valid (H := Send5.NF5_HEADER)); [|apply htons_u16].
  apply (hdr_monitor_valid (H := Send5.NF5_HEADER)); [|done]. by apply nf5_header_ok.
Qed.

Lemma monitor_of_decode (p : bytes) : monitor_of p 5 = nf5h_emulator_monitor_adr (decode p).
Proof. unfold monitor_of. cbn. by rewrite !drop_drop. Qed.

Lemma nf5_packet_ok exported (g : list (FLOW * bool)) fp tv_usec :
  Forall (fun x => exportable5 ue m (fst x)) g -> g <> [] -> Z.of_nat (length g) <= 30 ->
  fp_packet fp = packet_of (nf5_header now boot) exported m (nf5_of m ue boot <$> g) ->
  fp_version fp = 5 /\ Forall u8 (fp_packet fp) /\ (28 <= length (fp_packet fp) <= 1708)%nat /\
  monitor_of (fp_packet fp) 5 = m /\
  Forall2 (reports (fp_flow_source fp) ue boot) g (expected tv_usec fp).
Proof.
  intros Hg Hne Hmax Hp. unfold packet_of in Hp. rewrite length_fmap in Hp.
  set (recs := nf5_of m ue boot <$> g) in *.
  pose proof (nf5_header_valid exported (Z.of_nat (length g))) as Hh.
  set (h := set_hdr_flows _ _) in *.
  assert (Forall valid recs) as Hrecs.
  { apply Forall_fmap. eapply Forall_impl; [exact Hg|]. intros x [Hx _]. by apply nf5_of_valid. }
  assert (length recs = length g) as Hlr by apply length_fmap.
  assert (decode (fp_packet fp) = nf5_sent_header exported (length g)) as Hd
    by (rewrite Hp; by apply decode_recast).
  assert (Z.of_nat (length (fp_packet fp)) = 28 + 56 * Z.of_nat (length g)) as Hlen.
  { rewrite Hp, length_app, Nat2Z.inj_add, records_length, length_encode, Hlr by done.
    change (sizeof Send5.NF5_HEADER) with 28. change (sizeof Send5.NF5_FLOW) with 56. lia. }
  assert (1 <= Z.of_nat (length g)) as Hpos by (destruct g; [done|cbn [length]; lia]).
  assert (fp_version fp = 5) as Hv.
  { change (fp_version fp) with (ntohs (nf5h_version (decode (fp_packet fp)))). by rewrite Hd. }
  split; [done|]. split.
  { rewrite Hp. apply Forall_app. split; [apply encode_u8|]. apply Forall_concat, Forall_fmap, Forall_forall.
    intros r _. apply encode_u8. }
  split; [lia|]. split.
  { rewrite monitor_of_decode, Hd. reflexivity. }
  assert (ntohs (nf5h_flows (decode (fp_packet fp))) = Z.of_nat (length g)) as Hn.
  { rewrite Hd. apply ntohs_htons. width. lia. }
  unfold expected. rewrite Hv. change (5 =? 1) with false. change (5 =? 5) with true. cbv iota.
  unfold flows_of. rewrite Hn. unfold well_formed, fp_len. rewrite Hlen.
  change (sizeof NF5_HEADER) with 28. change NF5_MAXFLOWS with 30.
  change (NF5_PACKET_SIZE (Z.of_nat (length g))) with (28 + Z.of_nat (length g) * 56).
  rewrite (proj2 (Z.leb_le _ _)), (proj2 (Z.eqb_neq _ 0)), (proj2 (Z.ltb_ge _ _)) by lia.
  rewrite (proj2 (Z.eqb_eq _ _)) by lia. cbn [negb orb andb].
  rewrite Hp, <- Hlr, (packet_flows_recast h recs) by done. unfold recs. rewrite <- list_fmap_compose.
  apply Forall2_fmap_r, Forall_Forall2_diag. eapply Forall_impl; [exact Hg|].
  intros x Hx. by apply nf5_reports.
Qed.
End nf5.

(** All the packets of a run. *)
Lemma nf5_packets_ok ue now boot m tv_usec fps : forall exported groups,
  u32 m -> Forall (fun g => g <> [] /\ Z.of_nat (length g) <= 30) groups ->
  Forall (fun x => exportable5 ue m (fst x)) (concat groups) ->
  fp_packet <$> fps = nf5_packets ue now boot m exported groups ->
  Forall (fun fp => fp_version fp = 5 /\ Forall u8 (fp_packet fp) /\
    (28 <= length (fp_packet fp) <= 1708)%nat /\ monitor_of (fp_packet fp) 5 = m) fps /\
  Forall2 (fun fp g => Forall2 (reports (fp_flow_source fp) ue boot) g (expected tv_usec fp)) fps groups.
Proof.
  induction fps as [|fp fps IH]; intros exported [|g groups] Hm Hg Hx Hp; try done.
  apply Forall_cons in Hg as [[Hne Hle] Hg]. cbn [concat] in Hx. apply Forall_app in Hx as [Hxg Hx].
  unfold nf5_packets in Hp. cbn [fmap list_fmap packets_of] in Hp.
  injection Hp as Hpk Hp. rewrite length_fmap in Hp.
  destruct (nf5_packet_ok ue now boot m Hm exported g fp tv_usec Hxg Hne Hle Hpk) as (H1 & H2 & H3 & H4 & H5).
  destruct (IH _ groups Hm Hg Hx Hp) as [H6 H7].
  by split; constructor.
Qed.

Lemma directions_flows ue inOut m flows :
  Forall (exportable5 ue m) flows ->
  Forall (fun x => exportable5 ue m (fst x)) (concat (directions ue inOut <$> flows)).
Proof.
  induction 1 as [|f flows Hf _ IH]; [by apply Forall_nil|]. cbn [fmap list_fmap concat].
  apply Forall_app. split; [|done]. unfold directions. destruct (_ =? _); [|by apply Forall_nil].
  apply Forall_fmap, Forall_forall. by intros x _.
Qed.

Lemma handled_reports ue boot src tv_usec ps T T' p fps groups fss :
  find_peer ps src = Some p -> Forall (fun fp => fp_flow_source fp = src) fps ->
  Forall (fun fp => fp_version fp = 5) fps ->
  Forall2 (fun fp g => Forall2 (reports (fp_flow_source fp) ue boot) g (expected tv_usec fp)) fps groups ->
  handled_all tv_usec ps T fps fss T' ->
  Forall2 (reports src ue boot) (concat groups) (concat fss).
Proof.
  intros Hf Hsrc Hv Hg. revert fss T. induction Hg as [|fp g fps groups Hg _ IH]; intros fss T Hh;
    inversion Hh as [|? T1 ? ? ? fs fss' Hfs Hh']; subst; [constructor|].
  apply Forall_cons in Hsrc as [E Hsrc]. apply Forall_cons in Hv as [Hv1 Hv].
  cbn [concat]. apply Forall2_app; [|by apply (IH Hsrc Hv fss' T1)]. unfold handled in Hfs. rewrite E, Hf, Hv1 in Hfs.
  cbn [Z.eqb] in Hfs. destruct Hfs as [-> _]. by rewrite <- E.
Qed.

Lemma nf5_export_import_ok env ue inOut now boot m junk flows exported sends r sf s src p tv_usec :
  u32 m -> (ue = false -> m = 0) -> u64 exported -> Forall (exportable5 ue m) flows ->
  send_netflow_v5 ue now junk flows exported boot inOut sends = Ret (r, sf) -> r <> -1 ->
  malloc_ok env -> mask_ok (fe_store_mask env) -> inet_ok src -> find_peer (fs_peers s) src = Some p ->
  fp_packet <$> fs_input s = s_sent sf -> Forall (fun fp => fp_flow_source fp = src) (fs_input s) ->
  collector_ok (queue_cost (fs_input s)) s ->
  exists s' logs, process_input_queue env 1708 tv_usec s = Ret s' /\ fs_input s' = [] /\
    logged env (set_fs_input [] s) s' logs /\
    Forall2 (reports src ue boot) (concat (directions ue inOut <$> flows)) logs /\
    forall from fromlen, Forall (fun p => source_of_packet p 5 from fromlen =
      addr_sa_to_xaddr (if 0 <? m then sockaddr_in 0 m else from) fromlen) (s_sent sf).
Proof.
  intros Hm Hmon He Hf Hsend Hr Hmalloc Hmask Hsrc Hpeer Hq Hqs Hco.
  destruct (send_netflow_v5_ok ue inOut now boot m Hm Hmon junk flows exported sends He Hf)
    as (r' & sf' & groups & E & Hs & _ & Hg & _ & Hend).
  rewrite E in Hsend. apply Ret_inj in Hsend. injection Hsend as -> ->.
  destruct Hend as [[_ Hend]|[? _]]; [|done].
  rewrite Hs in Hq. pose proof (directions_flows ue inOut m flows Hf) as Hdir. rewrite <- Hend in Hdir.
  destruct (nf5_packets_ok ue now boot m tv_usec (fs_input s) exported groups Hm Hg Hdir Hq) as [Hpk Hrep].
  destruct (input_loop_ok env 1708 tv_usec (fs_input s) (S (length (fs_input s))) s 0)
    as (s' & fss & E' & _ & Hi & Hl & Hh & _); [done|done|done| | |lia|by rewrite Nat.add_0_r|].
  - apply Forall_forall. intros fp Hfp. rewrite Forall_forall in Hpk, Hqs.
    destruct (Hpk fp Hfp) as (H1 & H2 & H3 & _). constructor; [by rewrite (Hqs fp Hfp)|done|lia|].
    intros H9. rewrite H1 in H9. done.
  - eapply Forall_impl; [exact Hpk|]. cbn. intros fp (_ & _ & H3 & _). lia.
  - exists s', (concat fss). split; [exact E'|]. split; [done|]. split; [done|]. split.
    + rewrite <- Hend. eapply handled_reports; [done|done| |done|done].
      eapply Forall_impl; [exact Hpk|]. by intros fp (H1 & _).
    + intros from fromlen. rewrite Hs, <- Hq. apply Forall_fmap. eapply Forall_impl; [exact Hpk|].
      intros fp (_ & _ & _ & H4). unfold compose, source_of_packet. by rewrite H4.
Qed.

(** C21: flows exported by send_netflow_v5 reach the log.  When the packets of a
    run whose sends succeed are in the input queue of a collector that knows
    their source, process_input_queue logs one flow for each exported direction,
    in order, with its addresses, ports, protocol, flags, counters and times; and
    reception attributes each packet to the selected monitor, if there is one. *)
Theorem nf5_export_import env ue inOut now boot m junk flows exported sends r sf s src p tv_usec :
  u32 m -> (ue = false -> m = 0) -> u64 exported -> Forall (exportable5 ue m) flows ->
  send_netflow_v5 ue now junk flows exported boot inOut sends = Ret (r, sf) -> r <> -1 ->
  malloc_ok env -> mask_ok (fe_store_mask env) -> inet_ok src -> find_peer (fs_peers s) src = Some p ->
  fp_packet <$> fs_input s = s_sent sf -> Forall (fun fp => fp_flow_source fp = src) (fs_input s) ->
  collector_ok (queue_cost (fs_input s)) s ->
  exists s' logs, process_input_queue env 1708 tv_usec s = Ret s' /\ fs_input s' = [] /\
    logged env (set_fs_input [] s) s' logs /\
    Forall2 (reports src ue boot) (concat (directions ue inOut <$> flows)) logs /\
    forall from fromlen, Forall (fun p => source_of_packet p 5 from fromlen =
      addr_sa_to_xaddr (if 0 <? m then sockaddr_in 0 m else from) fromlen) (s_sent sf).
Proof. apply nf5_export_import_ok. Qed.

(** ** NetFlow 1 *)

Lemma nf1_packets_ok now boot m tv_usec fps : forall exported groups,
  u32 m -> Forall (fun g : list Send1.NF1_FLOW => g <> [] /\ Z.of_nat (length g) <= 24) groups ->
  Forall (Forall valid) groups ->
  fp_packet <$> fps = packets_of (fun _ => nf1_header now boot) exported m groups ->
  Forall (fun fp => fp_version fp = 1 /\ expected tv_usec fp = []) fps.
Proof.
  induction fps as [|fp fps IH]; intros exported [|g groups] Hm Hg Hv Hp; try done.
  apply Forall_cons in Hg as [[Hne Hle] Hg]. apply Forall_cons in Hv as [Hvg Hv].
  cbn [fmap list_fmap packets_of] in Hp. injection Hp as Hpk Hp.
  apply Forall_cons. split; [|by apply (IH _ groups Hm Hg Hv Hp)]. unfold packet_of in Hpk.
  set (h := set_hdr_flows _ _) in *.
  assert (valid h) as Hh.
  { apply (hdr_flows_valid (H := Send1.NF1_HEADER)); [|apply htons_u16].
    apply (hdr_monitor_valid (H := Send1.NF1_HEADER)); [|done]. by apply nf1_header_ok. }
  assert (decode (fp_packet fp) = (recast h : Netflow.NF1_HEADER)) as Hd
    by (rewrite Hpk; by apply decode_recast).
  assert (fp_version fp = 1) as Hver.
  { change (fp_version fp) with (ntohs (nf1h_version (decode (fp_packet fp)))). by rewrite Hd. }
  split; [done|]. unfold expected. rewrite Hver. change (1 =? 1) with true. cbv iota. unfold flows_of.
  assert (ntohs (nf1h_flows (decode (fp_packet fp))) = Z.of_nat (length g)) as ->.
  { rewrite Hd. apply ntohs_htons. width. lia. }
  assert (fp_len fp = 20 + 56 * Z.of_nat (length g)) as Hlen.
  { unfold fp_len. rewrite Hpk, length_app, Nat2Z.inj_add, records_length, length_encode by done.
    change (sizeof Send1.NF1_HEADER) with 20. change (sizeof Send1.NF1_FLOW) with 56. lia. }
  assert (1 <= Z.of_nat (length g)) as Hpos by (destruct g; [done|cbn [length]; lia]).
  unfold well_formed. rewrite Hlen.
  change (NF1_PACKET_SIZE (Z.of_nat (length g))) with (20 + Z.of_nat (length g) * 52).
  rewrite (proj2 (Z.eqb_neq (20 + _) _)) by lia. by rewrite andb_false_r.
Qed.

(** The collector takes no flow from a NetFlow 1 packet with these bytes. *)
Definition refused (p : list Z) : Prop :=
  forall tv_usec fp, fp_packet fp = p -> fp_version fp = 1 /\ expected tv_usec fp = [].

(** The collector refuses every NetFlow 1 packet of softflowd, whose records
    are four bytes longer than its own; and without the emulator, where
    check_expired passes no direction, send_netflow_v1 sends nothing at all. *)
Theorem nf1_export_rejected :
  (forall array_adr ue inOut now boot m junk flows exported sends r sf,
    u32 m -> (ue = false -> m = 0) -> u64 exported ->
    Forall (fun f => FLOW_ok f /\ (ue = true -> f_selected_monitor f = m)) flows ->
    send_netflow_v1 array_adr ue now junk flows exported boot inOut sends = Ret (r, sf) ->
    Forall refused (s_sent sf)) /\
  (forall array_adr now boot junk flows exported sends,
    u64 exported -> Forall FLOW_ok flows ->
    exists sf, send_netflow_v1 array_adr false now junk flows exported boot (-1) sends = Ret (0, sf) /\
      s_sent sf = []).
Proof.
  split; [|intros; by apply send_netflow_v1_no_emulator].
  intros array_adr ue inOut now boot m junk flows exported sends r sf Hm Hmon He Hf Hsend.
  destruct (send_netflow_v1_ok array_adr ue inOut now boot m Hm Hmon junk flows exported sends He Hf)
    as (r' & sf' & groups & E & (Hs & _ & Hg & _) & Hv).
  rewrite E in Hsend. apply Ret_inj in Hsend. injection Hsend as -> ->.
  apply Forall_lookup. intros i p Hi tv_usec fp Hfp.
  pose proof (nf1_packets_ok now boot m tv_usec (Mk_flow_packet (fp_recv_time fp) (fp_flow_source fp) <$> s_sent sf)
    exported groups Hm Hg Hv) as Hall.
  assert (forall (mk : list Z -> flow_packet) (l : list (list Z)), (forall b, fp_packet (mk b) = b) -> fp_packet <$> (mk <$> l) = l)
    as Hid by (intros mk l Hmk; induction l as [|b l IH]; cbn; [done|by rewrite IH, Hmk]).
  rewrite Hid in Hall by done. specialize (Hall Hs).
  rewrite Forall_fmap in Hall. pose proof (proj1 (Forall_lookup _ _) Hall i p Hi) as Hp. subst p.
  unfold compose in Hp. by destruct fp.
Qed.

(** ** Examples *)

Definition sample_run : sstate :=
  match send_netflow_v5 false (1020, 0) [] [sample_FLOW] 5 (900, 0) (-1) [] with
  | Ret (_, s) => s
  | _ => Mk_sstate [] 0 0 0 0 [] []
  end.
Definition sample_sent : list (list Z) := s_sent sample_run.

Lemma nf5_export_import_witness :
  let s := set_fs_input (sample_fp <$> sample_sent) (sample_state 400) in
  exists s' logs, process_input_queue sample_env 1708 0 s = Ret s' /\
    Forall2 (reports (ip4 10 0 0 1) false (900, 0)) [(sample_FLOW, false); (sample_FLOW, true)] logs.
Proof.
  cbv zeta. set (s := set_fs_input (sample_fp <$> sample_sent) (sample_state 400)).
  destruct (nf5_export_import sample_env false (-1) (1020, 0) (900, 0) 0 [] [sample_FLOW] 5 [] 1 sample_run)
    with (s := s) (tv_usec := 0) (src := ip4 10 0 0 1) (p := 1%positive) as (s' & logs & E & _ & _ & H & _).
  - done.
  - done.
  - done.
  - apply Forall_singleton, sample_FLOW_exportable.
  - vm_compute. reflexivity.
  - done.
  - done.
  - apply mask_ok_all.
  - inet4.
  - vm_compute. reflexivity.
  - vm_compute. reflexivity.
  - unfold s. cbn [set_fs_input fs_input]. by apply Forall_fmap, Forall_forall.
  - apply (collector_ok_le 400); [|apply sample_collector_ok]. apply Nat.leb_le. vm_compute. reflexivity.
  - exists s', logs. split; [exact E|exact H].
Defined.

Lemma nf1_export_rejected_witness :
  exists sf, send_netflow_v1 (fun _ => (0, 0)) false (1020, 0) [] [sample_FLOW] 5 (900, 0) (-1) [] = Ret (0, sf) /\
    s_sent sf = [].
Proof.
  apply (proj2 nf1_export_rejected (fun _ => (0, 0)) (1020, 0) (900, 0) [] [sample_FLOW] 5 []).
  - done.
  - apply Forall_singleton, sample_FLOW_ok.
Defined.
