(* ===== verification/Ipflow.v ===== *)
(** * From packets to flows (src/softflowd/softflowd.c)

    transport_to_flowrec, ipv4_to_flowrec, ipv6_to_flowrec and datalink_check read
    a captured packet, of which [pkt] holds the captured bytes, and fill the
    identity and the counters of a flow.  A read outside the captured bytes is
    undefined. *)

From S2P Require Import Prelude Packed Order Addr SoftTypes.

Definition IPPROTO_HOPOPTS : Z := 0.
Definition IPPROTO_ICMP : Z := 1.
Definition IPPROTO_TCP : Z := 6.
Definition IPPROTO_UDP : Z := 17.
Definition IPPROTO_ROUTING : Z := 43.
Definition IPPROTO_FRAGMENT : Z := 44.
Definition IPPROTO_ICMPV6 : Z := 58.
Definition IPPROTO_DSTOPTS : Z := 60.
Definition TH_FIN : Z := 1.
Definition TH_RST : Z := 4.
Definition IP_OFFMASK : Z := 0x1fff.
Definition IP_MF : Z := 0x2000.
Definition IPV6_VERSION : Z := 0x60.
Definition IPV6_VERSION_MASK : Z := 0xf0.
Definition IPV6_FLOWLABEL_MASK : Z := ntohl 0x000fffff.
Definition IP6F_OFF_MASK : Z := 0xf8ff.     (* little-endian host *)

(** ** Transport headers *)

(** [off] is the offset of the header in the packet, [caplen] the number of
    captured bytes from there on. *)
Definition transport_to_flowrec (flow : FLOW) (pkt : bytes) (off caplen : Z) (isfrag : bool)
    (protocol : Z) (ndx : bool) : outcome (Z * FLOW) :=
  if protocol =? IPPROTO_TCP then
    if caplen <? 20 then Ret (if isfrag then 0 else 1, flow)
    else
      let! sport := rd_int pkt off 2 in
      let! dport := rd_int pkt (off + 2) 2 in
      let! flags := rd_int pkt (off + 13) 1 in
      let flow := set_f_port (set2 (negb ndx) dport (set2 ndx sport (f_port flow))) flow in
      Ret (0, set_f_tcp_flags (set2 ndx (Z.lor (at2 ndx (f_tcp_flags flow)) flags) (f_tcp_flags flow)) flow)
  else if protocol =? IPPROTO_UDP then
    if caplen <? 8 then Ret (if isfrag then 0 else 1, flow)
    else
      let! sport := rd_int pkt off 2 in
      let! dport := rd_int pkt (off + 2) 2 in
      Ret (0, set_f_port (set2 (negb ndx) dport (set2 ndx sport (f_port flow))) flow)
  else if protocol =? IPPROTO_ICMP then
    let! icmp_type := rd_int pkt off 1 in
    let! icmp_code := rd_int pkt (off + 1) 1 in
    Ret (0, set_f_port (set2 (negb ndx) (htons (icmp_type * 256 + icmp_code))
                          (set2 ndx 0 (f_port flow))) flow)
  else Ret (0, flow).

(** ** IPv4 *)

(** The result, the flow and *isfrag, which stays as it was ([frag0]) when the
    packet is refused. *)
Definition ipv4_to_flowrec (flow : FLOW) (pkt : bytes) (caplen len : Z) (frag0 : bool) (af : Z)
    : outcome (Z * FLOW * bool) :=
  if caplen <? 20 then Ret (-1, flow, frag0)
  else
    let! b0 := rd_int pkt 0 1 in
    let ip_hl := Z.land b0 15 in
    if caplen <? ip_hl * 4 then Ret (-1, flow, frag0)
    else if negb (Z.shiftr b0 4 =? 4) then Ret (-1, flow, frag0)
    else
      let! src := rd pkt 12 4 in
      let! dst := rd pkt 16 4 in
      let! proto := rd_int pkt 9 1 in
      let! ip_off := rd_int pkt 6 2 in
      let ndx := 0 <? bytes_diff src dst in
      let flow := set_f_af af flow in
      let flow := set_f_addr (set2 ndx (set_v4_bytes src (at2 ndx (f_addr flow))) (f_addr flow)) flow in
      let flow := set_f_addr (set2 (negb ndx) (set_v4_bytes dst (at2 (negb ndx) (f_addr flow))) (f_addr flow)) flow in
      let flow := set_f_protocol proto flow in
      let flow := set_f_octets (set2 ndx (wrap32 len) (f_octets flow)) flow in
      let flow := set_f_packets (set2 ndx 1 (f_packets flow)) flow in
      let isfrag := negb (Z.land (ntohs ip_off) (Z.lor IP_OFFMASK IP_MF) =? 0) in
      if isfrag && negb (Z.land (ntohs ip_off) IP_OFFMASK =? 0) then Ret (0, flow, isfrag)
      else
        let! (r, flow) := transport_to_flowrec flow pkt (ip_hl * 4) (caplen - ip_hl * 4) isfrag proto ndx in
        Ret (r, flow, isfrag).

(** ** IPv6 *)

(** The loop over the extension headers: a result to return at once, or the
    transport protocol with its place in the packet; and *isfrag. *)
Fixpoint ipv6_headers (fuel : nat) (pkt : bytes) (off caplen nxt : Z) (isfrag : bool)
    : outcome ((Z + Z * Z * Z) * bool) :=
  match fuel with
  | O => Diverges
  | S fuel =>
      if (nxt =? IPPROTO_HOPOPTS) || (nxt =? IPPROTO_ROUTING) || (nxt =? IPPROTO_DSTOPTS) then
        if caplen <? 2 then Ret (inl 1, isfrag)
        else
          let! ip6e_len := rd_int pkt (off + 1) 1 in
          let n := Z.shiftl (ip6e_len + 1) 3 in
          if caplen <? n then Ret (inl 1, isfrag)
          else
            let! nxt := rd_int pkt off 1 in
            ipv6_headers fuel pkt (off + n) (caplen - n) nxt isfrag
      else if nxt =? IPPROTO_FRAGMENT then
        if caplen <? 8 then Ret (inl 1, true)
        else
          let! offlg := rd_int pkt (off + 2) 2 in
          if negb (Z.land offlg IP6F_OFF_MASK =? 0) then Ret (inl 0, true)
          else
            let! nxt := rd_int pkt off 1 in
            ipv6_headers fuel pkt (off + 8) (caplen - 8) nxt true
      else Ret (inr (nxt, off, caplen), isfrag)
  end.

Definition ipv6_to_flowrec (flow : FLOW) (pkt : bytes) (caplen len : Z) (frag0 : bool) (af : Z)
    : outcome (Z * FLOW * bool) :=
  if caplen <? 40 then Ret (-1, flow, frag0)
  else
    let! vfc := rd_int pkt 0 1 in
    if negb (Z.land vfc IPV6_VERSION_MASK =? IPV6_VERSION) then Ret (-1, flow, frag0)
    else
      let! src := rd pkt 8 16 in
      let! dst := rd pkt 24 16 in
      let! ip6_flow := rd_int pkt 0 4 in
      let! nxt := rd_int pkt 6 1 in
      let ndx := 0 <? bytes_diff src dst in
      let flow := set_f_af af flow in
      let flow := set_f_ip6_flowlabel
                    (set2 ndx (Z.land ip6_flow IPV6_FLOWLABEL_MASK) (f_ip6_flowlabel flow)) flow in
      let flow := set_f_addr (set2 ndx src (f_addr flow)) flow in
      let flow := set_f_addr (set2 (negb ndx) dst (f_addr flow)) flow in
      let flow := set_f_octets (set2 ndx (wrap32 len) (f_octets flow)) flow in
      let flow := set_f_packets (set2 ndx 1 (f_packets flow)) flow in
      let! (h, isfrag) := ipv6_headers (Z.to_nat caplen) pkt 40 (caplen - 40) nxt false in
      match h with
      | inl r => Ret (r, flow, isfrag)
      | inr (nxt, off, caplen) =>
          let flow := set_f_protocol nxt flow in
          let! (r, flow) := transport_to_flowrec flow pkt off caplen isfrag nxt ndx in
          Ret (r, flow, isfrag)
      end.

(** ** Datalink headers *)

Record DATALINK := Mk_DATALINK {
  dlt : Z;
  skiplen : Z;
  ft_off : Z;
  ft_len : Z;
  ft_is_be : bool;
  ft_mask : Z;
  ft_v4 : Z;
  ft_v6 : Z
}.

(** The table of link types; the DLT_ constants are those of libpcap on Linux. *)
Definition lt : list DATALINK := [
  Mk_DATALINK 1 14 12 2 true 0xffffffff 0x0800 0x86dd;
  Mk_DATALINK 9 5 3 2 true 0xffffffff 0x0021 0x0057;
  Mk_DATALINK 113 16 14 2 true 0xffffffff 0x0800 0x86dd;
  Mk_DATALINK 12 0 0 1 true 0x000000f0 0x0040 0x0060;
  Mk_DATALINK 0 4 0 4 false 0xffffffff AF_INET AF_INET6;
  Mk_DATALINK 108 4 0 4 true 0xffffffff AF_INET AF_INET6;
  Mk_DATALINK (-1) (-1) (-1) (-1) false 0 0xffff 0xffff].

(** The entry the search stops at; the last one stops every search. *)
Fixpoint dl_find (linktype : Z) (l : list DATALINK) : option DATALINK :=
  match l with
  | [] => None
  | dl :: l => if negb (dlt dl =? linktype) && negb (dlt dl =? -1) then dl_find linktype l else Some dl
  end.

(** The frame type, from the bytes in the order the loops read them. *)
Definition frametype_of (bs : list Z) : Z :=
  fold_left (fun t b => Z.lor (wrap32 (Z.shiftl t 8)) b) bs 0.

(** The result and *af, None when it is not assigned. *)
Definition datalink_check (linktype : Z) (pkt : option bytes) (caplen : Z) : outcome (Z * option Z) :=
  match dl_find linktype lt with
  | None => Undef OutOfBounds
  | Some dl =>
      match pkt with
      | None => Ret (dlt dl, None)
      | Some pkt =>
          if dlt dl =? -1 then Ret (dlt dl, None)
          else if caplen <=? skiplen dl then Ret (-1, None)
          else
            let! bs := rd pkt (ft_off dl) (ft_len dl) in
            let frametype := Z.land (frametype_of (if ft_is_be dl then bs else rev bs)) (ft_mask dl) in
            if frametype =? ft_v4 dl then Ret (skiplen dl, Some AF_INET)
            else if frametype =? ft_v6 dl then Ret (skiplen dl, Some AF_INET6)
            else Ret (-1, None)
      end
  end.

(** ** What the packets say *)

(** [n] bytes at [off], and the integer they hold. *)
Definition field (pkt : bytes) (off n : Z) : bytes := take (Z.to_nat n) (drop (Z.to_nat off) pkt).
Definition field_int (pkt : bytes) (off n : Z) : Z := le_val (field pkt off n).

Lemma rd_field pkt off n :
  0 <= off -> 0 <= n -> off + n <= Z.of_nat (length pkt) -> rd pkt off n = Ret (field pkt off n).
Proof. intros. unfold rd. by rewrite mem_read_in. Qed.

Lemma rd_int_field pkt off n :
  0 <= off -> 0 <= n -> off + n <= Z.of_nat (length pkt) -> rd_int pkt off n = Ret (field_int pkt off n).
Proof. intros. unfold rd_int. by rewrite rd_field. Qed.

Lemma field_u8 pkt off n : Forall u8 pkt -> Forall u8 (field pkt off n).
Proof. intros. by apply Forall_take, Forall_drop. Qed.

Lemma length_field pkt off n :
  0 <= off -> 0 <= n -> off + n <= Z.of_nat (length pkt) -> Z.of_nat (length (field pkt off n)) = n.
Proof. intros. unfold field. rewrite length_take, length_drop. lia. Qed.

Lemma field_int_bound pkt off n :
  Forall u8 pkt -> 0 <= n -> 0 <= field_int pkt off n < 256 ^ n.
Proof.
  intros Hb Hn. unfold field_int. pose proof (le_val_bound _ (field_u8 pkt off n Hb)) as H.
  assert (256 ^ Z.of_nat (length (field pkt off n)) <= 256 ^ n); [|lia].
  apply Z.pow_le_mono_r; [lia|]. unfold field. rewrite length_take, length_drop. lia.
Qed.

(** A pair in the canonical order of the two ends. *)
Definition orient {A} (ndx : bool) (p : A * A) : A * A := if ndx then (snd p, fst p) else p.

(** The ports and the TCP flags of the transport header at [off] of [pkt], when
    it is one that is looked at and is captured. *)
Definition transport_ports (pkt : bytes) (off protocol : Z) : option (Z * Z) :=
  let caplen := Z.of_nat (length pkt) - off in
  if ((protocol =? IPPROTO_TCP) && (20 <=? caplen)) || ((protocol =? IPPROTO_UDP) && (8 <=? caplen))
  then Some (field_int pkt off 2, field_int pkt (off + 2) 2)
  else if protocol =? IPPROTO_ICMP
  then Some (0, htons (field_int pkt off 1 * 256 + field_int pkt (off + 1) 1))
  else None.
Definition transport_flags (pkt : bytes) (off protocol : Z) : Z :=
  if (protocol =? IPPROTO_TCP) && (20 <=? Z.of_nat (length pkt) - off) then field_int pkt (off + 13) 1 else 0.

(** An ICMP header is read without a look at the length of the capture. *)
Definition truncated_icmp (pkt : bytes) (off protocol : Z) : bool :=
  (protocol =? IPPROTO_ICMP) && (Z.of_nat (length pkt) - off <? 2).

(** The flow has the ports and flags of the header. *)
Definition with_transport (pkt : bytes) (off protocol : Z) (ndx : bool) (flow : FLOW) : FLOW :=
  set_f_tcp_flags (orient ndx (transport_flags pkt off protocol, 0))
    (set_f_port (orient ndx (default (0, 0) (transport_ports pkt off protocol))) flow).

Lemma transport_ok flow pkt off isfrag protocol ndx :
  0 <= off -> f_port flow = (0, 0) -> f_tcp_flags flow = (0, 0) -> off <= Z.of_nat (length pkt) ->
  if truncated_icmp pkt off protocol
  then transport_to_flowrec flow pkt off (Z.of_nat (length pkt) - off) isfrag protocol ndx = Undef OutOfBounds
  else exists r, transport_to_flowrec flow pkt off (Z.of_nat (length pkt) - off) isfrag protocol ndx =
    Ret (r, with_transport pkt off protocol ndx flow) /\ (r = 0 \/ r = 1).
Proof.
  intros Hoff Hp Hf Hle. unfold truncated_icmp, transport_to_flowrec, with_transport, transport_ports, transport_flags.
  assert (set_f_tcp_flags (orient ndx (0, 0)) (set_f_port (orient ndx (0, 0)) flow) = flow) as Hsame.
  { destruct flow. cbn in *. subst. by destruct ndx. }
  destruct (Z.eqb_spec protocol IPPROTO_TCP) as [->|H6].
  { change (IPPROTO_TCP =? IPPROTO_ICMP) with false. change (IPPROTO_TCP =? IPPROTO_UDP) with false. cbn [andb orb].
    destruct (Z.ltb_spec (Z.of_nat (length pkt) - off) 20) as [Hs|Hs].
    - rewrite (proj2 (Z.leb_gt 20 _)) by lia. cbn [orb default]. rewrite Hsame.
      exists (if isfrag then 0 else 1). split; [done|]. destruct isfrag; [by left|by right].
    - rewrite (proj2 (Z.leb_le 20 _)) by lia. rewrite !rd_int_field by lia. cbn [obind orb default].
      exists 0. split; [|by left]. do 2 f_equal. destruct flow. cbn in *. subst. destruct ndx; cbn; by rewrite ?Z.lor_0_l. }
  destruct (Z.eqb_spec protocol IPPROTO_UDP) as [->|H17].
  { change (IPPROTO_UDP =? IPPROTO_ICMP) with false. cbn [andb orb].
    destruct (Z.ltb_spec (Z.of_nat (length pkt) - off) 8) as [Hs|Hs].
    - rewrite (proj2 (Z.leb_gt 8 _)) by lia. cbn [default]. rewrite Hsame.
      exists (if isfrag then 0 else 1). split; [done|]. destruct isfrag; [by left|by right].
    - rewrite (proj2 (Z.leb_le 8 _)) by lia. rewrite !rd_int_field by lia. cbn [obind default].
      exists 0. split; [|by left]. do 2 f_equal. destruct flow. cbn in *. subst. by destruct ndx. }
  cbn [andb orb]. destruct (Z.eqb_spec protocol IPPROTO_ICMP) as [->|H1]; cbn [andb].
  - destruct (Z.ltb_spec (Z.of_nat (length pkt) - off) 2) as [Hs|Hs].
    + unfold rd_int, rd, mem_read. case_decide as H1; [|done]. cbn [obind]. case_decide as H2; [lia|done].
    + rewrite !rd_int_field by lia. cbn [obind default].
      exists 0. split; [|by left]. do 2 f_equal. destruct flow. cbn in *. subst. by destruct ndx.
  - exists 0. split; [|by left]. cbn [default]. by rewrite Hsame.
Qed.

(** The IPv4 header: whether it is accepted, and its members. *)
Definition ipv4_ok (pkt : bytes) : bool :=
  (20 <=? Z.of_nat (length pkt)) && (Z.land (field_int pkt 0 1) 15 * 4 <=? Z.of_nat (length pkt)) &&
  (Z.shiftr (field_int pkt 0 1) 4 =? 4).
Definition ipv4_off (pkt : bytes) : Z := Z.land (field_int pkt 0 1) 15 * 4.
Definition ipv4_frag (pkt : bytes) : Z := ntohs (field_int pkt 6 2).
Definition ipv4_isfrag (pkt : bytes) : bool := negb (Z.land (ipv4_frag pkt) (Z.lor IP_OFFMASK IP_MF) =? 0).
(** Not the first fragment: what follows the header is not a transport header. *)
Definition ipv4_later (pkt : bytes) : bool :=
  ipv4_isfrag pkt && negb (Z.land (ipv4_frag pkt) IP_OFFMASK =? 0).
Definition ipv4_ndx (pkt : bytes) : bool := 0 <? bytes_diff (field pkt 12 4) (field pkt 16 4).

(** The flow of an accepted packet. *)
Definition ipv4_flow (pkt : bytes) (len af : Z) : FLOW :=
  let ndx := ipv4_ndx pkt in
  let flow :=
    set_f_packets (orient ndx (1, 0)) (set_f_octets (orient ndx (wrap32 len, 0))
      (set_f_protocol (field_int pkt 9 1)
        (set_f_addr (orient ndx (field pkt 12 4 ++ replicate 12 0, field pkt 16 4 ++ replicate 12 0))
          (set_f_af af FLOW_zero)))) in
  if ipv4_later pkt then flow else with_transport pkt (ipv4_off pkt) (field_int pkt 9 1) ndx flow.

Lemma ipv4_to_flowrec_ok pkt len frag0 af :
  Forall u8 pkt ->
  if negb (ipv4_ok pkt)
  then ipv4_to_flowrec FLOW_zero pkt (Z.of_nat (length pkt)) len frag0 af = Ret (-1, FLOW_zero, frag0)
  else if negb (ipv4_later pkt) && truncated_icmp pkt (ipv4_off pkt) (field_int pkt 9 1)
  then ipv4_to_flowrec FLOW_zero pkt (Z.of_nat (length pkt)) len frag0 af = Undef OutOfBounds
  else exists r, ipv4_to_flowrec FLOW_zero pkt (Z.of_nat (length pkt)) len frag0 af =
    Ret (r, ipv4_flow pkt len af, ipv4_isfrag pkt) /\ (r = 0 \/ r = 1).
Proof.
  intros Hb. unfold ipv4_to_flowrec, ipv4_ok. set (n := Z.of_nat (length pkt)).
  destruct (Z.leb_spec 20 n) as [H20|H20]; [rewrite (proj2 (Z.ltb_ge n 20)) by lia|by rewrite (proj2 (Z.ltb_lt n 20)) by lia].
  rewrite rd_int_field by lia. cbn [obind andb]. fold (ipv4_off pkt).
  destruct (Z.leb_spec (ipv4_off pkt) n) as [Hhl|Hhl]; [rewrite (proj2 (Z.ltb_ge n _)) by lia|by rewrite (proj2 (Z.ltb_lt n _)) by lia].
  cbn [andb]. destruct (Z.eqb_spec (Z.shiftr (field_int pkt 0 1) 4) 4) as [Hv|Hv]; cbn [negb]; [|done].
  rewrite !rd_field, !rd_int_field by lia. cbn [obind]. fold (ipv4_ndx pkt) (ipv4_frag pkt) (ipv4_isfrag pkt).
  fold (ipv4_later pkt). set (ndx := ipv4_ndx pkt).
  set (flow := set_f_packets _ _).
  assert (flow = set_f_packets (orient ndx (1, 0)) (set_f_octets (orient ndx (wrap32 len, 0))
      (set_f_protocol (field_int pkt 9 1)
        (set_f_addr (orient ndx (field pkt 12 4 ++ replicate 12 0, field pkt 16 4 ++ replicate 12 0))
          (set_f_af af FLOW_zero))))) as Ef by (subst flow; by destruct ndx).
  unfold ipv4_flow. fold ndx. cbv zeta. rewrite <- Ef.
  destruct (ipv4_later pkt); cbn [negb andb]; [exists 0; split; [done|by left]|].
  assert (0 <= ipv4_off pkt) as Hoff.
  { unfold ipv4_off. pose proof (proj1 (u8_land (field_int pkt 0 1) 15 (field_int_bound pkt 0 1 Hb ltac:(lia)))). lia. }
  pose proof (transport_ok flow pkt (ipv4_off pkt) (ipv4_isfrag pkt) (field_int pkt 9 1) ndx Hoff) as Ht.
  rewrite Ef in Ht. specialize (Ht eq_refl eq_refl Hhl). rewrite <- Ef in Ht. fold n in Ht.
  destruct (truncated_icmp _ _ _); [by rewrite Ht|].
  destruct Ht as (r & -> & Hr). by exists r.
Qed.

(** ** IPv6 *)

(** The walk over the extension headers ends, and never leaves the packet. *)
Lemma ipv6_headers_ok fuel pkt : forall off caplen nxt isfrag,
  Forall u8 pkt -> 0 <= off -> off + caplen = Z.of_nat (length pkt) -> 0 <= caplen -> 0 <= nxt < 256 ->
  caplen < Z.of_nat fuel ->
  exists h isfrag', ipv6_headers fuel pkt off caplen nxt isfrag = Ret (h, isfrag') /\
    match h with
    | inl r => r = 0 \/ r = 1
    | inr (nxt', off', caplen') =>
        off <= off' /\ off' + caplen' = Z.of_nat (length pkt) /\ 0 <= caplen' /\ u8 nxt'
    end.
Proof.
  induction fuel as [|fuel IH]; intros off caplen nxt isfrag Hb Ho Hsum Hc Hn Hf; [lia|]. cbn [ipv6_headers].
  assert (forall o, 0 <= o -> o < Z.of_nat (length pkt) ->
            rd_int pkt o 1 = Ret (field_int pkt o 1) /\ 0 <= field_int pkt o 1 < 256) as Hrd.
  { intros o H1 H2. rewrite rd_int_field by lia. split; [done|]. by apply (field_int_bound pkt o 1). }
  assert (forall n nxt' isfrag', 8 <= n <= caplen -> 0 <= nxt' < 256 ->
            exists h isfrag'', ipv6_headers fuel pkt (off + n) (caplen - n) nxt' isfrag' = Ret (h, isfrag'') /\
              match h with
              | inl r => r = 0 \/ r = 1
              | inr (nxt', off', caplen') =>
                  off <= off' /\ off' + caplen' = Z.of_nat (length pkt) /\ 0 <= caplen' /\ u8 nxt'
              end) as Hgo.
  { intros n nxt' isfrag' Hn8 Hnxt.
    destruct (IH (off + n) (caplen - n) nxt' isfrag') as (h & f & E & Hh); [done|lia..|].
    exists h, f. split; [exact E|]. destruct h as [r|[[nx o'] c']]; [done|]. destruct Hh as (? & ? & ? & ?). split_and!; [lia|done..]. }
  destruct (_ || _ || _).
  - destruct (Z.ltb_spec caplen 2) as [H2|H2]; [exists (inl 1), isfrag; split; [done|by right]|].
    destruct (Hrd (off + 1)) as [-> Hl]; [lia..|]. cbn [obind].
    rewrite Z.shiftl_mul_pow2 by lia. change (2 ^ 3) with 8.
    destruct (Z.ltb_spec caplen ((field_int pkt (off + 1) 1 + 1) * 8)) as [H8|H8];
      [exists (inl 1), isfrag; split; [done|by right]|].
    destruct (Hrd off) as [-> Hx]; [lia..|]. cbn [obind]. apply Hgo; lia.
  - destruct (nxt =? IPPROTO_FRAGMENT).
    + destruct (Z.ltb_spec caplen 8) as [H8|H8]; [exists (inl 1), true; split; [done|by right]|].
      rewrite rd_int_field by lia. cbn [obind].
      destruct (negb _); [exists (inl 0), true; split; [done|by left]|].
      destruct (Hrd off) as [-> Hx]; [lia..|]. cbn [obind]. apply Hgo; lia.
    + eexists _, isfrag. split; [reflexivity|]. cbn. split_and!; [lia|done|done|exact Hn].
Qed.

(** What the next-header members of an IPv6 packet say, from the header of type
    [nxt] at [off] on: the transport protocol and the place of its header, or
    None when a header is cut off by the end of the capture or the packet is a
    fragment other than the first. *)
Definition options_header (nxt : Z) : Prop := nxt = 0 \/ nxt = 43 \/ nxt = 60.
Definition fragment_header (nxt : Z) : Prop := nxt = 44.
#[export] Instance options_header_dec nxt : Decision (options_header nxt).
Proof. unfold options_header. apply _. Defined.
#[export] Instance fragment_header_dec nxt : Decision (fragment_header nxt).
Proof. unfold fragment_header. apply _. Defined.

Inductive ipv6_chain (pkt : bytes) : Z -> Z -> option (Z * Z) -> Prop :=
  | chain_end off nxt :
      ~ options_header nxt -> ~ fragment_header nxt -> ipv6_chain pkt off nxt (Some (nxt, off))
  | chain_options off nxt r :
      options_header nxt ->
      off + 8 * (field_int pkt (off + 1) 1 + 1) <= Z.of_nat (length pkt) ->
      ipv6_chain pkt (off + 8 * (field_int pkt (off + 1) 1 + 1)) (field_int pkt off 1) r ->
      ipv6_chain pkt off nxt r
  | chain_options_cut off nxt :
      options_header nxt ->
      Z.of_nat (length pkt) < off + 2 \/ Z.of_nat (length pkt) < off + 8 * (field_int pkt (off + 1) 1 + 1) ->
      ipv6_chain pkt off nxt None
  | chain_first off nxt r :
      fragment_header nxt -> off + 8 <= Z.of_nat (length pkt) ->
      field_int pkt (off + 2) 1 * 32 + field_int pkt (off + 3) 1 / 8 = 0 ->
      ipv6_chain pkt (off + 8) (field_int pkt off 1) r -> ipv6_chain pkt off nxt r
  | chain_later off nxt :
      fragment_header nxt -> off + 8 <= Z.of_nat (length pkt) ->
      field_int pkt (off + 2) 1 * 32 + field_int pkt (off + 3) 1 / 8 <> 0 -> ipv6_chain pkt off nxt None
  | chain_fragment_cut off nxt :
      fragment_header nxt -> Z.of_nat (length pkt) < off + 8 -> ipv6_chain pkt off nxt None.

Lemma options_header_spec nxt :
  ((nxt =? IPPROTO_HOPOPTS) || (nxt =? IPPROTO_ROUTING) || (nxt =? IPPROTO_DSTOPTS)) = true <-> options_header nxt.
Proof.
  unfold options_header. rewrite !orb_true_iff, !Z.eqb_eq.
  unfold IPPROTO_HOPOPTS, IPPROTO_ROUTING, IPPROTO_DSTOPTS. tauto.
Qed.

(** The place of a fragment is in the 13 high bits of the member. *)
Lemma frag_off_bits a b : u8 a -> u8 b ->
  (Z.land (a + 256 * b) IP6F_OFF_MASK =? 0) = (a * 32 + b / 8 =? 0).
Proof.
  intros Ha Hb.
  assert (forallb (fun a => forallb (fun b =>
    Bool.eqb (Z.land (a + 256 * b) IP6F_OFF_MASK =? 0) (a * 32 + b / 8 =? 0)) (seqZ 0 256)) (seqZ 0 256) = true) as H
    by (vm_compute; reflexivity).
  rewrite forallb_forall in H. specialize (H a). rewrite forallb_forall in H.
  apply eqb_prop, H; apply list_elem_of_In, elem_of_seqZ; unfold u8 in *; lia.
Qed.

Lemma field_int_two pkt off : 0 <= off -> off + 2 <= Z.of_nat (length pkt) ->
  field_int pkt off 2 = field_int pkt off 1 + 256 * field_int pkt (off + 1) 1.
Proof.
  intros H0 H. unfold field_int, field. replace (Z.to_nat (off + 1)) with (S (Z.to_nat off)) by lia.
  rewrite <- Nat.add_1_r, <- drop_drop. change (Z.to_nat 2) with 2%nat. change (Z.to_nat 1) with 1%nat.
  destruct (drop (Z.to_nat off) pkt) as [|a [|b l]] eqn:E; try (apply (f_equal length) in E; rewrite length_drop in E; cbn in E; lia).
  cbn. lia.
Qed.

(** The loop follows the chain. *)
Lemma ipv6_headers_chain pkt off nxt r : Forall u8 pkt -> ipv6_chain pkt off nxt r ->
  forall fuel isfrag, 0 <= off <= Z.of_nat (length pkt) -> Z.of_nat (length pkt) - off < Z.of_nat fuel ->
  exists h isfrag', ipv6_headers fuel pkt off (Z.of_nat (length pkt) - off) nxt isfrag = Ret (h, isfrag') /\
    match h with inl _ => r = None | inr (nxt', off', _) => r = Some (nxt', off') end.
Proof.
  intros Hb Hc. induction Hc as [off nxt Ho Hf|off nxt r Ho Hin Hc IH|off nxt Ho Hcut|off nxt r Hf Hin Hz Hc IH|off nxt Hf Hin Hz|off nxt Hf Hcut];
    intros [|fuel] isfrag Hoff Hfuel; try lia; cbn [ipv6_headers].
  - destruct (_ || _ || _) eqn:E; [by apply options_header_spec in E|].
    rewrite (proj2 (Z.eqb_neq nxt IPPROTO_FRAGMENT)) by done. by eexists _, _.
  - rewrite (proj2 (options_header_spec nxt) Ho).
    pose proof (field_int_bound pkt (off + 1) 1 Hb ltac:(lia)) as Hl.
    rewrite (proj2 (Z.ltb_ge _ 2)) by lia. rewrite rd_int_field by lia. cbn [obind].
    rewrite Z.shiftl_mul_pow2 by lia. change (2 ^ 3) with 8.
    rewrite (proj2 (Z.ltb_ge _ _)) by lia. rewrite rd_int_field by lia. cbn [obind].
    destruct (IH fuel isfrag ltac:(lia) ltac:(lia)) as (h & b & E & Hh). exists h, b. split; [|exact Hh].
    rewrite <- E. f_equal; lia.
  - rewrite (proj2 (options_header_spec nxt) Ho).
    destruct (Z.ltb_spec (Z.of_nat (length pkt) - off) 2) as [H2|H2]; [by eexists _, _|].
    rewrite rd_int_field by lia. cbn [obind]. rewrite Z.shiftl_mul_pow2 by lia. change (2 ^ 3) with 8.
    rewrite (proj2 (Z.ltb_lt _ _)) by lia. by eexists _, _.
  - rewrite Hf. change (44 =? IPPROTO_FRAGMENT) with true.
    change ((44 =? IPPROTO_HOPOPTS) || (44 =? IPPROTO_ROUTING) || (44 =? IPPROTO_DSTOPTS)) with false. cbv iota.
    rewrite (proj2 (Z.ltb_ge _ 8)) by lia. rewrite !rd_int_field by lia. cbn [obind].
    rewrite field_int_two by lia. rewrite <- Z.add_assoc. change (2 + 1) with 3.
    rewrite frag_off_bits by (apply (field_int_bound pkt _ 1 Hb); lia). rewrite (proj2 (Z.eqb_eq _ 0) Hz). cbn [negb].
    destruct (IH fuel true ltac:(lia) ltac:(lia)) as (h & b & E & Hh). exists h, b. split; [|exact Hh].
    rewrite <- E. f_equal; lia.
  - rewrite Hf. change (44 =? IPPROTO_FRAGMENT) with true.
    change ((44 =? IPPROTO_HOPOPTS) || (44 =? IPPROTO_ROUTING) || (44 =? IPPROTO_DSTOPTS)) with false. cbv iota.
    rewrite (proj2 (Z.ltb_ge _ 8)) by lia. rewrite !rd_int_field by lia. cbn [obind].
    rewrite field_int_two by lia. rewrite <- Z.add_assoc. change (2 + 1) with 3.
    rewrite frag_off_bits by (apply (field_int_bound pkt _ 1 Hb); lia). rewrite (proj2 (Z.eqb_neq _ 0) Hz).
    by eexists _, _.
  - rewrite Hf. change (44 =? IPPROTO_FRAGMENT) with true.
    change ((44 =? IPPROTO_HOPOPTS) || (44 =? IPPROTO_ROUTING) || (44 =? IPPROTO_DSTOPTS)) with false. cbv iota.
    rewrite (proj2 (Z.ltb_lt _ 8)) by lia. by eexists _, _.
Qed.

(** Every packet has a chain. *)
Lemma ipv6_chain_total pkt : Forall u8 pkt -> forall (k : nat) off nxt,
  0 <= off -> Z.of_nat (length pkt) - off < Z.of_nat k -> exists r, ipv6_chain pkt off nxt r.
Proof.
  intros Hb. induction k as [|k IH]; intros off nxt Hoff Hk.
  { exists (match decide (fragment_header nxt \/ options_header nxt) with left _ => None | right _ => Some (nxt, off) end).
    case_decide as H; [|apply chain_end; tauto].
    destruct H as [H|H]; [apply chain_fragment_cut; [done|lia]|apply chain_options_cut; [done|left; lia]]. }
  destruct (decide (options_header nxt)) as [Ho|Ho].
  { pose proof (field_int_bound pkt (off + 1) 1 Hb ltac:(lia)) as Hl.
    destruct (decide (off + 8 * (field_int pkt (off + 1) 1 + 1) <= Z.of_nat (length pkt))) as [Hin|Hin].
    - destruct (IH (off + 8 * (field_int pkt (off + 1) 1 + 1)) (field_int pkt off 1)) as [r Hr]; [lia..|].
      exists r. by apply chain_options.
    - exists None. apply chain_options_cut; [done|right; lia]. }
  destruct (decide (fragment_header nxt)) as [Hf|Hf]; [|by exists (Some (nxt, off)); apply chain_end].
  destruct (decide (off + 8 <= Z.of_nat (length pkt))) as [Hin|Hin]; [|exists None; apply chain_fragment_cut; [done|lia]].
  destruct (decide (field_int pkt (off + 2) 1 * 32 + field_int pkt (off + 3) 1 / 8 = 0)) as [Hz|Hz].
  - destruct (IH (off + 8) (field_int pkt off 1)) as [r Hr]; [lia..|]. exists r. by apply chain_first.
  - exists None. by apply chain_later.
Qed.

(** The walk of a packet. *)
Definition ipv6_walk (pkt : bytes) : (Z + Z * Z * Z) * bool :=
  match ipv6_headers (length pkt) pkt 40 (Z.of_nat (length pkt) - 40) (field_int pkt 6 1) false with
  | Ret h => h
  | _ => (inl 0, false)
  end.

Definition ipv6_ok (pkt : bytes) : bool :=
  (40 <=? Z.of_nat (length pkt)) && (Z.land (field_int pkt 0 1) IPV6_VERSION_MASK =? IPV6_VERSION).
Definition ipv6_ndx (pkt : bytes) : bool := 0 <? bytes_diff (field pkt 8 16) (field pkt 24 16).

(** The flow of an accepted packet. *)
Definition ipv6_flow (pkt : bytes) (len af : Z) : FLOW :=
  let ndx := ipv6_ndx pkt in
  let flow :=
    set_f_packets (orient ndx (1, 0)) (set_f_octets (orient ndx (wrap32 len, 0))
      (set_f_addr (orient ndx (field pkt 8 16, field pkt 24 16))
        (set_f_ip6_flowlabel (orient ndx (Z.land (field_int pkt 0 4) IPV6_FLOWLABEL_MASK, 0))
          (set_f_af af FLOW_zero)))) in
  match fst (ipv6_walk pkt) with
  | inl _ => flow
  | inr (nxt, off, _) => with_transport pkt off nxt ndx (set_f_protocol nxt flow)
  end.

Lemma ipv6_to_flowrec_ok pkt len frag0 af :
  Forall u8 pkt ->
  if negb (ipv6_ok pkt)
  then ipv6_to_flowrec FLOW_zero pkt (Z.of_nat (length pkt)) len frag0 af = Ret (-1, FLOW_zero, frag0)
  else if match fst (ipv6_walk pkt) with inl _ => false | inr (nxt, off, _) => truncated_icmp pkt off nxt end
  then ipv6_to_flowrec FLOW_zero pkt (Z.of_nat (length pkt)) len frag0 af = Undef OutOfBounds
  else exists r, ipv6_to_flowrec FLOW_zero pkt (Z.of_nat (length pkt)) len frag0 af =
    Ret (r, ipv6_flow pkt len af, snd (ipv6_walk pkt)) /\ (r = 0 \/ r = 1).
Proof.
  intros Hb. unfold ipv6_to_flowrec, ipv6_ok. set (n := Z.of_nat (length pkt)).
  destruct (Z.leb_spec 40 n) as [H40|H40]; [rewrite (proj2 (Z.ltb_ge n 40)) by lia|by rewrite (proj2 (Z.ltb_lt n 40)) by lia].
  rewrite rd_int_field by lia. cbn [obind andb].
  destruct (_ =? IPV6_VERSION); cbn [negb]; [|done].
  rewrite !rd_field, !rd_int_field by lia. cbn [obind]. fold (ipv6_ndx pkt). set (ndx := ipv6_ndx pkt).
  set (flow := set_f_packets _ _).
  assert (flow = set_f_packets (orient ndx (1, 0)) (set_f_octets (orient ndx (wrap32 len, 0))
      (set_f_addr (orient ndx (field pkt 8 16, field pkt 24 16))
        (set_f_ip6_flowlabel (orient ndx (Z.land (field_int pkt 0 4) IPV6_FLOWLABEL_MASK, 0))
          (set_f_af af FLOW_zero))))) as Ef by (subst flow; by destruct ndx).
  unfold ipv6_flow, ipv6_walk. fold ndx. cbv zeta. rewrite <- Ef. unfold n. rewrite Nat2Z.id.
  destruct (ipv6_headers_ok (length pkt) pkt 40 (n - 40) (field_int pkt 6 1) false) as (h & isfrag & E & Hh);
    [done|lia..|by apply (field_int_bound pkt 6 1)|lia|].
  unfold n in E. rewrite E. cbn [obind fst snd].
  destruct h as [r|[[nxt off] caplen]]; [by exists r|]. destruct Hh as (Ho & Hsum & Hc & Hn).
  replace caplen with (Z.of_nat (length pkt) - off) by lia.
  pose proof (transport_ok (set_f_protocol nxt flow) pkt off isfrag nxt ndx ltac:(lia)) as Ht.
  rewrite Ef in Ht. specialize (Ht eq_refl eq_refl ltac:(lia)). rewrite <- Ef in Ht.
  destruct (truncated_icmp _ _ _); [by rewrite Ht|].
  destruct Ht as (r & -> & Hr). by exists r.
Qed.

(** ** Conversations

    What identifies a flow (the members that flow_compare looks at), and what a
    packet says about its conversation: source, destination, protocol, ports. *)

Definition flow_identity (f : FLOW) : Z * (list Z * list Z) * Z * (Z * Z) :=
  (f_af f, f_addr f, f_protocol f, f_port f).

Definition conversation : Type := list Z * list Z * Z * (Z * Z).
Definition reversed (c : conversation) : conversation :=
  let '(src, dst, proto, ports) := c in (dst, src, proto, (snd ports, fst ports)).

Definition ipv4_conversation (pkt : bytes) : conversation :=
  (field pkt 12 4, field pkt 16 4, field_int pkt 9 1,
   if ipv4_later pkt then (0, 0)
   else default (0, 0) (transport_ports pkt (ipv4_off pkt) (field_int pkt 9 1))).
Definition ipv6_conversation (pkt : bytes) : conversation :=
  let '(proto, ports) :=
    match fst (ipv6_walk pkt) with
    | inl _ => (0, (0, 0))
    | inr (nxt, off, _) => (nxt, default (0, 0) (transport_ports pkt off nxt))
    end in
  (field pkt 8 16, field pkt 24 16, proto, ports).

(** The direction of a conversation. *)
Definition forward (c : conversation) : bool :=
  let '(src, dst, _, _) := c in 0 <? bytes_diff src dst.

Lemma bytes_diff_sign a b : length a = length b ->
  (0 <? bytes_diff a b) = bool_decide (lex a b = 1).
Proof.
  intros Hl. pose proof (bytes_diff_lex a b Hl) as Hs. rewrite <- Hs.
  destruct (Z.ltb_spec 0 (bytes_diff a b)); symmetry; [apply bool_decide_true|apply bool_decide_false];
    pose proof (Z.sgn_spec (bytes_diff a b)); lia.
Qed.

Lemma bytes_diff_swap a b :
  length a = length b -> a <> b -> (0 <? bytes_diff b a) = negb (0 <? bytes_diff a b).
Proof.
  intros Hl Hne. rewrite !bytes_diff_sign by done. rewrite (lex_opp a b).
  destruct (lex_values a b) as [E|[E|E]]; rewrite E; try done. exfalso. by apply Hne, lex_eq.
Qed.

(** Ordering two ends forgets the direction, and nothing else. *)
Lemma orient_iff {A B} (fwd : A -> A -> bool) (src dst src' dst' : A) (p p' : B * B) :
  fwd dst src = negb (fwd src dst) -> fwd dst' src' = negb (fwd src' dst') ->
  orient (fwd src dst) (src, dst) = orient (fwd src' dst') (src', dst') /\
    orient (fwd src dst) p = orient (fwd src' dst') p' <->
  src' = src /\ dst' = dst /\ p' = p \/ src' = dst /\ dst' = src /\ p' = (snd p, fst p).
Proof.
  destruct p as [a b], p' as [a' b']. intros H1 H2. split.
  - unfold orient. intros [E1 E2].
    destruct (fwd src dst), (fwd src' dst'); cbn in *; injection E1 as -> ->; injection E2 as -> ->; tauto.
  - intros [(-> & -> & [= -> ->])|(-> & -> & [= -> ->])]; [done|]. rewrite H1.
    by destruct (fwd src dst).
Qed.

Lemma pad_inj (a b : list Z) k : a ++ replicate k 0 = b ++ replicate k 0 <-> a = b.
Proof. split; [apply app_inv_tail|by intros ->]. Qed.

Lemma orient_pad ndx (a b : list Z) :
  orient ndx (a ++ replicate 12 0, b ++ replicate 12 0) =
    (fst (orient ndx (a, b)) ++ replicate 12 0, snd (orient ndx (a, b)) ++ replicate 12 0).
Proof. by destruct ndx. Qed.

Lemma ipv4_flow_identity pkt len af :
  flow_identity (ipv4_flow pkt len af) =
    let '(src, dst, proto, ports) := ipv4_conversation pkt in
    (af, orient (forward (ipv4_conversation pkt)) (src ++ replicate 12 0, dst ++ replicate 12 0), proto,
     orient (forward (ipv4_conversation pkt)) ports).
Proof.
  unfold flow_identity, ipv4_flow, ipv4_conversation, with_transport, forward, ipv4_ndx.
  destruct (ipv4_later pkt); [|done]. cbn. by destruct (0 <? _).
Qed.

Lemma ipv6_flow_identity pkt len af :
  flow_identity (ipv6_flow pkt len af) =
    let '(src, dst, proto, ports) := ipv6_conversation pkt in
    (af, orient (forward (ipv6_conversation pkt)) (src, dst), proto,
     orient (forward (ipv6_conversation pkt)) ports).
Proof.
  unfold flow_identity, ipv6_flow, ipv6_conversation, with_transport, forward, ipv6_ndx.
  destruct (fst (ipv6_walk pkt)) as [r|[[nxt off] c]]; [|done]. cbn. by destruct (0 <? _).
Qed.

(** Equality of the members of two conversations. *)
Lemma conversation_iff (src dst src' dst' : list Z) proto proto' (p p' : Z * Z) :
  (src', dst', proto', p') = (src, dst, proto, p) \/ (src', dst', proto', p') = reversed (src, dst, proto, p) <->
  (src' = src /\ dst' = dst /\ p' = p \/ src' = dst /\ dst' = src /\ p' = (snd p, fst p)) /\ proto' = proto.
Proof.
  cbn. split.
  - intros [[= -> -> -> ->]|[= -> -> -> ->]]; tauto.
  - intros [[(-> & -> & ->)|(-> & -> & ->)] ->]; tauto.
Qed.

Definition ends_differ (c : conversation) : Prop :=
  let '(src, dst, _, _) := c in src <> dst.

Lemma ipv4_ok_length pkt : ipv4_ok pkt = true -> 20 <= Z.of_nat (length pkt).
Proof. intros [[H _]%andb_true_iff _]%andb_true_iff. by apply Z.leb_le. Qed.

Lemma ipv6_ok_length pkt : ipv6_ok pkt = true -> 40 <= Z.of_nat (length pkt).
Proof. intros [H _]%andb_true_iff. by apply Z.leb_le. Qed.

(** The two ends of a packet have the length [n] of an address and differ. *)
Definition ends_ok (n : nat) (c : conversation) : Prop :=
  let '(src, dst, _, _) := c in length src = n /\ length dst = n /\ src <> dst.

Lemma forward_reversed n c : ends_ok n c -> forward (reversed c) = negb (forward c).
Proof.
  destruct c as [[[src dst] proto] p]. intros (H1 & H2 & H3). cbn [reversed forward].
  by apply bytes_diff_swap; [congruence|].
Qed.

(** The members of a flow in canonical order determine the conversation up to its
    direction. *)
Lemma conversation_oriented n c c' :
  ends_ok n c -> ends_ok n c' ->
  (let '(src, dst, proto, p) := c in let '(src', dst', proto', p') := c' in
   orient (forward c) (src, dst) = orient (forward c') (src', dst') /\
   orient (forward c) p = orient (forward c') p' /\ proto' = proto) <->
  c' = c \/ c' = reversed c.
Proof.
  destruct c as [[[src dst] proto] p], c' as [[[src' dst'] proto'] p'].
  intros (H1 & H2 & H3) (H1' & H2' & H3'). rewrite conversation_iff. cbn [forward].
  rewrite <- (orient_iff (fun a b => 0 <? bytes_diff a b)).
  - tauto.
  - by apply bytes_diff_swap; [congruence|].
  - by apply bytes_diff_swap; [congruence|].
Qed.

(** A TCP segment from 10.0.0.[a] to 10.0.0.[b]. *)
Definition sample_tcp (a b sport dport : Z) : list Z :=
  [69; 0; 0; 40; 0; 0; 0; 0; 64; 6; 0; 0; 10; 0; 0; a; 10; 0; 0; b; 0; sport; 0; dport] ++
  replicate 9 0 ++ [16] ++ replicate 6 0.
