(* ===== verification/FlowTrack.v ===== *)
(** * Flow tracking (src/softflowd/softflowd.c)

    The tables of flows and of expiry events, process_packet and the functions
    that expire flows.  Flows and expiry events live in two heaps; the trees are
    their nodes in order, on which the operations of sys-tree.h act as the
    ordered ones (Splay.splay_refines for the flows, RedBlack for the expiry
    events).  The floating-point statistics (STATISTIC, octets_pp, packets_pp)
    are not modelled. *)

From stdpp Require Import gmap.
From S2P Require Import Prelude Packed Order Splay Addr SoftTypes.
From S2P Require Import Ipflow.

Definition floc : Type := positive.

(** ** Expiry events *)

Inductive reason :=
  | R_GENERAL | R_TCP | R_TCP_RST | R_TCP_FIN | R_UDP | R_ICMP
  | R_MAXLIFE | R_OVERBYTES | R_OVERFLOWS | R_FLUSH.
#[export] Instance reason_eq_dec : EqDecision reason.
Proof. solve_decision. Defined.

Record EXPIRY := Mk_EXPIRY {
  e_flow : floc;
  e_expires_at : Z;
  e_reason : reason
}.

(** ** The root of the flow tracking *)

Definition TRACK_FULL : Z := 1.
Definition TRACK_IP_PROTO : Z := 2.
Definition TRACK_IP_ONLY : Z := 3.

(** The members that do not change while flows are tracked. *)
Record CONF := Mk_CONF {
  system_boot_time : Z * Z;
  track_level : Z;
  tcp_timeout : Z;
  tcp_rst_timeout : Z;
  tcp_fin_timeout : Z;
  udp_timeout : Z;
  icmp_timeout : Z;
  general_timeout : Z;
  maximum_lifetime : Z;
  expiry_interval : Z
}.

(** The 64-bit statistics. *)
Inductive counter :=
  | total_packets | frag_packets | non_ip_packets | bad_packets
  | flows_expired | flows_exported | flows_dropped | flows_force_expired | packets_sent
  | flows_pp (protocol : Z)
  | expired_general | expired_tcp | expired_tcp_rst | expired_tcp_fin | expired_udp | expired_icmp
  | expired_maxlife | expired_overbytes | expired_maxflows | expired_flush.
#[export] Instance counter_eq_dec : EqDecision counter.
Proof. solve_decision. Defined.

Record FLOWTRACK := Mk_FLOWTRACK {
  ft_conf : CONF;
  ft_heap : gmap floc FLOW;            (* allocated flows *)
  ft_flows : list floc;                (* the tree of flows *)
  ft_eheap : gmap eloc EXPIRY;         (* allocated expiry events *)
  ft_expiries : list eloc;             (* the tree of expiry events *)
  ft_num_flows : Z;
  ft_next_flow_seq : Z;
  ft_count : counter -> Z
}.

Definition set_ft_heap v ft := Mk_FLOWTRACK (ft_conf ft) v (ft_flows ft) (ft_eheap ft) (ft_expiries ft) (ft_num_flows ft) (ft_next_flow_seq ft) (ft_count ft).
Definition set_ft_flows v ft := Mk_FLOWTRACK (ft_conf ft) (ft_heap ft) v (ft_eheap ft) (ft_expiries ft) (ft_num_flows ft) (ft_next_flow_seq ft) (ft_count ft).
Definition set_ft_eheap v ft := Mk_FLOWTRACK (ft_conf ft) (ft_heap ft) (ft_flows ft) v (ft_expiries ft) (ft_num_flows ft) (ft_next_flow_seq ft) (ft_count ft).
Definition set_ft_expiries v ft := Mk_FLOWTRACK (ft_conf ft) (ft_heap ft) (ft_flows ft) (ft_eheap ft) v (ft_num_flows ft) (ft_next_flow_seq ft) (ft_count ft).
Definition set_ft_num_flows v ft := Mk_FLOWTRACK (ft_conf ft) (ft_heap ft) (ft_flows ft) (ft_eheap ft) (ft_expiries ft) v (ft_next_flow_seq ft) (ft_count ft).
Definition set_ft_next_flow_seq v ft := Mk_FLOWTRACK (ft_conf ft) (ft_heap ft) (ft_flows ft) (ft_eheap ft) (ft_expiries ft) (ft_num_flows ft) v (ft_count ft).
Definition set_ft_count v ft := Mk_FLOWTRACK (ft_conf ft) (ft_heap ft) (ft_flows ft) (ft_eheap ft) (ft_expiries ft) (ft_num_flows ft) (ft_next_flow_seq ft) v.

(** Addition to a statistic. *)
Definition bump (c : counter) (n : Z) (ft : FLOWTRACK) : FLOWTRACK :=
  set_ft_count (fun k => if decide (k = c) then wrap64 (ft_count ft k + n) else ft_count ft k) ft.

Definition flow_get (ft : FLOWTRACK) (l : floc) : outcome FLOW :=
  match ft_heap ft !! l with
  | Some f => Ret f
  | None => Undef NullDeref
  end.
Definition expiry_get (ft : FLOWTRACK) (e : eloc) : outcome EXPIRY :=
  match ft_eheap ft !! e with
  | Some x => Ret x
  | None => Undef NullDeref
  end.
Definition flow_put (l : floc) (f : FLOW) (ft : FLOWTRACK) : FLOWTRACK :=
  set_ft_heap (<[l := f]> (ft_heap ft)) ft.
Definition expiry_put (e : eloc) (x : EXPIRY) (ft : FLOWTRACK) : FLOWTRACK :=
  set_ft_eheap (<[e := x]> (ft_eheap ft)) ft.

(** ** The initial state *)

Definition DEFAULT_TCP_TIMEOUT : Z := 3600.
Definition DEFAULT_TCP_RST_TIMEOUT : Z := 120.
Definition DEFAULT_TCP_FIN_TIMEOUT : Z := 300.
Definition DEFAULT_UDP_TIMEOUT : Z := 300.
Definition DEFAULT_ICMP_TIMEOUT : Z := 300.
Definition DEFAULT_GENERAL_TIMEOUT : Z := 3600.
Definition DEFAULT_MAXIMUM_LIFETIME : Z := 3600 * 24 * 7.
Definition DEFAULT_EXPIRY_INTERVAL : Z := 60.

Definition init_flowtrack : FLOWTRACK :=
  Mk_FLOWTRACK
    (Mk_CONF (0, 0) TRACK_FULL DEFAULT_TCP_TIMEOUT DEFAULT_TCP_RST_TIMEOUT DEFAULT_TCP_FIN_TIMEOUT
       DEFAULT_UDP_TIMEOUT DEFAULT_ICMP_TIMEOUT DEFAULT_GENERAL_TIMEOUT DEFAULT_MAXIMUM_LIFETIME
       DEFAULT_EXPIRY_INTERVAL)
    ∅ [] ∅ [] 0 1 (fun _ => 0).

(** ** The two orders *)

Definition flow_compare (a b : FLOW) : Z :=
  if negb (f_af a =? f_af b) then (if f_af b <? f_af a then 1 else -1)
  else
    let r := bytes_diff (fst (f_addr a)) (fst (f_addr b)) in
    if negb (r =? 0) then (if 0 <? r then 1 else -1)
    else
      let r := bytes_diff (snd (f_addr a)) (snd (f_addr b)) in
      if negb (r =? 0) then (if 0 <? r then 1 else -1)
      else if negb (f_protocol a =? f_protocol b) then (if f_protocol b <? f_protocol a then 1 else -1)
      else if negb (fst (f_port a) =? fst (f_port b))
      then (if ntohs (fst (f_port b)) <? ntohs (fst (f_port a)) then 1 else -1)
      else if negb (snd (f_port a) =? snd (f_port b))
      then (if ntohs (snd (f_port b)) <? ntohs (snd (f_port a)) then 1 else -1)
      else 0.

(** [seq] gives the flow_seq of the flow that an event points to. *)
Definition expiry_compare (seq : floc -> Z) (a b : EXPIRY) : Z :=
  if negb (e_expires_at a =? e_expires_at b) then (if e_expires_at b <? e_expires_at a then 1 else -1)
  else if negb (seq (e_flow a) =? seq (e_flow b))
  then (if seq (e_flow b) <? seq (e_flow a) then 1 else -1)
  else 0.

(** Comparison with the nodes of the trees. *)
Definition flow_node_cmp (ft : FLOWTRACK) (f : FLOW) (n : floc) : Z :=
  match ft_heap ft !! n with
  | Some g => flow_compare f g
  | None => -1
  end.
Definition seq_of (ft : FLOWTRACK) (l : floc) : Z :=
  match ft_heap ft !! l with
  | Some f => f_flow_seq f
  | None => 0
  end.
Definition expiry_node_cmp (ft : FLOWTRACK) (x : EXPIRY) (n : eloc) : Z :=
  match ft_eheap ft !! n with
  | Some y => expiry_compare (seq_of ft) x y
  | None => -1
  end.

(** FLOW_FIND, FLOW_INSERT and FLOW_REMOVE, which compare; EXPIRY_INSERT, which
    compares, and EXPIRY_REMOVE, which unlinks the node it is given. *)
Definition FLOW_FIND (f : FLOW) (ft : FLOWTRACK) : option floc :=
  ordered_find (flow_node_cmp ft f) (ft_flows ft).
Definition FLOW_INSERT (l : floc) (f : FLOW) (ft : FLOWTRACK) : FLOWTRACK :=
  set_ft_flows (ordered_insert (flow_node_cmp ft f) (ft_flows ft) l) ft.
Definition FLOW_REMOVE (f : FLOW) (ft : FLOWTRACK) : FLOWTRACK :=
  set_ft_flows (ordered_remove (flow_node_cmp ft f) (ft_flows ft)) ft.
Definition EXPIRY_INSERT (e : eloc) (x : EXPIRY) (ft : FLOWTRACK) : FLOWTRACK :=
  set_ft_expiries (ordered_insert (expiry_node_cmp ft x) (ft_expiries ft) e) ft.
Definition EXPIRY_REMOVE (e : eloc) (ft : FLOWTRACK) : FLOWTRACK :=
  set_ft_expiries (filter (fun n => n <> e) (ft_expiries ft)) ft.

(** ** When a flow expires *)

(** The time and the reason that flow_update_expiry gives a flow. *)
Definition expiry_of (c : CONF) (f : FLOW) : Z * reason :=
  let last := fst (f_flow_last f) in
  let '(at_, r) :=
    if (2147483648 <? fst (f_octets f)) || (2147483648 <? snd (f_octets f)) then (0, R_OVERBYTES)
    else if negb (maximum_lifetime c =? 0) && (maximum_lifetime c <? last - fst (f_flow_start f))
    then (0, R_MAXLIFE)
    else if (f_protocol f =? IPPROTO_TCP) && negb (tcp_rst_timeout c =? 0) &&
            (negb (Z.land (fst (f_tcp_flags f)) TH_RST =? 0) || negb (Z.land (snd (f_tcp_flags f)) TH_RST =? 0))
    then (wrap32 (last + tcp_rst_timeout c), R_TCP_RST)
    else if (f_protocol f =? IPPROTO_TCP) && negb (tcp_fin_timeout c =? 0) &&
            (negb (Z.land (fst (f_tcp_flags f)) TH_FIN =? 0) && negb (Z.land (snd (f_tcp_flags f)) TH_FIN =? 0))
    then (wrap32 (last + tcp_fin_timeout c), R_TCP_FIN)
    else if (f_protocol f =? IPPROTO_TCP) && negb (tcp_timeout c =? 0)
    then (wrap32 (last + tcp_timeout c), R_TCP)
    else if negb (udp_timeout c =? 0) && (f_protocol f =? IPPROTO_UDP)
    then (wrap32 (last + udp_timeout c), R_UDP)
    else if negb (icmp_timeout c =? 0) &&
            ((f_af f =? AF_INET) && (f_protocol f =? IPPROTO_ICMP) ||
             (f_af f =? AF_INET6) && (f_protocol f =? IPPROTO_ICMPV6))
    then (wrap32 (last + icmp_timeout c), R_ICMP)
    else (wrap32 (last + general_timeout c), R_GENERAL) in
  if negb (maximum_lifetime c =? 0) && negb (at_ =? 0)
  then (let lim := fst (f_flow_start f) + maximum_lifetime c in
        (wrap32 (if at_ <? lim then at_ else lim), r))
  else (at_, r).

Definition flow_update_expiry (l : floc) (ft : FLOWTRACK) : outcome FLOWTRACK :=
  let! f := flow_get ft l in
  match f_expiry f with
  | None => Undef NullDeref
  | Some e =>
      let! x := expiry_get ft e in
      let ft := EXPIRY_REMOVE e ft in
      let '(at_, r) := expiry_of (ft_conf ft) f in
      let x := Mk_EXPIRY (e_flow x) at_ r in
      let ft := expiry_put e x ft in
      Ret (EXPIRY_INSERT e x ft)
  end.

(** ** Packets *)

Definition PP_OK : Z := 0.
Definition PP_BAD_PACKET : Z := -2.
Definition PP_MALLOC_FAIL : Z := -3.

(** The members that the tracking level ignores are cleared. *)
Definition apply_track_level (level : Z) (tmp : FLOW) : FLOW :=
  let ip_proto f := set_f_tcp_flags (0, 0) (set_f_port (0, 0) f) in
  if level =? TRACK_IP_ONLY then ip_proto (set_f_protocol 0 tmp)
  else if level =? TRACK_IP_PROTO then ip_proto tmp
  else tmp.

(** The flow identity of a packet, None for a bad one, and whether it is a
    fragment. *)
Definition packet_to_flowrec (pkt : bytes) (af caplen len : Z) : outcome (option FLOW * bool) :=
  if af =? AF_INET then
    let! (r, tmp, frag) := ipv4_to_flowrec FLOW_zero pkt caplen len false af in
    Ret (if r =? -1 then None else Some tmp, frag)
  else if af =? AF_INET6 then
    let! (r, tmp, frag) := ipv6_to_flowrec FLOW_zero pkt caplen len false af in
    Ret (if r =? -1 then None else Some tmp, frag)
  else Ret (None, false).

(** A flow that matches counts the packet. *)
Definition account (tmp flow : FLOW) : FLOW :=
  let add32 p q := (wrap32 (fst p + fst q), wrap32 (snd p + snd q)) in
  let or8 p q := (Z.lor (fst p) (fst q), Z.lor (snd p) (snd q)) in
  set_f_tcp_flags (or8 (f_tcp_flags flow) (f_tcp_flags tmp))
    (set_f_octets (add32 (f_octets flow) (f_octets tmp))
      (set_f_packets (add32 (f_packets flow) (f_packets tmp)) flow)).

(** A flow with no match: it is entered, then its expiry event; [malloc1] and
    [malloc2] tell whether the allocations succeed.  The result is None when one
    fails. *)
Definition new_flow (malloc1 malloc2 : bool) (tmp : FLOW) (received_time : Z * Z) (ft : FLOWTRACK)
    : option floc * FLOWTRACK :=
  if negb malloc1 then (None, ft)
  else
    let l := fresh (dom (ft_heap ft)) in
    let flow := set_f_flow_seq (ft_next_flow_seq ft) (set_f_flow_start received_time tmp) in
    let ft := set_ft_next_flow_seq (wrap64 (ft_next_flow_seq ft + 1)) ft in
    let ft := FLOW_INSERT l flow ft in
    let ft := flow_put l flow ft in
    if negb malloc2 then (None, flow_put l (set_f_expiry None flow) ft)
    else
      let e := fresh (dom (ft_eheap ft)) in
      let ft := flow_put l (set_f_expiry (Some e) flow) ft in
      let x := Mk_EXPIRY l 1 R_GENERAL in
      let ft := EXPIRY_INSERT e x ft in
      let ft := expiry_put e x ft in
      (Some l, set_ft_num_flows (wrap32 (ft_num_flows ft + 1)) ft).

(** The end of process_packet: the time of the packet, and the new time of expiry. *)
Definition touch (l : floc) (received_time : Z * Z) (ft : FLOWTRACK) : outcome (Z * FLOWTRACK) :=
  let! flow := flow_get ft l in
  let ft := flow_put l (set_f_flow_last received_time flow) ft in
  match f_expiry flow with
  | None => Undef NullDeref
  | Some e =>
      let! x := expiry_get ft e in
      if negb (e_expires_at x =? 0) then
        let! ft := flow_update_expiry l ft in Ret (PP_OK, ft)
      else Ret (PP_OK, ft)
  end.

Definition process_packet (malloc1 malloc2 : bool) (pkt : bytes) (af caplen len : Z) (received_time : Z * Z)
    (ft : FLOWTRACK) : outcome (Z * FLOWTRACK) :=
  let ft := bump total_packets 1 ft in
  let! (r, frag) := packet_to_flowrec pkt af caplen len in
  match r with
  | None => Ret (PP_BAD_PACKET, bump bad_packets 1 ft)
  | Some tmp =>
      let ft := if frag : bool then bump frag_packets 1 ft else ft in
      let tmp := apply_track_level (track_level (ft_conf ft)) tmp in
      let! (l, ft) :=
        match FLOW_FIND tmp ft with
        | None => Ret (new_flow malloc1 malloc2 tmp received_time ft)
        | Some l =>
            let! flow := flow_get ft l in
            Ret (Some l, flow_put l (account tmp flow) ft)
        end in
      match l with
      | None => Ret (PP_MALLOC_FAIL, ft)
      | Some l => touch l received_time ft
      end
  end.
