(* ===== verification/FlowTable.v ===== *)
(** * The table of flows

    What the two trees and the two heaps of a FLOWTRACK must satisfy
    ([track_ok]), the table of flows they stand for ([table], a finite map from
    the identity of a flow to the flow and its expiry event), and what entering,
    changing and removing one flow does to both. *)

From stdpp Require Import gmap sorting.
From S2P Require Import Prelude Packed Order Splay Keyed Addr.
From S2P Require Import SoftTypes Ipflow FlowTrack.

(** ** The orders *)

(** The members that identify a flow, in the order of their comparison. *)
Definition flow_key (f : FLOW) : list Z :=
  [f_af f] ++ fst (f_addr f) ++ snd (f_addr f) ++
  [f_protocol f; ntohs (fst (f_port f)); ntohs (snd (f_port f))].
Definition expiry_key (seq : floc -> Z) (x : EXPIRY) : list Z := [e_expires_at x; seq (e_flow x)].

(** One step of a comparison that goes on to the next members on equality. *)
Lemma lex_step a b u v :
  lex (a :: u) (b :: v) = if negb (a =? b) then (if b <? a then 1 else -1) else lex u v.
Proof. cbn [lex]. destruct (Z.eqb_spec a b) as [->|]; cbn [negb]; [by rewrite Z.ltb_irrefl|]. lex_cases; try done; lia. Qed.

Lemma lex_bytes_step a b u v : length a = length b ->
  lex (a ++ u) (b ++ v) =
    if negb (bytes_diff a b =? 0) then (if 0 <? bytes_diff a b then 1 else -1) else lex u v.
Proof.
  intros Hl. pose proof (bytes_diff_lex a b Hl) as Hd.
  destruct (Z.eqb_spec (bytes_diff a b) 0) as [E|E]; cbn [negb].
  - rewrite E in Hd. symmetry in Hd. apply lex_eq in Hd as ->. apply lex_app_l.
  - rewrite lex_app_ne; [|done|rewrite <- Hd; by rewrite Z.sgn_null_iff]. rewrite <- Hd.
    destruct (Z.ltb_spec 0 (bytes_diff a b)); [by rewrite Z.sgn_pos|apply Z.sgn_neg; lia].
Qed.

Lemma sgn_cond (b : bool) c : Z.sgn (if b then (if c : bool then 1 else -1) else 0) = if b then (if c then 1 else -1) else 0.
Proof. by destruct b, c. Qed.

Lemma ntohs_eqb a b : u16 a -> u16 b -> (a =? b) = (ntohs a =? ntohs b).
Proof.
  intros Ha Hb. apply Bool.eq_iff_eq_true. rewrite !Z.eqb_eq. split; [by intros ->|].
  intros E. by rewrite <- (htons_ntohs a), E, htons_ntohs.
Qed.

#[export] Instance flow_cmp_key : CmpKey FLOW_ok flow_compare flow_key.
Proof.
  intros a b Ha Hb. unfold flow_compare, flow_key. cbn [app]. rewrite lex_step.
  destruct (fo_addr a Ha) as [[? _] [? _]], (fo_addr b Hb) as [[? _] [? _]].
  destruct (negb (f_af a =? f_af b)); [by case_match|]. rewrite lex_bytes_step by congruence.
  destruct (negb (bytes_diff _ _ =? 0)); [by case_match|]. rewrite lex_bytes_step by congruence.
  destruct (negb (bytes_diff _ _ =? 0)); [by case_match|]. rewrite lex_step.
  destruct (negb (f_protocol a =? f_protocol b)); [by case_match|].
  destruct (fo_port a Ha), (fo_port b Hb). 
  rewrite (ntohs_eqb (fst (f_port a))), (ntohs_eqb (snd (f_port a))) by done. rewrite lex_step.
  destruct (negb (ntohs (fst (f_port a)) =? _)); [by case_match|]. rewrite lex_step. cbn [lex].
  apply sgn_cond.
Qed.

Lemma expiry_cmp_key seq : CmpKey (fun _ => True) (expiry_compare seq) (expiry_key seq).
Proof.
  intros a b _ _. unfold expiry_compare, expiry_key. rewrite lex_step.
  destruct (negb _); [by case_match|]. rewrite lex_step. cbn [lex]. apply sgn_cond.
Qed.

(** ** The invariant *)

(** The keys of the nodes of the two trees. *)
Definition flow_node_key (ft : FLOWTRACK) (l : floc) : list Z :=
  match ft_heap ft !! l with Some f => flow_key f | None => [] end.
Definition expiry_node_key (ft : FLOWTRACK) (e : eloc) : list Z :=
  match ft_eheap ft !! e with Some x => expiry_key (seq_of ft) x | None => [] end.

(** The flows of the tree are those allocated, and likewise the expiry events;
    both trees are in order; each flow has one expiry event; the sequence numbers
    differ. *)
Record track_ok (ft : FLOWTRACK) : Prop := {
  to_flows : key_sorted (flow_node_key ft) (ft_flows ft);
  to_heap l : l ∈ ft_flows ft <-> is_Some (ft_heap ft !! l);
  to_FLOW l f : ft_heap ft !! l = Some f -> FLOW_ok f /\ f_flow_seq f < ft_next_flow_seq ft;
  to_expiries : key_sorted (expiry_node_key ft) (ft_expiries ft);
  to_eheap e : e ∈ ft_expiries ft <-> is_Some (ft_eheap ft !! e);
  to_expiry l f : ft_heap ft !! l = Some f ->
    exists e x, f_expiry f = Some e /\ ft_eheap ft !! e = Some x /\ e_flow x = l;
  to_flow e x : ft_eheap ft !! e = Some x ->
    exists f, ft_heap ft !! (e_flow x) = Some f /\ f_expiry f = Some e;
  to_seq l l' f f' : ft_heap ft !! l = Some f -> ft_heap ft !! l' = Some f' ->
    f_flow_seq f = f_flow_seq f' -> l = l';
  to_next : u64 (ft_next_flow_seq ft);
  to_num : ft_num_flows ft = Z.of_nat (length (ft_flows ft)) /\ u32 (ft_num_flows ft)
}.

(** The comparison of a flow or an event with the nodes. *)
Lemma flow_compares ft f : track_ok ft -> FLOW_ok f ->
  compares (flow_node_key ft) (flow_node_cmp ft f) (flow_key f) (ft_flows ft).
Proof.
  intros Hok Hf. apply Forall_forall. intros l Hl. apply (to_heap ft Hok) in Hl as [g Hg].
  unfold flow_node_cmp, flow_node_key. rewrite Hg. apply cmp_key; [done|]. by eapply to_FLOW.
Qed.

Lemma expiry_compares ft x (es : list eloc) : (forall e, e ∈ es -> is_Some (ft_eheap ft !! e)) ->
  compares (expiry_node_key ft) (expiry_node_cmp ft x) (expiry_key (seq_of ft) x) es.
Proof.
  intros Hes. apply Forall_forall. intros e [y Hy]%Hes.
  unfold expiry_node_cmp, expiry_node_key. rewrite Hy. by apply (expiry_cmp_key (seq_of ft)).
Qed.

(** Two flows of the table are the same node when they have the same identity. *)
Lemma flow_key_inj ft l l' f f' : track_ok ft ->
  ft_heap ft !! l = Some f -> ft_heap ft !! l' = Some f' -> flow_key f = flow_key f' -> l = l'.
Proof.
  intros Hok Hl Hl' E. apply (key_sorted_unique _ _ _ _ (to_flows ft Hok));
    [apply to_heap; [done|by eexists]..|]. unfold flow_node_key. by rewrite Hl, Hl'.
Qed.

(** FLOW_FIND finds the flow of that identity. *)
Lemma FLOW_FIND_ok ft f : track_ok ft -> FLOW_ok f ->
  match FLOW_FIND f ft with
  | Some l => exists g, ft_heap ft !! l = Some g /\ flow_key g = flow_key f
  | None => forall l g, ft_heap ft !! l = Some g -> flow_key g <> flow_key f
  end.
Proof.
  intros Hok Hf. pose proof (flow_compares ft f Hok Hf) as Hc. unfold FLOW_FIND.
  destruct (ordered_find (flow_node_cmp ft f) (ft_flows ft)) as [l|] eqn:E.
  - destruct (ordered_find_Some _ _ _ _ _ E Hc) as [Hl Hk]. destruct (proj1 (to_heap ft Hok l) Hl) as [g Hg].
    exists g. split; [done|]. unfold flow_node_key in Hk. by rewrite Hg in Hk.
  - pose proof (ordered_find_None _ _ _ _ E Hc) as Hn. intros l g Hg. rewrite Forall_forall in Hn.
    specialize (Hn l). unfold flow_node_key in Hn. rewrite Hg in Hn. apply Hn. apply to_heap; [done|by eexists].
Qed.

(** ** The table *)

(** What a flow contributes: its members, less the pointer, and when and why it
    expires. *)
Abbreviation tracked := (FLOW * (Z * reason))%type.
Definition entry (ft : FLOWTRACK) (l : floc) : option (list Z * tracked) :=
  match ft_heap ft !! l with
  | Some f =>
      match f_expiry f with
      | Some e =>
          match ft_eheap ft !! e with
          | Some x => Some (flow_key f, (set_f_expiry None f, (e_expires_at x, e_reason x)))
          | None => None
          end
      | None => None
      end
  | None => None
  end.
Definition table (ft : FLOWTRACK) : gmap (list Z) tracked := list_to_map (omap (entry ft) (ft_flows ft)).

Lemma entry_inv ft l k v : entry ft l = Some (k, v) ->
  exists f e x, ft_heap ft !! l = Some f /\ f_expiry f = Some e /\ ft_eheap ft !! e = Some x /\
    k = flow_key f /\ v = (set_f_expiry None f, (e_expires_at x, e_reason x)).
Proof.
  unfold entry. destruct (ft_heap ft !! l) as [f|]; [|done]. destruct (f_expiry f) as [e|] eqn:E; [|done].
  destruct (ft_eheap ft !! e) as [x|] eqn:Ex; [|done]. intros [= <- <-]. by exists f, e, x.
Qed.

Lemma entry_Some ft l f : track_ok ft -> ft_heap ft !! l = Some f ->
  exists e x, f_expiry f = Some e /\ ft_eheap ft !! e = Some x /\ e_flow x = l /\
    entry ft l = Some (flow_key f, (set_f_expiry None f, (e_expires_at x, e_reason x))).
Proof.
  intros Hok Hf. destruct (to_expiry ft Hok l f Hf) as (e & x & He & Hx & Hl).
  exists e, x. unfold entry. by rewrite Hf, He, Hx.
Qed.

Lemma table_keys ft : track_ok ft -> NoDup (omap (entry ft) (ft_flows ft)).*1.
Proof.
  intros Hok. assert (forall l, l ∈ ft_flows ft -> is_Some (ft_heap ft !! l)) as Hin by (intros l; by apply to_heap).
  pose proof (key_sorted_NoDup _ _ (to_flows ft Hok)) as Hnd.
  induction Hnd as [|l ls Hl Hnd IH]; [constructor|].
  assert (forall l, l ∈ ls -> is_Some (ft_heap ft !! l)) as Hin' by (intros l' ?; apply Hin; by right).
  specialize (IH Hin'). cbn [omap list_omap].
  destruct (entry ft l) as [[k v]|] eqn:E; [|done]. rewrite fmap_cons. constructor; [|done]. cbn [fst].
  intros ([k' v'] & Ek & Hkv)%list_elem_of_fmap. cbn in Ek. subst k'.
  apply list_elem_of_omap in Hkv as (l' & Hl' & E').
  apply entry_inv in E as (f & _ & _ & Hf & _ & _ & -> & _), E' as (f' & _ & _ & Hf' & _ & _ & Ek & _).
  rewrite (flow_key_inj ft l l' f f') in Hl by done. done.
Qed.

Lemma table_lookup ft k v : track_ok ft -> table ft !! k = Some v <-> exists l, entry ft l = Some (k, v).
Proof.
  intros Hok. unfold table. rewrite <- elem_of_list_to_map by (by apply table_keys).
  rewrite list_elem_of_omap. split; [intros (l & _ & E); by exists l|]. intros [l E]. exists l. split; [|done].
  apply entry_inv in E as (f & _ & _ & Hf & _). apply to_heap; [done|by eexists].
Qed.

(** One flow of the tables differs. *)
Lemma table_put ft ft' l k v : track_ok ft -> track_ok ft' ->
  (forall l', entry ft' l' = if decide (l' = l) then Some (k, v) else entry ft l') ->
  match entry ft l with Some (k0, _) => k0 = k | None => table ft !! k = None end ->
  table ft' = <[k := v]> (table ft).
Proof.
  intros Hok Hok' He Hl. apply map_eq. intros k'. apply option_eq. intros v'.
  rewrite lookup_insert_Some, !table_lookup by done. split.
  - intros [l' E]. rewrite He in E. case_decide as Hll; [injection E as <- <-; by left|].
    right. split; [|by exists l']. intros ->.
    destruct (entry ft l) as [[k0 v0]|] eqn:E0.
    + subst k0. apply entry_inv in E as (f & _ & _ & Hf & _ & _ & -> & _), E0 as (f' & _ & _ & Hf' & _ & _ & Ek & _).
      apply Hll. by apply (flow_key_inj ft l' l f f').
    + assert (table ft !! k' = Some v') as Hs by (apply table_lookup; [done|by exists l']). congruence.
  - intros [[<- <-]|[Hne [l' E]]]; [exists l; rewrite He; by rewrite decide_True|].
    exists l'. rewrite He. rewrite decide_False; [done|]. intros ->. rewrite E in Hl. congruence.
Qed.

Lemma table_delete ft ft' l k v : track_ok ft -> track_ok ft' ->
  (forall l', entry ft' l' = if decide (l' = l) then None else entry ft l') ->
  entry ft l = Some (k, v) -> table ft' = delete k (table ft).
Proof.
  intros Hok Hok' He Hl. apply map_eq. intros k'. apply option_eq. intros v'.
  rewrite lookup_delete_Some, !table_lookup by done. split.
  - intros [l' E]. rewrite He in E. case_decide as Hll; [done|]. split; [|by exists l']. intros ->.
    apply entry_inv in E as (f & _ & _ & Hf & _ & _ & -> & _), Hl as (f' & _ & _ & Hf' & _ & _ & Ek & _).
    apply Hll. by apply (flow_key_inj ft l' l f f').
  - intros [Hne [l' E]]. exists l'. rewrite He. rewrite decide_False; [done|]. intros ->. congruence.
Qed.

(** ** Changes to one flow *)

(** What does not change when a flow does. *)
Definition same_place (f f' : FLOW) : Prop :=
  flow_key f' = flow_key f /\ f_flow_seq f' = f_flow_seq f /\ f_expiry f' = f_expiry f.

Lemma seq_of_put ft l f f' : ft_heap ft !! l = Some f -> f_flow_seq f' = f_flow_seq f ->
  forall l', seq_of (flow_put l f' ft) l' = seq_of ft l'.
Proof.
  intros Hf E l'. unfold seq_of. cbn. destruct (decide (l' = l)) as [->|Hne].
  - by rewrite lookup_insert_eq, Hf.
  - by rewrite lookup_insert_ne by done.
Qed.

Lemma flow_put_ok ft l f f' : track_ok ft -> ft_heap ft !! l = Some f -> same_place f f' -> FLOW_ok f' ->
  track_ok (flow_put l f' ft).
Proof.
  intros Hok Hf (Hk & Hs & He) Hf'.
  assert (forall l1 f1, <[l := f']> (ft_heap ft) !! l1 = Some f1 ->
    exists f0, ft_heap ft !! l1 = Some f0 /\ flow_key f1 = flow_key f0 /\ f_flow_seq f1 = f_flow_seq f0 /\
      f_expiry f1 = f_expiry f0 /\ FLOW_ok f1) as Hback.
  { intros l1 f1 [[<- <-]|[Hne Hl1]]%lookup_insert_Some; [by exists f|].
    exists f1. split; [done|]. do 3 (split; [done|]). by eapply to_FLOW. }
  assert (forall l1, is_Some (<[l := f']> (ft_heap ft) !! l1) <-> is_Some (ft_heap ft !! l1)) as Hdom.
  { intros l1. destruct (decide (l1 = l)) as [->|Hne]; [|by rewrite lookup_insert_ne by done].
    rewrite lookup_insert_eq. split; [by exists f|by eexists]. }
  constructor.
  - apply (key_sorted_ext (flow_node_key ft)); [|apply Hok]. intros l1 Hl1. unfold flow_node_key. cbn.
    destruct (decide (l1 = l)) as [->|Hne]; [by rewrite lookup_insert_eq, Hf|by rewrite lookup_insert_ne by done].
  - intros l1. cbn. rewrite Hdom. apply Hok.
  - cbn. intros l1 f1 (f0 & Hf0 & _ & -> & _ & H1)%Hback. split; [done|]. by eapply to_FLOW.
  - apply (key_sorted_ext (expiry_node_key ft)); [|apply Hok]. intros e _. unfold expiry_node_key, expiry_key. cbn.
    destruct (ft_eheap ft !! e); [|done]. by rewrite (seq_of_put _ _ f).
  - apply Hok.
  - cbn. intros l1 f1 (f0 & Hf0 & _ & _ & -> & _)%Hback. by apply (to_expiry ft Hok).
  - cbn. intros e x Hx. destruct (to_flow ft Hok e x Hx) as (f0 & Hf0 & E0).
    destruct (proj2 (Hdom (e_flow x))) as [f1 Hf1]; [by eexists|]. exists f1. split; [done|].
    destruct (Hback _ _ Hf1) as (f2 & Hf2 & _ & _ & -> & _). congruence.
  - cbn. intros l1 l2 f1 f2 (g1 & Hg1 & _ & E1 & _)%Hback (g2 & Hg2 & _ & E2 & _)%Hback E.
    apply (to_seq ft Hok l1 l2 g1 g2); [done|done|congruence].
  - apply Hok.
  - apply Hok.
Qed.

Lemma entry_flow_put ft l f f' e x : ft_heap ft !! l = Some f -> f_expiry f = Some e ->
  ft_eheap ft !! e = Some x -> same_place f f' -> forall l',
  entry (flow_put l f' ft) l' =
    if decide (l' = l) then Some (flow_key f, (set_f_expiry None f', (e_expires_at x, e_reason x))) else entry ft l'.
Proof.
  intros Hf He Hx (Hk & _ & He') l'. unfold entry. cbn [flow_put set_ft_heap ft_heap ft_eheap]. case_decide as Hl.
  - subst l'. by rewrite lookup_insert_eq, He', He, Hx, Hk.
  - by rewrite lookup_insert_ne by done.
Qed.

(** Another time and reason for an expiry event: it is taken out of the tree,
    changed and inserted again. *)
Definition reschedule (e : eloc) (x : EXPIRY) (at_ : Z) (r : reason) (ft : FLOWTRACK) : FLOWTRACK :=
  let x := Mk_EXPIRY (e_flow x) at_ r in
  EXPIRY_INSERT e x (expiry_put e x (EXPIRY_REMOVE e ft)).

(** Events of different flows have different keys. *)
Lemma expiry_key_ne ft e x : track_ok ft -> ft_eheap ft !! e = Some x -> forall e' x' y,
  ft_eheap ft !! e' = Some x' -> e' <> e -> e_flow y = e_flow x ->
  expiry_key (seq_of ft) x' <> expiry_key (seq_of ft) y.
Proof.
  intros Hok Hx e' x' y Hx' Hne Hy E. unfold expiry_key in E. injection E as _ E. rewrite Hy in E.
  destruct (to_flow ft Hok e x Hx) as (f & Hf & Hfe), (to_flow ft Hok e' x' Hx') as (f' & Hf' & Hfe').
  unfold seq_of in E. rewrite Hf, Hf' in E. pose proof (to_seq ft Hok _ _ _ _ Hf' Hf E). congruence.
Qed.

Lemma filter_ne_iff {A} `{EqDecision A} (l : list A) e a : a ∈ filter (fun n => n <> e) l <-> a <> e /\ a ∈ l.
Proof. by rewrite list_elem_of_filter. Qed.

Lemma reschedule_ok ft e x at_ r : track_ok ft -> ft_eheap ft !! e = Some x -> track_ok (reschedule e x at_ r ft).
Proof.
  intros Hok Hx. set (x' := Mk_EXPIRY (e_flow x) at_ r). set (ft' := reschedule e x at_ r ft).
  assert (ft_eheap ft' = <[e := x']> (ft_eheap ft)) as Hh by done.
  assert (forall e', e' <> e -> expiry_node_key ft' e' = expiry_node_key ft e') as Hkey.
  { intros e' Hne. unfold expiry_node_key. rewrite Hh. by rewrite lookup_insert_ne by done. }
  assert (forall e', e' ∈ filter (fun n => n <> e) (ft_expiries ft) ->
            exists x', ft_eheap ft !! e' = Some x' /\ e' <> e) as Hin.
  { intros e' [Hne He']%filter_ne_iff. apply (to_eheap ft Hok) in He' as [x1 Hx1]. by exists x1. }
  destruct (ordered_insert_split (expiry_node_key ft') (expiry_node_cmp ft' x') (expiry_key (seq_of ft) x')
    (filter (fun n => n <> e) (ft_expiries ft)) e) as (l1 & l2 & El & Ei & Hs).
  { apply (key_sorted_ext (expiry_node_key ft)); [|by apply key_sorted_filter, Hok].
    intros e' (? & _ & Hne)%Hin. by rewrite Hkey. }
  { apply (expiry_compares ft' x'). intros e' (x1 & Hx1 & Hne)%Hin. rewrite Hh. by rewrite lookup_insert_ne by done. }
  { apply Forall_forall. intros e' (x1 & Hx1 & Hne)%Hin. rewrite Hkey by done. unfold expiry_node_key. rewrite Hx1.
    by apply (expiry_key_ne ft e x Hok Hx e' x1 x'). }
  { unfold expiry_node_key. by rewrite Hh, lookup_insert_eq. }
  assert (ft_expiries ft' = l1 ++ e :: l2) as Hexp by exact Ei.
  constructor; try apply Hok.
  - rewrite Hexp. exact Hs.
  - intros e'. rewrite Hexp, Hh, elem_of_app, elem_of_cons. destruct (decide (e' = e)) as [->|Hne].
    + rewrite lookup_insert_eq. split; [by eexists|by right; left].
    + rewrite lookup_insert_ne, <- (to_eheap ft Hok) by done.
      transitivity (e' ∈ filter (fun n => n <> e) (ft_expiries ft)); [rewrite El, elem_of_app; tauto|].
      rewrite filter_ne_iff. tauto.
  - intros l f Hf. destruct (to_expiry ft Hok l f Hf) as (e1 & x1 & He1 & Hx1 & Hl1). rewrite Hh.
    destruct (decide (e1 = e)) as [->|Hne].
    + exists e, x'. rewrite lookup_insert_eq. split; [done|]. split; [done|]. cbn. congruence.
    + exists e1, x1. by rewrite lookup_insert_ne by done.
  - intros e1 x1. rewrite Hh. intros [[<- <-]|[Hne Hx1]]%lookup_insert_Some; [by apply (to_flow ft Hok e x)|].
    by apply (to_flow ft Hok).
Qed.

Lemma entry_reschedule ft e x at_ r f : ft_heap ft !! (e_flow x) = Some f -> f_expiry f = Some e ->
  track_ok ft -> ft_eheap ft !! e = Some x -> forall l,
  entry (reschedule e x at_ r ft) l =
    if decide (l = e_flow x) then Some (flow_key f, (set_f_expiry None f, (at_, r))) else entry ft l.
Proof.
  intros Hf He Hok Hx l. unfold entry.
  cbn [reschedule EXPIRY_INSERT expiry_put EXPIRY_REMOVE set_ft_expiries set_ft_eheap ft_heap ft_eheap]. case_decide as Hl.
  - subst l. by rewrite Hf, He, lookup_insert_eq.
  - destruct (ft_heap ft !! l) as [f1|] eqn:Hf1; [|done]. destruct (f_expiry f1) as [e1|] eqn:He1; [|done].
    rewrite lookup_insert_ne; [done|]. intros ->. destruct (to_expiry ft Hok l f1 Hf1) as (e2 & x2 & He2 & Hx2 & Hl2).
    congruence.
Qed.

(** ** A new flow *)

Lemma new_flow_fails malloc2 tmp t ft : new_flow false malloc2 tmp t ft = (None, ft).
Proof. done. Qed.

(** The flow that is entered, without the pointer to its expiry event. *)
Definition started (tmp : FLOW) (t : Z * Z) (ft : FLOWTRACK) : FLOW :=
  set_f_flow_seq (ft_next_flow_seq ft) (set_f_flow_start t tmp).

Lemma started_ok tmp t ft : FLOW_ok tmp -> timeval_ok t -> track_ok ft -> FLOW_ok (started tmp t ft).
Proof. intros [] Ht Hok. constructor; try done. apply (to_next ft Hok). Qed.

(** There is room for one more flow: neither number wraps around. *)
Definition room (ft : FLOWTRACK) : Prop := u64 (ft_next_flow_seq ft + 1) /\ u32 (ft_num_flows ft + 1).

(** The tree of flows with a new node. *)
Lemma insert_flow_sorted ft l f : track_ok ft -> FLOW_ok f -> ft_heap ft !! l = None ->
  (forall l' g, ft_heap ft !! l' = Some g -> flow_key g <> flow_key f) ->
  forall key : floc -> list Z, key l = flow_key f -> (forall l', l' <> l -> key l' = flow_node_key ft l') ->
  exists l1 l2, ft_flows ft = l1 ++ l2 /\ ordered_insert (flow_node_cmp ft f) (ft_flows ft) l = l1 ++ l :: l2 /\
    key_sorted key (l1 ++ l :: l2).
Proof.
  intros Hok Hf Hl Hne key Hkl Hk.
  assert (forall l', l' ∈ ft_flows ft -> exists g, ft_heap ft !! l' = Some g /\ key l' = flow_key g) as Hin.
  { intros l' Hl'. apply (to_heap ft Hok) in Hl' as [g Hg]. exists g. split; [done|].
    rewrite Hk by congruence. unfold flow_node_key. by rewrite Hg. }
  apply (ordered_insert_split key _ (flow_key f)).
  - apply (key_sorted_ext (flow_node_key ft)); [|apply Hok]. intros l' (g & Hg & ->)%Hin.
    unfold flow_node_key. by rewrite Hg.
  - apply Forall_forall. intros l' (g & Hg & ->)%Hin. unfold flow_node_cmp. rewrite Hg.
    apply cmp_key; [done|]. by eapply to_FLOW.
  - apply Forall_forall. intros l' (g & Hg & ->)%Hin. by eapply Hne.
  - done.
Qed.

(** The flow [f] at [l] and its expiry event [x] at [e] are added. *)
Definition added (l : floc) (f : FLOW) (e : eloc) (x : EXPIRY) (ft ft' : FLOWTRACK) : Prop :=
  ft_heap ft !! l = None /\ ft_eheap ft !! e = None /\ f_expiry f = Some e /\ e_flow x = l /\
  ft_heap ft' = <[l := f]> (ft_heap ft) /\ ft_eheap ft' = <[e := x]> (ft_eheap ft) /\
  f_flow_seq f = ft_next_flow_seq ft /\ ft_next_flow_seq ft' = ft_next_flow_seq ft + 1 /\
  ft_num_flows ft' = ft_num_flows ft + 1 /\
  ft_flows ft' = ordered_insert (flow_node_cmp ft f) (ft_flows ft) l /\
  ft_expiries ft' = ordered_insert (expiry_node_cmp ft' x) (ft_expiries ft) e.

Lemma added_key ft ft' l f e x l' : added l f e x ft ft' ->
  flow_node_key ft' l' = if decide (l' = l) then flow_key f else flow_node_key ft l'.
Proof.
  intros (Hl & _ & _ & _ & Hh & _). unfold flow_node_key. rewrite Hh. case_decide as E.
  - subst l'. by rewrite lookup_insert_eq.
  - by rewrite lookup_insert_ne by done.
Qed.

Lemma added_seq ft ft' l f e x l' : added l f e x ft ft' ->
  seq_of ft' l' = if decide (l' = l) then ft_next_flow_seq ft else seq_of ft l'.
Proof.
  intros (Hl & _ & _ & _ & Hh & _ & Hs & _). unfold seq_of. rewrite Hh. case_decide as E.
  - subst l'. by rewrite lookup_insert_eq.
  - by rewrite lookup_insert_ne by done.
Qed.

(** The events of the table keep their keys, which differ from that of the new one. *)
Lemma added_event ft ft' l f e x e' : track_ok ft -> added l f e x ft ft' -> e' ∈ ft_expiries ft ->
  exists x', ft_eheap ft !! e' = Some x' /\ ft_eheap ft' !! e' = Some x' /\ e' <> e /\
    expiry_node_key ft' e' = expiry_node_key ft e' /\ expiry_node_key ft' e' <> expiry_key (seq_of ft') x.
Proof.
  intros Hok Ha He'. pose proof Ha as (Hl & He & _ & Hx & Hh & Heh & _).
  apply (to_eheap ft Hok) in He' as [x' Hx']. exists x'. assert (e' <> e) as Hne by congruence.
  rewrite Heh, lookup_insert_ne by done. do 3 (split; [done|]).
  destruct (to_flow ft Hok e' x' Hx') as (f' & Hf' & _). assert (e_flow x' <> l) as Hnl by congruence.
  unfold expiry_node_key. rewrite Heh, lookup_insert_ne, Hx' by done. unfold expiry_key.
  rewrite !(added_seq _ _ _ _ _ _ _ Ha), (decide_False (P := e_flow x' = l)), (decide_True (P := e_flow x = l)) by done.
  split; [done|]. intros [= _ E]. unfold seq_of in E. rewrite Hf' in E. pose proof (to_FLOW ft Hok _ _ Hf'). lia.
Qed.

Lemma added_ok ft ft' l f e x : track_ok ft -> added l f e x ft ft' -> FLOW_ok f -> room ft ->
  (forall l g, ft_heap ft !! l = Some g -> flow_key g <> flow_key f) -> track_ok ft'.
Proof.
  intros Hok Ha Hf [Hr1 Hr2] Hne. pose proof Ha as (Hl & He & Hfe & Hx & Hh & Heh & Hs & Hn & Hnum & Hfl & Hex).
  destruct (insert_flow_sorted ft l f Hok Hf Hl Hne (flow_node_key ft')) as (l1 & l2 & El & Ei & Hsort);
    [by rewrite (added_key _ _ _ _ _ _ _ Ha), decide_True|
     intros l' Hl'; by rewrite (added_key _ _ _ _ _ _ _ Ha), decide_False|].
  destruct (ordered_insert_split (expiry_node_key ft') (expiry_node_cmp ft' x) (expiry_key (seq_of ft') x)
    (ft_expiries ft) e) as (e1 & e2 & Ee & Eie & Hsorte).
  { apply (key_sorted_ext (expiry_node_key ft)); [|apply Hok]. intros e' He'.
    by destruct (added_event _ _ _ _ _ _ _ Hok Ha He') as (x' & _ & _ & _ & -> & _). }
  { apply expiry_compares. intros e' He'. destruct (added_event _ _ _ _ _ _ _ Hok Ha He') as (x' & _ & Hx' & _).
    by exists x'. }
  { apply Forall_forall. intros e' He'. by destruct (added_event _ _ _ _ _ _ _ Hok Ha He') as (x' & _ & _ & _ & _ & ?). }
  { unfold expiry_node_key. by rewrite Heh, lookup_insert_eq. }
  constructor.
  - rewrite Hfl, Ei. exact Hsort.
  - intros l'. rewrite Hfl, Ei, Hh, elem_of_app, elem_of_cons. destruct (decide (l' = l)) as [->|Hl'].
    + rewrite lookup_insert_eq. split; [by eexists|by right; left].
    + rewrite lookup_insert_ne by done. rewrite <- (to_heap ft Hok), El, elem_of_app. tauto.
  - intros l' f'. rewrite Hh, Hn. intros [[<- <-]|[Hl' Hf']]%lookup_insert_Some; [split; [done|lia]|].
    destruct (to_FLOW ft Hok l' f' Hf'). split; [done|lia].
  - rewrite Hex, Eie. exact Hsorte.
  - intros e'. rewrite Hex, Eie, Heh, elem_of_app, elem_of_cons. destruct (decide (e' = e)) as [->|He'].
    + rewrite lookup_insert_eq. split; [by eexists|by right; left].
    + rewrite lookup_insert_ne by done. rewrite <- (to_eheap ft Hok), Ee, elem_of_app. tauto.
  - intros l' f'. rewrite Hh, Heh. intros [[<- <-]|[Hl' Hf']]%lookup_insert_Some.
    { exists e, x. by rewrite lookup_insert_eq. }
    destruct (to_expiry ft Hok l' f' Hf') as (e' & x' & ? & Hx' & ?). exists e', x'.
    rewrite lookup_insert_ne by congruence. done.
  - intros e' x'. rewrite Hh, Heh. intros [[<- <-]|[He' Hx']]%lookup_insert_Some.
    { exists f. by rewrite Hx, lookup_insert_eq. }
    destruct (to_flow ft Hok e' x' Hx') as (f' & Hf' & ?). exists f'. rewrite lookup_insert_ne by congruence. done.
  - intros l1' l2' f1 f2. rewrite Hh.
    assert (forall l' f', ft_heap ft !! l' = Some f' -> f_flow_seq f' <> f_flow_seq f) as Hneq.
    { intros l' f' Hf'. pose proof (to_FLOW ft Hok _ _ Hf'). lia. }
    intros [[<- <-]|[_ H1]]%lookup_insert_Some [[<- <-]|[_ H2]]%lookup_insert_Some E; [done| | |].
    + by destruct (Hneq _ _ H2).
    + by destruct (Hneq _ _ H1).
    + by apply (to_seq ft Hok l1' l2' f1 f2).
  - rewrite Hn. exact Hr1.
  - rewrite Hnum. split; [|done]. rewrite Hfl, Ei, (proj1 (to_num ft Hok)), El, !length_app. cbn [length]. lia.
Qed.

Lemma entry_added ft ft' l f e x l' : track_ok ft -> added l f e x ft ft' ->
  entry ft' l' = if decide (l' = l) then Some (flow_key f, (set_f_expiry None f, (e_expires_at x, e_reason x)))
                 else entry ft l'.
Proof.
  intros Hok (Hl & He & Hfe & Hx & Hh & Heh & _). unfold entry. rewrite Hh, Heh. case_decide as E.
  - subst l'. by rewrite lookup_insert_eq, Hfe, lookup_insert_eq.
  - rewrite lookup_insert_ne by done. destruct (ft_heap ft !! l') as [f'|] eqn:Hf'; [|done].
    destruct (f_expiry f') as [e'|] eqn:He'; [|done]. rewrite lookup_insert_ne; [done|]. intros <-.
    destruct (to_expiry ft Hok l' f' Hf') as (e1 & x1 & E1 & Hx1 & _). congruence.
Qed.

Lemma table_None ft k : track_ok ft -> (forall l g, ft_heap ft !! l = Some g -> flow_key g <> k) -> table ft !! k = None.
Proof.
  intros Hok Hne. destruct (table ft !! k) as [v|] eqn:E; [|done].
  apply table_lookup in E as [l (f & _ & _ & Hf & _ & _ & -> & _)%entry_inv]; [|done]. by destruct (Hne l f Hf).
Qed.

(** The table with the new flow. *)
Lemma table_added ft ft' l f e x : track_ok ft -> track_ok ft' -> added l f e x ft ft' ->
  (forall l g, ft_heap ft !! l = Some g -> flow_key g <> flow_key f) ->
  table ft' = <[flow_key f := (set_f_expiry None f, (e_expires_at x, e_reason x))]> (table ft).
Proof.
  intros Hok Hok' Ha Hne. apply (table_put ft ft' l); [done|done| |].
  - intros l'. by apply (entry_added _ _ _ _ _ _ _ Hok Ha).
  - destruct Ha as (Hl & _). unfold entry. rewrite Hl. by apply table_None.
Qed.

Lemma is_fresh_eheap ft e x : ft_eheap ft !! e = Some x -> fresh (dom (ft_eheap ft)) <> e.
Proof. intros He <-. pose proof (is_fresh (dom (ft_eheap ft))) as H. apply H. by apply elem_of_dom_2 in He. Qed.

Lemma new_flow_ok tmp t ft : track_ok ft -> room ft ->
  let f := started tmp t ft in
  exists l e ft', new_flow true true tmp t ft = (Some l, ft') /\
    added l (set_f_expiry (Some e) f) e (Mk_EXPIRY l 1 R_GENERAL) ft ft' /\
    ft_conf ft' = ft_conf ft /\ ft_count ft' = ft_count ft.
Proof.
  intros Hok [Hr1 Hr2] f. unfold new_flow. cbn [negb].
  set (l := fresh (dom (ft_heap ft))). set (e := fresh (dom (ft_eheap ft))).
  eexists l, e, _. split; [reflexivity|]. split; [|done].
  split; [apply not_elem_of_dom, is_fresh|]. split; [apply not_elem_of_dom, is_fresh|].
  do 2 (split; [done|]).
  split; [apply insert_insert_eq|]. split; [done|]. split; [done|].
  split; [by apply wrap64_small|]. split; [by apply wrap32_small|].
  split; [done|]. apply ordered_insert_ext. intros e' He'. apply (to_eheap ft Hok) in He' as [x' Hx'].
  unfold expiry_node_cmp. cbn. rewrite lookup_insert_ne; [done|].
  apply (is_fresh_eheap ft e' x' Hx').
Qed.

(** ** Removing a flow *)

(** FLOW_REMOVE and EXPIRY_REMOVE of the flow at [l] and of its expiry event,
    which are then freed. *)
Definition evict (l : floc) (f : FLOW) (e : eloc) (ft : FLOWTRACK) : FLOWTRACK :=
  let ft := EXPIRY_REMOVE e (FLOW_REMOVE f ft) in
  set_ft_num_flows (wrap32 (ft_num_flows ft - 1))
    (set_ft_heap (delete l (ft_heap ft)) (set_ft_eheap (delete e (ft_eheap ft)) ft)).

(** The other flows and events stay. *)
Lemma evict_heap l f e ft l' f' :
  ft_heap (evict l f e ft) !! l' = Some f' <-> l' <> l /\ ft_heap ft !! l' = Some f'.
Proof. cbn. rewrite lookup_delete_Some. split; intros [Hne Hs]; (split; [congruence|done]). Qed.
Lemma evict_eheap l f e ft e' x' :
  ft_eheap (evict l f e ft) !! e' = Some x' <-> e' <> e /\ ft_eheap ft !! e' = Some x'.
Proof. cbn. rewrite lookup_delete_Some. split; intros [Hne Hs]; (split; [congruence|done]). Qed.

Lemma event_of_other ft l f e e' x' : track_ok ft -> ft_heap ft !! l = Some f -> f_expiry f = Some e ->
  ft_eheap ft !! e' = Some x' -> e' <> e -> e_flow x' <> l.
Proof. intros Hok Hf He Hx' Hne. destruct (to_flow ft Hok e' x' Hx') as (f' & Hf' & He'). congruence. Qed.

Lemma entry_evict ft l f e : track_ok ft -> ft_heap ft !! l = Some f -> f_expiry f = Some e -> forall l',
  entry (evict l f e ft) l' = if decide (l' = l) then None else entry ft l'.
Proof.
  intros Hok Hf He l'. unfold entry. cbn [evict set_ft_num_flows set_ft_heap ft_heap set_ft_eheap ft_eheap].
  cbn [EXPIRY_REMOVE FLOW_REMOVE set_ft_expiries set_ft_flows ft_heap ft_eheap]. case_decide as Hl.
  - subst l'. by rewrite lookup_delete_eq.
  - rewrite lookup_delete_ne by done. destruct (ft_heap ft !! l') as [f'|] eqn:Hf'; [|done].
    destruct (f_expiry f') as [e'|] eqn:He'; [|done]. rewrite lookup_delete_ne; [done|]. intros ->.
    destruct (to_expiry ft Hok l f Hf) as (e1 & x1 & E1 & Hx1 & Hl1).
    destruct (to_expiry ft Hok l' f' Hf') as (e2 & x2 & E2 & Hx2 & Hl2). congruence.
Qed.

(** The node leaves its tree, and only it. *)
Lemma evict_flows ft l f e : track_ok ft -> ft_heap ft !! l = Some f ->
  exists l1 l2, ft_flows ft = l1 ++ l :: l2 /\ ft_flows (evict l f e ft) = l1 ++ l2 /\
    forall l', l' ∈ l1 ++ l2 <-> l' ∈ ft_flows ft /\ l' <> l.
Proof.
  intros Hok Hf. destruct (to_FLOW ft Hok l f Hf) as [Hfok _].
  destruct (ordered_remove_split (flow_node_key ft) (flow_node_cmp ft f) (flow_key f) (ft_flows ft) l)
    as (l1 & l2 & El & Er); [apply Hok|by apply flow_compares|apply to_heap; [done|by eexists]|
      unfold flow_node_key; by rewrite Hf|].
  exists l1, l2. split; [exact El|]. split; [exact Er|]. intros l'.
  pose proof (key_sorted_NoDup _ _ (to_flows ft Hok)) as Hnd. rewrite El in Hnd |- *.
  apply NoDup_app in Hnd as (Hn1 & Hn2 & [Hn3 _]%NoDup_cons). rewrite !elem_of_app, elem_of_cons. split; [|tauto].
  intros [H|H]; (split; [tauto|]); intros ->; [|done]. apply (Hn2 _ H). by left.
Qed.

Lemma evict_ok ft l f e : track_ok ft -> ft_heap ft !! l = Some f -> f_expiry f = Some e -> track_ok (evict l f e ft).
Proof.
  intros Hok Hf He. destruct (evict_flows ft l f e Hok Hf) as (l1 & l2 & El & Hfl & Hin).
  assert (forall l', l' <> l -> ft_heap (evict l f e ft) !! l' = ft_heap ft !! l') as Hh by (intros l' Hl'; apply lookup_delete_ne; congruence).
  assert (forall e', e' <> e -> ft_eheap (evict l f e ft) !! e' = ft_eheap ft !! e') as Hhe by (intros e' He'; apply lookup_delete_ne; congruence).
  constructor.
  - apply (key_sorted_ext (flow_node_key ft)).
    + intros l' Hl'. rewrite Hfl in Hl'. apply Hin in Hl' as [_ Hne]. unfold flow_node_key. by rewrite Hh.
    + rewrite Hfl. apply (key_sorted_remove _ _ l). rewrite <- El. apply Hok.
  - intros l'. rewrite Hfl, Hin, (to_heap ft Hok). split.
    + intros [[f' Hf'] Hne]. exists f'. by apply evict_heap.
    + intros [f' [Hne Hf']%evict_heap]. split; [by eexists|done].
  - intros l' f' [_ Hf']%evict_heap. by apply (to_FLOW ft Hok l').
  - apply (key_sorted_ext (expiry_node_key ft)); [|by apply key_sorted_filter, Hok].
    intros e' [Hne He']%filter_ne_iff. unfold expiry_node_key. rewrite Hhe by done.
    destruct (ft_eheap ft !! e') as [x'|] eqn:Hx'; [|done]. unfold expiry_key, seq_of.
    rewrite Hh; [done|]. by apply (event_of_other ft l f e e' x').
  - intros e'. cbn [evict set_ft_num_flows set_ft_heap set_ft_eheap ft_expiries]. unfold EXPIRY_REMOVE at 1.
    cbn [set_ft_expiries ft_expiries]. rewrite filter_ne_iff. unfold FLOW_REMOVE. cbn [set_ft_flows ft_expiries].
    rewrite (to_eheap ft Hok). split.
    + intros [Hne [x' Hx']]. exists x'. by apply evict_eheap.
    + intros [x' [Hne Hx']%evict_eheap]. split; [done|by eexists].
  - intros l' f' [Hne Hf']%evict_heap. destruct (to_expiry ft Hok l' f' Hf') as (e' & x' & He' & Hx' & Hl').
    exists e', x'. split; [done|]. split; [|done]. apply evict_eheap. split; [|done]. intros ->.
    destruct (to_expiry ft Hok l f Hf) as (e1 & x1 & E1 & Hx1 & Hl1). congruence.
  - intros e' x' [Hne Hx']%evict_eheap. destruct (to_flow ft Hok e' x' Hx') as (f' & Hf' & He'). exists f'.
    split; [|done]. apply evict_heap. split; [|done]. by apply (event_of_other ft l f e e' x').
  - intros l3 l4 f3 f4 [_ H3]%evict_heap [_ H4]%evict_heap. by apply (to_seq ft Hok).
  - apply Hok.
  - destruct (to_num ft Hok) as [Hn Hu]. rewrite Hfl.
    change (ft_num_flows (evict l f e ft)) with (wrap32 (ft_num_flows ft - 1)).
    rewrite El, length_app in Hn. cbn [length] in Hn. rewrite wrap32_small by (width; lia).
    rewrite length_app. split; [lia|width; lia].
Qed.

(** The table without the flow. *)
Lemma table_evict ft l f e : track_ok ft -> ft_heap ft !! l = Some f -> f_expiry f = Some e ->
  table (evict l f e ft) = delete (flow_key f) (table ft).
Proof.
  intros Hok Hf He. destruct (entry_Some ft l f Hok Hf) as (e1 & x & E1 & Hx & Hl & E).
  apply (table_delete _ _ l _ _ Hok (evict_ok ft l f e Hok Hf He) (entry_evict ft l f e Hok Hf He) E).
Qed.

(** ** The initial tables *)

Lemma init_flowtrack_ok : track_ok init_flowtrack /\ table init_flowtrack = ∅.
Proof.
  split; [|done]. constructor; try done.
  - constructor.
  - intros l. split; [by intros ?%not_elem_of_nil|]. by intros [].
  - constructor.
  - intros e. split; [by intros ?%not_elem_of_nil|]. by intros [].
Qed.
