(* ===== verification/FlowTrackProps.v ===== *)
(** * Packets and the table of flows

    process_packet keeps the two trees and the two heaps consistent, and acts on
    the table as [arrive] does: one flow, that of the packet, is entered or
    brought up to date; what a failing allocation leaves behind.  What a packet
    says ([says]) does not depend on the parsers: the two directions of a
    conversation are one flow. *)

From stdpp Require Import gmap.
From S2P Require Import Prelude Packed Order Splay Keyed Addr.
From S2P Require Import SoftTypes Ipflow FlowTrack FlowTable.

(** ** The flow of a packet is well formed *)

Lemma zero16_ok : length (replicate 16 0) = 16%nat /\ Forall u8 (replicate 16 0).
Proof. split; [done|]. apply Forall_replicate. by width. Qed.

Lemma FLOW_zero_ok : FLOW_ok FLOW_zero.
Proof.
  constructor; try (split; (apply zero16_ok || by width)); try by width.
  - split; (split; [done|]; apply Forall_replicate; by split; width).
  - split; (split; [done|]; apply Forall_replicate; by width).
Qed.

Lemma both2_orient {A} (P : A -> Prop) ndx p : both2 P p -> both2 P (orient ndx p).
Proof. intros [H1 H2]. by destruct ndx. Qed.

(** Assignments of members in range. *)
Lemma flow_base_ok f af addr len ndx : FLOW_ok f -> both2 (fun a => length a = 16%nat /\ Forall u8 a) addr ->
  FLOW_ok (set_f_packets (orient ndx (1, 0)) (set_f_octets (orient ndx (wrap32 len, 0))
    (set_f_addr (orient ndx addr) (set_f_af af f)))).
Proof.
  intros [] Ha. constructor; try done; apply both2_orient; try done; split; try apply (wrap32_u32 len); by width.
Qed.

Lemma flow_protocol_ok f p : FLOW_ok f -> u8 p -> FLOW_ok (set_f_protocol p f).
Proof. intros [] Hp. by constructor. Qed.

Lemma with_transport_ok pkt off proto ndx f : Forall u8 pkt -> FLOW_ok f -> FLOW_ok (with_transport pkt off proto ndx f).
Proof.
  intros Hb []. constructor; try done; apply both2_orient.
  - unfold transport_ports. destruct (_ || _).
    { split; apply (field_int_bound pkt _ 2 Hb); done. }
    destruct (_ =? _); split; try apply htons_u16; by width.
  - unfold transport_flags. split; [|by width]. destruct (_ && _); [|by width]. by apply (field_int_bound pkt _ 1).
Qed.

Lemma length_field_nat pkt off n : 0 <= off -> 0 <= n -> off + n <= Z.of_nat (length pkt) ->
  length (field pkt off n) = Z.to_nat n.
Proof. intros. apply Nat2Z.inj. rewrite length_field by lia. lia. Qed.

Lemma ipv4_flow_ok pkt len af : Forall u8 pkt -> ipv4_ok pkt = true ->
  FLOW_ok (ipv4_flow pkt len af) /\ f_expiry (ipv4_flow pkt len af) = None.
Proof.
  intros Hb Hok%ipv4_ok_length. unfold ipv4_flow. set (flow := set_f_packets _ _).
  assert (FLOW_ok flow) as Hf.
  { apply (flow_base_ok (set_f_protocol (field_int pkt 9 1) FLOW_zero)).
    - apply flow_protocol_ok; [apply FLOW_zero_ok|]. by apply (field_int_bound pkt 9 1).
    - split; (split; [cbn [fst snd]; rewrite length_app, length_replicate, length_field_nat by lia; done|]);
        (apply Forall_app; split; [by apply field_u8|apply Forall_replicate; by width]). }
  destruct (ipv4_later pkt); [by split|]. split; [by apply with_transport_ok|done].
Qed.

Lemma ipv6_flow_ok pkt len af : Forall u8 pkt -> ipv6_ok pkt = true ->
  FLOW_ok (ipv6_flow pkt len af) /\ f_expiry (ipv6_flow pkt len af) = None.
Proof.
  intros Hb Hok%ipv6_ok_length. unfold ipv6_flow. set (flow := set_f_packets _ _).
  assert (FLOW_ok flow) as Hf.
  { apply (flow_base_ok (set_f_ip6_flowlabel
      (orient (ipv6_ndx pkt) (Z.land (field_int pkt 0 4) IPV6_FLOWLABEL_MASK, 0)) FLOW_zero) af).
    - destruct FLOW_zero_ok. constructor; try done. apply both2_orient. split; [|by width].
      apply u32_land. apply (field_int_bound pkt 0 4 Hb). lia.
    - split; (split; [cbn [fst snd]; by rewrite length_field_nat by lia|by apply field_u8]). }
  destruct (fst (ipv6_walk pkt)) as [r|[[nxt off] c]] eqn:E; [by split|]. split; [|done].
  apply with_transport_ok; [done|]. apply flow_protocol_ok; [done|].
  unfold ipv6_walk in E.
  destruct (ipv6_headers_ok (length pkt) pkt 40 (Z.of_nat (length pkt) - 40) (field_int pkt 6 1) false) as (h & b & Eh & Hh);
    [done|lia..|by apply (field_int_bound pkt 6 1)|lia|].
  rewrite Eh in E. cbn [fst] in E. subst h. apply Hh.
Qed.

(** A packet whose ICMP header is not captured whole. *)
Definition icmp_unread (pkt : bytes) (af : Z) : bool :=
  if af =? AF_INET
  then ipv4_ok pkt && negb (ipv4_later pkt) && truncated_icmp pkt (ipv4_off pkt) (field_int pkt 9 1)
  else (af =? AF_INET6) && ipv6_ok pkt &&
       match fst (ipv6_walk pkt) with inl _ => false | inr (nxt, off, _) => truncated_icmp pkt off nxt end.

(** The flow of a packet: no result other than -1 stops process_packet. *)
Definition packet_flow (pkt : bytes) (af len : Z) : option FLOW * bool :=
  if af =? AF_INET then
    if ipv4_ok pkt then (Some (ipv4_flow pkt len af), ipv4_isfrag pkt) else (None, false)
  else if af =? AF_INET6 then
    if ipv6_ok pkt then (Some (ipv6_flow pkt len af), snd (ipv6_walk pkt)) else (None, false)
  else (None, false).

Lemma packet_to_flowrec_ok pkt af len : Forall u8 pkt ->
  packet_to_flowrec pkt af (Z.of_nat (length pkt)) len =
    if icmp_unread pkt af then Undef OutOfBounds else Ret (packet_flow pkt af len).
Proof.
  intros Hb. unfold packet_to_flowrec, icmp_unread, packet_flow.
  destruct (af =? AF_INET); [|destruct (af =? AF_INET6); [|done]].
  - pose proof (ipv4_to_flowrec_ok pkt len false af Hb) as H.
    destruct (ipv4_ok pkt); cbn [negb andb] in *; [|by rewrite H].
    destruct (_ && _); [by rewrite H|]. by destruct H as (r & -> & [-> | ->]).
  - pose proof (ipv6_to_flowrec_ok pkt len false af Hb) as H.
    destruct (ipv6_ok pkt); cbn [negb andb] in *; [|by rewrite H].
    destruct (match fst (ipv6_walk pkt) with inl _ => _ | inr _ => _ end); [by rewrite H|].
    by destruct H as (r & -> & [-> | ->]).
Qed.

(** C36: reading a packet terminates and stays within the captured bytes, whatever
    they are (IPv4 options, chains of IPv6 extension headers, fragments and short
    transport headers included), but for one case: the type and the code of an
    ICMP header are read even when they were not captured.  Otherwise the result
    is the flow of the packet, or that it is bad, as [packet_flow] says. *)
Theorem packet_to_flowrec_total pkt af len : Forall u8 pkt ->
  packet_to_flowrec pkt af (Z.of_nat (length pkt)) len =
    if icmp_unread pkt af then Undef OutOfBounds else Ret (packet_flow pkt af len).
Proof. apply packet_to_flowrec_ok. Qed.

Lemma packet_flow_ok pkt af len tmp frag : Forall u8 pkt -> packet_flow pkt af len = (Some tmp, frag) ->
  FLOW_ok tmp /\ f_expiry tmp = None.
Proof.
  intros Hb. unfold packet_flow. destruct (af =? AF_INET); [|destruct (af =? AF_INET6); [|done]].
  - destruct (ipv4_ok pkt) eqn:Hok; [|done]. intros [= <- _]. by apply ipv4_flow_ok.
  - destruct (ipv6_ok pkt) eqn:Hok; [|done]. intros [= <- _]. by apply ipv6_flow_ok.
Qed.

Lemma apply_track_level_ok level f : FLOW_ok f -> FLOW_ok (apply_track_level level f).
Proof.
  intros []. unfold apply_track_level. destruct (_ =? _); [|destruct (_ =? _); [|by constructor]];
    constructor; try done; try split; by width.
Qed.

(** ** What a packet says of its conversation, read off its bytes

    An IPv4 packet that is not the first fragment has no ports, and neither has an
    IPv6 packet whose chain of headers leads to no transport header. *)

Definition ipv4_offset (pkt : bytes) : Z := field_int pkt 6 1 mod 32 * 256 + field_int pkt 7 1.
Definition header_ports (pkt : bytes) (off proto : Z) : Z * Z := default (0, 0) (transport_ports pkt off proto).

Inductive says (pkt : bytes) : Z -> conversation -> Prop :=
  | says_ipv4 :
      ipv4_offset pkt = 0 ->
      says pkt 2 (field pkt 12 4, field pkt 16 4, field_int pkt 9 1,
                  header_ports pkt (field_int pkt 0 1 mod 16 * 4) (field_int pkt 9 1))
  | says_ipv4_later :
      ipv4_offset pkt <> 0 -> says pkt 2 (field pkt 12 4, field pkt 16 4, field_int pkt 9 1, (0, 0))
  | says_ipv6 proto off :
      ipv6_chain pkt 40 (field_int pkt 6 1) (Some (proto, off)) ->
      says pkt 10 (field pkt 8 16, field pkt 24 16, proto, header_ports pkt off proto)
  | says_ipv6_none :
      ipv6_chain pkt 40 (field_int pkt 6 1) None ->
      says pkt 10 (field pkt 8 16, field pkt 24 16, 0, (0, 0)).

Lemma ipv4_offset_bits a b : u8 a -> u8 b ->
  (Z.land (ntohs (a + 256 * b)) IP_OFFMASK =? 0) = (a mod 32 * 256 + b =? 0) /\
  (Z.land (ntohs (a + 256 * b)) (Z.lor IP_OFFMASK IP_MF) = 0 -> Z.land (ntohs (a + 256 * b)) IP_OFFMASK = 0).
Proof.
  intros Ha Hb. split.
  - assert (forallb (fun a => forallb (fun b =>
      Bool.eqb (Z.land (ntohs (a + 256 * b)) IP_OFFMASK =? 0) (a mod 32 * 256 + b =? 0)) (seqZ 0 256)) (seqZ 0 256) = true) as H
      by (vm_compute; reflexivity).
    rewrite forallb_forall in H. specialize (H a). rewrite forallb_forall in H.
    apply eqb_prop, H; apply list_elem_of_In, elem_of_seqZ; unfold u8 in *; lia.
  - intros H. apply (f_equal (fun z => Z.land z IP_OFFMASK)) in H. rewrite <- Z.land_assoc, Z.land_0_l in H. exact H.
Qed.

Lemma ipv4_later_offset pkt : Forall u8 pkt -> 20 <= Z.of_nat (length pkt) ->
  ipv4_later pkt = negb (ipv4_offset pkt =? 0).
Proof.
  intros Hb Hl. unfold ipv4_later, ipv4_isfrag, ipv4_frag, ipv4_offset. rewrite field_int_two by lia. change (6 + 1) with 7.
  destruct (ipv4_offset_bits (field_int pkt 6 1) (field_int pkt 7 1)) as [<- Hi];
    [apply (field_int_bound pkt _ 1 Hb); lia..|].
  destruct (Z.eqb_spec (Z.land (ntohs (field_int pkt 6 1 + 256 * field_int pkt 7 1)) (Z.lor IP_OFFMASK IP_MF)) 0) as [E|E]; [|done].
  by rewrite (Hi E).
Qed.

(** An address in the 16 bytes of a member. *)
Definition pad16 (a : list Z) : list Z := a ++ replicate (16 - length a) 0.

Lemma says_ok pkt af len f g c : Forall u8 pkt -> packet_flow pkt af len = (Some f, g) -> says pkt af c ->
  FLOW_ok f /\
  (let '(src, dst, proto, ports) := c in
   length src = Z.to_nat (if af =? 2 then 4 else 16) /\ length dst = length src /\
   flow_identity f = (af, orient (forward c) (pad16 src, pad16 dst), proto, orient (forward c) ports) /\
   f_packets f = orient (forward c) (1, 0) /\ f_octets f = orient (forward c) (wrap32 len, 0)).
Proof.
  intros Hb E Hs. split; [by eapply packet_flow_ok|]. unfold packet_flow in E.
  assert (forall b, length b = 4%nat -> pad16 b = b ++ replicate 12 0) as H4 by (intros b Hl; unfold pad16; by rewrite Hl).
  assert (forall b, length b = 16%nat -> pad16 b = b) as H16
    by (intros b Hl; unfold pad16; rewrite Hl; apply app_nil_r).
  destruct Hs as [Ho|Ho|proto off Hc|Hc]; cbn [Z.eqb Pos.eqb AF_INET AF_INET6] in E |- *.
  1,2: change (2 =? AF_INET) with true in E; cbv iota in E; destruct (ipv4_ok pkt) eqn:Hok; [|done];
    injection E as <- _; apply ipv4_ok_length in Hok; pose proof (ipv4_later_offset pkt Hb Hok) as Hl;
    rewrite !length_field_nat by lia; do 2 (split; [done|]); rewrite !H4 by (rewrite length_field_nat by lia; done).
  - rewrite (proj2 (Z.eqb_eq _ 0) Ho) in Hl. unfold flow_identity, ipv4_flow. rewrite Hl.
    unfold header_ports. replace (field_int pkt 0 1 mod 16 * 4) with (ipv4_off pkt); [done|].
    unfold ipv4_off. by rewrite (Z.land_ones _ 4).
  - rewrite (proj2 (Z.eqb_neq _ 0) Ho) in Hl. unfold flow_identity, ipv4_flow. rewrite Hl. cbn.
    split; [|done]. unfold ipv4_ndx. by destruct (0 <? _).
  - change (10 =? AF_INET) with false in E. change (10 =? AF_INET6) with true in E. cbv iota in E.
    destruct (ipv6_ok pkt) eqn:Hok; [|done]. injection E as <- _. apply ipv6_ok_length in Hok.
    destruct (ipv6_headers_chain pkt _ _ _ Hb Hc (length pkt) false) as (h & b & Eh & Hh); [lia..|].
    unfold flow_identity, ipv6_flow, ipv6_walk. rewrite Eh. cbn [fst].
    destruct h as [r|[[nxt off'] cap]]; [done|]. injection Hh as <- <-.
    rewrite !length_field_nat by lia. do 2 (split; [done|]). by rewrite !H16 by (rewrite length_field_nat by lia; done).
  - change (10 =? AF_INET) with false in E. change (10 =? AF_INET6) with true in E. cbv iota in E.
    destruct (ipv6_ok pkt) eqn:Hok; [|done]. injection E as <- _. apply ipv6_ok_length in Hok.
    destruct (ipv6_headers_chain pkt _ _ _ Hb Hc (length pkt) false) as (h & b & Eh & Hh); [lia..|].
    unfold flow_identity, ipv6_flow, ipv6_walk. rewrite Eh. cbn [fst].
    destruct h as [r|[[nxt off'] cap]]; [|done].
    rewrite !length_field_nat by lia. do 2 (split; [done|]). rewrite !H16 by (rewrite length_field_nat by lia; done).
    cbn. split; [|done]. unfold ipv6_ndx. by destruct (0 <? _).
Qed.

(** Every accepted packet says one. *)
Lemma says_total pkt af len f g : Forall u8 pkt -> packet_flow pkt af len = (Some f, g) -> exists c, says pkt af c.
Proof.
  intros Hb. unfold packet_flow. destruct (Z.eqb_spec af AF_INET) as [->|_]; [|destruct (Z.eqb_spec af AF_INET6) as [->|_]; [|done]].
  - intros _. destruct (decide (ipv4_offset pkt = 0)) as [E|E]; eexists; [by apply says_ipv4|by apply says_ipv4_later].
  - intros _. destruct (ipv6_chain_total pkt Hb (S (length pkt)) 40 (field_int pkt 6 1)) as [[[proto off]|] Hr]; [lia..| |];
      eexists; [by apply says_ipv6|by apply says_ipv6_none].
Qed.

(** What the tracking level looks at. *)
Definition seen_at (level : Z) (c : conversation) : conversation :=
  let '(src, dst, proto, ports) := c in
  if level =? TRACK_IP_ONLY then (src, dst, 0, (0, 0))
  else if level =? TRACK_IP_PROTO then (src, dst, proto, (0, 0))
  else c.

(** The packet counts once, with its length, and next to the lower address when
    it comes from there. *)
Definition counted (f : FLOW) (c : conversation) (len : Z) : Prop :=
  let '(src, dst, _, _) := c in
  if decide (lex dst src = -1)
  then f_addr f = (pad16 dst, pad16 src) /\ f_packets f = (0, 1) /\ f_octets f = (0, wrap32 len)
  else f_addr f = (pad16 src, pad16 dst) /\ f_packets f = (1, 0) /\ f_octets f = (wrap32 len, 0).

Lemma forward_lower src dst proto p : length src = length dst ->
  forward (src, dst, proto, p) = bool_decide (lex dst src = -1).
Proof.
  intros Hl. cbn [forward]. rewrite bytes_diff_sign by done. rewrite (lex_opp src dst). apply bool_decide_ext. lia.
Qed.

Lemma seen_at_identity level f af src dst proto p b : flow_identity f = (af, orient b (pad16 src, pad16 dst), proto, orient b p) ->
  flow_identity (apply_track_level level f) =
    let '(src, dst, proto, p) := seen_at level (src, dst, proto, p) in
    (af, orient b (pad16 src, pad16 dst), proto, orient b p).
Proof.
  unfold flow_identity, apply_track_level, seen_at. intros H.
  destruct (level =? TRACK_IP_ONLY); [|destruct (level =? TRACK_IP_PROTO)]; cbn in H |- *.
  all: injection H as E1 E2 E3 E4; rewrite ?E1, ?E2, ?E3, ?E4; by destruct b.
Qed.

Lemma identity_key f f' : FLOW_ok f -> FLOW_ok f' -> flow_compare f f' = 0 <-> flow_identity f = flow_identity f'.
Proof.
  intros Hf Hf'. rewrite (cmp_zero (ok := FLOW_ok) (key := flow_key)) by done. unfold flow_key, flow_identity. split; [|by intros [= -> -> -> ->]].
  destruct (fo_addr f Hf) as [[L1 _] [L2 _]], (fo_addr f' Hf') as [[L1' _] [L2' _]], (fo_port f Hf), (fo_port f' Hf').
  intros [= Ea E]. apply app_inj_1 in E as [Ea1 E]; [|congruence]. apply app_inj_1 in E as [Ea2 E]; [|congruence].
  injection E as Ep E1 E2. apply (f_equal htons) in E1, E2. rewrite !htons_ntohs in E1, E2 by done.
  rewrite Ea, Ep, (surjective_pairing (f_addr f)), (surjective_pairing (f_addr f')), Ea1, Ea2,
    (surjective_pairing (f_port f)), (surjective_pairing (f_port f')), E1, E2. done.
Qed.

Lemma orient_pad16 b b' (src dst src' dst' : list Z) : length src = length src' -> length dst = length dst' ->
  length src = length dst ->
  orient b (pad16 src, pad16 dst) = orient b' (pad16 src', pad16 dst') <-> orient b (src, dst) = orient b' (src', dst').
Proof.
  intros L1 L2 L3. unfold pad16. rewrite <- L1, <- L2, <- L3.
  destruct b, b'; cbn; (split; [intros [= E1%(inj (.++ _)) E2%(inj (.++ _))]; congruence|by intros [= -> ->]]).
Qed.

Lemma says_af pkt af c : says pkt af c -> af = 2 \/ af = 10.
Proof. intros []; by auto. Qed.

Lemma counted_ok src dst proto p f len : length src = length dst ->
  f_addr f = orient (forward (src, dst, proto, p)) (pad16 src, pad16 dst) ->
  f_packets f = orient (forward (src, dst, proto, p)) (1, 0) ->
  f_octets f = orient (forward (src, dst, proto, p)) (wrap32 len, 0) -> counted f (src, dst, proto, p) len.
Proof.
  intros Hl. rewrite forward_lower by done. unfold counted. case_decide as E;
    [rewrite bool_decide_true by done|rewrite bool_decide_false by done]; by intros -> -> ->.
Qed.

(** C5: a flow is a conversation, in both directions.  Take two packets, IPv4 or
    IPv6, which packet_to_flowrec accepts and whose source and destination
    addresses differ, and what their bytes say: addresses, protocol and ports, in
    IPv6 those at the end of the chain of extension headers.  At any tracking
    level flow_compare takes their flows for the same exactly when they have the
    same source, destination, protocol and ports as far as the level looks at
    them, or one has those of the other reversed.  Each flow has the lower address
    first, and counts one packet and its length in the slot of the address the
    packet comes from, so that a packet and its reverse count in different slots. *)
Theorem flows_bidirectional level pkt pkt' af af' len len' f f' g g' c c' :
  Forall u8 pkt -> Forall u8 pkt' ->
  packet_to_flowrec pkt af (Z.of_nat (length pkt)) len = Ret (Some f, g) ->
  packet_to_flowrec pkt' af' (Z.of_nat (length pkt')) len' = Ret (Some f', g') ->
  says pkt af c -> says pkt' af' c' -> ends_differ c -> ends_differ c' ->
  (flow_compare (apply_track_level level f) (apply_track_level level f') = 0 <->
     seen_at level c' = seen_at level c \/ seen_at level c' = reversed (seen_at level c)) /\
  counted f c len /\ counted f' c' len'.
Proof.
  intros Hb Hb' E E' Hs Hs' Hd Hd'. rewrite packet_to_flowrec_ok in E, E' by done.
  destruct (icmp_unread pkt af); [done|]. destruct (icmp_unread pkt' af'); [done|].
  apply Ret_inj in E, E'. pose proof (says_af _ _ _ Hs) as Haf. pose proof (says_af _ _ _ Hs') as Haf'.
  destruct (says_ok pkt af len f g c Hb E Hs) as [Hf Hc].
  destruct (says_ok pkt' af' len' f' g' c' Hb' E' Hs') as [Hf' Hc'].
  destruct c as [[[src dst] proto] p], c' as [[[src' dst'] proto'] p'].
  destruct Hc as (L1 & L2 & Hid & Hp & Ho), Hc' as (L1' & L2' & Hid' & Hp' & Ho').
  assert (forall f af src dst proto b p, flow_identity f = (af, orient b (pad16 src, pad16 dst), proto, p) ->
    f_addr f = orient b (pad16 src, pad16 dst)) as Haddr by (intros ?????? ? [= ? ? ? ?]; done).
  split; [|split; apply counted_ok; try done; by eapply Haddr].
  rewrite identity_key by (by apply apply_track_level_ok).
  rewrite (seen_at_identity level f af _ _ _ _ _ Hid), (seen_at_identity level f' af' _ _ _ _ _ Hid').
  destruct (decide (af = af')) as [<-|Hne].
  - pose proof (conversation_oriented (length src) (seen_at level (src, dst, proto, p)) (seen_at level (src', dst', proto', p')))
      as Hiff. revert Hiff. unfold seen_at.
    destruct (level =? TRACK_IP_ONLY); [|destruct (level =? TRACK_IP_PROTO)]; cbn [forward ends_ok];
      (intros <-; [|split_and!; congruence..]); rewrite <- (orient_pad16 _ _ src dst src' dst') by congruence;
      (split; [intros Heq; split_and!; congruence|intros (H1 & H2 & H3); congruence]).
  - assert (length src <> length src') as Hl.
    { rewrite L1, L1'. destruct Haf as [-> | ->], Haf' as [-> | ->]; done. }
    unfold seen_at. destruct (level =? TRACK_IP_ONLY); [|destruct (level =? TRACK_IP_PROTO)]; cbn [reversed];
      (split; [congruence|intros [[= H1 H2]|[= H1 H2]]; exfalso; congruence]).
Qed.

Lemma account_ok tmp f : FLOW_ok tmp -> FLOW_ok f -> FLOW_ok (account tmp f).
Proof.
  intros Ht Hf. destruct (fo_flags _ Ht), (fo_flags _ Hf), Hf.
  constructor; try done; split; try apply wrap32_u32; by apply u8_lor.
Qed.

Lemma flow_last_ok t f : timeval_ok t -> FLOW_ok f -> FLOW_ok (set_f_flow_last t f).
Proof. intros Ht []. by constructor. Qed.

(** ** The end of process_packet *)

Lemma touch_ok ft l f e x t : track_ok ft -> timeval_ok t ->
  ft_heap ft !! l = Some f -> f_expiry f = Some e -> ft_eheap ft !! e = Some x -> e_flow x = l ->
  let f' := set_f_flow_last t f in
  let z := if e_expires_at x =? 0 then (e_expires_at x, e_reason x) else expiry_of (ft_conf ft) f' in
  exists ft', touch l t ft = Ret (PP_OK, ft') /\ track_ok ft' /\
    table ft' = <[flow_key f := (set_f_expiry None f', z)]> (table ft) /\
    ft_next_flow_seq ft' = ft_next_flow_seq ft /\ ft_num_flows ft' = ft_num_flows ft /\
    ft_conf ft' = ft_conf ft /\ ft_count ft' = ft_count ft.
Proof.
  intros Hok Ht Hf He Hx Hl f' z. destruct (to_FLOW ft Hok l f Hf) as [Hfok _].
  assert (same_place f f') as Hsame by done.
  pose proof (flow_put_ok ft l f f' Hok Hf Hsame (flow_last_ok _ _ Ht Hfok)) as Hok1.
  pose proof (entry_flow_put ft l f f' e x Hf He Hx Hsame) as Hent.
  assert (ft_heap (flow_put l f' ft) !! l = Some f') as Hf1 by apply lookup_insert_eq.
  assert (entry ft l = Some (flow_key f, (set_f_expiry None f, (e_expires_at x, e_reason x)))) as Hentl.
  { unfold entry. by rewrite Hf, He, Hx. }
  unfold touch, flow_get. rewrite Hf. cbn [obind]. fold f'. rewrite He. unfold expiry_get at 1.
  change (ft_eheap (flow_put l f' ft)) with (ft_eheap ft). rewrite Hx. cbn [obind].
  unfold z. destruct (Z.eqb_spec (e_expires_at x) 0) as [E0|E0]; cbn [negb].
  - eexists. split; [reflexivity|]. split; [done|]. split; [|done].
    apply (table_put _ _ l _ _ Hok Hok1 Hent). by rewrite Hentl.
  - unfold flow_update_expiry, flow_get. rewrite Hf1. cbn [obind]. change (f_expiry f') with (f_expiry f). rewrite He.
    unfold expiry_get. change (ft_eheap (flow_put l f' ft)) with (ft_eheap ft). rewrite Hx. cbn [obind].
    change (ft_conf (EXPIRY_REMOVE e (flow_put l f' ft))) with (ft_conf ft).
    destruct (expiry_of (ft_conf ft) f') as [a r] eqn:Ez. cbn [obind].
    fold (reschedule e x a r (flow_put l f' ft)).
    pose proof (reschedule_ok _ e x a r Hok1 Hx) as Hok2.
    eexists. split; [reflexivity|]. split; [done|]. split; [|done].
    apply (table_put _ _ l _ _ Hok Hok2); [|by rewrite Hentl]. intros l'.
    assert (ft_heap (flow_put l f' ft) !! (e_flow x) = Some f') as Hf2 by by rewrite Hl.
    rewrite (entry_reschedule _ e x a r f' Hf2 He Hok1 Hx), Hl. case_decide as Hl'; [done|].
    rewrite Hent. by rewrite decide_False.
Qed.

(** ** One packet *)

(** What a packet of the flow [tmp] at time [t] does to the table; [seq] numbers
    new flows. *)
Definition arrive (c : CONF) (tmp : FLOW) (t : Z * Z) (seq : Z) (m : gmap (list Z) tracked) : gmap (list Z) tracked :=
  let k := flow_key tmp in
  let '(f, x) :=
    match m !! k with
    | Some (f, x) => (set_f_flow_last t (account tmp f), x)
    | None => (set_f_flow_last t (set_f_flow_seq seq (set_f_flow_start t tmp)), (1, R_GENERAL))
    end in
  <[k := (f, if fst x =? 0 then x else expiry_of c f)]> m.

Lemma bump_ok c n ft : track_ok ft -> track_ok (bump c n ft).
Proof. intros []. by constructor. Qed.

Lemma table_bump c n ft : table (bump c n ft) = table ft.
Proof. done. Qed.

Lemma expiry_of_erase c e f : expiry_of c (set_f_expiry e f) = expiry_of c f.
Proof. done. Qed.

Lemma find_or_create ft tmp t : track_ok ft -> FLOW_ok tmp -> f_expiry tmp = None -> timeval_ok t -> room ft ->
  exists ft',
    (let! (l, ft) :=
       match FLOW_FIND tmp ft with
       | None => Ret (new_flow true true tmp t ft)
       | Some l => let! flow := flow_get ft l in Ret (Some l, flow_put l (account tmp flow) ft)
       end in
     match l with None => Ret (PP_MALLOC_FAIL, ft) | Some l => touch l t ft end) = Ret (PP_OK, ft') /\
    track_ok ft' /\ table ft' = arrive (ft_conf ft) tmp t (ft_next_flow_seq ft) (table ft) /\
    ft_conf ft' = ft_conf ft /\ ft_count ft' = ft_count ft /\
    let n := match table ft !! flow_key tmp with Some _ => 0 | None => 1 end in
    ft_next_flow_seq ft' = ft_next_flow_seq ft + n /\ ft_num_flows ft' = ft_num_flows ft + n.
Proof.
  intros Hok Htmp Hexp Ht Hroom. pose proof (FLOW_FIND_ok ft tmp Hok Htmp) as Hfind.
  unfold arrive. destruct (FLOW_FIND tmp ft) as [l|].
  - destruct Hfind as (g & Hg & Hk). destruct (entry_Some ft l g Hok Hg) as (e & x & He & Hx & Hxl & Hent).
    assert (table ft !! flow_key tmp = Some (set_f_expiry None g, (e_expires_at x, e_reason x))) as Htab.
    { apply table_lookup; [done|]. exists l. by rewrite Hent, Hk. }
    rewrite Htab. unfold flow_get. rewrite Hg. cbn [obind].
    set (g' := account tmp g). assert (same_place g g') as Hsame by done.
    destruct (to_FLOW ft Hok l g Hg) as [Hgok _].
    pose proof (flow_put_ok ft l g g' Hok Hg Hsame (account_ok tmp g Htmp Hgok)) as Hok1.
    destruct (touch_ok (flow_put l g' ft) l g' e x t Hok1 Ht) as (ft' & E & Hok' & Htab' & Hn & Hnum & Hc & Hcnt);
      [apply lookup_insert_eq|done..|].
    exists ft'. rewrite E. split; [done|]. split; [done|]. split; [|split; [exact Hc|split; [exact Hcnt|cbv beta iota zeta; rewrite Hn, Hnum; by rewrite !Z.add_0_r]]].
    rewrite Htab'. change (flow_key g') with (flow_key g). rewrite Hk.
    assert (table (flow_put l g' ft) =
            <[flow_key g := (set_f_expiry None g', (e_expires_at x, e_reason x))]> (table ft)) as Htab1.
    { apply (table_put _ _ l _ _ Hok Hok1 (entry_flow_put ft l g g' e x Hg He Hx Hsame)). by rewrite Hent. }
    rewrite Htab1, Hk, insert_insert_eq. done.
  - pose proof (table_None ft (flow_key tmp) Hok Hfind) as Hnone. rewrite Hnone.
    destruct (new_flow_ok tmp t ft Hok Hroom) as (l & e & ft1 & E & Ha & Hc1 & Hcnt1). rewrite E. cbn [obind].
    set (f := set_f_expiry (Some e) (started tmp t ft)) in *.
    assert (FLOW_ok f) as Hf by (destruct (started_ok tmp t ft Htmp Ht Hok); by constructor).
    assert (track_ok ft1) as Hok1 by (by apply (added_ok ft ft1 l f e _ Hok Ha)).
    pose proof (table_added ft ft1 l f e _ Hok Hok1 Ha Hfind) as Htab1.
    destruct Ha as (_ & _ & _ & _ & Hh & Heh & _ & Hn1 & Hnum1 & _).
    destruct (touch_ok ft1 l f e (Mk_EXPIRY l 1 R_GENERAL) t Hok1 Ht) as (ft' & E' & Hok' & Htab' & Hn & Hnum & Hc & Hcnt);
      [rewrite Hh; apply lookup_insert_eq|done|rewrite Heh; apply lookup_insert_eq|done|].
    exists ft'. rewrite E'. split; [done|]. split; [done|].
    split; [|split; [congruence|split; [congruence|cbv beta iota zeta; by rewrite Hn, Hnum, Hn1, Hnum1]]].
    rewrite Htab', Htab1, insert_insert_eq, Hc1. cbn [e_expires_at e_reason fst Z.eqb].
    assert (set_f_expiry None (set_f_flow_last t f) = set_f_flow_last t (started tmp t ft)) as ->.
    { destruct tmp. cbn in Hexp. by subst. }
    done.
Qed.

Lemma process_packet_exact pkt af len t ft :
  Forall u8 pkt -> icmp_unread pkt af = false -> timeval_ok t -> track_ok ft -> room ft ->
  let n := Z.of_nat (length pkt) in
  let ft1 := bump total_packets 1 ft in
  let '(r, frag) := packet_flow pkt af len in
  match r with
  | None => process_packet true true pkt af n len t ft = Ret (PP_BAD_PACKET, bump bad_packets 1 ft1)
  | Some tmp =>
      let tmp := apply_track_level (track_level (ft_conf ft)) tmp in
      exists ft', process_packet true true pkt af n len t ft = Ret (PP_OK, ft') /\ track_ok ft' /\
        table ft' = arrive (ft_conf ft) tmp t (ft_next_flow_seq ft) (table ft) /\
        ft_count ft' = ft_count (if frag then bump frag_packets 1 ft1 else ft1) /\
        ft_conf ft' = ft_conf ft /\
        exists k, 0 <= k <= 1 /\ ft_next_flow_seq ft' = ft_next_flow_seq ft + k /\ ft_num_flows ft' = ft_num_flows ft + k
  end.
Proof.
  intros Hb Hi Ht Hok Hroom n ft1. unfold process_packet. unfold n. rewrite packet_to_flowrec_ok, Hi by done.
  cbn [obind]. destruct (packet_flow pkt af len) as [[tmp|] frag] eqn:E; [|done].
  destruct (packet_flow_ok pkt af len tmp frag Hb E) as [Htmp Hexp]. cbv zeta. fold ft1.
  set (ft2 := if frag then bump frag_packets 1 ft1 else ft1).
  assert (track_ok ft2 /\ ft_conf ft2 = ft_conf ft /\ table ft2 = table ft /\ room ft2 /\
          ft_next_flow_seq ft2 = ft_next_flow_seq ft) as (Hok2 & Hc2 & Ht2 & Hr2 & Hn2).
  { unfold ft2. destruct frag; (split; [by repeat apply bump_ok|done]). }
  rewrite Hc2. destruct (find_or_create ft2 (apply_track_level (track_level (ft_conf ft)) tmp) t Hok2)
    as (ft' & -> & Hok' & Htab & Hc & Hcnt & Hns & Hnum); [by apply apply_track_level_ok| |done|done|].
  { unfold apply_track_level. by repeat case_match. }
  exists ft'. rewrite Htab, Hc, Hc2, Ht2, Hn2. do 5 (split; [done|]).
  exists (match table ft2 !! flow_key (apply_track_level (track_level (ft_conf ft)) tmp) with Some _ => 0 | None => 1 end).
  split; [by destruct (table ft2 !! _)|]. rewrite Hns, Hnum, Hn2.
  assert (ft_num_flows ft2 = ft_num_flows ft) as -> by (unfold ft2; by destruct frag). done.
Qed.

(** The same without the details of the result: the table is that before or that
    after the arrival of one flow. *)
Lemma packet_arrival_ok pkt af len t ft :
  Forall u8 pkt -> icmp_unread pkt af = false -> timeval_ok t -> track_ok ft -> room ft ->
  exists rc ft', process_packet true true pkt af (Z.of_nat (length pkt)) len t ft = Ret (rc, ft') /\
    track_ok ft' /\ ft_conf ft' = ft_conf ft /\
    (table ft' = table ft \/ exists tmp, table ft' = arrive (ft_conf ft) tmp t (ft_next_flow_seq ft) (table ft)) /\
    ft_next_flow_seq ft <= ft_next_flow_seq ft' <= ft_next_flow_seq ft + 1 /\
    ft_num_flows ft' <= ft_num_flows ft + 1 /\ ft_count ft' flows_exported = ft_count ft flows_exported.
Proof.
  intros Hb Hi Ht Hok Hroom. pose proof (process_packet_exact pkt af len t ft Hb Hi Ht Hok Hroom) as H.
  destruct (packet_flow pkt af len) as [[tmp|] frag].
  - destruct H as (ft' & E & Hok' & Htab & Hcnt & Hc & k & Hk & Hs & Hn). exists PP_OK, ft'.
    split; [exact E|]. split; [done|]. split; [done|]. split; [right; by eexists|]. split; [lia|]. split; [lia|].
    rewrite Hcnt. by destruct frag.
  - eexists _, _. split; [exact H|]. split; [by repeat apply bump_ok|]. split; [done|]. split; [by left|].
    cbn. split; [lia|]. split; [lia|done].
Qed.

(** C2: process_packet.  For a table in a consistent state with room for one more
    flow, and a packet of which all captured bytes are given: a packet that is not
    IP or has a bad header is only counted; a good one always succeeds, keeps the
    table consistent (each flow has exactly one expiry event, both trees are in
    order, the flows are counted) and changes exactly the flow of its identity:
    the flow is entered or its octets, packets and TCP flags grow, the time of the
    packet is recorded, and its expiry event is that of flow_update_expiry unless
    the flow is already to expire at once. *)
Theorem process_packet_spec pkt af len t ft :
  Forall u8 pkt -> icmp_unread pkt af = false -> timeval_ok t -> track_ok ft -> room ft ->
  let n := Z.of_nat (length pkt) in
  let ft1 := bump total_packets 1 ft in
  let '(r, frag) := packet_flow pkt af len in
  match r with
  | None => process_packet true true pkt af n len t ft = Ret (PP_BAD_PACKET, bump bad_packets 1 ft1)
  | Some tmp =>
      let tmp := apply_track_level (track_level (ft_conf ft)) tmp in
      exists ft', process_packet true true pkt af n len t ft = Ret (PP_OK, ft') /\ track_ok ft' /\
        table ft' = arrive (ft_conf ft) tmp t (ft_next_flow_seq ft) (table ft) /\
        ft_count ft' = ft_count (if frag then bump frag_packets 1 ft1 else ft1) /\
        ft_conf ft' = ft_conf ft
  end.
Proof.
  intros Hb Hi Ht Hok Hroom n ft1. pose proof (process_packet_exact pkt af len t ft Hb Hi Ht Hok Hroom) as H.
  fold n ft1 in H. destruct (packet_flow pkt af len) as [[tmp|] frag]; [|exact H].
  destruct H as (ft' & ? & ? & ? & ? & ? & _). by exists ft'.
Qed.

(** ** A failing allocation *)

(** The tables after the flow is entered but its expiry event is not. *)
Lemma FLOW_FIND_after ft ft' l f f' tmp : track_ok ft -> FLOW_ok f -> FLOW_ok tmp -> FLOW_ok f' ->
  ft_heap ft !! l = None -> (forall l' g, ft_heap ft !! l' = Some g -> flow_key g <> flow_key f) ->
  flow_key f' = flow_key f -> flow_key tmp = flow_key f ->
  ft_heap ft' = <[l := f']> (ft_heap ft) ->
  ft_flows ft' = ordered_insert (flow_node_cmp ft f) (ft_flows ft) l ->
  FLOW_FIND tmp ft' = Some l.
Proof.
  intros Hok Hf Htmp Hf' Hl Hne Ekf Ekt Hh Hfl.
  assert (forall l', flow_node_key ft' l' = if decide (l' = l) then flow_key f else flow_node_key ft l') as Hkey.
  { intros l'. unfold flow_node_key. rewrite Hh. case_decide as E; [by rewrite E, lookup_insert_eq|].
    by rewrite lookup_insert_ne. }
  destruct (insert_flow_sorted ft l f Hok Hf Hl Hne (flow_node_key ft')) as (l1 & l2 & El & Ei & Hs);
    [by rewrite Hkey, decide_True|intros l' Hl'; by rewrite Hkey, decide_False|].
  unfold FLOW_FIND. rewrite Hfl, Ei. apply (ordered_find_key (flow_node_key ft') _ (flow_key tmp)); [done| |].
  - apply Forall_forall. intros l' Hl'. unfold flow_node_cmp, flow_node_key. rewrite Hh.
    destruct (decide (l' = l)) as [->|Hll]; [rewrite lookup_insert_eq; by apply cmp_key|].
    rewrite lookup_insert_ne by done.
    assert (l' ∈ ft_flows ft) as [g Hg]%(to_heap ft Hok).
    { rewrite El. rewrite elem_of_app, elem_of_cons in Hl'. rewrite elem_of_app. tauto. }
    rewrite Hg. apply cmp_key; [done|]. by eapply to_FLOW.
  - split; [apply elem_of_app; right; by left|]. by rewrite Hkey, decide_True.
Qed.

(** A good packet, for any state and any allocations. *)
Lemma process_packet_good pkt af len t m1 m2 tmp frag ft ft1 :
  Forall u8 pkt -> icmp_unread pkt af = false -> packet_flow pkt af len = (Some tmp, frag) ->
  ft1 = (if frag then bump frag_packets 1 (bump total_packets 1 ft) else bump total_packets 1 ft) ->
  process_packet m1 m2 pkt af (Z.of_nat (length pkt)) len t ft =
    let tmp := apply_track_level (track_level (ft_conf ft)) tmp in
    let! (l, ft) :=
      match FLOW_FIND tmp ft1 with
      | None => Ret (new_flow m1 m2 tmp t ft1)
      | Some l => let! flow := flow_get ft1 l in Ret (Some l, flow_put l (account tmp flow) ft1)
      end in
    match l with None => Ret (PP_MALLOC_FAIL, ft) | Some l => touch l t ft end.
Proof.
  intros Hb Hi E ->. unfold process_packet. rewrite packet_to_flowrec_ok, Hi, E by done. cbn [obind]. by destruct frag.
Qed.

(** A failing allocation.  When there is no memory for a new flow, process_packet
    reports it and leaves the table as it was.  When there is memory for the flow but
    none for its expiry event, the flow stays in the tree without one: the next packet
    of that flow dereferences its null pointer. *)
Theorem process_packet_no_memory pkt af len t malloc1 malloc2 ft tmp frag :
  Forall u8 pkt -> icmp_unread pkt af = false -> track_ok ft ->
  timeval_ok t -> packet_flow pkt af len = (Some tmp, frag) ->
  let tmp := apply_track_level (track_level (ft_conf ft)) tmp in
  table ft !! flow_key tmp = None ->
  let n := Z.of_nat (length pkt) in
  let ft1 := bump total_packets 1 ft in
  process_packet false malloc2 pkt af n len t ft =
    Ret (PP_MALLOC_FAIL, if frag then bump frag_packets 1 ft1 else ft1) /\
  exists ft', process_packet true false pkt af n len t ft = Ret (PP_MALLOC_FAIL, ft') /\
    process_packet malloc1 malloc2 pkt af n len t ft' = Undef NullDeref.
Proof.
  intros Hb Hi Hok Ht E tmp' Hnone n ft1.
  destruct (packet_flow_ok pkt af len tmp frag Hb E) as [Htmp Hexp].
  set (ft2 := if frag then bump frag_packets 1 ft1 else ft1).
  assert (track_ok ft2 /\ ft_conf ft2 = ft_conf ft /\ table ft2 = table ft) as (Hok2 & Hc2 & Ht2).
  { unfold ft2. destruct frag; (split; [by repeat apply bump_ok|done]). }
  assert (FLOW_ok tmp') as Htmp' by by apply apply_track_level_ok.
  assert (FLOW_FIND tmp' ft2 = None) as Hfind.
  { pose proof (FLOW_FIND_ok ft2 tmp' Hok2 Htmp') as Hf. destruct (FLOW_FIND tmp' ft2) as [l|]; [|done].
    destruct Hf as (g & Hg & Hk). destruct (entry_Some ft2 l g Hok2 Hg) as (e & x & _ & _ & _ & Hent).
    assert (table ft2 !! flow_key g <> None) as []; [|by rewrite Ht2, Hk].
    intros Hn. assert (exists v, table ft2 !! flow_key g = Some v) as [v Hv]; [|congruence].
    eexists. apply table_lookup; [done|by exists l]. }
  pose proof (fun m1 m2 ft ft1 => process_packet_good pkt af len t m1 m2 tmp frag ft ft1 Hb Hi E) as Hpp.
  unfold n. rewrite !(Hpp _ _ ft ft2) by done. cbv zeta. fold tmp'. rewrite Hfind. cbn [obind]. split; [done|].
  eexists. split; [reflexivity|].
  match goal with |- process_packet _ _ _ _ _ _ _ ?s = _ => set (ft' := s) end.
  set (f := started tmp' t ft2). set (l := fresh (dom (ft_heap ft2))).
  assert (ft_heap ft' = <[l := set_f_expiry None f]> (ft_heap ft2)) as Hh.
  { cbn. by rewrite insert_insert_eq. }
  assert (ft_heap ft2 !! l = None) as Hl by (apply not_elem_of_dom, is_fresh).
  pose proof (FLOW_FIND_ok ft2 tmp' Hok2 Htmp') as Hne. rewrite Hfind in Hne.
  assert (FLOW_ok f) as Hf by by apply started_ok.
  assert (FLOW_ok (set_f_expiry None f)) as Hf' by (destruct Hf; by constructor).
  set (ft3 := if frag then bump frag_packets 1 (bump total_packets 1 ft') else bump total_packets 1 ft').
  assert (ft_heap ft3 = ft_heap ft' /\ ft_flows ft3 = ft_flows ft') as [Hh3 Hfl3] by (unfold ft3; by destruct frag).
  rewrite (Hpp _ _ ft' ft3) by done. cbv zeta.
  assert (apply_track_level (track_level (ft_conf ft')) tmp = tmp') as -> by (unfold tmp'; by rewrite <- Hc2).
  rewrite (FLOW_FIND_after ft2 ft3 l f (set_f_expiry None f) tmp');
    [|done..|by rewrite Hh3|by rewrite Hfl3].
  unfold flow_get at 1. rewrite Hh3, Hh, lookup_insert_eq. cbn [obind].
  unfold touch, flow_get. cbn [flow_put set_ft_heap ft_heap]. rewrite lookup_insert_eq. done.
Qed.

(** ** Examples *)

Lemma process_packet_spec_witness :
  exists ft', process_packet true true (sample_tcp 1 2 80 99) AF_INET 40 40 (7, 0) init_flowtrack = Ret (PP_OK, ft') /\
    track_ok ft' /\ map_size (table ft') = 1%nat.
Proof.
  destruct (process_packet_spec (sample_tcp 1 2 80 99) AF_INET 40 (7, 0) init_flowtrack
    ltac:(apply (bool_decide_unpack _); vm_compute; exact I) eq_refl ltac:(by vm_compute)
    (proj1 init_flowtrack_ok) ltac:(by vm_compute))
    as (ft' & E & Hok & Htab & _).
  exists ft'. split; [exact E|]. split; [exact Hok|]. rewrite Htab. vm_compute. reflexivity.
Defined.

Lemma packet_to_flowrec_total_witness :
  packet_to_flowrec (sample_tcp 1 2 80 99) AF_INET 40 40 =
    Ret (Some (ipv4_flow (sample_tcp 1 2 80 99) 40 AF_INET), false).
Proof.
  apply (packet_to_flowrec_total (sample_tcp 1 2 80 99) AF_INET 40).
  apply (bool_decide_unpack _). vm_compute. exact I.
Defined.

Lemma process_packet_no_memory_witness :
  exists ft', process_packet true false (sample_tcp 1 2 80 99) AF_INET 40 40 (7, 0) init_flowtrack =
      Ret (PP_MALLOC_FAIL, ft') /\
    process_packet true true (sample_tcp 1 2 80 99) AF_INET 40 40 (7, 0) ft' = Undef NullDeref.
Proof.
  apply (process_packet_no_memory (sample_tcp 1 2 80 99) AF_INET 40 (7, 0) true true init_flowtrack
    (ipv4_flow (sample_tcp 1 2 80 99) 40 AF_INET) false
    ltac:(apply (bool_decide_unpack _); vm_compute; exact I) eq_refl (proj1 init_flowtrack_ok) ltac:(by vm_compute)
    eq_refl eq_refl).
Defined.

(** A TCP segment and its answer. *)
Lemma flows_bidirectional_witness :
  exists f f', packet_to_flowrec (sample_tcp 1 2 80 99) AF_INET 40 40 = Ret (Some f, false) /\
    packet_to_flowrec (sample_tcp 2 1 99 80) AF_INET 40 52 = Ret (Some f', false) /\
    flow_compare (apply_track_level TRACK_FULL f) (apply_track_level TRACK_FULL f') = 0.
Proof.
  eexists _, _. split; [vm_compute; reflexivity|]. split; [vm_compute; reflexivity|].
  refine (proj2 (proj1 (flows_bidirectional TRACK_FULL (sample_tcp 1 2 80 99) (sample_tcp 2 1 99 80) AF_INET AF_INET 40 52
    _ _ false false _ _ _ _ _ _ (says_ipv4 _ _) (says_ipv4 _ _) _ _)) _).
  - apply (bool_decide_unpack _). vm_compute. exact I.
  - apply (bool_decide_unpack _). vm_compute. exact I.
  - vm_compute. reflexivity.
  - vm_compute. reflexivity.
  - vm_compute. reflexivity.
  - vm_compute. reflexivity.
  - vm_compute. discriminate.
  - vm_compute. discriminate.
  - right. vm_compute. reflexivity.
Defined.
