(* ===== verification/Expire.v ===== *)
(** * Expiry of flows (src/softflowd/softflowd.c)

    check_expired, force_expire, delete_all_flows, next_expire and the part of
    the main loop that calls them.  An expired flow leaves the heap of flows with
    its expiry event and lives on in the array of expired flows, the only
    reference to it.  The sender that check_expired calls is an interface,
    [Dialect]. *)

From stdpp Require Import gmap.
From S2P Require Import Prelude Packed Order Splay Addr SoftTypes.
From S2P Require Import Ipflow FlowTrack FlowTable.

(** ** The sender *)

(** The function of a NETFLOW_SENDER: the flows, *flows_exported, the time of boot
    and the direction (-1 without the emulator); [N] is the state of the network
    and of the sender.  The results are its return value, *flows_exported and the
    state after it. *)
Class Dialect (N : Type) :=
  dialect_func : list FLOW -> Z -> Z * Z -> Z -> N -> outcome (Z * Z * N).

(** ** The scan *)

Definition CE_EXPIRE_NORMAL : Z := 0.
Definition CE_EXPIRE_ALL : Z := -1.
Definition CE_EXPIRE_FORCED : Z := 1.

Definition update_expiry_stats (x : EXPIRY) (ft : FLOWTRACK) : FLOWTRACK :=
  let c := match e_reason x with
           | R_GENERAL => expired_general
           | R_TCP => expired_tcp
           | R_TCP_RST => expired_tcp_rst
           | R_TCP_FIN => expired_tcp_fin
           | R_UDP => expired_udp
           | R_ICMP => expired_icmp
           | R_MAXLIFE => expired_maxlife
           | R_OVERBYTES => expired_overbytes
           | R_OVERFLOWS => expired_maxflows
           | R_FLUSH => expired_flush
           end in
  bump c 1 ft.

(** The condition of the scan; [now] is in seconds. *)
Definition due (ex now expires_at : Z) : bool :=
  ((expires_at =? 0) || (ex =? CE_EXPIRE_ALL) || (negb (ex =? CE_EXPIRE_FORCED) && (expires_at <? now))) &&
  negb (expires_at =? 1).

(** The reason an expired flow is counted under. *)
Definition final_reason (ex : Z) (c : CONF) (f : FLOW) (r : reason) : reason :=
  let r := if negb (maximum_lifetime c =? 0) &&
              (maximum_lifetime c <=? fst (f_flow_last f) - fst (f_flow_start f)) then R_MAXLIFE else r in
  if ex =? CE_EXPIRE_ALL then R_FLUSH else r.

(** One turn: the event [e]; [realloc e] tells whether the array can grow for it.
    The flow and the expiry event leave the trees; the event is freed. *)
Definition expire_event (realloc : eloc -> bool) (ex now : Z) (s : FLOWTRACK * list FLOW) (e : eloc)
    : outcome (FLOWTRACK * list FLOW) :=
  let '(ft, expired) := s in
  let! x := expiry_get ft e in
  if due ex now (e_expires_at x) then
    let! f := flow_get ft (e_flow x) in
    let expired := if realloc e then expired ++ [set_f_expiry None f] else expired in
    let x := Mk_EXPIRY (e_flow x) (e_expires_at x) (final_reason ex (ft_conf ft) f (e_reason x)) in
    let ft := update_expiry_stats x ft in
    Ret (evict (e_flow x) f e ft, expired)
  else Ret s.

(** The loop reads the next event before it frees one: it goes over the events
    that the tree has at its start. *)
Definition expiry_scan (realloc : eloc -> bool) (ex now : Z) (ft : FLOWTRACK) : outcome (FLOWTRACK * list FLOW) :=
  ofold (expire_event realloc ex now) (ft, []) (ft_expiries ft).

(** ** The flows of a monitor *)

(** The index of the monitor among the first [k] of a flow. *)
Fixpoint find_monitor (adr : Z) (k : nat) (adrs : list Z) (n : Z) : outcome (option Z) :=
  match k with
  | O => Ret None
  | S k =>
      match adrs with
      | [] => Undef OutOfBounds
      | a :: adrs => if a =? adr then Ret (Some n) else find_monitor adr k adrs (n + 1)
      end
  end.

(** The expired flows after their selection for the monitor [adr] on the side
    [dir], and those selected; inet_pton (inet_ntoa adr) is [adr]. *)
Fixpoint select_flows (dir : bool) (adr : Z) (expired : list FLOW) : outcome (list FLOW * list FLOW) :=
  match expired with
  | [] => Ret ([], [])
  | f :: expired =>
      let! n := find_monitor adr (Z.to_nat (at2 dir (f_number_of_monitors f))) (at2 dir (f_emulator_monitor_adr f)) 0 in
      let! (expired, selected) := select_flows dir adr expired in
      match n with
      | None => Ret (f :: expired, selected)
      | Some n =>
          let f := set_f_selected_monitor_index (wrap16 n) (set_f_selected_monitor adr f) in
          Ret (f :: expired, f :: selected)
      end
  end.

(** ** Sending *)

Definition set_count (c : counter) (v : Z) (ft : FLOWTRACK) : FLOWTRACK :=
  set_ft_count (fun k => if decide (k = c) then v else ft_count ft k) ft.

Section check_expired.
Context {N : Type} `{Dialect N}.

(** A call of the sender. *)
Definition dialect_call (flows : list FLOW) (inOut : Z) (ft : FLOWTRACK) (net : N) : outcome (Z * FLOWTRACK * N) :=
  let! (r, exported, net) := dialect_func flows (ft_count ft flows_exported) (system_boot_time (ft_conf ft)) inOut net in
  let ft := set_count flows_exported exported ft in
  Ret (r, if 0 <? r then bump packets_sent r ft else ft, net).

(** The flows of each monitor, incoming and outgoing.  The last result is kept. *)
Fixpoint send_monitors (adrs : list Z) (expired : list FLOW) (r : Z) (ft : FLOWTRACK) (net : N)
    : outcome (Z * list FLOW * FLOWTRACK * N) :=
  match adrs with
  | [] => Ret (r, expired, ft, net)
  | adr :: adrs =>
      let! (expired, selected) := select_flows false adr expired in
      let! (r, ft, net) := dialect_call selected 0 ft net in
      let! (expired, selected) := select_flows true adr expired in
      let! (r, ft, net) := dialect_call selected 1 ft net in
      send_monitors adrs expired r ft net
  end.

(** The integer statistics of an expired flow. *)
Definition update_statistics (f : FLOW) (ft : FLOWTRACK) : FLOWTRACK :=
  bump (flows_pp (f_protocol f mod 256)) 1 (bump flows_expired 1 ft).

(** [target] tells whether there is a target with an open socket, [monitors] the
    addresses of the monitors when the emulator is in use. *)
Definition check_expired (realloc : eloc -> bool) (monitors : option (list Z)) (target : bool) (ex now : Z)
    (ft : FLOWTRACK) (net : N) : outcome (Z * FLOWTRACK * N) :=
  let! (ft, expired) := expiry_scan realloc ex now ft in
  let num_expired := Z.of_nat (length expired) in
  let! (r, expired, ft, net) :=
    if (0 <? num_expired) && target then
      match monitors with
      | Some adrs => send_monitors adrs expired 0 ft net
      | None =>
          let! (r, ft, net) := dialect_call expired (-1) ft net in
          Ret (r, expired, if 0 <? r then ft else bump flows_dropped (num_expired * 2) ft, net)
      end
    else Ret (0, expired, ft, net) in
  let ft := fold_left (fun ft f => update_statistics f ft) expired ft in
  Ret (if r =? -1 then -1 else num_expired, ft, net).

(** ** Forced expiry *)

(** [calloc] tells whether the list of events can be allocated. *)
Definition force_expire (calloc : bool) (num_to_expire : Z) (ft : FLOWTRACK) : outcome FLOWTRACK :=
  if negb calloc then
    Ret (bump flows_force_expired (Z.of_nat (length (ft_expiries ft)))
           (set_ft_eheap ((fun x => Mk_EXPIRY (e_flow x) 0 R_OVERFLOWS) <$> ft_eheap ft) ft))
  else
    let expiryv := take (Z.to_nat num_to_expire) (ft_expiries ft) in
    let! ft := ofold (fun ft e => let! x := expiry_get ft e in Ret (reschedule e x 0 R_OVERFLOWS ft)) ft expiryv in
    Ret (bump flows_force_expired (Z.of_nat (length expiryv)) ft).

(** ** The main loop *)

(** The processing of expiries: the label expiry_check.  [fuel] bounds the jumps
    back to it. *)
Fixpoint expiry_check (fuel : nat) (realloc : eloc -> bool) (calloc target : bool) (ex now max_flows : Z)
    (ft : FLOWTRACK) (net : N) : outcome (FLOWTRACK * N) :=
  match fuel with
  | O => Diverges
  | S fuel =>
      let! (_, ft, net) := check_expired realloc None target ex now ft net in
      if max_flows <? ft_num_flows ft then
        let! ft := force_expire calloc (wrap32 (ft_num_flows ft - max_flows)) ft in
        expiry_check fuel realloc calloc target ex now max_flows ft net
      else Ret (ft, net)
  end.
End check_expired.

(** Deletion without export: the number of flows deleted. *)
Definition delete_flow (s : FLOWTRACK * Z) (l : floc) : outcome (FLOWTRACK * Z) :=
  let '(ft, i) := s in
  let! f := flow_get ft l in
  match f_expiry f with
  | None => Undef NullDeref
  | Some e => Ret (evict l f e ft, i + 1)
  end.
Definition delete_all_flows (ft : FLOWTRACK) : outcome (FLOWTRACK * Z) :=
  ofold delete_flow (ft, 0) (ft_flows ft).

(** How long until the next expiry, in milliseconds. *)
Definition next_expire (now : Z) (ft : FLOWTRACK) : outcome Z :=
  match ft_expiries ft with
  | [] => Ret (-1)
  | e :: _ =>
      let! x := expiry_get ft e in
      let at_ := e_expires_at x in
      if (at_ =? 0) && bool_decide (e_reason x ∈ [R_OVERBYTES; R_OVERFLOWS; R_FLUSH]) then Ret 0
      else
        let at_ :=
          if 1 <? expiry_interval (ft_conf ft) then
            let fudge := at_ mod expiry_interval (ft_conf ft) in
            if 0 <? fudge then wrap32 (at_ + (expiry_interval (ft_conf ft) - fudge)) else at_
          else at_ in
        if at_ <? now then Ret 0
        else Ret (swrap32 (wrap32 (999 + (at_ - now) * 1000)))
  end.
