(* ===== verification/ExpireProps.v ===== *)
(** * Expiry acts on the table

    check_expired hands the flows that are due, in the order of their expiry, to
    the sender, and leaves the others; force_expire makes the first flows due; the
    main loop brings the table under its limit. *)

From stdpp Require Import gmap sorting.
From S2P Require Import Prelude Packed Order Splay Keyed Addr.
From S2P Require Import SoftTypes Ipflow FlowTrack FlowTable Expire.

(** ** The schedule

    The flows in the order of their expiry events. *)

Definition event (ft : FLOWTRACK) (e : eloc) : option tracked :=
  match ft_eheap ft !! e with
  | Some x =>
      match ft_heap ft !! e_flow x with
      | Some f => Some (set_f_expiry None f, (e_expires_at x, e_reason x))
      | None => None
      end
  | None => None
  end.
Definition schedule (ft : FLOWTRACK) : list tracked := omap (event ft) (ft_expiries ft).

Lemma event_Some ft e x : track_ok ft -> ft_eheap ft !! e = Some x ->
  exists f, ft_heap ft !! e_flow x = Some f /\ f_expiry f = Some e /\
    event ft e = Some (set_f_expiry None f, (e_expires_at x, e_reason x)) /\
    entry ft (e_flow x) = Some (flow_key f, (set_f_expiry None f, (e_expires_at x, e_reason x))).
Proof.
  intros Hok Hx. destruct (to_flow ft Hok e x Hx) as (f & Hf & He). exists f.
  unfold event, entry. by rewrite Hx, Hf, He, Hx.
Qed.

(** The schedule holds the flows of the table. *)
Lemma schedule_elem ft v : track_ok ft -> v ∈ schedule ft <-> exists k, table ft !! k = Some v.
Proof.
  intros Hok. unfold schedule. rewrite list_elem_of_omap. split.
  - intros (e & _ & Ev). assert (exists x, ft_eheap ft !! e = Some x) as [x Hx].
    { unfold event in Ev. destruct (ft_eheap ft !! e); [by eexists|done]. }
    destruct (event_Some ft e x Hok Hx) as (f & _ & _ & Ev' & En). exists (flow_key f).
    apply table_lookup; [done|]. exists (e_flow x). rewrite En. congruence.
  - intros [k [l E]%table_lookup]; [|done]. apply entry_inv in E as (f & e & x & Hf & He & Hx & -> & ->).
    exists e. split; [apply to_eheap; [done|by eexists]|].
    destruct (to_expiry ft Hok l f Hf) as (e' & x' & He' & Hx' & Hl). assert (e' = e) as -> by congruence.
    assert (x' = x) as -> by congruence. unfold event. by rewrite Hx, Hl, Hf.
Qed.

Definition sched_key (v : tracked) : list Z := [fst (snd v); f_flow_seq (fst v)].

(** The schedule is ordered by time of expiry, and by age for equal times. *)
Lemma schedule_sorted ft : track_ok ft -> key_sorted sched_key (schedule ft).
Proof.
  intros Hok. assert (forall e, e ∈ ft_expiries ft -> exists v, event ft e = Some v /\ sched_key v = expiry_node_key ft e) as Hev.
  { intros e He. apply (to_eheap ft Hok) in He as [x Hx]. destruct (event_Some ft e x Hok Hx) as (f & Hf & _ & Ev & _).
    eexists. split; [exact Ev|]. unfold expiry_node_key, expiry_key, seq_of, sched_key. by rewrite Hx, Hf. }
  unfold schedule. pose proof (to_expiries ft Hok) as Hs. induction Hs as [|e es Hs IH He]; [constructor|].
  destruct (Hev e) as (v & Ev & Ek); [by left|]. cbn [omap list_omap]. rewrite Ev.
  assert (forall e', e' ∈ es -> exists v', event ft e' = Some v' /\ sched_key v' = expiry_node_key ft e') as Hev'.
  { intros e' He'. apply Hev. by right. }
  constructor; [by apply IH|]. apply Forall_forall. intros v' (e' & He' & Ev')%list_elem_of_omap.
  destruct (Hev' e' He') as (v1 & Ev1 & Ek1). assert (v1 = v') as -> by congruence.
  rewrite Forall_forall in He. unfold key_lt. rewrite Ek, Ek1. by apply He.
Qed.

(** ** The scan *)

(** The flows that expire among the events [es]. *)
Definition expired_of (realloc : eloc -> bool) (ex now : Z) (ft : FLOWTRACK) (es : list eloc) : list FLOW :=
  omap (fun e => match event ft e with
                 | Some (f, (at_, _)) => if due ex now at_ && realloc e then Some f else None
                 | None => None
                 end) es.

(** The flow at [l] expires. *)
Definition gone (ex now : Z) (es : list eloc) (ft : FLOWTRACK) (l : floc) : bool :=
  match ft_heap ft !! l with
  | Some f =>
      match f_expiry f with
      | Some e =>
          bool_decide (e ∈ es) &&
          match ft_eheap ft !! e with Some x => due ex now (e_expires_at x) | None => false end
      | None => false
      end
  | None => false
  end.

(** The statistics that a scan touches. *)
Definition reason_counter (c : counter) : bool :=
  match c with
  | expired_general | expired_tcp | expired_tcp_rst | expired_tcp_fin | expired_udp | expired_icmp
  | expired_maxlife | expired_overbytes | expired_maxflows | expired_flush => true
  | _ => false
  end.

(** The rest of the state is kept. *)
Definition same_rest (ft ft' : FLOWTRACK) : Prop :=
  ft_conf ft' = ft_conf ft /\ ft_next_flow_seq ft' = ft_next_flow_seq ft /\
  forall c, reason_counter c = false -> ft_count ft' c = ft_count ft c.

Lemma update_expiry_stats_same x ft :
  exists c, reason_counter c = true /\ update_expiry_stats x ft = bump c 1 ft.
Proof. unfold update_expiry_stats. destruct (e_reason x); eexists; (split; [|reflexivity]); done. Qed.

Lemma bump_track_ok c n ft : track_ok ft -> track_ok (bump c n ft).
Proof. intros []. by constructor. Qed.

Lemma scan_ok realloc ex now : forall es ft acc, track_ok ft -> NoDup es ->
  (forall e, e ∈ es -> is_Some (ft_eheap ft !! e)) ->
  exists ft', ofold (expire_event realloc ex now) (ft, acc) es = Ret (ft', acc ++ expired_of realloc ex now ft es) /\
    track_ok ft' /\ same_rest ft ft' /\
    forall l, entry ft' l = if gone ex now es ft l then None else entry ft l.
Proof.
  induction es as [|e es IH]; intros ft acc Hok Hnd Hin.
  { exists ft. cbn. rewrite app_nil_r. do 2 (split; [done|]). split; [done|]. intros l. unfold gone.
    destruct (ft_heap ft !! l) as [f|]; [|done]. destruct (f_expiry f) as [e|]; [|done].
    rewrite bool_decide_false; [done|]. apply not_elem_of_nil. }
  apply NoDup_cons in Hnd as [Hne Hnd]. destruct (Hin e) as [x Hx]; [by left|].
  destruct (event_Some ft e x Hok Hx) as (f & Hf & Hfe & Ev & En).
  cbn [ofold expired_of omap list_omap]. unfold expire_event at 1, expiry_get. rewrite Hx, Ev. cbn [obind].
  fold (expired_of realloc ex now ft es).
  destruct (due ex now (e_expires_at x)) eqn:Hdue; cbn [andb].
  - unfold flow_get. rewrite Hf. cbn [obind].
    set (x' := Mk_EXPIRY _ _ _). destruct (update_expiry_stats_same x' ft) as (c & Hc & ->).
    set (ft1 := evict (e_flow x) f e (bump c 1 ft)).
    change (evict (e_flow x') f e (bump c 1 ft)) with ft1.
    assert (track_ok ft1) as Hok1 by (apply evict_ok; [by apply bump_track_ok|done|done]).
    assert (forall e', e' ∈ es -> event ft1 e' = event ft e') as Hsame.
    { intros e' He'. assert (e' <> e) as Hne' by congruence. unfold event. cbn [ft1 evict ft_eheap].
      change (ft_eheap ft1) with (delete e (ft_eheap ft)). rewrite lookup_delete_ne by congruence.
      destruct (ft_eheap ft !! e') as [y|] eqn:Hy; [|done]. change (ft_heap ft1) with (delete (e_flow x) (ft_heap ft)).
      rewrite lookup_delete_ne; [done|]. intros E. by apply (event_of_other ft (e_flow x) f e e' y Hok). }
    destruct (IH ft1 (if realloc e then acc ++ [set_f_expiry None f] else acc) Hok1 Hnd) as (ft' & E & Hok' & Hrest & Hent).
    { intros e' He'. destruct (Hin e') as [y Hy]; [by right|]. exists y. apply evict_eheap. split; [congruence|done]. }
    exists ft'. rewrite E. split.
    { do 2 f_equal. assert (expired_of realloc ex now ft1 es = expired_of realloc ex now ft es) as ->.
      { clear -Hsame. unfold expired_of. induction es as [|e' es IH]; [done|]. cbn [omap list_omap].
        rewrite Hsame by by left. rewrite IH; [done|]. intros e1 He1. apply Hsame. by right. }
      destruct (realloc e); [by rewrite <- app_assoc|done]. }
    split; [done|]. split.
    { destruct Hrest as (H1 & H2 & H3). split; [done|]. split; [done|]. intros c' Hc'. rewrite H3 by done.
      cbn. case_decide; [congruence|done]. }
    intros l. rewrite Hent. unfold ft1. rewrite entry_evict by (try apply bump_track_ok; done). fold ft1.
    unfold gone. change (ft_heap ft1) with (delete (e_flow x) (ft_heap ft)).
    change (ft_eheap ft1) with (delete e (ft_eheap ft)). destruct (decide (l = e_flow x)) as [->|Hl].
    + rewrite lookup_delete_eq, Hf, Hfe, Hx, Hdue, bool_decide_true by by left. done.
    + rewrite lookup_delete_ne by congruence. destruct (ft_heap ft !! l) as [g|] eqn:Hg; [|done].
      destruct (f_expiry g) as [e'|] eqn:He'; [|done].
      assert (e' <> e) as Hee.
      { intros ->. destruct (to_expiry ft Hok l g Hg) as (e2 & x2 & He2 & Hx2 & Hl2). congruence. }
      rewrite lookup_delete_ne by congruence. rewrite (bool_decide_ext (e' ∈ e :: es) (e' ∈ es)); [done|].
      rewrite elem_of_cons. tauto.
  - destruct (IH ft acc Hok Hnd) as (ft' & E & Hok' & Hrest & Hent); [intros e' He'; apply Hin; by right|].
    exists ft'. cbn [obind]. rewrite E. do 3 (split; [done|]). intros l. rewrite Hent. unfold gone.
    destruct (ft_heap ft !! l) as [g|] eqn:Hg; [|done]. destruct (f_expiry g) as [e'|] eqn:He'; [|done].
    destruct (decide (e' = e)) as [->|Hee].
    + rewrite Hx, Hdue, !andb_false_r. done.
    + rewrite (bool_decide_ext (e' ∈ e :: es) (e' ∈ es)); [done|]. rewrite elem_of_cons. tauto.
Qed.

(** With memory for the array, the expired flows are those of the schedule that
    are due. *)
Lemma expired_schedule ex now ft :
  expired_of (fun _ => true) ex now ft (ft_expiries ft) =
    fst <$> filter (fun v => due ex now (fst (snd v)) = true) (schedule ft).
Proof.
  unfold expired_of, schedule. induction (ft_expiries ft) as [|e es IH]; [done|].
  cbn [omap list_omap]. destruct (event ft e) as [[f [a r]]|]; [|exact IH].
  rewrite filter_cons. cbn [fst snd]. rewrite andb_true_r.
  destruct (due ex now a); [rewrite decide_True, fmap_cons by done; by rewrite IH|by rewrite decide_False].
Qed.

Lemma expired_of_ok realloc ex now ft : track_ok ft ->
  Forall FLOW_ok (expired_of realloc ex now ft (ft_expiries ft)).
Proof.
  intros Hok. apply Forall_forall. intros f (e & _ & Ef)%list_elem_of_omap.
  destruct (event ft e) as [[g [a r]]|] eqn:Ev; [|done]. destruct (due ex now a && realloc e); [|done].
  injection Ef as ->. unfold event in Ev. destruct (ft_eheap ft !! e) as [x|] eqn:Hx; [|done].
  destruct (ft_heap ft !! e_flow x) as [h|] eqn:Hh; [|done]. injection Ev as <- _ _.
  destruct (to_FLOW ft Hok _ _ Hh) as [[] _]. by constructor.
Qed.

(** What the scan leaves in the table. *)
Definition stays (ex now : Z) (kv : list Z * tracked) : Prop := due ex now (fst (snd (snd kv))) = false.
#[export] Instance stays_dec ex now kv : Decision (stays ex now kv).
Proof. unfold stays. apply _. Defined.

Lemma table_gone ex now ft ft' : track_ok ft -> track_ok ft' ->
  (forall l, entry ft' l = if gone ex now (ft_expiries ft) ft l then None else entry ft l) ->
  table ft' = filter (stays ex now) (table ft).
Proof.
  intros Hok Hok' Hent. apply map_eq. intros k. apply option_eq. intros v.
  rewrite map_lookup_filter_Some, !table_lookup by done. unfold stays. cbn [snd].
  assert (forall l k v, entry ft l = Some (k, v) -> gone ex now (ft_expiries ft) ft l = due ex now (fst (snd v))) as Hg.
  { intros l k1 v1 (f & e & x & Hf & He & Hx & _ & ->)%entry_inv. unfold gone. rewrite Hf, He, Hx.
    rewrite bool_decide_true; [done|]. apply to_eheap; [done|by eexists]. }
  split.
  - intros [l E]. rewrite Hent in E. destruct (gone ex now (ft_expiries ft) ft l) eqn:G; [done|].
    split; [by exists l|]. by rewrite <- (Hg l k v).
  - intros [[l E] Hs]. exists l. rewrite Hent. by rewrite (Hg l k v E), Hs.
Qed.

Lemma due_iff ex now at_ : due ex now at_ = true <->
  at_ <> 1 /\ (at_ = 0 \/ ex = CE_EXPIRE_ALL \/ ex <> CE_EXPIRE_FORCED /\ at_ < now).
Proof.
  unfold due. rewrite andb_true_iff, negb_true_iff, Z.eqb_neq, !orb_true_iff, andb_true_iff, negb_true_iff, Z.eqb_neq.
  rewrite !Z.eqb_eq, Z.ltb_lt. tauto.
Qed.

(** ** check_expired *)

(** What a sender promises: it terminates on well-formed flows. *)
Class DialectLaws (N : Type) `{Dialect N} :=
  dialect_total flows exported boot net : Forall FLOW_ok flows -> u64 exported ->
    exists r exported' net', dialect_func flows exported boot (-1) net = Ret (r, exported', net') /\ u64 exported'.

Lemma update_statistics_same fs : forall ft,
  let ft' := fold_left (fun ft f => update_statistics f ft) fs ft in
  (track_ok ft -> track_ok ft') /\ table ft' = table ft /\ ft_conf ft' = ft_conf ft /\
  ft_next_flow_seq ft' = ft_next_flow_seq ft /\ ft_num_flows ft' = ft_num_flows ft /\
  ft_expiries ft' = ft_expiries ft /\
  forall c, c <> flows_expired -> (forall p, c <> flows_pp p) -> ft_count ft' c = ft_count ft c.
Proof.
  induction fs as [|f fs IH]; intros ft; [done|]. cbn [fold_left].
  destruct (IH (update_statistics f ft)) as (H1 & H2 & H3 & H4 & H5 & H6 & H7).
  split; [intros Hok; apply H1; by repeat apply bump_track_ok|]. do 5 (split; [done|]).
  intros c Hc1 Hc2. rewrite H7 by done. unfold update_statistics. cbn.
  rewrite !decide_False by (done || apply Hc2). done.
Qed.

Section check_expired_laws.
Context {N : Type} `{DialectLaws N}.

(** How check_expired ends, without the emulator: with the flows sent or not. *)
Definition checked (realloc : eloc -> bool) (target : bool) (ex now : Z) (ft : FLOWTRACK) (net : N)
    (r : Z) (ft' : FLOWTRACK) (net' : N) : Prop :=
  let expired := expired_of realloc ex now ft (ft_expiries ft) in
  let n := Z.of_nat (length expired) in
  track_ok ft' /\ table ft' = filter (stays ex now) (table ft) /\
  ft_conf ft' = ft_conf ft /\ ft_next_flow_seq ft' = ft_next_flow_seq ft /\
  if (0 <? n) && target then
    exists sent exported,
      dialect_func expired (ft_count ft flows_exported) (system_boot_time (ft_conf ft)) (-1) net = Ret (sent, exported, net') /\
      u64 exported /\ ft_count ft' flows_exported = exported /\ r = (if sent =? -1 then -1 else n) /\
      ft_count ft' packets_sent = (if 0 <? sent then wrap64 (ft_count ft packets_sent + sent) else ft_count ft packets_sent) /\
      ft_count ft' flows_dropped = (if 0 <? sent then ft_count ft flows_dropped else wrap64 (ft_count ft flows_dropped + n * 2))
  else r = n /\ net' = net /\ ft_count ft' flows_exported = ft_count ft flows_exported.

Lemma check_expired_ok realloc target ex now ft net : track_ok ft -> u64 (ft_count ft flows_exported) ->
  exists r ft' net', check_expired realloc None target ex now ft net = Ret (r, ft', net') /\
    checked realloc target ex now ft net r ft' net'.
Proof.
  intros Hok Hu. unfold check_expired, expiry_scan, checked.
  set (expired := expired_of realloc ex now ft (ft_expiries ft)). set (n := Z.of_nat (length expired)).
  destruct (scan_ok realloc ex now (ft_expiries ft) ft [] Hok) as (ft1 & E & Hok1 & (Hc1 & Hn1 & Hcnt1) & Hent).
  { exact (key_sorted_NoDup _ _ (to_expiries ft Hok)). }
  { intros e. apply (to_eheap ft Hok). }
  rewrite E. cbn [obind app]. fold expired. fold n.
  pose proof (table_gone ex now ft ft1 Hok Hok1 Hent) as Htab.
  destruct ((0 <? n) && target); cbn [obind].
  - destruct (dialect_total expired (ft_count ft flows_exported) (system_boot_time (ft_conf ft)) net) as (sent & exported & net' & Ed & Hue);
      [by apply expired_of_ok|done|].
    unfold dialect_call. rewrite Hcnt1, Hc1, Ed by done. cbn [obind].
    set (ft2 := if 0 <? sent then if 0 <? sent then _ else _ else _).
    assert (track_ok ft2 /\ table ft2 = table ft1 /\ ft_conf ft2 = ft_conf ft1 /\ ft_next_flow_seq ft2 = ft_next_flow_seq ft1 /\
      ft_count ft2 flows_exported = exported /\
      ft_count ft2 packets_sent = (if 0 <? sent then wrap64 (ft_count ft packets_sent + sent) else ft_count ft packets_sent) /\
      ft_count ft2 flows_dropped = (if 0 <? sent then ft_count ft flows_dropped else wrap64 (ft_count ft flows_dropped + n * 2)))
      as (Hok2 & Ht2 & Hc2 & Hn2 & He2 & Hp2 & Hd2).
    { subst ft2. destruct (0 <? sent); (split; [destruct Hok1; by constructor|]); do 3 (split; [done|]);
        rewrite <- !Hcnt1 by done; done. }
    destruct (update_statistics_same expired ft2) as (H1 & H2 & H3 & H4 & _ & _ & H7).
    eexists _, _, net'. split; [reflexivity|]. split; [by apply H1|]. rewrite H2, H3, H4, Ht2, Hc2, Hn2.
    do 3 (split; [done|]). exists sent, exported. rewrite !H7 by done. done.
  - destruct (update_statistics_same expired ft1) as (H1 & H2 & H3 & H4 & _ & _ & H7).
    eexists _, _, net. split; [reflexivity|]. split; [by apply H1|]. rewrite H2, H3, H4.
    do 3 (split; [done|]). rewrite !H7 by done. split; [|by rewrite Hcnt1].
    destruct (Z.eqb_spec 0 (-1)); [lia|done].
Qed.
End check_expired_laws.

(** C3: check_expired.  It always ends (for a sender that does) in a consistent
    table that holds exactly the flows that are not due: a flow is due when its
    expiry time is 0 or, in normal mode, has passed, and always when all flows are
    flushed, but never while that time is 1.  The flows that leave are handed to
    the sender in one call, in the order of the schedule: by time of expiry, then
    by age; the result is their number, or -1 when the sender fails. *)
Theorem check_expired_spec {N : Type} `{DialectLaws N} ex now ft (net : N) :
  track_ok ft -> u64 (ft_count ft flows_exported) ->
  let expired := fst <$> filter (fun v => due ex now (fst (snd v)) = true) (schedule ft) in
  (key_sorted sched_key (schedule ft) /\ forall v, v ∈ schedule ft <-> exists k, table ft !! k = Some v) /\
  (forall at_, due ex now at_ = true <->
     at_ <> 1 /\ (at_ = 0 \/ ex = CE_EXPIRE_ALL \/ ex <> CE_EXPIRE_FORCED /\ at_ < now)) /\
  exists r ft' net', check_expired (fun _ => true) None true ex now ft net = Ret (r, ft', net') /\ track_ok ft' /\
    table ft' = filter (stays ex now) (table ft) /\
    (expired = [] /\ r = 0 /\ net' = net \/
     exists sent exported,
       dialect_func expired (ft_count ft flows_exported) (system_boot_time (ft_conf ft)) (-1) net = Ret (sent, exported, net') /\
       r = if sent =? -1 then -1 else Z.of_nat (length expired)).
Proof.
  intros Hok Hu expired. split; [split; [by apply schedule_sorted|intros v; by apply schedule_elem]|].
  split; [apply due_iff|].
  destruct (check_expired_ok (fun _ => true) true ex now ft net Hok Hu) as (r & ft' & net' & E & Hok' & Htab & _ & _ & Hr).
  exists r, ft', net'. do 3 (split; [done|]). rewrite expired_schedule in Hr. fold expired in Hr.
  rewrite andb_true_r in Hr. destruct (Z.ltb_spec 0 (Z.of_nat (length expired))) as [Hn|Hn].
  - right. destruct Hr as (sent & exported & Hd & _ & _ & -> & _). by exists sent, exported.
  - left. destruct Hr as (-> & -> & _). assert (length expired = 0%nat) as Hl by lia.
    split; [by apply nil_length_inv|]. by rewrite Hl.
Qed.

(** ** Forced expiry *)

(** A list that maps into another one injectively is not longer. *)
Lemma pigeonhole {A B} (R : A -> B -> Prop) (l : list A) : forall l' : list B, NoDup l ->
  (forall a, a ∈ l -> exists b, b ∈ l' /\ R a b) ->
  (forall a a' b, R a b -> R a' b -> a = a') -> (length l <= length l')%nat.
Proof.
  induction l as [|a l IH]; intros l' Hnd Hl Hinj; [cbn; lia|]. apply NoDup_cons in Hnd as [Ha Hnd].
  destruct (Hl a) as (b & Hb & HR); [by left|]. apply list_elem_of_split in Hb as (l1 & l2 & ->).
  assert (length l <= length (l1 ++ l2))%nat as Hle; [|rewrite !length_app in *; cbn in *; lia].
  apply IH; [done| |done]. intros a' Ha'. destruct (Hl a') as (b' & Hb' & HR'); [by right|].
  exists b'. split; [|done]. rewrite elem_of_app, elem_of_cons in Hb'. rewrite elem_of_app.
  destruct Hb' as [?|[->|?]]; [by left| |by right]. by rewrite (Hinj a' a b HR' HR) in Ha'.
Qed.

(** A flow and its expiry event. *)
Definition linked (ft : FLOWTRACK) (l : floc) (e : eloc) : Prop :=
  exists f x, ft_heap ft !! l = Some f /\ f_expiry f = Some e /\ ft_eheap ft !! e = Some x /\ e_flow x = l.

Lemma expiries_flows ft : track_ok ft -> (length (ft_expiries ft) <= length (ft_flows ft))%nat.
Proof.
  intros Hok. apply (pigeonhole (fun e l => linked ft l e)).
  - exact (key_sorted_NoDup _ _ (to_expiries ft Hok)).
  - intros e [x Hx]%(to_eheap ft Hok). destruct (to_flow ft Hok e x Hx) as (f & Hf & He).
    exists (e_flow x). split; [apply to_heap; [done|by eexists]|]. by exists f, x.
  - intros e e' l (f & x & Hf & He & _) (f' & x' & Hf' & He' & _). congruence.
Qed.

Lemma force_loop_ok : forall es ft, track_ok ft -> NoDup es -> (forall e, e ∈ es -> is_Some (ft_eheap ft !! e)) ->
  exists ft', ofold (fun ft e => let! x := expiry_get ft e in Ret (reschedule e x 0 R_OVERFLOWS ft)) ft es = Ret ft' /\
    track_ok ft' /\ ft_heap ft' = ft_heap ft /\ ft_flows ft' = ft_flows ft /\ ft_conf ft' = ft_conf ft /\
    ft_count ft' = ft_count ft /\ ft_num_flows ft' = ft_num_flows ft /\
    forall e, ft_eheap ft' !! e =
      if bool_decide (e ∈ es) then (fun x => Mk_EXPIRY (e_flow x) 0 R_OVERFLOWS) <$> ft_eheap ft !! e else ft_eheap ft !! e.
Proof.
  induction es as [|e es IH]; intros ft Hok Hnd Hin.
  { exists ft. do 7 (split; [done|]). intros e. rewrite bool_decide_false; [done|]. apply not_elem_of_nil. }
  apply NoDup_cons in Hnd as [Hne Hnd]. destruct (Hin e) as [x Hx]; [by left|]. cbn [ofold].
  unfold expiry_get at 1. rewrite Hx. cbn [obind]. pose proof (reschedule_ok ft e x 0 R_OVERFLOWS Hok Hx) as Hok1.
  set (ft1 := reschedule e x 0 R_OVERFLOWS ft) in *.
  assert (forall e', ft_eheap ft1 !! e' = if decide (e' = e) then Some (Mk_EXPIRY (e_flow x) 0 R_OVERFLOWS) else ft_eheap ft !! e') as Hh.
  { intros e'. change (ft_eheap ft1) with (<[e := Mk_EXPIRY (e_flow x) 0 R_OVERFLOWS]> (ft_eheap ft)).
    case_decide as E; [by rewrite E, lookup_insert_eq|by rewrite lookup_insert_ne by done]. }
  destruct (IH ft1 Hok1 Hnd) as (ft' & E & Hok' & H1 & H2 & H3 & H4 & H5 & H6).
  { intros e' He'. rewrite Hh. case_decide; [by eexists|]. apply Hin. by right. }
  exists ft'. split; [exact E|]. do 6 (split; [done|]). intros e'. rewrite H6, Hh. case_decide as Ee.
  - subst e'. rewrite Hx, bool_decide_false, bool_decide_true by (done || by left). done.
  - rewrite (bool_decide_ext (e' ∈ e :: es) (e' ∈ es)); [done|]. rewrite elem_of_cons. tauto.
Qed.

(** The first [n] events of the schedule become due. *)
Lemma force_expire_ok n ft : track_ok ft ->
  exists ft', force_expire true n ft = Ret ft' /\ track_ok ft' /\ ft_heap ft' = ft_heap ft /\
    ft_flows ft' = ft_flows ft /\ ft_conf ft' = ft_conf ft /\ ft_num_flows ft' = ft_num_flows ft /\
    (forall c, c <> flows_force_expired -> ft_count ft' c = ft_count ft c) /\
    forall e, ft_eheap ft' !! e =
      if bool_decide (e ∈ take (Z.to_nat n) (ft_expiries ft))
      then (fun x => Mk_EXPIRY (e_flow x) 0 R_OVERFLOWS) <$> ft_eheap ft !! e else ft_eheap ft !! e.
Proof.
  intros Hok. unfold force_expire. cbn [negb].
  destruct (force_loop_ok (take (Z.to_nat n) (ft_expiries ft)) ft Hok) as (ft' & E & Hok' & H1 & H2 & H3 & H4 & H5 & H6).
  { pose proof (key_sorted_NoDup _ _ (to_expiries ft Hok)) as Hnd.
    rewrite <- (take_drop (Z.to_nat n) (ft_expiries ft)) in Hnd. by apply NoDup_app in Hnd as [? _]. }
  { intros e He. apply (to_eheap ft Hok). by eapply elem_of_take in He as (i & Hi & _); eapply list_elem_of_lookup_2. }
  rewrite E. cbn [obind]. eexists. split; [reflexivity|]. split; [by apply bump_track_ok|]. do 4 (split; [done|]).
  split; [|done]. intros c Hc. cbn. rewrite decide_False by done. by rewrite H4.
Qed.

(** ** The main loop *)

(** The flows that the scan after a forced expiry leaves have events beyond the
    first [n]. *)
Lemma forced_then_checked n ft ft1 ft2 ex now : track_ok ft -> track_ok ft1 -> track_ok ft2 ->
  ft_heap ft1 = ft_heap ft -> 
  (forall e, ft_eheap ft1 !! e =
      if bool_decide (e ∈ take n (ft_expiries ft))
      then (fun x => Mk_EXPIRY (e_flow x) 0 R_OVERFLOWS) <$> ft_eheap ft !! e else ft_eheap ft !! e) ->
  table ft2 = filter (stays ex now) (table ft1) ->
  (length (ft_flows ft2) <= length (ft_flows ft) - n)%nat.
Proof.
  intros Hok Hok1 Hok2 Hh Heh Htab.
  assert (length (ft_flows ft2) <= length (drop n (ft_expiries ft)))%nat as Hle;
    [|pose proof (expiries_flows ft Hok); rewrite length_drop in Hle; lia].
  apply (pigeonhole (fun l2 e => exists l f2, ft_heap ft2 !! l2 = Some f2 /\ linked ft l e /\
    (exists f, ft_heap ft !! l = Some f /\ flow_key f = flow_key f2))).
  - exact (key_sorted_NoDup _ _ (to_flows ft2 Hok2)).
  - intros l2 [f2 Hf2]%(to_heap ft2 Hok2). destruct (entry_Some ft2 l2 f2 Hok2 Hf2) as (e2 & x2 & _ & _ & _ & En2).
    assert (exists v, table ft2 !! flow_key f2 = Some v) as [v Hv].
    { eexists. apply table_lookup; [done|]. by exists l2. }
    rewrite Htab in Hv. apply map_lookup_filter_Some in Hv as [[l En]%table_lookup Hs]; [|done].
    apply entry_inv in En as (f & e & x & Hf & He & Hx & Ek & ->). rewrite Hh in Hf.
    exists e. assert (ft_eheap ft !! e = Some x /\ e ∉ take n (ft_expiries ft)) as [Hx' Hnot].
    { rewrite Heh in Hx. destruct (decide (e ∈ take n (ft_expiries ft))) as [Hin|Hnot].
      - rewrite bool_decide_true in Hx by done. destruct (ft_eheap ft !! e); [|done]. cbn in Hx. injection Hx as <-.
        unfold stays, due in Hs. done.
      - by rewrite bool_decide_false in Hx. }
    split.
    { assert (e ∈ ft_expiries ft) as Hin by (apply to_eheap; [done|by eexists]).
      rewrite <- (take_drop n (ft_expiries ft)), elem_of_app in Hin. by destruct Hin. }
    exists l, f2. split; [done|]. destruct (to_expiry ft Hok l f Hf) as (e' & x' & He' & Hx'' & Hl).
    split; [|by exists f]. exists f, x. do 3 (split; [done|]). congruence.
  - intros l2 l2' e (l & f2 & Hf2 & (_ & x & _ & _ & Hx & Hl) & (f & Hf & Hk))
      (l' & f2' & Hf2' & (_ & x' & _ & _ & Hx' & Hl') & (f' & Hf' & Hk')).
    apply (flow_key_inj ft2 l2 l2' f2 f2' Hok2 Hf2 Hf2'). congruence.
Qed.

(** The limit on the number of flows.  When expiries are processed the loop of
    the main program ends after at most one forced expiry, with at most max_flows
    flows in a consistent table. *)
Theorem expiry_check_terminates {N : Type} `{DialectLaws N} realloc target ex now max_flows ft (net : N) :
  track_ok ft -> u64 (ft_count ft flows_exported) -> 0 <= max_flows ->
  exists ft' net', expiry_check 2 realloc true target ex now max_flows ft net = Ret (ft', net') /\
    track_ok ft' /\ ft_num_flows ft' <= max_flows.
Proof.
  intros Hok Hu Hmax. cbn [expiry_check].
  destruct (check_expired_ok realloc target ex now ft net Hok Hu) as (r & ft1 & net1 & -> & Hch1).
  cbn [obind]. destruct Hch1 as (Hok1 & Htab1 & Hc1 & Hn1 & Hrest1).
  destruct (Z.ltb_spec max_flows (ft_num_flows ft1)) as [Hlt|Hge]; [|by exists ft1, net1].
  destruct (to_num ft1 Hok1) as [Hnum1 Hu1]. rewrite wrap32_small by (width; lia).
  destruct (force_expire_ok (ft_num_flows ft1 - max_flows) ft1 Hok1) as (ft2 & -> & Hok2 & Hh2 & Hf2 & Hc2 & Hnum2 & Hcnt2 & Heh2).
  cbn [obind].
  assert (u64 (ft_count ft2 flows_exported)) as Hu2.
  { rewrite Hcnt2 by done. destruct ((0 <? _) && target).
    - destruct Hrest1 as (sent & exported & _ & Hue & -> & _). done.
    - destruct Hrest1 as (_ & _ & ->). done. }
  destruct (check_expired_ok realloc target ex now ft2 net1 Hok2 Hu2) as (r3 & ft3 & net3 & -> & Hok3 & Htab3 & _).
  cbn [obind]. pose proof (forced_then_checked _ ft1 ft2 ft3 ex now Hok1 Hok2 Hok3 Hh2 Heh2 Htab3) as Hle.
  destruct (to_num ft3 Hok3) as [Hnum3 _].
  assert (ft_num_flows ft3 <= max_flows) as Hm by (rewrite Hnum3; lia).
  rewrite (proj2 (Z.ltb_ge _ _)) by done. by exists ft3, net3.
Qed.

(** ** Deletion *)

Lemma delete_loop_ok : forall ls ft i, track_ok ft -> NoDup ls -> (forall l, l ∈ ls -> is_Some (ft_heap ft !! l)) ->
  exists ft', ofold delete_flow (ft, i) ls = Ret (ft', i + Z.of_nat (length ls)) /\ track_ok ft' /\
    forall l f, ft_heap ft' !! l = Some f <-> (l ∉ ls) /\ ft_heap ft !! l = Some f.
Proof.
  induction ls as [|l ls IH]; intros ft i Hok Hnd Hin.
  { exists ft. cbn. rewrite Z.add_0_r. do 2 (split; [done|]). intros l f.
    split; [intros Hf; split; [apply not_elem_of_nil|done]|by intros []]. }
  apply NoDup_cons in Hnd as [Hne Hnd]. destruct (Hin l) as [f Hf]; [by left|].
  destruct (to_expiry ft Hok l f Hf) as (e & x & He & _). cbn [ofold delete_flow].
  unfold flow_get. rewrite Hf. cbn [obind]. rewrite He. cbn [obind].
  destruct (IH (evict l f e ft) (i + 1) (evict_ok ft l f e Hok Hf He) Hnd) as (ft' & E & Hok' & Hh).
  { intros l' Hl'. destruct (Hin l') as [f' Hf']; [by right|]. exists f'. apply evict_heap. split; [congruence|done]. }
  exists ft'. rewrite E. split; [do 2 f_equal; cbn [length]; lia|]. split; [done|]. intros l' f'.
  rewrite Hh, evict_heap, not_elem_of_cons. tauto.
Qed.

(** delete_all_flows empties the table without exporting anything and returns
    the number of flows it had. *)
Lemma delete_all_flows_ok ft : track_ok ft ->
  exists ft', delete_all_flows ft = Ret (ft', ft_num_flows ft) /\ track_ok ft' /\ table ft' = ∅ /\ ft_num_flows ft' = 0.
Proof.
  intros Hok. unfold delete_all_flows.
  destruct (delete_loop_ok (ft_flows ft) ft 0 Hok (key_sorted_NoDup _ _ (to_flows ft Hok))) as (ft' & E & Hok' & Hh).
  { intros l. apply (to_heap ft Hok). }
  destruct (to_num ft Hok) as [Hn _]. exists ft'. rewrite E, Hn. split; [done|]. split; [done|].
  assert (forall l f, ft_heap ft' !! l <> Some f) as Hnone.
  { intros l f [Hl Hf]%Hh. apply Hl. apply to_heap; [done|by eexists]. }
  split.
  - apply map_empty. intros k. destruct (table ft' !! k) as [v|] eqn:Ev; [|done].
    apply table_lookup in Ev as [l (f & _ & _ & Hf & _)%entry_inv]; [|done]. by destruct (Hnone l f).
  - rewrite (proj1 (to_num ft' Hok')). destruct (ft_flows ft') as [|l ls] eqn:El; [done|].
    assert (l ∈ ft_flows ft') as [f Hf]%(to_heap ft' Hok') by (rewrite El; by left). by destruct (Hnone l f).
Qed.
