(* ===== verification/Lifetime.v ===== *)
(** * The life of flows

    Runs of the program: packets and expiry checks from the initial state.  A run
    never goes wrong, its tables stay consistent, and a flow that has been idle
    for longer than the timeouts is gone after the next check. *)

From stdpp Require Import gmap.
From S2P Require Import Prelude Packed Order Splay Keyed Addr.
From S2P Require Import SoftTypes Ipflow FlowTrack FlowTable FlowTrackProps Expire.
From S2P Require Import ExpireProps.

(** ** The number of flows *)

Lemma table_size ft : track_ok ft -> Z.of_nat (base.size (table ft)) = ft_num_flows ft.
Proof.
  intros Hok. rewrite (proj1 (to_num ft Hok)). unfold table.
  rewrite <- (length_map_to_list (list_to_map _)).
  rewrite (map_to_list_to_map _ (table_keys ft Hok)). f_equal.
  assert (forall l, l ∈ ft_flows ft -> is_Some (ft_heap ft !! l)) as Hin by (intros l; apply (to_heap ft Hok)).
  induction (ft_flows ft) as [|l ls IH]; [done|]. cbn [omap list_omap].
  destruct (Hin l) as [f Hf]; [by left|]. destruct (entry_Some ft l f Hok Hf) as (e & x & _ & _ & _ & ->).
  cbn [length]. f_equal. apply IH. intros l' Hl'. apply Hin. by right.
Qed.

(** ** When a flow is due *)

(** The longest time a flow stays without traffic. *)
Definition idle (c : CONF) : Z :=
  Z.max (tcp_timeout c) (Z.max (tcp_rst_timeout c) (Z.max (tcp_fin_timeout c)
    (Z.max (udp_timeout c) (Z.max (icmp_timeout c) (general_timeout c))))).

Record conf_ok (c : CONF) : Prop := {
  co_tcp : 0 <= tcp_timeout c;
  co_rst : 0 <= tcp_rst_timeout c;
  co_fin : 0 <= tcp_fin_timeout c;
  co_udp : 0 <= udp_timeout c;
  co_icmp : 0 <= icmp_timeout c;
  co_general : 0 <= general_timeout c;
  co_maxlife : 0 <= maximum_lifetime c
}.

(** A time of a packet, in seconds, for which no expiry time wraps around; the
    first two seconds of the epoch are left out. *)
Definition clock_ok (c : CONF) (t : Z) : Prop := 2 <= t /\ t + idle c < 4294967296.

Lemma expiry_of_bounds c f : conf_ok c -> clock_ok c (fst (f_flow_last f)) -> clock_ok c (fst (f_flow_start f)) ->
  let a := fst (expiry_of c f) in
  a = 0 \/ 2 <= a <= fst (f_flow_last f) + idle c /\
           (maximum_lifetime c <> 0 -> a <= fst (f_flow_start f) + maximum_lifetime c).
Proof.
  intros [] [Hl Hi] [Hs _].
  assert (forall t r, 0 <= t <= idle c -> let p := (wrap32 (fst (f_flow_last f) + t), r) : Z * reason in
    fst p = 0 \/ 2 <= fst p <= fst (f_flow_last f) + idle c) as Hin.
  { intros t r Ht p. right. unfold p. cbn [fst]. rewrite wrap32_small by (unfold u32; lia). lia. }
  assert (tcp_timeout c <= idle c /\ tcp_rst_timeout c <= idle c /\ tcp_fin_timeout c <= idle c /\
    udp_timeout c <= idle c /\ icmp_timeout c <= idle c /\ general_timeout c <= idle c) as (? & ? & ? & ? & ? & ?).
  { unfold idle. lia. }
  unfold expiry_of.
  set (p := if _ || _ then _ else _).
  assert (fst p = 0 \/ 2 <= fst p <= fst (f_flow_last f) + idle c) as Hp.
  { subst p. repeat match goal with |- context [if ?b then _ else _] => destruct b end; try (by left); apply Hin; lia. }
  destruct p as [a r]. cbn [fst] in Hp.
  destruct (Z.eqb_spec (maximum_lifetime c) 0) as [Em|Em]; cbn [negb andb fst]; [destruct Hp; [by left|right; lia]|].
  destruct (Z.eqb_spec a 0) as [Ea|Ea]; cbn [negb fst]; [by left|]. right. destruct Hp as [?|Hp]; [done|].
  destruct (Z.ltb_spec a (fst (f_flow_start f) + maximum_lifetime c)); rewrite wrap32_small by (unfold u32; lia); lia.
Qed.

(** ** Runs *)

Inductive event_step :=
  | Packet (pkt : bytes) (af len : Z) (t : Z * Z)
  | Check (ex now : Z).

(** Packets come with all their captured bytes and a good time. *)
Definition good_step (c : CONF) (a : event_step) : Prop :=
  match a with
  | Packet pkt af len t => Forall u8 pkt /\ icmp_unread pkt af = false /\ timeval_ok t /\ clock_ok c (fst t)
  | Check _ _ => True
  end.

(** The initial state with the options of the command line. *)
Definition configured (c : CONF) : FLOWTRACK :=
  Mk_FLOWTRACK c (ft_heap init_flowtrack) (ft_flows init_flowtrack) (ft_eheap init_flowtrack)
    (ft_expiries init_flowtrack) (ft_num_flows init_flowtrack) (ft_next_flow_seq init_flowtrack) (ft_count init_flowtrack).

Section runs.
Context {N : Type} `{DialectLaws N} (realloc : eloc -> bool) (target : bool).

Definition step (s : FLOWTRACK * N) (a : event_step) : outcome (FLOWTRACK * N) :=
  let '(ft, net) := s in
  match a with
  | Packet pkt af len t =>
      let! (_, ft) := process_packet true true pkt af (Z.of_nat (length pkt)) len t ft in Ret (ft, net)
  | Check ex now => let! (_, ft, net) := check_expired realloc None target ex now ft net in Ret (ft, net)
  end.

(** The flow of an entry and its times. *)
Definition entry_ok (c : CONF) (v : tracked) : Prop :=
  clock_ok c (fst (f_flow_last (fst v))) /\ clock_ok c (fst (f_flow_start (fst v))) /\
  (snd v = expiry_of c (fst v) \/ fst (snd v) = 0).

(** What holds after [n] steps. *)
Record reached (c : CONF) (n : Z) (ft : FLOWTRACK) : Prop := {
  re_ok : track_ok ft;
  re_conf : ft_conf ft = c;
  re_exported : u64 (ft_count ft flows_exported);
  re_seq : 0 < ft_next_flow_seq ft <= n + 1;
  re_num : ft_num_flows ft <= n;
  re_entries k v : table ft !! k = Some v -> entry_ok c v
}.

Lemma reached_room c n ft : reached c n ft -> n + 1 < 4294967296 -> room ft.
Proof.
  intros [] Hn. pose proof (proj2 (to_num ft re_ok0)). pose proof (to_next ft re_ok0). unfold room. width. lia.
Qed.

Lemma arrive_entries c tmp t seq m : clock_ok c (fst t) -> (forall k v, m !! k = Some v -> entry_ok c v) ->
  forall k v, arrive c tmp t seq m !! k = Some v -> entry_ok c v.
Proof.
  intros Ht Hm k v. unfold arrive. destruct (m !! flow_key tmp) as [[f x]|] eqn:E;
    intros [[<- <-]|[_ Hk]]%lookup_insert_Some; try (by eapply Hm).
  - destruct (Hm _ _ E) as (_ & Hs & Hx). split; [exact Ht|]. split; [exact Hs|]. cbn [fst snd].
    destruct (Z.eqb_spec (fst x) 0); [by right|by left].
  - split; [exact Ht|]. split; [exact Ht|]. by left.
Qed.

Lemma reached_step c n ft net a : 0 <= n -> reached c n ft -> good_step c a -> n + 1 < 4294967296 ->
  exists ft' net', step (ft, net) a = Ret (ft', net') /\ reached c (n + 1) ft'.
Proof.
  intros Hn Hr Ha Hlt. pose proof (reached_room c n ft Hr Hlt) as Hroom. destruct Hr as [Hok Hc Hu Hs Hnum He].
  destruct a as [pkt af len t|ex now]; cbn [step].
  - destruct Ha as (Hb & Hi & Ht & Hclk).
    destruct (packet_arrival_ok pkt af len t ft Hb Hi Ht Hok Hroom) as (rc & ft' & -> & Hok' & Hc' & Htab & Hseq & Hnum' & Hcnt).
    cbn [obind]. exists ft', net. split; [done|]. constructor; [done|congruence| | | |].
    + by rewrite Hcnt.
    + lia.
    + lia.
    + destruct Htab as [->|(tmp & ->)]; [exact He|]. rewrite Hc. by apply arrive_entries.
  - destruct (check_expired_ok realloc target ex now ft net Hok Hu) as (r & ft' & net' & -> & Hch).
    cbn [obind]. exists ft', net'. split; [done|]. destruct Hch as (Hok' & Htab & Hc' & Hs' & Hrest).
    constructor; [done|congruence| | | |].
    + destruct ((0 <? _) && target).
      * destruct Hrest as (sent & exported & _ & Hue & -> & _). done.
      * destruct Hrest as (_ & _ & ->). done.
    + lia.
    + rewrite <- table_size, Htab by done. pose proof (map_size_filter (stays ex now) (table ft)).
      pose proof (table_size ft Hok). lia.
    + intros k v. rewrite Htab. intros [Hk _]%map_lookup_filter_Some. by eapply He.
Qed.

Lemma run_reached c : forall steps n ft net, 0 <= n -> reached c n ft -> Forall (good_step c) steps ->
  n + Z.of_nat (length steps) < 4294967296 ->
  exists ft' net', ofold step (ft, net) steps = Ret (ft', net') /\ reached c (n + Z.of_nat (length steps)) ft'.
Proof.
  induction steps as [|a steps IH]; intros n ft net Hn Hr Hg Hlt.
  { exists ft, net. cbn. by rewrite Z.add_0_r. }
  apply Forall_cons in Hg as [Ha Hg]. cbn [length] in *. cbn [ofold].
  destruct (reached_step c n ft net a Hn Hr Ha) as (ft1 & net1 & -> & Hr1); [lia|]. cbn [obind].
  destruct (IH (n + 1) ft1 net1) as (ft' & net' & E & Hr'); [lia|done|done|lia|].
  exists ft', net'. split; [exact E|]. replace (n + Z.of_nat (S (length steps))) with (n + 1 + Z.of_nat (length steps)) by lia.
  done.
Qed.
End runs.

Lemma configured_reached c : reached c 0 (configured c).
Proof.
  destruct init_flowtrack_ok as [Hok _]. constructor; try done. destruct Hok. by constructor.
Qed.

(** C4: flows expire.  From the initial state, any run of packets and checks (fewer
    than 2^32 of them, at times whose expiry times fit in 32 bits) goes through
    without an error, whatever the sender and failing allocations of check_expired
    do; and after one more check in normal mode no flow remains that has been idle
    for longer than the greatest timeout, or has lived longer than the maximum
    lifetime, if there is one. *)
Theorem idle_flows_expire {N : Type} `{DialectLaws N} c realloc target steps now (net : N) :
  conf_ok c -> Forall (good_step c) steps -> Z.of_nat (length steps) + 1 < 4294967296 ->
  exists ft net', ofold (step realloc target) (configured c, net) (steps ++ [Check CE_EXPIRE_NORMAL now]) = Ret (ft, net') /\
    track_ok ft /\
    forall k f x, table ft !! k = Some (f, x) ->
      now <= fst (f_flow_last f) + idle c /\
      (maximum_lifetime c <> 0 -> now <= fst (f_flow_start f) + maximum_lifetime c).
Proof.
  intros Hc Hg Hlt.
  destruct (run_reached realloc target c steps 0 (configured c) net) as (ft1 & net1 & E1 & Hr1);
    [lia|apply configured_reached|done|lia|].
  destruct (check_expired_ok realloc target CE_EXPIRE_NORMAL now ft1 net1 (re_ok _ _ _ Hr1) (re_exported _ _ _ Hr1))
    as (r & ft & net' & E & Hok & Htab & _).
  exists ft, net'. rewrite ofold_app, E1. cbn [obind ofold step]. rewrite E. cbn [obind].
  do 2 (split; [done|]). intros k f x Hk. rewrite Htab in Hk. apply map_lookup_filter_Some in Hk as [Hk Hs].
  destruct (re_entries _ _ _ Hr1 _ _ Hk) as (Hl & Hst & Hx). cbn [fst snd] in *.
  unfold stays, due in Hs. cbn [fst snd] in Hs.
  assert (fst x <> 0) as Hne by (intros E0; rewrite E0 in Hs; done).
  destruct Hx as [Hx|Hx]; [|done].
  destruct (expiry_of_bounds c f Hc Hl Hst) as [Ez|[Hb Hm]]; rewrite <- Hx in *; [done|].
  rewrite (proj2 (Z.eqb_neq (fst x) 0)), (proj2 (Z.eqb_neq (fst x) 1)) in Hs by lia.
  cbn in Hs. rewrite andb_true_r in Hs. apply Z.ltb_ge in Hs. split; [lia|]. intros Hml. specialize (Hm Hml). lia.
Qed.
