(* ===== verification/TableExport.v ===== *)
(** * From the table of flows to the log of the collector

    send_netflow_v5 (and send_netflow_v1) as the sender of check_expired: the
    interface [Dialect] and its law hold, so the theorems on expiry apply; and
    the whole way of a flow, from its expiry in the table of softflowd to the log
    of flowd. *)

From stdpp Require Import gmap.
From S2P Require Import Prelude Packed Addr StoreTypes Store Netflow.
From S2P Require Import Peer Flowd FlowdProps FlowdLoop SoftTypes SendFixed.
From S2P Require Import Send1 Send5 Export Order Splay Keyed.
From S2P Require Import Ipflow FlowTrack FlowTable FlowTrackProps Expire.
From S2P Require Import ExpireProps Lifetime.

(** ** The senders *)

(** The clock, what the packet buffer holds, the results of the sends to come and
    the packets sent. *)
Record netsocket := Mk_netsocket {
  ns_now : Z * Z;
  ns_junk : list Z;
  ns_sends : list bool;
  ns_sent : list (list Z)
}.

(** The state after a run of a sender. *)
Definition after_send (net : netsocket) (m : outcome (Z * sstate)) : outcome (Z * Z * netsocket) :=
  let! (r, s) := m in
  Ret (r, s_flows_exported s, Mk_netsocket (ns_now net) (ns_junk net) (s_sends s) (ns_sent net ++ s_sent s)).

#[export] Instance v5_dialect : Dialect netsocket := fun flows exported boot inOut net =>
  after_send net (send_netflow_v5 false (ns_now net) (ns_junk net) flows exported boot inOut (ns_sends net)).

Lemma FLOW_exportable5 flows : Forall FLOW_ok flows -> Forall (exportable5 false 0) flows.
Proof. intros Hf. eapply Forall_impl; [exact Hf|]. intros f Hok. by split. Qed.

#[export] Instance v5_dialect_laws : DialectLaws netsocket.
Proof.
  intros flows exported boot net Hf Hu.
  destruct (send_netflow_v5_ok false (-1) (ns_now net) boot 0 ltac:(done) ltac:(done) (ns_junk net) flows exported
    (ns_sends net) Hu (FLOW_exportable5 _ Hf)) as (r & s & groups & E & _ & He & _).
  eexists _, _, _. unfold dialect_func, v5_dialect. rewrite E. split; [reflexivity|]. rewrite He. apply wrap64_u64.
Qed.

(** A run of send_netflow_v5 on a socket that never fails. *)
Lemma v5_reliable flows exported boot net : Forall FLOW_ok flows -> u64 exported -> ns_sends net = [] ->
  exists r s, send_netflow_v5 false (ns_now net) (ns_junk net) flows exported boot (-1) [] = Ret (r, s) /\ r <> -1 /\
    dialect_func flows exported boot (-1) net =
      Ret (r, s_flows_exported s, Mk_netsocket (ns_now net) (ns_junk net) (s_sends s) (ns_sent net ++ s_sent s)).
Proof.
  intros Hf Hu Hs.
  destruct (send_netflow_v5_ok false (-1) (ns_now net) boot 0 ltac:(done) ltac:(done) (ns_junk net) flows exported
    [] Hu (FLOW_exportable5 _ Hf)) as (r & s & groups & E & _ & _ & _ & _ & Hr).
  exists r, s. split; [exact E|]. split.
  - destruct Hr as [[-> _]|(_ & Hfalse & _)]; [lia|]. by rewrite lookup_nil in Hfalse.
  - unfold dialect_func, v5_dialect. by rewrite Hs, E.
Qed.

(** The flows of the schedule that are due. *)
Definition due_flows (ex now : Z) (ft : FLOWTRACK) : list FLOW :=
  fst <$> filter (fun v => due ex now (fst (snd v)) = true) (schedule ft).

(** C1: from the table to the log.  When check_expired runs with send_netflow_v5 on
    a socket that does not fail, and the packets it sends are in the input queue of
    a collector that knows their source, then the collector logs one record for
    each direction with traffic of each IPv4 flow that was due, in the order of
    the schedule, with the members of the flow; and exactly the flows that were not
    due stay in the table. *)
Theorem expired_flows_logged ex now net ft env s src p tv_usec :
  track_ok ft -> u64 (ft_count ft flows_exported) -> ns_sends net = [] -> ns_sent net = [] ->
  malloc_ok env -> mask_ok (fe_store_mask env) -> inet_ok src -> find_peer (fs_peers s) src = Some p ->
  exists r ft' net',
    check_expired (fun _ => true) None true ex now ft net = Ret (r, ft', net') /\
    track_ok ft' /\ table ft' = filter (stays ex now) (table ft) /\ r = Z.of_nat (length (due_flows ex now ft)) /\
    (fp_packet <$> fs_input s = ns_sent net' -> Forall (fun fp => fp_flow_source fp = src) (fs_input s) ->
     collector_ok (queue_cost (fs_input s)) s ->
     exists s' logs, process_input_queue env 1708 tv_usec s = Ret s' /\ fs_input s' = [] /\
       logged env (set_fs_input [] s) s' logs /\
       Forall2 (reports src false (system_boot_time (ft_conf ft)))
         (concat (directions false (-1) <$> due_flows ex now ft)) logs).
Proof.
  intros Hok Hu Hsends Hsent Hmalloc Hmask Hsrc Hpeer.
  destruct (check_expired_ok (fun _ => true) true ex now ft net Hok Hu) as (r & ft' & net' & E & Hok' & Htab & Hc & _ & Hr).
  pose proof (expired_of_ok (fun _ => true) ex now ft Hok) as Hf. rewrite expired_schedule in Hr, Hf.
  fold (due_flows ex now ft) in Hr, Hf. rewrite andb_true_r in Hr.
  exists r, ft', net'. do 3 (split; [done|]).
  destruct (v5_reliable (due_flows ex now ft) (ft_count ft flows_exported) (system_boot_time (ft_conf ft)) net Hf Hu Hsends)
    as (sent & sf & Esend & Hne & Ed).
  assert (r = Z.of_nat (length (due_flows ex now ft)) /\ ns_sent net' = s_sent sf) as [-> Hsent'].
  { destruct (Z.ltb_spec 0 (Z.of_nat (length (due_flows ex now ft)))) as [Hn|Hn].
    - destruct Hr as (sent' & exported & Ed' & _ & _ & -> & _). rewrite Ed in Ed'. apply Ret_inj in Ed'.
      injection Ed' as <- <- <-. rewrite (proj2 (Z.eqb_neq _ _)) by done. cbn. by rewrite Hsent.
    - destruct Hr as (-> & -> & _). split; [done|]. rewrite Hsent.
      assert (due_flows ex now ft = []) as En by (apply nil_length_inv; lia). rewrite En in Esend.
      cbn in Esend. apply Ret_inj in Esend. injection Esend as _ <-. done. }
  split; [done|]. intros Hq Hsrcs Hco. rewrite Hsent' in Hq.
  destruct (nf5_export_import_ok env false (-1) (ns_now net) (system_boot_time (ft_conf ft)) 0 (ns_junk net)
    (due_flows ex now ft) (ft_count ft flows_exported) [] sent sf s src p tv_usec
    ltac:(done) ltac:(done) Hu (FLOW_exportable5 _ Hf) Esend Hne Hmalloc Hmask Hsrc Hpeer Hq Hsrcs Hco)
    as (s' & logs & E1 & E2 & E3 & E4 & _).
  by exists s', logs.
Qed.

(** ** An example: one packet, flushed *)

Definition sample_table : FLOWTRACK :=
  match process_packet true true (sample_tcp 1 2 80 99) AF_INET 40 40 (7, 0) init_flowtrack with
  | Ret (_, ft) => ft
  | _ => init_flowtrack
  end.

Lemma sample_table_ok : track_ok sample_table.
Proof.
  destruct (packet_arrival_ok (sample_tcp 1 2 80 99) AF_INET 40 (7, 0) init_flowtrack
    ltac:(apply (bool_decide_unpack _); vm_compute; exact I) eq_refl ltac:(by vm_compute)
    (proj1 init_flowtrack_ok) ltac:(by vm_compute)) as (rc & ft' & E & Hok & _).
  unfold sample_table. change (Z.of_nat (length (sample_tcp 1 2 80 99))) with 40 in E. by rewrite E.
Qed.

Definition sample_net : netsocket := Mk_netsocket (20, 0) [] [] [].
Definition sample_out : list (list Z) :=
  match check_expired (fun _ => true) None true CE_EXPIRE_ALL 10 sample_table sample_net with
  | Ret (_, _, net) => ns_sent net
  | _ => []
  end.

Lemma check_expired_spec_witness :
  exists r ft' net', check_expired (fun _ => true) None true CE_EXPIRE_NORMAL 10000 sample_table sample_net = Ret (r, ft', net') /\
    table ft' = ∅.
Proof.
  destruct (check_expired_spec CE_EXPIRE_NORMAL 10000 sample_table sample_net sample_table_ok ltac:(by vm_compute))
    as (_ & _ & r & ft' & net' & E & _ & Htab & _).
  exists r, ft', net'. split; [exact E|]. rewrite Htab. vm_compute. reflexivity.
Defined.

Lemma expiry_check_terminates_witness :
  exists ft' net', expiry_check 2 (fun _ => true) true true CE_EXPIRE_FORCED 10 0 sample_table sample_net = Ret (ft', net') /\
    ft_num_flows sample_table = 1 /\ ft_num_flows ft' <= 0.
Proof.
  destruct (expiry_check_terminates (fun _ => true) true CE_EXPIRE_FORCED 10 0 sample_table sample_net sample_table_ok
    ltac:(by vm_compute) ltac:(done)) as (ft' & net' & E & _ & Hn).
  exists ft', net'. split; [exact E|]. split; [vm_compute; reflexivity|exact Hn].
Defined.

Example delete_all_flows_sample :
  exists ft', delete_all_flows sample_table = Ret (ft', 1) /\ table ft' = ∅.
Proof.
  destruct (delete_all_flows_ok sample_table sample_table_ok) as (ft' & E & _ & Ht & _).
  exists ft'. split; [exact E|exact Ht].
Defined.

Lemma idle_flows_expire_witness :
  exists ft net', ofold (step (fun _ => true) true) (configured (ft_conf init_flowtrack), sample_net)
      ([Packet (sample_tcp 1 2 80 99) AF_INET 40 (7, 0)] ++ [Check CE_EXPIRE_NORMAL 4000]) = Ret (ft, net') /\
    forall k f x, table ft !! k = Some (f, x) -> 4000 <= fst (f_flow_last f) + 3600.
Proof.
  destruct (idle_flows_expire (ft_conf init_flowtrack) (fun _ => true) true
    [Packet (sample_tcp 1 2 80 99) AF_INET 40 (7, 0)] 4000 sample_net) as (ft & net' & E & _ & Hidle).
  - constructor; done.
  - apply Forall_singleton. split; [apply (bool_decide_unpack _); vm_compute; exact I|]. by vm_compute.
  - done.
  - exists ft, net'. split; [exact E|]. intros k f x Hk. exact (proj1 (Hidle k f x Hk)).
Defined.

(** The collector of the examples with the packets of the flush in its queue. *)
Lemma expired_flows_logged_witness :
  let s := set_fs_input (sample_fp <$> sample_out) (sample_state 400) in
  exists s' logs, process_input_queue sample_env 1708 0 s = Ret s' /\
    Forall2 (reports (ip4 10 0 0 1) false (0, 0)) (concat (directions false (-1) <$> due_flows CE_EXPIRE_ALL 10 sample_table)) logs /\
    length logs = 1%nat.
Proof.
  cbv zeta. set (s := set_fs_input (sample_fp <$> sample_out) (sample_state 400)).
  destruct (expired_flows_logged CE_EXPIRE_ALL 10 sample_net sample_table sample_env s (ip4 10 0 0 1) 1%positive 0)
    as (r & ft' & net' & E & _ & _ & _ & H).
  - apply sample_table_ok.
  - by vm_compute.
  - done.
  - done.
  - done.
  - apply mask_ok_all.
  - inet4.
  - vm_compute. reflexivity.
  - destruct H as (s' & logs & E1 & _ & _ & H).
    + assert (sample_out = ns_sent net') as <- by (unfold sample_out; by rewrite E). vm_compute. reflexivity.
    + unfold s. cbn [set_fs_input fs_input]. by apply Forall_fmap, Forall_forall.
    + apply (collector_ok_le 400); [|apply sample_collector_ok]. apply Nat.leb_le. vm_compute. reflexivity.
    + exists s', logs. split; [exact E1|]. split; [exact H|]. apply Forall2_length in H. rewrite <- H. vm_compute. reflexivity.
Defined.
