(* ===== verification/FlowTrees.v ===== *)
(** * The two trees of the flow table

    The flow table keeps its flows in a splay tree and its expiry events in a
    red-black tree (the Makefile defines FLOW_SPLAY and EXPIRY_RB).  FlowTrack works
    on their nodes in order; here the operations of sys-tree.h on the trees
    themselves are shown to do the same. *)

From stdpp Require Import gmap.
From S2P Require Import Prelude Order Splay RedBlack Keyed SoftTypes.
From S2P Require Import FlowTrack FlowTable FlowTrackProps TableExport.

(** A splay tree and a red-black tree with the nodes of the table. *)
Definition trees_of (ft : FLOWTRACK) (flows : tree floc) (expiries : rb eloc) : Prop :=
  inorder flows = ft_flows ft /\ rb_nodes expiries = ft_expiries ft /\ rb_good expiries.

Lemma filter_ne_middle {A} `{EqDecision A} (l r : list A) x : NoDup (l ++ x :: r) ->
  filter (fun y => y <> x) (l ++ x :: r) = l ++ r.
Proof.
  intros H. apply NoDup_app in H as (_ & Hl & Hr). apply NoDup_cons in Hr as [Hr _].
  assert (forall k : list A, x ∉ k -> filter (fun y => y <> x) k = k) as Hk.
  { induction k as [|y k IH]; [done|]. intros [Hne Hk]%not_elem_of_cons. rewrite filter_cons_True by done. by rewrite IH. }
  rewrite filter_app, filter_cons_False by auto. rewrite !Hk; [done|done|].
  intros Hx. apply (Hl x Hx). by left.
Qed.

(** C39: whatever splay tree holds the flows and whatever red-black tree that keeps
    its rules holds the events of a consistent table: SPLAY_FIND gives what
    FLOW_FIND gives, and the trees that SPLAY_INSERT, SPLAY_REMOVE, RB_INSERT and
    RB_REMOVE return hold the nodes of the table that FLOW_INSERT, FLOW_REMOVE,
    EXPIRY_INSERT and EXPIRY_REMOVE return; no operation fails. *)
Theorem table_trees ft ts tr f l e x :
  track_ok ft -> FLOW_ok f -> trees_of ft ts tr ->
  (exists ts', SPLAY_FIND (flow_node_cmp ft f) ts = Ret (FLOW_FIND f ft, ts') /\ trees_of ft ts' tr) /\
  (exists r ts', SPLAY_INSERT (flow_node_cmp ft f) ts l = Ret (r, ts') /\ trees_of (FLOW_INSERT l f ft) ts' tr) /\
  (exists r ts', SPLAY_REMOVE (flow_node_cmp ft f) ts = Ret (r, ts') /\ trees_of (FLOW_REMOVE f ft) ts' tr) /\
  (exists r tr', RB_INSERT (expiry_node_cmp ft x) tr e = Ret (r, tr') /\ trees_of (EXPIRY_INSERT e x ft) ts tr') /\
  (forall col cl cr path, rebuild (RbNode col cl e cr) path = tr ->
     exists tr', RB_REMOVE col cl e cr path = Ret tr' /\ trees_of (EXPIRY_REMOVE e ft) ts tr').
Proof.
  intros Hok Hf (Hts & Htr & Hg).
  pose proof (compares_cut _ _ _ _ (to_flows ft Hok) (flow_compares ft f Hok Hf)) as Hcut. rewrite <- Hts in Hcut.
  destruct (splay_refines_ok (flow_node_cmp ft f) ts l Hcut) as ((t1 & E1 & I1) & (t2 & E2 & I2) & (t3 & E3 & I3)).
  rewrite Hts in *. split; [by exists t1|]. split; [by eexists _, t2|]. split; [by eexists _, t3|].
  pose proof (expiry_compares ft x (ft_expiries ft) (fun e' => proj1 (to_eheap ft Hok e'))) as Hx.
  pose proof (compares_cut _ _ _ _ (to_expiries ft Hok) Hx) as Hcut'. rewrite <- Htr in Hcut'. split.
  - destruct (rb_insert_ok (expiry_node_cmp ft x) tr e Hg Hcut') as (t4 & E4 & G4 & I4). rewrite Htr in I4. by eexists _, t4.
  - intros col cl cr path Ht. subst tr. destruct (rb_remove_ok col cl e cr path Hg) as (t5 & E5 & G5 & I5).
    exists t5. split; [done|]. split; [done|]. split; [|done]. rewrite I5. cbn.
    pose proof (key_sorted_NoDup _ _ (to_expiries ft Hok)) as Hnd. rewrite <- Htr, nodes_rebuild in *. cbn [rb_nodes] in *.
    replace (nodes_left path ++ (rb_nodes cl ++ e :: rb_nodes cr) ++ nodes_right path) with
      ((nodes_left path ++ rb_nodes cl) ++ e :: rb_nodes cr ++ nodes_right path) in * by (by simplify_list_eq).
    rewrite filter_ne_middle by done. by simplify_list_eq.
Qed.

(** The trees of the table with one flow. *)
Definition sample_flow_loc : floc := hd inhabitant (ft_flows sample_table).
Definition sample_expiry_loc : eloc := hd inhabitant (ft_expiries sample_table).

Lemma table_trees_witness :
  exists tr', RB_REMOVE RB_BLACK RbNull sample_expiry_loc RbNull [] = Ret tr' /\
    trees_of (EXPIRY_REMOVE sample_expiry_loc sample_table) (Node Leaf sample_flow_loc Leaf) tr'.
Proof.
  destruct (table_trees sample_table (Node Leaf sample_flow_loc Leaf) (RbNode RB_BLACK RbNull sample_expiry_loc RbNull)
    FLOW_zero sample_flow_loc sample_expiry_loc (Mk_EXPIRY sample_flow_loc 1 R_GENERAL) sample_table_ok FLOW_zero_ok)
    as (_ & _ & _ & _ & H).
  - split; [vm_compute; reflexivity|]. split; [vm_compute; reflexivity|]. split; [done|]. by exists 1%nat, 0%nat.
  - exact (H RB_BLACK RbNull RbNull [] eq_refl).
Defined.
