(* ===== verification/Send9.v ===== *)
(** * NetFlow 9 export (src/softflowd/netflow9.c)

    The templates, the data records of a flow and send_netflow_v9, over its
    packet buffer of 512 bytes, its static variables and failing sends.  The
    packed structs of the header, the flowset headers and the template records
    are those of flowd (Netflow). *)

From S2P Require Import Prelude Packed Addr Netflow SoftTypes.

(** ** Templates *)

Definition NF9_SOFTFLOWD_TEMPLATE_NRECORDS : Z := 11.
Definition NF9_SOFTFLOWD_MAX_PACKET_SIZE : Z := 512.
Definition NF9_SOFTFLOWD_V4_TEMPLATE_ID : Z := 1024.
Definition NF9_SOFTFLOWD_V6_TEMPLATE_ID : Z := 2048.
Definition NF9_DEFAULT_TEMPLATE_INTERVAL : Z := 16.
Definition NF9_IP_PROTOCOL_VERSION : Z := 60.

(** The bytes of a template flowset: its id and its records (type and length). *)
Definition template_bytes (id : Z) (recs : list (Z * Z)) : bytes :=
  encode (Mk_NF9_FLOWSET_HEADER_COMMON (htons 0) (htons (8 + 4 * Z.of_nat (length recs)))) ++
  le_bytes 2 (htons id) ++ le_bytes 2 (htons NF9_SOFTFLOWD_TEMPLATE_NRECORDS) ++
  concat ((fun r : Z * Z => encode (Mk_NF9_TEMPLATE_FLOWSET_RECORD (htons (fst r)) (htons (snd r)))) <$> recs).

Definition v4_records : list (Z * Z) :=
  [(NF9_IPV4_SRC_ADDR, 4); (NF9_IPV4_DST_ADDR, 4); (NF9_LAST_SWITCHED, 4); (NF9_FIRST_SWITCHED, 4);
   (NF9_IN_BYTES, 4); (NF9_IN_PACKETS, 4); (NF9_L4_SRC_PORT, 2); (NF9_L4_DST_PORT, 2);
   (NF9_IN_PROTOCOL, 1); (NF9_TCP_FLAGS, 1); (NF9_IP_PROTOCOL_VERSION, 1)].
Definition v6_records : list (Z * Z) :=
  [(NF9_IPV6_SRC_ADDR, 16); (NF9_IPV6_DST_ADDR, 16); (NF9_LAST_SWITCHED, 4); (NF9_FIRST_SWITCHED, 4);
   (NF9_IN_BYTES, 4); (NF9_IN_PACKETS, 4); (NF9_L4_SRC_PORT, 2); (NF9_L4_DST_PORT, 2);
   (NF9_IN_PROTOCOL, 1); (NF9_TCP_FLAGS, 1); (NF9_IP_PROTOCOL_VERSION, 1)].

(** The static variables. *)
Record nf9_static := Mk_nf9_static {
  v4_template : bytes;
  v6_template : bytes;
  nf9_pkts_until_template : Z
}.
Definition nf9_static_init : nf9_static := Mk_nf9_static (replicate 52 0) (replicate 52 0) (-1).

Definition nf9_init_template (st : nf9_static) : nf9_static :=
  Mk_nf9_static (template_bytes NF9_SOFTFLOWD_V4_TEMPLATE_ID v4_records)
    (template_bytes NF9_SOFTFLOWD_V6_TEMPLATE_ID v6_records) (nf9_pkts_until_template st).

Definition netflow9_resend_template (st : nf9_static) : nf9_static :=
  if 0 <? nf9_pkts_until_template st then Mk_nf9_static (v4_template st) (v6_template st) 0 else st.

(** The template_id member of a template. *)
Definition template_id (t : bytes) : Z := le_val (take 2 (drop 4 t)).

(** ** Data records *)

(** The bytes of a data record: struct NF9_SOFTFLOWD_DATA_V4 or _V6, of direction
    [ndx] (from addr[ndx] to the other end); [w] is the size of an address. *)
Definition data_record (w : nat) (ipproto : Z) (boot : Z * Z) (ndx : bool) (f : FLOW) : bytes :=
  take w (at2 ndx (f_addr f)) ++ take w (at2 (negb ndx) (f_addr f)) ++
  le_bytes 4 (htonl (timeval_sub_ms (f_flow_start f) boot)) ++
  le_bytes 4 (htonl (timeval_sub_ms (f_flow_last f) boot)) ++
  le_bytes 4 (htonl (at2 ndx (f_octets f))) ++ le_bytes 4 (htonl (at2 ndx (f_packets f))) ++
  le_bytes 2 (at2 ndx (f_port f)) ++ le_bytes 2 (at2 (negb ndx) (f_port f)) ++
  [f_protocol f] ++ [at2 ndx (f_tcp_flags f)] ++ [ipproto].

(** A record [d] behind the [ret_len] bytes already written from [off] on, where
    there is room for [len]; the state is the bytes and the records written, None
    when there is no room. *)
Definition put_record (off len freclen : Z) (d : bytes) (s : bytes * option (Z * Z))
    : outcome (bytes * option (Z * Z)) :=
  match s with
  | (packet, Some (ret_len, nflows)) =>
      if len <? ret_len + freclen then Ret (packet, None)
      else let! packet := wr packet (off + ret_len) d in Ret (packet, Some (ret_len + freclen, nflows + 1))
  | (_, None) => Ret s
  end.

(** The result, the packet and the bytes used. *)
Definition nf_flow_to_flowset (f : FLOW) (packet : bytes) (off len : Z) (boot : Z * Z) : outcome (Z * bytes * Z) :=
  if (f_af f =? AF_INET) || (f_af f =? AF_INET6) then
    let v4 := f_af f =? AF_INET in
    let w := if v4 then 4%nat else 16%nat in
    let ipproto := if v4 then 4 else 6 in
    let freclen := if v4 then 31 else 55 in
    let s := (packet, Some (0, 0)) in
    let! s := if 0 <? fst (f_octets f) then put_record off len freclen (data_record w ipproto boot false f) s else Ret s in
    let! s := if 0 <? snd (f_octets f) then put_record off len freclen (data_record w ipproto boot true f) s else Ret s in
    match s with
    | (packet, None) => Ret (-1, packet, 0)
    | (packet, Some (ret_len, nflows)) => Ret (nflows, packet, ret_len)
    end
  else Ret (-1, packet, 0).

(** ** Packets *)

Definition peek16 (packet : bytes) (off : Z) : outcome Z := rd_int packet off 2.
Definition poke16 (packet : bytes) (off v : Z) : outcome bytes := wr packet off (le_bytes 2 v).

(** The local variables of the filling of one packet; [dh] is the offset of the
    header of the data flowset that is being filled. *)
Record filling := Mk_filling {
  fi_packet : bytes;
  fi_offset : Z;
  fi_dh : option Z;
  fi_last_af : Z;
  fi_last_valid : Z
}.

(** Padding, and the length in network order. *)
Definition finish_flowset (dh : Z) (packet : bytes) (offset : Z) : outcome (bytes * Z) :=
  let! len := peek16 packet (dh + 2) in
  let pad := if offset mod 4 =? 0 then 0 else 4 - offset mod 4 in
  let! packet := poke16 packet (dh + 2) (htons (wrap16 (len + pad))) in
  Ret (packet, offset + pad).

Definition close_flowset (s : filling) : outcome (bytes * Z) :=
  match fi_dh s with
  | Some dh => finish_flowset dh (fi_packet s) (fi_offset s)
  | None => Ret (fi_packet s, fi_offset s)
  end.

Section fill.
Context (st : nf9_static) (boot : Z * Z).

(** A flowset header for a flow of another family than the last: false when there
    is no room. *)
Definition flowset_for (f : FLOW) (s : filling) : outcome (bool * filling) :=
  if match fi_dh s with Some _ => f_af f =? fi_last_af s | None => false end then Ret (true, s)
  else
    let! (packet, offset) := close_flowset s in
    if NF9_SOFTFLOWD_MAX_PACKET_SIZE <? offset + 4
    then Ret (false, Mk_filling packet offset None (fi_last_af s) (fi_last_valid s))
    else
      let! packet := poke16 packet offset
        (if f_af f =? AF_INET then template_id (v4_template st) else template_id (v6_template st)) in
      let! packet := poke16 packet (offset + 2) 4 in
      Ret (true, Mk_filling packet (offset + 4) (Some offset) (f_af f) offset).

(** One turn: whether the loop goes on. *)
Definition add_flow (f : FLOW) (s : filling) : outcome (bool * filling) :=
  let! (room, s) := flowset_for f s in
  if negb room then Ret (false, s)
  else
    let! (r, packet, inc) :=
      nf_flow_to_flowset f (fi_packet s) (fi_offset s) (NF9_SOFTFLOWD_MAX_PACKET_SIZE - fi_offset s) boot in
    if r <=? 0 then
      Ret (false, Mk_filling packet (if fi_last_valid s =? 0 then fi_offset s else fi_last_valid s)
                    (fi_dh s) (fi_last_af s) (fi_last_valid s))
    else
      match fi_dh s with
      | None => Undef NullDeref
      | Some dh =>
          let! len := peek16 packet (dh + 2) in
          let! packet := poke16 packet (dh + 2) (wrap16 (len + inc)) in
          let! flows := peek16 packet 2 in
          let! packet := poke16 packet 2 (wrap16 (flows + r)) in
          Ret (true, Mk_filling packet (fi_offset s + inc) (Some dh) (fi_last_af s) 0)
      end.

(** The flows that the packet takes: their number. *)
Fixpoint fill (flows : list FLOW) (i : nat) (s : filling) : outcome (nat * filling) :=
  match flows with
  | [] => Ret (i, s)
  | f :: flows =>
      let! (more, s) := add_flow f s in
      if more : bool then fill flows (S i) s else Ret (i, s)
  end.
End fill.

(** The static variables, the results of the sends to come and the packets sent. *)
Record net9 := Mk_net9 {
  n9_static : nf9_static;
  n9_sends : list bool;
  n9_sent : list (list Z)
}.

(** The start of a packet: the header and, when they are due, the templates. *)
Definition start_packet9 (now boot : Z * Z) (time sequence : Z) (st : nf9_static)
    : outcome (bytes * Z * nf9_static) :=
  let h := Mk_NF9_HEADER (htons 9) 0 (htonl (timeval_sub_ms now boot)) (htonl (wrap32 time))
             (htonl (wrap32 sequence)) 0 in
  let! packet := wr (replicate 512 0) 0 (encode h) in
  if nf9_pkts_until_template st <=? 0 then
    let! packet := wr packet 20 (v4_template st) in
    let! packet := wr packet (20 + 52) (v6_template st) in
    Ret (packet, 20 + 52 + 52,
         Mk_nf9_static (v4_template st) (v6_template st) NF9_DEFAULT_TEMPLATE_INTERVAL)
  else Ret (packet, 20, st).

(** One packet: the number of flows in it, whether it was sent, and last_valid,
    which is not reset between packets. *)
Definition send_one (now boot : Z * Z) (time sequence : Z) (flows : list FLOW) (last_valid : Z) (net : net9)
    : outcome (nat * bool * Z * net9) :=
  let! (packet, offset, st) := start_packet9 now boot time sequence (n9_static net) in
  let! (i, s) := fill st boot flows 0 (Mk_filling packet offset None 0 last_valid) in
  let! (packet, offset) := close_flowset s in
  let! n := peek16 packet 2 in
  let! packet := poke16 packet 2 (htons n) in
  let! out := rd packet 0 offset in
  let sent sends := Ret (i, true, fi_last_valid s, Mk_net9 (Mk_nf9_static (v4_template st) (v6_template st)
                                             (nf9_pkts_until_template st - 1)) sends (n9_sent net ++ [out])) in
  match n9_sends net with
  | false :: sends => Ret (i, false, fi_last_valid s, Mk_net9 st sends (n9_sent net))
  | true :: sends => sent sends
  | [] => sent []
  end.

(** [time k] is what time(NULL) gives for the packet [k] of those to come. *)
Fixpoint send9_loop (fuel : nat) (now boot : Z * Z) (time : nat -> Z) (flows_exported : Z) (flows : list FLOW)
    (j num_packets last_valid : Z) (net : net9) : outcome (option (Z * Z) * net9) :=
  match flows with
  | [] => Ret (Some (j, num_packets), net)
  | _ =>
      match fuel with
      | O => Diverges
      | S fuel =>
          let! (i, ok, last_valid, net) := send_one now boot (time 0%nat) (flows_exported + j) flows last_valid net in
          if negb ok then Ret (None, net)
          else send9_loop fuel now boot (fun k => time (S k)) flows_exported (drop i flows) (wrap32 (j + Z.of_nat i))
                 (wrap32 (num_packets + 1)) last_valid net
      end
  end.

(** The result, *flows_exported and the state. *)
Definition send_netflow_v9 (fuel : nat) (now : Z * Z) (time : nat -> Z) (flows : list FLOW) (flows_exported : Z)
    (boot : Z * Z) (net : net9) : outcome (Z * Z * net9) :=
  let st := n9_static net in
  let st := if nf9_pkts_until_template st =? -1
            then let st := nf9_init_template st in Mk_nf9_static (v4_template st) (v6_template st) 0 else st in
  let! (r, net) := send9_loop fuel now boot time flows_exported flows 0 0 0 (Mk_net9 st (n9_sends net) (n9_sent net)) in
  match r with
  | None => Ret (-1, flows_exported, net)
  | Some (j, num_packets) => Ret (swrap32 num_packets, wrap64 (flows_exported + j), net)
  end.
