(* ===== verification/Send9Props.v ===== *)
(** * What send_netflow_v9 sends

    Every packet is the header, the templates when they are due, and data flowsets
    of one family each, padded to four bytes; every flow is in exactly one packet,
    in order, and the function ends.  This holds of flows of a known family with
    octets, when the sends succeed.  [exports] follows the operations of the sender;
    [packet9] says the same in bytes that do not depend on them. *)

From S2P Require Import Prelude Packed Addr Netflow SoftTypes Send9.
From S2P Require Import Send5.

(** ** Records *)

(** The size of a record, and the records of the directions of a flow that
    carried octets. *)
Definition record_len (f : FLOW) : Z := if f_af f =? AF_INET then 31 else 55.
Definition record9 (boot : Z * Z) (f : FLOW) (ndx : bool) : bytes :=
  if f_af f =? AF_INET then data_record 4 4 boot ndx f else data_record 16 6 boot ndx f.
Definition directions9 (f : FLOW) : list bool := filter (fun ndx => 0 < at2 ndx (f_octets f)) [false; true].
Definition flow_bytes (boot : Z * Z) (f : FLOW) : bytes := concat (record9 boot f <$> directions9 f).

(** A flow that can be exported: of a known family, with traffic. *)
Record sendable (f : FLOW) : Prop := {
  sd_ok : FLOW_ok f;
  sd_af : f_af f = AF_INET \/ f_af f = AF_INET6;
  sd_traffic : directions9 f <> []
}.

Lemma zlen_app {A} (l1 l2 : list A) : Z.of_nat (length (l1 ++ l2)) = Z.of_nat (length l1) + Z.of_nat (length l2).
Proof. rewrite length_app. lia. Qed.

Lemma data_record_length w p boot ndx f : FLOW_ok f -> (w <= 16)%nat ->
  length (data_record w p boot ndx f) = (23 + 2 * w)%nat.
Proof.
  intros Hf Hw. destruct (both2_at _ _ ndx (fo_addr f Hf)) as [H1 _], (both2_at _ _ (negb ndx) (fo_addr f Hf)) as [H2 _].
  unfold data_record. rewrite !length_app, !length_le_bytes, !length_take. cbn [length]. lia.
Qed.

Lemma data_record_u8 w p boot ndx f : FLOW_ok f -> u8 p -> Forall u8 (data_record w p boot ndx f).
Proof.
  intros Hf Hp. destruct (both2_at _ _ ndx (fo_addr f Hf)) as [_ H1], (both2_at _ _ (negb ndx) (fo_addr f Hf)) as [_ H2].
  pose proof (both2_at _ _ ndx (fo_flags f Hf)). pose proof (fo_protocol f Hf).
  unfold data_record. repeat (apply Forall_app; split); try apply le_bytes_u8; try (by apply Forall_take); by apply Forall_singleton.
Qed.

Lemma record9_length boot f ndx : FLOW_ok f -> Z.of_nat (length (record9 boot f ndx)) = record_len f.
Proof.
  intros Hf. unfold record9, record_len. destruct (f_af f =? AF_INET); rewrite data_record_length by (done || lia); done.
Qed.

Lemma record9_u8 boot f ndx : FLOW_ok f -> Forall u8 (record9 boot f ndx).
Proof. intros Hf. unfold record9. destruct (f_af f =? AF_INET); apply data_record_u8; (done || by width). Qed.

Lemma flow_bytes_length boot f : FLOW_ok f ->
  Z.of_nat (length (flow_bytes boot f)) = Z.of_nat (length (directions9 f)) * record_len f.
Proof.
  intros Hf. unfold flow_bytes. induction (directions9 f) as [|n l IH]; [done|].
  cbn [fmap list_fmap concat length]. rewrite zlen_app, IH, record9_length by done. lia.
Qed.

Lemma flow_bytes_u8 boot f : FLOW_ok f -> Forall u8 (flow_bytes boot f).
Proof.
  intros Hf. unfold flow_bytes. induction (directions9 f) as [|n l IH]; [constructor|].
  cbn [fmap list_fmap concat]. apply Forall_app. split; [by apply record9_u8|exact IH].
Qed.

Lemma directions9_le f : (length (directions9 f) <= 2)%nat.
Proof. unfold directions9. rewrite !filter_cons, filter_nil. repeat case_decide; cbn; lia. Qed.

Lemma record_len_bounds f : record_len f = 31 \/ record_len f = 55.
Proof. unfold record_len. case_match; auto. Qed.

(** ** Writing the records of a flow *)

(** A write in front of the rest of the packet. *)
Lemma wr_rest pre rest d off : off = Z.of_nat (length pre) -> (length d <= length rest)%nat ->
  wr (pre ++ rest) off d = Ret (pre ++ d ++ drop (length d) rest).
Proof.
  intros Ho Hl. rewrite <- (take_drop (length d) rest) at 1. apply wr_app; [done|]. rewrite length_take. lia.
Qed.

(** What put_record does with the records that are written so far, [done]. *)
Lemma put_record_ok pre rest done_ n d freclen : Z.of_nat (length d) = freclen -> Forall u8 d -> Forall u8 rest ->
  let len := Z.of_nat (length (done_ ++ rest)) in
  let s := ((pre ++ done_) ++ rest, Some (Z.of_nat (length done_), n)) in
  if Z.of_nat (length (done_ ++ d)) <=? len
  then put_record (Z.of_nat (length pre)) len freclen d s =
         Ret ((pre ++ done_ ++ d) ++ drop (length d) rest, Some (Z.of_nat (length (done_ ++ d)), n + 1))
  else put_record (Z.of_nat (length pre)) len freclen d s = Ret (fst s, None).
Proof.
  intros Hd Hu Hr len s. unfold put_record, s, len. rewrite !zlen_app, <- Hd.
  destruct (Z.leb_spec (Z.of_nat (length done_) + Z.of_nat (length d)) (Z.of_nat (length done_) + Z.of_nat (length rest))) as [Hle|Hgt].
  - rewrite (proj2 (Z.ltb_ge _ _)) by lia. rewrite wr_rest by (rewrite ?zlen_app; lia). cbn [obind].
    do 2 f_equal. by rewrite !app_assoc.
  - by rewrite (proj2 (Z.ltb_lt _ _)) by lia.
Qed.

(** The flow is written whole when it fits; otherwise the result is -1, and only
    the rest of the packet has changed. *)
Lemma nf_flow_to_flowset_ok boot f pre rest : sendable f -> Forall u8 rest ->
  let bs := flow_bytes boot f in
  exists r packet inc,
    nf_flow_to_flowset f (pre ++ rest) (Z.of_nat (length pre)) (Z.of_nat (length rest)) boot = Ret (r, packet, inc) /\
    if Z.of_nat (length bs) <=? Z.of_nat (length rest)
    then r = Z.of_nat (length (directions9 f)) /\ inc = Z.of_nat (length bs) /\ packet = pre ++ bs ++ drop (length bs) rest
    else r = -1 /\ exists rest', packet = pre ++ rest' /\ length rest' = length rest /\ Forall u8 rest'.
Proof.
  intros [Hf Haf Ht] Hu bs. unfold nf_flow_to_flowset.
  assert ((f_af f =? AF_INET) || (f_af f =? AF_INET6) = true) as -> by (by destruct Haf as [-> | ->]).
  cbv zeta. fold (record_len f).
  assert (forall ndx, data_record (if f_af f =? AF_INET then 4%nat else 16%nat) (if f_af f =? AF_INET then 4 else 6) boot ndx f
    = record9 boot f ndx) as Hrec by (intros ndx; unfold record9; by destruct (f_af f =? AF_INET)).
  rewrite !Hrec. pose proof (fun ndx => record9_length boot f ndx Hf) as Hlen.
  pose proof (fun ndx => record9_u8 boot f ndx Hf) as Hu8. unfold bs, flow_bytes in *. clear bs.
  pose proof (put_record_ok pre rest [] 0 (record9 boot f false) (record_len f) (Hlen _) (Hu8 _) Hu) as P0.
  pose proof (put_record_ok pre rest [] 0 (record9 boot f true) (record_len f) (Hlen _) (Hu8 _) Hu) as P1.
  cbn [app length] in P0, P1. rewrite app_nil_r in P0, P1. change (Z.of_nat 0) with 0 in P0, P1.
  unfold directions9 in *. rewrite !filter_cons, filter_nil in *. cbn [at2] in *.
  destruct (Z.ltb_spec 0 (fst (f_octets f))) as [L0|L0]; [rewrite !(decide_True (P := 0 < fst _)) in * by lia|
    rewrite !(decide_False (P := 0 < fst _)) in * by lia];
  (destruct (Z.ltb_spec 0 (snd (f_octets f))) as [L1|L1]; [rewrite !(decide_True (P := 0 < snd _)) in * by lia|
    rewrite !(decide_False (P := 0 < snd _)) in * by lia]); try done; cbn [fmap list_fmap concat length].
  - rewrite app_nil_r, zlen_app. destruct (Z.leb_spec (Z.of_nat (length (record9 boot f false))) (Z.of_nat (length rest))) as [F0|F0].
    + rewrite P0. cbn [obind].
      pose proof (put_record_ok pre (drop (length (record9 boot f false)) rest) (record9 boot f false) 1 (record9 boot f true)
        (record_len f) (Hlen _) (Hu8 _) (Forall_drop _ _ _ Hu)) as P2. cbv zeta in P2.
      rewrite !zlen_app, length_drop, Nat2Z.inj_sub in P2 by lia.
      replace (Z.of_nat (length (record9 boot f false)) + (Z.of_nat (length rest) - Z.of_nat (length (record9 boot f false))))
        with (Z.of_nat (length rest)) in P2 by lia.
      change (0 + 1) with 1.
      destruct (Z.leb_spec (Z.of_nat (length (record9 boot f false)) + Z.of_nat (length (record9 boot f true))) (Z.of_nat (length rest))).
      * rewrite P2. cbn [obind]. eexists _, _, _. split; [reflexivity|]. split; [done|]. split; [done|].
        rewrite length_app, drop_drop, !app_assoc. done.
      * rewrite P2. cbn [obind fst]. eexists _, _, _. split; [reflexivity|]. split; [done|].
        eexists. rewrite <- app_assoc. split; [done|]. split; [rewrite length_app, length_drop; lia|].
        apply Forall_app. split; [apply Hu8|by apply Forall_drop].
    + rewrite P0. cbn [obind fst put_record]. rewrite (proj2 (Z.leb_gt _ _)) by lia.
      eexists _, _, _. split; [reflexivity|]. split; [done|]. by exists rest.
  - rewrite app_nil_r. destruct (Z.leb_spec (Z.of_nat (length (record9 boot f false))) (Z.of_nat (length rest))) as [F0|F0];
      rewrite P0; cbn [obind fst]; eexists _, _, _; (split; [reflexivity|]); (split; [done|]).
    + split; [done|]. by rewrite <- app_assoc.
    + by exists rest.
  - rewrite app_nil_r. cbn [obind]. destruct (Z.leb_spec (Z.of_nat (length (record9 boot f true))) (Z.of_nat (length rest))) as [F0|F0];
      rewrite P1; cbn [obind fst]; eexists _, _, _; (split; [reflexivity|]); (split; [done|]).
    + split; [done|]. by rewrite <- app_assoc.
    + by exists rest.
Qed.

(** ** Sections: finished data flowsets *)

Lemma poke16_at pre old v post : poke16 (pre ++ le_bytes 2 old ++ post) (Z.of_nat (length pre)) v = Ret (pre ++ le_bytes 2 v ++ post).
Proof. by apply wr_app. Qed.

Lemma peek16_at pre v post : u16 v -> peek16 (pre ++ le_bytes 2 v ++ post) (Z.of_nat (length pre)) = Ret v.
Proof.
  intros Hv. unfold peek16, rd_int. rewrite rd_app by done. cbn [obind]. f_equal. apply le_val_le_bytes. exact Hv.
Qed.

(** The packet with the count [n], the bytes [body] after it, and the rest. *)
Definition image (n : Z) (body rest : bytes) : bytes := le_bytes 2 (htons 9) ++ le_bytes 2 n ++ body ++ rest.

Lemma image_split n pre x post rest : image n (pre ++ x ++ post) rest =
  (le_bytes 2 (htons 9) ++ le_bytes 2 n ++ pre) ++ x ++ post ++ rest.
Proof. unfold image. by rewrite <- !app_assoc. Qed.

Lemma image_prefix (n : Z) (pre : bytes) :
  Z.of_nat (length (le_bytes 2 (htons 9) ++ le_bytes 2 n ++ pre)) = 4 + Z.of_nat (length pre).
Proof. rewrite !length_app, !length_le_bytes. lia. Qed.

Lemma poke_image n pre old v post rest : 
  poke16 (image n (pre ++ le_bytes 2 old ++ post) rest) (4 + Z.of_nat (length pre)) v = Ret (image n (pre ++ le_bytes 2 v ++ post) rest).
Proof. rewrite !image_split, <- (image_prefix n). apply poke16_at. Qed.

Lemma peek_image n pre v post rest : u16 v ->
  peek16 (image n (pre ++ le_bytes 2 v ++ post) rest) (4 + Z.of_nat (length pre)) = Ret v.
Proof. intros Hv. rewrite !image_split, <- (image_prefix n). by apply peek16_at. Qed.

Lemma poke_count n v body rest : poke16 (image n body rest) 2 v = Ret (image v body rest).
Proof. exact (poke16_at (le_bytes 2 (htons 9)) n v (body ++ rest)). Qed.

Lemma peek_count n body rest : u16 n -> peek16 (image n body rest) 2 = Ret n.
Proof. exact (peek16_at (le_bytes 2 (htons 9)) n (body ++ rest)). Qed.

Section sections.
Context (st : nf9_static) (boot : Z * Z).

(** The template of a family, the records of some flows and their number. *)
Definition tid (af : Z) : Z := if af =? AF_INET then template_id (v4_template st) else template_id (v6_template st).
Definition flows_bytes (fs : list FLOW) : bytes := concat (flow_bytes boot <$> fs).
Definition num_records (fs : list FLOW) : Z := Z.of_nat (length (concat (directions9 <$> fs))).

(** A data flowset: flows of one family, and its padding. *)
Record section9 := Mk_section9 { sc_af : Z; sc_flows : list FLOW; sc_pad : bytes }.

Definition flowset_header (af len : Z) : bytes := le_bytes 2 (tid af) ++ le_bytes 2 len.
Definition section_bytes (sc : section9) : bytes :=
  flowset_header (sc_af sc) (htons (4 + Z.of_nat (length (flows_bytes (sc_flows sc))) + Z.of_nat (length (sc_pad sc)))) ++
  flows_bytes (sc_flows sc) ++ sc_pad sc.
Definition sections_bytes (secs : list section9) : bytes := concat (section_bytes <$> secs).

Record section_ok (sc : section9) : Prop := {
  so_flows : sc_flows sc <> [];
  so_af : Forall (fun f => f_af f = sc_af sc) (sc_flows sc);
  so_pad : Z.of_nat (length (sc_pad sc)) < 4;
  so_u8 : Forall u8 (sc_pad sc);
  so_mod : (Z.of_nat (length (flows_bytes (sc_flows sc))) + Z.of_nat (length (sc_pad sc))) mod 4 = 0
}.

Lemma flows_bytes_app fs fs' : flows_bytes (fs ++ fs') = flows_bytes fs ++ flows_bytes fs'.
Proof. unfold flows_bytes. by rewrite fmap_app, concat_app. Qed.
Lemma num_records_app fs fs' : num_records (fs ++ fs') = num_records fs + num_records fs'.
Proof. unfold num_records. rewrite fmap_app, concat_app, zlen_app. done. Qed.
Lemma sections_bytes_app l l' : sections_bytes (l ++ l') = sections_bytes l ++ sections_bytes l'.
Proof. unfold sections_bytes. by rewrite fmap_app, concat_app. Qed.

(** A record takes at least 31 bytes. *)
Lemma num_records_le fs : Forall sendable fs -> 31 * num_records fs <= Z.of_nat (length (flows_bytes fs)).
Proof.
  induction 1 as [|f fs [Hf _ _] _ IH]; [done|]. unfold flows_bytes, num_records in *. cbn [fmap list_fmap concat].
  rewrite !zlen_app, flow_bytes_length by done. pose proof (record_len_bounds f). nia.
Qed.

(** A data flowset being filled behind [pre]. *)
Record open_state (s : filling) (n : Z) (pre : bytes) (fs : list FLOW) (rest : bytes) : Prop := {
  os_packet : fi_packet s =
    image n (pre ++ flowset_header (fi_last_af s) (4 + Z.of_nat (length (flows_bytes fs))) ++ flows_bytes fs) rest;
  os_dh : fi_dh s = Some (4 + Z.of_nat (length pre));
  os_offset : fi_offset s = 4 + Z.of_nat (length pre) + 4 + Z.of_nat (length (flows_bytes fs));
  os_valid : fi_last_valid s = 0;
  os_mod : (4 + Z.of_nat (length pre)) mod 4 = 0;
  os_size : fi_offset s + Z.of_nat (length rest) = 512;
  os_rest : Forall u8 rest
}.

Lemma mod4_sum a b : a mod 4 = 0 -> b mod 4 = 0 -> (a + 4 + b) mod 4 = 0.
Proof. intros Ha Hb. Z.to_euclidean_division_equations. lia. Qed.

(** Finishing a data flowset. *)
Lemma finish_ok n pre af fs rest : fs <> [] -> Forall (fun f => f_af f = af) fs -> Forall u8 rest ->
  let recs := flows_bytes fs in
  let off := 4 + Z.of_nat (length pre) + 4 + Z.of_nat (length recs) in
  (4 + Z.of_nat (length pre)) mod 4 = 0 -> off + Z.of_nat (length rest) = 512 ->
  exists sc rest',
    finish_flowset (4 + Z.of_nat (length pre)) (image n (pre ++ flowset_header af (4 + Z.of_nat (length recs)) ++ recs) rest) off =
      Ret (image n (pre ++ section_bytes sc) rest', 4 + Z.of_nat (length (pre ++ section_bytes sc))) /\
    section_ok sc /\ sc_af sc = af /\ sc_flows sc = fs /\ Forall u8 rest' /\
    4 + Z.of_nat (length (pre ++ section_bytes sc)) + Z.of_nat (length rest') = 512 /\
    (4 + Z.of_nat (length (pre ++ section_bytes sc))) mod 4 = 0.
Proof.
  intros Hne Haf Hu recs off Hmod Hsize. unfold finish_flowset.
  set (pad := if off mod 4 =? 0 then 0 else 4 - off mod 4).
  assert (0 <= pad < 4 /\ (Z.of_nat (length recs) + pad) mod 4 = 0 /\ pad <= Z.of_nat (length rest)) as (Hpad & Hpm & Hpr).
  { subst pad. unfold off in *. clear - Hmod Hsize. pose proof (Z.mod_pos_bound (4 + Z.of_nat (length pre) + 4 + Z.of_nat (length recs)) 4 ltac:(lia)).
    destruct (Z.eqb_spec ((4 + Z.of_nat (length pre) + 4 + Z.of_nat (length recs)) mod 4) 0) as [E|E];
      (split; [lia|]); (split; [|]); Z.to_euclidean_division_equations; lia. }
  set (sc := Mk_section9 af fs (take (Z.to_nat pad) rest)). set (rest' := drop (Z.to_nat pad) rest).
  assert (Z.of_nat (length (sc_pad sc)) = pad) as Hpl by (cbn; rewrite length_take; lia).
  assert (pre ++ flowset_header af (4 + Z.of_nat (length recs)) ++ recs =
    (pre ++ le_bytes 2 (tid af)) ++ le_bytes 2 (4 + Z.of_nat (length recs)) ++ recs) as ->.
  { unfold flowset_header. by rewrite <- !app_assoc. }
  assert (4 + Z.of_nat (length pre) + 2 = 4 + Z.of_nat (length (pre ++ le_bytes 2 (tid af)))) as ->.
  { rewrite zlen_app, length_le_bytes. lia. }
  rewrite peek_image by (unfold off in Hsize; width; lia). cbn [obind]. rewrite poke_image. cbn [obind].
  rewrite wrap16_small by (unfold off in Hsize; width; lia).
  assert (4 + Z.of_nat (length (pre ++ section_bytes sc)) = off + pad) as Hlen.
  { unfold section_bytes, flowset_header, off. change (sc_flows sc) with fs. change (sc_af sc) with af. fold recs.
    rewrite !zlen_app, !length_le_bytes, Hpl. lia. }
  exists sc, rest'. rewrite Hlen. split.
  { do 2 f_equal. unfold image, section_bytes, flowset_header, rest'.
    change (sc_flows sc) with fs. change (sc_af sc) with af. fold recs. rewrite Hpl.
    rewrite <- !app_assoc. do 7 f_equal. unfold sc. cbn [sc_pad]. by rewrite take_drop. }
  split. { constructor; cbn [sc_flows sc_af]; [done|done|lia|by apply Forall_take|fold recs; by rewrite Hpl]. }
  split; [done|]. split; [done|]. split; [by apply Forall_drop|].
  split; [unfold rest'; rewrite length_drop; lia|].
  replace (off + pad) with (4 + Z.of_nat (length pre) + 4 + (Z.of_nat (length recs) + pad)) by (unfold off; lia).
  by apply mod4_sum.
Qed.

(** A new data flowset header behind finished ones. *)
Lemma new_header_ok n pre af rest : 4 <= Z.of_nat (length rest) ->
  (let! packet := poke16 (image n pre rest) (4 + Z.of_nat (length pre)) (tid af) in
   poke16 packet (4 + Z.of_nat (length pre) + 2) 4) =
  Ret (image n (pre ++ flowset_header af 4) (drop 4 rest)).
Proof.
  intros Hl. destruct rest as [|a [|b [|c [|d rest]]]]; cbn in Hl; try lia. cbn [drop].
  assert (image n pre (a :: b :: c :: d :: rest) =
    (le_bytes 2 (htons 9) ++ le_bytes 2 n ++ pre) ++ [a; b] ++ [c; d] ++ rest) as ->.
  { unfold image. by rewrite <- !app_assoc. }
  unfold poke16. rewrite wr_app; [|by rewrite image_prefix|done]. cbn [obind]. rewrite app_assoc.
  rewrite wr_app; [|rewrite zlen_app, image_prefix, length_le_bytes; lia|done].
  f_equal. unfold image, flowset_header. by rewrite <- !app_assoc.
Qed.

(** A flow that fits goes behind the others. *)
Lemma add_flow_fits f s n pre fs rest : sendable f -> Forall sendable fs -> open_state s n pre fs rest \/
    (fs = [] /\ fi_packet s = image n (pre ++ flowset_header (fi_last_af s) 4) rest /\
     fi_dh s = Some (4 + Z.of_nat (length pre)) /\ fi_offset s = 4 + Z.of_nat (length pre) + 4 /\
     (4 + Z.of_nat (length pre)) mod 4 = 0 /\ fi_offset s + Z.of_nat (length rest) = 512 /\ Forall u8 rest) ->
  u16 (n + Z.of_nat (length (directions9 f))) -> 0 <= n ->
  Z.of_nat (length (flow_bytes boot f)) <= Z.of_nat (length rest) ->
  exists packet s' rest',
    nf_flow_to_flowset f (fi_packet s) (fi_offset s) (512 - fi_offset s) boot =
      Ret (Z.of_nat (length (directions9 f)), packet, Z.of_nat (length (flow_bytes boot f))) /\
    (let! len := peek16 packet (4 + Z.of_nat (length pre) + 2) in
     let! packet := poke16 packet (4 + Z.of_nat (length pre) + 2) (wrap16 (len + Z.of_nat (length (flow_bytes boot f)))) in
     let! flows := peek16 packet 2 in
     let! packet := poke16 packet 2 (wrap16 (flows + Z.of_nat (length (directions9 f)))) in
     Ret (true, Mk_filling packet (fi_offset s + Z.of_nat (length (flow_bytes boot f))) (fi_dh s) (fi_last_af s) 0)) =
      Ret (true, s') /\
    open_state s' (n + Z.of_nat (length (directions9 f))) pre (fs ++ [f]) rest' /\ fi_last_af s' = fi_last_af s.
Proof.
  intros Hf Hfs Hs Hn Hn0 Hfit.
  assert (fi_packet s = image n (pre ++ flowset_header (fi_last_af s) (4 + Z.of_nat (length (flows_bytes fs))) ++ flows_bytes fs) rest /\
    fi_dh s = Some (4 + Z.of_nat (length pre)) /\
    fi_offset s = 4 + Z.of_nat (length pre) + 4 + Z.of_nat (length (flows_bytes fs)) /\
    (4 + Z.of_nat (length pre)) mod 4 = 0 /\ fi_offset s + Z.of_nat (length rest) = 512 /\ Forall u8 rest)
    as (Hp & Hdh & Ho & Hmod & Hsz & Hu).
  { destruct Hs as [[]|(-> & Hp & Hdh & Ho & Hmod & Hsz & Hu)]; [done|].
    rewrite Hp, Ho. cbn [flows_bytes fmap list_fmap concat length]. rewrite app_nil_r. split; [done|]. split; [done|].
    split; [lia|]. by rewrite <- Ho. }
  set (recs := flows_bytes fs) in *. set (bs := flow_bytes boot f) in *.
  destruct (nf_flow_to_flowset_ok boot f
    (le_bytes 2 (htons 9) ++ le_bytes 2 n ++ pre ++ flowset_header (fi_last_af s) (4 + Z.of_nat (length recs)) ++ recs)
    rest Hf Hu) as (r & packet & inc & E & Hr).
  fold bs in Hr. rewrite (proj2 (Z.leb_le _ _)) in Hr by done. destruct Hr as (-> & -> & ->).
  replace (Z.of_nat (length (le_bytes 2 (htons 9) ++ le_bytes 2 n ++ pre ++ flowset_header (fi_last_af s) (4 + Z.of_nat (length recs)) ++ recs)))
    with (fi_offset s) in E by (rewrite Ho; unfold flowset_header; rewrite !length_app, !length_le_bytes; lia).
  replace (Z.of_nat (length rest)) with (512 - fi_offset s) in E by lia.
  assert (fi_packet s = (le_bytes 2 (htons 9) ++ le_bytes 2 n ++ pre ++ flowset_header (fi_last_af s) (4 + Z.of_nat (length recs)) ++ recs) ++ rest) as Hp'.
  { rewrite Hp. unfold image. by rewrite <- !app_assoc. }
  rewrite <- Hp' in E. exists ((le_bytes 2 (htons 9) ++ le_bytes 2 n ++ pre ++ flowset_header (fi_last_af s) (4 + Z.of_nat (length recs)) ++ recs) ++ bs ++ drop (length bs) rest).
  assert (((le_bytes 2 (htons 9) ++ le_bytes 2 n ++ pre ++ flowset_header (fi_last_af s) (4 + Z.of_nat (length recs)) ++ recs) ++ bs ++ drop (length bs) rest) =
    image n ((pre ++ le_bytes 2 (tid (fi_last_af s))) ++ le_bytes 2 (4 + Z.of_nat (length recs)) ++ recs ++ bs) (drop (length bs) rest)) as Ep.
  { unfold image, flowset_header. by rewrite <- !app_assoc. }
  eexists _, (drop (length bs) rest). split; [exact E|]. rewrite Ep.
  replace (4 + Z.of_nat (length pre) + 2) with (4 + Z.of_nat (length (pre ++ le_bytes 2 (tid (fi_last_af s)))))
    by (rewrite zlen_app, length_le_bytes; lia).
  rewrite peek_image by (width; lia). cbn [obind]. rewrite poke_image. cbn [obind].
  rewrite peek_count by (width; lia). cbn [obind]. rewrite poke_count. cbn [obind].
  split; [reflexivity|]. split; [|done].
  assert (flows_bytes (fs ++ [f]) = recs ++ bs) as Efs.
  { rewrite flows_bytes_app. unfold flows_bytes at 2. cbn [fmap list_fmap concat]. by rewrite app_nil_r. }
  constructor; cbn [fi_packet fi_dh fi_offset fi_last_valid fi_last_af]; rewrite ?Efs.
  - rewrite !wrap16_small by (width; lia). rewrite zlen_app, Z.add_assoc. f_equal. unfold flowset_header. by rewrite <- !app_assoc.
  - exact Hdh.
  - rewrite Ho, zlen_app. lia.
  - done.
  - exact Hmod.
  - rewrite length_drop. lia.
  - by apply Forall_drop.
Qed.

(** A packet body that is complete: finished data flowsets behind [base]. *)
Definition complete (base : bytes) (secs : list section9) (flows : list FLOW) (packet : bytes) (offset : Z) : Prop :=
  exists rest, packet = image (num_records flows) (base ++ sections_bytes secs) rest /\
    concat (sc_flows <$> secs) = flows /\ Forall section_ok secs /\ Forall u8 rest /\
    offset = 4 + Z.of_nat (length (base ++ sections_bytes secs)) /\ offset + Z.of_nat (length rest) = 512 /\
    offset mod 4 = 0.

(** Closing the data flowset under construction. *)
Lemma close_open s base secs fs rest :
  open_state s (num_records (concat (sc_flows <$> secs) ++ fs)) (base ++ sections_bytes secs) fs rest ->
  Forall section_ok secs -> fs <> [] -> Forall (fun f => f_af f = fi_last_af s) fs ->
  exists sc packet offset, close_flowset s = Ret (packet, offset) /\
    complete base (secs ++ [sc]) (concat (sc_flows <$> secs) ++ fs) packet offset.
Proof.
  intros [Hp Hdh Ho _ Hmod Hsz Hu] Hsecs Hne Haf. unfold close_flowset. rewrite Hdh, Hp, Ho.
  destruct (finish_ok (num_records (concat (sc_flows <$> secs) ++ fs)) (base ++ sections_bytes secs) (fi_last_af s) fs rest Hne Haf Hu Hmod)
    as (sc & rest' & E & Hsc & _ & Hfs & Hu' & Hsz' & Hmod'); [lia|].
  exists sc. eexists _, _. split; [exact E|]. exists rest'. rewrite sections_bytes_app.
  assert (sections_bytes [sc] = section_bytes sc) as -> by (unfold sections_bytes; cbn; by rewrite app_nil_r).
  rewrite app_assoc. split; [done|]. split.
  { rewrite fmap_app, concat_app. cbn [fmap list_fmap concat]. by rewrite Hfs, app_nil_r. }
  split; [apply Forall_app; by split; [|constructor]|]. done.
Qed.

(** The state of a loop that has filled [secs] and is filling [fs]. *)
Record filling_ok (s : filling) (base : bytes) (secs : list section9) (fs : list FLOW) (rest : bytes) : Prop := {
  fk_open : open_state s (num_records (concat (sc_flows <$> secs) ++ fs)) (base ++ sections_bytes secs) fs rest;
  fk_secs : Forall section_ok secs;
  fk_flows : fs <> [];
  fk_af : Forall (fun f => f_af f = fi_last_af s) fs;
  fk_send : Forall sendable (concat (sc_flows <$> secs) ++ fs)
}.

(** The number of records stays small. *)
Lemma sections_count secs : Forall sendable (concat (sc_flows <$> secs)) ->
  31 * num_records (concat (sc_flows <$> secs)) <= Z.of_nat (length (sections_bytes secs)).
Proof.
  induction secs as [|sc secs IH]; intros Hs; [done|]. cbn [fmap list_fmap concat] in *.
  apply Forall_app in Hs as [H1 H2]. rewrite num_records_app. unfold sections_bytes in *. cbn [fmap list_fmap concat].
  rewrite zlen_app. pose proof (num_records_le _ H1). specialize (IH H2). unfold section_bytes at 1. rewrite !zlen_app. lia.
Qed.

Lemma count_small s base secs fs rest f : filling_ok s base secs fs rest -> sendable f ->
  Z.of_nat (length (flow_bytes boot f)) <= Z.of_nat (length rest) ->
  u16 (num_records (concat (sc_flows <$> secs) ++ fs) + Z.of_nat (length (directions9 f))).
Proof.
  intros [[_ _ Ho _ _ Hsz _] _ _ _ Hs] Hf Hle. apply Forall_app in Hs as [Hs1 Hs2].
  rewrite num_records_app. pose proof (num_records_le fs Hs2). pose proof (directions9_le f).
  pose proof (sections_count secs Hs1).
  rewrite zlen_app in Ho. assert (0 <= num_records (concat (sc_flows <$> secs)) /\ 0 <= num_records fs) by (unfold num_records; lia).
  width. lia.
Qed.

Lemma num_records_snoc fs fs' f :
  num_records (fs ++ fs' ++ [f]) = num_records (fs ++ fs') + Z.of_nat (length (directions9 f)).
Proof. unfold num_records. rewrite app_assoc, fmap_app, concat_app, zlen_app. cbn. by rewrite app_nil_r. Qed.

(** The flow does not fit. *)
Lemma nf_flow_full s n body rest f : sendable f -> Forall u8 rest ->
  fi_packet s = image n body rest -> fi_offset s = 4 + Z.of_nat (length body) ->
  fi_offset s + Z.of_nat (length rest) = 512 ->
  Z.of_nat (length rest) < Z.of_nat (length (flow_bytes boot f)) ->
  exists rest' inc, length rest' = length rest /\ Forall u8 rest' /\
    nf_flow_to_flowset f (fi_packet s) (fi_offset s) (512 - fi_offset s) boot = Ret (-1, image n body rest', inc).
Proof.
  intros Hf Hu Hp Ho Hsz Hlt.
  destruct (nf_flow_to_flowset_ok boot f (le_bytes 2 (htons 9) ++ le_bytes 2 n ++ body) rest Hf Hu)
    as (r & packet & inc & E & Hr). rewrite (proj2 (Z.leb_gt _ _)) in Hr by done.
  destruct Hr as (-> & rest' & -> & Hl & Hu'). exists rest', inc. split; [done|]. split; [done|].
  rewrite Hp, Ho. rewrite image_prefix in E. replace (512 - (4 + Z.of_nat (length body))) with (Z.of_nat (length rest)) by lia.
  unfold image. rewrite !app_assoc in *. exact E.
Qed.

Lemma flow_bytes_pos f : sendable f -> 0 < Z.of_nat (length (directions9 f)).
Proof. intros [_ _ Ht]. destruct (directions9 f); [done|cbn; lia]. Qed.

(** A flow of the family of the data flowset. *)
Lemma add_flow_same s base secs fs rest f : filling_ok s base secs fs rest -> sendable f -> f_af f = fi_last_af s ->
  (exists s' rest', add_flow st boot f s = Ret (true, s') /\ filling_ok s' base secs (fs ++ [f]) rest') \/
  (exists s' rest', add_flow st boot f s = Ret (false, s') /\ filling_ok s' base secs fs rest').
Proof.
  intros Hk Hf Haf. pose proof Hk as [Hop Hsecs Hne Hafs Hs]. pose proof Hop as [Hp Hdh Ho Hv Hmod Hsz Hu].
  apply Forall_app in Hs as [Hs1 Hs2]. pose proof (flow_bytes_pos f Hf) as Hpos.
  unfold add_flow, flowset_for. rewrite Hdh, Haf, Z.eqb_refl. cbn [obind negb]. change NF9_SOFTFLOWD_MAX_PACKET_SIZE with 512.
  destruct (Z.leb_spec (Z.of_nat (length (flow_bytes boot f))) (Z.of_nat (length rest))) as [Hfit|Hfull].
  - destruct (add_flow_fits f s _ _ fs rest Hf Hs2 (or_introl Hop) (count_small _ _ _ _ _ _ Hk Hf Hfit)
      ltac:(unfold num_records; lia) Hfit) as (packet & s' & rest' & -> & E & Hop' & Haf'). cbn [obind].
    rewrite (proj2 (Z.leb_gt _ _)) by lia. rewrite Hdh in E |- *. left. exists s', rest'. split; [exact E|].
    constructor; [|done|by destruct fs| |].
    + by rewrite num_records_snoc.
    + rewrite Haf'. apply Forall_app. by split; [|constructor].
    + rewrite app_assoc. apply Forall_app. split; [by apply Forall_app|by constructor].
  - rewrite app_assoc in Hp.
    destruct (nf_flow_full s _ _ rest f Hf Hu Hp) as (rest' & inc & Hl & Hu' & ->); [|done|done|].
    { rewrite Ho. unfold flowset_header. rewrite !length_app, !length_le_bytes. lia. }
    cbn [obind]. change (-1 <=? 0) with true. cbv iota. rewrite Hv, Z.eqb_refl. right. eexists _, rest'. split; [reflexivity|].
    constructor; [|done|done|done|by apply Forall_app]. constructor; cbn [fi_packet fi_dh fi_offset fi_last_valid fi_last_af]; try done.
    + by rewrite app_assoc.
    + by rewrite Hl.
Qed.

Lemma count_small_closed base secs all f room : concat (sc_flows <$> secs) = all -> Forall sendable all -> sendable f ->
  4 + Z.of_nat (length (base ++ sections_bytes secs)) + room <= 512 ->
  Z.of_nat (length (flow_bytes boot f)) <= room -> u16 (num_records all + Z.of_nat (length (directions9 f))).
Proof.
  intros <- Hs Hf Hsz Hle. pose proof (sections_count secs Hs). pose proof (directions9_le f).
  rewrite zlen_app in Hsz. assert (0 <= num_records (concat (sc_flows <$> secs))) by (unfold num_records; lia). width. lia.
Qed.

(** A flow of the other family: the data flowset is closed, and a new one opened
    if there is room. *)
Lemma add_flow_other s base secs fs rest f : filling_ok s base secs fs rest -> sendable f -> f_af f <> fi_last_af s ->
  exists secs' s',
    Forall sendable (concat (sc_flows <$> secs')) /\ concat (sc_flows <$> secs') = concat (sc_flows <$> secs) ++ fs /\
    ((exists rest', add_flow st boot f s = Ret (true, s') /\ filling_ok s' base secs' [f] rest') \/
     (exists packet offset, add_flow st boot f s = Ret (false, s') /\ close_flowset s' = Ret (packet, offset) /\
        complete base secs' (concat (sc_flows <$> secs) ++ fs) packet offset)).
Proof.
  intros Hk Hf Haf. pose proof Hk as [Hop Hsecs Hne Hafs Hs].
  destruct (close_open s base secs fs rest Hop Hsecs Hne Hafs) as (sc & packet & offset & Hclose & Hcomp).
  destruct Hcomp as (rest1 & -> & Hfl & Hsecs1 & Hu1 & Hoff & Hsz1 & Hmod1).
  set (secs' := secs ++ [sc]) in *. set (all := concat (sc_flows <$> secs) ++ fs) in *.
  exists secs'. unfold add_flow, flowset_for. rewrite (os_dh _ _ _ _ _ Hop), (proj2 (Z.eqb_neq _ _)), Hclose by done.
  cbn [obind]. change NF9_SOFTFLOWD_MAX_PACKET_SIZE with 512.
  assert (complete base secs' all (image (num_records all) (base ++ sections_bytes secs') rest1) offset) as Hcomp by (by exists rest1).
  destruct (Z.ltb_spec 512 (offset + 4)) as [Hfull|Hroom].
  { cbn [obind negb]. eexists. rewrite Hfl. do 2 (split; [done|]). right. eexists _, _. split; [reflexivity|].
    unfold close_flowset. cbn [fi_dh fi_packet fi_offset]. by split. }
  pose proof (new_header_ok (num_records all) (base ++ sections_bytes secs') (f_af f) rest1 ltac:(lia)) as Hnew.
  unfold tid in Hnew at 1. rewrite <- Hoff in Hnew.
  destruct (poke16 (image (num_records all) (base ++ sections_bytes secs') rest1) offset _) as [p1| | |]; try done.
  cbn [obind] in Hnew |- *. rewrite Hnew. cbn [obind negb]. set (s1 := Mk_filling _ _ _ _ _).
  rewrite Hfl. destruct (Z.leb_spec (Z.of_nat (length (flow_bytes boot f))) (Z.of_nat (length (drop 4 rest1)))) as [Hfit|Hfull].
  - destruct (add_flow_fits f s1 (num_records all) (base ++ sections_bytes secs') [] (drop 4 rest1) Hf ltac:(constructor))
      as (packet & s' & rest' & -> & E & Hop' & Haf'); [right| | |done|].
    { split; [done|]. split; [done|]. cbn [s1 fi_dh fi_offset]. rewrite <- Hoff, length_drop.
      do 3 (split; [done|]). split; [lia|by apply Forall_drop]. }
    { apply (count_small_closed base secs' all f (Z.of_nat (length (drop 4 rest1)))); [done|done|done| |done].
      rewrite <- Hoff, length_drop. lia. }
    { unfold num_records. lia. }
    cbn [obind]. pose proof (flow_bytes_pos f Hf) as Hpos. rewrite (proj2 (Z.leb_gt _ _)) by lia.
    rewrite <- Hoff in E. cbn [s1 fi_dh fi_last_af fi_offset] in E |- *. exists s'. split; [done|]. split; [done|]. left. exists rest'.
    split; [exact E|]. constructor; [|done|done|by apply Forall_singleton|].
    + rewrite Hfl. cbn [app] in Hop'. unfold num_records. unfold num_records in Hop'.
      rewrite fmap_app, concat_app, zlen_app. cbn [fmap list_fmap concat]. by rewrite app_nil_r.
    + rewrite Hfl. apply Forall_app. by split; [|constructor].
  - destruct (nf_flow_full s1 (num_records all) ((base ++ sections_bytes secs') ++ flowset_header (f_af f) 4) (drop 4 rest1) f Hf)
      as (rest' & inc & Hl & Hu' & ->); [by apply Forall_drop|done| | |done|].
    { cbn [s1 fi_offset]. unfold flowset_header. rewrite Hoff, !zlen_app, !length_le_bytes. lia. }
    { cbn [s1 fi_offset]. rewrite length_drop. lia. }
    cbn [obind]. change (-1 <=? 0) with true. cbv iota. cbn [s1 fi_last_valid fi_offset fi_dh fi_last_af].
    rewrite (proj2 (Z.eqb_neq offset 0)) by lia. eexists. split; [done|]. split; [done|]. right.
    eexists _, offset. split; [reflexivity|].
    unfold close_flowset, finish_flowset. cbn [fi_dh fi_packet fi_offset]. rewrite Hmod1, Z.eqb_refl.
    assert (forall v, image (num_records all) ((base ++ sections_bytes secs') ++ flowset_header (f_af f) v) rest' =
      image (num_records all) (((base ++ sections_bytes secs') ++ le_bytes 2 (tid (f_af f))) ++ le_bytes 2 v ++ []) rest') as Himg.
    { intros v. unfold flowset_header. by rewrite app_nil_r, <- !app_assoc. }
    rewrite Himg. replace (offset + 2) with (4 + Z.of_nat (length ((base ++ sections_bytes secs') ++ le_bytes 2 (tid (f_af f)))))
      by (rewrite zlen_app, length_le_bytes; lia).
    rewrite peek_image by done. cbn [obind]. rewrite poke_image. cbn [obind]. rewrite <- Himg, !Z.add_0_r. split; [reflexivity|].
    eexists (flowset_header (f_af f) (htons (wrap16 4)) ++ rest'). split.
    { unfold image. by rewrite <- !app_assoc. }
    do 2 (split; [done|]). split; [|split; [done|]].
    { apply Forall_app. split; [apply Forall_app; split; apply le_bytes_u8|done]. }
    split; [|done]. unfold flowset_header. rewrite !length_app, !length_le_bytes, Hl, length_drop. lia.
Qed.

(** The first flow of a packet: it always fits. *)
Lemma add_flow_first s base f rest : sendable f ->
  fi_packet s = image 0 base rest -> fi_offset s = 4 + Z.of_nat (length base) -> fi_dh s = None ->
  fi_offset s + Z.of_nat (length rest) = 512 -> fi_offset s mod 4 = 0 -> 114 <= Z.of_nat (length rest) -> Forall u8 rest ->
  exists s' rest', add_flow st boot f s = Ret (true, s') /\ filling_ok s' base [] [f] rest'.
Proof.
  intros Hf Hp Ho Hdh Hsz Hmod Hroom Hu. unfold add_flow, flowset_for, close_flowset. rewrite Hdh, Hp. cbn [obind].
  change NF9_SOFTFLOWD_MAX_PACKET_SIZE with 512. rewrite (proj2 (Z.ltb_ge _ _)) by lia.
  pose proof (new_header_ok 0 base (f_af f) rest ltac:(lia)) as Hnew. unfold tid in Hnew at 1. rewrite <- Ho in Hnew.
  destruct (poke16 (image 0 base rest) (fi_offset s) _) as [p1| | |]; try done.
  cbn [obind] in Hnew |- *. rewrite Hnew. cbn [obind negb]. set (s1 := Mk_filling _ _ _ _ _).
  assert (Z.of_nat (length (flow_bytes boot f)) <= 110) as Hlen.
  { rewrite flow_bytes_length by apply Hf. pose proof (directions9_le f). pose proof (record_len_bounds f). nia. }
  pose proof (flow_bytes_pos f Hf) as Hpos. pose proof (directions9_le f).
  destruct (add_flow_fits f s1 0 base [] (drop 4 rest) Hf ltac:(constructor)) as (packet & s' & rest' & -> & E & Hop' & Haf').
  { right. split; [done|]. split; [done|]. cbn [s1 fi_dh fi_offset]. rewrite <- Ho, length_drop.
    do 3 (split; [done|]). split; [lia|by apply Forall_drop]. }
  { width. lia. }
  { done. }
  { rewrite length_drop. lia. }
  cbn [obind]. rewrite (proj2 (Z.leb_gt _ _)) by lia. rewrite <- Ho in E. cbn [s1 fi_dh fi_last_af fi_offset] in E |- *.
  exists s', rest'. split; [exact E|]. constructor; [|constructor|done|by apply Forall_singleton|by apply Forall_singleton].
  cbn [fmap list_fmap concat app sections_bytes]. rewrite app_nil_r.
  assert (num_records [f] = 0 + Z.of_nat (length (directions9 f))) as -> by (unfold num_records; cbn; by rewrite app_nil_r).
  exact Hop'.
Qed.

(** The flows behind those that are in the packet: some are taken, in order. *)
Lemma fill_ok base flows : Forall sendable flows -> forall i s secs fs rest,
  filling_ok s base secs fs rest ->
  exists k s' packet offset secs', fill st boot flows i s = Ret ((i + k)%nat, s') /\
    (k <= length flows)%nat /\ close_flowset s' = Ret (packet, offset) /\
    complete base secs' ((concat (sc_flows <$> secs) ++ fs) ++ take k flows) packet offset.
Proof.
  induction 1 as [|f flows Hf _ IH]; intros i s secs fs rest Hk.
  { destruct Hk as [Hop Hsecs Hne Haf _]. destruct (close_open s base secs fs rest Hop Hsecs Hne Haf) as (sc & packet & offset & E & Hc).
    exists 0%nat, s. eexists packet, offset, _. rewrite Nat.add_0_r, app_nil_r. done. }
  cbn [fill].
  assert (forall s' secs' fs' rest', filling_ok s' base secs' fs' rest' ->
    concat (sc_flows <$> secs') ++ fs' = (concat (sc_flows <$> secs) ++ fs) ++ [f] ->
    exists k s'' packet offset secs'', fill st boot flows (S i) s' = Ret ((i + k)%nat, s'') /\
    (k <= length (f :: flows))%nat /\ close_flowset s'' = Ret (packet, offset) /\
    complete base secs'' ((concat (sc_flows <$> secs) ++ fs) ++ take k (f :: flows)) packet offset) as Hmore.
  { intros s' secs' fs' rest' Hk' Hfl. destruct (IH (S i) s' secs' fs' rest' Hk') as (k & s'' & packet & offset & secs'' & E & Hle & Hc & Hcp).
    exists (S k), s'', packet, offset, secs''. rewrite E, Nat.add_succ_r. cbn [length take].
    split; [done|]. split; [lia|]. split; [done|]. by rewrite Hfl, <- app_assoc in Hcp. }
  destruct (decide (f_af f = fi_last_af s)) as [Haf|Haf].
  - destruct (add_flow_same s base secs fs rest f Hk Hf Haf) as [(s' & rest' & -> & Hk')|(s' & rest' & -> & Hk')]; cbn [obind].
    + apply (Hmore s' secs (fs ++ [f]) rest' Hk'). by rewrite app_assoc.
    + destruct Hk' as [Hop Hsecs Hne Haf' _].
      destruct (close_open s' base secs fs rest' Hop Hsecs Hne Haf') as (sc & packet & offset & E & Hc).
      exists 0%nat, s'. eexists packet, offset, _. rewrite Nat.add_0_r. cbn [take]. rewrite app_nil_r. split; [done|]. split; [lia|done].
  - destruct (add_flow_other s base secs fs rest f Hk Hf Haf) as (secs' & s' & _ & Hfl & [(rest' & -> & Hk')|(packet & offset & -> & Hc & Hcp)]); cbn [obind].
    + apply (Hmore s' secs' [f] rest' Hk'). by rewrite Hfl.
    + exists 0%nat, s', packet, offset, secs'. rewrite Nat.add_0_r. cbn [take]. rewrite app_nil_r. split; [done|]. split; [lia|done].
Qed.
End sections.

(** ** Packets *)

(** The static variables between two calls. *)

(** Numbers in network order, and the bytes of a template flowset: its header
    (flowset 0, 52 bytes), the id of the template, its eleven fields, and the type
    and length of each. *)
Definition be16 (v : Z) : bytes := [v / 256 mod 256; v mod 256].
Definition be32 (v : Z) : bytes := [v / 16777216 mod 256; v / 65536 mod 256; v / 256 mod 256; v mod 256].
Definition template9 (id : Z) (fields : list (Z * Z)) : bytes :=
  be16 0 ++ be16 52 ++ be16 id ++ be16 11 ++ concat ((fun r => be16 (fst r) ++ be16 (snd r)) <$> fields).
Definition fields9 (src dst width : Z) : list (Z * Z) :=
  [(src, width); (dst, width); (21, 4); (22, 4); (1, 4); (2, 4); (7, 2); (11, 2); (4, 1); (6, 1); (60, 1)].
Definition template4 : bytes := template9 1024 (fields9 8 12 4).
Definition template6 : bytes := template9 2048 (fields9 27 28 16).

Definition templates_of : nf9_static := Mk_nf9_static template4 template6 (-1).

Lemma nf9_init_template_ok st : nf9_init_template st = Mk_nf9_static template4 template6 (nf9_pkts_until_template st).
Proof. unfold nf9_init_template. f_equal; vm_compute; reflexivity. Qed.

Record static_ok (st : nf9_static) : Prop := {
  sk_v4 : v4_template st = v4_template templates_of;
  sk_v6 : v6_template st = v6_template templates_of;
  sk_until : 0 <= nf9_pkts_until_template st <= NF9_DEFAULT_TEMPLATE_INTERVAL
}.

(** Whether a packet carries the templates, and the static variables after it. *)
Definition templates_due (st : nf9_static) : bool := nf9_pkts_until_template st <=? 0.
Definition after_packet (st : nf9_static) : nf9_static :=
  Mk_nf9_static (v4_template st) (v6_template st)
    ((if templates_due st then NF9_DEFAULT_TEMPLATE_INTERVAL else nf9_pkts_until_template st) - 1).

Lemma after_packet_ok st : static_ok st -> static_ok (after_packet st).
Proof.
  intros [H4 H6 Hu]. constructor; cbn [after_packet v4_template v6_template nf9_pkts_until_template]; [done|done|].
  unfold templates_due, NF9_DEFAULT_TEMPLATE_INTERVAL in *. destruct (Z.leb_spec (nf9_pkts_until_template st) 0); lia.
Qed.

(** What is behind the version and the count: the rest of the header, and the
    templates. *)
Definition base9 (now boot : Z * Z) (time sequence : Z) (due : bool) : bytes :=
  le_bytes 4 (htonl (timeval_sub_ms now boot)) ++ le_bytes 4 (htonl (wrap32 time)) ++
  le_bytes 4 (htonl (wrap32 sequence)) ++ le_bytes 4 0 ++
  if due then v4_template templates_of ++ v6_template templates_of else [].

Lemma base9_length now boot time sequence due :
  length (base9 now boot time sequence due) = if due then 120%nat else 16%nat.
Proof. unfold base9. rewrite !length_app, !length_le_bytes. by destruct due. Qed.

(** A packet that exports the flows [fs]: its header counts their records, and its
    data flowsets, of one family each, hold the records. *)
Definition exports (now boot : Z * Z) (time sequence : Z) (due : bool) (fs : list FLOW) (out : bytes) : Prop :=
  fs <> [] /\ (length out <= 512)%nat /\ Z.of_nat (length out) mod 4 = 0 /\
  exists secs, Forall (section_ok boot) secs /\ concat (sc_flows <$> secs) = fs /\
    out = le_bytes 2 (htons 9) ++ le_bytes 2 (htons (num_records fs)) ++ base9 now boot time sequence due ++
      sections_bytes templates_of boot secs.

Lemma sections_bytes_static st boot secs : static_ok st -> sections_bytes st boot secs = sections_bytes templates_of boot secs.
Proof.
  intros [H4 H6 _]. unfold sections_bytes, section_bytes, flowset_header, tid. by rewrite H4, H6.
Qed.

Lemma start_packet9_ok now boot time sequence st : static_ok st ->
  let due := templates_due st in
  let base := base9 now boot time sequence due in
  start_packet9 now boot time sequence st =
    Ret (image 0 base (replicate (512 - (4 + length base)) 0), 4 + Z.of_nat (length base),
         if due then Mk_nf9_static (v4_template st) (v6_template st) NF9_DEFAULT_TEMPLATE_INTERVAL else st).
Proof.
  intros [H4 H6 _] due base. unfold start_packet9. fold (templates_due st). fold due. cbv zeta.
  assert (encode (Mk_NF9_HEADER (htons 9) 0 (htonl (timeval_sub_ms now boot)) (htonl (wrap32 time)) (htonl (wrap32 sequence)) 0)
    = le_bytes 2 (htons 9) ++ le_bytes 2 0 ++ base9 now boot time sequence false) as Eh.
  { unfold base9. rewrite !app_nil_r. reflexivity. }
  rewrite Eh. change (replicate 512 0) with (replicate 20 0 ++ replicate 52 0 ++ replicate 52 0 ++ replicate 388 0).
  set (h := le_bytes 2 (htons 9) ++ _).
  assert (length h = 20%nat) as Hh by (unfold h; by rewrite !length_app, base9_length, !length_le_bytes).
  change (wr ?p 0 h) with (wr ([] ++ p) 0 h). rewrite (wr_app [] (replicate 20 0)); [|done|by rewrite Hh].
  cbn [obind app]. assert (length base = if due then 120%nat else 16%nat) as -> by apply base9_length.
  assert (base = base9 now boot time sequence false ++ (if due then v4_template templates_of ++ v6_template templates_of else [])) as Eb.
  { unfold base, base9. by rewrite app_nil_r, <- !app_assoc. }
  destruct due.
  - rewrite H4, H6. rewrite (wr_app h (replicate 52 0)); [|by rewrite Hh|done]. cbn [obind].
    rewrite app_assoc, (wr_app (h ++ v4_template templates_of) (replicate 52 0)); [|by rewrite length_app, Hh|done]. cbn [obind].
    rewrite Eb. unfold image, h. by rewrite <- !app_assoc.
  - rewrite Eb, app_nil_r. unfold image, h. rewrite <- !app_assoc. reflexivity.
Qed.

(** One packet, when the send succeeds: it exports the first flows. *)
Lemma send_one_ok now boot time sequence f flows last_valid st sent : static_ok st -> Forall sendable (f :: flows) ->
  exists i last_valid' out, (0 < i <= length (f :: flows))%nat /\
    send_one now boot time sequence (f :: flows) last_valid (Mk_net9 st [] sent) =
      Ret (i, true, last_valid', Mk_net9 (after_packet st) [] (sent ++ [out])) /\
    exports now boot time sequence (templates_due st) (take i (f :: flows)) out.
Proof.
  intros Hst Hs. unfold send_one. cbn [n9_static n9_sends n9_sent]. rewrite start_packet9_ok by done. cbn [obind].
  set (due := templates_due st). set (base := base9 now boot time sequence due).
  set (st1 := if due then Mk_nf9_static (v4_template st) (v6_template st) NF9_DEFAULT_TEMPLATE_INTERVAL else st).
  assert (length base = if due then 120%nat else 16%nat) as Hb by apply base9_length.
  pose proof Hs as Hs'. inversion_clear Hs' as [|? ? Hf Hfl].
  destruct (add_flow_first st1 boot
    (Mk_filling (image 0 base (replicate (512 - (4 + length base)) 0)) (4 + Z.of_nat (length base)) None 0 last_valid)
    base f (replicate (512 - (4 + length base)) 0) Hf) as (s1 & rest1 & E1 & Hk); [done|done|done| | | | |].
  { cbn [fi_offset]. rewrite length_replicate, Hb. by destruct due. }
  { cbn [fi_offset]. rewrite Hb. by destruct due. }
  { rewrite length_replicate, Hb. destruct due; lia. }
  { by apply Forall_replicate. }
  destruct (fill_ok st1 boot base flows Hfl 1%nat s1 [] [f] rest1 Hk) as (k & s2 & packet & offset & secs & E2 & Hle & Hc & Hcp).
  cbn [fill]. rewrite E1. cbn [obind]. rewrite E2. cbn [obind]. rewrite Hc. cbn [obind].
  cbn [fmap list_fmap concat app] in Hcp. change (f :: take k flows) with (take (S k) (f :: flows)) in Hcp.
  destruct Hcp as (rest & -> & Hfls & Hsecs & Hu & Hoff & Hsz & Hmod).
  assert (Forall sendable (take (S k) (f :: flows))) as Hsi by (by apply Forall_take).
  assert (u16 (num_records (take (S k) (f :: flows)))) as Hn.
  { pose proof (sections_count st1 boot secs) as Hsc. rewrite Hfls in Hsc. specialize (Hsc Hsi).
    rewrite zlen_app in Hoff. assert (0 <= num_records (take (S k) (f :: flows))) by (unfold num_records; lia). width. lia. }
  rewrite peek_count by done. cbn [obind]. rewrite poke_count. cbn [obind].
  set (out := le_bytes 2 (htons 9) ++ le_bytes 2 (htons (num_records (take (S k) (f :: flows)))) ++ base ++ sections_bytes st1 boot secs).
  assert (Z.of_nat (length out) = offset) as Hlo.
  { unfold out. rewrite Hoff, !zlen_app, !length_le_bytes. lia. }
  assert (image (htons (num_records (take (S k) (f :: flows)))) (base ++ sections_bytes st1 boot secs) rest = out ++ rest) as ->.
  { unfold image, out. by rewrite <- !app_assoc. }
  rewrite rd_head by done. cbn [obind]. exists (S k), (fi_last_valid s2), out. split; [cbn [length]; lia|].
  split. { unfold st1, after_packet, due. by destruct (templates_due st). }
  split; [done|]. split; [lia|]. split; [by rewrite Hlo|]. exists secs. split; [done|]. split; [done|].
  unfold out. rewrite (sections_bytes_static st1); [done|]. unfold st1. destruct Hst as [H4 H6 Hun].
  destruct due; constructor; cbn [v4_template v6_template nf9_pkts_until_template]; try done; unfold NF9_DEFAULT_TEMPLATE_INTERVAL; lia.
Qed.

(** ** All the packets *)

(** The packets that export some flows, from a state of the static variables and a
    sequence number on: each exports the next flows, and the sequence number
    counts flows. *)
Inductive exported9 (now boot : Z * Z) : (nat -> Z) -> nf9_static -> Z -> list FLOW -> list bytes -> nf9_static -> Prop :=
  | exported9_nil time st sequence : exported9 now boot time st sequence [] [] st
  | exported9_cons time st sequence fs flows out outs st' :
      exports now boot (time 0%nat) sequence (templates_due st) fs out ->
      exported9 now boot (fun k => time (S k)) (after_packet st) (sequence + Z.of_nat (length fs)) flows outs st' ->
      exported9 now boot time st sequence (fs ++ flows) (out :: outs) st'.

Lemma wrap32_idemp a b : wrap32 (a + wrap32 b) = wrap32 (a + b).
Proof. unfold wrap32. apply Z.add_mod_idemp_r. lia. Qed.

Lemma exported9_mod now boot time st a b flows outs st' : wrap32 a = wrap32 b ->
  exported9 now boot time st a flows outs st' -> exported9 now boot time st b flows outs st'.
Proof.
  intros Hab H. revert b Hab. induction H as [|time st a fs flows out outs st' He _ IH]; intros b Hab; [constructor|].
  constructor.
  - unfold exports, base9 in *. by rewrite <- Hab.
  - apply IH. rewrite !(Z.add_comm _ (Z.of_nat _)), <- (wrap32_idemp _ a), <- (wrap32_idemp _ b). by rewrite Hab.
Qed.

Lemma exported9_nothing now boot time st sequence outs st' : exported9 now boot time st sequence [] outs st' -> outs = [].
Proof.
  remember [] as flows eqn:Hf. destruct 1 as [|time st sequence fs flows out outs st' (Hne & _) _]; [done|].
  by apply app_eq_nil in Hf as [-> _].
Qed.

Lemma send9_loop_ok now boot exported fuel : forall time flows j n last_valid st sent,
  (length flows <= fuel)%nat -> static_ok st -> Forall sendable flows ->
  exists outs st',
    send9_loop fuel now boot time exported flows j n last_valid (Mk_net9 st [] sent) =
      Ret (Some (if decide (flows = []) then j else wrap32 (j + Z.of_nat (length flows)),
                 if decide (flows = []) then n else wrap32 (n + Z.of_nat (length outs))), Mk_net9 st' [] (sent ++ outs)) /\
    exported9 now boot time st (exported + j) flows outs st' /\ static_ok st'.
Proof.
  induction fuel as [|fuel IH]; intros time flows j n last_valid st sent Hle Hst Hs.
  { destruct flows; [|cbn in Hle; lia]. exists [], st. cbn [send9_loop]. rewrite !app_nil_r. split; [done|]. by split; [constructor|]. }
  destruct flows as [|f flows].
  { exists [], st. cbn [send9_loop]. rewrite !app_nil_r. split; [done|]. by split; [constructor|]. }
  cbn [send9_loop].
  destruct (send_one_ok now boot (time 0%nat) (exported + j) f flows last_valid st sent Hst Hs) as (i & lv & out & Hi & -> & He).
  cbn [obind negb]. set (fs := f :: flows) in *.
  destruct (IH (fun k => time (S k)) (drop i fs) (wrap32 (j + Z.of_nat i)) (wrap32 (n + 1)) lv (after_packet st) (sent ++ [out]))
    as (outs & st' & E & Hx & Hst'); [rewrite length_drop; lia|by apply after_packet_ok|by apply Forall_drop|].
  exists (out :: outs), st'. rewrite E. assert (length (take i fs) = i) as Hti by (rewrite length_take; lia). split.
  - rewrite <- app_assoc. cbn [app]. rewrite (decide_False (P := fs = [])) by done. do 3 f_equal.
    destruct (decide (drop i fs = [])) as [Hd|Hd].
    + assert (length (drop i fs) = 0%nat) as Hl by (by rewrite Hd). rewrite length_drop in Hl.
      rewrite Hd in Hx. rewrite (exported9_nothing _ _ _ _ _ _ _ Hx). cbn [length] in *. do 2 f_equal. lia.
    + rewrite !(Z.add_comm (wrap32 _)), !wrap32_idemp, length_drop. cbn [length]. do 2 f_equal; lia.
  - split; [|done]. rewrite <- (take_drop i fs). constructor; [exact He|]. rewrite Hti.
    eapply exported9_mod; [|exact Hx]. rewrite wrap32_idemp. f_equal. lia.
Qed.

(** The state at a call: of a program that has just started, or between calls. *)
Definition ready (st : nf9_static) : Prop := nf9_pkts_until_template st = -1 \/ static_ok st.
Definition started (st : nf9_static) : nf9_static :=
  if nf9_pkts_until_template st =? -1 then Mk_nf9_static (v4_template templates_of) (v6_template templates_of) 0 else st.

Lemma static_started_ok st : ready st -> static_ok (started st).
Proof.
  unfold started. intros [->|[H4 H6 Hu]]; [by constructor|].
  rewrite (proj2 (Z.eqb_neq _ _)) by lia. by constructor.
Qed.

Lemma started_until st : ready st -> nf9_pkts_until_template (started st) = Z.max 0 (nf9_pkts_until_template st).
Proof.
  unfold started. intros [->|[_ _ Hu]]; [done|]. rewrite (proj2 (Z.eqb_neq _ _)) by lia. lia.
Qed.

Lemma send_netflow_v9_ok fuel now boot time flows exported st sent :
  (length flows <= fuel)%nat -> ready st -> Forall sendable flows ->
  exists outs st',
    send_netflow_v9 fuel now time flows exported boot (Mk_net9 st [] sent) =
      Ret (swrap32 (Z.of_nat (length outs)), wrap64 (exported + wrap32 (Z.of_nat (length flows))), Mk_net9 st' [] (sent ++ outs)) /\
    exported9 now boot time (started st) exported flows outs st' /\ static_ok st'.
Proof.
  intros Hle Hst Hs. unfold send_netflow_v9. cbn [n9_static n9_sends n9_sent].
  rewrite nf9_init_template_ok. cbn [v4_template v6_template].
  change template4 with (v4_template templates_of). change template6 with (v6_template templates_of). fold (started st).
  destruct (send9_loop_ok now boot exported fuel time flows 0 0 0 (started st) sent Hle (static_started_ok st Hst) Hs)
    as (outs & st' & -> & Hx & Hst').
  exists outs, st'. rewrite Z.add_0_r in Hx. split; [|done]. cbn [obind]. rewrite !Z.add_0_l.
  destruct (decide (flows = [])) as [->|_].
  - by rewrite (exported9_nothing _ _ _ _ _ _ _ Hx).
  - do 3 f_equal. unfold swrap32, wrap32. by rewrite Z.add_mod_idemp_l.
Qed.

(** ** What the packets say

    The same packets, without the operations of the sender: numbers in network
    order, the two templates, and what stands where in a record. *)

Section packets.
Context (now boot : Z * Z).

(** Milliseconds since the boot. *)
Definition ms_since (t : Z * Z) : Z := (timeval_us t - timeval_us boot) / 1000.

(** The record of a direction: [ndx] says that it goes from the second endpoint of
    the flow to the first. *)
Definition record_of (f : FLOW) (ndx : bool) : bytes :=
  let v4 := f_af f =? AF_INET in
  let width := if v4 then 4%nat else 16%nat in
  let from {A} (p : A * A) := if ndx then snd p else fst p in
  let towards {A} (p : A * A) := if ndx then fst p else snd p in
  take width (from (f_addr f)) ++ take width (towards (f_addr f)) ++
  be32 (ms_since (f_flow_start f)) ++ be32 (ms_since (f_flow_last f)) ++
  be32 (from (f_octets f)) ++ be32 (from (f_packets f)) ++
  le_bytes 2 (from (f_port f)) ++ le_bytes 2 (towards (f_port f)) ++
  [f_protocol f; from (f_tcp_flags f); if v4 then 4 else 6].

(** The records of a flow, one for each direction with octets. *)
Definition records_of (f : FLOW) : list bytes :=
  (if 0 <? fst (f_octets f) then [record_of f false] else []) ++
  (if 0 <? snd (f_octets f) then [record_of f true] else []).

(** A data flowset: the id of the template of the family of its flows, its length,
    their records, and less than four bytes that fill it up to a multiple of four. *)
Definition flowset9 (fs : list FLOW) (bs : bytes) : Prop :=
  fs <> [] /\ Z.of_nat (length bs) mod 4 = 0 /\
  exists af pad, Forall (fun f => f_af f = af) fs /\ (length pad < 4)%nat /\
    bs = be16 (if af =? AF_INET then 1024 else 2048) ++ be16 (Z.of_nat (length bs)) ++
         concat (concat (records_of <$> fs)) ++ pad.

(** A packet with the flows [fs]. *)
Definition packet9 (time sequence : Z) (due : bool) (fs : list FLOW) (out : bytes) : Prop :=
  fs <> [] /\ (length out <= 512)%nat /\ Z.of_nat (length out) mod 4 = 0 /\
  exists secs, concat (fst <$> secs) = fs /\ Forall (fun sc => flowset9 (fst sc) (snd sc)) secs /\
    out = be16 9 ++ be16 (Z.of_nat (length (concat (records_of <$> fs)))) ++
          be32 (ms_since now) ++ be32 time ++ be32 sequence ++ be32 0 ++
          (if due then template4 ++ template6 else []) ++ concat (snd <$> secs).

(** The packets of a call.  [until] is the number of packets before the templates
    are due, [sequence] the number of flows exported before. *)
Inductive packets9 : (nat -> Z) -> Z -> Z -> list FLOW -> list bytes -> Z -> Prop :=
  | packets9_nil time until sequence : packets9 time until sequence [] [] until
  | packets9_cons time until sequence fs flows out outs until' :
      packet9 (time 0%nat) sequence (until <=? 0) fs out ->
      packets9 (fun k => time (S k)) ((if until <=? 0 then 16 else until) - 1)
        (sequence + Z.of_nat (length fs)) flows outs until' ->
      packets9 time until sequence (fs ++ flows) (out :: outs) until'.

Lemma le_bytes_htons v : le_bytes 2 (htons v) = be16 v.
Proof. unfold htons. rewrite le_bytes_bswap. reflexivity. Qed.

Lemma le_bytes_htonl v : le_bytes 4 (htonl v) = be32 v.
Proof. unfold htonl. rewrite le_bytes_bswap. cbn [le_bytes rev app]. unfold be32. by rewrite !Z.div_div by lia. Qed.

Lemma be32_wrap v : be32 (wrap32 v) = be32 v.
Proof.
  unfold be32, wrap32. f_equal; [|f_equal; [|f_equal; [|f_equal]]]; Z.to_euclidean_division_equations; lia.
Qed.

Context (Hnow : timeval_ok now) (Hboot : timeval_ok boot).

Lemma be32_ms t : timeval_ok t -> le_bytes 4 (htonl (timeval_sub_ms t boot)) = be32 (ms_since t).
Proof. intros Ht. by rewrite le_bytes_htonl, timeval_sub_ms_ok, be32_wrap. Qed.

Lemma record9_of f ndx : FLOW_ok f -> record9 boot f ndx = record_of f ndx.
Proof.
  intros Hf. unfold record9, record_of, data_record. rewrite !be32_ms by apply Hf. rewrite !le_bytes_htonl.
  by destruct (f_af f =? AF_INET), ndx.
Qed.

Lemma records_of_ok f : FLOW_ok f -> records_of f = record9 boot f <$> directions9 f.
Proof.
  intros Hf. unfold records_of, directions9. rewrite !filter_cons, filter_nil. cbn [at2].
  destruct (Z.ltb_spec 0 (fst (f_octets f))), (Z.ltb_spec 0 (snd (f_octets f)));
    repeat (case_decide; try lia); cbn [fmap list_fmap app]; by rewrite ?record9_of.
Qed.

Lemma all_records_ok fs : Forall FLOW_ok fs ->
  flows_bytes boot fs = concat (concat (records_of <$> fs)) /\
  num_records fs = Z.of_nat (length (concat (records_of <$> fs))).
Proof.
  unfold flows_bytes, num_records. induction 1 as [|f fs Hf _ [IHb IHn]]; [done|]. cbn [fmap list_fmap concat].
  rewrite concat_app, !length_app, records_of_ok, length_fmap by done. split; [by rewrite IHb|lia].
Qed.

Lemma section_bytes_ok sc : section_ok boot sc -> Forall FLOW_ok (sc_flows sc) ->
  flowset9 (sc_flows sc) (section_bytes templates_of boot sc).
Proof.
  intros [Hne Haf Hpad _ Hmod] Hok. destruct (all_records_ok _ Hok) as [Hb _].
  assert (Z.of_nat (length (section_bytes templates_of boot sc)) =
    4 + Z.of_nat (length (flows_bytes boot (sc_flows sc))) + Z.of_nat (length (sc_pad sc))) as Hl.
  { unfold section_bytes, flowset_header. rewrite !zlen_app, !length_le_bytes. lia. }
  split; [done|]. rewrite Hl. split.
  { rewrite <- Z.add_assoc, <- Z.add_mod_idemp_r, Hmod by lia. reflexivity. }
  exists (sc_af sc), (sc_pad sc). split; [done|]. split; [lia|].
  unfold section_bytes, flowset_header, tid. rewrite <- !app_assoc, le_bytes_htons, Hb. f_equal.
  by destruct (sc_af sc =? AF_INET).
Qed.

Lemma exports_ok time sequence due fs out : Forall FLOW_ok fs ->
  exports now boot time sequence due fs out -> packet9 time sequence due fs out.
Proof.
  intros Hok (Hne & Hl & Hmod & secs & Hsecs & Hfs & ->). split; [done|]. split; [exact Hl|]. split; [exact Hmod|].
  exists ((fun sc => (sc_flows sc, section_bytes templates_of boot sc)) <$> secs).
  rewrite <- !list_fmap_compose. split; [done|]. split.
  - apply Forall_fmap, Forall_forall. intros sc Hsc. cbn [fst snd compose]. apply section_bytes_ok.
    + by apply (proj1 (Forall_forall _ _) Hsecs).
    + subst fs. apply Forall_concat in Hok. apply (proj1 (Forall_forall _ _) Hok). by apply list_elem_of_fmap_2.
  - unfold base9. rewrite !le_bytes_htons, be32_ms, !le_bytes_htonl, !be32_wrap, <- !app_assoc by done.
    rewrite (proj2 (all_records_ok fs Hok)). reflexivity.
Qed.

Lemma exported9_ok time st sequence flows outs st' : static_ok st -> Forall FLOW_ok flows ->
  exported9 now boot time st sequence flows outs st' ->
  packets9 time (nf9_pkts_until_template st) sequence flows outs (nf9_pkts_until_template st').
Proof.
  intros Hst Hok H. revert Hst Hok. induction H as [|time st sequence fs flows out outs st' He _ IH]; intros Hst Hok; [constructor|].
  apply Forall_app in Hok as [H1 H2]. constructor; [by apply exports_ok|].
  apply IH; [by apply after_packet_ok|done].
Qed.
End packets.

(** C22: when the flows have a known family and octets in some direction, and every
    send succeeds, send_netflow_v9 ends, and its packets export all the flows, each
    in exactly one packet and in order.  A packet has a header with the number of
    its records, the times, and the number of flows exported before it; both
    templates when no packet has carried them, and again sixteen packets later;
    data flowsets of one family each, with the id of the template of the family,
    their length, the records of the directions with octets, and padding; it has at
    most 512 bytes, a multiple of four.  The result is the number of packets, and
    *flows_exported has grown by the number of flows. *)
Theorem send_netflow_v9_spec fuel now boot time flows exported st sent :
  timeval_ok now -> timeval_ok boot -> (length flows <= fuel)%nat -> ready st -> Forall sendable flows ->
  exists outs until,
    send_netflow_v9 fuel now time flows exported boot (Mk_net9 st [] sent) =
      Ret (swrap32 (Z.of_nat (length outs)), wrap64 (exported + wrap32 (Z.of_nat (length flows))),
           Mk_net9 (Mk_nf9_static template4 template6 until) [] (sent ++ outs)) /\
    packets9 now boot time (Z.max 0 (nf9_pkts_until_template st)) exported flows outs until.
Proof.
  intros Hnow Hboot Hf Hst Hs. destruct (send_netflow_v9_ok fuel now boot time flows exported st sent Hf Hst Hs)
    as (outs & [t4 t6 until] & E & Hx & [H4 H6 _]). cbn [v4_template v6_template] in H4, H6. subst t4 t6.
  exists outs, until. split; [exact E|].
  apply (exported9_ok now boot Hnow Hboot) in Hx; [|by apply static_started_ok|by apply (Forall_impl _ _ _ Hs), sd_ok].
  rewrite started_until in Hx by done. exact Hx.
Qed.

(** ** An example *)

(** The flow of Send5, and one of IPv6 with traffic one way. *)
Definition sample_FLOW6 : FLOW :=
  Mk_FLOW (Some 2%positive) AF_INET6 (0, 0) (replicate 16 1, replicate 16 2)
    (htons 53, htons 1234) (0, 0) 17 8 (1000, 500000) (1010, 250000) (5000, 0) (10, 0)
    (replicate 50 (Mk_PER_MONITOR_STAT 0 0), replicate 50 (Mk_PER_MONITOR_STAT 0 0))
    (replicate 50 0, replicate 50 0) 0 0 (0, 0) (3, 4) (4, 3).
Definition sample_flows9 : list FLOW := replicate 5 sample_FLOW ++ replicate 9 sample_FLOW6 ++ [sample_FLOW].

Lemma sample_FLOW6_ok : FLOW_ok sample_FLOW6.
Proof.
  constructor; unfold both2, timeval_ok; cbn [fst snd sample_FLOW6 f_addr f_port f_tcp_flags f_protocol f_flow_seq
    f_flow_start f_flow_last f_octets f_packets f_monitor_stat f_emulator_monitor_adr f_selected_monitor
    f_selected_monitor_index f_number_of_monitors f_as_src f_as_dst f_ip6_flowlabel];
    try (split; apply stats_none); apply (bool_decide_unpack _); vm_compute; exact I.
Qed.

Lemma samples_sendable : sendable sample_FLOW /\ sendable sample_FLOW6.
Proof.
  split; constructor; [apply sample_FLOW_ok|by left|done|apply sample_FLOW6_ok|by right|done].
Qed.

Lemma sample_flows9_sendable : Forall sendable sample_flows9.
Proof.
  destruct samples_sendable as [H4 H6]. unfold sample_flows9. apply Forall_app. split; [by apply Forall_replicate|].
  apply Forall_app. split; [by apply Forall_replicate|by constructor].
Qed.

Lemma send_netflow_v9_spec_witness :
  exists outs until,
    send_netflow_v9 15 (1020, 0) (fun k => 1020 + Z.of_nat k) sample_flows9 5 (900, 0) (Mk_net9 nf9_static_init [] []) =
      Ret (swrap32 (Z.of_nat (length outs)), wrap64 (5 + wrap32 15),
           Mk_net9 (Mk_nf9_static template4 template6 until) [] ([] ++ outs)) /\
    packets9 (1020, 0) (900, 0) (fun k => 1020 + Z.of_nat k) 0 5 sample_flows9 outs until.
Proof.
  apply (send_netflow_v9_spec 15 (1020, 0) (900, 0) (fun k => 1020 + Z.of_nat k) sample_flows9 5 nf9_static_init []).
  - unfold timeval_ok. cbn. lia.
  - unfold timeval_ok. cbn. lia.
  - apply Nat.leb_le. vm_compute. reflexivity.
  - by left.
  - apply sample_flows9_sendable.
Defined.

(** Three packets, with the seconds of three calls of time. *)
Example sample_packets9 :
  match send_netflow_v9 15 (1020, 0) (fun k => 1020 + Z.of_nat k) sample_flows9 5 (900, 0) (Mk_net9 nf9_static_init [] []) with
  | Ret (r, exported, net) =>
      r = Z.of_nat (length (n9_sent net)) /\ exported = 20 /\ nf9_pkts_until_template (n9_static net) = 16 - r /\
      (fun p => take 4 (drop 8 p)) <$> n9_sent net = [be32 1020; be32 1021; be32 1022]
  | _ => False
  end.
Proof. vm_compute. done. Qed.
