(* ===== verification/CString.v ===== *)
(** * C strings and messages of parts

    The functions of string.h and stdlib.h that the programs use, on arrays of
    bytes: a pointer into an array is an offset, and a function that runs past
    the end of the array is out of bounds.  The parts of a message between the
    separators '#' are taken out by get_emulator_packet_part
    (EmulatorInterface.c) and get_control_packet_part (ControlServer.c), which
    are the same function but for the number of parts. *)

From S2P Require Import Prelude.

(** ** string.h *)

(** The bytes before the terminator. *)
Fixpoint cstr (m : bytes) : outcome bytes :=
  match m with
  | [] => Undef OutOfBounds
  | c :: m => if c =? 0 then Ret [] else let! s := cstr m in Ret (c :: s)
  end.

(** The index of the first [c] before the terminator. *)
Fixpoint scan (c : Z) (m : bytes) : outcome (option Z) :=
  match m with
  | [] => Undef OutOfBounds
  | x :: m =>
      if x =? c then Ret (Some 0)
      else if x =? 0 then Ret None
      else let! r := scan c m in Ret (Z.succ <$> r)
  end.

(** The bytes of the array from an offset on. *)
Definition from_off (m : bytes) (off : Z) : outcome bytes :=
  if (0 <=? off) && (off <=? Z.of_nat (length m)) then Ret (drop (Z.to_nat off) m) else Undef OutOfBounds.

Definition strchr (m : bytes) (off c : Z) : outcome (option Z) :=
  let! s := from_off m off in let! r := scan c s in Ret (Z.add off <$> r).

(** The [n] bytes that strncpy writes. *)
Fixpoint strn (n : nat) (m : bytes) : outcome bytes :=
  match n with
  | O => Ret []
  | S n =>
      match m with
      | [] => Undef OutOfBounds
      | c :: m => if c =? 0 then Ret (replicate (S n) 0) else let! s := strn n m in Ret (c :: s)
      end
  end.

(** A negative [n] is a huge size_t. *)
Definition strncpy (dst m : bytes) (off n : Z) : outcome bytes :=
  if n <? 0 then Undef OutOfBounds
  else let! s := from_off m off in let! b := strn (Z.to_nat n) s in wr dst 0 b.

Definition strcpy (dst m : bytes) : outcome bytes := let! s := cstr m in wr dst 0 (s ++ [0]).

Fixpoint strcmp (a b : bytes) : outcome Z :=
  match a, b with
  | x :: a, y :: b =>
      if x =? y then (if x =? 0 then Ret 0 else strcmp a b) else Ret (if y <? x then 1 else -1)
  | _, _ => Undef OutOfBounds
  end.

(** ** stdlib.h *)

Definition isspace (c : Z) : bool := (c =? 32) || (9 <=? c) && (c <=? 13).
Definition isdigit (c : Z) : bool := (48 <=? c) && (c <=? 57).

Definition LONG_MAX : Z := 9223372036854775807.
Definition LONG_MIN : Z := -9223372036854775808.

(** White space at the start: how much. *)
Fixpoint spaces (m : bytes) : outcome nat :=
  match m with
  | [] => Undef OutOfBounds
  | c :: m => if isspace c then let! n := spaces m in Ret (S n) else Ret O
  end.

(** Digits at the start: the number they continue [v] to, and how many. *)
Fixpoint digits (v : Z) (m : bytes) : outcome (Z * nat) :=
  match m with
  | [] => Undef OutOfBounds
  | c :: m =>
      if isdigit c then let! (v, n) := digits (10 * v + (c - 48)) m in Ret (v, S n) else Ret (v, O)
  end.

(** strtol in base 10: the value, the number of bytes read and whether it is out
    of range. *)
Definition strtol (m : bytes) : outcome (Z * nat * bool) :=
  let! k := spaces m in
  let! (neg, k') :=
    match drop k m with
    | [] => Undef OutOfBounds
    | c :: _ => Ret (c =? 45, if (c =? 45) || (c =? 43) then S k else k)
    end in
  let! (v, n) := digits 0 (drop k' m) in
  match n with
  | O => Ret (0, O, false)
  | _ =>
      let v := if neg : bool then - v else v in
      if LONG_MAX <? v then Ret (LONG_MAX, (k' + n)%nat, true)
      else if v <? LONG_MIN then Ret (LONG_MIN, (k' + n)%nat, true)
      else Ret (v, (k' + n)%nat, false)
  end.

Definition atoi (m : bytes) : outcome Z := let! (v, _, _) := strtol m in Ret (swrap32 v).

(** ** Parts of a message *)

Definition sep : Z := 35.

(** Where the loop over the separators ends: in the last part, before the part,
    or with the positions around it. *)
Inductive located :=
  | LastPart (prev_sep_position : Z)
  | NoPart
  | Between (prev_sep_position sep_position : Z).

(** [n] turns are left. *)
Fixpoint part_loop (last : nat) (m : bytes) (n i : nat) (prev_sep_position sep_position : Z) : outcome located :=
  match n with
  | O => Ret (Between prev_sep_position sep_position)
  | S n =>
      let prev_sep_position := sep_position in
      if (i =? last)%nat then Ret (LastPart prev_sep_position)
      else
        let! r := strchr m (prev_sep_position + 1) sep in
        match r with
        | None => Ret NoPart
        | Some sep_position => part_loop last m n (S i) prev_sep_position sep_position
        end
  end.

(** The result and the array the part is copied to; [last] is the number of the
    last part. *)
Definition get_packet_part (last : nat) (m : bytes) (part_number : nat) (dst : bytes) : outcome (Z * bytes) :=
  if (part_number <=? last)%nat then
    if (part_number =? 0)%nat then
      let! r := strchr m 0 sep in
      match r with
      | None => Undef NullDeref
      | Some s => let! dst := strncpy dst m 0 s in Ret (0, dst)
      end
    else
      let! l := part_loop last m (S part_number) 0 0 0 in
      match l with
      | LastPart p =>
          let! s := cstr m in
          let! dst := strncpy dst m (p + 1) (Z.of_nat (length s) - p - 1) in Ret (0, dst)
      | NoPart => Ret (-1, dst)
      | Between p s => let! dst := strncpy dst m (p + 1) (s - p - 1) in Ret (0, dst)
      end
  else Ret (-1, dst).

Definition MAX_EMULATOR_MESSAGE_PARTS : nat := 14%nat.
Definition MAX_CONTROL_MESSAGE_PARTS : nat := 3%nat.
Definition get_emulator_packet_part := get_packet_part MAX_EMULATOR_MESSAGE_PARTS.
Definition get_control_packet_part := get_packet_part (MAX_CONTROL_MESSAGE_PARTS - 1).

(** ** Properties *)

(** Bytes of a string, and of a part. *)
Definition text (s : bytes) : Prop := Forall (fun c => c <> 0) s.
Definition part (s : bytes) : Prop := Forall (fun c => c <> 0 /\ c <> sep) s.

Lemma part_text s : part s -> text s.
Proof. intros H. eapply Forall_impl; [exact H|]. by intros c [? _]. Qed.

Lemma cstr_app s r : text s -> cstr (s ++ 0 :: r) = Ret s.
Proof.
  induction 1 as [|c s Hc _ IH]; [done|]. cbn. rewrite (proj2 (Z.eqb_neq _ _)) by done. by rewrite IH.
Qed.

Lemma scan_app s r : part s -> scan sep (s ++ sep :: r) = Ret (Some (Z.of_nat (length s))).
Proof.
  induction 1 as [|c s [H0 Hs] _ IH]; [done|]. cbn [app scan length].
  rewrite !(proj2 (Z.eqb_neq _ _)) by done. rewrite IH. cbn. do 2 f_equal. lia.
Qed.

Lemma scan_none s r : part s -> scan sep (s ++ 0 :: r) = Ret None.
Proof.
  induction 1 as [|c s [H0 Hs] _ IH]; [done|]. cbn [app scan]. rewrite !(proj2 (Z.eqb_neq _ _)) by done. by rewrite IH.
Qed.

Lemma from_off_app p r : from_off (p ++ r) (Z.of_nat (length p)) = Ret r.
Proof.
  unfold from_off. rewrite (proj2 (Z.leb_le _ _)), (proj2 (Z.leb_le _ _)) by (rewrite ?length_app; lia).
  cbn [andb]. by rewrite Nat2Z.id, drop_app_length.
Qed.

Lemma strchr_app p s r off : part s -> off = Z.of_nat (length p) ->
  strchr (p ++ s ++ sep :: r) off sep = Ret (Some (off + Z.of_nat (length s))).
Proof. intros Hs ->. unfold strchr. rewrite from_off_app. cbn [obind]. by rewrite scan_app. Qed.

Lemma strchr_none p s r off : part s -> off = Z.of_nat (length p) -> strchr (p ++ s ++ 0 :: r) off sep = Ret None.
Proof. intros Hs ->. unfold strchr. rewrite from_off_app. cbn [obind]. by rewrite scan_none. Qed.

Lemma strn_app s r : text s -> strn (length s) (s ++ r) = Ret s.
Proof.
  induction 1 as [|c s Hc _ IH]; [done|]. cbn. rewrite (proj2 (Z.eqb_neq _ _)) by done. by rewrite IH.
Qed.

Lemma strncpy_app dst p s r off n : text s -> off = Z.of_nat (length p) -> n = Z.of_nat (length s) ->
  (length s <= length dst)%nat -> strncpy dst (p ++ s ++ r) off n = Ret (s ++ drop (length s) dst).
Proof.
  intros Hs -> -> Hl. unfold strncpy. rewrite (proj2 (Z.ltb_ge _ _)) by lia.
  rewrite from_off_app. cbn [obind]. rewrite Nat2Z.id, strn_app by done. cbn [obind].
  rewrite <- (take_drop (length s) dst) at 1. apply wr_head. rewrite length_take. lia.
Qed.

(** Different strings. *)
Lemma strcmp_ne a b : text a -> text b -> a <> b -> forall j j',
  exists r, strcmp (a ++ 0 :: j) (b ++ 0 :: j') = Ret r /\ r <> 0.
Proof.
  revert b. induction a as [|x a IH]; intros b Ha Hb Hne j j'.
  - destruct b as [|y b]; [done|]. apply Forall_cons in Hb as [Hy _]. cbn [app strcmp].
    rewrite (proj2 (Z.eqb_neq 0 y)) by done. eexists. split; [reflexivity|]. by destruct (y <? 0).
  - apply Forall_cons in Ha as [Hx Ha]. destruct b as [|y b].
    { cbn [app strcmp]. rewrite (proj2 (Z.eqb_neq x 0)) by done. eexists. split; [reflexivity|]. by destruct (0 <? x). }
    apply Forall_cons in Hb as [Hy Hb]. cbn [app strcmp]. destruct (Z.eqb_spec x y) as [<-|].
    + rewrite (proj2 (Z.eqb_neq x 0)) by done. apply IH; [done|done|congruence].
    + eexists. split; [reflexivity|]. by destruct (y <? x).
Qed.

(** The first parts of a message, each with its separator. *)
Definition seps (ps : list bytes) : bytes := concat ((fun p => p ++ [sep]) <$> ps).

Lemma seps_cons p ps r : seps (p :: ps) ++ r = p ++ sep :: seps ps ++ r.
Proof. unfold seps. cbn. by rewrite <- !app_assoc. Qed.
Lemma seps_snoc ps p : seps (ps ++ [p]) = seps ps ++ p ++ [sep].
Proof. unfold seps. rewrite fmap_app, concat_app. cbn. by rewrite app_nil_r. Qed.
Lemma seps_text ps : Forall part ps -> text (seps ps).
Proof.
  induction 1 as [|p ps Hp _ IH]; [constructor|]. unfold seps in *. cbn.
  repeat (apply Forall_app; split); [by apply part_text|by repeat constructor|done].
Qed.

(** One turn of the loop, from a separator to the next. *)
Lemma part_loop_step last pre p r n i prev s : part p -> s = Z.of_nat (length pre) -> i <> last ->
  part_loop last (pre ++ sep :: p ++ sep :: r) (S n) i prev s =
    part_loop last (pre ++ sep :: p ++ sep :: r) n (S i) s (s + 1 + Z.of_nat (length p)).
Proof.
  intros Hp Hs Hi. cbn [part_loop]. rewrite (proj2 (Nat.eqb_neq _ _)) by done.
  rewrite (cons_middle sep pre), app_assoc at 1. rewrite strchr_app by (done || rewrite length_app; cbn; lia). done.
Qed.

Lemma part_loop_skip last ps : Forall part ps -> forall pre r n i prev s,
  s = Z.of_nat (length pre) -> (i + length ps <= last)%nat ->
  exists prev', part_loop last (pre ++ sep :: seps ps ++ r) (length ps + n) i prev s =
    part_loop last (pre ++ sep :: seps ps ++ r) n (i + length ps) prev' (s + Z.of_nat (length (seps ps))).
Proof.
  induction 1 as [|p ps Hp _ IH]; intros pre r n i prev s Hs Hi.
  { exists prev. cbn [length Nat.add]. rewrite Nat.add_0_r, Z.add_0_r. done. }
  cbn [length] in *. rewrite seps_cons. cbn [Nat.add]. rewrite part_loop_step by (done || lia).
  assert (pre ++ sep :: p ++ sep :: seps ps ++ r = (pre ++ sep :: p) ++ sep :: seps ps ++ r) as -> by (by rewrite <- app_assoc).
  destruct (IH (pre ++ sep :: p) r n (S i) s (s + 1 + Z.of_nat (length p))) as (prev' & ->);
    [rewrite length_app; cbn; lia|lia|].
  exists prev'. f_equal; [lia|]. rewrite <- (app_nil_r (seps (p :: ps))), seps_cons, app_nil_r, length_app. cbn [length]. lia.
Qed.

(** The message: its first part is not empty when others are asked for, since the
    search for the second separator starts behind the first byte. *)
Lemma first_turn last p0 r n : part p0 -> p0 <> [] -> last <> 0%nat ->
  part_loop last (p0 ++ sep :: r) (S n) 0 0 0 = part_loop last (p0 ++ sep :: r) n 1 0 (Z.of_nat (length p0)).
Proof.
  intros Hp Hne Hl. destruct p0 as [|c p0]; [done|]. cbn [part_loop]. destruct last as [|last]; [done|]. cbn [Nat.eqb].
  apply Forall_cons in Hp as [_ Hp]. change ((c :: p0) ++ sep :: r) with ([c] ++ p0 ++ sep :: r) at 1.
  rewrite strchr_app by done. cbn [obind length]. f_equal. lia.
Qed.

(** A part that is not the last one. *)
Lemma get_part_between last p0 ps p r dst : part p0 -> p0 <> [] -> Forall part ps -> part p ->
  (S (length ps) < last)%nat -> (length p <= length dst)%nat ->
  get_packet_part last (p0 ++ sep :: seps ps ++ p ++ sep :: r) (S (length ps)) dst =
    Ret (0, p ++ drop (length p) dst).
Proof.
  intros Hp0 Hne Hps Hp Hl Hd. unfold get_packet_part. rewrite (proj2 (Nat.leb_le _ _)) by lia. cbn [Nat.eqb].
  rewrite first_turn by (done || lia). rewrite <- (Nat.add_1_r (length ps)).
  destruct (part_loop_skip last ps Hps p0 (p ++ sep :: r) 1 1 0 (Z.of_nat (length p0))) as (prev' & ->); [done|lia|].
  assert (p0 ++ sep :: seps ps ++ p ++ sep :: r =
    (p0 ++ sep :: seps ps) ++ p ++ sep :: r) as E by (by rewrite <- app_assoc).
  assert (Z.of_nat (length p0) + Z.of_nat (length (seps ps)) + 1 = Z.of_nat (length (p0 ++ sep :: seps ps))) as Ho.
  { rewrite length_app. cbn [length]. lia. }
  cbn [part_loop]. rewrite (proj2 (Nat.eqb_neq _ _)) by lia. rewrite E, strchr_app by done. cbn [obind part_loop].
  rewrite (strncpy_app dst (p0 ++ sep :: seps ps) p); [done|by apply part_text|done|lia|done].
Qed.

(** The first part. *)
Lemma get_part_first last p0 r dst : part p0 -> (length p0 <= length dst)%nat ->
  get_packet_part last (p0 ++ sep :: r) 0 dst = Ret (0, p0 ++ drop (length p0) dst).
Proof.
  intros Hp Hd. unfold get_packet_part. change ((0 <=? last)%nat) with true. cbn [Nat.eqb].
  change (p0 ++ sep :: r) with ([] ++ p0 ++ sep :: r). rewrite strchr_app by done. cbn [obind].
  rewrite (strncpy_app dst [] p0); [done|by apply part_text|done|lia|done].
Qed.

(** The last part: all the rest of the string. *)
Lemma get_part_last last p0 ps t junk dst : part p0 -> p0 <> [] -> Forall part ps -> text t ->
  last = S (length ps) -> (length t <= length dst)%nat ->
  get_packet_part last (p0 ++ sep :: seps ps ++ t ++ 0 :: junk) last dst = Ret (0, t ++ drop (length t) dst).
Proof.
  intros Hp0 Hne Hps Ht -> Hd. unfold get_packet_part. rewrite Nat.leb_refl. cbn [Nat.eqb].
  rewrite first_turn by done. rewrite <- (Nat.add_1_r (length ps)) at 2.
  destruct (part_loop_skip (S (length ps)) ps Hps p0 (t ++ 0 :: junk) 1 1 0 (Z.of_nat (length p0))) as (prev' & ->); [done|lia|].
  cbn [part_loop]. rewrite (proj2 (Nat.eqb_eq _ _)) by lia.
  assert (p0 ++ sep :: seps ps ++ t ++ 0 :: junk = (p0 ++ sep :: seps ps ++ t) ++ 0 :: junk) as E by (by rewrite <- !app_assoc; cbn; rewrite <- !app_assoc).
  assert (p0 ++ sep :: seps ps ++ t ++ 0 :: junk = (p0 ++ sep :: seps ps) ++ t ++ 0 :: junk) as E' by (by rewrite <- app_assoc).
  cbn [obind]. rewrite E, cstr_app.
  2:{ apply Forall_app. split; [by apply part_text|]. constructor; [done|]. apply Forall_app. split; [by apply seps_text|done]. }
  cbn [obind]. rewrite <- E, E'.
  rewrite (strncpy_app dst (p0 ++ sep :: seps ps) t); [done|done| | |done]; rewrite ?length_app; cbn [length]; rewrite ?length_app; lia.
Qed.

(** A part that is missing: too few separators. *)
Lemma get_part_missing last p0 ps t junk k dst : part p0 -> p0 <> [] -> Forall part ps -> part t ->
  (S (length ps) <= k)%nat -> (S (length ps) < last)%nat ->
  get_packet_part last (p0 ++ sep :: seps ps ++ t ++ 0 :: junk) k dst = Ret (-1, dst).
Proof.
  intros Hp0 Hne Hps Ht Hk Hl. unfold get_packet_part. destruct (Nat.leb_spec k last); [|done].
  rewrite (proj2 (Nat.eqb_neq k 0)) by lia. rewrite first_turn by (done || lia).
  replace k with (length ps + S (k - S (length ps)))%nat by lia.
  destruct (part_loop_skip last ps Hps p0 (t ++ 0 :: junk) (S (k - S (length ps))) 1 0 (Z.of_nat (length p0))) as (prev' & ->); [done|lia|].
  assert (p0 ++ sep :: seps ps ++ t ++ 0 :: junk = (p0 ++ sep :: seps ps) ++ t ++ 0 :: junk) as -> by (by rewrite <- app_assoc).
  cbn [part_loop]. rewrite (proj2 (Nat.eqb_neq _ _)) by lia.
  rewrite strchr_none; [done|done|]. rewrite length_app. cbn [length]. lia.
Qed.

(** A message with all its parts: each one is found. *)
Lemma get_part_ok last ps t junk k p dst : Forall part ps -> text t -> length ps = last ->
  match ps with [] => False | p0 :: _ => p0 <> [] end ->
  (ps ++ [t]) !! k = Some p -> (length p <= length dst)%nat ->
  get_packet_part last (seps ps ++ t ++ 0 :: junk) k dst = Ret (0, p ++ drop (length p) dst).
Proof.
  intros Hps Ht Hlast Hne Hk Hd. destruct ps as [|p0 ps]; [done|]. apply Forall_cons in Hps as [Hp0 Hps].
  rewrite seps_cons. cbn [length] in Hlast.
  destruct k as [|k]; [injection Hk as <-; by apply get_part_first|].
  change ((ps ++ [t]) !! k = Some p) in Hk. destruct (decide (k < length ps)%nat) as [Hlt|Hge].
  - rewrite lookup_app_l in Hk by done. destruct (list_elem_of_split_length ps k p Hk) as (ps1 & ps2 & -> & Hl).
    apply Forall_app in Hps as [Hps1 Hps2]. apply Forall_cons in Hps2 as [Hp _].
    rewrite length_app in Hlast. cbn [length] in Hlast.
    assert (seps (ps1 ++ p :: ps2) ++ t ++ 0 :: junk = seps ps1 ++ p ++ sep :: seps ps2 ++ t ++ 0 :: junk) as ->.
    { rewrite (cons_middle p ps1), app_assoc. unfold seps. rewrite !fmap_app, !concat_app. cbn. by rewrite app_nil_r, <- !app_assoc. }
    rewrite Hl. apply get_part_between; [done..|lia|done].
  - assert (k = length ps /\ p = t) as [-> ->].
    { rewrite lookup_app_r in Hk by lia. destruct (k - length ps)%nat eqn:E; [|done]. injection Hk as <-. split; [lia|done]. }
    rewrite Hlast. by apply get_part_last.
Qed.

(** ** Numbers *)

(** The number that some digits stand for. *)
Definition dec (s : bytes) : Z := foldl (fun v c => 10 * v + (c - 48)) 0 s.

Lemma digits_app s c r v : Forall (fun c => isdigit c = true) s -> isdigit c = false ->
  digits v (s ++ c :: r) = Ret (foldl (fun v c => 10 * v + (c - 48)) v s, length s).
Proof.
  intros Hs Hc. revert v. induction Hs as [|d s Hd _ IH]; intros v; cbn; [by rewrite Hc|].
  by rewrite Hd, IH.
Qed.

Lemma isdigit_not c : isdigit c = true -> isspace c = false /\ (c =? 45) = false /\ (c =? 43) = false.
Proof.
  unfold isdigit, isspace. intros [H1 H2]%andb_true_iff.
  split; [|split; lia]. apply orb_false_iff. split; [lia|]. apply andb_false_iff. lia.
Qed.

Lemma dec_nonneg s v : Forall (fun c => isdigit c = true) s -> 0 <= v ->
  0 <= foldl (fun v c => 10 * v + (c - 48)) v s.
Proof.
  intros Hs. revert v. induction Hs as [|d s Hd _ IH]; intros v Hv; [done|]. cbn. apply IH.
  unfold isdigit in Hd. lia.
Qed.

Lemma strtol_digits s c r : s <> [] -> Forall (fun c => isdigit c = true) s -> isdigit c = false ->
  strtol (s ++ c :: r) =
    if LONG_MAX <? dec s then Ret (LONG_MAX, length s, true) else Ret (dec s, length s, false).
Proof.
  intros Hne Hs Hc. destruct s as [|d s]; [done|]. pose proof Hs as Hd. apply Forall_cons in Hd as [Hd _].
  destruct (isdigit_not d Hd) as (H1 & H2 & H3). unfold strtol. cbn [app spaces]. rewrite H1. cbn [obind drop].
  rewrite H2, H3. cbn [orb obind drop]. change (d :: s ++ c :: r) with ((d :: s) ++ c :: r).
  rewrite digits_app by done. cbn [obind length]. fold (dec (d :: s)).
  pose proof (dec_nonneg (d :: s) 0 Hs ltac:(done)) as H0. fold (dec (d :: s)) in H0.
  destruct (LONG_MAX <? dec (d :: s)); [done|]. unfold LONG_MIN. by rewrite (proj2 (Z.ltb_ge _ _)) by lia.
Qed.

Lemma atoi_digits s c r : s <> [] -> Forall (fun c => isdigit c = true) s -> isdigit c = false ->
  dec s < 2147483648 -> atoi (s ++ c :: r) = Ret (dec s).
Proof.
  intros Hne Hs Hc Hd. unfold atoi. rewrite strtol_digits by done.
  pose proof (dec_nonneg s 0 Hs ltac:(done)) as H0. fold (dec s) in H0.
  unfold LONG_MAX. rewrite (proj2 (Z.ltb_ge _ _)) by lia. cbn [obind]. f_equal. width.
  rewrite Z.mod_small by lia. lia.
Qed.
