(* ===== verification/Sampling.v ===== *)
(** * Packet sampling (src/softflowd/SamplingModule.c)

    The list of sampling nodes, one per monitor, and the decision whether a
    packet of a monitor is taken.  A pointer to a node is its position in the
    list, which only grows.  The parameter [rand] is the sequence of the results
    of rand(); allocation is taken to succeed, but for a negative size. *)

From S2P Require Import Prelude CString.

Record SamplingNode := Mk_SamplingNode {
  samplingRateP1 : Z;
  samplingRateP2 : Z;
  samplingRateChanged : Z;
  samplingRateAxis : Z;
  ipAddr : bytes;                  (* the string in it *)
  samplingTab : option (list Z);
  sem : Z                          (* the value of the semaphore *)
}.

(** Assignments to members. *)
Definition set_rates (p1 p2 : Z) (n : SamplingNode) : SamplingNode :=
  Mk_SamplingNode p1 p2 1 (samplingRateAxis n) (ipAddr n) (samplingTab n) (sem n).
Definition set_axis (v : Z) (n : SamplingNode) : SamplingNode :=
  Mk_SamplingNode (samplingRateP1 n) (samplingRateP2 n) (samplingRateChanged n) v (ipAddr n) (samplingTab n) (sem n).
Definition set_tab (v : option (list Z)) (n : SamplingNode) : SamplingNode :=
  Mk_SamplingNode (samplingRateP1 n) (samplingRateP2 n) (samplingRateChanged n) (samplingRateAxis n) (ipAddr n) v (sem n).
Definition set_changed (v : Z) (n : SamplingNode) : SamplingNode :=
  Mk_SamplingNode (samplingRateP1 n) (samplingRateP2 n) v (samplingRateAxis n) (ipAddr n) (samplingTab n) (sem n).
Definition set_sem (v : Z) (n : SamplingNode) : SamplingNode :=
  Mk_SamplingNode (samplingRateP1 n) (samplingRateP2 n) (samplingRateChanged n) (samplingRateAxis n) (ipAddr n) (samplingTab n) v.

(** listNodes, and how many random numbers have been drawn. *)
Record sampling := Mk_sampling {
  listNodes : list SamplingNode;
  draws : nat
}.

(** ** Semaphores

    A wait on a semaphore that nobody posts does not come back. *)
Definition sem_wait (n : SamplingNode) : outcome SamplingNode :=
  if 0 <? sem n then Ret (set_sem (sem n - 1) n) else Diverges.
Definition sem_post (n : SamplingNode) : SamplingNode := set_sem (sem n + 1) n.

(** ** The list of nodes *)

(** strcpy to an array of 16 characters. *)
Definition check16 (ip : bytes) : outcome bytes :=
  if (length ip <? 16)%nat then Ret ip else Undef OutOfBounds.

Definition AddNode (ip : bytes) (s : sampling) : outcome (nat * sampling) :=
  let! tmpIp := check16 ip in
  Ret (length (listNodes s), Mk_sampling (listNodes s ++ [Mk_SamplingNode 100 100 1 0 tmpIp None 1]) (draws s)).

Fixpoint find_node (ip : bytes) (l : list SamplingNode) : option nat :=
  match l with
  | [] => None
  | n :: l => if decide (ipAddr n = ip) then Some O else S <$> find_node ip l
  end.

Definition FindSamplingNode (ip : bytes) (s : sampling) : outcome (option nat) :=
  let! tmpIp := check16 ip in Ret (find_node tmpIp (listNodes s)).

Definition GetSamplingNode (ip : bytes) (s : sampling) : outcome (nat * sampling) :=
  let! tmpIp := check16 ip in
  match find_node tmpIp (listNodes s) with
  | Some i => Ret (i, s)
  | None => AddNode tmpIp s
  end.

Definition FreeListNodes (s : sampling) : sampling := Mk_sampling [] (draws s).

Definition node_get (s : sampling) (i : nat) : outcome SamplingNode :=
  match listNodes s !! i with Some n => Ret n | None => Undef NullDeref end.
Definition node_put (i : nat) (n : SamplingNode) (s : sampling) : sampling :=
  Mk_sampling (<[i := n]> (listNodes s)) (draws s).

Definition ChangeSamplingRateInNode (newSamplingRateP1 newSamplingRateP2 : Z) (ip : bytes) (s : sampling)
    : outcome (Z * sampling) :=
  let! tmpIp := check16 ip in
  let! r := FindSamplingNode tmpIp s in
  match r with
  | Some i =>
      let! n := node_get s i in
      let! n := sem_wait n in
      Ret (0, node_put i (sem_post (set_rates newSamplingRateP1 newSamplingRateP2 n)) s)
  | None => Ret (1, s)
  end.

(** ** The decision *)

Section sampling.
Context (rand : nat -> Z).

(** Reading and writing samplingTab[i]. *)
Definition tab_get (n : SamplingNode) (i : Z) : outcome Z :=
  match samplingTab n with
  | None => Undef NullDeref
  | Some t =>
      if i <? 0 then Undef OutOfBounds
      else match t !! Z.to_nat i with Some v => Ret v | None => Undef OutOfBounds end
  end.
Definition tab_set (n : SamplingNode) (i v : Z) : outcome SamplingNode :=
  match samplingTab n with
  | None => Undef NullDeref
  | Some t =>
      if (0 <=? i) && (i <? Z.of_nat (length t)) then Ret (set_tab (Some (<[Z.to_nat i := v]> t)) n)
      else Undef OutOfBounds
  end.

(** The result is the node and the number of draws.  What the allocated table
    holds before it is filled is never read. *)
Definition GenerateRandomChoicesForNode (n : SamplingNode) (k : nat) : outcome (SamplingNode * nat) :=
  let n :=
    if samplingRateChanged n =? 1 then
      let t := if samplingRateP2 n <? 0 then None else Some (replicate (Z.to_nat (samplingRateP2 n)) 0) in
      set_changed 0 (set_tab t n)
    else n in
  let! n := ofold (fun n i => tab_set n (Z.of_nat i) 0) n (seq 0 (Z.to_nat (samplingRateP2 n))) in
  let! n := ofold (fun n i => if samplingRateP2 n =? 0 then Undef DivByZero
                              else tab_set n (rand (k + i) mod samplingRateP2 n) 1)
              n (seq 0 (Z.to_nat (samplingRateP1 n))) in
  Ret (n, (k + Z.to_nat (samplingRateP1 n))%nat).

Definition GetNodeSamplingRateStatus (n : SamplingNode) : outcome (Z * SamplingNode) :=
  let! n := sem_wait n in Ret (samplingRateChanged n, sem_post n).

Definition InitNodeSamplingRateStatus (n : SamplingNode) : outcome SamplingNode :=
  let! n := sem_wait n in Ret (sem_post (set_axis 0 n)).

(** The last block of RandomPeriodicNodeSampling: None when it falls off the end
    of the function, which leaves the semaphore taken. *)
Definition decide_block (n : SamplingNode) (k : nat) : outcome (option Z * SamplingNode * nat) :=
  let! n := sem_wait n in
  let p1 := samplingRateP1 n in
  let p2 := samplingRateP2 n in
  let axis := samplingRateAxis n in
  if p1 =? 0 then Ret (Some 0, sem_post n, k)
  else if p1 =? p2 then Ret (Some 1, sem_post n, k)
  else if p1 <? p2 then
    if axis =? 0 then
      let! (n, k) := GenerateRandomChoicesForNode n k in
      let! ret := tab_get n axis in
      Ret (Some ret, sem_post (set_axis (axis + 1) n), k)
    else if axis <? p2 - 1 then
      let! ret := tab_get n axis in Ret (Some ret, sem_post (set_axis (axis + 1) n), k)
    else if axis =? p2 - 1 then
      let! ret := tab_get n axis in Ret (Some ret, sem_post (set_axis 0 n), k)
    else Ret (None, n, k)
  else Ret (Some 0, sem_post n, k).

(** The decision, when no other thread changes the node meanwhile. *)
Definition RandomPeriodicNodeSampling (ip : bytes) (s : sampling) : outcome (Z * sampling) :=
  let! tmpIp := check16 ip in
  let! (i, s) := GetSamplingNode ip s in
  let! n := node_get s i in
  let! (status, n) := GetNodeSamplingRateStatus n in
  let! n := if status =? 1 then InitNodeSamplingRateStatus n else Ret n in
  let! (r, n, k) := decide_block n (draws s) in
  match r with
  | Some ret => Ret (ret, Mk_sampling (<[i := n]> (listNodes s)) k)
  | None => Undef MissingReturn
  end.

(** ** Interleaving with the control server

    The steps of a call on one node are its three blocks under the semaphore;
    the other thread may change the rates between them. *)

Inductive phase :=
  | Idle                         (* between calls *)
  | Checked (status : Z)         (* behind GetNodeSamplingRateStatus *)
  | Ready                        (* before the last block *)
  | Returned (r : option Z).     (* behind it *)

Record race := Mk_race { rc_phase : phase; rc_node : SamplingNode; rc_draws : nat }.

Inductive race_step (valid : Z -> Z -> Prop) : race -> race -> Prop :=
  | step_check n n' st k :
      GetNodeSamplingRateStatus n = Ret (st, n') ->
      race_step valid (Mk_race Idle n k) (Mk_race (Checked st) n' k)
  | step_init n n' k :
      InitNodeSamplingRateStatus n = Ret n' ->
      race_step valid (Mk_race (Checked 1) n k) (Mk_race Ready n' k)
  | step_no_init st n k :
      st <> 1 -> race_step valid (Mk_race (Checked st) n k) (Mk_race Ready n k)
  | step_decide n n' r k k' :
      decide_block n k = Ret (r, n', k') ->
      race_step valid (Mk_race Ready n k) (Mk_race (Returned r) n' k')
  | step_next r n k : race_step valid (Mk_race (Returned (Some r)) n k) (Mk_race Idle n k)
  | step_change ph n n' p1 p2 k :
      valid p1 p2 -> sem_wait n = Ret n' ->
      race_step valid (Mk_race ph n k) (Mk_race ph (sem_post (set_rates p1 p2 n')) k).

End sampling.
