(* ===== verification/SamplingProps.v ===== *)
(** * What the sampling of packets guarantees

    A node with the rate p1/p2 takes, of each p2 packets in turn, those whose
    number is among p1 random draws; and what can happen when the control server
    changes the rates during a decision. *)

From S2P Require Import Prelude CString Sampling.

(** ** The random choices *)

(** The table after the draws [ds]. *)
Definition marked (p2 : nat) (ds : list Z) : list Z := foldl (fun t d => <[Z.to_nat d := 1]> t) (replicate p2 0) ds.
Definition drawn (rand : nat -> Z) (p1 : nat) (p2 : Z) (k : nat) : list Z := (fun i => rand (k + i)%nat mod p2) <$> seq 0 p1.

(** How many packets a list of decisions takes. *)
Definition taken (t : list Z) : Z := foldr Z.add 0 t.

Lemma marked_snoc p2 ds d : marked p2 (ds ++ [d]) = <[Z.to_nat d := 1]> (marked p2 ds).
Proof. unfold marked. by rewrite foldl_app. Qed.

Lemma marked_length p2 ds : length (marked p2 ds) = p2.
Proof.
  induction ds as [|d ds IH] using rev_ind; [apply length_replicate|]. by rewrite marked_snoc, length_insert.
Qed.

Lemma marked_lookup p2 ds j : Forall (fun d => 0 <= d) ds -> (j < p2)%nat ->
  marked p2 ds !! j = Some (if decide (Z.of_nat j ∈ ds) then 1 else 0).
Proof.
  intros Hds Hj. induction ds as [|d ds IH] using rev_ind.
  { rewrite decide_False by apply not_elem_of_nil. by apply lookup_replicate_2. }
  apply Forall_app in Hds as [Hds [Hd _]%Forall_cons]. specialize (IH Hds). rewrite marked_snoc.
  destruct (decide (Z.to_nat d = j)) as [<-|Hne].
  - rewrite list_lookup_insert_eq by (by rewrite marked_length). rewrite decide_True; [done|].
    apply elem_of_app. right. apply list_elem_of_singleton. lia.
  - rewrite list_lookup_insert_ne, IH by done. do 2 f_equal.
    assert (Z.of_nat j ∈ ds ++ [d] <-> Z.of_nat j ∈ ds) as Hiff.
    { rewrite elem_of_app, list_elem_of_singleton. split; [intros [?|?]; [done|lia]|by left]. }
    by destruct (decide (Z.of_nat j ∈ ds)), (decide (Z.of_nat j ∈ ds ++ [d])); try tauto.
Qed.

Lemma taken_insert t i v : t !! i = Some v -> taken (<[i := 1]> t) = taken t + 1 - v.
Proof.
  revert i. induction t as [|x t IH]; intros [|i] Hi; try done.
  - injection Hi as ->. change (1 + taken t = v + taken t + 1 - v). lia.
  - change (x + taken (<[i := 1]> t) = x + taken t + 1 - v). rewrite (IH i) by done. lia.
Qed.

Definition bit (v : Z) : Prop := v = 0 \/ v = 1.

Lemma marked_taken p2 ds : Forall (fun d => 0 <= d < Z.of_nat p2) ds ->
  Forall bit (marked p2 ds) /\ (if decide (ds = []) then 0 else 1) <= taken (marked p2 ds) <= Z.of_nat (length ds).
Proof.
  induction ds as [|d ds IH] using rev_ind; intros Hds.
  { split; [apply Forall_replicate; by left|]. change (0 <= taken (replicate p2 0) <= 0).
    assert (taken (replicate p2 0) = 0) as ->; [|done].
    induction p2 as [|p2 IH]; [done|by apply IH]. }
  apply Forall_app in Hds as [Hds [Hd _]%Forall_cons]. destruct (IH Hds) as [Hb Ht]. rewrite marked_snoc.
  split; [apply Forall_insert; [done|by right]|].
  destruct (lookup_lt_is_Some_2 (marked p2 ds) (Z.to_nat d)) as [v Hv]; [rewrite marked_length; lia|].
  rewrite (taken_insert _ _ v) by done. rewrite decide_False by (by destruct ds). rewrite length_app. cbn [length].
  pose proof (Forall_lookup_1 _ _ _ _ Hb Hv) as [-> | ->]; [case_decide; lia|].
  assert (1 <= taken (marked p2 ds)); [|lia]. case_decide as Hds0; [|lia]. subst ds.
  unfold marked in Hv. cbn in Hv. by apply lookup_replicate in Hv as [? _].
Qed.

Lemma drawn_range rand p1 p2 k : 0 < p2 -> Forall (fun d => 0 <= d < p2) (drawn rand p1 p2 k).
Proof. intros Hp. apply Forall_fmap, Forall_forall. intros i _. cbn. by apply Z.mod_pos_bound. Qed.

(** ** GenerateRandomChoicesForNode *)

Lemma tab_set_ok n t i v : samplingTab n = Some t -> 0 <= i < Z.of_nat (length t) ->
  tab_set n i v = Ret (set_tab (Some (<[Z.to_nat i := v]> t)) n).
Proof. intros Ht [H1 H2]. unfold tab_set. by rewrite Ht, (proj2 (Z.leb_le _ _) H1), (proj2 (Z.ltb_lt _ _) H2). Qed.

Lemma zero_loop n t j m : samplingTab n = Some t -> length t = (j + m)%nat ->
  ofold (fun n i => tab_set n (Z.of_nat i) 0) n (seq j m) = Ret (set_tab (Some (take j t ++ replicate m 0)) n).
Proof.
  revert n t j. induction m as [|m IH]; intros n t j Ht Hl.
  { cbn. rewrite app_nil_r, take_ge by lia. by rewrite <- Ht; destruct n. }
  cbn [seq ofold]. rewrite (tab_set_ok n t), Nat2Z.id by (done || lia).
  cbn [obind]. rewrite (IH _ (<[j := 0]> t)) by (rewrite ?length_insert; done || lia).
  assert (take (S j) (<[j := 0]> t) ++ replicate m 0 = take j t ++ replicate (S m) 0) as ->; [|by destruct n].
  rewrite (take_S_r _ _ 0) by (apply list_lookup_insert_eq; lia). by rewrite take_insert_ge, <- app_assoc by done.
Qed.

Section sampling.
Context (rand : nat -> Z).

Lemma draw_loop n t p1 p2 k : samplingTab n = Some t -> samplingRateP2 n = p2 -> 0 < p2 -> Z.of_nat (length t) = p2 ->
  ofold (fun n i => if samplingRateP2 n =? 0 then Undef DivByZero
                    else tab_set n (rand (k + i)%nat mod samplingRateP2 n) 1) n (seq 0 p1) =
  Ret (set_tab (Some (foldl (fun t d => <[Z.to_nat d := 1]> t) t (drawn rand p1 p2 k))) n).
Proof.
  unfold drawn. generalize 0%nat as j. revert n t. induction p1 as [|p1 IH]; intros n t j Ht Hp Hpos Hl.
  { cbn. by rewrite <- Ht; destruct n. }
  cbn [seq ofold fmap list_fmap foldl]. rewrite Hp, (proj2 (Z.eqb_neq _ _)) by lia.
  pose proof (Z.mod_pos_bound (rand (k + j)%nat) p2 Hpos) as Hb.
  rewrite (tab_set_ok n t) by (done || lia). cbn [obind].
  rewrite (IH _ (<[Z.to_nat (rand (k + j)%nat mod p2) := 1]> t)) by (rewrite ?length_insert; done). by destruct n.
Qed.

(** The node in a period with the table [t], before its decision [axis]. *)
Definition in_period (n : SamplingNode) (t : list Z) (axis : Z) : SamplingNode :=
  Mk_SamplingNode (samplingRateP1 n) (samplingRateP2 n) 0 axis (ipAddr n) (Some t) (sem n).

(** A table can be filled: it is new, or of the right size. *)
Definition fillable (n : SamplingNode) : Prop :=
  samplingRateChanged n = 1 \/
  samplingRateChanged n = 0 /\ exists t, samplingTab n = Some t /\ Z.of_nat (length t) = samplingRateP2 n.

Definition choices (n : SamplingNode) (k : nat) : list Z :=
  marked (Z.to_nat (samplingRateP2 n)) (drawn rand (Z.to_nat (samplingRateP1 n)) (samplingRateP2 n) k).

Lemma generate_ok n k : 0 < samplingRateP2 n -> fillable n ->
  GenerateRandomChoicesForNode rand n k =
    Ret (in_period n (choices n k) (samplingRateAxis n), (k + Z.to_nat (samplingRateP1 n))%nat).
Proof.
  intros Hp2 Hf. unfold GenerateRandomChoicesForNode. cbv zeta.
  set (n1 := if samplingRateChanged n =? 1 then _ else n).
  assert (exists t, n1 = in_period n t (samplingRateAxis n) /\ Z.of_nat (length t) = samplingRateP2 n) as (t & -> & Hl).
  { unfold n1. destruct Hf as [Hc|(Hc & t & Ht & Hl)]; rewrite Hc; cbn [Z.eqb Pos.eqb].
    - rewrite (proj2 (Z.ltb_ge _ _)) by lia. eexists. split; [reflexivity|]. rewrite length_replicate. lia.
    - exists t. split; [|done]. unfold in_period. rewrite <- Ht. destruct n; cbn in *. congruence. }
  rewrite (zero_loop (in_period n t (samplingRateAxis n)) t 0) by (done || cbn; lia). cbn [obind take app].
  erewrite (draw_loop _ _ _ (samplingRateP2 n)); [|reflexivity|done|done|].
  2:{ cbn [in_period samplingRateP2]. rewrite length_app, length_replicate. rewrite take_0. cbn [length]. lia. }
  done.
Qed.

(** ** The decisions of one period *)

Lemma tab_get_ok n t i v : samplingTab n = Some t -> t !! i = Some v -> tab_get n (Z.of_nat i) = Ret v.
Proof. intros Ht Hi. unfold tab_get. by rewrite Ht, (proj2 (Z.ltb_ge _ _)), Nat2Z.id, Hi by lia. Qed.

(** A rate that takes some of the packets. *)
Definition partial (n : SamplingNode) : Prop := 0 < samplingRateP1 n < samplingRateP2 n.

Lemma decide_partial n k : sem n = 1 -> partial n ->
  decide_block rand n k =
    (let n := set_sem 0 n in
     let axis := samplingRateAxis n in
     if axis =? 0 then
       let! (n, k) := GenerateRandomChoicesForNode rand n k in
       let! ret := tab_get n axis in
       Ret (Some ret, sem_post (set_axis (axis + 1) n), k)
     else if axis <? samplingRateP2 n - 1 then
       let! ret := tab_get n axis in Ret (Some ret, sem_post (set_axis (axis + 1) n), k)
     else if axis =? samplingRateP2 n - 1 then
       let! ret := tab_get n axis in Ret (Some ret, sem_post (set_axis 0 n), k)
     else Ret (None, n, k)).
Proof.
  intros Hs [H1 H2]. unfold decide_block, sem_wait. rewrite Hs. cbn [obind Z.ltb Z.compare Z.sub Z.add Z.opp Z.pos_sub].
  cbn [set_sem samplingRateP1 samplingRateP2 samplingRateAxis].
  by rewrite !(proj2 (Z.eqb_neq _ _)), (proj2 (Z.ltb_lt _ _)) by lia.
Qed.

Lemma decide_first n k : sem n = 1 -> partial n -> fillable n -> samplingRateAxis n = 0 ->
  exists v, choices n k !! 0%nat = Some v /\
    decide_block rand n k = Ret (Some v, in_period n (choices n k) 1, (k + Z.to_nat (samplingRateP1 n))%nat).
Proof.
  intros Hs Hp Hf Ha. rewrite decide_partial by done. cbv zeta. change (samplingRateAxis (set_sem 0 n)) with (samplingRateAxis n).
  rewrite Ha. cbn [Z.eqb]. pose proof Hp as [H1 H2]. rewrite generate_ok by (done || cbn; lia). cbn [obind].
  destruct (lookup_lt_is_Some_2 (choices n k) 0) as [v Hv]; [unfold choices; rewrite marked_length; lia|].
  exists v. split; [done|].
  rewrite (tab_get_ok _ (choices n k) 0 v) by done. cbn [obind]. unfold in_period, sem_post. cbn. by rewrite Hs.
Qed.

Lemma decide_next n t j v k : sem n = 1 -> partial n -> t !! j = Some v -> (j <> 0)%nat -> Z.of_nat j < samplingRateP2 n ->
  decide_block rand (in_period n t (Z.of_nat j)) k =
    Ret (Some v, in_period n t (if decide (Z.of_nat j = samplingRateP2 n - 1) then 0 else Z.of_nat j + 1), k).
Proof.
  intros Hs Hp Hv Hj Hlt. rewrite decide_partial by done. cbv zeta. cbn [set_sem in_period samplingRateAxis samplingRateP2].
  rewrite (proj2 (Z.eqb_neq (Z.of_nat j) 0)) by lia.
  destruct (Z.ltb_spec (Z.of_nat j) (samplingRateP2 n - 1)).
  - rewrite decide_False by lia. rewrite (tab_get_ok _ t j v) by done. cbn [obind]. unfold in_period, sem_post. cbn. by rewrite Hs.
  - rewrite (proj2 (Z.eqb_eq _ _)), decide_True by lia. rewrite (tab_get_ok _ t j v) by done. cbn [obind].
    unfold in_period, sem_post. cbn. by rewrite Hs.
Qed.

(** ** Calls *)

(** The node of a monitor. *)
Definition node_of (ip : bytes) (s : sampling) (i : nat) (n : SamplingNode) : Prop :=
  (length ip < 16)%nat /\ find_node ip (listNodes s) = Some i /\ listNodes s !! i = Some n /\ sem n = 1.

(** What the first two blocks make of it. *)
Definition checked (n : SamplingNode) : SamplingNode := if samplingRateChanged n =? 1 then set_axis 0 n else n.

Lemma sem_wait_post n : sem n = 1 -> sem_wait n = Ret (set_sem 0 n) /\ sem_post (set_sem 0 n) = n.
Proof. intros H. unfold sem_wait, sem_post. rewrite H. split; [done|]. destruct n. cbn in *. by subst. Qed.

Lemma call_unfold ip s i n : node_of ip s i n ->
  RandomPeriodicNodeSampling rand ip s =
    (let! (r, n, k) := decide_block rand (checked n) (draws s) in
     match r with
     | Some ret => Ret (ret, Mk_sampling (<[i := n]> (listNodes s)) k)
     | None => Undef MissingReturn
     end).
Proof.
  intros (Hip & Hf & Hn & Hs). unfold RandomPeriodicNodeSampling, GetSamplingNode, check16.
  rewrite (proj2 (Nat.ltb_lt _ _)) by done. cbn [obind]. rewrite Hf. cbn [obind]. unfold node_get. rewrite Hn. cbn [obind].
  destruct (sem_wait_post n Hs) as [Hw Hp]. unfold GetNodeSamplingRateStatus. rewrite Hw. cbn [obind].
  change (samplingRateChanged (set_sem 0 n)) with (samplingRateChanged n). rewrite Hp. unfold checked.
  destruct (samplingRateChanged n =? 1); [|done]. unfold InitNodeSamplingRateStatus. rewrite Hw. cbn [obind].
  do 2 f_equal. destruct n. cbn in *. by subst.
Qed.

Lemma find_node_insert ip l i n n' : l !! i = Some n -> ipAddr n' = ipAddr n ->
  find_node ip (<[i := n']> l) = find_node ip l.
Proof.
  revert i. induction l as [|m l IH]; intros [|i] Hi E; try done.
  - injection Hi as ->. cbn. by rewrite E.
  - change (<[S i := n']> (m :: l)) with (m :: <[i := n']> l). cbn [find_node]. by rewrite (IH i) by done.
Qed.

(** The same state but for the node and the number of draws. *)
Definition with_node (s : sampling) (i : nat) (n : SamplingNode) (k : nat) : sampling :=
  Mk_sampling (<[i := n]> (listNodes s)) k.

Lemma node_of_with ip s i n n' k : node_of ip s i n -> ipAddr n' = ipAddr n -> sem n' = 1 ->
  node_of ip (with_node s i n' k) i n'.
Proof.
  intros (Hip & Hf & Hn & Hs) E Hs'. split; [done|]. cbn. rewrite (find_node_insert ip _ i n) by done.
  split; [done|]. split; [|done]. apply list_lookup_insert_eq. by eapply lookup_lt_Some.
Qed.

Lemma with_node_with s i n k n' k' : with_node (with_node s i n k) i n' k' = with_node s i n' k'.
Proof. unfold with_node. cbn. by rewrite list_insert_insert_eq. Qed.

(** Several calls in a row. *)
Fixpoint calls (m : nat) (ip : bytes) (s : sampling) : outcome (list Z * sampling) :=
  match m with
  | O => Ret ([], s)
  | S m =>
      let! (v, s) := RandomPeriodicNodeSampling rand ip s in
      let! (vs, s) := calls m ip s in
      Ret (v :: vs, s)
  end.

(** The start of a period. *)
Definition period_start (n : SamplingNode) : Prop :=
  fillable n /\ (samplingRateChanged n = 1 \/ samplingRateAxis n = 0).

(** The decisions of the rest of a period. *)
Lemma calls_rest ip s i n t k m : node_of ip s i n -> partial n -> Z.of_nat (length t) = samplingRateP2 n ->
  forall j, (0 < j)%nat -> Z.of_nat (j + S m) = samplingRateP2 n ->
  calls (S m) ip (with_node s i (in_period n t (Z.of_nat j)) k) =
    Ret (drop j t, with_node s i (in_period n t 0) k).
Proof.
  intros Hn Hp Hl. pose proof Hn as (_ & _ & _ & Hs). induction m as [|m IH]; intros j Hj Hm.
  all: destruct (lookup_lt_is_Some_2 t j) as [v Hv]; [lia|].
  all: cbn [calls]; rewrite (call_unfold ip _ i (in_period n t (Z.of_nat j)))
    by (by apply (node_of_with ip s i n)).
  all: change (checked (in_period n t (Z.of_nat j))) with (in_period n t (Z.of_nat j)).
  all: rewrite (decide_next n t j v) by (done || lia); cbn [obind].
  all: change (Mk_sampling (<[i:=?a]> (listNodes (with_node s i ?b k))) ?k') with (with_node (with_node s i b k) i a k').
  all: rewrite with_node_with.
  - rewrite decide_True by lia. cbn [calls obind with_node draws]. rewrite (drop_S t v j), drop_ge by (done || lia). done.
  - rewrite decide_False by lia. replace (Z.of_nat j + 1) with (Z.of_nat (S j)) by lia. cbn [with_node draws].
    specialize (IH (S j) ltac:(lia) ltac:(lia)). cbn [calls] in IH. rewrite IH. cbn [obind]. by rewrite (drop_S t v j).
Qed.

(** A period: as many decisions as the table has entries. *)
Lemma calls_period ip s i n : node_of ip s i n -> partial n -> period_start n ->
  calls (Z.to_nat (samplingRateP2 n)) ip s =
    Ret (choices n (draws s),
         with_node s i (in_period n (choices n (draws s)) 0) (draws s + Z.to_nat (samplingRateP1 n))).
Proof.
  intros Hn Hp [Hf Ha]. pose proof Hn as (_ & _ & _ & Hs). pose proof Hp as [Hp1 Hp2].
  set (t := choices n (draws s)). set (k := (draws s + Z.to_nat (samplingRateP1 n))%nat).
  assert (Z.of_nat (length t) = samplingRateP2 n) as Hl by (unfold t, choices; rewrite marked_length; lia).
  assert (choices (checked n) (draws s) = t /\ forall u a, in_period (checked n) u a = in_period n u a) as [Hct Hci].
  { unfold checked. by destruct (samplingRateChanged n =? 1). }
  destruct (decide_first (checked n) (draws s)) as (v & Hv & Hd).
  { unfold checked. by destruct (samplingRateChanged n =? 1). }
  { unfold checked. by destruct (samplingRateChanged n =? 1). }
  { unfold checked. destruct (Z.eqb_spec (samplingRateChanged n) 1); [by left|done]. }
  { unfold checked. destruct (Z.eqb_spec (samplingRateChanged n) 1); [done|]. by destruct Ha. }
  rewrite Hct in Hv. replace (Z.to_nat (samplingRateP2 n)) with (S (S (Z.to_nat (samplingRateP2 n) - 2))) by lia.
  remember (S (Z.to_nat (samplingRateP2 n) - 2)) as m eqn:Hm. cbn [calls].
  rewrite (call_unfold ip s i n) by done. rewrite Hd, Hct, Hci. cbn [obind].
  assert (samplingRateP1 (checked n) = samplingRateP1 n) as -> by (unfold checked; by destruct (samplingRateChanged n =? 1)).
  fold k. fold (with_node s i (in_period n t 1) k). change 1 with (Z.of_nat 1) at 1.
  rewrite Hm, (calls_rest ip s i n t k) by (done || lia). cbn [obind].
  by rewrite <- (drop_S t v 0).
Qed.

(** C26: a monitor whose rate is p1/p2 with 0 < p1 < p2: of the p2 packets of a
    period, packet j is taken exactly when j is among the p1 numbers that rand()
    gives modulo p2 at the start of the period; so at least one and at most p1
    are taken, no other monitor is affected, and a new period starts. *)
Theorem sampling_period ip s i n :
  node_of ip s i n -> partial n -> period_start n ->
  let ds := drawn rand (Z.to_nat (samplingRateP1 n)) (samplingRateP2 n) (draws s) in
  exists t n' k, calls (Z.to_nat (samplingRateP2 n)) ip s = Ret (t, with_node s i n' k) /\
    Z.of_nat (length t) = samplingRateP2 n /\
    (forall j, Z.of_nat j < samplingRateP2 n -> t !! j = Some (if decide (Z.of_nat j ∈ ds) then 1 else 0)) /\
    1 <= taken t <= samplingRateP1 n /\
    node_of ip (with_node s i n' k) i n' /\ period_start n' /\
    samplingRateP1 n' = samplingRateP1 n /\ samplingRateP2 n' = samplingRateP2 n.
Proof.
  intros Hn Hp Hst ds. pose proof Hp as [Hp1 Hp2].
  pose proof (drawn_range rand (Z.to_nat (samplingRateP1 n)) (samplingRateP2 n) (draws s) ltac:(lia)) as Hds. fold ds in Hds.
  exists (choices n (draws s)), (in_period n (choices n (draws s)) 0), (draws s + Z.to_nat (samplingRateP1 n))%nat.
  assert (Z.of_nat (length (choices n (draws s))) = samplingRateP2 n) as Hl by (unfold choices; rewrite marked_length; lia).
  split; [by apply calls_period|]. split; [done|]. split.
  { intros j Hj. apply marked_lookup; [|lia]. eapply Forall_impl; [exact Hds|]. cbn. lia. }
  split.
  { destruct (marked_taken (Z.to_nat (samplingRateP2 n)) ds) as [_ Ht].
    { eapply Forall_impl; [exact Hds|]. cbn. lia. }
    assert (Z.of_nat (length ds) = samplingRateP1 n) as Hld by (unfold ds, drawn; rewrite length_fmap, length_seq; lia).
    unfold choices. fold ds. rewrite Hld in Ht. destruct (decide (ds = [])) as [->|]; [cbn in Hld; lia|done]. }
  split; [apply (node_of_with ip s i n); [done|done|apply Hn]|]. split; [|done].
  split; [right; split; [done|]; eexists; split; [reflexivity|done]|by right].
Qed.

(** A new monitor has the rate 100/100, and one with equal rates takes every
    packet; a rate of 0 takes none. *)
Lemma new_monitor_ok ip s : (length ip < 16)%nat -> find_node ip (listNodes s) = None ->
  RandomPeriodicNodeSampling rand ip s = 
    Ret (1, Mk_sampling (listNodes s ++ [Mk_SamplingNode 100 100 1 0 ip None 1]) (draws s)).
Proof.
  intros Hip Hf. unfold RandomPeriodicNodeSampling, GetSamplingNode, AddNode, check16.
  assert ((length ip <? 16)%nat = true) as H16 by (by apply Nat.ltb_lt).
  rewrite H16. cbn [obind]. rewrite H16. cbn [obind]. rewrite Hf. cbn [obind]. rewrite ?H16. cbn [obind]. unfold node_get.
  cbn [listNodes draws]. rewrite list_lookup_middle by done.
  set (n := Mk_SamplingNode 100 100 1 0 ip None 1).
  change (Ret (1, Mk_sampling (<[length (listNodes s) := n]> (listNodes s ++ [n])) (draws s)) =
    Ret (1, Mk_sampling (listNodes s ++ [n]) (draws s))).
  by rewrite insert_app_r_alt, Nat.sub_diag by done.
Qed.

Lemma constant_rate_ok ip s i n : node_of ip s i n -> samplingRateP1 n = 0 \/ samplingRateP1 n = samplingRateP2 n ->
  exists n', RandomPeriodicNodeSampling rand ip s =
    Ret (if samplingRateP1 n =? 0 then 0 else 1, with_node s i n' (draws s)).
Proof.
  intros Hn Hr. exists (checked n). rewrite (call_unfold ip s i n) by done.
  assert (sem (checked n) = 1 /\ samplingRateP1 (checked n) = samplingRateP1 n /\ samplingRateP2 (checked n) = samplingRateP2 n)
    as (Hs & H1 & H2) by (unfold checked; destruct (samplingRateChanged n =? 1); split; by try apply Hn).
  destruct (sem_wait_post _ Hs) as [Hw Hpo]. unfold decide_block. rewrite Hw. cbn [obind].
  cbn [set_sem samplingRateP1 samplingRateP2]. rewrite H1, H2.
  fold (set_sem 0 (checked n)). rewrite Hpo.
  destruct (Z.eqb_spec (samplingRateP1 n) 0); [done|]. destruct Hr as [|Hr]; [done|]. by rewrite Hr, Z.eqb_refl.
Qed.

(** ** The race with the control server *)

(** Rates that ask for a part, none or all of the packets. *)
Definition sane (p1 p2 : Z) : Prop := 0 <= p1 <= p2.

(** The position in the table is inside it, or there is no table yet. *)
Definition inside (n : SamplingNode) : Prop :=
  samplingRateAxis n = 0 \/
  exists t, samplingTab n = Some t /\ Forall bit t /\ 0 <= samplingRateAxis n < Z.of_nat (length t).

(** The table belongs to the rates. *)
Definition current (n : SamplingNode) : Prop :=
  partial n /\ 0 <= samplingRateAxis n < samplingRateP2 n /\
  exists t, samplingTab n = Some t /\ Forall bit t /\ Z.of_nat (length t) = samplingRateP2 n.

Definition race_ok (x : race) : Prop :=
  let n := rc_node x in
  sane (samplingRateP1 n) (samplingRateP2 n) /\
  (samplingRateChanged n = 1 \/ samplingRateChanged n = 0 /\ current n) /\
  match rc_phase x with
  | Idle => sem n = 1
  | Checked st => sem n = 1 /\ (st = 1 /\ samplingRateChanged n = 1 \/ st = 0 /\ inside n)
  | Ready => sem n = 1 /\ inside n
  | Returned (Some r) => sem n = 1 /\ bit r
  | Returned None => sem n = 0
  end.

Lemma current_inside n : current n -> inside n.
Proof. intros (_ & Ha & t & Ht & Hb & Hl). right. exists t. rewrite Hl. done. Qed.

Lemma current_fillable n : samplingRateChanged n = 0 -> current n -> fillable n.
Proof. intros Hc (_ & _ & t & Ht & _ & Hl). right. split; [done|]. by exists t. Qed.

Lemma bit_lookup t i v : Forall bit t -> t !! i = Some v -> bit v.
Proof. apply Forall_lookup_1. Qed.

Lemma choices_bits n k : partial n -> Forall bit (choices n k) /\ Z.of_nat (length (choices n k)) = samplingRateP2 n.
Proof.
  intros [H1 H2]. unfold choices. split; [|rewrite marked_length; lia]. apply marked_taken.
  eapply Forall_impl; [apply drawn_range; lia|]. cbn. lia.
Qed.

(** The last block reads inside the table. *)
Lemma decide_ok n k : race_ok (Mk_race Ready n k) ->
  exists r n' k', decide_block rand n k = Ret (r, n', k') /\ race_ok (Mk_race (Returned r) n' k').
Proof.
  intros (Hsane & Hc & Hs & Hin). cbn [rc_node rc_phase] in *. destruct (sem_wait_post n Hs) as [Hw Hpo].
  destruct (decide (partial n)) as [Hp|Hp].
  2:{ unfold decide_block. rewrite Hw. cbn [obind]. cbn [set_sem samplingRateP1 samplingRateP2]. fold (set_sem 0 n). rewrite Hpo.
      destruct (Z.eqb_spec (samplingRateP1 n) 0).
      { eexists _, _, _. split; [reflexivity|]. split; [done|]. split; [done|]. by split; [|left]. }
      destruct (Z.eqb_spec (samplingRateP1 n) (samplingRateP2 n)).
      { eexists _, _, _. split; [reflexivity|]. split; [done|]. split; [done|]. by split; [|right]. }
      unfold partial, sane in *. lia. }
  destruct (decide (samplingRateAxis n = 0)) as [Ha|Ha].
  { destruct (decide_first n k) as (v & Hv & ->); [done|done| |done|].
    { destruct Hc as [Hc|[Hc Hcur]]; [by left|by apply current_fillable]. }
    destruct (choices_bits n k Hp) as [Hb Hl]. pose proof Hp as [Hp1 Hp2].
    eexists _, _, _. split; [reflexivity|]. split; [done|]. split.
    { right. split; [done|]. split; [done|]. cbn. split; [lia|]. eexists. by split. }
    split; [done|]. by eapply bit_lookup. }
  destruct Hin as [|(t & Ht & Hb & Hax)]; [done|].
  destruct (lookup_lt_is_Some_2 t (Z.to_nat (samplingRateAxis n))) as [v Hv]; [lia|].
  assert (tab_get (set_sem 0 n) (samplingRateAxis n) = Ret v) as Hget.
  { rewrite <- (Z2Nat.id (samplingRateAxis n)) by lia. by apply (tab_get_ok _ t). }
  rewrite decide_partial by done. cbv zeta. cbn [set_sem samplingRateAxis samplingRateP2]. fold (set_sem 0 n).
  rewrite (proj2 (Z.eqb_neq _ _)), Hget by done. cbn [obind].
  assert (forall a, sem_post (set_axis a (set_sem 0 n)) = set_axis a n) as Hpo'.
  { intros a. destruct n. cbn in *. by subst. }
  destruct (Z.ltb_spec (samplingRateAxis n) (samplingRateP2 n - 1)) as [Hlt|Hge]; [|destruct (Z.eqb_spec (samplingRateAxis n) (samplingRateP2 n - 1))].
  - rewrite Hpo'. eexists _, _, _. split; [reflexivity|]. split; [done|]. split; [|by split; [|eapply bit_lookup]].
    destruct Hc as [Hc|[Hc (_ & Hr & Htab)]]; [by left|]. right. split; [done|]. split; [done|]. cbn. split; [lia|done].
  - rewrite Hpo'. eexists _, _, _. split; [reflexivity|]. split; [done|]. split; [|by split; [|eapply bit_lookup]].
    destruct Hc as [Hc|[Hc (_ & Hr & Htab)]]; [by left|]. right. split; [done|]. split; [done|]. cbn.
    pose proof Hp as [Hp1 Hp2]. split; [lia|done].
  - eexists _, _, _. split; [reflexivity|]. split; [done|]. split; [|done].
    destruct Hc as [Hc|[Hc (_ & Hr & Htab)]]; [by left|]. lia.
Qed.

Lemma race_step_ok x y : race_ok x -> race_step rand sane x y -> race_ok y.
Proof.
  intros Hx Hstep. destruct Hstep as [n n' st k E|n n' k E|st n k Hst|n n' r k k' E|r n k|ph n n' p1 p2 k Hv E].
  - destruct Hx as (Hsane & Hc & Hs). cbn [rc_node rc_phase] in *. destruct (sem_wait_post n Hs) as [Hw Hpo].
    unfold GetNodeSamplingRateStatus in E. rewrite Hw in E. cbn [obind] in E. rewrite Hpo in E.
    apply Ret_inj in E. injection E as <- <-.
    split; [done|]. split; [done|]. split; [done|]. cbn [set_sem samplingRateChanged rc_node].
    destruct Hc as [Hc|[Hc Hcur]]; [by left|]. right. split; [done|]. by apply current_inside.
  - destruct Hx as (Hsane & _ & Hs & Hst). cbn [rc_node rc_phase] in *. destruct (sem_wait_post n Hs) as [Hw Hpo].
    unfold InitNodeSamplingRateStatus in E. rewrite Hw in E. cbn [obind] in E. apply Ret_inj in E as <-.
    destruct Hst as [[_ Hc]|[? _]]; [|done]. split; [done|]. split; [by left|]. split; [|by left].
    unfold sem_post. cbn. lia.
  - destruct Hx as (Hsane & Hc & Hs & Hst'). cbn [rc_node rc_phase] in *. split; [done|]. split; [done|].
    split; [done|]. destruct Hst' as [[? _]|[_ ?]]; done.
  - destruct (decide_ok n k Hx) as (r1 & n1 & k1 & E1 & Hok). rewrite E1 in E. apply Ret_inj in E. by injection E as <- <- <-.
  - destruct Hx as (Hsane & Hc & Hs & _). done.
  - destruct Hx as (Hsane & Hc & Hph). cbn [rc_node rc_phase] in *.
    destruct (decide (sem n = 1)) as [Hs|Hs].
    2:{ exfalso. destruct ph as [|st| |[r|]]; try (by destruct Hph); try done.
        unfold sem_wait in E. by rewrite Hph in E. }
    destruct (sem_wait_post n Hs) as [Hw Hpo]. rewrite Hw in E. apply Ret_inj in E as <-.
    assert (sem_post (set_rates p1 p2 (set_sem 0 n)) = set_rates p1 p2 n) as -> by (destruct n; cbn in *; by subst).
    split; [exact Hv|]. split; [by left|]. cbn [rc_phase rc_node].
    destruct ph as [|st| |[r|]]; cbn in *; try done.
    + split; [done|]. destruct Hph as (_ & [[-> _]|[-> Hi]]); [by left|by right].
Qed.

(** C27: whatever the interleaving of the decisions for a monitor with changes of
    its rate to sane ones, no decision leaves the table of choices, every result
    is 0 or 1, and the semaphore is free unless a decision fell off the end of
    the function. *)
Theorem race_safe n k x : sane (samplingRateP1 n) (samplingRateP2 n) -> samplingRateChanged n = 1 -> sem n = 1 ->
  rtc (race_step rand sane) (Mk_race Idle n k) x ->
  match rc_phase x with
  | Ready => exists r n' k', decide_block rand (rc_node x) (rc_draws x) = Ret (r, n', k')
  | Returned (Some r) => bit r
  | _ => True
  end /\
  (rc_phase x <> Returned None -> sem (rc_node x) = 1).
Proof.
  intros Hsane Hc Hs Hr.
  assert (race_ok x) as Hx.
  { remember (Mk_race Idle n k) as x0 eqn:E. assert (race_ok x0) as H0 by (subst x0; split; [done|]; split; [by left|done]).
    clear E. induction Hr as [|x y z Hxy _ IH]; [done|]. apply IH. by eapply race_step_ok. }
  split.
  - destruct (rc_phase x) as [|st| |[r|]] eqn:Ep; try done.
    + destruct x as [ph m km]. cbn in Ep. subst ph. destruct (decide_ok m km Hx) as (r & n' & k' & E & _). by exists r, n', k'.
    + destruct Hx as (_ & _ & Hx). rewrite Ep in Hx. apply Hx.
  - intros Hne. destruct Hx as (_ & _ & Hx). destruct (rc_phase x) as [|st| |[r|]] eqn:Ep; try done; by destruct Hx.
Qed.
End sampling.

(** ** Examples *)

(** A sequence of numbers. *)
Definition sample_rand (i : nat) : Z := Z.of_nat i * 7 + 3.
Definition sample_ip : bytes := [49; 46; 50; 46; 51; 46; 52].
Definition sample_node : SamplingNode := Mk_SamplingNode 2 5 1 0 sample_ip None 1.
Definition sample_sampling : sampling := Mk_sampling [sample_node] 0.

Lemma sampling_period_witness :
  node_of sample_ip sample_sampling 0 sample_node /\
  exists t n' k, calls sample_rand 5 sample_ip sample_sampling = Ret (t, with_node sample_sampling 0 n' k) /\ 1 <= taken t <= 2.
Proof.
  assert (node_of sample_ip sample_sampling 0 sample_node) as Hn.
  { split; [apply Nat.ltb_lt; reflexivity|]. split; [reflexivity|]. split; reflexivity. }
  split; [exact Hn|].
  destruct (sampling_period sample_rand sample_ip sample_sampling 0 sample_node Hn) as (t & n' & k & E & _ & _ & Ht & _).
  - done.
  - by split; left.
  - exists t, n', k. split; [exact E|exact Ht].
Defined.

Example sample_period :
  match calls sample_rand 10 sample_ip sample_sampling with
  | Ret (t, _) => t = [1; 0; 0; 1; 0; 0; 0; 1; 0; 1] 
  | _ => False
  end.
Proof. vm_compute. reflexivity. Qed.

Lemma race_safe_witness :
  exists r n' k', decide_block sample_rand sample_node 0 = Ret (r, n', k').
Proof.
  destruct (race_safe sample_rand sample_node 0 (Mk_race Ready sample_node 0)) as [H _].
  - done.
  - done.
  - done.
  - eapply rtc_l; [by apply (step_check _ _ _ sample_node 1)|].
    eapply rtc_l; [by apply (step_init _ _ _ sample_node)|]. apply rtc_refl.
  - exact H.
Defined.

(** The control server can stop a monitor for good.  The rate of a monitor
    goes from 1/5 to 1/2 after the status was read and before the fourth packet
    is decided: the decision falls off the end of RandomPeriodicNodeSampling
    without a post, and every later wait on the semaphore blocks. *)
Theorem race_deadlock rand :
  exists n k n' k', samplingRateP1 n = 1 /\ samplingRateP2 n = 5 /\ node_of sample_ip (Mk_sampling [n] k) 0 n /\
    rtc (race_step rand (fun p1 p2 => 0 < p1 < p2)) (Mk_race Idle n k) (Mk_race (Returned None) n' k') /\
    ChangeSamplingRateInNode 1 5 sample_ip (Mk_sampling [n'] k') = Diverges /\
    RandomPeriodicNodeSampling rand sample_ip (Mk_sampling [n'] k') = Diverges.
Proof.
  set (n := fun a => Mk_SamplingNode 1 5 0 a sample_ip (Some [0; 0; 1; 0; 0]) 1).
  exists (n 3), 0%nat, (Mk_SamplingNode 1 2 1 3 sample_ip (Some [0; 0; 1; 0; 0]) 0), 0%nat.
  split; [done|]. split; [done|]. split.
  { split; [apply Nat.ltb_lt; reflexivity|]. split; [reflexivity|]. split; reflexivity. }
  split; [|split; reflexivity].
  eapply rtc_l; [by apply (step_check _ _ _ (n 3) 0)|].
  eapply rtc_l; [by apply step_no_init|].
  eapply rtc_l; [by apply (step_change _ _ _ (n 3) (set_sem 0 (n 3)) 1 2)|].
  eapply rtc_l; [by eapply step_decide|]. apply rtc_refl.
Qed.
