(* ===== verification/Control.v ===== *)
(** * The control server (src/softflowd/ControlServer.c)

    The server that takes the rates of monitors from its clients, one message
    per connection, until a client sends "end".  The sockets are the messages
    that read() returns, None for an error. *)

From S2P Require Import Prelude CString Sampling SamplingProps.

Definition CONTROL_BUFFER_SIZE : nat := 1024%nat.

(** What the client is sent. *)
Inductive reply :=
  | RateUpdated         (* "The sampling rate is updated." *)
  | InvalidMonitor.     (* "Error occured ..., invalid monitor address." *)

Record server := Mk_server {
  cs_sampling : sampling;
  StopsControlServer : Z
}.

Definition SetStopsControlServer (s : server) : server := Mk_server (cs_sampling s) 1.
Definition GetStopsControlServer (s : server) : Z := StopsControlServer s.

(** The buffer after read(): the message and zeros. *)
Definition received (msg : bytes) : bytes :=
  take CONTROL_BUFFER_SIZE msg ++ replicate (CONTROL_BUFFER_SIZE - length msg) 0.

(** "end" and its terminator. *)
Definition end_msg : bytes := [101; 110; 100; 0].

Definition HandleTCPClient (r : option bytes) (s : server) : outcome (option reply * server) :=
  match r with
  | None => Ret (None, s)
  | Some msg =>
      let buf := received msg in
      let! c := strcmp buf end_msg in
      if negb (c =? 0) then
        let! (_, monitorIp) := get_control_packet_part buf 2 (replicate 16 0) in
        let! (_, szSAmplingRateP1) := get_control_packet_part buf 0 (replicate 20 0) in
        let! (_, szSAmplingRateP2) := get_control_packet_part buf 1 (replicate 20 0) in
        let! p1 := atoi szSAmplingRateP1 in
        let! p2 := atoi szSAmplingRateP2 in
        let! ip := cstr monitorIp in
        let! (ret, sm) := ChangeSamplingRateInNode p1 p2 ip (cs_sampling s) in
        Ret (Some (if negb (ret =? 0) then InvalidMonitor else RateUpdated), Mk_server sm (StopsControlServer s))
      else Ret (None, SetStopsControlServer s)
  end.

(** The loop of ThreadProcessFunction over the connections: the replies, and the
    connections that are left when it stops. *)
Fixpoint ThreadProcessFunction (clients : list (option bytes)) (s : server)
    : outcome (list (option reply) * list (option bytes) * server) :=
  match clients with
  | [] => Ret ([], [], s)
  | c :: clients =>
      let! (r, s) := HandleTCPClient c s in
      if negb (GetStopsControlServer s =? 0) then Ret ([r], clients, s)
      else
        let! (rs, rest, s) := ThreadProcessFunction clients s in
        Ret (r :: rs, rest, s)
  end.

(** ** A message that changes a rate *)

(** Decimal digits that fit the array of 20 characters and an int. *)
Definition number (d : bytes) : Prop :=
  d <> [] /\ Forall (fun c => isdigit c = true) d /\ (length d < 20)%nat /\ dec d < 2147483648.

Lemma number_part d : number d -> part d.
Proof.
  intros (_ & Hd & _). eapply Forall_impl; [exact Hd|]. intros c Hc. unfold isdigit, sep in *. lia.
Qed.

(** The message "p1#p2#ip". *)
Definition rate_msg (d1 d2 ip : bytes) : bytes := seps [d1; d2] ++ ip.

Lemma received_msg msg : (length msg < CONTROL_BUFFER_SIZE)%nat ->
  received msg = msg ++ 0 :: replicate (CONTROL_BUFFER_SIZE - length msg - 1) 0.
Proof.
  intros Hl. unfold received. rewrite take_ge by lia. f_equal.
  destruct (CONTROL_BUFFER_SIZE - length msg)%nat as [|k] eqn:E; [lia|]. cbn. by rewrite Nat.sub_0_r.
Qed.

Lemma drop_replicate_pos {A} k n (x : A) : (k < n)%nat -> drop k (replicate n x) = x :: replicate (n - k - 1) x.
Proof. intros Hk. rewrite drop_replicate. destruct (n - k)%nat as [|m] eqn:E; [lia|]. cbn. by rewrite Nat.sub_0_r. Qed.

(** A message that starts with a digit is not "end". *)
Lemma rate_msg_not_end d1 d2 ip rest : number d1 ->
  exists c, strcmp (rate_msg d1 d2 ip ++ rest) end_msg = Ret c /\ c <> 0.
Proof.
  intros (Hne & Hd & _). destruct d1 as [|c d1]; [done|]. apply Forall_cons in Hd as [Hc _].
  unfold isdigit in Hc. unfold rate_msg. rewrite seps_cons. cbn [app strcmp end_msg].
  rewrite (proj2 (Z.eqb_neq _ _)) by lia. eexists. split; [reflexivity|]. by destruct (101 <? c).
Qed.

Lemma rate_msg_ok d1 d2 ip s : number d1 -> number d2 -> text ip -> (length ip < 16)%nat ->
  HandleTCPClient (Some (rate_msg d1 d2 ip)) s =
    (let! (ret, sm) := ChangeSamplingRateInNode (dec d1) (dec d2) ip (cs_sampling s) in
     Ret (Some (if negb (ret =? 0) then InvalidMonitor else RateUpdated), Mk_server sm (StopsControlServer s))).
Proof.
  intros H1 H2 Hip Hl. unfold HandleTCPClient. cbv zeta.
  pose proof H1 as (Hn1 & Hd1 & Hl1 & Hv1). pose proof H2 as (Hn2 & Hd2 & Hl2 & Hv2).
  assert (length (rate_msg d1 d2 ip) < CONTROL_BUFFER_SIZE)%nat as Hlen.
  { unfold rate_msg, seps. cbn. rewrite !length_app. cbn. unfold CONTROL_BUFFER_SIZE. lia. }
  rewrite received_msg by done. set (junk := replicate _ 0).
  destruct (rate_msg_not_end d1 d2 ip (0 :: junk) H1) as (c & -> & Hc). cbn [obind].
  rewrite (proj2 (Z.eqb_neq c 0)) by done. cbn [negb]. unfold rate_msg. rewrite <- !app_assoc.
  assert (Forall part [d1; d2]) as Hps by (repeat constructor; by apply number_part).
  unfold get_control_packet_part. change (MAX_CONTROL_MESSAGE_PARTS - 1)%nat with 2%nat.
  rewrite (get_part_ok 2 [d1; d2] ip junk 2 ip) by (done || rewrite length_replicate; lia). cbn [obind].
  rewrite (get_part_ok 2 [d1; d2] ip junk 0 d1) by (done || rewrite length_replicate; lia). cbn [obind].
  rewrite (get_part_ok 2 [d1; d2] ip junk 1 d2) by (done || rewrite length_replicate; lia). cbn [obind].
  rewrite !drop_replicate_pos by lia.
  rewrite !atoi_digits by done. cbn [obind]. by rewrite cstr_app.
Qed.

(** The message "p1#p2#ip" gives the monitor the rate p1/p2: the client is
    told so, or that there is no such monitor; and of the next p2 packets of the
    monitor at least one and at most p1 are taken when 0 < p1 < p2. *)
Theorem control_sets_rate rand d1 d2 ip s i n :
  number d1 -> number d2 -> text ip -> node_of ip (cs_sampling s) i n -> 0 < dec d1 < dec d2 ->
  exists s' t sm, HandleTCPClient (Some (rate_msg d1 d2 ip)) s = Ret (Some RateUpdated, s') /\
    calls rand (Z.to_nat (dec d2)) ip (cs_sampling s') = Ret (t, sm) /\
    Z.of_nat (length t) = dec d2 /\ 1 <= taken t <= dec d1 /\
    StopsControlServer s' = StopsControlServer s /\
    forall j, j <> i -> listNodes sm !! j = listNodes (cs_sampling s) !! j.
Proof.
  intros H1 H2 Hip Hn Hr. pose proof Hn as (Hl & Hf & Hi & Hs).
  destruct (sem_wait_post n Hs) as [Hw _].
  set (n' := set_rates (dec d1) (dec d2) n).
  assert (node_of ip (with_node (cs_sampling s) i n' (draws (cs_sampling s))) i n') as Hn' by (by apply (node_of_with ip _ i n)).
  exists (Mk_server (with_node (cs_sampling s) i n' (draws (cs_sampling s))) (StopsControlServer s)).
  pose proof (calls_period rand ip _ i n' Hn' Hr ltac:(by split; left)) as Hcalls.
  eexists _, _. split.
  { rewrite rate_msg_ok by done. unfold ChangeSamplingRateInNode, FindSamplingNode, check16.
    rewrite (proj2 (Nat.ltb_lt _ _)) by done. cbn [obind].
    rewrite (proj2 (Nat.ltb_lt _ _)) by done. cbn [obind]. rewrite Hf. unfold node_get. rewrite Hi. cbn [obind].
    rewrite Hw. cbn [obind Z.eqb negb]. unfold node_put, with_node.
    assert (sem_post (set_rates (dec d1) (dec d2) (set_sem 0 n)) = n') as ->; [|reflexivity].
    unfold n'. destruct n. cbn in *. by subst. }
  split; [exact Hcalls|].
  split; [unfold choices; rewrite marked_length; cbn; lia|]. split.
  { destruct (marked_taken (Z.to_nat (dec d2)) (drawn rand (Z.to_nat (dec d1)) (dec d2) (draws (cs_sampling s)))) as [_ Ht].
    { eapply Forall_impl; [apply drawn_range; lia|]. cbn. lia. }
    assert (Z.of_nat (length (drawn rand (Z.to_nat (dec d1)) (dec d2) (draws (cs_sampling s)))) = dec d1) as Hld
      by (unfold drawn; rewrite length_fmap, length_seq; lia).
    rewrite Hld in Ht. case_decide as Hd; [rewrite Hd in Hld; cbn in Hld; lia|]. exact Ht. }
  split; [done|]. intros j Hj. cbn. by rewrite !list_lookup_insert_ne by done.
Qed.

Lemma control_sets_rate_witness :
  number [50] /\ exists s' t sm, HandleTCPClient (Some (rate_msg [50] [53] sample_ip)) (Mk_server sample_sampling 0) = Ret (Some RateUpdated, s') /\
    calls sample_rand 5 sample_ip (cs_sampling s') = Ret (t, sm) /\ 1 <= taken t <= 2.
Proof.
  assert (number [50] /\ number [53]) as [H2 H5].
  { split; (split; [done|]); (split; [by apply Forall_singleton|]); (split; [apply Nat.ltb_lt; reflexivity|done]). }
  split; [exact H2|].
  destruct (control_sets_rate sample_rand [50] [53] sample_ip (Mk_server sample_sampling 0) 0 sample_node H2 H5)
    as (s' & t & sm & E & Ec & _ & Ht & _).
  - apply (bool_decide_unpack _). vm_compute. exact I.
  - split; [apply Nat.ltb_lt; reflexivity|]. split; [reflexivity|]. split; reflexivity.
  - done.
  - exists s', t, sm. split; [exact E|]. split; [exact Ec|exact Ht].
Defined.

(** A message that has no separator and is not "end" sends the server into
    undefined behaviour: the length of the first part is computed from a null
    pointer, and the bytes copied to an array of 20 are not bounded. *)
Theorem control_no_separator_undefined c msg s :
  part (c :: msg) -> (S (length msg) < CONTROL_BUFFER_SIZE)%nat -> c :: msg <> [101; 110; 100] ->
  HandleTCPClient (Some (c :: msg)) s = Undef NullDeref.
Proof.
  intros Hp Hl Hne. unfold HandleTCPClient. cbv zeta. rewrite received_msg by done. set (junk := replicate _ 0).
  destruct (strcmp_ne (c :: msg) [101; 110; 100]) with (j := junk) (j' := @nil Z) as (r & Er & Hr);
    [by apply part_text|by repeat constructor|done|].
  change end_msg with ([101; 110; 100] ++ [0]). rewrite Er.
  cbn [obind]. rewrite (proj2 (Z.eqb_neq r 0)) by done. cbn [negb].
  apply Forall_cons in Hp as [Hc Hp].
  assert (get_control_packet_part ((c :: msg) ++ 0 :: junk) 2 (replicate 16 0) = Ret (-1, replicate 16 0)) as ->.
  { unfold get_control_packet_part, get_packet_part, MAX_CONTROL_MESSAGE_PARTS. cbn [Nat.sub Nat.leb Nat.eqb part_loop].
    change ((c :: msg) ++ 0 :: junk) with ([c] ++ msg ++ 0 :: junk). by rewrite strchr_none by done. }
  cbn [obind]. unfold get_control_packet_part, get_packet_part. cbn [Nat.leb Nat.eqb].
  change ((c :: msg) ++ 0 :: junk) with ([] ++ (c :: msg) ++ 0 :: junk).
  by rewrite strchr_none by (done || by constructor).
Qed.

Lemma control_no_separator_undefined_witness :
  HandleTCPClient (Some [104; 105]) (Mk_server sample_sampling 0) = Undef NullDeref.
Proof.
  apply (control_no_separator_undefined 104 [105]).
  - apply (bool_decide_unpack _). vm_compute. exact I.
  - apply Nat.ltb_lt. vm_compute. reflexivity.
  - done.
Defined.

(** "end" stops the server, and leaves the connections behind it unserved. *)
Example sample_end :
  ThreadProcessFunction [Some (rate_msg [50] [53] sample_ip); Some [101; 110; 100]; None] (Mk_server sample_sampling 0) =
    Ret ([Some RateUpdated; None], [None],
         Mk_server (Mk_sampling [Mk_SamplingNode 2 5 1 0 sample_ip None 1] 0) 1).
Proof. vm_compute. reflexivity. Qed.
