(* ===== verification/Emulator.v ===== *)
(** * The emulator interface (src/softflowd/EmulatorInterface.c)

    Packets that the network emulator sends as text, "#" between the 15 parts of
    each: the monitor that saw it, the addresses, the length, the ports, the
    autonomous systems, the protocol, fragmentation, the TCP flags and whether
    the packet was already counted.  The parameters [inet_pton] (None for an
    invalid address, else the 4 bytes) and [inet_ntoa] are those of the C
    library; [junk] is what arrays on the stack hold before they are written. *)

From stdpp Require Import gmap.
From S2P Require Import Prelude CString Addr SoftTypes Ipflow FlowTrack.
From S2P Require Import Sampling.

(** The global variables of the interface, the flows and the sampling nodes. *)
Record emulator := Mk_emulator {
  em_ft : FLOWTRACK;
  emulator_monitors_adrs : list Z;      (* an array of 50 s_addr *)
  nbr_monitors : Z;
  em_sampling : sampling
}.
Definition set_em_ft (ft : FLOWTRACK) (s : emulator) : emulator :=
  Mk_emulator ft (emulator_monitors_adrs s) (nbr_monitors s) (em_sampling s).

Section emulator.
Context (inet_pton : bytes -> option bytes) (inet_ntoa : Z -> bytes) (junk : nat -> bytes).

(** ** The list of monitors *)

(** The first of the [n] monitors with that address in text. *)
Fixpoint monitor_known (ip : bytes) (adrs : list Z) (n : nat) {struct n} : bool :=
  match n, adrs with
  | S n, a :: adrs => bool_decide (inet_ntoa a = ip) || monitor_known ip adrs n
  | _, _ => false
  end.

(** An address that is not valid is entered too: the member keeps its value. *)
Definition add_monitor (ip : bytes) (s : emulator) : outcome emulator :=
  let n := Z.to_nat (nbr_monitors s) in
  let adrs := emulator_monitors_adrs s in
  if monitor_known ip adrs n then Ret s
  else if (length adrs <? n)%nat then Undef OutOfBounds      (* the search ran past the array *)
  else
    let! adrs :=
      match inet_pton ip with
      | None => Ret adrs
      | Some b => if (n <? length adrs)%nat then Ret (<[n := le_val b]> adrs) else Undef OutOfBounds
      end in
    Ret (Mk_emulator (em_ft s) adrs (wrap32 (nbr_monitors s + 1)) (em_sampling s)).

(** ** From a message to a flow *)

(** A part in an array of [size] zeros. *)
Definition part_of (m : bytes) (k size : nat) : outcome (Z * bytes) :=
  get_emulator_packet_part m k (replicate size 0).

(** The number in a part, None for a missing part. *)
Definition number_of (m : bytes) (k size : nat) : outcome (option Z) :=
  let! (r, tmp) := part_of m k size in
  if r =? -1 then Ret None else let! v := atoi tmp in Ret (Some v).

(** The address in a part. *)
Definition address_of (m : bytes) (k : nat) : outcome (option bytes) :=
  let! (r, tmp) := part_of m k 16 in
  if r =? -1 then Ret None else let! s := cstr tmp in Ret (inet_pton s).

Definition str_TCP : bytes := [84; 67; 80; 0].
Definition str_UDP : bytes := [85; 68; 80; 0].
Definition str_ICMP : bytes := [73; 67; 77; 80; 0].

(** The flow, or None for -1. *)
Definition emulator_transport_to_flowrec (flow : FLOW) (pkt : bytes) (protocol : Z) (ndx : bool) : outcome (option FLOW) :=
  let! tmpPacket := strcpy (junk 3) pkt in
  let! r := number_of tmpPacket 6 16 in
  match r with None => Ret None | Some v =>
  let sport := htons (wrap16 v) in
  let! r := number_of tmpPacket 7 16 in
  match r with None => Ret None | Some v =>
  let dport := htons (wrap16 v) in
  let ports := set2 (negb ndx) dport (set2 ndx sport (f_port flow)) in
  if protocol =? IPPROTO_TCP then
    let! (r, tmp) := part_of tmpPacket 13 16 in
    if r =? -1 then Ret None
    else
      match tmp with
      | [] => Undef OutOfBounds
      | c :: _ =>
          Ret (Some (set_f_tcp_flags (set2 ndx (Z.lor (at2 ndx (f_tcp_flags flow)) c) (f_tcp_flags flow))
                 (set_f_port ports flow)))
      end
  else if protocol =? IPPROTO_UDP then Ret (Some (set_f_port ports flow))
  else if protocol =? IPPROTO_ICMP then Undef Uninit      (* icmp_type and icmp_code are never set *)
  else Ret (Some flow)
  end end.

(** The protocol, None when it is never set, *isfrag and ip_off: the outer None
    for a part that is missing. *)
Definition emulator_protocol (tmpPacket : bytes) (isfrag : Z) : outcome (option (option Z * Z * option Z)) :=
  let! (r, tmp) := part_of tmpPacket 10 16 in
  if r =? -1 then Ret None
  else
    let! c := strcmp tmp str_TCP in
    if c =? 0 then
      let! f := number_of tmpPacket 11 20 in
      match f with
      | None => Ret None
      | Some isfrag =>
          if isfrag =? 1 then
            let! o := number_of tmpPacket 12 20 in
            match o with
            | None => Ret None
            | Some v => Ret (Some (Some IPPROTO_TCP, isfrag, Some (wrap16 v)))
            end
          else Ret (Some (Some IPPROTO_TCP, isfrag, None))
      end
    else
      let! c := strcmp tmp str_UDP in
      if c =? 0 then Ret (Some (Some IPPROTO_UDP, isfrag, None))
      else
        let! c := strcmp tmp str_ICMP in
        Ret (Some (if c =? 0 then Some IPPROTO_ICMP else None, isfrag, None)).

(** The flow, None for -1, *isfrag and *ndxx; [isfrag] is the value that the
    variable of the caller holds before. *)
Definition emulator_ipv4_to_flowrec (flow : FLOW) (pkt : bytes) (len isfrag af : Z)
    : outcome (option FLOW * Z * bool) :=
  let! tmpPacket := strcpy (junk 2) pkt in
  let! r := address_of tmpPacket 1 in
  match r with None => Ret (None, isfrag, false) | Some ip_src =>
  let! r := address_of tmpPacket 2 in
  match r with None => Ret (None, isfrag, false) | Some ip_dst =>
  let! r := emulator_protocol tmpPacket isfrag in
  match r with None => Ret (None, isfrag, false) | Some (ip_p, isfrag, ip_off) =>
  let ndx := 0 <? bytes_diff ip_src ip_dst in
  match ip_p with None => Undef Uninit | Some ip_p =>
  let flow := set_f_af af flow in
  let flow := set_f_addr (set2 ndx (set_v4_bytes ip_src (at2 ndx (f_addr flow))) (f_addr flow)) flow in
  let flow := set_f_addr (set2 (negb ndx) (set_v4_bytes ip_dst (at2 (negb ndx) (f_addr flow))) (f_addr flow)) flow in
  let flow := set_f_protocol ip_p flow in
  let flow := set_f_octets (set2 ndx (wrap32 len) (f_octets flow)) flow in
  let flow := set_f_packets (set2 ndx 1 (f_packets flow)) flow in
  let! r := number_of tmpPacket 8 16 in
  match r with None => Ret (None, isfrag, ndx) | Some v =>
  let flow := set_f_as_src (set2 ndx (wrap32 v) (f_as_src flow)) flow in
  let! r := number_of tmpPacket 9 16 in
  match r with None => Ret (None, isfrag, ndx) | Some v =>
  let flow := set_f_as_dst (set2 (negb ndx) (wrap32 v) (f_as_dst flow)) flow in
  let! later :=
    if isfrag =? 0 then Ret false
    else match ip_off with None => Undef Uninit | Some o => Ret (negb (ntohs o =? 0)) end in
  if later : bool then Ret (Some flow, isfrag, ndx)
  else
    let! r := emulator_transport_to_flowrec flow pkt ip_p ndx in
    Ret (r, isfrag, ndx)
  end end end end end end.

(** ** The monitors of a flow *)

Definition stat_of (f : FLOW) (ndx : bool) : PER_MONITOR_STAT :=
  Mk_PER_MONITOR_STAT (at2 ndx (f_octets f)) (at2 ndx (f_packets f)).

(** The first monitor of a new flow, whose traffic is taken from direction 0
    whatever the direction of the packet. *)
Definition first_monitor (ndx : bool) (adr : Z) (f : FLOW) : FLOW :=
  set_f_number_of_monitors (set2 (negb ndx) 0 (set2 ndx 1 (f_number_of_monitors f)))
    (set_f_monitor_stat (set2 ndx (<[0%nat := stat_of f false]> (at2 ndx (f_monitor_stat f))) (f_monitor_stat f))
      (set_f_emulator_monitor_adr
        (set2 ndx (<[0%nat := adr]> (at2 ndx (f_emulator_monitor_adr f))) (f_emulator_monitor_adr f)) f)).

(** The search for a monitor among the first [n] of the flow. *)
Fixpoint find_monitor (adr : Z) (adrs : list Z) (n : nat) {struct n} : outcome (option nat) :=
  match n with
  | O => Ret None
  | S n =>
      match adrs with
      | [] => Undef OutOfBounds
      | a :: adrs => if a =? adr then Ret (Some O) else let! r := find_monitor adr adrs n in Ret (S <$> r)
      end
  end.

(** The packet of [tmp] seen by a monitor: a new one, or more traffic. *)
Definition count_monitor (ndx : bool) (adr : Z) (tmp f : FLOW) : outcome FLOW :=
  let adrs := at2 ndx (f_emulator_monitor_adr f) in
  let stats := at2 ndx (f_monitor_stat f) in
  let n := at2 ndx (f_number_of_monitors f) in
  let! k := find_monitor adr adrs (Z.to_nat n) in
  match k with
  | None =>
      if (Z.to_nat n <? length adrs)%nat && (Z.to_nat n <? length stats)%nat then
        Ret (set_f_number_of_monitors (set2 ndx (wrap32 (n + 1)) (f_number_of_monitors f))
              (set_f_monitor_stat (set2 ndx (<[Z.to_nat n := stat_of tmp ndx]> stats) (f_monitor_stat f))
                (set_f_emulator_monitor_adr (set2 ndx (<[Z.to_nat n := adr]> adrs) (f_emulator_monitor_adr f)) f)))
      else Undef OutOfBounds
  | Some k =>
      match stats !! k with
      | None => Undef OutOfBounds
      | Some m =>
          let m := Mk_PER_MONITOR_STAT (wrap32 (ms_octets m + at2 ndx (f_octets tmp)))
                     (wrap32 (ms_packets m + at2 ndx (f_packets tmp))) in
          Ret (set_f_monitor_stat (set2 ndx (<[k := m]> stats) (f_monitor_stat f)) f)
      end
  end.

(** A packet that no monitor counted before. *)
Definition account_new (ndx : bool) (received_time : Z * Z) (tmp f : FLOW) : FLOW :=
  set_f_as_dst (set2 (negb ndx) (at2 (negb ndx) (f_as_dst tmp)) (f_as_dst f))
    (set_f_as_src (set2 ndx (at2 ndx (f_as_src tmp)) (f_as_src f))
      (set_f_flow_last received_time (account tmp f))).

(** ** process_emulator_packet *)

(** The packet of a new flow: the result for an allocation that failed, and
    otherwise the steps behind the insertion. *)
Definition new_emulator_flow (m1 m2 : bool) (pkt : bytes) (tmp : FLOW) (ndx : bool) (received_time : Z * Z) (s : emulator)
    : outcome (Z * emulator) :=
  let '(l, ft) := new_flow m1 m2 (set_f_flow_last received_time tmp) received_time (em_ft s) in
  let s := set_em_ft ft s in
  match l with
  | None => Ret (PP_MALLOC_FAIL, s)
  | Some l =>
      let! tmpPacket := strcpy (junk 1) pkt in
      let! (r, tmpEm) := part_of tmpPacket 0 16 in
      if r =? -1 then Ret (PP_BAD_PACKET, s)
      else
        let! ip := cstr tmpEm in
        match inet_pton ip with
        | None => Ret (PP_BAD_PACKET, s)
        | Some b =>
            let! flow := flow_get ft l in
            let s := set_em_ft (flow_put l (first_monitor ndx (le_val b) flow) ft) s in
            let! s := add_monitor ip s in
            Ret (PP_OK, s)
        end
  end.

(** The packet of a flow of the table. *)
Definition old_emulator_flow (tmpPacket : bytes) (tmp : FLOW) (ndx : bool) (received_time : Z * Z) (l : floc) (s : emulator)
    : outcome (Z * emulator) :=
  let! flow := flow_get (em_ft s) l in
  match f_expiry flow with
  | None => Undef NullDeref
  | Some e =>
      let! x := expiry_get (em_ft s) e in
      if e_expires_at x =? 0 then Ret (PP_OK, s)
      else
        let! (r, tmpEm) := part_of tmpPacket 0 16 in
        if r =? -1 then Ret (PP_BAD_PACKET, s)
        else
          let! ip := cstr tmpEm in
          let! s := add_monitor ip s in
          match inet_pton ip with
          | None => Ret (PP_BAD_PACKET, s)
          | Some b =>
              let! flow := count_monitor ndx (le_val b) tmp flow in
              let s := set_em_ft (flow_put l flow (em_ft s)) s in
              let! (r, alreadyReceived) := get_emulator_packet_part tmpPacket 14 (take 1 (junk 4)) in
              if r =? -1 then Ret (PP_BAD_PACKET, s)
              else
                let! a := atoi (alreadyReceived ++ drop 1 (junk 4)) in
                let flow := if a =? 0 then account_new ndx received_time tmp flow else flow in
                let! ft := flow_update_expiry l (flow_put l flow (em_ft s)) in
                Ret (PP_OK, set_em_ft ft s)
          end
  end.

(** [frag] is what the variable holds before it is set. *)
Definition process_emulator_packet (m1 m2 : bool) (pkt : bytes) (af len : Z) (frag : Z) (received_time : Z * Z) (s : emulator)
    : outcome (Z * emulator) :=
  let! tmpPacket := strcpy (junk 0) pkt in
  let s := set_em_ft (bump total_packets 1 (em_ft s)) s in
  let bad s := Ret (PP_BAD_PACKET, set_em_ft (bump bad_packets 1 (em_ft s)) s) in
  if negb (af =? AF_INET) then bad s
  else
    let! (r, frag, ndx) := emulator_ipv4_to_flowrec FLOW_zero tmpPacket len frag af in
    match r with
    | None => bad s
    | Some tmp =>
        let s := if negb (frag =? 0) then set_em_ft (bump frag_packets 1 (em_ft s)) s else s in
        let tmp := apply_track_level (track_level (ft_conf (em_ft s))) tmp in
        match FLOW_FIND tmp (em_ft s) with
        | None => new_emulator_flow m1 m2 pkt tmp ndx received_time s
        | Some l => old_emulator_flow tmpPacket tmp ndx received_time l s
        end
    end.

(** ** Messages *)

Definition end_text : bytes := [101; 110; 100; 0].

(** accept_emulator behind the reception of a message: 1 for the end of the
    transmission. *)
Definition accept_message (rand : nat -> Z) (m1 m2 : bool) (frag : Z) (buf : bytes) (ts : Z * Z) (s : emulator)
    : outcome (Z * emulator) :=
  let! c := strcmp buf end_text in
  if c =? 0 then Ret (1, s)
  else
    let! (_, tmp) := part_of buf 3 16 in
    let! len := atoi tmp in
    let! (r, tmp) := part_of buf 0 16 in
    if r =? -1 then Ret (-1, s)
    else
      let! ip := cstr tmp in
      let! (take_it, sm) := RandomPeriodicNodeSampling rand ip (em_sampling s) in
      let s := Mk_emulator (em_ft s) (emulator_monitors_adrs s) (nbr_monitors s) sm in
      if take_it =? 1 then
        let! (_, s) := process_emulator_packet m1 m2 buf AF_INET (wrap32 len) frag ts s in Ret (0, s)
      else Ret (0, s).

(** The array is of 1024 bytes, and the function sets buf[1024]. *)
Definition accept_emulator (rand : nat -> Z) (m1 m2 : bool) (frag : Z) (rlen : option bytes) (ts : Z * Z) (s : emulator)
    : outcome (Z * emulator) :=
  match rlen with
  | None => Ret (-1, s)
  | Some msg =>
      let! buf := wr (take 1024 msg ++ replicate (1024 - length msg) 0) 1024 [0] in
      accept_message rand m1 m2 frag buf ts s
  end.
End emulator.
