(* ===== verification/EmulatorProps.v ===== *)
(** * What the packets of the emulator do to the table of flows

    A message with its parts in order gives the flow that [message_flow] states,
    and process_emulator_packet enters that flow or brings it up to date; each
    monitor that sees the flow has its own counts ([monitors]); [reported] says which
    flows the table has after a message, monitor by monitor. *)

From stdpp Require Import gmap.
From S2P Require Import Prelude CString Packed Order Splay Keyed.
From S2P Require Import Addr SoftTypes Ipflow FlowTrack FlowTable FlowTrackProps.
From S2P Require Import Sampling SamplingProps Control Emulator.

(** ** Messages *)

Record message := Mk_message {
  ms_monitor : bytes; ms_src : bytes; ms_dst : bytes; ms_len : bytes; ms_4 : bytes; ms_5 : bytes;
  ms_sport : bytes; ms_dport : bytes; ms_as_src : bytes; ms_as_dst : bytes; ms_proto : bytes;
  ms_frag : bytes; ms_off : bytes; ms_flags : bytes;
  ms_already : bytes
}.

Definition first_parts (m : message) : list bytes :=
  [ms_monitor m; ms_src m; ms_dst m; ms_len m; ms_4 m; ms_5 m; ms_sport m; ms_dport m; ms_as_src m; ms_as_dst m;
   ms_proto m; ms_frag m; ms_off m; ms_flags m].
Definition message_text (m : message) : bytes := seps (first_parts m) ++ ms_already m.

Definition TCP_text : bytes := [84; 67; 80].
Definition UDP_text : bytes := [85; 68; 80].

Definition short_number (d : bytes) : Prop := number d /\ (length d < 16)%nat.

Section emulator.
Context (inet_pton : bytes -> option bytes) (inet_ntoa : Z -> bytes) (junk : nat -> bytes).

(** The C library gives four bytes; the arrays on the stack have their sizes, and
    the byte behind alreadyReceived is not a digit. *)
Class Library : Prop := {
  lib_pton s b : inet_pton s = Some b -> length b = 4%nat /\ Forall u8 b;
  lib_junk i : (i < 4)%nat -> length (junk i) = 100%nat;
  lib_behind : exists a c r, junk 4%nat = a :: c :: r /\ isdigit c = false
}.
Context `{Library}.

(** A message of TCP or UDP with the three addresses [mon], [src] and [dst]. *)
Record message_ok (m : message) (mon src dst : bytes) : Prop := {
  mo_parts : Forall part (first_parts m);
  mo_first : ms_monitor m <> [];
  mo_already : exists c, ms_already m = [c] /\ isdigit c = true;
  mo_size : (length (message_text m) < 100)%nat;
  mo_addrs : (length (ms_monitor m) < 16)%nat /\ (length (ms_src m) < 16)%nat /\ (length (ms_dst m) < 16)%nat;
  mo_mon : inet_pton (ms_monitor m) = Some mon;
  mo_src : inet_pton (ms_src m) = Some src;
  mo_dst : inet_pton (ms_dst m) = Some dst;
  mo_len : short_number (ms_len m);
  mo_ports : short_number (ms_sport m) /\ short_number (ms_dport m);
  mo_as : short_number (ms_as_src m) /\ short_number (ms_as_dst m);
  mo_proto : ms_proto m = TCP_text \/ ms_proto m = UDP_text;
  mo_frag : ms_proto m = TCP_text ->
    number (ms_frag m) /\ (dec (ms_frag m) = 0 \/ dec (ms_frag m) = 1 /\ number (ms_off m)) /\
    (0 < length (ms_flags m) < 16)%nat /\ Forall u8 (ms_flags m)
}.

(** Whether a message is of a fragment, and of one that is not the first. *)
Definition message_tcp (m : message) : bool := bool_decide (ms_proto m = TCP_text).
Definition message_frag (m : message) (frag : Z) : Z := if message_tcp m then dec (ms_frag m) else frag.
Definition message_later (m : message) : bool :=
  message_tcp m && (dec (ms_frag m) =? 1) && negb (ntohs (wrap16 (dec (ms_off m))) =? 0).

(** The flow of a message, without and with the transport header. *)
Definition message_base (m : message) (src dst : bytes) (ndx : bool) : FLOW :=
  let f := set_f_addr (orient ndx (src ++ replicate 12 0, dst ++ replicate 12 0)) (set_f_af AF_INET FLOW_zero) in
  let f := set_f_protocol (if message_tcp m then IPPROTO_TCP else IPPROTO_UDP) f in
  let f := set_f_packets (orient ndx (1, 0)) (set_f_octets (orient ndx (dec (ms_len m), 0)) f) in
  set_f_as_dst (orient ndx (0, dec (ms_as_dst m))) (set_f_as_src (orient ndx (dec (ms_as_src m), 0)) f).
Definition message_header (m : message) (ndx : bool) (f : FLOW) : FLOW :=
  let f := set_f_port (orient ndx (htons (wrap16 (dec (ms_sport m))), htons (wrap16 (dec (ms_dport m))))) f in
  if message_tcp m then set_f_tcp_flags (orient ndx (hd 0 (ms_flags m), 0)) f else f.
Definition message_ndx (src dst : bytes) : bool := 0 <? bytes_diff src dst.
Definition message_flow (m : message) (src dst : bytes) : FLOW :=
  let f := message_base m src dst (message_ndx src dst) in
  if message_later m then f else message_header m (message_ndx src dst) f.

(** Copies of the text of a message on the stack. *)
Definition copy_of (m : message) (b : bytes) : Prop := exists r, b = message_text m ++ 0 :: r.

Lemma message_is_text m mon src dst : message_ok m mon src dst -> text (message_text m).
Proof.
  intros Hm. unfold message_text. apply Forall_app. split; [apply seps_text, (mo_parts _ _ _ _ Hm)|].
  destruct (mo_already _ _ _ _ Hm) as (c & -> & Hc). constructor; [|constructor]. unfold isdigit in Hc. lia.
Qed.

Lemma strcpy_message m mon src dst i b : message_ok m mon src dst -> copy_of m b -> (i < 4)%nat ->
  exists b', strcpy (junk i) b = Ret b' /\ copy_of m b'.
Proof.
  intros Hm [r ->] Hi. pose proof (mo_size _ _ _ _ Hm) as Hs. unfold strcpy.
  rewrite cstr_app by (by eapply message_is_text). cbn [obind].
  rewrite <- (take_drop (S (length (message_text m))) (junk i)), wr_head.
  - eexists. split; [reflexivity|]. exists (drop (S (length (message_text m))) (junk i)). by rewrite <- app_assoc.
  - rewrite length_app, length_take, lib_junk by done. cbn [length]. lia.
Qed.

(** Each part of a copy. *)
Lemma part_of_ok m mon src dst b k p size : message_ok m mon src dst -> copy_of m b ->
  first_parts m !! k = Some p -> (length p < size)%nat ->
  part_of b k size = Ret (0, p ++ 0 :: replicate (size - length p - 1) 0).
Proof.
  intros Hm [r ->] Hk Hl. unfold part_of, get_emulator_packet_part, message_text. rewrite <- app_assoc.
  rewrite (get_part_ok MAX_EMULATOR_MESSAGE_PARTS (first_parts m) (ms_already m) r k p).
  - by rewrite drop_replicate_pos.
  - apply (mo_parts _ _ _ _ Hm).
  - destruct (mo_already _ _ _ _ Hm) as (c & -> & Hc). constructor; [|constructor]. unfold isdigit in Hc. lia.
  - done.
  - apply (mo_first _ _ _ _ Hm).
  - rewrite lookup_app_l; [done|]. by apply lookup_lt_Some in Hk.
  - rewrite length_replicate. lia.
Qed.

Lemma number_of_ok m mon src dst b k p size : message_ok m mon src dst -> copy_of m b ->
  first_parts m !! k = Some p -> number p -> (length p < size)%nat -> number_of b k size = Ret (Some (dec p)).
Proof.
  intros Hm Hb Hk (Hne & Hd & _ & Hv) Hl. unfold number_of. rewrite (part_of_ok m mon src dst b k p size) by done.
  cbn [obind]. change (0 =? -1) with false. cbv iota. by rewrite atoi_digits.
Qed.

Lemma address_of_ok m mon src dst b k p : message_ok m mon src dst -> copy_of m b ->
  first_parts m !! k = Some p -> (length p < 16)%nat -> address_of inet_pton b k = Ret (inet_pton p).
Proof.
  intros Hm Hb Hk Hl. unfold address_of. rewrite (part_of_ok m mon src dst b k p 16) by done. cbn [obind].
  change (0 =? -1) with false. cbv iota. rewrite cstr_app; [done|].
  apply part_text. eapply Forall_lookup_1; [apply (mo_parts _ _ _ _ Hm)|exact Hk].
Qed.

Lemma dec_range p : number p -> u32 (dec p).
Proof.
  intros (_ & Hd & _ & Hv). pose proof (dec_nonneg p 0 Hd ltac:(done)) as H0. fold (dec p) in H0. width. lia.
Qed.

(** The protocol part. *)
Lemma protocol_ok m mon src dst b isfrag : message_ok m mon src dst -> copy_of m b ->
  exists off, emulator_protocol b isfrag =
    Ret (Some (Some (if message_tcp m then IPPROTO_TCP else IPPROTO_UDP), message_frag m isfrag, off)) /\
    (message_tcp m = true -> dec (ms_frag m) = 1 -> off = Some (wrap16 (dec (ms_off m)))).
Proof.
  intros Hm Hb. unfold emulator_protocol, message_frag, message_tcp.
  destruct (mo_proto _ _ _ _ Hm) as [Hp|Hp]; rewrite Hp.
  - rewrite (part_of_ok m mon src dst b 10 TCP_text 16) by first [done|by rewrite <- Hp|cbn; lia]. cbn [obind].
    change (0 =? -1) with false. cbv iota. change (strcmp _ str_TCP) with (@Ret Z 0). cbn [obind].
    change (0 =? 0) with true. cbv iota. rewrite bool_decide_eq_true_2 by done.
    destruct (mo_frag _ _ _ _ Hm Hp) as (Hf & Hfo & _).
    rewrite (number_of_ok m mon src dst b 11 (ms_frag m) 20) by (done || apply Hf). cbn [obind].
    destruct (Z.eqb_spec (dec (ms_frag m)) 1) as [E|E].
    + destruct Hfo as [Hfo|[_ Hfo]]; [lia|].
      rewrite (number_of_ok m mon src dst b 12 (ms_off m) 20) by (done || apply Hfo). cbn [obind].
      eexists. by split.
    + eexists. by split.
  - rewrite (part_of_ok m mon src dst b 10 UDP_text 16) by first [done|by rewrite <- Hp|cbn; lia]. cbn [obind].
    change (0 =? -1) with false. cbv iota. change (strcmp _ str_TCP) with (@Ret Z 1). cbn [obind].
    change (1 =? 0) with false. cbv iota. change (strcmp _ str_UDP) with (@Ret Z 0). cbn [obind].
    eexists. split; [reflexivity|done].
Qed.

Lemma emulator_transport_ok m mon src dst b f ndx : message_ok m mon src dst -> copy_of m b ->
  f_port f = (0, 0) -> f_tcp_flags f = (0, 0) ->
  emulator_transport_to_flowrec junk f b (if message_tcp m then IPPROTO_TCP else IPPROTO_UDP) ndx =
    Ret (Some (message_header m ndx f)).
Proof.
  intros Hm Hb Hport Hflags. unfold emulator_transport_to_flowrec.
  destruct (strcpy_message m mon src dst 3 b Hm Hb) as (b' & -> & Hb'); [lia|]. cbn [obind].
  destruct (mo_ports _ _ _ _ Hm) as [[Hs Hsl] [Hd Hdl]].
  rewrite (number_of_ok m mon src dst b' 6 (ms_sport m) 16) by done. cbn [obind].
  rewrite (number_of_ok m mon src dst b' 7 (ms_dport m) 16) by done. cbn [obind]. cbv zeta.
  rewrite Hport, Hflags. unfold message_header, message_tcp. destruct (mo_proto _ _ _ _ Hm) as [Hp|Hp]; rewrite Hp.
  - rewrite bool_decide_eq_true_2 by done. cbv iota. change (IPPROTO_TCP =? IPPROTO_TCP) with true. cbv iota.
    destruct (mo_frag _ _ _ _ Hm Hp) as (_ & _ & Hfl & _).
    rewrite (part_of_ok m mon src dst b' 13 (ms_flags m) 16) by (done || lia). cbn [obind].
    change (0 =? -1) with false. cbv iota. destruct (ms_flags m) as [|c r]; [cbn in Hfl; lia|]. cbn [app hd].
    by destruct ndx.
  - rewrite bool_decide_eq_false_2 by done. cbv iota. change (IPPROTO_UDP =? IPPROTO_TCP) with false.
    change (IPPROTO_UDP =? IPPROTO_UDP) with true. cbv iota. by destruct ndx.
Qed.

(** A message is read as its flow; for UDP, when the variable that nobody sets
    holds 0. *)
Lemma emulator_ipv4_ok m mon src dst b frag : message_ok m mon src dst -> copy_of m b ->
  (message_tcp m = false -> frag = 0) ->
  emulator_ipv4_to_flowrec inet_pton junk FLOW_zero b (dec (ms_len m)) frag AF_INET =
    Ret (Some (message_flow m src dst), message_frag m frag, message_ndx src dst).
Proof.
  intros Hm Hb Hfrag. unfold emulator_ipv4_to_flowrec.
  destruct (strcpy_message m mon src dst 2 b Hm Hb) as (b' & -> & Hb'); [lia|]. cbn [obind].
  destruct (mo_addrs _ _ _ _ Hm) as (_ & Hls & Hld).
  rewrite (address_of_ok m mon src dst b' 1 (ms_src m)), (mo_src _ _ _ _ Hm) by done. cbn [obind].
  rewrite (address_of_ok m mon src dst b' 2 (ms_dst m)), (mo_dst _ _ _ _ Hm) by done. cbn [obind].
  destruct (protocol_ok m mon src dst b' frag Hm Hb') as (off & -> & Hoff). cbn [obind]. cbv zeta.
  destruct (mo_as _ _ _ _ Hm) as [[Has Hasl] [Had Hadl]].
  rewrite (number_of_ok m mon src dst b' 8 (ms_as_src m) 16) by done. cbn [obind].
  rewrite (number_of_ok m mon src dst b' 9 (ms_as_dst m) 16) by done. cbn [obind].
  rewrite !(wrap32_small (dec _)) by (apply dec_range; try done; apply (mo_len _ _ _ _ Hm)).
  destruct (lib_pton _ _ (mo_src _ _ _ _ Hm)) as [Hl4s _], (lib_pton _ _ (mo_dst _ _ _ _ Hm)) as [Hl4d _].
  unfold message_flow, message_base. fold (message_ndx src dst). set (ndx := message_ndx src dst).
  assert ((let! later := if message_frag m frag =? 0 then Ret false
                         else match off with None => Undef Uninit | Some o => Ret (negb (ntohs o =? 0)) end in
           Ret later) = Ret (message_later m)) as Hlater.
  { unfold message_frag, message_later. destruct (message_tcp m) eqn:Et; cbn [andb].
    - assert (ms_proto m = TCP_text) as Hp by (unfold message_tcp in Et; by apply bool_decide_eq_true_1 in Et).
      destruct (mo_frag _ _ _ _ Hm Hp) as (_ & [E|[E _]] & _); rewrite E; [done|]. by rewrite Hoff.
    - by rewrite (Hfrag eq_refl). }
  destruct (if message_frag m frag =? 0 then Ret false
            else match off with None => Undef Uninit | Some o => Ret (negb (ntohs o =? 0)) end) as [later| | |]; try done.
  cbn [obind] in Hlater |- *. apply Ret_inj in Hlater as ->.
  assert (set_v4_bytes src (replicate 16 0) = src ++ replicate 12 0 /\ set_v4_bytes dst (replicate 16 0) = dst ++ replicate 12 0)
    as [Es Ed] by done.
  destruct (message_later m).
  - do 2 f_equal. unfold FLOW_zero. by destruct ndx.
  - rewrite (emulator_transport_ok m mon src dst b) by (done || by destruct ndx). cbn [obind]. cbv zeta.
    do 3 f_equal. unfold FLOW_zero. by destruct ndx, (message_tcp m).
Qed.

(** Assignments of ports and flags in range. *)
Lemma flow_port_ok v f : FLOW_ok f -> both2 u16 v -> FLOW_ok (set_f_port v f).
Proof. intros [] Hv. by constructor. Qed.
Lemma flow_flags_ok v f : FLOW_ok f -> both2 u8 v -> FLOW_ok (set_f_tcp_flags v f).
Proof. intros [] Hv. by constructor. Qed.

Lemma flow_addr_ok af a f : FLOW_ok f -> both2 (fun a => length a = 16%nat /\ Forall u8 a) a ->
  FLOW_ok (set_f_addr a (set_f_af af f)).
Proof. intros [] Hv. by constructor. Qed.
Lemma flow_counts_ok o n f : FLOW_ok f -> both2 u32 o -> both2 u32 n -> FLOW_ok (set_f_packets n (set_f_octets o f)).
Proof. intros [] Ho Hn. by constructor. Qed.
Lemma flow_as_ok a b f : FLOW_ok f -> both2 u32 a -> both2 u32 b -> FLOW_ok (set_f_as_dst b (set_f_as_src a f)).
Proof. intros [] Ha Hb. by constructor. Qed.

(** The flow is well formed. *)
Lemma message_base_ok m mon src dst ndx : message_ok m mon src dst -> FLOW_ok (message_base m src dst ndx).
Proof.
  intros Hm. destruct (lib_pton _ _ (mo_src _ _ _ _ Hm)) as [Hl4s Hus], (lib_pton _ _ (mo_dst _ _ _ _ Hm)) as [Hl4d Hud].
  destruct (mo_as _ _ _ _ Hm) as [[Has%dec_range _] [Had%dec_range _]].
  destruct (mo_len _ _ _ _ Hm) as [Hlen%dec_range _].
  assert (u32 0 /\ u32 1) as [H0 H1] by (split; width; lia).
  apply flow_as_ok; [|apply both2_orient; by split|apply both2_orient; by split].
  apply flow_counts_ok; [|apply both2_orient; by split|apply both2_orient; by split].
  apply flow_protocol_ok; [|by destruct (message_tcp m)].
  apply flow_addr_ok; [apply FLOW_zero_ok|]. apply both2_orient.
  split; (split; [cbn [fst snd]; rewrite length_app, length_replicate; lia|
    apply Forall_app; split; [done|]; apply Forall_replicate; by width]).
Qed.

Lemma message_header_ok m mon src dst ndx f : message_ok m mon src dst -> FLOW_ok f -> FLOW_ok (message_header m ndx f).
Proof.
  intros Hm Hf. unfold message_header.
  assert (FLOW_ok (set_f_port (orient ndx (htons (wrap16 (dec (ms_sport m))), htons (wrap16 (dec (ms_dport m))))) f)) as Hf1.
  { apply flow_port_ok; [done|]. apply both2_orient. split; apply htons_u16. }
  destruct (message_tcp m) eqn:Et; [|exact Hf1]. apply flow_flags_ok; [exact Hf1|]. apply both2_orient. split; [|by width].
  assert (ms_proto m = TCP_text) as Hp by (unfold message_tcp in Et; by apply bool_decide_eq_true_1 in Et).
  destruct (mo_frag _ _ _ _ Hm Hp) as (_ & _ & Hfl & Hu). destruct (ms_flags m) as [|c r]; [cbn in Hfl; lia|].
  by apply Forall_cons in Hu as [Hc _].
Qed.

Lemma message_flow_ok m mon src dst : message_ok m mon src dst ->
  FLOW_ok (message_flow m src dst) /\ f_expiry (message_flow m src dst) = None.
Proof.
  intros Hm. pose proof (message_base_ok m mon src dst (message_ndx src dst) Hm) as Hb. unfold message_flow.
  destruct (message_later m); [split; [exact Hb|reflexivity]|].
  split; [by eapply message_header_ok|]. unfold message_header. by destruct (message_tcp m).
Qed.
End emulator.

(** ** The counts of the monitors *)

Definition monitors (f : FLOW) (ndx : bool) : gmap Z PER_MONITOR_STAT :=
  let n := Z.to_nat (at2 ndx (f_number_of_monitors f)) in
  list_to_map (zip (take n (at2 ndx (f_emulator_monitor_adr f))) (take n (at2 ndx (f_monitor_stat f)))).

(** No more monitors than the arrays hold, each one once. *)
Definition monitors_ok (f : FLOW) : Prop :=
  forall ndx, at2 ndx (f_number_of_monitors f) <= DEFAULT_MAXIMUM_NUMBER_OF_EMULATORS /\
    NoDup (take (Z.to_nat (at2 ndx (f_number_of_monitors f))) (at2 ndx (f_emulator_monitor_adr f))).

Definition more_traffic (old : option PER_MONITOR_STAT) (m : PER_MONITOR_STAT) : PER_MONITOR_STAT :=
  match old with
  | None => m
  | Some o => Mk_PER_MONITOR_STAT (wrap32 (ms_octets o + ms_octets m)) (wrap32 (ms_packets o + ms_packets m))
  end.

Lemma find_monitor_ok adr adrs n : (n <= length adrs)%nat ->
  exists r, find_monitor adr adrs n = Ret r /\
    match r with
    | Some k => (k < n)%nat /\ adrs !! k = Some adr
    | None => adr ∉ take n adrs
    end.
Proof.
  revert adrs. induction n as [|n IH]; intros adrs Hl; [exists None; split; [reflexivity|rewrite take_0; apply not_elem_of_nil]|].
  destruct adrs as [|a adrs]; [cbn in Hl; lia|]. cbn [find_monitor]. destruct (Z.eqb_spec a adr) as [->|Hne].
  { exists (Some 0%nat). split; [done|]. split; [lia|done]. }
  destruct (IH adrs) as (r & -> & Hr); [cbn in Hl; lia|]. cbn [obind]. exists (S <$> r). split; [done|].
  destruct r as [k|]; cbn.
  - split; [lia|apply Hr].
  - intros [->|?]%elem_of_cons; done.
Qed.

(** An association list kept in two arrays. *)
Definition assoc {V} (ks : list Z) (vs : list V) (n : nat) : gmap Z V := list_to_map (zip (take n ks) (take n vs)).

Lemma assoc_lookup {V} (ks : list Z) (vs : list V) n a v : NoDup (take n ks) -> (n <= length ks)%nat -> (n <= length vs)%nat ->
  assoc ks vs n !! a = Some v <-> exists k, (k < n)%nat /\ ks !! k = Some a /\ vs !! k = Some v.
Proof.
  intros Hnd Hk Hv. unfold assoc. rewrite <- elem_of_list_to_map.
  2:{ rewrite fst_zip; [done|]. rewrite !length_take. lia. }
  rewrite list_elem_of_lookup. split.
  - intros [k E]. rewrite lookup_zip_with in E. destruct (take n ks !! k) as [x|] eqn:Ex; [|done].
    destruct (take n vs !! k) as [y|] eqn:Ey; [|done]. injection E as -> ->. exists k.
    apply lookup_take_Some in Ex as [Ex Hlt], Ey as [Ey _]. done.
  - intros (k & Hlt & Ex & Ey). exists k. rewrite lookup_zip_with, !lookup_take_lt, Ex, Ey by done. done.
Qed.

Lemma assoc_append {V} (ks : list Z) (vs : list V) n a v : NoDup (take n ks) -> (n < length ks)%nat -> (n < length vs)%nat ->
  a ∉ take n ks ->
  assoc (<[n := a]> ks) (<[n := v]> vs) (S n) = <[a := v]> (assoc ks vs n) /\ assoc ks vs n !! a = None /\
  NoDup (take (S n) (<[n := a]> ks)).
Proof.
  intros Hnd Hk Hv Hin.
  assert (forall {X} (l : list X) x, (n < length l)%nat -> take (S n) (<[n := x]> l) = take n l ++ [x]) as Htake.
  { intros X l x Hl. rewrite (take_S_r _ _ x) by (by apply list_lookup_insert_eq). by rewrite take_insert_ge. }
  split; [|split].
  - unfold assoc. rewrite !Htake by done. rewrite zip_with_app by (rewrite !length_take; lia).
    rewrite list_to_map_app. cbn. rewrite insert_empty. apply map_eq. intros b.
    rewrite lookup_union. destruct (decide (b = a)) as [->|Hne].
    + rewrite lookup_insert_eq. rewrite (not_elem_of_list_to_map_1 (zip (take n ks) (take n vs)) a); [by rewrite lookup_singleton_eq|].
      rewrite fst_zip; [done|]. rewrite !length_take. lia.
    + rewrite lookup_insert_ne, lookup_singleton_ne by done. by destruct (_ !! b).
  - apply not_elem_of_list_to_map_1. rewrite fst_zip; [done|]. rewrite !length_take. lia.
  - rewrite Htake by done. apply NoDup_app. split; [done|]. split; [|apply NoDup_singleton].
    intros x Hx ->%list_elem_of_singleton. done.
Qed.

Lemma assoc_update {V} (ks : list Z) (vs : list V) n k a v : NoDup (take n ks) -> (n <= length ks)%nat -> (n <= length vs)%nat ->
  (k < n)%nat -> ks !! k = Some a -> assoc ks (<[k := v]> vs) n = <[a := v]> (assoc ks vs n).
Proof.
  intros Hnd Hk Hv Hlt Ha. apply map_eq. intros b. apply option_eq. intros w.
  rewrite lookup_insert_Some, !assoc_lookup by (rewrite ?length_insert; done). split.
  - intros (i & Hi & Hb & Hw). destruct (decide (i = k)) as [->|Hne].
    + rewrite list_lookup_insert_eq in Hw by lia. injection Hw as ->. left. split; congruence.
    + rewrite list_lookup_insert_ne in Hw by done. right. split; [|by exists i]. intros <-. apply Hne.
      apply (NoDup_lookup (take n ks) i k a Hnd); by rewrite lookup_take_lt.
  - intros [[<- <-]|[Hne (i & Hi & Hb & Hw)]].
    + exists k. rewrite list_lookup_insert_eq by lia. done.
    + exists i. rewrite list_lookup_insert_ne; [done|]. intros ->. congruence.
Qed.

(** A packet seen by a monitor: its counts for the direction of the packet grow,
    and nothing else of the flow changes. *)
Lemma count_monitor_ok ndx adr tmp f : FLOW_ok tmp -> FLOW_ok f -> monitors_ok f -> u32 adr ->
  at2 ndx (f_number_of_monitors f) < DEFAULT_MAXIMUM_NUMBER_OF_EMULATORS \/ is_Some (monitors f ndx !! adr) ->
  exists adrs stats number, 
    let f' := set_f_number_of_monitors number (set_f_monitor_stat stats (set_f_emulator_monitor_adr adrs f)) in
    count_monitor ndx adr tmp f = Ret f' /\ FLOW_ok f' /\ monitors_ok f' /\
    monitors f' ndx = <[adr := more_traffic (monitors f ndx !! adr) (stat_of tmp ndx)]> (monitors f ndx) /\
    monitors f' (negb ndx) = monitors f (negb ndx).
Proof.
  intros Htmp Hf Hm Hadr Hroom. destruct (Hm ndx) as [Hle Hnd].
  pose proof (both2_at _ _ ndx (fo_monitors f Hf)) as [Hla Hua]. pose proof (both2_at _ _ ndx (fo_stats f Hf)) as [Hls Hus].
  pose proof (both2_at _ _ ndx (fo_number f Hf)) as Hn. unfold u32, DEFAULT_MAXIMUM_NUMBER_OF_EMULATORS in *.
  set (n := Z.to_nat (at2 ndx (f_number_of_monitors f))) in *.
  set (adrs := at2 ndx (f_emulator_monitor_adr f)) in *. set (stats := at2 ndx (f_monitor_stat f)) in *.
  assert (monitors f ndx = assoc adrs stats n) as Em by done.
  destruct (find_monitor_ok adr adrs n) as (r & Er & Hr); [lia|].
  pose proof (both2_at _ _ ndx (fo_octets tmp Htmp)) as Ho. pose proof (both2_at _ _ ndx (fo_packets tmp Htmp)) as Hp.
  unfold count_monitor. fold n adrs stats. rewrite Er. cbn [obind]. destruct r as [k|].
  - destruct Hr as [Hk Ha]. destruct (lookup_lt_is_Some_2 stats k) as [s Hs]; [lia|]. rewrite Hs.
    assert (assoc adrs stats n !! adr = Some s) as Hold by (apply assoc_lookup; [done|lia|lia|by exists k]).
    rewrite Em, Hold. cbn [more_traffic stat_of ms_octets ms_packets]. set (s' := Mk_PER_MONITOR_STAT _ _).
    exists (f_emulator_monitor_adr f), (set2 ndx (<[k := s']> stats) (f_monitor_stat f)), (f_number_of_monitors f). cbv zeta.
    assert (stat_ok s') as Hs' by (split; apply wrap32_u32).
    split; [by destruct f|]. split; [|split; [|split]].
    + destruct Hf. constructor; try done. apply both2_set; [done|]. rewrite length_insert. split; [done|]. by apply Forall_insert.
    + exact Hm.
    + rewrite <- (assoc_update adrs stats n k adr s') by (done || lia). unfold monitors, assoc. cbn. by destruct ndx.
    + unfold monitors. cbn. by destruct ndx.
  - assert ((n < 50)%nat) as Hlt.
    { destruct Hroom as [Hroom|[s Hs]]; [lia|]. rewrite Em in Hs. apply assoc_lookup in Hs as (k & Hk & Ha & _); [|done|lia|lia].
      destruct Hr. apply list_elem_of_lookup. exists k. by rewrite lookup_take_lt. }
    rewrite Hla, Hls. rewrite (proj2 (Nat.ltb_lt _ _)) by done. cbn [andb].
    destruct (assoc_append adrs stats n adr (stat_of tmp ndx) Hnd) as (Happ & Hnone & Hnd'); [lia|lia|done|].
    rewrite Em, Hnone. cbn [more_traffic].
    eexists (set2 ndx (<[n := adr]> adrs) (f_emulator_monitor_adr f)), (set2 ndx (<[n := stat_of tmp ndx]> stats) (f_monitor_stat f)),
      (set2 ndx (wrap32 (at2 ndx (f_number_of_monitors f) + 1)) (f_number_of_monitors f)). cbv zeta.
    rewrite wrap32_small by (width; lia).
    split; [done|]. split; [|split; [|split]].
    + destruct Hf. constructor; try done.
      * apply both2_set; [done|]. rewrite length_insert. split; [done|]. by apply Forall_insert.
      * apply both2_set; [done|]. rewrite length_insert. split; [done|]. by apply Forall_insert.
      * apply both2_set; [done|]. width. lia.
    + intros i. cbn. destruct (decide (i = ndx)) as [->|Hi].
      * assert (forall {A} (v : A) p, at2 ndx (set2 ndx v p) = v) as Hat by (by destruct ndx).
        rewrite !Hat. replace (Z.to_nat (at2 ndx (f_number_of_monitors f) + 1)) with (S n) by lia.
        unfold DEFAULT_MAXIMUM_NUMBER_OF_EMULATORS. split; [lia|done].
      * assert (forall {A} (v : A) p, at2 i (set2 ndx v p) = at2 i p) as Hat by (by destruct i, ndx). rewrite !Hat. apply Hm.
    + rewrite <- Happ. unfold monitors, assoc. cbn.
      assert (forall {A} (v : A) p, at2 ndx (set2 ndx v p) = v) as Hat by (by destruct ndx).
      rewrite !Hat. by replace (Z.to_nat (at2 ndx (f_number_of_monitors f) + 1)) with (S n) by lia.
    + unfold monitors. cbn. by destruct ndx.
Qed.

Lemma first_monitor_ok ndx adr f : FLOW_ok f -> u32 adr -> FLOW_ok (first_monitor ndx adr f) /\
  monitors_ok (first_monitor ndx adr f) /\
  monitors (first_monitor ndx adr f) ndx = {[ adr := stat_of f false ]} /\ monitors (first_monitor ndx adr f) (negb ndx) = ∅.
Proof.
  intros Hf Hadr. pose proof (both2_at _ _ ndx (fo_monitors f Hf)) as [Hla Hua]. pose proof (both2_at _ _ ndx (fo_stats f Hf)) as [Hls Hus].
  assert (stat_ok (stat_of f false)) as Hs by (split; [apply (fo_octets f Hf)|apply (fo_packets f Hf)]).
  assert (forall {A} (v : A) p, at2 ndx (set2 ndx v p) = v) as Hat by (by destruct ndx).
  assert (forall {A} (v : A) p, at2 (negb ndx) (set2 ndx v p) = at2 (negb ndx) p) as Hat' by (by destruct ndx).
  assert (forall {A} (v : A) p, at2 (negb ndx) (set2 (negb ndx) v p) = v) as Hat2 by (by destruct ndx).
  assert (forall {A} (v : A) p, at2 ndx (set2 (negb ndx) v p) = at2 ndx p) as Hat3 by (by destruct ndx).
  assert (forall {X} (l : list X) x, (0 < length l)%nat -> take 1 (<[0%nat := x]> l) = [x]) as Htake.
  { intros X [|y l] x Hl; [cbn in Hl; lia|]. done. }
  assert (u32 0 /\ u32 1) as [H0 H1] by (split; width; lia).
  split; [|split; [|split]].
  - destruct Hf. constructor; try assumption.
    + apply both2_set; [done|]. rewrite length_insert. split; [done|]. by apply Forall_insert.
    + apply both2_set; [done|]. rewrite length_insert. split; [done|]. by apply Forall_insert.
    + apply both2_set; [|done]. by apply both2_set.
  - intros i. unfold first_monitor. cbn [f_number_of_monitors f_emulator_monitor_adr set_f_number_of_monitors set_f_monitor_stat set_f_emulator_monitor_adr].
    unfold DEFAULT_MAXIMUM_NUMBER_OF_EMULATORS. destruct (decide (i = ndx)) as [->|Hi].
    + rewrite Hat3, !Hat. change (Z.to_nat 1) with 1%nat. rewrite Htake by lia. split; [lia|apply NoDup_singleton].
    + assert (i = negb ndx) as -> by (by destruct i, ndx). rewrite Hat2. change (Z.to_nat 0) with 0%nat. rewrite take_0. split; [lia|constructor].
  - unfold monitors, first_monitor. cbn [f_number_of_monitors f_emulator_monitor_adr f_monitor_stat set_f_number_of_monitors set_f_monitor_stat set_f_emulator_monitor_adr].
    rewrite Hat3, !Hat. change (Z.to_nat 1) with 1%nat. rewrite !Htake by lia. done.
  - unfold monitors, first_monitor. cbn [f_number_of_monitors f_emulator_monitor_adr f_monitor_stat set_f_number_of_monitors set_f_monitor_stat set_f_emulator_monitor_adr].
    rewrite Hat2. change (Z.to_nat 0) with 0%nat. by rewrite !take_0.
Qed.

(** ** What a message says, and what becomes of its flow *)

(** The TCP flags that count at a tracking level. *)
Definition message_flags (level : Z) (m : message) : Z :=
  if message_tcp m && negb (message_later m) && negb (level =? TRACK_IP_ONLY) && negb (level =? TRACK_IP_PROTO)
  then hd 0 (ms_flags m) else 0.

(** Addition in the slot of a direction. *)
Definition add_at (ndx : bool) (n : Z) (p : Z * Z) : Z * Z :=
  if ndx then (fst p, wrap32 (snd p + n)) else (wrap32 (fst p + n), snd p).

(** A flow that its first message enters: one packet of the length that the
    message says, in the direction of the packet, and one monitor.  That one has
    the packet when it goes from the smaller address to the greater, and nothing
    in the other direction. *)
Record first_report (m : message) (fl : Z) (ndx : bool) (adr seq : Z) (t : Z * Z) (f : FLOW) : Prop := {
  fr_octets : f_octets f = orient ndx (dec (ms_len m), 0);
  fr_packets : f_packets f = orient ndx (1, 0);
  fr_flags : f_tcp_flags f = orient ndx (fl, 0);
  fr_as_src : f_as_src f = orient ndx (dec (ms_as_src m), 0);
  fr_as_dst : f_as_dst f = orient ndx (0, dec (ms_as_dst m));
  fr_start : f_flow_start f = t;
  fr_last : f_flow_last f = t;
  fr_seq : f_flow_seq f = seq;
  fr_monitor : monitors f ndx =
    {[adr := if ndx then Mk_PER_MONITOR_STAT 0 0 else Mk_PER_MONITOR_STAT (dec (ms_len m)) 1]};
  fr_other : monitors f (negb ndx) = ∅
}.

(** One more message of a flow [f]: the monitor has one more packet, or its first
    one, in the direction of the packet; the totals, the flags, the time and the
    autonomous systems change when no monitor reported the packet before. *)
Record next_report (m : message) (fl : Z) (ndx : bool) (adr : Z) (fresh : bool) (t : Z * Z) (f f' : FLOW) : Prop := {
  nr_monitor : monitors f' ndx !! adr = Some
    match monitors f ndx !! adr with
    | None => Mk_PER_MONITOR_STAT (dec (ms_len m)) 1
    | Some o => Mk_PER_MONITOR_STAT (wrap32 (ms_octets o + dec (ms_len m))) (wrap32 (ms_packets o + 1))
    end;
  nr_others a : a <> adr -> monitors f' ndx !! a = monitors f ndx !! a;
  nr_other : monitors f' (negb ndx) = monitors f (negb ndx);
  nr_octets : f_octets f' = if fresh then add_at ndx (dec (ms_len m)) (f_octets f) else f_octets f;
  nr_packets : f_packets f' = if fresh then add_at ndx 1 (f_packets f) else f_packets f;
  nr_flags : f_tcp_flags f' =
    if fresh then set2 ndx (Z.lor (at2 ndx (f_tcp_flags f)) fl) (f_tcp_flags f) else f_tcp_flags f;
  nr_as_src : f_as_src f' = if fresh then set2 ndx (dec (ms_as_src m)) (f_as_src f) else f_as_src f;
  nr_as_dst : f_as_dst f' = if fresh then set2 (negb ndx) (dec (ms_as_dst m)) (f_as_dst f) else f_as_dst f;
  nr_last : f_flow_last f' = if fresh then t else f_flow_last f;
  nr_rest : flow_identity f' = flow_identity f /\ f_ip6_flowlabel f' = f_ip6_flowlabel f /\
    f_flow_start f' = f_flow_start f /\ f_flow_seq f' = f_flow_seq f
}.

(** The table after a message of the flow with the key [k]. *)
Definition reported (c : CONF) (m : message) (ndx : bool) (adr seq : Z) (t : Z * Z) (k : list Z)
    (tab tab' : gmap (list Z) tracked) : Prop :=
  let fl := message_flags (track_level c) m in
  let fresh := dec (ms_already m) =? 0 in
  (forall k', k' <> k -> tab' !! k' = tab !! k') /\
  match tab !! k with
  | None => exists f, tab' !! k = Some (f, (1, R_GENERAL)) /\ first_report m fl ndx adr seq t f
  | Some (f, x) =>
      if fst x =? 0 then tab' !! k = Some (f, x)
      else exists f', tab' !! k = Some (f', expiry_of c f') /\ next_report m fl ndx adr fresh t f f'
  end.

(** The members of the flow of a message. *)
Record says_message (m : message) (fl : Z) (ndx : bool) (tmp : FLOW) : Prop := {
  sm_octets : f_octets tmp = orient ndx (dec (ms_len m), 0);
  sm_packets : f_packets tmp = orient ndx (1, 0);
  sm_flags : f_tcp_flags tmp = orient ndx (fl, 0);
  sm_as_src : f_as_src tmp = orient ndx (dec (ms_as_src m), 0);
  sm_as_dst : f_as_dst tmp = orient ndx (0, dec (ms_as_dst m))
}.

Lemma message_says level m src dst :
  says_message m (message_flags level m) (message_ndx src dst) (apply_track_level level (message_flow m src dst)).
Proof.
  unfold apply_track_level, message_flow, message_header, message_flags. generalize (message_ndx src dst) as ndx.
  intros ndx. destruct (level =? TRACK_IP_ONLY), (level =? TRACK_IP_PROTO), (message_later m), (message_tcp m), ndx;
    constructor; reflexivity.
Qed.

Lemma stat_of_says m fl ndx tmp : says_message m fl ndx tmp ->
  stat_of tmp ndx = Mk_PER_MONITOR_STAT (dec (ms_len m)) 1.
Proof. intros [Ho Hp _ _ _]. unfold stat_of. rewrite Ho, Hp. by destruct ndx. Qed.

Lemma first_reported m fl ndx adr seq t tmp : says_message m fl ndx tmp -> FLOW_ok tmp -> u32 adr -> u64 seq -> timeval_ok t ->
  first_report m fl ndx adr seq t (first_monitor ndx adr (set_f_flow_seq seq (set_f_flow_start t (set_f_flow_last t tmp)))).
Proof.
  intros Hs Htmp Hadr Hseq Ht. set (f := set_f_flow_seq _ _).
  assert (FLOW_ok f) as Hf by (destruct Htmp; by constructor).
  destruct (first_monitor_ok ndx adr f Hf Hadr) as (_ & _ & Hm & Hm'). destruct Hs as [Ho Hp Hfl Has Had].
  constructor; try done. rewrite Hm. unfold stat_of. change (f_octets f) with (f_octets tmp). change (f_packets f) with (f_packets tmp).
  rewrite Ho, Hp. by destruct ndx.
Qed.

Lemma account_says m fl ndx t tmp f : says_message m fl ndx tmp -> FLOW_ok f ->
  let f' := account_new ndx t tmp f in
  f_octets f' = add_at ndx (dec (ms_len m)) (f_octets f) /\ f_packets f' = add_at ndx 1 (f_packets f) /\
  f_tcp_flags f' = set2 ndx (Z.lor (at2 ndx (f_tcp_flags f)) fl) (f_tcp_flags f) /\
  f_as_src f' = set2 ndx (dec (ms_as_src m)) (f_as_src f) /\
  f_as_dst f' = set2 (negb ndx) (dec (ms_as_dst m)) (f_as_dst f) /\ f_flow_last f' = t.
Proof.
  intros [Ho Hp Hfl Has Had] Hf. destruct (fo_octets f Hf) as [Ho1 Ho2], (fo_packets f Hf) as [Hp1 Hp2].
  unfold account_new, account. cbn. rewrite Ho, Hp, Hfl, Has, Had.
  destruct ndx; cbn; rewrite ?Z.add_0_r, ?Z.lor_0_r, ?(wrap32_small _ Ho1), ?(wrap32_small _ Ho2), ?(wrap32_small _ Hp1),
    ?(wrap32_small _ Hp2); done.
Qed.

Lemma next_reported m fl ndx adr fresh t tmp f f1 : says_message m fl ndx tmp -> FLOW_ok tmp -> FLOW_ok f -> monitors_ok f -> u32 adr ->
  at2 ndx (f_number_of_monitors f) < DEFAULT_MAXIMUM_NUMBER_OF_EMULATORS \/ is_Some (monitors f ndx !! adr) ->
  count_monitor ndx adr tmp f = Ret f1 ->
  next_report m fl ndx adr fresh t f (if fresh then account_new ndx t tmp f1 else f1).
Proof.
  intros Hs Htmp Hf Hmf Hadr Hfit E. destruct (count_monitor_ok ndx adr tmp f Htmp Hf Hmf Hadr Hfit) as
    (xa & xs & xn & E1 & Hf1 & _ & Hmon & Hother).
  set (f2 := set_f_number_of_monitors xn (set_f_monitor_stat xs (set_f_emulator_monitor_adr xa f))) in *.
  rewrite E1 in E. apply Ret_inj in E as <-. rewrite (stat_of_says _ _ _ _ Hs) in Hmon.
  pose proof (account_says m fl ndx t tmp f2 Hs Hf1) as Hacc. cbv zeta in Hacc. destruct Hacc as (A1 & A2 & A3 & A4 & A5 & A6).
  assert (forall i, monitors (if fresh then account_new ndx t tmp f2 else f2) i = monitors f2 i) as Hsame by (by destruct fresh).
  constructor; rewrite ?Hsame, ?Hmon; try done; try (by destruct fresh).
  - rewrite lookup_insert_eq. by destruct (monitors f ndx !! adr).
  - intros a Ha. by rewrite lookup_insert_ne.
Qed.

(** ** The table *)

(** flow_update_expiry of a flow of the table. *)
Lemma update_expiry_ok ft l f e x : track_ok ft ->
  ft_heap ft !! l = Some f -> f_expiry f = Some e -> ft_eheap ft !! e = Some x -> e_flow x = l ->
  exists ft', flow_update_expiry l ft = Ret ft' /\ track_ok ft' /\
    table ft' = <[flow_key f := (set_f_expiry None f, expiry_of (ft_conf ft) f)]> (table ft) /\
    ft_next_flow_seq ft' = ft_next_flow_seq ft /\ ft_num_flows ft' = ft_num_flows ft /\
    ft_conf ft' = ft_conf ft /\ ft_count ft' = ft_count ft.
Proof.
  intros Hok Hf He Hx Hl. unfold flow_update_expiry, flow_get. rewrite Hf. cbn [obind]. rewrite He.
  unfold expiry_get. rewrite Hx. cbn [obind]. change (ft_conf (EXPIRY_REMOVE e ft)) with (ft_conf ft).
  destruct (expiry_of (ft_conf ft) f) as [a r]. fold (reschedule e x a r ft).
  pose proof (reschedule_ok _ e x a r Hok Hx) as Hok'.
  eexists. split; [reflexivity|]. split; [done|]. split; [|done].
  destruct (entry_Some ft l f Hok Hf) as (e1 & x1 & E1 & Hx1 & _ & Hent).
  apply (table_put _ _ l _ _ Hok Hok'); [|by rewrite Hent].
  intros l'. assert (ft_heap ft !! (e_flow x) = Some f) as Hf2 by (by rewrite Hl).
  by rewrite (entry_reschedule ft e x a r f Hf2 He Hok Hx), Hl.
Qed.

Section emulator.
Context (inet_pton : bytes -> option bytes) (inet_ntoa : Z -> bytes) (junk : nat -> bytes).
Context `{!Library inet_pton junk}.

(** There is room for one more monitor. *)
Definition monitor_room (s : emulator) : Prop :=
  length (emulator_monitors_adrs s) = 50%nat /\ 0 <= nbr_monitors s < 50.

Lemma add_monitor_ok ip b s : monitor_room s -> inet_pton ip = Some b ->
  exists adrs k, add_monitor inet_pton inet_ntoa ip s = Ret (Mk_emulator (em_ft s) adrs (nbr_monitors s + k) (em_sampling s)) /\
    length adrs = 50%nat /\ 0 <= k <= 1.
Proof.
  intros [Hl Hn] Hip. unfold add_monitor. destruct (monitor_known _ _ _ _).
  { exists (emulator_monitors_adrs s), 0. rewrite Z.add_0_r. split; [by destruct s|]. split; [done|lia]. }
  rewrite Hl. assert ((50 <? Z.to_nat (nbr_monitors s))%nat = false) as -> by (apply Nat.ltb_ge; lia).
  rewrite Hip. assert ((Z.to_nat (nbr_monitors s) <? 50)%nat = true) as -> by (apply Nat.ltb_lt; lia). cbn [obind].
  eexists _, 1. rewrite wrap32_small by (width; lia). split; [reflexivity|]. rewrite length_insert. split; [done|lia].
Qed.

(** What a message of the flow [tmp], of direction [ndx], seen by the monitor
    [adr] at time [t] does to the table: [fresh] tells that no other monitor
    counted the packet before.  None when the monitors do not fit. *)
Definition emulate (c : CONF) (tmp : FLOW) (ndx : bool) (adr : Z) (fresh : bool) (t : Z * Z) (seq : Z)
    (m : gmap (list Z) tracked) : outcome (gmap (list Z) tracked) :=
  let k := flow_key tmp in
  match m !! k with
  | None =>
      Ret (<[k := (first_monitor ndx adr (set_f_flow_seq seq (set_f_flow_start t (set_f_flow_last t tmp))), (1, R_GENERAL))]> m)
  | Some (f, x) =>
      if fst x =? 0 then Ret m
      else
        let! f := count_monitor ndx adr tmp f in
        let f := if fresh then account_new ndx t tmp f else f in
        Ret (<[k := (f, expiry_of c f)]> m)
  end.

Lemma account_new_ok ndx t tmp f : FLOW_ok tmp -> FLOW_ok f -> timeval_ok t -> FLOW_ok (account_new ndx t tmp f).
Proof.
  intros Htmp Hf Ht. pose proof (flow_last_ok t _ Ht (account_ok tmp f Htmp Hf)) as Ha. unfold account_new.
  set (g := set_f_flow_last t (account tmp f)) in *.
  apply (flow_as_ok (set2 ndx (at2 ndx (f_as_src tmp)) (f_as_src f)) (set2 (negb ndx) (at2 (negb ndx) (f_as_dst tmp)) (f_as_dst f)) g Ha).
  - apply both2_set; [apply (fo_as_src f Hf)|]. apply both2_at, (fo_as_src tmp Htmp).
  - apply both2_set; [apply (fo_as_dst f Hf)|]. apply both2_at, (fo_as_dst tmp Htmp).
Qed.

(** The count does not look at the expiry event. *)
Lemma count_monitor_erase ndx adr tmp f f' : count_monitor ndx adr tmp f = Ret f' ->
  count_monitor ndx adr tmp (set_f_expiry None f) = Ret (set_f_expiry None f').
Proof.
  unfold count_monitor. cbn [set_f_expiry f_emulator_monitor_adr f_monitor_stat f_number_of_monitors].
  intros H. apply obind_Ret_inv in H as (k & Hk & H). rewrite Hk. cbn [obind]. destruct k as [k|].
  - destruct (at2 ndx (f_monitor_stat f) !! k) as [m|]; [|done]. by apply Ret_inj in H as <-.
  - destruct (_ && _); [|done]. by apply Ret_inj in H as <-.
Qed.

Lemma message_seen m mon src dst b : message_ok inet_pton m mon src dst -> copy_of m b ->
  part_of b 0 16 = Ret (0, ms_monitor m ++ 0 :: replicate (16 - length (ms_monitor m) - 1) 0) /\
  cstr (ms_monitor m ++ 0 :: replicate (16 - length (ms_monitor m) - 1) 0) = Ret (ms_monitor m).
Proof.
  intros Hm Hb. destruct (mo_addrs _ _ _ _ _ Hm) as (Hl & _).
  split; [by apply (part_of_ok inet_pton m mon src dst)|]. apply cstr_app.
  apply part_text. eapply (Forall_lookup_1 _ (first_parts m) 0); [apply (mo_parts _ _ _ _ _ Hm)|done].
Qed.

(** The last part, in an array of one character. *)
Lemma already_ok m mon src dst b : message_ok inet_pton m mon src dst -> copy_of m b ->
  exists a, get_emulator_packet_part b 14 (take 1 (junk 4)) = Ret (0, a) /\
    atoi (a ++ drop 1 (junk 4)) = Ret (dec (ms_already m)).
Proof.
  intros Hm [r ->]. destruct (mo_already _ _ _ _ _ Hm) as (c & Hc & Hd).
  destruct (@lib_behind inet_pton junk _) as (x & y & j & Ej & Hy). rewrite Ej. cbn [take drop].
  unfold get_emulator_packet_part, message_text. rewrite <- app_assoc.
  rewrite (get_part_ok MAX_EMULATOR_MESSAGE_PARTS (first_parts m) (ms_already m) r 14 (ms_already m)).
  - eexists. split; [reflexivity|]. rewrite Hc. cbn [length drop]. rewrite app_nil_r.
    apply atoi_digits; [done|by apply Forall_singleton|done|]. unfold dec. cbn. unfold isdigit in Hd. lia.
  - apply (mo_parts _ _ _ _ _ Hm).
  - rewrite Hc. constructor; [|constructor]. unfold isdigit in Hd. lia.
  - done.
  - apply (mo_first _ _ _ _ _ Hm).
  - done.
  - rewrite Hc. done.
Qed.

Lemma le_val4 b : length b = 4%nat -> Forall u8 b -> u32 (le_val b).
Proof. intros Hl Hb. pose proof (le_val_bound b Hb) as H. rewrite Hl in H. exact H. Qed.

(** What stays as it was. *)
Definition same_rest (s s' : emulator) : Prop :=
  em_sampling s' = em_sampling s /\ ft_conf (em_ft s') = ft_conf (em_ft s) /\
  length (emulator_monitors_adrs s') = 50%nat /\ nbr_monitors s <= nbr_monitors s' <= nbr_monitors s + 1.

(** The flows of the table have their monitors in order. *)
Definition all_monitors_ok (m : gmap (list Z) tracked) : Prop := forall k f x, m !! k = Some (f, x) -> monitors_ok f.

Lemma all_monitors_insert m k f x : all_monitors_ok m -> monitors_ok f -> all_monitors_ok (<[k := (f, x)]> m).
Proof. intros Hm Hf k' f' x' [[_ [= <- _]]|[_ H']]%lookup_insert_Some; [done|by eapply Hm]. Qed.

(** The effect of one message on the state. *)
Definition emulated (s : emulator) (tmp : FLOW) (ndx : bool) (adr : Z) (fresh : bool) (t : Z * Z) (s' : emulator) : Prop :=
  track_ok (em_ft s') /\ same_rest s s' /\ all_monitors_ok (table (em_ft s')) /\
  emulate (ft_conf (em_ft s)) tmp ndx adr fresh t (ft_next_flow_seq (em_ft s)) (table (em_ft s)) = Ret (table (em_ft s')).

Lemma new_emulator_flow_ok m mon src dst pkt tmp ndx fresh t s :
  message_ok inet_pton m mon src dst -> copy_of m pkt -> FLOW_ok tmp -> f_expiry tmp = None -> timeval_ok t ->
  track_ok (em_ft s) -> room (em_ft s) -> monitor_room s -> all_monitors_ok (table (em_ft s)) ->
  FLOW_FIND tmp (em_ft s) = None ->
  exists s', new_emulator_flow inet_pton inet_ntoa junk true true pkt tmp ndx t s = Ret (PP_OK, s') /\
    emulated s tmp ndx (le_val mon) fresh t s'.
Proof.
  intros Hm Hb Htmp Hexp Ht Hok Hroom Hmr Hall Hfind. set (ft := em_ft s) in *. set (tmp' := set_f_flow_last t tmp).
  pose proof (FLOW_FIND_ok ft tmp Hok Htmp) as Hne. rewrite Hfind in Hne.
  assert (FLOW_ok tmp') as Htmp' by by apply flow_last_ok.
  destruct (new_flow_ok tmp' t ft Hok Hroom) as (l & e & ft1 & E & Ha & Hc1 & _).
  set (f := set_f_expiry (Some e) (started tmp' t ft)) in *.
  assert (FLOW_ok f) as Hf by (destruct (started_ok tmp' t ft Htmp' Ht Hok); by constructor).
  assert (track_ok ft1) as Hok1 by (by apply (added_ok ft ft1 l f e _ Hok Ha)).
  pose proof (table_added ft ft1 l f e _ Hok Hok1 Ha Hne) as Htab1.
  destruct Ha as (_ & _ & _ & _ & Hh & Heh & _).
  assert (ft_heap ft1 !! l = Some f) as Hl by (rewrite Hh; apply lookup_insert_eq).
  destruct (@lib_pton inet_pton junk _ _ _ (mo_mon _ _ _ _ _ Hm)) as [Hl4 Hu4]. pose proof (le_val4 mon Hl4 Hu4) as Hadr.
  destruct (first_monitor_ok ndx (le_val mon) f Hf Hadr) as (Hg & Hgm & _).
  set (g := first_monitor ndx (le_val mon) f) in *. assert (same_place f g) as Hsame by done.
  pose proof (flow_put_ok ft1 l f g Hok1 Hl Hsame Hg) as Hok2.
  assert (ft_eheap ft1 !! e = Some (Mk_EXPIRY l 1 R_GENERAL)) as Hel by (rewrite Heh; apply lookup_insert_eq).
  pose proof (entry_flow_put ft1 l f g e _ Hl eq_refl Hel Hsame) as Hent.
  assert (table (flow_put l g ft1) = <[flow_key f := (set_f_expiry None g, (1, R_GENERAL))]> (table ft1)) as Htab2.
  { apply (table_put _ _ l _ _ Hok1 Hok2 Hent). unfold entry. rewrite Hl.
    change (f_expiry f) with (Some e). cbv iota. by rewrite Hel. }
  unfold new_emulator_flow. fold ft. fold tmp'. rewrite E.
  destruct (strcpy_message inet_pton junk m mon src dst 1 pkt Hm Hb) as (b' & -> & Hb'); [lia|]. cbn [obind].
  destruct (message_seen m mon src dst b' Hm Hb') as [-> Hstr]. cbn [obind]. change (0 =? -1) with false. cbv iota.
  rewrite Hstr. cbn [obind]. rewrite (mo_mon _ _ _ _ _ Hm). unfold flow_get. rewrite Hl. cbn [obind]. fold g.
  set (s1 := set_em_ft (flow_put l g ft1) (set_em_ft ft1 s)).
  destruct (add_monitor_ok (ms_monitor m) mon s1) as (adrs & k & -> & Hla & Hk); [exact Hmr|apply Hm|]. cbn [obind].
  eexists. split; [reflexivity|].
  assert (set_f_expiry None g = first_monitor ndx (le_val mon)
    (set_f_flow_seq (ft_next_flow_seq ft) (set_f_flow_start t (set_f_flow_last t tmp)))) as Eg.
  { unfold g, f. destruct tmp. cbn in Hexp. by subst. }
  assert (table (flow_put l g ft1) = <[flow_key tmp := (first_monitor ndx (le_val mon)
    (set_f_flow_seq (ft_next_flow_seq ft) (set_f_flow_start t (set_f_flow_last t tmp))), (1, R_GENERAL))]> (table ft)) as Htab.
  { rewrite Htab2, Htab1, insert_insert_eq, Eg. done. }
  split; [exact Hok2|]. split.
  { split; [done|]. split; [exact Hc1|]. split; [done|]. change (nbr_monitors s1) with (nbr_monitors s).
    cbn [nbr_monitors]. lia. }
  cbn [em_ft]. change (em_ft s1) with (flow_put l g ft1). split.
  - rewrite Htab. apply all_monitors_insert; [done|]. rewrite <- Eg. exact Hgm.
  - unfold emulate. fold ft. rewrite (table_None ft (flow_key tmp) Hok Hne). by rewrite Htab.
Qed.

Lemma old_emulator_flow_ok m mon src dst b tmp ndx t l s :
  message_ok inet_pton m mon src dst -> copy_of m b -> FLOW_ok tmp -> timeval_ok t ->
  track_ok (em_ft s) -> monitor_room s -> all_monitors_ok (table (em_ft s)) ->
  (forall f x, table (em_ft s) !! flow_key tmp = Some (f, x) ->
     at2 ndx (f_number_of_monitors f) < DEFAULT_MAXIMUM_NUMBER_OF_EMULATORS \/ is_Some (monitors f ndx !! le_val mon)) ->
  FLOW_FIND tmp (em_ft s) = Some l ->
  exists s', old_emulator_flow inet_pton inet_ntoa junk b tmp ndx t l s = Ret (PP_OK, s') /\
    emulated s tmp ndx (le_val mon) (dec (ms_already m) =? 0) t s'.
Proof.
  intros Hm Hb Htmp Ht Hok Hmr Hall Hfit Hfind. set (ft := em_ft s) in *.
  pose proof (FLOW_FIND_ok ft tmp Hok Htmp) as Hg. rewrite Hfind in Hg. destruct Hg as (g & Hg & Hk).
  destruct (entry_Some ft l g Hok Hg) as (e & x & He & Hx & Hxl & Hent).
  assert (table ft !! flow_key tmp = Some (set_f_expiry None g, (e_expires_at x, e_reason x))) as Htab.
  { apply table_lookup; [done|]. exists l. by rewrite Hent, Hk. }
  destruct (to_FLOW ft Hok l g Hg) as [Hgok _].
  unfold old_emulator_flow, flow_get. fold ft. rewrite Hg. cbn [obind]. rewrite He. unfold expiry_get. rewrite Hx. cbn [obind].
  unfold emulated, emulate. fold ft. rewrite Htab. cbn [fst].
  destruct (Z.eqb_spec (e_expires_at x) 0) as [E0|E0].
  { exists s. split; [done|]. split; [done|]. split; [|done]. split; [done|]. split; [done|]. split; [apply Hmr|lia]. }
  destruct (message_seen m mon src dst b Hm Hb) as [-> Hstr]. cbn [obind]. change (0 =? -1) with false. cbv iota.
  rewrite Hstr. cbn [obind].
  destruct (add_monitor_ok (ms_monitor m) mon s Hmr (mo_mon _ _ _ _ _ Hm)) as (adrs & k & -> & Hla & Hkk). cbn [obind].
  rewrite (mo_mon _ _ _ _ _ Hm).
  destruct (@lib_pton inet_pton junk _ _ _ (mo_mon _ _ _ _ _ Hm)) as [Hl4 Hu4]. pose proof (le_val4 mon Hl4 Hu4) as Hadr.
  pose proof (Hall _ _ _ Htab) as Hgm. specialize (Hfit _ _ Htab).
  destruct (count_monitor_ok ndx (le_val mon) tmp g Htmp Hgok Hgm Hadr Hfit) as (xa & xs & xn & Ec & Hg1 & Hg1m & _).
  set (g1 := set_f_number_of_monitors xn (set_f_monitor_stat xs (set_f_emulator_monitor_adr xa g))) in *.
  rewrite Ec, (count_monitor_erase _ _ _ _ _ Ec). cbn [obind em_ft set_em_ft].
  destruct (already_ok m mon src dst b Hm Hb) as (a & -> & Ha). cbn [obind]. change (0 =? -1) with false. cbv iota.
  rewrite Ha. cbn [obind]. set (fresh := dec (ms_already m) =? 0).
  set (g2 := if fresh then account_new ndx t tmp g1 else g1).
  assert (same_place g g2 /\ FLOW_ok g2 /\ monitors_ok g2 /\ f_expiry g2 = Some e /\
    set_f_expiry None g2 = if fresh then account_new ndx t tmp (set_f_expiry None g1) else set_f_expiry None g1)
    as (Hsame & Hg2 & Hg2m & He2 & Eg2).
  { unfold g2. destruct fresh; [|by split]. split; [done|]. split; [by apply account_new_ok|]. done. }
  cbn [em_ft set_em_ft]. fold ft.
  assert (flow_put l g2 (flow_put l g1 ft) = flow_put l g2 ft) as -> by (unfold flow_put; cbn; by rewrite insert_insert_eq).
  pose proof (flow_put_ok ft l g g2 Hok Hg Hsame Hg2) as Hok1.
  destruct (update_expiry_ok (flow_put l g2 ft) l g2 e x Hok1) as (ft' & -> & Hok' & Htab' & _ & _ & Hc & _);
    [apply lookup_insert_eq|done|done|done|]. cbn [obind].
  assert (table ft' = <[flow_key tmp := (set_f_expiry None g2, expiry_of (ft_conf ft) (set_f_expiry None g2))]> (table ft)) as Hfinal.
  { rewrite Htab', (proj1 Hsame), Hk.
    assert (table (flow_put l g2 ft) = <[flow_key g := (set_f_expiry None g2, (e_expires_at x, e_reason x))]> (table ft)) as ->.
    { apply (table_put _ _ l _ _ Hok Hok1 (entry_flow_put ft l g g2 e x Hg He Hx Hsame)). by rewrite Hent. }
    by rewrite Hk, insert_insert_eq. }
  eexists. split; [reflexivity|]. cbn [em_ft set_em_ft]. split; [exact Hok'|]. split.
  { split; [done|]. split; [exact Hc|]. split; [done|]. cbn [nbr_monitors set_em_ft]. lia. }
  split; [rewrite Hfinal; by apply all_monitors_insert|]. rewrite <- Eg2. by rewrite Hfinal.
Qed.

Lemma process_emulator_packet_ok m mon src dst pkt frag t s :
  message_ok inet_pton m mon src dst -> copy_of m pkt -> (message_tcp m = false -> frag = 0) -> timeval_ok t ->
  track_ok (em_ft s) -> monitor_room s -> all_monitors_ok (table (em_ft s)) ->
  let tmp := apply_track_level (track_level (ft_conf (em_ft s))) (message_flow m src dst) in
  (table (em_ft s) !! flow_key tmp = None -> room (em_ft s)) ->
  let ndx := message_ndx src dst in
  (forall f x, table (em_ft s) !! flow_key tmp = Some (f, x) ->
     at2 ndx (f_number_of_monitors f) < DEFAULT_MAXIMUM_NUMBER_OF_EMULATORS \/ is_Some (monitors f ndx !! le_val mon)) ->
  exists s', process_emulator_packet inet_pton inet_ntoa junk true true pkt AF_INET (dec (ms_len m)) frag t s = Ret (PP_OK, s') /\
    emulated s tmp ndx (le_val mon) (dec (ms_already m) =? 0) t s'.
Proof.
  intros Hm Hb Hfrag Ht Hok Hmr Hall tmp Hroom ndx Hfit. unfold process_emulator_packet.
  destruct (strcpy_message inet_pton junk m mon src dst 0 pkt Hm Hb) as (b & -> & Hb'); [lia|]. cbn [obind].
  change (negb (AF_INET =? AF_INET)) with false. cbv iota.
  rewrite (emulator_ipv4_ok inet_pton junk m mon src dst b frag Hm Hb' Hfrag). cbn [obind].
  set (s1 := set_em_ft (bump total_packets 1 (em_ft s)) s).
  set (s2 := if negb (message_frag m frag =? 0) then set_em_ft (bump frag_packets 1 (em_ft s1)) s1 else s1).
  assert (track_ok (em_ft s2) /\ ft_conf (em_ft s2) = ft_conf (em_ft s) /\ table (em_ft s2) = table (em_ft s) /\
          (room (em_ft s) -> room (em_ft s2)) /\ monitor_room s2 /\ ft_next_flow_seq (em_ft s2) = ft_next_flow_seq (em_ft s) /\
          em_sampling s2 = em_sampling s /\ nbr_monitors s2 = nbr_monitors s) as (Hok2 & Hc2 & Ht2 & Hr2 & Hm2 & Hn2 & Hs2 & Hnb2).
  { unfold s2. destruct (negb _); (split; [by repeat apply bump_ok|done]). }
  clearbody s2. rewrite Hc2. fold tmp ndx. destruct (message_flow_ok inet_pton junk m mon src dst Hm) as [Hf Hexp].
  assert (FLOW_ok tmp) as Htmp by by apply apply_track_level_ok.
  assert (f_expiry tmp = None) as Htexp.
  { unfold tmp, apply_track_level. by repeat case_match. }
  assert (exists s', (match FLOW_FIND tmp (em_ft s2) with
    | Some l => old_emulator_flow inet_pton inet_ntoa junk b tmp ndx t l s2
    | None => new_emulator_flow inet_pton inet_ntoa junk true true pkt tmp ndx t s2 end) = Ret (PP_OK, s') /\
    emulated s2 tmp ndx (le_val mon) (dec (ms_already m) =? 0) t s') as (s' & E & Hem).
  { destruct (FLOW_FIND tmp (em_ft s2)) as [l|] eqn:Hfind.
    - apply (old_emulator_flow_ok m mon src dst); try done; by rewrite Ht2.
    - apply (new_emulator_flow_ok m mon src dst); try done; [|by rewrite Ht2]. apply Hr2, Hroom. rewrite <- Ht2.
      apply table_None; [done|]. pose proof (FLOW_FIND_ok (em_ft s2) tmp Hok2 Htmp) as Hne. by rewrite Hfind in Hne. }
  exists s'. split; [exact E|]. destruct Hem as (H1 & (H2 & H3 & H4 & H5) & H6 & H7).
  split; [done|]. split; [split; [congruence|split; [congruence|split; [done|lia]]]|]. split; [done|].
  by rewrite Hc2, Hn2, Ht2 in H7.
Qed.

(** An entry of a consistent table is a well-formed flow. *)
Lemma table_FLOW_ok ft k f x : track_ok ft -> table ft !! k = Some (f, x) -> FLOW_ok f.
Proof.
  intros Hok Hk. apply table_lookup in Hk as [l Hl]; [|done].
  apply entry_inv in Hl as (f0 & e & x0 & Hf0 & _ & _ & _ & E). injection E as -> _.
  destruct (to_FLOW ft Hok l f0 Hf0) as [[] _]. by constructor.
Qed.

Lemma emulated_reported m src dst adr s t s' : u32 adr -> timeval_ok t -> track_ok (em_ft s) -> all_monitors_ok (table (em_ft s)) ->
  let tmp := apply_track_level (track_level (ft_conf (em_ft s))) (message_flow m src dst) in
  let ndx := message_ndx src dst in
  FLOW_ok tmp ->
  (forall f x, table (em_ft s) !! flow_key tmp = Some (f, x) ->
     at2 ndx (f_number_of_monitors f) < DEFAULT_MAXIMUM_NUMBER_OF_EMULATORS \/ is_Some (monitors f ndx !! adr)) ->
  emulated s tmp ndx adr (dec (ms_already m) =? 0) t s' ->
  reported (ft_conf (em_ft s)) m ndx adr (ft_next_flow_seq (em_ft s)) t (flow_key tmp) (table (em_ft s)) (table (em_ft s')).
Proof.
  intros Hadr Ht Hok Hall tmp ndx Htmp Hfit (_ & _ & _ & E). unfold reported, emulate in *.
  pose proof (message_says (track_level (ft_conf (em_ft s))) m src dst) as Hs. fold tmp ndx in Hs.
  destruct (table (em_ft s) !! flow_key tmp) as [[f x]|] eqn:Ek.
  - destruct (Z.eqb_spec (fst x) 0) as [Hx|Hx]; [apply Ret_inj in E as <-; by split|].
    apply obind_Ret_inv in E as (f1 & E1 & E). apply Ret_inj in E as <-.
    split; [intros k' Hk'; by apply lookup_insert_ne|]. eexists. split; [apply lookup_insert_eq|].
    apply (next_reported m _ ndx adr _ t tmp f f1); try done; [by eapply table_FLOW_ok|by eapply Hall|by eapply Hfit].
  - apply Ret_inj in E as <-. split; [intros k' Hk'; by apply lookup_insert_ne|].
    eexists. split; [apply lookup_insert_eq|]. apply first_reported; try done. apply (to_next _ Hok).
Qed.


(** The first packet of a flow, when it goes from the greater address to the
    smaller one, is counted as nothing for the monitor that reports it. *)
Theorem first_monitor_misses m mon src dst adr :
  message_ok inet_pton m mon src dst -> message_ndx src dst = true -> u32 adr ->
  monitors (first_monitor true adr (message_flow m src dst)) true = {[adr := Mk_PER_MONITOR_STAT 0 0]} /\
  stat_of (message_flow m src dst) true = Mk_PER_MONITOR_STAT (dec (ms_len m)) 1.
Proof.
  intros Hm Hndx Hadr. destruct (message_flow_ok inet_pton junk m mon src dst Hm) as [Hf _].
  destruct (first_monitor_ok true adr _ Hf Hadr) as (_ & _ & -> & _).
  unfold message_flow, message_header, stat_of. rewrite Hndx. by destruct (message_later m), (message_tcp m).
Qed.

End emulator.
