(* ===== verification/EmulatorRun.v ===== *)
(** * Messages from reception to the table of flows

    The sampling of messages in front of process_emulator_packet, a packet that
    several monitors report, and what goes wrong: the byte behind the reception
    buffer and the fifty-first monitor. *)

From stdpp Require Import gmap.
From S2P Require Import Prelude CString Packed Addr SoftTypes Ipflow.
From S2P Require Import FlowTrack FlowTable FlowTrackProps Sampling SamplingProps Control.
From S2P Require Import Emulator EmulatorProps.

Section run.
Context (inet_pton : bytes -> option bytes) (inet_ntoa : Z -> bytes) (junk : nat -> bytes) (rand : nat -> Z).
Context `{!Library inet_pton junk}.

(** The state with other sampling nodes. *)
Definition set_em_sampling (sm : sampling) (s : emulator) : emulator :=
  Mk_emulator (em_ft s) (emulator_monitors_adrs s) (nbr_monitors s) sm.

Lemma message_not_end m mon src dst r : message_ok inet_pton m mon src dst ->
  exists c, strcmp (message_text m ++ 0 :: r) end_text = Ret c /\ c <> 0.
Proof.
  intros Hm. apply (strcmp_ne (message_text m) [101; 110; 100]).
  - by eapply message_is_text.
  - by repeat constructor.
  - intros E. assert (sep ∈ message_text m) as Hin.
    { unfold message_text, first_parts, seps. cbn. rewrite <- !app_assoc. apply elem_of_app. right. by left. }
    rewrite E in Hin. revert Hin. apply (bool_decide_unpack _). vm_compute. exact I.
Qed.

(** A message behind its reception: its monitor is looked up or entered among
    the sampling nodes, and the message reaches the table of flows exactly when the
    sampling takes it. *)
Theorem accept_message_spec m mon src dst r frag t s v sm :
  message_ok inet_pton m mon src dst -> (message_tcp m = false -> frag = 0) -> timeval_ok t ->
  track_ok (em_ft s) -> room (em_ft s) -> monitor_room s -> all_monitors_ok (table (em_ft s)) ->
  RandomPeriodicNodeSampling rand (ms_monitor m) (em_sampling s) = Ret (v, sm) ->
  let tmp := apply_track_level (track_level (ft_conf (em_ft s))) (message_flow m src dst) in
  let ndx := message_ndx src dst in
  (forall f x, table (em_ft s) !! flow_key tmp = Some (f, x) ->
     at2 ndx (f_number_of_monitors f) < DEFAULT_MAXIMUM_NUMBER_OF_EMULATORS \/ is_Some (monitors f ndx !! le_val mon)) ->
  exists s', accept_message inet_pton inet_ntoa junk rand true true frag (message_text m ++ 0 :: r) t s = Ret (0, s') /\
    if v =? 1 then emulated (set_em_sampling sm s) tmp ndx (le_val mon) (dec (ms_already m) =? 0) t s'
    else s' = set_em_sampling sm s.
Proof.
  intros Hm Hfrag Ht Hok Hroom Hmr Hall Hsamp tmp ndx Hfit. unfold accept_message.
  destruct (message_not_end m mon src dst r Hm) as (c & -> & Hc). cbn [obind].
  rewrite (proj2 (Z.eqb_neq c 0)) by done.
  assert (copy_of m (message_text m ++ 0 :: r)) as Hb by (by exists r).
  destruct (mo_len _ _ _ _ _ Hm) as [(Hne & Hd & _ & Hv) Hl16].
  rewrite (part_of_ok inet_pton m mon src dst _ 3 (ms_len m) 16) by done. cbn [obind].
  rewrite atoi_digits by done. cbn [obind].
  destruct (message_seen inet_pton m mon src dst _ Hm Hb) as [-> Hstr]. cbn [obind].
  change (0 =? -1) with false. cbv iota. rewrite Hstr. cbn [obind]. rewrite Hsamp. cbn [obind].
  destruct (v =? 1); [|by eexists].
  rewrite wrap32_small by (apply dec_range, (mo_len _ _ _ _ _ Hm)).
  destruct (process_emulator_packet_ok inet_pton inet_ntoa junk m mon src dst (message_text m ++ 0 :: r) frag t
    (set_em_sampling sm s)) as (s' & E & He); [done..|].
  unfold set_em_sampling in E. rewrite E. cbn [obind]. by exists s'.
Qed.

(** ** A packet that two monitors report *)

(** A new flow of one message, and a second message of it that another monitor
    sent. *)
Lemma emulate_twice c tmp ndx a b t t' seq seq' m :
  FLOW_ok tmp -> timeval_ok t -> u64 seq -> u32 a -> u32 b -> a <> b -> m !! flow_key tmp = None ->
  exists f1 f2 x, emulate c tmp ndx a true t seq m = Ret (<[flow_key tmp := (f1, (1, R_GENERAL))]> m) /\
    at2 ndx (f_number_of_monitors f1) = 1 /\
    emulate c tmp ndx b false t' seq' (<[flow_key tmp := (f1, (1, R_GENERAL))]> m) = Ret (<[flow_key tmp := (f2, x)]> m) /\
    f_octets f2 = f_octets tmp /\ f_packets f2 = f_packets tmp /\ f_flow_last f2 = t /\
    monitors f2 ndx = <[b := stat_of tmp ndx]> {[a := stat_of tmp false]} /\ monitors f2 (negb ndx) = ∅.
Proof.
  intros Htmp Ht Hseq Ha Hb Hne Hnone. unfold emulate. rewrite Hnone.
  set (f0 := set_f_flow_seq seq (set_f_flow_start t (set_f_flow_last t tmp))).
  assert (FLOW_ok f0) as Hf0 by (destruct Htmp; by constructor).
  destruct (first_monitor_ok ndx a f0 Hf0 Ha) as (Hf1 & Hm1 & Hmon1 & Hoth1). 
  assert (at2 ndx (f_number_of_monitors (first_monitor ndx a f0)) = 1) as Hn1 by (by destruct ndx).
  set (f1 := first_monitor ndx a f0) in *.
  destruct (count_monitor_ok ndx b tmp f1 Htmp Hf1 Hm1 Hb) as (xa & xs & xn & Ec & _ & _ & Hmon & Hoth).
  { left. by rewrite Hn1. }
  rewrite Hmon1, lookup_singleton_ne in Hmon by done. cbn [more_traffic] in Hmon.
  eexists _, _, _. split; [reflexivity|]. split; [exact Hn1|].
  rewrite lookup_insert_eq. cbn [fst]. change (1 =? 0) with false. cbv iota. rewrite Ec. cbn [obind].
  split; [by rewrite insert_insert_eq|]. do 3 (split; [done|]). split; [exact Hmon|by rewrite Hoth].
Qed.

(** Two messages of one packet of a flow, the second of which is marked as already
    received. *)
Definition reported_twice (m m' : message) (src dst : bytes) : Prop :=
  message_flow m' src dst = message_flow m src dst /\ dec (ms_already m) = 0 /\ dec (ms_already m') = 1.

(** A packet of a new flow that two monitors report, the second one as already
    received: after both messages the flow has the octets and the packet once, in
    the direction of the packet, and the second monitor has them in its own counts;
    the first one has them too when the packet goes from the smaller address to
    the greater, and nothing otherwise. *)
Theorem counted_once m m' mon mon' src dst pkt pkt' frag frag' t t' s :
  message_ok inet_pton m mon src dst -> message_ok inet_pton m' mon' src dst -> copy_of m pkt -> copy_of m' pkt' ->
  (message_tcp m = false -> frag = 0) -> (message_tcp m' = false -> frag' = 0) ->
  reported_twice m m' src dst -> mon <> mon' -> timeval_ok t -> timeval_ok t' ->
  track_ok (em_ft s) -> room (em_ft s) -> monitor_room s -> nbr_monitors s < 49 -> all_monitors_ok (table (em_ft s)) ->
  let tmp := apply_track_level (track_level (ft_conf (em_ft s))) (message_flow m src dst) in
  table (em_ft s) !! flow_key tmp = None ->
  let ndx := message_ndx src dst in
  let once := Mk_PER_MONITOR_STAT (dec (ms_len m)) 1 in
  exists s1 s2 f x,
    process_emulator_packet inet_pton inet_ntoa junk true true pkt AF_INET (dec (ms_len m)) frag t s = Ret (PP_OK, s1) /\
    process_emulator_packet inet_pton inet_ntoa junk true true pkt' AF_INET (dec (ms_len m')) frag' t' s1 = Ret (PP_OK, s2) /\
    table (em_ft s2) = <[flow_key tmp := (f, x)]> (table (em_ft s)) /\
    f_octets f = orient ndx (dec (ms_len m), 0) /\ f_packets f = orient ndx (1, 0) /\ f_flow_last f = t /\
    monitors f ndx = <[le_val mon' := once]> {[le_val mon := if ndx then Mk_PER_MONITOR_STAT 0 0 else once]} /\
    monitors f (negb ndx) = ∅.
Proof.
  intros Hm Hm' Hb Hb' Hfr Hfr' (Hflow & Ha & Ha') Hne Ht Ht' Hok Hroom Hmr Hn Hall tmp Hnone ndx once.
  destruct (message_flow_ok inet_pton junk m mon src dst Hm) as [Hf _].
  assert (FLOW_ok tmp) as Htmp by by apply apply_track_level_ok.
  destruct (@lib_pton inet_pton junk _ _ _ (mo_mon _ _ _ _ _ Hm)) as [Hl4 Hu4].
  destruct (@lib_pton inet_pton junk _ _ _ (mo_mon _ _ _ _ _ Hm')) as [Hl4' Hu4'].
  assert (le_val mon <> le_val mon') as Hadr by (intros E; apply Hne, le_val_inj; congruence).
  destruct (process_emulator_packet_ok inet_pton inet_ntoa junk m mon src dst pkt frag t s) as (s1 & P1 & Hok1 & Hr1 & Hall1 & T1); try done.
  { intros f y. fold tmp. by rewrite Hnone. }
  fold tmp ndx in T1. rewrite Ha in T1. change (0 =? 0) with true in T1.
  destruct (emulate_twice (ft_conf (em_ft s)) tmp ndx (le_val mon) (le_val mon') t t' (ft_next_flow_seq (em_ft s)) (ft_next_flow_seq (em_ft s1)) (table (em_ft s)))
    as (f1 & f2 & x & E1 & Hn1 & E2 & Ho & Hp & Hlast & Hmon & Hoth); [done|done|apply (to_next _ Hok)|by apply le_val4|by apply le_val4|done|done|].
  rewrite E1 in T1. apply Ret_inj in T1. destruct Hr1 as (_ & Hc1 & Hl1 & Hnb1).
  destruct (process_emulator_packet_ok inet_pton inet_ntoa junk m' mon' src dst pkt' frag' t' s1) as (s2 & P2 & _ & _ & _ & T2); try done.
  { split; [done|]. destruct Hmr as [_ ?]. lia. }
  { rewrite Hc1, Hflow. fold tmp. rewrite <- T1. by rewrite lookup_insert_eq. }
  { intros f y. rewrite Hc1, Hflow. fold tmp ndx. rewrite <- T1, lookup_insert_eq. intros [= <- _]. left. rewrite Hn1. done. }
  rewrite Hc1, Hflow in T2. fold tmp ndx in T2. rewrite Ha', <- T1 in T2. change (1 =? 0) with false in T2.
  rewrite E2 in T2. apply Ret_inj in T2. pose proof (message_says (track_level (ft_conf (em_ft s))) m src dst) as Hs.
  fold tmp ndx in Hs. rewrite (stat_of_says _ _ _ _ Hs) in Hmon.
  exists s1, s2, f2, x. rewrite <- T2, Ho, Hp, (sm_octets _ _ _ _ Hs), (sm_packets _ _ _ _ Hs).
  do 6 (split; [done|]). split; [|exact Hoth]. rewrite Hmon. unfold stat_of.
  rewrite (sm_octets _ _ _ _ Hs), (sm_packets _ _ _ _ Hs). by destruct ndx.
Qed.

(** ** What goes wrong *)

(** accept_emulator receives into an array of 1024 bytes and then sets
    buf[1024]: every message makes it write outside the array. *)
Theorem accept_emulator_overflow frag msg m1 m2 t s :
  accept_emulator inet_pton inet_ntoa junk rand m1 m2 frag (Some msg) t s = Undef OutOfBounds.
Proof.
  unfold accept_emulator, wr. rewrite decide_False; [done|].
  rewrite length_app, length_take, length_replicate. cbn [length]. lia.
Qed.

(** A flow has room for fifty monitors in each direction; the next one that
    reports it is written behind the array. *)
Theorem monitors_overflow ndx adr tmp f :
  FLOW_ok f -> monitors_ok f -> at2 ndx (f_number_of_monitors f) = DEFAULT_MAXIMUM_NUMBER_OF_EMULATORS ->
  monitors f ndx !! adr = None -> count_monitor ndx adr tmp f = Undef OutOfBounds.
Proof.
  intros Hf Hm Hn Hnone. pose proof (both2_at _ _ ndx (fo_monitors f Hf)) as [Hla _].
  pose proof (both2_at _ _ ndx (fo_stats f Hf)) as [Hls _]. destruct (Hm ndx) as [_ Hnd].
  unfold count_monitor. rewrite Hn in *. change (Z.to_nat DEFAULT_MAXIMUM_NUMBER_OF_EMULATORS) with 50%nat in *.
  destruct (find_monitor_ok adr (at2 ndx (f_emulator_monitor_adr f)) 50) as (r & -> & Hr); [lia|]. cbn [obind].
  destruct r as [k|]; [|by rewrite Hla]. destruct Hr as [Hk Ha].
  destruct (lookup_lt_is_Some_2 (at2 ndx (f_monitor_stat f)) k) as [s Hs]; [lia|].
  assert (monitors f ndx !! adr = Some s) as Hs'; [|congruence].
  unfold monitors. rewrite Hn. apply (assoc_lookup _ _ 50); [done|lia|lia|]. by exists k.
Qed.
End run.

(** ** Examples *)

(** The message "1.2.3.4#10.0.0.2#10.0.0.1#60#x#y#80#99#1#2#TCP#0#0#S#0". *)
Definition sample_report (mon src dst already : bytes) : message :=
  Mk_message mon src dst [54; 48] [120] [121] [56; 48] [57; 57] [49] [50] [84; 67; 80] [48] [48] [83] already.
Definition adr_monitor : bytes := [49; 46; 50; 46; 51; 46; 52].
Definition adr_1 : bytes := [49; 48; 46; 48; 46; 48; 46; 49].
Definition adr_2 : bytes := [49; 48; 46; 48; 46; 48; 46; 50].
Definition sample_message : message := sample_report adr_monitor adr_2 adr_1 [48].

(** The addresses of the example, and a stack of zeros. *)
Definition sample_pton (s : bytes) : option bytes :=
  if bool_decide (s = ms_monitor sample_message) then Some [1; 2; 3; 4]
  else if bool_decide (s = ms_src sample_message) then Some [10; 0; 0; 2]
  else if bool_decide (s = ms_dst sample_message) then Some [10; 0; 0; 1]
  else None.
Definition sample_ntoa (a : Z) : bytes := if a =? le_val [1; 2; 3; 4] then ms_monitor sample_message else [48].
Definition sample_junk (i : nat) : bytes := replicate 100 0.
Definition sample_emulator : emulator := Mk_emulator init_flowtrack (replicate 50 0) 0 (Mk_sampling [] 0).

#[local] Instance sample_library : Library sample_pton sample_junk.
Proof.
  constructor.
  - intros s b. unfold sample_pton.
    repeat case_bool_decide; intros Hb; [| | |done]; apply (inj Some) in Hb as <-;
      (split; [done|]); apply (bool_decide_unpack _); vm_compute; exact I.
  - intros i _. apply length_replicate.
  - exists 0, 0, (replicate 98 0). done.
Qed.

Lemma sample_short_number d : bool_decide (d <> [] /\ Forall (fun c => isdigit c = true) d /\ (length d < 16)%nat /\ dec d < 2147483648) = true ->
  short_number d.
Proof. intros (H1 & H2 & H3 & H4)%bool_decide_eq_true_1. split; [|done]. split; [done|]. split; [done|]. split; [lia|done]. Qed.

Lemma sample_report_ok mon src dst a : a = 48 \/ a = 49 ->
  mon ∈ [adr_monitor; adr_1; adr_2] -> src ∈ [adr_1; adr_2] -> dst ∈ [adr_1; adr_2] ->
  exists m s d, sample_pton mon = Some m /\ sample_pton src = Some s /\ sample_pton dst = Some d /\
    message_ok sample_pton (sample_report mon src dst [a]) m s d.
Proof.
  intros Ha Hm Hs Hd. assert (exists m s d, sample_pton mon = Some m /\ sample_pton src = Some s /\ sample_pton dst = Some d /\
    Forall part [mon; src; dst] /\ mon <> [] /\ (length mon < 16 /\ length src < 16 /\ length dst < 16)%nat /\
    (length mon <= 8 /\ length src <= 8 /\ length dst <= 8)%nat)
    as (m & s & d & Em & Es & Ed & Hp & Hne & Hl & Hl8).
  { set_unfold in Hm. set_unfold in Hs. set_unfold in Hd.
    destruct Hm as [->|[->|[->|[]]]], Hs as [->|[->|[]]], Hd as [->|[->|[]]];
      (eexists _, _, _; do 3 (split; [vm_compute; reflexivity|]); split; [apply (bool_decide_unpack _); vm_compute; exact I|];
       split; [done|]; split; (split; [|split]); apply Nat.ltb_lt + apply Nat.leb_le; vm_compute; reflexivity). }
  exists m, s, d. do 3 (split; [done|]). apply Forall_cons in Hp as [Hp1 [Hp2 [Hp3 _]%Forall_cons]%Forall_cons].
  constructor; try done; try (by split; apply sample_short_number; vm_compute); try (by apply sample_short_number; vm_compute).
  - cbn. repeat (constructor; [first [done|apply (bool_decide_unpack _); vm_compute; exact I]|]). constructor.
  - exists a. split; [done|]. by destruct Ha as [->| ->].
  - unfold message_text, first_parts, seps. cbn -[app]. repeat (rewrite length_app; cbn [length]). lia.
  - by left.
  - intros _. split; [by apply (sample_short_number [48]); vm_compute|]. split; [by left|]. split; [cbn; lia|].
    apply (bool_decide_unpack _). vm_compute. exact I.
Qed.

Lemma sample_message_ok : message_ok sample_pton sample_message [1; 2; 3; 4] [10; 0; 0; 2] [10; 0; 0; 1].
Proof.
  destruct (sample_report_ok adr_monitor adr_2 adr_1 48) as (m & s & d & Em & Es & Ed & H); [by left|set_solver..|].
  by revert Em Es Ed H; intros [= <-] [= <-] [= <-].
Qed.

Lemma sample_emulator_ok : track_ok (em_ft sample_emulator) /\ room (em_ft sample_emulator) /\
  monitor_room sample_emulator /\ all_monitors_ok (table (em_ft sample_emulator)).
Proof. split; [apply init_flowtrack_ok|]. split; [done|]. split; [done|]. intros k f x H. done. Qed.


Lemma accept_message_spec_witness :
  exists s', accept_message sample_pton sample_ntoa sample_junk sample_rand true true 7 (message_text sample_message ++ [0])
      (9, 0) sample_emulator = Ret (0, s') /\ track_ok (em_ft s').
Proof.
  destruct sample_emulator_ok as (H1 & H2 & H3 & H4).
  destruct (accept_message_spec sample_pton sample_ntoa sample_junk sample_rand sample_message _ _ _ [] 7 (9, 0)
    sample_emulator 1 (Mk_sampling [Mk_SamplingNode 100 100 1 0 (ms_monitor sample_message) None 1] 0) sample_message_ok)
    as (s' & E & Hok & _).
  - by intros ?.
  - done.
  - exact H1.
  - exact H2.
  - exact H3.
  - exact H4.
  - vm_compute. reflexivity.
  - intros f x H. done.
  - exists s'. split; [exact E|exact Hok].
Defined.

(** The flow of the message, and the same with the first direction. *)
Definition sample_forward : FLOW := message_flow sample_message [10; 0; 0; 1] [10; 0; 0; 2].

Lemma sample_forward_ok : FLOW_ok sample_forward.
Proof.
  pose proof sample_message_ok as Hm. unfold sample_forward, message_flow.
  apply (message_header_ok sample_pton sample_message _ _ _ _ _ Hm).
  apply flow_as_ok; [|by vm_compute|by vm_compute]. apply flow_counts_ok; [|by vm_compute|by vm_compute].
  apply flow_protocol_ok; [|done]. apply flow_addr_ok; [apply FLOW_zero_ok|].
  split; (split; [done|]); apply (bool_decide_unpack _); vm_compute; exact I.
Qed.

Lemma counted_once_witness :
  let m := sample_report adr_monitor adr_1 adr_2 [48] in
  let m' := sample_report adr_2 adr_1 adr_2 [49] in
  exists s1 s2 f x,
    process_emulator_packet sample_pton sample_ntoa sample_junk true true (message_text m ++ [0]) AF_INET 60 0 (9, 0)
      sample_emulator = Ret (PP_OK, s1) /\
    process_emulator_packet sample_pton sample_ntoa sample_junk true true (message_text m' ++ [0]) AF_INET 60 0 (10, 0)
      s1 = Ret (PP_OK, s2) /\
    table (em_ft s2) !! flow_key (message_flow m [10; 0; 0; 1] [10; 0; 0; 2]) = Some (f, x) /\ f_octets f = (60, 0).
Proof.
  intros m m'. destruct sample_emulator_ok as (H1 & H2 & H3 & H4).
  destruct (sample_report_ok adr_monitor adr_1 adr_2 48) as (? & ? & ? & Em & Es & Ed & Hm); [by left|set_solver..|].
  destruct (sample_report_ok adr_2 adr_1 adr_2 49) as (? & ? & ? & Em' & Es' & Ed' & Hm'); [by right|set_solver..|].
  revert Em Es Ed Em' Es' Ed' Hm Hm'. intros [= <-] [= <-] [= <-] [= <-] [= <-] [= <-] Hm Hm'.
  destruct (counted_once sample_pton sample_ntoa sample_junk m m' _ _ _ _ (message_text m ++ [0]) (message_text m' ++ [0])
    0 0 (9, 0) (10, 0) sample_emulator Hm Hm') as (s1 & s2 & f & x & E1 & E2 & E3 & Ho & _); [by exists []|by exists []|done..|].
  exists s1, s2, f, x. split; [exact E1|]. split; [exact E2|]. split; [|exact Ho].
  rewrite E3. apply lookup_insert_eq.
Defined.

Lemma first_monitor_misses_witness :
  monitors (first_monitor true 1 (message_flow sample_message [10; 0; 0; 2] [10; 0; 0; 1])) true = {[1 := Mk_PER_MONITOR_STAT 0 0]}.
Proof.
  apply (first_monitor_misses sample_pton sample_junk sample_message _ _ _ 1 sample_message_ok); done.
Defined.

Lemma flow_monitors_ok a n f : FLOW_ok f -> both2 (fun l => length l = 50%nat /\ Forall u32 l) a -> both2 u32 n ->
  FLOW_ok (set_f_number_of_monitors n (set_f_emulator_monitor_adr a f)).
Proof. intros [] Ha Hn. by constructor. Qed.

(** A flow that fifty monitors saw. *)
Definition sample_crowded : FLOW :=
  set_f_number_of_monitors (50, 0) (set_f_emulator_monitor_adr (Z.of_nat <$> seq 1 50, replicate 50 0) sample_forward).

Lemma monitors_overflow_witness : count_monitor false 51 sample_forward sample_crowded = Undef OutOfBounds.
Proof.
  apply (monitors_overflow false 51 sample_forward sample_crowded).
  - apply flow_monitors_ok; [apply sample_forward_ok| |by vm_compute].
    split; (split; [done|]); apply (bool_decide_unpack _); vm_compute; exact I.
  - intros [|]; (split; [done|]); apply (bool_decide_unpack _); vm_compute; exact I.
  - done.
  - vm_compute. reflexivity.
Defined.
