(* ===== verification/StrL.v ===== *)
(** * Bounded string operations (src/flowd/strlcpy.c, strlcat.c, softflowd.c)

    strlcpy and strlcat, of which flowd and softflowd have the same copies, and
    argv_join, which softflowd builds on strlcat.  The destination is an array; the
    source is the bytes from a pointer on. *)

From S2P Require Import Prelude CString.

(** ** strlcpy *)

(** The loop that copies, [n] > 0 turns at most: the array, the number of bytes
    copied, the rest of the source, and what is left of [n]. *)
Fixpoint copy_loop (n : nat) (dst : bytes) (d : nat) (s : bytes) : outcome (bytes * nat * bytes * nat) :=
  match n with
  | O => Ret (dst, d, s, O)
  | S m =>
      match s with
      | [] => Undef OutOfBounds
      | c :: s =>
          let! dst := wr dst (Z.of_nat d) [c] in
          if c =? 0 then Ret (dst, S d, s, n) else copy_loop m dst (S d) s
      end
  end.

Definition strlcpy (dst src : bytes) (siz : nat) : outcome (nat * bytes) :=
  let! (dst, d, s, n) :=
    if negb (siz =? 0)%nat && negb (siz - 1 =? 0)%nat then copy_loop (siz - 1) dst 0 src
    else Ret (dst, O, src, O) in
  if (n =? 0)%nat then
    let! dst := if negb (siz =? 0)%nat then wr dst (Z.of_nat d) [0] else Ret dst in
    let! rest := cstr s in
    Ret ((d + S (length rest) - 1)%nat, dst)
  else Ret ((d - 1)%nat, dst).

(** ** strlcat *)

(** The end of the string in the array, not beyond [n]. *)
Fixpoint end_loop (n : nat) (dst : bytes) : outcome nat :=
  match n with
  | O => Ret O
  | S n =>
      match dst with
      | [] => Undef OutOfBounds
      | c :: dst => if c =? 0 then Ret O else let! d := end_loop n dst in Ret (S d)
      end
  end.

(** The bytes that are appended, and how long the source is. *)
Fixpoint append_loop (n : nat) (dst : bytes) (d : nat) (s : bytes) : outcome (bytes * nat * nat) :=
  match s with
  | [] => Undef OutOfBounds
  | c :: s =>
      if c =? 0 then Ret (dst, d, O)
      else if negb (n =? 1)%nat then
        let! dst := wr dst (Z.of_nat d) [c] in
        let! (dst, d, k) := append_loop (n - 1) dst (S d) s in Ret (dst, d, S k)
      else
        let! (dst, d, k) := append_loop n dst d s in Ret (dst, d, S k)
  end.

Definition strlcat (dst src : bytes) (siz : nat) : outcome (nat * bytes) :=
  let! dlen := end_loop siz dst in
  let n := (siz - dlen)%nat in
  if (n =? 0)%nat then let! s := cstr src in Ret ((dlen + length s)%nat, dst)
  else
    let! (dst, d, k) := append_loop n dst dlen src in
    let! dst := wr dst (Z.of_nat d) [0] in
    Ret ((dlen + k)%nat, dst).

(** ** argv_join *)

Section argv_join.
Context (junk : nat -> Z) (realloc_ok : nat -> bool).

(** realloc: the bytes behind the old ones are arbitrary. *)
Definition realloc (old : bytes) (n : nat) : bytes := take n old ++ (junk <$> seq (length old) (n - length old)).

(** The turns of the loop from argument [i] on. *)
Fixpoint join_loop (i : nat) (argv : list bytes) (ret : bytes) (ret_len : nat) : outcome bytes :=
  match argv with
  | [] => Ret ret
  | arg :: argv =>
      let! a := cstr arg in
      let ret_len := (ret_len + length a)%nat in
      if negb (realloc_ok i) then Fatal
      else
        let ret := realloc ret (ret_len + 2) in
        let! (ret, ret_len) :=
          if (i =? 0)%nat then let! ret := wr ret 0 [0] in Ret (ret, ret_len)
          else let! (_, ret) := strlcat ret [32; 0] (ret_len + 1 + 1) in Ret (ret, (ret_len + 1)%nat) in
        let! (_, ret) := strlcat ret arg (ret_len + 1) in
        join_loop (S i) argv ret ret_len
  end.

Definition argv_join (argv : list bytes) : outcome bytes := join_loop 0 argv [] 0.
End argv_join.

(** ** What they do *)

(** Equal results whose numbers differ in form. *)
Ltac same := repeat first [lia | done | f_equal].

Lemma wr_byte pre x post c off : off = Z.of_nat (length pre) -> wr (pre ++ x :: post) off [c] = Ret ((pre ++ [c]) ++ post).
Proof. intros ->. rewrite <- app_assoc. by apply (wr_app pre [x] post). Qed.

Lemma copy_loop_ok s r : text s -> forall n pre old, (n <> 0)%nat -> (n <= length old)%nat ->
  copy_loop n (pre ++ old) (length pre) (s ++ 0 :: r) =
    if (length s <? n)%nat
    then Ret (pre ++ s ++ 0 :: drop (S (length s)) old, (length pre + S (length s))%nat, r, (n - length s)%nat)
    else Ret (pre ++ take n s ++ drop n old, (length pre + n)%nat, drop n s ++ 0 :: r, O).
Proof.
  induction 1 as [|c s Hc Hs IH]; intros [|n] pre old Hn Hl; [done| |done|]; destruct old as [|x old]; [cbn in Hl; lia| |cbn in Hl; lia|];
    cbn [app copy_loop]; rewrite wr_byte by done; cbn [obind].
  - cbn. rewrite <- app_assoc. cbn. same.
  - rewrite (proj2 (Z.eqb_neq _ _)) by done. cbn [length] in *. destruct n as [|n].
    + cbn. rewrite drop_0, <- app_assoc. cbn. same.
    + replace (S (length pre)) with (length (pre ++ [c])) by (rewrite length_app; cbn; lia).
      rewrite IH by lia. rewrite length_app. cbn [length]. destruct (Nat.ltb_spec (length s) (S n)), (Nat.ltb_spec (S (length s)) (S (S n))); try lia.
      * cbn. rewrite <- app_assoc. cbn. same.
      * cbn [take drop]. rewrite <- app_assoc. cbn [app]. same.
Qed.

(** The string that fits into [siz] bytes with its terminator. *)
Definition fitting (siz : nat) (s : bytes) : bytes := take (siz - 1) s.

Lemma strlcpy_ok dst s r siz : text s -> (siz <= length dst)%nat ->
  strlcpy dst (s ++ 0 :: r) siz =
    Ret (length s, if (siz =? 0)%nat then dst else fitting siz s ++ 0 :: drop (S (length (fitting siz s))) dst).
Proof.
  intros Hs Hl. unfold strlcpy, fitting. destruct siz as [|[|n]].
  - cbn [negb andb Nat.eqb obind]. rewrite cstr_app by done. cbn [obind]. same.
  - destruct dst as [|x dst]; [cbn in Hl; lia|]. cbn [Nat.eqb Nat.sub negb andb obind]. rewrite (wr_byte [] x dst 0) by done.
    cbn [obind]. rewrite cstr_app by done. cbn. rewrite drop_0. same.
  - cbn [negb andb Nat.eqb obind Nat.sub]. pose proof (copy_loop_ok s r Hs (S n) [] dst) as Hc. cbn [app length Nat.add] in Hc.
    rewrite Hc by lia. clear Hc.
    destruct (Nat.ltb_spec (length s) (S n)) as [Hlt|Hge]; cbn [obind app].
    + assert ((S n - length s =? 0)%nat = false) as -> by (apply Nat.eqb_neq; lia). rewrite take_ge by lia.
      do 2 f_equal. cbn. lia.
    + cbn [Nat.eqb]. rewrite <- (take_drop (S n) dst) at 2.
      assert (exists x post, drop (S n) dst = x :: post) as (x & post & E).
      { destruct (drop (S n) dst) as [|x post] eqn:E; [|by eexists _, _]. apply (f_equal length) in E.
        rewrite length_drop in E. cbn in E. lia. }
      rewrite E, wr_byte by (rewrite length_take; cbn [length]; lia). cbn [obind].
      rewrite cstr_app by (by apply Forall_drop). cbn [obind].
      rewrite length_drop, length_take, <- app_assoc, Nat.min_l by lia. cbn [app].
      replace (S (S n)) with (length (take (S n) dst) + 1)%nat by (rewrite length_take; lia).
      rewrite drop_app_add. cbn [drop]. same.
Qed.

(** strlcpy on a string and a destination of at least [siz] bytes: at most
    siz - 1 bytes are copied and the copy is terminated, nothing else changes, and
    the result is the length of the string. *)
Theorem strlcpy_spec dst s r siz : text s -> (siz <= length dst)%nat ->
  exists dst', strlcpy dst (s ++ 0 :: r) siz = Ret (length s, dst') /\
    ((siz = 0)%nat -> dst' = dst) /\
    ((0 < siz)%nat -> cstr dst' = Ret (fitting siz s) /\ drop siz dst' = drop siz dst /\ length dst' = length dst).
Proof.
  intros Hs Hl. rewrite strlcpy_ok by done. eexists. split; [reflexivity|]. split; [by intros ->|]. intros Hpos.
  rewrite (proj2 (Nat.eqb_neq _ _)) by lia. unfold fitting. split; [apply cstr_app; by apply Forall_take|].
  assert (length (take (siz - 1) s) < siz)%nat as Hlt by (rewrite length_take; lia).
  split; [|rewrite length_app; cbn [length]; rewrite length_drop; lia].
  rewrite drop_app_ge by lia. destruct (siz - length (take (siz - 1) s))%nat as [|k] eqn:Ek; [lia|]. cbn [drop].
  rewrite drop_drop. f_equal. lia.
Qed.

Lemma end_loop_ok a r n : text a -> end_loop n (a ++ 0 :: r) = Ret (Nat.min n (length a)).
Proof.
  intros Ha. revert n. induction Ha as [|c a Hc _ IH]; intros [|n]; [done..|]. cbn [app end_loop].
  rewrite (proj2 (Z.eqb_neq _ _)) by done. by rewrite IH.
Qed.

Lemma append_loop_ok s r : text s -> forall n pre old, (0 < n)%nat -> (n <= length old)%nat ->
  append_loop n (pre ++ old) (length pre) (s ++ 0 :: r) =
    Ret (pre ++ fitting n s ++ drop (length (fitting n s)) old, (length pre + length (fitting n s))%nat, length s).
Proof.
  unfold fitting. induction 1 as [|c s Hc Hs IH]; intros n pre old Hn Hl.
  { cbn [app append_loop]. rewrite take_nil. cbn. same. }
  cbn [app append_loop]. rewrite (proj2 (Z.eqb_neq _ _)) by done. destruct (Nat.eqb_spec n 1) as [->|Hne]; cbn [negb].
  - rewrite IH by lia. cbn. same.
  - destruct old as [|x old]; [cbn in Hl; lia|]. rewrite wr_byte by done. cbn [obind].
    replace (S (length pre)) with (length (pre ++ [c])) by (rewrite length_app; cbn; lia).
    cbn [length] in Hl. rewrite IH by lia. cbn [obind]. destruct n as [|[|n]]; [lia|done|]. cbn [Nat.sub take length].
    rewrite Nat.sub_0_r, length_app, <- !app_assoc. cbn. same.
Qed.

Lemma strlcat_ok a b s r siz : text a -> text s -> (length a < siz)%nat -> (siz <= length a + S (length b))%nat ->
  let t := fitting (siz - length a) s in
  strlcat (a ++ 0 :: b) (s ++ 0 :: r) siz = Ret ((length a + length s)%nat, a ++ t ++ 0 :: drop (length t) b).
Proof.
  intros Ha Hs Hlt Hl t. unfold strlcat. rewrite end_loop_ok, Nat.min_r by (done || lia). cbn [obind].
  rewrite (proj2 (Nat.eqb_neq _ _)) by lia. rewrite append_loop_ok by (done || (cbn [length]; lia)). fold t. cbn [obind].
  assert (length t <= length b)%nat as Ht by (unfold t, fitting; rewrite length_take; lia).
  assert (exists x post, drop (length t) (0 :: b) = x :: post /\ post = drop (length t) b) as (x & post & E & Epost).
  { clear -Ht. destruct t as [|c t]; [by exists 0, b|]. cbn [length drop] in *.
    destruct (drop (length t) b) as [|x post] eqn:E.
    - apply (f_equal length) in E. rewrite length_drop in E. cbn in E. lia.
    - exists x, post. split; [done|]. replace (S (length t)) with (length t + 1)%nat by lia. by rewrite <- drop_drop, E. }
  rewrite E, app_assoc, wr_byte by (rewrite length_app; lia). cbn [obind]. rewrite <- !app_assoc, Epost. done.
Qed.

(** strlcat on a string that ends before [siz]: as much of the source as fits
    is appended and terminated, and the result is the length it would have taken;
    without a terminator in the first [siz] bytes the array stays as it is. *)
Theorem strlcat_spec dst a s r siz : text s -> (siz <= length dst)%nat ->
  (forall b, text a -> dst = a ++ 0 :: b -> (length a < siz)%nat ->
     exists dst', strlcat dst (s ++ 0 :: r) siz = Ret ((length a + length s)%nat, dst') /\
       cstr dst' = Ret (a ++ fitting (siz - length a) s) /\ length dst' = length dst) /\
  (text (take siz dst) -> strlcat dst (s ++ 0 :: r) siz = Ret ((siz + length s)%nat, dst)).
Proof.
  intros Hs Hl. split.
  - intros b Ha -> Hlt. rewrite length_app in *. cbn [length] in *. rewrite strlcat_ok by (done || lia).
    eexists. split; [reflexivity|]. rewrite app_assoc. split.
    + apply cstr_app. apply Forall_app. split; [done|]. by apply Forall_take.
    + rewrite !length_app. cbn [length]. rewrite length_drop. unfold fitting. rewrite length_take. lia.
  - intros Ht. unfold strlcat.
    assert (end_loop siz dst = Ret siz) as ->.
    { clear -Ht Hl. revert dst Ht Hl. induction siz as [|n IH]; intros [|c dst] Ht Hl; cbn in Hl; [done|done|lia|].
      cbn [take] in Ht. apply Forall_cons in Ht as [Hc Ht]. cbn [end_loop]. rewrite (proj2 (Z.eqb_neq _ _)) by done.
      by rewrite IH by (done || lia). }
    cbn [obind]. rewrite Nat.sub_diag. cbn [Nat.eqb]. by rewrite cstr_app.
Qed.

Section join.
Context (junk : nat -> Z) (realloc_ok : nat -> bool).

(** The arguments with a space between each two. *)
Definition joined (argv : list bytes) : bytes :=
  match argv with [] => [] | s :: argv => s ++ concat ((fun s => 32 :: s) <$> argv) end.

Lemma realloc_grow a b n : (length a + S (length b) <= n)%nat ->
  exists b', realloc junk (a ++ 0 :: b) n = a ++ 0 :: b' /\ (length a + S (length b') = n)%nat.
Proof.
  intros Hn. unfold realloc. rewrite take_ge by (rewrite length_app; cbn [length]; lia).
  eexists. split; [by rewrite <- app_assoc|]. rewrite length_app, length_fmap, length_seq, length_app. cbn [length]. lia.
Qed.

Lemma strlcat_whole a b s siz : text a -> text s -> (length a + length s < siz)%nat -> (siz <= length a + S (length b))%nat ->
  exists b', strlcat (a ++ 0 :: b) (s ++ [0]) siz = Ret ((length a + length s)%nat, (a ++ s) ++ 0 :: b') /\
    (length s + length b' = length b)%nat.
Proof.
  intros Ha Hs Hlt Hl. rewrite strlcat_ok by (done || lia). unfold fitting. rewrite take_ge by lia.
  eexists. split; [by rewrite <- app_assoc|]. rewrite length_drop. lia.
Qed.

Lemma join_loop_ok argv : Forall text argv -> forall i a b, (forall k, realloc_ok k = true) -> text a -> i <> O ->
  (length b <= 1)%nat ->
  exists b', join_loop junk realloc_ok i ((fun s => s ++ [0]) <$> argv) (a ++ 0 :: b) (length a) =
    Ret ((a ++ concat ((fun s => 32 :: s) <$> argv)) ++ 0 :: b').
Proof.
  induction 1 as [|s argv Hs _ IH]; intros i a b Hok Ha Hi Hb.
  { exists b. cbn. by rewrite app_nil_r. }
  cbn [fmap list_fmap join_loop]. rewrite cstr_app by done. cbn [obind]. rewrite Hok. cbn [negb].
  destruct (realloc_grow a b (length a + length s + 2)) as (b1 & -> & Hb1); [lia|].
  rewrite (proj2 (Nat.eqb_neq i 0)) by done.
  destruct (strlcat_whole a b1 [32] (length a + length s + 1 + 1)) as (b2 & E1 & Hb2); [done|by repeat constructor|cbn; lia|lia|].
  cbn [app] in E1. rewrite E1. cbn [obind]. cbn [length] in Hb2.
  destruct (strlcat_whole (a ++ [32]) b2 s (length a + length s + 1 + 1)) as (b3 & E2 & Hb3);
    [apply Forall_app; split; [done|by repeat constructor]|done|rewrite length_app; cbn [length]; lia..|].
  rewrite E2. cbn [obind].
  replace (length a + length s + 1)%nat with (length ((a ++ [32]) ++ s)) by (rewrite !length_app; cbn [length]; lia).
  destruct (IH (S i) ((a ++ [32]) ++ s) b3) as (b' & E3); [done| |done|lia|].
  - apply Forall_app. split; [|done]. apply Forall_app. split; [done|by repeat constructor].
  - exists b'. rewrite E3. cbn. by simplify_list_eq.
Qed.

(** argv_join gives the arguments with a space between each two, and never
    writes outside the memory it asked for. *)
Theorem argv_join_spec argv : argv <> [] -> Forall text argv -> (forall k, realloc_ok k = true) ->
  exists buf, argv_join junk realloc_ok ((fun s => s ++ [0]) <$> argv) = Ret buf /\ cstr buf = Ret (joined argv).
Proof.
  intros Hne Hargv Hok. destruct argv as [|s argv]; [done|]. apply Forall_cons in Hargv as [Hs Hargv].
  unfold argv_join. cbn [fmap list_fmap join_loop]. rewrite cstr_app by done. cbn [obind]. rewrite Hok. cbn [negb Nat.eqb].
  assert (exists x b, realloc junk [] (0 + length s + 2) = x :: b /\ length b = (length s + 1)%nat) as (x & b & -> & Hb).
  { unfold realloc. cbn [take app length]. rewrite take_nil. cbn [app].
    replace (0 + length s + 2 - 0)%nat with (S (length s + 1)) by lia. cbn [seq fmap list_fmap].
    eexists _, _. split; [reflexivity|]. by rewrite length_fmap, length_seq. }
  rewrite (wr_byte [] x b) by done. cbn [obind app].
  destruct (strlcat_whole [] b s (0 + length s + 1)) as (b1 & E & Hb1); [constructor|done|cbn; lia|cbn; lia|].
  cbn [app length] in E. rewrite E. cbn [obind].
  destruct (join_loop_ok argv Hargv 1 s b1) as (b2 & E2); [done|done|done|lia|].
  cbn [Nat.add]. eexists. split; [exact E2|]. apply cstr_app. apply Forall_app. split; [done|].
  apply Forall_concat, Forall_fmap. eapply Forall_impl; [exact Hargv|]. intros t Ht. by constructor.
Qed.
End join.

(** ** Examples *)

Lemma strlcpy_spec_witness : exists d, strlcpy [9; 9; 9; 9] [65; 66; 67; 68; 0] 3 = Ret (4%nat, d) /\ d = [65; 66; 0; 9].
Proof.
  destruct (strlcpy_spec [9; 9; 9; 9] [65; 66; 67; 68] [] 3) as (d & E & _); [by repeat constructor|cbn; lia|].
  exists d. split; [exact E|]. vm_compute in E. congruence.
Defined.

Lemma strlcat_spec_witness : strlcat [65; 0; 9; 9] [66; 67; 68; 0] 4 = Ret (4%nat, [65; 66; 67; 0]).
Proof.
  destruct (strlcat_spec [65; 0; 9; 9] [65] [66; 67; 68] [] 4) as [H _]; [by repeat constructor|cbn; lia|].
  destruct (H [9; 9]) as (d & E & _); [by repeat constructor|done|cbn; lia|]. vm_compute in E |- *. congruence.
Defined.

Lemma argv_join_spec_witness : exists buf,
  argv_join (fun _ => 7) (fun _ => true) [[65; 0]; [66; 67; 0]] = Ret buf /\ cstr buf = Ret [65; 32; 66; 67].
Proof. apply (argv_join_spec (fun _ => 7) (fun _ => true) [[65]; [66; 67]]); [done|by repeat constructor|done]. Defined.
