(* ===== verification/Convtime.v ===== *)
(** * Time spans and timeouts (src/softflowd/convtime.c, softflowd.c)

    convtime reads a span such as "1h30m" into seconds; set_timeout takes the
    option "name=span" and sets a timeout of the flow table.  A long has 64 bits. *)

From stdpp Require Import gmap strings.
From S2P Require Import Prelude CString SoftTypes FlowTrack.

(** ** convtime *)

Definition SECONDS : Z := 1.
Definition MINUTES : Z := SECONDS * 60.
Definition HOURS : Z := MINUTES * 60.
Definition DAYS : Z := HOURS * 24.
Definition WEEKS : Z := DAYS * 7.

(** A result of type long. *)
Definition long (v : Z) : outcome Z :=
  if (LONG_MIN <=? v) && (v <=? LONG_MAX) then Ret v else Undef SignedOverflow.

(** The unit that a character stands for, None for a character that is none. *)
Definition unit_of (c : Z) : option Z :=
  if (c =? 0) || (c =? 115) || (c =? 83) then Some SECONDS
  else if (c =? 109) || (c =? 77) then Some MINUTES
  else if (c =? 104) || (c =? 72) then Some HOURS
  else if (c =? 100) || (c =? 68) then Some DAYS
  else if (c =? 119) || (c =? 87) then Some WEEKS
  else None.

(** The loop at the bytes [p]; [n] turns are left. *)
Fixpoint convtime_loop (n : nat) (total : Z) (p : bytes) : outcome Z :=
  match n with
  | O => Diverges
  | S n =>
      match p with
      | [] => Undef OutOfBounds
      | c :: _ =>
          if c =? 0 then Ret total
          else
            let! (secs, k, erange) := strtol p in
            if (k =? 0)%nat || erange && ((secs =? LONG_MIN) || (secs =? LONG_MAX)) || (secs <? 0) then Ret (-1)
            else
              match drop k p with
              | [] => Undef OutOfBounds
              | e :: rest =>
                  match unit_of e with
                  | None => Ret (-1)
                  | Some u =>
                      let! secs := long (secs * u) in
                      let! total := long (total + secs) in
                      if total <? 0 then Ret (-1)
                      else convtime_loop n total (if e =? 0 then e :: rest else rest)
                  end
              end
      end
  end.

Definition convtime (s : option bytes) : outcome Z :=
  match s with
  | None => Ret (-1)
  | Some s =>
      match s with
      | [] => Undef OutOfBounds
      | c :: _ => if c =? 0 then Ret (-1) else convtime_loop (length s) 0 s
      end
  end.

(** ** set_timeout *)

Definition set_tcp_timeout v c := Mk_CONF (system_boot_time c) (track_level c) v (tcp_rst_timeout c) (tcp_fin_timeout c) (udp_timeout c) (icmp_timeout c) (general_timeout c) (maximum_lifetime c) (expiry_interval c).
Definition set_tcp_rst_timeout v c := Mk_CONF (system_boot_time c) (track_level c) (tcp_timeout c) v (tcp_fin_timeout c) (udp_timeout c) (icmp_timeout c) (general_timeout c) (maximum_lifetime c) (expiry_interval c).
Definition set_tcp_fin_timeout v c := Mk_CONF (system_boot_time c) (track_level c) (tcp_timeout c) (tcp_rst_timeout c) v (udp_timeout c) (icmp_timeout c) (general_timeout c) (maximum_lifetime c) (expiry_interval c).
Definition set_udp_timeout v c := Mk_CONF (system_boot_time c) (track_level c) (tcp_timeout c) (tcp_rst_timeout c) (tcp_fin_timeout c) v (icmp_timeout c) (general_timeout c) (maximum_lifetime c) (expiry_interval c).
Definition set_icmp_timeout v c := Mk_CONF (system_boot_time c) (track_level c) (tcp_timeout c) (tcp_rst_timeout c) (tcp_fin_timeout c) (udp_timeout c) v (general_timeout c) (maximum_lifetime c) (expiry_interval c).
Definition set_general_timeout v c := Mk_CONF (system_boot_time c) (track_level c) (tcp_timeout c) (tcp_rst_timeout c) (tcp_fin_timeout c) (udp_timeout c) (icmp_timeout c) v (maximum_lifetime c) (expiry_interval c).
Definition set_maximum_lifetime v c := Mk_CONF (system_boot_time c) (track_level c) (tcp_timeout c) (tcp_rst_timeout c) (tcp_fin_timeout c) (udp_timeout c) (icmp_timeout c) (general_timeout c) v (expiry_interval c).
Definition set_expiry_interval v c := Mk_CONF (system_boot_time c) (track_level c) (tcp_timeout c) (tcp_rst_timeout c) (tcp_fin_timeout c) (udp_timeout c) (icmp_timeout c) (general_timeout c) (maximum_lifetime c) v.

(** "tcp", "tcp.rst" and so on. *)
Definition n_tcp : bytes := [116; 99; 112].
Definition n_tcp_rst : bytes := [116; 99; 112; 46; 114; 115; 116].
Definition n_tcp_fin : bytes := [116; 99; 112; 46; 102; 105; 110].
Definition n_udp : bytes := [117; 100; 112].
Definition n_icmp : bytes := [105; 99; 109; 112].
Definition n_general : bytes := [103; 101; 110; 101; 114; 97; 108].
Definition n_maxlife : bytes := [109; 97; 120; 108; 105; 102; 101].
Definition n_expint : bytes := [101; 120; 112; 105; 110; 116].

(** The assignments in the order of the comparisons. *)
Definition timeouts : list (bytes * (Z -> CONF -> CONF)) :=
  [(n_tcp, set_tcp_timeout); (n_tcp_rst, set_tcp_rst_timeout); (n_tcp_fin, set_tcp_fin_timeout); (n_udp, set_udp_timeout);
   (n_icmp, set_icmp_timeout); (n_general, set_general_timeout); (n_maxlife, set_maximum_lifetime); (n_expint, set_expiry_interval)].

Fixpoint assign_timeout (l : list (bytes * (Z -> CONF -> CONF))) (name : bytes) (timeout : Z) (ft : CONF) : outcome CONF :=
  match l with
  | [] => Fatal
  | (n, set) :: l =>
      let! c := strcmp name (n ++ [0]) in
      if c =? 0 then Ret (set timeout ft) else assign_timeout l name timeout ft
  end.

(** [strdup] tells whether the copy could be allocated; usage and exit are Fatal. *)
Definition set_timeout (strdup : bool) (ft : CONF) (to_spec : bytes) : outcome CONF :=
  if negb strdup then Fatal
  else
    let! s := cstr to_spec in
    let name := s ++ [0] in
    let! eq := strchr name 0 61 in
    match eq with
    | None => Fatal
    | Some eq =>
        let! value := from_off name (eq + 1) in
        match value with
        | [] => Undef OutOfBounds
        | v :: _ =>
            if v =? 0 then Fatal
            else
              let! name := wr name eq [0] in
              let! t := convtime (Some value) in
              let timeout := swrap32 t in
              if timeout <? 0 then Fatal
              else
                let! ft := assign_timeout timeouts name timeout ft in
                if general_timeout ft =? 0 then Fatal else Ret ft
        end
    end.

(** ** convtime ends *)

Lemma spaces_ok s r : text s -> exists n, spaces (s ++ 0 :: r) = Ret n /\ (n <= length s)%nat.
Proof.
  induction 1 as [|c s Hc _ IH]; [by exists 0%nat|]. cbn [app spaces]. destruct (isspace c).
  - destruct IH as (n & -> & Hn). exists (S n). cbn [obind length]. split; [done|lia].
  - exists 0%nat. split; [done|lia].
Qed.

Lemma digits_ok s r v : text s -> exists w n, digits v (s ++ 0 :: r) = Ret (w, n) /\ (n <= length s)%nat.
Proof.
  intros Hs. revert v. induction Hs as [|c s Hc _ IH]; intros v; [by exists v, 0%nat|]. cbn [app digits]. destruct (isdigit c).
  - destruct (IH (10 * v + (c - 48))) as (w & n & -> & Hn). exists w, (S n). cbn [obind length]. split; [done|lia].
  - exists v, 0%nat. split; [done|lia].
Qed.

Lemma drop_text n s (r : bytes) : text s -> (n <= length s)%nat -> exists s', drop n (s ++ 0 :: r) = s' ++ 0 :: r /\ text s' /\
  (length s = n + length s')%nat.
Proof.
  intros Hs Hn. exists (drop n s). rewrite drop_app_le by done. split; [done|]. split; [by apply Forall_drop|].
  rewrite length_drop. lia.
Qed.

(** strtol on any string: it reads no more than the string. *)
Lemma strtol_ok s r : text s -> exists v k e, strtol (s ++ 0 :: r) = Ret (v, k, e) /\ (k <= length s)%nat /\ LONG_MIN <= v <= LONG_MAX.
Proof.
  intros Hs. unfold strtol. destruct (spaces_ok s r Hs) as (n & -> & Hn). cbn [obind].
  destruct (drop_text n s r Hs Hn) as (s1 & E1 & Hs1 & Hl1). rewrite E1.
  assert (exists neg k', (match s1 ++ 0 :: r with
    | [] => Undef OutOfBounds
    | c :: _ => Ret (c =? 45, if (c =? 45) || (c =? 43) then S n else n) end) = Ret (neg, k') /\ (k' <= length s)%nat) as (neg & k' & -> & Hk').
  { destruct s1 as [|c s1]; cbn [app].
    - exists false, n. done.
    - eexists _, _. split; [reflexivity|]. cbn [length] in Hl1. destruct (_ || _); lia. }
  cbn [obind]. destruct (drop_text k' s r Hs Hk') as (s2 & E2 & Hs2 & Hl2). rewrite E2.
  destruct (digits_ok s2 r 0 Hs2) as (w & [|m] & -> & Hm); cbn [obind].
  { exists 0, 0%nat, false. split; [done|]. split; [lia|by vm_compute]. }
  set (v := if neg then - w else w). destruct (Z.ltb_spec LONG_MAX v); [|destruct (Z.ltb_spec v LONG_MIN)];
    (eexists _, _, _; split; [reflexivity|]; split; [lia|]); [by vm_compute|by vm_compute|lia].
Qed.

(** The value of a span, or -1; or an overflow of the long it is computed in. *)
Definition span_result (o : outcome Z) : Prop :=
  (exists v, o = Ret v /\ (v = -1 \/ 0 <= v <= LONG_MAX)) \/ o = Undef SignedOverflow.

Lemma convtime_loop_total n : forall s r total, text s -> (length s < n)%nat -> 0 <= total <= LONG_MAX ->
  span_result (convtime_loop n total (s ++ 0 :: r)).
Proof.
  induction n as [|n IH]; intros s r total Hs Hn Ht; [lia|]. cbn [convtime_loop].
  assert (exists c p, s ++ 0 :: r = c :: p /\ (c = 0 -> s = [])) as (c & p & E & Hc0).
  { destruct s as [|c s]; [by exists 0, r|]. exists c, (s ++ 0 :: r). split; [done|]. apply Forall_cons in Hs as [Hc _]. done. }
  rewrite E. destruct (Z.eqb_spec c 0) as [_|_]; [left; exists total; auto|]. rewrite <- E.
  destruct (strtol_ok s r Hs) as (v & k & e & -> & Hk & Hv). cbn [obind].
  destruct ((k =? 0)%nat || _ || _) eqn:Hbad; [left; exists (-1); auto|].
  apply orb_false_iff in Hbad as [[Hk0%Nat.eqb_neq _]%orb_false_iff Hv0%Z.ltb_ge].
  destruct (drop_text k s r Hs Hk) as (s1 & -> & Hs1 & Hl1).
  assert (exists e1 p1, s1 ++ 0 :: r = e1 :: p1 /\ (e1 = 0 /\ s1 = [] \/ e1 <> 0 /\ exists s2, s1 = e1 :: s2 /\ p1 = s2 ++ 0 :: r))
    as (e1 & p1 & -> & He1).
  { destruct s1 as [|e1 s1]; [exists 0, r; auto|]. exists e1, (s1 ++ 0 :: r). split; [done|]. right.
    apply Forall_cons in Hs1 as [Hc _]. split; [done|]. by exists s1. }
  destruct (unit_of e1) as [u|]; [|left; exists (-1); auto]. unfold long at 1.
  destruct (_ && _); [|by right]. cbn [obind]. unfold long. destruct ((LONG_MIN <=? total + v * u) && _) eqn:Hr; [|by right].
  cbn [obind]. destruct (Z.ltb_spec (total + v * u) 0) as [|Hpos]; [left; exists (-1); auto|].
  apply andb_true_iff in Hr as [_ Hr%Z.leb_le].
  destruct He1 as [[-> ->]|(Hne & s2 & -> & ->)].
  - cbn [Z.eqb]. apply (IH [] p1); [constructor|cbn; lia|lia].
  - rewrite (proj2 (Z.eqb_neq _ _)) by done. cbn [length] in Hl1. apply Forall_cons in Hs1 as [_ Hs2].
    apply IH; [done|lia|lia].
Qed.

(** Convtime ends on every string and stays inside it: the result is -1 or a
    number of seconds that is not negative; but the multiplications and the sum of
    spans may overflow, which is undefined, before the test that is there to
    detect it. *)
Theorem convtime_total s r : text s -> span_result (convtime (Some (s ++ 0 :: r))).
Proof.
  intros Hs. unfold convtime. destruct s as [|c s]; [left; exists (-1); auto|]. cbn [app].
  destruct (c =? 0); [left; exists (-1); auto|]. apply (convtime_loop_total _ (c :: s) r); [done|cbn [app length]; rewrite length_app; cbn [length]; lia|].
  by vm_compute.
Qed.

(** ** What spans mean *)

(** A string as its bytes. *)
Definition text_of (s : string) : bytes := (fun c => Z.of_N (Ascii.N_of_ascii c)) <$> String.list_ascii_of_string s.

(** The letters of the units, and the seconds of each. *)
Definition unit_seconds (u : Z) : option Z :=
  if decide (u ∈ text_of "sS") then Some 1
  else if decide (u ∈ text_of "mM") then Some 60
  else if decide (u ∈ text_of "hH") then Some 3600
  else if decide (u ∈ text_of "dD") then Some 86400
  else if decide (u ∈ text_of "wW") then Some 604800
  else None.

(** Numbers, each with a unit. *)
Definition span := list (bytes * Z).
Definition span_text (l : span) : bytes := concat ((fun '(d, u) => d ++ [u]) <$> l).
Definition seconds (l : span) : Z := foldr (fun '(d, u) t => dec d * default 0 (unit_seconds u) + t) 0 l.
Definition span_ok (l : span) : Prop :=
  Forall (fun '(d, u) => d <> [] /\ Forall (fun c => isdigit c = true) d /\ is_Some (unit_seconds u)) l.

Lemma if_letter {A} (u a b : Z) (x y : A) :
  (if decide (u ∈ [a; b]) then x else y) = if (u =? a) || (u =? b) then x else y.
Proof.
  destruct (decide _) as [H|H]; rewrite elem_of_cons, list_elem_of_singleton in H;
    destruct (Z.eqb_spec u a), (Z.eqb_spec u b); done || lia.
Qed.

(** The units of the code are those letters, and the end of the string. *)
Lemma unit_of_letter u : u <> 0 -> unit_of u = unit_seconds u.
Proof.
  intros Hu. unfold unit_of, unit_seconds. rewrite (proj2 (Z.eqb_neq u 0)) by done.
  repeat match goal with |- context [text_of ?s] => let x := eval vm_compute in (text_of s) in change (text_of s) with x end.
  by rewrite !if_letter.
Qed.

Lemma unit_not_digit u : is_Some (unit_seconds u) -> u <> 0 /\ isdigit u = false /\ 0 < default 0 (unit_of u).
Proof.
  intros H. assert (u <> 0) as Hu by (intros ->; vm_compute in H; by destruct H). split; [done|].
  rewrite <- unit_of_letter in H by done. revert H.
  unfold unit_of, isdigit. intros H. repeat case_match; first [by destruct H|split; [lia|by vm_compute]].
Qed.

Lemma seconds_nonneg l : span_ok l -> 0 <= seconds l.
Proof.
  induction 1 as [|[d u] l (Hne & Hd & Hu) _ IH]; [done|]. cbn [seconds foldr] in *.
  pose proof (dec_nonneg d 0 Hd ltac:(done)) as H0. fold (dec d) in H0. destruct (unit_not_digit u Hu) as (Hu0 & _ & Hpos).
  rewrite unit_of_letter in Hpos by done. unfold seconds in IH. nia.
Qed.

Lemma long_ok v : 0 <= v <= LONG_MAX -> long v = Ret v.
Proof.
  intros Hv. unfold long. rewrite (proj2 (Z.leb_le _ _)), (proj2 (Z.leb_le _ _)); [done|lia|unfold LONG_MIN; lia].
Qed.

Lemma convtime_loop_ok l : span_ok l -> forall n r total, (length (span_text l) < n)%nat -> 0 <= total ->
  total + seconds l <= LONG_MAX -> convtime_loop n total (span_text l ++ 0 :: r) = Ret (total + seconds l).
Proof.
  induction 1 as [|[d u] l (Hne & Hd & Hu) Hl IH]; intros [|n] r total Hn Ht Hmax; [cbn in Hn; lia| |cbn in Hn; lia|].
  { cbn. by rewrite Z.add_0_r. }
  destruct (unit_not_digit u Hu) as (Hu0 & Hnd & Hpos). rewrite unit_of_letter in Hpos by done. destruct Hu as [k Hk]. rewrite Hk in Hpos. cbn [default] in Hpos.
  change (span_text ((d, u) :: l)) with ((d ++ [u]) ++ span_text l) in *.
  change (seconds ((d, u) :: l)) with (dec d * default 0 (unit_seconds u) + seconds l) in *. rewrite Hk in *. cbn [default id] in *.
  pose proof (dec_nonneg d 0 Hd ltac:(done)) as H0. fold (dec d) in H0. pose proof (seconds_nonneg l Hl) as Hs.
  rewrite <- !app_assoc. cbn [app convtime_loop]. destruct d as [|c d]; [done|].
  pose proof Hd as Hc. apply Forall_cons in Hc as [Hc _]. destruct (isdigit_not c Hc) as (Hsp & _ & _).
  assert (c <> 0) as Hc0 by (unfold isdigit in Hc; lia). cbn [app]. rewrite (proj2 (Z.eqb_neq c 0)) by done.
  change (c :: d ++ u :: span_text l ++ 0 :: r) with ((c :: d) ++ u :: span_text l ++ 0 :: r).
  rewrite strtol_digits by done. rewrite (proj2 (Z.ltb_ge _ _)) by nia. cbn [obind length Nat.eqb andb orb].
  rewrite (proj2 (Z.ltb_ge _ _)) by done. change (S (length d)) with (length (c :: d)). rewrite drop_app_length, unit_of_letter, Hk by done.
  rewrite long_ok by nia. cbn [obind]. rewrite long_ok by nia. cbn [obind]. rewrite (proj2 (Z.ltb_ge _ _)) by nia.
  rewrite (proj2 (Z.eqb_neq u 0)) by done. rewrite IH; [f_equal; lia| |nia|lia].
  rewrite !length_app in Hn. cbn [length] in Hn. lia.
Qed.

(** The value of a span of numbers with units is the sum of their seconds, when
    that fits into a long. *)
Theorem convtime_spec l r : span_ok l -> l <> [] -> seconds l <= LONG_MAX ->
  convtime (Some (span_text l ++ 0 :: r)) = Ret (seconds l).
Proof.
  intros Hl Hne Hmax. pose proof (convtime_loop_ok l Hl (length (span_text l ++ 0 :: r)) r 0) as H.
  rewrite Z.add_0_l in H. unfold convtime. destruct l as [|[d u] l]; [done|]. apply Forall_cons in Hl as [(Hd & Hdig & _) _].
  destruct d as [|c d]; [done|]. apply Forall_cons in Hdig as [Hc _].
  assert (c <> 0) as Hc0 by (unfold isdigit in Hc; lia).
  destruct (span_text ((c :: d, u) :: l) ++ 0 :: r) as [|c' m] eqn:E; [done|].
  assert (c' = c) as -> by (by injection E). rewrite (proj2 (Z.eqb_neq c 0)) by done.
  apply H; [|done|done]. apply (f_equal length) in E. rewrite length_app in E. cbn [length] in *. lia.
Qed.

(** ** Setting a timeout *)

Lemma scan_char c s r : Forall (fun x => x <> 0 /\ x <> c) s -> scan c (s ++ c :: r) = Ret (Some (Z.of_nat (length s))).
Proof.
  induction 1 as [|x s [H0 Hx] _ IH]; cbn [app scan length]; [by rewrite Z.eqb_refl|].
  rewrite !(proj2 (Z.eqb_neq _ _)) by done. rewrite IH. cbn. do 2 f_equal. lia.
Qed.

Lemma scan_absent c s r : c <> 0 -> Forall (fun x => x <> 0 /\ x <> c) s -> scan c (s ++ 0 :: r) = Ret None.
Proof.
  intros Hc. induction 1 as [|x s [H0 Hx] _ IH]; cbn [app scan]; [by rewrite (proj2 (Z.eqb_neq _ _))|].
  rewrite !(proj2 (Z.eqb_neq _ _)) by done. by rewrite IH.
Qed.

Lemma span_is_text l : span_ok l -> text (span_text l).
Proof.
  induction 1 as [|[d u] l (_ & Hd & Hu) _ IH]; [constructor|]. destruct (unit_not_digit u Hu) as (Hu0 & _). cbn. apply Forall_app. split; [|done].
  apply Forall_app. split; [|by repeat constructor]. eapply Forall_impl; [exact Hd|]. unfold isdigit. intros c Hc. lia.
Qed.

(** The name is found in the table, behind names that differ from it. *)
Lemma assign_timeout_ok l name set j t ft : (forall n s, (n, s) ∈ l -> text n) -> text name ->
  l !! j = Some (name, set) -> (forall i s, (i < j)%nat -> l !! i <> Some (name, s)) -> forall r,
  assign_timeout l (name ++ 0 :: r) t ft = Ret (set t ft).
Proof.
  intros Htext Hname. revert j. induction l as [|[n s] l IH]; intros j Hj Hbefore r; [done|]. cbn [assign_timeout].
  destruct j as [|j].
  - injection Hj as -> ->. assert (strcmp (name ++ 0 :: r) (name ++ [0]) = Ret 0) as ->; [|done].
    clear -Hname. induction Hname as [|c s Hc _ IH]; [done|]. cbn [app strcmp]. rewrite Z.eqb_refl.
    by rewrite (proj2 (Z.eqb_neq _ _)).
  - destruct (strcmp_ne name n Hname (Htext n s ltac:(by left))) with (j := r) (j' := @nil Z) as (c & -> & Hc).
    { intros ->. apply (Hbefore 0%nat s); [lia|done]. }
    cbn [obind]. rewrite (proj2 (Z.eqb_neq _ _)) by done. apply (IH (fun n s H => Htext n s ltac:(by right)) j); [done|].
    intros i s' Hi. apply (Hbefore (S i)). lia.
Qed.

Lemma timeouts_text : forall n s, (n, s) ∈ timeouts -> Forall (fun c => c <> 0 /\ c <> 61) n.
Proof.
  intros n s H. repeat (apply elem_of_cons in H as [[= -> _]|H]; [apply (bool_decide_unpack _); vm_compute; exact I|]).
  by apply not_elem_of_nil in H.
Qed.

Lemma timeouts_distinct i j n s s' : timeouts !! i = Some (n, s) -> timeouts !! j = Some (n, s') -> i = j.
Proof.
  assert (NoDup (timeouts.*1)) as Hnd by (apply (bool_decide_unpack _); vm_compute; exact I).
  intros Hi Hj. eapply NoDup_lookup; [exact Hnd|rewrite list_lookup_fmap, Hi; done|by rewrite list_lookup_fmap, Hj].
Qed.

Lemma set_timeout_ok j name set l r ft : timeouts !! j = Some (name, set) -> span_ok l -> l <> [] -> seconds l <= 2147483647 ->
  set_timeout true ft (name ++ 61 :: span_text l ++ 0 :: r) =
    if general_timeout (set (seconds l) ft) =? 0 then Fatal else Ret (set (seconds l) ft).
Proof.
  intros Hj Hl Hne Hmax. assert (Forall (fun c => c <> 0 /\ c <> 61) name) as Hname.
  { eapply timeouts_text, list_elem_of_lookup_2, Hj. }
  assert (text name) as Hnt by (eapply Forall_impl; [exact Hname|]; by intros c [? _]).
  pose proof (span_is_text l Hl) as Hlt. pose proof (seconds_nonneg l Hl) as Hpos.
  unfold set_timeout. cbn [negb]. replace (name ++ 61 :: span_text l ++ 0 :: r) with ((name ++ 61 :: span_text l) ++ 0 :: r) by (by simplify_list_eq).
  rewrite cstr_app by (apply Forall_app; split; [done|by constructor]). cbn [obind].
  replace ((name ++ 61 :: span_text l) ++ [0]) with (name ++ 61 :: span_text l ++ [0]) by (by simplify_list_eq).
  assert (strchr (name ++ 61 :: span_text l ++ [0]) 0 61 = Ret (Some (Z.of_nat (length name)))) as ->.
  { unfold strchr, from_off. rewrite (proj2 (Z.leb_le _ _)), (proj2 (Z.leb_le _ _)) by lia. cbn [andb obind].
    change (Z.to_nat 0) with 0%nat. rewrite drop_0. by rewrite scan_char. }
  cbn [obind]. assert (from_off (name ++ 61 :: span_text l ++ [0]) (Z.of_nat (length name) + 1) = Ret (span_text l ++ [0])) as ->.
  { replace (name ++ 61 :: span_text l ++ [0]) with ((name ++ [61]) ++ span_text l ++ [0]) by (by simplify_list_eq).
    replace (Z.of_nat (length name) + 1) with (Z.of_nat (length (name ++ [61]))) by (rewrite length_app; cbn [length]; lia).
    apply from_off_app. }
  cbn [obind]. destruct (span_text l ++ [0]) as [|v value] eqn:Ev; [by destruct (span_text l)|].
  assert (v <> 0) as Hv.
  { destruct l as [|[d u] l]; [done|]. apply Forall_cons in Hl as [(Hd & _) _]. destruct d as [|c d]; [done|].
    apply Forall_cons in Hlt as [Hc _]. by injection Ev as <-. }
  rewrite (proj2 (Z.eqb_neq v 0)) by done.
  change (name ++ 61 :: v :: value) with (name ++ [61] ++ v :: value). rewrite (wr_app name [61]) by done. cbn [obind].
  rewrite <- Ev, convtime_spec by (done || unfold LONG_MAX; lia). cbn [obind].
  assert (swrap32 (seconds l) = seconds l) as -> by (width; rewrite Z.mod_small by lia; lia).
  rewrite (proj2 (Z.ltb_ge _ _)) by done.
  cbn [app]. rewrite (assign_timeout_ok timeouts name set j); [done| |done|done|].
  - intros n s H. apply timeouts_text in H. eapply Forall_impl; [exact H|]. by intros c [? _].
  - intros i s Hi Hi'. pose proof (timeouts_distinct _ _ _ _ _ Hi' Hj). lia.
Qed.

(** The names of the timeouts, and the member of the flow table that each is for. *)
Definition timeout_names : list (string * (CONF -> Z)) :=
  [("tcp", tcp_timeout); ("tcp.rst", tcp_rst_timeout); ("tcp.fin", tcp_fin_timeout); ("udp", udp_timeout);
   ("icmp", icmp_timeout); ("general", general_timeout); ("maxlife", maximum_lifetime); ("expint", expiry_interval)]%string.

(** The setter behind a name sets its member and no other. *)
Lemma timeouts_members i name get : timeout_names !! i = Some (name, get) ->
  exists set, timeouts !! i = Some (text_of name, set) /\
    forall v ft, get (set v ft) = v /\ track_level (set v ft) = track_level ft /\ system_boot_time (set v ft) = system_boot_time ft /\
      forall j name' get', timeout_names !! j = Some (name', get') -> j <> i -> get' (set v ft) = get' ft.
Proof.
  do 8 (destruct i as [|i]; [intros [= <- <-]; eexists; split; [reflexivity|]; intros v ft; split; [done|]; split; [done|];
    split; [done|]; intros j name' get' Hj Hne; do 8 (destruct j as [|j]; [first [by injection Hj as _ <-|by destruct Hne]|]); done|]).
  done.
Qed.

(** The option "name=span" sets the timeout of that name to the seconds of the
    span and nothing else of the configuration; the program exits when that leaves a
    general timeout of zero. *)
Theorem set_timeout_spec i name get l r ft : timeout_names !! i = Some (name, get) -> span_ok l -> l <> [] ->
  seconds l <= 2147483647 ->
  exists ft', set_timeout true ft (text_of name ++ text_of "=" ++ span_text l ++ 0 :: r) =
      (if general_timeout ft' =? 0 then Fatal else Ret ft') /\
    get ft' = seconds l /\ track_level ft' = track_level ft /\ system_boot_time ft' = system_boot_time ft /\
    (forall j name' get', timeout_names !! j = Some (name', get') -> j <> i -> get' ft' = get' ft).
Proof.
  intros Hi Hl Hne Hmax. destruct (timeouts_members i name get Hi) as (set & Hset & H).
  exists (set (seconds l) ft). split; [|apply H]. exact (set_timeout_ok i (text_of name) set l r ft Hset Hl Hne Hmax).
Qed.

(** An option without "=" ends the program. *)
Lemma set_timeout_no_value s r ft : Forall (fun c => c <> 0 /\ c <> 61) s -> set_timeout true ft (s ++ 0 :: r) = Fatal.
Proof.
  intros Hs. assert (text s) as Ht by (eapply Forall_impl; [exact Hs|]; by intros c [? _]).
  unfold set_timeout. cbn [negb]. rewrite cstr_app by done. cbn [obind].
  assert (strchr (s ++ [0]) 0 61 = Ret None) as ->; [|done].
  unfold strchr, from_off. rewrite (proj2 (Z.leb_le _ _)), (proj2 (Z.leb_le _ _)) by lia. cbn [andb obind].
  change (Z.to_nat 0) with 0%nat. rewrite drop_0. by rewrite scan_absent.
Qed.

(** ** Examples *)

(** "1h30m" *)
Definition sample_span : span := [([49], 104); ([51; 48], 109)].
Lemma sample_span_ok : span_ok sample_span.
Proof. repeat constructor; done. Qed.

Lemma convtime_spec_witness : convtime (Some [49; 104; 51; 48; 109; 0]) = Ret 5400.
Proof. apply (convtime_spec sample_span []); [apply sample_span_ok|done|by vm_compute]. Defined.

Lemma convtime_total_witness : span_result (convtime (Some [49; 120; 0])).
Proof. apply (convtime_total [49; 120] []). by repeat constructor. Defined.

Lemma set_timeout_spec_witness : exists ft',
  set_timeout true (ft_conf init_flowtrack) (text_of "udp=1h30m" ++ [0]) = Ret ft' /\ udp_timeout ft' = 5400.
Proof.
  destruct (set_timeout_spec 3 "udp" udp_timeout sample_span [] (ft_conf init_flowtrack)) as (ft' & E & Hu & _ & _ & Hr);
    [done|apply sample_span_ok|done|by vm_compute|].
  exists ft'. split; [|exact Hu]. refine (eq_trans E _). rewrite (Hr 5%nat "general"%string general_timeout) by done. reflexivity.
Defined.

(** The weeks that a long cannot count overflow before the test of the sum; a span
    of 2^32 seconds is stored as the timeout 0 by the conversion to int. *)
Example convtime_overflow : convtime (Some [57; 57; 57; 57; 57; 57; 57; 57; 57; 57; 57; 57; 57; 57; 57; 57; 57; 57; 119; 0]) = Undef SignedOverflow.
Proof. vm_compute. reflexivity. Qed.
Example set_timeout_truncates :
  set_timeout true (ft_conf init_flowtrack) (n_tcp ++ [61; 52; 50; 57; 52; 57; 54; 55; 50; 57; 54; 0]) =
    Ret (set_tcp_timeout 0 (ft_conf init_flowtrack)).
Proof. vm_compute. reflexivity. Qed.
