(* ===== verification/Client.v ===== *)
(** * The control client (src/flowd/ClientController.c, GlobalEstimation.c)

    The requests that flowd sends to the control server of softflowd and to the
    emulator: the rate of a monitor, and the path between two autonomous systems
    with its answer, which Add_path takes apart.  A socket is what connect, write
    and read give. *)

From S2P Require Import Prelude CString Sampling SamplingProps Control.

(** ** Decimal numbers *)

(** The digits of [n] >= 0 in front of [acc]; [k] digits at most. *)
Fixpoint udigits (k : nat) (n : Z) (acc : bytes) : bytes :=
  match k with
  | O => acc
  | S k => let acc := (48 + n mod 10) :: acc in if n / 10 =? 0 then acc else udigits k (n / 10) acc
  end.

(** sprintf with "%i", for a number of at most 20 digits. *)
Definition itoa (n : Z) : bytes := if n <? 0 then 45 :: udigits 20 (- n) [] else udigits 20 n [].

(** sprintf into an array, and strcat. *)
Definition sprintf_i (dst : bytes) (n : Z) : outcome bytes := wr dst 0 (itoa n ++ [0]).
Definition strcat (dst src : bytes) : outcome bytes :=
  let! d := cstr dst in let! s := cstr src in wr dst (Z.of_nat (length d)) (s ++ [0]).

(** ** Sockets *)

(** What the calls on the socket give: whether socket, connect and write succeed,
    and what read puts into the buffer. *)
Record peer_socket := Mk_peer_socket {
  ps_socket : bool;
  ps_connect : bool;
  ps_write : bool;
  ps_read : option bytes
}.

Definition sharp : bytes := [35; 0].

(** ** The rate of a monitor *)

Definition ValidateSamplingRate (p1 p2 : Z) : Z :=
  if p2 <? p1 then -1
  else if (p1 =? p2) && (p2 =? 0) then -1
  else if negb (p1 =? 0) && (p2 =? 0) then -1
  else if negb (p1 =? 0) && (p2 =? 0) then -1
  else if (p1 <? 0) || (p2 <? 0) then -1
  else 0.

Section client.
Context (junk : bytes).     (* what the array tmp holds at first *)

(** The array newSamplingRate. *)
Definition control_message (p1 p2 : Z) (monitorAdr : bytes) : outcome bytes :=
  let newSamplingRate := replicate 100 0 in
  let! tmp := sprintf_i junk p1 in
  let! newSamplingRate := strcpy newSamplingRate tmp in
  let! newSamplingRate := strcat newSamplingRate sharp in
  let! tmp := sprintf_i tmp p2 in
  let! newSamplingRate := strcat newSamplingRate tmp in
  let! newSamplingRate := strcat newSamplingRate sharp in
  strcat newSamplingRate monitorAdr.

(** The result, and what was written to the server; exit is Fatal. *)
Definition SendControlPacket (sk : peer_socket) (p1 p2 : Z) (monitorAdr : bytes) : outcome (Z * option bytes) :=
  if negb (ps_socket sk) then Fatal
  else if ValidateSamplingRate p1 p2 <? 0 then Ret (-1, None)
  else
    let! newSamplingRate := control_message p1 p2 monitorAdr in
    if negb (ps_connect sk) then Ret (-1, None)
    else if negb (ps_write sk) then Ret (-1, None)
    else
      match ps_read sk with
      | None => Ret (-1, Some newSamplingRate)
      | Some r => let! _ := cstr (take 1024 (r ++ replicate 1024 0)) in Ret (0, Some newSamplingRate)
      end.

(** ** The path between two autonomous systems *)

(** "GetPath" *)
Definition get_path : bytes := [71; 101; 116; 80; 97; 116; 104; 0].

Definition path_message (as1 as2 : Z) : outcome bytes :=
  let! command := strcpy (replicate 100 0) get_path in
  let! command := strcat command sharp in
  let! tmp := sprintf_i junk as1 in
  let! command := strcat command tmp in
  let! command := strcat command sharp in
  let! tmp := sprintf_i tmp as2 in
  let! command := strcat command tmp in
  strcat command sharp.

(** The result, what was written, and the array [path]. *)
Definition SendPathRequestPacket (sk : peer_socket) (as1 as2 : Z) (path : bytes) : outcome (Z * option bytes * bytes) :=
  if negb (ps_socket sk) then Fatal
  else
    let! command := path_message as1 as2 in
    if negb (ps_connect sk) then Ret (-1, None, path)
    else if negb (ps_write sk) then Ret (-1, None, path)
    else
      match ps_read sk with
      | None => Ret (-1, Some command, path)
      | Some r => let! path := strcpy path (take 1024 (r ++ replicate 1024 0)) in Ret (0, Some command, path)
      end.

(** The loop of Add_path; [sep_position] is one less than the start of the next
    interface, [n] turns are left. *)
Fixpoint path_loop (n : nat) (received_path : bytes) (fin_chaine sep_position : Z) (pathh : list bytes) : outcome (list bytes) :=
  match n with
  | O => Diverges
  | S n =>
      let prev_sep_position := sep_position + 1 in
      let! r := strchr received_path prev_sep_position sep in
      match r with
      | None => Undef NullDeref
      | Some sep_position =>
          let tail := sep_position - prev_sep_position + 1 in
          let! current_interface := strncpy (replicate (Z.to_nat tail) 0) received_path prev_sep_position (sep_position - prev_sep_position) in
          let pathh := pathh ++ [current_interface] in
          if sep_position <? fin_chaine - 1 then path_loop n received_path fin_chaine sep_position pathh
          else Ret pathh
      end
  end.

(** The interfaces of the path, in order, each in its array. *)
Definition Add_path (received_path : bytes) : outcome (list bytes) :=
  let! s := cstr received_path in
  path_loop (S (length s)) received_path (Z.of_nat (length s)) (-1) [].
End client.

(** ** Numbers that are written and read again *)

Lemma udigits_ok k : forall n acc, 0 <= n < 10 ^ Z.of_nat k -> (0 < k)%nat ->
  exists d, udigits k n acc = d ++ acc /\ d <> [] /\ Forall (fun c => isdigit c = true) d /\
    forall v, foldl (fun v c => 10 * v + (c - 48)) v d = v * 10 ^ Z.of_nat (length d) + n.
Proof.
  induction k as [|k IH]; intros n acc Hn Hk; [lia|]. cbn [udigits].
  assert (isdigit (48 + n mod 10) = true) as Hd by (unfold isdigit; pose proof (Z.mod_pos_bound n 10 ltac:(lia)); lia).
  assert (n = 10 * (n / 10) + n mod 10) as Hdiv by (apply Z.div_mod; lia).
  destruct (Z.eqb_spec (n / 10) 0) as [E|E].
  - exists [48 + n mod 10]. split; [done|]. split; [done|]. split; [by repeat constructor|]. intros v. cbn. lia.
  - assert (k <> 0%nat) as Hk0.
    { intros ->. change (10 ^ Z.of_nat 1) with 10 in Hn. rewrite Z.div_small in E by lia. done. }
    rewrite Nat2Z.inj_succ, Z.pow_succ_r in Hn by lia.
    destruct (IH (n / 10) ((48 + n mod 10) :: acc)) as (d & -> & Hne & Hdig & Hval); [|lia|].
    { split; [apply Z.div_pos; lia|apply Z.div_lt_upper_bound; lia]. }
    exists (d ++ [48 + n mod 10]). split; [by rewrite <- app_assoc|]. split; [by destruct d|].
    split; [apply Forall_app; split; [done|by repeat constructor]|]. intros v.
    rewrite foldl_app, Hval, length_app. cbn. rewrite Nat2Z.inj_add, Z.pow_add_r by lia. lia.
Qed.

Lemma udigits_length k : forall n acc m, 0 <= n < 10 ^ Z.of_nat m -> (0 < m)%nat -> (length (udigits k n acc) <= m + length acc)%nat.
Proof.
  induction k as [|k IH]; intros n acc m Hn Hm; [cbn; lia|]. cbn [udigits]. destruct (Z.eqb_spec (n / 10) 0) as [E|E]; [cbn; lia|].
  destruct m as [|m]; [lia|]. rewrite Nat2Z.inj_succ, Z.pow_succ_r in Hn by lia.
  assert (m <> 0%nat) as Hm0.
  { intros ->. change (10 ^ Z.of_nat 0) with 1 in Hn. rewrite Z.div_small in E by lia. done. }
  etrans; [apply (IH _ _ m); [split; [apply Z.div_pos; lia|apply Z.div_lt_upper_bound; lia]|lia]|]. cbn. lia.
Qed.

(** An int that is not negative. *)
Lemma itoa_number n : 0 <= n < 2147483648 -> number (itoa n) /\ dec (itoa n) = n /\ (length (itoa n) <= 10)%nat.
Proof.
  intros Hn. unfold itoa. rewrite (proj2 (Z.ltb_ge _ _)) by lia.
  destruct (udigits_ok 20 n []) as (d & E & Hne & Hd & Hval); [cbn; lia|lia|].
  pose proof (udigits_length 20 n [] 10 ltac:(cbn; lia) ltac:(lia)) as Hlen. rewrite E, app_nil_r in *. cbn [length] in Hlen.
  specialize (Hval 0). rewrite Z.mul_0_l, Z.add_0_l in Hval. fold (dec d) in Hval.
  split; [|split; [done|lia]]. split; [done|]. split; [done|]. split; [lia|]. lia.
Qed.

Lemma number_text d : number d -> text d.
Proof. intros H. by apply part_text, number_part. Qed.

(** ** Messages in their arrays *)

Lemma cstr_zeros a k : text a -> (0 < k)%nat -> cstr (a ++ replicate k 0) = Ret a.
Proof. intros Ha Hk. destruct k as [|k]; [lia|]. by apply cstr_app. Qed.

Lemma strcat_zeros a k s r : text a -> text s -> (length s < k)%nat ->
  strcat (a ++ replicate k 0) (s ++ 0 :: r) = Ret ((a ++ s) ++ replicate (k - length s) 0).
Proof.
  intros Ha Hs Hk. unfold strcat. rewrite cstr_zeros by (done || lia). cbn [obind]. rewrite cstr_app by done. cbn [obind].
  replace k with (length (s ++ [0%Z]) + (k - length s - 1))%nat at 1 by (rewrite length_app; cbn [length]; lia).
  rewrite replicate_add. rewrite (wr_app a (replicate (length (s ++ [0])) 0)) by (done || by rewrite length_replicate).
  destruct (k - length s)%nat as [|j] eqn:E; [lia|]. cbn [Nat.sub replicate]. rewrite Nat.sub_0_r. by simplify_list_eq.
Qed.

Lemma strcpy_zeros k s r : text s -> (length s < k)%nat -> strcpy (replicate k 0) (s ++ 0 :: r) = Ret (s ++ replicate (k - length s) 0).
Proof.
  intros Hs Hk. unfold strcpy. rewrite cstr_app by done. cbn [obind].
  replace k with (length (s ++ [0%Z]) + (k - length s - 1))%nat at 1 by (rewrite length_app; cbn [length]; lia).
  rewrite replicate_add, wr_head by (by rewrite length_replicate).
  destruct (k - length s)%nat as [|j] eqn:E; [lia|]. cbn [Nat.sub replicate]. rewrite Nat.sub_0_r. by simplify_list_eq.
Qed.

Lemma sprintf_i_ok dst n : 0 <= n < 2147483648 -> (20 <= length dst)%nat ->
  exists r, sprintf_i dst n = Ret (itoa n ++ 0 :: r) /\ length (itoa n ++ 0 :: r) = length dst.
Proof.
  intros Hn Hl. destruct (itoa_number n Hn) as (_ & _ & Hlen). unfold sprintf_i. clear Hn. set (d := itoa n) in *. clearbody d.
  assert (length (d ++ [0%Z]) <= length dst)%nat as Hle by (rewrite length_app; cbn [length]; lia).
  exists (drop (length (d ++ [0])) dst). split.
  { pose proof (wr_head (take (length (d ++ [0])) dst) (drop (length (d ++ [0])) dst) (d ++ [0])) as Hw.
    rewrite take_drop in Hw. rewrite Hw by (rewrite length_take; lia). by rewrite <- app_assoc. }
  rewrite length_app. cbn [length]. rewrite length_drop. rewrite length_app in *. cbn [length] in *. lia.
Qed.

Lemma sharp_text : text [35].
Proof. by repeat constructor. Qed.

Lemma control_message_ok junk p1 p2 ip r : length junk = 20%nat -> 0 <= p1 < 2147483648 -> 0 <= p2 < 2147483648 ->
  text ip -> (length ip < 16)%nat ->
  let m := rate_msg (itoa p1) (itoa p2) ip in
  control_message junk p1 p2 (ip ++ 0 :: r) = Ret (m ++ replicate (100 - length m) 0) /\ (length m < 100)%nat.
Proof.
  intros Hj H1 H2 Hip Hl m. unfold control_message.
  destruct (itoa_number p1 H1) as (N1 & _ & L1). destruct (itoa_number p2 H2) as (N2 & _ & L2).
  apply number_text in N1, N2. pose proof sharp_text as Hs.
  destruct (sprintf_i_ok junk p1 H1) as (r1 & -> & R1); [lia|]. cbn [obind].
  rewrite strcpy_zeros by (done || lia). cbn [obind]. change sharp with ([35] ++ 0 :: []).
  rewrite strcat_zeros by (done || cbn; lia). cbn [obind].
  destruct (sprintf_i_ok (itoa p1 ++ 0 :: r1) p2 H2) as (r2 & -> & _); [lia|]. cbn [obind].
  rewrite strcat_zeros by ((by apply Forall_app) || done || cbn; lia). cbn [obind].
  rewrite strcat_zeros by ((repeat (apply Forall_app; split); done) || done || cbn; lia). cbn [obind].
  rewrite strcat_zeros by ((repeat (apply Forall_app; split); done) || done || cbn; lia).
  assert (m = ((((itoa p1 ++ [35]) ++ itoa p2) ++ [35]) ++ ip)) as -> by (unfold m, rate_msg, seps; cbn; unfold sep; by simplify_list_eq).
  rewrite !length_app. cbn [length]. split; [|lia]. do 3 f_equal. lia.
Qed.

Lemma received_zeros m k : (length m < CONTROL_BUFFER_SIZE)%nat -> (length m + k <= CONTROL_BUFFER_SIZE)%nat ->
  received (m ++ replicate k 0) = received m.
Proof.
  intros Hm Hk. unfold received. rewrite !take_ge by (rewrite ?length_app, ?length_replicate; lia).
  rewrite length_app, length_replicate, <- app_assoc, <- replicate_add. do 2 f_equal. lia.
Qed.

Lemma message_zeros m k s : (length m < CONTROL_BUFFER_SIZE)%nat -> (length m + k <= CONTROL_BUFFER_SIZE)%nat ->
  HandleTCPClient (Some (m ++ replicate k 0)) s = HandleTCPClient (Some m) s.
Proof. intros Hm Hk. unfold HandleTCPClient. by rewrite received_zeros. Qed.

(** The sockets work, and the answer is a string that fits its buffer, with or without
    terminators. *)
Definition answered (sk : peer_socket) (ack : bytes) : Prop :=
  ps_socket sk = true /\ ps_connect sk = true /\ ps_write sk = true /\ (exists k, ps_read sk = Some (ack ++ replicate k 0)) /\
  text ack /\ (length ack < 1024)%nat.

Lemma answer_string ack k : text ack -> (length ack < 1024)%nat ->
  exists r, take 1024 ((ack ++ replicate k 0) ++ replicate 1024 0) = ack ++ 0 :: r.
Proof.
  intros Ha Hl. rewrite <- app_assoc, <- replicate_add. rewrite take_app_ge by lia. rewrite take_replicate.
  destruct ((1024 - length ack) `min` (k + 1024))%nat as [|j] eqn:E; [lia|]. by exists (replicate j 0).
Qed.

(** A request of flowd to change the rate of a monitor, from its numbers to the
    state of softflowd: the message that SendControlPacket writes makes the server
    give exactly that monitor exactly that rate; it answers that there is no such
    monitor when it has none. *)
Theorem client_sets_rate junk sk ack p1 p2 ip r s :
  length junk = 20%nat -> answered sk ack -> ValidateSamplingRate p1 p2 = 0 -> p2 < 2147483648 ->
  text ip -> (length ip < 16)%nat ->
  exists m, SendControlPacket junk sk p1 p2 (ip ++ 0 :: r) = Ret (0, Some m) /\
    (forall i n, node_of ip (cs_sampling s) i n ->
       exists s', HandleTCPClient (Some m) s = Ret (Some RateUpdated, s') /\
         listNodes (cs_sampling s') = <[i := set_rates p1 p2 n]> (listNodes (cs_sampling s)) /\
         StopsControlServer s' = StopsControlServer s) /\
    (find_node ip (listNodes (cs_sampling s)) = None -> HandleTCPClient (Some m) s = Ret (Some InvalidMonitor, s)).
Proof.
  intros Hj (E1 & E2 & E3 & (k & E4) & Hack & Hackl) Hv Hp2 Hip Hl. unfold SendControlPacket. rewrite Hv, E1, E2, E3, E4. cbn [negb Z.ltb Z.compare].
  assert (0 <= p1 < 2147483648 /\ 0 <= p2) as [H1 H2] by (unfold ValidateSamplingRate in Hv; repeat case_match; lia).
  destruct (control_message_ok junk p1 p2 ip r Hj H1 ltac:(lia) Hip Hl) as [-> Hlm]. set (m := rate_msg _ _ _) in *. cbn [obind].
  destruct (answer_string ack k Hack Hackl) as (r' & ->). rewrite cstr_app by done. cbn [obind].
  eexists. split; [reflexivity|]. rewrite message_zeros by (unfold CONTROL_BUFFER_SIZE; lia). unfold m.
  destruct (itoa_number p1 H1) as (N1 & D1 & _). destruct (itoa_number p2 ltac:(lia)) as (N2 & D2 & _).
  rewrite rate_msg_ok, D1, D2 by done. unfold ChangeSamplingRateInNode, FindSamplingNode, check16.
  rewrite (proj2 (Nat.ltb_lt _ _)) by done. cbn [obind]. rewrite (proj2 (Nat.ltb_lt _ _)) by done. cbn [obind]. split.
  - intros i n (_ & Hf & Hn & Hs). rewrite Hf. unfold node_get. rewrite Hn. cbn [obind].
    destruct (sem_wait_post n Hs) as [-> _]. cbn [obind Z.eqb negb]. eexists. split; [reflexivity|]. split; [|done].
    cbn. f_equal. destruct n. cbn in *. by subst.
  - intros ->. destruct s. done.
Qed.

(** ** Paths *)

Lemma path_loop_ok ps : Forall part ps -> forall n pre acc r, (length ps < n)%nat -> ps <> [] ->
  path_loop n (pre ++ seps ps ++ 0 :: r) (Z.of_nat (length (pre ++ seps ps))) (Z.of_nat (length pre) - 1) acc =
    Ret (acc ++ ((fun p => p ++ [0]) <$> ps)).
Proof.
  induction 1 as [|p ps Hp _ IH]; intros [|n] pre acc r Hn Hne; [done..|cbn in Hn; lia|]. cbn [path_loop].
  replace (Z.of_nat (length pre) - 1 + 1) with (Z.of_nat (length pre)) by lia. rewrite seps_cons, strchr_app by done.
  cbn [obind]. replace (Z.of_nat (length pre) + Z.of_nat (length p) - Z.of_nat (length pre)) with (Z.of_nat (length p)) by lia.
  replace (Z.to_nat (Z.of_nat (length p) + 1)) with (S (length p)) by lia.
  rewrite (strncpy_app (replicate (S (length p)) 0) pre p) by (done || (by apply part_text) || rewrite length_replicate; lia).
  cbn [obind]. rewrite drop_replicate, Nat.sub_succ_l, Nat.sub_diag by lia. cbn [replicate].
  destruct (Z.ltb_spec (Z.of_nat (length pre) + Z.of_nat (length p)) (Z.of_nat (length (pre ++ seps (p :: ps))) - 1)) as [Hlt|Hge];
    rewrite !length_app, (f_equal length (eq_refl : seps (p :: ps) = (p ++ [sep]) ++ seps ps)), !length_app in *; cbn [length] in *.
  - assert (ps <> []) as Hps by (intros ->; cbn in Hlt; lia).
    specialize (IH n (pre ++ p ++ [sep]) (acc ++ [p ++ [0]]) r ltac:(lia) Hps). rewrite !length_app in IH. cbn [length] in IH.
    replace (Z.of_nat (length pre) + Z.of_nat (length p)) with (Z.of_nat (length pre + (length p + 1)) - 1) by lia.
    replace (length pre + (length p + 1 + length (seps ps)))%nat with (length pre + (length p + 1) + length (seps ps))%nat by lia.
    cbn [fmap list_fmap]. rewrite <- !app_assoc in IH. cbn [app] in IH. exact IH.
  - assert (ps = []) as ->; [|done]. destruct ps as [|q ps]; [done|]. exfalso. revert Hge.
    rewrite (f_equal length (eq_refl : seps (q :: ps) = (q ++ [sep]) ++ seps ps)), !length_app. cbn [length]. lia.
Qed.

Lemma seps_length ps : (length ps <= length (seps ps))%nat.
Proof. induction ps as [|p ps IH]; [done|]. change (seps (p :: ps)) with ((p ++ [sep]) ++ seps ps). rewrite !length_app. cbn [length]. lia. Qed.

Lemma add_path_ok ps r : Forall part ps -> ps <> [] -> Add_path (seps ps ++ 0 :: r) = Ret ((fun p => p ++ [0]) <$> ps).
Proof.
  intros Hps Hne. unfold Add_path. rewrite cstr_app by (by apply seps_text). cbn [obind].
  apply (path_loop_ok ps Hps _ [] [] r); [|done]. pose proof (seps_length ps). lia.
Qed.

(** The message "GetPath#as1#as2#". *)
Definition path_msg (as1 as2 : Z) : bytes := seps [removelast get_path; itoa as1; itoa as2].

Lemma path_message_ok junk as1 as2 : length junk = 20%nat -> 0 <= as1 < 2147483648 -> 0 <= as2 < 2147483648 ->
  path_message junk as1 as2 = Ret (path_msg as1 as2 ++ replicate (100 - length (path_msg as1 as2)) 0) /\ (length (path_msg as1 as2) < 100)%nat.
Proof.
  intros Hj H1 H2. unfold path_message.
  pose proof sharp_text as Hs. destruct (itoa_number as1 H1) as (N1 & _ & L1). destruct (itoa_number as2 H2) as (N2 & _ & L2).
  apply number_text in N1, N2. assert (text (removelast get_path)) as Hg by (apply (bool_decide_unpack _); vm_compute; exact I).
  change get_path with (removelast get_path ++ 0 :: []). rewrite strcpy_zeros by (done || vm_compute; lia). cbn [obind].
  change sharp with ([35] ++ 0 :: []). rewrite strcat_zeros by (done || cbn; lia). cbn [obind].
  destruct (sprintf_i_ok junk as1 H1) as (r1 & -> & R1); [lia|]. cbn [obind].
  rewrite strcat_zeros by ((by apply Forall_app) || done || cbn; lia). cbn [obind].
  rewrite strcat_zeros by ((repeat (apply Forall_app; split); done) || done || cbn; lia). cbn [obind].
  destruct (sprintf_i_ok (itoa as1 ++ 0 :: r1) as2 H2) as (r2 & -> & _); [lia|]. cbn [obind].
  rewrite strcat_zeros by ((repeat (apply Forall_app; split); done) || done || cbn; lia). cbn [obind].
  rewrite strcat_zeros by ((repeat (apply Forall_app; split); done) || done || cbn; lia).
  assert (path_msg as1 as2 = ((((removelast get_path ++ [35]) ++ itoa as1) ++ [35]) ++ itoa as2) ++ [35]) as ->
    by (unfold path_msg, seps; cbn; unfold sep; by simplify_list_eq).
  rewrite !length_app. cbn [length removelast get_path]. split; [|lia]. do 3 f_equal. lia.
Qed.

(** The answer to a path request, from the socket to the list: the interfaces
    that the server sends, each followed by "#", are those of the list that
    Add_path makes, in order. *)
Theorem path_request junk sk as1 as2 ps path : length junk = 20%nat -> answered sk (seps ps) -> Forall part ps -> ps <> [] ->
  0 <= as1 < 2147483648 -> 0 <= as2 < 2147483648 -> (length (seps ps) < length path)%nat ->
  exists k path', SendPathRequestPacket junk sk as1 as2 path = Ret (0, Some (path_msg as1 as2 ++ replicate k 0), path') /\
    (length (path_msg as1 as2) + k = 100)%nat /\ Add_path path' = Ret ((fun p => p ++ [0]) <$> ps).
Proof.
  intros Hj (E1 & E2 & E3 & (k & E4) & Ht & Hl) Hps Hne H1 H2 Hpath. unfold SendPathRequestPacket. rewrite E1, E2, E3, E4. cbn [negb].
  destruct (path_message_ok junk as1 as2 Hj H1 H2) as [-> Hlm]. cbn [obind].
  destruct (answer_string (seps ps) k Ht Hl) as (r' & ->). unfold strcpy. rewrite cstr_app by done. cbn [obind].
  assert (length (seps ps ++ [0%Z]) <= length path)%nat as Hle by (rewrite length_app; cbn [length]; lia).
  pose proof (wr_head (take (length (seps ps ++ [0])) path) (drop (length (seps ps ++ [0])) path) (seps ps ++ [0])) as Hw.
  rewrite take_drop in Hw. rewrite Hw by (rewrite length_take; lia). cbn [obind].
  eexists _, _. split; [reflexivity|]. split; [lia|]. rewrite <- app_assoc. by apply add_path_ok.
Qed.

(** An answer without an interface is undefined: the position after the last "#" is
    computed from a null pointer. *)
Theorem add_path_empty r : Add_path (0 :: r) = Undef NullDeref.
Proof. done. Qed.

(** ** Examples *)

Definition sample_socket (ack : bytes) : peer_socket := Mk_peer_socket true true true (Some (ack ++ [0])).

Lemma client_sets_rate_witness : exists m s',
  SendControlPacket (replicate 20 7) (sample_socket [79; 75]) 1 3 (sample_ip ++ [0]) = Ret (0, Some m) /\
  HandleTCPClient (Some m) (Mk_server sample_sampling 0) = Ret (Some RateUpdated, s') /\
  listNodes (cs_sampling s') = [set_rates 1 3 sample_node].
Proof.
  destruct (client_sets_rate (replicate 20 7) (sample_socket [79; 75]) [79; 75] 1 3 sample_ip [] (Mk_server sample_sampling 0))
    as (m & E & H & _).
  - done.
  - do 3 (split; [done|]). split; [by exists 1%nat|]. split; [by repeat constructor|cbn; lia].
  - done.
  - done.
  - apply (bool_decide_unpack _). vm_compute. exact I.
  - cbn. lia.
  - destruct (H 0%nat sample_node) as (s' & Es & El & _).
    + split; [cbn; lia|]. split; [vm_compute; reflexivity|]. by split.
    + exists m, s'. split; [exact E|]. split; [exact Es|exact El].
Defined.
