(* ===== verification/PrivTypes.v ===== *)
(** * The configuration of flowd and its memory images (src/flowd/flowd.h, filter.h)

    struct flowd_config with its lists, and the bytes that an object of each list
    occupies in memory, which privsep.c sends from one process to the other as they
    are: padding and queue links included, whatever they hold. *)

From S2P Require Import Prelude Packed Addr Filter.

(** ** Structs *)

Definition FLOWD_OPT_DONT_FORK : Z := 1.
Definition FLOWD_OPT_VERBOSE : Z := 2.
Definition FLOWD_OPT_INSECURE : Z := 4.

Record allowed_device := Mk_allowed_device { ad_addr : xaddr; ad_masklen : Z }.
Record listen_addr := Mk_listen_addr { la_addr : xaddr; la_port : Z; la_fd : Z; la_bufsiz : Z }.
Record join_group := Mk_join_group { jg_addr : xaddr }.

Record flowd_config := Mk_flowd_config {
  log_file : option bytes; log_socket : option bytes; log_socket_bufsiz : Z;
  pid_file : option bytes; store_mask : Z; opts : Z;
  listen_addrs : list listen_addr; filter_list : list filter_rule;
  allowed_devices : list allowed_device; join_groups : list join_group
}.

(** bzero of the struct, and TAILQ_INIT of its lists. *)
Definition config_zero : flowd_config := Mk_flowd_config None None 0 None 0 0 [] [] [] [].

Definition set_fd (fd : Z) (la : listen_addr) : listen_addr := Mk_listen_addr (la_addr la) (la_port la) fd (la_bufsiz la).
Definition set_opts (o : Z) (c : flowd_config) : flowd_config :=
  Mk_flowd_config (log_file c) (log_socket c) (log_socket_bufsiz c) (pid_file c) (store_mask c) o
    (listen_addrs c) (filter_list c) (allowed_devices c) (join_groups c).
Definition set_listen_addrs (l : list listen_addr) (c : flowd_config) : flowd_config :=
  Mk_flowd_config (log_file c) (log_socket c) (log_socket_bufsiz c) (pid_file c) (store_mask c) (opts c)
    l (filter_list c) (allowed_devices c) (join_groups c).

(** ** Memory images *)

(** The widths of the members of an object, padding and links included, and its
    conversion to and from their values; [img_to] takes the values of padding and
    links from the first argument. *)
Class Image (A : Type) := {
  img_widths : list nat;
  img_to : (nat -> Z) -> A -> list Z;
  img_of : list Z -> A;
  img_ok : A -> Prop
}.
Arguments img_widths A {_}.

Class ImageLaws (A : Type) `{Image A} := {
  img_fits junk (a : A) : img_ok a -> Forall2 fits (img_widths A) (img_to junk a);
  img_of_to junk (a : A) : img_ok a -> img_of (img_to junk a) = a
}.

Definition img_size (A : Type) `{Image A} : Z := Z.of_nat (sum_list (img_widths A)).
Definition image `{Image A} (junk : nat -> Z) (a : A) : bytes := enc_ints (img_widths A) (img_to junk a).
Definition of_image `{Image A} (b : bytes) : A := img_of (dec_ints (img_widths A) b).

Lemma image_length `{ImageLaws A} junk (a : A) : img_ok a -> Z.of_nat (length (image junk a)) = img_size A.
Proof.
  intros Ha. unfold image, img_size. rewrite length_enc_ints; [done|]. eapply Forall2_length, img_fits, Ha.
Qed.

Lemma of_image_image `{ImageLaws A} junk (a : A) : img_ok a -> of_image (image junk a) = a.
Proof.
  intros Ha. unfold of_image, image. pose proof (dec_enc_ints _ _ [] (img_fits junk a Ha)) as E.
  rewrite app_nil_r in E. rewrite E. by apply img_of_to.
Qed.

(** An int as it is in memory, and what a pad or a link of [w] bytes holds. *)
Definition int_mem (v : Z) : Z := v mod 4294967296.
Definition junk_mem (w : nat) (v : Z) : Z := v mod 256 ^ Z.of_nat w.

Lemma fits_int v : fits 4 (int_mem v).
Proof. unfold fits, int_mem. apply Z.mod_pos_bound. done. Qed.
Lemma fits_junk w v : fits w (junk_mem w v).
Proof. unfold fits, junk_mem. apply Z.mod_pos_bound, pow256_pos. Qed.
Lemma int_of_mem v : s32 v -> swrap32 (int_mem v) = v.
Proof. unfold int_mem. width. intros Hv. rewrite Zplus_mod_idemp_l, Z.mod_small by lia. lia. Qed.
Lemma fits_u16 v : u16 v -> fits 2 v.
Proof. done. Qed.
Lemma fits_u32 v : u32 v -> fits 4 v.
Proof. done. Qed.
Lemma fits_u64 v : u64 v -> fits 8 v.
Proof. done. Qed.

(** struct xaddr: the family, padding, the union, the scope. *)
Definition xaddr_widths : list nat := [2; 2; 4; 4; 4; 4; 4]%nat.
Definition xaddr_mem (pad : Z) (x : xaddr) : list Z := af x :: junk_mem 2 pad :: addr32 x ++ [scope_id x].
Definition mem_xaddr (l : list Z) : xaddr :=
  match l with
  | [f; _; a; b; c; d; s] => Xaddr f [a; b; c; d] s
  | _ => xaddr_zero
  end.
Definition xaddr_mem_ok (x : xaddr) : Prop := xaddr_ok x /\ u16 (af x).

Lemma xaddr_mem_fits pad x : xaddr_mem_ok x -> Forall2 fits xaddr_widths (xaddr_mem pad x).
Proof.
  intros [(Hl & Hw & Hs) Haf]. destruct x as [f ws s]. destruct ws as [|a [|b [|c [|d [|]]]]]; try done.
  cbn in *. rewrite !Forall_cons in Hw. destruct Hw as (Ha & Hb & Hc & Hd & _).
  repeat constructor; try apply Z.mod_pos_bound; first [done|apply Haf|apply Ha|apply Hb|apply Hc|apply Hd|apply Hs].
Qed.

Lemma mem_xaddr_mem pad x : xaddr_ok x -> mem_xaddr (xaddr_mem pad x) = x.
Proof. intros (Hl & _). destruct x as [f ws s]. by destruct ws as [|a [|b [|c [|d [|]]]]]. Qed.

Lemma xaddr_mem_length pad x : xaddr_ok x -> length (xaddr_mem pad x) = 7%nat.
Proof. intros (Hl & _). cbn. rewrite length_app, Hl. done. Qed.

(** The first seven values are those of an xaddr. *)
Lemma take_xaddr pad x l : xaddr_ok x -> take 7 (xaddr_mem pad x ++ l) = xaddr_mem pad x.
Proof. intros Hx. apply take_app_length'. by rewrite xaddr_mem_length. Qed.
Lemma drop_xaddr pad x l : xaddr_ok x -> drop 7 (xaddr_mem pad x ++ l) = l.
Proof. intros Hx. apply drop_app_length'. by rewrite xaddr_mem_length. Qed.

Definition ival (l : list Z) (i : nat) : Z := nth i l 0.

#[export] Instance allowed_device_image : Image allowed_device := {
  img_widths := xaddr_widths ++ [4; 4; 8; 8]%nat;
  img_to junk a := xaddr_mem (junk 0%nat) (ad_addr a) ++
    [ad_masklen a; junk_mem 4 (junk 1%nat); junk_mem 8 (junk 2%nat); junk_mem 8 (junk 3%nat)];
  img_of l := Mk_allowed_device (mem_xaddr (take 7 l)) (ival (drop 7 l) 0);
  img_ok a := xaddr_mem_ok (ad_addr a) /\ u32 (ad_masklen a)
}.

#[export] Instance join_group_image : Image join_group := {
  img_widths := xaddr_widths ++ [8; 8]%nat;
  img_to junk a := xaddr_mem (junk 0%nat) (jg_addr a) ++ [junk_mem 8 (junk 1%nat); junk_mem 8 (junk 2%nat)];
  img_of l := Mk_join_group (mem_xaddr (take 7 l));
  img_ok a := xaddr_mem_ok (jg_addr a)
}.

#[export] Instance listen_addr_image : Image listen_addr := {
  img_widths := xaddr_widths ++ [2; 2; 4; 8; 8; 8]%nat;
  img_to junk a := xaddr_mem (junk 0%nat) (la_addr a) ++
    [la_port a; junk_mem 2 (junk 1%nat); int_mem (la_fd a); la_bufsiz a; junk_mem 8 (junk 2%nat); junk_mem 8 (junk 3%nat)];
  img_of l := Mk_listen_addr (mem_xaddr (take 7 l)) (ival (drop 7 l) 0) (swrap32 (ival (drop 7 l) 2)) (ival (drop 7 l) 3);
  img_ok a := xaddr_mem_ok (la_addr a) /\ u16 (la_port a) /\ s32 (la_fd a) /\ u64 (la_bufsiz a)
}.

(** The members of struct filter_match between and after its addresses. *)
Definition match_ints (m : filter_match) : list Z :=
  [ifndx_in m; ifndx_out m; m_src_port m; m_dst_port m; proto m; m_tos m; tcp_flags_mask m; tcp_flags_equals m;
   day_mask m; dayafter m; daybefore m; absafter m; absbefore m].
Definition filter_match_ok (m : filter_match) : Prop :=
  u32 (match_what m) /\ u32 (match_negate m) /\ s32 (agent_masklen m) /\ xaddr_mem_ok (m_agent_addr m) /\ s32 (m_af m) /\
  s32 (src_masklen m) /\ xaddr_mem_ok (m_src_addr m) /\ s32 (dst_masklen m) /\ xaddr_mem_ok (m_dst_addr m) /\
  Forall s32 (match_ints m).

#[export] Instance filter_match_image : Image filter_match := {
  img_widths := [4; 4; 4]%nat ++ xaddr_widths ++ [4; 4]%nat ++ xaddr_widths ++ [4]%nat ++ xaddr_widths ++ repeat 4%nat 13;
  img_to junk m := [match_what m; match_negate m; int_mem (agent_masklen m)] ++ xaddr_mem (junk 0%nat) (m_agent_addr m) ++
    [int_mem (m_af m); int_mem (src_masklen m)] ++ xaddr_mem (junk 1%nat) (m_src_addr m) ++
    [int_mem (dst_masklen m)] ++ xaddr_mem (junk 2%nat) (m_dst_addr m) ++ (int_mem <$> match_ints m);
  img_of l :=
    let i k := swrap32 (ival l k) in
    Mk_filter_match (ival l 0) (ival l 1) (i 2%nat) (mem_xaddr (take 7 (drop 3 l))) (i 10%nat) (i 11%nat)
      (mem_xaddr (take 7 (drop 12 l))) (i 19%nat) (mem_xaddr (take 7 (drop 20 l)))
      (i 27%nat) (i 28%nat) (i 29%nat) (i 30%nat) (i 31%nat) (i 32%nat) (i 33%nat) (i 34%nat) (i 35%nat) (i 36%nat)
      (i 37%nat) (i 38%nat) (i 39%nat);
  img_ok := filter_match_ok
}.

#[export] Instance filter_rule_image : Image filter_rule := {
  img_widths := [8; 8; 4; 4; 4]%nat ++ img_widths filter_match ++ [8; 8; 8]%nat;
  img_to junk r := [junk_mem 8 (junk 3%nat); junk_mem 8 (junk 4%nat); int_mem (action_what (fr_action r)); act_tag (fr_action r);
      b2z (quick r)] ++ img_to junk (fr_match r) ++ [evaluations r; matches r; wins r];
  img_of l := Mk_filter_rule (Mk_filter_action (swrap32 (ival l 2)) (ival l 3)) (negb (ival l 4 =? 0))
    (img_of (take 40 (drop 5 l))) (ival (drop 45 l) 0) (ival (drop 45 l) 1) (ival (drop 45 l) 2);
  img_ok r := s32 (action_what (fr_action r)) /\ u32 (act_tag (fr_action r)) /\ img_ok (fr_match r) /\
    u64 (evaluations r) /\ u64 (matches r) /\ u64 (wins r)
}.

(** The values of an object fit their members. *)
Ltac fits_ints := repeat (apply Forall2_cons; split; [first [done | apply fits_int | apply fits_junk]|]); try by constructor.
Ltac fits_all := cbn [img_widths img_to allowed_device_image join_group_image listen_addr_image filter_match_image];
  repeat first [apply Forall2_app; [first [by apply xaddr_mem_fits | by fits_ints]|] | progress fits_ints].

#[export] Instance allowed_device_laws : ImageLaws allowed_device.
Proof.
  split.
  - intros junk a [Hx Hm]. fits_all.
  - intros junk [x m] [[Hx _] Hm]. cbn [img_of img_to allowed_device_image ad_addr ad_masklen] in *. rewrite take_xaddr, drop_xaddr, mem_xaddr_mem by done. done.
Qed.

#[export] Instance join_group_laws : ImageLaws join_group.
Proof.
  split.
  - intros junk a Hx. fits_all.
  - intros junk [x] [Hx _]. cbn [img_of img_to join_group_image jg_addr] in *. rewrite take_xaddr, mem_xaddr_mem by done. done.
Qed.

#[export] Instance listen_addr_laws : ImageLaws listen_addr.
Proof.
  split.
  - intros junk a (Hx & Hp & Hf & Hb). fits_all.
  - intros junk [x p f b] ([Hx _] & Hp & Hf & Hb). cbn [img_of img_to listen_addr_image la_addr la_port la_fd la_bufsiz] in *. rewrite take_xaddr, drop_xaddr, mem_xaddr_mem by done.
    cbn. by rewrite int_of_mem.
Qed.

#[export] Instance filter_match_laws : ImageLaws filter_match.
Proof.
  split.
  - intros junk m (H1 & H2 & H3 & H4 & H5 & H6 & H7 & H8 & H9 & H10). fits_all.
  - intros junk m (H1 & H2 & H3 & [H4 _] & H5 & H6 & [H7 _] & H8 & [H9 _] & H10).
    destruct m. cbn -[take drop] in *. repeat (apply Forall_cons in H10 as [? H10]).
    destruct H4 as (L4 & _), H7 as (L7 & _), H9 as (L9 & _).
    repeat match goal with x : xaddr |- _ => destruct x as [? ws ?]; cbn in L4, L7, L9;
      destruct ws as [|? [|? [|? [|? [|]]]]]; try done end.
    cbn. by rewrite !int_of_mem.
Qed.

Lemma filter_match_length junk (m : filter_match) : img_ok m -> length (img_to junk m) = 40%nat.
Proof. intros Hm. apply img_fits with (junk := junk), Forall2_length in Hm. by rewrite <- Hm. Qed.

#[export] Instance filter_rule_laws : ImageLaws filter_rule.
Proof.
  split.
  - intros junk r (H1 & H2 & H3 & H4 & H5 & H6). cbn [img_to img_widths filter_rule_image].
    assert (fits 4 (b2z (quick r))) as Hq by (by destruct (quick r)).
    cbn [app]. do 2 (apply Forall2_cons; split; [apply fits_junk|]). apply Forall2_cons; split; [apply fits_int|].
    apply Forall2_cons; split; [by apply fits_u32|]. apply Forall2_cons; split; [done|].
    apply Forall2_app; [by apply img_fits|]. fits_ints.
  - intros junk r (H1 & H2 & H3 & H4 & H5 & H6). pose proof (filter_match_length junk _ H3) as Hl.
    cbn [img_to img_of filter_rule_image]. destruct r as [[w t] q m e k n]. cbn [fr_match fr_action action_what act_tag quick evaluations matches wins] in *.
    set (l := img_to junk m) in *.
    assert (take 40 (drop 5 ([junk_mem 8 (junk 3%nat); junk_mem 8 (junk 4%nat); int_mem w; t; b2z q] ++ l ++ [e; k; n])) = l) as E1
      by (cbn [drop app]; by apply take_app_length').
    assert (drop 45 ([junk_mem 8 (junk 3%nat); junk_mem 8 (junk 4%nat); int_mem w; t; b2z q] ++ l ++ [e; k; n]) = [e; k; n]) as E2
      by (cbn [drop app]; by apply drop_app_length').
    rewrite E1, E2. unfold l. rewrite img_of_to by done. cbn. rewrite int_of_mem by done. by destruct q.
Qed.
