(* ===== verification/Privsep.v ===== *)
(** * Privilege separation (src/flowd/privsep.c, privsep_fdpass.c)

    flowd runs as two processes: the monitor, which keeps its privileges, and the
    process that collects flows without any.  They share a socket, over which the
    collector asks the monitor to open the log or to read the configuration again
    and gets descriptors and the configuration; the configuration itself is parsed by
    a third process, without privileges, that sends it to the monitor.

    A process is its state [proc]; the socket is what has arrived on it and what was
    sent.  Every system call draws from the list [p_sys] whether it works; calls
    beyond the end of the list work. *)

From stdpp Require Import gmap.
From S2P Require Import Prelude Packed CString Addr Filter PrivTypes.

(** ** Processes *)

(** Open files, shared by the descriptors of all processes: a listener with the
    address it is bound to, its receive buffer and the multicast groups it joined;
    the log; the log socket. *)
Inductive handle :=
  | Listener (bound : option (xaddr * Z)) (rcvbuf : option Z) (groups : list xaddr)
  | LogFile (path : bytes)
  | LogSocket (path : bytes) (sndbuf : option Z).

(** What travels over a socket: a byte, or the byte that carries a descriptor. *)
Inductive item := Byte (b : Z) | Pass (h : handle).
Definition item_byte (i : item) : Z := match i with Byte b => b | Pass _ => 0 end.

Record creds := Mk_creds { cr_uid : Z; cr_gid : Z; cr_groups : list Z; cr_root : option bytes }.
Record passwd := Mk_passwd { pw_dir : bytes; pw_uid : Z; pw_gid : Z }.

Record proc := Mk_proc {
  p_rx : list item;               (* arrived and not read *)
  p_eof : bool;                   (* whether the peer has closed its end *)
  p_tx : list item;               (* sent *)
  p_fds : gmap Z handle;          (* the descriptors *)
  p_cred : creds;
  p_pids : gset bytes;            (* the pid files that exist *)
  p_sys : list (option nat)       (* a failing call: Some, with what it transferred before *)
}.

(** A function goes on with a value or ends the process with a status. *)
Inductive res (A : Type) := Go (a : A) | Exit (status : Z).
Arguments Go {A} a.
Arguments Exit {A} status.

Abbreviation M A := (proc -> outcome (res A * proc)).
Definition ret {A} (a : A) : M A := fun p => Ret (Go a, p).
Definition exit {A} (status : Z) : M A := fun p => Ret (Exit status, p).
(** logerr and logerrx. *)
Definition logerrx {A} : M A := exit 1.
Definition bind {A B} (m : M A) (k : A -> M B) : M B :=
  fun p => let! (r, p) := m p in match r with Go a => k a p | Exit s => Ret (Exit s, p) end.
Definition lift {A} (o : outcome A) : M A := fun p => let! a := o in Ret (Go a, p).
Definition get {A} (f : proc -> A) : M A := fun p => Ret (Go (f p), p).
Declare Scope priv_scope.
Notation "'let*' x := m 'in' k" := (bind m (fun x => k))
  (at level 10, x pattern, m at level 100, k at level 200) : priv_scope.
Open Scope priv_scope.

Definition set_rx l p := Mk_proc l (p_eof p) (p_tx p) (p_fds p) (p_cred p) (p_pids p) (p_sys p).
Definition set_tx l p := Mk_proc (p_rx p) (p_eof p) l (p_fds p) (p_cred p) (p_pids p) (p_sys p).
Definition set_fds t p := Mk_proc (p_rx p) (p_eof p) (p_tx p) t (p_cred p) (p_pids p) (p_sys p).
Definition set_cred c p := Mk_proc (p_rx p) (p_eof p) (p_tx p) (p_fds p) c (p_pids p) (p_sys p).
Definition set_sys l p := Mk_proc (p_rx p) (p_eof p) (p_tx p) (p_fds p) (p_cred p) (p_pids p) l.
Definition set_pids s p := Mk_proc (p_rx p) (p_eof p) (p_tx p) (p_fds p) (p_cred p) s (p_sys p).
Definition modify (f : proc -> proc) : M unit := fun p => Ret (Go tt, f p).

(** ** System calls *)

Definition draw : M (option nat) := fun p =>
  match p_sys p with
  | [] => Ret (Go None, p)
  | r :: l => Ret (Go r, set_sys l p)
  end.
(** A call that works or not. *)
Definition call : M bool := let* r := draw in ret (match r with None => true | Some _ => false end).

(** atomicio(read, fd, buf, n) on the socket: its result and the bytes; 0 when the
    peer closed before; the descriptor of a byte that plain read takes is dropped. *)
Definition atomic_read (n : Z) : M (Z * bytes) :=
  let* r := draw in
  fun p =>
    let rx := p_rx p in
    match r with
    | Some c => Ret (Go (-1, item_byte <$> take c rx), set_rx (drop c rx) p)
    | None =>
        if n <=? Z.of_nat (length rx) then
          Ret (Go (n, item_byte <$> take (Z.to_nat n) rx), set_rx (drop (Z.to_nat n) rx) p)
        else if p_eof p then Ret (Go (0, item_byte <$> rx), set_rx [] p)
        else Diverges
    end.

(** atomicio(vwrite, fd, b, n). *)
Definition atomic_write (b : bytes) : M Z :=
  let* r := draw in
  fun p =>
    match r with
    | Some c => Ret (Go (-1), set_tx (p_tx p ++ (Byte <$> take c b)) p)
    | None => Ret (Go (Z.of_nat (length b)), set_tx (p_tx p ++ (Byte <$> b)) p)
    end.

Section privsep.
(** What padding and links hold; which number the kernel gives to a descriptor;
    what getpwnam finds. *)
Context (junk : nat -> Z) (newfd : gmap Z handle -> Z) (pw : option passwd).

Definition open_fd (h : handle) : M Z := fun p =>
  let fd := newfd (p_fds p) in Ret (Go fd, set_fds (<[fd := h]> (p_fds p)) p).
Definition close (fd : Z) : M unit := modify (fun p => set_fds (delete fd (p_fds p)) p).
Definition set_handle (fd : Z) (h : handle) : M unit := modify (fun p => set_fds (<[fd := h]> (p_fds p)) p).

(** ** Passing descriptors *)

Definition send_fd (fd : Z) : M Z :=
  let* ok := call in
  if negb ok then logerrx
  else fun p =>
    match p_fds p !! fd with
    | None => logerrx p
    | Some h => Ret (Go 0, set_tx (p_tx p ++ [Pass h]) p)
    end.

Definition receive_fd : M Z :=
  let* ok := call in
  if negb ok then logerrx
  else fun p =>
    match p_rx p with
    | [] => if p_eof p then logerrx p else Diverges
    | Byte _ :: rx => logerrx (set_rx rx p)
    | Pass h :: rx => open_fd h (set_rx rx p)
    end.

(** ** Strings *)

Definition sizeof_buf : nat := Z.to_nat 8192.

Definition privsep_read_string (nullok : bool) : M (option bytes) :=
  let* (r, b) := atomic_read 8 in
  if negb (r =? 8) then logerrx
  else
    let len := le_val b in
    if nullok && (len =? 0) then ret None
    else if (len <=? 0) || (Z.of_nat sizeof_buf <=? len) then logerrx
    else
      let* (r, b) := atomic_read len in
      if negb (r =? len) then ret None
      else
        let* buf := lift (wr (b ++ replicate (sizeof_buf - length b) 0) len [0]) in
        let* s := lift (cstr buf) in
        let* ok := call in
        ret (if ok then Some s else None).

(** A string is its bytes without the terminator. *)
Definition privsep_write_string (s : option bytes) (nullok : bool) : M Z :=
  match s with
  | None =>
      if negb nullok then logerrx
      else
        let* r := atomic_write (le_bytes 8 0) in
        ret (if negb (r =? 8) then -1 else 0)
  | Some s =>
      let len := Z.of_nat (length s) in
      if len <=? 0 then ret (-1)
      else
        let* r := atomic_write (le_bytes 8 len) in
        if negb (r =? 8) then ret (-1)
        else
          let* r := atomic_write s in
          ret (if negb (r =? len) then -1 else 0)
  end.

(** ** Listeners *)

(** The sizes that are tried for the receive buffer when the configuration has
    none: (1024 * 64) << i for i = 3, 2, 1. *)
Fixpoint guess_rcvbuf (i : nat) : M (option Z) :=
  match i with
  | O => ret None
  | S j =>
      let* ok := call in
      if ok then ret (Some (Z.shiftl 65536 (Z.of_nat i))) else guess_rcvbuf j
  end.

(** The multicast groups of the family of the listener. *)
Fixpoint join (af : Z) (groups : list join_group) : M (list xaddr) :=
  match groups with
  | [] => ret []
  | jg :: groups =>
      if negb (Addr.af (jg_addr jg) =? af) then join af groups
      else
        let* ok := call in
        let* l := join af groups in
        ret (if ok then jg_addr jg :: l else l)
  end.

Definition open_listener (addr : xaddr) (port bufsiz : Z) (groups : list join_group) : M Z :=
  match addr_xaddr_to_sa addr 128 port with
  | None => ret (-1)
  | Some _ =>
      let* ok := call in
      if negb ok then ret (-1)
      else
        let* fd := open_fd (Listener None None []) in
        let* ok := call in
        if negb ok then ret (-1)
        else
          let* ok := call in
          if negb ok then ret (-1)
          else
            let* ok := if af addr =? AF_INET6 then call else ret true in
            if negb ok then ret (-1)
            else
              let* ok := call in
              if negb ok then ret (-1)
              else
                let* ok := call in
                let* rcvbuf :=
                  if negb ok then ret None
                  else if 0 <? bufsiz then
                    let* ok := call in if ok then ret (Some (swrap32 bufsiz)) else logerrx
                  else guess_rcvbuf 3 in
                let* _ := call in
                let* joined := join (af addr) groups in
                let* _ := set_handle fd (Listener (Some (addr, port)) rcvbuf joined) in
                ret fd
  end.

(** ** Replacing the configuration *)

Fixpoint close_listeners (l : list listen_addr) : M unit :=
  match l with
  | [] => ret tt
  | la :: l =>
      let* _ := if negb (la_fd la =? -1) then close (la_fd la) else ret tt in
      close_listeners l
  end.

(** The queue that results from moving the last object of [l] to the head of [acc]
    as long as there is one. *)
Fixpoint move_last {A} (n : nat) (l acc : list A) : list A :=
  match n, last l with
  | S n, Some x => move_last n (removelast l) (x :: acc)
  | _, _ => acc
  end.
Definition move {A} (l : list A) : list A := move_last (length l) l [].

Definition replace_conf (conf newconf : flowd_config) : M flowd_config :=
  let* _ := close_listeners (listen_addrs conf) in
  ret (Mk_flowd_config (log_file newconf) (log_socket newconf) (log_socket_bufsiz newconf) (pid_file newconf)
    (store_mask newconf) (opts newconf) (move (listen_addrs newconf)) (move (filter_list newconf))
    (move (allowed_devices newconf)) (move (join_groups newconf))).

(** ** Receiving the configuration *)

(** A number of [w] bytes; None when it cannot be read. *)
Definition read_num (w : nat) : M (option Z) :=
  let* (r, b) := atomic_read (Z.of_nat w) in
  ret (if negb (r =? Z.of_nat w) then None else Some (le_val b)).

(** One object into memory of its own. *)
Definition read_obj (A : Type) `{Image A} : M (option A) :=
  let* ok := call in
  if negb ok then ret None
  else
    let* (r, b) := atomic_read (img_size A) in
    ret (if negb (r =? img_size A) then None else Some (of_image b)).

Definition read_listen_addr : M (option listen_addr) :=
  let* la := read_obj listen_addr in
  match la with
  | None => ret None
  | Some la =>
      if negb (la_fd la =? -1) then
        let* fd := receive_fd in
        ret (if fd =? -1 then None else Some (set_fd fd la))
      else ret (Some la)
  end.

Fixpoint read_objs {A} (read : M (option A)) (n : nat) (acc : list A) : M (option (list A)) :=
  match n with
  | O => ret (Some acc)
  | S n =>
      let* a := read in
      match a with None => ret None | Some a => read_objs read n (acc ++ [a]) end
  end.

(** A list: its length, between [least] and [most], then its objects. *)
Definition read_list {A} (read : M (option A)) (least most : Z) : M (option (list A)) :=
  let* n := read_num 4 in
  match n with
  | None => ret None
  | Some n => if (n <? least) || (most <? n) then ret None else read_objs read (Z.to_nat n) []
  end.

(** The result and the configuration, which an error leaves as it was. *)
Definition recv_config (conf : flowd_config) : M (Z * flowd_config) :=
  let fail := ret (-1, conf) in
  let* log_file := privsep_read_string true in
  let* log_socket := privsep_read_string true in
  let* bufsiz := read_num 8 in
  match bufsiz with
  | None => fail
  | Some bufsiz =>
      let* pid_file := privsep_read_string false in
      if decide (pid_file = None) then fail
      else
        let* store_mask := read_num 4 in
        match store_mask with
        | None => fail
        | Some store_mask =>
            let* opts := read_num 4 in
            match opts with
            | None => fail
            | Some opts =>
                let* listen := read_list read_listen_addr 1 8192 in
                match listen with
                | None => fail
                | Some listen =>
                    let* rules := read_list (read_obj filter_rule) 0 (1024 * 1024) in
                    match rules with
                    | None => fail
                    | Some rules =>
                        let* devices := read_list (read_obj allowed_device) 0 (1024 * 1024) in
                        match devices with
                        | None => fail
                        | Some devices =>
                            let* groups := read_list (read_obj join_group) 0 (1024 * 1024) in
                            match groups with
                            | None => fail
                            | Some groups =>
                                let* conf := replace_conf conf (Mk_flowd_config log_file log_socket bufsiz pid_file
                                  store_mask opts listen rules devices groups) in
                                ret (0, conf)
                            end
                        end
                    end
                end
            end
        end
  end.

(** ** Sending the configuration *)

(** The next statement after a call that returned 0. *)
Definition andthen (m : M Z) (k : M Z) : M Z := let* r := m in if r =? -1 then ret (-1) else k.

Definition write_num (w : nat) (v : Z) : M Z :=
  let* r := atomic_write (le_bytes w v) in ret (if negb (r =? Z.of_nat w) then -1 else 0).

Definition write_obj {A} `{Image A} (a : A) : M Z :=
  let* r := atomic_write (image junk a) in ret (if negb (r =? img_size A) then -1 else 0).

Definition write_listen_addr (la : listen_addr) : M Z :=
  andthen (write_obj la) (if negb (la_fd la =? -1) then send_fd (la_fd la) else ret 0).

Fixpoint write_objs {A} (write : A -> M Z) (l : list A) : M Z :=
  match l with
  | [] => ret 0
  | a :: l => andthen (write a) (write_objs write l)
  end.

(** The length of the queue, an unsigned int, and its objects. *)
Definition write_list {A} (write : A -> M Z) (l : list A) : M Z :=
  andthen (write_num 4 (wrap32 (Z.of_nat (length l)))) (write_objs write l).

Definition send_config (conf : flowd_config) : M Z :=
  andthen (privsep_write_string (log_file conf) true)
  (andthen (privsep_write_string (log_socket conf) true)
  (andthen (write_num 8 (log_socket_bufsiz conf))
  (andthen (privsep_write_string (pid_file conf) false)
  (andthen (write_num 4 (store_mask conf))
  (andthen (write_num 4 (opts conf))
  (andthen (write_list write_listen_addr (listen_addrs conf))
  (andthen (write_list write_obj (filter_list conf))
  (andthen (write_list write_obj (allowed_devices conf))
  (write_list write_obj (join_groups conf)))))))))).

(** ** Privileges *)

(** The calls in order, each with its effect; the first that fails ends it. *)
Fixpoint call_each (l : list (creds -> creds)) : M Z :=
  match l with
  | [] => ret 0
  | f :: l =>
      let* ok := call in
      if negb ok then ret (-1)
      else let* _ := modify (fun p => set_cred (f (p_cred p)) p) in call_each l
  end.

Definition set_root d (c : creds) := Mk_creds (cr_uid c) (cr_gid c) (cr_groups c) (Some d).
Definition set_groups l (c : creds) := Mk_creds (cr_uid c) (cr_gid c) l (cr_root c).
Definition set_gid g (c : creds) := Mk_creds (cr_uid c) g (cr_groups c) (cr_root c).
Definition set_uid u (c : creds) := Mk_creds u (cr_gid c) (cr_groups c) (cr_root c).

(** setsid; chdir and chroot; chdir("/"); setgroups; setresgid; setresuid. *)
Definition drop_privs (pw : passwd) (do_chroot : bool) : M Z :=
  call_each ([id] ++ (if do_chroot then [id; set_root (pw_dir pw)] else []) ++
    [id; set_groups [pw_gid pw]; set_gid (pw_gid pw); set_uid (pw_uid pw)]).

(** ** Reading the configuration *)

(** The process that parses: its calls, and what parse_config makes of the file. *)
Record child_run := Mk_child_run { cr_sys : list (option nat); cr_parse : option flowd_config }.

Definition insecure (conf : flowd_config) : bool := negb (Z.land (opts conf) FLOWD_OPT_INSECURE =? 0).

Definition config_child (conf : flowd_config) (parse : option flowd_config) : M Z :=
  let* ok := call in
  if negb ok then exit 1
  else
    let* r := match pw with
              | Some pw => if negb (insecure conf) then drop_privs pw false else ret 0
              | None => ret 0
              end in
    if r =? -1 then exit 1
    else
      let* r := atomic_write (le_bytes 4 (b2z (bool_decide (parse <> None)))) in
      if negb (r =? 4) then exit 1
      else
        match parse with
        | None => exit 1
        | Some newconf =>
            let* r := send_config newconf in
            if r =? -1 then exit 1 else exit 0
        end.

(** Reading from the other end of a socket on which [rx] was sent before the peer
    closed it. *)
Definition on_channel {A} (rx : list item) (m : M A) : M A := fun p =>
  let! (r, p') := m (Mk_proc rx true (p_tx p) (p_fds p) (p_cred p) (p_pids p) (p_sys p)) in
  Ret (r, Mk_proc (p_rx p) (p_eof p) (p_tx p') (p_fds p') (p_cred p') (p_pids p') (p_sys p')).

Definition child_get_config (cr : child_run) (conf : flowd_config) : M (Z * flowd_config) :=
  let fail conf := ret (-1, conf) in
  if negb (insecure conf) && bool_decide (pw = None) then fail conf
  else
    let* ok := call in
    if negb ok then fail conf
    else
      let* ok := call in
      if negb ok then fail conf
      else
        let* p := get id in
        let* (status, c) := lift (config_child conf (cr_parse cr) (Mk_proc [] false [] (p_fds p) (p_cred p) (p_pids p) (cr_sys cr))) in
        let status := match status with Exit s => s | Go s => s end in
        let* (failed, conf) := on_channel (p_tx c)
          (let* ok := read_num 4 in
           match ok with
           | None => ret (true, conf)
           | Some ok =>
               if ok =? 0 then ret (true, conf)
               else let* (r, conf) := recv_config conf in ret (r =? -1, conf)
           end) in
        if failed : bool then fail conf
        else
          let* ok := call in
          if negb ok then fail conf
          else if negb (status =? 0) then fail conf
          else ret (0, conf).

Definition own_opts : Z := Z.lor FLOWD_OPT_DONT_FORK (Z.lor FLOWD_OPT_VERBOSE FLOWD_OPT_INSECURE).

Definition read_config (cr : child_run) (conf : flowd_config) : M (Z * flowd_config) :=
  let saved := Z.land (opts conf) own_opts in
  let* (r, conf) := child_get_config cr conf in
  if negb (r =? 0) then ret (-1, conf)
  else ret (0, set_opts (Z.lor (opts conf) saved) conf).

(** ** The requests of the collector *)

Definition C2M_MSG_OPEN_LOG : Z := 1.
Definition C2M_MSG_OPEN_SOCKET : Z := 2.
Definition C2M_MSG_RECONFIGURE : Z := 3.

Definition client_open_log : M Z :=
  let* r := atomic_write (le_bytes 4 C2M_MSG_OPEN_LOG) in
  if negb (r =? 4) then ret (-1) else receive_fd.

Definition client_open_socket : M Z :=
  let* r := atomic_write (le_bytes 4 C2M_MSG_OPEN_SOCKET) in
  if negb (r =? 4) then ret (-1) else receive_fd.

Definition client_reconfigure (conf : flowd_config) : M (Z * flowd_config) :=
  let* _ := close_listeners (listen_addrs conf) in
  let conf := set_listen_addrs (set_fd (-1) <$> listen_addrs conf) conf in
  let* r := atomic_write (le_bytes 4 C2M_MSG_RECONFIGURE) in
  if negb (r =? 4) then ret (-1, conf)
  else
    let* ok := read_num 4 in
    match ok with
    | None => ret (-1, conf)
    | Some ok =>
        if ok =? 0 then ret (-1, conf)
        else
          let* (r, conf) := recv_config conf in
          ret (if r =? -1 then -1 else 0, conf)
    end.

(** ** The answers of the monitor *)

Definition answer_open_log (conf : flowd_config) : M Z :=
  match log_file conf with
  | None => logerrx
  | Some path =>
      let* ok := call in
      if negb ok then ret (-1)
      else
        let* fd := open_fd (LogFile path) in
        let* r := send_fd fd in
        if r =? -1 then ret (-1) else let* _ := close fd in ret 0
  end.

Definition sizeof_sun_path : Z := 108.

Definition answer_open_socket (conf : flowd_config) : M Z :=
  match log_socket conf with
  | None => logerrx
  | Some path =>
      let* ok := call in
      if negb ok then ret (-1)
      else
        let* fd := open_fd (LogSocket path None) in
        if sizeof_sun_path <=? Z.of_nat (length path) then logerrx
        else
          let* ok := call in
          if negb ok then ret (-1)
          else
            let* _ :=
              if 0 <? log_socket_bufsiz conf then
                let* ok := call in
                if ok then
                  let* ok := call in
                  if ok then set_handle fd (LogSocket path (Some (log_socket_bufsiz conf))) else logerrx
                else ret tt
              else ret tt in
            let* r := send_fd fd in
            if r =? -1 then ret (-1) else let* _ := close fd in ret 0
  end.

(** A pid file may be created without its contents. *)
Definition write_pid_file (path : option bytes) : M Z :=
  let* ok := call in
  if negb ok then ret (-1)
  else
    let* _ := modify (fun p => set_pids (from_option (fun s => {[s]} ∪ p_pids p) (p_pids p) path) p) in
    let* ok := call in ret (if ok then 0 else -1).
Definition unlink (path : option bytes) : M unit :=
  modify (fun p => set_pids (from_option (fun s => p_pids p ∖ {[s]}) (p_pids p) path) p).

(** Opens the listeners of [l]: whether all could be, and the list. *)
Fixpoint open_listeners (groups : list join_group) (l : list listen_addr) : M (bool * list listen_addr) :=
  match l with
  | [] => ret (true, [])
  | la :: l =>
      let* fd := open_listener (la_addr la) (la_port la) (la_bufsiz la) groups in
      if fd =? -1 then ret (false, set_fd fd la :: l)
      else let* (ok, l) := open_listeners groups l in ret (ok, set_fd fd la :: l)
  end.

Fixpoint close_all (l : list listen_addr) : M unit :=
  match l with
  | [] => ret tt
  | la :: l => let* _ := close (la_fd la) in close_all l
  end.

(** Both names of the pid file are there when they are compared: parse_config sets a
    default and recv_config refuses a null one. *)
Definition answer_reconfigure (cr : child_run) (conf : flowd_config) : M (Z * flowd_config) :=
  let newconf := set_opts (Z.land (opts conf) own_opts) config_zero in
  let* (r, newconf) := read_config cr newconf in
  let* (opened, listen) := open_listeners (join_groups conf) (listen_addrs newconf) in
  let newconf := set_listen_addrs listen newconf in
  let ok := negb (r =? -1) && opened in
  let* w := atomic_write (le_bytes 4 (b2z ok)) in
  if negb (w =? 4) then ret (-1, conf)
  else if negb ok then ret (-1, conf)
  else
    let* r := send_config newconf in
    if r =? -1 then ret (-1, conf)
    else
      let* _ := close_all (listen_addrs newconf) in
      let newconf := set_listen_addrs (set_fd (-1) <$> listen_addrs newconf) newconf in
      let rewrite_pidfile := bool_decide (pid_file conf <> pid_file newconf) in
      let* conf := replace_conf conf newconf in
      if rewrite_pidfile then
        let* r := write_pid_file (pid_file conf) in
        ret (if r =? -1 then -1 else 0, conf)
      else ret (0, conf).

(** exit behind unlink(conf->pid_file). *)
Definition leave (conf : flowd_config) (status : Z) : M unit := let* _ := unlink (pid_file conf) in exit status.

(** The end of privsep_master: [exited] tells whether SIGCHLD came, [status] is the
    status of the collector, None when it did not exit normally. *)
Definition master_end (conf : flowd_config) (exited : bool) (status : option Z) : M unit :=
  if exited then let* ok := call in leave conf (if ok && bool_decide (status = Some 0) then 0 else 1)
  else leave conf 0.

(** The loop of the monitor, [n] turns at most.  [sigchld] tells for each turn
    whether SIGCHLD came before the read, and before the loop is left; the [k]-th
    configuration is read as [runs k] says. *)
Fixpoint privsep_master (n : nat) (sigchld : nat -> bool * bool) (status : option Z) (runs : nat -> child_run)
    (k : nat) (conf : flowd_config) : M unit :=
  match n with
  | O => fun _ => Diverges
  | S n =>
      if (sigchld n).1 then master_end conf true status
      else
        let* (r, b) := atomic_read 4 in
        if r =? 0 then master_end conf (sigchld n).2 status
        else if negb (r =? 4) then leave conf 1
        else
          let what := le_val b in
          if what =? C2M_MSG_OPEN_LOG then
            let* r := answer_open_log conf in
            if negb (r =? 0) then leave conf 1 else privsep_master n sigchld status runs k conf
          else if what =? C2M_MSG_OPEN_SOCKET then
            let* r := answer_open_socket conf in
            if negb (r =? 0) then leave conf 1 else privsep_master n sigchld status runs k conf
          else if what =? C2M_MSG_RECONFIGURE then
            let* (r, conf) := answer_reconfigure (runs k) conf in
            if negb (r =? 0) then leave conf 1 else privsep_master n sigchld status runs (S k) conf
          else privsep_master n sigchld status runs k conf
  end.

(** ** Start *)

Definition dont_fork (conf : flowd_config) : bool := negb (Z.land (opts conf) FLOWD_OPT_DONT_FORK =? 0).

(** Calls that end the process when they fail. *)
Fixpoint must (n : nat) : M unit :=
  match n with
  | O => ret tt
  | S n => let* ok := call in if negb ok then logerrx else must n
  end.

(** privsep_init up to the fork: socketpair, getpwnam, open, daemon, dup2 twice,
    fork. *)
Definition privsep_fork (conf : flowd_config) : M unit :=
  let* _ := must 1 in
  if negb (insecure conf) && bool_decide (pw = None) then logerrx
  else must (if dont_fork conf then 4 else 5).

(** The collector behind the fork. *)
Definition privsep_child (conf : flowd_config) : M unit :=
  let* r := match pw with
            | Some pw => if negb (insecure conf) then drop_privs pw true else ret 0
            | None => ret 0
            end in
  if r =? -1 then exit 1 else must (if dont_fork conf then 0 else 1).

(** The monitor behind the fork. *)
Definition privsep_parent (n : nat) (sigchld : nat -> bool * bool) (status : option Z) (runs : nat -> child_run)
    (conf : flowd_config) : M unit :=
  let* _ := must (if dont_fork conf then 0 else 1) in
  let* _ := close_listeners (listen_addrs conf) in
  let conf := set_listen_addrs (set_fd (-1) <$> listen_addrs conf) conf in
  let* r := write_pid_file (pid_file conf) in
  if r =? -1 then exit 1 else privsep_master n sigchld status runs 0 conf.
End privsep.
