(* ===== verification/PrivsepProps.v ===== *)
(** * The configuration travels unchanged (src/flowd/privsep.c)

    What send_config puts on a socket is what recv_config takes from it: the same
    configuration, and for each listener a descriptor of the same open socket.  On
    any bytes at all recv_config stays inside its buffers. *)

From stdpp Require Import gmap.
From S2P Require Import Prelude Packed CString Addr Filter PrivTypes.
From S2P Require Import Privsep.

(** ** Steps of the two sides *)

(** A bind whose first part goes on. *)
Lemma bind_Go {A B} (m : M A) (k : A -> M B) p a p' : m p = Ret (Go a, p') -> bind m k p = k a p'.
Proof. unfold bind. by intros ->. Qed.

(** A process that works on the table [t] and whose calls all work sends [l] and
    gives 0; it receives [l] and gives [a], with the table [t'] after. *)
Definition sends (t : gmap Z handle) (m : M Z) (l : list item) : Prop :=
  forall p, p_sys p = [] -> p_fds p = t -> m p = Ret (Go 0, set_tx (p_tx p ++ l) p).
Definition receives {A} (t : gmap Z handle) (m : M A) (l : list item) (a : A) (t' : gmap Z handle) : Prop :=
  forall p rest, p_sys p = [] -> p_fds p = t -> p_rx p = l ++ rest -> m p = Ret (Go a, set_fds t' (set_rx rest p)).

Lemma sends_andthen t m k l1 l2 : sends t m l1 -> sends t k l2 -> sends t (andthen m k) (l1 ++ l2).
Proof.
  intros Hm Hk p Hs Ht. unfold andthen. rewrite (bind_Go _ _ _ _ _ (Hm p Hs Ht)). cbn [Z.eqb].
  rewrite Hk by done. cbn. by rewrite app_assoc.
Qed.

Lemma receives_bind {A B} t m (k : A -> M B) l1 a t1 l2 b t2 :
  receives t m l1 a t1 -> receives t1 (k a) l2 b t2 -> receives t (bind m k) (l1 ++ l2) b t2.
Proof.
  intros Hm Hk p rest Hs Ht Hrx. rewrite <- app_assoc in Hrx. rewrite (bind_Go _ _ _ _ _ (Hm p _ Hs Ht Hrx)).
  by rewrite (Hk (set_fds t1 (set_rx (l2 ++ rest) p)) rest).
Qed.

Lemma receives_ret {A} t (a : A) : receives t (ret a) [] a t.
Proof. intros p rest Hs Ht Hrx. cbn in Hrx. destruct p. cbn in *. by subst. Qed.

Lemma receives_bind_ret {A B} t (m : M A) (f : A -> B) l a t' :
  receives t m l a t' -> receives t (bind m (fun x => ret (f x))) l (f a) t'.
Proof. intros Hm. rewrite <- (app_nil_r l). eapply receives_bind; [exact Hm|apply receives_ret]. Qed.

Lemma atomic_write_ok b p : p_sys p = [] ->
  atomic_write b p = Ret (Go (Z.of_nat (length b)), set_tx (p_tx p ++ (Byte <$> b)) p).
Proof. intros Hs. unfold atomic_write, draw, bind. by rewrite Hs. Qed.

Lemma sends_write t b (n : Z) : n = Z.of_nat (length b) ->
  sends t (bind (atomic_write b) (fun r => ret (if negb (r =? n) then -1 else 0))) (Byte <$> b).
Proof.
  intros -> p Hs Ht. rewrite (bind_Go _ _ _ _ _ (atomic_write_ok b p Hs)). by rewrite Z.eqb_refl.
Qed.

Lemma receives_read t b n : n = Z.of_nat (length b) -> receives t (atomic_read n) (Byte <$> b) (n, b) t.
Proof.
  intros -> p rest Hs Ht Hrx. unfold atomic_read, draw, bind. rewrite Hs. cbn [obind]. rewrite Hrx.
  assert (length (Byte <$> b) = length b) as Hl by apply length_fmap.
  rewrite (proj2 (Z.leb_le _ _)) by (rewrite length_app; lia). rewrite Nat2Z.id.
  rewrite take_app_length', drop_app_length' by done. rewrite <- list_fmap_compose.
  assert (item_byte ∘ Byte <$> b = b) as -> by apply list_fmap_id. destruct p. cbn in *. by subst.
Qed.

Lemma receives_call t : receives t call [] true t.
Proof. intros p rest Hs Ht Hrx. cbn in Hrx. unfold call, draw, bind. rewrite Hs. cbn. destruct p. cbn in *. by subst. Qed.

Section roundtrip.
Context (junk : nat -> Z) (newfd : gmap Z handle -> Z).

(** ** Numbers and strings *)

Lemma sends_num t w v : sends t (write_num w v) (Byte <$> le_bytes w v).
Proof. apply sends_write. by rewrite length_le_bytes. Qed.

Lemma receives_num t w v : 0 <= v < 256 ^ Z.of_nat w -> receives t (read_num w) (Byte <$> le_bytes w v) (Some v) t.
Proof.
  intros Hv. unfold read_num. rewrite <- (app_nil_r (Byte <$> _)).
  eapply receives_bind; [apply receives_read; by rewrite length_le_bytes|]. cbn beta iota. rewrite Z.eqb_refl. cbn [negb].
  rewrite le_val_le_bytes by done. apply receives_ret.
Qed.

(** A string that can be sent, and what it is on the socket. *)
Definition string_ok (s : option bytes) : Prop :=
  match s with None => True | Some s => text s /\ (0 < length s < sizeof_buf)%nat end.
Definition string_bytes (s : option bytes) : bytes :=
  match s with None => le_bytes 8 0 | Some s => le_bytes 8 (Z.of_nat (length s)) ++ s end.

Lemma sends_string t s nullok : string_ok s -> (nullok = true \/ s <> None) ->
  sends t (privsep_write_string s nullok) (Byte <$> string_bytes s).
Proof.
  intros Hs Hn p Hsys Ht. destruct s as [s|]; cbn [privsep_write_string string_bytes].
  - destruct Hs as [_ Hl]. rewrite (proj2 (Z.leb_gt _ _)) by lia.
    rewrite (bind_Go _ _ _ _ _ (atomic_write_ok _ p Hsys)), length_le_bytes. cbn [Z.of_nat Pos.of_succ_nat Pos.succ Z.eqb Pos.eqb negb].
    pose proof (sends_write t s (Z.of_nat (length s)) eq_refl) as Hw. rewrite Hw by done. by rewrite fmap_app, app_assoc.
  - destruct Hn as [->|]; [|done]. cbn [negb]. by apply (sends_write t (le_bytes 8 0) 8).
Qed.

Lemma sizeof_buf_val : Z.of_nat sizeof_buf = 8192.
Proof. done. Qed.

Lemma receives_string t s nullok : string_ok s -> (nullok = true \/ s <> None) ->
  receives t (privsep_read_string nullok) (Byte <$> string_bytes s) s t.
Proof.
  intros Hs Hn. unfold privsep_read_string. pose proof sizeof_buf_val as Hbuf. destruct s as [s|]; cbn [string_bytes].
  - destruct Hs as [Htext Hl]. rewrite fmap_app. eapply receives_bind; [apply receives_read; by rewrite length_le_bytes|].
    cbn beta iota. cbn [Z.eqb Pos.eqb negb]. rewrite le_val_le_bytes by lia.
    rewrite (proj2 (Z.eqb_neq _ 0)), andb_false_r by lia. rewrite (proj2 (Z.leb_gt _ 0)), (proj2 (Z.leb_gt _ _)) by lia. cbn [orb].
    rewrite <- (app_nil_r (Byte <$> s)). eapply receives_bind; [by apply receives_read|]. cbn beta iota. rewrite Z.eqb_refl. cbn [negb].
    assert (exists r, wr (s ++ replicate (sizeof_buf - length s) 0) (Z.of_nat (length s)) [0] = Ret (s ++ 0 :: r)) as (r & ->).
    { destruct (sizeof_buf - length s)%nat as [|k] eqn:Ek; [lia|]. cbn [replicate]. exists (replicate k 0).
      by rewrite (wr_app s [0] (replicate k 0)). }
    intros p rest Hsys Ht Hrx. unfold lift at 1, bind at 1. cbn [obind]. unfold lift, bind at 1.
    rewrite cstr_app by done. cbn [obind]. exact (receives_bind_ret _ _ _ _ _ _ (receives_call t) p rest Hsys Ht Hrx).
  - destruct Hn as [->|]; [|done]. rewrite <- (app_nil_r (Byte <$> _)).
    eapply receives_bind; [by apply receives_read|]. cbn beta iota. apply receives_ret.
Qed.

(** ** Objects *)

Lemma sends_obj `{ImageLaws A} t (a : A) : img_ok a -> sends t (write_obj junk a) (Byte <$> image junk a).
Proof. intros Ha. unfold write_obj. apply sends_write. by rewrite image_length. Qed.

Lemma receives_obj `{ImageLaws A} t (a : A) : img_ok a -> receives t (read_obj A) (Byte <$> image junk a) (Some a) t.
Proof.
  intros Ha. unfold read_obj. change (Byte <$> image junk a) with ([] ++ (Byte <$> image junk a)).
  eapply receives_bind; [apply receives_call|]. cbn [negb]. rewrite <- (app_nil_r (Byte <$> _)).
  eapply receives_bind; [apply receives_read; by rewrite image_length|]. cbn beta iota. rewrite Z.eqb_refl. cbn [negb].
  rewrite of_image_image by done. apply receives_ret.
Qed.

(** A listener: its descriptor, if it has one, follows its bytes. *)
Definition open_in (t : gmap Z handle) (fd : Z) : Prop := fd = -1 \/ is_Some (t !! fd).
Definition pass_of (t : gmap Z handle) (fd : Z) : list item :=
  if fd =? -1 then [] else match t !! fd with Some h => [Pass h] | None => [] end.
Definition listen_items (t : gmap Z handle) (la : listen_addr) : list item :=
  (Byte <$> image junk la) ++ pass_of t (la_fd la).

(** The receiver with the table [u] gets a descriptor of its own. *)
Definition adopt (t : gmap Z handle) (la : listen_addr) (u : gmap Z handle) : listen_addr * gmap Z handle :=
  match pass_of t (la_fd la) with
  | Pass h :: _ => (set_fd (newfd u) la, <[newfd u := h]> u)
  | _ => (la, u)
  end.
Fixpoint adopt_all (t : gmap Z handle) (l : list listen_addr) (u : gmap Z handle) : list listen_addr * gmap Z handle :=
  match l with
  | [] => ([], u)
  | la :: l => let (la, u) := adopt t la u in let (l, u) := adopt_all t l u in (la :: l, u)
  end.

Hypothesis newfd_fresh : forall t, t !! newfd t = None /\ newfd t <> -1.

Lemma sends_listen t la : img_ok la -> open_in t (la_fd la) -> sends t (write_listen_addr junk la) (listen_items t la).
Proof.
  intros Hla Ho. unfold write_listen_addr, listen_items. apply sends_andthen; [by apply sends_obj|].
  unfold pass_of. destruct (Z.eqb_spec (la_fd la) (-1)) as [E|E]; cbn [negb].
  - intros p Hs Ht. cbn. rewrite app_nil_r. by destruct p.
  - destruct Ho as [|[h Hh]]; [done|]. rewrite Hh. intros p Hs Ht. unfold send_fd, call, draw, bind. rewrite Hs. cbn.
    by rewrite Ht, Hh.
Qed.

Lemma receives_listen t u la : img_ok la -> open_in t (la_fd la) ->
  receives u (read_listen_addr newfd) (listen_items t la) (Some (adopt t la u).1) (adopt t la u).2.
Proof.
  intros Hla Ho. unfold read_listen_addr, listen_items, adopt, pass_of.
  eapply receives_bind; [by apply receives_obj|]. cbn beta iota.
  destruct (Z.eqb_spec (la_fd la) (-1)) as [E|E]; cbn [negb]; [apply receives_ret|].
  destruct Ho as [|[h Hh]]; [done|]. rewrite Hh. rewrite <- (app_nil_r [Pass h]). eapply receives_bind.
  - intros p rest Hs Ht Hrx. unfold receive_fd, call, draw, bind. rewrite Hs. cbn [obind ret negb]. rewrite Hrx. cbn [app].
    unfold open_fd. cbn. rewrite Ht. reflexivity.
  - cbn beta. rewrite (proj2 (Z.eqb_neq _ _)) by apply newfd_fresh. apply receives_ret.
Qed.

(** ** Lists *)

Definition list_items {A} (f : A -> list item) (l : list A) : list item :=
  (Byte <$> le_bytes 4 (wrap32 (Z.of_nat (length l)))) ++ concat (f <$> l).

Lemma sends_objs {A} t (write : A -> M Z) f l : (forall a, a ∈ l -> sends t (write a) (f a)) ->
  sends t (write_objs write l) (concat (f <$> l)).
Proof.
  induction l as [|a l IH]; intros Hw; cbn [write_objs fmap list_fmap concat].
  - intros p Hs Ht. cbn. rewrite app_nil_r. by destruct p.
  - apply sends_andthen; [apply Hw; by left|]. apply IH. intros b Hb. apply Hw. by right.
Qed.

Lemma sends_list {A} t (write : A -> M Z) f l : (forall a, a ∈ l -> sends t (write a) (f a)) ->
  sends t (write_list write l) (list_items f l).
Proof. intros Hw. apply sends_andthen; [apply sends_num|by apply sends_objs]. Qed.

Lemma receives_count {A} t (read : M (option A)) least most (l : list A) items l' t' :
  least <= Z.of_nat (length l) <= most -> most < 4294967296 ->
  receives t (read_objs read (length l) []) items (Some l') t' ->
  receives t (read_list read least most) ((Byte <$> le_bytes 4 (wrap32 (Z.of_nat (length l)))) ++ items) (Some l') t'.
Proof.
  intros Hl Hm Hr. unfold read_list. eapply receives_bind; [apply receives_num; apply wrap32_u32|]. cbn beta iota.
  rewrite wrap32_small by (width; lia). rewrite (proj2 (Z.ltb_ge _ _)), (proj2 (Z.ltb_ge _ _)) by lia. cbn [orb].
  by rewrite Nat2Z.id.
Qed.

Lemma receives_objs `{ImageLaws A} t (l : list A) : Forall img_ok l -> forall acc,
  receives t (read_objs (read_obj A) (length l) acc) (concat ((fun a => Byte <$> image junk a) <$> l)) (Some (acc ++ l)) t.
Proof.
  induction 1 as [|a l Ha _ IH]; intros acc; cbn [length read_objs fmap list_fmap concat].
  - rewrite app_nil_r. apply receives_ret.
  - eapply receives_bind; [by apply receives_obj|]. cbn beta iota. rewrite (app_assoc acc [a] l : acc ++ a :: l = _). apply IH.
Qed.

Lemma receives_listens t l : Forall (fun la => img_ok la /\ open_in t (la_fd la)) l -> forall u acc,
  receives u (read_objs (read_listen_addr newfd) (length l) acc) (concat (listen_items t <$> l))
    (Some (acc ++ (adopt_all t l u).1)) (adopt_all t l u).2.
Proof.
  induction 1 as [|la l [Hla Ho] _ IH]; intros u acc; cbn [length read_objs fmap list_fmap concat adopt_all].
  - cbn. rewrite app_nil_r. apply receives_ret.
  - pose proof (receives_listen t u la Hla Ho) as Hr. destruct (adopt t la u) as [la1 u1]. cbn [fst snd] in Hr.
    specialize (IH u1 (acc ++ [la1])). destruct (adopt_all t l u1) as [l2 u2]. cbn [fst snd] in *.
    eapply receives_bind; [exact Hr|]. cbn beta iota. by rewrite (app_assoc acc [la1] l2 : acc ++ la1 :: l2 = _).
Qed.

(** ** The configuration *)

Lemma move_last_ok {A} (l acc : list A) n : (length l <= n)%nat -> move_last n l acc = l ++ acc.
Proof.
  revert n acc. induction l as [|x l IH] using rev_ind; intros n acc Hn; [by destruct n|].
  rewrite length_app in Hn. cbn [length] in Hn. destruct n as [|n]; [lia|]. cbn [move_last].
  rewrite last_snoc, removelast_last, IH by lia. by rewrite <- app_assoc.
Qed.

(** The loops that move the queues keep them in order. *)
Lemma move_ok {A} (l : list A) : move l = l.
Proof. unfold move. rewrite move_last_ok by done. apply app_nil_r. Qed.

(** The table without the descriptors of listeners. *)
Definition closed (l : list listen_addr) (t : gmap Z handle) : gmap Z handle :=
  foldl (fun t la => if la_fd la =? -1 then t else delete (la_fd la) t) t l.

Lemma close_listeners_ok l p : close_listeners l p = Ret (Go tt, set_fds (closed l (p_fds p)) p).
Proof.
  revert p. induction l as [|la l IH]; intros p; cbn [close_listeners closed foldl]; [by destruct p|].
  unfold bind. destruct (la_fd la =? -1); cbn; rewrite IH; by destruct p.
Qed.

(** A configuration that can be sent from a process with the table [t]. *)
Record config_ok (t : gmap Z handle) (c : flowd_config) : Prop := {
  ok_log_file : string_ok (log_file c);
  ok_log_socket : string_ok (log_socket c);
  ok_bufsiz : u64 (log_socket_bufsiz c);
  ok_pid_file : string_ok (pid_file c) /\ pid_file c <> None;
  ok_mask : u32 (store_mask c);
  ok_opts : u32 (opts c);
  ok_listen : Forall (fun la => img_ok la /\ open_in t (la_fd la)) (listen_addrs c);
  ok_listens : 1 <= Z.of_nat (length (listen_addrs c)) <= 8192;
  ok_rules : Forall img_ok (filter_list c) /\ Z.of_nat (length (filter_list c)) <= 1024 * 1024;
  ok_devices : Forall img_ok (allowed_devices c) /\ Z.of_nat (length (allowed_devices c)) <= 1024 * 1024;
  ok_groups : Forall img_ok (join_groups c) /\ Z.of_nat (length (join_groups c)) <= 1024 * 1024
}.

Definition config_items (t : gmap Z handle) (c : flowd_config) : list item :=
  (Byte <$> string_bytes (log_file c)) ++ (Byte <$> string_bytes (log_socket c)) ++
  (Byte <$> le_bytes 8 (log_socket_bufsiz c)) ++ (Byte <$> string_bytes (pid_file c)) ++
  (Byte <$> le_bytes 4 (store_mask c)) ++ (Byte <$> le_bytes 4 (opts c)) ++
  list_items (listen_items t) (listen_addrs c) ++
  list_items (fun a => Byte <$> image junk a) (filter_list c) ++
  list_items (fun a => Byte <$> image junk a) (allowed_devices c) ++
  list_items (fun a => Byte <$> image junk a) (join_groups c).

Lemma sends_config t c : config_ok t c -> sends t (send_config junk c) (config_items t c).
Proof.
  intros []. unfold send_config, config_items. destruct ok_pid_file0 as [Hp Hpn].
  repeat (apply sends_andthen; [first [apply sends_string; by auto | apply sends_num]|]).
  apply sends_andthen; [apply sends_list; intros la Hla; eapply Forall_forall in ok_listen0 as [??]; [|exact Hla]; by apply sends_listen|].
  apply sends_andthen; [apply sends_list; intros a Ha; apply sends_obj; by eapply Forall_forall in Ha; [|apply ok_rules0]|].
  apply sends_andthen; [apply sends_list; intros a Ha; apply sends_obj; by eapply Forall_forall in Ha; [|apply ok_devices0]|].
  apply sends_list; intros a Ha; apply sends_obj; by eapply Forall_forall in Ha; [|apply ok_groups0].
Qed.

(** What arrives: the listeners with descriptors of the receiver. *)
Definition received (t u : gmap Z handle) (c : flowd_config) : flowd_config :=
  set_listen_addrs (adopt_all t (listen_addrs c) u).1 c.

Lemma receives_objs_list `{ImageLaws A} t (l : list A) most : Forall img_ok l -> Z.of_nat (length l) <= most -> most < 4294967296 ->
  receives t (read_list (read_obj A) 0 most) (list_items (fun a => Byte <$> image junk a) l) (Some l) t.
Proof.
  intros Hl Hm Hmost. apply receives_count; [lia|done|]. exact (receives_objs t l Hl []).
Qed.

Lemma receives_config t u c old : config_ok t c ->
  receives u (recv_config newfd old) (config_items t c) (0, received t u c)
    (closed (listen_addrs old) (adopt_all t (listen_addrs c) u).2).
Proof.
  intros []. destruct ok_pid_file0 as [Hp Hpn], ok_rules0, ok_devices0, ok_groups0. unfold recv_config, config_items.
  eapply receives_bind; [by apply receives_string; auto|]. cbn beta. eapply receives_bind; [by apply receives_string; auto|]. cbn beta.
  eapply receives_bind; [by apply receives_num|]. cbn beta iota. eapply receives_bind; [apply receives_string; by auto|]. cbn beta.
  rewrite decide_False by done.
  eapply receives_bind; [by apply receives_num|]. cbn beta iota. eapply receives_bind; [by apply receives_num|]. cbn beta iota.
  eapply receives_bind; [apply receives_count; [done|done|by apply (receives_listens t _ ok_listen0 u [])]|]. cbn beta iota.
  eapply receives_bind; [by apply receives_objs_list|]. cbn beta iota.
  eapply receives_bind; [by apply receives_objs_list|]. cbn beta iota.
  rewrite <- (app_nil_r (list_items _ (join_groups c))). eapply receives_bind; [by apply receives_objs_list|]. cbn beta iota.
  intros p rest Hs Ht Hrx. unfold replace_conf, bind. rewrite close_listeners_ok. cbn -[move]. rewrite !move_ok, Ht.
  cbn in Hrx. destruct p. cbn in *. by subst.
Qed.
End roundtrip.

(** ** The round trip *)

(** A configuration without its descriptors. *)
Definition forget (c : flowd_config) : flowd_config := set_listen_addrs (set_fd (-1) <$> listen_addrs c) c.

(** The two listeners are descriptors of one open socket, or neither is open. *)
Definition same_socket (t : gmap Z handle) (la : listen_addr) (t' : gmap Z handle) (la' : listen_addr) : Prop :=
  if la_fd la =? -1 then la_fd la' = -1 else la_fd la' <> -1 /\ is_Some (t !! la_fd la) /\ t' !! la_fd la' = t !! la_fd la.

Section adoption.
Context (newfd : gmap Z handle -> Z) (newfd_fresh : forall t, t !! newfd t = None /\ newfd t <> -1).

Lemma adopt_all_ok t l : Forall (fun la => open_in t (la_fd la)) l -> forall u l' u', adopt_all newfd t l u = (l', u') ->
  u ⊆ u' /\ set_fd (-1) <$> l' = set_fd (-1) <$> l /\
  Forall2 (fun la la' => same_socket t la u' la' /\ (la_fd la' <> -1 -> u !! la_fd la' = None)) l l'.
Proof.
  induction 1 as [|la l Ho _ IH]; intros u l' u' E; cbn [adopt_all] in E; [injection E as <- <-; split_and!; [done|done|constructor]|].
  assert (exists la1 u1, adopt newfd t la u = (la1, u1) /\ u ⊆ u1 /\ set_fd (-1) la1 = set_fd (-1) la /\
    same_socket t la u1 la1 /\ (la_fd la1 <> -1 -> u !! la_fd la1 = None)) as (la1 & u1 & E1 & Hsub & Hla & Hs & Hn).
  { unfold adopt, pass_of, same_socket. destruct Ho as [Ho|[h Hh]].
    - rewrite Ho. cbn [Z.eqb Pos.eqb]. exists la, u. split_and!; done.
    - destruct (Z.eqb_spec (la_fd la) (-1)) as [E0|E0]; [exists la, u; split_and!; done|].
      rewrite Hh. destruct (newfd_fresh u) as [Hf H1]. eexists _, _. split; [reflexivity|]. cbn [set_fd la_fd].
      split_and!; [by apply insert_subseteq|done|done|by eexists|by rewrite lookup_insert_eq|done]. }
  rewrite E1 in E. destruct (adopt_all newfd t l u1) as [l2 u2] eqn:E2. injection E as <- <-.
  destruct (IH u1 l2 u2 E2) as (Hsub2 & Hl2 & Hf2). split_and!; [by etrans|by rewrite !fmap_cons, Hl2, Hla|]. constructor.
  - split; [|done]. unfold same_socket in *. destruct (la_fd la =? -1); [done|]. destruct Hs as (H1 & [h Hh] & H2).
    split_and!; [done|by eexists|]. rewrite Hh in *. by eapply lookup_weaken.
  - eapply Forall2_impl; [exact Hf2|]. intros a b [H1 H2]. split; [done|]. intros Hb. specialize (H2 Hb).
    by eapply lookup_weaken_None.
Qed.

Lemma closed_other l t fd : (forall la, la ∈ l -> la_fd la <> fd \/ la_fd la = -1) -> closed l t !! fd = t !! fd.
Proof.
  revert t. induction l as [|la l IH]; intros t Hl; [done|]. cbn [closed foldl]. unfold closed in IH.
  rewrite IH by (intros b Hb; apply Hl; by right). destruct (Z.eqb_spec (la_fd la) (-1)); [done|].
  rewrite lookup_delete_ne; [done|]. destruct (Hl la); [by left|done|lia].
Qed.

Lemma closed_None l t fd : t !! fd = None -> closed l t !! fd = None.
Proof.
  revert t. induction l as [|la l IH]; intros t Ht; [done|]. cbn [closed foldl]. apply IH.
  destruct (la_fd la =? -1); [done|]. destruct (decide (la_fd la = fd)) as [->|]; [by rewrite lookup_delete_eq|by rewrite lookup_delete_ne].
Qed.

Lemma closed_gone l t la : la ∈ l -> la_fd la <> -1 -> closed l t !! la_fd la = None.
Proof.
  intros Hla Hne. revert t. induction Hla as [la l|la b l Hla IH]; intros t; cbn [closed foldl].
  - rewrite (proj2 (Z.eqb_neq _ _)) by done. apply closed_None. by rewrite lookup_delete_eq.
  - by apply IH.
Qed.

Lemma received_ok t u c old : config_ok t c -> Forall (fun la => open_in u (la_fd la)) (listen_addrs old) ->
  let u' := closed (listen_addrs old) (adopt_all newfd t (listen_addrs c) u).2 in
  forget (received newfd t u c) = forget c /\
  Forall2 (fun la la' => same_socket t la u' la') (listen_addrs c) (listen_addrs (received newfd t u c)) /\
  (forall la, la ∈ listen_addrs old -> la_fd la <> -1 -> u' !! la_fd la = None).
Proof.
  intros Hc Hold u'. destruct (adopt_all newfd t (listen_addrs c) u) as [l' t'] eqn:E.
  pose proof E as E0. apply adopt_all_ok in E0 as (Hsub & Hl & Hf).
  2: { eapply Forall_impl; [apply Hc|]. by intros la [_ ?]. }
  unfold received, forget, set_listen_addrs, u' in *. rewrite ?E. cbn [listen_addrs log_file log_socket log_socket_bufsiz pid_file store_mask opts filter_list allowed_devices join_groups fst snd].
  split_and!; [by rewrite Hl| |intros la Hla Hne; by apply closed_gone].
  eapply Forall2_impl; [exact Hf|]. intros la la' [Hs Hn]. unfold same_socket in *.
  destruct (la_fd la =? -1); [done|]. destruct Hs as (H1 & H2 & H3). split_and!; [done|done|]. rewrite closed_other; [done|].
  intros b Hb. rewrite Forall_forall in Hold. destruct (Hold b Hb) as [?|[h Hh]]; [by right|]. left. intros Heq.
  rewrite Heq, Hn in Hh; done.
Qed.
End adoption.

(** C24: what send_config of one process puts on the socket is what recv_config of the
    other takes from it, and no byte more: every member and every object of the
    configuration, in order; each open listener arrives as a descriptor of the
    receiver for the same open socket, and those of the configuration that is
    replaced are closed. *)
Theorem config_roundtrip junk newfd c ps :
  (forall t, t !! newfd t = None /\ newfd t <> -1) -> config_ok (p_fds ps) c -> p_sys ps = [] ->
  exists l, send_config junk c ps = Ret (Go 0, set_tx (p_tx ps ++ l) ps) /\
    (forall old pr rest, p_sys pr = [] -> Forall (fun la => open_in (p_fds pr) (la_fd la)) (listen_addrs old) ->
     p_rx pr = l ++ rest -> exists c' pr', recv_config newfd old pr = Ret (Go (0, c'), pr') /\
       p_rx pr' = rest /\ forget c' = forget c /\
       Forall2 (fun la la' => same_socket (p_fds ps) la (p_fds pr') la') (listen_addrs c) (listen_addrs c') /\
       (forall la, la ∈ listen_addrs old -> la_fd la <> -1 -> p_fds pr' !! la_fd la = None)).
Proof.
  intros Hfresh Hc Hs. exists (config_items junk (p_fds ps) c). split; [by apply sends_config|]. intros old pr rest Hr Hold Hrx.
  destruct (received_ok newfd Hfresh _ _ _ _ Hc Hold) as (H1 & H2 & H3).
  eexists _, _. split; [exact (receives_config junk newfd Hfresh _ _ c old Hc pr rest Hr eq_refl Hrx)|]. done.
Qed.
