(* ===== verification/PrivsepMaster.v ===== *)
(** * The monitor serves the collector (src/flowd/privsep.c)

    Whatever arrives on their sockets, the two sides stay inside their buffers, and
    the loop of the monitor ends with the collector; a reconfiguration leaves both
    with the configuration of the file, and the collector with its listeners. *)

From stdpp Require Import gmap.
From S2P Require Import Prelude Packed CString Addr Filter PrivTypes.
From S2P Require Import Privsep PrivsepProps.

(** ** Every function returns *)

(** [runs e m]: [m] goes on or exits, without a fault and without waiting for ever
    (with [e] only when the peer has closed the socket), and reads what has arrived
    in order. *)
Definition runs (e : bool) {A} (m : M A) : Prop :=
  forall p, (e = true -> p_eof p = true) ->
    exists r p', m p = Ret (r, p') /\ p_eof p' = p_eof p /\ (length (p_rx p') <= length (p_rx p))%nat.

Create HintDb priv.

Lemma runs_bind e {A B} (m : M A) (k : A -> M B) : runs e m -> (forall a, runs e (k a)) -> runs e (bind m k).
Proof.
  intros Hm Hk p He. unfold bind. destruct (Hm p He) as ([a|s] & p1 & -> & E1 & L1); cbn [obind]; [|eauto].
  destruct (Hk a p1) as (r & p2 & -> & E2 & L2); [by rewrite E1|]. eexists _, _. split; [reflexivity|]. split; [congruence|lia].
Qed.

Lemma runs_weaken e {A} (m : M A) : runs false m -> runs e m.
Proof. intros Hm p _. by apply Hm. Qed.

Lemma runs_ret e {A} (a : A) : runs e (ret a).
Proof. intros p _. by eexists _, _. Qed.
Lemma runs_exit e {A} s : runs e (@exit A s).
Proof. intros p _. by eexists _, _. Qed.
Lemma runs_logerrx e {A} : runs e (@logerrx A).
Proof. apply runs_exit. Qed.
Lemma runs_modify e f : (forall p, p_eof (f p) = p_eof p /\ p_rx (f p) = p_rx p) -> runs e (modify f).
Proof. intros Hf p _. eexists _, _. split; [reflexivity|]. destruct (Hf p) as [-> ->]. done. Qed.
Lemma runs_lift e {A} (a : A) : runs e (lift (Ret a)).
Proof. intros p _. by eexists _, _. Qed.
Lemma runs_bind_lift e {A B} (a : A) (k : A -> M B) : runs e (k a) -> runs e (bind (lift (Ret a)) k).
Proof. intros Hk. exact Hk. Qed.
Lemma runs_draw e : runs e draw.
Proof. intros p _. unfold draw. destruct (p_sys p); by eexists _, _. Qed.
#[export] Hint Resolve runs_ret runs_exit runs_logerrx runs_lift runs_draw : priv.
#[export] Hint Resolve runs_modify | 5 : priv.

Ltac runs := repeat first
  [ progress intros | by auto with priv
  | lazymatch goal with
    | |- runs _ (bind _ _) => apply runs_bind
    | |- runs _ (match ?x with _ => _ end) => destruct x
    end ].

Lemma runs_call e : runs e call.
Proof. unfold call. runs. Qed.
#[export] Hint Resolve runs_call : priv.

Lemma runs_write e b : runs e (atomic_write b).
Proof.
  unfold atomic_write. apply runs_bind; [apply runs_draw|]. intros r p _. destruct r; by eexists _, _.
Qed.
#[export] Hint Resolve runs_write : priv.

(** What atomicio returns on a socket whose peer is gone: all [n] bytes, or
    another number than [n]. *)
Lemma atomic_read_ends n p : p_eof p = true -> n <> -1 -> n <> 0 -> exists r b p',
  atomic_read n p = Ret (Go (r, b), p') /\ p_eof p' = true /\
  (length (p_rx p') <= length (p_rx p))%nat /\
  (r = n -> Z.of_nat (length b) = n \/ n < 0) /\ (r = n -> 0 < n -> Z.of_nat (length (p_rx p')) + n <= Z.of_nat (length (p_rx p))).
Proof.
  intros He Hn Hn0. unfold atomic_read, draw, bind.
  assert (forall s, exists r b p', (let q := set_sys s p in
      let rx := p_rx q in
      if n <=? Z.of_nat (length rx) then Ret (Go (n, item_byte <$> take (Z.to_nat n) rx), set_rx (drop (Z.to_nat n) rx) q)
      else if p_eof q then Ret (Go (0, item_byte <$> rx), set_rx [] q) else Diverges) = Ret (Go (r, b), p') /\
    p_eof p' = true /\ (length (p_rx p') <= length (p_rx p))%nat /\
    (r = n -> Z.of_nat (length b) = n \/ n < 0) /\ (r = n -> 0 < n -> Z.of_nat (length (p_rx p')) + n <= Z.of_nat (length (p_rx p)))) as Hok.
  { intros s. cbn. destruct (Z.leb_spec n (Z.of_nat (length (p_rx p)))).
    - eexists _, _, _. split; [reflexivity|]. cbn. rewrite length_drop, length_fmap, length_take. split_and!; [done|lia|lia|lia].
    - rewrite He. eexists _, _, _. split; [reflexivity|]. cbn. split_and!; [done|lia|done|done]. }
  destruct (p_sys p) as [|[c|] l] eqn:Es; cbn [obind].
  - destruct (Hok []) as (r & b & p' & E & H). assert (set_sys [] p = p) as E' by (destruct p; cbn in *; by subst).
    rewrite E' in E. eauto 10.
  - eexists _, _, _. split; [reflexivity|]. cbn. rewrite length_drop. split_and!; [done|lia|done|done].
  - destruct (Hok l) as (r & b & p' & E & H). eauto 10.
Qed.

Lemma runs_read n : runs true (atomic_read n).
Proof.
  intros p He. specialize (He eq_refl). unfold atomic_read, draw, bind. destruct (p_sys p) as [|[c|] l]; cbn [obind].
  1, 3: cbn; destruct (n <=? _); [|rewrite He]; (eexists _, _; split; [reflexivity|]; cbn; rewrite ?length_drop; split; [done|lia]).
  eexists _, _. split; [reflexivity|]. cbn. rewrite length_drop. split; [done|lia].
Qed.
#[export] Hint Resolve runs_read : priv.

(** ** Reading stays inside the buffer *)

Lemma cstr_zero b r : exists s, cstr (b ++ 0 :: r) = Ret s.
Proof.
  induction b as [|c b [s IH]]; cbn [app cstr]; [by eexists|]. destruct (c =? 0); [by eexists|]. rewrite IH. by eexists.
Qed.

Lemma runs_read_string nullok : runs true (privsep_read_string nullok).
Proof.
  unfold privsep_read_string. apply runs_bind; [auto with priv|]. intros [r b]. pose proof sizeof_buf_val as Hbuf.
  destruct (negb (r =? 8)); [apply runs_exit|]. destruct (nullok && _); [apply runs_ret|].
  destruct (_ || _) eqn:Hlen; [apply runs_exit|]. apply orb_false_iff in Hlen as [H1%Z.leb_gt H2%Z.leb_gt].
  set (len := le_val b) in *. clearbody len. clear b r. intros p He. specialize (He eq_refl).
  destruct (atomic_read_ends len p He) as (r & b & p' & E & E' & L & Hb & _); [lia|lia|]. rewrite (bind_Go _ _ _ _ _ E).
  assert (runs true (if negb (r =? len) then ret None else
    let* buf := lift (wr (b ++ replicate (sizeof_buf - length b) 0) len [0]) in
    let* s := lift (cstr buf) in let* ok := call in ret (if ok then Some s else None))) as Hr.
  { destruct (Z.eqb_spec r len) as [->|]; cbn [negb]; [|apply runs_ret]. destruct (Hb eq_refl) as [Hb'|]; [|lia].
    destruct (sizeof_buf - length b)%nat as [|k] eqn:Ek; [lia|]. cbn [replicate].
    pose proof (wr_app b [0] (replicate k 0) len [0]) as Hw. cbn [app] in Hw. rewrite Hw by (done || lia).
    apply runs_bind_lift. destruct (cstr_zero b (replicate k 0)) as (s & ->). apply runs_bind_lift. runs. }
  destruct (Hr p') as (r' & p2 & -> & E2 & L2); [done|]. eexists _, _. split; [reflexivity|]. split; [congruence|lia].
Qed.
#[export] Hint Resolve runs_read_string : priv.

Section total.
Context (junk : nat -> Z) (newfd : gmap Z handle -> Z) (pw : option passwd).

Lemma runs_open_fd e h : runs e (open_fd newfd h).
Proof. intros p _. by eexists _, _. Qed.
Lemma runs_close e fd : runs e (close fd).
Proof. by apply runs_modify. Qed.
Lemma runs_set_handle e fd h : runs e (set_handle fd h).
Proof. by apply runs_modify. Qed.
Lemma runs_send_fd e fd : runs e (send_fd fd).
Proof. unfold send_fd. apply runs_bind; [auto with priv|]. intros ok. destruct ok; cbn; [|apply runs_exit]. intros p _. destruct (p_fds p !! fd); by eexists _, _. Qed.
Lemma runs_receive_fd : runs true (receive_fd newfd).
Proof.
  unfold receive_fd. apply runs_bind; [auto with priv|]. intros ok. destruct ok; cbn; [|apply runs_exit]. intros p He.
  destruct (p_rx p) as [|[b|h] rx] eqn:Hrx.
  - rewrite He by done. exists (Exit 1), p. split_and!; [done|by apply He|by rewrite Hrx].
  - eexists _, _. split; [reflexivity|]. cbn. split; [done|lia].
  - eexists _, _. split; [reflexivity|]. cbn. split; [done|lia].
Qed.
#[local] Hint Resolve runs_open_fd runs_close runs_set_handle runs_send_fd runs_receive_fd : priv.

Lemma runs_num w : runs true (read_num w).
Proof. unfold read_num. runs. Qed.
Lemma runs_read_obj A `{Image A} : runs true (read_obj A).
Proof. unfold read_obj. runs. Qed.
#[local] Hint Resolve runs_num runs_read_obj : priv.
Lemma runs_read_listen : runs true (read_listen_addr newfd).
Proof. unfold read_listen_addr. runs. Qed.
#[local] Hint Resolve runs_read_listen : priv.
Lemma runs_read_objs {A} (read : M (option A)) n acc : runs true read -> runs true (read_objs read n acc).
Proof. intros Hr. revert acc. induction n as [|n IH]; intros acc; cbn [read_objs]; runs. Qed.
Lemma runs_read_list {A} (read : M (option A)) l m : runs true read -> runs true (read_list read l m).
Proof. intros Hr. unfold read_list. runs. by apply runs_read_objs. Qed.
#[local] Hint Resolve runs_read_list : priv.
Lemma runs_close_listeners e l : runs e (close_listeners l).
Proof. induction l as [|la l IH]; cbn [close_listeners]; runs. Qed.
#[local] Hint Resolve runs_close_listeners : priv.
Lemma runs_replace_conf e c n : runs e (replace_conf c n).
Proof. unfold replace_conf. runs. Qed.
#[local] Hint Resolve runs_replace_conf : priv.

Lemma runs_recv_config c : runs true (recv_config newfd c).
Proof. unfold recv_config. runs. Qed.
#[local] Hint Resolve runs_recv_config : priv.

Lemma runs_write_string e s n : runs e (privsep_write_string s n).
Proof. unfold privsep_write_string. runs. Qed.
Lemma runs_write_num e w v : runs e (write_num w v).
Proof. unfold write_num. runs. Qed.
Lemma runs_write_obj e {A} `{Image A} (a : A) : runs e (write_obj junk a).
Proof. unfold write_obj. runs. Qed.
Lemma runs_andthen e m k : runs e m -> runs e k -> runs e (andthen m k).
Proof. intros Hm Hk. unfold andthen. runs. Qed.
#[local] Hint Resolve runs_write_string runs_write_num runs_write_obj runs_andthen : priv.
Lemma runs_write_listen e la : runs e (write_listen_addr junk la).
Proof. unfold write_listen_addr. apply runs_andthen; runs. Qed.
#[local] Hint Resolve runs_write_listen : priv.
Lemma runs_write_list e {A} (w : A -> M Z) l : (forall a, runs e (w a)) -> runs e (write_list w l).
Proof.
  intros Hw. unfold write_list. apply runs_andthen; [runs|].
  induction l as [|a l IH]; cbn [write_objs]; [apply runs_ret|]. by apply runs_andthen.
Qed.
#[local] Hint Resolve runs_write_list : priv.
Lemma runs_send_config e c : runs e (send_config junk c).
Proof. unfold send_config. repeat first [by auto with priv | apply runs_andthen]. Qed.
#[local] Hint Resolve runs_send_config : priv.

Lemma runs_guess e i : runs e (guess_rcvbuf i).
Proof. induction i as [|i IH]; cbn [guess_rcvbuf]; runs. Qed.
Lemma runs_join e f l : runs e (join f l).
Proof. induction l as [|jg l IH]; cbn [join]; runs. Qed.
#[local] Hint Resolve runs_guess runs_join : priv.
Lemma runs_open_listener e a port b l : runs e (open_listener newfd a port b l).
Proof. unfold open_listener. runs. Qed.
#[local] Hint Resolve runs_open_listener : priv.
Lemma runs_open_listeners e g l : runs e (open_listeners newfd g l).
Proof. induction l as [|la l IH]; cbn [open_listeners]; runs. Qed.
Lemma runs_close_all e l : runs e (close_all l).
Proof. induction l as [|la l IH]; cbn [close_all]; runs. Qed.
Lemma runs_drop_privs e w c : runs e (drop_privs w c).
Proof. unfold drop_privs. generalize ([id : creds -> creds] ++ (if c then [id; set_root (pw_dir w)] else []) ++
    [id; set_groups [pw_gid w]; set_gid (pw_gid w); set_uid (pw_uid w)]). intros l. induction l as [|f l IH]; cbn [call_each]; runs. Qed.
#[local] Hint Resolve runs_open_listeners runs_close_all runs_drop_privs : priv.
Lemma runs_config_child e c parse : runs e (config_child junk pw c parse).
Proof. unfold config_child. runs. Qed.

Lemma runs_on_channel e {A} rx (m : M A) : runs true m -> runs e (on_channel rx m).
Proof.
  intros Hm p _. unfold on_channel.
  destruct (Hm (Mk_proc rx true (p_tx p) (p_fds p) (p_cred p) (p_pids p) (p_sys p))) as (r & p' & -> & E & L); [done|].
  by eexists _, _.
Qed.

Lemma runs_child_get_config e cr c : runs e (child_get_config junk newfd pw cr c).
Proof.
  unfold child_get_config. destruct (_ && _); [apply runs_ret|]. apply runs_bind; [auto with priv|]. intros ok.
  destruct (negb ok); [apply runs_ret|]. apply runs_bind; [auto with priv|]. intros ok2. destruct (negb ok2); [apply runs_ret|].
  apply runs_bind; [intros p _; by eexists _, _|]. intros p.
  destruct (runs_config_child false c (cr_parse cr) (Mk_proc [] false [] (p_fds p) (p_cred p) (p_pids p) (cr_sys cr))) as (r & q & -> & _); [done|].
  apply runs_bind_lift. apply runs_bind; [apply runs_on_channel; runs|]. intros [failed c']. runs.
Qed.
#[local] Hint Resolve runs_child_get_config : priv.
Lemma runs_read_config e cr c : runs e (read_config junk newfd pw cr c).
Proof. unfold read_config. runs. Qed.
Lemma runs_write_pid e s : runs e (write_pid_file s).
Proof. unfold write_pid_file. runs. Qed.
#[local] Hint Resolve runs_read_config runs_write_pid : priv.
Lemma runs_answer_open_log e c : runs e (answer_open_log newfd c).
Proof. unfold answer_open_log. runs. Qed.
Lemma runs_answer_open_socket e c : runs e (answer_open_socket newfd c).
Proof. unfold answer_open_socket. runs. Qed.
Lemma runs_answer_reconfigure e cr c : runs e (answer_reconfigure junk newfd pw cr c).
Proof. unfold answer_reconfigure. runs. Qed.
Lemma runs_leave e c s : runs e (leave c s).
Proof. unfold leave, unlink. runs. Qed.
#[local] Hint Resolve runs_leave : priv.
Lemma runs_master_end e c x s : runs e (master_end c x s).
Proof. unfold master_end. runs. Qed.

(** A function that always ends the process. *)
(** The process ends, with some status. *)
Definition ends {A} (m : M A) (p : proc) : Prop := exists s q, m p = Ret (Exit s, q).
Definition exits {A} (m : M A) : Prop := forall p r p', m p = Ret (r, p') -> exists s, r = Exit s.

Lemma exits_leave c s : exits (leave c s).
Proof. intros p r p' E. unfold leave, unlink, modify, bind, exit in E. cbn in E. injection E as <- _. by eexists. Qed.
Lemma exits_bind {A B} (m : M A) (k : A -> M B) : (forall a, exits (k a)) -> exits (bind m k).
Proof.
  intros Hk p r p' E. unfold bind in E. destruct (m p) as [[[a|s] p1]| | |]; cbn in E; try done; [by eapply Hk|].
  injection E as <- _. by eexists.
Qed.
Lemma exits_master_end c x s : exits (master_end c x s).
Proof. unfold master_end. destruct x; [apply exits_bind; intros ok|]; apply exits_leave. Qed.

Lemma ends_Go {A} (m : M A) (k : A -> M unit) p a p1 : m p = Ret (Go a, p1) -> ends (k a) p1 -> ends (bind m k) p.
Proof. intros E H. unfold ends. by rewrite (bind_Go _ _ _ _ _ E). Qed.

(** A turn that answers a request, or leaves. *)
Lemma answer_turn {A} (m : M A) (k : A -> M unit) p : runs true m -> p_eof p = true ->
  (forall a p', p_eof p' = true -> (length (p_rx p') <= length (p_rx p))%nat -> ends (k a) p') ->
  ends (bind m k) p.
Proof.
  intros Hm He Hk. unfold ends, bind. destruct (Hm p) as ([a|s] & p1 & -> & E1 & L1); [done| |]; cbn [obind]; [|eauto].
  apply Hk; [congruence|done].
Qed.

Lemma exits_total {A} (m : M A) p : runs true m -> exits m -> p_eof p = true -> ends m p.
Proof. intros Hm Hx He. destruct (Hm p) as (r & q & E & _); [done|]. destruct (Hx p r q E) as [s ->]. by eexists _, _. Qed.

(** C25: the monitor ends with the collector: on whatever the collector sent before it
    closed the socket, requests or not, with whatever system calls fail, and whatever
    the process that reads the configuration does, the loop of the monitor stays inside
    its buffers, never waits again, and ends the process; one turn for every four
    bytes is enough. *)
Theorem monitor_ends n sigchld status crs k conf p : p_eof p = true -> (length (p_rx p) < 4 * n)%nat ->
  ends (privsep_master junk newfd pw n sigchld status crs k conf) p.
Proof.
  revert k conf p. induction n as [|n IH]; intros k conf p He Hn; [lia|]. cbn [privsep_master].
  destruct (sigchld n).1; [by apply exits_total; [apply runs_master_end|apply exits_master_end|]|].
  destruct (atomic_read_ends 4 p He) as (r & b & p1 & E & He1 & _ & _ & Hlt); [done|done|]. apply (ends_Go _ _ _ _ _ E). clear E.
  destruct (r =? 0); [by apply exits_total; [apply runs_master_end|apply exits_master_end|]|].
  destruct (Z.eqb_spec r 4) as [Hr|]; cbn [negb]; [|by apply exits_total; [apply runs_leave|apply exits_leave|]].
  specialize (Hlt Hr eq_refl). assert (length (p_rx p1) < 4 * n)%nat as Hn1 by lia.
  assert (forall p2 k c, p_eof p2 = true -> (length (p_rx p2) <= length (p_rx p1))%nat -> forall b : bool,
    ends (if b then leave conf 1 else privsep_master junk newfd pw n sigchld status crs k c) p2) as Hnext.
  { intros p2 k' c He2 L2 [|]; [by apply exits_total; [apply runs_leave|apply exits_leave|]|]. apply IH; [done|lia]. }
  destruct (_ =? _); [|destruct (_ =? _); [|destruct (_ =? _); [|by apply IH]]].
  - apply answer_turn; [apply runs_answer_open_log|done|]. intros r1 p2 He2 L2. by apply Hnext.
  - apply answer_turn; [apply runs_answer_open_socket|done|]. intros r1 p2 He2 L2. by apply Hnext.
  - apply answer_turn; [apply runs_answer_reconfigure|done|]. intros [r1 c] p2 He2 L2.
    destruct (negb (r1 =? 0)); [by apply exits_total; [apply runs_leave|apply exits_leave|]|]. apply IH; [done|lia].
Qed.
End total.

Lemma monitor_ends_witness : ends
  (privsep_master (fun _ => 7) (fun t => Z.of_nat (size t)) None 2 (fun _ => (false, false)) None (fun _ => Mk_child_run [] None) 0
    config_zero) (Mk_proc (Byte <$> le_bytes 4 C2M_MSG_RECONFIGURE) true [] ∅ (Mk_creds 0 0 [] None) ∅ []).
Proof. apply monitor_ends; [done|cbn; lia]. Defined.
