(* ===== verification/PrivsepReconf.v ===== *)
(** * A reconfiguration, from the request to the new listeners (src/flowd/privsep.c)

    client_reconfigure of the collector, answer_reconfigure of the monitor and the
    process that parses, composed over their sockets: all end with the configuration
    of the file; the collector has a descriptor for each of its listeners, the monitor
    none; and the privileges of the collector. *)

From stdpp Require Import gmap.
From S2P Require Import Prelude Packed CString Addr Filter PrivTypes.
From S2P Require Import Privsep PrivsepProps.

(** ** Opening listeners *)

Section opening.
Context (newfd : gmap Z handle -> Z) (newfd_fresh : forall t, t !! newfd t = None /\ newfd t <> -1).

(** A process whose calls all work does [m] and has the table [t'] after. *)
Definition works {A} (t : gmap Z handle) (m : M A) (a : A) (t' : gmap Z handle) : Prop :=
  forall p, p_sys p = [] -> p_fds p = t -> m p = Ret (Go a, set_fds t' p).

Lemma works_bind {A B} t m (k : A -> M B) a t1 b t2 : works t m a t1 -> works t1 (k a) b t2 -> works t (bind m k) b t2.
Proof. intros Hm Hk p Hs Ht. rewrite (bind_Go _ _ _ _ _ (Hm p Hs Ht)). by rewrite (Hk (set_fds t1 p)). Qed.
Lemma works_ret {A} t (a : A) : works t (ret a) a t.
Proof. intros p Hs Ht. destruct p. cbn in *. by subst. Qed.
Lemma works_call t : works t call true t.
Proof. intros p Hs Ht. unfold call, draw, bind. rewrite Hs. cbn. destruct p. cbn in *. by subst. Qed.
Lemma works_open t h : works t (open_fd newfd h) (newfd t) (<[newfd t := h]> t).
Proof. intros p Hs Ht. unfold open_fd. by rewrite Ht. Qed.
Lemma works_set t fd h : works t (set_handle fd h) tt (<[fd := h]> t).
Proof. intros p Hs Ht. unfold set_handle, modify. by rewrite Ht. Qed.
Lemma works_close t fd : works t (close fd) tt (delete fd t).
Proof. intros p Hs Ht. unfold close, modify. by rewrite Ht. Qed.

(** The groups of a family. *)
Definition groups_of (f : Z) (groups : list join_group) : list xaddr :=
  filter (fun a => af a = f) (jg_addr <$> groups).

Lemma works_join t f groups : works t (join f groups) (groups_of f groups) t.
Proof.
  induction groups as [|jg groups IH]; cbn [join]; [apply works_ret|]. unfold groups_of in *. cbn [fmap list_fmap].
  destruct (Z.eqb_spec (af (jg_addr jg)) f) as [E|E]; cbn [negb].
  - rewrite filter_cons_True by done. eapply works_bind; [apply works_call|]. cbn beta. eapply works_bind; [exact IH|]. apply works_ret.
  - by rewrite filter_cons_False.
Qed.

(** The socket that a listener of the configuration gets. *)
Definition listener (groups : list join_group) (la : listen_addr) : handle :=
  Listener (Some (la_addr la, la_port la)) (Some (if 0 <? la_bufsiz la then swrap32 (la_bufsiz la) else 524288))
    (groups_of (af (la_addr la)) groups).

Lemma works_listener t la groups : inet_ok (la_addr la) ->
  works t (open_listener newfd (la_addr la) (la_port la) (la_bufsiz la) groups) (newfd t)
    (<[newfd t := listener groups la]> t).
Proof.
  intros [_ Haf]. unfold open_listener. assert (exists x, addr_xaddr_to_sa (la_addr la) 128 (la_port la) = Some x) as [x ->].
  { unfold addr_xaddr_to_sa. destruct Haf as [-> | ->]; by eexists. }
  assert (forall {B} (k : bool -> M B) b t', works t (k true) b t' -> forall u, u = t -> works u (bind call k) b t') as Hcall.
  { intros B k b t' Hk u ->. eapply works_bind; [apply works_call|exact Hk]. }
  apply Hcall; [|done]. cbn [negb]. eapply works_bind; [apply works_open|]. cbn beta.
  do 2 (eapply works_bind; [apply works_call|]; cbn [negb]).
  eapply works_bind with (a := true). { destruct (af (la_addr la) =? AF_INET6); [apply works_call|apply works_ret]. } cbn [negb].
  do 2 (eapply works_bind; [apply works_call|]; cbn [negb]).
  eapply works_bind with (a := Some (if 0 <? la_bufsiz la then swrap32 (la_bufsiz la) else 524288)).
  { destruct (0 <? la_bufsiz la); [eapply works_bind; [apply works_call|]; apply works_ret|].
    cbn [guess_rcvbuf]. eapply works_bind; [apply works_call|]. apply works_ret. }
  eapply works_bind; [apply works_call|]. cbn beta. eapply works_bind; [apply works_join|]. cbn beta.
  eapply works_bind; [apply works_set|]. cbn beta. rewrite insert_insert_eq. apply works_ret.
Qed.

(** All listeners of a configuration: their descriptors, and the table. *)
Fixpoint open_all (groups : list join_group) (l : list listen_addr) (t : gmap Z handle) : list listen_addr * gmap Z handle :=
  match l with
  | [] => ([], t)
  | la :: l =>
      let (l', t') := open_all groups l (<[newfd t := listener groups la]> t) in (set_fd (newfd t) la :: l', t')
  end.

Lemma works_listeners groups l : Forall (fun la => inet_ok (la_addr la)) l -> forall t,
  works t (open_listeners newfd groups l) (true, (open_all groups l t).1) (open_all groups l t).2.
Proof.
  induction 1 as [|la l Hla _ IH]; intros t; cbn [open_listeners open_all]; [apply works_ret|].
  eapply works_bind; [by apply works_listener|]. cbn beta. rewrite (proj2 (Z.eqb_neq _ _)) by apply newfd_fresh.
  specialize (IH (<[newfd t := listener groups la]> t)). destruct (open_all groups l _) as [l' t'].
  eapply works_bind; [exact IH|]. apply works_ret.
Qed.

Lemma open_all_ok groups l : forall t l' t', open_all groups l t = (l', t') ->
  t ⊆ t' /\ set_fd (-1) <$> l' = set_fd (-1) <$> l /\
  Forall2 (fun la la' => la_fd la' <> -1 /\ t !! la_fd la' = None /\ t' !! la_fd la' = Some (listener groups la)) l l' /\
  (forall fd, t !! fd = None -> is_Some (t' !! fd) -> exists la', la' ∈ l' /\ la_fd la' = fd).
Proof.
  induction l as [|la l IH]; intros t l' t' E; cbn [open_all] in E.
  { injection E as <- <-. split_and!; [done|done|constructor|]. intros fd H1 [h H2]. congruence. }
  destruct (open_all groups l _) as [l2 t2] eqn:E2. injection E as <- <-. destruct (IH _ _ _ E2) as (Hsub & Hl & Hf & Hnew).
  destruct (newfd_fresh t) as [Hfr Hne]. split_and!.
  - etrans; [by apply insert_subseteq|exact Hsub].
  - by rewrite !fmap_cons, Hl.
  - constructor; [split_and!; [done|done|]; eapply lookup_weaken; [by rewrite lookup_insert_eq|exact Hsub]|].
    eapply Forall2_impl; [exact Hf|]. intros a b (H1 & H2 & H3). split_and!; [done| |done]. by apply lookup_insert_None in H2 as [? _].
  - intros fd H1 H2. destruct (decide (fd = newfd t)) as [->|Hd]; [eexists; split; [by left|done]|].
    destruct (Hnew fd) as (a & Ha & Hfd); [by rewrite lookup_insert_ne|done|]. exists a. split; [by right|done].
Qed.

Lemma works_close_all l : forall t, works t (close_all l) tt (foldl (fun t la => delete (la_fd la) t) t l).
Proof.
  induction l as [|la l IH]; intros t; cbn [close_all foldl]; [apply works_ret|]. eapply works_bind; [apply works_close|]. apply IH.
Qed.

Lemma foldl_delete_lookup (l : list listen_addr) (t : gmap Z handle) fd : foldl (fun t la => delete (la_fd la) t) t l !! fd =
  if decide (fd ∈ la_fd <$> l) then None else t !! fd.
Proof.
  revert t. induction l as [|la l IH]; intros t; cbn [foldl fmap list_fmap]; [done|]. rewrite IH.
  destruct (decide (la_fd la = fd)) as [<-|Hne].
  - rewrite lookup_delete_eq, (decide_True (P := _ ∈ _ :: _)) by (by left). by case_decide.
  - rewrite lookup_delete_ne by done. apply decide_ext. rewrite elem_of_cons. split; [by right|]. by intros [->|].
Qed.

(** Closing what was opened gives the old table. *)
Lemma open_close groups l t : foldl (fun t la => delete (la_fd la) t) (open_all groups l t).2 (open_all groups l t).1 = t.
Proof.
  destruct (open_all groups l t) as [l' t'] eqn:E. destruct (open_all_ok _ _ _ _ _ E) as (Hsub & _ & Hf & Hnew). cbn [fst snd].
  apply map_eq. intros fd. rewrite foldl_delete_lookup. case_decide as Hd.
  - apply list_elem_of_fmap in Hd as (la & -> & Hla). symmetry. apply list_elem_of_lookup in Hla as [i Hi].
    destruct (Forall2_lookup_r _ _ _ _ _ Hf Hi) as (a & _ & _ & H & _). exact H.
  - destruct (t !! fd) as [h|] eqn:Ht; [by eapply lookup_weaken|]. destruct (t' !! fd) eqn:Ht'; [|done].
    destruct Hd. destruct (Hnew fd Ht) as (la & Hla & <-); [by rewrite Ht'|]. by apply list_elem_of_fmap_2.
Qed.
End opening.

(** ** The process that parses *)

Section reconf.
Context (junk : nat -> Z) (newfd : gmap Z handle -> Z) (pw : option passwd).
Context (newfd_lowest : forall t, t !! newfd t = None /\ 0 <= newfd t <= Z.of_nat (size t)).

Lemma newfd_fresh : forall t, t !! newfd t = None /\ newfd t <> -1.
Proof. intros t. destruct (newfd_lowest t). split; [done|lia]. Qed.

Lemma call_each_ok l : forall p, p_sys p = [] -> call_each l p = Ret (Go 0, set_cred (foldl (fun c f => f c) (p_cred p) l) p).
Proof.
  induction l as [|f l IH]; intros p Hs; cbn [call_each foldl]; [by destruct p|].
  rewrite (bind_Go _ _ _ _ _ (works_call _ p Hs eq_refl)). cbn [negb]. unfold modify, bind. cbn [obind].
  by rewrite IH.
Qed.

Lemma config_child_ok conf c p : p_sys p = [] -> config_ok (p_fds p) c -> exists q,
  config_child junk pw conf (Some c) p = Ret (Exit 0, q) /\
  p_tx q = p_tx p ++ (Byte <$> le_bytes 4 1) ++ config_items junk (p_fds p) c.
Proof.
  intros Hs Hc. unfold config_child. rewrite (bind_Go _ _ _ _ _ (works_call _ p Hs eq_refl)). cbn [negb].
  assert (exists p1, match pw with Some pw => if negb (insecure conf) then drop_privs pw false else ret 0 | None => ret 0 end
      (set_fds (p_fds p) p) = Ret (Go 0, p1) /\ p_sys p1 = [] /\ p_tx p1 = p_tx p /\ p_fds p1 = p_fds p) as (p1 & E1 & Hs1 & Ht1 & Hf1).
  { destruct pw as [w|]; [|by eexists]. destruct (negb (insecure conf)); [|by eexists]. unfold drop_privs. rewrite call_each_ok by done. by eexists. }
  rewrite (bind_Go _ _ _ _ _ E1). cbn [Z.eqb]. rewrite (bind_Go _ _ _ _ _ (atomic_write_ok _ p1 Hs1)). rewrite bool_decide_true by done.
  cbn [b2z]. rewrite length_le_bytes. change (negb (Z.of_nat 4 =? 4)) with false. cbv iota.
  rewrite <- Hf1 in Hc. rewrite (bind_Go _ _ _ _ _ (sends_config junk _ c Hc (set_tx _ p1) Hs1 eq_refl)). cbn [Z.eqb]. eexists. split; [reflexivity|].
  cbn [p_tx set_tx]. by rewrite Ht1, Hf1, app_assoc.
Qed.

Lemma adopt_all_none t l u : Forall (fun la => la_fd la = -1) l -> adopt_all newfd t l u = (l, u).
Proof.
  induction 1 as [|la l Hla _ IH]; cbn [adopt_all]; [done|]. unfold adopt, pass_of. rewrite Hla. cbn [Z.eqb Pos.eqb]. by rewrite IH.
Qed.

Lemma closed_none l t : Forall (fun la => la_fd la = -1) l -> closed l t = t.
Proof. induction 1 as [|la l Hla _ IH]; [done|]. cbn [closed foldl]. by rewrite Hla. Qed.

(** Parsed configurations have no open listeners; they can be sent from any process. *)
Lemma parsed_fds c : config_ok ∅ c -> Forall (fun la => la_fd la = -1) (listen_addrs c).
Proof.
  intros Hc. eapply Forall_impl; [apply Hc|]. intros la [_ [?|[h Hh]]]; [done|]. by rewrite lookup_empty in Hh.
Qed.
Lemma parsed_ok t c : config_ok ∅ c -> config_ok t c.
Proof.
  intros Hc. pose proof (parsed_fds c Hc) as Hf. pose proof (ok_listen ∅ c Hc) as Ho. destruct Hc. split; try done.
  eapply Forall_impl; [apply Forall_and; split; [exact Ho|exact Hf]|]. intros la [[? _] ?]. split; [done|by left].
Qed.

Lemma set_listen_same c : set_listen_addrs (listen_addrs c) c = c.
Proof. by destruct c. Qed.

Lemma child_get_config_ok t conf c : config_ok ∅ c -> listen_addrs conf = [] -> insecure conf = true \/ pw <> None ->
  works t (child_get_config junk newfd pw (Mk_child_run [] (Some c)) conf) (0, c) t.
Proof.
  intros Hc Hl Hpw. unfold child_get_config.
  assert (negb (insecure conf) && bool_decide (pw = None) = false) as ->.
  { apply andb_false_iff. destruct Hpw as [->|]; [by left|]. right. by apply bool_decide_eq_false. }
  do 2 (eapply works_bind; [apply works_call|]; cbn [negb]).
  intros p Hs Ht. unfold bind at 1, get. cbn [obind]. unfold lift at 1, bind at 1. cbn [cr_parse cr_sys].
  destruct (config_child_ok conf c (Mk_proc [] false [] (p_fds p) (p_cred p) (p_pids p) [])) as (q & Eq & Htx); [done|by apply parsed_ok|].
  cbn [id]. rewrite Eq. cbn [obind p_tx p_fds] in *.
  assert (receives t (let* ok := read_num 4 in
     match ok with
     | None => ret (true, conf)
     | Some ok => if ok =? 0 then ret (true, conf) else let* (r, conf) := recv_config newfd conf in ret (r =? -1, conf)
     end) ((Byte <$> le_bytes 4 1) ++ config_items junk t c) (false, c) t) as Hrecv.
  { eapply receives_bind; [by apply receives_num|]. cbn beta iota. cbn [Z.eqb Pos.eqb].
    rewrite <- (app_nil_r (config_items _ _ _)). eapply receives_bind.
    - pose proof (receives_config junk newfd newfd_fresh t t c conf (parsed_ok t c Hc)) as Hr. unfold received in Hr.
      rewrite adopt_all_none in Hr by (by apply parsed_fds). cbn [fst snd] in Hr. rewrite Hl, set_listen_same in Hr. exact Hr.
    - cbn beta iota. apply receives_ret. }
  unfold bind at 1, on_channel. rewrite (Hrecv _ []); [|done|done|cbn; by rewrite Htx, app_nil_r, Ht]. cbn [obind set_fds set_rx p_tx p_fds p_cred p_pids p_sys p_rx p_eof].
  rewrite <- Ht in *. replace (Mk_proc _ _ _ _ _ _ _) with p by (by destruct p). rewrite (bind_Go _ _ _ _ _ (works_call _ p Hs eq_refl)). done.
Qed.

Lemma read_config_ok t conf c : config_ok ∅ c -> listen_addrs conf = [] -> insecure conf = true \/ pw <> None ->
  works t (read_config junk newfd pw (Mk_child_run [] (Some c)) conf) (0, set_opts (Z.lor (opts c) (Z.land (opts conf) own_opts)) c) t.
Proof.
  intros Hc Hl Hpw. unfold read_config. eapply works_bind; [by apply child_get_config_ok|]. cbn beta iota. apply works_ret.
Qed.

(** ** The monitor *)

(** The descriptors of new listeners are small. *)
Lemma open_all_small groups l : forall t, Z.of_nat (size t) + Z.of_nat (length l) < 2147483648 ->
  Forall (fun la => s32 (la_fd la)) (open_all newfd groups l t).1.
Proof.
  induction l as [|la l IH]; intros t Hs; cbn [open_all]; [constructor|]. destruct (newfd_lowest t) as [Hf Hr]. cbn [length] in Hs.
  specialize (IH (<[newfd t := listener groups la]> t)). destruct (open_all newfd groups l _) as [l' t']. cbn [fst] in *.
  constructor; [cbn; width; lia|]. apply IH. rewrite map_size_insert_None by done. lia.
Qed.

(** The configuration with its listeners open can be sent. *)
Lemma opened_ok groups c t l' t' : config_ok ∅ c -> Z.of_nat (size t) + 8192 < 2147483648 ->
  open_all newfd groups (listen_addrs c) t = (l', t') -> config_ok t' (set_listen_addrs l' c).
Proof.
  intros Hc Hsz E. pose proof (ok_listen _ _ Hc) as Ho. pose proof (ok_listens _ _ Hc) as Hn.
  pose proof (open_all_small groups (listen_addrs c) t ltac:(lia)) as Hsm.
  pose proof (open_all_ok newfd newfd_fresh _ _ _ _ _ E) as (_ & Hl & Hf & _). rewrite E in Hsm. cbn [fst] in Hsm.
  destruct Hc. split; cbn [set_listen_addrs log_file log_socket log_socket_bufsiz pid_file store_mask opts listen_addrs filter_list allowed_devices join_groups]; try done.
  - apply Forall_lookup. intros i la' Hi. destruct (Forall2_lookup_r _ _ _ _ _ Hf Hi) as (la & Hla & Hne & _ & H3).
    split; [|right; by rewrite H3]. apply (f_equal (fun l => l !! i)) in Hl. rewrite !list_lookup_fmap, Hla, Hi in Hl.
    destruct (Forall_lookup_1 _ _ _ _ Ho Hla) as [(H1 & H2 & _ & H4) _]. pose proof (Forall_lookup_1 _ _ _ _ Hsm Hi) as Hs.
    destruct la, la'. cbn in Hl. injection Hl as -> -> ->. done.
  - apply Forall2_length in Hf. by rewrite <- Hf.
Qed.

Lemma replace_conf_ok conf new p : replace_conf conf new p = Ret (Go new, set_fds (closed (listen_addrs conf) (p_fds p)) p).
Proof.
  unfold replace_conf. rewrite (bind_Go _ _ _ _ _ (close_listeners_ok _ p)). unfold ret. rewrite !move_ok. by destruct new.
Qed.

Lemma write_pid_file_ok s p : p_sys p = [] -> exists pids, write_pid_file s p = Ret (Go 0, set_pids pids p).
Proof. intros Hs. unfold write_pid_file, call, draw, modify, bind. destruct s; cbn; rewrite Hs; cbn; rewrite ?Hs; by eexists. Qed.

Lemma config_ok_opts t c o : u32 o -> config_ok t c -> config_ok t (set_opts o c).
Proof. intros Ho []. by split. Qed.

Lemma answer_reconfigure_ok conf c p : p_sys p = [] -> config_ok ∅ c -> Forall (fun la => inet_ok (la_addr la)) (listen_addrs c) ->
  Forall (fun la => la_fd la = -1) (listen_addrs conf) -> u32 (opts conf) -> insecure conf = true \/ pw <> None ->
  Z.of_nat (size (p_fds p)) + 8192 < 2147483648 ->
  let newconf := set_opts (Z.lor (opts c) (Z.land (opts conf) own_opts)) c in
  let open := open_all newfd (join_groups conf) (listen_addrs c) (p_fds p) in
  exists p', answer_reconfigure junk newfd pw (Mk_child_run [] (Some c)) conf p = Ret (Go (0, newconf), p') /\
    p_tx p' = p_tx p ++ (Byte <$> le_bytes 4 1) ++ config_items junk open.2 (set_listen_addrs open.1 newconf) /\
    p_fds p' = p_fds p /\ p_rx p' = p_rx p /\ p_sys p' = [] /\ p_eof p' = p_eof p.
Proof.
  intros Hs Hc Hin Hm Hom Hpw Hsz newconf open. unfold answer_reconfigure.
  set (conf0 := set_opts (Z.land (opts conf) own_opts) config_zero).
  assert (insecure conf0 = insecure conf) as Hi.
  { unfold insecure, conf0. cbn [opts set_opts config_zero]. by rewrite <- Z.land_assoc. }
  assert (newconf = set_opts (Z.lor (opts c) (Z.land (opts conf0) own_opts)) c) as En.
  { unfold newconf, conf0. cbn [opts set_opts config_zero]. by rewrite <- Z.land_assoc. }
  pose proof (read_config_ok (p_fds p) conf0 c Hc eq_refl ltac:(by rewrite Hi)) as Hread. rewrite <- En in Hread.
  rewrite (bind_Go _ _ _ _ _ (Hread p Hs eq_refl)). clear Hread.
  replace (set_fds (p_fds p) p) with p by (by destruct p).
  change (listen_addrs newconf) with (listen_addrs c).
  rewrite (bind_Go _ _ _ _ _ (works_listeners newfd newfd_fresh (join_groups conf) _ Hin (p_fds p) p Hs eq_refl)).
  fold open. cbn [Z.eqb negb andb b2z]. destruct open as [l' t'] eqn:Eo. cbn [fst snd].
  set (p1 := set_fds t' p). assert (p_sys p1 = []) as Hs1 by done.
  rewrite (bind_Go _ _ _ _ _ (atomic_write_ok _ p1 Hs1)), length_le_bytes. change (negb (Z.of_nat 4 =? 4)) with false. cbv iota.
  assert (u32 (opts newconf)) as Hu.
  { unfold newconf. cbn [opts set_opts]. apply u32_lor; [apply Hc|]. by apply u32_land. }
  assert (config_ok t' (set_listen_addrs l' newconf)) as Hok.
  { unfold newconf. change (set_listen_addrs l' (set_opts ?o c)) with (set_opts o (set_listen_addrs l' c)).
    apply config_ok_opts; [exact Hu|]. by eapply opened_ok. }
  set (p1' := set_tx (p_tx p1 ++ (Byte <$> le_bytes 4 1)) p1).
  rewrite (bind_Go _ _ _ _ _ (sends_config junk _ _ Hok p1' Hs1 eq_refl)). cbn [Z.eqb].
  change (listen_addrs (set_listen_addrs l' newconf)) with l'.
  set (p2 := set_tx _ p1'). assert (p_fds p2 = t') as Hf2 by done.
  pose proof (works_close_all l' t' p2 Hs1 Hf2) as Hclose.
  pose proof (open_close newfd newfd_fresh (join_groups conf) (listen_addrs c) (p_fds p)) as Hoc. fold open in Hoc. rewrite Eo in Hoc. cbn [fst snd] in Hoc.
  rewrite Hoc in Hclose. rewrite (bind_Go _ _ _ _ _ Hclose). clear Hclose.
  destruct (open_all_ok newfd newfd_fresh _ _ _ _ _ Eo) as (_ & Hl & _).
  assert (set_fd (-1) <$> l' = listen_addrs c) as Hl'.
  { rewrite Hl. apply parsed_fds in Hc. clear -Hc. induction Hc as [|la l Hla _ IH]; [done|]. rewrite fmap_cons, IH. f_equal. destruct la. cbn in *. by subst. }
  assert (set_listen_addrs (set_fd (-1) <$> l') (set_listen_addrs l' newconf) = newconf) as Hnc by (rewrite Hl'; unfold newconf; by destruct c).
  rewrite Hnc, (bind_Go _ _ _ _ _ (replace_conf_ok conf newconf _)), closed_none by done. cbn beta.
  set (p3 := set_fds (p_fds (set_fds (p_fds p) p2)) (set_fds (p_fds p) p2)).
  assert (p_tx p3 = p_tx p ++ (Byte <$> le_bytes 4 1) ++ config_items junk t' (set_listen_addrs l' newconf)) as Htx3.
  { unfold p3, p2, p1', p1. cbn [p_tx set_fds set_tx]. by rewrite app_assoc. }
  destruct (bool_decide (pid_file conf <> _)); [|by exists p3].
  destruct (write_pid_file_ok (pid_file newconf) p3 Hs1) as (s & E). rewrite (bind_Go _ _ _ _ _ E). eexists. split; [reflexivity|]. done.
Qed.

(** ** The collector *)

Lemma client_reconfigure_ok t c conf p rest : p_sys p = [] -> config_ok t c ->
  p_rx p = (Byte <$> le_bytes 4 1) ++ config_items junk t c ++ rest ->
  exists p', client_reconfigure newfd conf p = Ret (Go (0, received newfd t (closed (listen_addrs conf) (p_fds p)) c), p') /\
    p_tx p' = p_tx p ++ (Byte <$> le_bytes 4 C2M_MSG_RECONFIGURE) /\ p_rx p' = rest /\
    p_fds p' = (adopt_all newfd t (listen_addrs c) (closed (listen_addrs conf) (p_fds p))).2.
Proof.
  intros Hs Hc Hrx. unfold client_reconfigure. rewrite (bind_Go _ _ _ _ _ (close_listeners_ok _ p)).
  set (u := closed _ _). set (p1 := set_fds u p). assert (p_sys p1 = []) as Hs1 by done.
  rewrite (bind_Go _ _ _ _ _ (atomic_write_ok _ p1 Hs1)), length_le_bytes. change (negb (Z.of_nat 4 =? 4)) with false. cbv iota.
  set (old := set_listen_addrs _ conf). set (p2 := set_tx _ p1).
  assert (receives u (let* ok := read_num 4 in
     match ok with
     | None => ret (-1, old)
     | Some ok => if ok =? 0 then ret (-1, old) else let* (r, conf) := recv_config newfd old in ret (if r =? -1 then -1 else 0, conf)
     end) ((Byte <$> le_bytes 4 1) ++ config_items junk t c) (0, received newfd t u c) (adopt_all newfd t (listen_addrs c) u).2) as Hr.
  { eapply receives_bind; [by apply receives_num|]. cbn beta iota. cbn [Z.eqb].
    rewrite <- (app_nil_r (config_items _ _ _)). pose proof (receives_config junk newfd newfd_fresh t u c old Hc) as Hr. rewrite closed_none in Hr.
    - eapply receives_bind; [exact Hr|]. apply receives_ret.
    - unfold old. cbn. apply Forall_fmap, Forall_true. done. }
  rewrite (Hr p2 rest); [|done|done|by rewrite <- app_assoc]. eexists. split; [reflexivity|]. done.
Qed.

(** C23: a reconfiguration, from the request of the collector to its new listeners.
    The monitor reads the file through the process that parses it, opens a listener for
    each address and goes on with the new configuration and the descriptors it had; its
    answer makes the collector go on with the same configuration, having, in order, a
    descriptor for each of those listeners, and nothing left unread.  The listeners
    have joined the groups of the configuration that is replaced, not of the new one. *)
Theorem reconfigure_agrees c confm pm n sigchld status crs k more :
  p_sys pm = [] -> config_ok ∅ c -> Forall (fun la => inet_ok (la_addr la)) (listen_addrs c) ->
  Forall (fun la => la_fd la = -1) (listen_addrs confm) -> u32 (opts confm) -> insecure confm = true \/ pw <> None ->
  Z.of_nat (size (p_fds pm)) + 8192 < 2147483648 -> (sigchld n).1 = false -> crs k = Mk_child_run [] (Some c) ->
  p_rx pm = (Byte <$> le_bytes 4 C2M_MSG_RECONFIGURE) ++ more ->
  let newconf := set_opts (Z.lor (opts c) (Z.land (opts confm) own_opts)) c in
  exists answer pm',
    privsep_master junk newfd pw (S n) sigchld status crs k confm pm =
      privsep_master junk newfd pw n sigchld status crs (S k) newconf pm' /\
    p_rx pm' = more /\ p_tx pm' = p_tx pm ++ answer /\ p_fds pm' = p_fds pm /\
    forall confc pc rest, p_sys pc = [] -> p_rx pc = answer ++ rest -> exists confc' pc',
      client_reconfigure newfd confc pc = Ret (Go (0, confc'), pc') /\ p_rx pc' = rest /\
      p_tx pc' = p_tx pc ++ (Byte <$> le_bytes 4 C2M_MSG_RECONFIGURE) /\ forget confc' = newconf /\
      Forall2 (fun la la' => p_fds pc' !! la_fd la' = Some (listener (join_groups confm) la)) (listen_addrs c) (listen_addrs confc').
Proof.
  intros Hs Hc Hin Hm Hom Hpw Hsz Hsig Hcr Hrx newconf. cbn [privsep_master]. rewrite Hsig.
  assert (receives (p_fds pm) (atomic_read 4) (Byte <$> le_bytes 4 C2M_MSG_RECONFIGURE) (4, le_bytes 4 C2M_MSG_RECONFIGURE) (p_fds pm)) as Hread
    by (by apply receives_read).
  rewrite (bind_Go _ _ _ _ _ (Hread pm more Hs eq_refl Hrx)). cbn beta iota. change (le_val (le_bytes 4 C2M_MSG_RECONFIGURE)) with 3.
  cbn [Z.eqb Pos.eqb negb C2M_MSG_OPEN_LOG C2M_MSG_OPEN_SOCKET C2M_MSG_RECONFIGURE]. rewrite Hcr.
  set (pm1 := set_fds (p_fds pm) (set_rx more pm)).
  destruct (answer_reconfigure_ok confm c pm1 Hs Hc Hin Hm Hom Hpw Hsz) as (pm' & E & Htx & Hf & Hr & _).
  rewrite (bind_Go _ _ _ _ _ E). cbn beta iota. cbn [Z.eqb negb].
  change (p_fds pm1) with (p_fds pm) in *. destruct (open_all newfd _ _ _) as [l' t'] eqn:Eo. cbn [fst snd] in *. fold newconf in Htx |- *.
  eexists _, pm'. split; [reflexivity|]. split_and!; [done|exact Htx|done|]. intros confc pc rest Hsc Hrxc.
  assert (u32 (opts newconf)) as Hu.
  { unfold newconf. cbn [opts set_opts]. apply u32_lor; [apply Hc|]. by apply u32_land. }
  assert (config_ok t' (set_listen_addrs l' newconf)) as Hok.
  { unfold newconf. change (set_listen_addrs l' (set_opts ?o c)) with (set_opts o (set_listen_addrs l' c)).
    apply config_ok_opts; [exact Hu|]. by eapply opened_ok. }
  rewrite <- app_assoc in Hrxc. destruct (client_reconfigure_ok t' _ confc pc rest Hsc Hok Hrxc) as (pc' & Ec & Htxc & Hrc & Hfc).
  eexists _, pc'. split; [exact Ec|]. split_and!; [done|done| |].
  - unfold received, forget.
    destruct (open_all_ok newfd newfd_fresh _ _ _ _ _ Eo) as (_ & Hl & Hfo & _).
    pose proof (adopt_all_ok newfd newfd_fresh t' l') as Ha. cbn [listen_addrs set_listen_addrs] in *.
    destruct (adopt_all newfd t' l' _) as [l2 t2] eqn:Ea. destruct (Ha) with (2 := Ea) as (_ & Hl2 & _).
    { eapply Forall_impl; [apply Hok|]. by intros la [_ ?]. }
    cbn [fst]. rewrite Hl2, Hl. apply parsed_fds in Hc. unfold newconf.
    assert (set_fd (-1) <$> listen_addrs c = listen_addrs c) as ->; [|by destruct c].
    clear -Hc. induction Hc as [|la l Hla _ IH]; [done|]. rewrite fmap_cons, IH. f_equal. destruct la. cbn in *. by subst.
  - rewrite Hfc. unfold received.
    destruct (open_all_ok newfd newfd_fresh _ _ _ _ _ Eo) as (_ & _ & Hfo & _).
    pose proof (adopt_all_ok newfd newfd_fresh t' l') as Ha. cbn [listen_addrs set_listen_addrs] in *.
    destruct (adopt_all newfd t' l' _) as [l2 t2] eqn:Ea. destruct (Ha) with (2 := Ea) as (_ & _ & Hf2).
    { eapply Forall_impl; [apply Hok|]. by intros la [_ ?]. }
    cbn [fst snd]. apply Forall2_same_length_lookup. split.
    { apply Forall2_length in Hfo, Hf2. congruence. }
    intros i la la2 Hi Hi2. destruct (Forall2_lookup_l _ _ _ _ _ Hfo Hi) as (la1 & Hi1 & Hne & _ & Ht').
    destruct (Forall2_lookup_l _ _ _ _ _ Hf2 Hi1) as (la2' & Hi2' & Hsock & _). rewrite Hi2 in Hi2'. injection Hi2' as <-.
    unfold same_socket in Hsock. rewrite (proj2 (Z.eqb_neq _ _)) in Hsock by done. destruct Hsock as (_ & _ & H). by rewrite H.
Qed.
End reconf.

(** ** Privileges *)

(** The collector that privsep_init starts has the user, the group and the groups of
    the unprivileged user and nothing outside its directory. *)
Theorem child_unprivileged w conf p p' : insecure conf = false ->
  privsep_child (Some w) conf p = Ret (Go tt, p') ->
  p_cred p' = Mk_creds (pw_uid w) (pw_gid w) [pw_gid w] (Some (pw_dir w)).
Proof.
  intros Hi. unfold privsep_child. rewrite Hi. cbn [negb].
  assert (forall l q r q', call_each l q = Ret (Go r, q') -> r = -1 \/ p_cred q' = foldl (fun c f => f c) (p_cred q) l) as Hcall.
  { induction l as [|f l IH]; intros q r q' E; cbn [call_each foldl] in *; [injection E as _ <-; by right|].
    unfold bind, call, draw, bind in E. destruct (p_sys q) as [|[x|] s]; cbn in E.
    - apply IH in E as [?|E]; [by left|right; exact E].
    - injection E as <- _. by left.
    - apply IH in E as [?|E]; [by left|right; exact E]. }
  assert (forall n q q', must n q = Ret (Go tt, q') -> p_cred q' = p_cred q) as Hmust.
  { induction n as [|n IH]; intros q q' E; cbn [must] in E; [by injection E as <-|].
    unfold bind, call, draw, bind in E. destruct (p_sys q) as [|[x|] s]; cbn in E; [by apply IH|done|by apply IH in E]. }
  unfold bind at 1. destruct (drop_privs w true p) as [[[r|s] p1]| | |] eqn:E1; cbn [obind]; try done.
  apply Hcall in E1. destruct (Z.eqb_spec r (-1)); [done|]. destruct E1 as [?|E1]; [done|]. intros E. apply Hmust in E. by rewrite E, E1.
Qed.

(** ** Examples *)

(** The lowest number that is not open, as POSIX has it. *)
Definition lowest_fd (t : gmap Z handle) : Z := default 0 (head (filter (fun z => t !! z = None) (seqZ 0 (Z.of_nat (S (size t)))))).

Lemma lowest_fd_ok t : t !! lowest_fd t = None /\ 0 <= lowest_fd t <= Z.of_nat (size t).
Proof.
  unfold lowest_fd. destruct (filter _ _) as [|z l] eqn:E; cbn.
  - exfalso. assert (list_to_set (C := gset Z) (seqZ 0 (Z.of_nat (S (size t)))) ⊆ dom t) as Hsub.
    { intros z Hz. apply elem_of_list_to_set in Hz. apply elem_of_dom. destruct (t !! z) eqn:Ez; [by eexists|].
      assert (z ∈ filter (fun z => t !! z = None) (seqZ 0 (Z.of_nat (S (size t))))) as H by (by apply list_elem_of_filter).
      rewrite E in H. by apply not_elem_of_nil in H. }
    apply subseteq_size in Hsub. rewrite size_list_to_set in Hsub by apply NoDup_seqZ.
    rewrite length_seqZ, size_dom in Hsub. lia.
  - assert (z ∈ filter (fun z => t !! z = None) (seqZ 0 (Z.of_nat (S (size t))))) as H by (rewrite E; by left).
    apply list_elem_of_filter in H as [Hz Hin]. apply elem_of_seqZ in Hin. split; [done|lia].
Qed.

Lemma lowest_fd_fresh t : t !! lowest_fd t = None /\ lowest_fd t <> -1.
Proof. destruct (lowest_fd_ok t). split; [done|lia]. Qed.

Definition sample_addr (a : Z) : xaddr := Xaddr AF_INET [a; 0; 0; 0] 0.
Definition sample_config (fd : Z) : flowd_config :=
  Mk_flowd_config (Some [108; 111; 103]) None 4096 (Some [112; 105; 100]) 255 0
    [Mk_listen_addr (sample_addr 0) 9995 fd 0] [Mk_filter_rule (Mk_filter_action FF_ACTION_ACCEPT 0) true
      (Mk_filter_match 0 0 0 xaddr_zero 0 0 xaddr_zero 0 xaddr_zero 0 0 0 0 0 0 0 0 0 (-1) (-1) 0 0) 0 0 0]
    [Mk_allowed_device (sample_addr 16777226) 32] [Mk_join_group (sample_addr 16777440)].
Definition sample_proc (rx : list item) (t : gmap Z handle) : proc := Mk_proc rx false [] t (Mk_creds 0 0 [] None) ∅ [].

Lemma sample_addr_ok a : u32 a -> xaddr_mem_ok (sample_addr a).
Proof. intros Ha. split; [|done]. split; [done|]. split; [|done]. by repeat (constructor; [first [exact Ha | done]|]). Qed.

Lemma sample_config_ok t fd : open_in t fd -> s32 fd -> config_ok t (sample_config fd).
Proof.
  intros Ho Hfd. split; cbn [sample_config log_file log_socket log_socket_bufsiz pid_file store_mask opts listen_addrs filter_list allowed_devices join_groups].
  - split; [by repeat constructor|pose proof sizeof_buf_val; cbn [length]; lia].
  - done.
  - done.
  - split; [|done]. split; [by repeat constructor|pose proof sizeof_buf_val; cbn [length]; lia].
  - done.
  - done.
  - constructor; [|constructor]. split; [|exact Ho]. cbn. split; [by apply sample_addr_ok|by split].
  - done.
  - split; [|done]. constructor; [|constructor]. cbn. unfold filter_match_ok, xaddr_mem_ok, xaddr_ok. width. cbn.
    apply (bool_decide_unpack _). vm_compute. exact I.
  - split; [|done]. constructor; [|constructor]. split; [by apply sample_addr_ok|done].
  - split; [|done]. constructor; [|constructor]. by apply sample_addr_ok.
Qed.

Lemma config_roundtrip_witness : exists l c' pr',
  send_config (fun _ => 7) (sample_config 3) (sample_proc [] {[3 := LogFile [9]]}) =
    Ret (Go 0, set_tx l (sample_proc [] {[3 := LogFile [9]]})) /\
  recv_config lowest_fd config_zero (sample_proc l ∅) = Ret (Go (0, c'), pr') /\ forget c' = forget (sample_config 3).
Proof.
  destruct (config_roundtrip (fun _ => 7) lowest_fd (sample_config 3) (sample_proc [] {[3 := LogFile [9]]})) as (l & E & H).
  - exact lowest_fd_fresh.
  - apply sample_config_ok; [right; eexists; reflexivity|done].
  - done.
  - destruct (H config_zero (sample_proc l ∅) []) as (c' & pr' & E' & _ & Hf & _); [done|constructor|by rewrite app_nil_r|].
    exists l, c', pr'. split; [exact E|]. split; [exact E'|exact Hf].
Defined.

Definition sample_run : child_run := Mk_child_run [] (Some (sample_config (-1))).
Definition sample_pw : passwd := Mk_passwd [47] 70 71.
Definition sample_monitor : proc := sample_proc (Byte <$> le_bytes 4 C2M_MSG_RECONFIGURE) ∅.
Definition no_signal : nat -> bool * bool := fun _ => (false, false).

Lemma reconfigure_agrees_witness : exists answer pm' confc' pc',
  privsep_master (fun _ => 7) lowest_fd (Some sample_pw) 2 no_signal None (fun _ => sample_run) 0 (sample_config (-1)) sample_monitor =
    privsep_master (fun _ => 7) lowest_fd (Some sample_pw) 1 no_signal None (fun _ => sample_run) 1 (sample_config (-1)) pm' /\
  client_reconfigure lowest_fd config_zero (sample_proc answer ∅) = Ret (Go (0, confc'), pc') /\ forget confc' = sample_config (-1).
Proof.
  destruct (reconfigure_agrees (fun _ => 7) lowest_fd (Some sample_pw) lowest_fd_ok (sample_config (-1)) (sample_config (-1))
    sample_monitor 1 no_signal None (fun _ => sample_run) 0 []) as (answer & pm' & E & _ & _ & _ & H).
  - done.
  - apply sample_config_ok; [by left|done].
  - constructor; [|constructor]. split; [by apply sample_addr_ok|by left].
  - by repeat constructor.
  - done.
  - by right.
  - done.
  - done.
  - done.
  - by rewrite app_nil_r.
  - destruct (H config_zero (sample_proc answer ∅) []) as (confc' & pc' & E' & _ & _ & Hf & _); [done|by rewrite app_nil_r|].
    exists answer, pm', confc', pc'. split; [exact E|]. split; [exact E'|exact Hf].
Defined.

Lemma child_unprivileged_witness : exists p',
  privsep_child (Some sample_pw) (sample_config 3) (sample_proc [] ∅) = Ret (Go tt, p') /\ p_cred p' = Mk_creds 70 71 [71] (Some [47]).
Proof.
  eexists. split; [reflexivity|]. refine (child_unprivileged sample_pw (sample_config 3) (sample_proc [] ∅) _ _ _); reflexivity.
Defined.
