(* ===== verification/StoreV2.v ===== *)
(** * The legacy log format (src/flowd/store-v2.h, store-v2.c)

    Version 2 of the log: a header of the file, and records whose header is the
    field word alone.  The structs that have the layout of version 3 are those of
    StoreTypes; the macros ADDFIELD, RFIELD, WFIELD and the address switches have the
    text of store.c, so their models in Store run over the list of fields of this
    version.  Records of version 2 are converted to version 3 when they are read. *)

From stdpp Require Import gmap.
From S2P Require Import Prelude Packed Crc32 Addr StoreTypes Store.
From S2P Require Import StoreProps StoreFile.

(** ** Data *)

Definition STORE_V2_MAGIC : Z := 19722311.       (* 0x012cf047 *)
Definition STORE_V2_VERSION : Z := 2.

Record store_v2_header := Mk_store_v2_header {
  v2_magic : Z;
  v2_version : Z;
  v2_start_time : Z;
  v2_flags : Z
}.
#[export] Instance store_v2_header_packed : Packed store_v2_header := {|
  widths := [4; 4; 4; 4]%nat;
  to_ints r := [v2_magic r; v2_version r; v2_start_time r; v2_flags r];
  of_ints l :=
    match l with
    | [x0; x1; x2; x3] => Mk_store_v2_header x0 x1 x2 x3
    | _ => Mk_store_v2_header 0 0 0 0
    end
|}.
#[export] Instance store_v2_header_laws : PackedLaws store_v2_header.
Proof. packed_laws. Qed.

Record store_v2_flow := Mk_store_v2_flow { v2_fields : Z }.
#[export] Instance store_v2_flow_packed : Packed store_v2_flow := {|
  widths := [4]%nat;
  to_ints r := [v2_fields r];
  of_ints l := match l with [x0] => Mk_store_v2_flow x0 | _ => Mk_store_v2_flow 0 end
|}.
#[export] Instance store_v2_flow_laws : PackedLaws store_v2_flow.
Proof. packed_laws. Qed.

Record store_v2_flow_RECV_TIME := Mk_store_v2_flow_RECV_TIME { v2_recv_sec : Z }.
#[export] Instance store_v2_flow_RECV_TIME_packed : Packed store_v2_flow_RECV_TIME := {|
  widths := [4]%nat;
  to_ints r := [v2_recv_sec r];
  of_ints l := match l with [x0] => Mk_store_v2_flow_RECV_TIME x0 | _ => Mk_store_v2_flow_RECV_TIME 0 end
|}.
#[export] Instance store_v2_flow_RECV_TIME_laws : PackedLaws store_v2_flow_RECV_TIME.
Proof. packed_laws. Qed.

Record store_v2_flow_IF_INDICES := Mk_store_v2_flow_IF_INDICES { v2_if_index_in : Z; v2_if_index_out : Z }.
#[export] Instance store_v2_flow_IF_INDICES_packed : Packed store_v2_flow_IF_INDICES := {|
  widths := [2; 2]%nat;
  to_ints r := [v2_if_index_in r; v2_if_index_out r];
  of_ints l :=
    match l with
    | [x0; x1] => Mk_store_v2_flow_IF_INDICES x0 x1
    | _ => Mk_store_v2_flow_IF_INDICES 0 0
    end
|}.
#[export] Instance store_v2_flow_IF_INDICES_laws : PackedLaws store_v2_flow_IF_INDICES.
Proof. packed_laws. Qed.

Record store_v2_flow_AS_INFO := Mk_store_v2_flow_AS_INFO {
  v2_src_as : Z;
  v2_dst_as : Z;
  v2_src_mask : Z;
  v2_dst_mask : Z;
  v2_asinf_pad : Z
}.
#[export] Instance store_v2_flow_AS_INFO_packed : Packed store_v2_flow_AS_INFO := {|
  widths := [2; 2; 1; 1; 2]%nat;
  to_ints r := [v2_src_as r; v2_dst_as r; v2_src_mask r; v2_dst_mask r; v2_asinf_pad r];
  of_ints l :=
    match l with
    | [x0; x1; x2; x3; x4] => Mk_store_v2_flow_AS_INFO x0 x1 x2 x3 x4
    | _ => Mk_store_v2_flow_AS_INFO 0 0 0 0 0
    end
|}.
#[export] Instance store_v2_flow_AS_INFO_laws : PackedLaws store_v2_flow_AS_INFO.
Proof. packed_laws. Qed.

Record store_v2_flow_FLOW_ENGINE_INFO := Mk_store_v2_flow_FLOW_ENGINE_INFO {
  v2_engine_type : Z;
  v2_engine_id : Z;
  v2_finf_pad : Z;
  v2_flow_sequence : Z
}.
#[export] Instance store_v2_flow_FLOW_ENGINE_INFO_packed : Packed store_v2_flow_FLOW_ENGINE_INFO := {|
  widths := [1; 1; 2; 4]%nat;
  to_ints r := [v2_engine_type r; v2_engine_id r; v2_finf_pad r; v2_flow_sequence r];
  of_ints l :=
    match l with
    | [x0; x1; x2; x3] => Mk_store_v2_flow_FLOW_ENGINE_INFO x0 x1 x2 x3
    | _ => Mk_store_v2_flow_FLOW_ENGINE_INFO 0 0 0 0
    end
|}.
#[export] Instance store_v2_flow_FLOW_ENGINE_INFO_laws : PackedLaws store_v2_flow_FLOW_ENGINE_INFO.
Proof. packed_laws. Qed.

Record store_v2_flow_complete := Mk_store_v2_flow_complete {
  v2_hdr : store_v2_flow;
  v2_tag : store_flow_TAG;
  v2_recv_time : store_v2_flow_RECV_TIME;
  v2_pft : store_flow_PROTO_FLAGS_TOS;
  v2_agent_addr : xaddr;
  v2_src_addr : xaddr;
  v2_dst_addr : xaddr;
  v2_gateway_addr : xaddr;
  v2_ports : store_flow_SRCDST_PORT;
  v2_packets : store_flow_PACKETS;
  v2_octets : store_flow_OCTETS;
  v2_ifndx : store_v2_flow_IF_INDICES;
  v2_ainfo : store_flow_AGENT_INFO;
  v2_ftimes : store_flow_FLOW_TIMES;
  v2_asinf : store_v2_flow_AS_INFO;
  v2_finf : store_v2_flow_FLOW_ENGINE_INFO;
  v2_crc32 : store_flow_CRC32
}.

Definition set_v2_hdr (v : store_v2_flow) (f : store_v2_flow_complete) : store_v2_flow_complete :=
  Mk_store_v2_flow_complete v (v2_tag f) (v2_recv_time f) (v2_pft f) (v2_agent_addr f) (v2_src_addr f)
    (v2_dst_addr f) (v2_gateway_addr f) (v2_ports f) (v2_packets f) (v2_octets f) (v2_ifndx f) (v2_ainfo f)
    (v2_ftimes f) (v2_asinf f) (v2_finf f) (v2_crc32 f).
Definition set_v2_addrs (a s d g : xaddr) (f : store_v2_flow_complete) : store_v2_flow_complete :=
  Mk_store_v2_flow_complete (v2_hdr f) (v2_tag f) (v2_recv_time f) (v2_pft f) a s d g (v2_ports f)
    (v2_packets f) (v2_octets f) (v2_ifndx f) (v2_ainfo f) (v2_ftimes f) (v2_asinf f) (v2_finf f) (v2_crc32 f).
Definition set_v2_crc32 (v : store_flow_CRC32) (f : store_v2_flow_complete) : store_v2_flow_complete :=
  Mk_store_v2_flow_complete (v2_hdr f) (v2_tag f) (v2_recv_time f) (v2_pft f) (v2_agent_addr f) (v2_src_addr f)
    (v2_dst_addr f) (v2_gateway_addr f) (v2_ports f) (v2_packets f) (v2_octets f) (v2_ifndx f) (v2_ainfo f)
    (v2_ftimes f) (v2_asinf f) (v2_finf f) v.

(** The fields in the order of the macros; the bits are those of version 3. *)
Definition store_v2_fields : list (Z * Z) :=
  [(STORE_FIELD_TAG, sizeof store_flow_TAG);
   (STORE_FIELD_RECV_TIME, sizeof store_v2_flow_RECV_TIME);
   (STORE_FIELD_PROTO_FLAGS_TOS, sizeof store_flow_PROTO_FLAGS_TOS);
   (STORE_FIELD_AGENT_ADDR4, sizeof store_addr4);
   (STORE_FIELD_AGENT_ADDR6, sizeof store_addr6);
   (STORE_FIELD_SRC_ADDR4, sizeof store_addr4);
   (STORE_FIELD_SRC_ADDR6, sizeof store_addr6);
   (STORE_FIELD_DST_ADDR4, sizeof store_addr4);
   (STORE_FIELD_DST_ADDR6, sizeof store_addr6);
   (STORE_FIELD_GATEWAY_ADDR4, sizeof store_addr4);
   (STORE_FIELD_GATEWAY_ADDR6, sizeof store_addr6);
   (STORE_FIELD_SRCDST_PORT, sizeof store_flow_SRCDST_PORT);
   (STORE_FIELD_PACKETS, sizeof store_flow_PACKETS);
   (STORE_FIELD_OCTETS, sizeof store_flow_OCTETS);
   (STORE_FIELD_IF_INDICES, sizeof store_v2_flow_IF_INDICES);
   (STORE_FIELD_AGENT_INFO, sizeof store_flow_AGENT_INFO);
   (STORE_FIELD_FLOW_TIMES, sizeof store_flow_FLOW_TIMES);
   (STORE_FIELD_AS_INFO, sizeof store_v2_flow_AS_INFO);
   (STORE_FIELD_FLOW_ENGINE_INFO, sizeof store_v2_flow_FLOW_ENGINE_INFO)].

(** ** The header of the file *)

Definition store_v2_validate_header (hdr : store_v2_header) : Z :=
  if negb (ntohl (v2_magic hdr) =? STORE_V2_MAGIC) then STORE_ERR_BAD_MAGIC
  else if negb (ntohl (v2_version hdr) =? STORE_V2_VERSION) then STORE_ERR_UNSUP_VERSION
  else STORE_ERR_OK.

(** The return code and the header once it is complete. *)
Definition store_v2_get_header (t : list syscall) (d : fdesc)
    : outcome (Z * option store_v2_header * fdesc * list syscall) :=
  let! (r, errno, b, d, t) := atomicio_read t d (sizeof store_v2_header) [] in
  if r =? -1 then Ret (STORE_ERR_IO, None, d, t)
  else if r <? sizeof store_v2_header then Ret (STORE_ERR_EOF, None, d, t)
  else let hdr := decode b in Ret (store_v2_validate_header hdr, Some hdr, d, t).

Definition store_v2_check_header (t : list syscall) (d : fdesc) : outcome (Z * fdesc * list syscall) :=
  let! (r, hdr, d, t) := store_v2_get_header t d in
  if negb (r =? STORE_ERR_OK) then Ret (r, d, t) else Ret (STORE_ERR_OK, d, t).

(** [now] is what time(NULL) returns. *)
Definition store_v2_put_header (now : Z) (t : list syscall) (d : fdesc) : outcome (Z * fdesc * list syscall) :=
  let hdr := Mk_store_v2_header (htonl STORE_V2_MAGIC) (htonl STORE_V2_VERSION) (htonl (wrap32 now)) (htonl 0) in
  let! (r, errno, d, t) := atomicio_write t d (encode hdr) 0 in
  if r =? -1 then Ret (STORE_ERR_IO, d, t)
  else if r <? sizeof store_v2_header then Ret (STORE_ERR_EOF, d, t)
  else Ret (STORE_ERR_OK, d, t).

(** ** Reading a record *)

Definition store_v2_calc_flow_len (hdr : store_v2_flow) : Z :=
  let '(ret, fields) :=
    fold_left ADDFIELD (store_v2_fields ++ [(STORE_FIELD_CRC32, sizeof store_flow_CRC32)])
      (0, ntohl (v2_fields hdr)) in
  if negb (fields =? 0) then -1 else ret.

(** [f] once the fields have been read, before the addresses are converted. *)
Definition v2_flow_of_dests (hdr : store_v2_flow) (m : gmap Z bytes) : store_v2_flow_complete :=
  Mk_store_v2_flow_complete hdr
    (dest m STORE_FIELD_TAG) (dest m STORE_FIELD_RECV_TIME) (dest m STORE_FIELD_PROTO_FLAGS_TOS)
    xaddr_zero xaddr_zero xaddr_zero xaddr_zero
    (dest m STORE_FIELD_SRCDST_PORT) (dest m STORE_FIELD_PACKETS) (dest m STORE_FIELD_OCTETS)
    (dest m STORE_FIELD_IF_INDICES) (dest m STORE_FIELD_AGENT_INFO)
    (dest m STORE_FIELD_FLOW_TIMES) (dest m STORE_FIELD_AS_INFO)
    (dest m STORE_FIELD_FLOW_ENGINE_INFO) (dest m STORE_FIELD_CRC32).

Definition v2_deserialise_finish (hdr : store_v2_flow) (fields crc : Z) (m : gmap Z bytes)
    : Z * store_v2_flow_complete :=
  let f := v2_flow_of_dests hdr m in
  if both fields STORE_FIELD_AGENT_ADDR4 STORE_FIELD_AGENT_ADDR6 then (-1, f)
  else if both fields STORE_FIELD_SRC_ADDR4 STORE_FIELD_SRC_ADDR6 then (-1, f)
  else if both fields STORE_FIELD_DST_ADDR4 STORE_FIELD_DST_ADDR6 then (-1, f)
  else if both fields STORE_FIELD_GATEWAY_ADDR4 STORE_FIELD_GATEWAY_ADDR6 then (-1, f)
  else
    let f := set_v2_addrs
               (read_addr fields m STORE_FIELD_AGENT_ADDR4 STORE_FIELD_AGENT_ADDR6)
               (read_addr fields m STORE_FIELD_SRC_ADDR4 STORE_FIELD_SRC_ADDR6)
               (read_addr fields m STORE_FIELD_DST_ADDR4 STORE_FIELD_DST_ADDR6)
               (read_addr fields m STORE_FIELD_GATEWAY_ADDR4 STORE_FIELD_GATEWAY_ADDR6) f in
    if has fields STORE_FIELD_CRC32 && negb (crc =? ntohl (crc32 (v2_crc32 f)))
    then (STORE_ERR_CRC_MISMATCH, f)
    else (STORE_ERR_OK, f).

Definition v2_flow_zero : store_v2_flow_complete := v2_flow_of_dests (Mk_store_v2_flow 0) ∅.

(** The field word is copied before [len] is tested.  The comparisons of [len] with
    sizes are made in size_t. *)
Definition store_v2_flow_deserialise (buf : bytes) (len : Z) : outcome (Z * store_v2_flow_complete) :=
  let sz := sizeof store_v2_flow in
  let! hb := rd buf 0 sz in
  let hdr : store_v2_flow := decode hb in
  let f := set_v2_hdr hdr v2_flow_zero in
  if wrap64 len <? sz then Ret (STORE_ERR_BUFFER_SIZE, f)
  else
    let r := store_v2_calc_flow_len hdr in
    if r =? -1 then Ret (STORE_ERR_FLOW_INVALID, f)
    else if wrap64 (len - sz) <? r then Ret (STORE_ERR_BUFFER_SIZE, f)
    else
      let crc := flowd_crc32_update hb flowd_crc32_start in
      let fields := ntohl (v2_fields hdr) in
      let! s := RFIELDS buf fields store_v2_fields (Mk_rstate sz crc fields ∅) in
      let! s := RFIELD buf fields s (STORE_FIELD_CRC32, sizeof store_flow_CRC32) in
      Ret (v2_deserialise_finish hdr fields (r_crc s) (r_dests s)).

(** The stack buffer has 512 bytes. *)
Definition store_v2_get_flow (junk : bytes) (t : list syscall) (d : fdesc)
    : outcome (Z * store_v2_flow_complete * fdesc * list syscall) :=
  let sz := sizeof store_v2_flow in
  let! (r, errno, hb, d, t) := atomicio_read t d sz [] in
  if r =? -1 then Ret (STORE_ERR_IO, v2_flow_zero, d, t)
  else if r <? sz then Ret (STORE_ERR_EOF, v2_flow_zero, d, t)
  else
    let len := store_v2_calc_flow_len (decode hb) in
    if len =? -1 then Ret (STORE_ERR_FLOW_INVALID, v2_flow_zero, d, t)
    else if 512 - sz <? len then Ret (STORE_ERR_INTERNAL, v2_flow_zero, d, t)
    else
      let! (r, errno, b, d, t) := atomicio_read t d len [] in
      if r =? -1 then Ret (STORE_ERR_IO, v2_flow_zero, d, t)
      else if r <? len then Ret (STORE_ERR_EOF, v2_flow_zero, d, t)
      else
        let! (r, f) := store_v2_flow_deserialise (stack_buf junk (hb ++ b)) (len + sz) in
        Ret (r, f, d, t).

(** ** Writing a record *)

(** The four address switches in order. *)
Definition v2_serialise_addrs (f : store_v2_flow_complete) (fields : Z) : option (Z * waddrs) :=
  match serialise_addr (v2_agent_addr f) STORE_FIELD_AGENT_ADDR4 STORE_FIELD_AGENT_ADDR6 fields with
  | None => None
  | Some (fields, aa4, aa6) =>
  match serialise_addr (v2_src_addr f) STORE_FIELD_SRC_ADDR4 STORE_FIELD_SRC_ADDR6 fields with
  | None => None
  | Some (fields, sa4, sa6) =>
  match serialise_addr (v2_dst_addr f) STORE_FIELD_DST_ADDR4 STORE_FIELD_DST_ADDR6 fields with
  | None => None
  | Some (fields, da4, da6) =>
  match serialise_addr (v2_gateway_addr f) STORE_FIELD_GATEWAY_ADDR4 STORE_FIELD_GATEWAY_ADDR6
          fields with
  | None => None
  | Some (fields, gwa4, gwa6) => Some (fields, Mk_waddrs aa4 aa6 sa4 sa6 da4 da6 gwa4 gwa6)
  end end end end.

Definition v2_wsrc (f : store_v2_flow_complete) (w : waddrs) (flag : Z) : option bytes :=
  if flag =? STORE_FIELD_TAG then Some (encode (v2_tag f))
  else if flag =? STORE_FIELD_RECV_TIME then Some (encode (v2_recv_time f))
  else if flag =? STORE_FIELD_PROTO_FLAGS_TOS then Some (encode (v2_pft f))
  else if flag =? STORE_FIELD_AGENT_ADDR4 then encode <$> aa4 w
  else if flag =? STORE_FIELD_AGENT_ADDR6 then encode <$> aa6 w
  else if flag =? STORE_FIELD_SRC_ADDR4 then encode <$> sa4 w
  else if flag =? STORE_FIELD_SRC_ADDR6 then encode <$> sa6 w
  else if flag =? STORE_FIELD_DST_ADDR4 then encode <$> da4 w
  else if flag =? STORE_FIELD_DST_ADDR6 then encode <$> da6 w
  else if flag =? STORE_FIELD_GATEWAY_ADDR4 then encode <$> gwa4 w
  else if flag =? STORE_FIELD_GATEWAY_ADDR6 then encode <$> gwa6 w
  else if flag =? STORE_FIELD_SRCDST_PORT then Some (encode (v2_ports f))
  else if flag =? STORE_FIELD_PACKETS then Some (encode (v2_packets f))
  else if flag =? STORE_FIELD_OCTETS then Some (encode (v2_octets f))
  else if flag =? STORE_FIELD_IF_INDICES then Some (encode (v2_ifndx f))
  else if flag =? STORE_FIELD_AGENT_INFO then Some (encode (v2_ainfo f))
  else if flag =? STORE_FIELD_FLOW_TIMES then Some (encode (v2_ftimes f))
  else if flag =? STORE_FIELD_AS_INFO then Some (encode (v2_asinf f))
  else if flag =? STORE_FIELD_FLOW_ENGINE_INFO then Some (encode (v2_finf f))
  else if flag =? STORE_FIELD_CRC32 then Some (encode (v2_crc32 f))
  else None.

(** The return code, the bytes written to [buf] and the record as the function
    leaves it. *)
Definition store_v2_flow_serialise (f : store_v2_flow_complete) (buflen : Z)
    : outcome (Z * bytes * store_v2_flow_complete) :=
  match v2_serialise_addrs f (ntohl (v2_fields (v2_hdr f))) with
  | None => Ret (STORE_ERR_FLOW_INVALID, [], f)
  | Some (fields, w) =>
      let hdr := Mk_store_v2_flow (htonl fields) in
      let f := set_v2_hdr hdr f in
      if buflen <? store_v2_calc_flow_len hdr then Ret (STORE_ERR_BUFFER_SIZE, [], f)
      else
        let! out := wr buflen [] (encode hdr) in
        let crc := flowd_crc32_update (encode hdr) flowd_crc32_start in
        let! oc := WFIELDS buflen fields (v2_wsrc f w) store_v2_fields (out, crc) in
        let f := if has fields STORE_FIELD_CRC32
                 then set_v2_crc32 (Mk_store_flow_CRC32 (htonl (snd oc))) f else f in
        let! oc := WFIELD buflen fields (v2_wsrc f w) oc
                     (STORE_FIELD_CRC32, sizeof store_flow_CRC32) in
        Ret (STORE_ERR_OK, fst oc, f)
  end.

Definition store_v2_put_flow (e : put_env) (d : fdesc) (flow : store_v2_flow_complete) (fieldmask : Z)
    : outcome (Z * fdesc * store_v2_flow_complete) :=
  let startpos := position d in
  if match pe_lseek e with Some err => negb (err =? ESPIPE) | None => false end
  then Ret (STORE_ERR_IO_SEEK, d, flow)
  else
    let ispipe := bool_decide (is_Some (pe_lseek e)) in
    let origfields := ntohl (v2_fields (v2_hdr flow)) in
    let fields := Z.land origfields fieldmask in
    let flow := set_v2_hdr (Mk_store_v2_flow (htonl fields)) flow in
    let! (r, buf, flow) := store_v2_flow_serialise flow 512 in
    let flow := set_v2_hdr (Mk_store_v2_flow (htonl origfields)) flow in
    if negb (r =? STORE_ERR_OK) then Ret (r, d, flow)
    else
      let! (r, errno, d, _) := atomicio_write (pe_writes e) d buf 0 in
      if r =? Z.of_nat (length buf) then Ret (STORE_ERR_OK, d, flow)
      else if ispipe then Ret (STORE_ERR_CORRUPT, d, flow)
      else if negb (pe_rewind e) then Ret (STORE_ERR_CORRUPT, d, flow)
      else
        let d := fd_seek d startpos in
        if negb (pe_ftruncate e) then Ret (STORE_ERR_CORRUPT, d, flow)
        else
          let d := fd_truncate d startpos in
          if r =? -1 then Ret (STORE_ERR_IO, d, flow) else Ret (STORE_ERR_EOF, d, flow).

(** ** Conversion to version 3 *)

(** None when the field word has an unknown bit. *)
Definition store_v2_flow_convert (fv2 : store_v2_flow_complete) : option store_flow_complete :=
  let hdr := Mk_store_flow STORE_VERSION 0 0 (v2_fields (v2_hdr fv2)) in
  let len := store_calc_flow_len hdr in
  if len =? -1 then None
  else
    Some (Mk_store_flow_complete
      (Mk_store_flow STORE_VERSION (wrap8 (len / 4)) 0 (v2_fields (v2_hdr fv2)))
      (Mk_store_flow_TAG (tag (v2_tag fv2)))
      (Mk_store_flow_RECV_TIME (v2_recv_sec (v2_recv_time fv2)) 0)
      (Mk_store_flow_PROTO_FLAGS_TOS (tcp_flags (v2_pft fv2)) (protocol (v2_pft fv2)) (tos (v2_pft fv2))
         (pft_pad (v2_pft fv2)))
      (v2_agent_addr fv2) (v2_src_addr fv2) (v2_dst_addr fv2) (v2_gateway_addr fv2)
      (Mk_store_flow_SRCDST_PORT (src_port (v2_ports fv2)) (dst_port (v2_ports fv2)))
      (Mk_store_flow_PACKETS (flow_packets (v2_packets fv2)))
      (Mk_store_flow_OCTETS (flow_octets (v2_octets fv2)))
      (Mk_store_flow_IF_INDICES (htonl (ntohs (v2_if_index_in (v2_ifndx fv2))))
         (htonl (ntohs (v2_if_index_out (v2_ifndx fv2)))))
      (Mk_store_flow_AGENT_INFO (sys_uptime_ms (v2_ainfo fv2)) (time_sec (v2_ainfo fv2))
         (time_nanosec (v2_ainfo fv2)) (netflow_version (v2_ainfo fv2)) (ainfo_pad (v2_ainfo fv2)))
      (Mk_store_flow_FLOW_TIMES (flow_start (v2_ftimes fv2)) (flow_finish (v2_ftimes fv2)))
      (Mk_store_flow_AS_INFO (htonl (ntohs (v2_src_as (v2_asinf fv2)))) (htonl (ntohs (v2_dst_as (v2_asinf fv2))))
         (v2_src_mask (v2_asinf fv2)) (v2_dst_mask (v2_asinf fv2)) (v2_asinf_pad (v2_asinf fv2)))
      (Mk_store_flow_FLOW_ENGINE_INFO (htons (v2_engine_type (v2_finf fv2))) (htons (v2_engine_id (v2_finf fv2)))
         (v2_flow_sequence (v2_finf fv2)) 0)
      (Mk_store_flow_CRC32 (crc32 (v2_crc32 fv2)))).
