(* ===== verification/StoreV2Props.v ===== *)
(** * The legacy log format: properties

    The round trip of records of version 2, the conversion to version 3 and the
    writer. *)

From stdpp Require Import gmap.
From S2P Require Import Prelude Packed Crc32 Addr StoreTypes Store.
From S2P Require Import StoreProps StoreFile StoreV2.

(** ** Records *)

Record v2_flow_ok (f : store_v2_flow_complete) : Prop := {
  v2_ok_tag : valid (v2_tag f);
  v2_ok_recv_time : valid (v2_recv_time f);
  v2_ok_pft : valid (v2_pft f);
  v2_ok_agent_addr : xaddr_ok (v2_agent_addr f);
  v2_ok_src_addr : xaddr_ok (v2_src_addr f);
  v2_ok_dst_addr : xaddr_ok (v2_dst_addr f);
  v2_ok_gateway_addr : xaddr_ok (v2_gateway_addr f);
  v2_ok_ports : valid (v2_ports f);
  v2_ok_packets : valid (v2_packets f);
  v2_ok_octets : valid (v2_octets f);
  v2_ok_ifndx : valid (v2_ifndx f);
  v2_ok_ainfo : valid (v2_ainfo f);
  v2_ok_ftimes : valid (v2_ftimes f);
  v2_ok_asinf : valid (v2_asinf f);
  v2_ok_finf : valid (v2_finf f);
  v2_ok_crc32 : valid (v2_crc32 f)
}.

(** The record of version 3 that holds the members of the same layout. *)
Definition carrier (f : store_v2_flow_complete) : store_flow_complete :=
  Mk_store_flow_complete (decode []) (v2_tag f) (decode []) (v2_pft f)
    (v2_agent_addr f) (v2_src_addr f) (v2_dst_addr f) (v2_gateway_addr f)
    (v2_ports f) (v2_packets f) (v2_octets f) (decode []) (v2_ainfo f) (v2_ftimes f) (decode []) (decode [])
    (v2_crc32 f).

Lemma carrier_ok f : v2_flow_ok f -> flow_ok (carrier f).
Proof.
  intros Hf. constructor; first [apply Hf|apply (bool_decide_unpack _); vm_compute; exact I].
Qed.

Lemma v2_serialise_addrs_carrier f fields : v2_serialise_addrs f fields = serialise_addrs (carrier f) fields.
Proof. reflexivity. Qed.

(** The part of a record that its field word selects. *)
Definition v2_select (f : store_v2_flow_complete) : store_v2_flow_complete :=
  let fl := ntohl (v2_fields (v2_hdr f)) in
  Mk_store_v2_flow_complete (v2_hdr f)
    (sel fl STORE_FIELD_TAG (v2_tag f)) (sel fl STORE_FIELD_RECV_TIME (v2_recv_time f))
    (sel fl STORE_FIELD_PROTO_FLAGS_TOS (v2_pft f))
    (sel_addr fl STORE_FIELD_AGENT_ADDR4 STORE_FIELD_AGENT_ADDR6 (v2_agent_addr f))
    (sel_addr fl STORE_FIELD_SRC_ADDR4 STORE_FIELD_SRC_ADDR6 (v2_src_addr f))
    (sel_addr fl STORE_FIELD_DST_ADDR4 STORE_FIELD_DST_ADDR6 (v2_dst_addr f))
    (sel_addr fl STORE_FIELD_GATEWAY_ADDR4 STORE_FIELD_GATEWAY_ADDR6 (v2_gateway_addr f))
    (sel fl STORE_FIELD_SRCDST_PORT (v2_ports f)) (sel fl STORE_FIELD_PACKETS (v2_packets f))
    (sel fl STORE_FIELD_OCTETS (v2_octets f)) (sel fl STORE_FIELD_IF_INDICES (v2_ifndx f))
    (sel fl STORE_FIELD_AGENT_INFO (v2_ainfo f)) (sel fl STORE_FIELD_FLOW_TIMES (v2_ftimes f))
    (sel fl STORE_FIELD_AS_INFO (v2_asinf f)) (sel fl STORE_FIELD_FLOW_ENGINE_INFO (v2_finf f))
    (sel fl STORE_FIELD_CRC32 (v2_crc32 f)).

(** ** The length of a record *)

Definition v2_all : list (Z * Z) := store_v2_fields ++ [(STORE_FIELD_CRC32, sizeof store_flow_CRC32)].

Lemma v2_fields_flags : fst <$> store_v2_fields = fst <$> store_fields.
Proof. reflexivity. Qed.
Lemma v2_all_flags : fst <$> v2_all = fst <$> all_fields.
Proof. reflexivity. Qed.
Lemma v2_not_crc : Forall (fun fld => fst fld <> STORE_FIELD_CRC32) store_v2_fields.
Proof. apply (bool_decide_unpack _). vm_compute. exact I. Qed.
Lemma v2_all_u32 : Forall (fun fld => u32 (fst fld)) v2_all.
Proof. apply (bool_decide_unpack _). vm_compute. exact I. Qed.
Lemma v2_all_sizes : Forall (fun fld => 0 <= snd fld) v2_all.
Proof. apply (bool_decide_unpack _). vm_compute. exact I. Qed.
Lemma v2_all_pow2 : Forall (fun fld => exists i, 0 <= i < 32 /\ fst fld = 2 ^ i) v2_all.
Proof.
  apply (proj1 (Forall_fmap fst (fun k => exists i, 0 <= i < 32 /\ k = 2 ^ i) v2_all)).
  rewrite v2_all_flags. apply Forall_fmap. exact store_fields_pow2.
Qed.

Lemma v2_sel_len_range fields : 0 <= sel_len fields v2_all <= 160.
Proof.
  pose proof (sel_len_nonneg fields _ v2_all_sizes). pose proof (sel_len_max fields _ v2_all_sizes) as Hmax.
  change (foldr _ _ v2_all) with 160 in Hmax. lia.
Qed.

Lemma v2_sel_len_all fields :
  sel_len fields v2_all = sel_len fields store_v2_fields + (if has fields STORE_FIELD_CRC32 then 4 else 0).
Proof. unfold v2_all. rewrite sel_len_app. f_equal. apply Z.add_0_r. Qed.

Lemma v2_calc_flow_len_eq hdr :
  store_v2_calc_flow_len hdr =
    (if unknown (ntohl (v2_fields hdr)) =? 0 then sel_len (ntohl (v2_fields hdr)) v2_all else -1).
Proof.
  unfold store_v2_calc_flow_len. fold v2_all. pose proof (ntohl_u32 (v2_fields hdr)).
  rewrite ADDFIELD_fold; [|done|apply v2_all_u32|rewrite v2_all_flags; apply all_fields_nodup|apply v2_all_pow2].
  rewrite clear_fields_spec by (done || apply v2_all_u32).
  change (foldr (fun fld m => Z.land (lnot32 (fst fld)) m) 4294967295 v2_all) with (lnot32 STORE_FIELD_ALL).
  fold (unknown (ntohl (v2_fields hdr))). by destruct (unknown (ntohl (v2_fields hdr)) =? 0).
Qed.

(** ** The round trip *)

(** Conversion unfolds the checksum and the codecs last. *)
#[local] Strategy 100 [flowd_crc32_update encode decode].

Section record.
Context (f : store_v2_flow_complete) (Hf : v2_flow_ok f).
Context (fl fl' : Z) (w : waddrs) (Hw : addrs_post (carrier f) fl fl' w).

(** The members whose struct changed. *)
Definition v2_own : list Z :=
  [STORE_FIELD_RECV_TIME; STORE_FIELD_IF_INDICES; STORE_FIELD_AS_INFO; STORE_FIELD_FLOW_ENGINE_INFO].

Lemma v2_wsrc_sources : sources_ok fl' (v2_wsrc f w) store_v2_fields.
Proof using Hf Hw.
  pose proof (wsrc_sources (carrier f) (carrier_ok f Hf) fl fl' w Hw) as Hs.
  apply Forall_forall. intros fld Hin.
  assert (fld.1 ∈ v2_own \/ (fld ∈ store_fields /\ v2_wsrc f w fld.1 = wsrc (carrier f) w fld.1)) as [Ho|[Hi ->]].
  { unfold store_v2_fields in Hin. repeat (apply elem_of_cons in Hin as [->|Hin]);
      [..|by apply elem_of_nil in Hin];
      first [right; split; [apply (bool_decide_unpack _); vm_compute; exact I|reflexivity]
            |left; apply (bool_decide_unpack _); vm_compute; exact I]. }
  2:{ by apply (proj1 (Forall_forall _ _) Hs). }
  intros _. unfold store_v2_fields in Hin.
  repeat (apply elem_of_cons in Hin as [->|Hin]); [..|by apply elem_of_nil in Hin];
    try (exfalso; revert Ho; apply (bool_decide_unpack _); vm_compute; exact I);
    apply source_packed; first [reflexivity|apply Hf].
Qed.

Definition v2_hdr_of : store_v2_flow := Mk_store_v2_flow (htonl fl').
Definition v2_body : bytes := encode v2_hdr_of ++ payload fl' (v2_wsrc f w) store_v2_fields.
Definition v2_stored_crc : store_flow_CRC32 :=
  Mk_store_flow_CRC32 (htonl (flowd_crc32_update v2_body flowd_crc32_start)).
Definition v2_bytes : bytes :=
  v2_body ++ (if has fl' STORE_FIELD_CRC32 then encode v2_stored_crc else []).
Definition v2_record : store_v2_flow_complete :=
  set_v2_crc32 (if has fl' STORE_FIELD_CRC32 then v2_stored_crc else v2_crc32 f) (set_v2_hdr v2_hdr_of f).

Lemma v2_hdr_valid : valid v2_hdr_of.
Proof using. repeat constructor; apply htonl_u32. Qed.

Lemma length_v2_body : Z.of_nat (length v2_body) = 4 + sel_len fl' store_v2_fields.
Proof using Hf Hw.
  unfold v2_body. rewrite length_app, Nat2Z.inj_add, (length_encode _ v2_hdr_valid).
  by rewrite (length_payload _ _ _ v2_wsrc_sources).
Qed.

Lemma length_v2_bytes : Z.of_nat (length v2_bytes) = 4 + sel_len fl' v2_all.
Proof using Hf Hw.
  unfold v2_bytes. rewrite length_app, Nat2Z.inj_add, length_v2_body, v2_sel_len_all.
  destruct (has fl' STORE_FIELD_CRC32); simpl; lia.
Qed.

Lemma v2_stored_crc_valid : valid v2_stored_crc.
Proof using. apply crc32_valid, htonl_u32. Qed.

Lemma v2_serialise_eq buflen :
  fl = ntohl (v2_fields (v2_hdr f)) -> serialise_addrs (carrier f) fl = Some (fl', w) ->
  unknown fl' = 0 -> 4 + sel_len fl' v2_all <= buflen ->
  store_v2_flow_serialise f buflen = Ret (STORE_ERR_OK, v2_bytes, v2_record).
Proof using Hf Hw.
  intros Hfl Ha Hunk Hbuf. unfold store_v2_flow_serialise.
  rewrite v2_serialise_addrs_carrier, <- Hfl, Ha. fold v2_hdr_of.
  rewrite v2_calc_flow_len_eq. cbn [v2_hdr_of v2_fields]. fold v2_hdr_of.
  rewrite ntohl_htonl, Hunk by apply Hw. cbn [Z.eqb].
  rewrite (proj2 (Z.ltb_ge _ _)) by lia.
  pose proof (length_encode _ v2_hdr_valid) as Hh. change (sizeof store_v2_flow) with 4 in Hh.
  pose proof (v2_sel_len_all fl') as Hall. pose proof (v2_sel_len_range fl').
  unfold wr at 1. rewrite Hh, (proj2 (Z.leb_le _ _)) by (simpl; lia). cbn [obind app].
  change (v2_wsrc (set_v2_hdr v2_hdr_of f) w) with (v2_wsrc f w).
  rewrite WFIELDS_spec; [|apply v2_wsrc_sources|apply v2_not_crc|].
  2:{ rewrite Hh. destruct (has fl' STORE_FIELD_CRC32); lia. }
  cbn [obind snd]. rewrite <- flowd_crc32_update_app. fold v2_body. fold v2_stored_crc.
  pose proof length_v2_body as Hlb. unfold v2_bytes, v2_record, WFIELD.
  destruct (has fl' STORE_FIELD_CRC32) eqn:Hcrc.
  - change (v2_wsrc (set_v2_crc32 v2_stored_crc _) w STORE_FIELD_CRC32) with (Some (encode v2_stored_crc)).
    cbv iota. unfold wr. change (length (encode v2_stored_crc)) with 4%nat.
    rewrite (proj2 (Z.leb_le _ _)) by lia. reflexivity.
  - cbn [obind fst]. rewrite app_nil_r. by destruct f.
Qed.

(** The destinations hold what the writer copied. *)
Lemma v2_finish_sel m crc :
  (forall flag, flag ∈ (fst <$> store_fields) -> m !! flag = if has fl' flag then v2_wsrc f w flag else None) ->
  m !! STORE_FIELD_CRC32 = (if has fl' STORE_FIELD_CRC32 then Some (encode v2_stored_crc) else None) ->
  (has fl' STORE_FIELD_CRC32 = true -> crc = ntohl (crc32 v2_stored_crc)) ->
  v2_deserialise_finish v2_hdr_of fl' crc m = (STORE_ERR_OK, v2_select v2_record).
Proof using Hf Hw.
  intros Hm Hmc Hcrc. pose proof (carrier_ok f Hf) as Hc. destruct Hw as [Hu _ Wa Ws Wd Wg].
  assert (forall flag, bool_decide (flag ∈ (fst <$> store_fields)) = true -> has fl' flag = true ->
    m !! flag = v2_wsrc f w flag) as Hm1.
  { intros flag Hin Hhas. rewrite Hm by (by apply store_fields_in). by rewrite Hhas. }
  unfold v2_deserialise_finish.
  rewrite (aw_not_both _ _ _ _ _ _ _ Wa), (aw_not_both _ _ _ _ _ _ _ Ws),
    (aw_not_both _ _ _ _ _ _ _ Wd), (aw_not_both _ _ _ _ _ _ _ Wg). cbv zeta.
  rewrite (read_addr_sel fl fl' m _ _ _ _ _ (v2_ok_agent_addr f Hf) Wa) by (by apply Hm1).
  rewrite (read_addr_sel fl fl' m _ _ _ _ _ (v2_ok_src_addr f Hf) Ws) by (by apply Hm1).
  rewrite (read_addr_sel fl fl' m _ _ _ _ _ (v2_ok_dst_addr f Hf) Wd) by (by apply Hm1).
  rewrite (read_addr_sel fl fl' m _ _ _ _ _ (v2_ok_gateway_addr f Hf) Wg) by (by apply Hm1).
  unfold v2_flow_of_dests.
  rewrite (dest_sel fl' m STORE_FIELD_CRC32 _ Hmc v2_stored_crc_valid).
  cbn [set_v2_addrs v2_crc32].
  assert (has fl' STORE_FIELD_CRC32 && negb (crc =? ntohl (crc32 (sel fl' STORE_FIELD_CRC32 v2_stored_crc)))
            = false) as ->.
  { unfold sel. destruct (has fl' STORE_FIELD_CRC32); [|done]. by rewrite Hcrc, Z.eqb_refl. }
  f_equal. unfold v2_select, v2_record, set_v2_addrs, set_v2_crc32, set_v2_hdr.
  cbn [v2_hdr v2_tag v2_recv_time v2_pft v2_agent_addr v2_src_addr v2_dst_addr v2_gateway_addr v2_ports
       v2_packets v2_octets v2_ifndx v2_ainfo v2_ftimes v2_asinf v2_finf v2_crc32 v2_hdr_of v2_fields].
  rewrite (ntohl_htonl fl' Hu).
  f_equal; try (apply dest_sel; first [apply _|by apply Hm, store_fields_in|apply Hf]).
  unfold sel. by destruct (has fl' STORE_FIELD_CRC32).
Qed.

Lemma v2_deserialise_record rest :
  unknown fl' = 0 ->
  store_v2_flow_deserialise (v2_bytes ++ rest) (Z.of_nat (length v2_bytes)) =
    Ret (STORE_ERR_OK, v2_select v2_record).
Proof using Hf Hw.
  intros Hunk. pose proof (ap_u32 _ _ _ _ Hw) as Hu. rewrite length_v2_bytes.
  pose proof (v2_sel_len_range fl'). pose proof (length_encode _ v2_hdr_valid) as Hh.
  change (sizeof store_v2_flow) with 4 in Hh.
  unfold store_v2_flow_deserialise. cbv zeta. change (sizeof store_v2_flow) with 4.
  unfold v2_bytes, v2_body. rewrite <- !app_assoc. rewrite rd_head by done. cbn [obind].
  rewrite decode_encode' by apply v2_hdr_valid.
  rewrite v2_calc_flow_len_eq. cbn [v2_hdr_of v2_fields]. fold v2_hdr_of.
  rewrite ntohl_htonl, Hunk by done. cbn [Z.eqb].
  rewrite !wrap64_small by (width; lia).
  rewrite (proj2 (Z.ltb_ge _ _)), (proj2 (Z.eqb_neq _ _)), (proj2 (Z.ltb_ge _ _)) by lia.
  set (s0 := Mk_rstate _ _ _ _). set (crcb := if has fl' STORE_FIELD_CRC32 then _ else _).
  destruct (RFIELDS_spec fl' (v2_wsrc f w) store_v2_fields (encode v2_hdr_of) (crcb ++ rest) s0)
    as (s & -> & Ho & Hc & _ & Hm);
    [apply v2_wsrc_sources|apply v2_not_crc|rewrite v2_fields_flags; apply store_fields_nodup| |].
  { subst s0. cbn [r_offset]. lia. }
  cbn [obind]. subst s0. cbn [r_crc r_dests] in *. rewrite v2_fields_flags in Hm.
  rewrite <- (flowd_crc32_update_app (encode v2_hdr_of)) in Hc. fold v2_body in Hc.
  assert (forall flag, flag ∈ (fst <$> store_fields) ->
            r_dests s !! flag = if has fl' flag then v2_wsrc f w flag else None) as Hms.
  { intros flag Hin. rewrite Hm, decide_True by done. by case_match. }
  assert (ntohl (crc32 v2_stored_crc) = flowd_crc32_update v2_body flowd_crc32_start) as Hcrc.
  { apply ntohl_htonl. apply flowd_crc32_update_u32; [|done]. apply Forall_app; split; [apply encode_u8|].
    apply payload_u8, v2_wsrc_sources. }
  unfold RFIELD. subst crcb. destruct (has fl' STORE_FIELD_CRC32) eqn:E.
  - rewrite Ho, app_assoc, rd_app by done. cbn [obind r_crc r_dests]. f_equal.
    apply v2_finish_sel.
    + intros flag Hin. rewrite lookup_insert_ne; [by apply Hms|]. intros <-.
      by apply crc_not_in_store_fields.
    + by rewrite lookup_insert_eq, E.
    + intros _. rewrite Hcrc. by destruct (has fl' STORE_FIELD_CRC32).
  - cbn [obind]. f_equal. apply v2_finish_sel; [done| |by rewrite E].
    rewrite E, Hm, decide_False; [done|]. apply crc_not_in_store_fields.
Qed.
End record.

Definition v2_flags_ok (f : store_v2_flow_complete) : Prop :=
  flow_flags_ok (carrier f) (ntohl (v2_fields (v2_hdr f))) /\ unknown (ntohl (v2_fields (v2_hdr f))) = 0.

(** Writing a legacy record and reading it back. *)
Lemma v2_serialise_deserialise f buflen rest :
  v2_flow_ok f -> v2_flags_ok f -> 164 <= buflen ->
  exists out f' fl' w, store_v2_flow_serialise f buflen = Ret (STORE_ERR_OK, out, f') /\
    addrs_post (carrier f) (ntohl (v2_fields (v2_hdr f))) fl' w /\ unknown fl' = 0 /\ f' = v2_record f fl' w /\
    (length out <= 164)%nat /\
    store_v2_flow_deserialise (out ++ rest) (Z.of_nat (length out)) = Ret (STORE_ERR_OK, v2_select f').
Proof.
  intros Hf [Hflags Hunk] Hbuf. set (fl := ntohl (v2_fields (v2_hdr f))) in *.
  destruct (serialise_addrs_spec (carrier f) fl) as (fl' & w & Ha & Hw); [apply ntohl_u32|done|].
  assert (unknown fl' = 0) as Hunk'.
  { rewrite (unknown_same fl fl'); [done|apply ntohl_u32|apply Hw..]. }
  pose proof (v2_sel_len_range fl'). pose proof (length_v2_bytes f Hf fl fl' w Hw).
  exists (v2_bytes f fl' w), (v2_record f fl' w), fl', w. split_and!; [|done..|lia|].
  - apply (v2_serialise_eq f Hf fl); [done..|lia].
  - by apply (v2_deserialise_record f Hf fl).
Qed.

(** ** Conversion *)

(** The values of a legacy record in one of version 3, as the host reads them. *)
Record same_values (f : store_v2_flow_complete) (g : store_flow_complete) : Prop := {
  sv_fields : fields (fl_hdr g) = v2_fields (v2_hdr f);
  sv_tag : fl_tag g = v2_tag f;
  sv_recv_sec : recv_sec (fl_recv_time g) = v2_recv_sec (v2_recv_time f);
  sv_recv_usec : recv_usec (fl_recv_time g) = 0;
  sv_pft : fl_pft g = v2_pft f;
  sv_agent_addr : fl_agent_addr g = v2_agent_addr f;
  sv_src_addr : fl_src_addr g = v2_src_addr f;
  sv_dst_addr : fl_dst_addr g = v2_dst_addr f;
  sv_gateway_addr : fl_gateway_addr g = v2_gateway_addr f;
  sv_ports : fl_ports g = v2_ports f;
  sv_packets : fl_packets g = v2_packets f;
  sv_octets : fl_octets g = v2_octets f;
  sv_if_in : ntohl (if_index_in (fl_ifndx g)) = ntohs (v2_if_index_in (v2_ifndx f));
  sv_if_out : ntohl (if_index_out (fl_ifndx g)) = ntohs (v2_if_index_out (v2_ifndx f));
  sv_ainfo : fl_ainfo g = v2_ainfo f;
  sv_ftimes : fl_ftimes g = v2_ftimes f;
  sv_src_as : ntohl (src_as (fl_asinf g)) = ntohs (v2_src_as (v2_asinf f));
  sv_dst_as : ntohl (dst_as (fl_asinf g)) = ntohs (v2_dst_as (v2_asinf f));
  sv_masks : (src_mask (fl_asinf g), dst_mask (fl_asinf g)) = (v2_src_mask (v2_asinf f), v2_dst_mask (v2_asinf f));
  sv_engine : (ntohs (engine_type (fl_finf g)), ntohs (engine_id (fl_finf g))) =
                (v2_engine_type (v2_finf f), v2_engine_id (v2_finf f));
  sv_sequence : flow_sequence (fl_finf g) = v2_flow_sequence (v2_finf f);
  sv_source_id : source_id (fl_finf g) = 0
}.

Lemma valid_engine (x : store_v2_flow_FLOW_ENGINE_INFO) : valid x -> u8 (v2_engine_type x) /\ u8 (v2_engine_id x).
Proof. unfold valid. cbn. rewrite !Forall2_cons. unfold fits. width. simpl. lia. Qed.

(** The members that convert changes stay in their types, the others are those of
    the record. *)
Lemma convert_values f g :
  v2_flow_ok f -> store_v2_flow_convert f = Some g -> same_values f g.
Proof.
  intros Hf. unfold store_v2_flow_convert. case_match; [done|]. intros [= <-].
  destruct (valid_engine _ (v2_ok_finf f Hf)) as [He1 He2].
  destruct f as [[] [] ? [] ? ? ? ? [] [] [] ? [] [] ? ? []].
  constructor; cbn -[ntohl htonl ntohs htons]; try done; try (by rewrite ntohl_htonl by apply u16_u32, ntohs_u16).
  by rewrite !ntohs_htons by (by apply u8_u16).
Qed.

Lemma v2_fits_u32 v : u32 v -> fits 4 v.
Proof. done. Qed.
Lemma v2_fits_u16 v : u16 v -> fits 2 v.
Proof. done. Qed.
Lemma v2_fits_u8 v : u8 v -> fits 1 v.
Proof. done. Qed.

Lemma convert_ok f g : v2_flow_ok f -> store_v2_flow_convert f = Some g -> u32 (v2_fields (v2_hdr f)) -> flow_ok g.
Proof.
  intros Hf. unfold store_v2_flow_convert. case_match; [done|]. intros [= <-] Hu.
  destruct f as [[] [] [] [] ? ? ? ? [] [] [] [] [] [] [] [] []].
  pose proof (v2_ok_recv_time _ Hf) as H1. pose proof (v2_ok_asinf _ Hf) as H2.
  pose proof (v2_ok_finf _ Hf) as H3. unfold valid in H1, H2, H3. cbn in H1, H2, H3, Hu.
  rewrite !Forall2_cons in H1. rewrite !Forall2_cons in H2. rewrite !Forall2_cons in H3.
  constructor; cbn -[valid htonl ntohs htons]; try apply Hf.
  all: unfold valid; cbn -[htonl ntohs htons]; rewrite ?Forall2_cons; split_and!.
  all: first [apply v2_fits_u32, htonl_u32|apply v2_fits_u16, htons_u16|apply v2_fits_u8, wrap8_u8|apply fits_0
             |by apply Forall2_nil|by apply v2_fits_u32|tauto|by apply (bool_decide_unpack _)].
Qed.

(** ** Selected records *)

Lemma sel_valid {A} `{Packed A} fields flag (x : A) : valid x -> valid (decode []) -> valid (sel fields flag x).
Proof. intros Hx H0. unfold sel. by case_match. Qed.

Lemma sel_addr_ok fields f4 f6 a : xaddr_ok a -> xaddr_ok (sel_addr fields f4 f6 a).
Proof.
  intros Ha. pose proof (addr4_valid a Ha) as H4. unfold valid in H4. cbn in H4. rewrite !Forall2_cons in H4.
  destruct Ha as (Hl & Hw & Hs). unfold sel_addr. repeat case_match; (split_and!; [done| |done]); [done| |].
  - apply Forall_cons. split; [apply H4|by repeat constructor].
  - by repeat constructor.
Qed.

Lemma v2_select_ok f : v2_flow_ok f -> v2_flow_ok (v2_select f).
Proof.
  intros Hf. constructor; cbn -[valid];
    first [apply sel_addr_ok, Hf
          |apply sel_valid; [apply Hf|apply (bool_decide_unpack _); vm_compute; exact I]].
Qed.

(** An address that was selected agrees with the bits that selected it. *)
Lemma sel_addr_flags fields f4 f6 a : both fields f4 f6 = false -> addr_flags_ok (sel_addr fields f4 f6 a) f4 f6 fields.
Proof.
  unfold both, addr_flags_ok, sel_addr. intros Hb. destruct (has fields f6), (has fields f4); cbn in *; auto.
Qed.

Lemma written_same a i j fl fl' o4 o6 :
  0 <= i < 32 -> 0 <= j < 32 -> both fl (2 ^ i) (2 ^ j) = false ->
  addr_written (sel_addr fl (2 ^ i) (2 ^ j) a) (2 ^ i) (2 ^ j) fl fl' o4 o6 ->
  Z.testbit fl' i = Z.testbit fl i /\ Z.testbit fl' j = Z.testbit fl j.
Proof.
  intros Hi Hj Hb [_ H4 H6 Hk]. rewrite <- !has_testbit by lia.
  unfold both, sel_addr in *. assert (AF_INET <> AF_INET6) by done.
  destruct (has fl (2 ^ j)) eqn:Ej, (has fl (2 ^ i)) eqn:Ei, (has fl' (2 ^ j)), (has fl' (2 ^ i));
    try done; first [specialize (H4 eq_refl) as [Hx _]; cbn in Hx; congruence
                    |specialize (H6 eq_refl) as [Hx _]; cbn in Hx; congruence].
Qed.

Section converted.
Context (f : store_v2_flow_complete) (Hf : v2_flow_ok f).
Context (fl fl' : Z) (w : waddrs) (Hw : addrs_post (carrier f) fl fl' w) (Hunk : unknown fl' = 0).
Let s : store_v2_flow_complete := v2_select (v2_record f fl' w).

Lemma select_fields : v2_fields (v2_hdr s) = htonl fl'.
Proof using. done. Qed.

Lemma select_record : v2_flow_ok s.
Proof using Hf.
  apply v2_select_ok. destruct Hf. constructor; try done. cbn -[valid]. case_match; [|done].
  apply v2_stored_crc_valid.
Qed.

Lemma convert_select : exists g, store_v2_flow_convert s = Some g /\ flow_ok g /\ same_values s g.
Proof using Hf Hw Hunk.
  assert (exists g, store_v2_flow_convert s = Some g) as [g Hg].
  { unfold store_v2_flow_convert. rewrite store_calc_flow_len_eq. cbn [fields].
    rewrite select_fields, ntohl_htonl, Hunk by apply Hw. cbn [Z.eqb].
    pose proof (sel_len_all_range fl'). rewrite (proj2 (Z.eqb_neq _ _)) by lia. by eexists. }
  exists g. split_and!; [done| |].
  - apply (convert_ok s); [apply select_record|done|]. rewrite select_fields. apply htonl_u32.
  - apply convert_values; [apply select_record|done].
Qed.

(** The writer leaves the field word of a converted record as it is. *)
Lemma serialise_converted g fl3 w3 :
  same_values s g -> addrs_post g fl' fl3 w3 -> fl3 = fl'.
Proof using Hf Hw.
  intros Hg [Hu Ho Pa Ps Pd Pg]. pose proof Hw as [Hu' _ Wa Ws Wd Wg].
  rewrite (sv_agent_addr _ _ Hg) in Pa. rewrite (sv_src_addr _ _ Hg) in Ps.
  rewrite (sv_dst_addr _ _ Hg) in Pd. rewrite (sv_gateway_addr _ _ Hg) in Pg.
  cbn [s v2_select v2_hdr v2_record v2_fields v2_agent_addr v2_src_addr v2_dst_addr v2_gateway_addr] in Pa, Ps, Pd, Pg.
  change (v2_fields (v2_hdr (v2_record f fl' w))) with (htonl fl') in *.
  rewrite ntohl_htonl in Pa, Ps, Pd, Pg by done.
  apply (written_same _ 3 4) in Pa as [? ?]; [|lia..|apply (aw_not_both _ _ _ _ _ _ _ Wa)].
  apply (written_same _ 5 6) in Ps as [? ?]; [|lia..|apply (aw_not_both _ _ _ _ _ _ _ Ws)].
  apply (written_same _ 7 8) in Pd as [? ?]; [|lia..|apply (aw_not_both _ _ _ _ _ _ _ Wd)].
  apply (written_same _ 9 10) in Pg as [? ?]; [|lia..|apply (aw_not_both _ _ _ _ _ _ _ Wg)].
  apply u32_bits_inj; [done..|]. intros k Hk.
  destruct (decide (3 <= k <= 10)) as [Hr|Hr].
  - assert (k ∈ [3; 4; 5; 6; 7; 8; 9; 10]) as Hin by (rewrite !elem_of_cons; lia).
    repeat (apply elem_of_cons in Hin as [->|Hin]; [done|]). by apply elem_of_nil in Hin.
  - rewrite <- !has_testbit by lia. by apply Ho.
Qed.
End converted.

Lemma sel_sel {A} `{Packed A} fields flag (x : A) : sel fields flag (sel fields flag x) = sel fields flag x.
Proof. unfold sel. by case_match. Qed.

Lemma sel_addr_sel fields f4 f6 a : sel_addr fields f4 f6 (sel_addr fields f4 f6 a) = sel_addr fields f4 f6 a.
Proof. unfold sel_addr. by repeat case_match. Qed.

(** Writing and reading the converted record keeps the values. *)
Lemma select_values f w fl' g w3 :
  u32 fl' -> same_values (v2_select (v2_record f fl' w)) g ->
  same_values (v2_select (v2_record f fl' w)) (flow_select (record_flow g w3 fl')).
Proof.
  intros Hu [].
  assert (ntohl (v2_fields (v2_hdr (v2_record f fl' w))) = fl') as E by by apply ntohl_htonl.
  assert (ntohl (fields (fl_hdr (record_flow g w3 fl'))) = fl') as E3 by by apply ntohl_htonl.
  unfold v2_select in *. rewrite E in *. unfold flow_select. rewrite E3.
  set (r := v2_record f fl' w) in *.
  cbn [v2_hdr v2_tag v2_recv_time v2_pft v2_agent_addr v2_src_addr v2_dst_addr v2_gateway_addr v2_ports
       v2_packets v2_octets v2_ifndx v2_ainfo v2_ftimes v2_asinf v2_finf v2_crc32] in *.
  unfold record_flow. constructor; flow_simpl;
    cbn [v2_hdr v2_tag v2_recv_time v2_pft v2_agent_addr v2_src_addr v2_dst_addr v2_gateway_addr v2_ports
       v2_packets v2_octets v2_ifndx v2_ainfo v2_ftimes v2_asinf v2_finf v2_crc32];
    first [reflexivity
          |match goal with H : ?x = sel _ _ _ |- sel _ _ ?x = _ => rewrite H; apply sel_sel end
          |match goal with H : ?x = sel_addr _ _ _ _ |- sel_addr _ _ _ ?x = _ => rewrite H; apply sel_addr_sel end
          |unfold sel in *; match goal with |- context [has fl' ?c] => by destruct (has fl' c) end].
Qed.

Lemma known_mask fl : u32 fl -> unknown fl = 0 -> Z.land fl STORE_FIELD_ALL = fl.
Proof.
  intros Hu Hk. apply u32_bits_inj; [by apply u32_land|done|]. intros i Hi.
  apply (f_equal (fun z => Z.testbit z i)) in Hk. unfold unknown in Hk.
  rewrite Z.land_spec, lnot32_testbit, Z.bits_0 in Hk by done. rewrite Z.land_spec.
  by destruct (Z.testbit fl i), (Z.testbit STORE_FIELD_ALL i).
Qed.

(** A selected record converts to one that can be stored, which keeps the values. *)
Lemma convert_stored f fl fl' w :
  v2_flow_ok f -> addrs_post (carrier f) fl fl' w -> unknown fl' = 0 ->
  exists g out3 g3, store_v2_flow_convert (v2_select (v2_record f fl' w)) = Some g /\
    storable STORE_FIELD_ALL g /\ masked g STORE_FIELD_ALL = g /\
    store_flow_serialise g 1024 = Ret (STORE_ERR_OK, out3, g3) /\
    (forall rest, store_flow_deserialise (out3 ++ rest) (Z.of_nat (length out3)) =
       Ret (STORE_ERR_OK, flow_select g3)) /\
    same_values (v2_select (v2_record f fl' w)) g /\ same_values (v2_select (v2_record f fl' w)) (flow_select g3).
Proof.
  intros Hf Hw Hunk. destruct (convert_select f Hf _ fl' w Hw Hunk) as (g & Hg & Hok & Hv).
  pose proof (ap_u32 _ _ _ _ Hw) as Hu.
  assert (ntohl (fields (fl_hdr g)) = fl') as Hfl.
  { rewrite (sv_fields _ _ Hv). by apply ntohl_htonl. }
  assert (flow_flags_ok g fl') as Hflags.
  { unfold flow_flags_ok.
    rewrite (sv_agent_addr _ _ Hv), (sv_src_addr _ _ Hv), (sv_dst_addr _ _ Hv), (sv_gateway_addr _ _ Hv).
    unfold v2_select. change (v2_fields (v2_hdr (v2_record f fl' w))) with (htonl fl').
    rewrite ntohl_htonl by done. pose proof Hw as [_ _ Wa Ws Wd Wg].
    split_and!; apply sel_addr_flags; by eapply aw_not_both. }
  destruct (store_flow_serialise_ok g 1024) as (fl3 & w3 & _ & Hw3 & Hunk3 & HS);
    [done|by rewrite Hfl|by rewrite Hfl|lia|].
  rewrite Hfl in Hw3. pose proof (serialise_converted f Hf _ fl' w Hw g fl3 w3 Hv Hw3) as ->.
  exists g, (record_bytes g w3 fl'), (record_flow g w3 fl'). split_and!; [exact Hg| | |exact HS| |exact Hv|].
  - unfold storable. by rewrite Hfl, known_mask.
  - unfold masked. rewrite Hfl, known_mask by done.
    assert (htonl fl' = fields (fl_hdr g)) as -> by by rewrite (sv_fields _ _ Hv). by destruct g as [[]].
  - intros rest. by eapply store_flow_deserialise_record.
  - by apply select_values.
Qed.

(** A legacy record is read back as it was written, whatever follows it, and
    converts to a record of version 3 with the values of its selected members, which
    the version 3 writer and reader keep. *)
Theorem legacy_conversion f buflen rest :
  v2_flow_ok f -> v2_flags_ok f -> 164 <= buflen ->
  exists out f' g out3 g3, store_v2_flow_serialise f buflen = Ret (STORE_ERR_OK, out, f') /\
    f = set_v2_crc32 (v2_crc32 f) (set_v2_hdr (v2_hdr f) f') /\
    store_v2_flow_deserialise (out ++ rest) (Z.of_nat (length out)) = Ret (STORE_ERR_OK, v2_select f') /\
    store_v2_flow_convert (v2_select f') = Some g /\
    store_flow_serialise g 1024 = Ret (STORE_ERR_OK, out3, g3) /\
    store_flow_deserialise (out3 ++ rest) (Z.of_nat (length out3)) = Ret (STORE_ERR_OK, flow_select g3) /\
    same_values (v2_select f') g /\ same_values (v2_select f') (flow_select g3).
Proof.
  intros Hf Hflags Hbuf.
  destruct (v2_serialise_deserialise f buflen rest Hf Hflags Hbuf)
    as (out & f' & fl' & w & Hs & Hw & Hunk & -> & _ & Hd).
  destruct (convert_stored f _ fl' w Hf Hw Hunk) as (g & out3 & g3 & Hg & _ & _ & HS & HD & Hv & Hv3).
  eexists out, _, g, out3, g3. split_and!; [exact Hs|by destruct f|exact Hd|exact Hg|exact HS|apply HD|exact Hv|exact Hv3].
Qed.

Definition sample_v2 : store_v2_flow_complete :=
  Mk_store_v2_flow_complete (Mk_store_v2_flow (htonl 1074166447))
    (Mk_store_flow_TAG (htonl 7)) (Mk_store_v2_flow_RECV_TIME (htonl 1000)) (Mk_store_flow_PROTO_FLAGS_TOS 2 6 0 0)
    (ip4 10 0 0 1) (ip4 10 1 2 3) (ip4 192 168 7 9) (ip4 10 0 0 2)
    (Mk_store_flow_SRCDST_PORT (htons 1234) (htons 80))
    (Mk_store_flow_PACKETS 9) (Mk_store_flow_OCTETS 1500)
    (Mk_store_v2_flow_IF_INDICES (htons 3) (htons 4)) (decode []) (decode [])
    (Mk_store_v2_flow_AS_INFO (htons 100) (htons 200) 24 16 0) (Mk_store_v2_flow_FLOW_ENGINE_INFO 1 2 0 (htonl 77))
    (decode []).

Lemma legacy_conversion_witness :
  v2_flags_ok sample_v2 /\
  exists out f' g, store_v2_flow_serialise sample_v2 164 = Ret (STORE_ERR_OK, out, f') /\
    store_v2_flow_convert (v2_select f') = Some g /\ same_values (v2_select f') g.
Proof.
  assert (v2_flags_ok sample_v2) as Hfl by (split; [flags_tac|reflexivity]).
  destruct (legacy_conversion sample_v2 164 [1; 2])
    as (out & f' & g & out3 & g3 & Hs & _ & _ & Hg & _ & _ & Hv & _).
  - constructor; first [by (apply (bool_decide_unpack _); vm_compute; exact I)|inet4].
  - exact Hfl.
  - lia.
  - split; [exact Hfl|]. exists out, f', g. split; [exact Hs|split; [exact Hg|exact Hv]].
Defined.
