(* ===== verification/Reader.v ===== *)
(** * flowd-reader (src/flowd/flowd-reader.c)

    The loop over the log files of the command line: reading records of version 3, or
    of version 2 with conversion, filtering, display and the writing of a new log.
    The displayed flows are kept as records; their text is that of
    store_format_flow. *)

From stdpp Require Import gmap.
From S2P Require Import Prelude Packed Crc32 Addr StoreTypes Store.
From S2P Require Import StoreProps StoreFile StoreV2 StoreV2Props Filter.

(** ** Data *)

(** The options: -L, -H, -c, verbose (-q and -v), whether there are -f and -o, and
    the store mask of the filter configuration. *)
Record reader_opts := Mk_reader_opts {
  read_legacy : bool;
  head : Z;
  csv : bool;
  verbose : Z;
  ffile : bool;
  ofile : bool;
  store_mask : Z
}.

Definition effective_mask (o : reader_opts) : Z :=
  if store_mask o =? 0 then STORE_FIELD_ALL else store_mask o.

(** The state of a run: the rules with their counters, the new log with the number of
    records put to it, and the flows that were displayed. *)
Record reader := Mk_reader {
  rules : list filter_rule;
  out : fdesc;
  nput : nat;
  shown : list store_flow_complete
}.

Section reader.
(** localtime of the C library, for the rules with a time. *)
Context (localtime : Z -> tm).

(** ** The loops *)

Definition next_flow (o : reader_opts) (junk : bytes) (t : list syscall) (d : fdesc)
    : outcome (Z * store_flow_complete * fdesc * list syscall) :=
  if read_legacy o then
    let! (r, flow_v2, d, t) := store_v2_get_flow junk t d in
    if negb (r =? STORE_ERR_OK) then Ret (r, flow_zero, d, t)
    else match store_v2_flow_convert flow_v2 with
         | None => Fatal
         | Some flow => Ret (r, flow, d, t)
         end
  else store_get_flow junk t d.

(** Display and output of a flow that the filter let pass.  The result of
    store_put_flow is compared with -1, which it never is. *)
Definition show_flow (o : reader_opts) (envs : nat -> put_env) (flow : store_flow_complete) (s : reader)
    : outcome reader :=
  let shown := if csv o || (0 <=? verbose o) then shown s ++ [flow] else shown s in
  if ofile o then
    let! (r, d, _) := store_put_flow (envs (nput s)) (out s) flow (effective_mask o) in
    if r =? -1 then Fatal else Ret (Mk_reader (rules s) d (S (nput s)) shown)
  else Ret (Mk_reader (rules s) (out s) (nput s) shown).

(** A flow of the log: filtered, displayed, written. *)
Definition visit (o : reader_opts) (envs : nat -> put_env) (flow : store_flow_complete) (s : reader)
    : outcome reader :=
  if ffile o then
    let '(action, flow, rules) := filter_flow localtime flow (rules s) in
    let s := Mk_reader rules (out s) (nput s) (shown s) in
    if action =? FF_ACTION_DISCARD then Ret s else show_flow o envs flow s
  else show_flow o envs flow s.

(** The loop over the flows of a log; [fuel] bounds their number. *)
Fixpoint read_flows (fuel : nat) (o : reader_opts) (envs : nat -> put_env) (junk : bytes) (nflows : Z)
    (t : list syscall) (d : fdesc) (s : reader) : outcome reader :=
  match fuel with
  | O => Diverges
  | S fuel =>
      if (head o =? 0) || (nflows <? head o) then
        let! (r, flow, d, t) := next_flow o junk t d in
        if r =? STORE_ERR_EOF then Ret s
        else if negb (r =? STORE_ERR_OK) then Fatal
        else
          let! s := visit o envs flow s in
          read_flows fuel o envs junk (nflows + 1) t d s
      else Ret s
  end.

(** One log file. *)
Definition read_log (fuel : nat) (o : reader_opts) (envs : nat -> put_env) (junk : bytes)
    (t : list syscall) (d : fdesc) (s : reader) : outcome reader :=
  if read_legacy o then
    let! (r, hdr, d, t) := store_v2_get_header t d in
    if negb (r =? STORE_ERR_OK) then Fatal else read_flows fuel o envs junk 0 t d s
  else read_flows fuel o envs junk 0 t d s.

Fixpoint read_logs (fuel : nat) (o : reader_opts) (envs : nat -> put_env) (junk : bytes)
    (files : list (list syscall * fdesc)) (s : reader) : outcome reader :=
  match files with
  | [] => Ret s
  | (t, d) :: files =>
      let! s := read_log fuel o envs junk t d s in
      read_logs fuel o envs junk files s
  end.

(** ** Records and their readers *)

(** The bytes [out] are read as the flow [g] wherever they are in a log. *)
Definition reads_as (o : reader_opts) (junk : bytes) (out : bytes) (g : store_flow_complete) : Prop :=
  forall t d pre rest, benign t -> contents d = pre ++ out ++ rest -> position d = Z.of_nat (length pre) ->
    Z.of_nat (length out) <= chunks t ->
    exists t', next_flow o junk t d = Ret (STORE_ERR_OK, g, fd_seek d (Z.of_nat (length (pre ++ out))), t') /\
      benign t' /\ chunks t - Z.of_nat (length out) <= chunks t'.

Lemma record_reads_as o junk out g : read_legacy o = false -> record_reads out g -> reads_as o junk out g.
Proof.
  intros Ho Hr t d pre rest Ht Hc Hp Hch. unfold next_flow. rewrite Ho. by eapply store_get_flow_record.
Qed.

Lemma next_flow_eof o junk t d :
  benign t -> position d = Z.of_nat (length (contents d)) -> 1 <= chunks t ->
  exists f t', next_flow o junk t d = Ret (STORE_ERR_EOF, f, d, t').
Proof.
  intros Ht Hp Hc. unfold next_flow. case_match.
  - unfold store_v2_get_flow. destruct (atomicio_read_eof t d (sizeof store_v2_flow)) as (t' & ->); [done..|].
    cbn. by eexists _, _.
  - unfold store_get_flow. destruct (atomicio_read_eof t d (sizeof store_flow)) as (t' & ->); [done..|].
    cbn. by eexists _, _.
Qed.

(** The bytes of a legacy record. *)
Definition v2_record_reads (out : bytes) (f : store_v2_flow_complete) : Prop :=
  4 <= Z.of_nat (length out) <= 164 /\
  store_v2_calc_flow_len (decode (take 4 out)) = Z.of_nat (length out) - 4 /\
  forall rest, store_v2_flow_deserialise (out ++ rest) (Z.of_nat (length out)) = Ret (STORE_ERR_OK, f).

Lemma v2_record_reads_as o junk out f g :
  read_legacy o = true -> v2_record_reads out f -> store_v2_flow_convert f = Some g -> reads_as o junk out g.
Proof.
  intros Ho (Hl & Hlen & Hd) Hg t d pre rest Ht Hcont Hp Hc. unfold next_flow. rewrite Ho.
  unfold store_v2_get_flow. change (sizeof store_v2_flow) with 4.
  assert (Z.of_nat (length (take 4 out)) = 4) as H4 by (rewrite length_take; lia).
  assert (Z.of_nat (length (drop 4 out)) = Z.of_nat (length out) - 4) as Hd4 by (rewrite length_drop; lia).
  rewrite <- (take_drop 4 out), <- app_assoc in Hcont.
  destruct (atomicio_read_here t d 4 pre (take 4 out) (drop 4 out ++ rest))
    as (t1 & -> & Ht1 & Hc1); [done..|lia|]. cbn [obind].
  change (4 =? -1) with false. change (4 <? 4) with false. cbv iota zeta.
  rewrite Hlen, (proj2 (Z.eqb_neq _ _)), (proj2 (Z.ltb_ge _ _)) by lia.
  destruct (atomicio_read_here t1 (fd_seek d (Z.of_nat (length (pre ++ take 4 out))))
    (Z.of_nat (length out) - 4) (pre ++ take 4 out) (drop 4 out) rest)
    as (t2 & -> & Ht2 & Hc2); [done|by rewrite <- app_assoc|done|lia|lia|]. cbn [obind].
  rewrite (proj2 (Z.eqb_neq _ _)), Z.ltb_irrefl by lia.
  unfold stack_buf. rewrite take_drop. replace (Z.of_nat (length out) - 4 + 4) with (Z.of_nat (length out)) by lia.
  rewrite Hd. cbn [obind]. change (negb (STORE_ERR_OK =? STORE_ERR_OK)) with false. cbv iota. rewrite Hg.
  exists t2. rewrite <- app_assoc, take_drop. split; [done|]. split; [done|lia].
Qed.

(** ** The loop over the records of a log *)

Fixpoint visit_all (o : reader_opts) (envs : nat -> put_env) (l : list store_flow_complete) (s : reader)
    : outcome reader :=
  match l with
  | [] => Ret s
  | flow :: l => let! s := visit o envs flow s in visit_all o envs l s
  end.

(** The records that -H leaves after [n] of them. *)
Definition limited (o : reader_opts) (n : Z) {A} (l : list A) : list A :=
  if head o =? 0 then l else take (Z.to_nat (head o - n)) l.

Lemma read_flows_spec o envs junk (ogs : list (bytes * store_flow_complete)) fuel n t d pre s :
  Forall (fun og => reads_as o junk og.1 og.2) ogs -> (length ogs < fuel)%nat -> 0 <= n ->
  benign t -> contents d = pre ++ concat ogs.*1 -> position d = Z.of_nat (length pre) ->
  Z.of_nat (length (concat ogs.*1)) < chunks t ->
  read_flows fuel o envs junk n t d s = visit_all o envs (limited o n ogs.*2) s.
Proof.
  intros Hl. revert fuel n t d pre s. induction Hl as [|[b g] ogs Hr Hl IH];
    intros fuel n t d pre s Hf Hn Ht Hc Hp Hch; (destruct fuel as [|fuel]; [simpl in Hf; lia|]);
    cbn [read_flows].
  - unfold limited. cbn [fmap list_fmap]. rewrite take_nil.
    assert ((if head o =? 0 then [] else []) = ([] : list store_flow_complete)) as -> by by case_match.
    destruct ((head o =? 0) || (n <? head o)); [|done].
    destruct (next_flow_eof o junk t d) as (f & t' & ->); [done| |cbn in Hch; lia|done].
    rewrite Hp, Hc. cbn. by rewrite app_nil_r.
  - cbn [fmap list_fmap concat fst snd] in *. rewrite length_app in Hch.
    destruct ((head o =? 0) || (n <? head o)) eqn:E.
    + destruct (Hr t d pre (concat ogs.*1)) as (t' & -> & Ht' & Hc'); [done..|lia|]. cbn [obind].
      change (STORE_ERR_OK =? STORE_ERR_EOF) with false. change (STORE_ERR_OK =? STORE_ERR_OK) with true.
      cbn [negb].
      assert (limited o n (g :: ogs.*2) = g :: limited o (n + 1) ogs.*2) as ->.
      { unfold limited. apply orb_true_iff in E. destruct (head o =? 0) eqn:E0; [done|].
        destruct E as [E|E%Z.ltb_lt]; [done|].
        replace (Z.to_nat (head o - n)) with (S (Z.to_nat (head o - (n + 1)))) by lia. done. }
      cbn [visit_all]. destruct (visit o envs g s) as [s'| | |]; [|done..]. cbn [obind].
      apply (IH fuel (n + 1) t' _ (pre ++ b)); [simpl in Hf; lia|lia|done| |done|lia].
      cbn [fd_seek contents]. by rewrite <- app_assoc.
    + apply orb_false_iff in E as [E0 E%Z.ltb_ge]. unfold limited. rewrite E0.
      by replace (Z.to_nat (head o - n)) with 0%nat by lia.
Qed.

(** ** Legacy logs *)

Definition v2_masked (f : store_v2_flow_complete) (mask : Z) : store_v2_flow_complete :=
  set_v2_hdr (Mk_store_v2_flow (htonl (Z.land (ntohl (v2_fields (v2_hdr f))) mask))) f.

Definition v2_storable (mask : Z) (f : store_v2_flow_complete) : Prop :=
  v2_flow_ok f /\ v2_flags_ok (v2_masked f mask).

(** What a reader sees of a legacy record. *)
Definition v2_stored (mask : Z) (f : store_v2_flow_complete) : store_v2_flow_complete :=
  match store_v2_flow_serialise (v2_masked f mask) 512 with
  | Ret (_, _, f') => v2_select f'
  | _ => v2_flow_zero
  end.

Lemma v2_masked_ok mask f : v2_flow_ok f -> v2_flow_ok (v2_masked f mask).
Proof. by intros []. Qed.

(** The record that a writer put is read and converted, to one that can be stored. *)
Lemma v2_storable_serialise mask f :
  v2_storable mask f ->
  exists out f' g, store_v2_flow_serialise (v2_masked f mask) 512 = Ret (STORE_ERR_OK, out, f') /\
    v2_record_reads out (v2_stored mask f) /\ store_v2_flow_convert (v2_stored mask f) = Some g /\
    storable STORE_FIELD_ALL g /\ same_values (v2_stored mask f) g /\
    same_values (v2_stored mask f) (stored STORE_FIELD_ALL g).
Proof.
  intros [Hf Hfl]. apply (v2_masked_ok mask) in Hf. unfold v2_stored.
  destruct Hfl as [Hflags Hunk]. set (fl := ntohl (v2_fields (v2_hdr (v2_masked f mask)))) in *.
  destruct (serialise_addrs_spec (carrier (v2_masked f mask)) fl) as (fl' & w & Ha & Hw); [apply ntohl_u32|done|].
  assert (unknown fl' = 0) as Hunk'.
  { rewrite (unknown_same fl fl'); [done|apply ntohl_u32|apply Hw..]. }
  pose proof (v2_sel_len_range fl'). pose proof (length_v2_bytes _ Hf fl fl' w Hw) as Hl.
  rewrite (v2_serialise_eq _ Hf fl fl' w Hw 512 eq_refl Ha Hunk') by lia.
  destruct (convert_stored _ _ fl' w Hf Hw Hunk') as (g & out3 & g3 & Hg & Hst & Hm & HS & _ & Hv & Hv3).
  eexists _, _, g. split; [reflexivity|]. split; [split; [lia|split]|].
  - assert (take 4 (v2_bytes (v2_masked f mask) fl' w) = encode (v2_hdr_of fl')) as ->.
    { unfold v2_bytes, v2_body. rewrite <- !app_assoc. apply take_app_length'.
      apply Nat2Z.inj. by rewrite (length_encode _ (v2_hdr_valid fl')). }
    rewrite decode_encode' by apply v2_hdr_valid. rewrite v2_calc_flow_len_eq.
    cbn [v2_hdr_of v2_fields]. rewrite ntohl_htonl, Hunk' by apply Hw. cbn [Z.eqb]. lia.
  - intros rest. by apply (v2_deserialise_record _ Hf fl).
  - split; [exact Hg|]. split; [exact Hst|]. split; [exact Hv|]. unfold stored. by rewrite Hm, HS.
Qed.

(** The successive writes of legacy records. *)
Fixpoint put_v2_flows (mask : Z) (l : list (put_env * store_v2_flow_complete)) (d : fdesc) : outcome (Z * fdesc) :=
  match l with
  | [] => Ret (STORE_ERR_OK, d)
  | (e, f) :: l =>
      let! (r, d, _) := store_v2_put_flow e d f mask in
      if negb (r =? STORE_ERR_OK) then Ret (r, d) else put_v2_flows mask l d
  end.

(** The legacy record [f], its bytes and the flow it is converted to. *)
Definition legacy_record (mask : Z) (f : store_v2_flow_complete) (og : bytes * store_flow_complete) : Prop :=
  v2_record_reads og.1 (v2_stored mask f) /\ store_v2_flow_convert (v2_stored mask f) = Some og.2 /\
  storable STORE_FIELD_ALL og.2 /\ same_values (v2_stored mask f) og.2 /\
  same_values (v2_stored mask f) (stored STORE_FIELD_ALL og.2).

Lemma put_v2_flows_ok mask l d :
  Forall (fun ef => env_ok ef.1 /\ v2_storable mask ef.2) l -> position d = Z.of_nat (length (contents d)) ->
  exists ogs, Forall2 (legacy_record mask) l.*2 ogs /\
    put_v2_flows mask l d = Ret (STORE_ERR_OK,
      Mk_fdesc (contents d ++ concat ogs.*1) (Z.of_nat (length (contents d ++ concat ogs.*1)))).
Proof.
  intros Hl. revert d. induction Hl as [|[e f] l [He Hf] Hl IH]; intros d Hp.
  - exists []. split; [by apply Forall2_nil|]. cbn. rewrite app_nil_r, <- Hp. by destruct d.
  - cbn [fst snd] in *. destruct (v2_storable_serialise mask f Hf) as (out & f' & g & Hs & Hr & Hg).
    destruct (IH (Mk_fdesc (contents d ++ out) (Z.of_nat (length (contents d ++ out))))) as (ogs & Hogs & Hrest);
      [done|].
    exists ((out, g) :: ogs). split; [by apply Forall2_cons|]. cbn [put_v2_flows].
    destruct He as (Hsk & Hb & Hc). destruct Hr as (Hlen & _ & _).
    unfold store_v2_put_flow. rewrite Hsk. cbv zeta. fold (v2_masked f mask). rewrite Hs. cbn [obind].
    change (negb (STORE_ERR_OK =? STORE_ERR_OK)) with false. cbv iota.
    destruct (atomicio_write_benign (pe_writes e) (contents d) out 0) as (er & t' & Hw); [done|lia|lia|].
    rewrite <- appended_start, appended_full in Hw by done. rewrite Hw. cbn [obind].
    rewrite Z.eqb_refl. cbn [obind]. change (negb (STORE_ERR_OK =? STORE_ERR_OK)) with false. cbv iota.
    rewrite Hrest. cbn [contents fmap list_fmap concat fst]. by rewrite <- app_assoc.
Qed.

(** The header that starts a legacy log. *)
Lemma v2_header_ok now t d :
  benign t -> 16 <= chunks t -> position d = Z.of_nat (length (contents d)) ->
  exists hb t', length hb = 16%nat /\
    store_v2_put_header now t d =
      Ret (STORE_ERR_OK, Mk_fdesc (contents d ++ hb) (Z.of_nat (length (contents d ++ hb))), t') /\
    forall d0 t1 pre rest, contents d0 = pre ++ hb ++ rest -> position d0 = Z.of_nat (length pre) ->
      benign t1 -> 16 <= chunks t1 ->
      exists hdr t2, store_v2_get_header t1 d0 =
        Ret (STORE_ERR_OK, Some hdr, fd_seek d0 (Z.of_nat (length (pre ++ hb))), t2) /\
        v2_start_time hdr = htonl (wrap32 now) /\ benign t2 /\ chunks t1 - 16 <= chunks t2.
Proof.
  intros Ht Hc Hp. unfold store_v2_put_header.
  set (hdr := Mk_store_v2_header _ _ _ _).
  assert (valid hdr) as Hv by (repeat constructor; apply htonl_u32).
  pose proof (length_encode _ Hv) as Hl. change (sizeof store_v2_header) with 16 in *.
  destruct (atomicio_write_benign t (contents d) (encode hdr) 0) as (er & t' & Hw); [done|lia|lia|].
  rewrite <- appended_start, appended_full in Hw by done. rewrite Hw. cbn [obind]. rewrite Hl.
  exists (encode hdr), t'. split; [lia|]. split; [done|].
  intros d0 t1 pre rest Hc1 Hp1 Ht1 Hch. unfold store_v2_get_header. change (sizeof store_v2_header) with 16.
  destruct (atomicio_read_here t1 d0 16 pre (encode hdr) rest) as (t2 & -> & Ht2 & Hc2); [done..|].
  cbn [obind]. rewrite decode_encode' by done. exists hdr, t2. split; [reflexivity|]. by split_and!.
Qed.

(** ** Writing what was read *)

Lemma visit_all_write o envs gs s :
  ffile o = false -> ofile o = true -> store_mask o = 0 -> csv o || (0 <=? verbose o) = true ->
  (forall n, env_ok (envs n)) -> Forall (storable STORE_FIELD_ALL) gs ->
  position (out s) = Z.of_nat (length (contents (out s))) ->
  exists bs, Forall2 (fun b g => record_reads b (stored STORE_FIELD_ALL g)) bs gs /\
    visit_all o envs gs s = Ret (Mk_reader (rules s)
      (Mk_fdesc (contents (out s) ++ concat bs) (Z.of_nat (length (contents (out s) ++ concat bs))))
      (nput s + length gs) (shown s ++ gs)).
Proof.
  intros Hff Hof Hm Hsh He Hgs. revert s. induction Hgs as [|g gs Hg Hgs IH]; intros s Hp.
  - exists []. split; [by apply Forall2_nil|]. cbn. rewrite !app_nil_r, Nat.add_0_r, <- Hp. by destruct s as [? []].
  - cbn [visit_all]. unfold visit. rewrite Hff. unfold show_flow. rewrite Hsh, Hof. unfold effective_mask.
    rewrite Hm. cbn [Z.eqb].
    destruct (store_put_flow_ok (envs (nput s)) (out s) STORE_FIELD_ALL g) as (b & f' & Hb & ->); [done..|].
    cbn [obind]. change (STORE_ERR_OK =? -1) with false. cbv iota. cbn [obind].
    destruct (IH (Mk_reader (rules s) (Mk_fdesc (contents (out s) ++ b) (Z.of_nat (length (contents (out s) ++ b))))
      (S (nput s)) (shown s ++ [g]))) as (bs & Hbs & ->); [done|].
    exists (b :: bs). split; [by apply Forall2_cons|].
    cbn [rules out nput shown contents concat length]. by rewrite <- !app_assoc, Nat.add_succ_r.
Qed.

Lemma visit_all_show o envs gs s :
  ffile o = false -> ofile o = false -> csv o || (0 <=? verbose o) = true ->
  visit_all o envs gs s = Ret (Mk_reader (rules s) (out s) (nput s) (shown s ++ gs)).
Proof.
  intros Hff Hof Hsh. revert s. induction gs as [|g gs IH]; intros s; cbn [visit_all].
  - rewrite app_nil_r. by destruct s.
  - unfold visit. rewrite Hff. unfold show_flow. rewrite Hsh, Hof. cbn [obind]. rewrite IH.
    cbn [rules out nput shown]. by rewrite <- app_assoc.
Qed.

Definition fresh (rules : list filter_rule) : reader := Mk_reader rules (Mk_fdesc [] 0) 0 [].

Lemma legacy_lengths mask fs ogs :
  Forall2 (legacy_record mask) fs ogs -> Z.of_nat (length (concat ogs.*1)) <= 164 * Z.of_nat (length fs).
Proof.
  induction 1 as [|f [b g] fs ogs (Hr & _) H IH]; [done|].
  cbn [fmap list_fmap concat fst length] in *. destruct Hr as (Hr & _). cbn [fst] in Hr. rewrite length_app. lia.
Qed.

Lemma record_lengths bs gs :
  Forall2 (fun b g => record_reads b (stored STORE_FIELD_ALL g)) bs gs ->
  Z.of_nat (length (concat bs)) <= 184 * Z.of_nat (length gs).
Proof.
  induction 1 as [|b g bs gs (Hr & _) H IH]; [done|]. cbn [concat length]. rewrite length_app. lia.
Qed.

Lemma legacy_records mask fs ogs o junk :
  read_legacy o = true -> Forall2 (legacy_record mask) fs ogs ->
  Forall (fun og => reads_as o junk og.1 og.2) ogs /\ Forall (storable STORE_FIELD_ALL) ogs.*2 /\
  Forall2 same_values (v2_stored mask <$> fs) ogs.*2 /\
  Forall2 same_values (v2_stored mask <$> fs) (stored STORE_FIELD_ALL <$> ogs.*2).
Proof.
  intros Ho. induction 1 as [|f [b g] fs ogs (Hr & Hg & Hs & Hv & Hv3) H IH]; [by repeat constructor|].
  destruct IH as (I1 & I2 & I3 & I4). cbn [fst snd fmap list_fmap] in *.
  split_and!; constructor; try done. by apply (v2_record_reads_as o junk b (v2_stored mask f)).
Qed.

Lemma records_read o junk bs gs :
  read_legacy o = false -> Forall2 (fun b g => record_reads b (stored STORE_FIELD_ALL g)) bs gs ->
  let ogs := zip bs (stored STORE_FIELD_ALL <$> gs) in
  Forall (fun og => reads_as o junk og.1 og.2) ogs /\ ogs.*1 = bs /\ ogs.*2 = stored STORE_FIELD_ALL <$> gs.
Proof.
  intros Ho. induction 1 as [|b g bs gs Hr H (I1 & I2 & I3)]; [by repeat constructor|].
  cbn [fmap list_fmap zip_with fst snd] in *. split_and!; [|by f_equal..].
  constructor; [|done]. by apply record_reads_as.
Qed.

(** C19: a legacy log, as put_header and put_flow write it, is converted by
    flowd-reader -L -o: what it displays, and what it displays of the log that it
    wrote, are the flows of the legacy log, in order and with the same values. *)
Theorem legacy_log_converted mask (l : list (put_env * store_v2_flow_complete)) now th envs junk t t2 fuel ru :
  Forall (fun ef => env_ok ef.1 /\ v2_storable mask ef.2) l ->
  benign th -> 16 <= chunks th -> benign t -> 16 + 164 * Z.of_nat (length l) < chunks t ->
  benign t2 -> 184 * Z.of_nat (length l) < chunks t2 -> (length l < fuel)%nat -> (forall n, env_ok (envs n)) ->
  let convert := Mk_reader_opts true 0 false 0 false true 0 in
  let show := Mk_reader_opts false 0 false 0 false false 0 in
  let flows := v2_stored mask <$> l.*2 in
  exists d1 th' d2 s s', store_v2_put_header now th (Mk_fdesc [] 0) = Ret (STORE_ERR_OK, d1, th') /\
    put_v2_flows mask l d1 = Ret (STORE_ERR_OK, d2) /\
    read_logs fuel convert envs junk [(t, fd_seek d2 0)] (fresh ru) = Ret s /\
    Forall2 same_values flows (shown s) /\
    read_logs fuel show envs junk [(t2, fd_seek (out s) 0)] (fresh ru) = Ret s' /\
    Forall2 same_values flows (shown s').
Proof.
  intros Hl Hth Hcth Ht Hct Ht2 Hct2 Hfuel He convert show flows.
  destruct (v2_header_ok now th (Mk_fdesc [] 0) Hth Hcth eq_refl) as (hb & th' & Hhb & Hput & Hget).
  set (d1 := Mk_fdesc ([] ++ hb) (Z.of_nat (length ([] ++ hb)))) in *.
  destruct (put_v2_flows_ok mask l d1 Hl eq_refl) as (ogs & Hogs & Hd2).
  set (d2 := Mk_fdesc _ _) in Hd2.
  pose proof (legacy_lengths mask _ _ Hogs) as Hlen. rewrite length_fmap in Hlen.
  pose proof (Forall2_length _ _ _ Hogs) as Hno. rewrite length_fmap in Hno.
  destruct (Hget (fd_seek d2 0) t [] (concat ogs.*1)) as (hdr & t1 & Hhdr & _ & Ht1 & Hct1); [done|done|done|lia|].
  destruct (legacy_records mask _ ogs convert junk eq_refl Hogs) as (Hra & Hst & Hsv & Hsv3).
  destruct (visit_all_write convert envs ogs.*2 (fresh ru)) as (bs & Hbs & Hvis); [done..|].
  pose proof (record_lengths _ _ Hbs) as Hlb. rewrite length_fmap in Hlb.
  eexists d1, th', d2, _, _. split; [exact Hput|]. split; [exact Hd2|]. split; [|split; [|split]].
  - cbn [read_logs]. unfold read_log. change (read_legacy convert) with true. cbv iota. rewrite Hhdr. cbn [obind].
    change (negb (STORE_ERR_OK =? STORE_ERR_OK)) with false. cbv iota.
    rewrite (read_flows_spec convert envs junk ogs fuel 0 t1 _ hb); [|done|lia|done..|lia].
    change (limited convert 0 ogs.*2) with ogs.*2. rewrite Hvis. reflexivity.
  - exact Hsv.
  - cbn [read_logs out]. unfold read_log. change (read_legacy show) with false. cbv iota.
    pose proof (records_read show junk bs ogs.*2 eq_refl Hbs) as (Hr3 & H1 & H2).
    rewrite (read_flows_spec show envs junk (zip bs (stored STORE_FIELD_ALL <$> ogs.*2)) fuel 0 t2 _ []);
      [|done| |done|done|by rewrite H1|done|by rewrite H1; lia].
    + change (limited show 0 ?l) with l. rewrite H2, visit_all_show by done. reflexivity.
    + rewrite length_zip_with, length_fmap, length_fmap. lia.
  - exact Hsv3.
Qed.
End reader.

Definition easy_env : put_env := Mk_put_env None (replicate 184 (Chunk 200)) true true.

Lemma easy_env_ok : env_ok easy_env.
Proof.
  split; [reflexivity|]. split; [apply Forall_replicate; reflexivity|vm_compute; discriminate].
Qed.

Lemma legacy_log_converted_witness :
  exists d2 s s',
    read_logs (fun _ => Mk_tm 0 0 0 0) 3 (Mk_reader_opts true 0 false 0 false true 0) (fun _ => easy_env) []
      [(replicate 400 (Chunk 7), fd_seek d2 0)] (fresh []) = Ret s /\
    read_logs (fun _ => Mk_tm 0 0 0 0) 3 (Mk_reader_opts false 0 false 0 false false 0) (fun _ => easy_env) []
      [(replicate 400 (Chunk 9), fd_seek (out s) 0)] (fresh []) = Ret s' /\
    Forall2 same_values [v2_stored STORE_FIELD_ALL sample_v2; v2_stored STORE_FIELD_ALL sample_v2] (shown s').
Proof.
  destruct (legacy_log_converted (fun _ => Mk_tm 0 0 0 0) STORE_FIELD_ALL [(easy_env, sample_v2); (easy_env, sample_v2)]
    1000 (replicate 20 (Chunk 5)) (fun _ => easy_env) [] (replicate 400 (Chunk 7)) (replicate 400 (Chunk 9)) 3 [])
    as (d1 & th' & d2 & s & s' & _ & _ & Hs & _ & Hs' & Hv).
  - assert (v2_storable STORE_FIELD_ALL sample_v2) as Hst.
    { split; [constructor; first [by (apply (bool_decide_unpack _); vm_compute; exact I)|inet4]|].
      split; [flags_tac|reflexivity]. }
    apply Forall_cons; split; [split; [exact easy_env_ok|exact Hst]|].
    apply Forall_cons; split; [split; [exact easy_env_ok|exact Hst]|apply Forall_nil; exact I].
  - apply Forall_replicate. reflexivity.
  - vm_compute. discriminate.
  - apply Forall_replicate. reflexivity.
  - vm_compute. reflexivity.
  - apply Forall_replicate. reflexivity.
  - vm_compute. reflexivity.
  - simpl. lia.
  - intros _. apply easy_env_ok.
  - exists d2, s, s'. split; [exact Hs|]. split; [exact Hs'|exact Hv].
Defined.
