(* ===== verification/Estimation.v ===== *)
(** * Traffic estimation (src/flowd/GlobalEstimation.c, GlobalEstimation.h)

    flowd hands every flow that it decodes to Add_flow, which appends it to the list of
    the pair of autonomous systems it goes between.  Once a minute, or when too many
    flows are waiting, the estimation thread takes the flows of each list up to the one
    that was last: it groups the reports of the same flow, estimates the size of the
    flow from the sampling rates of the monitors of its path, enters the estimate, and
    frees the reports; it then sets new sampling rates.

    The nodes of the lists are kept in a heap, since three pointers of a pair point into
    its list; lists that only one pointer leads to are lists.  A string is its bytes
    without the terminator. *)

From Stdlib Require Import SpecFloat.
From stdpp Require Import gmap strings.
From S2P Require Import Prelude CString Convtime Client.

(** ** Floating-point numbers

    The type double of C is IEEE 754 binary64 with rounding to nearest even, as the
    specification of floating-point numbers in the standard library computes it; float
    is binary32.  Conversion to an integer truncates and is undefined outside the
    range of the integer type. *)

Abbreviation double := spec_float.

Definition dadd : double -> double -> double := SFadd 53 1024.
Definition dsub : double -> double -> double := SFsub 53 1024.
Definition dmul : double -> double -> double := SFmul 53 1024.
Definition ddiv : double -> double -> double := SFdiv 53 1024.
Definition fabs : double -> double := SFabs.
Definition dlt : double -> double -> bool := SFltb.

(** Conversion of an integer: the nearest double. *)
Definition of_int (z : Z) : double := binary_normalize 53 1024 z 0 false.

(** The constant num / den, for integers that are doubles. *)
Definition decimal (num den : Z) : double := ddiv (of_int num) (of_int den).

(** The same as a float, widened to a double. *)
Definition decimalf (num den : Z) : double :=
  match SFdiv 24 128 (binary_normalize 24 128 num 0 false) (binary_normalize 24 128 den 0 false) with
  | S754_finite s m e => binary_normalize 53 1024 (cond_Zopp s (Zpos m)) e s
  | x => x
  end.

(** The integer part; None for an infinity or a NaN. *)
Definition truncate (x : double) : option Z :=
  match x with
  | S754_zero _ => Some 0
  | S754_finite s m e => Some (cond_Zopp s (if 0 <=? e then Zpos m * 2 ^ e else Zpos m / 2 ^ (- e)))
  | _ => None
  end.

Definition to_u64 (x : double) : outcome Z :=
  match truncate x with
  | Some z => if (0 <=? z) && (z <? 18446744073709551616) then Ret z else Undef BadConversion
  | None => Undef BadConversion
  end.

Definition to_int (x : double) : outcome Z :=
  match truncate x with
  | Some z => if (-2147483648 <=? z) && (z <? 2147483648) then Ret z else Undef BadConversion
  | None => Undef BadConversion
  end.

Example decimal_rounds : decimal 1 10 = S754_finite false 7205759403792794 (-56).
Proof. vm_compute. reflexivity. Qed.

Example thirds : to_int (dmul (decimal 1 3) (of_int 3)) = Ret 1.
Proof. vm_compute. reflexivity. Qed.

(** A ratio and a sum that are off by the rounding. *)
Example tenths : dlt (decimal 3 10) (dadd (decimal 1 10) (decimal 2 10)) = true.
Proof. vm_compute. reflexivity. Qed.

(** ** Constants *)

Definition NOMBRE_MONITEURS : Z := 97.
Definition NOMBRE_AS : Z := 23.

(** ** Data *)

(** struct flot_node of store.h: a flow as store_format_flow gives it. *)
Record flot_node := Mk_flot_node {
  agent_addr : bytes;
  src_addr : bytes;
  dst_addr : bytes;
  gateway_addr : bytes;
  src_port : Z;
  dst_port : Z;
  flow_packets : Z;
  flow_octets : Z;
  protocol : Z;
  src_as : Z;
  dst_as : Z
}.

(** A node: the members that Add_flow copies, and its own. *)
Record f_list := Mk_f_list { node : flot_node; used : bool; next : option positive }.

Record calcul_list := Mk_calcul_list {
  estimated_byteNumber : Z;
  estimated_packetNumber : Z;
  variance : double;
  sRate : double;
  flow : positive
}.

(** The member byteNumber is always 0. *)
Record result_list := Mk_result_list {
  rapportNumber : Z;
  alpha_flow : double;
  packetNumber : Z;
  flowVariance : double
}.

Record theResult := Mk_theResult {
  measuredFlowNumber : Z;
  estimatedPacketNumber : Z;
  accuracy : double;
  relatifError : double;
  nombre_rapport : Z
}.

Record perInterfaceResult := Mk_perInterfaceResult { measuredFlows : Z; exportedRapports : Z }.

(** The flow of an observation is kept whole. *)
Record monitor_observation := Mk_monitor_observation {
  mo_used : bool;
  mo_flow : flot_node;
  s_f : Z;
  alpha_f : double;
  rapportNumber_f : Z
}.

Record un_moniteur := Mk_un_moniteur {
  sampling_rate : double;
  adresse : bytes;
  les_observations : list monitor_observation
}.

(** A pair of autonomous systems. *)
Record un_chemin := Mk_un_chemin {
  chemin : list bytes;
  flow_list : option positive;
  AddFlow : option positive;
  PicFlow_End : option positive;
  result : list result_list;
  resultat : option theResult;
  ch_taille : Z
}.

(** The global variables. *)
Record est := Mk_est {
  heap : gmap positive f_list;
  chemins : gmap (Z * Z) un_chemin;
  les_moniteurs : list un_moniteur;
  taille : Z;
  thrd : bool;
  overhead : bool;
  sizeval : Z;
  compteur : Z;
  compteur2 : Z
}.

Definition set_next (n : option positive) (f : f_list) : f_list := Mk_f_list (node f) (used f) n.
Definition set_used (u : bool) (f : f_list) : f_list := Mk_f_list (node f) u (next f).

Definition set_queue (first add pic : option positive) (n : Z) (c : un_chemin) : un_chemin :=
  Mk_un_chemin (chemin c) first add pic (result c) (resultat c) n.
Definition set_PicFlow_End (p : option positive) (c : un_chemin) : un_chemin :=
  set_queue (flow_list c) (AddFlow c) p (ch_taille c) c.
Definition set_chemin (p : list bytes) (c : un_chemin) : un_chemin :=
  Mk_un_chemin p (flow_list c) (AddFlow c) (PicFlow_End c) (result c) (resultat c) (ch_taille c).
Definition set_results (l : list result_list) (r : option theResult) (c : un_chemin) : un_chemin :=
  Mk_un_chemin (chemin c) (flow_list c) (AddFlow c) (PicFlow_End c) l r (ch_taille c).

Definition set_heap h s := Mk_est h (chemins s) (les_moniteurs s) (taille s) (thrd s) (overhead s) (sizeval s) (compteur s) (compteur2 s).
Definition set_chemins c s := Mk_est (heap s) c (les_moniteurs s) (taille s) (thrd s) (overhead s) (sizeval s) (compteur s) (compteur2 s).
Definition set_moniteurs m s := Mk_est (heap s) (chemins s) m (taille s) (thrd s) (overhead s) (sizeval s) (compteur s) (compteur2 s).
Definition set_taille t s := Mk_est (heap s) (chemins s) (les_moniteurs s) t (thrd s) (overhead s) (sizeval s) (compteur s) (compteur2 s).
Definition set_thrd b s := Mk_est (heap s) (chemins s) (les_moniteurs s) (taille s) b (overhead s) (sizeval s) (compteur s) (compteur2 s).
Definition set_overhead b s := Mk_est (heap s) (chemins s) (les_moniteurs s) (taille s) (thrd s) b (sizeval s) (compteur s) (compteur2 s).
Definition set_sizeval n s := Mk_est (heap s) (chemins s) (les_moniteurs s) (taille s) (thrd s) (overhead s) n (compteur s) (compteur2 s).
Definition set_compteurs n m s := Mk_est (heap s) (chemins s) (les_moniteurs s) (taille s) (thrd s) (overhead s) (sizeval s) n m.

(** remplir_topologie sets every entry of the matrix to this. *)
Definition chemin_vide : un_chemin := Mk_un_chemin [] None None None [] None 0.
Definition chemin_at (s : est) (i j : Z) : un_chemin := default chemin_vide (chemins s !! (i, j)).
Definition put_chemin (i j : Z) (c : un_chemin) (s : est) : est := set_chemins (<[(i, j) := c]> (chemins s)) s.

(** ** Access to nodes *)

Definition get_flow (h : gmap positive f_list) (l : positive) : outcome f_list :=
  match h !! l with Some f => Ret f | None => Undef UseAfterFree end.
Definition deref (h : gmap positive f_list) (p : option positive) : outcome (positive * f_list) :=
  match p with
  | None => Undef NullDeref
  | Some l => let! f := get_flow h l in Ret (l, f)
  end.

(** ** The lists of flows *)

(** [threshold] is the int that flowd is given; it is compared as an unsigned
    64-bit number. *)
Definition Add_flow (threshold : Z) (ff : flot_node) (s : est) : outcome est :=
  let as1 := swrap32 (src_as ff - 1) in
  let as2 := swrap32 (dst_as ff - 1) in
  if (as1 <? 0) || (NOMBRE_AS <=? as1) || (as2 <? 0) || (NOMBRE_AS <=? as2) then Ret s
  else
    let l := fresh (dom (heap s)) in
    let s := set_heap (<[l := Mk_f_list ff false None]> (heap s)) s in
    let c := chemin_at s as1 as2 in
    let! (s, first) :=
      match AddFlow c with
      | Some a =>
          let! f := get_flow (heap s) a in
          Ret (set_heap (<[a := set_next (Some l) f]> (heap s)) s, flow_list c)
      | None => Ret (set_thrd true s, Some l)
      end in
    let s := put_chemin as1 as2 (set_queue first (Some l) (PicFlow_End c) (wrap64 (ch_taille c + 1)) c) s in
    let s := set_taille (wrap64 (taille s + 1)) s in
    Ret (if wrap64 threshold <=? taille s then set_overhead true s else s).

(** The loop of liberer over the nodes in front of [e]; it ends at [pCourant]. *)
Fixpoint liberer_loop (fuel : nat) (i j : Z) (e pCourant : positive) (s : est) : outcome (positive * est) :=
  match fuel with
  | O => Diverges
  | S fuel =>
      let! f := get_flow (heap s) pCourant in
      match next f with
      | Some n =>
          if decide (pCourant = e) then Ret (pCourant, s)
          else
            let c := chemin_at s i j in
            let s := set_heap (delete pCourant (heap s)) s in
            let s := put_chemin i j (set_queue (Some n) (AddFlow c) (PicFlow_End c) (wrap64 (ch_taille c - 1)) c) s in
            let s := set_taille (wrap64 (taille s - 1)) s in
            liberer_loop fuel i j e n s
      | None => Ret (pCourant, s)
      end
  end.

Definition liberer (i j : Z) (s : est) : outcome est :=
  let c := chemin_at s i j in
  match flow_list c, PicFlow_End c with
  | Some p, Some e =>
      let! (p, s) := liberer_loop (size (heap s)) i j e p s in
      let c := chemin_at s i j in
      let! f := get_flow (heap s) e in
      let c := match next f with
               | Some n => set_queue (Some n) (AddFlow c) (PicFlow_End c) (ch_taille c) c
               | None => set_queue None None None (ch_taille c) c
               end in
      let! _ := get_flow (heap s) p in
      let s := set_heap (delete p (heap s)) s in
      let s := put_chemin i j (set_queue (flow_list c) (AddFlow c) (PicFlow_End c) (wrap64 (ch_taille c - 1)) c) s in
      Ret (set_taille (wrap64 (taille s - 1)) s)
  | _, _ => Ret s
  end.

(** The pairs in the order of the loops over the matrix. *)
Definition range : list Z := Z.of_nat <$> seq 0 (Z.to_nat NOMBRE_AS).
Definition pairs : list (Z * Z) := i ← range; j ← range; [(i, j)].

Definition liberer_flow (s : est) : outcome est := ofold (fun s '(i, j) => liberer i j s) s pairs.

(** ** The monitors *)

(** The search of samling_rate and Add_observation, which nothing bounds. *)
Fixpoint find_moniteur (l : list un_moniteur) (a : bytes) : outcome nat :=
  match l with
  | [] => Undef OutOfBounds
  | m :: l => if decide (adresse m = a) then Ret O else let! i := find_moniteur l a in Ret (S i)
  end.

Definition samling_rate (l : list un_moniteur) (a : bytes) : outcome double :=
  let! i := find_moniteur l a in
  match l !! i with Some m => Ret (sampling_rate m) | None => Undef OutOfBounds end.

Definition add_observation (o : monitor_observation) (m : un_moniteur) : un_moniteur :=
  Mk_un_moniteur (sampling_rate m) (adresse m) (les_observations m ++ [o]).

Definition Add_observation (flow : flot_node) (n_packets : Z) (alfa : double) (rapports : Z) (l : list un_moniteur)
    : outcome (list un_moniteur) :=
  let! i := find_moniteur l (agent_addr flow) in
  Ret (alter (add_observation (Mk_monitor_observation false flow n_packets alfa rapports)) i l).

Definition liberer_moniteurs (s : est) : est :=
  set_moniteurs ((fun m => Mk_un_moniteur (sampling_rate m) (adresse m) []) <$> les_moniteurs s) s.

(** ** The estimate of a flow *)

Definition un : double := of_int 1.

(** The entry for the report [l] of a flow. *)
Definition Add_calcul (l : positive) (f : f_list) (ms : list un_moniteur) : outcome calcul_list :=
  let! p := samling_rate ms (agent_addr (node f)) in
  let! octet := to_u64 (ddiv (of_int (flow_octets (node f))) p) in
  let! packet := to_u64 (ddiv (of_int (flow_packets (node f))) p) in
  let varianc := ddiv (dmul (of_int packet) (dsub un p)) p in
  Ret (Mk_calcul_list octet packet varianc p l).

Section estimation.
(** The array tmp of the control client; what the socket gives to the path request
    for a pair, and to the request of a rate, which are counted. *)
Context (junk : bytes) (path_socket : Z -> Z -> peer_socket) (control_socket : nat -> peer_socket).

(** The path of a pair, which the server is asked for the first time. *)
Definition get_chemin (as1 as2 : Z) (c : un_chemin) : outcome (list bytes) :=
  match chemin c with
  | [] =>
      let! (_, _, received_path) := SendPathRequestPacket junk (path_socket as1 as2) as1 as2
                                      (replicate (Z.to_nat (NOMBRE_AS * 16)) 0) in
      let! pathh := Add_path received_path in
      ofold (fun acc a => let! s := cstr a in Ret (acc ++ [s])) [] pathh
  | p => Ret p
  end.

(** The sum of p / (1 - p) over the monitors of the path; an interface that is not in
    the table is only reported. *)
Definition alpha_of (ms : list un_moniteur) (path : list bytes) : double :=
  fold_left (fun alpha interface =>
    match find_moniteur ms interface with
    | Ret i => match ms !! i with
               | Some m => dadd alpha (ddiv (sampling_rate m) (dsub un (sampling_rate m)))
               | None => alpha
               end
    | _ => alpha
    end) path (of_int 0).

(** The weighted number of packets, and the number of reports. *)
Definition packet_of (calcul : list calcul_list) : double * Z :=
  fold_left (fun '(packet, nRapport) cl =>
    (dadd packet (dmul (of_int (estimated_packetNumber cl)) (ddiv (sRate cl) (dsub un (sRate cl)))), nRapport + 1))
    calcul (of_int 0, 0).

Definition Add_result (calcul : list calcul_list) (s : est) : outcome est :=
  match calcul with
  | [] => Undef NullDeref
  | cl :: _ =>
      let! f := get_flow (heap s) (flow cl) in
      let as1 := swrap32 (src_as (node f)) in
      let as2 := swrap32 (dst_as (node f)) in
      if (as1 <? 1) || (NOMBRE_AS <? as1) || (as2 <? 1) || (NOMBRE_AS <? as2) then Ret s
      else
        let c := chemin_at s (as1 - 1) (as2 - 1) in
        let! path := get_chemin as1 as2 c in
        let s := put_chemin (as1 - 1) (as2 - 1) (set_chemin path c) s in
        let alpha := alpha_of (les_moniteurs s) path in
        let '(packet, nRapport) := packet_of calcul in
        let! gPacket := to_u64 (ddiv packet alpha) in
        let varianc := ddiv packet (dmul alpha alpha) in
        let! ms := ofold (fun ms cl => let! f := get_flow (heap s) (flow cl) in
                                       Add_observation (node f) gPacket alpha 1 ms) (les_moniteurs s) calcul in
        let s := set_moniteurs ms s in
        let c := chemin_at s (as1 - 1) (as2 - 1) in
        Ret (put_chemin (as1 - 1) (as2 - 1)
               (set_results (result c ++ [Mk_result_list nRapport alpha gPacket varianc]) (resultat c) c) s)
  end.

(** ** Grouping *)

Definition same_flow (f g : flot_node) : bool :=
  bool_decide (src_addr g = src_addr f /\ dst_addr g = dst_addr f /\ src_port g = src_port f /\
               dst_port g = dst_port f /\ protocol g = protocol f).

(** The inner loop: the reports behind [pCourant2] up to [e] of the flow of [f]. *)
Fixpoint group_loop (fuel : nat) (e : positive) (f : flot_node) (pCourant2 : positive) (calcul : list calcul_list) (s : est)
    : outcome (list calcul_list * est) :=
  match fuel with
  | O => Diverges
  | S fuel =>
      let! f2 := get_flow (heap s) pCourant2 in
      let! (pCourant2, f2) := deref (heap s) (next f2) in
      let! (calcul, s) :=
        if same_flow f (node f2) then
          let s := set_heap (<[pCourant2 := set_used true f2]> (heap s)) s in
          let! cl := Add_calcul pCourant2 f2 (les_moniteurs s) in
          Ret (calcul ++ [cl], s)
        else Ret (calcul, s) in
      if bool_decide (pCourant2 <> e) && bool_decide (is_Some (next f2)) then group_loop fuel e f pCourant2 calcul s
      else Ret (calcul, s)
  end.

(** One turn of the outer loop. *)
Definition group_one (e pCourant : positive) (s : est) : outcome est :=
  let! f := get_flow (heap s) pCourant in
  let! s :=
    if used f then Ret s
    else
      let! cl := Add_calcul pCourant f (les_moniteurs s) in
      if bool_decide (is_Some (next f)) && bool_decide (pCourant <> e) then
        let! (calcul, s) := group_loop (size (heap s)) e (node f) pCourant [cl] s in
        Add_result calcul s
      else Ret s in
  let! f := get_flow (heap s) pCourant in
  Ret (set_heap (<[pCourant := set_used true f]> (heap s)) s).

(** The outer loop, with the number [ab] of reports. *)
Fixpoint estimate_loop (fuel : nat) (e pCourant : positive) (ab : Z) (s : est) : outcome (Z * est) :=
  match fuel with
  | O => Diverges
  | S fuel =>
      let! s := group_one e pCourant s in
      if decide (pCourant = e) then Ret (ab + 1, s)
      else
        let! f := get_flow (heap s) pCourant in
        match next f with
        | None => Undef NullDeref
        | Some n => estimate_loop fuel e n (ab + 1) s
        end
  end.

Definition estimate_pair (i j : Z) (ab : Z) (s : est) : outcome (Z * est) :=
  let c := chemin_at s i j in
  match PicFlow_End c with
  | None => Ret (ab, s)
  | Some e =>
      let! (p, _) := deref (heap s) (flow_list c) in
      estimate_loop (size (heap s)) e p ab s
  end.

(** PicFlow_End = AddFlow for every pair, and sizeval = taille. *)
Definition snapshot (s : est) : est :=
  set_sizeval (taille s)
    (fold_left (fun s '(i, j) => let c := chemin_at s i j in put_chemin i j (set_PicFlow_End (AddFlow c) c) s) pairs s).

(** ** The results *)

Definition output_pair (c : un_chemin) : theResult :=
  let '(acc, ir, odRapportNumber, som) :=
    fold_left (fun '(acc, ir, od, som) aa =>
      (dadd acc (flowVariance aa), ir + 1, od + rapportNumber aa, wrap64 (som + packetNumber aa)))
      (result c) (of_int 0, 0, 0, 0) in
  let normaliser := if som =? 0 then of_int 0 else ddiv acc (of_int (wrap64 (som * som))) in
  Mk_theResult ir som acc normaliser odRapportNumber.

Definition add_theResult (g r : theResult) : theResult :=
  Mk_theResult (measuredFlowNumber g + measuredFlowNumber r)
    (wrap64 (estimatedPacketNumber g + estimatedPacketNumber r)) (dadd (accuracy g) (accuracy r))
    (dadd (relatifError g) (relatifError r)) (nombre_rapport g + nombre_rapport r).

(** The sums over all pairs; the result of a pair is left in its entry. *)
Definition output (s : est) : theResult * est :=
  fold_left (fun '(g, s) '(i, j) =>
    let c := chemin_at s i j in
    let r := output_pair c in
    (add_theResult g r, put_chemin i j (set_results (result c) (Some r) c) s))
    pairs (Mk_theResult 0 0 (of_int 0) (of_int 0) 0, s).

Definition liberer_result (s : est) : est :=
  fold_left (fun s '(i, j) => put_chemin i j (set_results [] None (chemin_at s i j)) s) pairs s.

Definition interfaceOutput (m : un_moniteur) : perInterfaceResult :=
  fold_left (fun r mo => Mk_perInterfaceResult (measuredFlows r + 1) (exportedRapports r + rapportNumber_f mo))
    (les_observations m) (Mk_perInterfaceResult 0 0).

(** ** New sampling rates *)

Definition minSR : double := decimal 5 10000.
Definition maxSR : double := decimal 999 1000.

Definition step (threshold sizeval lcompteur : Z) : double :=
  let ovh := ddiv (of_int sizeval) (of_int lcompteur) in
  let interm := dadd un (dmul (of_int 2) (fabs (ddiv (dsub (of_int threshold) ovh) (of_int threshold)))) in
  if dlt interm (of_int 3) then interm else of_int 3.

(** The request of the rate [taux] for the [k]-th monitor. *)
Definition control (k : nat) (taux : double) (m : un_moniteur) : outcome (un_moniteur * option bytes) :=
  let! p11 := to_int (dmul taux (of_int 10000)) in
  let! (_, sent) := SendControlPacket junk (control_socket k) p11 10000 (adresse m ++ [0]) in
  Ret (Mk_un_moniteur taux (adresse m) (les_observations m), sent).

(** Every rate is raised. *)
Fixpoint raise_rates (stepp : double) (k : nat) (l : list un_moniteur) : outcome (list un_moniteur * list (option bytes)) :=
  match l with
  | [] => Ret ([], [])
  | m :: l =>
      let taux := if dlt (ddiv maxSR stepp) (sampling_rate m) then maxSR else dmul (sampling_rate m) stepp in
      let! (m, sent) := control k taux m in
      let! (l, rest) := raise_rates stepp (S k) l in
      Ret (m :: l, sent :: rest)
  end.

Definition same_pair (ligne colonne : Z) (mo : monitor_observation) : bool :=
  bool_decide (src_as (mo_flow mo) = wrap32 ligne /\ dst_as (mo_flow mo) = wrap32 colonne).
Definition use (b : bool) (mo : monitor_observation) : monitor_observation :=
  Mk_monitor_observation (b || mo_used mo) (mo_flow mo) (s_f mo) (alpha_f mo) (rapportNumber_f mo).

(** The loop over the observations of a monitor with rate [pj], [n] of them; the sum
    of a pair is made at its first observation. *)
Fixpoint observe (n : nat) (cs : gmap (Z * Z) un_chemin) (pj : double) (obs : list monitor_observation) (valsji : double)
    : outcome (list monitor_observation * double) :=
  match n, obs with
  | S n, mo :: rest =>
      if mo_used mo then
        let! (rest, valsji) := observe n cs pj rest valsji in Ret (mo :: rest, valsji)
      else
        let ligne := swrap32 (src_as (mo_flow mo)) in
        let colonne := swrap32 (dst_as (mo_flow mo)) in
        let somm := fold_left (fun somm mo2 =>
          if same_pair ligne colonne mo2
          then dadd somm (ddiv (of_int (s_f mo2)) (dmul (alpha_f mo2) (alpha_f mo2))) else somm) obs (of_int 0) in
        match resultat (default chemin_vide (cs !! (ligne - 1, colonne - 1))) with
        | None => Undef NullDeref
        | Some r =>
            let val := ddiv pj (dmul (dsub un pj) (dsub un pj)) in
            let n2 := estimatedPacketNumber r in
            let valsji := dmul val (ddiv somm (of_int (wrap64 (n2 * n2)))) in
            let! (rest, valsji) := observe n cs pj ((fun m => use (same_pair ligne colonne m) m) <$> rest) valsji in
            Ret (use true mo :: rest, valsji)
        end
  | _, _ => Ret ([], valsji)
  end.

(** les_deltaVar, an automatic array that held [delta] at first; [valsji] is that of
    the monitor before when a monitor has no unused observation. *)
Fixpoint delta_vars (delta : nat -> double) (cs : gmap (Z * Z) un_chemin) (k : nat) (l : list un_moniteur) (valsji : double)
    : outcome (list (un_moniteur * double)) :=
  match l with
  | [] => Ret []
  | m :: l =>
      let! (obs, d, valsji) :=
        match les_observations m with
        | [] => Ret ([], of_int 0, valsji)
        | obs =>
            let! (obs, valsji) := observe (length obs) cs (sampling_rate m) obs valsji in
            Ret (obs, dadd (delta k) valsji, valsji)
        end in
      let! rest := delta_vars delta cs (S k) l valsji in
      Ret ((Mk_un_moniteur (sampling_rate m) (adresse m) obs, d) :: rest)
  end.

(** The rates of the monitors below the mean are lowered. *)
Fixpoint lower_rates (stepp_des moyenne : double) (k : nat) (l : list (un_moniteur * double))
    : outcome (list un_moniteur * list (option bytes)) :=
  match l with
  | [] => Ret ([], [])
  | (m, d) :: l =>
      let! (m, sent) :=
        if dlt d moyenne then
          let taux := if dlt (sampling_rate m) (dmul stepp_des minSR) then minSR
                      else ddiv (sampling_rate m) stepp_des in
          let! (m, sent) := control k taux m in Ret (m, [sent])
        else Ret (m, []) in
      let! (l, rest) := lower_rates stepp_des moyenne (S k) l in
      Ret (m :: l, sent ++ rest)
  end.

Definition reconfigurer (delta : nat -> double) (threshold : Z) (loverhead : bool) (lcompteur : Z) (s : est)
    : outcome (est * list (option bytes)) :=
  let stepp := step threshold (sizeval s) lcompteur in
  let! (l, sent) :=
    if loverhead then
      let! ds := delta_vars delta (chemins s) 0 (les_moniteurs s) (of_int 0) in
      let laSomme := fold_left (fun a md => dadd a md.2) ds (of_int 0) in
      lower_rates stepp (ddiv laSomme (of_int NOMBRE_MONITEURS)) 0 ds
    else raise_rates stepp 0 (les_moniteurs s) in
  Ret (set_moniteurs l s, sent).

(** ** A round of the thread *)

(** What a round writes to its files, and the requests it sends. *)
Record report := Mk_report {
  rp_ab : Z;
  rp_sizeval : Z;
  rp_debit : Z;
  rp_result : theResult;
  rp_interfaces : list perInterfaceResult;
  rp_pairs : list (option theResult);
  rp_sent : list (option bytes)
}.

(** The thread between taking and freeing the flows. *)
Definition estimate (s : est) : outcome (Z * est) :=
  ofold (fun '(ab, s) '(i, j) => estimate_pair i j ab s) (0, s) pairs.

(** The part behind the estimates. *)
Definition publish (delta : nat -> double) (threshold : Z) (loverhead : bool) (lcompteur ab : Z) (s : est)
    : outcome (report * est) :=
  let '(the_result, s) := output s in
  let! (s, sent) := reconfigurer delta threshold loverhead lcompteur s in
  if lcompteur =? 0 then Undef DivByZero
  else
    Ret (Mk_report ab (sizeval s) (sizeval s / wrap64 lcompteur) the_result (interfaceOutput <$> les_moniteurs s)
           ((fun '(i, j) => resultat (chemin_at s i j)) <$> pairs) sent, liberer_result s).

Definition round_end (s : est) : est := set_compteurs 0 (compteur2 s) s.

Definition estimation_round (delta : nat -> double) (threshold : Z) (s : est) : outcome (option report * est) :=
  if (60 <=? compteur s) || overhead s then
    let local_overhead := overhead s in
    let local_compteur := compteur s in
    let s := snapshot s in
    let! (ab, s) := estimate s in
    if negb (sizeval s =? 0) then
      let! (r, s) := publish delta threshold local_overhead local_compteur ab s in
      let! s := liberer_flow s in
      let s := set_sizeval 0 (set_overhead false (liberer_moniteurs s)) in
      Ret (Some r, round_end s)
    else Ret (None, round_end s)
  else Ret (None, s).
End estimation.

(** fcompteur, once a second. *)
Definition tick (s : est) : est := set_compteurs (swrap32 (compteur s + 1)) (swrap32 (compteur2 s + 1)) s.

(** ** Start *)

Definition conf_init : double := decimalf 5 1000.

Definition interfaces : list string :=
  ["10.0.0.127"; "10.0.0.169"; "10.0.1.1"; "10.0.0.138"; "10.0.0.126"; "10.0.0.182"; "10.0.0.90"; "10.0.0.69";
   "10.0.0.170"; "10.0.2.1"; "10.0.0.166"; "10.0.0.137"; "10.0.3.1"; "10.0.0.102"; "10.0.0.22"; "10.0.0.117";
   "10.0.0.181"; "10.0.4.1"; "10.0.0.25"; "10.0.0.17"; "10.0.0.21"; "10.0.5.1"; "10.0.0.89"; "10.0.0.18";
   "10.0.0.85"; "10.0.0.50"; "10.0.0.10"; "10.0.0.30"; "10.0.6.1"; "10.0.0.29"; "10.0.0.33"; "10.0.0.2";
   "10.0.7.1"; "10.0.0.70"; "10.0.0.78"; "10.0.8.1"; "10.0.0.26"; "10.0.0.86"; "10.0.9.1"; "10.0.0.185";
   "10.0.0.77"; "10.0.0.9"; "10.0.10.1"; "10.0.0.101"; "10.0.0.165"; "10.0.0.38"; "10.0.0.129"; "10.0.0.49";
   "10.0.11.1"; "10.0.0.113"; "10.0.0.66"; "10.0.0.125"; "10.0.12.1"; "10.0.0.65"; "10.0.0.58"; "10.0.0.82";
   "10.0.0.61"; "10.0.0.130"; "10.0.13.1"; "10.0.0.186"; "10.0.0.62"; "10.0.0.154"; "10.0.0.142"; "10.0.0.34";
   "10.0.14.1"; "10.0.0.177"; "10.0.0.13"; "10.0.0.110"; "10.0.0.1"; "10.0.0.57"; "10.0.15.1"; "10.0.0.46";
   "10.0.0.114"; "10.0.16.1"; "10.0.0.45"; "10.0.0.37"; "10.0.0.41"; "10.0.17.1"; "10.0.0.42"; "10.0.0.106";
   "10.0.18.1"; "10.0.0.105"; "10.0.0.146"; "10.0.0.178"; "10.0.19.1"; "10.0.0.145"; "10.0.0.73"; "10.0.20.1";
   "10.0.0.74"; "10.0.0.14"; "10.0.21.1"; "10.0.0.141"; "10.0.0.81"; "10.0.22.1"; "10.0.0.153"; "10.0.0.118";
   "10.0.23.1"]%string.

Definition remplir_les_moniteurs : list un_moniteur :=
  (fun a => Mk_un_moniteur conf_init (text_of a) []) <$> interfaces.

(** remplir_topologie and remplir_les_moniteurs. *)
Definition est_init : est := Mk_est ∅ ∅ remplir_les_moniteurs 0 false false 0 0 0.
