(* ===== verification/EstimationProps.v ===== *)
(** * Traffic estimation: the lists of flows and the grouping of reports

    A list of flows is a chain of nodes of the heap.  The grouping by pointers is that
    of a partition of the reports into flows, in the order of their first report.  The estimates of a pair of networks are stated
    from the reports alone ([estimated_flows], [flow_estimate], [estimates]). *)

From Stdlib Require Import SpecFloat.
From stdpp Require Import gmap.
From S2P Require Import Prelude CString Client Estimation.

Abbreviation queue := (list (positive * flot_node)).

(** ** Chains *)

Definition first_loc (q : queue) : option positive := fst <$> head q.
Definition last_loc (q : queue) : option positive := fst <$> last q.

Fixpoint chain (h : gmap positive f_list) (q : queue) : Prop :=
  match q with
  | [] => True
  | (l, nd) :: q => (exists u, h !! l = Some (Mk_f_list nd u (first_loc q))) /\ chain h q
  end.

Definition mark (l : positive) (h : gmap positive f_list) : gmap positive f_list := alter (set_used true) l h.

Lemma chain_lookup h q i l nd :
  chain h q -> q !! i = Some (l, nd) -> exists u, h !! l = Some (Mk_f_list nd u (first_loc (drop (S i) q))).
Proof.
  revert i. induction q as [|[k m] q IH]; intros i Hc Hi; [done|]. destruct Hc as [Hk Hc].
  destruct i as [|i]; [injection Hi as <- <-; done|]. by apply IH.
Qed.

(** Changes of the flags, and of other nodes, keep a chain. *)
Lemma chain_frame h h' q :
  (forall l f, l ∈ q.*1 -> h !! l = Some f -> exists u, h' !! l = Some (set_used u f)) -> chain h q -> chain h' q.
Proof.
  induction q as [|[l nd] q IH]; intros Hf Hc; [done|]. destruct Hc as [[u Hu] Hc]. split.
  - destruct (Hf l _ ltac:(by left) Hu) as [v ->]. by exists v.
  - apply IH; [|done]. intros k f Hk. apply Hf. by right.
Qed.

Lemma chain_mark h l q : chain h q -> chain (mark l h) q.
Proof.
  apply chain_frame. intros k f _ Hk. unfold mark. destruct (decide (l = k)) as [->|].
  - rewrite lookup_alter_eq, Hk. by eexists.
  - rewrite lookup_alter_ne by done. exists (used f). by destruct f.
Qed.

Lemma chain_app h p q : chain h (p ++ q) -> chain h q.
Proof. induction p as [|[l nd] p IH]; [done|]. intros [_ Hc]. by apply IH. Qed.

Lemma first_loc_app p q : first_loc (p ++ q) = match p with [] => first_loc q | x :: _ => Some x.1 end.
Proof. by destruct p as [|[]]. Qed.

Lemma last_loc_app p q : q <> [] -> last_loc (p ++ q) = last_loc q.
Proof.
  intros Hq. unfold last_loc. destruct q as [|x q _] using rev_ind; [done|].
  by rewrite app_assoc, !last_snoc.
Qed.

Lemma last_loc_in q e : last_loc q = Some e -> e ∈ q.*1.
Proof.
  unfold last_loc. intros ([k m] & Hk & ->)%fmap_Some. apply last_Some in Hk as [q' ->].
  rewrite fmap_app. apply elem_of_app. right. by left.
Qed.

Lemma mark_used h l f : h !! l = Some f -> <[l := set_used true f]> h = mark l h.
Proof.
  intros Hl. unfold mark. apply map_eq. intros k. destruct (decide (k = l)) as [->|].
  - by rewrite lookup_insert_eq, lookup_alter_eq, Hl.
  - by rewrite lookup_insert_ne, lookup_alter_ne.
Qed.

Lemma mark_id h l f : h !! l = Some f -> used f = true -> mark l h = h.
Proof.
  intros Hl Hu. rewrite <- (mark_used h l f) by done. apply insert_id. rewrite Hl. destruct f; cbn in *. by subst.
Qed.

(** ** Reports of the same flow *)

Lemma same_flow_refl f : same_flow f f = true.
Proof. by apply bool_decide_eq_true. Qed.
Lemma same_flow_sym f g : same_flow f g = same_flow g f.
Proof. unfold same_flow. apply bool_decide_ext. split; intros (?&?&?&?&?); by split_and!. Qed.
Lemma same_flow_trans f g k : same_flow f g = true -> same_flow g k = same_flow f k.
Proof.
  unfold same_flow. intros (E1&E2&E3&E4&E5)%bool_decide_eq_true. apply bool_decide_ext.
  rewrite E1, E2, E3, E4, E5. done.
Qed.

(** The reports of a list by flow, in the order of the first report of each. *)
Fixpoint groups (n : nat) (q : queue) : list queue :=
  match n, q with
  | S n, r :: q =>
      (r :: filter (fun x => same_flow r.2 x.2) q) :: groups n (filter (fun x => ~ same_flow r.2 x.2) q)
  | _, _ => []
  end.

Lemma groups_fuel n : forall m q, (length q <= n)%nat -> (length q <= m)%nat -> groups n q = groups m q.
Proof.
  induction n as [|n IH]; intros m q Hn Hm; [destruct q; [by destruct m|simpl in Hn; lia]|].
  destruct q as [|r q]; [by destruct m|].
  destruct m as [|m]; [simpl in Hm; lia|]. cbn [groups]. f_equal. simpl in *.
  pose proof (length_filter (fun x : positive * flot_node => ~ same_flow r.2 x.2) q). apply IH; lia.
Qed.

(** A chain has no more nodes than the heap. *)
Lemma chain_size h q : chain h q -> NoDup q.*1 -> (length q <= size h)%nat.
Proof.
  intros Hc Hnd. rewrite <- (length_fmap fst q), <- (size_list_to_set (C := gset positive) q.*1) by done.
  rewrite <- size_dom. apply subseteq_size. intros l Hl.
  apply elem_of_list_to_set, list_elem_of_fmap in Hl as ([k nd] & -> & Hin).
  apply list_elem_of_lookup in Hin as [i Hi]. destruct (chain_lookup h q i k nd Hc Hi) as [u Hu].
  apply elem_of_dom. by eexists.
Qed.

(** ** Marked reports *)

Definition marks (ls : list positive) (h : gmap positive f_list) : gmap positive f_list := foldl (fun h l => mark l h) h ls.

Lemma chain_marks ls h q : chain h q -> chain (marks ls h) q.
Proof. revert h. induction ls as [|l ls IH]; intros h Hc; [done|]. by apply IH, chain_mark. Qed.

Definition used_at (h : gmap positive f_list) (l : positive) : bool := from_option used false (h !! l).

Lemma used_mark h l k : is_Some (h !! l) -> used_at (mark l h) k = bool_decide (k = l) || used_at h k.
Proof.
  intros [f Hf]. unfold used_at, mark. destruct (decide (k = l)) as [->|].
  - by rewrite lookup_alter_eq, Hf, bool_decide_true.
  - by rewrite lookup_alter_ne, bool_decide_false.
Qed.

Lemma mark_is_Some h l k : is_Some (mark l h !! k) <-> is_Some (h !! k).
Proof.
  unfold mark. destruct (decide (k = l)) as [->|]; [|by rewrite lookup_alter_ne].
  rewrite lookup_alter_eq. by destruct (h !! l).
Qed.

Lemma used_marks ls h k : Forall (fun l => is_Some (h !! l)) ls -> used_at (marks ls h) k = bool_decide (k ∈ ls) || used_at h k.
Proof.
  revert h. induction ls as [|l ls IH]; intros h Hl; [by rewrite bool_decide_false by apply not_elem_of_nil|].
  apply Forall_cons in Hl as [Hl Hls]. cbn [marks foldl]. fold (marks ls (mark l h)). rewrite IH, used_mark; [|done|].
  - rewrite orb_assoc. f_equal. destruct (decide (k = l)) as [->|].
    + by rewrite (bool_decide_true (l = l)), (bool_decide_true (l ∈ l :: ls)), orb_true_r by (done || by left).
    + rewrite (bool_decide_false (k = l)), orb_false_r by done. apply bool_decide_ext. rewrite elem_of_cons. tauto.
  - eapply Forall_impl; [exact Hls|]. intros j Hj. by apply mark_is_Some.
Qed.

Lemma marks_is_Some ls h k : is_Some (marks ls h !! k) <-> is_Some (h !! k).
Proof.
  revert h. induction ls as [|l ls IH]; intros h; [done|]. cbn [marks foldl]. fold (marks ls (mark l h)).
  by rewrite IH, mark_is_Some.
Qed.

Lemma loc_inj (q : queue) x y : NoDup q.*1 -> x ∈ q -> y ∈ q -> x.1 = y.1 -> x = y.
Proof.
  intros Hnd [i Hi]%list_elem_of_lookup [j Hj]%list_elem_of_lookup E.
  assert (i = j) as ->; [|congruence].
  apply (NoDup_lookup q.*1 i j x.1); [done|..]; rewrite list_lookup_fmap; [by rewrite Hi|rewrite Hj; cbn; by f_equal].
Qed.

(** The reports of a list that no flow has taken yet. *)
Definition unused (h : gmap positive f_list) (q : queue) : queue := filter (fun x => ~ used_at h x.1) q.

(** Reports of the same flow are taken together. *)
Definition closed (h : gmap positive f_list) (q : queue) : Prop :=
  forall x y, x ∈ q -> y ∈ q -> same_flow x.2 y.2 = true -> used_at h x.1 = used_at h y.1.

Lemma filter_in_ext {A} (P Q : A -> Prop) `{!forall x, Decision (P x), !forall x, Decision (Q x)} (l : list A) :
  (forall x, x ∈ l -> P x <-> Q x) -> filter P l = filter Q l.
Proof.
  induction l as [|x l IH]; intros HPQ; [done|]. rewrite !filter_cons.
  rewrite IH by (intros y Hy; apply HPQ; by right). apply decide_ext, HPQ. by left.
Qed.

Lemma filter_same h l nd q :
  closed h ((l, nd) :: q) -> used_at h l = false ->
  filter (fun x => same_flow nd x.2) (unused h q) = filter (fun x => same_flow nd x.2) q.
Proof.
  intros Hc Hu. unfold unused. rewrite list_filter_filter. apply filter_in_ext.
  intros x Hx. split; [tauto|]. intros Hs. split; [done|]. apply Is_true_true in Hs.
  rewrite <- (Hc (l, nd) x); [cbn [fst]; rewrite Hu; tauto|by left|by right|done].
Qed.

(** Taking the flow of an unused report leaves the unused reports of other flows. *)
Lemma unused_after h l nd q :
  closed h ((l, nd) :: q) -> used_at h l = false -> NoDup (l :: q.*1) ->
  Forall (fun k => is_Some (h !! k)) (l :: q.*1) ->
  let h' := mark l (marks (filter (fun x => same_flow nd x.2) q).*1 h) in
  unused h' q = filter (fun x => ~ same_flow nd x.2) (unused h q) /\ closed h' q.
Proof.
  intros Hc Hu Hnd Hall h'. apply Forall_cons in Hall as [Hl Hq]. apply NoDup_cons in Hnd as [Hni Hnd].
  assert (Forall (fun k => is_Some (h !! k)) (filter (fun x => same_flow nd x.2) q).*1) as Hf.
  { apply Forall_forall. intros k (x & -> & Hx)%list_elem_of_fmap. apply list_elem_of_filter in Hx as [_ Hx].
    apply (proj1 (Forall_forall _ _) Hq). by apply list_elem_of_fmap_2. }
  assert (forall x, x ∈ q -> used_at h' x.1 = same_flow nd x.2 || used_at h x.1) as Hused.
  { intros x Hx. subst h'. rewrite used_mark, used_marks by (done || by apply marks_is_Some).
    rewrite bool_decide_false by (intros E; apply Hni; rewrite <- E; by apply list_elem_of_fmap_2). cbn [orb]. f_equal.
    destruct (same_flow nd x.2) eqn:Hs.
    - apply bool_decide_true, list_elem_of_fmap_2, list_elem_of_filter. by rewrite Hs.
    - apply bool_decide_false. intros (y & Ey & Hy)%list_elem_of_fmap. apply list_elem_of_filter in Hy as [Hys Hy].
      rewrite (loc_inj q x y Hnd Hx Hy Ey) in Hs. by rewrite Hs in Hys. }
  split.
  - unfold unused. rewrite list_filter_filter. apply filter_in_ext. intros x Hx. rewrite Hused by done.
    destruct (same_flow nd x.2), (used_at h x.1); cbn; tauto.
  - intros x y Hx Hy Hs. rewrite !Hused by done.
    rewrite (Hc x y) by (done || by right). f_equal.
    rewrite (same_flow_sym nd x.2), (same_flow_sym nd y.2). symmetry. by apply same_flow_trans.
Qed.

Section estimation.
Context (junk : bytes) (path_socket : Z -> Z -> peer_socket).

(** The entries of further reports of a flow, which are marked. *)
Definition add_report (a : list calcul_list * est) (r : positive * flot_node) : outcome (list calcul_list * est) :=
  let s := set_heap (mark r.1 (heap a.2)) a.2 in
  let! cl := Add_calcul r.1 (Mk_f_list r.2 true None) (les_moniteurs s) in
  Ret (a.1 ++ [cl], s).

(** The estimate of a flow from its reports: none when the first is the last of the
    list, [e]. *)
Definition estimate_group (e : positive) (s : est) (g : queue) : outcome est :=
  match g with
  | [] => Ret s
  | (l, nd) :: g =>
      let! cl := Add_calcul l (Mk_f_list nd false None) (les_moniteurs s) in
      let! (calcul, s) := ofold add_report ([cl], s) g in
      let! s := if decide (l = e) then Ret s else Add_result junk path_socket calcul s in
      Ret (set_heap (mark l (heap s)) s)
  end.

Lemma Add_calcul_node l f f' ms : node f = node f' -> Add_calcul l f ms = Add_calcul l f' ms.
Proof. unfold Add_calcul. by intros ->. Qed.

(** The inner loop is a pass over the reports behind. *)
Lemma group_loop_spec e nd0 t A : forall fuel l nd calcul s,
  chain (heap s) ((l, nd) :: t ++ A) -> NoDup (l :: (t ++ A).*1) -> t <> [] -> last_loc t = Some e -> (length t <= fuel)%nat ->
  group_loop fuel e nd0 l calcul s =
    ofold add_report (calcul, s) (filter (fun x => same_flow nd0 x.2) t).
Proof.
  induction t as [|[l2 nd2] t IH]; intros fuel l nd calcul s Hc Hnd Ht He Hf; [done|].
  destruct fuel as [|fuel]; [simpl in Hf; lia|]. destruct Hc as [[u Hl] [[u2 Hl2] Hc]].
  cbn [group_loop]. unfold get_flow at 1. rewrite Hl. cbn [obind next first_loc head app fmap option_fmap option_map fst deref].
  unfold get_flow. rewrite Hl2. cbn [obind node].
  assert (last_loc t = Some e \/ (t = [] /\ l2 = e)) as He'.
  { destruct t as [|x t]; [right; by injection He as ->|left]. by rewrite <- He. }
  assert (bool_decide (l2 <> e) && bool_decide (is_Some (next (Mk_f_list nd2 u2 (first_loc (t ++ A)))))
          = bool_decide (t <> [])) as Hcond.
  { destruct He' as [He'|[-> ->]]; [|rewrite bool_decide_false; [done|by intros []]].
    assert (t <> []) as Hne by by intros ->. destruct t as [|[l3 nd3] t]; [done|].
    rewrite !bool_decide_true; [done|done|by eexists|]. intros ->.
    apply NoDup_cons in Hnd as [_ Hnd]. rewrite <- app_comm_cons, fmap_cons, fmap_app in Hnd.
    apply NoDup_cons in Hnd as [Hni _]. apply Hni.
    apply last_loc_in in He'. apply elem_of_app. by left. }
  assert (NoDup (l2 :: (t ++ A).*1)) as Hnd2 by by apply NoDup_cons in Hnd as [_ Hnd].
  rewrite filter_cons. cbn [snd].
  destruct (same_flow nd0 nd2) eqn:Hs; [rewrite decide_True by done|rewrite decide_False by (cbn; tauto)].
  - cbn [ofold]. unfold add_report at 1. cbn [fst snd]. cbn [les_moniteurs set_heap].
    rewrite (mark_used (heap s) l2 _ Hl2).
    rewrite (Add_calcul_node l2 (Mk_f_list nd2 u2 (first_loc (t ++ A))) (Mk_f_list nd2 true None)) by done.
    destruct (Add_calcul l2 _ _) as [cl| | |]; [|done..]. cbn [obind]. rewrite Hcond.
    destruct t as [|x t]; [done|]. rewrite bool_decide_true by done.
    apply (IH fuel l2 nd2); [| |done|by destruct He' as [|[]]|simpl in *; lia].
    + apply chain_mark. split; [by eexists|done].
    + done.
  - cbn [obind]. rewrite Hcond. destruct t as [|x t]; [done|]. rewrite bool_decide_true by done.
    apply (IH fuel l2 nd2); [|done|done|by destruct He' as [|[]]|simpl in *; lia]. split; [by eexists|done].
Qed.

(** ** What the estimate of a flow leaves as it is *)

Definition queue_of (c : un_chemin) := (flow_list c, AddFlow c, PicFlow_End c, ch_taille c).

(** The lists are the same, but for the nodes of the heap. *)
Record same_queues (s s' : est) : Prop := {
  sq_taille : taille s' = taille s;
  sq_sizeval : sizeval s' = sizeval s;
  sq_queue : forall i j, queue_of (chemin_at s' i j) = queue_of (chemin_at s i j)
}.

#[export] Instance same_queues_refl : PreOrder same_queues.
Proof.
  split; [by constructor|]. intros s1 s2 s3 [A1 A2 A3] [B1 B2 B3]. constructor; [congruence..|].
  intros i j. by rewrite B3, A3.
Qed.

Lemma chemin_at_put i j c s k l : chemin_at (put_chemin i j c s) k l = if decide ((i, j) = (k, l)) then c else chemin_at s k l.
Proof.
  unfold chemin_at, put_chemin. cbn [chemins set_chemins]. case_decide as E.
  - injection E as <- <-. by rewrite lookup_insert_eq.
  - by rewrite lookup_insert_ne.
Qed.

Lemma put_chemin_queues i j c s : queue_of c = queue_of (chemin_at s i j) -> same_queues s (put_chemin i j c s).
Proof.
  intros Hc. constructor; [done..|]. intros k l. rewrite chemin_at_put. case_decide as E; [|done].
  by injection E as <- <-.
Qed.

Lemma Add_result_queues calcul s s' :
  Add_result junk path_socket calcul s = Ret s' -> heap s' = heap s /\ same_queues s s'.
Proof.
  unfold Add_result. destruct calcul as [|cl calcul]; [done|].
  destruct (get_flow (heap s) (flow cl)) as [f| | |]; [|done..]. cbn [obind].
  case_match; [by intros [= <-]|].
  destruct (get_chemin _ _ _ _ _) as [path| | |]; [|done..]. cbn [obind].
  destruct (packet_of _) as [packet n].
  destruct (to_u64 _) as [g| | |]; [|done..]. cbn [obind].
  destruct (ofold _ _ _) as [ms| | |]; [|done..]. cbn [obind]. intros [= <-]. split; [done|].
  set (s1 := put_chemin _ _ (set_chemin path _) s). transitivity s1; [by apply put_chemin_queues|].
  transitivity (set_moniteurs ms s1); [by constructor|]. by apply put_chemin_queues.
Qed.

Lemma add_reports_heap g : forall calcul s cs s',
  ofold add_report (calcul, s) g = Ret (cs, s') -> s' = set_heap (marks g.*1 (heap s)) s.
Proof.
  induction g as [|[l nd] g IH]; intros calcul s cs s' E; [injection E as _ <-; by destruct s|].
  cbn [ofold] in E. unfold add_report at 1 in E. destruct (Add_calcul _ _ _) as [cl| | |]; [|done..].
  cbn [obind fst snd] in E. apply IH in E. exact E.
Qed.

Lemma estimate_group_queues e l nd g s s' :
  estimate_group e s ((l, nd) :: g) = Ret s' -> heap s' = mark l (marks g.*1 (heap s)) /\ same_queues s s'.
Proof.
  unfold estimate_group. destruct (Add_calcul _ _ _) as [cl| | |]; [|done..]. cbn [obind].
  destruct (ofold _ _ _) as [[cs s1]| | |] eqn:E; [|done..]. cbn [obind]. apply add_reports_heap in E as ->.
  case_decide; cbn [obind].
  - intros [= <-]. split; [done|]. by constructor.
  - destruct (Add_result _ _ _ _) as [s2| | |] eqn:E2; [|done..]. cbn [obind].
    apply Add_result_queues in E2 as [Hh Hq]. intros [= <-]. split; [cbn; by rewrite Hh|].
    transitivity s2; [|by constructor]. etrans; [|exact Hq]. by constructor.
Qed.

(** ** The grouping by pointers *)

Lemma first_last t A l e : t <> [] -> NoDup (l :: (t ++ A).*1) -> last_loc t = Some e -> l <> e.
Proof.
  intros Ht Hnd He ->. apply NoDup_cons in Hnd as [Hni _]. apply Hni. rewrite fmap_app. apply elem_of_app. left.
  by apply last_loc_in.
Qed.

(** A turn of the outer loop at a report that no flow has taken: its group. *)
Lemma group_one_unused e l nd t A s :
  chain (heap s) ((l, nd) :: t ++ A) -> NoDup (l :: (t ++ A).*1) -> last_loc ((l, nd) :: t) = Some e ->
  used_at (heap s) l = false ->
  group_one junk path_socket e l s = estimate_group e s ((l, nd) :: filter (fun x => same_flow nd x.2) t).
Proof.
  intros Hc Hnd He Hu. pose proof (chain_size _ _ Hc Hnd) as Hsz. destruct Hc as [[u Hl] Hc].
  unfold used_at in Hu. rewrite Hl in Hu. cbn in Hu. subst u.
  unfold group_one, get_flow at 1. rewrite Hl. cbn [obind used].
  rewrite (Add_calcul_node l _ (Mk_f_list nd false None)) by done. unfold estimate_group.
  destruct (Add_calcul l _ _) as [cl| | |]; [|done..]. cbn [obind next].
  destruct t as [|x t].
  - injection He as <-. rewrite (bool_decide_false (l <> l)) by tauto. rewrite andb_false_r. cbn [obind filter list_filter ofold].
    rewrite decide_True by done. unfold get_flow. rewrite Hl. cbn [obind]. by rewrite (mark_used _ _ _ Hl).
  - assert (last_loc (x :: t) = Some e) as He2 by by rewrite <- He.
    pose proof (first_last (x :: t) A l e ltac:(done) Hnd He2) as Hne.
    rewrite bool_decide_true by (destruct x; by eexists). rewrite bool_decide_true by done. cbn [andb].
    rewrite (group_loop_spec e nd (x :: t) A _ l nd); [|split; [by eexists|done]|done|done|done|simpl in *; rewrite length_app in Hsz; lia].
    destruct (ofold _ _ _) as [[cs s1]| | |] eqn:E; [|done..]. cbn [obind]. rewrite decide_False by done.
    destruct (Add_result _ _ _ _) as [s2| | |] eqn:E2; [|done..]. cbn [obind].
    apply Add_result_queues in E2 as [Hh _]. apply add_reports_heap in E as ->.
    assert (is_Some (heap s2 !! l)) as [f Hf].
    { rewrite Hh. cbn [heap set_heap]. apply marks_is_Some. by eexists. }
    unfold get_flow. rewrite Hf. cbn [obind]. by rewrite (mark_used _ _ _ Hf).
Qed.

Lemma group_one_used e l nd t s :
  chain (heap s) ((l, nd) :: t) -> used_at (heap s) l = true -> group_one junk path_socket e l s = Ret s.
Proof.
  intros [[u Hl] _] Hu. unfold used_at in Hu. rewrite Hl in Hu. cbn in Hu. subst u.
  unfold group_one, get_flow. rewrite Hl. cbn [obind used]. rewrite Hl. cbn [obind].
  rewrite (mark_used _ _ _ Hl), (mark_id _ _ _ Hl) by done. by destruct s.
Qed.

Lemma unused_cons h l nd q :
  unused h ((l, nd) :: q) = if used_at h l then unused h q else (l, nd) :: unused h q.
Proof. unfold unused. rewrite filter_cons. cbn [fst]. destruct (used_at h l); by case_decide. Qed.

Lemma length_unused h q : (length (unused h q) <= length q)%nat.
Proof. apply length_filter. Qed.

Lemma chain_heap h q l : chain h q -> l ∈ q.*1 -> is_Some (h !! l).
Proof.
  intros Hc ([k nd] & -> & Hin)%list_elem_of_fmap. apply list_elem_of_lookup in Hin as [i Hi].
  destruct (chain_lookup h q i k nd Hc Hi) as [u Hu]. by eexists.
Qed.

Lemma closed_tail h x q : closed h (x :: q) -> closed h q.
Proof. intros Hc y z Hy Hz. apply Hc; by right. Qed.

Lemma groups_cons q x : groups (length (x :: q)) (x :: q) =
  (x :: filter (fun y => same_flow x.2 y.2) q) ::
  groups (length q) (filter (fun y => ~ same_flow x.2 y.2) q).
Proof. done. Qed.

(** The grouping by pointers, from the report [l] on, is that of the reports that no
    flow has taken yet. *)
Lemma estimate_loop_spec e A : forall t fuel l nd ab s,
  chain (heap s) ((l, nd) :: t ++ A) -> NoDup (l :: (t ++ A).*1) -> last_loc ((l, nd) :: t) = Some e ->
  closed (heap s) ((l, nd) :: t) -> (length t < fuel)%nat ->
  estimate_loop junk path_socket fuel e l ab s =
    let! s' := ofold (estimate_group e) s (groups (S (length t)) (unused (heap s) ((l, nd) :: t))) in
    Ret (ab + Z.of_nat (S (length t)), s').
Proof.
  induction t as [|[l2 nd2] t IH]; intros fuel l nd ab s Hc Hnd He Hcl Hf; (destruct fuel as [|fuel]; [simpl in Hf; lia|]).
  all: cbn [estimate_loop]; rewrite unused_cons.
  all: destruct (used_at (heap s) l) eqn:Hu;
    [rewrite (group_one_used _ _ _ _ _ Hc Hu); cbn [obind]
    |rewrite (group_one_unused _ _ _ _ _ _ Hc Hnd He Hu)].
  - injection He as <-. rewrite decide_True by done. done.
  - injection He as <-. cbn [filter list_filter]. change (unused (heap s) []) with ([] : queue).
    cbn [groups ofold filter list_filter]. destruct (estimate_group _ _ _) as [s1| | |]; [|done..]. cbn [obind].
    by rewrite decide_True.
  - assert (last_loc ((l2, nd2) :: t) = Some e) as He2 by by rewrite <- He.
    rewrite decide_False by (by apply (first_last ((l2, nd2) :: t) A)).
    destruct Hc as [[u Hl] Hc]. unfold get_flow. rewrite Hl. cbn [obind next first_loc head app fmap option_fmap option_map fst].
    rewrite (IH fuel l2 nd2 (ab + 1) s); [|done|by apply NoDup_cons in Hnd as [_ ?]|done|by apply closed_tail in Hcl|simpl in Hf; lia].
    pose proof (length_unused (heap s) ((l2, nd2) :: t)) as Hlu.
    rewrite (groups_fuel (S (length ((l2, nd2) :: t))) (S (length t))) by (simpl in *; lia).
    destruct (ofold _ _ _) as [s'| | |]; [|done..]. cbn [obind length]. do 2 f_equal. lia.
  - assert (last_loc ((l2, nd2) :: t) = Some e) as He2 by by rewrite <- He.
    set (g := filter (fun x => same_flow nd x.2) ((l2, nd2) :: t)).
    cbn [groups fst snd ofold]. rewrite (filter_same (heap s) l) by done. fold g.
    destruct (estimate_group e s ((l, nd) :: g)) as [s1| | |] eqn:Eg; [|done..]. cbn [obind].
    apply estimate_group_queues in Eg as [Hh _].
    rewrite decide_False by (by apply (first_last ((l2, nd2) :: t) A)).
    assert (chain (heap s1) ((l, nd) :: ((l2, nd2) :: t) ++ A)) as Hc1.
    { rewrite Hh. by apply chain_mark, chain_marks. }
    pose proof Hc1 as [[u Hl] Hc2]. unfold get_flow. rewrite Hl.
    cbn [obind next first_loc head app fmap option_fmap option_map fst].
    rewrite <- app_comm_cons, fmap_cons in Hnd.
    destruct (unused_after (heap s) l nd ((l2, nd2) :: t)) as [Hua Hcl1]; [done|done| | |].
    { apply (NoDup_app (l :: ((l2, nd2) :: t).*1) A.*1). by rewrite <- app_comm_cons, <- fmap_app. }
    { apply Forall_forall. intros k Hk. apply (chain_heap _ _ _ Hc).
      rewrite app_comm_cons, fmap_app. apply elem_of_app. left. exact Hk. }
    fold g in Hua, Hcl1. rewrite <- Hh in Hua, Hcl1.
    rewrite (IH fuel l2 nd2 (ab + 1) s1); [|done|by apply NoDup_cons in Hnd as [_ ?]|done|done|simpl in Hf; lia].
    rewrite Hua.
    change (length ((l2, nd2) :: t)) with (S (length t)).
    destruct (ofold _ _ _) as [s'| | |]; [|done..]. cbn [obind length]. do 2 f_equal. lia.
Qed.

(** ** A list of flows *)

Lemma unused_all h q : Forall (fun x => used_at h x.1 = false) q -> unused h q = q /\ closed h q.
Proof.
  intros Hq. rewrite Forall_forall in Hq. split.
  - induction q as [|x q IH]; [done|]. unfold unused. rewrite filter_cons_True by (rewrite Hq by (by left); tauto).
    f_equal. apply IH. intros y Hy. apply Hq. by right.
  - intros x y Hx Hy _. by rewrite !Hq.
Qed.

(** The reports that the thread takes, [P], are those up to PicFlow_End; the reports
    [A] behind are of no consequence. *)
Lemma estimate_pair_groups i j ab s P A e :
  chain (heap s) (P ++ A) -> NoDup (P ++ A).*1 -> Forall (fun x => used_at (heap s) x.1 = false) P ->
  flow_list (chemin_at s i j) = first_loc (P ++ A) -> last_loc P = Some e -> PicFlow_End (chemin_at s i j) = Some e ->
  estimate_pair junk path_socket i j ab s =
    let! s' := ofold (estimate_group e) s (groups (length P) P) in Ret (ab + Z.of_nat (length P), s').
Proof.
  intros Hc Hnd Hu Hfl Hl He. unfold estimate_pair. rewrite He, Hfl. destruct (unused_all _ _ Hu) as [HuP Hcl].
  pose proof (chain_size _ _ Hc Hnd) as Hsz. rewrite length_app in Hsz.
  destruct P as [|[l nd] t]; [done|].
  pose proof Hc as [[u Hlk] _]. cbn [first_loc head app fmap option_fmap option_map fst deref]. unfold get_flow.
  rewrite Hlk. cbn [obind].
  rewrite (estimate_loop_spec e A t _ l nd); [by rewrite HuP|done|done|done|done|]. simpl in Hsz. lia.
Qed.

(** The groups are a partition by flow. *)
Lemma groups_partition n : forall q, (length q <= n)%nat ->
  concat (groups n q) ≡ₚ q /\
  Forall (fun g => exists r rest, g = r :: rest /\ Forall (fun x => same_flow r.2 x.2 = true) rest) (groups n q) /\
  forall a b g1 g2 x y, groups n q !! a = Some g1 -> groups n q !! b = Some g2 -> x ∈ g1 -> y ∈ g2 ->
    same_flow x.2 y.2 = true -> a = b.
Proof.
  induction n as [|n IH]; intros q Hq; [destruct q; [|simpl in Hq; lia]; split_and!; [done|constructor|done]|].
  destruct q as [|r q]; [split_and!; [done|constructor|done]|]. cbn [groups].
  set (A := filter (fun x => same_flow r.2 x.2) q). set (B := filter (fun x => ~ same_flow r.2 x.2) q).
  assert (length B <= n)%nat as HB.
  { unfold B. pose proof (length_filter (fun x : positive * flot_node => ~ same_flow r.2 x.2) q). simpl in Hq. lia. }
  destruct (IH B HB) as (IH1 & IH2 & IH3). split_and!.
  - cbn [concat]. rewrite IH1, <- app_comm_cons. f_equiv. apply filter_app_complement.
  - constructor; [|done]. exists r, A. split; [done|]. apply Forall_forall. intros x Hx.
    apply list_elem_of_filter in Hx as [Hx _]. by apply Is_true_true.
  - assert (forall c g z, groups n B !! c = Some g -> z ∈ g -> same_flow r.2 z.2 = false) as Hout.
    { intros c g z Hg Hz. apply Is_true_false. assert (z ∈ B) as Hb; [|by apply list_elem_of_filter in Hb as [? _]].
      rewrite <- IH1. apply list_elem_of_In, in_concat. exists g. split; apply list_elem_of_In; [|done].
      by apply list_elem_of_lookup_2 in Hg. }
    assert (forall z, z ∈ r :: A -> same_flow r.2 z.2 = true) as Hin.
    { intros z [->|Hz]%elem_of_cons; [apply same_flow_refl|]. apply list_elem_of_filter in Hz as [Hz _].
      by apply Is_true_true. }
    intros [|a] [|b] g1 g2 x y Ha Hb Hx Hy Hs; cbn in Ha, Hb.
    + done.
    + injection Ha as <-. apply Hin in Hx. rewrite (same_flow_trans _ _ y.2 Hx) in Hs.
      by rewrite (Hout b g2 y Hb Hy) in Hs.
    + injection Hb as <-. apply Hin in Hy. rewrite same_flow_sym in Hs.
      rewrite (same_flow_trans _ _ x.2 Hy) in Hs. by rewrite (Hout a g1 x Ha Hx) in Hs.
    + f_equal. by apply (IH3 a b g1 g2 x y).
Qed.

(** ** What is estimated

    The monitor of a report is the first one in the table with the address of its
    agent.  A report stands for the packets it has, divided by the sampling rate of its
    monitor; the reports of a flow are weighted by the odds of their rates, and the sum
    divided by that of the odds along the path.  Each is rounded as a double, the
    quotients towards zero. *)

Definition index_of (addrs : list bytes) (a : bytes) : option nat := fst <$> list_find (fun b => b = a) addrs.
Definition rate_at (ms : list un_moniteur) (a : bytes) : option double :=
  match index_of (adresse <$> ms) a with None => None | Some k => sampling_rate <$> ms !! k end.

Definition odds (p : double) : double := ddiv p (dsub un p).
Definition whole (x : double) : option Z :=
  match truncate x with
  | Some z => if (0 <=? z) && (z <=? 18446744073709551615) then Some z else None
  | None => None
  end.

(** The packets that a report stands for, and the rate; none when its octets or
    packets do not fit. *)
Definition scaled (ms : list un_moniteur) (r : flot_node) : option (Z * double) :=
  match rate_at ms (agent_addr r) with
  | None => None
  | Some p =>
      match whole (ddiv (of_int (flow_octets r)) p), whole (ddiv (of_int (flow_packets r)) p) with
      | Some _, Some n => Some (n, p)
      | _, _ => None
      end
  end.

Definition weight (l : list (Z * double)) : double :=
  fold_left (fun acc np => dadd acc (dmul (of_int np.1) (odds np.2))) l (of_int 0).
Definition path_odds (ms : list un_moniteur) (path : list bytes) : double :=
  fold_left dadd (odds <$> omap (rate_at ms) path) (of_int 0).

Definition flow_estimate (ms : list un_moniteur) (path : list bytes) (reports : list flot_node) : option result_list :=
  let a := path_odds ms path in
  match mapM (scaled ms) reports with
  | None => None
  | Some l =>
      match whole (ddiv (weight l) a) with
      | None => None
      | Some n => Some (Mk_result_list (Z.of_nat (length reports)) a n (ddiv (weight l) (dmul a a)))
      end
  end.

(** What the [k]-th monitor observes of a flow. *)
Definition observed (addrs : list bytes) (k : nat) (reports : list flot_node) (r : result_list) : list monitor_observation :=
  (fun nd => Mk_monitor_observation false nd (packetNumber r) (alpha_flow r) 1) <$>
    filter (fun nd => index_of addrs (agent_addr nd) = Some k) reports.

Definition watch (addrs : list bytes) (reports : list flot_node) (r : result_list) (k : nat) (m : un_moniteur) : un_moniteur :=
  Mk_un_moniteur (sampling_rate m) (adresse m) (les_observations m ++ observed addrs k reports r).

Lemma find_moniteur_index ms a :
  find_moniteur ms a = match index_of (adresse <$> ms) a with Some k => Ret k | None => Undef OutOfBounds end.
Proof.
  unfold index_of. induction ms as [|m ms IH]; [done|]. cbn [find_moniteur fmap list_fmap list_find].
  case_decide; [done|]. rewrite IH. destruct (list_find _ _) as [[k b]|]; done.
Qed.

Lemma index_of_Some addrs a k : index_of addrs a = Some k -> addrs !! k = Some a.
Proof.
  unfold index_of. intros ([k' b] & E & ->)%fmap_Some. by apply list_find_Some in E as (E & -> & _).
Qed.

Lemma samling_rate_at ms a : samling_rate ms a = match rate_at ms a with Some p => Ret p | None => Undef OutOfBounds end.
Proof.
  unfold samling_rate, rate_at. rewrite find_moniteur_index. destruct (index_of _ a) as [k|]; [|done].
  cbn [obind]. by destruct (ms !! k).
Qed.

Lemma to_u64_whole x z : whole x = Some z -> to_u64 x = Ret z.
Proof.
  unfold whole, to_u64. destruct (truncate x) as [y|]; [|done].
  destruct (Z.leb_spec 0 y), (Z.leb_spec y 18446744073709551615); cbn [andb]; try done. intros [= <-].
  by rewrite (proj2 (Z.ltb_lt _ _)) by lia.
Qed.

Lemma alpha_of_odds ms path : alpha_of ms path = path_odds ms path.
Proof.
  unfold alpha_of, path_odds. generalize (of_int 0). induction path as [|a path IH]; intros acc; [done|].
  cbn [fold_left omap list_omap]. rewrite IH, find_moniteur_index. unfold rate_at at 2.
  destruct (index_of _ a) as [k|]; [|done]. by destruct (ms !! k).
Qed.

(** The entry of a report. *)
Definition entry_of (ms : list un_moniteur) (cl : calcul_list) (r : positive * flot_node) : Prop :=
  flow cl = r.1 /\ scaled ms r.2 = Some (estimated_packetNumber cl, sRate cl).

Lemma Add_calcul_entry l f ms : is_Some (scaled ms (node f)) ->
  exists cl, Add_calcul l f ms = Ret cl /\ entry_of ms cl (l, node f).
Proof.
  intros [[n p] E]. unfold Add_calcul, entry_of. rewrite samling_rate_at. cbn [fst snd]. revert E. unfold scaled.
  destruct (rate_at ms _) as [q|]; [|done]. cbn [obind].
  destruct (whole (ddiv (of_int (flow_octets _)) q)) as [o|] eqn:Eo; [|done].
  destruct (whole (ddiv (of_int (flow_packets _)) q)) as [m|] eqn:Em; [|done]. intros [= -> ->].
  rewrite (to_u64_whole _ _ Eo), (to_u64_whole _ _ Em). cbn [obind]. by eexists.
Qed.

Lemma packet_of_weight ms cls g : Forall2 (entry_of ms) cls g ->
  exists l, mapM (scaled ms) g.*2 = Some l /\ packet_of cls = (weight l, Z.of_nat (length g)).
Proof.
  intros Hc. unfold packet_of, weight.
  assert (forall acc n, exists l, mapM (scaled ms) g.*2 = Some l /\
    fold_left (fun '(packet, nRapport) cl =>
      (dadd packet (dmul (of_int (estimated_packetNumber cl)) (ddiv (sRate cl) (dsub un (sRate cl)))), nRapport + 1)) cls (acc, n) =
    (fold_left (fun acc np => dadd acc (dmul (of_int np.1) (odds np.2))) l acc, n + Z.of_nat (length g))) as H; [|apply H].
  induction Hc as [|cl r cls g [_ Hr] Hc IH]; intros acc n.
  - exists []. split; [done|]. cbn. by rewrite Z.add_0_r.
  - destruct (IH (dadd acc (dmul (of_int (estimated_packetNumber cl)) (odds (sRate cl)))) (n + 1)) as (l & El & E).
    exists ((estimated_packetNumber cl, sRate cl) :: l). split.
    + rewrite fmap_cons. cbn [mapM]. rewrite Hr. cbn. by rewrite El.
    + cbn [fold_left fst snd]. unfold odds at 1 in E. rewrite E. f_equal. cbn [length]. lia.
Qed.

(** The observations of a flow. *)
Lemma watch_all addrs h (v : Z) (a : double) cls g : forall ms, adresse <$> ms = addrs ->
  Forall2 (fun cl x => flow cl = x.1 /\ is_Some (index_of addrs (agent_addr x.2)) /\ exists f, h !! x.1 = Some f /\ node f = x.2) cls g ->
  ofold (fun ms cl => let! f := get_flow h (flow cl) in Add_observation (node f) v a 1 ms) ms cls =
    Ret (imap (fun k m => Mk_un_moniteur (sampling_rate m) (adresse m) (les_observations m ++
           ((fun nd => Mk_monitor_observation false nd v a 1) <$> filter (fun nd => index_of addrs (agent_addr nd) = Some k) g.*2))) ms).
Proof.
  intros ms Hms Hc. revert ms Hms. induction Hc as [|cl x cls g (Hl & [k Hk] & f & Hf & Hn) Hc IH]; intros ms Hms.
  - cbn [ofold fmap list_fmap filter list_filter]. f_equal. apply list_eq. intros i. rewrite list_lookup_imap.
    destruct (ms !! i) as [m|]; [|done]. cbn. rewrite app_nil_r. by destruct m.
  - cbn [ofold]. unfold get_flow at 1. rewrite Hl, Hf. cbn [obind]. unfold Add_observation at 1.
    rewrite find_moniteur_index, Hms, Hn, Hk. cbn [obind].
    set (o := Mk_monitor_observation false x.2 v a 1).
    rewrite IH.
    2:{ rewrite <- Hms. apply list_eq. intros i. rewrite !list_lookup_fmap. destruct (decide (i = k)) as [->|Hne];
        [rewrite list_lookup_alter_eq; by destruct (ms !! k)|by rewrite list_lookup_alter_ne]. }
    f_equal. apply list_eq. intros i. rewrite !list_lookup_imap. rewrite fmap_cons, filter_cons.
    destruct (decide (i = k)) as [->|Hne].
    + rewrite list_lookup_alter_eq. destruct (ms !! k) as [m|]; [|done]. cbn [fmap option_fmap option_map].
      rewrite decide_True by done. unfold add_observation. cbn [sampling_rate adresse les_observations]. by rewrite <- app_assoc.
    + rewrite list_lookup_alter_ne by done. destruct (ms !! i) as [m|]; [|done]. cbn [fmap option_fmap option_map].
      rewrite decide_False by congruence. done.
Qed.

Definition in_nodes (h : gmap positive f_list) (x : positive * flot_node) : Prop := exists f, h !! x.1 = Some f /\ node f = x.2.

Lemma in_nodes_mark l h x : in_nodes h x -> in_nodes (mark l h) x.
Proof.
  intros (f & Hf & Hn). unfold mark, in_nodes. destruct (decide (x.1 = l)) as [E|Hne].
  - rewrite E in *. rewrite lookup_alter_eq, Hf. by exists (set_used true f).
  - rewrite lookup_alter_ne by done. by exists f.
Qed.

Lemma in_nodes_marks ls h x : in_nodes h x -> in_nodes (marks ls h) x.
Proof. revert h. induction ls as [|l ls IH]; intros h Hx; [done|]. by apply IH, in_nodes_mark. Qed.

Lemma add_reports_ok ms g : forall calcul s, les_moniteurs s = ms -> Forall (fun x => is_Some (scaled ms x.2)) g ->
  exists cls, ofold add_report (calcul, s) g = Ret (calcul ++ cls, set_heap (marks g.*1 (heap s)) s) /\
    Forall2 (entry_of ms) cls g.
Proof.
  induction g as [|[l nd] g IH]; intros calcul s Hms Hg.
  - exists []. rewrite app_nil_r. split; [by destruct s|constructor].
  - apply Forall_cons in Hg as [Hx Hg]. cbn [ofold]. unfold add_report at 1. cbn [fst snd].
    change (les_moniteurs (set_heap (mark l (heap s)) s)) with (les_moniteurs s). rewrite Hms.
    destruct (Add_calcul_entry l (Mk_f_list nd true None) ms Hx) as (cl & -> & Hcl). cbn [obind fst snd].
    destruct (IH (calcul ++ [cl]) (set_heap (mark l (heap s)) s) Hms Hg) as (cls & -> & Hcls).
    exists (cl :: cls). rewrite <- app_assoc. split; [done|]. by constructor.
Qed.

(** The pair that the reports of a list are of, and the path of the pair. *)
Context (i j : Z) (Hi : 0 <= i < NOMBRE_AS) (Hj : 0 <= j < NOMBRE_AS).
Definition of_pair (x : positive * flot_node) : Prop := swrap32 (src_as x.2) = i + 1 /\ swrap32 (dst_as x.2) = j + 1.

Definition add_estimate (path : list bytes) (r : result_list) (c : un_chemin) : un_chemin :=
  Mk_un_chemin path (flow_list c) (AddFlow c) (PicFlow_End c) (result c ++ [r]) (resultat c) (ch_taille c).

Lemma put_chemin_twice c c' s : put_chemin i j c (put_chemin i j c' s) = put_chemin i j c s.
Proof. unfold put_chemin. cbn. by rewrite insert_insert_eq. Qed.

Lemma Add_result_estimate path r cls g s : g <> [] -> Forall2 (entry_of (les_moniteurs s)) cls g -> Forall of_pair g ->
  Forall (in_nodes (heap s)) g -> get_chemin junk path_socket (i + 1) (j + 1) (chemin_at s i j) = Ret path ->
  flow_estimate (les_moniteurs s) path g.*2 = Some r ->
  Add_result junk path_socket cls s =
    Ret (put_chemin i j (add_estimate path r (chemin_at s i j))
           (set_moniteurs (imap (watch (adresse <$> les_moniteurs s) g.*2 r) (les_moniteurs s)) s)).
Proof.
  intros Hg Hcls Hpair Hnodes Hpath Hr. destruct (packet_of_weight _ _ _ Hcls) as (l & El & Ep).
  assert (Forall2 (fun cl x => flow cl = x.1 /\ is_Some (index_of (adresse <$> les_moniteurs s) (agent_addr x.2)) /\
    exists f, heap s !! x.1 = Some f /\ node f = x.2) cls g) as Hwatch.
  { clear -Hcls Hnodes. induction Hcls as [|cl x cls g [H1 H2] Hc IH]; [constructor|]. apply Forall_cons in Hnodes as [Hx Hn].
    constructor; [|by apply IH]. split; [done|]. split; [|done]. unfold scaled, rate_at in H2. by destruct (index_of _ _). }
  unfold flow_estimate in Hr. rewrite El in Hr. destruct (whole _) as [n|] eqn:En; [|done]. injection Hr as <-.
  unfold Add_result. inversion Hcls as [|cl x cls' g' Hcl Hcls' E1 E2]; subst; [done|].
  pose proof Hcl as [Hl _]. apply Forall_cons in Hpair as [[Ha Hb] _]. apply Forall_cons in Hnodes as [(f & Hf & Hn) _].
  unfold get_flow at 1. rewrite Hl, Hf. cbn [obind]. rewrite Hn, Ha, Hb. unfold NOMBRE_AS in *.
  assert (((i + 1 <? 1) || (23 <? i + 1) || (j + 1 <? 1) || (23 <? j + 1)) = false) as -> by lia.
  rewrite !Z.add_simpl_r, Hpath. cbn [obind]. rewrite Ep.
  change (les_moniteurs (put_chemin i j (set_chemin path (chemin_at s i j)) s)) with (les_moniteurs s).
  change (heap (put_chemin i j (set_chemin path (chemin_at s i j)) s)) with (heap s).
  rewrite alpha_of_odds, (to_u64_whole _ _ En). cbn [obind].
  rewrite (watch_all _ _ _ _ _ _ _ eq_refl Hwatch). cbn [obind]. f_equal.
  match goal with |- put_chemin i j ?c ?s1 = _ => assert (c = add_estimate path
    (Mk_result_list (Z.of_nat (length (x :: g').*2)) (path_odds (les_moniteurs s) path) n
       (ddiv (weight l) (dmul (path_odds (les_moniteurs s) path) (path_odds (les_moniteurs s) path)))) (chemin_at s i j)) as -> end.
  { unfold chemin_at at 1 2 3 4 5 6. cbn [chemins set_moniteurs put_chemin set_chemins]. rewrite lookup_insert_eq, length_fmap. done. }
  unfold put_chemin, set_moniteurs. cbn. by rewrite insert_insert_eq.
Qed.

Definition begins (g : queue) : option positive := first_loc g.

(** The estimate of the reports of a flow; nothing but the mark for the flow that
    begins with the last report. *)
Lemma estimate_group_ok e path g s : g <> [] -> Forall (fun x => is_Some (scaled (les_moniteurs s) x.2)) g -> Forall of_pair g ->
  Forall (in_nodes (heap s)) g -> get_chemin junk path_socket (i + 1) (j + 1) (chemin_at s i j) = Ret path ->
  exists ls, (forall l, l ∈ ls <-> l ∈ g.*1) /\
  (begins g = Some e -> estimate_group e s g = Ret (set_heap (marks ls (heap s)) s)) /\
  forall r, begins g <> Some e -> flow_estimate (les_moniteurs s) path g.*2 = Some r ->
    estimate_group e s g = Ret (set_heap (marks ls (heap s)) (put_chemin i j (add_estimate path r (chemin_at s i j))
      (set_moniteurs (imap (watch (adresse <$> les_moniteurs s) g.*2 r) (les_moniteurs s)) s))).
Proof.
  intros Hg Hsc Hpair Hnodes Hpath. destruct g as [|[l nd] g]; [done|]. exists (g.*1 ++ [l]).
  assert (forall h, marks (g.*1 ++ [l]) h = mark l (marks g.*1 h)) as Hmarks by (intros h; unfold marks; by rewrite foldl_app).
  split; [intros k; cbn [fmap list_fmap fst]; rewrite elem_of_app, list_elem_of_singleton, elem_of_cons; tauto|].
  pose proof Hsc as [Hx Hsc']%Forall_cons. unfold estimate_group.
  destruct (Add_calcul_entry l (Mk_f_list nd false None) (les_moniteurs s) Hx) as (cl & -> & Hcl). cbn [obind].
  destruct (add_reports_ok (les_moniteurs s) g [cl] s eq_refl Hsc') as (cls & -> & Hcls). cbn [obind]. split.
  - intros [= ->]. rewrite decide_True by done. cbn [obind]. by rewrite Hmarks.
  - intros r Hne Hr. rewrite decide_False by (intros ->; by apply Hne).
    rewrite (Add_result_estimate path r ([cl] ++ cls) ((l, nd) :: g)); [|done|by constructor|done| |done|done].
    2:{ eapply Forall_impl; [exact Hnodes|]. intros x. apply in_nodes_marks. }
    cbn [obind]. by rewrite Hmarks.
Qed.

Lemma marks_lookup ls h k : marks ls h !! k = (if bool_decide (k ∈ ls) then set_used true else id) <$> h !! k.
Proof.
  revert h. induction ls as [|l ls IH]; intros h.
  - rewrite bool_decide_false by apply not_elem_of_nil. by rewrite option_fmap_id.
  - cbn [marks foldl]. fold (marks ls (mark l h)). rewrite IH. unfold mark. destruct (decide (k = l)) as [->|Hne].
    + rewrite lookup_alter_eq, (bool_decide_true (l ∈ l :: ls)) by (by left). destruct (h !! l) as [[]|]; [|done].
      by destruct (bool_decide (l ∈ ls)).
    + rewrite lookup_alter_ne by done. by rewrite (bool_decide_ext (k ∈ l :: ls) (k ∈ ls)) by (rewrite elem_of_cons; tauto).
Qed.

(** Rates and addresses do not change. *)
Definition same_rates (ms ms' : list un_moniteur) : Prop := adresse <$> ms' = adresse <$> ms /\ sampling_rate <$> ms' = sampling_rate <$> ms.

Lemma rate_at_same ms ms' a : same_rates ms ms' -> rate_at ms' a = rate_at ms a.
Proof. intros [E1 E2]. unfold rate_at. rewrite E1. destruct (index_of _ a) as [k|]; [|done]. by rewrite <- !list_lookup_fmap, E2. Qed.
Lemma scaled_same ms ms' r : same_rates ms ms' -> scaled ms' r = scaled ms r.
Proof. intros H. unfold scaled. by rewrite (rate_at_same ms ms'). Qed.
Lemma flow_estimate_same ms ms' path rs : same_rates ms ms' -> flow_estimate ms' path rs = flow_estimate ms path rs.
Proof.
  intros H. unfold flow_estimate, path_odds. rewrite (mapM_ext (scaled ms') (scaled ms)) by (intros; by apply scaled_same).
  by rewrite (list_omap_ext (rate_at ms') (rate_at ms) path path) by (apply Forall_Forall2_diag, Forall_true; intros; by apply rate_at_same).
Qed.
Lemma watch_rates addrs g r ms : same_rates ms (imap (watch addrs g r) ms).
Proof.
  split; apply list_eq; intros k; rewrite !list_lookup_fmap, list_lookup_imap; by destruct (ms !! k).
Qed.

Lemma get_chemin_path path r c : get_chemin junk path_socket (i + 1) (j + 1) c = Ret path ->
  get_chemin junk path_socket (i + 1) (j + 1) (add_estimate path r c) = Ret path.
Proof.
  unfold get_chemin. cbn [chemin add_estimate]. destruct path as [|a path]; [|done]. by destruct (chemin c).
Qed.

Definition estimated_flows (e : positive) (gs : list queue) : list queue := filter (fun g => begins g <> Some e) gs.

(** What the estimates of flows leave. *)
Record estimates (path : list bytes) (P : list positive) (es : list queue) (rs : list result_list) (s s' : est) : Prop := {
  et_results : result (chemin_at s' i j) = result (chemin_at s i j) ++ rs;
  et_path : chemin (chemin_at s' i j) = match es with [] => chemin (chemin_at s i j) | _ => path end;
  et_other k l : (k, l) <> (i, j) -> chemin_at s' k l = chemin_at s k l;
  et_monitors k : les_moniteurs s' !! k =
    (fun m => Mk_un_moniteur (sampling_rate m) (adresse m) (les_observations m ++
       concat (zip_with (fun g r => observed (adresse <$> les_moniteurs s) k g.*2 r) es rs))) <$> les_moniteurs s !! k;
  et_heap l : heap s' !! l = (if bool_decide (l ∈ P) then set_used true else id) <$> heap s !! l;
  et_queues : same_queues s s'
}.

Lemma estimate_groups_ok e path gs : forall s rs, Forall (fun g => g <> []) gs ->
  Forall (Forall (fun x => is_Some (scaled (les_moniteurs s) x.2))) gs -> Forall (Forall of_pair) gs ->
  Forall (Forall (in_nodes (heap s))) gs -> get_chemin junk path_socket (i + 1) (j + 1) (chemin_at s i j) = Ret path ->
  mapM (fun g => flow_estimate (les_moniteurs s) path g.*2) (estimated_flows e gs) = Some rs ->
  exists s', ofold (estimate_group e) s gs = Ret s' /\ estimates path (concat gs).*1 (estimated_flows e gs) rs s s'.
Proof.
  induction gs as [|g gs IH]; intros s rs Hne Hsc Hpair Hnodes Hpath Hrs.
  { injection Hrs as <-. exists s. split; [done|]. constructor; try done.
    - by rewrite app_nil_r.
    - intros k. cbn. destruct (les_moniteurs s !! k) as [[]|]; [|done]. cbn. by rewrite app_nil_r.
    - intros l. cbn. by rewrite option_fmap_id. }
  apply Forall_cons in Hne as [Hg Hne], Hsc as [Hscg Hsc], Hpair as [Hpg Hpair], Hnodes as [Hng Hnodes].
  destruct (estimate_group_ok e path g s) as (ls & Hls & Hskip & Hdo); [done..|]. cbn [ofold].
  unfold estimated_flows in *. rewrite filter_cons in *.
  assert (forall h, Forall (Forall (in_nodes h)) gs -> Forall (Forall (in_nodes (marks ls h))) gs) as Hkeep.
  { intros h Hh. eapply Forall_impl; [exact Hh|]. intros q Hq. eapply Forall_impl; [exact Hq|]. intros x. apply in_nodes_marks. }
  assert (forall s1 s2, (forall l, heap s1 !! l = (if bool_decide (l ∈ ls) then set_used true else id) <$> heap s !! l) ->
    (forall l, heap s2 !! l = (if bool_decide (l ∈ (concat gs).*1) then set_used true else id) <$> heap s1 !! l) ->
    forall l, heap s2 !! l = (if bool_decide (l ∈ (concat (g :: gs)).*1) then set_used true else id) <$> heap s !! l) as Hheap.
  { intros s1 s2 H1 H2 l. rewrite H2, H1. cbn [concat]. rewrite fmap_app.
    rewrite (bool_decide_ext (l ∈ g.*1 ++ (concat gs).*1) (l ∈ ls \/ l ∈ (concat gs).*1)) by (by rewrite elem_of_app, Hls).
    rewrite bool_decide_or. by destruct (bool_decide (l ∈ ls)), (bool_decide (l ∈ (concat gs).*1)), (heap s !! l) as [[]|]. }
  case_decide as Hb.
  - cbn [mapM] in Hrs. destruct (flow_estimate (les_moniteurs s) path g.*2) as [r|] eqn:Er; [|done]. cbn in Hrs.
    destruct (mapM _ (filter _ gs)) as [rs'|] eqn:Ers; [|done]. injection Hrs as <-.
    rewrite (Hdo r Hb eq_refl). cbn [obind]. set (s1 := set_heap _ _).
    assert (chemin_at s1 i j = add_estimate path r (chemin_at s i j)) as Hc1.
    { unfold s1, chemin_at at 1. cbn. by rewrite lookup_insert_eq. }
    assert (same_rates (les_moniteurs s) (les_moniteurs s1)) as Hsr by apply watch_rates.
    destruct (IH s1 rs') as (s' & E & [R1 R2 R3 R4 R5 R6]); [done| |done|by apply Hkeep|rewrite Hc1; by apply get_chemin_path| |].
    { eapply Forall_impl; [exact Hsc|]. intros q Hq. eapply Forall_impl; [exact Hq|]. intros x. by rewrite (scaled_same (les_moniteurs s)). }
    { rewrite <- Ers. apply mapM_ext. intros q. by apply flow_estimate_same. }
    exists s'. split; [exact E|]. constructor.
    + rewrite R1, Hc1. cbn [result add_estimate]. by rewrite <- app_assoc.
    + rewrite R2, Hc1. by destruct (filter _ gs).
    + intros k l Hkl. rewrite R3 by done. unfold s1, chemin_at. cbn. by rewrite lookup_insert_ne.
    + intros k. rewrite R4. destruct Hsr as [-> _]. unfold s1. cbn [les_moniteurs set_heap put_chemin set_chemins set_moniteurs].
      rewrite list_lookup_imap. destruct (les_moniteurs s !! k) as [m|]; [|done]. cbn. by rewrite <- app_assoc.
    + apply (Hheap s1); [|done]. intros l. unfold s1. cbn [heap set_heap]. apply marks_lookup.
    + etrans; [|exact R6]. constructor; [done..|]. intros k l. destruct (decide ((k, l) = (i, j))) as [[= -> ->]|Hkl]; [by rewrite Hc1|].
      unfold s1, chemin_at. cbn. by rewrite lookup_insert_ne.
  - rewrite Hskip by (destruct (decide (begins g = Some e)); [done|by destruct Hb]). cbn [obind].
    set (s1 := set_heap _ s). destruct (IH s1 rs) as (s' & E & [R1 R2 R3 R4 R5 R6]); [done..|by apply Hkeep|done|done|].
    exists s'. split; [exact E|]. constructor; try done; [apply (Hheap s1); [|done]; intros l; unfold s1; cbn [heap set_heap]; apply marks_lookup|].
    etrans; [|exact R6]. by constructor.
Qed.

Lemma groups_sublist n : forall q g, g ∈ groups n q -> g <> [] /\ sublist g q.
Proof.
  induction n as [|n IH]; intros q g Hg; [destruct q; by apply not_elem_of_nil in Hg|].
  destruct q as [|r q]; [by apply not_elem_of_nil in Hg|]. cbn [groups] in Hg. apply elem_of_cons in Hg as [->|Hg].
  - split; [done|]. apply sublist_skip. apply sublist_filter.
  - apply IH in Hg as [Hne Hs]. split; [done|]. apply sublist_cons. etrans; [exact Hs|]. apply sublist_filter.
Qed.

(** The last report begins no group but one of its own. *)
Lemma begins_last P e g : NoDup P.*1 -> last_loc P = Some e -> sublist g P -> begins g = Some e -> exists nd, g = [(e, nd)].
Proof.
  intros Hnd Hl Hs Hb. unfold last_loc in Hl. apply fmap_Some in Hl as ([k nd] & Hl & ->). apply last_Some in Hl as [P' ->].
  destruct g as [|[l nd'] g]; [done|]. injection Hb as ->. cbn [fst] in *. rewrite fmap_app in Hnd. apply NoDup_app in Hnd as (_ & Hni & _).
  apply sublist_app_r in Hs as (l1 & l2 & E & H1 & H2). destruct l1 as [|x l1].
  - cbn in E. subst l2. apply sublist_cons_r in H2 as [H2|(l' & E & H2)]; [by apply sublist_nil_r in H2|].
    apply sublist_nil_r in H2 as ->. exists nd. congruence.
  - injection E as <- _. exfalso. apply (Hni k); [|by left].
    assert ((k, nd') ∈ P') as Hin by (eapply elem_of_sublist; [|exact H1]; by left). by apply (list_elem_of_fmap_2 fst) in Hin.
Qed.

(** C18: the estimate of a pair of autonomous systems, which works on pointers into
    the list and marks the nodes.  Let [P] be the reports up to PicFlow_End, all of the
    pair, whose monitors are in the table, and [path] the path of the pair, known or
    given by the server.  The reports fall into groups [gs], in the order of their first
    reports: every report is in one group, those of a group are of one flow, those of two
    groups of different flows.  If the estimates exist as 64-bit numbers, the loops end,
    all reports are counted and marked, and the estimate of each group ([flow_estimate]:
    the packets scaled by the sampling rates of the monitors, weighted by the odds of the
    rates, divided by the odds along the path) is appended to the results of the pair
    once, in order, and is observed once for each of its reports by the monitor of that
    report, with one exception: the group that begins with the last report, which
    is the only one in it, is left out.  The reports [A] that flowd appends behind
    PicFlow_End in the meantime are not looked at, and the other pairs stay as they are. *)
Theorem estimate_pair_spec ab s P A e path rs :
  chain (heap s) (P ++ A) -> NoDup (P ++ A).*1 -> Forall (fun x => used_at (heap s) x.1 = false) P ->
  flow_list (chemin_at s i j) = first_loc (P ++ A) -> last_loc P = Some e -> PicFlow_End (chemin_at s i j) = Some e ->
  Forall of_pair P -> Forall (fun x => is_Some (scaled (les_moniteurs s) x.2)) P ->
  get_chemin junk path_socket (i + 1) (j + 1) (chemin_at s i j) = Ret path ->
  let gs := groups (length P) P in
  let es := estimated_flows e gs in
  mapM (fun g => flow_estimate (les_moniteurs s) path g.*2) es = Some rs ->
  concat gs ≡ₚ P /\
  Forall (fun g => exists r rest, g = r :: rest /\ Forall (fun x => same_flow r.2 x.2 = true) rest) gs /\
  (forall a b g1 g2 x y, gs !! a = Some g1 -> gs !! b = Some g2 -> x ∈ g1 -> y ∈ g2 -> same_flow x.2 y.2 = true -> a = b) /\
  (forall g, g ∈ gs -> g ∈ es \/ exists nd, g = [(e, nd)]) /\
  exists s', estimate_pair junk path_socket i j ab s = Ret (ab + Z.of_nat (length P), s') /\
    estimates path P.*1 es rs s s'.
Proof.
  intros Hc Hnd Hu Hfl Hl He Hpair Hsc Hpath gs es Hrs.
  destruct (groups_partition (length P) P ltac:(lia)) as (H1 & H2 & H3). fold gs in H1, H2, H3.
  assert (NoDup P.*1) as HndP by (rewrite fmap_app in Hnd; by apply NoDup_app in Hnd as [? _]).
  do 3 (split; [done|]). split.
  { intros g Hg. destruct (groups_sublist _ _ _ Hg) as [_ Hs]. destruct (decide (begins g = Some e)) as [Hb|Hb].
    - right. by apply (begins_last P).
    - left. by apply list_elem_of_filter. }
  assert (forall (Q : positive * flot_node -> Prop), Forall Q P -> Forall (Forall Q) gs) as Hall.
  { intros Q HQ. apply Forall_forall. intros g Hg. destruct (groups_sublist _ _ _ Hg) as [_ Hs]. apply Forall_forall. intros x Hx. rewrite Forall_forall in HQ. by eapply HQ, elem_of_sublist. }
  assert (Forall (in_nodes (heap s)) P) as Hin.
  { apply Forall_forall. intros x [n Hn]%list_elem_of_lookup. destruct x as [l nd].
    destruct (chain_lookup _ (P ++ A) n l nd Hc) as [u Hx]; [by apply lookup_app_l_Some|]. by eexists. }
  destruct (estimate_groups_ok e path gs s rs) as (s' & E & Hs'); [|by apply Hall..|done|done|].
  { apply Forall_forall. intros g Hg. by destruct (groups_sublist _ _ _ Hg). }
  exists s'. rewrite (estimate_pair_groups i j ab s P A e) by done. fold gs. rewrite E. split; [done|].
  destruct Hs' as [R1 R2 R3 R4 R5 R6]. constructor; try done. intros l. rewrite R5.
  by rewrite (bool_decide_ext (l ∈ (concat gs).*1) (l ∈ P.*1)) by (by rewrite H1).
Qed.
End estimation.

(** ** Example: two flows between the systems 1 and 2, the first reported twice, and a
    report that arrives later. *)

Definition sample_report (agent : bytes) (port packets : Z) : flot_node :=
  Mk_flot_node agent [49] [50] [51] port 80 packets (100 * packets) 6 1 2.

Definition sample_flows : queue :=
  [(1%positive, sample_report [97] 1000 3); (2%positive, sample_report [97] 2000 5); (3%positive, sample_report [98] 1000 4)].
Definition sample_late : queue := [(4%positive, sample_report [98] 2000 7)].

Definition sample_est : est :=
  Mk_est (list_to_map [(1%positive, Mk_f_list (sample_report [97] 1000 3) false (Some 2%positive));
                       (2%positive, Mk_f_list (sample_report [97] 2000 5) false (Some 3%positive));
                       (3%positive, Mk_f_list (sample_report [98] 1000 4) false (Some 4%positive));
                       (4%positive, Mk_f_list (sample_report [98] 2000 7) false None)])
    {[ (0, 1) := Mk_un_chemin [[97]; [98]] (Some 1%positive) (Some 4%positive) (Some 3%positive) [] None 4 ]}
    [Mk_un_moniteur (decimal 5 10) [97] []; Mk_un_moniteur (decimal 25 100) [98] []] 4 true false 4 60 60.

Lemma estimate_pair_spec_witness :
  exists r1 r2 s', estimate_pair [] (fun _ _ => Mk_peer_socket true true true None) 0 1 0 sample_est = Ret (3, s') /\
    result (chemin_at s' 0 1) = [r1; r2] /\ (rapportNumber r1, packetNumber r1) = (2, 8) /\ (rapportNumber r2, packetNumber r2) = (1, 7).
Proof.
  destruct (estimate_pair_spec [] (fun _ _ => Mk_peer_socket true true true None) 0 1 ltac:(by split) ltac:(by split) 0
    sample_est sample_flows sample_late 3 [[97]; [98]]
    (from_option id [] (mapM (fun g => flow_estimate (les_moniteurs sample_est) [[97]; [98]] g.*2)
      (estimated_flows 3 (groups 3 sample_flows))))) as (_ & _ & _ & _ & s' & E & [R _ _ _ _ _]).
  - cbn. split_and!; by eexists.
  - apply (bool_decide_unpack _). vm_compute. exact I.
  - by repeat constructor.
  - done.
  - done.
  - done.
  - apply (bool_decide_unpack _). vm_compute. exact I.
  - apply (bool_decide_unpack _). vm_compute. exact I.
  - done.
  - vm_compute. reflexivity.
  - eexists _, _, s'. split; [exact E|]. split; [rewrite R; vm_compute; reflexivity|]. split; reflexivity.
Defined.

(** Its estimate: a result with two reports for the first flow and one with a single
    report for the second, and an observation for every report. *)
Example estimate_sample :
  match estimate_pair [] (fun _ _ => Mk_peer_socket true true true None) 0 1 0 sample_est with
  | Ret (ab, s) => (ab, (fun m => length (les_observations m)) <$> les_moniteurs s,
                    (fun r => (rapportNumber r, packetNumber r)) <$> result (chemin_at s 0 1))
  | _ => (0, [], [])
  end = (3, [2%nat; 1%nat], [(2, 8); (1, 7)]).
Proof. vm_compute. reflexivity. Qed.
