(* ===== verification/EstimationSafe.v ===== *)
(** * Traffic estimation: what the estimates leave alone

    The requests of the control client, the estimate of a flow and the end of a round
    free nothing and end, whatever the sockets give; they leave the lists of flows as
    they are, but for the marks of the reports that are estimated. *)

From Stdlib Require Import SpecFloat.
From stdpp Require Import gmap.
From S2P Require Import Prelude CString Client Estimation EstimationProps.

(** ** Strings and sockets *)

Lemma wr_harmless buf off data : harmless (wr buf off data).
Proof. unfold wr. by case_decide. Qed.
#[export] Hint Resolve wr_harmless : harmless.

Lemma cstr_harmless m : harmless (cstr m).
Proof. induction m as [|c m IH]; cbn [cstr]; harmless. Qed.
#[export] Hint Resolve cstr_harmless : harmless.

Lemma strn_harmless n : forall m, harmless (strn n m).
Proof. induction n as [|n IH]; intros m; cbn [strn]; harmless. Qed.
#[export] Hint Resolve strn_harmless : harmless.

Lemma from_off_harmless m off : harmless (from_off m off).
Proof. unfold from_off. harmless. Qed.
#[export] Hint Resolve from_off_harmless : harmless.

Lemma strcpy_harmless dst m : harmless (strcpy dst m).
Proof. unfold strcpy. harmless. Qed.
Lemma strcat_harmless dst m : harmless (strcat dst m).
Proof. unfold strcat. harmless. Qed.
Lemma strncpy_harmless dst m off n : harmless (strncpy dst m off n).
Proof. unfold strncpy. harmless. Qed.
Lemma sprintf_harmless dst n : harmless (sprintf_i dst n).
Proof. apply wr_harmless. Qed.
#[export] Hint Resolve strcpy_harmless strcat_harmless strncpy_harmless sprintf_harmless : harmless.

Lemma scan_at c m : safe (scan c m) (fun r => forall k, r = Some k -> 0 <= k).
Proof.
  induction m as [|x m IH]; cbn [scan]; [done|]. destruct (x =? c); [by intros k [= <-]|].
  destruct (x =? 0); [done|]. eapply safe_bind; [exact IH|]. intros [k|] Hk; [|done].
  intros k' [= <-]. specialize (Hk k eq_refl). lia.
Qed.

Lemma strchr_at m off c : safe (strchr m off c) (fun r => forall k, r = Some k -> off <= k).
Proof.
  unfold strchr. apply (safe_bind _ _ (fun _ => True)); [apply from_off_harmless|]. intros s _.
  eapply safe_bind; [apply scan_at|]. intros [k|] Hk; [|done]. intros k' [= <-]. specialize (Hk k eq_refl). lia.
Qed.

(** Each turn of Add_path gets further. *)
Lemma path_loop_harmless n : forall p e k acc, (Z.to_nat (e - k) <= n)%nat -> (0 < n)%nat -> harmless (path_loop n p e k acc).
Proof.
  induction n as [|n IH]; intros p e k acc Hn Hpos; [lia|]. cbn [path_loop].
  eapply safe_bind; [apply strchr_at|]. intros [k'|] Hk; [|done]. specialize (Hk k' eq_refl).
  apply (safe_bind _ _ (fun _ => True)); [apply strncpy_harmless|]. intros i _.
  destruct (Z.ltb_spec k' (e - 1)); [|done]. apply IH; lia.
Qed.

Lemma Add_path_harmless p : harmless (Add_path p).
Proof.
  unfold Add_path. apply (safe_bind _ _ (fun _ => True)); [apply cstr_harmless|]. intros s _.
  apply path_loop_harmless; lia.
Qed.
#[export] Hint Resolve Add_path_harmless : harmless.

Lemma SendControlPacket_harmless junk sk p1 p2 a : harmless (SendControlPacket junk sk p1 p2 a).
Proof. unfold SendControlPacket, control_message. harmless. Qed.
Lemma SendPathRequestPacket_harmless junk sk a1 a2 p : harmless (SendPathRequestPacket junk sk a1 a2 p).
Proof. unfold SendPathRequestPacket, path_message. harmless. Qed.
#[export] Hint Resolve SendControlPacket_harmless SendPathRequestPacket_harmless : harmless.

Lemma to_u64_harmless x : harmless (to_u64 x).
Proof. unfold to_u64. harmless. Qed.
Lemma to_int_harmless x : harmless (to_int x).
Proof. unfold to_int. harmless. Qed.
#[export] Hint Resolve to_u64_harmless to_int_harmless : harmless.

(** ** Monitors *)

Lemma find_moniteur_harmless l a : harmless (find_moniteur l a).
Proof. induction l as [|m l IH]; cbn [find_moniteur]; [done|]. case_decide; harmless. Qed.
#[export] Hint Resolve find_moniteur_harmless : harmless.

Lemma samling_rate_harmless l a : harmless (samling_rate l a).
Proof. unfold samling_rate. harmless. Qed.
#[export] Hint Resolve samling_rate_harmless : harmless.

Lemma Add_observation_harmless f n a r l : harmless (Add_observation f n a r l).
Proof. unfold Add_observation. harmless. Qed.

Lemma Add_calcul_flow l f ms : safe (Add_calcul l f ms) (fun cl => flow cl = l).
Proof.
  unfold Add_calcul. do 3 (apply (safe_bind _ _ (fun _ => True)); [harmless|intros ? _]). done.
Qed.

Section estimation.
Context (junk : bytes) (path_socket : Z -> Z -> peer_socket) (control_socket : nat -> peer_socket).

Lemma get_chemin_harmless as1 as2 c : harmless (get_chemin junk path_socket as1 as2 c).
Proof.
  unfold get_chemin. destruct (chemin c); [|done]. apply (safe_bind _ _ (fun _ => True)); [harmless|].
  intros [[? ?] p] _. apply (safe_bind _ _ (fun _ => True)); [harmless|]. intros l _.
  apply safe_ofold; [|done]. intros; harmless.
Qed.

(** ** The estimate of a flow *)

Definition in_heap (h : gmap positive f_list) (l : positive) : Prop := is_Some (h !! l).

Lemma get_flow_harmless h l : in_heap h l -> harmless (get_flow h l).
Proof. unfold get_flow. by intros [f ->]. Qed.

Lemma Add_result_safe calcul s : Forall (fun cl => in_heap (heap s) (flow cl)) calcul ->
  safe (Add_result junk path_socket calcul s) (fun s' => heap s' = heap s /\ same_queues s s').
Proof.
  intros Hc. destruct (Add_result junk path_socket calcul s) as [s'|u| |] eqn:E; [by apply Add_result_queues in E| |done|].
  all: assert (harmless (Add_result junk path_socket calcul s)) as Hs; [|by rewrite E in Hs].
  all: clear E; unfold Add_result; destruct calcul as [|cl calcul]; [done|].
  all: pose proof Hc as [Hcl _]%Forall_cons.
  all: apply (safe_bind _ _ (fun _ => True)); [by apply get_flow_harmless|intros f _].
  all: destruct (_ || _); [done|].
  all: apply (safe_bind _ _ (fun _ => True)); [apply get_chemin_harmless|intros p _].
  all: destruct (packet_of _) as [pk n].
  all: apply (safe_bind _ _ (fun _ => True)); [harmless|intros g _].
  all: apply (safe_bind _ _ (fun _ => True)); [|done].
  all: apply safe_ofold; [|done]; intros ms cl' Hin _.
  all: rewrite Forall_forall in Hc; apply (safe_bind _ _ (fun _ => True)); [apply get_flow_harmless, Hc, Hin|].
  all: intros f' _; apply Add_observation_harmless.
Qed.

Lemma add_reports_safe g : forall calcul s,
  Forall (fun cl => in_heap (heap s) (flow cl)) calcul -> Forall (in_heap (heap s)) g.*1 ->
  safe (ofold add_report (calcul, s) g)
    (fun r => r.2 = set_heap (marks g.*1 (heap s)) s /\ Forall (fun cl => in_heap (heap s) (flow cl)) r.1).
Proof.
  induction g as [|[l nd] g IH]; intros calcul s Hc Hg; [by destruct s|].
  apply Forall_cons in Hg as [Hl Hg]. cbn [ofold]. unfold add_report at 2. cbn [fst snd].
  eapply safe_bind; [apply (safe_bind _ _ (fun cl => flow cl = l)); [apply Add_calcul_flow|]|].
  - intros cl Hcl.
    instantiate (1 := fun r => r.2 = set_heap (mark l (heap s)) s /\ Forall (fun cl => in_heap (heap s) (flow cl)) r.1).
    split; [done|]. apply Forall_app. split; [done|]. apply Forall_singleton. by rewrite Hcl.
  - intros [cs s1] [E Hcs]. cbn [snd fst] in *. subst s1. eapply safe_mono; [apply IH|].
    + eapply Forall_impl; [exact Hcs|]. intros cl. apply mark_is_Some.
    + eapply Forall_impl; [exact Hg|]. intros k. apply mark_is_Some.
    + intros [cs2 s2] [E H2]. cbn [snd fst] in *. subst s2. split; [done|]. eapply Forall_impl; [exact H2|]. intros cl. apply mark_is_Some.
Qed.

Lemma estimate_group_safe e l nd g s : Forall (in_heap (heap s)) (l :: g.*1) ->
  safe (estimate_group junk path_socket e s ((l, nd) :: g))
    (fun s' => heap s' = mark l (marks g.*1 (heap s)) /\ same_queues s s').
Proof.
  intros [Hl Hg]%Forall_cons.
  destruct (estimate_group junk path_socket e s ((l, nd) :: g)) as [s'|u| |] eqn:E;
    [by apply estimate_group_queues in E| |done|].
  all: assert (harmless (estimate_group junk path_socket e s ((l, nd) :: g))) as Hs; [|by rewrite E in Hs].
  all: clear E; unfold estimate_group; eapply safe_bind; [apply Add_calcul_flow|intros cl Hcl].
  all: eapply safe_bind; [apply add_reports_safe; [by rewrite Forall_singleton, Hcl|done]|].
  all: intros [cs s1] [E Hcs]; cbn [fst snd] in *; subst s1; apply (safe_bind _ _ (fun _ => True)); [|done].
  all: case_decide; [done|]; eapply safe_mono; [apply Add_result_safe|done].
  all: eapply Forall_impl; [exact Hcs|]; intros c; apply marks_is_Some.
Qed.

(** ** The end of a round *)

(** The heap and the lists are the same. *)
Definition quiet (s s' : est) : Prop := heap s' = heap s /\ same_queues s s'.

#[export] Instance quiet_preorder : PreOrder quiet.
Proof.
  split; [by split|]. intros s1 s2 s3 [A1 A2] [B1 B2]. split; [congruence|]. by etrans.
Qed.

Lemma put_chemin_quiet i j c s : queue_of c = queue_of (chemin_at s i j) -> quiet s (put_chemin i j c s).
Proof. intros Hc. split; [done|]. by apply put_chemin_queues. Qed.

Lemma output_quiet s : quiet s (output s).2.
Proof.
  unfold output. generalize (Mk_theResult 0 0 (of_int 0) (of_int 0) 0). generalize pairs.
  intros l. revert s. induction l as [|[i j] l IH]; intros s g; [done|]. cbn [fold_left].
  etrans; [|apply IH]. by apply put_chemin_quiet.
Qed.

Lemma liberer_result_quiet s : quiet s (liberer_result s).
Proof.
  unfold liberer_result. generalize pairs. intros l. revert s. induction l as [|[i j] l IH]; intros s; [done|].
  cbn [fold_left]. etrans; [|apply IH]. by apply put_chemin_quiet.
Qed.

Lemma observe_harmless n : forall cs pj obs v, harmless (observe n cs pj obs v).
Proof. induction n as [|n IH]; intros cs pj obs v; cbn [observe]; harmless. Qed.

Lemma delta_vars_harmless delta cs l : forall k v, harmless (delta_vars delta cs k l v).
Proof.
  induction l as [|m l IH]; intros k v; cbn [delta_vars]; [done|].
  apply (safe_bind _ _ (fun _ => True)); [|intros [[obs d] v'] _; harmless].
  destruct (les_observations m); [done|]. apply (safe_bind _ _ (fun _ => True)); [apply observe_harmless|].
  intros [? ?] _. done.
Qed.

Lemma control_harmless k t m : harmless (control junk control_socket k t m).
Proof. unfold control. harmless. Qed.
#[local] Hint Resolve control_harmless : harmless.

Lemma raise_rates_harmless st l : forall k, harmless (raise_rates junk control_socket st k l).
Proof.
  induction l as [|m l IH]; intros k; cbn [raise_rates]; [done|].
  apply (safe_bind _ _ (fun _ => True)); [apply control_harmless|]. intros [? ?] _. harmless.
Qed.

Lemma lower_rates_harmless st mo l : forall k, harmless (lower_rates junk control_socket st mo k l).
Proof.
  induction l as [|[m d] l IH]; intros k; cbn [lower_rates]; [done|].
  apply (safe_bind _ _ (fun _ => True)); [|intros [? ?] _; harmless].
  destruct (dlt d mo); [|done]. apply (safe_bind _ _ (fun _ => True)); [apply control_harmless|]. by intros [? ?] _.
Qed.

Lemma reconfigurer_quiet delta th lo lc s :
  safe (reconfigurer junk control_socket delta th lo lc s) (fun r => quiet s r.1).
Proof.
  unfold reconfigurer. apply (safe_bind _ _ (fun _ => True)).
  - destruct lo; [|apply raise_rates_harmless]. apply (safe_bind _ _ (fun _ => True)); [apply delta_vars_harmless|].
    intros ds _. apply lower_rates_harmless.
  - intros [l sent] _. done.
Qed.

Lemma publish_quiet delta th lo lc ab s :
  safe (publish junk control_socket delta th lo lc ab s) (fun r => quiet s r.2).
Proof.
  unfold publish. pose proof (output_quiet s) as Hq. destruct (output s) as [r s1]. cbn [snd] in Hq.
  eapply safe_bind; [apply reconfigurer_quiet|]. intros [s2 sent] Hq2. cbn [fst] in Hq2.
  destruct (lc =? 0); [done|]. cbn. etrans; [exact Hq|]. etrans; [exact Hq2|]. apply liberer_result_quiet.
Qed.
End estimation.
