(* ===== verification/EstimationHeap.v ===== *)
(** * Traffic estimation: Add_flow and liberer on the nodes

    What Add_flow and liberer do with the nodes of a list, as operations on chains. *)

From stdpp Require Import gmap.
From S2P Require Import Prelude Estimation EstimationProps.

(** ** Pairs *)

Lemma range_elem i : i ∈ range <-> 0 <= i < NOMBRE_AS.
Proof.
  unfold range. rewrite list_elem_of_fmap. split.
  - intros (n & -> & Hn%elem_of_seq). unfold NOMBRE_AS in *. lia.
  - intros Hi. exists (Z.to_nat i). split; [lia|]. apply elem_of_seq. unfold NOMBRE_AS in *. lia.
Qed.

Lemma pairs_elem i j : (i, j) ∈ pairs <-> 0 <= i < NOMBRE_AS /\ 0 <= j < NOMBRE_AS.
Proof.
  unfold pairs. rewrite list_elem_of_bind. rewrite <- !range_elem. split.
  - intros (i' & H & Hi). apply list_elem_of_bind in H as (j' & H & Hj).
    apply list_elem_of_singleton in H. by simplify_eq.
  - intros [Hi Hj]. exists i. split; [|done]. apply list_elem_of_bind. exists j. split; [|done]. by left.
Qed.

Lemma pairs_nodup : NoDup pairs.
Proof. apply (bool_decide_unpack _). vm_compute. exact I. Qed.

(** ** A new node *)

Lemma chain_snoc h q a nd0 f l ff :
  chain h (q ++ [(a, nd0)]) -> NoDup (q ++ [(a, nd0)]).*1 -> h !! l = None -> h !! a = Some f ->
  chain (<[a := set_next (Some l) f]> (<[l := Mk_f_list ff false None]> h)) ((q ++ [(a, nd0)]) ++ [(l, ff)]).
Proof.
  intros Hc Hnd Hl Ha. assert (a <> l) as Hal by congruence.
  induction q as [|[k m] q IH].
  - destruct Hc as [[u Hu] _]. rewrite Ha in Hu. injection Hu as ->. cbn. split_and!; [| |done].
    + exists u. by rewrite lookup_insert_eq.
    + exists false. by rewrite lookup_insert_ne, lookup_insert_eq by done.
  - destruct Hc as [[u Hu] Hc]. cbn [app fmap list_fmap fst] in Hnd. apply NoDup_cons in Hnd as [Hni Hnd].
    split; [|by apply IH]. exists u. fold (app (A := positive * flot_node)).
    assert (k <> a).
    { intros ->. apply Hni. apply list_elem_of_fmap. exists (a, nd0). split; [done|]. apply elem_of_app. right. by left. }
    rewrite !lookup_insert_ne by congruence. rewrite Hu. do 2 f_equal. by rewrite !first_loc_app; destruct q.
Qed.

Lemma last_loc_snoc q x : last_loc (q ++ [x]) = Some x.1.
Proof. unfold last_loc. by rewrite last_snoc. Qed.

(** What an operation on the list of the pair (i, j) leaves alone. *)
Record elsewhere (i j : Z) (s s' : est) : Prop := {
  ew_sizeval : sizeval s' = sizeval s;
  ew_moniteurs : les_moniteurs s' = les_moniteurs s;
  ew_chemin : forall k l, (k, l) <> (i, j) -> chemin_at s' k l = chemin_at s k l
}.

#[export] Instance elsewhere_preorder i j : PreOrder (elsewhere i j).
Proof.
  split; [by constructor|]. intros s1 s2 s3 [A1 A2 A3] [B1 B2 B3]. constructor; [congruence..|].
  intros k l H. by rewrite B3, A3.
Qed.

(** The pair that the flow goes between, and whether Add_flow takes it. *)
Definition as_pair (ff : flot_node) : Z * Z := (swrap32 (src_as ff - 1), swrap32 (dst_as ff - 1)).

Lemma Add_flow_other th ff s : as_pair ff ∉ pairs -> Add_flow th ff s = Ret s.
Proof.
  unfold as_pair. intros Hn. rewrite pairs_elem in Hn. unfold Add_flow.
  rewrite (proj2 (orb_true_iff _ _)); [done|].
  destruct (Z.leb_spec NOMBRE_AS (swrap32 (dst_as ff - 1))); [by right|left].
  destruct (Z.ltb_spec (swrap32 (dst_as ff - 1)) 0); [by rewrite orb_true_r|].
  destruct (Z.leb_spec NOMBRE_AS (swrap32 (src_as ff - 1))); [by rewrite orb_true_r|].
  destruct (Z.ltb_spec (swrap32 (src_as ff - 1)) 0); [done|]. lia.
Qed.

(** Otherwise it appends a node to the list of the pair. *)
Lemma Add_flow_ok th ff s q i j :
  as_pair ff = (i, j) -> (i, j) ∈ pairs -> chain (heap s) q -> NoDup q.*1 ->
  flow_list (chemin_at s i j) = first_loc q -> AddFlow (chemin_at s i j) = last_loc q ->
  exists l s', Add_flow th ff s = Ret s' /\ heap s !! l = None /\ chain (heap s') (q ++ [(l, ff)]) /\
    (forall x, x ∉ q.*1 -> x <> l -> heap s' !! x = heap s !! x) /\
    (forall x, used_at (heap s') x = used_at (heap s) x) /\
    queue_of (chemin_at s' i j) =
      (first_loc (q ++ [(l, ff)]), Some l, PicFlow_End (chemin_at s i j), wrap64 (ch_taille (chemin_at s i j) + 1)) /\
    elsewhere i j s s' /\ taille s' = wrap64 (taille s + 1).
Proof.
  unfold as_pair. intros [= Hi Hj] [Hi' Hj']%pairs_elem Hc Hnd Hfl Hadd. unfold Add_flow. rewrite Hi, Hj.
  set (l := fresh (dom (heap s))). assert (heap s !! l = None) as Hl by (apply not_elem_of_dom, is_fresh).
  rewrite (proj2 (Z.ltb_ge i 0)), (proj2 (Z.leb_gt NOMBRE_AS i)), (proj2 (Z.ltb_ge j 0)), (proj2 (Z.leb_gt NOMBRE_AS j)) by lia.
  cbn [orb]. cbn zeta. unfold chemin_at at 1. cbn [chemins set_heap]. fold (chemin_at s i j).
  exists l. destruct q as [|[a nd0] q _] using rev_ind.
  - rewrite Hadd. cbn [last_loc last fmap option_fmap option_map obind]. eexists. split; [reflexivity|].
    split; [done|]. cbn [set_thrd set_heap heap].
    destruct (wrap64 th <=? _); (split_and!; [..|constructor; [done|done|]|]).
    all: try (cbn; split; [|done]; exists false; by rewrite lookup_insert_eq).
    all: try (intros x _ Hx; cbn; by rewrite lookup_insert_ne by done).
    all: try (intros x; unfold used_at; cbn; destruct (decide (x = l)) as [->|];
              [by rewrite lookup_insert_eq, Hl|by rewrite lookup_insert_ne by done]).
    all: try (unfold chemin_at, put_chemin; cbn; by rewrite lookup_insert_eq).
    all: try (intros k m Hkm; unfold chemin_at, put_chemin; cbn; by rewrite lookup_insert_ne by congruence).
    all: done.
  - rewrite last_loc_snoc in Hadd. cbn [fst] in Hadd.
    destruct (chain_lookup _ _ (length q) a nd0 Hc) as [u Ha]; [by rewrite list_lookup_middle|].
    assert (a <> l) as Hal by congruence.
    rewrite Hadd. unfold get_flow. cbn [set_heap heap]. rewrite lookup_insert_ne, Ha by done. cbn [obind].
    assert (first_loc ((q ++ [(a, nd0)]) ++ [(l, ff)]) = flow_list (chemin_at s i j)) as ->.
    { rewrite Hfl, !first_loc_app. by destruct q. }
    eexists. split; [reflexivity|]. split; [done|].
    destruct (wrap64 th <=? _); (split_and!; [..|constructor; [done|done|]|]).
    all: try (apply (chain_snoc (heap s)); done).
    all: try (intros x Hx Hxl; cbn; rewrite !lookup_insert_ne; [done|congruence|];
              intros ->; apply Hx; rewrite fmap_app; apply elem_of_app; right; by left).
    all: try (intros x; unfold used_at; cbn; destruct (decide (x = a)) as [->|];
              [by rewrite lookup_insert_eq, Ha|rewrite lookup_insert_ne by done];
              destruct (decide (x = l)) as [->|]; [by rewrite lookup_insert_eq, Hl|by rewrite lookup_insert_ne by done]).
    all: try (unfold chemin_at, put_chemin; cbn; by rewrite lookup_insert_eq).
    all: try (intros k m Hkm; unfold chemin_at, put_chemin; cbn; by rewrite lookup_insert_ne by congruence).
    all: done.
Qed.

Lemma wrap64_sub n k : wrap64 (wrap64 n - k) = wrap64 (n - k).
Proof. unfold wrap64. apply Zminus_mod_idemp_l. Qed.
Lemma wrap64_add n k : wrap64 (wrap64 n + k) = wrap64 (n + k).
Proof. unfold wrap64. apply Zplus_mod_idemp_l. Qed.

(** ** Nodes that are freed *)

Definition frees (ls : list positive) (h : gmap positive f_list) : gmap positive f_list := foldl (fun h l => delete l h) h ls.

Lemma frees_lookup ls h x : frees ls h !! x = if decide (x ∈ ls) then None else h !! x.
Proof.
  revert h. induction ls as [|l ls IH]; intros h; [by rewrite decide_False by apply not_elem_of_nil|].
  cbn [frees foldl]. fold (frees ls (delete l h)). rewrite IH. destruct (decide (x ∈ ls)) as [H|H].
  - by rewrite decide_True by (by right).
  - destruct (decide (x = l)) as [->|Hx]; [by rewrite lookup_delete_eq, decide_True by left|].
    rewrite lookup_delete_ne by done. by rewrite decide_False by (by intros [|]%elem_of_cons).
Qed.

Lemma chain_frees ls h q : (forall l, l ∈ q.*1 -> l ∉ ls) -> chain h q -> chain (frees ls h) q.
Proof.
  intros Hd. apply chain_frame. intros l f Hl Hf. rewrite frees_lookup, decide_False by (by apply Hd).
  exists (used f). by destruct f.
Qed.

Lemma frees_snoc ls l h : frees (ls ++ [l]) h = delete l (frees ls h).
Proof. unfold frees. by rewrite foldl_app. Qed.

Lemma last_loc_split q e : last_loc q = Some e -> exists q' nd, q = q' ++ [(e, nd)].
Proof.
  unfold last_loc. intros ([k nd] & Hk & ->)%fmap_Some. apply last_Some in Hk as [q' ->]. by exists q', nd.
Qed.

(** The loop frees the nodes in front of [e], which it leaves first. *)
Lemma liberer_loop_ok i j e A : forall t fuel l nd s n m,
  chain (heap s) ((l, nd) :: t ++ A) -> NoDup (l :: (t ++ A).*1) -> last_loc ((l, nd) :: t) = Some e ->
  flow_list (chemin_at s i j) = Some l -> ch_taille (chemin_at s i j) = wrap64 n -> taille s = wrap64 m ->
  (length t < fuel)%nat ->
  exists s', liberer_loop fuel i j e l s = Ret (e, s') /\
    heap s' = frees (removelast (l :: (t.*1))) (heap s) /\
    queue_of (chemin_at s' i j) =
      (Some e, AddFlow (chemin_at s i j), PicFlow_End (chemin_at s i j), wrap64 (n - Z.of_nat (length t))) /\
    elsewhere i j s s' /\ taille s' = wrap64 (m - Z.of_nat (length t)).
Proof.
  induction t as [|[l2 nd2] t IH]; intros fuel l nd s n m Hc Hnd He Hfl Hct Ht Hf;
    (destruct fuel as [|fuel]; [simpl in Hf; lia|]); cbn [liberer_loop]; destruct Hc as [[u Hl] Hc];
    unfold get_flow; rewrite Hl; cbn [obind next].
  - injection He as <-. exists s. rewrite !Z.sub_0_r.
    split; [by destruct (first_loc _); [rewrite decide_True|]|]. split; [done|]. split; [|by split].
    unfold queue_of. by rewrite Hfl, Hct.
  - assert (last_loc ((l2, nd2) :: t) = Some e) as He2 by by rewrite <- He.
    cbn [first_loc head app fmap option_fmap option_map fst].
    rewrite decide_False by (by apply (first_last ((l2, nd2) :: t) A)).
    set (s1 := set_taille _ _).
    assert (chemin_at s1 i j = set_queue (Some l2) (AddFlow (chemin_at s i j)) (PicFlow_End (chemin_at s i j))
                                 (wrap64 (n - 1)) (chemin_at s i j)) as E1.
    { subst s1. unfold chemin_at, put_chemin. cbn. rewrite lookup_insert_eq. cbn. fold (chemin_at s i j). by rewrite Hct, wrap64_sub. }
    apply NoDup_cons in Hnd as [Hni Hnd].
    destruct (IH fuel l2 nd2 s1 (n - 1) (m - 1)) as (s' & -> & Hh & Hq & Hew & Ht').
    + change (chain (delete l (heap s)) ((l2, nd2) :: t ++ A)). apply (chain_frees [l]); [|done].
      intros k Hk ->%list_elem_of_singleton. done.
    + done.
    + done.
    + by rewrite E1.
    + by rewrite E1.
    + subst s1. cbn. by rewrite Ht, wrap64_sub.
    + simpl in Hf. lia.
    + exists s'. split; [done|]. split; [done|]. rewrite Hq, E1, Ht'. cbn [set_queue AddFlow PicFlow_End length].
      split; [do 2 f_equal; lia|]. split; [|f_equal; lia]. transitivity s1; [|done]. subst s1. constructor; [done..|].
      intros k k' Hk. unfold chemin_at, put_chemin. cbn. by rewrite lookup_insert_ne by congruence.
Qed.

(** liberer frees the nodes up to PicFlow_End and leaves the list of the others. *)
Lemma liberer_ok i j s P A n m :
  chain (heap s) (P ++ A) -> NoDup (P ++ A).*1 -> flow_list (chemin_at s i j) = first_loc (P ++ A) ->
  AddFlow (chemin_at s i j) = last_loc (P ++ A) -> PicFlow_End (chemin_at s i j) = last_loc P ->
  ch_taille (chemin_at s i j) = wrap64 n -> taille s = wrap64 m ->
  exists s', liberer i j s = Ret s' /\ heap s' = frees P.*1 (heap s) /\
    flow_list (chemin_at s' i j) = first_loc A /\ AddFlow (chemin_at s' i j) = last_loc A /\
    ch_taille (chemin_at s' i j) = wrap64 (n - Z.of_nat (length P)) /\
    elsewhere i j s s' /\ taille s' = wrap64 (m - Z.of_nat (length P)).
Proof.
  intros Hc Hnd Hfl Hadd Hpic Hct Ht. unfold liberer. rewrite Hpic.
  destruct P as [|[l nd] t].
  { exists s. cbn [app] in *. rewrite !Z.sub_0_r. split; [by destruct (flow_list _)|]. by split_and!. }
  assert (is_Some (last_loc ((l, nd) :: t))) as [e He].
  { unfold last_loc. rewrite fmap_is_Some. by apply last_is_Some. }
  rewrite He.
  rewrite Hfl. cbn [first_loc head app fmap option_fmap option_map fst].
  pose proof (chain_size _ _ Hc Hnd) as Hsz. simpl in Hsz. rewrite length_app in Hsz.
  destruct (liberer_loop_ok i j e A t (size (heap s)) l nd s n m) as (s1 & -> & Hh & Hq & Hew & Ht1); [done..|lia|].
  cbn [obind]. injection Hq as Hq1 Hq2 Hq3 Hq4.
destruct (last_loc_split _ _ He) as (t' & nde & EP).
  assert (removelast (l :: (t.*1)) = t'.*1) as Er.
  { change (l :: (t.*1)) with (((l, nd) :: t).*1). rewrite EP, fmap_app. apply removelast_last. }
  rewrite Er in Hh. clear Er.
  assert (~ e ∈ t'.*1) as Hni.
  { rewrite EP, <- app_assoc, fmap_app in Hnd. apply NoDup_app in Hnd as (_ & Hd & _).
    intros H. apply (Hd e H). by left. }
  assert (heap s !! e = heap s1 !! e) as He1 by by rewrite Hh, frees_lookup, decide_False.
  destruct (chain_lookup _ _ (length t') e nde Hc) as [u Hu].
  { rewrite EP, <- app_assoc. by apply list_lookup_middle. }
  assert (drop (S (length t')) (((l, nd) :: t) ++ A) = A) as Hdrop.
  { rewrite EP, <- app_assoc. change (t' ++ [(e, nde)] ++ A) with (t' ++ (e, nde) :: A).
    replace (S (length t')) with (length t' + 1)%nat by lia. by rewrite <- drop_drop, drop_app_length. }
  rewrite Hdrop in Hu. unfold get_flow. rewrite <- He1, Hu. cbn [obind next]. eexists. split; [reflexivity|].
  split; [|split; [|split; [|split; [|split]]]].
  - change (delete e (heap s1) = frees (((l, nd) :: t).*1) (heap s)). by rewrite Hh, EP, fmap_app, (frees_snoc (t'.*1) e).
  - unfold chemin_at, put_chemin. cbn. rewrite lookup_insert_eq. cbn. by destruct A as [|[]].
  - unfold chemin_at, put_chemin. cbn. rewrite lookup_insert_eq. cbn. fold (chemin_at s1 i j).
    destruct A as [|x A]; [done|]. cbn. rewrite Hq2, Hadd. by apply last_loc_app.
  - unfold chemin_at, put_chemin. cbn. rewrite lookup_insert_eq. cbn. fold (chemin_at s1 i j).
    destruct (first_loc A); cbn -[Z.sub]; rewrite Hq4, wrap64_sub; f_equal; lia.
  - etrans; [exact Hew|]. constructor; [done..|]. intros k k' Hk. unfold chemin_at, put_chemin. cbn.
    by rewrite lookup_insert_ne by congruence.
  - cbn. rewrite Ht1, wrap64_sub. f_equal. simpl. lia.
Qed.
