(* ===== verification/EstimationRounds.v ===== *)
(** * Traffic estimation: a round of the thread and the flows that arrive

    The estimation thread and the loop of flowd share the lists of flows.  A round is
    the sequence of events of the thread, with arrivals of flows anywhere in between:
    Add_flow and liberer_flow run under the semaphore semFlows, and what the thread
    does with a pair in between does not look behind PicFlow_End
    (EstimationProps.estimate_pair_spec).  An abstract machine keeps two sequences of
    flows per pair, those that the thread has taken and those behind; the lists of
    nodes refine it. *)

From Stdlib Require Import SpecFloat.
From stdpp Require Import gmap strings.
From S2P Require Import Prelude Convtime Client Estimation EstimationProps.
From S2P Require Import EstimationSafe EstimationHeap.

(** ** Events *)

Inductive event :=
  | Arrive (ff : flot_node)       (* process_flow calls Add_flow *)
  | Take (i j : Z)                (* PicFlow_End = AddFlow *)
  | Count                         (* sizeval = taille *)
  | Measure (i j : Z)             (* the estimates of a pair *)
  | Publish                       (* the results and the new rates *)
  | Release                       (* liberer_flow, liberer_moniteurs *)
  | Finish.                       (* compteur = 0 *)

#[export] Instance flot_node_eq_dec : EqDecision flot_node.
Proof. solve_decision. Defined.
#[export] Instance event_eq_dec : EqDecision event.
Proof. solve_decision. Defined.

Section rounds.
Context (junk : bytes) (path_socket : Z -> Z -> peer_socket) (control_socket : nat -> peer_socket)
        (delta : nat -> double) (threshold : Z) (loverhead : bool) (lcompteur : Z).

(** The variable ab, what is written, and the shared state. *)
Definition exec (r : Z * option report * est) (e : event) : outcome (Z * option report * est) :=
  let '(ab, rep, s) := r in
  match e with
  | Arrive ff => let! s := Add_flow threshold ff s in Ret (ab, rep, s)
  | Take i j => let c := chemin_at s i j in Ret (ab, rep, put_chemin i j (set_PicFlow_End (AddFlow c) c) s)
  | Count => Ret (ab, rep, set_sizeval (taille s) s)
  | Measure i j => let! (ab, s) := estimate_pair junk path_socket i j ab s in Ret (ab, rep, s)
  | Publish =>
      if sizeval s =? 0 then Ret (ab, rep, s)
      else let! (rep, s) := publish junk control_socket delta threshold loverhead lcompteur ab s in Ret (ab, Some rep, s)
  | Release =>
      if sizeval s =? 0 then Ret (ab, rep, s)
      else let! s := liberer_flow s in Ret (ab, rep, set_sizeval 0 (set_overhead false (liberer_moniteurs s)))
  | Finish => Ret (ab, rep, round_end s)
  end.

Definition thread : list event :=
  (uncurry Take <$> pairs) ++ [Count] ++ (uncurry Measure <$> pairs) ++ [Publish; Release; Finish].

Lemma exec_takes ps : forall ab rep s,
  ofold exec (ab, rep, s) (uncurry Take <$> ps) =
    Ret (ab, rep, fold_left (fun s '(i, j) => let c := chemin_at s i j in put_chemin i j (set_PicFlow_End (AddFlow c) c) s) ps s).
Proof. induction ps as [|[i j] ps IH]; intros ab rep s; [done|]. cbn. apply IH. Qed.

Lemma exec_measures ps : forall ab rep s,
  ofold exec (ab, rep, s) (uncurry Measure <$> ps) =
    let! (ab, s) := ofold (fun '(ab, s) '(i, j) => estimate_pair junk path_socket i j ab s) (ab, s) ps in Ret (ab, rep, s).
Proof.
  induction ps as [|[i j] ps IH]; intros ab rep s; [done|]. cbn [fmap list_fmap uncurry ofold exec].
  destruct (estimate_pair _ _ _ _ _ _) as [[ab' s']| | |]; [|done..]. cbn [obind]. apply IH.
Qed.

Lemma takes_same ps : forall s,
  let s' := fold_left (fun s '(i, j) => let c := chemin_at s i j in put_chemin i j (set_PicFlow_End (AddFlow c) c) s) ps s in
  heap s' = heap s /\ taille s' = taille s /\ sizeval s' = sizeval s.
Proof. induction ps as [|[i j] ps IH]; intros s; [done|]. exact (IH (put_chemin i j _ s)). Qed.
End rounds.

(** Without arrivals, the events of the thread are a round. *)
Lemma round_thread junk path_socket control_socket delta threshold s :
  (60 <=? compteur s) || overhead s = true ->
  estimation_round junk path_socket control_socket delta threshold s =
    let! (_, rep, s) := ofold (exec junk path_socket control_socket delta threshold (overhead s) (compteur s)) (0, None, s) thread in
    Ret (rep, s).
Proof.
  intros Hc. unfold estimation_round. rewrite Hc. unfold thread. rewrite ofold_app, exec_takes. cbn [obind].
  rewrite ofold_app. cbn [ofold exec obind]. rewrite ofold_app, exec_measures.
  unfold snapshot, estimate.
  match goal with |- context [fold_left ?f pairs s] => set (s1 := fold_left f pairs s) end.
  assert (taille s1 = taille s) as -> by apply (takes_same pairs s).
  destruct (ofold _ _ pairs) as [[ab s2]| | |]; [|done..]. cbn [obind ofold exec].
  destruct (sizeval s2 =? 0) eqn:Hz; cbn [obind negb]; [cbn [exec]; by rewrite Hz|].
  pose proof (publish_quiet junk control_socket delta threshold (overhead s) (compteur s) ab s2) as Hq.
  destruct (publish _ _ _ _ _ _ _ _) as [[r s3]| | |]; [|done..]. cbn in Hq |- *.
  destruct Hq as [_ Hq]. rewrite (sq_sizeval _ _ Hq), Hz.
  by destruct (liberer_flow s3).
Qed.

(** ** The abstract machine *)

Inductive phase := Idle | Taken | Measured.
#[export] Instance phase_eq_dec : EqDecision phase.
Proof. solve_decision. Defined.

(** The flows of a pair: those that the thread has taken, and those behind. *)
Record view := Mk_view { taken : list flot_node; added : list flot_node; ph : phase }.

Definition view_step (ij : Z * Z) (v : view) (e : event) : view :=
  match e with
  | Arrive ff => if decide (as_pair ff = ij) then Mk_view (taken v) (added v ++ [ff]) (ph v) else v
  | Take i j => if decide ((i, j) = ij) then Mk_view (taken v ++ added v) [] Taken else v
  | Measure i j => if decide ((i, j) = ij) then Mk_view (taken v) (added v) Measured else v
  | Release => Mk_view [] (added v) Idle
  | _ => v
  end.

Record spec := Mk_spec { views : Z * Z -> view; counted : Z }.

Definition view_size (v : view) : Z := Z.of_nat (length (taken v) + length (added v)).
Definition total (v : Z * Z -> view) (l : list (Z * Z)) : Z := foldr (fun ij n => view_size (v ij) + n) 0 l.

Definition spec_step (a : spec) (e : event) : spec :=
  Mk_spec (fun ij => view_step ij (views a ij) e)
    (match e with Count => wrap64 (total (views a) pairs) | Release => 0 | _ => counted a end).

(** When the thread may make a step. *)
Definition enabled (a : spec) (e : event) : Prop :=
  match e with
  | Take i j => (i, j) ∈ pairs /\ ph (views a (i, j)) = Idle
  | Measure i j => (i, j) ∈ pairs /\ ph (views a (i, j)) = Taken
  | Release => forall ij, ij ∈ pairs -> ph (views a ij) <> Idle /\ (counted a = 0 -> taken (views a ij) = [])
  | _ => True
  end.

Lemma total_cons v ij l : total v (ij :: l) = view_size (v ij) + total v l.
Proof. done. Qed.

Lemma view_size_nonneg v : 0 <= view_size v.
Proof. unfold view_size. lia. Qed.

Lemma total_nonneg v l : 0 <= total v l.
Proof. induction l as [|ij l IH]; [done|]. rewrite total_cons. pose proof (view_size_nonneg (v ij)). lia. Qed.

Lemma total_ext v w l : (forall ij, ij ∈ l -> view_size (w ij) = view_size (v ij)) -> total w l = total v l.
Proof.
  induction l as [|ij l IH]; intros H; [done|]. rewrite !total_cons, H by by left. f_equal. apply IH. intros kl Hk. apply H. by right.
Qed.

Lemma total_update v w l ij : NoDup l -> ij ∈ l -> (forall kl, kl ∈ l -> kl <> ij -> view_size (w kl) = view_size (v kl)) ->
  total w l = total v l - view_size (v ij) + view_size (w ij).
Proof.
  induction l as [|kl l IH]; intros Hnd Hij Hw; [by apply not_elem_of_nil in Hij|].
  apply NoDup_cons in Hnd as [Hni Hnd]. rewrite !total_cons. destruct (decide (kl = ij)) as [->|Hne].
  - rewrite (total_ext v w); [lia|]. intros k Hk. apply Hw; [by right|]. by intros ->.
  - apply elem_of_cons in Hij as [|Hij]; [done|].
    rewrite IH; [|done..|intros k Hk; apply Hw; by right]. rewrite (Hw kl); [lia|by left|done].
Qed.

Lemma total_member v l ij : ij ∈ l -> view_size (v ij) <= total v l.
Proof.
  induction l as [|kl l IH]; intros Hij; [by apply not_elem_of_nil in Hij|].
  rewrite total_cons. apply elem_of_cons in Hij as [->|Hij]; [pose proof (total_nonneg v l); lia|].
  specialize (IH Hij). pose proof (view_size_nonneg (v kl)). lia.
Qed.

(** ** The lists of nodes implement the machine *)

Definition chemin_of (s : est) (ij : Z * Z) : un_chemin := chemin_at s ij.1 ij.2.

(** The nodes [P] of the flows taken and [A] of those behind. *)
Record pair_ok (s : est) (ij : Z * Z) (v : view) (P A : queue) : Prop := {
  po_taken : P.*2 = taken v;
  po_added : A.*2 = added v;
  po_idle : ph v = Idle -> P = [];
  po_chain : chain (heap s) (P ++ A);
  po_nodup : NoDup (P ++ A).*1;
  po_first : flow_list (chemin_of s ij) = first_loc (P ++ A);
  po_add : AddFlow (chemin_of s ij) = last_loc (P ++ A);
  po_pic : ph v <> Idle -> PicFlow_End (chemin_of s ij) = last_loc P;
  po_fresh : ph v <> Measured -> Forall (fun x => used_at (heap s) x.1 = false) P;
  po_behind : Forall (fun x => used_at (heap s) x.1 = false) A;
  po_taille : ch_taille (chemin_of s ij) = wrap64 (view_size v)
}.

Definition locs (q : Z * Z -> queue * queue) (ij : Z * Z) : list positive := ((q ij).1 ++ (q ij).2).*1.

(** Every node of the heap is in the list of one pair. *)
Record holds (s : est) (v : Z * Z -> view) (q : Z * Z -> queue * queue) : Prop := {
  hs_pair : forall ij, ij ∈ pairs -> pair_ok s ij (v ij) (q ij).1 (q ij).2;
  hs_disj : forall ij kl l, ij ∈ pairs -> kl ∈ pairs -> l ∈ locs q ij -> l ∈ locs q kl -> ij = kl;
  hs_heap : forall l, is_Some (heap s !! l) -> exists ij, ij ∈ pairs /\ l ∈ locs q ij;
  hs_taille : taille s = wrap64 (total v pairs)
}.

Definition refines (s : est) (a : spec) : Prop := sizeval s = counted a /\ exists q, holds s (views a) q.

Lemma pair_ok_frame s s' ij v P A :
  pair_ok s ij v P A -> (forall l, l ∈ (P ++ A).*1 -> heap s' !! l = heap s !! l) ->
  queue_of (chemin_of s' ij) = queue_of (chemin_of s ij) -> pair_ok s' ij v P A.
Proof.
  intros [H1 H2 H3 H4 H5 H6 H7 H8 H9 H10 H11] Hh [= Q1 Q2 Q3 Q4].
  assert (forall Q : queue, (forall x, x ∈ Q -> x ∈ P ++ A) -> Forall (fun x => used_at (heap s) x.1 = false) Q ->
          Forall (fun x => used_at (heap s') x.1 = false) Q) as Hu.
  { intros Q HQ HF. rewrite Forall_forall in *. intros x Hx. unfold used_at. rewrite Hh by (by apply list_elem_of_fmap_2, HQ).
    by apply HF. }
  constructor; [done|done|done| |done|congruence|congruence|rewrite Q3; done| | |congruence].
  - apply (chain_frame (heap s)); [|done]. intros l f Hl Hf. exists (used f). rewrite Hh, Hf by done. by destruct f.
  - intros Hp. apply Hu; [|by apply H9]. intros x Hx. apply elem_of_app. by left.
  - apply Hu; [|done]. intros x Hx. apply elem_of_app. by right.
Qed.

(** A step on the list of one pair. *)
Lemma holds_update s s' v v' q ij P A :
  holds s v q -> ij ∈ pairs ->
  (forall kl, kl <> ij -> v' kl = v kl) ->
  (forall kl, kl <> ij -> queue_of (chemin_of s' kl) = queue_of (chemin_of s kl)) ->
  (forall l, ~ l ∈ locs q ij -> ~ l ∈ (P ++ A).*1 -> heap s' !! l = heap s !! l) ->
  (forall l, l ∈ (P ++ A).*1 -> l ∈ locs q ij \/ heap s !! l = None) ->
  (forall l, l ∈ locs q ij -> ~ l ∈ (P ++ A).*1 -> heap s' !! l = None) ->
  pair_ok s' ij (v' ij) P A ->
  taille s' = wrap64 (total v pairs - view_size (v ij) + view_size (v' ij)) ->
  holds s' v' (fun kl => if decide (kl = ij) then (P, A) else q kl).
Proof.
  intros [Hp Hd Hh Ht] Hij Hv Hq Hframe Hnew Hgone Hok Htaille.
  set (q' := fun kl => if decide (kl = ij) then (P, A) else q kl).
  assert (forall kl, kl <> ij -> locs q' kl = locs q kl) as Hlocs.
  { intros kl Hk. unfold locs, q'. by rewrite decide_False. }
  assert (locs q' ij = (P ++ A).*1) as Hlocs'.
  { unfold locs, q'. by rewrite decide_True. }
  assert (forall kl l, kl ∈ pairs -> kl <> ij -> l ∈ locs q kl -> ~ l ∈ locs q ij /\ ~ l ∈ (P ++ A).*1) as Hother.
  { intros kl l Hk Hne Hl. assert (~ l ∈ locs q ij) as Hn by (intros H; apply Hne; by apply (Hd kl ij l)).
    split; [done|]. intros [H|H]%Hnew; [done|].
    destruct (chain_heap _ _ l (po_chain _ _ _ _ _ (Hp kl Hk))) as [f Hf]; [done|]. congruence. }
  constructor.
  - intros kl Hk. destruct (decide (kl = ij)) as [->|Hne]; [unfold q'; by rewrite decide_True|].
    rewrite Hv by done. unfold q'. rewrite decide_False by done.
    apply (pair_ok_frame s); [by apply Hp| |by apply Hq]. intros l Hl. apply (Hother kl) in Hl as [H1 H2]; [|done..]. by apply Hframe.
  - intros kl mn l Hk Hm Hlk Hlm. destruct (decide (kl = ij)) as [->|Hne], (decide (mn = ij)) as [->|Hne'].
    + done.
    + rewrite Hlocs' in Hlk. rewrite Hlocs in Hlm by done. by destruct (Hother mn l Hm Hne' Hlm).
    + rewrite Hlocs' in Hlm. rewrite Hlocs in Hlk by done. by destruct (Hother kl l Hk Hne Hlk).
    + rewrite Hlocs in Hlk, Hlm by done. by apply (Hd kl mn l).
  - intros l Hl. destruct (decide (l ∈ (P ++ A).*1)) as [Hin|Hin]; [exists ij; by rewrite Hlocs'|].
    destruct (decide (l ∈ locs q ij)) as [Hin2|Hin2]; [rewrite (Hgone l Hin2 Hin) in Hl; by apply is_Some_None in Hl|].
    rewrite (Hframe l Hin2 Hin) in Hl. destruct (Hh l Hl) as (kl & Hk & Hlk). exists kl. split; [done|].
    rewrite Hlocs; [done|]. by intros ->.
  - rewrite Htaille. f_equal. symmetry. apply total_update; [apply pairs_nodup|done|]. intros kl _ Hne. by rewrite Hv.
Qed.

Lemma holds_frame s s' v q : heap s' = heap s -> taille s' = taille s ->
  (forall i j, queue_of (chemin_at s' i j) = queue_of (chemin_at s i j)) -> holds s v q -> holds s' v q.
Proof.
  intros Hh Ht Hq [Hp Hd Hheap Htl]. constructor; [|done|by rewrite Hh|by rewrite Ht].
  intros ij Hij. apply (pair_ok_frame s); [by apply Hp|by rewrite Hh|]. apply Hq.
Qed.

Lemma holds_ext s v v' q : (forall ij, ij ∈ pairs -> v' ij = v ij) -> holds s v q -> holds s v' q.
Proof.
  intros Hv [Hp Hd Hheap Ht]. constructor; [|done..|].
  - intros ij Hij. rewrite Hv by done. by apply Hp.
  - rewrite (total_ext v v'); [done|]. intros ij Hij. by rewrite Hv.
Qed.

(** ** The steps *)

Lemma elsewhere_queue i j s s' kl : elsewhere i j s s' -> kl <> (i, j) -> queue_of (chemin_of s' kl) = queue_of (chemin_of s kl).
Proof. intros He Hk. unfold chemin_of. rewrite (ew_chemin _ _ _ _ He); [done|]. by destruct kl. Qed.

Lemma arrive_ok th ff s a : refines s a -> exists s', Add_flow th ff s = Ret s' /\ refines s' (spec_step a (Arrive ff)).
Proof.
  intros (Hc & q & Hh). destruct (decide (as_pair ff ∈ pairs)) as [Hin|Hn].
  2: { exists s. split; [by apply Add_flow_other|]. split; [done|]. exists q. apply (holds_ext _ (views a)); [|done].
       intros ij Hij. cbn. rewrite decide_False; [done|]. by intros <-. }
  destruct (as_pair ff) as [i j] eqn:Eij. pose proof (hs_pair _ _ _ Hh _ Hin) as [H1 H2 H3 H4 H5 H6 H7 H8 H9 H10 H11].
  set (P := (q (i, j)).1) in *. set (A := (q (i, j)).2) in *.
  destruct (Add_flow_ok th ff s (P ++ A) i j Eij Hin H4 H5 H6 H7) as (l & s' & E & Hl & Hch & Hother & Hu & Hq & Hew & Ht).
  exists s'. split; [done|]. injection Hq as Q1 Q2 Q3 Q4.
  assert (~ l ∈ (P ++ A).*1) as Hni.
  { intros [f Hf]%(chain_heap _ _ _ H4). congruence. }
  split; [cbn; by rewrite (ew_sizeval _ _ _ _ Hew)|]. eexists.
  apply (holds_update s s' (views a) _ q (i, j) P (A ++ [(l, ff)]) Hh Hin).
  - intros kl Hk. cbn. rewrite decide_False; [done|]. rewrite Eij. congruence.
  - intros kl Hk. by apply (elsewhere_queue i j).
  - intros x Hx Hx'. apply Hother; [done|]. intros ->. apply Hx'. rewrite app_assoc, fmap_app. apply elem_of_app. right. by left.
  - intros x Hx. rewrite app_assoc, fmap_app in Hx. apply elem_of_app in Hx as [Hx|Hx%list_elem_of_singleton]; [by left|right].
    by rewrite Hx.
  - intros x Hx Hx'. exfalso. apply Hx'. rewrite app_assoc, fmap_app. apply elem_of_app. by left.
  - cbn. rewrite decide_True by done. constructor; cbn [taken added ph]; try done.
    + by rewrite fmap_app, H2.
    + by rewrite app_assoc.
    + rewrite app_assoc, fmap_app. apply NoDup_app. split; [done|]. split; [|apply NoDup_singleton].
      by intros x Hx ->%list_elem_of_singleton.
    + by rewrite app_assoc.
    + rewrite app_assoc, last_loc_snoc. done.
    + intros Hp. unfold chemin_of. cbn [fst snd]. rewrite Q3. by apply H8.
    + intros Hp. eapply Forall_impl; [by apply H9|]. intros x. by rewrite Hu.
    + apply Forall_app. split; [eapply Forall_impl; [exact H10|]; intros x; by rewrite Hu|].
      apply Forall_singleton. cbn. rewrite Hu. unfold used_at. by rewrite Hl.
    + unfold chemin_of in *. cbn [fst snd] in *. rewrite Q4, H11, wrap64_add. f_equal. unfold view_size. cbn [taken added].
      rewrite length_app. cbn [length]. lia.
  - rewrite Ht, (hs_taille _ _ _ Hh), wrap64_add. f_equal. cbn. rewrite decide_True by done. unfold view_size. cbn [taken added].
    rewrite length_app. cbn [length]. lia.
Qed.

Lemma take_ok i j s a : refines s a -> enabled a (Take i j) ->
  refines (put_chemin i j (set_PicFlow_End (AddFlow (chemin_at s i j)) (chemin_at s i j)) s) (spec_step a (Take i j)).
Proof.
  intros (Hc & q & Hh) [Hin Hph]. pose proof (hs_pair _ _ _ Hh _ Hin) as [H1 H2 H3 H4 H5 H6 H7 H8 H9 H10 H11].
  set (P := (q (i, j)).1) in *. set (A := (q (i, j)).2) in *. set (s' := put_chemin _ _ _ _).
  assert (chemin_of s' (i, j) = set_PicFlow_End (AddFlow (chemin_at s i j)) (chemin_at s i j)) as Ec.
  { unfold chemin_of, s'. cbn [fst snd]. by rewrite chemin_at_put, decide_True. }
  split; [done|]. eexists. apply (holds_update s s' (views a) _ q (i, j) (P ++ A) [] Hh Hin).
  - intros kl Hk. cbn. by rewrite decide_False.
  - intros kl Hk. unfold chemin_of, s'. rewrite chemin_at_put, decide_False; [done|]. intros E. apply Hk. by destruct kl.
  - done.
  - intros l Hl. rewrite app_nil_r in Hl. by left.
  - intros l Hl Hl'. rewrite app_nil_r in Hl'. done.
  - cbn. rewrite decide_True by done. constructor; cbn [taken added ph]; rewrite ?app_nil_r, ?Ec; try done.
    + by rewrite fmap_app, H1, H2.
    + intros _. apply Forall_app. split; [apply H9; by rewrite Hph|done].
    + cbn. unfold chemin_of in H11. cbn in H11. rewrite H11. f_equal. unfold view_size. cbn [taken added length].
      rewrite length_app. lia.
  - cbn. rewrite decide_True by done. rewrite (hs_taille _ _ _ Hh). f_equal. unfold view_size. cbn [taken added length].
    rewrite length_app. lia.
Qed.

(** *** Estimates *)

Lemma marks_lookup_ne ls h l : ~ l ∈ ls -> marks ls h !! l = h !! l.
Proof.
  revert h. induction ls as [|k ls IH]; intros h Hl; [done|]. cbn [marks foldl]. fold (marks ls (mark k h)).
  rewrite IH by (intros H; apply Hl; by right). unfold mark. apply lookup_alter_ne. intros ->. apply Hl. by left.
Qed.

Lemma marks_app ls ls' h : marks (ls ++ ls') h = marks ls' (marks ls h).
Proof. unfold marks. by rewrite foldl_app. Qed.

Lemma estimate_groups_safe junk path_socket e (L : list positive) gs :
  (forall g, g ∈ gs -> exists l nd r, g = (l, nd) :: r /\ forall x, x ∈ g.*1 -> x ∈ L) ->
  forall s, (forall l, l ∈ L -> in_heap (heap s) l) ->
  safe (ofold (estimate_group junk path_socket e) s gs)
    (fun s' => same_queues s s' /\ exists ls, (forall l, l ∈ ls -> l ∈ L) /\ heap s' = marks ls (heap s)).
Proof.
  induction gs as [|g gs IH]; intros Hg s HL; cbn [ofold].
  { split; [done|]. exists []. split; [|done]. by intros l Hl%not_elem_of_nil. }
  destruct (Hg g ltac:(by left)) as (l & nd & r & -> & Hin).
  eapply safe_bind; [apply estimate_group_safe|].
  { apply Forall_forall. intros x Hx. by apply HL, Hin. }
  intros s1 [Hh1 Hq1]. eapply safe_mono; [apply IH|].
  - intros g' Hg'. apply Hg. by right.
  - intros k Hk. unfold in_heap. rewrite Hh1. apply mark_is_Some, marks_is_Some. by apply HL.
  - intros s2 (Hq2 & ls & Hls & Hh2). split; [by etrans|]. exists (r.*1 ++ l :: ls). split.
    + intros k [Hk|[->|Hk]%elem_of_cons]%elem_of_app; [apply Hin; by right|apply Hin; by left|by apply Hls].
    + rewrite Hh2, Hh1, marks_app. done.
Qed.

(** Reports taken are marked. *)
Lemma measured_ok i j s s' ls a q : holds s (views a) q -> sizeval s = counted a -> enabled a (Measure i j) ->
  same_queues s s' -> (forall l, l ∈ ls -> l ∈ (q (i, j)).1.*1) -> heap s' = marks ls (heap s) ->
  refines s' (spec_step a (Measure i j)).
Proof.
  intros Hh Hc [Hin Hph] Hq Hls Hheap. pose proof (hs_pair _ _ _ Hh _ Hin) as [H1 H2 H3 H4 H5 H6 H7 H8 H9 H10 H11].
  set (P := (q (i, j)).1) in *. set (A := (q (i, j)).2) in *. specialize (H8 ltac:(by rewrite Hph)).
  split; [by rewrite (sq_sizeval _ _ Hq)|]. eexists.
  assert (forall l, l ∈ P.*1 -> l ∈ (P ++ A).*1) as HPA.
  { intros l Hl. rewrite fmap_app. apply elem_of_app. by left. }
  apply (holds_update s s' (views a) _ q (i, j) P A Hh Hin).
  - intros kl Hk. cbn. by rewrite decide_False.
  - intros kl Hk. apply (sq_queue _ _ Hq).
  - intros l Hl _. rewrite Hheap. apply marks_lookup_ne. intros H%Hls. by apply Hl, HPA.
  - intros l Hl. by left.
  - intros l Hl Hl'. by destruct Hl'.
  - pose proof (sq_queue _ _ Hq i j) as [= Q1 Q2 Q3 Q4]. unfold chemin_of in *. cbn [fst snd] in *.
    cbn. rewrite decide_True by done.
    constructor; cbn [taken added ph]; unfold chemin_of; cbn [fst snd]; rewrite ?Q1, ?Q2, ?Q3, ?Q4; try done.
    + rewrite Hheap. by apply chain_marks.
    + rewrite Hheap. apply Forall_forall. intros x Hx. rewrite used_marks.
      * rewrite bool_decide_false; [by apply (proj1 (Forall_forall _ _) H10)|]. intros H%Hls.
        rewrite fmap_app in H5. apply NoDup_app in H5 as (_ & Hd & _). apply (Hd x.1 H). by apply list_elem_of_fmap_2.
      * apply Forall_forall. intros l Hl%Hls. by apply (chain_heap _ (P ++ A)), HPA.
  - cbn. rewrite decide_True by done. rewrite (sq_taille _ _ Hq), (hs_taille _ _ _ Hh). f_equal.
    unfold view_size. cbn [taken added]. lia.
Qed.

Lemma measure_ok junk path_socket i j ab s a : refines s a -> enabled a (Measure i j) ->
  safe (estimate_pair junk path_socket i j ab s) (fun r => refines r.2 (spec_step a (Measure i j))).
Proof.
  intros (Hc & q & Hh) Hen. pose proof Hen as [Hin Hph].
  pose proof (hs_pair _ _ _ Hh _ Hin) as [H1 H2 H3 H4 H5 H6 H7 H8 H9 H10 H11].
  set (P := (q (i, j)).1) in *. set (A := (q (i, j)).2) in *.
  specialize (H8 ltac:(by rewrite Hph)). specialize (H9 ltac:(by rewrite Hph)).
  destruct (last_loc P) as [e|] eqn:He.
  - rewrite (estimate_pair_groups junk path_socket i j ab s P A e) by done.
    destruct (groups_partition (length P) P ltac:(lia)) as (G1 & G2 & _).
    eapply safe_bind; [apply (estimate_groups_safe junk path_socket e P.*1)|].
    + intros g Hg. rewrite Forall_forall in G2. destruct (G2 g Hg) as ([l nd] & r & -> & _). exists l, nd, r. split; [done|].
      intros x (y & -> & Hy)%list_elem_of_fmap. apply list_elem_of_fmap_2. rewrite <- G1.
      apply list_elem_of_In, in_concat. exists ((l, nd) :: r). by split; apply list_elem_of_In.
    + intros l Hl. apply (chain_heap _ (P ++ A)); [done|]. rewrite fmap_app. apply elem_of_app. by left.
    + intros s' (Hq & ls & Hls & Hheap). cbn. by apply (measured_ok i j s s' ls a q).
  - unfold estimate_pair. unfold chemin_of in H8. cbn in H8. rewrite H8. cbn.
    apply (measured_ok i j s s [] a q); [done..| |done]. by intros l Hl%not_elem_of_nil.
Qed.

(** *** Freeing *)

Lemma liberer_step i j s v q : holds s v q -> (i, j) ∈ pairs -> ph (v (i, j)) <> Idle ->
  exists s' q', liberer i j s = Ret s' /\
    holds s' (fun ij => if decide (ij = (i, j)) then Mk_view [] (added (v (i, j))) Idle else v ij) q'.
Proof.
  intros Hh Hin Hph. pose proof (hs_pair _ _ _ Hh _ Hin) as [H1 H2 H3 H4 H5 H6 H7 H8 H9 H10 H11].
  set (P := (q (i, j)).1) in *. set (A := (q (i, j)).2) in *.
  destruct (liberer_ok i j s P A (view_size (v (i, j))) (total v pairs)) as (s' & E & Hheap & Q1 & Q2 & Q3 & Hew & Ht);
    [done|done|done|done|by apply H8|done|apply (hs_taille _ _ _ Hh)|].
  assert (view_size (v (i, j)) = Z.of_nat (length P) + Z.of_nat (length A)) as Hsz.
  { unfold view_size. rewrite <- H1, <- H2, !length_fmap. lia. }
  pose proof H5 as Hnd. rewrite fmap_app in Hnd. apply NoDup_app in Hnd as (_ & Hd & HA).
  exists s'. eexists. split; [done|]. apply (holds_update s s' v _ q (i, j) [] A Hh Hin).
  - intros kl Hk. by rewrite decide_False.
  - intros kl Hk. by apply (elsewhere_queue i j).
  - intros l Hl _. rewrite Hheap, frees_lookup, decide_False; [done|]. intros H. apply Hl. unfold locs. rewrite fmap_app.
    apply elem_of_app. by left.
  - intros l Hl. left. unfold locs. rewrite fmap_app. apply elem_of_app. by right.
  - intros l Hl Hl'. unfold locs in Hl. rewrite fmap_app in Hl. apply elem_of_app in Hl as [Hl|Hl]; [|done].
    by rewrite Hheap, frees_lookup, decide_True.
  - rewrite decide_True by done. constructor; cbn [taken added ph app]; try done.
    + rewrite Hheap. apply chain_frees; [intros l Hl Hl'; by apply (Hd l)|]. by apply chain_app in H4.
    + apply Forall_forall. intros x Hx. unfold used_at. rewrite Hheap, frees_lookup, decide_False.
      * by apply (proj1 (Forall_forall _ _) H10).
      * intros H. apply (Hd x.1 H). by apply list_elem_of_fmap_2.
    + unfold chemin_of. cbn [fst snd]. rewrite Q3, Hsz. f_equal. unfold view_size. cbn [taken added length].
      rewrite <- H2, length_fmap. lia.
  - rewrite decide_True by done. rewrite Ht, Hsz. f_equal. unfold view_size. cbn [taken added length].
    rewrite <- H2, length_fmap. lia.
Qed.

Lemma liberer_flow_ok ps : NoDup ps -> (forall ij, ij ∈ ps -> ij ∈ pairs) -> forall s v q, holds s v q ->
  (forall ij, ij ∈ ps -> ph (v ij) <> Idle) ->
  exists s' q', ofold (fun s '(i, j) => liberer i j s) s ps = Ret s' /\
    holds s' (fun ij => if decide (ij ∈ ps) then Mk_view [] (added (v ij)) Idle else v ij) q'.
Proof.
  induction ps as [|[i j] ps IH]; intros Hnd Hps s v q Hh Hph; cbn [ofold].
  { exists s, q. split; [done|]. revert Hh. apply holds_ext. intros ij _. by rewrite decide_False by apply not_elem_of_nil. }
  apply NoDup_cons in Hnd as [Hni Hnd].
  destruct (liberer_step i j s v q Hh) as (s1 & q1 & -> & Hh1); [apply Hps; by left|apply Hph; by left|]. cbn [obind].
  destruct (IH Hnd (fun ij H => Hps ij (list_elem_of_further _ _ _ H)) s1 _ q1 Hh1) as (s2 & q2 & -> & Hh2).
  { intros ij Hij. rewrite decide_False by (by intros ->). apply Hph. by right. }
  exists s2, q2. split; [done|]. revert Hh2. apply holds_ext. intros ij _.
  destruct (decide (ij = (i, j))) as [->|Hne].
  - by rewrite (decide_False (P := (i, j) ∈ ps)), decide_True by (done || by left).
  - destruct (decide (ij ∈ ps)) as [Hin|Hin]; [by rewrite decide_True by by right|].
    by rewrite decide_False by (by intros [|]%elem_of_cons).
Qed.

(** ** A step of the thread, or an arrival *)

Lemma quiet_refines s s' a : quiet s s' -> refines s a -> refines s' a.
Proof.
  intros [Hh [Ht Hs Hq]] (Hc & q & Ha). split; [by rewrite Hs|]. exists q. by apply (holds_frame s).
Qed.

Lemma release_ok s a : refines s a -> enabled a Release ->
  safe (if sizeval s =? 0 then Ret s
        else let! s := liberer_flow s in Ret (set_sizeval 0 (set_overhead false (liberer_moniteurs s))))
    (fun s' => refines s' (spec_step a Release)).
Proof.
  intros (Hc & q & Hh) Hen. destruct (Z.eqb_spec (sizeval s) 0) as [Hz|Hz].
  - split; [done|]. exists q. rewrite Hc in Hz.
    assert (forall ij, ij ∈ pairs -> taken (views a ij) = []) as Ht by (intros ij Hij; by apply Hen).
    destruct Hh as [Hp Hd Hheap Htl]. constructor; [|done|done|].
    + intros ij Hij. destruct (Hp ij Hij) as [H1 H2 H3 H4 H5 H6 H7 H8 H9 H10 H11]. rewrite Ht in H1 by done.
      apply fmap_nil_inv in H1. rewrite H1 in *. constructor; try done. rewrite H11. f_equal. unfold view_size. by rewrite Ht.
    + rewrite Htl. f_equal. apply total_ext. intros ij Hij. unfold view_size. by rewrite Ht.
  - destruct (liberer_flow_ok pairs pairs_nodup (fun _ H => H) s (views a) q Hh) as (s' & q' & E & Hh').
    { intros ij Hij. by apply Hen. }
    unfold liberer_flow. rewrite E. cbn. split; [done|]. exists q'. apply (holds_frame s'); [done..|].
    revert Hh'. apply holds_ext. intros ij Hij. by rewrite decide_True.
Qed.

Section run.
Context (junk : bytes) (path_socket : Z -> Z -> peer_socket) (control_socket : nat -> peer_socket)
        (delta : nat -> double) (threshold : Z) (loverhead : bool) (lcompteur : Z).
Local Abbreviation exec := (exec junk path_socket control_socket delta threshold loverhead lcompteur).

Lemma exec_ok r a e : refines r.2 a -> enabled a e -> safe (exec r e) (fun r' => refines r'.2 (spec_step a e)).
Proof.
  destruct r as [[ab rep] s]. cbn [snd]. intros Hr Hen. destruct e as [ff|i j| |i j| | |]; cbn [EstimationRounds.exec].
  - destruct (arrive_ok threshold ff s a Hr) as (s' & -> & Hr'). done.
  - by apply take_ok.
  - destruct Hr as (Hc & q & Hh). split; [cbn; by rewrite (hs_taille _ _ _ Hh)|]. exists q. by apply (holds_frame s).
  - eapply safe_bind; [by apply measure_ok|]. by intros [ab' s'] H.
  - change (spec_step a Publish) with (Mk_spec (fun ij => views a ij) (counted a)).
    destruct (sizeval s =? 0); [done|]. eapply safe_bind; [apply publish_quiet|].
    intros [rep' s'] Hq. cbn in Hq |- *. by apply (quiet_refines s s' a).
  - pose proof (release_ok s a Hr Hen) as Hs. destruct (sizeval s =? 0); [done|].
    destruct (liberer_flow s); done.
  - cbn. apply (quiet_refines s _ a); [|done]. split; [done|]. by constructor.
Qed.

(** Runs in which every step is enabled. *)
Definition run (a : spec) (es : list event) : spec := foldl spec_step a es.

Lemma run_ok es : forall r a, refines r.2 a -> (forall es1 e es2, es = es1 ++ e :: es2 -> enabled (run a es1) e) ->
  safe (ofold exec r es) (fun r' => refines r'.2 (run a es)).
Proof.
  induction es as [|e es IH]; intros r a Hr Hen; [done|]. cbn [ofold].
  eapply safe_bind; [apply (exec_ok r a e Hr (Hen [] e es eq_refl))|]. intros r' Hr'. apply IH; [done|].
  intros es1 e' es2 ->. apply (Hen (e :: es1) e' es2). done.
Qed.
End run.

(** ** Schedules *)

Definition thread_event (e : event) : bool := match e with Arrive _ => false | _ => true end.

(** The flows of a pair that arrive. *)
Definition arrivals (ij : Z * Z) (es : list event) : list flot_node :=
  omap (fun e => match e with Arrive ff => if decide (as_pair ff = ij) then Some ff else None | _ => None end) es.

(** The events behind the first [x]. *)
Fixpoint after (x : event) (es : list event) : list event :=
  match es with
  | [] => []
  | e :: es => if decide (e = x) then es else after x es
  end.

Lemma after_app x es1 es2 : ~ x ∈ es1 -> after x (es1 ++ x :: es2) = es2.
Proof.
  induction es1 as [|e es1 IH]; intros Hx; cbn; [by rewrite decide_True|].
  rewrite decide_False by (intros ->; apply Hx; by left). apply IH. intros H. apply Hx. by right.
Qed.

Lemma arrivals_app ij es1 es2 : arrivals ij (es1 ++ es2) = arrivals ij es1 ++ arrivals ij es2.
Proof. apply omap_app. Qed.

Lemma filter_split {A} (P : A -> Prop) `{!forall x, Decision (P x)} x l2 : forall es l1,
  filter P es = l1 ++ x :: l2 -> exists es1 es2, es = es1 ++ x :: es2 /\ filter P es1 = l1 /\ filter P es2 = l2.
Proof.
  induction es as [|e es IH]; intros l1 E; [by destruct l1|]. rewrite filter_cons in E. destruct (decide (P e)) as [He|He].
  - destruct l1 as [|y l1]; injection E as <- E; [by exists [], es|].
    destruct (IH l1 E) as (es1 & es2 & -> & <- & <-). exists (e :: es1), es2. by rewrite filter_cons_True.
  - destruct (IH l1 E) as (es1 & es2 & -> & <- & <-). exists (e :: es1), es2. by rewrite filter_cons_False.
Qed.

Lemma NoDup_split {A} (x : A) l2 m2 : forall l1 m1, NoDup (l1 ++ x :: l2) -> l1 ++ x :: l2 = m1 ++ x :: m2 -> l1 = m1.
Proof.
  induction l1 as [|y l1 IH]; intros m1 Hnd E; destruct m1 as [|z m1].
  - done.
  - injection E as <- E. apply NoDup_cons in Hnd as [Hni _]. destruct Hni. rewrite E. apply elem_of_app. right. by left.
  - injection E as -> E. apply NoDup_cons in Hnd as [Hni _]. destruct Hni. apply elem_of_app. right. by left.
  - injection E as <- E. apply NoDup_cons in Hnd as [_ Hnd]. f_equal. by apply IH.
Qed.

Lemma thread_nodup : NoDup thread.
Proof. apply (bool_decide_unpack _). vm_compute. exact I. Qed.

(** The steps that change what the thread has of a pair. *)
Definition on_pair (ij : Z * Z) (e : event) : Prop := e = Take ij.1 ij.2 \/ e = Measure ij.1 ij.2 \/ e = Release.

Lemma view_step_add ij v e : ~ on_pair ij e -> view_step ij v e = Mk_view (taken v) (added v ++ arrivals ij [e]) (ph v).
Proof.
  intros Hn. destruct v as [t ad p], ij as [i j]. unfold on_pair in Hn. destruct e as [ff|k l| |k l| | |]; cbn in *.
  - case_decide; [done|]. by rewrite app_nil_r.
  - rewrite app_nil_r. case_decide as E; [|done]. injection E as -> ->. tauto.
  - by rewrite app_nil_r.
  - rewrite app_nil_r. case_decide as E; [|done]. injection E as -> ->. tauto.
  - by rewrite app_nil_r.
  - tauto.
  - by rewrite app_nil_r.
Qed.

Lemma view_run_add ij es : forall v, (forall e, e ∈ es -> ~ on_pair ij e) ->
  foldl (view_step ij) v es = Mk_view (taken v) (added v ++ arrivals ij es) (ph v).
Proof.
  induction es as [|e es IH]; intros v Hn; cbn [foldl]; [destruct v; cbn; by rewrite app_nil_r|].
  rewrite view_step_add by (apply Hn; by left). rewrite IH by (intros x Hx; apply Hn; by right).
  cbn [taken added ph]. change (e :: es) with ([e] ++ es). by rewrite (arrivals_app ij [e] es), app_assoc.
Qed.

Lemma run_views es : forall a ij, views (run a es) ij = foldl (view_step ij) (views a ij) es.
Proof. induction es as [|e es IH]; intros a ij; [done|]. apply (IH (spec_step a e)). Qed.

Lemma run_app a es1 es2 : run a (es1 ++ es2) = run (run a es1) es2.
Proof. unfold run. by rewrite foldl_app. Qed.

(** An arrival is one flow more. *)
Lemma total_step a e : total (views (spec_step a e)) pairs <= total (views a) pairs + 1.
Proof.
  assert (forall w, (forall ij, ij ∈ pairs -> view_size (w ij) <= view_size (views a ij)) -> total w pairs <= total (views a) pairs + 1) as Hle.
  { intros w. generalize pairs. intros l. induction l as [|ij l IH]; intros Hw; [cbn; lia|]. rewrite !total_cons.
    specialize (IH ltac:(intros kl Hk; apply Hw; by right)). specialize (Hw ij ltac:(by left)). lia. }
  destruct e as [ff|i j| |i j| | |]; cbn [spec_step views view_step]; try (by apply Hle).
  2, 3: apply Hle; intros ij _; case_decide; unfold view_size; cbn [taken added]; rewrite ?length_app; cbn [length]; lia.
  2: apply Hle; intros ij _; unfold view_size; cbn [taken added length]; lia.
  destruct (decide (as_pair ff ∈ pairs)) as [Hin|Hn].
  - rewrite (total_update (views a) _ pairs (as_pair ff) pairs_nodup Hin).
    + rewrite decide_True by done. unfold view_size. cbn [taken added]. rewrite length_app. cbn [length]. lia.
    + intros kl _ Hk. by rewrite decide_False.
  - apply Hle. intros ij Hij. rewrite decide_False; [lia|]. by intros <-.
Qed.

Lemma total_run es : forall a, total (views (run a es)) pairs <= total (views a) pairs + Z.of_nat (length es).
Proof.
  induction es as [|e es IH]; intros a; [cbn; lia|]. cbn [length]. specialize (IH (spec_step a e)). pose proof (total_step a e).
  change (run a (e :: es)) with (run (spec_step a e) es). lia.
Qed.

(** ** The program of the thread *)

Lemma thread_split i j : (i, j) ∈ pairs -> exists t1 t2 t3,
  thread = t1 ++ Take i j :: t2 ++ Measure i j :: t3 ++ [Release; Finish] /\ Forall (fun e => ~ on_pair (i, j) e) (t1 ++ t2 ++ t3).
Proof.
  intros Hin. pose proof pairs_nodup as Hnd. unfold thread. apply list_elem_of_split in Hin as (p1 & p2 & Ep). rewrite Ep in *.
  exists (uncurry Take <$> p1), ((uncurry Take <$> p2) ++ [Count] ++ (uncurry Measure <$> p1)), ((uncurry Measure <$> p2) ++ [Publish]).
  split; [by rewrite !fmap_app, !fmap_cons; cbn [uncurry app]; repeat (rewrite <- app_assoc; cbn [app])|].
  apply NoDup_app in Hnd as (_ & Hd & Hnd). apply NoDup_cons in Hnd as [H2 _].
  assert (~ (i, j) ∈ p1) as H1 by (intros H; apply (Hd _ H); by left).
  assert (forall p (f : Z -> Z -> event), ~ (i, j) ∈ p -> (f = Take \/ f = Measure) -> Forall (fun e => ~ on_pair (i, j) e) (uncurry f <$> p)) as Hf.
  { intros p f Hp Hf. apply Forall_forall. intros e ([k l] & -> & Hk)%list_elem_of_fmap Ho. apply Hp. unfold on_pair in Ho. cbn in Ho.
    destruct Hf as [-> | ->]; destruct Ho as [[= -> ->]|[[= -> ->]|[=]]]; done. }
  assert (forall e, e = Count \/ e = Publish -> ~ on_pair (i, j) e) as Hc by (unfold on_pair; by intros e [-> | ->] [|[|]]).
  repeat apply Forall_app_2; try (by apply Hf; auto); apply Forall_singleton; auto.
Qed.

Lemma thread_pairs i j e : e = Take i j \/ e = Measure i j -> e ∈ thread -> (i, j) ∈ pairs.
Proof.
  unfold thread. rewrite !elem_of_app, !list_elem_of_fmap, !elem_of_cons, elem_of_nil. intros He H.
  destruct H as [([k l] & E & Hk)|[[H|[]]|[([k l] & E & Hk)|[H|[H|[H|[]]]]]]]; destruct He as [-> | ->]; cbn in *; congruence.
Qed.

Lemma off_pair ij es : Forall (fun e => ~ on_pair ij e) (filter thread_event es) -> forall e, e ∈ es -> ~ on_pair ij e.
Proof.
  intros HF e He Ho. rewrite Forall_forall in HF. apply (HF e); [|done]. apply list_elem_of_filter. split; [|done].
  destruct Ho as [-> |[-> | ->]]; done.
Qed.

Lemma counted_run es : forall a, (forall e, e ∈ es -> e <> Count /\ e <> Release) -> counted (run a es) = counted a.
Proof.
  induction es as [|e es IH]; intros a He; [done|]. change (run a (e :: es)) with (run (spec_step a e) es).
  rewrite IH by (intros x Hx; apply He; by right). destruct (He e ltac:(by left)). by destruct e.
Qed.

Lemma taken_run ij es : forall v, (forall e, e ∈ es -> e <> Take ij.1 ij.2 /\ e <> Release) -> taken (foldl (view_step ij) v es) = taken v.
Proof.
  induction es as [|e es IH]; intros v He; [done|]. cbn [foldl]. rewrite IH by (intros x Hx; apply He; by right).
  destruct (He e ltac:(by left)) as [H1 H2]. destruct e as [ff|k l| |k l| | |]; cbn; try done; case_decide as E; try done.
  by subst ij.
Qed.

(** The thread takes no step too early. *)
Section schedule.
Context (a : spec) (es : list event).
Hypothesis Hidle : forall ij, ij ∈ pairs -> ph (views a ij) = Idle.
Hypothesis Hthread : filter thread_event es = thread.
Hypothesis Hsize : total (views a) pairs + Z.of_nat (length es) < 18446744073709551616.

Lemma prefix es1 e es2 t1 t2 : es = es1 ++ e :: es2 -> thread_event e -> thread = t1 ++ e :: t2 -> filter thread_event es1 = t1.
Proof.
  intros -> He Ht. pose proof Hthread as Hf. rewrite filter_app, filter_cons_True in Hf by done.
  apply (NoDup_split e (filter thread_event es2) t2); rewrite Hf; [apply thread_nodup|done].
Qed.

Lemma released_none es1 i j : (i, j) ∈ pairs -> (length es1 <= length es)%nat ->
  filter thread_event es1 = (uncurry Take <$> pairs) ++ Count :: (uncurry Measure <$> pairs) ++ [Publish] ->
  counted (run a es1) = 0 -> taken (views (run a es1) (i, j)) = [].
Proof.
  intros Hin Hlen Hf. destruct (filter_split _ _ _ _ _ Hf) as (c1 & c2 & -> & _ & Hf2).
  assert (forall e, e ∈ c2 -> thread_event e -> e = Publish \/ exists kl, e = uncurry Measure kl) as Hc2.
  { intros e He Ht. assert (e ∈ filter thread_event c2) as H by by apply list_elem_of_filter.
    rewrite Hf2 in H. apply elem_of_app in H as [(kl & -> & _)%list_elem_of_fmap|H%list_elem_of_singleton]; [right; by exists kl|by left]. }
  rewrite run_app. change (run (run a c1) (Count :: c2)) with (run (spec_step (run a c1) Count) c2).
  rewrite counted_run; [|intros e He; split; intros ->; by destruct (Hc2 _ He I) as [|[[] ?]]].
  rewrite run_views, taken_run; [|intros e He; split; intros ->; by destruct (Hc2 _ He I) as [|[[] ?]]].
  cbn [spec_step counted views view_step]. intros Hz. rewrite length_app in Hlen. cbn [length] in Hlen.
  pose proof (total_run c1 a) as Hle. pose proof (total_nonneg (views (run a c1)) pairs) as H0.
  rewrite wrap64_small in Hz by (unfold u64; lia). pose proof (total_member (views (run a c1)) pairs (i, j) Hin) as Hm.
  unfold view_size in Hm. destruct (taken (views (run a c1) (i, j))); [done|]. cbn [length] in Hm. lia.
Qed.

Lemma schedule_enabled es1 e es2 : es = es1 ++ e :: es2 -> enabled (run a es1) e.
Proof.
  intros E. destruct (thread_event e) eqn:Ht; [|by destruct e]. apply Is_true_true in Ht.
  assert (e ∈ thread) as Hin.
  { rewrite <- Hthread, E. apply list_elem_of_filter. split; [done|]. apply elem_of_app. right. by left. }
  destruct e as [ff|i j| |i j| | |]; try done; cbn [enabled].
  - apply (thread_pairs i j) in Hin; [|by left]. split; [done|]. destruct (thread_split i j Hin) as (t1 & t2 & t3 & Et & HF).
    apply Forall_app in HF as [H1 _]. rewrite <- (prefix _ _ _ _ _ E Ht Et) in H1.
    rewrite run_views, view_run_add by (by apply off_pair). cbn [ph]. by apply Hidle.
  - apply (thread_pairs i j) in Hin; [|by right]. split; [done|]. destruct (thread_split i j Hin) as (t1 & t2 & t3 & Et & HF).
    rewrite app_comm_cons, app_assoc in Et. pose proof (prefix _ _ _ _ _ E Ht Et) as Hp.
    destruct (filter_split _ _ _ _ _ Hp) as (e1 & e2 & -> & _ & Hf2). apply Forall_app in HF as [_ [H2 _]%Forall_app].
    rewrite <- Hf2 in H2. rewrite run_views, foldl_app. cbn [foldl]. rewrite view_run_add by (by apply off_pair).
    cbn. by rewrite decide_True.
  - intros [i j] Hij. destruct (thread_split i j Hij) as (t1 & t2 & t3 & Et & HF).
    split.
    + assert (thread = (t1 ++ Take i j :: t2 ++ Measure i j :: t3) ++ Release :: [Finish]) as Et'.
      { rewrite Et. by repeat (rewrite <- app_assoc; cbn [app]). }
      pose proof (prefix _ _ _ _ _ E Ht Et') as Hp.
      destruct (filter_split _ _ _ _ _ Hp) as (e1 & e2 & -> & _ & Hf2).
      destruct (filter_split _ _ _ _ _ Hf2) as (e3 & e4 & -> & _ & Hf4).
      apply Forall_app in HF as [_ [_ H3]%Forall_app]. rewrite <- Hf4 in H3.
      rewrite run_views, foldl_app. cbn [foldl]. rewrite foldl_app. cbn [foldl]. rewrite view_run_add by (by apply off_pair).
      cbn. by rewrite decide_True.
    + apply (released_none es1 i j Hij); [rewrite E, length_app; lia|]. apply (prefix _ _ _ _ [Finish] E Ht).
      unfold thread. by repeat (rewrite <- app_assoc; cbn [app]).
Qed.

(** What the machine has at the end. *)
Lemma schedule_end ij : ij ∈ pairs ->
  views (run a es) ij = Mk_view [] (arrivals ij (after (Take ij.1 ij.2) es)) Idle.
Proof.
  intros Hij. destruct ij as [i j]. destruct (thread_split i j Hij) as (t1 & t2 & t3 & Et & HF).
  pose proof Hthread as Hf. rewrite Et in Hf. rewrite !Forall_app in HF. destruct HF as (HF1 & HF2 & HF3).
  destruct (filter_split _ _ _ _ _ Hf) as (e1 & r1 & -> & Hf1 & Hf1').
  destruct (filter_split _ _ _ _ _ Hf1') as (e2 & r2 & -> & Hf2 & Hf2').
  destruct (filter_split _ _ _ _ _ Hf2') as (e3 & e4 & -> & Hf3 & Hf4).
  rewrite <- Hf1 in HF1. rewrite <- Hf2 in HF2. rewrite <- Hf3 in HF3.
  cbn [fst snd]. rewrite after_app by (intros H; apply (off_pair (i, j) e1 HF1 _ H); by left).
  rewrite run_views, foldl_app, (view_run_add _ e1) by by apply off_pair. cbn [foldl].
  rewrite foldl_app, (view_run_add _ e2) by by apply off_pair. cbn [foldl].
  rewrite foldl_app, (view_run_add _ e3) by by apply off_pair. cbn [foldl].
  rewrite (view_run_add _ e4).
  - cbn [view_step]. rewrite !decide_True by done. cbn [taken added ph]. rewrite !arrivals_app. cbn [app].
    f_equal. change (Measure i j :: e3 ++ Release :: e4) with ([Measure i j] ++ e3 ++ [Release] ++ e4).
    by rewrite !arrivals_app, <- app_assoc.
  - intros e He Ho. assert (e ∈ [Finish]) as H.
    { rewrite <- Hf4. apply list_elem_of_filter. split; [|done]. by destruct Ho as [-> |[-> | ->]]. }
    apply list_elem_of_singleton in H as ->. by destruct Ho as [|[|]].
Qed.
End schedule.

(** C17: a round of the estimation thread in the middle of arrivals.  Whatever the order
    in which flows arrive between the steps of the thread, and whatever the sockets
    give, no node is used after it was freed and all loops end; if the round ends
    normally, the lists hold exactly the flows of each pair that arrived behind the
    moment at which the thread took the list, in the order of their arrival, each in
    one node that no flow has used, and every other node has been freed. *)
Theorem round_interleaved junk path_socket control_socket delta threshold loverhead lcompteur s a es :
  refines s a -> (forall ij, ij ∈ pairs -> ph (views a ij) = Idle) -> filter thread_event es = thread ->
  total (views a) pairs + Z.of_nat (length es) < 18446744073709551616 ->
  safe (ofold (exec junk path_socket control_socket delta threshold loverhead lcompteur) (0, None, s) es)
    (fun '(ab, rep, s') => exists a', refines s' a' /\
       forall ij, ij ∈ pairs -> views a' ij = Mk_view [] (arrivals ij (after (Take ij.1 ij.2) es)) Idle).
Proof.
  intros Hr Hidle Hthread Hsize.
  eapply safe_mono; [apply (run_ok _ _ _ _ _ _ _ es (0, None, s) a Hr)|].
  - intros es1 e es2. by apply (schedule_enabled a es).
  - intros [[ab rep] s'] Hr'. exists (run a es). split; [exact Hr'|]. intros ij Hij. by apply (schedule_end a es).
Qed.

(** At the start there is no flow. *)
Definition no_flows : spec := Mk_spec (fun _ => Mk_view [] [] Idle) 0.

Lemma total_none l : total (fun _ => Mk_view [] [] Idle) l = 0.
Proof. induction l as [|ij l IH]; [done|]. by rewrite total_cons, IH. Qed.

Lemma refines_init : refines est_init no_flows.
Proof.
  split; [done|]. exists (fun _ => ([], [])). constructor.
  - intros ij _. constructor; try done. constructor.
  - intros ij kl l _ _ Hl. by apply not_elem_of_nil in Hl.
  - intros l Hl. by apply is_Some_None in Hl.
  - cbn. by rewrite total_none.
Qed.

(** ** Example: flows that arrive before the round and in the middle of it *)

Definition sample_agent : bytes := text_of "10.0.0.127"%string.
Definition sample_schedule : list event :=
  [Arrive (sample_report sample_agent 1000 3); Arrive (sample_report sample_agent 1000 4);
   Arrive (sample_report sample_agent 2000 5)] ++
  take 600 thread ++ Arrive (sample_report sample_agent 1000 7) :: drop 600 thread.
(** The path of the pair is the interface 10.0.0.127. *)
Definition sample_run : outcome (Z * option report * est) :=
  ofold (exec (replicate 20 0) (fun _ _ => Mk_peer_socket true true true (Some (sample_agent ++ [35; 0])))
           (fun _ => Mk_peer_socket true true true None) (fun _ => of_int 0) 100 false 60) (0, None, est_init) sample_schedule.

Lemma round_interleaved_witness :
  safe sample_run (fun '(ab, rep, s') => exists a', refines s' a' /\
       forall ij, ij ∈ pairs -> views a' ij = Mk_view [] (arrivals ij (after (Take ij.1 ij.2) sample_schedule)) Idle).
Proof.
  unfold sample_run. apply (round_interleaved _ _ _ _ _ _ _ est_init no_flows sample_schedule).
  - exact refines_init.
  - done.
  - vm_compute. reflexivity.
  - vm_compute. reflexivity.
Defined.

(** The run returns: three reports in two flows, and the late report is alone in the list. *)
Example sample_round :
  match sample_run with
  | Ret (ab, rep, s) =>
      (ab, nombre_rapport ∘ rp_result <$> rep, node ∘ snd <$> map_to_list (heap s), taille s,
       bool_decide (flow_list (chemin_at s 0 1) = AddFlow (chemin_at s 0 1))) =
      (3, Some 2, [sample_report sample_agent 1000 7], 1, true)
  | _ => False
  end.
Proof. vm_compute. reflexivity. Qed.
