(* ===== verification/Routing.v ===== *)
(** * The emulated network (src/NSP/Link.cpp, Node.cpp, Router.cpp, TransitNetwork.cpp)

    The routers and links of a transit network, as NSP builds them from its topology,
    and the routes between the routers: ExploreGraph walks the network from every
    router, Dijkstra computes the costs of the routers found, and the packets are
    forwarded from router to router.

    A router and a link are their addresses; the objects are kept in two heaps.  An
    std::map whose keys are pointers is iterated in the order of the addresses.  A
    function that throws prints the exception and falls off its end. *)

From Stdlib Require Import Ascii.
From stdpp Require Import gmap strings sorting pretty.
From S2P Require Import Prelude.
Open Scope Z_scope.

(** ** Links *)

Record Link := Mk_Link {
  sAdapter1 : string;
  sAdapter2 : string;
  uCost : Z;
  uBandwidth : Z;
  uDelay : Z;
  iNumberOfDest : Z;
  mFinalDest : gmap string string
}.

(** The constructor, in the order of its tests; [junk] is what new gives, where a
    member is not assigned.  The tests of the unsigned arguments never fail. *)
Definition new_Link (junk : Link) (Cost Bandwidth Delay : Z) (sAd1 sAd2 : string) (iNbrDst : Z) (mDests : gmap string string) : Link :=
  if iNbrDst <=? 0 then Mk_Link "" "" (uCost junk) (uBandwidth junk) (uDelay junk) (iNumberOfDest junk) ∅
  else
    let l := Mk_Link "" "" (wrap32 Cost) (wrap32 Bandwidth) (wrap32 Delay) iNbrDst ∅ in
    if decide (sAd1 = "") then l
    else
      let l := Mk_Link sAd1 "" (uCost l) (uBandwidth l) (uDelay l) iNbrDst ∅ in
      if decide (sAd2 = "") then l else Mk_Link sAd1 sAd2 (uCost l) (uBandwidth l) (uDelay l) iNbrDst mDests.

Definition IsItAFinalDest (l : Link) (sFinalDest : string) : outcome bool :=
  if decide (mFinalDest l = ∅) then Undef MissingReturn else Ret (bool_decide (is_Some (mFinalDest l !! sFinalDest))).
Definition IsItOneOfTheAdapters (l : Link) (sAd : string) : bool := bool_decide (sAdapter1 l = sAd \/ sAdapter2 l = sAd).
Definition GetTheOppositeAdapter (l : Link) (ad : string) : outcome string :=
  if decide (ad = sAdapter1 l) then Ret (sAdapter2 l)
  else if decide (ad = sAdapter2 l) then Ret (sAdapter1 l)
  else Undef MissingReturn.

(** ** Routers *)

Record Router := Mk_Router {
  iNumberOfNetworkAdapters : Z;
  ptrListOfLinks : list positive;
  ListOfAdapters : list string;
  iRouterNumber : Z;
  iIsMonitor : Z;
  listEdgeAS : list string;
  visitedBy : gmap positive string;
  visitedRouters : gmap string (list positive);
  directRoutersCosts : gmap positive Z;
  allRoutersCosts : gmap positive Z;
  prevRouters : gmap positive (option positive);
  nextRouter : gmap positive (option positive)
}.

Definition set_node (ls : list positive) (ads : list string) (r : Router) : Router :=
  Mk_Router (iNumberOfNetworkAdapters r) ls ads (iRouterNumber r) (iIsMonitor r) (listEdgeAS r) (visitedBy r) (visitedRouters r)
    (directRoutersCosts r) (allRoutersCosts r) (prevRouters r) (nextRouter r).
Definition set_visitedBy v r : Router :=
  Mk_Router (iNumberOfNetworkAdapters r) (ptrListOfLinks r) (ListOfAdapters r) (iRouterNumber r) (iIsMonitor r) (listEdgeAS r) v (visitedRouters r)
    (directRoutersCosts r) (allRoutersCosts r) (prevRouters r) (nextRouter r).
Definition set_visitedRouters v r : Router :=
  Mk_Router (iNumberOfNetworkAdapters r) (ptrListOfLinks r) (ListOfAdapters r) (iRouterNumber r) (iIsMonitor r) (listEdgeAS r) (visitedBy r) v
    (directRoutersCosts r) (allRoutersCosts r) (prevRouters r) (nextRouter r).
Definition set_directRoutersCosts v r : Router :=
  Mk_Router (iNumberOfNetworkAdapters r) (ptrListOfLinks r) (ListOfAdapters r) (iRouterNumber r) (iIsMonitor r) (listEdgeAS r) (visitedBy r) (visitedRouters r)
    v (allRoutersCosts r) (prevRouters r) (nextRouter r).
Definition set_routes c p n r : Router :=
  Mk_Router (iNumberOfNetworkAdapters r) (ptrListOfLinks r) (ListOfAdapters r) (iRouterNumber r) (iIsMonitor r) (listEdgeAS r) (visitedBy r) (visitedRouters r)
    (directRoutersCosts r) c p n.

(** Node::AddLink and Node::AddAdapterAdr; both leave room for one more. *)
Definition Node_AddLink (l : positive) (r : Router) : Router :=
  if wrap64 (iNumberOfNetworkAdapters r) <? Z.of_nat (length (ptrListOfLinks r)) then r
  else set_node (ptrListOfLinks r ++ [l]) (ListOfAdapters r) r.
Definition AddAdapterAdr (ip : string) (r : Router) : Router :=
  if decide (ip = "") then r
  else if wrap64 (iNumberOfNetworkAdapters r) <? Z.of_nat (length (ListOfAdapters r)) then r
  else set_node (ptrListOfLinks r) (ListOfAdapters r ++ [ip]) r.

Definition IsItYourAdapter (r : Router) (sAdapter : string) : outcome bool :=
  if decide (sAdapter = "") then Undef MissingReturn else Ret (bool_decide (sAdapter ∈ ListOfAdapters r)).

Definition GetEdgeAs (r : Router) : outcome string :=
  match listEdgeAS r with [] => Undef MissingReturn | a :: _ => Ret a end.
Definition IsEdgeTo (r : Router) (a : string) : outcome bool :=
  if decide (a = "") then Undef MissingReturn else Ret (bool_decide (a ∈ listEdgeAS r)).

(** Two addresses: the start and the interface. *)
Definition WasVesitor (r : Router) (p : positive) (interface : string) : bool :=
  bool_decide (visitedBy r !! p = Some interface).
Definition AddVisitedRouter (i : string) (p : positive) (r : Router) : Router :=
  set_visitedRouters (<[i := default [] (visitedRouters r !! i) ++ [p]]> (visitedRouters r)) r.

(** std::map::insert keeps an entry that is there. *)
Definition map_insert `{Countable K} {A} (k : K) (a : A) (m : gmap K A) : gmap K A :=
  match m !! k with Some _ => m | None => <[k := a]> m end.

(** The keys of a map from pointers, in the order of an iteration. *)
Definition keys {A} (m : gmap positive A) : list positive := merge_sort Pos.le (elements (dom m)).

(** ** The network *)

Record TransitNetwork := Mk_TransitNetwork {
  ListOfDestAs : list Z;
  ListOfSrcAs : list Z;
  iNumberOfRouters : Z;
  iNumberOfLinks : Z;
  ListOfRouters : list positive;
  ListOfLinks : list positive;
  routers : gmap positive Router;
  links : gmap positive Link
}.

Definition set_routers v t := Mk_TransitNetwork (ListOfDestAs t) (ListOfSrcAs t) (iNumberOfRouters t) (iNumberOfLinks t) (ListOfRouters t) (ListOfLinks t) v (links t).
Definition set_links v t := Mk_TransitNetwork (ListOfDestAs t) (ListOfSrcAs t) (iNumberOfRouters t) (iNumberOfLinks t) (ListOfRouters t) (ListOfLinks t) (routers t) v.
Definition set_lists rs ls t := Mk_TransitNetwork (ListOfDestAs t) (ListOfSrcAs t) (iNumberOfRouters t) (iNumberOfLinks t) rs ls (routers t) (links t).
Definition set_As d s t := Mk_TransitNetwork d s (iNumberOfRouters t) (iNumberOfLinks t) (ListOfRouters t) (ListOfLinks t) (routers t) (links t).
Definition set_numbers r l t := Mk_TransitNetwork (ListOfDestAs t) (ListOfSrcAs t) r l (ListOfRouters t) (ListOfLinks t) (routers t) (links t).

Definition put_router p r t : TransitNetwork := set_routers (<[p := r]> (routers t)) t.
Definition put_link p l t : TransitNetwork := set_links (<[p := l]> (links t)) t.

Definition get_router (t : TransitNetwork) (p : positive) : outcome Router :=
  match routers t !! p with Some r => Ret r | None => Undef UseAfterFree end.
Definition get_link (t : TransitNetwork) (p : positive) : outcome Link :=
  match links t !! p with Some l => Ret l | None => Undef UseAfterFree end.
Definition not_null {A} (p : option A) : outcome A := match p with Some a => Ret a | None => Undef NullDeref end.

(** The first element of a list that a test takes, as a loop with return gives it. *)
Fixpoint find_first {A B} (f : A -> outcome (option B)) (l : list A) : outcome (option B) :=
  match l with
  | [] => Ret None
  | a :: l => let! b := f a in match b with Some b => Ret (Some b) | None => find_first f l end
  end.

(** [l] is the address of the new link. *)
Definition AddLink (junk : Link) (l : positive) (ad1 ad2 : string) (iBandwidth iCost iDelay iNumberOfDests : Z)
    (dests : gmap string string) (t : TransitNetwork) : TransitNetwork :=
  if decide (ad1 = "" \/ ad2 = "") then t
  else if Z.of_nat (length (ListOfLinks t)) <? wrap64 (iNumberOfLinks t) then
    set_lists (ListOfRouters t) (ListOfLinks t ++ [l])
      (put_link l (new_Link junk iCost iBandwidth iDelay ad1 ad2 iNumberOfDests dests) t)
  else t.

Definition Tn_GetLink (t : TransitNetwork) (sSourceIp sFd : string) : outcome positive :=
  let! r := find_first (fun p =>
    let! l := get_link t p in
    let! b := if IsItOneOfTheAdapters l sSourceIp then IsItAFinalDest l sFd else Ret false in
    if b then Ret (Some p)
    else if IsItOneOfTheAdapters l sSourceIp && bool_decide (sFd = "AddingARouter") then Ret (Some p)
    else Ret None) (ListOfLinks t) in
  match r with Some p => Ret p | None => Undef MissingReturn end.

(** [p] is the address of the new router; the interfaces that are sampled are kept
    with the sampling (RouterSampling). *)
Definition new_Router (nAd id monitor : Z) (edges : list string) : Router :=
  Mk_Router nAd [] [] id monitor edges ∅ ∅ ∅ ∅ ∅ ∅.

Definition AddRouter (p : positive) (iNumber iNumberOfAdapters : Z) (lIps : list string) (monitor : Z) (edges : list string)
    (t : TransitNetwork) : outcome TransitNetwork :=
  if Z.of_nat (length (ListOfRouters t)) <? wrap64 (iNumberOfRouters t) then
    let! r := ofold (fun r ip => let! l := Tn_GetLink t ip "AddingARouter" in Ret (AddAdapterAdr ip (Node_AddLink l r)))
                    (new_Router iNumberOfAdapters iNumber monitor edges) lIps in
    Ret (set_lists (ListOfRouters t ++ [p]) (ListOfLinks t) (put_router p r t))
  else Ret t.

(** The router that has an adapter. *)
Definition GetRouter (t : TransitNetwork) (sAdapter : string) (lookingForAnEdge : bool) : outcome (option positive) :=
  if decide (sAdapter = "") then Undef MissingReturn
  else
    find_first (fun p =>
      let! r := get_router t p in
      let! b := IsItYourAdapter r sAdapter in
      if b then Ret (Some p)
      else if lookingForAnEdge then let! b := IsEdgeTo r sAdapter in Ret (if b then Some p else None)
      else Ret None) (ListOfRouters t).

Definition GetRouterFromId (t : TransitNetwork) (id : Z) : outcome (option positive) :=
  find_first (fun p => let! r := get_router t p in Ret (if iRouterNumber r =? id then Some p else None)) (ListOfRouters t).

Definition GetTheEdgeRouterOf (t : TransitNetwork) (a : string) : outcome (option positive) :=
  find_first (fun p => let! r := get_router t p in let! e := GetEdgeAs r in Ret (if decide (e = a) then Some p else None))
    (ListOfRouters t).

(** Node::GetLink *)
Definition Node_GetLink (t : TransitNetwork) (r : Router) (adapter : string) : outcome (option positive) :=
  find_first (fun p => let! l := get_link t p in Ret (if IsItOneOfTheAdapters l adapter then Some p else None)) (ptrListOfLinks r).

(** The networks's autonomous systems.  The loop of AddSourceAs never goes on to the
    second system. *)
Definition AddDestAs (n : Z) (t : TransitNetwork) : TransitNetwork :=
  if bool_decide (n ∈ ListOfDestAs t) then t else set_As (ListOfDestAs t ++ [n]) (ListOfSrcAs t) t.
Definition AddSourceAs (n : Z) (t : TransitNetwork) : outcome TransitNetwork :=
  match ListOfSrcAs t with
  | [] => Ret (set_As (ListOfDestAs t) [n] t)
  | m :: _ => if n =? m then Ret t else Diverges
  end.

(** "As" and the number, which sprintf writes to an array of 10 characters. *)
Definition as_name (n : Z) : outcome string :=
  if (String.length (pretty n) <? 10)%nat then Ret ("As" +:+ pretty n) else Undef OutOfBounds.

(** Whether the system is connected, and the network. *)
Definition ConnectToAs (n : Z) (t : TransitNetwork) : outcome (bool * TransitNetwork) :=
  match ListOfLinks t with
  | [] => Ret (false, t)
  | ls =>
      let! sAdr := as_name n in
      ofold (fun '(b, t) p =>
        let! l := get_link t p in
        if IsItOneOfTheAdapters l sAdr then
          let! d := IsItAFinalDest l sAdr in
          let! t := if d then Ret (AddDestAs n t) else AddSourceAs n t in Ret (true, t)
        else Ret (b, t)) (false, t) ls
  end.

Definition CouldYouForwrdTo (t : TransitNetwork) (iAsNumber : Z) : outcome bool :=
  if iAsNumber <? 0 then Undef MissingReturn
  else match ListOfDestAs t with [] => Undef MissingReturn | l => Ret (bool_decide (iAsNumber ∈ l)) end.

(** ** The walk through the network *)

(** find_first_of("As") != npos: one of the two characters is in the name. *)
Fixpoint has_A_or_s (s : string) : bool :=
  match s with
  | EmptyString => false
  | String c s => bool_decide (c = "A"%char \/ c = "s"%char) || has_A_or_s s
  end.

Definition clear_visitedBy (t : TransitNetwork) : outcome TransitNetwork :=
  ofold (fun t p => let! r := get_router t p in Ret (put_router p (set_visitedBy ∅ r) t)) t (ListOfRouters t).

(** The router behind an adapter and the cost of the link, unless a system is there. *)
Definition far_router (t : TransitNetwork) (currentNode : positive) (ad : string) : outcome (option (positive * Z)) :=
  let! r := get_router t currentNode in
  let! lp := Node_GetLink t r ad in
  let! lp := not_null lp in
  let! l := get_link t lp in
  let! oa := GetTheOppositeAdapter l ad in
  if has_A_or_s oa then Ret None
  else let! next := GetRouter t oa false in let! next := not_null next in Ret (Some (next, swrap32 (uCost l))).

(** The interface [i] of the start leads to the router [next]. *)
Definition mark (startNode : positive) (i : string) (next : positive) (t : TransitNetwork) : outcome TransitNetwork :=
  let! sr := get_router t startNode in
  let t := put_router startNode (AddVisitedRouter i next sr) t in
  let! nr := get_router t next in
  Ret (put_router next (set_visitedBy (map_insert startNode i (visitedBy nr)) nr) t).

(** The cost of the link to a neighbour; all marks are cleared. *)
Definition end_of_adapter (startNode next : positive) (cost : Z) (t : TransitNetwork) : outcome TransitNetwork :=
  let! sr := get_router t startNode in
  clear_visitedBy (put_router startNode (set_directRoutersCosts (map_insert next cost (directRoutersCosts sr)) sr) t).

(** ExploreNodeGraph; [cc] is whether the walk has left the start.  The routers are
    never null here, so the result, which nothing uses, is left out. *)
Fixpoint ExploreNodeGraph (fuel : nat) (currentNode startNode : positive) (cc : bool) (startInterface : string) (t : TransitNetwork)
    : outcome TransitNetwork :=
  match fuel with
  | O => Diverges
  | S fuel =>
      if bool_decide (currentNode = startNode) && cc then Ret t
      else
        let! r := get_router t currentNode in
        let top := bool_decide (currentNode = startNode) && negb cc in
        ofold (fun t ad =>
          let! far := far_router t currentNode ad in
          match far with
          | None => Ret t
          | Some (next, cost) =>
              let tmp := if top then ad else startInterface in
              let! nr := get_router t next in
              let! t :=
                if negb (bool_decide (next = currentNode)) && negb (WasVesitor nr startNode tmp) && negb (bool_decide (next = startNode)) then
                  let! t := mark startNode tmp next t in
                  if top then ExploreNodeGraph fuel next startNode true ad t
                  else ExploreNodeGraph fuel next startNode cc startInterface t
                else Ret t in
              if top then end_of_adapter startNode next cost t else Ret t
          end) t (ListOfAdapters r)
  end.

(** UpdateLinksDests: the interfaces in the order of the map. *)
Definition string_le (a b : string) : Prop := String.leb a b = true.
#[export] Instance string_le_dec : RelDecision string_le.
Proof. intros a b. unfold string_le. apply _. Defined.

(** The system of the router [q] is behind the adapter [oi]. *)
Definition add_dest (lp : positive) (oi : string) (t : TransitNetwork) (q : positive) : outcome TransitNetwork :=
  let! l := get_link t lp in
  let! rq := get_router t q in
  let! e := GetEdgeAs rq in
  Ret (put_link lp (Mk_Link (sAdapter1 l) (sAdapter2 l) (uCost l) (uBandwidth l) (uDelay l) (iNumberOfDest l)
                      (map_insert e oi (mFinalDest l))) t).

Definition update_interface (p : positive) (t : TransitNetwork) (ci : string) : outcome TransitNetwork :=
  let! r := get_router t p in
  let! lp := Node_GetLink t r ci in
  let! lp := not_null lp in
  let! l := get_link t lp in
  let! oi := GetTheOppositeAdapter l ci in
  ofold (add_dest lp oi) t (default [] (visitedRouters r !! ci)).

Definition UpdateLinksDests (p : positive) (t : TransitNetwork) : outcome TransitNetwork :=
  let! r := get_router t p in
  ofold (update_interface p) t (merge_sort string_le (elements (dom (visitedRouters r)))).

(** ** Dijkstra *)

Definition GRAPHSIZE : Z := 2048.
Definition INFINITY : Z := 2048 * 2048.

(** The array visited, of which only the entries that were assigned have a value. *)
Definition visited_get (v : gmap Z bool) (id : Z) : outcome bool :=
  if (0 <=? id) && (id <? GRAPHSIZE) then match v !! id with Some b => Ret b | None => Undef Uninit end else Undef OutOfBounds.
Definition visited_set (id : Z) (b : bool) (v : gmap Z bool) : outcome (gmap Z bool) :=
  if (0 <=? id) && (id <? GRAPHSIZE) then Ret (<[id := b]> v) else Undef OutOfBounds.

Definition int_add (a b : Z) : outcome Z :=
  if (-2147483648 <=? a + b) && (a + b <? 2147483648) then Ret (a + b) else Undef SignedOverflow.

(** What the function works on: the array, allRoutersCosts and prevRouters. *)
Record dijkstra := Mk_dijkstra { dj_visited : gmap Z bool; dj_costs : gmap positive Z; dj_prev : gmap positive (option positive) }.

Section dijkstra.
Context (t : TransitNetwork).

(** Every router found gets the cost INFINITY, the neighbours that of their link. *)
Definition dj_enter (vc : gmap Z bool * gmap positive Z) (q : positive) : outcome (gmap Z bool * gmap positive Z) :=
  let! rq := get_router t q in
  let! v := visited_set (iRouterNumber rq) false vc.1 in
  Ret (v, map_insert q INFINITY vc.2).

Definition found_order (r : Router) : list positive :=
  flat_map (fun i => default [] (visitedRouters r !! i)) (merge_sort string_le (elements (dom (visitedRouters r)))).

Definition dj_init (r : Router) : outcome dijkstra :=
  let! (v, c) := ofold dj_enter (∅, allRoutersCosts r) (found_order r) in
  Ret (Mk_dijkstra v (directRoutersCosts r ∪ c) (prevRouters r)).

(** The router with the least cost that was not visited. *)
Definition dj_closer (d : dijkstra) (mini : option positive) (q : positive) : outcome (option positive) :=
  let! rq := get_router t q in
  let! b := visited_get (dj_visited d) (iRouterNumber rq) in
  Ret (if negb b && match mini with
                    | None => true
                    | Some m => default 0 (dj_costs d !! q) <? default 0 (dj_costs d !! m)
                    end
       then Some q else mini).

Definition dj_min (d : dijkstra) : outcome (option positive) := ofold (dj_closer d) None (keys (dj_costs d)).

(** The costs by way of [mini]; only the first of them enters the map prevRouters. *)
Definition dj_improve (mini : positive) (d : dijkstra) (q : positive) : outcome dijkstra :=
  let! m := get_router t mini in
  match directRoutersCosts m !! q with
  | None => Ret d
  | Some w =>
      let! s := int_add (default 0 (dj_costs d !! mini)) w in
      Ret (if s <? default 0 (dj_costs d !! q)
           then Mk_dijkstra (dj_visited d) (<[q := s]> (dj_costs d)) (map_insert q (Some mini) (dj_prev d))
           else d)
  end.

Definition dj_relax (mini : positive) (d : dijkstra) : outcome dijkstra := ofold (dj_improve mini) d (keys (dj_costs d)).

Definition dj_turn (d : dijkstra) : outcome dijkstra :=
  let! mini := dj_min d in
  let! mini := not_null mini in
  let! m := get_router t mini in
  let! v := visited_set (iRouterNumber m) true (dj_visited d) in
  dj_relax mini (Mk_dijkstra v (dj_costs d) (dj_prev d)).
End dijkstra.

Definition Dijkstra (p : positive) (t : TransitNetwork) : outcome TransitNetwork :=
  let! r := get_router t p in
  let! d := dj_init t r in
  let! d := ofold (fun d _ => dj_turn t d) d (keys (dj_costs d)) in
  Ret (put_router p (set_routes (dj_costs d) (dj_prev d) (nextRouter r) r) t).

(** ** Next hops *)

(** GetNextRouterToward follows prevRouters back to the router [this]; the operator []
    enters a null pointer for a router without an entry.  A chain that is longer than the
    routers are many does not end. *)
Fixpoint next_loop (fuel : nat) (this : positive) (prev : gmap positive (option positive)) (next tmp : positive)
    : outcome (positive * gmap positive (option positive)) :=
  match fuel with
  | O => Diverges
  | S fuel =>
      let prev := map_insert next None prev in
      match default None (prev !! next) with
      | None => Ret (tmp, prev)
      | Some n => if decide (n = this) then Ret (tmp, prev) else next_loop fuel this prev n n
      end
  end.

Definition GetNextRouterToward (this q : positive) (t : TransitNetwork) : outcome (positive * TransitNetwork) :=
  if decide (q = this) then Ret (this, t)
  else
    let! r := get_router t this in
    let! (n, prev) := next_loop (S (size (routers t))) this (prevRouters r) q q in
    Ret (n, put_router this (set_routes (allRoutersCosts r) prev (nextRouter r) r) t).

Definition draw_path (p : positive) (t : TransitNetwork) (q : positive) : outcome TransitNetwork :=
  let! (n, t) := GetNextRouterToward p q t in
  let! r := get_router t p in
  Ret (put_router p (set_routes (allRoutersCosts r) (prevRouters r) (<[q := Some n]> (nextRouter r)) r) t).

Definition DrawDifferentPaths (p : positive) (t : TransitNetwork) : outcome TransitNetwork :=
  let! r := get_router t p in ofold (draw_path p) t (keys (allRoutersCosts r)).

Definition GetAlreadyCalculatedNextRouterToward (p q : positive) (t : TransitNetwork) : outcome (option positive * TransitNetwork) :=
  let! r := get_router t p in
  let m := map_insert q None (nextRouter r) in
  Ret (default None (m !! q), put_router p (set_routes (allRoutersCosts r) (prevRouters r) m r) t).

(** The two loops of ExploreGraph. *)
Definition explore_router (t : TransitNetwork) (p : positive) : outcome TransitNetwork :=
  let! t := ExploreNodeGraph (S (length (ListOfRouters t))) p p false "" t in UpdateLinksDests p t.
Definition route_router (t : TransitNetwork) (p : positive) : outcome TransitNetwork :=
  let! t := Dijkstra p t in DrawDifferentPaths p t.

Definition ExploreGraph (t : TransitNetwork) : outcome TransitNetwork :=
  let! t := ofold explore_router t (ListOfRouters t) in ofold route_router t (ListOfRouters t).

(** The link of [this] that leads to an adapter of [dest], and the adapter. *)
Definition link_to (t : TransitNetwork) (dest lp : positive) : outcome (option (positive * string)) :=
  let! l := get_link t lp in
  let! rd := get_router t dest in
  let! b1 := IsItYourAdapter rd (sAdapter1 l) in
  if b1 then Ret (Some (lp, sAdapter1 l))
  else let! b2 := IsItYourAdapter rd (sAdapter2 l) in Ret (if b2 then Some (lp, sAdapter2 l) else None).

Definition direct_link (t : TransitNetwork) (this dest : positive) : outcome (option (positive * string)) :=
  let! r := get_router t this in find_first (link_to t dest) (ptrListOfLinks r).

(** GetLinkTowards: the direct link, or that to the next router. *)
Fixpoint GetLinkTowards (fuel : nat) (this dest : positive) (t : TransitNetwork) : outcome (positive * string * TransitNetwork) :=
  match fuel with
  | O => Diverges
  | S fuel =>
      let! d := direct_link t this dest in
      match d with
      | Some (lp, ad) => Ret (lp, ad, t)
      | None => let! (n, t) := GetNextRouterToward this dest t in GetLinkTowards fuel this n t
      end
  end.
