(* ===== verification/RouterSampling.v ===== *)
(** * Sampling in the emulator (src/NSP/Router.cpp, CommonStructs.h, SoftflowdInterface.cpp)

    A router of the emulator samples the packets of its interfaces the way softflowd
    does (Sampling), but draws the packets of a period until they are different, and
    puts the packets that it takes into the buffer of the interface to softflowd. *)

From stdpp Require Import gmap strings.
From S2P Require Import Prelude CString Convtime Sampling.

(** ** Packets (CommonStructs.h)

    A character array is the string in it. *)

Record packet := Mk_packet {
  usecond : Z;
  second : Z;
  szMonitorIp : bytes;
  lLength : Z;
  szIpSource : bytes;
  szIpDest : bytes;
  szSourcePort : bytes;
  szDestPort : bytes;
  szProtocol : bytes;
  iResponsibleNode : Z;
  iAsSourceNumber : Z;
  iAsDestNumber : Z;
  fragment : bool;
  ipv4 : bool;
  ipv6 : bool;
  fragmentSeqNumber : Z;
  forwardedToSoftflowd : bool;
  tcpFlags : Z
}.

Definition set_monitor (ip : bytes) (p : packet) : packet :=
  Mk_packet (usecond p) (second p) ip (lLength p) (szIpSource p) (szIpDest p) (szSourcePort p) (szDestPort p) (szProtocol p)
    (iResponsibleNode p) (iAsSourceNumber p) (iAsDestNumber p) (fragment p) (ipv4 p) (ipv6 p) (fragmentSeqNumber p)
    (forwardedToSoftflowd p) (tcpFlags p).
Definition set_responsible (n : Z) (p : packet) : packet :=
  Mk_packet (usecond p) (second p) (szMonitorIp p) (lLength p) (szIpSource p) (szIpDest p) (szSourcePort p) (szDestPort p) (szProtocol p)
    n (iAsSourceNumber p) (iAsDestNumber p) (fragment p) (ipv4 p) (ipv6 p) (fragmentSeqNumber p) (forwardedToSoftflowd p) (tcpFlags p).
Definition set_forwarded (b : bool) (p : packet) : packet :=
  Mk_packet (usecond p) (second p) (szMonitorIp p) (lLength p) (szIpSource p) (szIpDest p) (szSourcePort p) (szDestPort p) (szProtocol p)
    (iResponsibleNode p) (iAsSourceNumber p) (iAsDestNumber p) (fragment p) (ipv4 p) (ipv6 p) (fragmentSeqNumber p) b (tcpFlags p).
Definition set_versions (v4 v6 : bool) (p : packet) : packet :=
  Mk_packet (usecond p) (second p) (szMonitorIp p) (lLength p) (szIpSource p) (szIpDest p) (szSourcePort p) (szDestPort p) (szProtocol p)
    (iResponsibleNode p) (iAsSourceNumber p) (iAsDestNumber p) (fragment p) v4 v6 (fragmentSeqNumber p) (forwardedToSoftflowd p) (tcpFlags p).

Definition ICMP_text : bytes := [73; 67; 77; 80].

Definition AmIValid (p : packet) : bool :=
  let common := (0 <=? lLength p) && bool_decide (szIpSource p <> []) && bool_decide (szIpDest p <> []) &&
                bool_decide (szProtocol p <> []) && (0 <=? iAsSourceNumber p) && (0 <=? iAsDestNumber p) in
  (common && bool_decide (szSourcePort p <> []) && bool_decide (szDestPort p <> [])) ||
  (common && bool_decide (szProtocol p = ICMP_text)).

(** PreparePacketToBeSent: the packet, which counts as forwarded from now on, and the
    buffer with its copy.  The members ipv4 and ipv6 are not copied; [v4] and [v6] are
    what malloc gives. *)
Definition PreparePacketToBeSent (v4 v6 : bool) (pkt : packet) (packetsBuffer : list packet) : packet * list packet :=
  let tmp := set_versions v4 v6 pkt in
  (set_forwarded true pkt, if AmIValid tmp then packetsBuffer ++ [tmp] else packetsBuffer).

(** ** Sampling nodes *)

Definition INITIAL_SAMPLING_RATE_P1 : Z := 1.
Definition INITIAL_SAMPLING_RATE_P2 : Z := 100.

Definition Router_AddNode (ip : bytes) (s : sampling) : outcome (nat * sampling) :=
  let! tmpIp := check16 ip in
  Ret (length (listNodes s),
       Mk_sampling (listNodes s ++ [Mk_SamplingNode INITIAL_SAMPLING_RATE_P1 INITIAL_SAMPLING_RATE_P2 1 0 tmpIp None 1]) (draws s)).

Definition Router_GetSamplingNode (ip : bytes) (s : sampling) : outcome (nat * sampling) :=
  let! tmpIp := check16 ip in
  match find_node tmpIp (listNodes s) with
  | Some i => Ret (i, s)
  | None => Router_AddNode tmpIp s
  end.

Definition Router_FindSamplingNode (ip : bytes) (s : sampling) : outcome (option nat) :=
  let! tmpIp := check16 ip in Ret (find_node tmpIp (listNodes s)).

Definition Router_ChangeSamplingRate (adapter : bytes) (srP1 srP2 : Z) (s : sampling) : outcome (Z * sampling) :=
  let! tmpIp := check16 adapter in
  let! r := Router_FindSamplingNode tmpIp s in
  match r with
  | Some i =>
      let! n := node_get s i in
      let! n := sem_wait n in
      Ret (1, node_put i (sem_post (set_rates srP1 srP2 n)) s)
  | None => Ret (0, s)
  end.

Section sampling.
(** The results of rand(), and how many draws for one index are followed. *)
Context (rand : nat -> Z) (patience : nat).

(** The draws until an index that is not in tmpIndexes. *)
Fixpoint draw_index (fuel k : nat) (p2 : Z) (tmpIndexes : list Z) : outcome (Z * nat) :=
  match fuel with
  | O => Diverges
  | S fuel =>
      if p2 =? 0 then Undef DivByZero
      else
        let tmpIndex := rand k mod p2 in
        if bool_decide (tmpIndex ∈ tmpIndexes) then draw_index fuel (S k) p2 tmpIndexes else Ret (tmpIndex, S k)
  end.

(** One number of a period, different from those before. *)
Definition draw_one (st : SamplingNode * nat * list Z) (_ : nat) : outcome (SamplingNode * nat * list Z) :=
  let '(n, k, tmpIndexes) := st in
  let! (tmpIndex, k) := draw_index patience k (samplingRateP2 n) tmpIndexes in
  let! n := tab_set n tmpIndex 1 in
  Ret (n, k, tmpIndex :: tmpIndexes).

Definition Router_GenerateRandomChoicesForNode (n : SamplingNode) (k : nat) : outcome (SamplingNode * nat) :=
  let n :=
    if samplingRateChanged n =? 1 then
      let t := if samplingRateP2 n <? 0 then None else Some (replicate (Z.to_nat (samplingRateP2 n)) 0) in
      set_changed 0 (set_tab t n)
    else n in
  let! n := ofold (fun n i => tab_set n (Z.of_nat i) 0) n (seq 0 (Z.to_nat (samplingRateP2 n))) in
  let! (n, k, _) := ofold draw_one (n, k, []) (seq 0 (Z.to_nat (samplingRateP1 n))) in
  Ret (n, k).

(** The last block of RandomPeriodicNodeSampling. *)
Definition Router_decide_block (n : SamplingNode) (k : nat) : outcome (option Z * SamplingNode * nat) :=
  let! n := sem_wait n in
  let p1 := samplingRateP1 n in
  let p2 := samplingRateP2 n in
  let axis := samplingRateAxis n in
  if p1 =? 0 then Ret (Some 0, sem_post n, k)
  else if p1 =? p2 then Ret (Some 1, sem_post n, k)
  else if p1 <? p2 then
    if axis =? 0 then
      let! (n, k) := Router_GenerateRandomChoicesForNode n k in
      let! ret := tab_get n axis in
      Ret (Some ret, sem_post (set_axis (axis + 1) n), k)
    else if axis <? p2 - 1 then
      let! ret := tab_get n axis in Ret (Some ret, sem_post (set_axis (axis + 1) n), k)
    else if axis =? p2 - 1 then
      let! ret := tab_get n axis in Ret (Some ret, sem_post (set_axis 0 n), k)
    else Ret (None, n, k)
  else Ret (Some 0, sem_post n, k).

Definition Router_RandomPeriodicNodeSampling (ip : bytes) (s : sampling) : outcome (Z * sampling) :=
  let! tmpIp := check16 ip in
  let! (i, s) := Router_GetSamplingNode ip s in
  let! n := node_get s i in
  let! (status, n) := GetNodeSamplingRateStatus n in
  let! n := if status =? 1 then InitNodeSamplingRateStatus n else Ret n in
  let! (r, n, k) := Router_decide_block n (draws s) in
  match r with
  | Some ret => Ret (ret, Mk_sampling (<[i := n]> (listNodes s)) k)
  | None => Undef MissingReturn
  end.

(** ** The monitors of a router *)

(** in and out *)
Record InterfaceSamplingStatus := Mk_InterfaceSamplingStatus { st_in : Z; st_out : Z }.

(** What the monitoring of all routers works on: the status of their interfaces, their
    sampling nodes, the numbers drawn, the counters of each router and the buffer. *)
Record monitors := Mk_monitors {
  interfaceSamplingStatus : gmap positive (gmap string InterfaceSamplingStatus);
  m_nodes : gmap positive (list SamplingNode);
  m_draws : nat;
  PacketsNumbers : gmap positive (Z * Z);
  m_buffer : list packet
}.

Definition GetInterfaceMonitoringStatus (r : positive) (interface : string) (inOut : bool) (m : monitors) : Z :=
  match default ∅ (interfaceSamplingStatus m !! r) !! interface with
  | None => 0
  | Some st => if inOut then st_out st else st_in st
  end.

(** strcpy to szMonitorIp, of 20 characters. *)
Definition check20 (ip : bytes) : outcome bytes := if (length ip <? 20)%nat then Ret ip else Undef OutOfBounds.

(** One of the two interfaces of a monitor that a packet passes. *)
Definition monitor_interface (r : positive) (interface : string) (inOut : bool) (v4 v6 : bool) (pkt : packet) (m : monitors)
    : outcome (packet * monitors) :=
  if GetInterfaceMonitoringStatus r interface inOut m =? 1 then
    let! (taken, s) := Router_RandomPeriodicNodeSampling (text_of interface) (Mk_sampling (default [] (m_nodes m !! r)) (m_draws m)) in
    let m := Mk_monitors (interfaceSamplingStatus m) (<[r := listNodes s]> (m_nodes m)) (draws s) (PacketsNumbers m) (m_buffer m) in
    if taken =? 0 then Ret (pkt, m)
    else
      let! ip := check20 (text_of interface) in
      let '(pkt, buf) := PreparePacketToBeSent v4 v6 (set_monitor ip pkt) (m_buffer m) in
      let '(nin, nout) := default (0, 0) (PacketsNumbers m !! r) in
      let ns := if inOut then (nin, wrap32 (nout + 1)) else (wrap32 (nin + 1), nout) in
      Ret (pkt, Mk_monitors (interfaceSamplingStatus m) (m_nodes m) (m_draws m) (<[r := ns]> (PacketsNumbers m)) buf)
  else Ret (pkt, m).
End sampling.
