(* ===== verification/Forwarding.v ===== *)
(** * Forwarding in the emulated network (src/NSP/Router.cpp, TransitNetwork.cpp)

    A packet goes from the edge router of its source system to that of its destination,
    each router on the way reports it to softflowd when it monitors the interface; and
    the path between two routers, which the control server sends to flowd. *)

From stdpp Require Import gmap strings pretty.
From S2P Require Import Prelude Convtime Sampling Routing RouterSampling.

(** The network and what its monitors have done. *)
Record nsp := Mk_nsp { tn : TransitNetwork; mon : monitors }.

(** A loop whose number of turns nothing bounds. *)
Section forwarding.
Context (rand : nat -> Z) (patience : nat) (v4 v6 : bool).

(** The depth of GetLinkTowards: more calls than routers repeat themselves. *)
Definition link_depth (t : TransitNetwork) : nat := S (S (size (routers t))).

(** Router::ForwardPacketE of the router [this]; the interface of the next router on
    the link, or the system.  When there is no link the packet is only shown. *)
Definition Router_ForwardPacketE (this : positive) (pkt : packet) (destRouter : positive) (inInterface : string) (s : nsp)
    : outcome (packet * string * nsp) :=
  let! sSource := as_name (iAsSourceNumber pkt) in
  let! sFinalDest := as_name (iAsDestNumber pkt) in
  let! (link, interfaceWithinDest, s) :=
    if decide (destRouter <> this) then
      let! (l, ad, t) := GetLinkTowards (link_depth (tn s)) this destRouter (tn s) in Ret (Some l, ad, Mk_nsp t (mon s))
    else
      let! r := get_router (tn s) this in
      let! l := Node_GetLink (tn s) r sFinalDest in Ret (l, sFinalDest, s) in
  match link with
  | None => Ret (pkt, interfaceWithinDest, s)
  | Some lp =>
      let! l := get_link (tn s) lp in
      let! oppositeInterface := GetTheOppositeAdapter l interfaceWithinDest in
      let! r := get_router (tn s) this in
      if iIsMonitor r =? 1 then
        let pkt := set_responsible (iRouterNumber r) pkt in
        let! (pkt, m) := monitor_interface rand patience this inInterface false v4 v6 pkt (mon s) in
        let! (pkt, m) := monitor_interface rand patience this oppositeInterface true v4 v6 pkt m in
        Ret (pkt, interfaceWithinDest, Mk_nsp (tn s) m)
      else Ret (pkt, interfaceWithinDest, s)
  end.

(** The loop of TransitNetwork::ForwardPacketE; a missing router ends it with an
    exception, which is only shown. *)
Fixpoint forward_loop (fuel : nat) (currentR : option positive) (dstR : positive) (inInterface tmpDest sFinalDest : string)
    (pkt : packet) (s : nsp) : outcome (packet * nsp) :=
  match fuel with
  | O => Diverges
  | S fuel =>
      if decide (tmpDest = sFinalDest) then Ret (pkt, s)
      else
        match currentR with
        | None => Ret (pkt, s)
        | Some c =>
            let! (pkt, nextInInterface, s) := Router_ForwardPacketE c pkt dstR inInterface s in
            let! (n, t) := GetAlreadyCalculatedNextRouterToward c dstR (tn s) in
            forward_loop fuel n dstR nextInInterface nextInInterface sFinalDest pkt (Mk_nsp t (mon s))
        end
  end.

Definition ForwardPacketE (fuel : nat) (pkt : packet) (s : nsp) : outcome (packet * nsp) :=
  let! sCurrentInterface := as_name (iAsSourceNumber pkt) in
  let! srcR := GetTheEdgeRouterOf (tn s) sCurrentInterface in
  let! sFinalDest := as_name (iAsDestNumber pkt) in
  let! dstR := GetTheEdgeRouterOf (tn s) sFinalDest in
  let! srcR := not_null srcR in
  let! dstR := not_null dstR in
  let! (nextR, t) := GetNextRouterToward srcR dstR (tn s) in
  let s := Mk_nsp t (mon s) in
  let! r := get_router (tn s) srcR in
  let! lp := Node_GetLink (tn s) r sCurrentInterface in
  let! lp := not_null lp in
  let! l := get_link (tn s) lp in
  let! inInterface := GetTheOppositeAdapter l sCurrentInterface in
  if decide (srcR = dstR) then
    let! (pkt, _, s) := Router_ForwardPacketE nextR pkt dstR inInterface s in Ret (pkt, s)
  else forward_loop fuel (Some srcR) dstR inInterface inInterface sFinalDest pkt s.
End forwarding.

(** ** Rates *)

(** TransitNetwork::ChangeSamplingRate: the router that has the adapter. *)
Definition Tn_ChangeSamplingRate (ipAdr : string) (p1 p2 : Z) (s : nsp) : outcome (Z * nsp) :=
  let! r := find_first (fun p => let! r := get_router (tn s) p in let! b := IsItYourAdapter r ipAdr in Ret (if b then Some p else None))
                       (ListOfRouters (tn s)) in
  match r with
  | None => Ret (-1, s)
  | Some p =>
      let m := mon s in
      let! (v, sm) := Router_ChangeSamplingRate (text_of ipAdr) p1 p2 (Mk_sampling (default [] (m_nodes m !! p)) (m_draws m)) in
      Ret (v, Mk_nsp (tn s) (Mk_monitors (interfaceSamplingStatus m) (<[p := listNodes sm]> (m_nodes m)) (draws sm)
                               (PacketsNumbers m) (m_buffer m)))
  end.

(** ** Paths *)

Definition with_sep (path : string) : string := if (0 <? String.length path)%nat then path +:+ "#" else path.

(** The loop of GetInterfaceBasedPathPathFromTo from the router [start]; the last
    interface is left in [iw]. *)
Fixpoint path_hops (fuel : nat) (start target : positive) (path iw : string) (oneHop : bool) (t : TransitNetwork)
    : outcome (string * string * bool * TransitNetwork) :=
  match fuel with
  | O => Diverges
  | S fuel =>
      if decide (start = target) then Ret (path, iw, oneHop, t)
      else
        let! (n, t) := GetNextRouterToward start target t in
        let! (_, iw, t) := GetLinkTowards (link_depth t) start n t in
        let path := if decide (n = target) then path else with_sep path +:+ iw in
        path_hops fuel n target path iw false t
  end.

(** ShowPathFromTo: what it prints is left out, but each question for the next router
    may enter null pointers into prevRouters. *)
Fixpoint show_hops (fuel : nat) (start target : positive) (t : TransitNetwork) : outcome TransitNetwork :=
  match fuel with
  | O => Diverges
  | S fuel =>
      if decide (start = target) then Ret t
      else let! (n, t) := GetNextRouterToward start target t in show_hops fuel n target t
  end.

Definition ShowPathFromTo (fuel : nat) (id1 id2 : Z) (t : TransitNetwork) : outcome TransitNetwork :=
  let! start := GetRouterFromId t id1 in
  let! target := GetRouterFromId t id2 in
  match start, target with
  | Some s, Some e => let! (n, t) := GetNextRouterToward s e t in show_hops fuel n e t
  | _, _ => Ret t
  end.

(** GetInterfaceBasedPathPathFromTo; a router that does not exist gives an empty path. *)
Definition GetInterfaceBasedPath (fuel : nat) (id1 id2 : Z) (t : TransitNetwork) : outcome (string * TransitNetwork) :=
  let! start := GetRouterFromId t id1 in
  let! target := GetRouterFromId t id2 in
  let! (path, t) :=
    match start, target with
    | Some s, Some e =>
        let! (n, t) := GetNextRouterToward s e t in
        let! (_, iw, t) := GetLinkTowards (link_depth t) s n t in
        let! (path, iw, oneHop, t) := path_hops fuel n e iw iw true t in
        let path := with_sep path in
        Ret (if oneHop then path else with_sep (path +:+ iw), t)
    | _, _ => Ret ("", t)
    end in
  let! t := ShowPathFromTo fuel id1 id2 t in
  Ret (path, t).
