(* ===== verification/RoutingProps.v ===== *)
(** * The costs that Dijkstra computes

    The costs of a router to the routers that were found are the lengths of the
    shortest walks, in spite of the map prevRouters, which keeps the first predecessor
    of a router and not the best. *)

From stdpp Require Import gmap strings sorting.
From S2P Require Import Prelude Routing.
Open Scope Z_scope.

(** ** Keys *)

Lemma keys_elem {A} (m : gmap positive A) p : p ∈ keys m <-> is_Some (m !! p).
Proof. unfold keys. rewrite merge_sort_Permutation, elem_of_elements. apply elem_of_dom. Qed.

Lemma keys_nodup {A} (m : gmap positive A) : NoDup (keys m).
Proof. unfold keys. rewrite merge_sort_Permutation. apply NoDup_elements. Qed.

Lemma keys_dom {A B} (m : gmap positive A) (n : gmap positive B) : dom m = dom n -> keys m = keys n.
Proof. unfold keys. by intros ->. Qed.

Lemma map_insert_lookup `{Countable K} {A} (k j : K) (a : A) m :
  map_insert k a m !! j = match m !! j with Some b => Some b | None => if decide (j = k) then Some a else None end.
Proof.
  unfold map_insert. destruct (m !! k) as [b|] eqn:E.
  - destruct (m !! j) eqn:Ej; [done|]. case_decide as Hj; [congruence|done].
  - destruct (decide (j = k)) as [->|Hj]; [by rewrite lookup_insert_eq, E|].
    rewrite lookup_insert_ne by done. by destruct (m !! j).
Qed.

(** ** Walks *)

Definition edge (t : TransitNetwork) (u v : positive) : option Z :=
  match routers t !! u with Some r => directRoutersCosts r !! v | None => None end.

(** A walk from [p] along direct costs, of length [k]. *)
Inductive walk (t : TransitNetwork) (p : positive) : positive -> Z -> Prop :=
  | walk_here : walk t p p 0
  | walk_step u v k w : walk t p u k -> edge t u v = Some w -> walk t p v (k + w).

Section dijkstra.
Context (t : TransitNetwork) (p : positive) (found : list positive).

(** What Dijkstra needs: the routers found are there, their numbers are indices of the
    array and tell them apart, and the walks from [p] stay within them; no link leads
    from [p] to itself; no cost is negative or larger than INFINITY. *)
Class Explored : Prop := {
  ex_nodup : NoDup found;
  ex_start : ~ p ∈ found;
  ex_there : forall q, q ∈ found -> exists r, routers t !! q = Some r /\ 0 <= iRouterNumber r < GRAPHSIZE;
  ex_numbers : forall q q' r r', q ∈ found -> q' ∈ found -> routers t !! q = Some r -> routers t !! q' = Some r' ->
                 iRouterNumber r = iRouterNumber r' -> q = q';
  ex_closed : forall u v w, u = p \/ u ∈ found -> edge t u v = Some w -> v = p \/ v ∈ found;
  ex_noself : edge t p p = None;
  ex_costs : forall u v w, edge t u v = Some w -> 0 <= w <= INFINITY
}.
Context {Hex : Explored}.

Definition number (q : positive) : Z := match routers t !! q with Some r => iRouterNumber r | None => 0 end.

Lemma number_ok q : q ∈ found -> exists r, get_router t q = Ret r /\ iRouterNumber r = number q /\ 0 <= number q < GRAPHSIZE.
Proof.
  intros Hq. destruct (ex_there q Hq) as (r & Hr & Hn). exists r. unfold get_router, number. by rewrite Hr.
Qed.

Lemma number_inj q q' : q ∈ found -> q' ∈ found -> number q = number q' -> q = q'.
Proof.
  intros Hq Hq' E. destruct (ex_there q Hq) as (r & Hr & _). destruct (ex_there q' Hq') as (r' & Hr' & _).
  unfold number in E. rewrite Hr, Hr' in E. by apply (ex_numbers q q' r r').
Qed.

Lemma edge_get u r v : routers t !! u = Some r -> directRoutersCosts r !! v = edge t u v.
Proof. unfold edge. by intros ->. Qed.

Lemma visited_get_ok v q b : q ∈ found -> v !! number q = Some b -> visited_get v (number q) = Ret b.
Proof.
  intros Hq Hv. destruct (number_ok q Hq) as (_ & _ & _ & Hn). unfold visited_get.
  rewrite (proj2 (Z.leb_le _ _)), (proj2 (Z.ltb_lt _ _)) by lia. cbn. by rewrite Hv.
Qed.

Lemma visited_set_ok v q b : q ∈ found -> visited_set (number q) b v = Ret (<[number q := b]> v).
Proof.
  intros Hq. destruct (number_ok q Hq) as (_ & _ & _ & Hn). unfold visited_set.
  by rewrite (proj2 (Z.leb_le _ _)), (proj2 (Z.ltb_lt _ _)) by lia.
Qed.

Definition cost (d : dijkstra) (q : positive) : Z := default 0 (dj_costs d !! q).

(** The array holds which routers are in [S]. *)
Definition marked (S : list positive) (d : dijkstra) : Prop :=
  forall q, q ∈ found -> dj_visited d !! number q = Some (bool_decide (q ∈ S)).

(** ** The router with the least cost *)

Lemma dj_min_ok S d ks : (forall q, q ∈ ks -> q ∈ found) -> marked S d -> forall m0,
  exists m, ofold (dj_closer t d) m0 ks = Ret m /\
    (forall x, m = Some x -> m0 = Some x \/ (x ∈ ks /\ ~ x ∈ S)) /\
    (forall q, (q ∈ ks /\ ~ q ∈ S) \/ m0 = Some q -> exists x, m = Some x /\ cost d x <= cost d q).
Proof.
  intros Hks Hm. induction ks as [|q ks IH]; intros m0; cbn [ofold].
  { exists m0. split; [done|]. split; [by left|]. intros q [[H _]|H]; [by apply not_elem_of_nil in H|]. exists q. split; [done|lia]. }
  assert (q ∈ found) as Hq by (apply Hks; by left).
  destruct (number_ok q Hq) as (r & Er & Hr & _). unfold dj_closer at 1. rewrite Er. cbn [obind]. rewrite Hr, (visited_get_ok _ _ _ Hq (Hm q Hq)). cbn [obind].
  set (m1 := if _ && _ then Some q else m0).
  destruct (IH (fun x H => Hks x (list_elem_of_further _ _ _ H)) m1) as (m & -> & H1 & H2). exists m. split; [done|].
  assert (m1 = m0 \/ (m1 = Some q /\ ~ q ∈ S)) as Hm1.
  { subst m1. destruct (decide (q ∈ S)) as [Hs|Hs]; [rewrite bool_decide_true by done; by left|].
    rewrite bool_decide_false by done. cbn [negb andb]. destruct m0; [destruct (_ <? _); auto|auto]. }
  split.
  - intros x Hx. destruct (H1 x Hx) as [E|[Hin Hn]]; [|right; split; [by right|done]].
    destruct Hm1 as [E1|[E1 Hn]]; [left; congruence|]. right. rewrite E1 in E. injection E as <-. split; [by left|done].
  - assert (forall q', (q' = q /\ ~ q ∈ S) \/ m0 = Some q' -> exists x, m1 = Some x /\ cost d x <= cost d q') as Hstep.
    { intros q' [[-> Hn]|E].
      - subst m1. rewrite bool_decide_false by done. cbn [negb andb]. destruct m0 as [x|]; [|by exists q].
        destruct (Z.ltb_spec (default 0 (dj_costs d !! q)) (default 0 (dj_costs d !! x))); [by exists q|by exists x].
      - subst m1. rewrite E. destruct (negb _); cbn [andb]; [|by exists q'].
        destruct (Z.ltb_spec (default 0 (dj_costs d !! q)) (default 0 (dj_costs d !! q'))); [|by exists q'].
        exists q. split; [done|]. unfold cost. lia. }
    intros q' Hq'. assert ((q' ∈ ks /\ ~ q' ∈ S) \/ ((q' = q /\ ~ q ∈ S) \/ m0 = Some q')) as [H|H].
    { destruct Hq' as [[[->|H]%elem_of_cons Hn]|H]; auto. }
    + apply H2. by left.
    + destruct (Hstep q' H) as (x & E & Hle). destruct (H2 x (or_intror E)) as (y & -> & Hy). exists y. split; [done|lia].
Qed.

(** ** Costs by way of a router *)

(** The cost of [q] by way of [mini], if there is one. *)
Definition via (d : dijkstra) (mini q : positive) : option Z := (fun w => cost d mini + w) <$> edge t mini q.

Definition better (d : dijkstra) (mini q : positive) : bool :=
  match via d mini q with Some c => c <? cost d q | None => false end.

Definition improved (d : dijkstra) (mini q : positive) : dijkstra :=
  if better d mini q
  then Mk_dijkstra (dj_visited d) (<[q := default 0 (via d mini q)]> (dj_costs d)) (map_insert q (Some mini) (dj_prev d))
  else d.

Lemma dj_improve_ok mini d q : mini ∈ found -> 0 <= cost d mini <= INFINITY -> dj_improve t mini d q = Ret (improved d mini q).
Proof.
  intros Hm Hc. unfold dj_improve, improved, better, via. destruct (ex_there mini Hm) as (r & Hr & _).
  unfold get_router. rewrite Hr. cbn [obind]. rewrite (edge_get mini r q Hr).
  destruct (edge t mini q) as [w|] eqn:Ew; cbn [fmap option_fmap option_map]; [|done].
  pose proof (ex_costs mini q w Ew) as Hw. unfold INFINITY in Hc, Hw. unfold int_add. fold (cost d mini) (cost d q).
  rewrite (proj2 (Z.leb_le _ _)), (proj2 (Z.ltb_lt _ _)) by lia. cbn [andb obind].
  by destruct (Z.ltb_spec (cost d mini + w) (cost d q)).
Qed.

Lemma improved_other d mini q x : x <> q ->
  dj_costs (improved d mini q) !! x = dj_costs d !! x /\ dj_prev (improved d mini q) !! x = dj_prev d !! x.
Proof.
  intros Hx. unfold improved. destruct (better d mini q); [|done]. cbn. rewrite lookup_insert_ne by done. split; [done|].
  rewrite map_insert_lookup, decide_False by done. by destruct (dj_prev d !! x).
Qed.

Lemma improved_at d mini q :
  dj_costs (improved d mini q) !! q = (if better d mini q then Some (default 0 (via d mini q)) else dj_costs d !! q) /\
  dj_prev (improved d mini q) !! q = (if better d mini q then Some (default (Some mini) (dj_prev d !! q)) else dj_prev d !! q).
Proof.
  unfold improved. destruct (better d mini q); [|done]. cbn. rewrite lookup_insert_eq, map_insert_lookup, decide_True by done.
  by destruct (dj_prev d !! q).
Qed.

(** The router itself gets no better. *)
Lemma better_self d mini : better d mini mini = false.
Proof.
  unfold better, via. destruct (edge t mini mini) as [w|] eqn:Ew; [|done]. cbn.
  pose proof (ex_costs mini mini w Ew). apply Z.ltb_ge. lia.
Qed.

Lemma dj_relax_ks mini : mini ∈ found -> forall ks, NoDup ks -> (forall q, q ∈ ks -> q ∈ found) ->
  forall d, 0 <= cost d mini <= INFINITY -> exists d', ofold (dj_improve t mini) d ks = Ret d' /\
    dj_visited d' = dj_visited d /\
    forall q, dj_costs d' !! q = (if decide (q ∈ ks) then dj_costs (improved d mini q) !! q else dj_costs d !! q) /\
              dj_prev d' !! q = (if decide (q ∈ ks) then dj_prev (improved d mini q) !! q else dj_prev d !! q).
Proof.
  intros Hm. induction ks as [|q ks IH]; intros Hnd Hks d Hc; cbn [ofold].
  { exists d. split; [done|]. split; [done|]. intros q. by rewrite decide_False by apply not_elem_of_nil. }
  apply NoDup_cons in Hnd as [Hni Hnd]. rewrite dj_improve_ok by done. cbn [obind].
  assert (cost (improved d mini q) mini = cost d mini) as Hcm.
  { destruct (decide (mini = q)) as [<-|Hne]; [unfold improved; by rewrite better_self|].
    unfold cost. by rewrite (proj1 (improved_other d mini q mini Hne)). }
  destruct (IH Hnd (fun x H => Hks x (list_elem_of_further _ _ _ H)) (improved d mini q)) as (d' & -> & Hv & Hd); [by rewrite Hcm|].
  exists d'. split; [done|]. split; [rewrite Hv; unfold improved; by destruct (better d mini q)|].
  intros x. destruct (Hd x) as [-> ->]. destruct (decide (x = q)) as [->|Hne].
  - destruct (decide (q ∈ ks)); [done|]. destruct (decide (q ∈ q :: ks)) as [|Hn]; [done|]. destruct Hn. by left.
  - destruct (improved_other d mini q x Hne) as [E1 E2].
    assert (cost (improved d mini q) x = cost d x) as Ec by (unfold cost; by rewrite E1).
    assert (better (improved d mini q) mini x = better d mini x /\ via (improved d mini q) mini x = via d mini x) as [Eb Ev].
    { unfold better, via. by rewrite Hcm, Ec. }
    destruct (decide (x ∈ ks)) as [Hin|Hin], (decide (x ∈ q :: ks)) as [Hin'|Hin'].
    + destruct (improved_at (improved d mini q) mini x) as [-> ->], (improved_at d mini x) as [-> ->]. by rewrite Eb, Ev, E1, E2.
    + destruct Hin'. by right.
    + by apply elem_of_cons in Hin' as [|].
    + by rewrite E1, E2.
Qed.

(** A turn of the inner loop: every cost is the least of the old one and that by way of
    [mini]; the first time a cost gets better [mini] enters prevRouters. *)
Lemma dj_relax_ok mini d : mini ∈ found -> 0 <= cost d mini <= INFINITY ->
  (forall q, is_Some (dj_costs d !! q) <-> q ∈ found) ->
  exists d', dj_relax t mini d = Ret d' /\ dj_visited d' = dj_visited d /\
    (forall q, is_Some (dj_costs d' !! q) <-> q ∈ found) /\
    (forall q, q ∈ found -> cost d' q = match edge t mini q with Some w => Z.min (cost d q) (cost d mini + w) | None => cost d q end) /\
    (forall q, dj_prev d' !! q = (if decide (q ∈ found) then if better d mini q then Some (default (Some mini) (dj_prev d !! q)) else dj_prev d !! q
                                  else dj_prev d !! q)).
Proof.
  intros Hm Hc Hdom. assert (forall q, q ∈ keys (dj_costs d) <-> q ∈ found) as Hk by (intros q; by rewrite keys_elem).
  destruct (dj_relax_ks mini Hm (keys (dj_costs d)) (keys_nodup _)) with (d := d) as (d' & E & Hv & Hd);
    [intros q; apply Hk|done|]. exists d'. split; [done|]. split; [done|].
  assert (forall q, q ∈ found -> dj_costs d' !! q = if better d mini q then Some (default 0 (via d mini q)) else dj_costs d !! q) as Hcosts.
  { intros q Hq. destruct (Hd q) as [-> _]. destruct (decide (q ∈ keys (dj_costs d))) as [|Hn]; [|by apply Hk in Hq].
    apply improved_at. }
  split; [|split].
  - intros q. split.
    + intros Hs. destruct (decide (q ∈ found)) as [|Hn]; [done|]. destruct (Hd q) as [E' _]. rewrite E' in Hs.
      destruct (decide (q ∈ keys (dj_costs d))) as [Hin|]; [by apply Hk|by apply Hdom].
    + intros Hq. rewrite Hcosts by done. destruct (better d mini q); [done|by apply Hdom].
  - intros q Hq. unfold cost at 1. rewrite Hcosts by done. unfold better, via.
    destruct (edge t mini q) as [w|]; cbn [fmap option_fmap option_map]; [|done].
    destruct (Z.ltb_spec (cost d mini + w) (cost d q)); cbn [from_option id]; [lia|]. fold (cost d q). lia.
  - intros q. destruct (Hd q) as [_ ->]. destruct (decide (q ∈ keys (dj_costs d))) as [Hin|Hn], (decide (q ∈ found)) as [Hf|Hf].
    + apply improved_at.
    + by apply Hk in Hin.
    + by apply Hk in Hf.
    + done.
Qed.

(** ** The loop *)

(** All links have the same cost. *)
Definition uniform (W : Z) : Prop := forall u v w, edge t u v = Some w -> w = W.

(** The routers [S] were visited, the latest first. *)
Record djinv (d : dijkstra) (S : list positive) : Prop := {
  iv_nodup : NoDup S;
  iv_in : forall q, q ∈ S -> q ∈ found;
  iv_marked : marked S d;
  iv_dom : forall q, is_Some (dj_costs d !! q) <-> q ∈ found;
  iv_bounds : forall q, q ∈ found -> 0 <= cost d q <= INFINITY;
  iv_sound : forall q, q ∈ found -> cost d q < INFINITY -> walk t p q (cost d q);
  iv_direct : forall q w, q ∈ found -> edge t p q = Some w -> cost d q <= w;
  iv_relaxed : forall u q w, u ∈ S -> q ∈ found -> edge t u q = Some w -> cost d q <= cost d u + w;
  iv_order : forall u q, u ∈ S -> q ∈ found -> ~ q ∈ S -> cost d u <= cost d q;
  iv_prev : forall q x, dj_prev d !! q = Some x -> exists u w S1 S2,
    x = Some u /\ S = S1 ++ u :: S2 /\ q ∈ found /\ ~ q ∈ u :: S2 /\ edge t u q = Some w /\
    cost d q <= cost d u + w < INFINITY;
  iv_noprev : forall q, q ∈ found -> dj_prev d !! q = None -> cost d q = default INFINITY (edge t p q);
  iv_tight : forall W, uniform W -> forall q u, dj_prev d !! q = Some (Some u) -> cost d q = cost d u + W
}.

Lemma djinv_turn d S q0 : djinv d S -> q0 ∈ found -> ~ q0 ∈ S -> exists m d', dj_turn t d = Ret d' /\ djinv d' (m :: S).
Proof.
  intros [I1 I2 I3 I4 I5 I6 I7 I8 I9 I10 I11 I12] Hq0 Hn0. unfold dj_turn, dj_min.
  destruct (dj_min_ok S d (keys (dj_costs d))) with (m0 := None : option positive) as (mo & -> & Hmin1 & Hmin2);
    [intros q Hq; by apply I4, keys_elem|done|].
  destruct (Hmin2 q0) as (m & -> & _); [left; split; [by apply keys_elem, I4|done]|]. cbn [obind not_null].
  destruct (Hmin1 m eq_refl) as [|[Hmk Hmn]]; [done|]. assert (m ∈ found) as Hm by by apply I4, keys_elem.
  assert (forall q, q ∈ found -> ~ q ∈ S -> cost d m <= cost d q) as Hleast.
  { intros q Hq Hn. destruct (Hmin2 q) as (x & [= <-] & Hle); [|done]. left. split; [by apply keys_elem, I4|done]. }
  destruct (number_ok m Hm) as (r & -> & Hr & _). cbn [obind]. rewrite Hr, visited_set_ok by done. cbn [obind].
  set (d1 := Mk_dijkstra _ _ _).
  destruct (dj_relax_ok m d1 Hm (I5 m Hm) I4) as (d' & -> & Hv & Hdom & Hcost & Hprev).
  change (cost d1) with (cost d) in Hcost. exists m, d'. split; [done|].
  assert (forall q, q ∈ found -> cost d' q <= cost d q) as Hless.
  { intros q Hq. rewrite Hcost by done. destruct (edge t m q); lia. }
  assert (forall u, u = m \/ u ∈ S -> cost d' u = cost d u) as Hsame.
  { intros u Hu. assert (u ∈ found /\ cost d u <= cost d m) as [Huf Hum].
    { destruct Hu as [->|Hu]; [split; [done|lia]|]. split; [by apply I2|by apply I9]. }
    rewrite Hcost by done. destruct (edge t m u) as [w|] eqn:Ew; [|done]. pose proof (ex_costs m u w Ew). lia. }
  constructor.
  - by apply NoDup_cons.
  - intros q [->|Hq]%elem_of_cons; [done|by apply I2].
  - intros q Hq. rewrite Hv. cbn. destruct (decide (q = m)) as [->|Hne].
    + rewrite lookup_insert_eq, bool_decide_true by by left. done.
    + rewrite lookup_insert_ne by (intros E; by apply Hne, number_inj). rewrite I3 by done.
      do 2 f_equal. apply bool_decide_ext. rewrite elem_of_cons. split; [by right|by intros [|]].
  - done.
  - intros q Hq. split; [|pose proof (Hless q Hq); pose proof (I5 q Hq); lia]. rewrite Hcost by done.
    pose proof (I5 q Hq). pose proof (I5 m Hm). destruct (edge t m q) as [w|] eqn:Ew; [|lia]. pose proof (ex_costs m q w Ew). lia.
  - intros q Hq Hlt. rewrite Hcost in Hlt |- * by done. destruct (edge t m q) as [w|] eqn:Ew; [|by apply I6].
    pose proof (ex_costs m q w Ew). destruct (Z.min_spec (cost d q) (cost d m + w)) as [[_ E]|[_ E]]; rewrite E in *; [by apply I6|].
    apply (walk_step t p m); [|done]. apply I6; [done|]. lia.
  - intros q w Hq Hw. pose proof (I7 q w Hq Hw). pose proof (Hless q Hq). lia.
  - intros u q w Hu Hq Hw. apply elem_of_cons in Hu as [->|Hu].
    + rewrite (Hsame m) by by left. rewrite Hcost, Hw by done. lia.
    + rewrite (Hsame u) by by right. pose proof (I8 u q w Hu Hq Hw). pose proof (Hless q Hq). lia.
  - intros u q Hu Hq Hn. assert (q <> m /\ ~ q ∈ S) as [Hqm HqS] by (split; [intros ->; apply Hn; by left|intros H; apply Hn; by right]).
    assert (cost d u <= cost d m) as Hum.
    { apply elem_of_cons in Hu as [->|Hu]; [lia|by apply I9]. }
    rewrite (Hsame u) by (apply elem_of_cons in Hu as [->|Hu]; auto). rewrite Hcost by done. pose proof (Hleast q Hq HqS).
    destruct (edge t m q) as [w|] eqn:Ew; [|lia]. pose proof (ex_costs m q w Ew). lia.
  - intros q x Hx. rewrite Hprev in Hx. cbn [dj_prev d1] in Hx.
    assert (forall y, dj_prev d !! q = Some y -> exists u w S1 S2, y = Some u /\ m :: S = S1 ++ u :: S2 /\ q ∈ found /\ ~ q ∈ u :: S2 /\
              edge t u q = Some w /\ cost d' q <= cost d' u + w < INFINITY) as Hold.
    { intros y Hy. destruct (I10 q y Hy) as (u & w & S1 & S2 & -> & -> & Hqf & Hqn & Hw & Hle). exists u, w, (m :: S1), S2.
      split_and!; [done..| |]; rewrite (Hsame u) by (right; apply elem_of_app; right; by left); [|lia].
      pose proof (Hless q Hqf). lia. }
    destruct (decide (q ∈ found)) as [Hq|]; [|by apply Hold].
    destruct (better d1 m q) eqn:Hb; [|by apply Hold]. destruct (dj_prev d !! q) as [y|] eqn:Ey; [injection Hx as <-; by apply Hold|].
    injection Hx as <-. unfold better, via in Hb. change (cost d1) with (cost d) in Hb. destruct (edge t m q) as [w|] eqn:Ew; [|done].
    cbn in Hb. apply Z.ltb_lt in Hb. pose proof (ex_costs m q w Ew). exists m, w, [], S. split_and!; [done..| |done| |].
    + intros [->|HqS]%elem_of_cons; [lia|]. pose proof (I9 q m HqS Hm Hmn). lia.
    + rewrite (Hsame m) by by left. rewrite Hcost, Ew by done. lia.
    + rewrite (Hsame m) by by left. pose proof (I5 q Hq). lia.
  - intros q Hq Hnp. rewrite Hprev in Hnp. cbn [dj_prev d1] in Hnp. rewrite decide_True in Hnp by done.
    destruct (better d1 m q) eqn:Hb; [done|]. rewrite <- (I11 q Hq Hnp). rewrite Hcost by done.
    unfold better, via in Hb. change (cost d1) with (cost d) in Hb. destruct (edge t m q) as [w|]; [|done].
    cbn in Hb. apply Z.ltb_ge in Hb. lia.
  - intros W HW q u Hx. rewrite Hprev in Hx. cbn [dj_prev d1] in Hx.
    assert (dj_prev d !! q = Some (Some u) -> cost d' q = cost d' u + W) as Hold.
    { intros Hy. destruct (I10 q _ Hy) as (u' & w & S1 & S2 & [= <-] & HS & Hqf & _). pose proof (I12 W HW q u Hy) as Ht.
      assert (u ∈ S) as HuS by (rewrite HS; apply elem_of_app; right; by left).
      rewrite (Hsame u) by by right. rewrite Hcost, Ht by done. destruct (edge t m q) as [w'|] eqn:Ew; [|done].
      rewrite (HW m q w' Ew). pose proof (I9 u m HuS Hm Hmn). lia. }
    destruct (decide (q ∈ found)) as [Hq|]; [|by apply Hold].
    destruct (better d1 m q) eqn:Hb; [|by apply Hold]. destruct (dj_prev d !! q) as [y|] eqn:Ey; [cbn in Hx; apply Hold; congruence|].
    injection Hx as <-. unfold better, via in Hb. change (cost d1) with (cost d) in Hb. destruct (edge t m q) as [w|] eqn:Ew; [|done].
    cbn in Hb. apply Z.ltb_lt in Hb. rewrite (Hsame m) by by left. rewrite Hcost, Ew by done. rewrite (HW m q w Ew) in *. lia.
Qed.

Lemma djinv_loop n : forall d S, djinv d S -> (n + length S = length found)%nat ->
  exists d' S', ofold (fun d _ => dj_turn t d) d (replicate n p) = Ret d' /\ djinv d' S' /\ length S' = length found.
Proof.
  induction n as [|n IH]; intros d S Hd Hn; [by exists d, S|]. cbn [replicate ofold].
  assert (exists q, q ∈ found /\ ~ q ∈ S) as (q & Hq & Hqn).
  { destruct (decide (Forall (fun q => q ∈ S) found)) as [Hall|Hall].
    - rewrite Forall_forall in Hall. pose proof (NoDup_submseteq found S ex_nodup Hall) as Hsub%submseteq_length. lia.
    - apply not_Forall_Exists in Hall; [|apply _]. by apply Exists_exists in Hall. }
  destruct (djinv_turn d S q Hd Hq Hqn) as (m & d' & -> & Hd'). cbn [obind]. apply (IH d' (m :: S) Hd'). simpl. lia.
Qed.

(** The loop takes as many turns as there are keys, whatever they are. *)
Lemma ofold_const {A S} (f : S -> outcome S) (l : list A) (a : A) s :
  ofold (fun s _ => f s) s l = ofold (fun s _ => f s) s (replicate (length l) a).
Proof. revert s. induction l as [|x l IH]; intros s; [done|]. cbn. destruct (f s); cbn; [apply IH|done..]. Qed.

(** ** Initial costs *)

Lemma dj_init_fold L : (forall q, q ∈ L -> q ∈ found) -> forall v c,
  (forall q, q ∈ found -> forall b, v !! number q = Some b -> b = false) -> (forall q x, c !! q = Some x -> x = INFINITY) ->
  exists v' c', ofold (dj_enter t) (v, c) L = Ret (v', c') /\
    (forall q, q ∈ found -> forall b, v' !! number q = Some b -> b = false) /\
    (forall q, q ∈ L -> v' !! number q = Some false) /\
    (forall q x, c' !! q = Some x -> x = INFINITY) /\
    (forall q, is_Some (c' !! q) <-> is_Some (c !! q) \/ q ∈ L) /\ (forall n, is_Some (v !! n) -> is_Some (v' !! n)).
Proof.
  induction L as [|q L IH]; intros HL v c Hv Hc; cbn [ofold].
  { exists v, c. split_and!; [done|done| |done| |done].
    - intros q Hq. by apply not_elem_of_nil in Hq.
    - intros q. rewrite elem_of_nil. tauto. }
  assert (q ∈ found) as Hq by (apply HL; by left). destruct (number_ok q Hq) as (r & Er & Hr & _). unfold dj_enter at 1. rewrite Er. cbn [obind fst snd].
  rewrite Hr, visited_set_ok by done. cbn [obind].
  destruct (IH (fun x H => HL x (list_elem_of_further _ _ _ H)) (<[number q := false]> v) (map_insert q INFINITY c))
    as (v' & c' & -> & H1 & H2 & H3 & H4 & H5).
  - intros x Hx b. destruct (decide (number x = number q)) as [->|Hne]; [rewrite lookup_insert_eq; by intros [= <-]|].
    rewrite lookup_insert_ne by done. by apply Hv.
  - intros x y. rewrite map_insert_lookup. destruct (c !! x) eqn:E; [intros [= <-]; by apply (Hc x)|]. case_decide; [by intros [= <-]|done].
  - exists v', c'. split_and!; [done|done| |done| |].
    + intros x [->|Hx]%elem_of_cons; [|by apply H2].
      destruct (H5 (number q)) as [b Hb]; [rewrite lookup_insert_eq; by eexists|]. rewrite Hb. f_equal. by apply (H1 q).
    + intros x. rewrite H4, map_insert_lookup, elem_of_cons. destruct (c !! x); [split; intros; left; by eexists|].
      case_decide; [split; [tauto|intros; left; by eexists]|]. split; [intros [[? [=]]|]|intros [[? [=]]|[|]]]; tauto.
    + intros n Hn. apply H5. destruct (decide (n = number q)) as [->|]; [rewrite lookup_insert_eq; by eexists|].
      by rewrite lookup_insert_ne.
Qed.

Lemma dj_init_ok r : routers t !! p = Some r -> allRoutersCosts r = ∅ -> prevRouters r = ∅ ->
  (forall q, q ∈ found_order r <-> q ∈ found) -> exists d, dj_init t r = Ret d /\ djinv d [].
Proof.
  intros Hr Hall Hprev Hfound. unfold dj_init. rewrite Hall.
  destruct (dj_init_fold (found_order r)) with (v := ∅ : gmap Z bool) (c := ∅ : gmap positive Z) as (v & c & -> & H1 & H2 & H3 & H4 & _);
    [intros q; by apply Hfound|done|done|]. cbn [obind]. eexists. split; [done|].
  assert (forall q, q ∈ found -> default 0 ((directRoutersCosts r ∪ c) !! q) = default INFINITY (edge t p q)) as Hcost.
  { intros q Hq. rewrite lookup_union, (edge_get p r q Hr). destruct (edge t p q) as [w|]; [by destruct (c !! q)|].
    destruct (H4 q) as [_ H]. destruct H as [x Hx]; [right; by apply Hfound|]. rewrite Hx. cbn. by apply (H3 q). }
  constructor; unfold cost, marked; cbn [dj_costs dj_prev dj_visited].
  - constructor.
  - by intros q Hq%not_elem_of_nil.
  - intros q Hq. rewrite bool_decide_false by apply not_elem_of_nil. apply H2. by apply Hfound.
  - intros q. rewrite lookup_union_is_Some, H4, (edge_get p r q Hr), Hfound. split; [|tauto].
    intros [[w Hw]|[H|H]]; [|by destruct H|done]. pose proof ex_noself. destruct (ex_closed p q w) as [->|]; [by left|done|congruence|done].
  - intros q Hq. rewrite Hcost by done. destruct (edge t p q) as [w|] eqn:Ew; cbn; [by apply (ex_costs p q)|unfold INFINITY; lia].
  - intros q Hq. rewrite Hcost by done. destruct (edge t p q) as [w|] eqn:Ew; cbn; [|lia]. intros _.
    apply (walk_step t p p q 0 w); [constructor|done].
  - intros q w Hq Hw. rewrite Hcost, Hw by done. cbn. lia.
  - by intros u q w Hu%not_elem_of_nil.
  - by intros u q Hu%not_elem_of_nil.
  - intros q x. by rewrite Hprev.
  - intros q Hq _. by apply Hcost.
  - intros W _ q u. by rewrite Hprev.
Qed.

(** The turns of the loop, all of them. *)
Lemma dijkstra_run r : routers t !! p = Some r -> allRoutersCosts r = ∅ -> prevRouters r = ∅ ->
  (forall q, q ∈ found_order r <-> q ∈ found) ->
  exists d0 d S, dj_init t r = Ret d0 /\ ofold (fun d _ => dj_turn t d) d0 (keys (dj_costs d0)) = Ret d /\
    djinv d S /\ forall q, q ∈ found -> q ∈ S.
Proof.
  intros Hr Hall Hprev Hfound. destruct (dj_init_ok r Hr Hall Hprev Hfound) as (d0 & -> & Hd0).
  destruct (djinv_loop (length (keys (dj_costs d0))) d0 [] Hd0) as (d & S & E & Hd & Hlen).
  { rewrite Nat.add_0_r. apply Permutation_length, NoDup_Permutation; [apply keys_nodup|apply ex_nodup|].
    intros q. rewrite keys_elem. apply (iv_dom _ _ Hd0). }
  exists d0, d, S. split; [done|]. split; [by rewrite (ofold_const _ (keys (dj_costs d0)) p)|]. split; [done|]. intros q Hq.
  assert (S ≡ₚ found) as ->; [|done]. apply submseteq_length_Permutation; [|lia].
  apply NoDup_submseteq; [apply (iv_nodup _ _ Hd)|apply (iv_in _ _ Hd)].
Qed.

Lemma Dijkstra_ok r : routers t !! p = Some r -> allRoutersCosts r = ∅ -> prevRouters r = ∅ ->
  (forall q, q ∈ found_order r <-> q ∈ found) ->
  exists d S, Dijkstra p t = Ret (put_router p (set_routes (dj_costs d) (dj_prev d) (nextRouter r) r) t) /\
    djinv d S /\ forall q, q ∈ found -> q ∈ S.
Proof.
  intros Hr Hall Hprev Hfound. destruct (dijkstra_run r Hr Hall Hprev Hfound) as (d0 & d & S & E0 & E & Hd & HS).
  exists d, S. split; [|done]. unfold Dijkstra, get_router. rewrite Hr. cbn [obind]. rewrite E0. cbn [obind]. by rewrite E.
Qed.

Lemma djinv_least d S : djinv d S -> (forall q, q ∈ found -> q ∈ S) -> forall q k, walk t p q k ->
  (q = p /\ 0 <= k) \/ (q ∈ found /\ cost d q <= k /\ 0 <= k).
Proof.
  intros Hd HS q k Hw. induction Hw as [|u v k w Hw IH He]; [left; split; [done|lia]|].
  pose proof (ex_costs u v w He) as Hc. assert (u = p \/ u ∈ found) as Hu by tauto.
  destruct (ex_closed u v w Hu He) as [->|Hv]; [left; split; [done|lia]|right]. split; [done|].
  destruct IH as [[-> Hk]|(Huf & Hk & Hk0)].
  - pose proof (iv_direct _ _ Hd v w Hv He). lia.
  - pose proof (iv_relaxed _ _ Hd u v w (HS u Huf) Hv He). lia.
Qed.
End dijkstra.

(** C38: the costs of a router after Dijkstra are the lengths of the shortest walks
    along the links to the routers that were found: none is above that of any walk, and
    every one below INFINITY is that of some walk; nothing else of the network changes,
    no sum overflows, and the function ends. *)
Theorem dijkstra_shortest t p found r :
  Explored t p found -> routers t !! p = Some r -> allRoutersCosts r = ∅ -> prevRouters r = ∅ ->
  (forall q, q ∈ found_order r <-> q ∈ found) ->
  exists c prev, Dijkstra p t = Ret (put_router p (set_routes c prev (nextRouter r) r) t) /\
    (forall q, is_Some (c !! q) <-> q ∈ found) /\
    forall q x, c !! q = Some x -> (forall k, walk t p q k -> x <= k) /\ (x < INFINITY -> walk t p q x).
Proof.
  intros Hex Hr Hall Hprev Hfound. destruct (Dijkstra_ok t p found r Hr Hall Hprev Hfound) as (d & S & E & Hd & HS).
  exists (dj_costs d), (dj_prev d). split; [done|]. split; [apply (iv_dom _ _ _ _ _ Hd)|]. intros q x Hx.
  assert (q ∈ found) as Hq by (apply (iv_dom _ _ _ _ _ Hd); by eexists).
  assert (cost d q = x) as Ec by (unfold cost; by rewrite Hx). rewrite <- Ec. split; [|by apply (iv_sound _ _ _ _ _ Hd)].
  intros k Hk. destruct (djinv_least t p found d S Hd HS q k Hk) as [[-> _]|(_ & H & _)]; [|done].
  by destruct Hex.
Qed.
