(* ===== verification/RoutingHops.v ===== *)
(** * The next routers that prevRouters gives

    The chain of predecessors ends at a neighbour from which the destination can be
    reached, and the loop that follows it ends; when all links have the same cost the
    way by this neighbour is a shortest one. *)

From stdpp Require Import gmap strings sorting.
From S2P Require Import Prelude Routing RoutingProps.
Open Scope Z_scope.

(** The predecessor as the operator [] of the map reads it. *)
Definition pred (prev : gmap positive (option positive)) (q : positive) : option positive := default None (prev !! q).

Lemma pred_insert prev q x : pred (map_insert q None prev) x = pred prev x.
Proof. unfold pred. rewrite map_insert_lookup. destruct (prev !! x); [done|]. by case_decide. Qed.

(** Two maps that read the same. *)
Definition same_pred : relation (gmap positive (option positive)) := fun prev prev' => forall x, pred prev x = pred prev' x.
#[export] Instance same_pred_equivalence : Equivalence same_pred.
Proof. split; [by intros ? ?|by intros ? ? H ?|intros ? ? ? H H' x; by rewrite H]. Qed.

Lemma same_pred_insert prev q : same_pred (map_insert q None prev) prev.
Proof. intros x. apply pred_insert. Qed.

(** The steps of the loop, with the operator [] read as [pred]. *)
Lemma next_loop_eq fuel this prev next tmp :
  next_loop (S fuel) this prev next tmp =
  match pred prev next with
  | None => Ret (tmp, map_insert next None prev)
  | Some n => if decide (n = this) then Ret (tmp, map_insert next None prev) else next_loop fuel this (map_insert next None prev) n n
  end.
Proof. cbn [next_loop]. change (default None (map_insert next None prev !! next)) with (pred (map_insert next None prev) next). by rewrite pred_insert. Qed.

Section hops.
Context (t : TransitNetwork) (p : positive) (found : list positive).
Context {Hex : Explored t p found}.

(** [x] is a neighbour by which the way from [p] to [q] leads. *)
Record next_hop (d : dijkstra) (q x : positive) : Prop := {
  nh_edge : edge t p x = Some (cost d x);
  nh_found : x ∈ found;
  nh_way : exists k, walk t x q k /\ cost d q <= cost d x + k /\ forall W, uniform t W -> cost d q = cost d x + k
}.

Lemma djinv_pred d S q : djinv t p found d S -> q ∈ found -> cost d q < INFINITY ->
  match pred (dj_prev d) q with
  | None => edge t p q = Some (cost d q)
  | Some u => exists w S1 S2, S = S1 ++ u :: S2 /\ ~ q ∈ u :: S2 /\ u <> p /\ edge t u q = Some w /\
                cost d q <= cost d u + w /\ cost d u < INFINITY /\ forall W, uniform t W -> cost d q = cost d u + w
  end.
Proof.
  intros Hd Hq Hlt. unfold pred. destruct (dj_prev d !! q) as [x|] eqn:Ex; cbn [default from_option id].
  - destruct (iv_prev _ _ _ _ _ Hd q x Ex) as (u & w & S1 & S2 & -> & HS & _ & Hn & Hw & Hle). exists w, S1, S2.
    assert (u ∈ found) as Hu by (apply (iv_in _ _ _ _ _ Hd); rewrite HS; apply elem_of_app; right; by left).
    pose proof (ex_costs t p found u q w Hw). split_and!; [done|done| |done|lia|lia|].
    + intros ->. by apply (ex_start t p found).
    + intros W HW. rewrite (HW u q w Hw). by apply (iv_tight _ _ _ _ _ Hd W HW q u).
  - pose proof (iv_noprev _ _ _ _ _ Hd q Hq Ex) as E. destruct (edge t p q) as [w|]; cbn in E; [by rewrite E|lia].
Qed.

Lemma next_loop_ok d S : djinv t p found d S -> forall fuel q A B prev,
  S = A ++ q :: B -> cost d q < INFINITY -> (length B < fuel)%nat -> same_pred prev (dj_prev d) ->
  exists x prev', next_loop fuel p prev q q = Ret (x, prev') /\ same_pred prev' (dj_prev d) /\ next_hop d q x.
Proof.
  intros Hd. induction fuel as [|fuel IH]; intros q A B prev HS Hlt Hf Hp; [lia|].
  assert (q ∈ found) as Hq by (apply (iv_in _ _ _ _ _ Hd); rewrite HS; apply elem_of_app; right; by left).
  rewrite next_loop_eq, Hp. pose proof (djinv_pred d S q Hd Hq Hlt) as H.
  destruct (pred (dj_prev d) q) as [u|].
  - destruct H as (w & S1 & S2 & HS' & Hn & Hup & Hw & Hle & Hltu & Hun). rewrite decide_False by done.
    assert (exists B1, B = B1 ++ u :: S2) as [B1 ->].
    { pose proof (iv_nodup _ _ _ _ _ Hd) as Hnd. rewrite HS' in HS.
      apply app_eq_inv in HS as [(l & -> & Hl)|(l & -> & Hl)]; destruct l as [|y l]; simplify_list_eq.
      - by destruct Hn; left.
      - by exists l.
      - by destruct Hn; left.
      - destruct Hn. right. apply elem_of_app. right. by left. }
    rewrite length_app in Hf. cbn [length] in Hf.
    destruct (IH u S1 S2 (map_insert q None prev)) as (x & prev' & -> & Hp' & [He Hx (k & Hk & Hck & Hu)]); [done|done|lia|by rewrite same_pred_insert|].
    exists x, prev'. split; [done|]. split; [done|]. split; [done|done|]. exists (k + w). split; [by apply (walk_step t x u)|]. split; [lia|].
    intros W HW. rewrite (Hun W HW), (Hu W HW). lia.
  - exists q, (map_insert q None prev). split; [done|]. split; [by rewrite same_pred_insert|]. split; [done|done|].
    exists 0. split; [constructor|]. split; [lia|]. intros; lia.
Qed.

(** A next router with the network as Dijkstra leaves it, whatever the loop has entered
    into prevRouters since. *)
Definition with_prev (r : Router) (d : dijkstra) (prev : gmap positive (option positive)) (n : gmap positive (option positive)) : Router :=
  set_routes (dj_costs d) prev n r.

Lemma GetNextRouterToward_ok d S q t' r prev n : djinv t p found d S -> (forall x, x ∈ found -> x ∈ S) ->
  q ∈ found -> cost d q < INFINITY -> routers t' !! p = Some (with_prev r d prev n) -> same_pred prev (dj_prev d) ->
  (forall x, x ∈ found -> is_Some (routers t' !! x)) ->
  exists x prev', GetNextRouterToward p q t' = Ret (x, put_router p (with_prev r d prev' n) t') /\
    same_pred prev' (dj_prev d) /\ next_hop d q x.
Proof.
  intros Hd HS Hq Hlt Hr Hp Hth. unfold GetNextRouterToward. rewrite decide_False by (intros ->; by apply (ex_start t p found)).
  unfold get_router. rewrite Hr. cbn [obind]. destruct (list_elem_of_split S q (HS q Hq)) as (A & B & HSq).
  destruct (next_loop_ok d S Hd (Datatypes.S (size (routers t'))) q A B prev) as (x & prev' & E & Hp' & Hh); [done|done| |done|].
  - assert (length S <= size (routers t'))%nat as Hlen; [|rewrite HSq, length_app in Hlen; cbn [length] in Hlen; lia].
    rewrite <- size_dom, <- (size_list_to_set (C := gset positive) S) by apply (iv_nodup _ _ _ _ _ Hd).
    apply subseteq_size. intros x Hx. apply elem_of_list_to_set in Hx. apply elem_of_dom, Hth. by apply (iv_in _ _ _ _ _ Hd).
  - change (prevRouters (with_prev r d prev n)) with prev. rewrite E. cbn [obind]. by exists x, prev'.
Qed.

Lemma put_router_twice r r' t' : put_router p r (put_router p r' t') = put_router p r t'.
Proof. unfold put_router, set_routers. cbn. by rewrite insert_insert_eq. Qed.

Lemma routers_put r t' x : routers (put_router p r t') !! x = if decide (x = p) then Some r else routers t' !! x.
Proof. cbn. destruct (decide (x = p)) as [->|]; [by rewrite lookup_insert_eq|by rewrite lookup_insert_ne]. Qed.

Lemma draw_paths_ok d S r t' : djinv t p found d S -> (forall x, x ∈ found -> x ∈ S) -> (forall q, q ∈ found -> cost d q < INFINITY) ->
  (forall x, x ∈ found -> is_Some (routers t' !! x)) ->
  forall qs prev n, (forall q, q ∈ qs -> q ∈ found) -> same_pred prev (dj_prev d) ->
  exists prev' n', ofold (draw_path p) (put_router p (with_prev r d prev n) t') qs = Ret (put_router p (with_prev r d prev' n') t') /\
    same_pred prev' (dj_prev d) /\
    forall q, (q ∈ qs -> exists x, n' !! q = Some (Some x) /\ next_hop d q x) /\ (~ q ∈ qs -> n' !! q = n !! q).
Proof.
  intros Hd HS Hlt Hth. induction qs as [|q qs IH]; intros prev n Hqs Hp; cbn [ofold].
  { exists prev, n. split; [done|]. split; [done|]. intros q. split; [by intros ?%not_elem_of_nil|done]. }
  assert (q ∈ found) as Hq by (apply Hqs; by left).
  destruct (GetNextRouterToward_ok d S q (put_router p (with_prev r d prev n) t') r prev n) as (x & prev1 & E & Hp1 & Hh);
    [done|done|done|by apply Hlt|by rewrite routers_put, decide_True|done| |].
  { intros y Hy. rewrite routers_put. case_decide; [by eexists|by apply Hth]. }
  unfold draw_path at 1. rewrite E. cbn [obind]. unfold get_router. rewrite !routers_put, !decide_True by done. cbn [obind].
  rewrite !put_router_twice.
  lazymatch goal with |- context [ofold (draw_path p) ?a qs] => change a with (put_router p (with_prev r d prev1 (<[q := Some x]> n)) t') end.
  destruct (IH prev1 (<[q := Some x]> n)) as (prev' & n' & -> & Hp' & Hn); [intros y Hy; apply Hqs; by right|done|].
  exists prev', n'. split; [done|]. split; [done|]. intros y. destruct (Hn y) as [H1 H2]. split.
  - intros [->|Hy]%elem_of_cons; [|by apply H1]. destruct (decide (q ∈ qs)) as [Hin|Hin]; [by apply H1|].
    rewrite H2 by done. rewrite lookup_insert_eq. by exists x.
  - intros Hy. rewrite H2 by (intros H; apply Hy; by right). apply lookup_insert_ne. intros ->. apply Hy. by left.
Qed.
End hops.
