(* ===== verification/RoutingExplore.v ===== *)
(** * The walk through the emulated network

    ExploreNodeGraph from a router finds exactly the routers that links lead to, in
    spite of the marks it leaves in all routers; what it reads of the network is the
    part that never changes. *)

From stdpp Require Import gmap strings sorting.
From S2P Require Import Prelude Routing RoutingProps RoutingHops.
Open Scope Z_scope.

(** ** What does not change *)

Definition router_shape (r : Router) := (ListOfAdapters r, ptrListOfLinks r, iRouterNumber r, listEdgeAS r).
Definition link_shape (l : Link) := (sAdapter1 l, sAdapter2 l, uCost l).

Definition same_shape : relation TransitNetwork := fun t t' =>
  ListOfRouters t = ListOfRouters t' /\ router_shape <$> routers t = router_shape <$> routers t' /\
  link_shape <$> links t = link_shape <$> links t'.
#[export] Instance same_shape_equivalence : Equivalence same_shape.
Proof.
  split; [done|intros t t' (E1 & E2 & E3); split; [congruence|]; split; congruence|].
  intros t t' t'' (E1 & E2 & E3) (F1 & F2 & F3). split; [congruence|]. split; congruence.
Qed.

(** Two computations that give the same up to [R]. *)
Definition same_result {A B} (R : A -> B -> Prop) (a : outcome A) (b : outcome B) : Prop :=
  match a, b with
  | Ret a, Ret b => R a b
  | Undef e, Undef e' => e = e'
  | Diverges, Diverges | Fatal, Fatal => True
  | _, _ => False
  end.

Lemma same_result_bind {A B C} (R : A -> B -> Prop) (a : outcome A) (b : outcome B) (f : A -> outcome C) g :
  same_result R a b -> (forall x y, R x y -> f x = g y) -> obind a f = obind b g.
Proof. destruct a, b; cbn; intros H Hf; try done; [by apply Hf|by rewrite H]. Qed.

Lemma find_first_ext {A B} (f g : A -> outcome (option B)) l : (forall a, f a = g a) -> find_first f l = find_first g l.
Proof. intros E. induction l as [|a l IH]; cbn; [done|]. by rewrite E, IH. Qed.

Lemma find_first_in {A B} (f : A -> outcome (option B)) l b : find_first f l = Ret (Some b) -> exists a, a ∈ l /\ f a = Ret (Some b).
Proof.
  induction l as [|a l IH]; cbn [find_first]; [done|]. intros [[x|] [E H]]%obind_Ret_inv.
  - exists a. split; [by left|congruence].
  - destruct (IH H) as (y & Hy & E'). exists y. split; [by right|done].
Qed.

Lemma shape_lookup {A B} (f : A -> B) (m m' : gmap positive A) p : f <$> m = f <$> m' ->
  same_result (fun a a' => f a = f a') (match m !! p with Some a => Ret a | None => Undef UseAfterFree end)
    (match m' !! p with Some a => Ret a | None => Undef UseAfterFree end).
Proof.
  intros E. assert ((f <$> m) !! p = (f <$> m') !! p) as H by by rewrite E. rewrite !lookup_fmap in H.
  destruct (m !! p), (m' !! p); cbn in *; congruence.
Qed.

Lemma get_router_shape t t' p : same_shape t t' -> same_result (fun r r' => router_shape r = router_shape r') (get_router t p) (get_router t' p).
Proof. intros (_ & E & _). by apply shape_lookup. Qed.

Lemma get_link_shape t t' p : same_shape t t' -> same_result (fun r r' => link_shape r = link_shape r') (get_link t p) (get_link t' p).
Proof. intros (_ & _ & E). by apply shape_lookup. Qed.

Lemma Node_GetLink_shape t t' r r' ad : same_shape t t' -> router_shape r = router_shape r' -> Node_GetLink t r ad = Node_GetLink t' r' ad.
Proof.
  intros Ht [= _ Hl _ _]. unfold Node_GetLink. rewrite Hl. apply find_first_ext. intros p.
  eapply same_result_bind; [by apply get_link_shape|]. intros l l' [= E1 E2 _]. unfold IsItOneOfTheAdapters. by rewrite E1, E2.
Qed.

Lemma GetRouter_shape t t' ad b : same_shape t t' -> GetRouter t ad b = GetRouter t' ad b.
Proof.
  intros Ht. unfold GetRouter. destruct (decide (ad = "")); [done|]. rewrite (proj1 Ht). apply find_first_ext. intros p.
  eapply same_result_bind; [by apply get_router_shape|]. intros r r' [= E1 _ _ E2]. unfold IsItYourAdapter, IsEdgeTo. by rewrite E1, E2.
Qed.

#[export] Instance far_router_proper : Proper (same_shape ==> eq ==> eq ==> eq) far_router.
Proof.
  intros t t' Ht p _ <- ad _ <-. unfold far_router. eapply same_result_bind; [by apply get_router_shape|]. intros r r' Er.
  rewrite (Node_GetLink_shape t t' r r') by done. destruct (Node_GetLink t' r' ad) as [[lp|]| | |]; cbn [obind not_null]; [|done..].
  eapply same_result_bind; [by apply get_link_shape|]. intros l l' [= E1 E2 E3]. unfold GetTheOppositeAdapter. rewrite E1, E2, E3.
  destruct (if decide _ then _ else _) as [oa| | |]; cbn [obind]; [|done..]. destruct (has_A_or_s oa); [done|].
  by rewrite (GetRouter_shape t t').
Qed.

(** ** The network *)

Definition adapters (t : TransitNetwork) (u : positive) : list string := match routers t !! u with Some r => ListOfAdapters r | None => [] end.

#[export] Instance adapters_proper : Proper (same_shape ==> eq ==> eq) adapters.
Proof.
  intros t t' Ht p _ <-. pose proof (get_router_shape t t' p Ht) as H. unfold get_router, adapters in *.
  destruct (routers t !! p), (routers t' !! p); [by injection H|done..].
Qed.

(** An adapter of [u] leads to [v], at the cost [w]. *)
Definition next_to (t : TransitNetwork) (u v : positive) (w : Z) : Prop := exists ad, ad ∈ adapters t u /\ far_router t u ad = Ret (Some (v, w)).

#[export] Instance next_to_proper : Proper (same_shape ==> eq ==> eq ==> eq ==> iff) next_to.
Proof. intros t t' Ht u _ <- v _ <- w _ <-. unfold next_to. setoid_rewrite Ht. done. Qed.

Definition insert_far (t : TransitNetwork) (u : positive) (m : gmap positive Z) (ad : string) : gmap positive Z :=
  match far_router t u ad with Ret (Some (v, w)) => map_insert v w m | _ => m end.

(** The neighbours, each with the cost of the first link to it. *)
Definition neighbours (t : TransitNetwork) (u : positive) : gmap positive Z := foldl (insert_far t u) ∅ (adapters t u).

Lemma insert_far_fold t u ads m v :
  (forall w, foldl (insert_far t u) m ads !! v = Some w -> m !! v = Some w \/ exists ad, ad ∈ ads /\ far_router t u ad = Ret (Some (v, w))) /\
  (is_Some (m !! v) -> is_Some (foldl (insert_far t u) m ads !! v)) /\
  (forall ad w, ad ∈ ads -> far_router t u ad = Ret (Some (v, w)) -> is_Some (foldl (insert_far t u) m ads !! v)).
Proof.
  revert m. induction ads as [|ad ads IH]; intros m; cbn [foldl].
  { split; [by left|]. split; [done|]. by intros ad w ?%not_elem_of_nil. }
  destruct (IH (insert_far t u m ad)) as (H1 & H2 & H3). split; [|split].
  - intros w Hw. destruct (H1 w Hw) as [H|(ad' & Hin & E)]; [|right; exists ad'; split; [by right|done]].
    unfold insert_far in H. destruct (far_router t u ad) as [[[v' w']|]| | |] eqn:E; auto.
    rewrite map_insert_lookup in H. destruct (m !! v); [by left|]. case_decide; [|done]. simplify_eq. right. exists ad. split; [by left|done].
  - intros Hm. apply H2. unfold insert_far. destruct (far_router t u ad) as [[[v' w']|]| | |]; [|done..].
    rewrite map_insert_lookup. by destruct (m !! v) eqn:E; [|by destruct Hm].
  - intros ad' w [->|Hin]%elem_of_cons E; [|by apply (H3 ad' w)]. apply H2. unfold insert_far. rewrite E, map_insert_lookup.
    destruct (m !! v); [by eexists|]. rewrite decide_True by done. by eexists.
Qed.

Lemma neighbours_next t u v w : neighbours t u !! v = Some w -> next_to t u v w.
Proof. intros H. destruct (proj1 (insert_far_fold t u (adapters t u) ∅ v) w H) as [|Hn]; done. Qed.

Lemma next_neighbours t u v w : next_to t u v w -> is_Some (neighbours t u !! v).
Proof. intros (ad & Hin & E). by apply (proj2 (proj2 (insert_far_fold t u (adapters t u) ∅ v)) ad w). Qed.

#[export] Instance neighbours_proper : Proper (same_shape ==> eq ==> eq) neighbours.
Proof.
  intros t t' Ht u _ <-. unfold neighbours. rewrite (adapters_proper t t' Ht u u eq_refl). generalize (∅ : gmap positive Z). induction (adapters t' u) as [|ad ads IH]; intros m; [done|].
  cbn [foldl]. rewrite IH. f_equal. unfold insert_far. by rewrite Ht.
Qed.

(** What the configuration has to give: routers of different numbers below GRAPHSIZE,
    each at the edge of a system; every adapter of a router belongs to a link, which leads
    to a system or to another router, at a cost below GRAPHSIZE. *)
Class Network (t : TransitNetwork) : Prop := {
  nw_nodup : NoDup (ListOfRouters t);
  nw_there : forall u, u ∈ ListOfRouters t -> exists r, routers t !! u = Some r /\ 0 <= iRouterNumber r < GRAPHSIZE /\ listEdgeAS r <> [];
  nw_numbers : forall u u' r r', u ∈ ListOfRouters t -> u' ∈ ListOfRouters t -> routers t !! u = Some r -> routers t !! u' = Some r' ->
                 iRouterNumber r = iRouterNumber r' -> u = u';
  nw_far : forall u ad, u ∈ ListOfRouters t -> ad ∈ adapters t u -> exists o, far_router t u ad = Ret o;
  nw_costs : forall u v w, u ∈ ListOfRouters t -> next_to t u v w -> v <> u /\ 0 <= w < GRAPHSIZE
}.

Lemma shape_router t t' u r : same_shape t t' -> routers t !! u = Some r -> exists r', routers t' !! u = Some r' /\ router_shape r = router_shape r'.
Proof.
  intros Ht Hr. pose proof (get_router_shape t t' u Ht) as H. unfold get_router in H. rewrite Hr in H.
  destruct (routers t' !! u) as [r'|]; [by exists r'|done].
Qed.

#[export] Instance Network_proper : Proper (same_shape ==> iff) Network.
Proof.
  assert (forall t t', same_shape t t' -> Network t -> Network t') as Himp; [|intros t t' Ht; split; by apply Himp].
  intros t t' Ht [N1 N2 N3 N4 N5]. pose proof (proj1 Ht) as El. constructor.
  - by rewrite <- El.
  - intros u. rewrite <- El. intros Hu. destruct (N2 u Hu) as (r & Hr & Hn). destruct (shape_router t t' u r Ht Hr) as (r' & Hr' & [= _ _ E1 E2]).
    exists r'. by rewrite <- E1, <- E2.
  - intros u u' r r'. rewrite <- El. intros Hu Hu' Hr Hr' E. symmetry in Ht.
    destruct (shape_router t' t u r Ht Hr) as (x & Hx & [= _ _ E1 _]). destruct (shape_router t' t u' r' Ht Hr') as (x' & Hx' & [= _ _ E2 _]).
    apply (N3 u u' x x'); congruence.
  - intros u ad Hu Had. rewrite <- El in Hu. rewrite <- (adapters_proper t t' Ht u u eq_refl) in Had.
    destruct (N4 u ad Hu Had) as [o E]. exists o. by rewrite <- Ht.
  - intros u v w Hu Hn. rewrite <- El in Hu. rewrite <- Ht in Hn. by apply N5.
Qed.

Lemma far_router_listed t u ad v w : far_router t u ad = Ret (Some (v, w)) -> v ∈ ListOfRouters t.
Proof.
  unfold far_router. intros (r & _ & H)%obind_Ret_inv. apply obind_Ret_inv in H as (lo & _ & H). apply obind_Ret_inv in H as (lp & _ & H).
  apply obind_Ret_inv in H as (l & _ & H). apply obind_Ret_inv in H as (oa & _ & H). destruct (has_A_or_s oa); [done|].
  apply obind_Ret_inv in H as (o & E & H). destruct o as [x|]; [|done]. cbn in H. injection H as <- _.
  unfold GetRouter in E. destruct (decide (oa = "")); [done|]. apply find_first_in in E as (y & Hy & E).
  apply obind_Ret_inv in E as (ry & _ & E). apply obind_Ret_inv in E as (b & _ & E). destruct b; [by injection E as <-|done].
Qed.

Lemma next_listed t u v w : next_to t u v w -> v ∈ ListOfRouters t.
Proof. intros (ad & _ & E). by apply (far_router_listed t u ad v w). Qed.
