(* ===== verification/RoutingSearch.v ===== *)
(** * The marks of the walk through the emulated network

    From a router, by one of its interfaces, ExploreNodeGraph lists every router that can
    be reached without coming back, once.  The state of the network in the middle of the
    walk is a function of the list of routers that were marked, [with_marks]. *)

From stdpp Require Import gmap strings sorting.
From S2P Require Import Prelude Routing RoutingProps RoutingHops RoutingExplore.
Open Scope Z_scope.

(** [m] links lead from [s] to [u], not counting their costs. *)
Inductive steps (t : TransitNetwork) (s : positive) : nat -> positive -> Prop :=
  | steps_here : steps t s 0 s
  | steps_next m u v w : steps t s m u -> next_to t u v w -> steps t s (S m) v.

(** No router is marked. *)
Definition clean (t : TransitNetwork) : Prop := forall q r, routers t !! q = Some r -> visitedBy r = ∅.

Lemma set_visitedBy_same r : set_visitedBy (visitedBy r) r = r.
Proof. by destruct r. Qed.

Section search.
Context (t0 : TransitNetwork) (s : positive) (i : string) (rs : Router).
Context {Hnet : Network t0} (Hs : routers t0 !! s = Some rs) (Hclean : clean t0) (Hsl : s ∈ ListOfRouters t0).

Definition start_marked (V : list positive) : Router :=
  set_visitedRouters (<[i := default [] (visitedRouters rs !! i) ++ V]> (visitedRouters rs)) rs.

Definition set_mark (V : list positive) (q : positive) (r : Router) : Router := set_visitedBy (if decide (q ∈ V) then {[s := i]} else ∅) r.

Definition with_marks (V : list positive) : TransitNetwork :=
  set_routers (map_imap (fun q r => Some (set_mark V q r)) (<[s := start_marked V]> (routers t0))) t0.

Lemma with_marks_lookup V q :
  routers (with_marks V) !! q = set_mark V q <$> (if decide (q = s) then Some (start_marked V) else routers t0 !! q).
Proof.
  unfold with_marks. cbn [routers set_routers]. rewrite map_lookup_imap. destruct (decide (q = s)) as [->|Hne].
  - by rewrite lookup_insert_eq.
  - rewrite lookup_insert_ne by done. by destruct (routers t0 !! q).
Qed.

Lemma with_marks_shape V : same_shape (with_marks V) t0.
Proof.
  split; [done|]. split; [|done]. apply map_eq. intros q. rewrite !lookup_fmap, with_marks_lookup.
  destruct (decide (q = s)) as [->|]; [by rewrite Hs|]. by destruct (routers t0 !! q).
Qed.

Lemma with_marks_visited V q r : routers (with_marks V) !! q = Some r -> WasVesitor r s i = bool_decide (q ∈ V).
Proof.
  rewrite with_marks_lookup. intros H. apply fmap_Some in H as (r' & _ & ->). unfold WasVesitor, set_mark. cbn.
  apply bool_decide_ext. destruct (decide (q ∈ V)) as [Hin|Hin]; [by rewrite lookup_singleton_eq|].
  rewrite lookup_empty. split; [done|by intros].
Qed.

(** What marking does to any state. *)
Lemma mark_eq next t r rn : routers t !! s = Some r -> routers t !! next = Some rn -> next <> s ->
  mark s i next t =
  Ret (set_routers (<[next := set_visitedBy (map_insert s i (visitedBy rn)) rn]> (<[s := AddVisitedRouter i next r]> (routers t))) t).
Proof.
  intros Hr Hn Hne. unfold mark, get_router, put_router. rewrite Hr. cbn [obind routers set_routers].
  rewrite lookup_insert_ne by done. by rewrite Hn.
Qed.

Lemma mark_first next rn : routers t0 !! next = Some rn -> next <> s -> mark s i next t0 = Ret (with_marks [next]).
Proof.
  intros Hn Hne. rewrite (mark_eq next t0 rs rn) by done. f_equal. unfold with_marks. f_equal. apply map_eq. intros q.
  rewrite map_lookup_imap. destruct (decide (q = next)) as [->|Hq].
  - rewrite lookup_insert_eq, lookup_insert_ne, Hn by done. cbn. unfold set_mark. rewrite decide_True by by left.
    by rewrite (Hclean next rn Hn).
  - rewrite lookup_insert_ne by done. destruct (decide (q = s)) as [->|Hqs].
    + rewrite !lookup_insert_eq. cbn. unfold set_mark. rewrite decide_False by (rewrite elem_of_cons, elem_of_nil; intros [|]; congruence).
      unfold start_marked, AddVisitedRouter. rewrite <- (Hclean s rs Hs). by destruct rs.
    + rewrite !lookup_insert_ne by done. destruct (routers t0 !! q) as [r|] eqn:Er; [|done]. cbn. unfold set_mark.
      rewrite decide_False by (rewrite elem_of_cons, elem_of_nil; intros [|]; congruence).
      by rewrite <- (Hclean q r Er), set_visitedBy_same.
Qed.

Lemma mark_more V next rn : routers t0 !! next = Some rn -> next <> s -> ~ next ∈ V -> ~ s ∈ V ->
  mark s i next (with_marks V) = Ret (with_marks (V ++ [next])).
Proof.
  intros Hn Hne Hnv Hsv. rewrite (mark_eq next _ (set_mark V s (start_marked V)) (set_mark V next rn)).
  - f_equal. unfold with_marks at 2 3. unfold set_routers. cbn. f_equal. apply map_eq. intros q.
    rewrite map_lookup_imap. destruct (decide (q = next)) as [->|Hq].
    + rewrite lookup_insert_eq, lookup_insert_ne, Hn by done. cbn. unfold set_mark.
      rewrite decide_False by done. rewrite decide_True by (apply elem_of_app; right; by left). done.
    + rewrite lookup_insert_ne by done. destruct (decide (q = s)) as [->|Hqs].
      * rewrite !lookup_insert_eq. cbn. unfold set_mark. rewrite !decide_False by (rewrite ?elem_of_app, ?elem_of_cons, ?elem_of_nil; intuition congruence).
        unfold start_marked, AddVisitedRouter. cbn. rewrite lookup_insert_eq, insert_insert_eq. cbn. by rewrite <- app_assoc.
      * rewrite !lookup_insert_ne by done. fold (routers (with_marks V)).
        rewrite map_lookup_imap, lookup_insert_ne by done. destruct (routers t0 !! q) as [r|]; [|done]. cbn. unfold set_mark.
        destruct (decide (q ∈ V)) as [Hin|Hin], (decide (q ∈ V ++ [next])) as [Hin'|Hin']; try done.
        -- destruct Hin'. apply elem_of_app. by left.
        -- apply elem_of_app in Hin' as [|Hin']; [done|]. by apply list_elem_of_singleton in Hin'.
  - by rewrite with_marks_lookup, decide_True.
  - by rewrite with_marks_lookup, decide_False, Hn.
  - done.
Qed.

(** ** The walk *)

(** What is found is among the routers, once each, and is not the start. *)
Definition good (V : list positive) : Prop := NoDup V /\ forall x, x ∈ V -> x ∈ ListOfRouters t0 /\ x <> s.

(** All links of [x] lead to the start or to [W]. *)
Definition closed (W : list positive) (x : positive) : Prop := forall v w, next_to t0 x v w -> v = s \/ v ∈ W.

Lemma closed_app W W' x : closed W x -> closed (W ++ W') x.
Proof. intros H v w Hn. destruct (H v w Hn); [by left|right; apply elem_of_app; by left]. Qed.

Lemma good_length V : good V -> (length V < length (ListOfRouters t0))%nat.
Proof.
  intros [Hnd Hin]. assert (s :: V ⊆+ ListOfRouters t0) as H%submseteq_length; [|cbn [length] in H; lia].
  apply NoDup_submseteq; [apply NoDup_cons; split; [|done]; intros H; by apply Hin in H as [_ H]|].
  intros x [->|Hx]%elem_of_cons; [done|by apply Hin].
Qed.

Lemma good_snoc V v : good V -> v ∈ ListOfRouters t0 -> v <> s -> ~ v ∈ V -> good (V ++ [v]).
Proof.
  intros [Hnd Hin] Hv Hne Hn. split.
  - apply NoDup_app. split; [done|]. split; [|apply NoDup_singleton]. by intros x Hx ->%list_elem_of_singleton.
  - intros x [Hx|Hx]%elem_of_app; [by apply Hin|]. apply list_elem_of_singleton in Hx as ->. done.
Qed.

(** What the walk from [u] by [ads] adds to [V]: [N] bounds the links to what it finds. *)
Record found_from (N : nat) (V V' : list positive) (new : list positive -> Prop) : Prop := {
  ff_good : good (V ++ V');
  ff_new : new (V ++ V');
  ff_closed : forall x, x ∈ V' -> closed (V ++ V') x;
  ff_steps : forall x, x ∈ V' -> exists m, (m <= N)%nat /\ steps t0 s m x
}.

Definition search_step (fuel : nat) (u : positive) (t : TransitNetwork) (ad : string) : outcome TransitNetwork :=
  let! far := far_router t u ad in
  match far with
  | None => Ret t
  | Some (next, _) =>
      let! nr := get_router t next in
      let! t := if negb (bool_decide (next = u)) && negb (WasVesitor nr s i) && negb (bool_decide (next = s)) then
                  let! t := mark s i next t in ExploreNodeGraph fuel next s true i t
                else Ret t in
      Ret t
  end.

Lemma ExploreNodeGraph_eq fuel u t : u <> s ->
  ExploreNodeGraph (S fuel) u s true i t = let! r := get_router t u in ofold (search_step fuel u) t (ListOfAdapters r).
Proof. intros Hne. cbn [ExploreNodeGraph]. rewrite bool_decide_false by done. reflexivity. Qed.

Lemma walk_adapters fuel N u d :
  (forall v V, good V -> v ∈ V -> steps t0 s (S d) v -> (length (ListOfRouters t0) <= fuel + length V)%nat ->
     exists V', ExploreNodeGraph fuel v s true i (with_marks V) = Ret (with_marks (V ++ V')) /\ found_from N V V' (fun W => closed W v)) ->
  (S d <= N)%nat -> u <> s -> u ∈ ListOfRouters t0 -> steps t0 s d u ->
  forall ads V, (forall ad, ad ∈ ads -> ad ∈ adapters t0 u) -> good V -> (length (ListOfRouters t0) <= S fuel + length V)%nat ->
  exists V', ofold (search_step fuel u) (with_marks V) ads = Ret (with_marks (V ++ V')) /\
    found_from N V V' (fun W => forall ad v w, ad ∈ ads -> far_router t0 u ad = Ret (Some (v, w)) -> v = s \/ v ∈ W).
Proof.
  intros IH HdN Hus Hul Hst. induction ads as [|ad ads IHads]; intros V Hads HV Hf; cbn [ofold].
  { exists []. rewrite app_nil_r. split; [done|]. split; rewrite ?app_nil_r; [done|by intros ad v w ?%not_elem_of_nil|by intros x ?%not_elem_of_nil..]. }
  assert (forall ad, ad ∈ ads -> ad ∈ adapters t0 u) as Hads' by (intros a Ha; apply Hads; by right).
  assert (ad ∈ adapters t0 u) as Had by (apply Hads; by left).
  unfold search_step at 1. rewrite (far_router_proper _ _ (with_marks_shape V) u u eq_refl ad ad eq_refl).
  destruct (nw_far u ad Hul Had) as ([[v w]|] & Efar); rewrite Efar; cbn [obind].
  2: { destruct (IHads V Hads' HV Hf) as (V' & -> & [H1 H2 H3 H4]). exists V'. split; [done|]. split; [done| |done|done].
       intros a x k [->|Ha]%elem_of_cons E; [congruence|by apply (H2 a x k)]. }
  assert (next_to t0 u v w) as Hnext by by exists ad. pose proof (next_listed _ _ _ _ Hnext) as Hvl.
  destruct (nw_costs u v w Hul Hnext) as [Hvu _]. destruct (nw_there v Hvl) as (rv & Hrv & _).
  assert (exists r, routers (with_marks V) !! v = Some r) as [r Hr].
  { rewrite with_marks_lookup. destruct (decide (v = s)); [by eexists|]. rewrite Hrv. by eexists. }
  unfold get_router at 1. rewrite Hr. cbn [obind]. rewrite (with_marks_visited V v r Hr). rewrite (bool_decide_false (v = u)) by done.
  assert (forall V', v = s \/ v ∈ V -> found_from N V V' (fun W => forall a x k, a ∈ ads -> far_router t0 u a = Ret (Some (x, k)) -> x = s \/ x ∈ W) ->
            found_from N V V' (fun W => forall a x k, a ∈ ad :: ads -> far_router t0 u a = Ret (Some (x, k)) -> x = s \/ x ∈ W)) as Hold.
  { intros V' Hv [H1 H2 H3 H4]. split; [done| |done|done]. intros a x k [->|Ha]%elem_of_cons E; [|by apply (H2 a x k)].
    rewrite Efar in E. injection E as <- <-. destruct Hv; [by left|right; apply elem_of_app; by left]. }
  destruct (decide (v ∈ V)) as [Hin|Hin]; [|destruct (decide (v = s)) as [Hvs|Hvs]].
  - rewrite (bool_decide_true (v ∈ V)) by done. cbn [negb andb obind]. destruct (IHads V Hads' HV Hf) as (V' & -> & Hff). exists V'. auto.
  - rewrite (bool_decide_true (v = s)), andb_false_r by done. cbn [obind]. destruct (IHads V Hads' HV Hf) as (V' & -> & Hff). exists V'. auto.
  - rewrite (bool_decide_false (v ∈ V)), (bool_decide_false (v = s)) by done. cbn [negb andb].
    rewrite (mark_more V v rv) by (try done; intros H; by apply HV in H as [_ H]). cbn [obind].
    assert (good (V ++ [v])) as HV1 by by apply good_snoc.
    destruct (IH v (V ++ [v])) as (V1 & -> & [G1 G2 G3 G4]); [done|apply elem_of_app; right; by left|by apply (steps_next _ _ d u v w)| |].
    { rewrite length_app. cbn [length]. lia. }
    cbn [obind]. destruct (IHads ((V ++ [v]) ++ V1) Hads' G1) as (V2 & -> & [H1 H2 H3 H4]); [rewrite !length_app; lia|].
    assert (((V ++ [v]) ++ V1) ++ V2 = V ++ (v :: V1 ++ V2)) as E by by rewrite <- !app_assoc.
    exists (v :: V1 ++ V2). rewrite <- E. split; [done|]. split; rewrite <- ?E; [done| | |].
    + intros a x k [->|Ha]%elem_of_cons Ea; [|by apply (H2 a x k)]. rewrite Efar in Ea. injection Ea as <- <-. right. rewrite E.
      apply elem_of_app. right. by left.
    + intros x Hx. apply elem_of_cons in Hx as [->|Hx]; [by apply closed_app|].
      apply elem_of_app in Hx as [Hx|Hx]; [apply closed_app; by apply G3|by apply H3].
    + intros x Hx. apply elem_of_cons in Hx as [->|Hx]; [|apply elem_of_app in Hx as [Hx|Hx]; [by apply G4|by apply H4]]. exists (S d). split; [done|]. by apply (steps_next _ _ d u v w).
Qed.

Lemma search_ok N fuel : forall u V d, good V -> u ∈ V -> steps t0 s d u -> (length (ListOfRouters t0) <= fuel + length V)%nat -> (d + fuel <= N)%nat ->
  exists V', ExploreNodeGraph fuel u s true i (with_marks V) = Ret (with_marks (V ++ V')) /\ found_from N V V' (fun W => closed W u).
Proof.
  induction fuel as [|fuel IH]; intros u V d HV Hu Hst Hf HN; pose proof (good_length V HV); [lia|].
  destruct (proj2 HV u Hu) as [Hul Hus]. rewrite ExploreNodeGraph_eq by done.
  destruct (nw_there u Hul) as (ru & Hru & _). unfold get_router at 1. rewrite with_marks_lookup, decide_False, Hru by done. cbn [fmap option_fmap option_map obind].
  destruct (walk_adapters fuel N u d) with (ads := adapters t0 u) (V := V) as (V' & E & [H1 H2 H3 H4]); try done; [|lia|].
  - intros v W HW Hv Hsv Hl. apply (IH v W (S d)); [done..|lia].
  - exists V'. split; [|split; [done| |done|done]].
    + rewrite <- E. unfold adapters. by rewrite Hru.
    + intros v w (ad & Had & Efar). by apply (H2 ad v w).
Qed.
End search.
