(* ===== verification/RoutingGraph.v ===== *)
(** * The routes of the emulated network

    ExploreGraph as a whole: every router knows, for every router that links lead to,
    the length of a shortest walk and a neighbour on a walk to it. *)

From Stdlib Require List.
From stdpp Require Import gmap strings sorting.
From S2P Require Import Prelude Routing RoutingProps RoutingHops RoutingExplore RoutingSearch.
Open Scope Z_scope.

(** ** What a router finds

    ExploreNodeGraph of a router, all its interfaces together: the lists visitedRouters
    and the costs of the neighbours, with no mark left anywhere. *)

(** ** The marks are cleared *)

Definition cleared (L : list positive) (m : gmap positive Router) : gmap positive Router :=
  map_imap (fun q r => Some (if decide (q ∈ L) then set_visitedBy ∅ r else r)) m.

Lemma clear_fold L : forall t, (forall q, q ∈ L -> is_Some (routers t !! q)) ->
  ofold (fun t p => let! r := get_router t p in Ret (put_router p (set_visitedBy ∅ r) t)) t L = Ret (set_routers (cleared L (routers t)) t).
Proof.
  induction L as [|q L IH]; intros t Hin; cbn [ofold].
  { f_equal. destruct t. unfold set_routers, cleared. cbn. f_equal. apply map_eq. intros q. rewrite map_lookup_imap. by destruct (_ !! q). }
  destruct (Hin q) as [r Hr]; [by left|]. unfold get_router at 1. rewrite Hr. cbn [obind]. rewrite IH.
  - f_equal. unfold put_router, set_routers. cbn. f_equal. apply map_eq. intros x. unfold cleared. rewrite !map_lookup_imap.
    destruct (decide (x = q)) as [->|Hne].
    + rewrite lookup_insert_eq, Hr. cbn. rewrite (decide_True (P := q ∈ q :: L)) by by left. by destruct (decide (q ∈ L)).
    + rewrite lookup_insert_ne by done. destruct (routers t !! x); [|done]. cbn.
      destruct (decide (x ∈ L)) as [H|H], (decide (x ∈ q :: L)) as [H'|H']; try done; [by destruct H'; right|].
      by apply elem_of_cons in H' as [|].
  - intros x Hx. rewrite routers_put. case_decide; [by eexists|]. apply Hin. by right.
Qed.

Lemma clear_marks t s i rs D V : Network t -> routers t !! s = Some rs -> clean t -> s ∈ ListOfRouters t -> good t s V ->
  clear_visitedBy (put_router s (set_directRoutersCosts D (set_mark s i V s (start_marked i rs V))) (with_marks t s i rs V)) =
  Ret (put_router s (set_directRoutersCosts D (start_marked i rs V)) t).
Proof.
  intros Hnet Hs Hclean Hsl [_ HV]. unfold clear_visitedBy. rewrite clear_fold.
  - f_equal. unfold put_router, set_routers. cbn. f_equal. apply map_eq. intros q. unfold cleared. rewrite map_lookup_imap.
    destruct (decide (q = s)) as [->|Hne].
    + rewrite !lookup_insert_eq. cbn. rewrite decide_True by done.
      assert (visitedBy rs = ∅) as E by by apply (Hclean s). f_equal. unfold start_marked. destruct rs. cbn in *. by rewrite E.
    + rewrite !lookup_insert_ne by done. pose proof (with_marks_lookup t s i rs V q) as E. cbn [routers with_marks set_routers] in E.
      rewrite E, decide_False by done. destruct (routers t !! q) as [r|] eqn:Er; [|done]. cbn.
      assert (visitedBy r = ∅) as Ec by by apply (Hclean q). destruct (decide (q ∈ ListOfRouters t)) as [|Hq].
      * f_equal. unfold set_mark. destruct r. cbn in *. by rewrite Ec.
      * unfold set_mark. rewrite decide_False by (intros H; by apply HV in H as [H _]). by rewrite <- Ec, set_visitedBy_same.
  - intros q Hq. rewrite routers_put. destruct (decide (q = s)) as [|Hne]; [by eexists|].
    rewrite with_marks_lookup, decide_False by done. destruct (nw_there (t := t) q Hq) as (r & -> & _). by eexists.
Qed.

(** ** One interface *)

Definition top_step (fuel : nat) (s : positive) (t : TransitNetwork) (ad : string) : outcome TransitNetwork :=
  let! far := far_router t s ad in
  match far with
  | None => Ret t
  | Some (next, cost) =>
      let! nr := get_router t next in
      let! t := if negb (bool_decide (next = s)) && negb (WasVesitor nr s ad) && negb (bool_decide (next = s)) then
                  let! t := mark s ad next t in ExploreNodeGraph fuel next s true ad t
                else Ret t in
      end_of_adapter s next cost t
  end.

Lemma ExploreNodeGraph_top fuel s t :
  ExploreNodeGraph (S fuel) s s false "" t = let! r := get_router t s in ofold (top_step fuel s) t (ListOfAdapters r).
Proof. cbn [ExploreNodeGraph]. rewrite bool_decide_true by done. reflexivity. Qed.

Section top.
Context (t : TransitNetwork) (s : positive).
Context {Hnet : Network t} (Hsl : s ∈ ListOfRouters t).

Definition nrouters : nat := length (ListOfRouters t).

Lemma top_adapter t' rs ad v w : same_shape t' t -> clean t' -> routers t' !! s = Some rs -> ad ∈ adapters t s ->
  far_router t s ad = Ret (Some (v, w)) ->
  exists V, top_step nrouters s t' ad =
      Ret (put_router s (set_directRoutersCosts (map_insert v w (directRoutersCosts rs)) (start_marked ad rs V)) t') /\
    good t s V /\ v ∈ V /\ (forall x, x ∈ V -> closed t s V x) /\ forall x, x ∈ V -> exists m, (m <= S nrouters)%nat /\ steps t s m x.
Proof.
  intros Hsh Hclean Hs Had Efar. assert (Network t') as Hnet' by by rewrite Hsh.
  assert (next_to t s v w) as Hnext by by exists ad. destruct (nw_costs s v w Hsl Hnext) as [Hvs _].
  pose proof (next_listed _ _ _ _ Hnext) as Hvl. assert (s ∈ ListOfRouters t') as Hsl' by by rewrite (proj1 Hsh).
  assert (v ∈ ListOfRouters t') as Hvl' by by rewrite (proj1 Hsh).
  destruct (nw_there (t := t') v Hvl') as (rv & Hrv & _).
  assert (good t' s [v]) as Hg.
  { split; [apply NoDup_singleton|]. by intros x ->%list_elem_of_singleton. }
  assert (steps t' s 1 v) as Hst by (apply (steps_next t' s 0 s v w); [constructor|by rewrite Hsh]).
  assert (nrouters = length (ListOfRouters t')) as En by by rewrite (proj1 Hsh).
  destruct (search_ok t' s ad rs Hs Hsl' (S nrouters) nrouters v [v] 1%nat) as (V' & E & [H1 H2 H3 H4]); [done|by left|done|cbn [length]; lia|lia|].
  exists ([v] ++ V'). split; [|split; [|split; [by left|split]]].
  - unfold top_step. rewrite (far_router_proper _ _ Hsh s s eq_refl ad ad eq_refl), Efar. cbn [obind]. unfold get_router. rewrite Hrv. cbn [obind].
    rewrite (bool_decide_false (v = s)) by done. assert (WasVesitor rv s ad = false) as ->.
    { unfold WasVesitor. rewrite (Hclean v rv Hrv), lookup_empty. by apply bool_decide_false. }
    cbn [negb andb]. rewrite (mark_first t' s ad rs Hs Hclean v rv) by done. cbn [obind]. rewrite E. cbn [obind].
    unfold end_of_adapter, get_router. rewrite with_marks_lookup, decide_True by done. cbn [fmap option_fmap option_map obind].
    by rewrite <- clear_marks.
  - destruct H1 as [Hnd H1]. split; [done|]. intros x Hx. rewrite <- (proj1 Hsh). by apply H1.
  - intros x [->|Hx]%elem_of_cons; intros y k Hn.
    + apply (H2 y k). by rewrite Hsh.
    + apply (H3 x Hx y k). by rewrite Hsh.
  - assert (forall m x, steps t' s m x -> steps t s m x) as Hback.
    { intros m x Hm. induction Hm as [|m u x k Hm IHm Hn]; [constructor|]. apply (steps_next t s m u x k IHm). by rewrite <- Hsh. }
    intros x [->|Hx]%elem_of_cons; [exists 1%nat; split; [lia|by apply Hback]|]. destruct (H4 x Hx) as (m & Hm & Hx'). exists m. auto.
Qed.

(** ** All interfaces *)

Definition in_lists (VR : gmap string (list positive)) (x : positive) : Prop := exists i l, VR !! i = Some l /\ x ∈ l.

Record listed (ads : list string) (VR : gmap string (list positive)) : Prop := {
  li_in : forall x, in_lists VR x -> x ∈ ListOfRouters t /\ x <> s /\ exists m, (m <= S nrouters)%nat /\ steps t s m x;
  li_closed : forall x v w, in_lists VR x -> next_to t x v w -> v = s \/ in_lists VR v;
  li_ads : forall ad v w, ad ∈ ads -> far_router t s ad = Ret (Some (v, w)) -> in_lists VR v;
  li_keys : forall i l, VR !! i = Some l -> i ∈ adapters t s /\ exists far, far_router t s i = Ret (Some far)
}.

Lemma in_lists_insert VR i V x : in_lists (<[i := default [] (VR !! i) ++ V]> VR) x <-> in_lists VR x \/ x ∈ V.
Proof.
  split.
  - intros (j & l & Hl & Hx). destruct (decide (j = i)) as [->|Hne].
    + rewrite lookup_insert_eq in Hl. injection Hl as <-. apply elem_of_app in Hx as [Hx|]; [left|by right].
      destruct (VR !! i) as [l|] eqn:E; [by exists i, l|by apply not_elem_of_nil in Hx].
    + rewrite lookup_insert_ne in Hl by done. left. by exists j, l.
  - intros [(j & l & Hl & Hx)|Hx].
    + destruct (decide (j = i)) as [->|Hne].
      * exists i, (default [] (VR !! i) ++ V). rewrite lookup_insert_eq, Hl. split; [done|]. apply elem_of_app. by left.
      * exists j, l. by rewrite lookup_insert_ne.
    + exists i, (default [] (VR !! i) ++ V). rewrite lookup_insert_eq. split; [done|]. apply elem_of_app. by right.
Qed.

Lemma top_adapters rs : routers t !! s = Some rs -> clean t -> forall ads don VR D, (forall ad, ad ∈ ads -> ad ∈ adapters t s) ->
  listed don VR ->
  exists VR', ofold (top_step nrouters s) (put_router s (set_directRoutersCosts D (set_visitedRouters VR rs)) t) ads =
      Ret (put_router s (set_directRoutersCosts (foldl (insert_far t s) D ads) (set_visitedRouters VR' rs)) t) /\ listed (don ++ ads) VR'.
Proof.
  intros Hs Hclean. induction ads as [|ad ads IH]; intros don VR D Hads Hl; cbn [ofold foldl].
  { exists VR. by rewrite app_nil_r. }
  assert (forall ad, ad ∈ ads -> ad ∈ adapters t s) as Hads' by (intros a Ha; apply Hads; by right).
  assert (ad ∈ adapters t s) as Had by (apply Hads; by left). set (r1 := set_directRoutersCosts D (set_visitedRouters VR rs)).
  assert (same_shape (put_router s r1 t) t) as Hsh.
  { split; [done|]. split; [|done]. apply map_eq. intros q. rewrite !lookup_fmap, routers_put. destruct (decide (q = s)) as [->|]; [|done]. by rewrite Hs. }
  assert (clean (put_router s r1 t)) as Hcl.
  { intros q r. rewrite routers_put. destruct (decide (q = s)) as [->|]; [|apply Hclean]. intros [= <-]. exact (Hclean s rs Hs). }
  replace (don ++ ad :: ads) with ((don ++ [ad]) ++ ads) by by rewrite <- app_assoc.
  destruct (nw_far s ad Hsl Had) as ([[v w]|] & Efar).
  - destruct (top_adapter (put_router s r1 t) r1 ad v w) as (V & -> & [Hnd HV] & HvV & Hclo & Hst); [done|done|by rewrite routers_put, decide_True|done|done|].
    cbn [obind]. rewrite put_router_twice.
    assert (insert_far t s D ad = map_insert v w D) as -> by by unfold insert_far; rewrite Efar.
    destruct (IH (don ++ [ad]) (<[ad := default [] (VR !! ad) ++ V]> VR) (map_insert v w D) Hads') as (VR' & E & Hl'); [|by exists VR'].
    destruct Hl as [L1 L2 L3 L4]. split.
    + intros x [Hx|Hx]%in_lists_insert; [by apply L1|]. destruct (HV x Hx). split; [done|]. split; [done|]. by apply Hst.
    + intros x y k Hx Hn. rewrite in_lists_insert. apply in_lists_insert in Hx as [Hx|Hx].
      * destruct (L2 x y k Hx Hn); auto.
      * destruct (Hclo x Hx y k Hn); auto.
    + intros a y k Ha Ea. rewrite in_lists_insert. apply elem_of_app in Ha as [Ha|Ha]; [left; by apply (L3 a y k)|].
      apply list_elem_of_singleton in Ha as ->. right. rewrite Efar in Ea. by injection Ea as <- _.
    + intros j l. destruct (decide (j = ad)) as [->|Hne]; [intros _; split; [done|by eexists]|]. rewrite lookup_insert_ne by done. apply L4.
  - unfold top_step at 1. rewrite (far_router_proper _ _ Hsh s s eq_refl ad ad eq_refl), Efar. cbn [obind].
    assert (insert_far t s D ad = D) as -> by by unfold insert_far; rewrite Efar.
    apply IH; [done|]. destruct Hl as [L1 L2 L3 L4]. split; [done|done| |done]. intros a y k Ha Ea.
    apply elem_of_app in Ha as [Ha|Ha]; [by apply (L3 a y k)|]. apply list_elem_of_singleton in Ha as ->. congruence.
Qed.

Lemma explore_ok rs : routers t !! s = Some rs -> clean t -> visitedRouters rs = ∅ -> directRoutersCosts rs = ∅ ->
  exists VR, ExploreNodeGraph (S nrouters) s s false "" t =
      Ret (put_router s (set_directRoutersCosts (neighbours t s) (set_visitedRouters VR rs)) t) /\ listed (adapters t s) VR.
Proof.
  intros Hs Hclean Hvr Hdc. rewrite ExploreNodeGraph_top. unfold get_router. rewrite Hs. cbn [obind].
  destruct (top_adapters rs Hs Hclean (adapters t s) [] ∅ ∅) as (VR & E & Hl); [done| |].
  { split; [by intros x (i & l & Hl & _)|by intros x v w (i & l & Hl & _)|by intros ad v w ?%not_elem_of_nil|by intros i l Hl]. }
  exists VR. split; [|done]. unfold neighbours. rewrite <- E. unfold adapters. rewrite Hs. f_equal. unfold put_router. destruct rs. cbn in *. subst.
  rewrite insert_id by done. by destruct t.
Qed.
End top.

(** ** The destinations of the links *)

(** The links may have got destinations. *)
Definition relinked (t t' : TransitNetwork) : Prop := exists ls, t' = set_links ls t /\ link_shape <$> ls = link_shape <$> links t.

Lemma relinked_shape t t' : relinked t t' -> same_shape t' t.
Proof. intros (ls & -> & E). by split. Qed.

Lemma add_dest_ok t0 lp oi t q r : relinked t0 t -> is_Some (links t0 !! lp) -> routers t0 !! q = Some r -> listEdgeAS r <> [] ->
  exists t', add_dest lp oi t q = Ret t' /\ relinked t0 t'.
Proof.
  intros (ls & -> & E) Hl Hr Hne. unfold add_dest, get_link, get_router. cbn [links routers set_links].
  assert (is_Some ((link_shape <$> ls) !! lp)) as [x Hx] by (rewrite E, lookup_fmap; by apply fmap_is_Some).
  rewrite lookup_fmap in Hx. apply fmap_Some in Hx as (l & Hl' & ->). rewrite Hl', Hr. cbn [obind]. unfold GetEdgeAs.
  destruct (listEdgeAS r) as [|e es]; [done|]. cbn [obind]. eexists. split; [done|]. eexists. split; [done|].
  rewrite <- E, fmap_insert. apply insert_id. by rewrite lookup_fmap, Hl'.
Qed.

Lemma far_router_link t u ad v w : far_router t u ad = Ret (Some (v, w)) -> exists r lp l oa,
  routers t !! u = Some r /\ Node_GetLink t r ad = Ret (Some lp) /\ links t !! lp = Some l /\ GetTheOppositeAdapter l ad = Ret oa /\
  GetRouter t oa false = Ret (Some v) /\ w = swrap32 (uCost l).
Proof.
  unfold far_router, get_router, get_link. destruct (routers t !! u) as [r|]; [|done]. cbn [obind].
  intros (o & E1 & H)%obind_Ret_inv. destruct o as [lp|]; [|done]. cbn [obind not_null] in H. destruct (links t !! lp) as [l|] eqn:E2; [|done].
  cbn [obind] in H. apply obind_Ret_inv in H as (oa & E3 & H). destruct (has_A_or_s oa); [done|].
  apply obind_Ret_inv in H as (o & E4 & H). destruct o as [x|]; [|done]. cbn in H. injection H as -> <-. by exists r, lp, l, oa.
Qed.

Lemma UpdateLinksDests_ok t p r : Network t -> p ∈ ListOfRouters t -> routers t !! p = Some r -> listed t p (adapters t p) (visitedRouters r) ->
  exists t', UpdateLinksDests p t = Ret t' /\ relinked t t'.
Proof.
  intros Hnet Hp Hr Hl. unfold UpdateLinksDests, get_router. rewrite Hr. cbn [obind]. apply (ofold_inv (relinked t)); [|by exists (links t); destruct t].
  intros t1 ci (ls & -> & E) Hci. rewrite merge_sort_Permutation, elem_of_elements in Hci. apply elem_of_dom in Hci as [l Hl1].
  destruct (li_keys t p _ _ Hl ci l Hl1) as (_ & [v w] & Efar).
  assert (same_shape (set_links ls t) t) as Hsh by (apply relinked_shape; by exists ls).
  rewrite <- (far_router_proper _ _ Hsh p p eq_refl ci ci eq_refl) in Efar.
  apply far_router_link in Efar as (r1 & lp & lk & oa & Hr1 & E1 & E2 & E3 & _ & _). cbn [routers set_links] in Hr1.
  assert (r1 = r) as -> by congruence.
  unfold update_interface, get_router. cbn [routers set_links]. rewrite Hr. cbn [obind]. rewrite E1. cbn [obind not_null].
  unfold get_link. rewrite E2. cbn [obind]. rewrite E3. cbn [obind]. rewrite Hl1. cbn [default from_option id].
  apply (ofold_inv (relinked t)); [|by exists ls]. intros t2 q Ht2 Hq.
  destruct (li_in t p _ _ Hl q) as (Hql & _); [by exists ci, l|]. destruct (nw_there q Hql) as (rq & Hrq & _ & Hne).
  apply (add_dest_ok t lp oa t2 q rq); [done| |done|done]. cbn [links set_links] in E2.
  assert (is_Some ((link_shape <$> links t) !! lp)) as H by (rewrite <- E, lookup_fmap, E2; by eexists).
  rewrite lookup_fmap in H. by apply fmap_is_Some in H.
Qed.

(** ** The first loop *)

(** A router as AddRouter makes it. *)
Record fresh (r : Router) : Prop := {
  fr_visited : visitedBy r = ∅;
  fr_lists : visitedRouters r = ∅;
  fr_direct : directRoutersCosts r = ∅;
  fr_all : allRoutersCosts r = ∅;
  fr_prev : prevRouters r = ∅
}.

Lemma listed_shape t t' s ads VR : same_shape t t' -> listed t s ads VR -> listed t' s ads VR.
Proof.
  intros Ht [L1 L2 L3 L4]. pose proof (proj1 Ht) as El.
  assert (forall m x, steps t s m x -> steps t' s m x) as Hst.
  { intros m x Hm. induction Hm as [|m u x k Hm IHm Hn]; [constructor|]. apply (steps_next t' s m u x k IHm). by rewrite <- Ht. }
  assert (nrouters t = nrouters t') as En by (unfold nrouters; by rewrite El). split.
  - intros x Hx. destruct (L1 x Hx) as (H1 & H2 & m & Hm & H3). rewrite <- El, <- En. split; [done|]. split; [done|]. exists m. auto.
  - intros x v w Hx Hn. apply (L2 x v w Hx). by rewrite Ht.
  - intros ad v w Had E. apply (L3 ad v w Had). by rewrite Ht.
  - intros i l Hi. destruct (L4 i l Hi) as (H1 & far & H2). rewrite <- (adapters_proper t t' Ht s s eq_refl). split; [done|]. exists far. by rewrite <- Ht.
Qed.

Section graph.
Context (t0 : TransitNetwork) {Hnet : Network t0} (Hfresh : forall q r, routers t0 !! q = Some r -> fresh r).

(** What the first loop leaves in a router. *)
Record explored_router (q : positive) (r0 r : Router) : Prop := {
  er_shape : r = set_directRoutersCosts (neighbours t0 q) (set_visitedRouters (visitedRouters r) r0);
  er_listed : listed t0 q (adapters t0 q) (visitedRouters r)
}.

Record halfway (don : list positive) (t : TransitNetwork) : Prop := {
  hw_shape : same_shape t t0;
  hw_done : forall q r0, q ∈ don -> routers t0 !! q = Some r0 -> exists r, routers t !! q = Some r /\ explored_router q r0 r;
  hw_rest : forall q, ~ q ∈ don -> routers t !! q = routers t0 !! q
}.

Lemma halfway_clean don t : (forall q, q ∈ don -> q ∈ ListOfRouters t0) -> halfway don t -> clean t.
Proof.
  intros Hdon [H1 H2 H3] q r Hr. destruct (decide (q ∈ don)) as [Hq|Hq].
  - destruct (nw_there q (Hdon q Hq)) as (r0 & Hr0 & _). destruct (H2 q r0 Hq Hr0) as (r' & Hr' & [E _]).
    assert (r' = r) as <- by congruence. rewrite E. apply (fr_visited _ (Hfresh q r0 Hr0)).
  - rewrite H3 in Hr by done. apply (fr_visited _ (Hfresh q r Hr)).
Qed.

Lemma explore_router_ok don t p : (forall q, q ∈ don -> q ∈ ListOfRouters t0) -> halfway don t -> p ∈ ListOfRouters t0 -> ~ p ∈ don ->
  exists t', explore_router t p = Ret t' /\ halfway (p :: don) t'.
Proof.
  intros Hdon Hh Hp Hn. pose proof (halfway_clean don t Hdon Hh) as Hclean. destruct Hh as [H1 H2 H3].
  assert (Network t) as Hnet' by by rewrite H1. assert (p ∈ ListOfRouters t) as Hp' by by rewrite (proj1 H1).
  destruct (nw_there p Hp) as (r0 & Hr0 & _). assert (routers t !! p = Some r0) as Hr by by rewrite H3.
  destruct (Hfresh p r0 Hr0) as [F1 F2 F3 F4 F5]. destruct (explore_ok t p Hp' r0 Hr Hclean F2 F3) as (VR & E & HVR).
  unfold explore_router. fold (nrouters t). rewrite E. cbn [obind]. set (r1 := set_directRoutersCosts _ _). set (t1 := put_router p r1 t).
  assert (same_shape t1 t) as Hsh.
  { split; [done|]. split; [|done]. apply map_eq. intros q. rewrite !lookup_fmap. subst t1. rewrite routers_put.
    destruct (decide (q = p)) as [->|]; [|done]. by rewrite Hr. }
  destruct (UpdateLinksDests_ok t1 p r1) as (t2 & -> & ls & -> & Els).
  { by rewrite Hsh. }
  { done. }
  { subst t1. by rewrite routers_put, decide_True. }
  { apply (listed_shape t); [by symmetry|]. by rewrite (adapters_proper _ _ Hsh p p eq_refl). }
  eexists. split; [done|]. split.
  - rewrite <- H1, <- Hsh. apply relinked_shape. by exists ls.
  - intros q x Hq Hx. cbn [routers set_links]. subst t1. rewrite routers_put. destruct (decide (q = p)) as [->|Hne].
    + assert (x = r0) as -> by congruence. exists r1. split; [done|]. subst r1. split; [by rewrite (neighbours_proper _ _ H1 p p eq_refl)|].
      cbn. rewrite <- (adapters_proper _ _ H1 p p eq_refl). by apply (listed_shape t).
    + apply elem_of_cons in Hq as [|Hq]; [done|]. by apply H2.
  - intros q Hq. cbn [routers set_links]. subst t1. rewrite routers_put, decide_False by (intros ->; apply Hq; by left).
    apply H3. intros H. apply Hq. by right.
Qed.

Lemma explore_routers_ok L : forall don t, (forall q, q ∈ don -> q ∈ ListOfRouters t0) -> halfway don t -> NoDup L ->
  (forall p, p ∈ L -> p ∈ ListOfRouters t0 /\ ~ p ∈ don) ->
  exists t', ofold explore_router t L = Ret t' /\ halfway (rev L ++ don) t'.
Proof.
  induction L as [|p L IH]; intros don t Hdon Hh Hnd HL; cbn [ofold]; [by exists t|]. apply NoDup_cons in Hnd as [Hpn Hnd].
  destruct (HL p) as [Hp Hpd]; [by left|]. destruct (explore_router_ok don t p Hdon Hh Hp Hpd) as (t' & -> & Hh'). cbn [obind].
  destruct (IH (p :: don) t') as (t'' & -> & Hh''); [|done|done| |].
  - intros q [->|Hq]%elem_of_cons; [done|by apply Hdon].
  - intros q Hq. destruct (HL q) as [H H']; [by right|]. split; [done|]. by intros [->|]%elem_of_cons.
  - exists t''. split; [done|]. cbn [rev]. by rewrite <- app_assoc.
Qed.

(** ** The graph of the second loop *)

(** All routers have been explored. *)
Definition explored (t1 : TransitNetwork) : Prop := halfway (ListOfRouters t0) t1.

Lemma few_routers : (length (ListOfRouters t0) <= 2048)%nat.
Proof.
  assert ((number t0 <$> ListOfRouters t0) ⊆+ seqZ 0 2048) as H%submseteq_length.
  - apply NoDup_submseteq.
    + apply NoDup_fmap_2_strong; [|apply nw_nodup]. intros u v Hu Hv E. unfold number in E.
      destruct (nw_there u Hu) as (r & Hr & _), (nw_there v Hv) as (r' & Hr' & _). rewrite Hr, Hr' in E. by apply (nw_numbers u v r r').
    + intros k (u & -> & Hu)%list_elem_of_fmap. destruct (nw_there u Hu) as (r & Hr & Hn & _). apply elem_of_seqZ.
      unfold number. rewrite Hr. unfold GRAPHSIZE in Hn. lia.
  - by rewrite length_fmap, length_seqZ in H.
Qed.

Lemma found_order_elem r q : q ∈ found_order r <-> in_lists (visitedRouters r) q.
Proof.
  unfold found_order. rewrite list_elem_of_In, List.in_flat_map. split.
  - intros (i & Hi & Hq). apply list_elem_of_In in Hi, Hq. rewrite merge_sort_Permutation, elem_of_elements in Hi. apply elem_of_dom in Hi as [l Hl].
    rewrite Hl in Hq. by exists i, l.
  - intros (i & l & Hl & Hq). exists i. split; apply list_elem_of_In; [|by rewrite Hl].
    rewrite merge_sort_Permutation, elem_of_elements. apply elem_of_dom. by eexists.
Qed.

Section explored.
Context (t1 : TransitNetwork) (Ht1 : explored t1).

Lemma explored_at q : q ∈ ListOfRouters t0 -> exists r0 r, routers t0 !! q = Some r0 /\ routers t1 !! q = Some r /\ explored_router q r0 r.
Proof.
  intros Hq. destruct (nw_there q Hq) as (r0 & Hr0 & _). destruct (hw_done _ _ Ht1 q r0 Hq Hr0) as (r & Hr & He). by exists r0, r.
Qed.

Lemma explored_edge q v : edge t1 q v = if decide (q ∈ ListOfRouters t0) then neighbours t0 q !! v else None.
Proof.
  unfold edge. destruct (decide (q ∈ ListOfRouters t0)) as [Hq|Hq].
  - destruct (explored_at q Hq) as (r0 & r & _ & -> & [-> _]). done.
  - rewrite (hw_rest _ _ Ht1 q Hq). destruct (routers t0 !! q) as [r|] eqn:Er; [|done]. by rewrite (fr_direct _ (Hfresh q r Er)).
Qed.

Lemma edge_next q v w : edge t1 q v = Some w -> q ∈ ListOfRouters t0 /\ next_to t0 q v w.
Proof. rewrite explored_edge. case_decide; [|done]. intros H'. split; [done|]. by apply neighbours_next. Qed.

Lemma next_edge q v w : q ∈ ListOfRouters t0 -> next_to t0 q v w -> exists w', edge t1 q v = Some w' /\ 0 <= w' < GRAPHSIZE.
Proof.
  intros Hq Hn. rewrite explored_edge, decide_True by done. destruct (next_neighbours _ _ _ _ Hn) as [w' Hw]. exists w'. split; [done|].
  by apply (nw_costs q v w' Hq), neighbours_next.
Qed.

(** Links lead from [s] to [u]. *)
Definition reach (s u : positive) : Prop := exists m, steps t0 s m u.

Lemma steps_listed s m u : s ∈ ListOfRouters t0 -> steps t0 s m u -> u ∈ ListOfRouters t0.
Proof. intros Hs Hm. destruct Hm as [|m u v w _ Hn]; [done|]. by apply (next_listed _ _ _ _ Hn). Qed.

Lemma steps_walk s m u : s ∈ ListOfRouters t0 -> steps t0 s m u -> exists k, walk t1 s u k /\ 0 <= k <= Z.of_nat m * (GRAPHSIZE - 1).
Proof.
  intros Hs Hm. induction Hm as [|m u v w Hm IH Hn]; [exists 0; split; [constructor|lia]|]. destruct IH as (k & Hk & Hb).
  destruct (next_edge u v w) as (w' & Hw & Hb'); [by apply (steps_listed s m)|done|]. exists (k + w'). split; [by apply (walk_step t1 s u)|lia].
Qed.

Lemma lists_reach s r0 r q : s ∈ ListOfRouters t0 -> explored_router s r0 r -> q <> s -> (q ∈ found_order r <-> reach s q).
Proof.
  intros Hs [_ [L1 L2 L3 L4]] Hne. rewrite found_order_elem. split.
  - intros Hq. destruct (L1 q Hq) as (_ & _ & m & _ & Hm). by exists m.
  - intros [m Hm]. assert (q = s \/ in_lists (visitedRouters r) q) as [|]; [|done..].
    induction Hm as [|m u v w Hm IH Hn]; [by left|]. destruct (decide (u = s)) as [->|Hu]; [right|].
    + destruct Hn as (ad & Had & E). by apply (L3 ad v w).
    + destruct (IH Hu) as [|Hin]; [done|]. by apply (L2 u v w).
Qed.

Lemma explored_found p r0 r : p ∈ ListOfRouters t0 -> routers t0 !! p = Some r0 -> routers t1 !! p = Some r -> explored_router p r0 r ->
  Explored t1 p (remove_dups (found_order r)).
Proof.
  intros Hp Hr0 Hr He. destruct He as [Er Hl]. pose proof (hw_shape _ _ Ht1) as Hsh. assert (Network t1) as Hnet1 by by rewrite Hsh.
  assert (forall q, q ∈ remove_dups (found_order r) <-> in_lists (visitedRouters r) q) as Hf by (intros q; by rewrite elem_of_remove_dups, found_order_elem).
  assert (forall q, q ∈ remove_dups (found_order r) -> q ∈ ListOfRouters t1) as Hfl.
  { intros q Hq%Hf. rewrite (proj1 Hsh). by apply (li_in _ _ _ _ Hl). }
  split.
  - apply NoDup_remove_dups.
  - intros H%Hf. by apply (li_in _ _ _ _ Hl) in H as (_ & H & _).
  - intros q Hq%Hfl. destruct (nw_there q Hq) as (x & Hx & Hn & _). by exists x.
  - intros q q' x x' Hq%Hfl Hq'%Hfl. by apply nw_numbers.
  - intros u v w Hu Hw. apply edge_next in Hw as [Hul Hn]. rewrite Hf. destruct Hu as [->|Hu%Hf].
    + right. destruct Hn as (ad & Had & E). by apply (li_ads _ _ _ _ Hl ad v w).
    + by apply (li_closed _ _ _ _ Hl u v w).
  - destruct (edge t1 p p) as [w|] eqn:E; [|done]. apply edge_next in E as [_ Hn]. by apply (nw_costs p p w Hp) in Hn as [H _].
  - intros u v w Hw. apply edge_next in Hw as [Hul Hn]. apply (nw_costs u v w Hul) in Hn as [_ H]. unfold INFINITY. unfold GRAPHSIZE in H. lia.
Qed.

(** ** The second loop *)

Definition found_at (p : positive) : list positive := remove_dups (match routers t1 !! p with Some r => found_order r | None => [] end).

(** What the second loop computes for the router [p]. *)
Record routed (p : positive) (d : dijkstra) (prev n : gmap positive (option positive)) : Prop := {
  ro_explored : Explored t1 p (found_at p);
  ro_inv : exists S, djinv t1 p (found_at p) d S /\ forall q, q ∈ found_at p -> q ∈ S;
  ro_reach : forall q, q ∈ found_at p <-> q <> p /\ reach p q;
  ro_finite : forall q, q ∈ found_at p -> cost d q < INFINITY;
  ro_prev : same_pred prev (dj_prev d);
  ro_next : forall q, q ∈ found_at p -> exists x, n !! q = Some (Some x) /\ next_hop t1 p (found_at p) d q x
}.

Record routing (don : list positive) (t : TransitNetwork) : Prop := {
  rg_shape : same_shape t t1;
  rg_direct : directRoutersCosts <$> routers t = directRoutersCosts <$> routers t1;
  rg_done : forall p, p ∈ don -> exists r d prev n, routers t1 !! p = Some r /\ routers t !! p = Some (with_prev r d prev n) /\ routed p d prev n;
  rg_rest : forall p, ~ p ∈ don -> routers t !! p = routers t1 !! p
}.

(** Dijkstra reads the numbers and the direct costs only. *)
Lemma get_router_graph don t p : routing don t ->
  same_result (fun r r' => iRouterNumber r = iRouterNumber r' /\ directRoutersCosts r = directRoutersCosts r') (get_router t p) (get_router t1 p).
Proof.
  intros [H1 H2 _ _]. pose proof (get_router_shape t t1 p H1) as E1. pose proof (shape_lookup directRoutersCosts _ _ p H2) as E2.
  unfold get_router in *. destruct (routers t !! p), (routers t1 !! p); try done. cbn in *. injection E1 as _ _ -> _. by rewrite E2.
Qed.

Lemma ofold_equal {A S} (f g : S -> A -> outcome S) l : (forall s a, f s a = g s a) -> forall s, ofold f s l = ofold g s l.
Proof. intros E. induction l as [|a l IH]; intros s; [done|]. cbn. rewrite E. destruct (g s a); [apply IH|done..]. Qed.

Lemma dj_init_graph don t r : routing don t -> dj_init t r = dj_init t1 r.
Proof.
  intros Hr. unfold dj_init. erewrite ofold_equal; [done|]. intros vc q. unfold dj_enter.
  eapply same_result_bind; [by apply (get_router_graph don)|]. by intros x y [-> _].
Qed.

Lemma dj_turn_graph don t d : routing don t -> dj_turn t d = dj_turn t1 d.
Proof.
  intros Hr. unfold dj_turn, dj_min. erewrite (ofold_equal (dj_closer t d)).
  2: { intros m q. unfold dj_closer. eapply same_result_bind; [by apply (get_router_graph don)|]. by intros x y [-> _]. }
  destruct (ofold _ _ _) as [[mini|]| | |]; cbn [obind not_null]; [|done..].
  eapply same_result_bind; [by apply (get_router_graph don)|]. intros x y [-> _].
  destruct (visited_set _ _ _); cbn [obind]; [|done..]. apply ofold_equal. intros d' q. unfold dj_improve.
  eapply same_result_bind; [by apply (get_router_graph don)|]. by intros x' y' [_ ->].
Qed.

Lemma found_finite p r0 r d S q : p ∈ ListOfRouters t0 -> explored_router p r0 r -> Explored t1 p (found_at p) ->
  djinv t1 p (found_at p) d S -> (forall x, x ∈ found_at p -> x ∈ S) -> in_lists (visitedRouters r) q -> q ∈ found_at p -> cost d q < INFINITY.
Proof.
  intros Hp [_ Hl] Hex Hd HS Hq Hqf. destruct (li_in _ _ _ _ Hl q Hq) as (_ & Hne & m & Hm & Hst).
  destruct (steps_walk p m q Hp Hst) as (k & Hk & Hb). pose proof few_routers as Hfew. unfold nrouters in Hm.
  destruct (djinv_least t1 p (found_at p) d S Hd HS q k Hk) as [[-> _]|(_ & H & _)]; [done|].
  assert (Z.of_nat m <= 2049) by lia. unfold GRAPHSIZE, INFINITY in *. nia.
Qed.

Lemma route_router_ok don t p : routing don t -> p ∈ ListOfRouters t0 -> ~ p ∈ don ->
  exists t', route_router t p = Ret t' /\ routing (p :: don) t'.
Proof.
  intros Ht Hp Hn. destruct (explored_at p Hp) as (r0 & r & Hr0 & Hr & He). pose proof (explored_found p r0 r Hp Hr0 Hr He) as Hex.
  assert (found_at p = remove_dups (found_order r)) as Ef by by unfold found_at; rewrite Hr. rewrite <- Ef in Hex.
  assert (allRoutersCosts r = ∅ /\ prevRouters r = ∅) as [Fa Fp].
  { destruct He as [-> _], (Hfresh p r0 Hr0) as [_ _ _ Fa Fp]. done. }
  assert (forall q, q ∈ found_order r <-> q ∈ found_at p) as Hfo by (intros q; by rewrite Ef, elem_of_remove_dups).
  destruct (dijkstra_run t1 p (found_at p) r Hr Fa Fp Hfo) as (d0 & d & S & E0 & E & Hd & HS).
  assert (routers t !! p = Some r) as Hrt by by rewrite (rg_rest _ _ Ht).
  assert (forall q, q ∈ found_at p -> cost d q < INFINITY) as Hfin.
  { intros q Hq. apply (found_finite p r0 r d S q); try done. by rewrite <- found_order_elem, Hfo. }
  assert (forall q, q ∈ found_at p <-> q <> p /\ reach p q) as Hreach.
  { intros q. split.
    - intros Hq. assert (q <> p) as Hne by (intros ->; by apply (ex_start t1 p (found_at p))). split; [done|]. apply (lists_reach p r0 r q Hp He Hne). by apply Hfo.
    - intros [Hne H]. apply Hfo. by apply (lists_reach p r0 r q Hp He Hne). }
  unfold route_router, Dijkstra, get_router. rewrite Hrt. cbn [obind]. rewrite (dj_init_graph don t r Ht), E0. cbn [obind].
  rewrite (ofold_equal (fun d (_ : positive) => dj_turn t d) (fun d _ => dj_turn t1 d)) by (intros ? ?; by apply (dj_turn_graph don)).
  rewrite E. cbn [obind]. unfold DrawDifferentPaths, get_router. rewrite routers_put, decide_True by done. cbn [obind].
  destruct (draw_paths_ok t1 p (found_at p) d S r t) with (qs := keys (dj_costs d)) (prev := dj_prev d) (n := nextRouter r)
    as (prev & n & En & Hprev & Hnext); [done|done|done| | |done|].
  { intros x [_ [m Hm]]%Hreach. assert (x ∈ ListOfRouters t0) as Hx by by apply (steps_listed p m). destruct (explored_at x Hx) as (_ & y & _ & Hy & _).
    destruct (shape_router t1 t x y) as (z & -> & _); [symmetry; apply Ht|done|by eexists]. }
  { intros q Hq%keys_elem. by apply (iv_dom _ _ _ _ _ Hd). }
  exists (put_router p (with_prev r d prev n) t). split; [exact En|].
  assert (routed p d prev n) as Hrouted.
  { split; [done|by exists S|done|done|done|]. intros q Hq. apply Hnext. by apply keys_elem, (iv_dom _ _ _ _ _ Hd). }
  destruct Ht as [H1 H2 H3 H4]. split.
  - rewrite <- H1. split; [done|]. split; [|done]. apply map_eq. intros x. rewrite !lookup_fmap, routers_put.
    destruct (decide (x = p)) as [->|]; [|done]. by rewrite Hrt.
  - rewrite <- H2. apply map_eq. intros x. rewrite !lookup_fmap, routers_put. destruct (decide (x = p)) as [->|]; [|done]. by rewrite Hrt.
  - intros x Hx. rewrite routers_put. destruct (decide (x = p)) as [->|Hne]; [by exists r, d, prev, n|].
    apply elem_of_cons in Hx as [|Hx]; [done|]. by apply H3.
  - intros x Hx. rewrite routers_put, decide_False by (intros ->; apply Hx; by left). apply H4. intros H. apply Hx. by right.
Qed.

Lemma route_routers_ok L : forall don t, routing don t -> NoDup L -> (forall p, p ∈ L -> p ∈ ListOfRouters t0 /\ ~ p ∈ don) ->
  exists t', ofold route_router t L = Ret t' /\ routing (rev L ++ don) t'.
Proof.
  induction L as [|p L IH]; intros don t Ht Hnd HL; cbn [ofold]; [by exists t|]. apply NoDup_cons in Hnd as [Hpn Hnd].
  destruct (HL p) as [Hp Hpd]; [by left|]. destruct (route_router_ok don t p Ht Hp Hpd) as (t' & -> & Ht'). cbn [obind].
  destruct (IH (p :: don) t' Ht' Hnd) as (t'' & -> & Ht'').
  - intros q Hq. destruct (HL q) as [H H']; [by right|]. split; [done|]. by intros [->|]%elem_of_cons.
  - exists t''. split; [done|]. cbn [rev]. by rewrite <- app_assoc.
Qed.
End explored.

(** The first loop ends with every router explored. *)
Lemma explore_all_ok : exists t1, ofold explore_router t0 (ListOfRouters t0) = Ret t1 /\ explored t1.
Proof.
  destruct (explore_routers_ok (ListOfRouters t0) [] t0) as (t1 & E1 & H1); [by intros q ?%not_elem_of_nil| |apply nw_nodup| |].
  { split; [done|by intros q r0 ?%not_elem_of_nil|done]. }
  { intros p Hp. split; [done|apply not_elem_of_nil]. }
  assert (forall q, q ∈ rev (ListOfRouters t0) ++ [] <-> q ∈ ListOfRouters t0) as Hrev by (intros q; rewrite app_nil_r, !list_elem_of_In; symmetry; apply List.in_rev).
  exists t1. split; [done|]. destruct H1 as [S1 S2 S3]. split; [done|intros q r0 Hq; by apply S2, Hrev|]. intros q Hq. apply S3. by rewrite Hrev.
Qed.

(** ExploreGraph ends, with every router explored and routed. *)
Lemma ExploreGraph_ok : exists t1 t', ExploreGraph t0 = Ret t' /\ explored t1 /\ routing t1 (ListOfRouters t0) t'.
Proof.
  destruct explore_all_ok as (t1 & E1 & He).
  assert (forall q, q ∈ rev (ListOfRouters t0) ++ [] <-> q ∈ ListOfRouters t0) as Hrev by (intros q; rewrite app_nil_r, !list_elem_of_In; symmetry; apply List.in_rev).
  destruct (route_routers_ok t1 He (ListOfRouters t0) [] t1) as (t' & E2 & H2); [|apply nw_nodup| |].
  { split; [done|done|by intros q ?%not_elem_of_nil|done]. }
  { intros p Hp. split; [done|apply not_elem_of_nil]. }
  exists t1, t'. split; [|split; [done|]].
  - unfold ExploreGraph. rewrite E1. cbn [obind]. by rewrite (proj1 (hw_shape _ _ He)).
  - destruct H2 as [S1 S2 S3 S4]. split; [done|done|intros q Hq; by apply S3, Hrev|]. intros q Hq. apply S4. by rewrite Hrev.
Qed.
End graph.
