(* ===== verification/Delivery.v ===== *)
(** * Delivery in the emulated network

    When all links have the same cost every packet is handled by the routers of a
    shortest walk to its destination, one after the other, and then leaves the network:
    the first predecessor that prevRouters keeps is then as good as the best. *)

From stdpp Require Import gmap strings sorting.
From S2P Require Import Prelude Sampling Routing RouterSampling Forwarding.
From S2P Require Import RoutingProps RoutingHops RoutingExplore RoutingSearch RoutingGraph.
Open Scope Z_scope.

(** The links of the routers are there, with two names. *)
Class Linked (t : TransitNetwork) : Prop :=
  linked : forall u r lp, u ∈ ListOfRouters t -> routers t !! u = Some r -> lp ∈ ptrListOfLinks r ->
    exists l, links t !! lp = Some l /\ sAdapter1 l <> "" /\ sAdapter2 l <> "".

Lemma Linked_shape t t' : same_shape t t' -> Linked t -> Linked t'.
Proof.
  intros Ht Hl u r lp Hu Hr Hlp. symmetry in Ht. rewrite (proj1 Ht) in Hu. destruct (shape_router t' t u r Ht Hr) as (r0 & Hr0 & [= _ E _ _]).
  rewrite E in Hlp. destruct (Hl u r0 lp Hu Hr0 Hlp) as (l & Hl' & H1 & H2). symmetry in Ht.
  pose proof (get_link_shape t t' lp Ht) as H. unfold get_link in H. rewrite Hl' in H. destruct (links t' !! lp) as [l'|]; [|done].
  exists l'. cbn in H. injection H as E1 E2 _. by rewrite <- E1, <- E2.
Qed.

Lemma find_first_total {A B} (f : A -> outcome (option B)) l :
  (forall a, a ∈ l -> exists o, f a = Ret o) -> exists o, find_first f l = Ret o /\
    (o = None -> forall a, a ∈ l -> f a = Ret None).
Proof.
  induction l as [|a l IH]; intros Hf; cbn [find_first]; [exists None; split; [done|by intros _ a ?%not_elem_of_nil]|].
  destruct (Hf a) as [[b|] E]; [by left|..]; rewrite E; cbn [obind]; [by exists (Some b)|].
  destruct IH as (o & -> & Ho); [intros x Hx; apply Hf; by right|]. exists o. split; [done|].
  intros -> x [->|Hx]%elem_of_cons; [done|by apply Ho].
Qed.

(** ** Links *)

Section links.
Context (t : TransitNetwork) {Hlink : Linked t}.

(** The test of direct_link for one link of the router. *)
Lemma IsItYourAdapter_ok r ad : ad <> "" -> IsItYourAdapter r ad = Ret (bool_decide (ad ∈ ListOfAdapters r)).
Proof. intros H. unfold IsItYourAdapter. by rewrite decide_False. Qed.

Lemma direct_link_ok u x r rx : u ∈ ListOfRouters t -> routers t !! u = Some r -> routers t !! x = Some rx ->
  exists o, direct_link t u x = Ret o /\
    match o with
    | Some (lp, ad) => exists l, lp ∈ ptrListOfLinks r /\ links t !! lp = Some l /\ IsItOneOfTheAdapters l ad = true /\ ad ∈ ListOfAdapters rx
    | None => forall lp l, lp ∈ ptrListOfLinks r -> links t !! lp = Some l -> ~ sAdapter1 l ∈ ListOfAdapters rx /\ ~ sAdapter2 l ∈ ListOfAdapters rx
    end.
Proof.
  intros Hu Hr Hx. unfold direct_link, get_router. rewrite Hr. cbn [obind]. set (f := link_to t x).
  assert (forall lp, lp ∈ ptrListOfLinks r -> exists l, links t !! lp = Some l /\
    f lp = Ret (if decide (sAdapter1 l ∈ ListOfAdapters rx) then Some (lp, sAdapter1 l)
                else if decide (sAdapter2 l ∈ ListOfAdapters rx) then Some (lp, sAdapter2 l) else None)) as Hf.
  { intros lp Hlp. destruct (linked u r lp Hu Hr Hlp) as (l & El & H1 & H2). exists l. split; [done|]. unfold f, link_to, get_link, get_router. rewrite El, Hx. cbn [obind].
    rewrite !IsItYourAdapter_ok by done. cbn [obind]. unfold bool_decide. destruct (decide_rel _ _ _); [by rewrite decide_True|]. rewrite decide_False by done.
    destruct (decide_rel _ _ _); [by rewrite decide_True|by rewrite decide_False]. }
  destruct (find_first_total f (ptrListOfLinks r)) as (o & E & Hnone).
  { intros lp Hlp. destruct (Hf lp Hlp) as (l & _ & ->). by eexists. }
  exists o. split; [done|]. destruct o as [[lp ad]|].
  - apply find_first_in in E as (lp' & Hlp & E). destruct (Hf lp' Hlp) as (l & El & Ef). rewrite Ef in E. exists l.
    destruct (decide (sAdapter1 l ∈ _)) as [H1|H1]; [|destruct (decide (sAdapter2 l ∈ _)) as [H2|H2]; [|done]]; injection E as -> <-;
      (split; [done|]; split; [done|]; split; [|done]); apply bool_decide_true; auto.
  - intros lp l Hlp El. pose proof (Hnone eq_refl lp Hlp) as E'. destruct (Hf lp Hlp) as (l' & El' & Ef). rewrite Ef in E'.
    assert (l' = l) as -> by congruence. destruct (decide (sAdapter1 l ∈ _)); [done|]. by destruct (decide (sAdapter2 l ∈ _)).
Qed.

Lemma GetRouter_adapter oa x rx : GetRouter t oa false = Ret (Some x) -> routers t !! x = Some rx -> oa ∈ ListOfAdapters rx.
Proof.
  unfold GetRouter. destruct (decide (oa = "")); [done|]. intros (y & _ & E)%find_first_in Hx.
  apply obind_Ret_inv in E as (ry & Ey & E). apply obind_Ret_inv in E as (b & Eb & E). destruct b; [|done]. injection E as ->.
  unfold get_router in Ey. rewrite Hx in Ey. injection Ey as <-. unfold IsItYourAdapter in Eb. destruct (decide _); [done|].
  injection Eb as Eb. by apply bool_decide_eq_true in Eb.
Qed.

(** A neighbour is at the other end of a link. *)
Lemma next_direct u x w r rx : u ∈ ListOfRouters t -> next_to t u x w -> routers t !! u = Some r -> routers t !! x = Some rx ->
  exists lp ad l, direct_link t u x = Ret (Some (lp, ad)) /\ links t !! lp = Some l /\ IsItOneOfTheAdapters l ad = true /\ ad ∈ ListOfAdapters rx.
Proof.
  intros Hu (ad & _ & E) Hr Hx. destruct (direct_link_ok u x r rx Hu Hr Hx) as (o & Ed & Ho).
  destruct o as [[lp a]|]; [destruct Ho as (l & _ & H1 & H2 & H3); by exists lp, a, l|].
  apply far_router_link in E as (r' & lp & l & oa & Er & E1 & E2 & E3 & E4 & _). assert (r' = r) as -> by congruence.
  unfold Node_GetLink in E1. apply find_first_in in E1 as (lp' & Hlp & E1). apply obind_Ret_inv in E1 as (l' & El' & E1).
  destruct (IsItOneOfTheAdapters l' ad); [|done]. injection E1 as ->. destruct (Ho lp l Hlp E2) as [N1 N2].
  pose proof (GetRouter_adapter oa x rx E4 Hx) as Hoa. unfold GetTheOppositeAdapter in E3.
  destruct (decide (ad = sAdapter1 l)); [injection E3 as <-; done|]. destruct (decide (ad = sAdapter2 l)); [injection E3 as <-|]; done.
Qed.
End links.

(** ** The routed network *)

Section routed.
Context (t0 t1 : TransitNetwork) {Hnet : Network t0} {Hlinked : Linked t0}.
Context (Hfresh : forall q r, routers t0 !! q = Some r -> fresh r) (Ht1 : explored t0 t1).

(** A network that ExploreGraph has left, whatever has been forwarded since. *)
Abbreviation ready := (routing t0 t1 (ListOfRouters t0)).

Lemma ready_router t p : ready t -> p ∈ ListOfRouters t0 -> exists r d prev n,
  routers t !! p = Some (with_prev r d prev n) /\ routed t0 t1 p d prev n.
Proof. intros Ht Hp. destruct (rg_done _ _ _ _ Ht p Hp) as (r & d & prev & n & _ & H1 & H2). by exists r, d, prev, n. Qed.

Lemma ready_shape t : ready t -> same_shape t t0.
Proof. intros Ht. rewrite (rg_shape _ _ _ _ Ht). apply (hw_shape _ _ _ Ht1). Qed.

(** The maps of one router that reading a route changes. *)
Lemma ready_put t p r d prev n prev' n' : ready t -> routers t !! p = Some (with_prev r d prev n) -> p ∈ ListOfRouters t0 -> routed t0 t1 p d prev' n' ->
  ready (put_router p (with_prev r d prev' n') t).
Proof.
  intros [H1 H2 H3 H4] Hr Hp Hro. split.
  - rewrite <- H1. split; [done|]. split; [|done]. apply map_eq. intros x. rewrite !lookup_fmap, routers_put. destruct (decide (x = p)) as [->|]; [|done]. by rewrite Hr.
  - rewrite <- H2. apply map_eq. intros x. rewrite !lookup_fmap, routers_put. destruct (decide (x = p)) as [->|]; [|done]. by rewrite Hr.
  - intros x Hx. rewrite routers_put. destruct (H3 x Hx) as (rx & dx & px & nx & E1 & E2 & E3).
    destruct (decide (x = p)) as [->|Hne]; [|by exists rx, dx, px, nx]. exists rx, d, prev', n'. split; [done|]. split; [|done].
    assert (with_prev r d prev n = with_prev rx dx px nx) as E by congruence. unfold with_prev, set_routes in *. injection E. intros. congruence.
  - intros x Hx. rewrite routers_put, decide_False by congruence. by apply H4.
Qed.

Lemma routed_prev p d prev prev' n : routed t0 t1 p d prev n -> same_pred prev' (dj_prev d) -> routed t0 t1 p d prev' n.
Proof. by intros [H1 H2 H3 H4 H5 H6] H; split. Qed.

Lemma ready_there t x : ready t -> x ∈ ListOfRouters t0 -> is_Some (routers t !! x).
Proof. intros Ht Hx. destruct (ready_router t x Ht Hx) as (r & d & prev & n & -> & _). by eexists. Qed.

Lemma reach_listed p q : p ∈ ListOfRouters t0 -> reach t0 p q -> q ∈ ListOfRouters t0.
Proof. intros Hp [m Hm]. by apply (steps_listed t0 p m). Qed.

(** What ExploreGraph promises for the way from [p] to [q]: a length and a neighbour. *)
Record hop (p q x : positive) (c : Z) : Prop := {
  hop_least : walk t1 p q c /\ forall k, walk t1 p q k -> c <= k;
  hop_next : exists w k, edge t1 p x = Some w /\ walk t1 x q k /\ c <= w + k /\ forall W, uniform t1 W -> c = w + k
}.

Lemma routed_hop p d prev n q x : routed t0 t1 p d prev n -> q ∈ found_at t1 p -> next_hop t1 p (found_at t1 p) d q x -> hop p q x (cost d q).
Proof.
  intros Hro Hq [He Hx (k & Hk & Hck & Hu)]. pose proof (ro_explored _ _ _ _ _ _ Hro). destruct (ro_inv _ _ _ _ _ _ Hro) as (S & Hd & HS). split.
  - split; [apply (iv_sound _ _ _ _ _ Hd q Hq); by apply (ro_finite _ _ _ _ _ _ Hro)|]. intros k' Hk'.
    destruct (djinv_least t1 p (found_at t1 p) d S Hd HS q k' Hk') as [[-> _]|(_ & H' & _)]; [|done].
    by apply (ro_reach _ _ _ _ _ _ Hro) in Hq as [Hq _].
  - by exists (cost d x), k.
Qed.

Lemma next_toward t p q : ready t -> p ∈ ListOfRouters t0 -> q <> p -> reach t0 p q ->
  exists x t' c, GetNextRouterToward p q t = Ret (x, t') /\ ready t' /\ hop p q x c.
Proof.
  intros Ht Hp Hne Hq. destruct (ready_router t p Ht Hp) as (r & d & prev & n & Hr & Hro). pose proof (ro_explored _ _ _ _ _ _ Hro).
  assert (q ∈ found_at t1 p) as Hqf by by apply (ro_reach _ _ _ _ _ _ Hro). destruct (ro_inv _ _ _ _ _ _ Hro) as (S & Hd & HS).
  destruct (GetNextRouterToward_ok t1 p (found_at t1 p) d S q t r prev n) as (x & prev' & E & Hp' & Hx); [done|done|done| |done| | |].
  - by apply (ro_finite _ _ _ _ _ _ Hro).
  - apply Hro.
  - intros y [_ Hy]%(ro_reach _ _ _ _ _ _ Hro). apply (ready_there t y Ht). by apply (reach_listed p).
  - exists x, (put_router p (with_prev r d prev' n) t), (cost d q). split; [done|]. split; [|by apply (routed_hop p d prev n)].
    apply (ready_put t p r d prev n); [done..|]. by apply (routed_prev p d prev).
Qed.

(** The next router that was calculated, for a destination and for the router itself. *)
Lemma already_calculated t p q : ready t -> p ∈ ListOfRouters t0 -> (q <> p -> reach t0 p q) ->
  exists o t', GetAlreadyCalculatedNextRouterToward p q t = Ret (o, t') /\ ready t' /\ (q <> p -> exists x c, o = Some x /\ hop p q x c).
Proof.
  intros Ht Hp Hq. destruct (ready_router t p Ht Hp) as (r & d & prev & n & Hr & Hro).
  unfold GetAlreadyCalculatedNextRouterToward, get_router. rewrite Hr. cbn [obind]. eexists _, _. split; [done|].
  assert (routed t0 t1 p d prev (map_insert q None n)) as Hro'.
  { destruct Hro as [H1 H2 H3 H4 H5 H6]. split; [done..|]. intros y Hy. destruct (H6 y Hy) as (x & E & Hx). exists x. split; [|done].
    by rewrite map_insert_lookup, E. }
  split; [by apply (ready_put t p r d prev n prev (map_insert q None n))|]. intros Hne.
  assert (q ∈ found_at t1 p) as Hqf by (apply (ro_reach _ _ _ _ _ _ Hro); auto).
  destruct (ro_next _ _ _ _ _ _ Hro q Hqf) as (x & E & Hx). exists x, (cost d q). cbn. rewrite map_insert_lookup, E. split; [done|].
  by apply (routed_hop p d prev n).
Qed.

Lemma edge_there p x w : edge t1 p x = Some w -> p ∈ ListOfRouters t0 /\ x ∈ ListOfRouters t0 /\ next_to t0 p x w.
Proof. intros E. apply (edge_next t0 Hfresh t1 Ht1) in E as [H1 H2]. split; [done|]. split; [by apply (next_listed _ _ _ _ H2)|done]. Qed.

(** GetLinkTowards gives a link that has the interface it gives. *)
Lemma links_towards t p q fuel : ready t -> p ∈ ListOfRouters t0 -> q <> p -> reach t0 p q ->
  exists lp ad l t', GetLinkTowards (S (S fuel)) p q t = Ret (lp, ad, t') /\ ready t' /\ links t' !! lp = Some l /\ IsItOneOfTheAdapters l ad = true /\
    exists x r, x ∈ ListOfRouters t0 /\ routers t0 !! x = Some r /\ ad ∈ ListOfAdapters r.
Proof.
  intros Ht Hp Hne Hq. pose proof (reach_listed p q Hp Hq) as Hql.
  assert (forall t x, ready t -> x ∈ ListOfRouters t0 -> exists r rx, routers t !! p = Some r /\ routers t !! x = Some rx /\ Linked t /\ p ∈ ListOfRouters t) as Hget.
  { intros t' x Ht' Hx. destruct (ready_there t' p Ht' Hp) as [r Hr], (ready_there t' x Ht' Hx) as [rx Hrx]. exists r, rx. split; [done|]. split; [done|].
    pose proof (ready_shape t' Ht') as Hsh. split; [by apply (Linked_shape t0)|by rewrite (proj1 Hsh)]. }
  assert (forall t x rx ad, ready t -> x ∈ ListOfRouters t0 -> routers t !! x = Some rx -> ad ∈ ListOfAdapters rx ->
            exists x r, x ∈ ListOfRouters t0 /\ routers t0 !! x = Some r /\ ad ∈ ListOfAdapters r) as Had.
  { intros t' x rx ad Ht' Hx Hrx Hin. pose proof (ready_shape t' Ht') as Hsh. destruct (shape_router t' t0 x rx Hsh Hrx) as (r & Hr & [= E _ _ _]).
    exists x, r. by rewrite <- E. }
  destruct (Hget t q Ht Hql) as (r & rq & Hr & Hrq & Hl & Hpt). destruct (direct_link_ok t p q r rq Hpt Hr Hrq) as (o & E & Ho).
  cbn [GetLinkTowards]. rewrite E. cbn [obind]. destruct o as [[lp ad]|].
  { destruct Ho as (l & _ & H1 & H2 & H3). exists lp, ad, l, t. split; [done|]. split; [done|]. split; [done|]. split; [done|]. by apply (Had t q rq). }
  destruct (next_toward t p q Ht Hp Hne Hq) as (x & t' & c & -> & Ht' & [_ (w & k & He & _)]). cbn [obind].
  apply edge_there in He as (_ & Hx & Hn). destruct (Hget t' x Ht' Hx) as (r' & rx & Hr' & Hrx & Hl' & Hpt').
  rewrite <- (ready_shape t' Ht') in Hn. destruct (next_direct t' p x w r' rx Hpt' Hn Hr' Hrx) as (lp & ad & l & E' & H1 & H2 & H3).
  rewrite E'. cbn [obind]. exists lp, ad, l, t'. split; [done|]. split; [done|]. split; [done|]. split; [done|]. by apply (Had t' x rx).
Qed.

(** ** Monitors *)

Section forwarding.
Context (rand : nat -> Z) (patience : nat) (v4 v6 : bool).

(** What forwarding needs of the monitors: in the states [I] they do their work and
    leave the systems of the packet alone. *)
Class Monitoring (I : monitors -> Prop) : Prop :=
  monitoring : forall r ifc io pkt m, I m -> exists pkt' m',
    monitor_interface rand patience r ifc io v4 v6 pkt m = Ret (pkt', m') /\ I m' /\
    iAsSourceNumber pkt' = iAsSourceNumber pkt /\ iAsDestNumber pkt' = iAsDestNumber pkt.

Context (I : monitors -> Prop) {HI : Monitoring I}.

(** A network that forwards. *)
Definition forwards (s : nsp) : Prop := ready (tn s) /\ I (mon s).

(** The packet is going from [a] to [b]. *)
Definition bound_for (a b : string) (pkt : packet) : Prop := as_name (iAsSourceNumber pkt) = Ret a /\ as_name (iAsDestNumber pkt) = Ret b.

Lemma opposite_ok l ad : IsItOneOfTheAdapters l ad = true -> exists oa, GetTheOppositeAdapter l ad = Ret oa.
Proof.
  intros [E|E]%bool_decide_eq_true; unfold GetTheOppositeAdapter; rewrite E; [rewrite decide_True by done; by eexists|].
  destruct (decide (ad = sAdapter1 l)); [by eexists|]. rewrite decide_True by done. by eexists.
Qed.

Lemma final_link t p r b : ready t -> p ∈ ListOfRouters t0 -> routers t !! p = Some r ->
  exists o, Node_GetLink t r b = Ret o /\ forall lp, o = Some lp -> exists l, links t !! lp = Some l /\ IsItOneOfTheAdapters l b = true.
Proof.
  intros Ht Hp Hr. pose proof (ready_shape t Ht) as Hsh. assert (Linked t) as Hl by by apply (Linked_shape t0).
  assert (p ∈ ListOfRouters t) as Hpt by by rewrite (proj1 Hsh). unfold Node_GetLink. set (f := fun lp : positive => _).
  assert (forall lp, lp ∈ ptrListOfLinks r -> exists l, links t !! lp = Some l /\ f lp = Ret (if IsItOneOfTheAdapters l b then Some lp else None)) as Hf.
  { intros lp Hlp. destruct (Hl p r lp Hpt Hr Hlp) as (l & El & _). exists l. split; [done|]. unfold f, get_link. by rewrite El. }
  destruct (find_first_total f (ptrListOfLinks r)) as (o & E & _); [intros lp Hlp; destruct (Hf lp Hlp) as (l & _ & ->); by eexists|].
  exists o. split; [done|]. intros lp ->. apply find_first_in in E as (lp' & Hlp & E). destruct (Hf lp' Hlp) as (l & El & Ef). rewrite Ef in E.
  destruct (IsItOneOfTheAdapters l b) eqn:Eb; [|done]. injection E as <-. by exists l.
Qed.

(** The monitors of the router, when the link is known. *)
Lemma report_ok s c lp l ifc pkt inIf a b : forwards s -> c ∈ ListOfRouters t0 -> links (tn s) !! lp = Some l -> IsItOneOfTheAdapters l ifc = true -> bound_for a b pkt ->
  exists pkt' s', (let! l := get_link (tn s) lp in
      let! oppositeInterface := GetTheOppositeAdapter l ifc in
      let! r := get_router (tn s) c in
      if iIsMonitor r =? 1 then
        let pkt := set_responsible (iRouterNumber r) pkt in
        let! (pkt, m) := monitor_interface rand patience c inIf false v4 v6 pkt (mon s) in
        let! (pkt, m) := monitor_interface rand patience c oppositeInterface true v4 v6 pkt m in
        Ret (pkt, ifc, Mk_nsp (tn s) m)
      else Ret (pkt, ifc, s)) = Ret (pkt', ifc, s') /\ forwards s' /\ bound_for a b pkt'.
Proof.
  intros [Ht Hm] Hc El Ead [Ha Hb]. unfold get_link. rewrite El. cbn [obind]. destruct (opposite_ok l ifc Ead) as [oa ->]. cbn [obind].
  unfold get_router. destruct (ready_there (tn s) c Ht Hc) as [r ->]. cbn [obind]. destruct (iIsMonitor r =? 1); [|by exists pkt, s].
  destruct (monitoring c inIf false (set_responsible (iRouterNumber r) pkt) (mon s) Hm) as (pkt1 & m1 & -> & Hm1 & E1 & E2). cbn [obind].
  destruct (monitoring c oa true pkt1 m1 Hm1) as (pkt2 & m2 & -> & Hm2 & E3 & E4). cbn [obind]. eexists _, _. split; [done|]. split; [done|].
  unfold bound_for. rewrite E3, E4, E1, E2. done.
Qed.

Lemma router_forwards s c pkt dst inIf a b : forwards s -> c ∈ ListOfRouters t0 -> (dst <> c -> reach t0 c dst) -> bound_for a b pkt ->
  exists pkt' ifc s', Router_ForwardPacketE rand patience v4 v6 c pkt dst inIf s = Ret (pkt', ifc, s') /\ forwards s' /\ bound_for a b pkt' /\
    (dst = c -> ifc = b) /\ (dst <> c -> exists x r, x ∈ ListOfRouters t0 /\ routers t0 !! x = Some r /\ ifc ∈ ListOfAdapters r).
Proof.
  intros Hs Hc Hreach Hb. pose proof Hs as [Ht Hm]. unfold Router_ForwardPacketE. rewrite (proj1 Hb), (proj2 Hb). cbn [obind].
  destruct (decide (dst <> c)) as [Hne|Heq].
  - destruct (links_towards (tn s) c dst (size (routers (tn s))) Ht Hc Hne (Hreach Hne)) as (lp & ad & l & t' & E & Ht' & El & Ead & Hx).
    unfold link_depth. rewrite E. cbn [obind].
    destruct (report_ok (Mk_nsp t' (mon s)) c lp l ad pkt inIf a b) as (pkt' & s' & E' & Hs' & Hb'); [done..|].
    exists pkt', ad, s'. split; [exact E'|]. split; [done|]. split; [done|]. split; [done|]. by intros _.
  - assert (dst = c) as -> by (destruct (decide (dst = c)); [done|by destruct Heq]). unfold get_router.
    destruct (ready_there (tn s) c Ht Hc) as [r Hr]. rewrite Hr. cbn [obind].
    destruct (final_link (tn s) c r b Ht Hc Hr) as (o & -> & Ho). cbn [obind]. destruct o as [lp|]; [|by exists pkt, b, s].
    destruct (Ho lp eq_refl) as (l & El & Ead). destruct (report_ok s c lp l b pkt inIf a b) as (pkt' & s' & E' & Hs' & Hb'); [done..|].
    exists pkt', b, s'. split; [exact E'|]. done.
Qed.

(** ** Routes *)

(** Links lead from each router of the list to the next. *)
Inductive route : positive -> positive -> list positive -> Prop :=
  | route_here q : route q q [q]
  | route_hop p x q w l : edge t1 p x = Some w -> route x q l -> route p q (p :: l).

(** What the loop does at one router. *)
Definition handle (dst : positive) (x : packet * string * nsp) (c : positive) : outcome (packet * string * nsp) :=
  let! (pkt, ifc, s) := Router_ForwardPacketE rand patience v4 v6 c x.1.1 dst x.1.2 x.2 in
  let! (_, t) := GetAlreadyCalculatedNextRouterToward c dst (tn s) in Ret (pkt, ifc, Mk_nsp t (mon s)).

Lemma handle_ok s c pkt dst inIf a b : forwards s -> c ∈ ListOfRouters t0 -> (dst <> c -> reach t0 c dst) -> bound_for a b pkt ->
  exists pkt' ifc s' o, handle dst (pkt, inIf, s) c = Ret (pkt', ifc, s') /\ forwards s' /\ bound_for a b pkt' /\
    (forall fuel tmp, tmp <> b -> forward_loop rand patience v4 v6 (S fuel) (Some c) dst inIf tmp b pkt s =
       forward_loop rand patience v4 v6 fuel o dst ifc ifc b pkt' s') /\
    (dst = c -> ifc = b) /\
    (dst <> c -> (exists x r, x ∈ ListOfRouters t0 /\ routers t0 !! x = Some r /\ ifc ∈ ListOfAdapters r) /\ exists x k, o = Some x /\ hop c dst x k).
Proof.
  intros Hs Hc Hreach Hb. destruct (router_forwards s c pkt dst inIf a b Hs Hc Hreach Hb) as (pkt' & ifc & s' & E & [Ht' Hm'] & Hb' & H1 & H2).
  destruct (already_calculated (tn s') c dst Ht' Hc Hreach) as (o & t' & E' & Ht'' & H3).
  exists pkt', ifc, (Mk_nsp t' (mon s')), o. unfold handle. cbn [fst snd]. rewrite E. cbn [obind]. rewrite E'. cbn [obind].
  split; [done|]. split; [done|]. split; [done|]. split; [|split; [done|]].
  - intros fuel tmp Htmp. cbn [forward_loop]. rewrite decide_False by done. rewrite E. cbn [obind]. by rewrite E'.
  - intros Hne. split; [by apply H2|by apply H3].
Qed.

Lemma walk_front p x q w k : edge t1 p x = Some w -> walk t1 x q k -> walk t1 p q (w + k).
Proof.
  intros He Hw. induction Hw as [|u v k w' Hw IH Hv].
  - replace (w + 0) with (0 + w) by lia. by apply (walk_step t1 p p); [constructor|].
  - replace (w + (k + w')) with ((w + k) + w') by lia. by apply (walk_step t1 p u).
Qed.

Lemma walk_reach p q k : walk t1 p q k -> reach t0 p q.
Proof.
  intros Hw. induction Hw as [|u v k w Hw IH Hv]; [exists 0%nat; constructor|]. destruct IH as [m Hm].
  exists (S m). apply (steps_next t0 p m u v w Hm). by apply edge_there in Hv as (_ & _ & Hv).
Qed.

(** The loop is the handling of the packet by the routers of a shortest walk. *)
Lemma forward_loop_route W a b q : uniform t1 W -> 0 < W -> (forall x r, x ∈ ListOfRouters t0 -> routers t0 !! x = Some r -> ~ b ∈ ListOfAdapters r) ->
  forall n p k s pkt inIf tmp, walk t1 p q k -> k <= Z.of_nat n -> p ∈ ListOfRouters t0 -> forwards s -> bound_for a b pkt -> tmp <> b ->
  exists l c, route p q l /\ walk t1 p q c /\ (forall k, walk t1 p q k -> c <= k) /\ Z.of_nat (length l) * W = c + W /\
    exists pkt' ifc s', ofold (handle q) (pkt, inIf, s) l = Ret (pkt', ifc, s') /\ forwards s' /\
      forall fuel, (length l < fuel)%nat -> forward_loop rand patience v4 v6 fuel (Some p) q inIf tmp b pkt s = Ret (pkt', s').
Proof.
  intros HW HW0 Hnames. induction n as [n IH] using lt_wf_ind. intros p k s pkt inIf tmp Hk Hkn Hp Hs Hb Htmp.
  assert (forall u v k, walk t1 u v k -> 0 <= k) as Hpos.
  { intros u v k' Hw. induction Hw as [|x y k' w Hw IHw Hy]; [lia|]. rewrite (HW x y w Hy). lia. }
  destruct (handle_ok s p pkt q inIf a b Hs Hp) as (pkt' & ifc & s' & o & Eh & Hs' & Hb' & Eloop & Hlast & Hmore); [intros _; by apply (walk_reach p q k)|done|].
  destruct (decide (q = p)) as [->|Hne].
  - exists [p], 0. split; [constructor|]. split; [constructor|]. split; [by apply Hpos|]. split; [cbn [length]; lia|].
    exists pkt', ifc, s'. cbn [ofold]. rewrite Eh. cbn [obind]. split; [done|]. split; [done|]. intros fuel Hf. cbn [length] in Hf.
    destruct fuel as [|[|fuel]]; [lia..|]. rewrite Eloop by done. rewrite (Hlast eq_refl). cbn [forward_loop]. by rewrite decide_True.
  - destruct (Hmore Hne) as ((y & r & Hy & Hr & Hifc) & x & c & -> & [[Hc Hleast] (w & k' & He & Hk' & _ & Hu)]).
    pose proof (Hu W HW) as Hcw. assert (w = W) as -> by by apply (HW p x). pose proof (Hleast k Hk) as Hck. pose proof (Hpos x q k' Hk').
    destruct (edge_there p x _ He) as (_ & Hx & _).
    destruct (IH (Z.to_nat k')) with (p := x) (k := k') (s := s') (pkt := pkt') (inIf := ifc) (tmp := ifc)
      as (l & c' & Hrt & Hc' & Hl' & Hlen & pkt2 & ifc2 & s2 & Eo & Hs2 & Eloop2); [lia|done|lia|done|done|done| |].
    { intros ->. by apply (Hnames y r). }
    exists (p :: l), c. split; [by apply (route_hop p x q W)|]. split; [done|]. split; [done|]. split.
    + pose proof (Hl' k' Hk'). pose proof (Hleast (W + c') (walk_front p x q W c' He Hc')). cbn [length]. lia.
    + exists pkt2, ifc2, s2. cbn [ofold]. rewrite Eh. cbn [obind]. split; [done|]. split; [done|]. intros fuel Hf. cbn [length] in Hf.
      destruct fuel as [|fuel]; [lia|]. rewrite Eloop by done. apply Eloop2. lia.
Qed.
End forwarding.
End routed.
