(* ===== verification/ForwardingProps.v ===== *)
(** * Routes and packets of the emulated network

    What ExploreGraph computes and what becomes of a packet, for every network that a
    sound configuration gives; and a network of four routers in which a packet never
    arrives, because prevRouters keeps the first predecessor and not the best. *)

From stdpp Require Import gmap strings sorting pretty.
From S2P Require Import Prelude Sampling Routing RouterSampling Forwarding.
From S2P Require Import RoutingProps RoutingHops RoutingExplore RoutingSearch RoutingGraph.
From S2P Require Import Delivery.
Open Scope Z_scope.

(** ** Sound configurations, as a test *)

Definition router_ok (t : TransitNetwork) (u : positive) : bool :=
  match routers t !! u with
  | None => false
  | Some r =>
      (0 <=? iRouterNumber r) && (iRouterNumber r <? GRAPHSIZE) && negb (bool_decide (listEdgeAS r = [])) &&
      forallb (fun ad => match far_router t u ad with
                         | Ret None => true
                         | Ret (Some (v, w)) => negb (bool_decide (v = u)) && (0 <=? w) && (w <? GRAPHSIZE)
                         | _ => false
                         end) (ListOfAdapters r) &&
      forallb (fun lp => match links t !! lp with
                         | Some l => negb (bool_decide (sAdapter1 l = "")) && negb (bool_decide (sAdapter2 l = ""))
                         | None => false
                         end) (ptrListOfLinks r)
  end.

Definition fresh_ok (r : Router) : bool :=
  bool_decide (visitedBy r = ∅) && bool_decide (visitedRouters r = ∅) && bool_decide (directRoutersCosts r = ∅) &&
  bool_decide (allRoutersCosts r = ∅) && bool_decide (prevRouters r = ∅).

Definition network_ok (t : TransitNetwork) : bool :=
  bool_decide (NoDup (ListOfRouters t)) && bool_decide (NoDup (number t <$> ListOfRouters t)) &&
  forallb (router_ok t) (ListOfRouters t) && forallb (fun x => fresh_ok x.2) (map_to_list (routers t)).

Lemma forallb_elem {A} (f : A -> bool) l x : forallb f l = true -> x ∈ l -> f x = true.
Proof. intros H Hx. rewrite List.forallb_forall in H. by apply H, list_elem_of_In. Qed.

Lemma router_ok_spec t u : router_ok t u = true -> exists r, routers t !! u = Some r /\ 0 <= iRouterNumber r < GRAPHSIZE /\ listEdgeAS r <> [] /\
  (forall ad, ad ∈ ListOfAdapters r -> exists o, far_router t u ad = Ret o /\ forall v w, o = Some (v, w) -> v <> u /\ 0 <= w < GRAPHSIZE) /\
  forall lp, lp ∈ ptrListOfLinks r -> exists l, links t !! lp = Some l /\ sAdapter1 l <> "" /\ sAdapter2 l <> "".
Proof.
  unfold router_ok. destruct (routers t !! u) as [r|]; [|done]. rewrite !andb_true_iff, negb_true_iff, bool_decide_eq_false, Z.leb_le, Z.ltb_lt.
  intros ((((H1 & H2) & H3) & H4) & H5). exists r. split; [done|]. split; [done|]. split; [done|]. split.
  - intros ad Had. pose proof (forallb_elem _ _ ad H4 Had) as H. cbn beta in H. destruct (far_router t u ad) as [o| | |]; [|done..]. exists o. split; [done|].
    intros v w ->. cbn in H. rewrite !andb_true_iff, negb_true_iff, bool_decide_eq_false, Z.leb_le, Z.ltb_lt in H. tauto.
  - intros lp Hlp. pose proof (forallb_elem _ _ lp H5 Hlp) as H. cbn in H. destruct (links t !! lp) as [l|]; [|done]. exists l.
    rewrite !andb_true_iff, !negb_true_iff, !bool_decide_eq_false in H. tauto.
Qed.

Lemma NoDup_fmap_inj {A B} (f : A -> B) l x y : NoDup (f <$> l) -> x ∈ l -> y ∈ l -> f x = f y -> x = y.
Proof.
  intros Hnd (i & Hi)%list_elem_of_lookup (j & Hj)%list_elem_of_lookup E.
  assert (i = j) as ->; [|congruence]. apply (NoDup_lookup _ i j (f x) Hnd); rewrite list_lookup_fmap; [by rewrite Hi|by rewrite Hj, E].
Qed.

Lemma network_ok_spec t : network_ok t = true -> Network t /\ Linked t /\ forall q r, routers t !! q = Some r -> fresh r.
Proof.
  unfold network_ok. rewrite !andb_true_iff, !bool_decide_eq_true. intros (((H1 & H2) & H3) & H4).
  assert (forall u, u ∈ ListOfRouters t -> router_ok t u = true) as Hok by (intros u; by apply forallb_elem). split; [split|split].
  - done.
  - intros u Hu. destruct (router_ok_spec t u (Hok u Hu)) as (r & Hr & Hn & He & _). by exists r.
  - intros u u' r r' Hu Hu' Hr Hr' E. apply (NoDup_fmap_inj (number t) (ListOfRouters t)); [done..|]. unfold number. by rewrite Hr, Hr'.
  - intros u ad Hu Had. destruct (router_ok_spec t u (Hok u Hu)) as (r & Hr & _ & _ & Hf & _). unfold adapters in Had. rewrite Hr in Had.
    destruct (Hf ad Had) as (o & E & _). by exists o.
  - intros u v w Hu (ad & Had & E). destruct (router_ok_spec t u (Hok u Hu)) as (r & Hr & _ & _ & Hf & _). unfold adapters in Had. rewrite Hr in Had.
    destruct (Hf ad Had) as (o & E' & Ho). apply Ho. congruence.
  - intros u r lp Hu Hr Hlp. destruct (router_ok_spec t u (Hok u Hu)) as (r' & Hr' & _ & _ & _ & Hl). apply Hl. congruence.
  - intros q r Hr. pose proof (forallb_elem _ _ (q, r) H4) as H. cbn in H. unfold fresh_ok in H. rewrite !andb_true_iff, !bool_decide_eq_true in H.
    destruct H as ((((F1 & F2) & F3) & F4) & F5); [by apply elem_of_map_to_list|by split].
Qed.

(** ** ExploreGraph *)

Lemma walk_ext t t' p q k : (forall u v, edge t u v = edge t' u v) -> walk t p q k -> walk t' p q k.
Proof. intros E Hw. induction Hw as [|u v k w Hw IH Hv]; [constructor|]. apply (walk_step t' p u); [done|]. by rewrite <- E. Qed.

Lemma routing_edge t0 t1 don t u v : routing t0 t1 don t -> edge t u v = edge t1 u v.
Proof.
  intros [_ H _ _]. pose proof (shape_lookup directRoutersCosts _ _ u H) as E. unfold edge.
  destruct (routers t !! u), (routers t1 !! u); cbn in E; [by rewrite E|done..].
Qed.

(** C16: for every sound configuration ExploreGraph ends, changes nothing but what it
    computes, and then every router has, for every other router that links lead to, the
    length of a shortest walk, and a next router: a neighbour from which the destination
    can still be reached, and by which the way is shortest if all links cost the same. *)
Theorem ExploreGraph_routes t : network_ok t = true -> exists t', ExploreGraph t = Ret t' /\ same_shape t' t /\
  (forall u v, edge t' u v = if decide (u ∈ ListOfRouters t) then neighbours t u !! v else None) /\
  forall p q, p ∈ ListOfRouters t -> q <> p -> reach t p q -> exists r c x w k,
    routers t' !! p = Some r /\ allRoutersCosts r !! q = Some c /\ walk t' p q c /\ (forall k, walk t' p q k -> c <= k) /\
    nextRouter r !! q = Some (Some x) /\ edge t' p x = Some w /\ walk t' x q k /\ c <= w + k /\ forall W, uniform t' W -> c = w + k.
Proof.
  intros Hok. destruct (network_ok_spec t Hok) as (Hnet & _ & Hfresh). destruct (ExploreGraph_ok t Hfresh) as (t1 & t' & E & He & Ht').
  assert (forall u v, edge t' u v = edge t1 u v) as Hedge by (intros u v; by apply (routing_edge t t1 (ListOfRouters t))).
  assert (forall u q k, walk t1 u q k -> walk t' u q k) as Hto by (intros u q k; by apply walk_ext).
  exists t'. split; [done|]. split; [by apply (ready_shape t t1)|]. split.
  { intros u v. rewrite Hedge. by apply explored_edge. }
  intros p q Hp Hne Hq. destruct (ready_router t t1 t' p Ht' Hp) as (r & d & prev & n & Hr & Hro).
  assert (q ∈ found_at t1 p) as Hqf by by apply (ro_reach _ _ _ _ _ _ Hro). destruct (ro_next _ _ _ _ _ _ Hro q Hqf) as (x & Hx & Hnh).
  destruct (routed_hop t t1 p d prev n q x Hro Hqf Hnh) as [[Hc Hl] (w & k & Hw & Hk & Hle & Hu)].
  exists (with_prev r d prev n), (cost d q), x, w, k. split; [done|]. split.
  { destruct (ro_inv _ _ _ _ _ _ Hro) as (S & Hd & _). cbn. unfold cost. apply (iv_dom _ _ _ _ _ Hd) in Hqf as [y ->]. done. }
  split; [by apply Hto|]. split; [intros k' Hk'; apply Hl; by apply (walk_ext t')|]. split; [done|]. split; [by rewrite Hedge|]. split; [by apply Hto|].
  split; [done|]. intros W HW. apply (Hu W). intros u v w' Hw'. apply (HW u v). by rewrite Hedge.
Qed.

(** ** Packets *)

(** No interface is monitored. *)
Definition unwatched (m : monitors) : Prop := forall r ifc io, GetInterfaceMonitoringStatus r ifc io m <> 1.

#[export] Instance unwatched_monitoring rand patience v4 v6 : Monitoring rand patience v4 v6 unwatched.
Proof. intros r ifc io pkt m Hm. exists pkt, m. unfold monitor_interface. rewrite (proj2 (Z.eqb_neq _ _)) by apply Hm. done. Qed.

Lemma route_ext t t' p q l : (forall u v, edge t u v = edge t' u v) -> route t p q l -> route t' p q l.
Proof. intros E Hr. induction Hr as [|p x q w l He Hr IH]; [constructor|]. apply (route_hop t' p x q w); [by rewrite <- E|done]. Qed.

(** C11: when all links cost the same, a packet for another edge router of a network
    that ExploreGraph has left is handled, once each and in their order, by the routers
    of a shortest walk from its source to its destination, and then leaves the network:
    the loop ends, whatever the monitors do that leave the systems of the packet alone. *)
Theorem packets_delivered rand patience v4 v6 I t t' a b src dst W s pkt lp l inIf :
  Monitoring rand patience v4 v6 I -> network_ok t = true -> ExploreGraph t = Ret t' -> uniform t' W -> 0 < W ->
  (forall x r, x ∈ ListOfRouters t -> routers t !! x = Some r -> ~ b ∈ ListOfAdapters r) ->
  tn s = t' -> I (mon s) -> bound_for a b pkt ->
  GetTheEdgeRouterOf t' a = Ret (Some src) -> GetTheEdgeRouterOf t' b = Ret (Some dst) -> src <> dst -> reach t src dst ->
  (exists r, routers t' !! src = Some r /\ Node_GetLink t' r a = Ret (Some lp)) -> links t' !! lp = Some l ->
  GetTheOppositeAdapter l a = Ret inIf -> inIf <> b ->
  exists rt c s0 pkt' ifc s', route t' src dst rt /\ walk t' src dst c /\ (forall k, walk t' src dst k -> c <= k) /\ Z.of_nat (length rt) * W = c + W /\
    mon s0 = mon s /\ ofold (handle rand patience v4 v6 dst) (pkt, inIf, s0) rt = Ret (pkt', ifc, s') /\
    forall fuel, (length rt < fuel)%nat -> ForwardPacketE rand patience v4 v6 fuel pkt s = Ret (pkt', s').
Proof.
  intros HI Hok E HW HW0 Hnames <- Hm Hb Hsrc Hdst Hne Hreach (r & Hr & Hlp) Hl Hopp Hin.
  destruct (network_ok_spec t Hok) as (Hnet & Hlink & Hfresh). destruct (ExploreGraph_ok t Hfresh) as (t1 & t2 & E2 & He & Ht').
  assert (t2 = tn s) as -> by congruence. assert (forall u v, edge (tn s) u v = edge t1 u v) as Hedge by (intros u v; by apply (routing_edge t t1 (ListOfRouters t))).
  assert (src ∈ ListOfRouters t) as Hs.
  { unfold GetTheEdgeRouterOf in Hsrc. apply find_first_in in Hsrc as (y & Hy & Ey). rewrite (proj1 (ready_shape t t1 He (tn s) Ht')) in Hy.
    apply obind_Ret_inv in Ey as (ry & _ & Ey). apply obind_Ret_inv in Ey as (e & _ & Ey). destruct (decide (e = a)); congruence. }
  destruct (next_toward t t1 (tn s) src dst Ht' Hs) as (x & t2 & c0 & En & Ht2 & Hhop); [done|done|].
  destruct Hhop as [[Hw _] _].
  assert (uniform t1 W) as HW1 by (intros u v w Hv; apply (HW u v); by rewrite Hedge).
  assert (same_shape (tn s) t2) as Hsh by (rewrite (ready_shape t t1 He (tn s) Ht'); symmetry; by apply (ready_shape t t1)).
  destruct (forward_loop_route t t1 Hfresh He rand patience v4 v6 I W a b dst HW1 HW0 Hnames (Z.to_nat c0) src c0 (Mk_nsp t2 (mon s)) pkt inIf inIf)
    as (rt & c & Hrt & Hc & Hleast & Hlen & pkt' & ifc & s' & Eo & _ & Eloop); [done|lia|done|by split|done|done|].
  exists rt, c, (Mk_nsp t2 (mon s)), pkt', ifc, s'. split; [by apply (route_ext t1)|]. split; [by apply (walk_ext t1)|].
  split; [intros k Hk; apply Hleast; by apply (walk_ext (tn s))|]. split; [done|]. split; [done|]. split; [done|]. intros fuel Hf.
  unfold ForwardPacketE. rewrite (proj1 Hb), (proj2 Hb). cbn [obind]. rewrite Hsrc, Hdst. cbn [obind not_null]. rewrite En. cbn [obind tn].
  destruct (shape_router (tn s) t2 src r Hsh Hr) as (r2 & Hr2 & Er). unfold get_router. rewrite Hr2. cbn [obind].
  rewrite <- (Node_GetLink_shape (tn s) t2 r r2 a Hsh Er), Hlp. cbn [obind not_null].
  pose proof (get_link_shape (tn s) t2 lp Hsh) as Hgl. unfold get_link in *. rewrite Hl in Hgl. destruct (links t2 !! lp) as [l2|]; [|done].
  cbn [obind]. injection Hgl as G1 G2 _. unfold GetTheOppositeAdapter in *. rewrite <- G1, <- G2, Hopp. cbn [obind].
  rewrite decide_False by done. by apply Eloop.
Qed.

(** ** A network of four routers *)

Definition blank_link : Link := Mk_Link "" "" 0 0 0 0 ∅.

(** A ring of four routers, with a system at each, as a topology file gives it. *)
Definition ring (c12 c23 c34 c41 : Z) : outcome TransitNetwork :=
  let add l a b cost t := AddLink blank_link l a b 0 cost 0 1 {["As9" := "a9"]} t in
  let t := Mk_TransitNetwork [] [] 4 8 [] [] ∅ ∅ in
  let t := add 1%positive "a1" "b0" c12 (add 2%positive "b1" "c0" c23 (add 3%positive "c1" "d0" c34 (add 4%positive "d1" "a0" c41 t))) in
  let t := add 5%positive "As1" "a9" 1 (add 6%positive "As2" "b9" 1 (add 7%positive "As3" "c9" 1 (add 8%positive "As4" "d9" 1 t))) in
  let! t := AddRouter 1 1 3 ["a1"; "a0"; "a9"] 0 ["As1"] t in
  let! t := AddRouter 2 2 3 ["b0"; "b1"; "b9"] 0 ["As2"] t in
  let! t := AddRouter 3 3 3 ["c0"; "c1"; "c9"] 0 ["As3"] t in
  AddRouter 4 4 3 ["d0"; "d1"; "d9"] 0 ["As4"] t.

Definition value {A} (d : A) (o : outcome A) : A := match o with Ret a => a | _ => d end.
Definition no_network : TransitNetwork := Mk_TransitNetwork [] [] 0 0 [] [] ∅ ∅.
Definition ring_net (c12 c23 c34 c41 : Z) : TransitNetwork := value no_network (ring c12 c23 c34 c41).
Definition explored_net (t : TransitNetwork) : TransitNetwork := value no_network (ExploreGraph t).

Definition no_monitors : monitors := Mk_monitors ∅ ∅ 0 ∅ [].
Definition ring_packet (a b : Z) : packet :=
  Mk_packet 0 0 [] 100 [49] [50] [53] [54] [84; 67; 80] 0 a b false true false 0 false 0.

Example ring_ok : network_ok (ring_net 2 2 1 7) = true /\ length (ListOfRouters (ring_net 2 2 1 7)) = 4%nat /\
  network_ok (ring_net 3 3 3 3) = true /\ length (ListOfRouters (ring_net 3 3 3 3)) = 4%nat.
Proof. split_and!; vm_compute; reflexivity. Qed.

(** A turn of the loop: the packet, the interface, the network and the next router. *)
Definition turn (rand : nat -> Z) (patience : nat) (v4 v6 : bool) (dst c : positive) (x : packet * string * nsp)
    : outcome (packet * string * nsp * option positive) :=
  let! (pkt, ifc, s) := Router_ForwardPacketE rand patience v4 v6 c x.1.1 dst x.1.2 x.2 in
  let! (o, t) := GetAlreadyCalculatedNextRouterToward c dst (tn s) in Ret (pkt, ifc, Mk_nsp t (mon s), o).

Lemma turn_loop rand patience v4 v6 fuel dst c x tmp final y o : tmp <> final -> turn rand patience v4 v6 dst c x = Ret (y, o) ->
  forward_loop rand patience v4 v6 (S fuel) (Some c) dst x.1.2 tmp final x.1.1 x.2 = forward_loop rand patience v4 v6 fuel o dst y.1.2 y.1.2 final y.1.1 y.2.
Proof.
  intros Hne H. cbn [forward_loop]. rewrite decide_False by done. unfold turn in H.
  destruct (Router_ForwardPacketE _ _ _ _ _ _ _ _ _) as [[[pkt ifc] s]| | |]; [|done..]. cbn [obind] in *.
  destruct (GetAlreadyCalculatedNextRouterToward _ _ _) as [[o' t]| | |]; [|done..]. cbn [obind] in *. by injection H as <- <-.
Qed.

(** Two routers that are each other's next router. *)
Lemma two_routers rand patience v4 v6 dst c c' x y final : x.1.2 <> final -> y.1.2 <> final ->
  turn rand patience v4 v6 dst c x = Ret (y, Some c') -> turn rand patience v4 v6 dst c' y = Ret (x, Some c) ->
  forall fuel, forward_loop rand patience v4 v6 fuel (Some c) dst x.1.2 x.1.2 final x.1.1 x.2 = Diverges.
Proof.
  intros Hx Hy E E' fuel. induction fuel as [fuel IH] using lt_wf_ind. destruct fuel as [|fuel]; [done|].
  rewrite (turn_loop _ _ _ _ fuel dst c x _ final y (Some c')) by done. destruct fuel as [|fuel]; [done|].
  rewrite (turn_loop _ _ _ _ fuel dst c' y _ final x (Some c)) by done. apply IH. lia.
Qed.

(** The way into the loop. *)
Lemma ForwardPacketE_start rand patience v4 v6 fuel pkt s a b src dst n t lp inIf :
  (as_name (iAsSourceNumber pkt) = Ret a /\ as_name (iAsDestNumber pkt) = Ret b) ->
  (GetTheEdgeRouterOf (tn s) a = Ret (Some src) /\ GetTheEdgeRouterOf (tn s) b = Ret (Some dst)) ->
  GetNextRouterToward src dst (tn s) = Ret (n, t) ->
  (let! r := get_router t src in Node_GetLink t r a) = Ret (Some lp) ->
  (let! l := get_link t lp in GetTheOppositeAdapter l a) = Ret inIf -> src <> dst ->
  ForwardPacketE rand patience v4 v6 fuel pkt s = forward_loop rand patience v4 v6 fuel (Some src) dst inIf inIf b pkt (Mk_nsp t (mon s)).
Proof.
  intros [Ha Hb] [Hs Hd] Hn Hl Ho Hne. unfold ForwardPacketE. rewrite Ha, Hb. cbn [obind]. rewrite Hs, Hd. cbn [obind not_null]. rewrite Hn. cbn [obind tn].
  apply obind_Ret_inv in Hl as (r & Hr & Hl). rewrite Hr. cbn [obind]. rewrite Hl. cbn [obind not_null].
  apply obind_Ret_inv in Ho as (l & El & Ho). rewrite El. cbn [obind]. rewrite Ho. cbn [obind]. by rewrite decide_False.
Qed.

Definition ring_state (c12 c23 c34 c41 : Z) : nsp := Mk_nsp (explored_net (ring_net c12 c23 c34 c41)) no_monitors.

(** A packet that comes back to the router [src] in a state that repeats itself. *)
Lemma never_arrives rand patience v4 v6 pkt s a b src c dst n t lp inIf x1 x2 x3 :
  (as_name (iAsSourceNumber pkt) = Ret a /\ as_name (iAsDestNumber pkt) = Ret b) ->
  (GetTheEdgeRouterOf (tn s) a = Ret (Some src) /\ GetTheEdgeRouterOf (tn s) b = Ret (Some dst)) ->
  GetNextRouterToward src dst (tn s) = Ret (n, t) ->
  (let! r := get_router t src in Node_GetLink t r a) = Ret (Some lp) ->
  (let! l := get_link t lp in GetTheOppositeAdapter l a) = Ret inIf -> src <> dst ->
  turn rand patience v4 v6 dst src (pkt, inIf, Mk_nsp t (mon s)) = Ret (x1, Some c) -> turn rand patience v4 v6 dst c x1 = Ret (x2, Some src) ->
  turn rand patience v4 v6 dst src x2 = Ret (x3, Some c) -> turn rand patience v4 v6 dst c x3 = Ret (x2, Some src) ->
  ~ b ∈ [inIf; x1.1.2; x2.1.2; x3.1.2] ->
  forall fuel, ForwardPacketE rand patience v4 v6 fuel pkt s = Diverges.
Proof.
  intros H1 H2 H3 H4 H5 H6 E0 E1 E2 E3 Hb fuel. rewrite !not_elem_of_cons in Hb. destruct Hb as (B0 & B1 & B2 & B3 & _).
  rewrite (ForwardPacketE_start _ _ _ _ _ _ _ a b src dst n t lp inIf) by done.
  destruct fuel as [|fuel]; [done|]. pose proof (turn_loop rand patience v4 v6 fuel dst src _ inIf b x1 (Some c) (not_eq_sym B0) E0) as E. cbn [fst snd] in E.
  rewrite E.
  destruct fuel as [|fuel]; [done|]. rewrite (turn_loop _ _ _ _ fuel dst c x1 _ b x2 (Some src)) by done.
  by apply (two_routers _ _ _ _ dst src c x2 x3 b).
Qed.

(** The packet at the router 1 at first, then at 2, back at 1 and again at 2. *)
Definition circle0 : packet * string * nsp := (ring_packet 1 4, "a9", ring_state 2 2 1 7).
Definition circle (c : positive) (x : packet * string * nsp) : packet * string * nsp := (value (x, None) (turn (fun _ => 0) 0 false false 4 c x)).1.
Definition circle1 := circle 1 circle0.
Definition circle2 := circle 2 circle1.
Definition circle3 := circle 1 circle2.

(** C37: a sound network in which a packet circulates for ever: the links of a ring of
    four routers cost 2, 2, 1 and 7, the walk from the first router to the fourth by the
    others has length 5, but the routers 1 and 2 are each other's next router towards
    the fourth, and the loop of ForwardPacketE never ends. *)
Theorem packet_circulates rand patience v4 v6 :
  network_ok (ring_net 2 2 1 7) = true /\ ExploreGraph (ring_net 2 2 1 7) = Ret (tn (ring_state 2 2 1 7)) /\
  walk (tn (ring_state 2 2 1 7)) 1 4 5 /\
  forall fuel, ForwardPacketE rand patience v4 v6 fuel (ring_packet 1 4) (ring_state 2 2 1 7) = Diverges.
Proof.
  split; [vm_compute; reflexivity|]. split; [vm_compute; reflexivity|]. split.
  - apply (walk_step _ 1 3 4 4 1); [|vm_compute; reflexivity]. apply (walk_step _ 1 2 3 2 2); [|vm_compute; reflexivity].
    apply (walk_step _ 1 1 2 0 2); [constructor|vm_compute; reflexivity].
  - apply (never_arrives _ _ _ _ _ _ "As1" "As4" 1%positive 2%positive 4%positive 2%positive (tn (ring_state 2 2 1 7)) 5%positive "a9" circle1 circle2 circle3);
      [split; vm_compute; reflexivity..|vm_compute; reflexivity| | | | | | | |]; [vm_compute; reflexivity..|done|vm_compute; reflexivity| | | |];
      [vm_compute; reflexivity..|].
    apply (bool_decide_unpack _). vm_compute. exact Logic.I.
Qed.

(** ** Witnesses *)

Lemma uniform_ok t W : forallb (fun x => forallb (fun y => y.2 =? W) (map_to_list (directRoutersCosts x.2))) (map_to_list (routers t)) = true -> uniform t W.
Proof.
  intros H u v w Hw. unfold edge in Hw. destruct (routers t !! u) as [r|] eqn:Er; [|done].
  pose proof (forallb_elem _ _ (u, r) H) as H1. cbn in H1. pose proof (forallb_elem _ _ (v, w) (H1 (proj2 (elem_of_map_to_list _ _ _) Er))) as H2.
  apply Z.eqb_eq. apply H2. by apply elem_of_map_to_list.
Qed.

Lemma names_ok t b : forallb (fun x => negb (bool_decide (b ∈ ListOfAdapters x.2))) (map_to_list (routers t)) = true ->
  forall x r, x ∈ ListOfRouters t -> routers t !! x = Some r -> ~ b ∈ ListOfAdapters r.
Proof.
  intros H x r _ Hr Hb. pose proof (forallb_elem _ _ (x, r) H) as H1. cbn in H1. rewrite negb_true_iff, bool_decide_eq_false in H1.
  apply H1; [by apply elem_of_map_to_list|done].
Qed.

Lemma dijkstra_shortest_witness : exists t p found r, t <> no_network /\ Explored t p found /\ routers t !! p = Some r /\
  exists c prev, Dijkstra p t = Ret (put_router p (set_routes c prev (nextRouter r) r) t).
Proof.
  destruct (network_ok_spec (ring_net 2 2 1 7)) as (Hnet & _ & Hfresh); [vm_compute; reflexivity|].
  destruct (explore_all_ok (ring_net 2 2 1 7) Hfresh) as (t1 & E & He).
  assert (1%positive ∈ ListOfRouters (ring_net 2 2 1 7)) as H1 by (apply (bool_decide_unpack _); vm_compute; exact Logic.I).
  destruct (explored_at (ring_net 2 2 1 7) t1 He 1%positive H1) as (r0 & r & Hr0 & Hr & Her).
  pose proof (explored_found (ring_net 2 2 1 7) Hfresh t1 He 1%positive r0 r H1 Hr0 Hr Her) as Hex.
  exists t1, 1%positive, (remove_dups (found_order r)), r. split; [intros ->; by vm_compute in Hr|]. split; [done|]. split; [done|].
  destruct (dijkstra_shortest t1 1%positive (remove_dups (found_order r)) r Hex Hr) as (c & prev & E' & _).
  - destruct Her as [-> _]. apply (fr_all _ (Hfresh 1%positive r0 Hr0)).
  - destruct Her as [-> _]. apply (fr_prev _ (Hfresh 1%positive r0 Hr0)).
  - intros q. by rewrite elem_of_remove_dups.
  - by exists c, prev.
Defined.

Lemma ExploreGraph_routes_witness : network_ok (ring_net 2 2 1 7) = true /\ exists t', ExploreGraph (ring_net 2 2 1 7) = Ret t'.
Proof.
  split; [vm_compute; reflexivity|]. destruct (ExploreGraph_routes (ring_net 2 2 1 7)) as (t' & E & _); [vm_compute; reflexivity|]. by exists t'.
Defined.

Lemma ring_reach : reach (ring_net 3 3 3 3) 1 3.
Proof.
  exists 2%nat. apply (steps_next _ 1 1 2 3 3); [apply (steps_next _ 1 0 1 2 3); [constructor|exists "a1"]|exists "b1"];
    (split; [apply (bool_decide_unpack _); vm_compute; exact Logic.I|vm_compute; reflexivity]).
Qed.

Lemma unwatched_none : unwatched no_monitors.
Proof. intros r ifc io. unfold GetInterfaceMonitoringStatus. cbn. by rewrite lookup_empty. Qed.

Lemma packets_delivered_witness : exists (rt : list positive) pkt' s', (length rt <= 3)%nat /\
  forall fuel, (3 < fuel)%nat -> ForwardPacketE (fun _ => 0) 0 false false fuel (ring_packet 1 3) (ring_state 3 3 3 3) = Ret (pkt', s').
Proof.
  destruct (packets_delivered (fun _ => 0) 0 false false unwatched (ring_net 3 3 3 3) (explored_net (ring_net 3 3 3 3)) "As1" "As3" 1%positive 3%positive 3
    (ring_state 3 3 3 3) (ring_packet 1 3) 5%positive (value blank_link (get_link (explored_net (ring_net 3 3 3 3)) 5%positive)) "a9")
    as (rt & c & s0 & pkt' & ifc & s' & _ & Hc & Hleast & Hlen & _ & _ & E).
  - apply _.
  - vm_compute; reflexivity.
  - vm_compute; reflexivity.
  - apply uniform_ok. vm_compute. reflexivity.
  - lia.
  - apply names_ok. vm_compute. reflexivity.
  - done.
  - apply unwatched_none.
  - split; vm_compute; reflexivity.
  - vm_compute; reflexivity.
  - vm_compute; reflexivity.
  - done.
  - apply ring_reach.
  - exists (value (new_Router 0 0 0 []) (get_router (explored_net (ring_net 3 3 3 3)) 1)). split; vm_compute; reflexivity.
  - vm_compute; reflexivity.
  - vm_compute; reflexivity.
  - done.
  - assert (c <= 6) as Hc6.
    { apply Hleast. apply (walk_step _ 1 2 3 3 3); [apply (walk_step _ 1 1 2 0 3); [constructor|]|]; vm_compute; reflexivity. }
    exists rt, pkt', s'. split; [lia|]. intros fuel Hf. apply E. lia.
Defined.
