(* ===== verification/PacketMessage.v ===== *)
(** * From the emulator to softflowd (src/NSP/SoftflowdInterface.cpp)

    A packet that a monitor of the emulator takes is put into a buffer; a thread turns
    each into a message and sends it to softflowd.  The message of a packet of TCP or UDP
    is the one that process_emulator_packet reads. *)

From stdpp Require Import gmap.
From S2P Require Import Prelude CString Packed Control Client RouterSampling.
From S2P Require Import Addr SoftTypes Ipflow FlowTrack FlowTable Sampling Emulator EmulatorProps EmulatorRun.

(** ** GetPacketMessage *)

(** A number by way of the array tmp of 10 characters. *)
Definition number_field (n : Z) : outcome bytes := let! tmp := sprintf_i (replicate 10 0) n in cstr tmp.

Definition hash : bytes := [sep].
Definition zero_text : bytes := [48].
Definition one_text : bytes := [49].

(** A port, "0" for the missing port of an ICMP packet, None for an exception. *)
Definition port_field (port protocol : bytes) : option bytes :=
  if decide (port <> []) then Some port else if decide (protocol = ICMP_text) then Some zero_text else None.

(** The part behind the protocol. *)
Definition protocol_fields (p : packet) : outcome bytes :=
  if decide (szProtocol p = UDP_text) then Ret (hash ++ hash ++ hash)
  else if decide (szProtocol p = TCP_text) then
    let! frag :=
      if fragment p then let! n := number_field (swrap32 (fragmentSeqNumber p)) in Ret (hash ++ one_text ++ hash ++ n)
      else Ret (hash ++ zero_text ++ hash) in
    Ret (frag ++ hash ++ (if tcpFlags p =? 0 then [] else [tcpFlags p]))
  else if decide (szProtocol p = ICMP_text) then Ret (hash ++ hash ++ hash)
  else Ret [].

(** None when the function throws, which leaves the result of the caller empty. *)
Definition GetPacketMessage (p : packet) : outcome (option bytes) :=
  if (iResponsibleNode p <? 0) || bool_decide (szMonitorIp p = []) then Ret None
  else if decide (szIpSource p = []) then Ret None
  else if decide (szIpDest p = []) then Ret None
  else if lLength p <? 0 then Ret None
  else
    let! len := number_field (lLength p) in
    let! sec := number_field (second p) in
    let! usec := number_field (usecond p) in
    match port_field (szSourcePort p) (szProtocol p) with None => Ret None | Some sport =>
    match port_field (szDestPort p) (szProtocol p) with None => Ret None | Some dport =>
    if iAsSourceNumber p <? 0 then Ret None
    else
      let! as1 := number_field (iAsSourceNumber p) in
      if iAsDestNumber p <? 0 then Ret None
      else
        let! as2 := number_field (iAsDestNumber p) in
        if decide (szProtocol p = []) then Ret None
        else
          let! rest := protocol_fields p in
          Ret (Some (seps [szMonitorIp p; szIpSource p; szIpDest p; len; sec; usec; sport; dport; as1; as2] ++ szProtocol p ++ rest ++
                     hash ++ (if forwardedToSoftflowd p then one_text else zero_text)))
    end end.

(** ** The thread *)

(** The interface: whether more packets may come, the buffer, whether the semaphore of
    the list is taken, whether the thread runs, and what was sent. *)
Record interface := Mk_interface {
  boolInterfaceStatus : bool;
  packetsBuffer : list packet;
  semListPackets : bool;
  si_running : bool;
  si_sent : list bytes
}.

Definition end_message : bytes := [101; 110; 100].

(** AddPacketToTheBuffer: it waits for the semaphore for ever when a thread that has
    ended holds it. *)
Definition AddPacketToTheBuffer (p : packet) (s : interface) : outcome interface :=
  if semListPackets s then Diverges
  else Ret (Mk_interface (boolInterfaceStatus s) (packetsBuffer s ++ [p]) false (si_running s) (si_sent s)).

(** The packets of the buffer, one after the other: whether the thread still runs, the
    packets left and what was sent.  [sends] is whether sendto succeeds, message by
    message. *)
Fixpoint send_packets (sends : nat -> bool) (buf : list packet) (sent : list bytes) : outcome (bool * list packet * list bytes) :=
  match buf with
  | [] => Ret (true, [], sent)
  | p :: rest =>
      let! m := GetPacketMessage p in
      match default [] m with
      | [] => Ret (false, buf, sent)
      | dataRes => if sends (length sent) then send_packets sends rest (sent ++ [dataRes]) else Ret (false, buf, sent)
      end
  end.

(** A turn of SoftflowdThreadProcess while the semaphore is free; an exception ends the
    thread with the semaphore taken. *)
Definition SoftflowdThreadProcess_turn (sends : nat -> bool) (s : interface) : outcome interface :=
  match packetsBuffer s with
  | [] =>
      if boolInterfaceStatus s then Ret s
      else Ret (Mk_interface false [] false false (if sends (length (si_sent s)) then si_sent s ++ [end_message] else si_sent s))
  | buf =>
      let! (running, rest, sent) := send_packets sends buf (si_sent s) in
      Ret (Mk_interface (boolInterfaceStatus s) rest (negb running) running sent)
  end.

(** ** Numbers in ten characters *)

Lemma itoa_short n : 0 <= n < 1000000000 -> (length (itoa n) <= 9)%nat.
Proof.
  intros Hn. unfold itoa. rewrite (proj2 (Z.ltb_ge _ _)) by lia. pose proof (udigits_length 20 n [] 9). cbn [length] in *. lia.
Qed.

Lemma number_field_ok n : 0 <= n < 1000000000 -> number_field n = Ret (itoa n).
Proof.
  intros Hn. destruct (itoa_number n ltac:(lia)) as (Hnum & _). pose proof (itoa_short n Hn) as Hlen. apply number_text in Hnum.
  unfold number_field, sprintf_i. revert Hnum Hlen. generalize (itoa n). intros d Hd Hlen.
  pose proof (wr_head (replicate (length (d ++ [0])) 0) (replicate (10 - length (d ++ [0])) 0) (d ++ [0])) as Hw.
  rewrite <- replicate_add in Hw. rewrite length_app in *. cbn [length] in *.
  replace (length d + 1 + (10 - (length d + 1)))%nat with 10%nat in Hw by lia. rewrite Hw by (by rewrite length_replicate). cbn [obind].
  rewrite <- app_assoc. by apply cstr_app.
Qed.

Lemma udigits_long k : forall n acc m, 10 ^ Z.of_nat m <= n < 10 ^ Z.of_nat k -> (S m + length acc <= length (udigits k n acc))%nat.
Proof.
  induction k as [|k IH]; intros n acc m Hn; cbn [udigits].
  { change (10 ^ Z.of_nat 0) with 1 in Hn. pose proof (Z.pow_pos_nonneg 10 (Z.of_nat m)). lia. }
  rewrite Nat2Z.inj_succ, Z.pow_succ_r in Hn by lia. destruct (Z.eqb_spec (n / 10) 0) as [E|E].
  - assert (n < 10) by (pose proof (Z.div_mod n 10); pose proof (Z.mod_pos_bound n 10); lia). destruct m as [|m]; [cbn; lia|].
    rewrite Nat2Z.inj_succ, Z.pow_succ_r in Hn by lia. pose proof (Z.pow_pos_nonneg 10 (Z.of_nat m)). lia.
  - destruct m as [|m].
    + change (10 ^ Z.of_nat 0) with 1 in Hn.
      assert (10 ^ Z.of_nat 0 <= n / 10 < 10 ^ Z.of_nat k) as H.
      { change (10 ^ Z.of_nat 0) with 1. split; [|apply Z.div_lt_upper_bound; lia]. pose proof (Z.div_pos n 10). lia. }
      specialize (IH (n / 10) ((48 + n mod 10) :: acc) 0%nat H). cbn [length] in IH. lia.
    + rewrite Nat2Z.inj_succ, Z.pow_succ_r in Hn by lia.
      assert (10 ^ Z.of_nat m <= n / 10 < 10 ^ Z.of_nat k) as H.
      { split; [apply Z.div_le_lower_bound; lia|apply Z.div_lt_upper_bound; lia]. }
      specialize (IH (n / 10) ((48 + n mod 10) :: acc) m H). cbn [length] in IH. lia.
Qed.

(** A number of ten digits or more does not fit. *)
Lemma number_field_long n : 1000000000 <= n < 10 ^ 20 -> number_field n = Undef OutOfBounds.
Proof.
  intros Hn. assert (10 <= length (itoa n))%nat as Hl.
  { unfold itoa. rewrite (proj2 (Z.ltb_ge _ _)) by lia. pose proof (udigits_long 20 n [] 9). cbn [length] in *. lia. }
  unfold number_field, sprintf_i, wr. rewrite length_app, length_replicate. cbn [length].
  rewrite decide_False; [done|lia].
Qed.

(** ** Messages *)

(** The message of a packet. *)
Definition message_of (p : packet) : message :=
  let tcp := bool_decide (szProtocol p = TCP_text) in
  Mk_message (szMonitorIp p) (szIpSource p) (szIpDest p) (itoa (lLength p)) (itoa (second p)) (itoa (usecond p)) (szSourcePort p) (szDestPort p)
    (itoa (iAsSourceNumber p)) (itoa (iAsDestNumber p)) (szProtocol p)
    (if tcp then if fragment p then one_text else zero_text else [])
    (if tcp then if fragment p then itoa (fragmentSeqNumber p) else [] else [])
    (if tcp then if tcpFlags p =? 0 then [] else [tcpFlags p] else [])
    (if forwardedToSoftflowd p then one_text else zero_text).

Definition small (n : Z) : Prop := 0 <= n < 1000000000.

(** A packet whose numbers have at most nine digits. *)
Record sendable (p : packet) : Prop := {
  sd_valid : AmIValid p = true;
  sd_node : 0 <= iResponsibleNode p;
  sd_monitor : szMonitorIp p <> [];
  sd_len : small (lLength p);
  sd_sec : small (second p);
  sd_usec : small (usecond p);
  sd_as : small (iAsSourceNumber p) /\ small (iAsDestNumber p);
  sd_seq : fragment p = true -> small (fragmentSeqNumber p)
}.

Lemma valid_fields p : AmIValid p = true -> 0 <= lLength p /\ szIpSource p <> [] /\ szIpDest p <> [] /\ szProtocol p <> [] /\
  0 <= iAsSourceNumber p /\ 0 <= iAsDestNumber p /\ ((szSourcePort p <> [] /\ szDestPort p <> []) \/ szProtocol p = ICMP_text).
Proof.
  unfold AmIValid. rewrite !orb_true_iff, !andb_true_iff, !bool_decide_eq_true, !Z.leb_le. tauto.
Qed.

Lemma small_ok n : small n -> (n <? 0) = false /\ number_field n = Ret (itoa n).
Proof. intros Hn. split; [unfold small in Hn; lia|by apply number_field_ok]. Qed.

Lemma protocol_fields_ok p : sendable p -> exists rest, protocol_fields p = Ret rest /\
  (szProtocol p = TCP_text \/ szProtocol p = UDP_text ->
   rest ++ hash = hash ++ seps [ms_frag (message_of p); ms_off (message_of p); ms_flags (message_of p)]).
Proof.
  intros Hp. unfold protocol_fields, message_of. cbn [ms_frag ms_off ms_flags].
  destruct (decide (szProtocol p = UDP_text)) as [Hu|Hu].
  { eexists. split; [done|]. intros _. by rewrite bool_decide_false by (rewrite Hu; discriminate). }
  destruct (decide (szProtocol p = TCP_text)) as [Ht|Ht].
  - rewrite bool_decide_true by done. destruct (fragment p) eqn:Ef.
    + pose proof (sd_seq p Hp Ef) as Hs. assert (swrap32 (fragmentSeqNumber p) = fragmentSeqNumber p) as ->.
      { unfold small in Hs. unfold swrap32. rewrite Z.mod_small; lia. }
      rewrite (proj2 (small_ok _ Hs)). cbn [obind]. eexists. split; [done|]. intros _. unfold seps, hash. cbn -[app]. by simplify_list_eq.
    + cbn [obind]. eexists. split; [done|]. intros _. unfold seps, hash. cbn -[app]. by simplify_list_eq.
  - destruct (decide (szProtocol p = ICMP_text)); (eexists; split; [done|]; by intros [|]).
Qed.

Lemma GetPacketMessage_ok p : sendable p -> exists b, GetPacketMessage p = Ret (Some b) /\ b <> [] /\
  (szProtocol p = TCP_text \/ szProtocol p = UDP_text -> b = message_text (message_of p)).
Proof.
  intros Hp. destruct (valid_fields p (sd_valid p Hp)) as (_ & Hs & Hd & Hpr & _ & _ & Hports).
  destruct (protocol_fields_ok p Hp) as (rest & Er & Hrest). unfold GetPacketMessage.
  rewrite (proj2 (Z.ltb_ge _ _)) by apply Hp. rewrite bool_decide_false by apply Hp. cbn [orb].
  destruct (decide (szIpSource p = [])); [done|]. destruct (decide (szIpDest p = [])); [done|].
  destruct (small_ok _ (sd_len p Hp)) as [-> ->]. cbn [obind]. rewrite (proj2 (small_ok _ (sd_sec p Hp))). cbn [obind].
  rewrite (proj2 (small_ok _ (sd_usec p Hp))). cbn [obind].
  assert (forall port, (port <> [] \/ szProtocol p = ICMP_text) -> exists b, port_field port (szProtocol p) = Some b /\ (szProtocol p <> ICMP_text -> b = port)) as Hpf.
  { intros port Hport. unfold port_field. destruct (decide (port <> [])); [by exists port|]. destruct (decide (szProtocol p = ICMP_text)); [by exists zero_text|tauto]. }
  destruct (Hpf (szSourcePort p)) as (sp & -> & Hsp); [tauto|]. destruct (Hpf (szDestPort p)) as (dp & -> & Hdp); [tauto|].
  destruct (sd_as p Hp) as [Ha1 Ha2]. destruct (small_ok _ Ha1) as [-> ->]. cbn [obind]. destruct (small_ok _ Ha2) as [-> ->]. cbn [obind].
  destruct (decide (szProtocol p = [])); [done|]. rewrite Er. cbn [obind]. eexists. split; [done|]. split.
  { unfold seps. cbn -[app]. intros E. apply app_eq_nil in E as [E _]. apply app_eq_nil in E as [E _]. by apply app_eq_nil in E as [_ E]. }
  intros Htu. assert (szProtocol p <> ICMP_text) as Hni by (destruct Htu as [->| ->]; discriminate).
  rewrite (Hsp Hni), (Hdp Hni). specialize (Hrest Htu). unfold message_text, first_parts.
  change [ms_monitor (message_of p); ms_src (message_of p); ms_dst (message_of p); ms_len (message_of p); ms_4 (message_of p); ms_5 (message_of p);
    ms_sport (message_of p); ms_dport (message_of p); ms_as_src (message_of p); ms_as_dst (message_of p); ms_proto (message_of p);
    ms_frag (message_of p); ms_off (message_of p); ms_flags (message_of p)]
    with ([szMonitorIp p; szIpSource p; szIpDest p; itoa (lLength p); itoa (second p); itoa (usecond p); szSourcePort p; szDestPort p;
           itoa (iAsSourceNumber p); itoa (iAsDestNumber p)] ++ szProtocol p :: [ms_frag (message_of p); ms_off (message_of p); ms_flags (message_of p)]).
  assert (forall l1 l2, seps (l1 ++ l2) = seps l1 ++ seps l2) as Happ by (intros; unfold seps; by rewrite fmap_app, concat_app).
  rewrite Happ. rewrite <- !app_assoc. f_equal. rewrite seps_cons. f_equal.
  change (ms_already (message_of p)) with (if forwardedToSoftflowd p then one_text else zero_text).
  rewrite (app_assoc rest hash), Hrest, <- app_assoc. done.
Qed.

(** ** A packet that two monitors take *)

(** The packet in the buffers of two monitors, the second of which sees it marked. *)
Definition taken_twice (v4 v6 v4' v6' : bool) (if1 if2 : bytes) (p : packet) : list packet :=
  let '(p, buf) := PreparePacketToBeSent v4 v6 (set_monitor if1 p) [] in
  let '(_, buf) := PreparePacketToBeSent v4' v6' (set_monitor if2 p) buf in
  buf.

Definition first_copy (v4 v6 : bool) (if1 : bytes) (p : packet) : packet := set_versions v4 v6 (set_monitor if1 p).
Definition second_copy (v4 v6 : bool) (if2 : bytes) (p : packet) : packet := set_versions v4 v6 (set_monitor if2 (set_forwarded true p)).

Lemma taken_twice_ok v4 v6 v4' v6' if1 if2 p : AmIValid p = true ->
  taken_twice v4 v6 v4' v6' if1 if2 p = [first_copy v4 v6 if1 p; second_copy v4' v6' if2 p].
Proof.
  intros Hv. assert (forall a b m f, AmIValid (set_versions a b (set_monitor m (set_forwarded f p))) = AmIValid p) as Hsame by done.
  unfold taken_twice, PreparePacketToBeSent. cbn zeta.
  change (AmIValid (set_versions v4 v6 (set_monitor if1 p))) with (AmIValid p).
  change (AmIValid (set_versions v4' v6' (set_monitor if2 (set_forwarded true (set_monitor if1 p))))) with (AmIValid p). by rewrite Hv.
Qed.

Lemma sendable_monitor p m v4 v6 f : sendable p -> m <> [] -> sendable (set_versions v4 v6 (set_monitor m (set_forwarded f p))).
Proof. intros [H1 H2 H3 H4 H5 H6 H7 H8] Hm. by split. Qed.

(** What the thread sends for packets that have messages. *)
Lemma send_packets_ok sends ps : forall bs sent, Forall2 (fun p b => GetPacketMessage p = Ret (Some b) /\ b <> []) ps bs -> (forall i, sends i = true) ->
  send_packets sends ps sent = Ret (true, [], sent ++ bs).
Proof.
  induction ps as [|p ps IH]; intros bs sent Hb Hs; apply Forall2_cons_inv_l in Hb || apply Forall2_nil_inv_l in Hb.
  - subst. by rewrite app_nil_r.
  - destruct Hb as (b & bs' & [Hm Hne] & Hb & ->). cbn [send_packets]. rewrite Hm. cbn [obind default from_option id]. destruct b as [|c b]; [done|].
    rewrite Hs, (IH bs' (sent ++ [c :: b])) by done. by rewrite <- app_assoc.
Qed.


(** ** Witness *)

(** A packet of TCP from 10.0.0.1 to 10.0.0.2, and the two monitors 1.2.3.4 and 10.0.0.2. *)
Definition sample_packet : packet :=
  Mk_packet 7 9 [] 60 adr_1 adr_2 [56; 48] [57; 57] TCP_text 1 1 2 false true false 0 false 83.

Lemma sample_packet_ok : sendable (set_monitor adr_monitor sample_packet) /\
  message_ok sample_pton (message_of (first_copy true false adr_monitor sample_packet)) [1; 2; 3; 4] [10; 0; 0; 1] [10; 0; 0; 2] /\
  message_ok sample_pton (message_of (second_copy true false adr_2 sample_packet)) [10; 0; 0; 2] [10; 0; 0; 1] [10; 0; 0; 2].
Proof.
  split; [split; try done; vm_compute; split; discriminate || reflexivity|].
  split; (constructor; [apply (bool_decide_unpack _); vm_compute; exact I|done|by eexists|apply Nat.ltb_lt; vm_compute; reflexivity|
    split; [|split]; apply Nat.ltb_lt; vm_compute; reflexivity|vm_compute; reflexivity..| | | | |]);
    try (apply sample_short_number; vm_compute; reflexivity); try (split; apply sample_short_number; vm_compute; reflexivity); try (by left);
    intros _; (split; [apply (sample_short_number [48]); vm_compute; reflexivity|]; split; [by left|]; split; [split; apply Nat.ltb_lt; vm_compute; reflexivity|];
      apply (bool_decide_unpack _); vm_compute; exact I).
Qed.

