(* ===== verification/RouterSamplingProps.v ===== *)
(** * What the sampling of the emulator guarantees

    A router draws the packets of a period until they are different, so it takes exactly
    p1 of every p2 packets, where softflowd may take fewer.  The monitors of the network
    do what forwarding needs of them: every decision returns, at any rates, and leaves the
    nodes in order. *)

From stdpp Require Import gmap strings.
From S2P Require Import Prelude CString Convtime Sampling SamplingProps RouterSampling.
From S2P Require Import Routing Forwarding Delivery ForwardingProps.
Open Scope Z_scope.

Section sampling.
Context (rand : nat -> Z) (patience : nat).

(** From any draw on, one of the next [patience] draws is not among fewer than [p2]
    numbers. *)
Definition fair (p2 : Z) : Prop := forall k idx, Z.of_nat (length idx) < p2 ->
  exists j, (j < patience)%nat /\ ~ rand (k + j)%nat mod p2 ∈ idx.

Lemma draw_index_ok p2 idx fuel : 0 < p2 -> forall k, (exists j, (j < fuel)%nat /\ ~ rand (k + j)%nat mod p2 ∈ idx) ->
  exists v k', draw_index rand fuel k p2 idx = Ret (v, k') /\ 0 <= v < p2 /\ ~ v ∈ idx.
Proof.
  intros Hp. induction fuel as [|fuel IH]; intros k (j & Hj & Hn); [lia|]. cbn [draw_index].
  rewrite (proj2 (Z.eqb_neq _ _)) by lia. destruct (decide (rand k mod p2 ∈ idx)) as [Hin|Hin].
  - rewrite bool_decide_true by done. apply IH. destruct j as [|j]; [by rewrite Nat.add_0_r in Hn|].
    exists j. split; [lia|]. by rewrite <- Nat.add_succ_comm in Hn.
  - rewrite bool_decide_false by done. exists (rand k mod p2), (S k). split; [done|]. split; [|done]. by apply Z.mod_pos_bound.
Qed.

(** Different numbers mark as many entries as they are many. *)
Lemma marked_exact p2 ds : NoDup ds -> Forall (fun d => 0 <= d < Z.of_nat p2) ds -> taken (marked p2 ds) = Z.of_nat (length ds).
Proof.
  induction ds as [|d ds IH] using rev_ind; intros Hnd Hds.
  { clear. change (taken (replicate p2 0) = 0). induction p2 as [|p2 IH]; [done|by apply IH]. }
  apply NoDup_app in Hnd as (Hnd & Hd & _). apply Forall_app in Hds as [Hds [Hr _]%Forall_cons].
  rewrite marked_snoc, (taken_insert _ _ 0).
  - rewrite IH by done. rewrite length_app. cbn [length]. lia.
  - rewrite marked_lookup by first [lia|eapply Forall_impl; [exact Hds|cbn; lia]]. rewrite decide_False; [done|].
    rewrite Z2Nat.id by lia. intros H. apply (Hd d H). by left.
Qed.

(** The loop of the draws. *)
Lemma draw_all n0 axis p2 : samplingRateP2 n0 = p2 -> 0 < p2 -> fair p2 -> forall m l ds k,
  length l = m -> NoDup ds -> Forall (fun d => 0 <= d < p2) ds -> Z.of_nat (length ds + m) <= p2 ->
  exists ds' k', ofold (draw_one rand patience) (in_period n0 (marked (Z.to_nat p2) ds) axis, k, rev ds) l =
      Ret (in_period n0 (marked (Z.to_nat p2) (ds ++ ds')) axis, k', rev (ds ++ ds')) /\
    length ds' = m /\ NoDup (ds ++ ds') /\ Forall (fun d => 0 <= d < p2) (ds ++ ds').
Proof.
  intros Hp2 Hpos Hfair. induction m as [|m IH]; intros l ds k Hl Hnd Hds Hm.
  { destruct l; [|done]. exists [], k. rewrite app_nil_r. done. }
  destruct l as [|x l]; [done|]. cbn [ofold]. unfold draw_one at 1. cbn [in_period samplingRateP2]. rewrite Hp2.
  destruct (draw_index_ok p2 (rev ds) patience Hpos k) as (v & k1 & -> & Hv & Hn); [apply Hfair; rewrite length_rev; lia|]. cbn [obind].
  assert (~ v ∈ ds) as Hn' by (intros H; apply Hn; apply list_elem_of_In; apply List.in_rev; rewrite rev_involutive; by apply list_elem_of_In).
  rewrite (tab_set_ok _ (marked (Z.to_nat p2) ds)) by (done || rewrite marked_length; lia). cbn [obind].
  destruct (IH l (ds ++ [v]) k1) as (ds' & k2 & E & H1 & H2 & H3); [by injection Hl| | |rewrite length_app; cbn; lia|].
  - apply NoDup_app. split; [done|]. split; [|apply NoDup_singleton]. by intros y Hy ->%list_elem_of_singleton.
  - apply Forall_app. split; [done|]. by constructor.
  - assert ((ds ++ [v]) ++ ds' = ds ++ v :: ds') as Eds by by rewrite <- app_assoc. rewrite Eds in *.
    exists (v :: ds'), k2. split; [|by rewrite <- H1]. rewrite <- E, marked_snoc, rev_app_distr. done.
Qed.

Lemma router_generate_ok n k : 0 < samplingRateP2 n -> fillable n -> samplingRateP1 n <= samplingRateP2 n -> fair (samplingRateP2 n) ->
  exists ds k', Router_GenerateRandomChoicesForNode rand patience n k = Ret (in_period n (marked (Z.to_nat (samplingRateP2 n)) ds) (samplingRateAxis n), k') /\
    length ds = Z.to_nat (samplingRateP1 n) /\ NoDup ds /\ Forall (fun d => 0 <= d < samplingRateP2 n) ds.
Proof.
  intros Hp2 Hf Hle Hfair. unfold Router_GenerateRandomChoicesForNode. cbv zeta.
  set (n1 := if samplingRateChanged n =? 1 then _ else n).
  assert (exists t, n1 = in_period n t (samplingRateAxis n) /\ Z.of_nat (length t) = samplingRateP2 n) as (t & -> & Hl).
  { unfold n1. destruct Hf as [Hc|(Hc & t & Ht & Hl)]; rewrite Hc; cbn [Z.eqb Pos.eqb].
    - rewrite (proj2 (Z.ltb_ge _ _)) by lia. eexists. split; [reflexivity|]. rewrite length_replicate. lia.
    - exists t. split; [|done]. unfold in_period. rewrite <- Ht. destruct n; cbn in *. congruence. }
  rewrite (zero_loop (in_period n t (samplingRateAxis n)) t 0) by (done || cbn; lia). cbn [obind take app].
  destruct (draw_all n (samplingRateAxis n) (samplingRateP2 n) eq_refl Hp2 Hfair (Z.to_nat (samplingRateP1 n)) (seq 0 (Z.to_nat (samplingRateP1 n))) [] k)
    as (ds & k' & E & H1 & H2 & H3); [apply length_seq|constructor|constructor|cbn; lia|].
  exists ds, k'. split; [|done]. change (rev []) with ([] : list Z) in E. change (marked (Z.to_nat (samplingRateP2 n)) []) with (replicate (Z.to_nat (samplingRateP2 n)) 0) in E.
  change (samplingRateP1 (set_tab _ _)) with (samplingRateP1 n).
  change (set_tab (Some (take 0 t ++ replicate (Z.to_nat (samplingRateP2 (in_period n t (samplingRateAxis n)))) 0)) (in_period n t (samplingRateAxis n)))
    with (in_period n (replicate (Z.to_nat (samplingRateP2 n)) 0) (samplingRateAxis n)).
  by rewrite E.
Qed.

(** ** Periods *)

Lemma router_call_unfold ip s i n : node_of ip s i n ->
  Router_RandomPeriodicNodeSampling rand patience ip s =
    (let! (r, n, k) := Router_decide_block rand patience (checked n) (draws s) in
     match r with
     | Some ret => Ret (ret, with_node s i n k)
     | None => Undef MissingReturn
     end).
Proof.
  intros (Hip & Hf & Hn & Hs). unfold Router_RandomPeriodicNodeSampling, Router_GetSamplingNode, check16.
  rewrite (proj2 (Nat.ltb_lt _ _)) by done. cbn [obind]. rewrite Hf. cbn [obind]. unfold node_get. rewrite Hn. cbn [obind].
  destruct (sem_wait_post n Hs) as [Hw Hp]. unfold GetNodeSamplingRateStatus. rewrite Hw. cbn [obind].
  change (samplingRateChanged (set_sem 0 n)) with (samplingRateChanged n). rewrite Hp. unfold checked.
  destruct (samplingRateChanged n =? 1); [|done]. unfold InitNodeSamplingRateStatus. rewrite Hw. cbn [obind].
  do 2 f_equal. destruct n. cbn in *. by subst.
Qed.

(** Within a period a router decides as softflowd does. *)
Lemma router_decide_rest n k : samplingRateAxis n <> 0 -> Router_decide_block rand patience n k = decide_block rand n k.
Proof.
  intros Ha. unfold Router_decide_block, decide_block, sem_wait. destruct (0 <? sem n); [|done]. cbn [obind].
  change (samplingRateAxis (set_sem (sem n - 1) n)) with (samplingRateAxis n). by rewrite (proj2 (Z.eqb_neq _ _) Ha).
Qed.

Lemma router_decide_first n k : sem n = 1 -> partial n -> fillable n -> samplingRateAxis n = 0 -> fair (samplingRateP2 n) ->
  exists ds v k', length ds = Z.to_nat (samplingRateP1 n) /\ NoDup ds /\ Forall (fun d => 0 <= d < samplingRateP2 n) ds /\
    marked (Z.to_nat (samplingRateP2 n)) ds !! 0%nat = Some v /\
    Router_decide_block rand patience n k = Ret (Some v, in_period n (marked (Z.to_nat (samplingRateP2 n)) ds) 1, k').
Proof.
  intros Hs [H1 H2] Hf Ha Hfair. unfold Router_decide_block. rewrite (proj1 (sem_wait_post n Hs)). cbn [obind].
  change (samplingRateP1 (set_sem 0 n)) with (samplingRateP1 n). change (samplingRateP2 (set_sem 0 n)) with (samplingRateP2 n).
  change (samplingRateAxis (set_sem 0 n)) with (samplingRateAxis n). rewrite !(proj2 (Z.eqb_neq _ _)), (proj2 (Z.ltb_lt _ _)), Ha by lia. cbn [Z.eqb].
  destruct (router_generate_ok (set_sem 0 n) k) as (ds & k' & E & Hl & Hnd & Hr); [cbn; lia|done|cbn; lia|done|].
  change (samplingRateP2 (set_sem 0 n)) with (samplingRateP2 n) in *. change (samplingRateP1 (set_sem 0 n)) with (samplingRateP1 n) in *.
  rewrite E. cbn [obind].
  destruct (lookup_lt_is_Some_2 (marked (Z.to_nat (samplingRateP2 n)) ds) 0) as [v Hv]; [rewrite marked_length; lia|].
  exists ds, v, k'. do 4 (split; [done|]). rewrite (tab_get_ok _ (marked (Z.to_nat (samplingRateP2 n)) ds) 0 v) by done. cbn [obind].
  unfold in_period, sem_post. cbn. by rewrite Hs.
Qed.

(** Several calls in a row. *)
Fixpoint router_calls (m : nat) (ip : bytes) (s : sampling) : outcome (list Z * sampling) :=
  match m with
  | O => Ret ([], s)
  | S m =>
      let! (v, s) := Router_RandomPeriodicNodeSampling rand patience ip s in
      let! (vs, s) := router_calls m ip s in
      Ret (v :: vs, s)
  end.

Lemma router_calls_rest ip s i n t k m : node_of ip s i n -> partial n -> Z.of_nat (length t) = samplingRateP2 n ->
  forall j, (0 < j)%nat -> Z.of_nat (j + S m) = samplingRateP2 n ->
  router_calls (S m) ip (with_node s i (in_period n t (Z.of_nat j)) k) = Ret (drop j t, with_node s i (in_period n t 0) k).
Proof.
  intros Hn Hp Hl. pose proof Hn as (_ & _ & _ & Hs). induction m as [|m IH]; intros j Hj Hm.
  all: destruct (lookup_lt_is_Some_2 t j) as [v Hv]; [lia|].
  all: cbn [router_calls]; rewrite (router_call_unfold ip _ i (in_period n t (Z.of_nat j))) by (by apply (node_of_with ip s i n)).
  all: change (checked (in_period n t (Z.of_nat j))) with (in_period n t (Z.of_nat j)).
  all: rewrite router_decide_rest by (cbn; lia); rewrite (decide_next rand n t j v) by (done || lia); cbn [obind]; rewrite with_node_with.
  - rewrite decide_True by lia. cbn [router_calls obind with_node draws]. rewrite (drop_S t v j), drop_ge by (done || lia). done.
  - rewrite decide_False by lia. replace (Z.of_nat j + 1) with (Z.of_nat (S j)) by lia. cbn [with_node draws].
    specialize (IH (S j) ltac:(lia) ltac:(lia)). cbn [router_calls] in IH. rewrite IH. cbn [obind]. by rewrite (drop_S t v j).
Qed.

(** A router of the emulator whose rate for an interface is p1/p2 with 0 < p1 < p2
    takes exactly p1 of the p2 packets of a period, for any fair sequence of random
    numbers; the draws end, no other interface is affected and a new period starts. *)
Theorem router_period_ok ip s i n :
  node_of ip s i n -> partial n -> period_start n -> fair (samplingRateP2 n) ->
  exists t n' k, router_calls (Z.to_nat (samplingRateP2 n)) ip s = Ret (t, with_node s i n' k) /\
    Z.of_nat (length t) = samplingRateP2 n /\ Forall bit t /\ taken t = samplingRateP1 n /\
    node_of ip (with_node s i n' k) i n' /\ period_start n' /\
    samplingRateP1 n' = samplingRateP1 n /\ samplingRateP2 n' = samplingRateP2 n.
Proof.
  intros Hn Hp [Hf Ha] Hfair. pose proof Hn as (_ & _ & _ & Hs). pose proof Hp as [Hp1 Hp2].
  assert (forall u a, in_period (checked n) u a = in_period n u a) as Hci by (intros; unfold checked; by destruct (samplingRateChanged n =? 1)).
  assert (sem (checked n) = 1 /\ partial (checked n) /\ fillable (checked n) /\ samplingRateAxis (checked n) = 0 /\ samplingRateP1 (checked n) = samplingRateP1 n /\
    samplingRateP2 (checked n) = samplingRateP2 n) as (C1 & C2 & C3 & C4 & C5 & C6).
  { unfold checked. destruct (Z.eqb_spec (samplingRateChanged n) 1); [do 2 (split; [done|]); split; [by left|done]|].
    do 3 (split; [done|]). split; [by destruct Ha|done]. }
  destruct (router_decide_first (checked n) (draws s) C1 C2 C3 C4) as (ds & v & k & Hl & Hnd & Hr & Hv & Hd); [by rewrite C6|].
  rewrite C5, C6, Hci in *. set (t := marked (Z.to_nat (samplingRateP2 n)) ds) in *.
  assert (Z.of_nat (length t) = samplingRateP2 n) as Hlt by (unfold t; rewrite marked_length; lia).
  exists t, (in_period n t 0), k. split; [|split; [done|split; [|split; [|split; [|split; [|done]]]]]].
  - replace (Z.to_nat (samplingRateP2 n)) with (S (S (Z.to_nat (samplingRateP2 n) - 2))) by lia.
    remember (S (Z.to_nat (samplingRateP2 n) - 2)) as m eqn:Hm. cbn [router_calls].
    rewrite (router_call_unfold ip s i n), Hd by done. cbn [obind]. change 1 with (Z.of_nat 1) at 1.
    rewrite Hm, (router_calls_rest ip s i n t k) by (done || lia). cbn [obind]. by rewrite <- (drop_S t v 0).
  - destruct (marked_taken (Z.to_nat (samplingRateP2 n)) ds) as [Hb _]; [|done]. eapply Forall_impl; [exact Hr|]. cbn. lia.
  - unfold t. rewrite marked_exact; [lia|done|]. eapply Forall_impl; [exact Hr|]. cbn. lia.
  - by apply (node_of_with ip s i n).
  - split; [right; split; [done|]; eexists; split; [reflexivity|done]|by right].
Qed.

(** ** Every call returns *)

(** A node in the middle of its work: free, and in a period when its rate takes some of
    the packets. *)
Definition fine (n : SamplingNode) : Prop :=
  sem n = 1 /\ (samplingRateP1 n = 0 \/ samplingRateP1 n = samplingRateP2 n \/ samplingRateP2 n < samplingRateP1 n \/
    (partial n /\ fair (samplingRateP2 n) /\
     (samplingRateChanged n = 1 \/
      samplingRateChanged n = 0 /\ exists t, samplingTab n = Some t /\ Z.of_nat (length t) = samplingRateP2 n /\ 0 <= samplingRateAxis n < samplingRateP2 n))).

Lemma fine_checked n : fine n -> sem (checked n) = 1 /\ ipAddr (checked n) = ipAddr n /\
  (samplingRateP1 n = 0 \/ samplingRateP1 n = samplingRateP2 n \/ samplingRateP2 n < samplingRateP1 n -> fine (checked n)).
Proof.
  intros [Hs Hn]. unfold checked. destruct (samplingRateChanged n =? 1); [|done]. split; [done|]. split; [done|]. intros H. split; [done|]. cbn. tauto.
Qed.

Lemma router_decide_whole n k : sem n = 1 -> samplingRateP1 n = 0 \/ samplingRateP1 n = samplingRateP2 n \/ samplingRateP2 n < samplingRateP1 n ->
  exists v, Router_decide_block rand patience n k = Ret (Some v, n, k).
Proof.
  intros Hs H. unfold Router_decide_block. destruct (sem_wait_post n Hs) as [-> Hp]. cbn [obind].
  change (samplingRateP1 (set_sem 0 n)) with (samplingRateP1 n). change (samplingRateP2 (set_sem 0 n)) with (samplingRateP2 n). rewrite Hp.
  destruct (Z.eqb_spec (samplingRateP1 n) 0); [by eexists|]. destruct (Z.eqb_spec (samplingRateP1 n) (samplingRateP2 n)); [by eexists|].
  rewrite (proj2 (Z.ltb_ge _ _)) by lia. by eexists.
Qed.

Lemma in_period_self n t : samplingRateChanged n = 0 -> samplingTab n = Some t -> in_period n t (samplingRateAxis n) = n.
Proof. intros H1 H2. destruct n. cbn in *. by subst. Qed.

Lemma router_node_ok n k : fine n -> exists v n' k', Router_decide_block rand patience (checked n) k = Ret (Some v, n', k') /\ fine n' /\ ipAddr n' = ipAddr n.
Proof.
  intros Hf. destruct (fine_checked n Hf) as (Hs & Hip & Hw). destruct Hf as [Hsn [H|[H|[H|(Hp & Hfair & Hrest)]]]].
  1-3: destruct (router_decide_whole (checked n) k Hs) as [v E]; [unfold checked; destruct (samplingRateChanged n =? 1); cbn; tauto|];
       exists v, (checked n), k; split; [done|split; [apply Hw; tauto|done]].
  pose proof Hp as [H1 H2].
  assert (samplingRateP1 (checked n) = samplingRateP1 n /\ samplingRateP2 (checked n) = samplingRateP2 n /\ partial (checked n)) as (C1 & C2 & C3)
    by (unfold checked; by destruct (samplingRateChanged n =? 1)).
  destruct (decide (samplingRateAxis (checked n) = 0)) as [Ha|Ha].
  - assert (fillable (checked n)) as Hfi.
    { unfold checked. destruct (Z.eqb_spec (samplingRateChanged n) 1); [by left|]. destruct Hrest as [|(Hc & t & Ht & Hl & _)]; [done|].
      right. split; [done|]. by exists t. }
    destruct (router_decide_first (checked n) k Hs C3 Hfi Ha) as (ds & v & k' & _ & _ & _ & _ & E); [by rewrite C2|].
    eexists _, _, _. split; [exact E|]. split; [|exact Hip]. split; [exact Hs|]. right. right. right. split; [exact C3|]. cbn [in_period samplingRateP2 samplingRateChanged samplingTab samplingRateAxis].
    rewrite C2. split; [done|]. right. split; [done|]. eexists. split; [reflexivity|]. rewrite marked_length. lia.
  - destruct Hrest as [Hc|(Hc & t & Ht & Hl & Hax)].
    { destruct Ha. unfold checked. by rewrite Hc. }
    assert (checked n = n) as Ech by (unfold checked; by rewrite Hc). rewrite Ech in *. rewrite router_decide_rest by done.
    destruct (lookup_lt_is_Some_2 t (Z.to_nat (samplingRateAxis n))) as [v Hv]; [lia|].
    assert (decide_block rand n k = decide_block rand (in_period n t (Z.of_nat (Z.to_nat (samplingRateAxis n)))) k) as ->.
    { rewrite Z2Nat.id by lia. by rewrite in_period_self. }
    rewrite (decide_next rand n t _ v) by (done || lia). eexists _, _, _. split; [done|]. split; [|done]. split; [done|]. right. right. right.
    split; [done|]. split; [done|]. right. split; [done|]. exists t. split; [done|]. split; [done|]. cbn. case_decide; lia.
Qed.
End sampling.

(** ** Fair numbers *)

(** Random numbers in turn are fair. *)
Lemma counting_fair patience p2 : 0 < p2 <= Z.of_nat patience -> fair (fun i => Z.of_nat i) patience p2.
Proof.
  intros Hp k idx Hl. destruct (decide (Exists (fun j => ~ Z.of_nat (k + j) mod p2 ∈ idx) (seq 0 (Z.to_nat p2)))) as [H|H].
  - apply Exists_exists in H as (j & Hj & Hn). apply elem_of_seq in Hj. exists j. split; [lia|done].
  - exfalso. assert ((fun j => Z.of_nat (k + j) mod p2) <$> seq 0 (Z.to_nat p2) ⊆+ idx) as Hsub%submseteq_length.
    + apply NoDup_submseteq.
      * apply NoDup_fmap_2_strong; [|apply NoDup_seq]. intros a b Ha Hb E. apply elem_of_seq in Ha, Hb.
        assert (Z.of_nat (k + a) = Z.of_nat (k + b)); [|lia].
        pose proof (Z.div_mod (Z.of_nat (k + a)) p2). pose proof (Z.div_mod (Z.of_nat (k + b)) p2).
        assert (Z.of_nat (k + a) / p2 = Z.of_nat (k + b) / p2); nia.
      * intros y (j & -> & Hj)%list_elem_of_fmap. destruct (decide (Z.of_nat (k + j) mod p2 ∈ idx)) as [|Hn]; [done|].
        exfalso. apply H, Exists_exists. by exists j.
    + rewrite length_fmap, length_seq in Hsub. lia.
Qed.

(** ** Monitors that sample *)

Section monitors.
Context (rand : nat -> Z) (patience : nat) (v4 v6 : bool) (Hfair : fair rand patience INITIAL_SAMPLING_RATE_P2).

(** The interfaces that are monitored have addresses that fit their arrays, and all
    sampling nodes are in order. *)
Record sampled (m : monitors) : Prop := {
  sm_names : forall r ifc io, GetInterfaceMonitoringStatus r ifc io m = 1 -> (length (text_of ifc) < 16)%nat;
  sm_nodes : forall r, Forall (fine rand patience) (default [] (m_nodes m !! r))
}.

Lemma find_node_some ip l i : find_node ip l = Some i -> exists n, l !! i = Some n /\ ipAddr n = ip.
Proof.
  revert i. induction l as [|n l IH]; intros i; cbn [find_node]; [done|]. destruct (decide (ipAddr n = ip)) as [E|E].
  - intros [= <-]. by exists n.
  - destruct (find_node ip l) as [j|]; [|done]. intros [= <-]. by apply IH.
Qed.

(** A decision, for an interface that has a node or gets one. *)
Lemma router_sampling_returns ip s : (length ip < 16)%nat -> Forall (fine rand patience) (listNodes s) ->
  exists v s', Router_RandomPeriodicNodeSampling rand patience ip s = Ret (v, s') /\ Forall (fine rand patience) (listNodes s').
Proof.
  intros Hip Hf.
  assert (forall s i n, Forall (fine rand patience) (listNodes s) -> node_of ip s i n ->
    exists v s', Router_RandomPeriodicNodeSampling rand patience ip s = Ret (v, s') /\ Forall (fine rand patience) (listNodes s')) as Hknown.
  { intros s0 i n Hf0 Hn. rewrite (router_call_unfold rand patience ip s0 i n Hn). destruct Hn as (_ & _ & Hi & _).
    destruct (router_node_ok rand patience n (draws s0)) as (v & n' & k' & -> & Hn' & _); [by apply (proj1 (Forall_lookup _ _) Hf0 i)|]. cbn [obind].
    eexists _, _. split; [done|]. cbn. by apply Forall_insert. }
  destruct (find_node ip (listNodes s)) as [i|] eqn:Ef.
  - destruct (find_node_some ip _ i Ef) as (n & Hn & Ea). apply (Hknown s i n Hf). split; [done|]. split; [done|]. split; [done|].
    by apply (proj1 (Forall_lookup _ _) Hf i).
  - set (n0 := Mk_SamplingNode INITIAL_SAMPLING_RATE_P1 INITIAL_SAMPLING_RATE_P2 1 0 ip None 1).
    set (s1 := Mk_sampling (listNodes s ++ [n0]) (draws s)).
    assert (find_node ip (listNodes s ++ [n0]) = Some (length (listNodes s))) as Ef1.
    { clear -Ef. revert Ef. induction (listNodes s) as [|n l IH]; cbn [app find_node length]; intros Ef; [by rewrite decide_True|].
      destruct (decide (ipAddr n = ip)); [done|]. destruct (find_node ip l); [done|]. by rewrite IH. }
    assert (Router_RandomPeriodicNodeSampling rand patience ip s = Router_RandomPeriodicNodeSampling rand patience ip s1) as ->.
    { unfold Router_RandomPeriodicNodeSampling, Router_GetSamplingNode, Router_AddNode, check16. rewrite (proj2 (Nat.ltb_lt _ _) Hip). cbn [obind].
      rewrite Ef, (proj2 (Nat.ltb_lt _ _) Hip). subst s1. cbn [obind listNodes draws]. rewrite Ef1. reflexivity. }
    apply (Hknown s1 (length (listNodes s)) n0).
    + cbn. apply Forall_app. split; [done|]. constructor; [|constructor]. split; [done|]. right. right. right.
      split; [split; reflexivity|]. split; [exact Hfair|]. by left.
    + split; [done|]. split; [done|]. split; [|done]. cbn. by apply list_lookup_middle.
Qed.

(** Monitors that sample forward packets as those that do nothing. *)
#[export] Instance sampled_monitoring : Monitoring rand patience v4 v6 sampled.
Proof.
  intros r ifc io pkt m [Hnames Hnodes]. unfold monitor_interface.
  destruct (Z.eqb_spec (GetInterfaceMonitoringStatus r ifc io m) 1) as [E|E]; [|by exists pkt, m].
  pose proof (Hnames r ifc io E) as Hl.
  destruct (router_sampling_returns (text_of ifc) (Mk_sampling (default [] (m_nodes m !! r)) (m_draws m)) Hl (Hnodes r)) as (v & s & -> & Hs). cbn [obind].
  assert (forall p d b, sampled (Mk_monitors (interfaceSamplingStatus m) (<[r := listNodes s]> (m_nodes m)) d p b)) as Hsm.
  { intros p d b. split; [done|]. intros q. cbn. destruct (decide (q = r)) as [->|Hne]; [by rewrite lookup_insert_eq|].
    rewrite lookup_insert_ne by done. apply Hnodes. }
  destruct (v =? 0); [by eexists _, _|]. unfold check20. rewrite (proj2 (Nat.ltb_lt _ _)) by lia. cbn [obind PreparePacketToBeSent].
  destruct (default (0, 0) _) as [nin nout]. eexists _, _. split; [done|]. split; [apply Hsm|]. done.
Qed.
End monitors.
