(* ===== verification/Manager.v ===== *)
(** * The control server of the emulator (src/NSP/SamplingManager.cpp, SamplingPlatform.cpp)

    flowd asks it for the path between two routers and for the rate of a monitor, with the
    messages that softflowd's control server takes too.  An exception that a function
    catches itself leaves it without its result. *)

From stdpp Require Import gmap strings.
From S2P Require Import Prelude CString Convtime Sampling Control.
From S2P Require Import Routing RouterSampling Forwarding.
Open Scope Z_scope.

(** ** Strings *)

(** The string of an array. *)
Definition name_of (b : bytes) : string := String.string_of_list_ascii ((fun c => Ascii.ascii_of_N (Z.to_N c)) <$> b).

Lemma name_of_text s : name_of (text_of s) = s.
Proof.
  unfold name_of, text_of. rewrite <- list_fmap_compose. etrans; [|apply String.string_of_list_ascii_of_string]. f_equal.
  induction (String.list_ascii_of_string s) as [|c l IH]; [done|]. cbn. f_equal; [|exact IH]. by rewrite N2Z.id, Ascii.ascii_N_embedding.
Qed.

(** strncmp, as whether it gives 0. *)
Fixpoint strncmp_eq (n : nat) (a b : bytes) : outcome bool :=
  match n with
  | O => Ret true
  | S n =>
      match a, b with
      | x :: a, y :: b => if x =? y then if x =? 0 then Ret true else strncmp_eq n a b else Ret false
      | _, _ => Undef OutOfBounds
      end
  end.

(** SamplingManager::get_control_packet_part: the parts are those of the control server
    of softflowd, but an error is an exception. *)
Definition Nsp_get_control_packet_part (complete_packet : bytes) (part_number : nat) (resulting_part : bytes) : outcome bytes :=
  let! (ret, dst) := get_control_packet_part complete_packet part_number resulting_part in
  if ret <? 0 then Undef MissingReturn else Ret dst.

(** ** The platform *)

Record platform := Mk_platform {
  ptrListOfTransitNetwork : list nsp;
  Nsp_StopsControlServer : Z
}.

(** The loop of SamplingPlatform::ChangeSamplingRate. *)
Fixpoint change_in_networks (ipAdr : string) (p1 p2 : Z) (l : list nsp) : outcome (Z * list nsp) :=
  match l with
  | [] => Ret (-1, [])
  | s :: l =>
      let! (ret, s) := Tn_ChangeSamplingRate ipAdr p1 p2 s in
      if negb (ret =? -1) then Ret (ret, s :: l)
      else let! (ret, l) := change_in_networks ipAdr p1 p2 l in Ret (ret, s :: l)
  end.

Definition Platform_ChangeSamplingRate (ipAdr : string) (p1 p2 : Z) (sp : platform) : outcome (Z * platform) :=
  let! (ret, l) := change_in_networks ipAdr p1 p2 (ptrListOfTransitNetwork sp) in
  Ret (ret, Mk_platform l (Nsp_StopsControlServer sp)).

Definition Nsp_SetStopsControlServer (sp : platform) : platform := Mk_platform (ptrListOfTransitNetwork sp) 1.
Definition Nsp_GetStopsControlServer (sp : platform) : Z := Nsp_StopsControlServer sp.

(** ** The server *)

(** What the client is sent: one of two sentences, or a path, without a terminator. *)
Inductive answer :=
  | Sentence (r : reply)
  | Path (path : bytes).

Definition GetPath_text : bytes := [71; 101; 116; 80; 97; 116; 104; 0].

(** The rate of a monitor: "p1#p2#ip". *)
Definition change_request (buf : bytes) (sp : platform) : outcome (option answer * platform) :=
  let! monitorIp := Nsp_get_control_packet_part buf 2 (replicate 16 0) in
  let! szSAmplingRateP1 := Nsp_get_control_packet_part buf 0 (replicate 20 0) in
  let! szSAmplingRateP2 := Nsp_get_control_packet_part buf 1 (replicate 20 0) in
  let! ip := cstr monitorIp in
  let! p1 := atoi szSAmplingRateP1 in
  let! p2 := atoi szSAmplingRateP2 in
  let! (ret, sp) := Platform_ChangeSamplingRate (name_of ip) p1 p2 sp in
  Ret (Some (Sentence (if ret =? 1 then RateUpdated else InvalidMonitor)), sp).

(** The path between two routers of the first network: "GetPath#id#id". *)
Definition path_query (fuel : nat) (buf : bytes) (sp : platform) : outcome (option answer * platform) :=
  let! _ := Nsp_get_control_packet_part buf 0 (replicate 16 0) in
  let! asSource := Nsp_get_control_packet_part buf 1 (replicate 20 0) in
  let! asDest := Nsp_get_control_packet_part buf 2 (replicate 20 0) in
  match ptrListOfTransitNetwork sp with
  | [] => Undef NullDeref
  | s :: rest =>
      let! id1 := atoi asSource in
      let! id2 := atoi asDest in
      let! (path, t) := GetInterfaceBasedPath fuel id1 id2 (tn s) in
      Ret (Some (Path (text_of path)), Mk_platform (Mk_nsp t (mon s) :: rest) (Nsp_StopsControlServer sp))
  end.

(** SamplingManager::HandleTCPClient, with what read gives; a failing read is an exception. *)
Definition Nsp_HandleTCPClient (fuel : nat) (r : option bytes) (sp : platform) : outcome (option answer * platform) :=
  match r with
  | None => Ret (None, sp)
  | Some msg =>
      let buf := received msg in
      let! c := strcmp buf end_msg in
      if c =? 0 then Ret (None, Nsp_SetStopsControlServer sp)
      else
        let! b := strncmp_eq 4 buf GetPath_text in
        if b then path_query fuel buf sp else change_request buf sp
  end.

(** The loop of ThreadProcessFunction over the clients: the answers, and the clients that
    are left when it stops.  It waits for the next client when there is none. *)
Fixpoint Nsp_ThreadProcessFunction (fuel : nat) (clients : list (option bytes)) (sp : platform)
    : outcome (list (option answer) * list (option bytes) * platform) :=
  if negb (Nsp_GetStopsControlServer sp =? 0) then Ret ([], clients, sp)
  else
    match clients with
    | [] => Ret ([], [], sp)
    | c :: clients =>
        let! (r, sp) := Nsp_HandleTCPClient fuel c sp in
        if negb (Nsp_GetStopsControlServer sp =? 0) then Ret ([r], clients, sp)
        else
          let! (rs, rest, sp) := Nsp_ThreadProcessFunction fuel clients sp in
          Ret (r :: rs, rest, sp)
    end.
