(* ===== verification/ManagerProps.v ===== *)
(** * What flowd gets from the control server of the emulator

    A request of flowd, the answer of the emulator and what flowd makes of it, put
    together: the path that flowd notes is that of the packets, and a monitor whose rate
    it changes takes exactly that share of its packets. *)

From stdpp Require Import gmap strings.
From S2P Require Import Prelude CString Convtime Sampling SamplingProps Control.
From S2P Require Import Client Routing RouterSampling RouterSamplingProps Forwarding Manager.
From S2P Require Import RoutingProps RoutingHops RoutingExplore RoutingSearch RoutingGraph.
From S2P Require Import Delivery ForwardingProps.
Open Scope Z_scope.

(** ** Strings of interfaces *)

(** Each interface and a separator. *)
Definition string_path (ifs : list string) : string := foldr (fun i s => i +:+ "#" +:+ s) "" ifs.

Lemma text_of_app a b : text_of (a +:+ b) = text_of a ++ text_of b.
Proof. unfold text_of. induction a as [|c a IH]; [done|]. simpl in *. f_equal. exact IH. Qed.

Lemma text_of_path ifs : text_of (string_path ifs) = seps (text_of <$> ifs).
Proof.
  induction ifs as [|i ifs IH]; [done|]. change (string_path (i :: ifs)) with (i +:+ ("#" +:+ string_path ifs)).
  rewrite !text_of_app, IH. unfold seps. cbn. by rewrite <- app_assoc.
Qed.

Lemma string_app_assoc (a b c : string) : (a +:+ b) +:+ c = a +:+ (b +:+ c).
Proof. induction a as [|x a IH]; [done|]. change (String x ((a +:+ b) +:+ c) = String x (a +:+ (b +:+ c))). by rewrite IH. Qed.

Lemma with_sep_ne path : path <> "" -> with_sep path = path +:+ "#".
Proof. by destruct path. Qed.

Lemma string_app_ne (a b : string) : a <> "" -> a +:+ b <> "".
Proof. by destruct a. Qed.

(** ** Links between routers *)

(** Each link of a router has an end there, and no interface is of two routers. *)
Definition joined (t : TransitNetwork) : bool :=
  forallb (fun u =>
    match routers t !! u with
    | None => true
    | Some r =>
        forallb (fun lp =>
          match links t !! lp with
          | None => true
          | Some l => bool_decide (sAdapter1 l ∈ ListOfAdapters r \/ sAdapter2 l ∈ ListOfAdapters r)
          end) (ptrListOfLinks r) &&
        forallb (fun x =>
          bool_decide (x = u) ||
          match routers t !! x with
          | None => true
          | Some rx => forallb (fun ad => negb (bool_decide (ad ∈ ListOfAdapters r))) (ListOfAdapters rx)
          end) (ListOfRouters t)
    end) (ListOfRouters t).

Lemma joined_spec t u r : joined t = true -> u ∈ ListOfRouters t -> routers t !! u = Some r ->
  (forall lp l, lp ∈ ptrListOfLinks r -> links t !! lp = Some l -> sAdapter1 l ∈ ListOfAdapters r \/ sAdapter2 l ∈ ListOfAdapters r) /\
  (forall x rx ad, x ∈ ListOfRouters t -> x <> u -> routers t !! x = Some rx -> ad ∈ ListOfAdapters rx -> ~ ad ∈ ListOfAdapters r).
Proof.
  intros Hj Hu Hr. pose proof (forallb_elem _ _ u Hj Hu) as H. cbn beta in H. rewrite Hr in H. apply andb_true_iff in H as [H1 H2]. split.
  - intros lp l Hlp Hl. pose proof (forallb_elem _ _ lp H1 Hlp) as H. cbn beta in H. rewrite Hl in H. by apply bool_decide_eq_true in H.
  - intros x rx ad Hx Hne Hrx Had. pose proof (forallb_elem _ _ x H2 Hx) as H. cbn beta in H. rewrite Hrx, bool_decide_eq_false_2 in H by done.
    pose proof (forallb_elem _ _ ad H Had) as H3. cbn beta in H3. by apply negb_true_iff, bool_decide_eq_false in H3.
Qed.

(** [ad] is the interface by which [x] is entered from [u]: the end at [x] of a
    link of [u] whose other end is an interface of [u]. *)
Definition entered_by (t : TransitNetwork) (u x : positive) (ad : string) : Prop :=
  exists r rx lp l, routers t !! u = Some r /\ routers t !! x = Some rx /\ lp ∈ ptrListOfLinks r /\ links t !! lp = Some l /\
    ad ∈ ListOfAdapters rx /\
    (ad = sAdapter1 l /\ sAdapter2 l ∈ ListOfAdapters r \/ ad = sAdapter2 l /\ sAdapter1 l ∈ ListOfAdapters r).

(** The interfaces by which the routers of a route are entered, one after the other. *)
Definition entered (t : TransitNetwork) (rt : list positive) (ifs : list string) : Prop :=
  Forall2 (fun ux ad => entered_by t ux.1 ux.2 ad) (zip rt (tail rt)) ifs.

Lemma entered_length t rt ifs : entered t rt ifs -> length ifs = length (tail rt).
Proof. intros H%Forall2_length. rewrite length_zip_with in H. destruct rt; cbn [tail length] in *; lia. Qed.

(** ** Distances *)

Section routed.
Context (t0 t1 : TransitNetwork) {Hnet : Network t0} {Hlinked : Linked t0}.
Context (Hfresh : forall q r, routers t0 !! q = Some r -> fresh r) (Ht1 : explored t0 t1).
Abbreviation ready := (routing t0 t1 (ListOfRouters t0)).

(** The length of a shortest walk. *)
Definition distance (p q : positive) (c : Z) : Prop := walk t1 p q c /\ forall k, walk t1 p q k -> c <= k.

Context (W : Z) (HW : uniform t1 W) (HW0 : 0 < W) (Hjoined : joined t0 = true).

Lemma walk_pos p q k : walk t1 p q k -> 0 <= k.
Proof. intros Hw. induction Hw as [|x y k' w Hw IHw Hy]; [lia|]. rewrite (HW x y w Hy). lia. Qed.

Lemma hop_distance p q x c k : distance p q c -> hop t1 p q x k -> edge t1 p x = Some W /\ distance x q (c - W).
Proof.
  intros [Hc Hl] [[Hk Hl'] (w & k' & He & Hk' & _ & Hu)]. pose proof (Hu W HW) as E. pose proof (HW p x w He) as ->.
  pose proof (Hl _ Hk). pose proof (Hl' _ Hc). assert (c - W = k') as -> by lia. split; [done|]. split; [done|]. intros j Hj.
  pose proof (Hl' _ (walk_front t1 p x q W j He Hj)). lia.
Qed.

(** Induction on the way to [q], hop by hop. *)
Lemma toward_ind q (P : positive -> Z -> Prop) : P q 0 ->
  (forall p c, p <> q -> distance p q c -> (forall x, edge t1 p x = Some W -> distance x q (c - W) -> P x (c - W)) -> P p c) ->
  forall p c, distance p q c -> P p c.
Proof.
  intros Hq Hstep p c Hc. assert (0 <= c) as H0 by (by apply (walk_pos p q), Hc). revert p Hc.
  induction c as [c IH] using (well_founded_induction (Z.lt_wf 0)). intros p Hc. destruct (decide (p = q)) as [->|Hne].
  - assert (c = 0) as ->; [|done]. pose proof (proj2 Hc 0 (walk_here t1 q)). lia.
  - apply Hstep; [done..|]. intros x He Hx. pose proof (walk_pos x q _ (proj1 Hx)). apply IH; [lia|lia|done].
Qed.

Lemma distance_reach p q c : distance p q c -> reach t0 p q.
Proof. intros [Hw _]. by apply (walk_reach t0 t1 Hfresh Ht1 p q c). Qed.

(** ** The loops *)

(** The next router, and the interface by which it is entered. *)
Lemma hop_interface t p q c : ready t -> p ∈ ListOfRouters t0 -> p <> q -> distance p q c ->
  exists x t' ad rx, GetNextRouterToward p q t = Ret (x, t') /\ ready t' /\ edge t1 p x = Some W /\ distance x q (c - W) /\ x ∈ ListOfRouters t0 /\
    (exists lp, GetLinkTowards (link_depth t') p x t' = Ret (lp, ad, t')) /\ ad <> "" /\ routers t0 !! x = Some rx /\ entered_by t0 p x ad.
Proof.
  intros Ht Hp Hne Hc. destruct (next_toward t0 t1 t p q Ht Hp) as (x & t' & k & E & Ht' & Hh); [congruence|by apply (distance_reach p q c)|].
  destruct (hop_distance p q x c k Hc Hh) as [He Hx]. destruct (edge_there t0 t1 Hfresh Ht1 p x W He) as (_ & Hxl & Hn). pose proof (proj1 (nw_costs p x W Hp Hn)) as Hpx.
  destruct (ready_there t0 t1 t' p Ht' Hp) as [r Hr], (ready_there t0 t1 t' x Ht' Hxl) as [rx' Hrx']. pose proof (ready_shape t0 t1 Ht1 t' Ht') as Hsh.
  assert (Linked t') as Hl by by apply (Linked_shape t0). rewrite <- Hsh in Hn. assert (p ∈ ListOfRouters t') as Hpt by by rewrite (proj1 Hsh).
  destruct (next_direct t' p x W r rx' Hpt Hn Hr Hrx') as (lp & ad & l & Ed & El & Ead & Hin).
  destruct (shape_router t' t0 x rx' Hsh Hrx') as (rx & Hrx & [= Ea _ _ _]). exists x, t', ad, rx. split; [done|]. split; [done|]. split; [done|].
  split; [done|]. split; [done|]. split; [exists lp; unfold link_depth; cbn [GetLinkTowards]; by rewrite Ed|]. 
  destruct (direct_link_ok t' p x r rx' Hpt Hr Hrx') as (o & Ed' & Ho). rewrite Ed in Ed'. injection Ed' as <-. destruct Ho as (l' & Hlp & El' & _).
  destruct (Hl p r lp Hpt Hr Hlp) as (l2 & El2 & H1 & H2). assert (l2 = l) as -> by congruence. apply bool_decide_eq_true in Ead.
  split; [by destruct Ead as [<-|<-]|]. split; [done|]. destruct (shape_router t' t0 p r Hsh Hr) as (rp & Hrp & [= Eap Elp _ _]).
  pose proof (get_link_shape t' t0 lp Hsh) as Hls. unfold get_link in Hls. rewrite El2 in Hls. destruct (links t0 !! lp) as [l0|] eqn:El0; [|done].
  injection Hls as Es1 Es2 _. rewrite Ea in Hin. rewrite Elp in Hlp. destruct (joined_spec t0 p rp Hjoined Hp Hrp) as [Hends Hother].
  exists rp, rx, lp, l0. do 5 (split; [done|]). pose proof (Hother x rx ad Hxl Hpx Hrx Hin) as Hnot. rewrite Es1, Es2 in Ead.
  destruct (Hends lp l0 Hlp El0) as [Hin1|Hin1], Ead as [<-|<-]; tauto.
Qed.

Lemma show_hops_ok q p c : distance p q c -> forall t, ready t -> p ∈ ListOfRouters t0 ->
  exists t', ready t' /\ forall fuel, c < Z.of_nat fuel * W -> show_hops fuel p q t = Ret t'.
Proof.
  intros Hc. pattern p, c. revert p c Hc. apply toward_ind.
  - intros t Ht _. exists t. split; [done|]. intros [|fuel] Hf; [lia|]. cbn [show_hops]. by rewrite decide_True.
  - intros p c Hne Hc IH t Ht Hp. destruct (hop_interface t p q c Ht Hp Hne Hc) as (x & t' & ad & rx & E & Ht' & He & Hx & Hxl & _).
    destruct (IH x He Hx t' Ht' Hxl) as (t2 & Ht2 & E2). exists t2. split; [done|].
    intros [|fuel] Hf; [pose proof (walk_pos p q c (proj1 Hc)); lia|]. cbn [show_hops]. rewrite decide_False by done. rewrite E. cbn [obind]. apply E2. lia.
Qed.

(** The interfaces by which the routers of a shortest way are entered. *)
Record way (p q : positive) (c : Z) (rt : list positive) (ifs : list string) : Prop := {
  wy_route : route t1 p q rt;
  wy_length : Z.of_nat (length ifs) * W = c;
  wy_interfaces : entered t0 rt ifs;
  wy_names : Forall (fun i => i <> "") ifs
}.

Lemma way_here q : way q q 0 [q] [].
Proof. split; [constructor|cbn; lia|constructor|constructor]. Qed.

Lemma way_hop p x q c rt ifs ad : edge t1 p x = Some W -> way x q (c - W) rt ifs -> ad <> "" -> entered_by t0 p x ad ->
  way p q c (p :: rt) (ad :: ifs).
Proof.
  intros He [H1 H2 H3 H4] Hne Had. split; [by apply (route_hop t1 p x q W)|cbn [length]; lia| |by constructor].
  assert (exists rt', rt = x :: rt') as (rt' & ->) by (destruct H1; by eexists). unfold entered in *. cbn [tail zip zip_with] in *. by constructor.
Qed.

(** The path behind the first interfaces. *)
Lemma path_hops_ok q p c : distance p q c -> forall t, p <> q -> ready t -> p ∈ ListOfRouters t0 ->
  exists rt ifs t', way p q c rt ifs /\ ready t' /\ forall fuel path iw oneHop, c < Z.of_nat fuel * W -> path <> "" ->
    exists path' iw', path_hops fuel p q path iw oneHop t = Ret (path', iw', false, t') /\
      with_sep (with_sep path' +:+ iw') = path +:+ "#" +:+ string_path ifs.
Proof.
  intros Hc. pattern p, c. revert p c Hc. apply toward_ind; [done|]. intros p c Hne Hc IH t _ Ht Hp. pose proof (walk_pos p q c (proj1 Hc)) as Hc0.
  destruct (hop_interface t p q c Ht Hp Hne Hc) as (x & t' & ad & rx & E & Ht' & He & Hx & Hxl & (lp & El) & Had & Hrx & Hin).
  pose proof (walk_pos x q _ (proj1 Hx)) as Hx0. destruct (decide (x = q)) as [->|Hxq].
  - assert (c - W = 0) as Ec by (pose proof (proj2 Hx 0 (walk_here t1 q)); lia).
    exists [p; q], [ad], t'. split; [apply (way_hop p q q c [q] [] ad); [done| |done..]; rewrite Ec; apply way_here|]. split; [done|].
    intros [|[|fuel]] path iw oneHop Hf Hpath; [lia..|]. exists path, ad. cbn [path_hops]. rewrite decide_False by done. rewrite E. cbn [obind].
    rewrite El. cbn [obind]. rewrite !decide_True by done. split; [done|]. rewrite (with_sep_ne path) by done.
    rewrite with_sep_ne by (by apply string_app_ne, string_app_ne). cbn [string_path foldr]. by rewrite !string_app_assoc.
  - destruct (IH x He Hx t' Hxq Ht' Hxl) as (rt & ifs & t2 & Hw & Ht2 & Hp2). exists (p :: rt), (ad :: ifs), t2.
    split; [by apply (way_hop p x q c rt ifs ad)|]. split; [done|]. intros [|fuel] path iw oneHop Hf Hpath; [lia|].
    cbn [path_hops]. rewrite decide_False by done. rewrite E. cbn [obind]. rewrite El. cbn [obind]. rewrite decide_False by done. rewrite (with_sep_ne path) by done.
    destruct (Hp2 fuel ((path +:+ "#") +:+ ad) ad false) as (path' & iw' & E2 & E3); [lia|by apply string_app_ne, string_app_ne|].
    exists path', iw'. split; [done|]. rewrite E3. cbn [string_path foldr]. fold (string_path ifs). by rewrite !string_app_assoc.
Qed.

Lemma find_first_only {A} `{EqDecision A} (f : A -> outcome (option A)) l p : p ∈ l ->
  (forall a, a ∈ l -> f a = Ret (if decide (a = p) then Some a else None)) -> find_first f l = Ret (Some p).
Proof.
  induction l as [|a l IH]; [by intros ?%not_elem_of_nil|]. intros Hp Hf. cbn [find_first]. rewrite (Hf a) by (by left). cbn [obind].
  destruct (decide (a = p)) as [->|Hne]; [done|]. apply IH; [apply list_elem_of_In in Hp as [?|?]; [congruence|by apply list_elem_of_In]|]. intros b Hb. apply Hf. by right.
Qed.

Lemma GetRouterFromId_ready t p r : ready t -> p ∈ ListOfRouters t0 -> routers t0 !! p = Some r -> GetRouterFromId t (iRouterNumber r) = Ret (Some p).
Proof.
  intros Ht Hp Hr. pose proof (ready_shape t0 t1 Ht1 t Ht) as Hsh. unfold GetRouterFromId. rewrite (proj1 Hsh). apply find_first_only; [done|].
  intros a Ha. destruct (ready_there t0 t1 t a Ht Ha) as [ra Hra]. unfold get_router. rewrite Hra. cbn [obind].
  destruct (shape_router t t0 a ra Hsh Hra) as (ra' & Hra' & [= _ _ E _]). rewrite E. destruct (decide (a = p)) as [->|Hne].
  - assert (ra' = r) as -> by congruence. by rewrite Z.eqb_refl.
  - destruct (Z.eqb_spec (iRouterNumber ra') (iRouterNumber r)) as [En|]; [|done]. destruct Hne. by apply (nw_numbers a p ra' r).
Qed.

Lemma ShowPathFromTo_ok t p q rp rq c : ready t -> p ∈ ListOfRouters t0 -> q ∈ ListOfRouters t0 ->
  routers t0 !! p = Some rp -> routers t0 !! q = Some rq -> p <> q -> distance p q c ->
  exists t', ready t' /\ forall fuel, c < Z.of_nat fuel * W -> ShowPathFromTo fuel (iRouterNumber rp) (iRouterNumber rq) t = Ret t'.
Proof.
  intros Ht Hp Hq Hrp Hrq Hne Hc. destruct (hop_interface t p q c Ht Hp Hne Hc) as (x & t2 & ad & rx & E & Ht2 & He & Hx & Hxl & _).
  destruct (show_hops_ok q x _ Hx t2 Ht2 Hxl) as (t3 & Ht3 & E3). exists t3. split; [done|]. intros fuel Hf. unfold ShowPathFromTo.
  rewrite (GetRouterFromId_ready t p rp), (GetRouterFromId_ready t q rq) by done. cbn [obind]. rewrite E. cbn [obind]. apply E3. lia.
Qed.

Lemma GetInterfaceBasedPath_ok t p q rp rq c : ready t -> p ∈ ListOfRouters t0 -> q ∈ ListOfRouters t0 ->
  routers t0 !! p = Some rp -> routers t0 !! q = Some rq -> p <> q -> distance p q c ->
  exists rt ifs t', way p q c rt ifs /\ ready t' /\
    forall fuel, c < Z.of_nat fuel * W -> GetInterfaceBasedPath fuel (iRouterNumber rp) (iRouterNumber rq) t = Ret (string_path ifs, t').
Proof.
  intros Ht Hp Hq Hrp Hrq Hne Hc. unfold GetInterfaceBasedPath.
  rewrite (GetRouterFromId_ready t p rp), (GetRouterFromId_ready t q rq) by done. cbn [obind].
  destruct (hop_interface t p q c Ht Hp Hne Hc) as (x & t2 & ad & rx & E & Ht2 & He & Hx & Hxl & (lp & El) & Had & Hrx & Hin).
  rewrite E. cbn [obind]. rewrite El. cbn [obind]. pose proof (walk_pos x q _ (proj1 Hx)) as Hx0. destruct (decide (x = q)) as [->|Hxq].
  - assert (c - W = 0) as Ec by (pose proof (proj2 Hx 0 (walk_here t1 q)); lia).
    destruct (ShowPathFromTo_ok t2 p q rp rq c) as (t3 & Ht3 & Es); [done..|].
    exists [p; q], [ad], t3. split; [apply (way_hop p q q c [q] [] ad); [done| |done..]; rewrite Ec; apply way_here|]. split; [done|].
    intros fuel Hf. destruct fuel as [|fuel]; [lia|]. cbn [path_hops]. rewrite decide_True by done. cbn [obind]. rewrite Es by done. cbn [obind].
    by rewrite with_sep_ne.
  - destruct (path_hops_ok q x _ Hx t2 Hxq Ht2 Hxl) as (rt & ifs & t3 & Hw & Ht3 & Hp3).
    destruct (ShowPathFromTo_ok t3 p q rp rq c) as (t4 & Ht4 & Es); [done..|]. exists (p :: rt), (ad :: ifs), t4.
    split; [by apply (way_hop p x q c rt ifs ad)|]. split; [done|]. intros fuel Hf.
    destruct (Hp3 fuel ad ad true) as (path' & iw' & E3 & E4); [lia|done|]. rewrite E3. cbn [obind]. rewrite E4, Es by done. done.
Qed.
End routed.

(** ** The messages of flowd *)

Lemma GetPath_removelast : removelast get_path = [71; 101; 116; 80; 97; 116; 104].
Proof. done. Qed.

(** The server takes the two numbers out of "GetPath#id#id#". *)
Lemma path_msg_handled fuel id1 id2 k sp : 0 <= id1 < 2147483648 -> 0 <= id2 < 2147483648 -> (length (path_msg id1 id2) + k <= CONTROL_BUFFER_SIZE)%nat ->
  (length (path_msg id1 id2) < CONTROL_BUFFER_SIZE)%nat ->
  Nsp_HandleTCPClient fuel (Some (path_msg id1 id2 ++ replicate k 0)) sp =
    match ptrListOfTransitNetwork sp with
    | [] => Undef NullDeref
    | s :: rest =>
        let! (path, t) := GetInterfaceBasedPath fuel id1 id2 (tn s) in
        Ret (Some (Path (text_of path)), Mk_platform (Mk_nsp t (mon s) :: rest) (Nsp_StopsControlServer sp))
    end.
Proof.
  intros H1 H2 Hk Hl. unfold Nsp_HandleTCPClient. cbv zeta. rewrite received_zeros, received_msg by done. set (junk := replicate (_ - _ - 1) 0). clearbody junk.
  destruct (itoa_number id1 H1) as (N1 & D1 & L1). destruct (itoa_number id2 H2) as (N2 & D2 & L2).
  assert (path_msg id1 id2 ++ 0 :: junk = seps [removelast get_path; itoa id1] ++ (itoa id2 ++ [35]) ++ 0 :: junk) as E.
  { unfold path_msg, seps. cbn. unfold sep. by simplify_list_eq. }
  rewrite E. set (buf := seps _ ++ _).
  assert (exists r, buf = [71; 101; 116; 80] ++ r) as (r & Er) by (unfold buf; by eexists).
  assert (strcmp buf end_msg = Ret (-1)) as -> by (by rewrite Er). assert (strncmp_eq 4 buf GetPath_text = Ret true) as -> by (by rewrite Er).
  cbn [obind Z.eqb]. clear r Er.
  unfold path_query, Nsp_get_control_packet_part, get_control_packet_part. change (MAX_CONTROL_MESSAGE_PARTS - 1)%nat with 2%nat. unfold buf.
  assert (Forall part [removelast get_path; itoa id1]) as Hps.
  { constructor; [apply (bool_decide_unpack _); vm_compute; exact Logic.I|]. constructor; [by apply number_part|constructor]. }
  assert (text (itoa id2 ++ [35])) as Ht by (apply Forall_app; split; [by apply number_text|by repeat constructor]).
  rewrite (get_part_ok 2 _ _ junk 0 (removelast get_path)) by (done || rewrite length_replicate; cbn; lia). cbn [obind Z.ltb Z.compare].
  rewrite (get_part_ok 2 _ _ junk 1 (itoa id1)) by (done || rewrite length_replicate; lia). cbn [obind Z.ltb Z.compare].
  rewrite (get_part_ok 2 _ _ junk 2 (itoa id2 ++ [35])) by (done || rewrite length_app, length_replicate; cbn [length]; lia). cbn [obind Z.ltb Z.compare].
  destruct (ptrListOfTransitNetwork sp) as [|s rest]; [done|]. destruct N1 as (Hn1 & Hd1 & _ & Hv1), N2 as (Hn2 & Hd2 & _ & Hv2).
  rewrite drop_replicate_pos by lia. rewrite atoi_digits by done. cbn [obind]. rewrite <- app_assoc. cbn [app].
  rewrite atoi_digits by done. cbn [obind]. by rewrite D1, D2.
Qed.

(** ** Paths *)

(** C9: flowd asks the emulator for the path between two routers of a network that
    ExploreGraph has left, whose links all cost the same and each join an interface of one
    router to one of another: the message that SendPathRequestPacket writes makes the server
    answer with the interfaces by which the routers of a shortest walk are entered, each the
    end, at its router, of a link from the router before it, and Add_path makes of the
    answer exactly the list of these interfaces, in order. *)
Theorem path_requested t t' W m rest p q rp rq junk path :
  network_ok t = true -> joined t = true -> ExploreGraph t = Ret t' -> uniform t' W -> 0 < W ->
  p ∈ ListOfRouters t -> q ∈ ListOfRouters t -> routers t !! p = Some rp -> routers t !! q = Some rq -> p <> q -> reach t p q ->
  (forall x r ad, routers t !! x = Some r -> ad ∈ ListOfAdapters r -> part (text_of ad)) -> length junk = 20%nat ->
  exists rt c ifs, route t' p q rt /\ walk t' p q c /\ (forall k, walk t' p q k -> c <= k) /\ entered t rt ifs /\
    let ack := seps (text_of <$> ifs) in
    forall sk, answered sk ack -> (length ack < length path)%nat ->
      exists msg path', SendPathRequestPacket junk sk (iRouterNumber rp) (iRouterNumber rq) path = Ret (0, Some msg, path') /\
        Add_path path' = Ret ((fun i => text_of i ++ [0]) <$> ifs) /\
        forall fuel, (length rt < fuel)%nat -> exists t2,
          Nsp_HandleTCPClient fuel (Some msg) (Mk_platform (Mk_nsp t' m :: rest) 0) = Ret (Some (Path ack), Mk_platform (Mk_nsp t2 m :: rest) 0).
Proof.
  intros Hok Hjoin E HW HW0 Hp Hq Hrp Hrq Hne Hreach Hnames Hj.
  destruct (network_ok_spec t Hok) as (Hnet & Hlink & Hfresh). destruct (ExploreGraph_ok t Hfresh) as (t1 & t2 & E2 & He & Ht').
  assert (t2 = t') as -> by congruence. assert (forall u v, edge t' u v = edge t1 u v) as Hedge by (intros u v; by apply (routing_edge t t1 (ListOfRouters t))).
  assert (uniform t1 W) as HW1 by (intros u v w Hv; apply (HW u v); by rewrite Hedge).
  destruct (next_toward t t1 t' p q Ht' Hp) as (x & t2 & c & _ & _ & [Hc _]); [congruence|done|].
  destruct (GetInterfaceBasedPath_ok t t1 Hfresh He W HW1 HW0 Hjoin t' p q rp rq c Ht' Hp Hq Hrp Hrq Hne Hc) as (rt & ifs & t3 & [Hrt Hlen Hent _] & _ & Epath).
  assert (Forall part (text_of <$> ifs)) as Hps.
  { apply Forall_fmap. clear -Hent Hnames. unfold entered in Hent. induction Hent as [|y ad l ifs (_ & r & _ & _ & _ & Hr & _ & _ & Had & _)]; constructor; [|done]. by apply (Hnames y.2 r). }
  pose proof (entered_length t rt ifs Hent) as Hlen'.
  assert (ifs <> []) as Hifs. { intros ->. apply Hne. destruct Hrt as [|p0 x0 q0 w0 l0 _ Hl]; [done|]. by destruct Hl. }
  assert (length rt = S (length ifs)) as Hrl. { destruct rt; [by inversion Hrt|]. cbn in *. by rewrite Hlen'. }
  assert (forall x r, x ∈ ListOfRouters t -> routers t !! x = Some r -> 0 <= iRouterNumber r < 2147483648) as Hid.
  { intros y r Hy Hr. destruct (nw_there y Hy) as (r' & Hr' & Hn & _). unfold GRAPHSIZE in Hn. assert (r' = r) as -> by congruence. lia. }
  pose proof (Hid p rp Hp Hrp) as Hid1. pose proof (Hid q rq Hq Hrq) as Hid2. exists rt, c, ifs.
  split; [by apply (route_ext t1)|]. split; [by apply (walk_ext t1), Hc|]. split; [intros k Hk; apply Hc; by apply (walk_ext t')|]. split; [done|].
  intros ack sk Hsk Hl. destruct (path_request junk sk (iRouterNumber rp) (iRouterNumber rq) (text_of <$> ifs) path) as (k & path' & Es & Hk & Ea); try done; [by destruct ifs|].
  exists (path_msg (iRouterNumber rp) (iRouterNumber rq) ++ replicate k 0), path'. split; [done|]. split; [by rewrite Ea, <- list_fmap_compose|].
  intros fuel Hf. exists t3. pose proof (path_message_ok junk _ _ Hj Hid1 Hid2) as [_ Hlm].
  rewrite path_msg_handled by (done || unfold CONTROL_BUFFER_SIZE; lia). cbn [ptrListOfTransitNetwork tn]. rewrite Epath by nia. cbn [obind]. by rewrite text_of_path.
Qed.

(** ** Rates *)

(** The sampling of a router. *)
Definition sampling_at (p : positive) (m : monitors) : sampling := Mk_sampling (default [] (m_nodes m !! p)) (m_draws m).

(** The monitors after the nodes of a router have changed. *)
Definition with_nodes (p : positive) (l : list SamplingNode) (m : monitors) : monitors :=
  Mk_monitors (interfaceSamplingStatus m) (<[p := l]> (m_nodes m)) (m_draws m) (PacketsNumbers m) (m_buffer m).

Lemma sampling_at_with p l m x : sampling_at x (with_nodes p l m) = if decide (x = p) then Mk_sampling l (m_draws m) else sampling_at x m.
Proof.
  unfold sampling_at. cbn. destruct (decide (x = p)) as [->|Hne]; [by rewrite lookup_insert_eq|by rewrite lookup_insert_ne].
Qed.

(** The router that has the interface is the one that GetRouter gives. *)
Lemma owner_found t ad : ad <> "" ->
  find_first (fun p => let! r := get_router t p in let! b := IsItYourAdapter r ad in Ret (if b then Some p else None)) (ListOfRouters t) =
    GetRouter t ad false.
Proof.
  intros Had. unfold GetRouter. rewrite decide_False by done. apply find_first_ext. intros p. destruct (get_router t p) as [r| | |]; [|done..]. cbn [obind].
  destruct (IsItYourAdapter r ad) as [[]| | |]; done.
Qed.

(** The rate of an interface, with a sampling node or without. *)
Lemma change_rate_ok ad p1 p2 p s : ad <> "" -> (length (text_of ad) < 16)%nat -> GetRouter (tn s) ad false = Ret (Some p) ->
  (forall i n, node_of (text_of ad) (sampling_at p (mon s)) i n ->
     Tn_ChangeSamplingRate ad p1 p2 s =
       Ret (1, Mk_nsp (tn s) (with_nodes p (<[i := set_rates p1 p2 n]> (listNodes (sampling_at p (mon s)))) (mon s)))) /\
  (find_node (text_of ad) (listNodes (sampling_at p (mon s))) = None ->
     Tn_ChangeSamplingRate ad p1 p2 s = Ret (0, Mk_nsp (tn s) (with_nodes p (listNodes (sampling_at p (mon s))) (mon s)))).
Proof.
  intros Had Hl Hp. unfold Tn_ChangeSamplingRate. rewrite owner_found, Hp by done. cbn [obind]. fold (sampling_at p (mon s)).
  unfold Router_ChangeSamplingRate, Router_FindSamplingNode, check16. rewrite (proj2 (Nat.ltb_lt _ _) Hl). cbn [obind]. rewrite (proj2 (Nat.ltb_lt _ _) Hl). cbn [obind]. split.
  - intros i n (_ & Hf & Hi & Hs). rewrite Hf. unfold node_get. rewrite Hi. cbn [obind]. rewrite (proj1 (sem_wait_post n Hs)). cbn [obind].
    unfold node_put, with_nodes. cbn. do 5 f_equal. destruct n. cbn in *. by subst.
  - by intros ->.
Qed.

(** Networks without the interface are left alone. *)
Lemma change_in_networks_ok ad p1 p2 l1 s l2 ret s' : ad <> "" -> Forall (fun s => GetRouter (tn s) ad false = Ret None) l1 ->
  Tn_ChangeSamplingRate ad p1 p2 s = Ret (ret, s') -> ret <> -1 ->
  change_in_networks ad p1 p2 (l1 ++ s :: l2) = Ret (ret, l1 ++ s' :: l2).
Proof.
  intros Had Hl E Hret. induction Hl as [|s0 l1 H0 _ IH]; cbn [app change_in_networks].
  - rewrite E. cbn [obind]. by rewrite (proj2 (Z.eqb_neq _ _) Hret).
  - unfold Tn_ChangeSamplingRate at 1. rewrite owner_found, H0 by done. cbn [obind Z.eqb Pos.eqb negb]. by rewrite IH.
Qed.

(** The server takes the rates and the address out of "p1#p2#ip". *)
Lemma rate_msg_handled fuel d1 d2 ip k sp : Control.number d1 -> Control.number d2 -> text ip -> (length ip < 16)%nat ->
  (length (rate_msg d1 d2 ip) + k <= CONTROL_BUFFER_SIZE)%nat -> (length (rate_msg d1 d2 ip) < CONTROL_BUFFER_SIZE)%nat ->
  Nsp_HandleTCPClient fuel (Some (rate_msg d1 d2 ip ++ replicate k 0)) sp =
    let! (ret, sp) := Platform_ChangeSamplingRate (name_of ip) (dec d1) (dec d2) sp in
    Ret (Some (Sentence (if ret =? 1 then RateUpdated else InvalidMonitor)), sp).
Proof.
  intros H1 H2 Hip Hl Hk Hlen. unfold Nsp_HandleTCPClient. cbv zeta. rewrite received_zeros, received_msg by done. set (junk := replicate (_ - _ - 1) 0). clearbody junk.
  destruct (rate_msg_not_end d1 d2 ip (0 :: junk) H1) as (c & Ec & Hc). rewrite Ec. cbn [obind]. rewrite (proj2 (Z.eqb_neq c 0)) by done.
  pose proof H1 as (Hn1 & Hd1 & Hl1 & Hv1). pose proof H2 as (Hn2 & Hd2 & Hl2 & Hv2).
  assert (strncmp_eq 4 (rate_msg d1 d2 ip ++ 0 :: junk) GetPath_text = Ret false) as ->.
  { destruct d1 as [|x d1]; [done|]. apply Forall_cons in Hd1 as [Hx _]. unfold isdigit in Hx. unfold rate_msg. rewrite seps_cons. cbn [app strncmp_eq GetPath_text].
    by rewrite (proj2 (Z.eqb_neq _ _)) by lia. }
  cbn [obind]. unfold change_request, Nsp_get_control_packet_part, get_control_packet_part. change (MAX_CONTROL_MESSAGE_PARTS - 1)%nat with 2%nat.
  unfold rate_msg. rewrite <- !app_assoc. assert (Forall part [d1; d2]) as Hps by (repeat constructor; by apply number_part).
  rewrite (get_part_ok 2 [d1; d2] ip junk 2 ip) by (done || rewrite length_replicate; lia). cbn [obind Z.ltb Z.compare].
  rewrite (get_part_ok 2 [d1; d2] ip junk 0 d1) by (done || rewrite length_replicate; lia). cbn [obind Z.ltb Z.compare].
  rewrite (get_part_ok 2 [d1; d2] ip junk 1 d2) by (done || rewrite length_replicate; lia). cbn [obind Z.ltb Z.compare].
  rewrite !drop_replicate_pos by lia. rewrite cstr_app by done. cbn [obind]. rewrite !atoi_digits by done. done.
Qed.

(** A result that a condition promises. *)
Lemma result_under {A} (P : Prop) (o : outcome A) (Q : A -> Prop) (a0 : A) : (P -> exists a, o = Ret a /\ Q a) -> exists a, P -> o = Ret a /\ Q a.
Proof.
  intros H. destruct o as [a| | |]; [exists a|exists a0..]; intros HP; destruct (H HP) as (b & E & Hb); [by injection E as ->|done..].
Qed.

(** C10: flowd changes the rate of an interface of the emulator, from its numbers to the
    packets: the message that SendControlPacket writes makes the server of the emulator
    change the rate of exactly that interface, in the first network that has it, and of the
    next p2 packets of the interface exactly p1 are taken, for any fair sequence of random
    numbers.  An interface that has not been sampled yet is refused. *)
Theorem rate_requested rand patience junk sk ack p1 p2 ad r l1 s l2 p :
  length junk = 20%nat -> answered sk ack -> 0 < p1 < p2 -> p2 < 2147483648 ->
  ad <> "" -> text (text_of ad) -> (length (text_of ad) < 16)%nat ->
  Forall (fun s => GetRouter (tn s) ad false = Ret None) l1 -> GetRouter (tn s) ad false = Ret (Some p) ->
  exists msg, SendControlPacket junk sk p1 p2 (text_of ad ++ 0 :: r) = Ret (0, Some msg) /\ forall fuel,
    (forall i n, node_of (text_of ad) (sampling_at p (mon s)) i n -> exists m' t sm,
       Nsp_HandleTCPClient fuel (Some msg) (Mk_platform (l1 ++ s :: l2) 0) =
         Ret (Some (Sentence RateUpdated), Mk_platform (l1 ++ Mk_nsp (tn s) m' :: l2) 0) /\
       listNodes (sampling_at p m') = <[i := set_rates p1 p2 n]> (listNodes (sampling_at p (mon s))) /\
       (forall x, x <> p -> sampling_at x m' = sampling_at x (mon s)) /\
       (fair rand patience p2 ->
          router_calls rand patience (Z.to_nat p2) (text_of ad) (sampling_at p m') = Ret (t, sm) /\
          Z.of_nat (length t) = p2 /\ Forall bit t /\ taken t = p1)) /\
    (find_node (text_of ad) (listNodes (sampling_at p (mon s))) = None -> exists m',
       Nsp_HandleTCPClient fuel (Some msg) (Mk_platform (l1 ++ s :: l2) 0) =
         Ret (Some (Sentence InvalidMonitor), Mk_platform (l1 ++ Mk_nsp (tn s) m' :: l2) 0) /\
       forall x, sampling_at x m' = sampling_at x (mon s)).
Proof.
  intros Hj (E1 & E2 & E3 & (k & E4) & Hack & Hackl) Hp12 Hp2 Had Hip Hl Hl1 Hp. unfold SendControlPacket.
  assert (ValidateSamplingRate p1 p2 = 0) as -> by (unfold ValidateSamplingRate; repeat case_match; lia). rewrite E1, E2, E3, E4. cbn [negb Z.ltb Z.compare].
  destruct (control_message_ok junk p1 p2 (text_of ad) r Hj ltac:(lia) ltac:(lia) Hip Hl) as [-> Hlm]. cbn [obind].
  destruct (answer_string ack k Hack Hackl) as (r' & ->). rewrite cstr_app by done. cbn [obind]. eexists. split; [reflexivity|]. intros fuel.
  destruct (itoa_number p1 ltac:(lia)) as (N1 & D1 & _). destruct (itoa_number p2 ltac:(lia)) as (N2 & D2 & _).
  rewrite rate_msg_handled, name_of_text, D1, D2 by (done || unfold CONTROL_BUFFER_SIZE; lia). unfold Platform_ChangeSamplingRate. cbn [ptrListOfTransitNetwork Nsp_StopsControlServer].
  destruct (change_rate_ok ad p1 p2 p s Had Hl Hp) as [Hknown Hnone]. split.
  - intros i n Hn. specialize (Hknown i n Hn). rewrite (change_in_networks_ok ad p1 p2 l1 s l2 1 _ Had Hl1 Hknown) by lia. cbn [obind Z.eqb Pos.eqb].
    set (m' := with_nodes p _ (mon s)).
    assert (sampling_at p m' = Mk_sampling (<[i := set_rates p1 p2 n]> (listNodes (sampling_at p (mon s)))) (m_draws (mon s))) as Em
      by (unfold m'; by rewrite sampling_at_with, decide_True).
    assert (node_of (text_of ad) (sampling_at p m') i (set_rates p1 p2 n)) as Hn' by (rewrite Em; pose proof Hn as (_ & _ & _ & Hs); by apply (node_of_with (text_of ad) (sampling_at p (mon s)) i n (set_rates p1 p2 n) (m_draws (mon s)))).
    destruct (result_under (fair rand patience p2) (router_calls rand patience (Z.to_nat p2) (text_of ad) (sampling_at p m'))
                (fun x => Z.of_nat (length x.1) = p2 /\ Forall bit x.1 /\ taken x.1 = p1) ([], sampling_at p m')) as ([t sm] & Hcalls).
    { intros Hfair. destruct (router_period_ok rand patience (text_of ad) (sampling_at p m') i _ Hn') as (t & n' & k' & E & H1 & H2 & H3 & _);
        [done|by split; left|done|]. by eexists. }
    exists m', t, sm. split; [done|]. split; [by rewrite Em|]. split; [|exact Hcalls]. intros x Hx. unfold m'. by rewrite sampling_at_with, decide_False.
  - intros Hn. specialize (Hnone Hn). rewrite (change_in_networks_ok ad p1 p2 l1 s l2 0 _ Had Hl1 Hnone) by lia. cbn [obind Z.eqb].
    eexists. split; [reflexivity|]. intros x. rewrite sampling_at_with. by destruct (decide (x = p)) as [->|].
Qed.

(** ** Witnesses *)

Lemma parts_ok t : forallb (fun x => forallb (fun ad => bool_decide (part (text_of ad))) (ListOfAdapters x.2)) (map_to_list (routers t)) = true ->
  forall x r ad, routers t !! x = Some r -> ad ∈ ListOfAdapters r -> part (text_of ad).
Proof.
  intros H x r ad Hr Had. pose proof (forallb_elem _ _ (x, r) H) as H1. cbn in H1. eapply bool_decide_eq_true. apply (forallb_elem _ _ ad (H1 (proj2 (elem_of_map_to_list _ _ _) Hr)) Had).
Qed.

Lemma path_requested_witness : exists rt c ifs, route (explored_net (ring_net 3 3 3 3)) 1 3 rt /\ c <= 6 /\ entered (ring_net 3 3 3 3) rt ifs.
Proof.
  destruct (path_requested (ring_net 3 3 3 3) (explored_net (ring_net 3 3 3 3)) 3 no_monitors [] 1 3
    (value (new_Router 0 0 0 []) (get_router (ring_net 3 3 3 3) 1)) (value (new_Router 0 0 0 []) (get_router (ring_net 3 3 3 3) 3)) (replicate 20 0) (replicate 368 0))
    as (rt & c & ifs & Hrt & _ & Hl & He & _).
  - vm_compute; reflexivity.
  - vm_compute; reflexivity.
  - vm_compute; reflexivity.
  - apply uniform_ok. vm_compute. reflexivity.
  - lia.
  - apply (bool_decide_unpack _). vm_compute. exact Logic.I.
  - apply (bool_decide_unpack _). vm_compute. exact Logic.I.
  - vm_compute; reflexivity.
  - vm_compute; reflexivity.
  - done.
  - apply ring_reach.
  - apply parts_ok. vm_compute. reflexivity.
  - done.
  - exists rt, c, ifs. split; [exact Hrt|]. split; [|exact He]. apply Hl.
    apply (walk_step _ 1 2 3 3 3); [apply (walk_step _ 1 1 2 0 3); [constructor|]|]; vm_compute; reflexivity.
Defined.

(** A node for the interface "a1" of the first router. *)
Definition sample_monitors : monitors :=
  Mk_monitors ∅ {[1%positive := [Mk_SamplingNode 1 100 1 0 (text_of "a1") None 1]]} 0 ∅ [].

Lemma rate_requested_witness : exists msg m' t sm,
  SendControlPacket (replicate 20 0) (sample_socket [79; 75]) 2 5 (text_of "a1" ++ [0]) = Ret (0, Some msg) /\
  Nsp_HandleTCPClient 0 (Some msg) (Mk_platform [Mk_nsp (ring_net 3 3 3 3) sample_monitors] 0) =
    Ret (Some (Sentence RateUpdated), Mk_platform [Mk_nsp (ring_net 3 3 3 3) m'] 0) /\
  router_calls (fun i => Z.of_nat i) 5 (Z.to_nat 5) (text_of "a1") (sampling_at 1 m') = Ret (t, sm) /\ taken t = 2.
Proof.
  assert (GetRouter (ring_net 3 3 3 3) "a1" false = Ret (Some 1%positive)) as Hring by (vm_compute; reflexivity).
  revert Hring. generalize (ring_net 3 3 3 3). intros net Hring.
  destruct (rate_requested (fun i => Z.of_nat i) 5 (replicate 20 0) (sample_socket [79; 75]) [79; 75] 2 5 "a1" [] [] (Mk_nsp net sample_monitors) [] 1)
    as (msg & E & H).
  - done.
  - do 3 (split; [done|]). split; [by exists 1%nat|]. split; [by repeat constructor|cbn; lia].
  - lia.
  - lia.
  - done.
  - apply (bool_decide_unpack _). vm_compute. exact Logic.I.
  - cbn. lia.
  - constructor.
  - exact Hring.
  - destruct (proj1 (H 0%nat) 0%nat (Mk_SamplingNode 1 100 1 0 (text_of "a1") None 1)) as (m' & t & sm & E1 & _ & _ & Hc).
    + split; [cbn; lia|]. split; [vm_compute; reflexivity|]. by split.
    + destruct Hc as (E2 & _ & _ & Ht); [apply counting_fair; lia|]. cbn [app tn] in E1. exists msg, m', t, sm. split; [exact E|]. split; [exact E1|]. split; [exact E2|exact Ht].
Defined.
