(* ===== verification/Trace.v ===== *)
(** * Traces (src/NSP/TraficLoader.cpp)

    The packets of the trace that the emulator plays: a frame, as pcap gives it, becomes
    a packet with its addresses, ports and protocol as texts.  A read outside the
    captured bytes is undefined. *)

From S2P Require Import Prelude CString Client Addr Ipflow RouterSampling.
From S2P Require Import FlowTrack EmulatorProps.

(** ** Members of a packet *)

Definition set_ipv (v4 v6 : bool) (p : packet) : packet := set_versions v4 v6 p.
Definition set_addresses (len : Z) (src dst : bytes) (p : packet) : packet :=
  Mk_packet (usecond p) (second p) (szMonitorIp p) len src dst (szSourcePort p) (szDestPort p) (szProtocol p)
    (iResponsibleNode p) (iAsSourceNumber p) (iAsDestNumber p) (fragment p) (ipv4 p) (ipv6 p) (fragmentSeqNumber p) (forwardedToSoftflowd p) (tcpFlags p).
Definition set_fragment (b : bool) (seq : Z) (p : packet) : packet :=
  Mk_packet (usecond p) (second p) (szMonitorIp p) (lLength p) (szIpSource p) (szIpDest p) (szSourcePort p) (szDestPort p) (szProtocol p)
    (iResponsibleNode p) (iAsSourceNumber p) (iAsDestNumber p) b (ipv4 p) (ipv6 p) seq (forwardedToSoftflowd p) (tcpFlags p).
Definition set_protocol (proto : bytes) (p : packet) : packet :=
  Mk_packet (usecond p) (second p) (szMonitorIp p) (lLength p) (szIpSource p) (szIpDest p) (szSourcePort p) (szDestPort p) proto
    (iResponsibleNode p) (iAsSourceNumber p) (iAsDestNumber p) (fragment p) (ipv4 p) (ipv6 p) (fragmentSeqNumber p) (forwardedToSoftflowd p) (tcpFlags p).
Definition set_ports (sport dport : bytes) (p : packet) : packet :=
  Mk_packet (usecond p) (second p) (szMonitorIp p) (lLength p) (szIpSource p) (szIpDest p) sport dport (szProtocol p)
    (iResponsibleNode p) (iAsSourceNumber p) (iAsDestNumber p) (fragment p) (ipv4 p) (ipv6 p) (fragmentSeqNumber p) (forwardedToSoftflowd p) (tcpFlags p).
Definition set_tcpFlags (f : Z) (p : packet) : packet :=
  Mk_packet (usecond p) (second p) (szMonitorIp p) (lLength p) (szIpSource p) (szIpDest p) (szSourcePort p) (szDestPort p) (szProtocol p)
    (iResponsibleNode p) (iAsSourceNumber p) (iAsDestNumber p) (fragment p) (ipv4 p) (ipv6 p) (fragmentSeqNumber p) (forwardedToSoftflowd p) f.
Definition set_time (sec usec : Z) (p : packet) : packet :=
  Mk_packet usec sec (szMonitorIp p) (lLength p) (szIpSource p) (szIpDest p) (szSourcePort p) (szDestPort p) (szProtocol p)
    (iResponsibleNode p) (iAsSourceNumber p) (iAsDestNumber p) (fragment p) (ipv4 p) (ipv6 p) (fragmentSeqNumber p) (forwardedToSoftflowd p) (tcpFlags p).

(** packet::Init; the members it leaves out keep what malloc gives. *)
Definition Init (junk : packet) : packet :=
  Mk_packet 0 0 (szMonitorIp junk) 0 [] [] [] [] [] 0 0 0 false false false 0 false (tcpFlags junk).

(** ** Headers *)

(** A number by way of an array of 20 characters. *)
Definition field20 (n : Z) : outcome bytes := let! tmp := sprintf_i (replicate 20 0) n in cstr tmp.

(** "UNKNOWN: " and its terminator, which fill szProtocol. *)
Definition UNKNOWN_text : bytes := [85; 78; 75; 78; 79; 87; 78; 58; 32; 0].

(** The ports are printed as they are in the packet, in the byte order of the network. *)
Definition TransportToUpLevel (pkt : bytes) (off caplen : Z) (isfrag : bool) (protocol : Z) (p : packet) : outcome (Z * packet) :=
  if protocol =? IPPROTO_TCP then
    let p := set_protocol TCP_text p in
    let! th_sport := rd_int pkt off 2 in
    let! sport := field20 th_sport in
    let! th_dport := rd_int pkt (off + 2) 2 in
    let! dport := field20 th_dport in
    let! th_flags := rd_int pkt (off + 13) 1 in
    let p := set_tcpFlags th_flags (set_ports sport dport p) in
    Ret (if (caplen <? 20) && negb isfrag then 1 else 0, p)
  else if protocol =? IPPROTO_UDP then
    let p := set_protocol UDP_text p in
    let! uh_sport := rd_int pkt off 2 in
    let! sport := field20 uh_sport in
    let! uh_dport := rd_int pkt (off + 2) 2 in
    let! dport := field20 uh_dport in
    Ret (if (caplen <? 8) && negb isfrag then 1 else 0, set_ports sport dport p)
  else if protocol =? IPPROTO_ICMP then Ret (0, set_protocol ICMP_text p)
  else
    let! tmp := sprintf_i (replicate 20 0) protocol in
    let! szProtocol := strcpy (replicate 10 0) UNKNOWN_text in
    let! szProtocol := strcat szProtocol tmp in
    let! s := cstr szProtocol in
    Ret (0, set_protocol s p).

Section loader.
(** inet_ntoa of the C library. *)
Context (inet_ntoa : Z -> bytes).

(** The result, isfrag when it is assigned, and the packet. *)
Definition Ipv4ToUpLevel (pkt : bytes) (caplen : Z) (p : packet) : outcome (Z * option bool * packet) :=
  if caplen <? 20 then Ret (-1, None, p)
  else
    let! b0 := rd_int pkt 0 1 in
    let ip_hl := Z.land b0 15 in
    if caplen <? ip_hl * 4 then Ret (-1, None, p)
    else if negb (Z.shiftr b0 4 =? 4) then Ret (-1, None, p)
    else
      let! ip_len := rd_int pkt 2 2 in
      let! ip_src := rd_int pkt 12 4 in
      let! src := check20 (inet_ntoa ip_src) in
      let! ip_dst := rd_int pkt 16 4 in
      let! dst := check20 (inet_ntoa ip_dst) in
      let p := set_addresses (ntohs ip_len) src dst p in
      let! ip_off := rd_int pkt 6 2 in
      let isfrag := negb (Z.land (ntohs ip_off) (Z.lor IP_OFFMASK IP_MF) =? 0) in
      let p := if isfrag && negb (Z.land (ntohs ip_off) IP_OFFMASK =? 0) then set_fragment true (ntohs ip_off) p else p in
      let! ip_p := rd_int pkt 9 1 in
      let! (r, p) := TransportToUpLevel pkt (ip_hl * 4) (caplen - ip_hl * 4) isfrag ip_p p in
      Ret (r, Some isfrag, p).

(** ProcessPacket; frames of IPv6 do not reach it. *)
Definition ProcessPacket (pkt : bytes) (af caplen : Z) (p : packet) : outcome (Z * packet) :=
  if af =? AF_INET then
    let! (r, isfrag, p) := Ipv4ToUpLevel pkt caplen (set_ipv true false p) in
    if r =? -1 then Ret (PP_BAD_PACKET, p)
    else
      match isfrag with
      | None => Undef Uninit
      | Some frag => Ret (PP_OK, if frag then set_fragment true (fragmentSeqNumber p) p else p)
      end
  else Ret (PP_BAD_PACKET, p).

(** ** Frames *)

(** The same function as datalink_check of softflowd, with the same table. *)
Definition DatalinkCheck := datalink_check.

(** The first part of PerPacketCallBackFunction: the packet of a frame, unless the frame
    is skipped or the packet is not valid.  [tv] is the time of the frame, [junk] what
    malloc gives.  want_v6 is 0. *)
Definition read_frame (linktype : Z) (pkt : bytes) (caplen : Z) (tv : Z * Z) (junk : packet) : outcome (option packet) :=
  let! (s, af) := DatalinkCheck linktype (Some pkt) caplen in
  if s <? 0 then Ret None
  else
    match af with
    | None => Undef Uninit
    | Some af =>
        if af =? AF_INET6 then Ret None
        else
          let p := set_responsible (-1) (set_time (wrap32 tv.1) (wrap32 tv.2) (Init junk)) in
          let! (_, p) := ProcessPacket (drop (Z.to_nat s) pkt) af (wrap32 (caplen - s)) p in
          Ret (if AmIValid p then Some p else None)
    end.
End loader.

(** ** What a packet says *)

Section reading.
Context (inet_ntoa : Z -> bytes) (Hntoa : forall a, (length (inet_ntoa a) < 16)%nat).

(** The header of an IPv4 packet has been captured. *)
Record ipv4_captured (pkt : bytes) : Prop := {
  ic_bytes : Forall u8 pkt;
  ic_header : 20 <= Z.of_nat (length pkt);
  ic_hl : Z.land (field_int pkt 0 1) 15 * 4 <= Z.of_nat (length pkt);
  ic_version : Z.shiftr (field_int pkt 0 1) 4 = 4
}.

Definition header_length (pkt : bytes) : Z := Z.land (field_int pkt 0 1) 15 * 4.
Definition offset_word (pkt : bytes) : Z := ntohs (field_int pkt 6 2).
Definition is_fragment (pkt : bytes) : bool := negb (Z.land (offset_word pkt) 0x3fff =? 0).
Definition is_later_fragment (pkt : bytes) : bool := negb (Z.land (offset_word pkt) 0x1fff =? 0).

(** The members that the IPv4 header gives. *)
Definition ip_members (pkt : bytes) (p : packet) : packet :=
  set_fragment (is_fragment pkt || fragment p) (if is_later_fragment pkt then offset_word pkt else fragmentSeqNumber p)
    (set_addresses (ntohs (field_int pkt 2 2)) (inet_ntoa (field_int pkt 12 4)) (inet_ntoa (field_int pkt 16 4)) (set_ipv true false p)).

Definition port_text (pkt : bytes) (off : Z) : bytes := itoa (field_int pkt (header_length pkt + off) 2).

Lemma field20_ok n : 0 <= n < 2147483648 -> field20 n = Ret (itoa n).
Proof.
  intros Hn. destruct (sprintf_i_ok (replicate 20 0) n Hn) as (r & E & _); [by rewrite length_replicate|]. unfold field20. rewrite E. cbn [obind].
  apply cstr_app. destruct (itoa_number n Hn) as (H & _). by apply number_text.
Qed.

Lemma unknown_overflows n : 0 <= n < 256 ->
  (let! tmp := sprintf_i (replicate 20 0) n in
   let! szProtocol := strcpy (replicate 10 0) UNKNOWN_text in
   let! szProtocol := strcat szProtocol tmp in cstr szProtocol) = Undef OutOfBounds.
Proof.
  intros Hn. destruct (sprintf_i_ok (replicate 20 0) n) as (r & -> & _); [lia|by rewrite length_replicate|]. cbn [obind].
  destruct (itoa_number n ltac:(lia)) as (Hd & _). pose proof (number_text _ Hd) as Ht. destruct Hd as (Hne & _).
  change (strcpy (replicate 10 0) UNKNOWN_text) with (Ret UNKNOWN_text). cbn [obind]. unfold strcat.
  change (cstr UNKNOWN_text) with (Ret (take 9 UNKNOWN_text)). cbn [obind]. rewrite cstr_app by done. cbn [obind].
  unfold wr. rewrite decide_False; [done|]. rewrite length_app. destruct (itoa n); [done|]. cbn [length UNKNOWN_text take]. lia.
Qed.

Lemma offset_masks w : 0 <= w -> Z.land w 0x3fff = 0 -> Z.land w 0x1fff = 0.
Proof.
  intros _ H. change 0x1fff with (Z.land 0x3fff 0x1fff). by rewrite Z.land_assoc, H, Z.land_0_l.
Qed.

Lemma rd_int_out pkt off n : 0 <= off -> Z.of_nat (length pkt) < off + n -> rd_int pkt off n = Undef OutOfBounds.
Proof. intros H1 H2. unfold rd_int, rd, mem_read. rewrite decide_False; [done|lia]. Qed.

Lemma rd_int_cases pkt off n : 0 <= off -> 0 <= n ->
  rd_int pkt off n = if off + n <=? Z.of_nat (length pkt) then Ret (field_int pkt off n) else Undef OutOfBounds.
Proof. intros H1 H2. destruct (Z.leb_spec (off + n) (Z.of_nat (length pkt))); [by apply rd_int_field|by apply rd_int_out]. Qed.

Lemma ports_read pkt off (k : bytes -> bytes -> outcome (Z * packet)) : Forall u8 pkt -> 0 <= off ->
  (let! th_sport := rd_int pkt off 2 in let! sport := field20 th_sport in
   let! th_dport := rd_int pkt (off + 2) 2 in let! dport := field20 th_dport in k sport dport) =
  if off + 4 <=? Z.of_nat (length pkt) then k (itoa (field_int pkt off 2)) (itoa (field_int pkt (off + 2) 2)) else Undef OutOfBounds.
Proof.
  intros Hb Ho. rewrite !rd_int_cases by lia.
  pose proof (field_int_bound pkt off 2 Hb ltac:(lia)) as H1. pose proof (field_int_bound pkt (off + 2) 2 Hb ltac:(lia)) as H2. change (256 ^ 2) with 65536 in *.
  destruct (Z.leb_spec (off + 2) (Z.of_nat (length pkt))); cbn [obind]; [|by rewrite (proj2 (Z.leb_gt _ _)) by lia].
  rewrite field20_ok by lia. cbn [obind]. replace (off + 2 + 2) with (off + 4) by lia.
  destruct (Z.leb_spec (off + 4) (Z.of_nat (length pkt))); cbn [obind]; [|done]. by rewrite field20_ok by lia.
Qed.

(** What the transport header gives. *)
Lemma transport_read pkt off caplen isfrag protocol p : Forall u8 pkt -> 0 <= off -> 0 <= protocol < 256 ->
  TransportToUpLevel pkt off caplen isfrag protocol p =
    let short n := if (caplen <? n) && negb isfrag then 1 else 0 in
    let ports := set_ports (itoa (field_int pkt off 2)) (itoa (field_int pkt (off + 2) 2)) in
    if protocol =? IPPROTO_TCP then
      if off + 14 <=? Z.of_nat (length pkt) then Ret (short 20, set_tcpFlags (field_int pkt (off + 13) 1) (ports (set_protocol TCP_text p))) else Undef OutOfBounds
    else if protocol =? IPPROTO_UDP then
      if off + 4 <=? Z.of_nat (length pkt) then Ret (short 8, ports (set_protocol UDP_text p)) else Undef OutOfBounds
    else if protocol =? IPPROTO_ICMP then Ret (0, set_protocol ICMP_text p)
    else Undef OutOfBounds.
Proof.
  intros Hb Ho Hp. unfold TransportToUpLevel. cbv zeta. destruct (protocol =? IPPROTO_TCP).
  { rewrite ports_read by done. rewrite (rd_int_cases pkt (off + 13)) by lia. replace (off + 13 + 1) with (off + 14) by lia.
    destruct (Z.leb_spec (off + 14) (Z.of_nat (length pkt))); [by rewrite (proj2 (Z.leb_le _ _)) by lia|]. by destruct (_ <=? _). }
  destruct (protocol =? IPPROTO_UDP); [by rewrite ports_read by done|]. destruct (protocol =? IPPROTO_ICMP); [done|].
  pose proof (unknown_overflows protocol Hp) as H. destruct (sprintf_i _ protocol) as [tmp|u| |]; [|by injection H as ->|done..]. cbn [obind] in *.
  destruct (strcpy _ UNKNOWN_text) as [a|u| |]; [|by injection H as ->|done..]. cbn [obind] in *.
  destruct (strcat a tmp) as [b|u| |]; [|by injection H as ->|done..]. cbn [obind] in *. by rewrite H.
Qed.

(** C15: a captured IPv4 packet of the trace becomes a packet with the length, addresses,
    fragment offset, protocol, ports and TCP flags of its headers; the ports and flags of
    TCP and UDP are read even when they were not captured, and the name of any other
    protocol but ICMP is written past the end of its array. *)
Theorem trace_packet_read pkt p : ipv4_captured pkt ->
  let off := header_length pkt in
  let left := Z.of_nat (length pkt) - off in
  let proto := field_int pkt 9 1 in
  let q := ip_members pkt p in
  ProcessPacket inet_ntoa pkt AF_INET (Z.of_nat (length pkt)) p =
    if proto =? IPPROTO_TCP then
      if 14 <=? left then Ret (PP_OK, set_tcpFlags (field_int pkt (off + 13) 1) (set_ports (port_text pkt 0) (port_text pkt 2) (set_protocol TCP_text q)))
      else Undef OutOfBounds
    else if proto =? IPPROTO_UDP then
      if 4 <=? left then Ret (PP_OK, set_ports (port_text pkt 0) (port_text pkt 2) (set_protocol UDP_text q)) else Undef OutOfBounds
    else if proto =? IPPROTO_ICMP then Ret (PP_OK, set_protocol ICMP_text q)
    else Undef OutOfBounds.
Proof.
  intros [Hb Hlen Hhl Hv] off left proto q. unfold ProcessPacket, Ipv4ToUpLevel. rewrite Z.eqb_refl, (proj2 (Z.ltb_ge _ _)) by lia.
  rewrite (rd_int_field pkt 0 1) by lia. cbn [obind]. cbv zeta. rewrite (proj2 (Z.ltb_ge _ _)) by lia. rewrite Hv. cbn [Z.eqb Pos.eqb negb].
  rewrite (rd_int_field pkt 2 2), (rd_int_field pkt 12 4), (rd_int_field pkt 16 4), (rd_int_field pkt 6 2), (rd_int_field pkt 9 1) by lia. cbn [obind].
  assert (forall a, check20 (inet_ntoa a) = Ret (inet_ntoa a)) as Hc by (intros a; unfold check20; specialize (Hntoa a); by rewrite (proj2 (Nat.ltb_lt _ _)) by lia).
  rewrite !Hc. cbn [obind]. fold (offset_word pkt). fold proto. change (Z.lor IP_OFFMASK IP_MF) with 0x3fff. change IP_OFFMASK with 0x1fff.
  fold (is_fragment pkt). fold (is_later_fragment pkt). fold (header_length pkt). fold off.
  assert (0 <= off) as Hoff.
  { unfold off, header_length. pose proof (Z.land_nonneg (field_int pkt 0 1) 15). lia. }
  assert (0 <= proto < 256) as Hproto by (pose proof (field_int_bound pkt 9 1 Hb ltac:(lia)); unfold proto; lia).
  assert (is_later_fragment pkt = true -> is_fragment pkt = true) as Hlater.
  { unfold is_later_fragment, is_fragment. rewrite !negb_true_iff, !Z.eqb_neq. intros H1 H2. apply H1. apply offset_masks; [|done]. apply ntohs_u16. }
  rewrite transport_read by done. cbv zeta. replace (off + 14 <=? Z.of_nat (length pkt)) with (14 <=? left) by (unfold left; lia).
  replace (off + 4 <=? Z.of_nat (length pkt)) with (4 <=? left) by (unfold left; lia). unfold q, ip_members, port_text. fold off. rewrite Z.add_0_r.
  destruct (proto =? IPPROTO_TCP); [destruct (14 <=? left); [|done]|destruct (proto =? IPPROTO_UDP); [destruct (4 <=? left); [|done]|destruct (proto =? IPPROTO_ICMP); [|done]]].
  all: cbn [obind]; repeat match goal with |- context [if ?b then 1 else 0] => replace ((if b then 1 else 0) =? -1) with false by (by destruct b) end.
  all: destruct (is_later_fragment pkt); [rewrite Hlater by done; reflexivity|]; destruct (is_fragment pkt); reflexivity.
Qed.
End reading.

(** A frame of TCP from 10.0.0.1 port 80 to 10.0.1.1 port 81, behind its Ethernet header. *)
Definition tcp_frame : bytes :=
  [69;0;0;40; 0;0;0;0; 64;6;0;0; 10;0;0;1; 10;0;1;1] ++ [0;80;0;81; 0;0;0;0; 0;0;0;0; 80;2;0;0; 0;0;0;0].

Lemma trace_packet_read_witness :
  let p := Mk_packet 0 0 [] 0 [] [] [] [] [] 0 0 0 false false false 0 false 0 in
  ipv4_captured tcp_frame /\
  exists q, ProcessPacket (fun _ => [49]) tcp_frame AF_INET 40 p = Ret (PP_OK, q) /\ tcpFlags q = 2 /\ szDestPort q = itoa (81 * 256).
Proof.
  intros p.
  assert (ipv4_captured tcp_frame) as H by (split; [apply (bool_decide_unpack _); vm_compute; exact I|vm_compute; done..]).
  split; [exact H|]. eexists. split; [|split]; [etransitivity; [exact (trace_packet_read (fun _ => [49]) ltac:(intros; cbn; lia) tcp_frame p H)|cbv iota beta zeta delta [Z.eqb Pos.eqb Z.leb]; vm_compute; reflexivity]|reflexivity..].
Defined.
