(* ===== verification/Dispatch.v ===== *)
(** * Dispatching of packets (src/NSP/As.cpp, As.h, SamplingPlatform.cpp)

    Every packet of the trace gets a source and a destination among the autonomous
    systems at the edge of the network: by the prefixes of its addresses, by their
    classes or by its flow.  It is put into the list of its two systems and its time on
    the time axis.  An std::string is its bytes. *)

From stdpp Require Import gmap.
From S2P Require Import Prelude CString Client RouterSampling Trace.

(** ** Addresses as texts *)

Definition dot : Z := 46.

(** The part before the first dot, and the rest behind it; without a dot both are the
    whole string, as pos is then -1. *)
Fixpoint before_dot (s : bytes) : bytes :=
  match s with [] => [] | c :: s => if c =? dot then [] else c :: before_dot s end.
Fixpoint behind_dot (s : bytes) : option bytes :=
  match s with [] => None | c :: s => if c =? dot then Some s else behind_dot s end.
Definition next_part (s : bytes) : bytes * bytes := (before_dot s, default s (behind_dot s)).

(** atoi of a std::string; it stops at a terminator inside. *)
Definition atoi_str (s : bytes) : outcome Z := atoi (s ++ [0]).

Fixpoint skip_parts (n : nat) (part : Z) (remaining : bytes) : outcome Z :=
  match n with
  | O => Ret part
  | S n =>
      let '(a, remaining) := next_part remaining in
      let! part := atoi_str a in
      skip_parts n part remaining
  end.

Definition GetIpPartNumber (Ip : bytes) (p : nat) : outcome Z :=
  let '(a, remaining) := next_part Ip in
  let! part := atoi_str a in
  if (p =? 0)%nat && (0 <? part) then Ret part
  else
    let! part := skip_parts p part remaining in
    if 0 <=? part then Ret part else Undef MissingReturn.

(** sprintf of numbers with dots between, into an array of 16. *)
Definition dotted (parts : list Z) : bytes :=
  match parts with
  | [] => []
  | n :: l => itoa n ++ concat ((fun n => dot :: itoa n) <$> l)
  end.
Definition print16 (parts : list Z) : outcome bytes :=
  if (length (dotted parts) <? 16)%nat then Ret (dotted parts) else Undef OutOfBounds.

Definition ApplyMask (ip : bytes) (mask : Z) : outcome bytes :=
  if (mask <? 1) || (4 <? mask) then Undef MissingReturn
  else
    let! a := GetIpPartNumber ip 0 in
    if mask =? 1 then print16 [a]
    else
      let! b := GetIpPartNumber ip 1 in
      if mask =? 2 then print16 [a; b]
      else
        let! c := GetIpPartNumber ip 2 in
        if mask =? 3 then print16 [a; b; c]
        else let! d := GetIpPartNumber ip 3 in print16 [a; b; c; d].

(** The class of an address; an address that is not understood has none. *)
Definition GetClass (Ip : bytes) : outcome bytes :=
  let '(a, remaining) := next_part Ip in
  let! p1 := atoi_str a in
  let '(a, remaining) := next_part remaining in
  let! p2 := atoi_str a in
  let '(a, remaining) := next_part remaining in
  let! p3 := atoi_str a in
  let '(a, _) := next_part remaining in
  let! p4 := atoi_str a in
  if (p1 <=? 0) || (p2 <? 0) || (p3 <? 0) || (p4 <? 0) then Ret []
  else if (1 <=? p1) && (p1 <=? 127) then Ret [65]
  else if (128 <=? p1) && (p1 <=? 191) then Ret [66]
  else if (192 <=? p1) && (p1 <=? 223) then Ret [67]
  else if (224 <=? p1) && (p1 <=? 239) then Ret [68]
  else if (240 <=? p1) && (p1 <=? 255) then Ret [69]
  else Ret [].

(** ** Systems *)

Record As := Mk_As {
  iAsNumber : Z;
  minInterval : Z;
  maxInterval : Z;
  ipClass : bytes;
  ListOfIps : list bytes;
  prefMap : gmap bytes Z;
  flowsMap : gmap bytes Z;
  numberOfPrefix : Z
}.

Definition set_ips (v : list bytes) (a : As) : As :=
  Mk_As (iAsNumber a) (minInterval a) (maxInterval a) (ipClass a) v (prefMap a) (flowsMap a) (numberOfPrefix a).
Definition set_prefMap (v : gmap bytes Z) (n : Z) (a : As) : As :=
  Mk_As (iAsNumber a) (minInterval a) (maxInterval a) (ipClass a) (ListOfIps a) v (flowsMap a) n.
Definition set_flowsMap (v : gmap bytes Z) (a : As) : As :=
  Mk_As (iAsNumber a) (minInterval a) (maxInterval a) (ipClass a) (ListOfIps a) (prefMap a) v (numberOfPrefix a).

(** The constructor; with an exception the class is left out. *)
Definition new_As (number mini maxi : Z) (cls : bytes) (dispatchingMethod : Z) : As :=
  Mk_As number mini maxi
    (if (dispatchingMethod =? 2) && bool_decide (cls ∈ [[65]; [66]; [67]; [68]]) then cls else [])
    [] ∅ ∅ 0.

Definition AddIp (ip : bytes) (a : As) : As := set_ips (ListOfIps a ++ [ip]) a.

Definition AddPrefix (p : bytes) (srcdest : Z) (a : As) : As :=
  set_prefMap (<[p := if srcdest =? 0 then 1 else 0]> (prefMap a)) (numberOfPrefix a + 1) a.

Definition FindPrefix (pref : bytes) (srcdest : Z) (a : As) : bool * As :=
  match prefMap a !! pref with
  | Some n => (true, if srcdest =? 0 then set_prefMap (<[pref := wrap32 (n + 1)]> (prefMap a)) (numberOfPrefix a) a else a)
  | None => (false, a)
  end.

(** Flow::GetUniqueDescription *)
Definition space : bytes := [32].
Definition GetUniqueDescription (sourceIp destIp protocol : bytes) (sourcePort destPort : Z) : bytes :=
  sourceIp ++ space ++ destIp ++ space ++ itoa sourcePort ++ space ++ itoa destPort ++ space ++ protocol.

Definition AddFlow (flow : bytes) (a : As) : As := set_flowsMap (<[flow := 1]> (flowsMap a)) a.
Definition FindFlow (flow : bytes) (a : As) : bool := bool_decide (is_Some (flowsMap a !! flow)).

Definition IsItWithinInterval (v : Z) (a : As) : bool := (minInterval a <=? v) && (v <=? maxInterval a).

(** VerifyIpAdr with method 1 *)
Definition IsInOurClass (ip : bytes) (a : As) : outcome bool :=
  let! c := GetClass ip in Ret (bool_decide (c = ipClass a)).

(** ** Times *)

(** Seconds and microseconds. *)
Definition timestamp : Type := Z * Z.

(** TimeStamp::Compare: 1 when [ts] is later than [this]. *)
Definition Compare (this ts : timestamp) : Z :=
  if ts.1 <? this.1 then -1
  else if ts.1 =? this.1 then if ts.2 <? this.2 then -1 else if this.2 <? ts.2 then 1 else 0
  else 1.

(** ** The platform *)

Definition TrafficMatrixMaxSize : Z := 40.

(** [asImportance] holds the numbers of the systems with weights, [d_draws] counts the
    calls of rand, and [matrix] is ListOfPacketMatrix. *)
Record dispatcher := Mk_dispatcher {
  ptrListOfAs : list As;
  lAsCouples : list (Z * Z);
  asImportance : list Z;
  lastSelectedAs : Z;
  dispatchingMethod : Z;
  ipMask : Z;
  d_draws : nat;
  numberOfPackets : Z;
  maxTs : timestamp;
  timeAxis : list timestamp;
  timeAxisSize : Z;
  matrix : gmap (Z * Z) (list packet)
}.

Definition set_systems (l : list As) (d : dispatcher) : dispatcher :=
  Mk_dispatcher l (lAsCouples d) (asImportance d) (lastSelectedAs d) (dispatchingMethod d) (ipMask d) (d_draws d) (numberOfPackets d) (maxTs d)
    (timeAxis d) (timeAxisSize d) (matrix d).
Definition set_selected (n : Z) (k : nat) (d : dispatcher) : dispatcher :=
  Mk_dispatcher (ptrListOfAs d) (lAsCouples d) (asImportance d) n (dispatchingMethod d) (ipMask d) k (numberOfPackets d) (maxTs d)
    (timeAxis d) (timeAxisSize d) (matrix d).
Definition set_queues (n : Z) (m : timestamp) (axis : list timestamp) (size : Z) (mx : gmap (Z * Z) (list packet)) (d : dispatcher) : dispatcher :=
  Mk_dispatcher (ptrListOfAs d) (lAsCouples d) (asImportance d) (lastSelectedAs d) (dispatchingMethod d) (ipMask d) (d_draws d) n m axis size mx.

Definition packets_between (d : dispatcher) (a b : Z) : list packet := default [] (matrix d !! (a, b)).

(** The position of the first system with the number. *)
Fixpoint find_as (n : Z) (l : list As) : option nat :=
  match l with
  | [] => None
  | a :: l => if iAsNumber a =? n then Some 0%nat else S <$> find_as n l
  end.
Definition GetAs (n : Z) (d : dispatcher) : outcome (option nat) := if n <? 0 then Undef MissingReturn else Ret (find_as n (ptrListOfAs d)).

Definition ValidateCouple (a b : Z) (d : dispatcher) : outcome bool :=
  match lAsCouples d with
  | [] => Undef MissingReturn
  | l => Ret (existsb (fun c => (c.1 =? a) && (c.2 =? b) || (a =? b) && (a =? c.2)) l)
  end.

Definition IncrementTimeAxis (t : timestamp) (d : dispatcher) : outcome dispatcher :=
  if timeAxisSize d <? 2147483647 then Ret (set_queues (numberOfPackets d) (maxTs d) (timeAxis d ++ [t]) (timeAxisSize d + 1) (matrix d) d)
  else Undef SignedOverflow.

Definition PushPacket (p : packet) (a b : Z) (d : dispatcher) : outcome dispatcher :=
  if (0 <=? a) && (a <? TrafficMatrixMaxSize) && (0 <=? b) && (b <? TrafficMatrixMaxSize) then
    Ret (set_queues (numberOfPackets d) (maxTs d) (timeAxis d) (timeAxisSize d) (<[(a, b) := packets_between d a b ++ [p]]> (matrix d)) d)
  else Undef OutOfBounds.

(** The packet is counted and queued. *)
Definition enter (p : packet) (t : timestamp) (a b : Z) (d : dispatcher) : outcome dispatcher :=
  let d := set_queues (wrap64 (numberOfPackets d + 1)) (if 0 <? Compare (maxTs d) t then t else maxTs d) (timeAxis d) (timeAxisSize d) (matrix d) d in
  let! d := IncrementTimeAxis t d in PushPacket p a b d.

Section dispatch.
(** The results of rand(). *)
Context (rand : nat -> Z).

Definition GetRandomAsNumber (d : dispatcher) : outcome (Z * nat) :=
  let randomPosition := rand (d_draws d) mod 101 in
  match List.find (IsItWithinInterval randomPosition) (ptrListOfAs d) with
  | Some a => Ret (iAsNumber a, S (d_draws d))
  | None => Undef MissingReturn
  end.

Definition SelectAsRandomlyBasedOnWeights (d : dispatcher) : outcome (Z * dispatcher) :=
  match asImportance d with
  | [] => Undef MissingReturn
  | _ => let! (n, k) := GetRandomAsNumber d in Ret (n, set_selected n k d)
  end.

(** A system for a prefix or a flow that no system has yet, and its number; None for an
    exception. *)
Definition select_and_add (add : As -> As) (d : dispatcher) : outcome (option Z * dispatcher) :=
  let! (n, d) := SelectAsRandomlyBasedOnWeights d in
  let! i := GetAs n d in
  match i with
  | None => Ret (None, d)
  | Some i => Ret (Some n, set_systems (alter add i (ptrListOfAs d)) d)
  end.

(** The loop over the systems: [find_src] and [find_dst] look into a system, which may
    change; the first system in which one succeeds is taken. *)
Fixpoint find_systems (find_src find_dst : As -> bool * As) (l : list As) (src dst : option Z) : list As * option Z * option Z :=
  match l with
  | [] => ([], src, dst)
  | a :: l =>
      let '(f, a) := find_src a in
      let src := match src with None => if f then Some (iAsNumber a) else None | Some _ => src end in
      let '(g, a) := find_dst a in
      let dst := match dst with None => if g then Some (iAsNumber a) else None | Some _ => dst end in
      match src, dst with
      | Some _, Some _ => (a :: l, src, dst)
      | _, _ => let '(l, src, dst) := find_systems find_src find_dst l src dst in (a :: l, src, dst)
      end
  end.

(** The end of the methods 1 and 3: a packet of a couple that is not wanted is freed. *)
Definition set_as_numbers (a b : Z) (p : packet) : packet :=
  Mk_packet (usecond p) (second p) (szMonitorIp p) (lLength p) (szIpSource p) (szIpDest p) (szSourcePort p) (szDestPort p) (szProtocol p)
    (iResponsibleNode p) a b (fragment p) (ipv4 p) (ipv6 p) (fragmentSeqNumber p) (forwardedToSoftflowd p) (tcpFlags p).
Definition time_of (p : packet) : timestamp := (second p, usecond p).
Definition enter_if_valid (p : packet) (a b : Z) (d : dispatcher) : outcome dispatcher :=
  let! v := ValidateCouple a b d in
  if v then enter (set_as_numbers a b p) (time_of p) a b d else Ret d.

(** Method 1: by the prefixes. *)
Definition dispatch_by_prefix (p : packet) (d : dispatcher) : outcome dispatcher :=
  let! sourceIpPref := ApplyMask (szIpSource p) (ipMask d) in
  let! destIpPref := ApplyMask (szIpDest p) (ipMask d) in
  let '(l, src, dst) := find_systems (FindPrefix sourceIpPref 0) (FindPrefix destIpPref 1) (ptrListOfAs d) None None in
  let d := set_systems l d in
  let! (src, d, dst) :=
    match src with
    | Some _ => Ret (src, d, dst)
    | None =>
        let! (n, d) := select_and_add (AddPrefix sourceIpPref 0) d in
        Ret (n, d, match n with Some _ => if bool_decide (sourceIpPref = destIpPref) then n else dst | None => dst end)
    end in
  match src with
  | None => Ret d
  | Some a =>
      let! (dst, d) := match dst with Some _ => Ret (dst, d) | None => select_and_add (AddPrefix destIpPref 1) d end in
      match dst with
      | None => Ret d
      | Some b => enter_if_valid p a b d
      end
  end.

(** Method 2: by the classes.  The packet is taken by the first couple that fits, for a
    second one the pointer is null; a couple without systems ends the loop with an
    exception. *)
Fixpoint class_couples (p : packet) (taken : bool) (l : list (Z * Z)) (d : dispatcher) : outcome dispatcher :=
  match l with
  | [] => Ret d
  | c :: l =>
      let! i := GetAs c.1 d in
      let! j := GetAs c.2 d in
      match i, j with
      | Some i, Some j =>
          let! s := match ptrListOfAs d !! i with Some a => IsInOurClass (szIpSource p) a | None => Undef UseAfterFree end in
          let! t := if s then match ptrListOfAs d !! j with Some a => IsInOurClass (szIpDest p) a | None => Undef UseAfterFree end else Ret false in
          if t then
            if taken then Undef NullDeref
            else
              let d := set_systems (alter (AddIp (szIpDest p)) j (alter (AddIp (szIpSource p)) i (ptrListOfAs d))) d in
              let! d := enter (set_as_numbers c.1 c.2 p) (time_of p) c.1 c.2 d in
              class_couples p true l d
          else class_couples p taken l d
      | _, _ => Ret d
      end
  end.
Definition dispatch_by_class (p : packet) (d : dispatcher) : outcome dispatcher := class_couples p false (lAsCouples d) d.

(** Method 3: by the flow of the packet for the source, and the reverse flow for the
    destination. *)
Definition dispatch_by_flow (p : packet) (d : dispatcher) : outcome dispatcher :=
  let! sport := atoi_str (szSourcePort p) in
  let! dport := atoi_str (szDestPort p) in
  let forth := GetUniqueDescription (szIpSource p) (szIpDest p) (szProtocol p) sport dport in
  let back := GetUniqueDescription (szIpDest p) (szIpSource p) (szProtocol p) dport sport in
  let '(l, src, dst) := find_systems (fun a => (FindFlow forth a, a)) (fun a => (FindFlow back a, a)) (ptrListOfAs d) None None in
  let! (src, d) := match src with Some _ => Ret (src, d) | None => select_and_add (AddFlow forth) d end in
  match src with
  | None => Ret d
  | Some a =>
      let! (dst, d) := match dst with Some _ => Ret (dst, d) | None => select_and_add (AddFlow back) d end in
      match dst with
      | None => Ret d
      | Some b => enter_if_valid p a b d
      end
  end.

Definition dispatch (p : packet) (d : dispatcher) : outcome dispatcher :=
  if dispatchingMethod d =? 1 then dispatch_by_prefix p d
  else if dispatchingMethod d =? 2 then dispatch_by_class p d
  else if dispatchingMethod d =? 3 then dispatch_by_flow p d
  else Ret d.

(** A frame as pcap gives it, its captured length and time, and what malloc gives for its
    packet. *)
Definition captured : Type := bytes * Z * (Z * Z) * packet.

(** PerPacketCallBackFunction *)
Definition PerPacketCallBackFunction (inet_ntoa : Z -> bytes) (linktype : Z) (frame : captured) (d : dispatcher) : outcome dispatcher :=
  let '(pkt, caplen, tv, junk) := frame in
  let! p := read_frame inet_ntoa linktype pkt caplen tv junk in
  match p with
  | Some p => dispatch p d
  | None => Ret d
  end.

(** A call of pcap_dispatch, which calls back for each of its frames. *)
Definition pcap_dispatch (inet_ntoa : Z -> bytes) (linktype : Z) (d : dispatcher) (frames : list captured) : outcome dispatcher :=
  ofold (fun d f => PerPacketCallBackFunction inet_ntoa linktype f d) d frames.
End dispatch.
