(* ===== verification/DispatchProps.v ===== *)
(** * What dispatching by prefixes guarantees

    Every prefix belongs to one system, for ever, and the lists of packets are the trace
    sorted by the systems of the prefixes, in its order. *)

From stdpp Require Import gmap.
From S2P Require Import Prelude CString Client Control RouterSampling Trace.
From S2P Require Import Dispatch.

(** ** Addresses *)

(** Four numbers of a byte. *)
Definition quad (l : list Z) : Prop := length l = 4%nat /\ Forall u8 l.

Lemma itoa_digits n : 0 <= n < 2147483648 -> Forall (fun c => isdigit c = true) (itoa n) /\ itoa n <> [].
Proof. intros Hn. destruct (itoa_number n Hn) as ((H1 & H2 & _) & _). done. Qed.

Lemma next_part_digits d r : Forall (fun c => isdigit c = true) d -> next_part (d ++ dot :: r) = (d, r).
Proof.
  intros Hd. unfold next_part. assert (before_dot (d ++ dot :: r) = d /\ behind_dot (d ++ dot :: r) = Some r) as [-> ->]; [|done].
  induction Hd as [|c d Hc _ [IH1 IH2]]; [done|]. cbn [app before_dot behind_dot].
  assert ((c =? dot) = false) as -> by (unfold isdigit in Hc; unfold dot; lia). by rewrite IH1, IH2.
Qed.

Lemma next_part_last d : Forall (fun c => isdigit c = true) d -> next_part d = (d, d).
Proof.
  intros Hd. unfold next_part. assert (before_dot d = d /\ behind_dot d = None) as [-> ->]; [|done].
  induction Hd as [|c d Hc _ [IH1 IH2]]; [done|]. cbn [before_dot behind_dot].
  assert ((c =? dot) = false) as -> by (unfold isdigit in Hc; unfold dot; lia). by rewrite IH1, IH2.
Qed.

Lemma atoi_itoa n : 0 <= n < 2147483648 -> atoi_str (itoa n) = Ret n.
Proof.
  intros Hn. destruct (itoa_number n Hn) as ((H1 & H2 & _ & H3) & H4 & _). unfold atoi_str. by rewrite (atoi_digits (itoa n) 0 []), H4.
Qed.

(** The parts of a dotted text, one after the other. *)
Lemma skip_parts_ok l : Forall u8 l -> forall k n, l !! k = Some n -> forall part,
  skip_parts (S k) part (dotted l) = Ret n.
Proof.
  induction 1 as [|a l Ha Hl IH]; [done|]. intros k n Hk part. unfold u8 in Ha. destruct (itoa_digits a) as [Hd _]; [lia|].
  destruct l as [|b l].
  { destruct k; [|by rewrite lookup_cons in Hk]. injection Hk as ->. cbn [skip_parts dotted fmap list_fmap concat]. rewrite app_nil_r, next_part_last by done.
    by rewrite atoi_itoa by lia. }
  change (dotted (a :: b :: l)) with (itoa a ++ dot :: dotted (b :: l)). cbn [skip_parts]. rewrite next_part_digits by done. rewrite atoi_itoa by lia. cbn [obind].
  destruct k as [|k]; [by injection Hk as ->|]. by apply IH.
Qed.

Lemma GetIpPartNumber_ok l k n : Forall u8 l -> l !! k = Some n -> GetIpPartNumber (dotted l) k = Ret n.
Proof.
  intros Hl Hk. assert (0 <= n) as Hn by (eapply Forall_lookup_1 in Hk; [|exact Hl]; unfold u8 in Hk; lia).
  pose proof (skip_parts_ok l Hl k n Hk 0) as E. unfold GetIpPartNumber. cbn [skip_parts] in E. destruct (next_part (dotted l)) as [a r].
  destruct (atoi_str a) as [v| | |] eqn:Ev; [|done..]. cbn [obind] in *. rewrite E. cbn [obind]. rewrite (proj2 (Z.leb_le _ _)) by lia.
  destruct k as [|k]; [|done]. cbn [Nat.eqb andb skip_parts] in *. destruct (0 <? v); [|done]. by injection E as ->.
Qed.

Lemma dotted_short l : Forall u8 l -> (length l <= 4)%nat -> (length (dotted l) < 16)%nat.
Proof.
  intros Hl. assert (forall n, u8 n -> (length (itoa n) <= 3)%nat) as Hi.
  { intros n Hn. unfold u8 in Hn. unfold itoa. rewrite (proj2 (Z.ltb_ge _ _)) by lia. pose proof (udigits_length 20 n [] 3). cbn [length] in *. lia. }
  assert (length (concat ((fun n => dot :: itoa n) <$> tail l)) <= 4 * (length l - 1))%nat as Ht.
  { destruct Hl as [|a l Ha Hl]; [done|]. cbn [tail length]. clear -Hi Hl. induction Hl as [|a l Ha _ IH]; [cbn; lia|].
    cbn [fmap list_fmap concat]. rewrite length_app. cbn [length]. specialize (Hi a Ha). lia. }
  destruct Hl as [|a l Ha Hl]; [cbn; lia|]. intros Hlen. unfold dotted. rewrite length_app. cbn [tail length] in *. specialize (Hi a Ha). lia.
Qed.

(** ApplyMask keeps the first numbers of the address. *)
Lemma ApplyMask_ok l mask : quad l -> 1 <= mask <= 4 -> ApplyMask (dotted l) mask = Ret (dotted (take (Z.to_nat mask) l)).
Proof.
  intros [Hlen Hl] Hm. destruct l as [|a [|b [|c [|d [|]]]]]; try done.
  unfold ApplyMask. rewrite (proj2 (Z.ltb_ge _ _)), (proj2 (Z.ltb_ge _ _)) by lia. cbn [orb].
  rewrite (GetIpPartNumber_ok _ 0 a), (GetIpPartNumber_ok _ 1 b), (GetIpPartNumber_ok _ 2 c), (GetIpPartNumber_ok _ 3 d) by done. cbn [obind].
  assert (forall k, print16 (take k [a; b; c; d]) = Ret (dotted (take k [a; b; c; d]))) as Hp.
  { intros k. unfold print16. rewrite (proj2 (Nat.ltb_lt _ _)); [done|]. apply dotted_short; [by apply Forall_take|rewrite length_take; cbn; lia]. }
  assert (mask = 1 \/ mask = 2 \/ mask = 3 \/ mask = 4) as [->|[->|[->| ->]]] by lia; cbn [Z.eqb Pos.eqb];
    [exact (Hp 1%nat)|exact (Hp 2%nat)|exact (Hp 3%nat)|exact (Hp 4%nat)].
Qed.

(** The text up to the dot behind the first [S k] numbers. *)
Fixpoint cut (k : nat) (s : bytes) : bytes :=
  match s with
  | [] => []
  | c :: s => if c =? dot then match k with O => [] | S k => c :: cut k s end else c :: cut k s
  end.
Definition prefix (mask : Z) (ip : bytes) : bytes := cut (Z.to_nat mask - 1) ip.
Definition is_address (ip : bytes) : Prop := exists l, quad l /\ ip = dotted l.

Lemma cut_digits d s k : Forall (fun c => isdigit c = true) d -> cut k (d ++ s) = d ++ cut k s.
Proof.
  induction 1 as [|c d Hc _ IH]; [done|]. cbn [app cut]. assert ((c =? dot) = false) as -> by (unfold isdigit in Hc; unfold dot; lia). by rewrite IH.
Qed.

Lemma cut_dotted l : Forall u8 l -> forall k, cut k (dotted l) = dotted (take (S k) l).
Proof.
  induction 1 as [|a l Ha Hl IH]; [done|]. intros k. unfold u8 in Ha. destruct (itoa_digits a) as [Hd _]; [lia|]. destruct l as [|b l].
  { cbn [take]. rewrite take_nil. cbn [dotted fmap list_fmap concat]. by rewrite cut_digits. }
  change (dotted (a :: b :: l)) with (itoa a ++ dot :: dotted (b :: l)). rewrite cut_digits by done. cbn [cut]. rewrite Z.eqb_refl. destruct k as [|k].
  { cbn [take dotted fmap list_fmap concat]. done. }
  rewrite IH. cbn [take]. done.
Qed.

Lemma ApplyMask_prefix ip mask : is_address ip -> 1 <= mask <= 4 -> ApplyMask ip mask = Ret (prefix mask ip).
Proof.
  intros (l & Hl & ->) Hm. rewrite ApplyMask_ok by done. destruct Hl as [_ Hl]. unfold prefix. rewrite cut_dotted by done. do 3 f_equal. lia.
Qed.

(** ** The system of a prefix *)

Definition holds (x : bytes) (a : As) : bool := bool_decide (is_Some (prefMap a !! x)).
Fixpoint as_of (x : bytes) (l : list As) : option Z :=
  match l with
  | [] => None
  | a :: l => if holds x a then Some (iAsNumber a) else as_of x l
  end.

(** What dispatching looks at in a system. *)
Definition view (a : As) : Z * Z * Z * gset bytes := (iAsNumber a, minInterval a, maxInterval a, dom (prefMap a)).

Lemma holds_dom x a : holds x a = bool_decide (x ∈ dom (prefMap a)).
Proof. unfold holds. apply bool_decide_ext. by rewrite elem_of_dom. Qed.

Lemma holds_view x a b : view a = view b -> holds x a = holds x b.
Proof. intros H. unfold view in H. assert (dom (prefMap a) = dom (prefMap b)) as E by congruence. by rewrite !holds_dom, E. Qed.

Lemma view_number a b : view a = view b -> iAsNumber a = iAsNumber b.
Proof. unfold view. congruence. Qed.

Lemma as_of_view x l : forall l', view <$> l = view <$> l' -> as_of x l = as_of x l'.
Proof.
  induction l as [|a l IH]; intros [|b l'] H; try done. cbn [fmap list_fmap] in H. assert (view a = view b /\ view <$> l = view <$> l') as [Hab Hl] by (split; congruence). cbn [as_of].
  assert (holds x a = holds x b) as -> by by apply holds_view. rewrite (IH l') by done. unfold view in Hab. assert (iAsNumber a = iAsNumber b) as -> by congruence. done.
Qed.

Lemma FindPrefix_view x b a : FindPrefix x b a = (holds x a, (FindPrefix x b a).2) /\ view (FindPrefix x b a).2 = view a.
Proof.
  unfold FindPrefix, holds. destruct (prefMap a !! x) as [n|] eqn:E; [|done]. split; [done|]. cbn [snd]. destruct (b =? 0); [|done].
  unfold view, set_prefMap. cbn [iAsNumber minInterval maxInterval prefMap]. by rewrite dom_insert_lookup_L by by eexists.
Qed.

(** The loop finds the systems of the two prefixes, and only counts. *)
Lemma find_systems_prefix x y l : forall src dst, exists l',
  find_systems (FindPrefix x 0) (FindPrefix y 1) l src dst =
    (l', match src with Some _ => src | None => as_of x l end, match dst with Some _ => dst | None => as_of y l end) /\ view <$> l' = view <$> l.
Proof.
  induction l as [|a l IH]; intros src dst; [by exists []; destruct src, dst|]. cbn [find_systems as_of].
  destruct (FindPrefix_view x 0 a) as [E1 V1]. rewrite E1. remember (FindPrefix x 0 a).2 as a1.
  destruct (FindPrefix_view y 1 a1) as [E2 V2]. rewrite E2. remember (FindPrefix y 1 a1).2 as a2.
  rewrite (holds_view y a1 a) by done. pose proof (view_number _ _ V1) as ->. pose proof (view_number _ _ (eq_trans V2 V1)) as N2. rewrite N2.
  destruct (IH (match src with Some _ => src | None => if holds x a then Some (iAsNumber a) else None end)
    (match dst with Some _ => dst | None => if holds y a then Some (iAsNumber a) else None end)) as (l' & E & V).
  assert (view <$> (a2 :: l') = view <$> a :: l) as Hv by (cbn [fmap list_fmap]; f_equal; [congruence|done]).
  assert (view <$> (a2 :: l) = view <$> a :: l) as Hv0 by (cbn [fmap list_fmap]; f_equal; congruence).
  destruct src as [s|], dst as [t|].
  - by exists (a2 :: l).
  - destruct (holds y a); [by exists (a2 :: l)|]. rewrite E. by exists (a2 :: l').
  - destruct (holds x a); [by exists (a2 :: l)|]. rewrite E. by exists (a2 :: l').
  - destruct (holds x a), (holds y a); try (rewrite E); by eexists.
Qed.

(** ** Adding a prefix *)

Definition frame (a : As) : Z * Z * Z := (iAsNumber a, minInterval a, maxInterval a).
Definition holders (x : bytes) (l : list As) : nat := length (filter (fun a => holds x a = true) l).

Lemma view_frame (l l' : list As) : view <$> l = view <$> l' -> frame <$> l = frame <$> l'.
Proof.
  intros H. apply (f_equal (fmap (fun v : Z * Z * Z * gset bytes => v.1))) in H. rewrite <- !list_fmap_compose in H. exact H.
Qed.

Lemma holders_view x l : forall l', view <$> l = view <$> l' -> holders x l = holders x l'.
Proof.
  unfold holders. induction l as [|a l IH]; intros [|b l'] H; try done. cbn [fmap list_fmap] in H.
  assert (view a = view b /\ view <$> l = view <$> l') as [Hab Hl] by (split; congruence).
  rewrite !filter_cons, (holds_view x a b) by done. specialize (IH l' Hl). case_decide; cbn [length]; lia.
Qed.

Lemma AddPrefix_holds x b y a : holds y (AddPrefix x b a) = if decide (y = x) then true else holds y a.
Proof.
  unfold holds, AddPrefix, set_prefMap. cbn [prefMap]. case_decide as H; [subst; rewrite lookup_insert_eq; by apply bool_decide_true|].
  by rewrite lookup_insert_ne by done.
Qed.

Lemma AddPrefix_frame x b (i : nat) (l : list As) : frame <$> alter (AddPrefix x b) i l = frame <$> l.
Proof. revert i. induction l as [|a l IH]; [done|]. intros [|i]; [done|]. cbn. by rewrite IH. Qed.

Lemma as_of_add x b y l : forall (i : nat) a, as_of x l = None -> l !! i = Some a ->
  as_of y (alter (AddPrefix x b) i l) = (if decide (y = x) then Some (iAsNumber a) else as_of y l) /\
  holders y (alter (AddPrefix x b) i l) = if decide (y = x) then 1%nat else holders y l.
Proof.
  unfold holders. induction l as [|c l IH]; [done|]. intros i a Hx Hi. cbn [as_of] in Hx. destruct (holds x c) eqn:Hc; [done|].
  assert (as_of x l = None -> filter (fun a => holds x a = true) l = []) as Hnil.
  { clear. induction l as [|c l IH]; [done|]. cbn [as_of]. intros H. rewrite filter_cons. destruct (holds x c); [done|]. rewrite decide_False by done. by apply IH. }
  destruct i as [|i].
  - injection Hi as ->. change (alter (AddPrefix x b) 0%nat (a :: l)) with (AddPrefix x b a :: l). cbn [as_of]. rewrite !filter_cons, AddPrefix_holds.
    destruct (decide (y = x)) as [->|Hy]; [|split; [done|by destruct (decide (holds y a = true))]]. rewrite decide_True by done. split; [done|]. by rewrite Hnil.
  - change (alter (AddPrefix x b) (S i) (c :: l)) with (c :: alter (AddPrefix x b) i l). cbn [as_of lookup list_lookup] in *. destruct (IH i a Hx Hi) as [E1 E2].
    rewrite !filter_cons, E1. destruct (decide (y = x)) as [->|Hy]; [rewrite Hc; by rewrite decide_False|].
    split; [done|]. case_decide; cbn [length]; by rewrite E2.
Qed.

Lemma find_as_some n l a : a ∈ l -> iAsNumber a = n -> exists i c, find_as n l = Some i /\ l !! i = Some c /\ iAsNumber c = n.
Proof.
  intros H Hn. induction l as [|c l IH]; [by apply elem_of_nil in H|]. cbn [find_as]. destruct (Z.eqb_spec (iAsNumber c) n) as [E|E]; [by exists 0%nat, c|].
  apply elem_of_cons in H as [<-|H]; [done|]. destruct (IH H) as (i & c' & E' & Hi & Hc). rewrite E'. by exists (S i), c'.
Qed.

(** ** The systems *)

(** The numbers are indices of the matrix, the weights share 0 to 100 among the systems,
    and no prefix has two systems. *)
Record systems_ok (l : list As) : Prop := {
  so_numbers : Forall (fun f : Z * Z * Z => 0 <= f.1.1 < TrafficMatrixMaxSize) (frame <$> l);
  so_intervals : forall v, 0 <= v <= 100 -> Exists (fun f : Z * Z * Z => f.1.2 <= v <= f.2) (frame <$> l);
  so_once : forall x, (holders x l <= 1)%nat
}.

(** The system that a random number selects. *)
Definition drawn (l : list As) (r : Z) : option Z := iAsNumber <$> List.find (IsItWithinInterval (r mod 101)) l.

Lemma drawn_frame l r : forall l', frame <$> l = frame <$> l' -> drawn l r = drawn l' r.
Proof.
  unfold drawn. induction l as [|a l IH]; intros [|b l'] H; try done. cbn [fmap list_fmap] in H.
  assert (frame a = frame b /\ frame <$> l = frame <$> l') as [Hab Hl] by (split; congruence).
  cbn [List.find]. unfold frame in Hab. assert (IsItWithinInterval (r mod 101) a = IsItWithinInterval (r mod 101) b) as -> by (unfold IsItWithinInterval; congruence).
  destruct (IsItWithinInterval _ b); [cbn; congruence|]. by apply IH.
Qed.

Lemma drawn_ok l r : systems_ok l -> exists a, List.find (IsItWithinInterval (r mod 101)) l = Some a /\ a ∈ l /\ 0 <= iAsNumber a < TrafficMatrixMaxSize.
Proof.
  intros [H1 H2 _]. pose proof (Z.mod_pos_bound r 101 ltac:(lia)) as Hr. specialize (H2 (r mod 101) ltac:(lia)). rewrite Exists_fmap in H2. rewrite Forall_fmap in H1.
  destruct (List.find _ l) as [a|] eqn:E.
  - apply List.find_some in E as [E _]. apply list_elem_of_In in E. exists a. split; [done|]. split; [done|]. rewrite Forall_forall in H1. exact (H1 a E).
  - apply Exists_exists in H2 as (a & Ha & Hv). apply list_elem_of_In in Ha. pose proof (List.find_none _ _ E a Ha) as Hn. unfold IsItWithinInterval in Hn. cbn in Hv. lia.
Qed.

Lemma systems_ok_view (l l' : list As) : view <$> l' = view <$> l -> systems_ok l -> systems_ok l'.
Proof.
  intros Hv [H1 H2 H3]. pose proof (view_frame _ _ Hv) as Hf. split; [by rewrite Hf|by rewrite Hf|]. intros x. by rewrite (holders_view x l' l).
Qed.

(** ** A packet *)

Section prefixes.
Context (rand : nat -> Z).

(** Room for [n] more packets on the time axis. *)
Record dispatcher_ok (n : nat) (d : dispatcher) : Prop := {
  do_method : dispatchingMethod d = 1;
  do_mask : 1 <= ipMask d <= 4;
  do_couples : lAsCouples d <> [];
  do_weights : asImportance d <> [];
  do_systems : systems_ok (ptrListOfAs d);
  do_axis : timeAxisSize d + Z.of_nat n < 2147483648
}.

(** What the configuration gives stays. *)
Definition same_configuration (d d' : dispatcher) : Prop :=
  lAsCouples d' = lAsCouples d /\ asImportance d' = asImportance d /\ dispatchingMethod d' = dispatchingMethod d /\ ipMask d' = ipMask d /\
  frame <$> ptrListOfAs d' = frame <$> ptrListOfAs d.

Definition same_queues (d d' : dispatcher) : Prop :=
  timeAxis d' = timeAxis d /\ timeAxisSize d' = timeAxisSize d /\ matrix d' = matrix d.

(** The prefixes keep their systems, and a new prefix gets the system of a number drawn
    meanwhile. *)
Record assigns (d d' : dispatcher) : Prop := {
  as_kept : forall x a, as_of x (ptrListOfAs d) = Some a -> as_of x (ptrListOfAs d') = Some a;
  as_drawn : forall x a, as_of x (ptrListOfAs d') = Some a -> as_of x (ptrListOfAs d) = Some a \/
    exists k, (d_draws d <= k < d_draws d')%nat /\ drawn (ptrListOfAs d) (rand k) = Some a;
  as_draws : (d_draws d <= d_draws d')%nat
}.

Lemma assigns_refl d d' : view <$> ptrListOfAs d' = view <$> ptrListOfAs d -> d_draws d' = d_draws d -> assigns d d'.
Proof.
  intros Hv Hk. split; [|intros x a H; left|lia]; intros *; by rewrite (as_of_view _ _ _ Hv) in *.
Qed.

Lemma assigns_trans d1 d2 d3 : frame <$> ptrListOfAs d2 = frame <$> ptrListOfAs d1 -> assigns d1 d2 -> assigns d2 d3 -> assigns d1 d3.
Proof.
  intros Hf [A1 A2 A3] [B1 B2 B3]. split; [|intros x a H|lia]. { intros x a H. by apply B1, A1. }
  destruct (B2 x a H) as [H'|(k & Hk & H')]; [destruct (A2 x a H') as [H''|(k & Hk & H'')]|]; [by left|right; exists k..]; (split; [lia|]); [done|].
  by rewrite (drawn_frame _ _ _ (eq_sym Hf)).
Qed.

Definition owner (d : dispatcher) (x : bytes) : option Z := as_of x (ptrListOfAs d).

(** One prefix that has no system yet gets one. *)
Lemma select_prefix x b d : asImportance d <> [] -> systems_ok (ptrListOfAs d) -> as_of x (ptrListOfAs d) = None ->
  exists a d', select_and_add rand (AddPrefix x b) d = Ret (Some a, d') /\ as_of x (ptrListOfAs d') = Some a /\ (forall y, y <> x -> owner d' y = owner d y) /\ 0 <= a < TrafficMatrixMaxSize /\
    systems_ok (ptrListOfAs d') /\ assigns d d' /\ same_configuration d d' /\ same_queues d d'.
Proof.
  intros Hw Hs Hx. destruct (drawn_ok _ (rand (d_draws d)) Hs) as (a & Ef & Ha & Hr).
  destruct (find_as_some (iAsNumber a) _ a Ha eq_refl) as (i & c & Ei & Hi & Hc).
  pose proof (fun y => as_of_add x b y _ i c Hx Hi) as Hadd. rewrite Hc in Hadd.
  set (l := alter (AddPrefix x b) i (ptrListOfAs d)) in *.
  exists (iAsNumber a), (set_systems l (set_selected (iAsNumber a) (S (d_draws d)) d)). split.
  { unfold select_and_add, SelectAsRandomlyBasedOnWeights, GetRandomAsNumber. cbv zeta. rewrite Ef. destruct (asImportance d); [done|]. cbn [obind].
    unfold GetAs. rewrite (proj2 (Z.ltb_ge _ _)) by lia. cbn [obind ptrListOfAs set_selected]. by rewrite Ei. }
  cbn [ptrListOfAs set_systems]. split; [rewrite (proj1 (Hadd x)); by rewrite decide_True|].
  split; [intros y Hy; unfold owner; cbn [ptrListOfAs set_systems]; rewrite (proj1 (Hadd y)); by rewrite decide_False|]. split; [done|].
  assert (frame <$> l = frame <$> ptrListOfAs d) as Hf by apply AddPrefix_frame.
  split; [|split; [|by split]]. { destruct Hs as [H1 H2 H3]. split; [by rewrite Hf|by rewrite Hf|]. intros y. rewrite (proj2 (Hadd y)). case_decide; [lia|apply H3]. }
  split; cbn [ptrListOfAs set_systems d_draws set_selected]; [| |lia].
  - intros y n Hy. rewrite (proj1 (Hadd y)). rewrite decide_False; [done|]. intros ->. congruence.
  - intros y n. rewrite (proj1 (Hadd y)). case_decide as Hyx; [|by left]. intros [= <-]. right. exists (d_draws d). split; [lia|]. unfold drawn. by rewrite Ef.
Qed.

(** The system of a prefix, old or new. *)
Lemma assign_prefix x b d : asImportance d <> [] -> systems_ok (ptrListOfAs d) ->
  exists a d', (match as_of x (ptrListOfAs d) with Some a => Ret (Some a, d) | None => select_and_add rand (AddPrefix x b) d end) = Ret (Some a, d') /\
    as_of x (ptrListOfAs d') = Some a /\ (forall y, y <> x -> owner d' y = owner d y) /\ 0 <= a < TrafficMatrixMaxSize /\
    systems_ok (ptrListOfAs d') /\ assigns d d' /\ same_configuration d d' /\ same_queues d d'.
Proof.
  intros Hw Hs. destruct (as_of x (ptrListOfAs d)) as [a|] eqn:Hx; [|by apply select_prefix]. exists a, d. split; [done|]. split; [done|]. split; [done|].
  split; [|by split_and!; [|apply assigns_refl|..]]. destruct Hs as [H1 _ _]. rewrite Forall_fmap in H1. clear -Hx H1.
  induction H1 as [|c l Hc _ IH]; [done|]. cbn [as_of] in Hx. destruct (holds x c); [injection Hx as <-; exact Hc|by apply IH].
Qed.

(** Couples that are wanted: those of the configuration, and a destination with itself. *)
Definition wanted (l : list (Z * Z)) (a b : Z) : bool := bool_decide ((a, b) ∈ l) || bool_decide (a = b) && bool_decide (b ∈ l.*2).

Lemma ValidateCouple_ok a b d : lAsCouples d <> [] -> ValidateCouple a b d = Ret (wanted (lAsCouples d) a b).
Proof.
  unfold ValidateCouple, wanted. intros Hl. destruct (lAsCouples d) as [|c l] eqn:E; [done|]. rewrite <- E. clear. f_equal. generalize (lAsCouples d). clear. intros l.
  apply eq_bool_prop_intro. rewrite existb_True, Exists_exists, orb_True, andb_True, !bool_decide_spec, list_elem_of_fmap. split.
  - intros ((c1 & c2) & Hc & H%Is_true_true). cbn [fst snd] in H. destruct (decide (c1 = a /\ c2 = b)) as [[-> ->]|Hn]; [by left|right].
    assert (a = b /\ b = c2) as [-> ->] by lia. split; [done|]. by exists (c1, c2).
  - intros [H|[-> ((c1 & c2) & E & H)]]; [exists (a, b)|exists (c1, c2)]; (split; [done|]); cbn [fst snd] in *; apply Is_true_true; lia.
Qed.
(** Where a packet goes, when [own] is the system of each prefix. *)
Definition goes (own : bytes -> option Z) (couples : list (Z * Z)) (mask : Z) (p : packet) : option (Z * Z) :=
  match own (prefix mask (szIpSource p)), own (prefix mask (szIpDest p)) with
  | Some a, Some b => if wanted couples a b then Some (a, b) else None
  | _, _ => None
  end.

(** The packets [ps] are in the queues of [d'], behind those of [d]. *)
Record queued (ps : list packet) (d d' : dispatcher) : Prop := {
  qd_owned : Forall (fun p => is_Some (owner d' (prefix (ipMask d) (szIpSource p))) /\ is_Some (owner d' (prefix (ipMask d) (szIpDest p)))) ps;
  qd_packets : forall a b, packets_between d' a b =
    packets_between d a b ++ (set_as_numbers a b <$> filter (fun p => goes (owner d') (lAsCouples d) (ipMask d) p = Some (a, b)) ps);
  qd_axis : timeAxis d' = timeAxis d ++ (time_of <$> filter (fun p => is_Some (goes (owner d') (lAsCouples d) (ipMask d) p)) ps)
}.

Lemma enter_ok p t a b d : 0 <= a < TrafficMatrixMaxSize -> 0 <= b < TrafficMatrixMaxSize -> timeAxisSize d < 2147483647 ->
  exists d', enter p t a b d = Ret d' /\ ptrListOfAs d' = ptrListOfAs d /\ d_draws d' = d_draws d /\ same_configuration d d' /\
    timeAxisSize d' = timeAxisSize d + 1 /\ timeAxis d' = timeAxis d ++ [t] /\
    forall i j, packets_between d' i j = packets_between d i j ++ if decide ((i, j) = (a, b)) then [p] else [].
Proof.
  intros Ha Hb Hs. unfold enter, IncrementTimeAxis. cbv zeta. cbn [timeAxisSize set_queues]. rewrite (proj2 (Z.ltb_lt _ _)) by done. cbn [obind].
  unfold PushPacket. assert ((0 <=? a) && (a <? TrafficMatrixMaxSize) && (0 <=? b) && (b <? TrafficMatrixMaxSize) = true) as -> by lia.
  eexists. split; [reflexivity|]. do 5 (split; [done|]). intros i j. unfold packets_between. cbn [matrix set_queues].
  case_decide as H; [injection H as -> ->; by rewrite lookup_insert_eq|]. rewrite lookup_insert_ne by congruence. by rewrite app_nil_r.
Qed.

Lemma dispatch_packet n p d : dispatcher_ok (S n) d -> is_address (szIpSource p) -> is_address (szIpDest p) ->
  exists d', dispatch rand p d = Ret d' /\ dispatcher_ok n d' /\ assigns d d' /\ same_configuration d d' /\ queued [p] d d'.
Proof.
  intros [Hm Hmask Hc Hw Hs Ha] H1 H2. unfold dispatch. rewrite Hm, Z.eqb_refl. unfold dispatch_by_prefix. rewrite !ApplyMask_prefix by done. cbn [obind].
  set (x := prefix (ipMask d) (szIpSource p)). set (y := prefix (ipMask d) (szIpDest p)).
  destruct (find_systems_prefix x y (ptrListOfAs d) None None) as (l & -> & Hl). cbn beta iota zeta.
  set (d0 := set_systems l d).
  assert (assigns d d0 /\ same_configuration d d0) as [A0 C0].
  { split; [by apply assigns_refl|]. split_and!; try done. by apply view_frame. }
  destruct (assign_prefix x 0 d0) as (a & d1 & E1 & O1 & N1 & R1 & S1 & A1 & C1 & Q1); [done|by apply (systems_ok_view (ptrListOfAs d))|].
  destruct (assign_prefix y 1 d1) as (b & d2 & E2 & O2 & _ & R2 & S2 & A2 & C2 & Q2); [|done|]. { destruct C1 as (_ & -> & _). done. }
  assert (same_configuration d d2) as (G1 & G2 & G3 & G4 & G5).
  { destruct C0 as (W1 & W2 & W3 & W4 & W5), C1 as (U1 & U2 & U3 & U4 & U5), C2 as (V1 & V2 & V3 & V4 & V5). split_and!; congruence. }
  assert (assigns d d2) as A.
  { eapply assigns_trans; [|exact A0|eapply assigns_trans; [|exact A1|exact A2]]; [apply C0|apply C1]. }
  assert (same_queues d d2) as (Q3 & Q4 & Q5) by (assert (same_queues d d0) as (? & ? & ?) by done; destruct Q1 as (? & ? & ?), Q2 as (? & ? & ?); split_and!; congruence).
  assert (goes (owner d2) (lAsCouples d) (ipMask d) p = if wanted (lAsCouples d) a b then Some (a, b) else None) as Hg.
  { unfold goes, owner. fold x y. rewrite O2. by rewrite (as_kept _ _ A2 x a O1). }
  assert (forall z, as_of z (ptrListOfAs d0) = as_of z (ptrListOfAs d)) as Hd0 by (intros z; by apply as_of_view).
  lazymatch goal with |- exists d', ?run = Ret d' /\ _ => assert (run = enter_if_valid p a b d2) as -> end.
  { rewrite Hd0 in E1. destruct (as_of x (ptrListOfAs d)) as [a0|].
    - injection E1 as Ea Ed. rewrite <- Ed, Hd0 in E2. rewrite Ea. cbn [obind].
      destruct (as_of y (ptrListOfAs d)); [injection E2 as -> <-; done|by rewrite E2].
    - rewrite E1. cbn [obind]. case_bool_decide as Hxy.
      + rewrite <- Hxy, O1 in E2. injection E2 as -> ->. done.
      + unfold owner in N1. rewrite N1, Hd0 in E2 by done. destruct (as_of y (ptrListOfAs d)); [injection E2 as -> <-; done|by rewrite E2]. }
  unfold enter_if_valid. rewrite ValidateCouple_ok by congruence. cbn [obind]. rewrite G1. destruct (wanted (lAsCouples d) a b) eqn:Hv.
  - destruct (enter_ok (set_as_numbers a b p) (time_of p) a b d2) as (d' & E & P1 & P2 & (J1 & J2 & J3 & J4 & J5) & P3 & P4 & P5); [done..|lia|].
    assert (owner d' = owner d2) as Ho by (unfold owner; by rewrite P1).
    exists d'. split; [exact E|]. split; [split; [congruence|rewrite J4, G4; lia|congruence|congruence|by rewrite P1|rewrite P3; lia]|].
    split; [destruct A as [X1 X2 X3]; split; [by rewrite P1|by rewrite P1, P2|lia]|]. split; [split_and!; congruence|].
    split; [constructor; [|constructor]; rewrite Ho; fold x y; unfold owner; rewrite O2, (as_kept _ _ A2 x a O1); by split|..]; rewrite Ho.
    + intros i j. rewrite P5. unfold packets_between. rewrite Q5. f_equal. rewrite filter_cons, filter_nil, Hg.
      case_decide as H; [injection H as -> ->; by rewrite decide_True|]. rewrite decide_False; [done|]. congruence.
    + rewrite P4, Q3. f_equal. rewrite filter_cons, filter_nil, Hg. by rewrite decide_True.
  - exists d2. split; [done|]. split; [split; [congruence|rewrite G4; lia|congruence|congruence|done|rewrite Q4; lia]|]. split; [done|]. split; [done|].
    split; [constructor; [|constructor]; fold x y; unfold owner; rewrite O2, (as_kept _ _ A2 x a O1); by split|..].
    + intros i j. unfold packets_between. rewrite Q5, filter_cons, filter_nil, Hg, decide_False by done. by rewrite app_nil_r.
    + rewrite Q3, filter_cons, filter_nil, Hg, decide_False by apply is_Some_None. by rewrite app_nil_r.
Qed.

(** ** A trace *)

Lemma filter_ext_elem {A} (P Q : A -> Prop) `{!forall x, Decision (P x), !forall x, Decision (Q x)} (l : list A) :
  (forall x, x ∈ l -> P x <-> Q x) -> filter P l = filter Q l.
Proof.
  induction l as [|x l IH]; intros HPQ; [done|]. rewrite !filter_cons. rewrite IH by (intros y Hy; apply HPQ; by right).
  assert (P x <-> Q x) by (apply HPQ; by left). destruct (decide (P x)), (decide (Q x)); tauto.
Qed.

Lemma goes_kept d1 d2 couples mask p : assigns d1 d2 ->
  is_Some (owner d1 (prefix mask (szIpSource p))) -> is_Some (owner d1 (prefix mask (szIpDest p))) ->
  goes (owner d2) couples mask p = goes (owner d1) couples mask p.
Proof.
  intros [A _ _] [a Ha] [b Hb]. unfold goes. rewrite Ha, Hb. unfold owner in *. by rewrite (A _ _ Ha), (A _ _ Hb).
Qed.

Lemma queued_app ps1 ps2 d1 d2 d3 : assigns d2 d3 -> same_configuration d1 d2 -> queued ps1 d1 d2 -> queued ps2 d2 d3 -> queued (ps1 ++ ps2) d1 d3.
Proof.
  intros A (C1 & _ & _ & C4 & _) [O1 P1 T1] [O2 P2 T2]. rewrite C1, C4 in *.
  assert (forall p, p ∈ ps1 -> goes (owner d3) (lAsCouples d1) (ipMask d1) p = goes (owner d2) (lAsCouples d1) (ipMask d1) p) as Hg.
  { intros p Hp. rewrite Forall_forall in O1. destruct (O1 p Hp). by apply goes_kept. }
  split.
  - apply Forall_app. split; [|done]. eapply Forall_impl; [exact O1|]. intros p [[a Ha] [b Hb]]. unfold owner in *.
    by rewrite (as_kept _ _ A _ _ Ha), (as_kept _ _ A _ _ Hb).
  - intros a b. rewrite P2, P1, filter_app, fmap_app, app_assoc. do 3 f_equal. apply filter_ext_elem. intros p Hp. by rewrite Hg.
  - rewrite T2, T1, filter_app, fmap_app, app_assoc. do 3 f_equal. apply filter_ext_elem. intros p Hp. by rewrite Hg.
Qed.

Definition packets_dispatched (ps : list packet) (d : dispatcher) : outcome dispatcher := ofold (fun d p => dispatch rand p d) d ps.

Lemma dispatch_packets ps : forall n d, dispatcher_ok (length ps + n) d -> Forall (fun p => is_address (szIpSource p) /\ is_address (szIpDest p)) ps ->
  exists d', packets_dispatched ps d = Ret d' /\ dispatcher_ok n d' /\ assigns d d' /\ same_configuration d d' /\ queued ps d d'.
Proof.
  induction ps as [|p ps IH]; intros n d Hd Hp.
  { exists d. split; [done|]. split; [done|]. split; [by apply assigns_refl|]. split; [done|].
    split; [constructor|intros a b|]; cbn [fmap list_fmap]; rewrite filter_nil; by rewrite app_nil_r. }
  apply Forall_cons in Hp as [[H1 H2] Hp]. destruct (dispatch_packet (length ps + n) p d) as (d1 & E1 & D1 & A1 & C1 & Q1); [done..|].
  destruct (IH n d1 D1 Hp) as (d2 & E2 & D2 & A2 & C2 & Q2). exists d2. split; [unfold packets_dispatched; cbn [ofold]; by rewrite E1|].
  split; [done|]. split; [apply (assigns_trans d d1 d2); [apply C1|done..]|].
  split; [destruct C1 as (? & ? & ? & ? & ?), C2 as (? & ? & ? & ? & ?); split_and!; congruence|]. by apply (queued_app [p] ps d d1 d2).
Qed.

(** What the frames hold: no packet for a frame that is skipped. *)
Definition reads (inet_ntoa : Z -> bytes) (linktype : Z) (f : captured) (o : option packet) : Prop :=
  let '(pkt, caplen, tv, junk) := f in read_frame inet_ntoa linktype pkt caplen tv junk = Ret o.

Lemma pcap_dispatch_packets inet_ntoa linktype frames os : Forall2 (reads inet_ntoa linktype) frames os -> forall d,
  pcap_dispatch rand inet_ntoa linktype d frames = packets_dispatched (omap id os) d.
Proof.
  induction 1 as [|[[[pkt caplen] tv] junk] o frames os Hf _ IH]; intros d; [done|].
  unfold pcap_dispatch. cbn [ofold]. unfold PerPacketCallBackFunction at 1. cbn beta iota zeta in Hf |- *. rewrite Hf. cbn [obind].
  destruct o as [p|]; [|exact (IH d)]. unfold packets_dispatched. cbn [omap list_omap id ofold]. destruct (dispatch rand p d); [exact (IH _)|done..].
Qed.

(** C14: dispatching a trace by prefixes never fails when every weight has a system: each
    prefix gets one system, that of a number drawn when the prefix is new, and keeps it;
    and the list of two systems holds the packets of the trace whose prefixes are theirs
    and whose couple is wanted, in the order of the trace, as does the time axis with the
    times of all those packets. *)
Theorem trace_dispatched inet_ntoa linktype frames os d :
  Forall2 (reads inet_ntoa linktype) frames os ->
  Forall (fun p => is_address (szIpSource p) /\ is_address (szIpDest p)) (omap id os) ->
  dispatcher_ok (length (omap id os)) d ->
  exists d', pcap_dispatch rand inet_ntoa linktype d frames = Ret d' /\ dispatcher_ok 0 d' /\ assigns d d' /\ queued (omap id os) d d'.
Proof.
  intros Hr Ha Hd. destruct (dispatch_packets (omap id os) 0 d) as (d' & E & D & A & _ & Q); [by rewrite Nat.add_0_r|done|].
  exists d'. by rewrite (pcap_dispatch_packets _ _ _ os).
Qed.
End prefixes.

(** ** Witness *)

(** Two systems that share the weights, and a trace of two packets and a broken frame. *)
Definition two_systems : dispatcher :=
  Mk_dispatcher [Mk_As 0 0 49 [] [] ∅ ∅ 0; Mk_As 1 50 100 [] [] ∅ ∅ 0] [(0, 1)] [0; 1] (-1) 1 3 0 0 (0, 0) [] 0 ∅.
Definition sample_frames : list captured :=
  let junk := Mk_packet 0 0 [] 0 [] [] [] [] [] 0 0 0 false false false 0 false 0 in
  let f := replicate 12 0 ++ [8; 0] ++ tcp_frame in
  [(f, 54, (1, 5), junk); ([1; 2], 2, (1, 6), junk); (f, 54, (2, 7), junk)].
Definition sample_read : list (option packet) :=
  (fun f => match f with (pkt, caplen, tv, junk) => match read_frame (fun a => dotted (le_bytes 4 a)) 1 pkt caplen tv junk with Ret o => o | _ => None end end) <$> sample_frames.

Lemma trace_dispatched_witness :
  length (omap id sample_read) = 2%nat /\
  exists d', pcap_dispatch (fun k => 30 + 40 * Z.of_nat k) (fun a => dotted (le_bytes 4 a)) 1 two_systems sample_frames = Ret d' /\
    queued (omap id sample_read) two_systems d'.
Proof.
  split; [vm_compute; reflexivity|].
  destruct (trace_dispatched (fun k => 30 + 40 * Z.of_nat k) (fun a => dotted (le_bytes 4 a)) 1 sample_frames sample_read two_systems) as (d' & E & _ & _ & Q).
  - unfold sample_read, sample_frames. repeat (apply Forall2_cons; split; [vm_compute; reflexivity|]). apply Forall2_nil. exact I.
  - let l := eval vm_compute in (omap id sample_read) in change (omap id sample_read) with l.
    repeat (apply Forall_cons; split; [split; [exists [10; 0; 0; 1]|exists [10; 0; 1; 1]]; (split; [split; [reflexivity|apply (bool_decide_unpack _); vm_compute; exact I]|vm_compute; reflexivity])|]).
    apply Forall_nil. exact I.
  - assert (length (omap id sample_read) = 2%nat) as -> by (vm_compute; reflexivity). split; [reflexivity|cbn; lia|discriminate|discriminate| |cbn; lia]. split.
    + apply (bool_decide_unpack _). vm_compute. exact I.
    + intros v Hv. destruct (decide (v <= 49)); [apply Exists_cons_hd; cbn; lia|apply Exists_cons_tl, Exists_cons_hd; cbn; lia].
    + intros x. vm_compute. lia.
  - exists d'. split; [exact E|exact Q].
Defined.
