(* ===== verification/Schedule.v ===== *)
(** * Playing the trace (src/NSP/SamplingPlatform.cpp, SamplingPlatform.h, TraficLoader.cpp)

    One thread loads packets from the files of the trace and puts them into the lists of
    Dispatch; the main thread takes them out, time by time, and sends them.  A semaphore
    and DataNeeded make them take turns.  The pauses between packets have no effect on
    what is sent and are left out. *)

From stdpp Require Import gmap.
From S2P Require Import Prelude CString Client Control RouterSampling Trace.
From S2P Require Import Dispatch.

Definition MAX_TL_LOOP_PACKETS : Z := 1000.
Definition TIME_AXIS_SLOT : Z := 5.
Definition MAX_ITERATIONS : Z := 10.

(** ** The packets of a time *)

(** SetPacketShiftTime: the packet's own time is lost. *)
Definition SetPacketShiftTime (loadingTime : timestamp) (p : packet) : packet := set_time loadingTime.1 loadingTime.2 p.

(** The packets of a list with the time [ts], until one that is later, and those that
    stay. *)
Fixpoint take_due (ts : timestamp) (q : list packet) : list packet * list packet :=
  match q with
  | [] => ([], [])
  | p :: q' =>
      if Compare ts (time_of p) =? 0 then let '(due, rest) := take_due ts q' in (p :: due, rest)
      else if 0 <? Compare ts (time_of p) then ([], q)
      else let '(due, rest) := take_due ts q' in (due, p :: rest)
  end.

Definition set_matrix (mx : gmap (Z * Z) (list packet)) (d : dispatcher) : dispatcher :=
  set_queues (numberOfPackets d) (maxTs d) (timeAxis d) (timeAxisSize d) mx d.

Fixpoint update_couples (ts loadingTime : timestamp) (l : list (Z * Z)) (d : dispatcher) : outcome (list packet * dispatcher) :=
  match l with
  | [] => Ret ([], d)
  | (a, b) :: l =>
      if (0 <=? a) && (a <? TrafficMatrixMaxSize) && (0 <=? b) && (b <? TrafficMatrixMaxSize) then
        let '(due, rest) := take_due ts (packets_between d a b) in
        let! (more, d) := update_couples ts loadingTime l (set_matrix (<[(a, b) := rest]> (matrix d)) d) in
        Ret ((SetPacketShiftTime loadingTime <$> due) ++ more, d)
      else Undef OutOfBounds
  end.

(** The packets that pListOfPacketToSend holds afterwards. *)
Definition UpdateTheListOfPacketsToSend (ts loadingTime : timestamp) (d : dispatcher) : outcome (list packet * dispatcher) :=
  match lAsCouples d with
  | [] => Undef MissingReturn
  | l => update_couples ts loadingTime l d
  end.

(** How many packets of a list are not later than [ts]; nothing uses it. *)
Fixpoint lost_in (ts : timestamp) (q : list packet) : Z :=
  match q with
  | [] => 0
  | p :: q => if Compare ts (time_of p) <=? 0 then wrap32 (1 + lost_in ts q) else 0
  end.

(** SendPacket of the platform hands the packet to its system. *)
Definition SendPacket (p : packet) (d : dispatcher) : outcome packet :=
  let! i := GetAs (iAsSourceNumber p) d in
  match i with Some _ => Ret p | None => Undef NullDeref end.

Fixpoint SendTheCurrentListOfPackets (l : list packet) (d : dispatcher) : outcome dispatcher :=
  match l with
  | [] => Ret d
  | p :: l =>
      let! _ := SendPacket p d in
      SendTheCurrentListOfPackets l (set_queues (wrap64 (numberOfPackets d - 1)) (maxTs d) (timeAxis d) (timeAxisSize d) (matrix d) d)
  end.

(** ** The two threads *)

(** Where the loader is: before its test of DataNeeded, at the semaphore, loading, about
    to release the semaphore (after the end of the file or not), behind the last release
    for a file, at its end; an exception of pcap leaves the thread with the semaphore. *)
Inductive loader_pc := L_poll | L_wait | L_load | L_release (eof : bool) | L_next | L_ended | L_failed.

(** Where the sender is: before its test of DataNeeded, at the semaphore, behind it,
    among the times of a turn, at its end. *)
Inductive sender_pc := S_poll | S_wait | S_enter | S_send | S_done.

(** A file is its link type and its frames.  [files] begins with the rest of the current file; [sent] holds the packets that were
    handed to their systems.  lastTimeAxisSize and timeAxisSize are ints, uaxe is
    unsigned. *)
Record schedule := Mk_schedule {
  platform : dispatcher;
  lastTimeAxisSize : Z;
  loading : bool;
  loadingTime : timestamp;
  sendingSem : bool;
  loadingThreadStatus : bool;
  files : list (Z * list captured);
  loader : loader_pc;
  uaxe : Z;
  iteration : Z;
  stopSending : bool;
  sender : sender_pc;
  sent : list packet
}.

Definition DataNeeded (s : schedule) : bool :=
  let n := timeAxisSize (platform s) - lastTimeAxisSize s in (n <? TIME_AXIS_SLOT) || (timeAxisSize (platform s) =? lastTimeAxisSize s).

(** The test in front of a turn of the sender. *)
Definition turn_wanted (s : schedule) : bool :=
  (uaxe s <? timeAxisSize (platform s)) || ((MAX_ITERATIONS <? iteration s) && (0 <? uaxe s)).

(** What the loader changes and what the sender changes. *)
Definition loader_moves (pc : loader_pc) (sem status ld : bool) (fs : list (Z * list captured)) (d : dispatcher) (s : schedule) : schedule :=
  Mk_schedule d (lastTimeAxisSize s) ld (loadingTime s) sem status fs pc (uaxe s) (iteration s) (stopSending s) (sender s) (sent s).
Definition loader_at (pc : loader_pc) (s : schedule) : schedule :=
  loader_moves pc (sendingSem s) (loadingThreadStatus s) (loading s) (files s) (platform s) s.
Definition sender_moves (pc : sender_pc) (sem ld : bool) (lt : timestamp) (last it : Z) (s : schedule) : schedule :=
  Mk_schedule (platform s) last ld lt sem (loadingThreadStatus s) (files s) (loader s) (uaxe s) it (stopSending s) pc (sent s).
Definition sender_at (pc : sender_pc) (s : schedule) : schedule :=
  sender_moves pc (sendingSem s) (loading s) (loadingTime s) (lastTimeAxisSize s) (iteration s) s.

(** One turn of the loop over the times: the packets of the first time are sent, and the
    time leaves the axis. *)
Definition send_time (s : schedule) : outcome schedule :=
  match timeAxis (platform s) with
  | [] => Undef UseAfterFree
  | currentTs :: axis =>
      let! (l, d) := UpdateTheListOfPacketsToSend currentTs (loadingTime s) (platform s) in
      let! d := SendTheCurrentListOfPackets l d in
      let d := set_queues (numberOfPackets d) (maxTs d) axis (timeAxisSize d) (matrix d) d in
      Ret (Mk_schedule d (lastTimeAxisSize s) (loading s) (loadingTime s) (sendingSem s) (loadingThreadStatus s) (files s) (loader s)
             (wrap32 (uaxe s + 1)) (iteration s) (stopSending s || negb (loadingThreadStatus s)) (sender s) (sent s ++ l))
  end.

Section threads.
(** The results of rand(), inet_ntoa of the C library. *)
Context (rand : nat -> Z) (inet_ntoa : Z -> bytes).

(** LoadTcpDumpBinaryFile.  pcap_dispatch calls back for some of the next frames, at most
    MAX_TL_LOOP_PACKETS, and for none only at the end of the file. *)
Inductive loader_step : schedule -> schedule -> Prop :=
| loader_asks s : loader s = L_poll ->
    loader_step s (loader_at (if DataNeeded s then L_wait else L_poll) s)
| loader_enters s : loader s = L_wait -> sendingSem s = true ->
    loader_step s (loader_moves L_load false (loadingThreadStatus s) true (files s) (platform s) s)
| loader_loads s linktype now later fs d : loader s = L_load -> DataNeeded s = true -> files s = (linktype, now ++ later) :: fs ->
    now <> [] -> Z.of_nat (length now) <= MAX_TL_LOOP_PACKETS -> pcap_dispatch rand inet_ntoa linktype (platform s) now = Ret d ->
    loader_step s (loader_moves L_load (sendingSem s) (loadingThreadStatus s) (loading s) ((linktype, later) :: fs) d s)
| loader_at_eof s linktype fs : loader s = L_load -> DataNeeded s = true -> files s = (linktype, []) :: fs ->
    loader_step s (loader_at (L_release true) s)
| loader_has_enough s : loader s = L_load -> DataNeeded s = false ->
    loader_step s (loader_at (L_release false) s)
| loader_fails s : loader s = L_load -> DataNeeded s = true ->
    loader_step s (loader_at L_failed s)
| loader_releases s eof : loader s = L_release eof ->
    loader_step s (loader_moves (if eof then L_next else L_poll) true (loadingThreadStatus s) (loading s) (files s) (platform s) s)
| loader_next_file s f g fs : loader s = L_next -> files s = f :: g :: fs ->
    loader_step s (loader_moves L_poll (sendingSem s) (loadingThreadStatus s) (loading s) (g :: fs) (platform s) s)
| loader_last_file s f : loader s = L_next -> files s = [f] ->
    loader_step s (loader_moves L_ended (sendingSem s) false (loading s) [f] (platform s) s).

(** StartSendingPackets; [lt] is what the clock makes of the time of loading. *)
Inductive sender_step : schedule -> schedule -> Prop :=
| sender_asks s : sender s = S_poll ->
    sender_step s (sender_at (if DataNeeded s then S_poll else S_wait) s)
| sender_waits s : sender s = S_wait -> sendingSem s = true ->
    sender_step s (sender_moves S_enter false (loading s) (loadingTime s) (lastTimeAxisSize s) (iteration s) s)
| sender_enters s lt : sender s = S_enter ->
    turn_wanted s = true ->
    sender_step s (sender_moves S_send (sendingSem s) false (if loading s then lt else loadingTime s) (lastTimeAxisSize s) (iteration s) s)
| sender_passes s : sender s = S_enter ->
    turn_wanted s = false ->
    sender_step s (sender_moves (if stopSending s then S_done else S_poll) true (loading s) (0, 0) (lastTimeAxisSize s) (iteration s + 1) s)
| sender_sends s s' : sender s = S_send -> (uaxe s <? timeAxisSize (platform s)) = true -> send_time s = Ret s' ->
    sender_step s s'
| sender_releases s : sender s = S_send -> (uaxe s <? timeAxisSize (platform s)) = false ->
    sender_step s (sender_moves (if stopSending s then S_done else S_poll) true (loading s) (0, 0) (swrap32 (uaxe s)) 1 s).

Definition step (s s' : schedule) : Prop := loader_step s s' \/ sender_step s s'.

(** The start: nothing loaded, and both threads before their loops. *)
Definition initial (d : dispatcher) (fs : list (Z * list captured)) : schedule :=
  Mk_schedule d 0 false (0, 0) true true fs L_poll 0 0 false S_poll [].
End threads.
