(* ===== verification/ScheduleProps.v ===== *)
(** * What the two threads guarantee

    Whatever the interleaving, the packets of a couple are sent in the order of the
    trace, each once; but the main thread never ends, and what is loaded last stays. *)

From stdpp Require Import gmap sorting.
From S2P Require Import Prelude CString Client Control RouterSampling Trace.
From S2P Require Import Dispatch DispatchProps Schedule.

(** ** What a callback changes *)

(** Times are added to the axis, and counted; the configuration stays. *)
Definition grows (d d' : dispatcher) : Prop :=
  lAsCouples d' = lAsCouples d /\
  exists ts, timeAxis d' = timeAxis d ++ ts /\ timeAxisSize d' = timeAxisSize d + Z.of_nat (length ts) /\
    (timeAxisSize d < 2147483648 -> timeAxisSize d' < 2147483648).

#[export] Instance grows_preorder : PreOrder grows.
Proof.
  split.
  - intros d. split; [done|]. exists []. rewrite app_nil_r. cbn [length]. split_and!; [done|lia|done].
  - intros d1 d2 d3 (C1 & t1 & A1 & S1 & B1) (C2 & t2 & A2 & S2 & B2). split; [congruence|]. exists (t1 ++ t2).
    rewrite A2, A1, S2, S1, length_app, app_assoc. split_and!; [done|lia|]. intros H. rewrite <- S1, <- S2. auto.
Qed.


Lemma enter_grows p t a b d d' : enter p t a b d = Ret d' -> grows d d'.
Proof.
  unfold enter. cbv zeta. intros H. apply obind_Ret_inv in H as (d1 & E1 & H). unfold IncrementTimeAxis in E1. cbn [timeAxisSize set_queues] in E1.
  destruct (Z.ltb_spec (timeAxisSize d) 2147483647); [|done]. injection E1 as <-. unfold PushPacket in H. destruct (_ && _ && _ && _); [|done]. injection H as <-.
  split; [done|]. exists [t]. cbn [timeAxis timeAxisSize set_queues length]. split_and!; [done|lia|lia].
Qed.

Lemma set_systems_grows l d : grows d (set_systems l d).
Proof. split; [done|]. exists []. cbn [timeAxis timeAxisSize set_systems length]. rewrite app_nil_r. split_and!; [done|lia|done]. Qed.

Lemma enter_if_valid_grows p a b d d' : enter_if_valid p a b d = Ret d' -> grows d d'.
Proof.
  unfold enter_if_valid. intros H. apply obind_Ret_inv in H as (v & E & H). destruct v; [by eapply enter_grows|]. by injection H as <-.
Qed.

Section growing.
Context (rand : nat -> Z).

Lemma select_and_add_grows add d r : select_and_add rand add d = Ret r -> grows d r.2.
Proof.
  unfold select_and_add. intros H. apply obind_Ret_inv in H as ((n & d1) & E & H). apply obind_Ret_inv in H as (i & Ei & H).
  assert (grows d d1) as G.
  { unfold SelectAsRandomlyBasedOnWeights in E. destruct (asImportance d); [done|]. apply obind_Ret_inv in E as ((m & k) & Ek & E). injection E as <- <-.
    split; [done|]. exists []. cbn [timeAxis timeAxisSize set_selected length]. rewrite app_nil_r. split_and!; [done|lia|done]. }
  destruct i; injection H as <-; [|done]. etransitivity; [exact G|apply set_systems_grows].
Qed.

(** The end of the methods 1 and 3. *)
Lemma destination_grows p a add dst d d' :
  (let! (dst, d) := match dst with Some _ => Ret (dst, d) | None => select_and_add rand add d end in
   match dst with None => Ret d | Some b => enter_if_valid p a b d end) = Ret d' -> grows d d'.
Proof.
  intros H. apply obind_Ret_inv in H as ((dst' & d1) & E & H).
  assert (grows d d1) as G by (destruct dst; [by injection E as _ <-|by apply select_and_add_grows in E]).
  etransitivity; [exact G|]. destruct dst'; [by eapply enter_if_valid_grows|by injection H as <-].
Qed.

Lemma class_couples_grows p l : forall taken d d', class_couples p taken l d = Ret d' -> grows d d'.
Proof.
  induction l as [|c l IH]; intros taken d d' H; [by injection H as <-|]. cbn [class_couples] in H.
  apply obind_Ret_inv in H as (i & _ & H). apply obind_Ret_inv in H as (j & _ & H). destruct i as [i|], j as [j|]; try by injection H as <-.
  apply obind_Ret_inv in H as (s & _ & H). apply obind_Ret_inv in H as (t & _ & H). destruct t; [|by eapply IH]. destruct taken; [done|].
  apply obind_Ret_inv in H as (d1 & E & H). etransitivity; [|by eapply IH]. etransitivity; [|by eapply enter_grows]. apply set_systems_grows.
Qed.

Lemma dispatch_grows p d d' : dispatch rand p d = Ret d' -> grows d d'.
Proof.
  unfold dispatch. destruct (_ =? 1); [|destruct (_ =? 2); [apply class_couples_grows|destruct (_ =? 3)]].
  - unfold dispatch_by_prefix. intros H. apply obind_Ret_inv in H as (x & _ & H). apply obind_Ret_inv in H as (y & _ & H).
    destruct (find_systems _ _ _ _ _) as [[l src] dst]. apply obind_Ret_inv in H as (((src' & d1) & dst') & E & H).
    etransitivity; [apply (set_systems_grows l)|]. transitivity d1.
    + destruct src; [injection E as _ <- _; apply grows_preorder|]. apply obind_Ret_inv in E as ((n & d2) & E & E'). injection E' as _ <- _. by apply select_and_add_grows in E.
    + destruct src' as [a|]; [|by injection H as <-]. by eapply destination_grows.
  - unfold dispatch_by_flow. intros H. apply obind_Ret_inv in H as (x & _ & H). apply obind_Ret_inv in H as (y & _ & H). cbv zeta in H.
    destruct (find_systems _ _ _ _ _) as [[l src] dst]. apply obind_Ret_inv in H as ((src' & d1) & E & H).
    transitivity d1.
    + destruct src; [injection E as _ <-; apply grows_preorder|]. by apply select_and_add_grows in E.
    + destruct src' as [a|]; [|by injection H as <-]. by eapply destination_grows.
  - intros [= <-]. done.
Qed.

Lemma pcap_dispatch_grows inet_ntoa linktype frames : forall d d', pcap_dispatch rand inet_ntoa linktype d frames = Ret d' -> grows d d'.
Proof.
  induction frames as [|[[[pkt caplen] tv] junk] frames IH]; intros d d' H; [by injection H as <-|]. unfold pcap_dispatch in H. cbn [ofold] in H.
  apply obind_Ret_inv in H as (d1 & E & H). etransitivity; [|by eapply IH]. unfold PerPacketCallBackFunction in E. apply obind_Ret_inv in E as (o & _ & E).
  destruct o; [by apply dispatch_grows in E|by injection E as <-].
Qed.
End growing.

(** ** The sender's turn *)

Lemma update_couples_frame ts lt l : forall d out d', update_couples ts lt l d = Ret (out, d') -> exists mx, d' = set_matrix mx d.
Proof.
  induction l as [|[a b] l IH]; intros d out d' H; [injection H as <- <-; exists (matrix d); by destruct d|]. cbn [update_couples] in H.
  destruct (_ && _ && _ && _); [|done]. destruct (take_due _ _) as [due rest]. apply obind_Ret_inv in H as ((more & d1) & E & H). injection H as _ <-.
  apply IH in E as [mx ->]. by exists mx.
Qed.

Lemma SendTheCurrentListOfPackets_frame l : forall d d', SendTheCurrentListOfPackets l d = Ret d' ->
  exists n, d' = set_queues n (maxTs d) (timeAxis d) (timeAxisSize d) (matrix d) d.
Proof.
  induction l as [|p l IH]; intros d d' H; [injection H as <-; exists (numberOfPackets d); by destruct d|]. cbn [SendTheCurrentListOfPackets] in H.
  apply obind_Ret_inv in H as (? & _ & H). destruct (IH _ _ H) as [n ->]. by exists n.
Qed.

(** What a turn for one time does. *)
Lemma send_time_inv s s' : send_time s = Ret s' ->
  exists ts axis l d n, timeAxis (platform s) = ts :: axis /\ update_couples ts (loadingTime s) (lAsCouples (platform s)) (platform s) = Ret (l, d) /\
    s' = Mk_schedule (set_queues n (maxTs d) axis (timeAxisSize d) (matrix d) d) (lastTimeAxisSize s) (loading s) (loadingTime s) (sendingSem s)
           (loadingThreadStatus s) (files s) (loader s) (wrap32 (uaxe s + 1)) (iteration s) (stopSending s || negb (loadingThreadStatus s)) (sender s) (sent s ++ l).
Proof.
  unfold send_time. destruct (timeAxis (platform s)) as [|ts axis] eqn:Ea; [done|]. intros H. apply obind_Ret_inv in H as ((l & d) & E & H).
  apply obind_Ret_inv in H as (d1 & E1 & H). apply Ret_inj in H as <-. destruct (SendTheCurrentListOfPackets_frame _ _ _ E1) as [n ->].
  exists ts, axis, l, d, n. split; [done|]. split; [|done]. unfold UpdateTheListOfPacketsToSend in E. by destruct (lAsCouples (platform s)).
Qed.

(** ** Turns *)

Definition loader_holds (pc : loader_pc) : bool := match pc with L_load | L_release _ | L_failed => true | _ => false end.
Definition sender_holds (pc : sender_pc) : bool := match pc with S_enter | S_send => true | _ => false end.
Definition loader_at_end (pc : loader_pc) : bool := match pc with L_release true | L_next | L_ended => true | _ => false end.

(** The threads exclude each other, the counters agree with the axis, and the loader
    comes to the end of a file only when the sender is waiting for packets. *)
Record turns (s : schedule) : Prop := {
  tu_axis : timeAxisSize (platform s) = uaxe s + Z.of_nat (length (timeAxis (platform s)));
  tu_bound : timeAxisSize (platform s) < 2147483648;
  tu_last : 0 <= lastTimeAxisSize s <= uaxe s;
  tu_turn : sender s <> S_send -> lastTimeAxisSize s = uaxe s;
  tu_enough : sender s <> S_poll -> DataNeeded s = false;
  tu_done : sender s <> S_done;
  tu_sem : sendingSem s = negb (loader_holds (loader s) || sender_holds (sender s));
  tu_excl : loader_holds (loader s) && sender_holds (sender s) = false;
  tu_end : loader_at_end (loader s) = true -> DataNeeded s = true;
  tu_status : loadingThreadStatus s = false -> loader s = L_ended;
  tu_files : loader s = L_ended -> exists f, files s = [f];
  tu_stop : stopSending s = false
}.

Lemma turns_poll s : turns s -> loader_at_end (loader s) = true -> sender s = S_poll.
Proof. intros T H. destruct (sender s) eqn:E; [done|..]; pose proof (tu_end _ T H); rewrite (tu_enough _ T) in *; congruence. Qed.

Section playing.
Context (rand : nat -> Z) (inet_ntoa : Z -> bytes).

Lemma DataNeeded_grows d s pc sem st ld fs : grows (platform s) d -> DataNeeded s = false -> DataNeeded (loader_moves pc sem st ld fs d s) = false.
Proof. intros (_ & ts & _ & Hs & _). unfold DataNeeded, TIME_AXIS_SLOT. cbn. rewrite Hs. lia. Qed.

(** A step of the loader that loads nothing. *)
Lemma loader_turn s pc sem st ld fs : turns s -> sem = negb (loader_holds pc || sender_holds (sender s)) -> loader_holds pc && sender_holds (sender s) = false ->
  (loader_at_end pc = true -> DataNeeded s = true) -> (st = false -> pc = L_ended) -> (pc = L_ended -> exists f, fs = [f]) ->
  turns (loader_moves pc sem st ld fs (platform s) s).
Proof.
  intros T H1 H2 H3 H4 H5. split; cbn; [exact (tu_axis _ T)|exact (tu_bound _ T)|exact (tu_last _ T)|exact (tu_turn _ T)|exact (tu_enough _ T)|exact (tu_done _ T)|done..|exact (tu_stop _ T)].
Qed.

Lemma loader_keeps_turns s s' : turns s -> loader_step rand inet_ntoa s s' -> turns s'.
Proof.
  intros T H. pose proof (tu_sem _ T) as Hsem. pose proof (tu_excl _ T) as Hex. pose proof (turns_poll _ T) as Hp.
  pose proof (tu_status _ T) as Hst. pose proof (tu_end _ T) as He.
  destruct H as [s Hl|s Hl Hs|s lt now later fs d Hl Hn Hf Hnow Hlen E|s lt fs Hl Hn Hf|s Hl Hn|s Hl Hn|s eof Hl|s f g fs Hl Hf|s f Hl Hf];
    rewrite Hl in *; cbn [loader_holds loader_at_end andb orb negb] in *.
  - apply loader_turn; destruct (DataNeeded s); done || (intros H; by specialize (Hst H)).
  - apply loader_turn; try done; [|intros H; by specialize (Hst H)]. rewrite Hs in Hsem. by destruct (sender_holds (sender s)).
  - pose proof (pcap_dispatch_grows _ _ _ _ _ _ E) as G. destruct (G) as (_ & ts & Ga & Gs & Gb).
    split; cbn; [|by apply Gb, (tu_bound _ T)|exact (tu_last _ T)|exact (tu_turn _ T)| |exact (tu_done _ T)|done..| |done|exact (tu_stop _ T)].
    + rewrite Gs, Ga, length_app, (tu_axis _ T). lia.
    + intros Hs. by apply (DataNeeded_grows d s), (tu_enough _ T).
    + intros H. by specialize (Hst H).
  - apply loader_turn; try done. intros H. by specialize (Hst H).
  - apply loader_turn; try done. intros H. by specialize (Hst H).
  - apply loader_turn; try done. intros H. by specialize (Hst H).
  - apply loader_turn; [done|by destruct eof; rewrite Hex|by destruct eof|by destruct eof|intros H; by specialize (Hst H)|by destruct eof].
  - apply loader_turn; try done. intros H. by specialize (Hst H).
  - apply loader_turn; try done. by exists f.
Qed.

(** ** The sender *)

Lemma sender_turn s pc sem ld lt last it : turns s -> 0 <= last <= uaxe s -> (pc <> S_send -> last = uaxe s) ->
  (pc <> S_poll -> last = lastTimeAxisSize s /\ DataNeeded s = false) -> pc <> S_done -> sem = negb (loader_holds (loader s) || sender_holds pc) ->
  loader_holds (loader s) && sender_holds pc = false -> (loader_at_end (loader s) = true -> last = lastTimeAxisSize s) ->
  turns (sender_moves pc sem ld lt last it s).
Proof.
  intros T H1 H2 H3 H4 H5 H6 H7. split; cbn; [exact (tu_axis _ T)|exact (tu_bound _ T)|done|done| |done..| |exact (tu_status _ T)|exact (tu_files _ T)|exact (tu_stop _ T)].
  - intros H%H3. destruct H as [-> H]. exact H.
  - intros H. rewrite (H7 H). exact (tu_end _ T H).
Qed.

Lemma sender_keeps_turns s s' : turns s -> sender_step s s' -> turns s'.
Proof.
  intros T H. pose proof (tu_sem _ T) as Hsem. pose proof (tu_excl _ T) as Hex. pose proof (turns_poll _ T) as Hp.
  pose proof (tu_turn _ T) as Ht. pose proof (tu_last _ T) as Hl. pose proof (tu_axis _ T) as Ha. pose proof (tu_bound _ T) as Hb. pose proof (tu_enough _ T) as He.
  destruct H as [s Hs|s Hs Hf|s lt Hs Hw|s Hs Hw|s s' Hs Hw E|s Hs Hw]; rewrite Hs in *; cbn [sender_holds andb orb negb] in *; rewrite ?andb_false_r, ?andb_true_r, ?orb_false_r, ?orb_true_r in *.
  - apply sender_turn; destruct (DataNeeded s) eqn:Hn; try done; try (intros _; by apply Ht); cbn; by rewrite ?orb_false_r, ?andb_false_r.
  - rewrite Hf in Hsem. destruct (loader_holds (loader s)) eqn:Hlh; [done|]. apply sender_turn; try done; [intros _; by apply Ht|intros _; split; [done|by apply He]|by rewrite Hlh..].
  - apply sender_turn; try done; [intros _; split; [done|by apply He]|cbn; by rewrite orb_true_r|cbn; by rewrite andb_true_r].
  - specialize (He ltac:(done)). specialize (Ht ltac:(done)). unfold DataNeeded, TIME_AXIS_SLOT in He. unfold turn_wanted in Hw. cbv zeta in He. apply orb_false_elim in Hw as [Hw _]. exfalso. lia.
  - destruct (send_time_inv _ _ E) as (ts & axis & l & d & n & Ea & Eu & ->). assert (timeAxisSize d = timeAxisSize (platform s)) as Hsz by (by destruct (update_couples_frame _ _ _ _ _ _ Eu) as [mx ->]).
    assert (loadingThreadStatus s = true) as Hst.
    { destruct (loadingThreadStatus s) eqn:E1; [done|]. apply (tu_status _ T) in E1. rewrite E1 in Hp. by specialize (Hp eq_refl). }
    rewrite Ea in Ha. cbn [length] in Ha. assert (wrap32 (uaxe s + 1) = uaxe s + 1) as Hu by (apply wrap32_small; unfold u32; lia).
    split; cbn; rewrite ?Hsz, ?Hu, ?Hs, ?Hst; [lia|done|lia|done| |done|cbn; by rewrite orb_true_r|by rewrite andb_true_r| |done|exact (tu_files _ T)|].
    + intros H. specialize (He H). unfold DataNeeded in *. cbn. rewrite ?Hsz. exact He.
    + intros H. by specialize (Hp H).
    + by rewrite (tu_stop _ T).
  - rewrite (tu_stop _ T). assert (swrap32 (uaxe s) = uaxe s) as -> by (unfold swrap32; rewrite Z.mod_small; lia).
    apply sender_turn; try done; [lia|by rewrite Hex|by rewrite andb_false_r|]. intros H. by specialize (Hp H).
Qed.

Lemma step_keeps_turns s s' : turns s -> step rand inet_ntoa s s' -> turns s'.
Proof. intros T [H|H]; [by eapply loader_keeps_turns|by eapply sender_keeps_turns]. Qed.

Lemma initial_turns d fs : timeAxis d = [] -> timeAxisSize d = 0 -> turns (initial d fs).
Proof. intros Ha Hs. by split; cbn; rewrite ?Ha, ?Hs. Qed.

Lemma reachable_turns d fs s : timeAxis d = [] -> timeAxisSize d = 0 -> rtc (step rand inet_ntoa) (initial d fs) s -> turns s.
Proof.
  intros Ha Hs H. pose proof (initial_turns d fs Ha Hs) as T. revert H T. generalize (initial d fs). intros s0 H. induction H as [|x y z Hxy _ IH]; [done|].
  intros T. by eapply IH, step_keeps_turns.
Qed.

(** Nothing changes any more, though the threads go on. *)
Definition waits_for_ever (s : schedule) : Prop := step rand inet_ntoa s s /\ forall s', step rand inet_ntoa s s' -> s' = s.

(** C13: the emulation never comes to its end, whatever the files, the random numbers and
    the interleaving of the threads: the loader sees the end of the trace only while the
    sender waits for packets, so once it has ended fewer than five times are pending and
    nothing but the sender's waiting can happen. *)
Theorem emulation_never_ends d fs s : timeAxis d = [] -> timeAxisSize d = 0 -> rtc (step rand inet_ntoa) (initial d fs) s ->
  sender s <> S_done /\
  (loadingThreadStatus s = false ->
     Z.of_nat (length (timeAxis (platform s))) < TIME_AXIS_SLOT /\ waits_for_ever s).
Proof.
  intros Ha Hs H. pose proof (reachable_turns _ _ _ Ha Hs H) as T. split; [exact (tu_done _ T)|]. intros Hst.
  pose proof (tu_status _ T Hst) as Hl. pose proof (tu_end _ T) as He. rewrite Hl in He. specialize (He eq_refl).
  pose proof (turns_poll _ T) as Hp. rewrite Hl in Hp. specialize (Hp eq_refl).
  assert (sender_at S_poll s = s) as Hself by (destruct s; cbn in *; by subst).
  split; [|split].
  - pose proof (tu_turn _ T) as Ht. rewrite Hp in Ht. specialize (Ht ltac:(done)). pose proof (tu_axis _ T). unfold DataNeeded, TIME_AXIS_SLOT in *. cbv zeta in He. lia.
  - right. pose proof (sender_asks s Hp) as Hstep. rewrite He, Hself in Hstep. done.
  - intros s' [Hstep|Hstep]; [inversion Hstep; subst; congruence|]. inversion Hstep; subst; try congruence. rewrite He. by rewrite Hself.
Qed.
End playing.

(** ** The packets of a time *)

Definition not_later (t t' : timestamp) : Prop := 0 <= Compare t t'.
Definition in_time (p p' : packet) : Prop := not_later (time_of p) (time_of p').
Definition between (a b : Z) (p : packet) : Prop := iAsSourceNumber p = a /\ iAsDestNumber p = b.
#[export] Instance between_dec a b p : Decision (between a b p).
Proof. unfold between. apply _. Defined.

Lemma Compare_eq t t' : (Compare t t' =? 0) = bool_decide (t = t').
Proof.
  apply eq_bool_prop_intro. rewrite bool_decide_spec, Is_true_true, Z.eqb_eq. destruct t as [a b], t' as [c d]. unfold Compare. cbn [fst snd].
  destruct (Z.ltb_spec c a), (Z.eqb_spec c a), (Z.ltb_spec d b), (Z.ltb_spec b d); split; intros E; try done; try congruence; try (f_equal; lia); injection E; lia.
Qed.

Lemma not_later_trans t1 t2 t3 : not_later t1 t2 -> not_later t2 t3 -> not_later t1 t3.
Proof.
  unfold not_later, Compare. destruct t1 as [a b], t2 as [c d], t3 as [e f]. cbn [fst snd].
  destruct (Z.ltb_spec c a), (Z.eqb_spec c a), (Z.ltb_spec d b), (Z.ltb_spec b d), (Z.ltb_spec e c), (Z.eqb_spec e c), (Z.ltb_spec f d), (Z.ltb_spec d f),
    (Z.ltb_spec e a), (Z.eqb_spec e a), (Z.ltb_spec f b), (Z.ltb_spec b f); lia.
Qed.

(** The due packets of a list in the order of time are a prefix. *)
Lemma take_due_ok ts q : StronglySorted in_time q -> Forall (fun p => not_later ts (time_of p)) q ->
  exists due rest, take_due ts q = (due, rest) /\ q = due ++ rest /\ Forall (fun p => time_of p <> ts) rest.
Proof.
  induction 1 as [|p q Hq IH Hp]; intros Hts; [by exists [], []|]. apply Forall_cons in Hts as [Ht Hts]. cbn [take_due]. rewrite Compare_eq.
  case_bool_decide as He. { destruct (IH Hts) as (due & rest & -> & -> & H). by exists (p :: due), rest. }
  pose proof (Compare_eq ts (time_of p)) as Hc. rewrite bool_decide_false in Hc by done. unfold not_later in Ht. rewrite (proj2 (Z.ltb_lt _ _)) by lia.
  exists [], (p :: q). split; [done|]. split; [done|]. apply Forall_cons. split; [congruence|]. eapply Forall_impl; [exact Hp|]. intros p' Hp' E. unfold in_time, not_later in Hp'.
  rewrite E in Hp'. revert He Ht Hp' Hc. clear. destruct ts as [a b], (time_of p) as [c d]. unfold Compare. cbn [fst snd].
  destruct (Z.ltb_spec c a), (Z.eqb_spec c a), (Z.ltb_spec d b), (Z.ltb_spec b d), (Z.ltb_spec a c), (Z.eqb_spec a c), (Z.ltb_spec d b), (Z.ltb_spec b d); lia.
Qed.

Lemma filter_between_shift a b lt (l : list packet) : filter (between a b) (SetPacketShiftTime lt <$> l) = SetPacketShiftTime lt <$> filter (between a b) l.
Proof. induction l as [|p l IH]; [done|]. cbn [fmap list_fmap]. rewrite !filter_cons. change (fmap (SetPacketShiftTime lt) l) with (SetPacketShiftTime lt <$> l). rewrite IH. by repeat case_decide. Qed.

Lemma filter_between_all a b (l : list packet) : Forall (between a b) l -> filter (between a b) l = l.
Proof. induction 1 as [|p l Hp _ IH]; [done|]. rewrite filter_cons, decide_True by done. by rewrite IH. Qed.

Lemma filter_between_none a b c d (l : list packet) : (a, b) <> (c, d) -> Forall (between c d) l -> filter (between a b) l = [].
Proof. intros Hn. induction 1 as [|p l [H1 H2] _ IH]; [done|]. rewrite filter_cons, decide_False; [done|]. intros [H3 H4]. congruence. Qed.

(** A list from which the due packets can be taken. *)
Definition ready (ts : timestamp) (a b : Z) (q : list packet) : Prop :=
  StronglySorted in_time q /\ Forall (fun p => not_later ts (time_of p)) q /\ Forall (between a b) q.

Lemma ready_app ts a b due rest : ready ts a b (due ++ rest) -> ready ts a b rest /\ Forall (between a b) due.
Proof. intros (H1 & [_ H2]%Forall_app & [H3 H4]%Forall_app). apply StronglySorted_app_1_r in H1. done. Qed.

Lemma update_couples_ok ts lt l : forall d out d', update_couples ts lt l d = Ret (out, d') ->
  (forall a b, (a, b) ∈ l -> ready ts a b (packets_between d a b)) ->
  forall a b, if decide ((a, b) ∈ l)
    then exists due, packets_between d a b = due ++ packets_between d' a b /\ Forall (fun p => time_of p <> ts) (packets_between d' a b) /\
      filter (between a b) out = SetPacketShiftTime lt <$> due
    else packets_between d' a b = packets_between d a b /\ filter (between a b) out = [].
Proof.
  induction l as [|[a b] l IH]; intros d out d' H Hr i j.
  { injection H as <- <-. rewrite decide_False; [done|]. apply not_elem_of_nil. }
  cbn [update_couples] in H. destruct (_ && _ && _ && _); [|done].
  pose proof (Hr a b ltac:(by left)) as Hab. destruct (take_due_ok ts (packets_between d a b)) as (due & rest & Et & Eq & Hrest); [apply Hab..|]. rewrite Et in H.
  rewrite Eq in Hab. apply ready_app in Hab as [Hready Hdue].
  apply obind_Ret_inv in H as ((more & d1) & E & H). injection H as <- <-. specialize (IH _ _ _ E).
  assert (forall a' b', packets_between (set_matrix (<[(a, b):=rest]> (matrix d)) d) a' b' = if decide ((a', b') = (a, b)) then rest else packets_between d a' b') as Hd.
  { intros a' b'. unfold packets_between, set_matrix. cbn [matrix set_queues]. case_decide as Hc; [injection Hc as -> ->; by rewrite lookup_insert_eq|].
    by rewrite lookup_insert_ne by congruence. }
  assert (forall a' b', (a', b') ∈ l -> ready ts a' b' (packets_between (set_matrix (<[(a, b):=rest]> (matrix d)) d) a' b')) as Hr'.
  { intros a' b' Hin. rewrite Hd. case_decide as Hc; [by injection Hc as -> ->|]. apply Hr. by right. }
  specialize (IH Hr' i j). rewrite Hd in IH. rewrite filter_app, filter_between_shift. destruct (decide ((i, j) = (a, b))) as [Hij|Hij].
  - injection Hij as -> ->. rewrite (decide_True (P := (a, b) ∈ (a, b) :: l)) by by left. rewrite filter_between_all by done. case_decide.
    + destruct IH as (due2 & E1 & E2 & E3). exists (due ++ due2). rewrite Eq, E3, fmap_app, <- app_assoc, <- E1. done.
    + destruct IH as (-> & ->). exists due. by rewrite app_nil_r.
  - rewrite (filter_between_none i j a b) by done. cbn [fmap list_fmap app]. destruct (decide ((i, j) ∈ l)) as [Hin|Hin].
    + rewrite decide_True by by right. exact IH.
    + rewrite decide_False; [exact IH|]. intros [Hc|Hc]%elem_of_cons; done.
Qed.

(** ** What has been sent *)

Section sending.
Context (rand : nat -> Z) (inet_ntoa : Z -> bytes).

(** The packet without its time, which sending overwrites. *)
Definition untimed (p : packet) : packet := set_time 0 0 p.

(** What a file holds. *)
Definition file_reads (f : Z * list captured) (os : list (option packet)) : Prop := Forall2 (reads inet_ntoa f.1) f.2 os.
Definition packets_of (oss : list (list (option packet))) : list packet := omap id (concat oss).

(** The packets [ps] have been loaded into [s] and the packets of [oss] are still in the
    files.  For each couple, those that were sent and then those that wait are those that
    were loaded. *)
Record played (d0 : dispatcher) (ps : list packet) (oss : list (list (option packet))) (s : schedule) : Prop := {
  pl_files : Forall2 file_reads (files s) oss;
  pl_eof : loader_at_end (loader s) = true -> exists lt fs, files s = (lt, []) :: fs;
  pl_couples : lAsCouples (platform s) = lAsCouples d0;
  pl_mask : ipMask (platform s) = ipMask d0;
  pl_ok : dispatcher_ok (length (packets_of oss)) (platform s);
  pl_owned : Forall (fun p => is_Some (owner (platform s) (prefix (ipMask d0) (szIpSource p))) /\ is_Some (owner (platform s) (prefix (ipMask d0) (szIpDest p)))) ps;
  pl_fifo : forall a b, (a, b) ∈ lAsCouples d0 ->
    untimed <$> (filter (between a b) (sent s) ++ packets_between (platform s) a b) =
    untimed <$> (set_as_numbers a b <$> filter (fun p => goes (owner (platform s)) (lAsCouples d0) (ipMask d0) p = Some (a, b)) ps);
  pl_numbers : forall a b, (a, b) ∈ lAsCouples d0 -> Forall (between a b) (packets_between (platform s) a b);
  pl_queues : forall a b, (a, b) ∈ lAsCouples d0 -> StronglySorted in_time (packets_between (platform s) a b);
  pl_axis : StronglySorted not_later (timeAxis (platform s));
  pl_pending : forall a b p, (a, b) ∈ lAsCouples d0 -> p ∈ packets_between (platform s) a b -> time_of p ∈ timeAxis (platform s);
  pl_later : forall t p, t ∈ timeAxis (platform s) -> p ∈ packets_of oss -> not_later t (time_of p);
  pl_sorted : StronglySorted in_time (packets_of oss);
  pl_addresses : Forall (fun p => is_address (szIpSource p) /\ is_address (szIpDest p)) (packets_of oss)
}.

(** Steps that change neither the platform nor what was sent. *)
Lemma played_same d0 ps oss s s' : played d0 ps oss s -> platform s' = platform s -> sent s' = sent s -> files s' = files s ->
  (loader_at_end (loader s') = true -> exists lt fs, files s' = (lt, []) :: fs) -> played d0 ps oss s'.
Proof. intros [] Hp Hs Hf He. split; rewrite ?Hp, ?Hs, ?Hf in *; done. Qed.

Lemma sorted_filter {A} (R : A -> A -> Prop) (P : A -> Prop) `{!forall x, Decision (P x)} (l : list A) : StronglySorted R l -> StronglySorted R (filter P l).
Proof.
  induction 1 as [|x l Hl IH Hx]; [constructor|]. rewrite filter_cons. case_decide; [|done]. constructor; [done|].
  rewrite Forall_forall in *. intros y [_ Hy]%list_elem_of_filter. by apply Hx.
Qed.

Lemma sorted_times (l : list packet) : StronglySorted in_time l -> StronglySorted not_later (time_of <$> l).
Proof. by apply StronglySorted_fmap. Qed.

(** Frames of the current file are loaded. *)
Lemma load_played d0 ps os1 os2 oss lt later fs s d now : played d0 ps ((os1 ++ os2) :: oss) s -> files s = (lt, now ++ later) :: fs ->
  Forall2 (reads inet_ntoa lt) now os1 -> Forall2 (reads inet_ntoa lt) later os2 -> loader s = L_load ->
  pcap_dispatch rand inet_ntoa lt (platform s) now = Ret d ->
  played d0 (ps ++ omap id os1) (os2 :: oss) (loader_moves L_load (sendingSem s) (loadingThreadStatus s) (loading s) ((lt, later) :: fs) d s).
Proof.
  intros [P1 P2 P3 P4 P5 P6 P7 P8 P9 P10 P11 P12 P13 P14] Hf H1 H2 Hl E.
  assert (packets_of ((os1 ++ os2) :: oss) = omap id os1 ++ packets_of (os2 :: oss)) as Epk.
  { unfold packets_of. cbn [concat]. by rewrite <- app_assoc, omap_app. }
  rewrite Epk in *. rewrite length_app in P5. apply Forall_app in P14 as [P14 P14'].
  destruct (dispatch_packets rand (omap id os1) _ _ P5 P14) as (d' & E' & D & A & C & [Q1 Q2 Q3]).
  rewrite (pcap_dispatch_packets _ _ _ _ os1) in E by done. rewrite E in E'. injection E' as <-.
  pose proof C as (C1 & _ & _ & C4 & _). rewrite P3, P4 in *. apply StronglySorted_app in P13 as (Hcross & Hs1 & Hs2).
  assert (forall p, p ∈ ps -> goes (owner d) (lAsCouples d0) (ipMask d0) p = goes (owner (platform s)) (lAsCouples d0) (ipMask d0) p) as Hg.
  { intros p Hp. rewrite Forall_forall in P6. destruct (P6 p Hp). by apply (goes_kept rand). }
  split; cbn [files loader loader_moves platform sent loader_at_end]; try done.
  - rewrite Hf in P1. apply Forall2_cons in P1 as [_ P1]. by constructor.
  - apply Forall_app. split; [|done]. eapply Forall_impl; [exact P6|]. intros p [[x Hx] [y Hy]]. unfold owner in *.
    by rewrite (as_kept _ _ _ A _ _ Hx), (as_kept _ _ _ A _ _ Hy).
  - intros a b Hab. rewrite Q2, app_assoc, fmap_app, P7 by done. rewrite filter_app, !fmap_app. do 3 f_equal. apply filter_ext_elem. intros p Hp. by rewrite Hg.
  - intros a b Hab. rewrite Q2. apply Forall_app. split; [by apply P8|]. apply Forall_fmap, Forall_true. done.
  - intros a b Hab. rewrite Q2. apply StronglySorted_app_2; [|by apply P9|].
    + intros p1 p2 Hp1 (p & -> & [_ Hp]%list_elem_of_filter)%list_elem_of_fmap. unfold in_time. apply (P12 (time_of p1) p); [by eapply P11|]. apply elem_of_app. by left.
    + apply (StronglySorted_fmap _ in_time); [done|]. by apply sorted_filter.
  - rewrite Q3. apply StronglySorted_app_2; [|done|by apply sorted_times, sorted_filter].
    intros t1 t2 Ht1 (p & -> & [_ Hp]%list_elem_of_filter)%list_elem_of_fmap. apply P12; [done|]. apply elem_of_app. by left.
  - intros a b p Hab. rewrite Q2, Q3, !elem_of_app. intros [Hp|(p' & -> & [Hg' Hp']%list_elem_of_filter)%list_elem_of_fmap]; [left; by eapply P11|right].
    apply list_elem_of_fmap. exists p'. split; [done|]. apply list_elem_of_filter. split; [by rewrite Hg'|done].
  - intros t p. rewrite Q3, elem_of_app. intros [Ht|(p' & -> & [_ Hp']%list_elem_of_filter)%list_elem_of_fmap] Hp; [apply P12; [done|]; apply elem_of_app; by right|].
    by apply Hcross.
Qed.

(** The packets of a time are sent. *)
Lemma send_played d0 ps oss s s' : played d0 ps oss s -> send_time s = Ret s' -> played d0 ps oss s'.
Proof.
  intros [P1 P2 P3 P4 P5 P6 P7 P8 P9 P10 P11 P12 P13 P14] E. destruct (send_time_inv _ _ E) as (ts & axis & l & d & n & Ea & Eu & ->).
  rewrite P3 in Eu.
  assert (forall a b, (a, b) ∈ lAsCouples d0 -> ready ts a b (packets_between (platform s) a b)) as Hr.
  { intros a b Hab. split; [by apply P9|]. split; [|by apply P8]. apply Forall_forall. intros p Hp. pose proof (P11 a b p Hab Hp) as Ht. rewrite Ea in Ht, P10.
    apply elem_of_cons in Ht as [->|Ht]; [unfold not_later; pose proof (Compare_eq ts ts) as Hc; rewrite bool_decide_true in Hc by done; lia|].
    inversion P10 as [|? ? _ Hf]; subst. rewrite Forall_forall in Hf. by apply Hf. }
  pose proof (update_couples_ok _ _ _ _ _ _ Eu Hr) as Hu.
  assert (forall a b, (a, b) ∈ lAsCouples d0 -> exists due, packets_between (platform s) a b = due ++ packets_between d a b /\
    Forall (fun p => time_of p <> ts) (packets_between d a b) /\ filter (between a b) l = SetPacketShiftTime (loadingTime s) <$> due) as Hdue.
  { intros a b Hab. specialize (Hu a b). by rewrite decide_True in Hu. }
  assert (forall n axis size mx d a b, packets_between (set_queues n (maxTs d) axis size mx d) a b = default [] (mx !! (a, b))) as Hpb by done.
  assert (forall p, p ∈ timeAxis (platform s) <-> p = ts \/ p ∈ axis) as Hax by (intros p; by rewrite Ea, elem_of_cons).
  assert (owner d = owner (platform s) /\ lAsCouples d = lAsCouples (platform s) /\ ipMask d = ipMask (platform s) /\
    forall k, dispatcher_ok k (platform s) -> dispatcher_ok k (set_queues n (maxTs d) axis (timeAxisSize d) (matrix d) d)) as (F1 & F2 & F3 & F4).
  { destruct (update_couples_frame _ _ _ _ _ _ Eu) as [mx ->]. split_and!; try done. intros k []. by split. }
  split; cbn [files loader platform sent loader_at_end]; try done.
  - cbn. by rewrite F2.
  - cbn. by rewrite F3.
  - by apply F4.
  - change (owner (set_queues n (maxTs d) axis (timeAxisSize d) (matrix d) d)) with (owner d). by rewrite F1.
  - intros a b Hab. change (owner (set_queues n (maxTs d) axis (timeAxisSize d) (matrix d) d)) with (owner d). rewrite F1, <- P7 by done.
    destruct (Hdue a b Hab) as (due & E1 & _ & E3). rewrite E1, filter_app, E3, <- app_assoc, !fmap_app. do 2 f_equal.
    rewrite <- list_fmap_compose. by apply list_fmap_ext.
  - intros a b Hab. destruct (Hdue a b Hab) as (due & E1 & _). specialize (P8 a b Hab). rewrite E1 in P8. by apply Forall_app in P8 as [_ P8].
  - intros a b Hab. destruct (Hdue a b Hab) as (due & E1 & _). specialize (P9 a b Hab). rewrite E1 in P9. by apply StronglySorted_app_1_r in P9.
  - rewrite Ea in P10. by inversion P10.
  - intros a b p Hab Hp. destruct (Hdue a b Hab) as (due & E1 & E2 & _). change (p ∈ packets_between d a b) in Hp.
    assert (time_of p ∈ timeAxis (platform s)) as Ht. { apply (P11 a b); [done|]. rewrite E1. apply elem_of_app. by right. }
    apply Hax in Ht as [Ht|Ht]; [|done]. rewrite Forall_forall in E2. by specialize (E2 p Hp).
  - intros t p Ht. apply P12. apply Hax. by right.
Qed.

Lemma step_played d0 ps oss s s' : played d0 ps oss s -> step rand inet_ntoa s s' ->
  exists ps' oss', ps' ++ packets_of oss' = ps ++ packets_of oss /\ played d0 ps' oss' s'.
Proof.
  intros P [H|H].
  - destruct H as [s Hl|s Hl Hs|s lt now later fs d Hl Hn Hf Hnow Hlen E|s lt fs Hl Hn Hf|s Hl Hn|s Hl Hn|s eof Hl|s f g fs Hl Hf|s f Hl Hf].
    1-2: exists ps, oss; split; [done|]; apply (played_same _ _ _ s); try done; by destruct (DataNeeded s).
    + pose proof (pl_files _ _ _ _ P) as Hr. rewrite Hf in Hr. apply Forall2_cons_inv_l in Hr as (os & oss' & Hos & _ & ->). unfold file_reads in Hos. cbn [fst snd] in Hos.
      apply Forall2_app_inv_l in Hos as (os1 & os2 & H1 & H2 & ->). exists (ps ++ omap id os1), (os2 :: oss'). split; [|by eapply load_played].
      unfold packets_of. cbn [concat]. by rewrite <- !app_assoc, !omap_app.
    + exists ps, oss. split; [done|]. apply (played_same _ _ _ s); try done. intros _. by exists lt, fs.
    + exists ps, oss. split; [done|]. by apply (played_same _ _ _ s).
    + exists ps, oss. split; [done|]. by apply (played_same _ _ _ s).
    + exists ps, oss. split; [done|]. apply (played_same _ _ _ s); try done. destruct eof; [|done]. intros _. apply (pl_eof _ _ _ _ P). by rewrite Hl.
    + destruct (pl_eof _ _ _ _ P) as (lt & fs' & Hf'); [by rewrite Hl|]. rewrite Hf in Hf'. injection Hf' as -> <-.
      pose proof (pl_files _ _ _ _ P) as Hr. rewrite Hf in Hr. apply Forall2_cons_inv_l in Hr as (os & oss' & Hos & Hr & ->).
      apply Forall2_nil_inv_l in Hos as ->. exists ps, oss'. split; [done|]. destruct P. by split.
    + exists ps, oss. split; [done|]. destruct (pl_eof _ _ _ _ P) as (lt & fs' & Hf'); [by rewrite Hl|]. apply (played_same _ _ _ s); try done. intros _. exists lt, []. cbn. congruence.
  - exists ps, oss. split; [done|]. destruct H as [s Hs|s Hs Hf|s lt Hs Hw|s Hs Hw|s s' Hs Hw E|s Hs Hw]; [..|by eapply send_played|];
      (apply (played_same _ _ _ s); try done; exact (pl_eof _ _ _ _ P)).
Qed.

(** C12: with a trace in the order of time, whatever the interleaving, for each couple of
    systems the packets that were sent followed by those that wait are the packets of the
    trace loaded so far whose prefixes belong to the two systems, each once and in the
    order of the trace; when the loader has ended the whole trace has been loaded and what
    waits has at most four different times. *)
Theorem trace_sent_in_order d fs oss s :
  dispatcher_ok (length (packets_of oss)) d -> timeAxis d = [] -> timeAxisSize d = 0 -> matrix d = ∅ ->
  Forall2 file_reads fs oss -> Forall (fun p => is_address (szIpSource p) /\ is_address (szIpDest p)) (packets_of oss) ->
  StronglySorted in_time (packets_of oss) -> rtc (step rand inet_ntoa) (initial d fs) s ->
  exists ps later, packets_of oss = ps ++ later /\
    (loadingThreadStatus s = false -> later = [] /\ Z.of_nat (length (timeAxis (platform s))) < TIME_AXIS_SLOT) /\
    forall a b, (a, b) ∈ lAsCouples d ->
      untimed <$> (filter (between a b) (sent s) ++ packets_between (platform s) a b) =
        untimed <$> (set_as_numbers a b <$> filter (fun p => goes (owner (platform s)) (lAsCouples d) (ipMask d) p = Some (a, b)) ps) /\
      forall p, p ∈ packets_between (platform s) a b -> time_of p ∈ timeAxis (platform s).
Proof.
  intros Hok Ha Hz Hm Hf Had Hs H. pose proof (reachable_turns _ _ _ _ _ Ha Hz H) as T.
  assert (exists ps oss', ps ++ packets_of oss' = packets_of oss /\ played d ps oss' s) as (ps & oss' & E & P).
  { assert (exists ps oss', ps ++ packets_of oss' = packets_of oss /\ played d ps oss' (initial d fs)) as H0.
    { exists [], oss. split; [done|]. assert (forall a b, packets_between d a b = []) as Hpb by (intros a b; unfold packets_between; by rewrite Hm, lookup_empty).
      split; cbn; rewrite ?Ha; try done; try (intros a b Hab; rewrite Hpb); try done; try apply SSorted_nil; try by apply Forall_nil.
      - intros p Hp. by apply elem_of_nil in Hp.
      - intros t p Ht. by apply elem_of_nil in Ht. }
    revert H H0. generalize (initial d fs). intros s0 H. induction H as [|x y z Hxy _ IH]; [done|]. intros (ps & oss' & E & P). apply IH; [done|].
    destruct (step_played _ _ _ _ _ P Hxy) as (ps' & oss2 & E' & P'). exists ps', oss2. split; [by rewrite E'|done]. }
  exists ps, (packets_of oss'). split; [done|]. split.
  - intros Hst. pose proof (tu_status _ T Hst) as Hl. destruct (tu_files _ T Hl) as [f Hff]. destruct (pl_eof _ _ _ _ P) as (lt & fs' & Hf'); [by rewrite Hl|].
    rewrite Hff in Hf'. injection Hf' as -> <-. pose proof (pl_files _ _ _ _ P) as Hr. rewrite Hff in Hr.
    apply Forall2_cons_inv_l in Hr as (os & oss2 & Hos & Hr & ->). apply Forall2_nil_inv_l in Hos as ->. apply Forall2_nil_inv_l in Hr as ->. split; [done|].
    pose proof (tu_end _ T) as He. rewrite Hl in He. specialize (He eq_refl). pose proof (turns_poll _ T) as Hp. rewrite Hl in Hp. specialize (Hp eq_refl).
    pose proof (tu_turn _ T) as Ht. rewrite Hp in Ht. specialize (Ht ltac:(done)). pose proof (tu_axis _ T). unfold DataNeeded, TIME_AXIS_SLOT in *. cbv zeta in He. lia.
  - intros a b Hab. split; [by apply (pl_fifo _ _ _ _ P)|]. intros p. by apply (pl_pending _ _ _ _ P).
Qed.

(** ** A run *)

(** The threads in turn: the loader when it can do something, else the sender. *)
Definition sender_next (s : schedule) : option schedule :=
  match sender s with
  | S_poll => if DataNeeded s then None else Some (sender_at S_wait s)
  | S_wait => if sendingSem s then Some (sender_moves S_enter false (loading s) (loadingTime s) (lastTimeAxisSize s) (iteration s) s) else None
  | S_enter => if turn_wanted s then Some (sender_moves S_send (sendingSem s) false (if loading s then (0, 7) else loadingTime s) (lastTimeAxisSize s) (iteration s) s) else None
  | S_send => if uaxe s <? timeAxisSize (platform s) then match send_time s with Ret s' => Some s' | _ => None end
      else Some (sender_moves (if stopSending s then S_done else S_poll) true (loading s) (0, 0) (swrap32 (uaxe s)) 1 s)
  | S_done => None
  end.
Definition loader_next (s : schedule) : option schedule :=
  match loader s with
  | L_poll => if DataNeeded s then Some (loader_at L_wait s) else None
  | L_wait => if sendingSem s then Some (loader_moves L_load false (loadingThreadStatus s) true (files s) (platform s) s) else None
  | L_load => if DataNeeded s then
      match files s with
      | (lt, f :: frames) :: fs => match pcap_dispatch rand inet_ntoa lt (platform s) [f] with
          | Ret d => Some (loader_moves L_load (sendingSem s) (loadingThreadStatus s) (loading s) ((lt, frames) :: fs) d s)
          | _ => None end
      | (lt, []) :: fs => Some (loader_at (L_release true) s)
      | [] => None
      end else Some (loader_at (L_release false) s)
  | L_release eof => Some (loader_moves (if eof then L_next else L_poll) true (loadingThreadStatus s) (loading s) (files s) (platform s) s)
  | L_next => match files s with
      | f :: g :: fs => Some (loader_moves L_poll (sendingSem s) (loadingThreadStatus s) (loading s) (g :: fs) (platform s) s)
      | [f] => Some (loader_moves L_ended (sendingSem s) false (loading s) [f] (platform s) s)
      | [] => None
      end
  | _ => None
  end.
Fixpoint run (n : nat) (s : schedule) : schedule :=
  match n with
  | O => s
  | S n => match loader_next s with Some s' => run n s' | None => match sender_next s with Some s' => run n s' | None => s end end
  end.

Lemma loader_next_step s s' : loader_next s = Some s' -> loader_step rand inet_ntoa s s'.
Proof.
  unfold loader_next. destruct (loader s) eqn:Hl; try done.
  - destruct (DataNeeded s) eqn:Hn; [|done]. intros [= <-]. pose proof (loader_asks rand inet_ntoa s Hl) as H. by rewrite Hn in H.
  - destruct (sendingSem s) eqn:Hs; [|done]. intros [= <-]. by apply loader_enters.
  - destruct (DataNeeded s) eqn:Hn; [|intros [= <-]; by apply loader_has_enough]. destruct (files s) as [|[lt [|f frames]] fs] eqn:Hf; [done| |].
    + intros [= <-]. by eapply loader_at_eof.
    + destruct (pcap_dispatch _ _ _ _ _) as [d| | |] eqn:E; try done. intros [= <-]. by eapply (loader_loads _ _ s lt [f]).
  - intros [= <-]. by apply loader_releases.
  - destruct (files s) as [|f [|g fs]] eqn:Hf; [done|..]; intros [= <-]; [by eapply loader_last_file|by eapply loader_next_file].
Qed.

Lemma sender_next_step s s' : sender_next s = Some s' -> sender_step s s'.
Proof.
  unfold sender_next. destruct (sender s) eqn:Hl; try done.
  - destruct (DataNeeded s) eqn:Hn; [done|]. intros [= <-]. pose proof (sender_asks s Hl) as H. by rewrite Hn in H.
  - destruct (sendingSem s) eqn:Hs; [|done]. intros [= <-]. by apply sender_waits.
  - destruct (turn_wanted s) eqn:Hw; [|done]. intros [= <-]. by apply sender_enters.
  - destruct (uaxe s <? timeAxisSize (platform s)) eqn:Hw; [|intros [= <-]; by apply sender_releases].
    destruct (send_time s) as [s1| | |] eqn:E; try done. intros [= <-]. by apply sender_sends.
Qed.

Lemma run_steps n : forall s, rtc (step rand inet_ntoa) s (run n s).
Proof.
  induction n as [|n IH]; intros s; [done|]. cbn [run]. destruct (loader_next s) as [s'|] eqn:E; [eapply rtc_l; [left; by apply loader_next_step|apply IH]|].
  destruct (sender_next s) as [s'|] eqn:E'; [|done]. eapply rtc_l; [right; by apply sender_next_step|apply IH].
Qed.
End sending.

(** ** Witnesses *)

(** [n] packets of the couple (0, 1), one each second from [m] on. *)
Definition sample_file (m n : nat) : Z * list captured :=
  (1, (fun k => (replicate 12 0 ++ [8; 0] ++ tcp_frame, 54, (Z.of_nat k, 0), Mk_packet 0 0 [] 0 [] [] [] [] [] 0 0 0 false false false 0 false 0)) <$> seq m n).

(** A trace of two files and fourteen packets, and its emulation. *)
Definition sample_rand (k : nat) : Z := 30 + 40 * Z.of_nat k.
Definition sample_inet_ntoa (a : Z) : bytes := dotted (le_bytes 4 a).
Definition sample_files : list (Z * list captured) := [sample_file 0 6; sample_file 6 8].
Definition sample_trace : list (list (option packet)) :=
  (fun f : Z * list captured => (fun c : captured => match c with (pkt, caplen, tv, junk) =>
     match read_frame sample_inet_ntoa f.1 pkt caplen tv junk with Ret o => o | _ => None end end) <$> f.2) <$> sample_files.
Definition sample_run : schedule := run sample_rand sample_inet_ntoa 100 (initial two_systems sample_files).

(** Ten packets are sent, the last four wait for ever. *)
Lemma emulation_never_ends_witness : exists s, rtc (step sample_rand sample_inet_ntoa) (initial two_systems sample_files) s /\
  loadingThreadStatus s = false /\ length (sent s) = 10%nat /\ length (timeAxis (platform s)) = 4%nat /\
  waits_for_ever sample_rand sample_inet_ntoa s.
Proof.
  exists sample_run. assert (rtc (step sample_rand sample_inet_ntoa) (initial two_systems sample_files) sample_run) as H by apply run_steps.
  assert (loadingThreadStatus sample_run = false) as Hst by (vm_compute; reflexivity).
  split; [exact H|]. split; [exact Hst|]. split; [vm_compute; reflexivity|]. split; [vm_compute; reflexivity|].
  destruct (emulation_never_ends sample_rand sample_inet_ntoa two_systems sample_files sample_run) as [_ E]; [reflexivity|reflexivity|exact H|].
  exact (proj2 (E Hst)).
Defined.

Lemma trace_sent_in_order_witness : loadingThreadStatus sample_run = false /\ length (packets_of sample_trace) = 14%nat /\
  exists ps later, packets_of sample_trace = ps ++ later /\ later = [] /\
    untimed <$> (filter (between 0 1) (sent sample_run) ++ packets_between (platform sample_run) 0 1) =
      untimed <$> (set_as_numbers 0 1 <$> filter (fun p => goes (owner (platform sample_run)) [(0, 1)] 3 p = Some (0, 1)) ps).
Proof.
  assert (rtc (step sample_rand sample_inet_ntoa) (initial two_systems sample_files) sample_run) as H by apply run_steps.
  assert (loadingThreadStatus sample_run = false) as Hst by (vm_compute; reflexivity).
  split; [exact Hst|]. split; [vm_compute; reflexivity|].
  destruct (trace_sent_in_order sample_rand sample_inet_ntoa two_systems sample_files sample_trace sample_run) as (ps & later & E & H1 & H2).
  - assert (length (packets_of sample_trace) = 14%nat) as -> by (vm_compute; reflexivity). split; [reflexivity|cbn; lia|discriminate|discriminate| |cbn; lia]. split.
    + apply (bool_decide_unpack _). vm_compute. exact I.
    + intros v Hv. destruct (decide (v <= 49)); [apply Exists_cons_hd; cbn; lia|apply Exists_cons_tl, Exists_cons_hd; cbn; lia].
    + intros x. vm_compute. lia.
  - reflexivity.
  - reflexivity.
  - reflexivity.
  - unfold sample_trace, sample_files. do 2 (apply Forall2_cons; split; [cbn [sample_file fst snd fmap list_fmap seq]; repeat (apply Forall2_cons; split; [vm_compute; reflexivity|]); by apply Forall2_nil|]). by apply Forall2_nil.
  - let l := eval vm_compute in (packets_of sample_trace) in change (packets_of sample_trace) with l.
    repeat (apply Forall_cons; split; [split; [exists [10; 0; 0; 1]|exists [10; 0; 1; 1]]; (split; [split; [reflexivity|apply (bool_decide_unpack _); vm_compute; exact I]|vm_compute; reflexivity])|]).
    by apply Forall_nil.
  - let l := eval vm_compute in (packets_of sample_trace) in change (packets_of sample_trace) with l.
    repeat (apply SSorted_cons; [|repeat (apply Forall_cons; split; [vm_compute; discriminate|]); by apply Forall_nil]). apply SSorted_nil.
  - exact H.
  - exists ps, later. split; [exact E|]. split; [exact (proj1 (H1 Hst))|]. apply (H2 0 1). by left.
Defined.
